(* ===== verification/_CoqProject ===== *)
-Q . S2P
Prelude.v
Runtime.v
PyStrings.v
DeviceAffinity.v
DeviceAffinityProps.v
RankConsistency.v
MindieHash.v
Sim.v
RankProps.v
PyHash.v
Mindie.v
MindieProps.v
Hashing.v
KVLayout.v
KVLayoutProps.v
StoreConf.v
StoreWrappers.v
StoreWrappersProps.v
Mooncake.v
MooncakeProps.v
Sglang.v
SglangProps.v
MetricsConfig.v
MetricsDefault.v
Metrics.v
MetricsExport.v
MetricsProps.v
HlaLayout.v
HlaLayoutProps.v
HlaGroups.v
Direct.v
DirectWorker.v
Hla.v
HlaLayerWise.v
HlaGroupProps.v
DispatchProps.v
SchedProps.v
PlanProps.v
HlaPlanProps.v
HlaProps.v
WorkerProps.v
HlaWorkerProps.v
HlaLoadProps.v
LayerWise.v
LayerWiseProps.v
Variants.v
FawaLayout.v
FawaLayoutProps.v
Fawa.v
FawaPlanProps.v
FawaProps.v
Blend.v
BlendProps.v
BlendSparse.v
BlendSparseProps.v
Esa.v
EsaBatch.v
EsaProps.v
KVStar.v
KVStarBatch.v
KVStarProps.v
Gsa.v
GsaPrefetch.v
GsaBatch.v
GsaProps.v
VllmSched.v
VllmSchedule.v
VllmRecovery.v
VllmBlocks.v
PatchHooks.v
VllmHybrid.v
VllmHybridProps.v
VllmConcrete.v
VllmProps.v
VllmScheduleProps.v
Facade.v
