(* ===== verification/Prelude.v ===== *)
(** * A verification development for UCM, the unified cache manager

    UCM keeps the KV cache of a large language model beyond the memory of the
    accelerator: it identifies the blocks of a prompt by hashes, asks an external
    store which of them it holds, has vLLM load the hits instead of computing
    them, and dumps the blocks computed.  This library models the Python
    connectors between the inference engines and the stores, under
    [src/ucm/integration/], the patched scheduler of vLLM, the Python side of the
    stores and of the metrics, and the sparse-attention algorithms under
    [src/ucm/sparse/], and proves what makes them correct.

    ** Parts and files

    - [Prelude], this file: the exceptions and the state-and-exception monad
      [M] in which every stateful method is written, Python's lists,
      dictionaries, ranges and slices, Hoare-style rules ([triple], [preserves])
      and the tactics [mstep], [mrun], [munfold].
    - [Runtime]: what the connectors run against, as classes over an abstract
      world [W]: [StoreOps] (ucm/store/ucmstore_v1.py) with the contract
      [StoreLaws], [DeviceOps] (device.py) and the samples sent to the metrics.
      [Sim] is a concrete in-memory world, used by the witnesses.
    - [RankConsistency], [RankProps] (rank_consistency.py): the tracker of blocks
      missing on some rank and the manager around every store call, which keeps a
      context per outstanding task.  Every connector below goes through it.
    - [PyHash], [Hashing]: [pickle.dumps] and MD5 as the class [PyHash] with a
      concrete instance, [RequestHasher] and the chain of block identifiers.
    - [KVLayout], [KVLayoutProps]: base addresses, strides and copy sizes of the
      registered tensors, block addresses in 64-bit arithmetic.
    - [StoreConf] (utils.py, factory_v1.py, pipeline/connector.py): from the
      launch configuration to a stack of native store layers.
    - [Direct], [DirectWorker] with [SchedProps], [PlanProps] (plans after histories of
      calls), [DispatchProps], [WorkerProps]: the direct connector of
      ucm_connector.py.  [LayerWise], [LayerWiseProps]:
      transfers overlapped with the forward pass.  [Variants]: context-parallel,
      mock, lite and PD connectors.
    - [FawaLayout], [Fawa] with [FawaLayoutProps], [FawaPlanProps], [FawaProps]
      (hma_connector.py): full-attention and window groups in two stores.
    - [HlaLayout], [HlaGroups], [Hla], [HlaLayerWise] with [HlaLayoutProps],
      [HlaGroupProps], [HlaPlanProps], [HlaProps], [HlaWorkerProps],
      [HlaLoadProps] (hla_connector.py): full attention next to linear-attention
      states in shared tensors, direct and row by row.
    - [Blend], [BlendProps] (blend_connector.py): prompts made of retrieved chunks,
      whose blocks are reused wherever the chunk appears.  [BlendSparse],
      [BlendSparseProps] (ucm/sparse/blend/blend.py): which tokens of a blended
      batch are recomputed, on one-dimensional tensors as lists.
    - [DeviceAffinity], [DeviceAffinityProps] (device.py): the CPU cores of a
      worker and of its store, from the answers of the host.  [PyStrings]: the
      string operations this and the layouts need.
    - [StoreWrappers], [StoreWrappersProps] (ucm/store): the Python stores over
      their native interfaces, pipeline, PC and NFS, with the flattening of
      identifiers and addresses.  [Mooncake], [MooncakeProps] (mooncake_connector.py):
      transfers as coroutines of an event loop, futures and shutdown.
    - [MetricsConfig], [MetricsDefault], [Metrics], [MetricsExport], [MetricsProps]
      (ucm/shared/metrics and the exporters): definitions, the registry of counters,
      gauges and histograms with its double buffers, aggregation, Prometheus.
    - [MindieHash], [Mindie], [MindieProps] (the MindIE plugin): block hashes in
      Python and in C++, puts and gets of the memory pool.  [Sglang],
      [SglangProps]: the HiCache backend of SGLang.
    - Sparse attention (ucm/sparse).  [Esa], [EsaBatch], [EsaProps]: block-sparse
      attention with retrieved blocks loaded into a window of slots.  [KVStar],
      [KVStarBatch], [KVStarProps]: retrieval in several steps, from groups of
      queries.  [Gsa], [GsaPrefetch], [GsaBatch], [GsaProps]: global sparse
      attention, the choice and the moves of blocks at the end of a prompt and the
      tables of the prefetch engine.
    - The scheduler of vLLM as the patches replace it (patch/v0110): [VllmSched]
      (state), [VllmSchedule] (a scheduling step), [VllmRecovery] (failed loads and
      the output of a step), [VllmConcrete] (partners to try them on), [VllmProps],
      [VllmScheduleProps].  [VllmBlocks] (patch/common): free blocks counted with
      external tokens.  [VllmHybrid], [VllmHybridProps] (patch/v0221 and v0202): the
      prefix hit shared by hybrid cache groups.  [PatchHooks] (patch/utils.py): hooks
      run at import.
    - [Facade] ([UCMConnector]): the choice of a connector and the delegation of
      every call, over the class [ConnectorOps] and its matching contract
      [MatchLaws], which the direct and the FAWA connector discharge.

    ** How state and operations correspond to the code

    A connector object is a record of the attributes its methods change; what
    [__init__] fixes is a configuration record ([conf], [fawa_conf],
    [hlw_conf]).  A method is a definition of the same name; a method that can
    mutate or raise has type [M (object * W) result], the world carrying the
    store and the accelerator.  State changed before an exception stays changed,
    as in Python.  A subclass holds its base object ([hbase], [hw_base], ...) and
    runs inherited methods on it through [lift].  A loop body that the proofs
    speak about is a definition of its own.  Dictionaries are association lists
    in insertion order, sets are [gset]s traversed in an order given by the class
    [SetOrder]; hashes and block identifiers are byte lists.  Clock readings are
    arguments; samples with a time record only that there is one ([MTime]).

    ** What the theorems show

    - Scheduler side: matching never promises more than the store and the
      tracker allow, leaves the tokens to recompute, tracks exactly what it
      promises; plans load exactly the external hits and dump each block once,
      however the prompt is chunked; a failed load is undone ([SchedProps],
      [PlanProps], [DispatchProps], [FawaPlanProps], [FawaProps], [HlaGroupProps],
      [HlaProps]).  What one hybrid request dumped another one with the same
      prefix finds ([HlaProps.hla_dumped_prefix_hits]).
    - Worker side: invariants over every sequence of calls tie outstanding store
      tasks and live device events to the tasks the object still holds; from them,
      finished requests and ended steps are settled whatever the store answers,
      and every load is awaited before the layer that reads it ([WorkerProps],
      [LayerWiseProps], [FawaProps], [HlaWorkerProps], [HlaLoadProps]).
    - Consistency over ranks: marked blocks are never hits, failed dumps are never
      reported, fresh marks survive stale reports ([RankProps]).
    - Data: block identifiers bind token prefixes up to an MD5 collision and
      extend incrementally ([Hashing]); addresses are exact, inside their buffers
      and disjoint ([KVLayoutProps], [FawaLayoutProps], [HlaLayoutProps]).
    - Ranks under tensor and context parallelism partition the transfers
      ([Variants], [FawaPlanProps]), and ranks of a host its cores
      ([DeviceAffinityProps]).
    - Blended prompts: chunks tile the prompt, the plan loads exactly the stored
      blocks (for a connector that has [monitor], which no class sets), and the mask
      of recomputed tokens agrees with the query lengths when every new request was
      planned with chunks ([BlendProps], [BlendSparseProps]).
    - Stores: the wrappers submit exactly the shards, and look up the prefixes, their
      callers mean; the [check] of the PC store is not the interface's boolean but a
      pair that always counts as true ([StoreWrappersProps]); what Mooncake dumped it
      loads, and waiting for a task ends whatever the other threads do
      ([MooncakeProps]); samples reach each consumer once ([MetricsProps]); what a
      MindIE get asks for was handed to the store by an earlier put of the rank, or
      of a rank that shares its caches ([MindieProps]).
    - Sparse attention: slots name the blocks of the identifiers loaded into them
      and no attention runs on a load under way ([EsaProps], [KVStarProps]); slots
      of requests stay apart, moves keep the chosen blocks, and scheduler and worker
      agree on the blocks kept when prefetching is on ([GsaProps]).
    - The patched scheduler: failed loads are recomputed by some request and give no
      output, over several reports too ([VllmProps]); a scheduling step ends and
      keeps its books ([VllmScheduleProps]); the hit of hybrid groups is one of each
      of them ([VllmHybridProps]).

    ** Bounds and fuel

    Loops run over finite collections, so almost everything is structural and
    total; [Fixpoint]s over a counter ([last_non_null]) start at a length.  The
    loops of [schedule] take the lengths of their queues as fuel, and
    [vllm_schedule_step_sound] shows that it never runs out: each round moves on in
    the running requests or takes one off the waiting ones, and each preemption
    takes one off the running.  The search for a shared hit takes one round per token
    ([hybrid_hit_shared]).  Addresses are [Z] reduced by [u64]; the FAWA offsets
    are computed in float64 as NumPy does and are exact below 2^53.

    ** Assumptions

    Law classes state documented behaviour of code outside the repository, each with
    an instance on which the theorems are tried: the native stores ([StoreLaws],
    [PcNativeLaws], [MooncakeLaws]), the device events, tensors ([TensorLaws]), the
    order of sets ([IntSetOrderLaws]), the injectivity of pickling and the
    collision-freedom of MD5 where a theorem needs it ([PyHashLaws]), the queue of
    waiting requests and the partners of the scheduler ([RequestQueueLaws],
    [SchedLaws]).  Classes without laws stand for code that is only called: the
    Prometheus client, the retrieval and prefetch engines of sparse attention, the
    cache manager and the inherited methods of the scheduler.  Reading a float from a
    text and the texts of floats, lists and mappings are the record [py_texts], on
    which no law is assumed.  No axiom is used.

    ** Not modelled

    Native C++ and CUDA code, tensor kernels and the engine itself, which the
    models reach through the classes above: so the kernels of GSA on device and of
    ReRoPE, the patched model runners, workers and attention layers of vLLM and
    vLLM-Ascend, which are made of tensor operations.  Logging, tracing and the
    creation of directories.  The research code under ucm/sandbox, the proxy,
    benchmarks, tools and examples, which are outside the cache itself. *)

From stdpp Require Export base gmap strings list fin_maps sorting pretty.
From stdpp Require Export ssreflect.
From Stdlib Require Export ZArith Lia Ascii.

#[export] Set Default Goal Selector "!".
Open Scope Z_scope.

(** ** Python exceptions and the state-and-exception monad *)

(** The exceptions the modelled code raises or inspects.  [StoreNotFoundError]
    and [StoreUnhealthyError] are the two classes of
    [ucm/store/pipeline/errors.py]; both derive from [RuntimeError]. *)
Inductive exn :=
  | StoreNotFoundError
  | StoreUnhealthyError
  | RuntimeError (msg : string)
  | ValueError (msg : string)
  | TypeError (msg : string)
  | KeyError
  | IndexError
  | AssertionError
  | AttributeError
  | ZeroDivisionError
  | StopIteration
  | OverflowError
  | ImportError
  | NotImplementedError
  | UnboundLocalError
  | FileNotFoundError (paths : list string).

#[export] Instance exn_eq_dec : EqDecision exn.
Proof. solve_decision. Defined.

(** [except RuntimeError]; [NotImplementedError] is a [RuntimeError]. *)
Definition is_runtime_error (e : exn) : bool :=
  match e with
  | StoreNotFoundError | StoreUnhealthyError | RuntimeError _ | NotImplementedError => true
  | _ => false
  end.

Inductive res (A : Type) :=
  | Ok (a : A)
  | Raise (e : exn).
Arguments Ok {A} a.
Arguments Raise {A} e.

#[export] Instance res_ret : MRet res := @Ok.
#[export] Instance res_bind : MBind res := λ A B f m,
  match m with Ok a => f a | Raise e => Raise e end.
#[export] Instance res_fmap : FMap res := λ A B f m,
  match m with Ok a => Ok (f a) | Raise e => Raise e end.

Definition is_ok {A} (r : res A) : bool := match r with Ok _ => true | Raise _ => false end.

(** A method of an object with state [S]: the state survives an exception, as
    the attributes of a Python object do. *)
Definition M (S A : Type) : Type := S → res A * S.

#[export] Instance M_ret S : MRet (M S) := λ A a s, (Ok a, s).
#[export] Instance M_bind S : MBind (M S) := λ A B f m s,
  match m s with
  | (Ok a, s') => f a s'
  | (Raise e, s') => (Raise e, s')
  end.

Definition raise {S A} (e : exn) : M S A := λ s, (Raise e, s).
Definition get {S} : M S S := λ s, (Ok s, s).
Definition gets {S A} (f : S → A) : M S A := λ s, (Ok (f s), s).
Definition modify {S} (f : S → S) : M S unit := λ s, (Ok tt, f s).
Definition of_res {S A} (r : res A) : M S A := λ s, (r, s).

(** [try: m except Exception as e: h e] *)
Definition try_except {S A} (m : M S A) (h : exn → M S A) : M S A := λ s,
  match m s with
  | (Ok a, s') => (Ok a, s')
  | (Raise e, s') => h e s'
  end.

(** [try: m finally: f]; an exception of [f] replaces the one of [m]. *)
Definition try_finally {S A} (m : M S A) (f : M S unit) : M S A := λ s,
  match m s with
  | (r, s') => match f s' with
               | (Ok _, s'') => (r, s'')
               | (Raise e, s'') => (Raise e, s'')
               end
  end.

Definition assert_ {S} (b : bool) : M S unit :=
  if b then mret tt else raise AssertionError.

(** [for x in l: body x] *)
Fixpoint for_each {S A} (l : list A) (body : A → M S unit) : M S unit :=
  match l with
  | [] => mret tt
  | x :: l' => body x ;; for_each l' body
  end.

(** [for x in l: acc = body(acc, x)] *)
Fixpoint for_fold {S A B} (l : list A) (acc : B) (body : B → A → M S B) : M S B :=
  match l with
  | [] => mret acc
  | x :: l' => acc' ← body acc x; for_fold l' acc' body
  end.

(** [[f(x) for x in l]] where [f] may raise. *)
Fixpoint map_res {A B} (f : A → res B) (l : list A) : res (list B) :=
  match l with
  | [] => Ok []
  | x :: l' => y ← f x; ys ← map_res f l'; Ok (y :: ys)
  end.

(** [for x in l: acc = body(acc, x)] for a body without state. *)
Fixpoint fold_res {A B} (f : B → A → res B) (acc : B) (l : list A) : res B :=
  match l with
  | [] => Ok acc
  | x :: l' => acc' ← f acc x; fold_res f acc' l'
  end.

(** Running a method of a component stored inside a larger object. *)
Definition lift {S T A} (getter : S → T) (setter : T → S → S) (m : M T A) : M S A :=
  λ s, match m (getter s) with (r, t) => (r, setter t s) end.

(** ** Machine words and Python integers *)

(** [np.uint64] arithmetic wraps modulo 2^64. *)
Definition u64 (z : Z) : Z := z mod 2 ^ 64.

(** Byte strings: every element is in [0, 256). *)
Abbreviation bytes := (list Z).

Definition zlen {A} (l : list A) : Z := Z.of_nat (length l).

(** ** Python sequence operations, with negative indices *)

(** The position a slice bound denotes in a sequence of length [n]. *)
Definition norm_idx (n i : Z) : Z :=
  if i <? 0 then Z.max 0 (i + n) else Z.min i n.

(** [l[i:j]] *)
Definition py_slice {A} (l : list A) (i j : Z) : list A :=
  let n := zlen l in
  let a := norm_idx n i in
  let b := norm_idx n j in
  take (Z.to_nat (b - a)) (drop (Z.to_nat a) l).

(** [l[i:]] and [l[:j]] *)
Definition py_from {A} (l : list A) (i : Z) : list A :=
  drop (Z.to_nat (norm_idx (zlen l) i)) l.
Definition py_upto {A} (l : list A) (j : Z) : list A :=
  take (Z.to_nat (norm_idx (zlen l) j)) l.

(** [l[i]], which raises [IndexError] out of range. *)
Definition py_index {A} (l : list A) (i : Z) : res A :=
  let j := if i <? 0 then i + zlen l else i in
  if j <? 0 then Raise IndexError
  else match l !! Z.to_nat j with
       | Some x => Ok x
       | None => Raise IndexError
       end.

(** [l[i] = f(l[i])] *)
Definition py_alter {A} (f : A → A) (l : list A) (i : Z) : res (list A) :=
  let j := if i <? 0 then i + zlen l else i in
  if (j <? 0) || (zlen l <=? j) then Raise IndexError
  else Ok (alter f (Z.to_nat j) l).

(** [l[i::n]] for [0 <= i] and [0 < n]. *)
Fixpoint stride_aux {A} (l : list A) (skip n : nat) : list A :=
  match l with
  | [] => []
  | x :: l' => match skip with
               | O => x :: stride_aux l' (n - 1) n
               | S k => stride_aux l' k n
               end
  end.
Definition py_stride {A} (l : list A) (i n : Z) : list A :=
  stride_aux l (Z.to_nat i) (Z.to_nat n).

(** [range(a, b)] *)
Definition py_range (a b : Z) : list Z := seqZ a (b - a).

(** [range(a, b, step)] for a positive [step]. *)
Definition py_range_step (a b step : Z) : list Z :=
  (λ k, a + k * step) <$> seqZ 0 ((b - a + step - 1) / step).

(** [zip(a, b)] is stdpp's [zip]; [sum(l)]: *)
Definition zsum (l : list Z) : Z := foldr Z.add 0 l.

(** [s.split(sep)] for a one-character separator. *)
Fixpoint split_on (sep : ascii) (s : string) : list string :=
  match s with
  | EmptyString => [EmptyString]
  | String a s =>
      if Ascii.eqb a sep then EmptyString :: split_on sep s
      else match split_on sep s with
           | [] => [String a EmptyString]
           | c :: cs => String a c :: cs
           end
  end.

(** ** Dictionaries

    A Python [dict] iterates in insertion order, and the code iterates over
    dictionaries to build transfer requests, so a dictionary is the list of its
    items; [dict_set] keeps the position of a key that is already there. *)
Abbreviation dict K V := (list (K * V)).

Section dict.
  Context {K V : Type} `{EqDecision K}.

Fixpoint dict_get (k : K) (d : dict K V) : option V :=
  match d with
  | [] => None
  | (k', v) :: d' => if decide (k = k') then Some v else dict_get k d'
  end.

Fixpoint dict_set (k : K) (v : V) (d : dict K V) : dict K V :=
  match d with
  | [] => [(k, v)]
  | (k', v') :: d' =>
      if decide (k = k') then (k', v) :: d' else (k', v') :: dict_set k v d'
  end.

(** [d.pop(k, None)] as far as [d] is concerned *)
Definition dict_del (k : K) (d : dict K V) : dict K V :=
  filter (λ kv, kv.1 ≠ k) d.

Definition dict_mem (k : K) (d : dict K V) : bool :=
  bool_decide (is_Some (dict_get k d)).

(** [d[k]] *)
Definition dict_index (k : K) (d : dict K V) : res V :=
  match dict_get k d with Some v => Ok v | None => Raise KeyError end.

Definition dict_get_default (k : K) (dflt : V) (d : dict K V) : V :=
  default dflt (dict_get k d).

(** [d.update(e)] *)
Definition dict_update (e d : dict K V) : dict K V := foldl (λ d x, dict_set x.1 x.2 d) d e.

Lemma dict_get_set_eq k v d : dict_get k (dict_set k v d) = Some v.
Proof.
  induction d as [|[k' v'] d IH]; simpl; [by rw decide_True|].
  case_decide; simpl; [by rw decide_True|]. by rw decide_False.
Qed.

Lemma dict_get_set_ne k k' v d :
  k ≠ k' → dict_get k' (dict_set k v d) = dict_get k' d.
Proof.
  intros Hne. induction d as [|[k0 v0] d IH]; simpl; [by rw decide_False|].
  repeat (case_decide; simpl; subst); congruence.
Qed.

Lemma dict_get_set k k' v d :
  dict_get k' (dict_set k v d) = if decide (k = k') then Some v else dict_get k' d.
Proof. case_decide; subst; auto using dict_get_set_eq, dict_get_set_ne. Qed.

Lemma dict_set_set k v v' d : dict_set k v (dict_set k v' d) = dict_set k v d.
Proof.
  induction d as [|[k0 v0] d IH]; cbn; [by rewrite -> decide_True|].
  case_decide as E; cbn; [by rewrite -> decide_True|]. rewrite -> decide_False by done. by rewrite -> IH.
Qed.

Lemma dict_get_del_eq k d : dict_get k (dict_del k d) = None.
Proof.
  unfold dict_del. induction d as [|[k0 v0] d IH]; simpl; [done|].
  rw filter_cons; simpl. case_decide; simpl; [rw decide_False //|]; congruence.
Qed.

Lemma dict_get_del_ne k k' d :
  k ≠ k' → dict_get k' (dict_del k d) = dict_get k' d.
Proof.
  intros Hne. unfold dict_del. induction d as [|[k0 v0] d IH]; simpl; [done|].
  rw filter_cons; simpl. repeat (case_decide; simpl; subst); congruence.
Qed.

Lemma dict_get_del k k' d :
  dict_get k' (dict_del k d) = if decide (k = k') then None else dict_get k' d.
Proof. case_decide; subst; auto using dict_get_del_eq, dict_get_del_ne. Qed.

Lemma dict_get_Some_elem k v d : dict_get k d = Some v → (k, v) ∈ d.
Proof.
  induction d as [|[k0 v0] d IH]; simpl; [done|].
  case_decide; simplify_eq; intros; simplify_eq; [left|right; auto].
Qed.

Lemma dict_get_None k d : dict_get k d = None ↔ k ∉ d.*1.
Proof.
  induction d as [|[k0 v0] d IH]; csimpl; [set_solver|].
  case_decide; subst; set_solver.
Qed.

Lemma dict_elem_get k v d : NoDup d.*1 → (k, v) ∈ d → dict_get k d = Some v.
Proof.
  induction d as [|[k0 v0] d IH]; csimpl; [set_solver|].
  rw NoDup_cons elem_of_cons. intros [Hni Hnd] [Heq|Hin]; simplify_eq.
  - by rw decide_True.
  - rw decide_False; [auto|]. intros ->. apply Hni.
    apply list_elem_of_fmap. by exists (k0, v).
Qed.

Lemma dict_set_keys k v d x : x ∈ (dict_set k v d).*1 ↔ x = k ∨ x ∈ d.*1.
Proof.
  induction d as [|[k0 v0] d IH]; csimpl; [set_solver|].
  case_decide; csimpl; set_solver.
Qed.

Lemma dict_set_NoDup k v d : NoDup d.*1 → NoDup (dict_set k v d).*1.
Proof.
  induction d as [|[k0 v0] d IH]; csimpl.
  { intros _. apply NoDup_singleton. }
  rw NoDup_cons. intros [Hni Hnd]. case_decide; csimpl; apply NoDup_cons; [done|].
  rw dict_set_keys. split; [|auto]. intros [->|]; congruence.
Qed.

Lemma dict_set_fresh k v d : k ∉ d.*1 → dict_set k v d = d ++ [(k, v)].
Proof.
  induction d as [|[k0 v0] d IH]; csimpl; [done|]. rewrite -> not_elem_of_cons. intros [Hne Hk].
  rewrite -> decide_False by done. by rw IH.
Qed.

Lemma dict_set_elem k v d x : x ∈ dict_set k v d → x = (k, v) ∨ x ∈ d.
Proof.
  induction d as [|[k0 v0] d IH]; cbn; [rewrite -> list_elem_of_singleton; auto|]. case_decide as Hk; rewrite -> !elem_of_cons.
  - subst. naive_solver.
  - naive_solver.
Qed.

Lemma dict_set_nonempty k v d : dict_set k v d ≠ [].
Proof. destruct d as [|[k0 v0] d]; cbn; [done|by case_decide]. Qed.

(** The entries of [e] win. *)
Lemma dict_get_update k e : ∀ d, NoDup e.*1 →
  dict_get k (dict_update e d) = match dict_get k e with Some v => Some v | None => dict_get k d end.
Proof.
  induction e as [|[k0 v0] e IH]; intros d He; [done|]. cbn [fmap list_fmap fst] in He. apply NoDup_cons in He as [Hn He].
  cbn [dict_update foldl fst snd dict_get]. unfold dict_update in IH. rewrite -> IH by done. case_decide as Hk.
  - subst. rewrite -> (proj2 (dict_get_None _ _) Hn). apply dict_get_set_eq.
  - by rewrite -> dict_get_set_ne by done.
Qed.

Lemma dict_update_NoDup e : ∀ d, NoDup d.*1 → NoDup (dict_update e d).*1.
Proof. induction e as [|[k0 v0] e IH]; intros d Hd; [done|]. apply IH. by apply dict_set_NoDup. Qed.

Lemma dict_del_keys k d x : x ∈ (dict_del k d).*1 ↔ x ≠ k ∧ x ∈ d.*1.
Proof.
  unfold dict_del. rw !list_elem_of_fmap. split.
  - intros ([k0 v0] & -> & Hin). apply list_elem_of_filter in Hin as [? ?]. eauto.
  - intros (Hne & [k0 v0] & -> & Hin). exists (k0, v0). rw list_elem_of_filter. auto.
Qed.

Lemma dict_del_NoDup k d : NoDup d.*1 → NoDup (dict_del k d).*1.
Proof.
  unfold dict_del. induction d as [|[k0 v0] d IH]; csimpl; [done|].
  rw NoDup_cons. intros [Hni Hnd]. rw filter_cons; simpl.
  case_decide; csimpl; [|auto]. apply NoDup_cons. split; [|auto].
  intros Hin. apply Hni. by apply dict_del_keys in Hin as [_ ?].
Qed.

End dict.

Create HintDb ucm discriminated.
Create Rewrite HintDb ucm.
#[export] Hint Rewrite @dict_get_set_eq @dict_get_del_eq : ucm.
#[export] Hint Rewrite @dict_get_set_ne @dict_get_del_ne using done : ucm.
#[export] Hint Resolve dict_set_NoDup dict_del_NoDup : ucm.

Lemma dict_index_Ok {K V} `{EqDecision K} (k : K) (d : dict K V) v : dict_index k d = Ok v ↔ dict_get k d = Some v.
Proof. unfold dict_index. destruct (dict_get k d); split; congruence. Qed.

Lemma foldl_dict_set_fresh `{EqDecision K} {V} (l : list (K * V)) : ∀ d,
  NoDup l.*1 → (∀ k, k ∈ l.*1 → k ∉ d.*1) → foldl (λ d x, dict_set x.1 x.2 d) d l = d ++ l.
Proof.
  induction l as [|[k v] l IH]; intros d Hnd Hd; [by rewrite -> app_nil_r|]. csimpl in *.
  apply NoDup_cons in Hnd as [Hk Hnd]. rewrite -> dict_set_fresh by (apply Hd; left).
  rewrite -> IH; [by rewrite <- app_assoc|done|]. intros k' Hk'. rewrite -> fmap_app. csimpl.
  pose proof (Hd k'). set_solver.
Qed.

Lemma mod_succ s n : 0 < s → (n + 1) mod s = if decide (n mod s = s - 1) then 0 else n mod s + 1.
Proof.
  intros Hs. pose proof (Z.mod_pos_bound n s Hs). rewrite <- Z.add_mod_idemp_l by lia.
  case_decide as Hm; [rewrite -> Hm, Z.sub_add; apply Z.mod_same; lia|apply Z.mod_small; lia].
Qed.

(** ** Lemmas on sequences *)

Section seqs.
  Context {A : Type}.
  Implicit Types l : list A.

Lemma elem_of_concat (ls : list (list A)) x : x ∈ concat ls ↔ ∃ l, l ∈ ls ∧ x ∈ l.
Proof.
  rewrite -> list_elem_of_In, in_concat. by setoid_rewrite list_elem_of_In.
Qed.

Lemma zlen_nonneg l : 0 ≤ zlen l.
Proof. unfold zlen. lia. Qed.

Lemma zlen_app l k : zlen (l ++ k) = zlen l + zlen k.
Proof. unfold zlen. rw length_app. lia. Qed.

Lemma zlen_cons x l : zlen (x :: l) = 1 + zlen l.
Proof. unfold zlen. simpl. lia. Qed.

Lemma py_slice_pos l i j :
  0 ≤ i → 0 ≤ j →
  py_slice l i j = take (Z.to_nat (j - i)) (drop (Z.to_nat i) l).
Proof.
  intros Hi Hj. unfold py_slice, norm_idx, zlen.
  rewrite -> (proj2 (Z.ltb_ge i 0)), (proj2 (Z.ltb_ge j 0)) by lia.
  destruct (decide (i ≤ Z.of_nat (length l))) as [Hil|Hil].
  - rewrite -> (Z.min_l i) by lia.
    destruct (decide (j ≤ Z.of_nat (length l))) as [Hjl|Hjl]; [by rw Z.min_l|].
    rewrite -> Z.min_r by lia. rewrite -> !take_ge; rw ?length_drop; [done|lia..].
  - rewrite -> !drop_ge by lia. by rw !take_nil.
Qed.

Lemma py_slice_empty l i j : 0 ≤ j ≤ i → py_slice l i j = [].
Proof. intros. rewrite -> py_slice_pos by lia. by replace (Z.to_nat (j - i)) with 0%nat by lia. Qed.

Lemma py_slice_app l i j k :
  0 ≤ i ≤ j → j ≤ k → py_slice l i j ++ py_slice l j k = py_slice l i k.
Proof.
  intros ??. rewrite -> !py_slice_pos by lia.
  replace (Z.to_nat j) with (Z.to_nat i + Z.to_nat (j - i))%nat by lia.
  rw -drop_drop.
  replace (Z.to_nat (k - i)) with (Z.to_nat (j - i) + Z.to_nat (k - j))%nat by lia.
  by rw -take_take_drop.
Qed.

Lemma py_slice_length l i j :
  0 ≤ i ≤ j → j ≤ zlen l → zlen (py_slice l i j) = j - i.
Proof.
  intros ??. rewrite -> py_slice_pos by lia. unfold zlen in *.
  rw length_take length_drop. lia.
Qed.

Lemma py_slice_slice l i j k m :
  0 ≤ i → 0 ≤ k ≤ m → m ≤ j - i → py_slice (py_slice l i j) k m = py_slice l (i + k) (i + m).
Proof.
  intros ???. rewrite -> !py_slice_pos by lia. rewrite -> skipn_firstn_comm, drop_drop, take_take.
  f_equal; [lia|f_equal; lia].
Qed.

Lemma py_slice_length_le l i j : 0 ≤ i ≤ j → zlen (py_slice l i j) ≤ j - i.
Proof.
  intros ?. rewrite -> py_slice_pos by lia. unfold zlen in *.
  rw length_take. lia.
Qed.

Lemma py_slice_lookup l i j (n : nat) :
  0 ≤ i ≤ j → Z.of_nat n < j - i → py_slice l i j !! n = l !! (Z.to_nat i + n)%nat.
Proof.
  intros ??. rewrite -> py_slice_pos by lia.
  rewrite -> lookup_take_lt by lia. by rw lookup_drop.
Qed.

Lemma py_slice_full l : py_slice l 0 (zlen l) = l.
Proof.
  rewrite -> py_slice_pos by (unfold zlen; lia). unfold zlen.
  rewrite -> drop_0, take_ge by lia. done.
Qed.

Lemma py_slice_prefix l k i j :
  0 ≤ i → 0 ≤ j ≤ zlen l → py_slice (l ++ k) i j = py_slice l i j.
Proof.
  intros ??. rewrite -> !py_slice_pos by lia. unfold zlen in *.
  destruct (decide (i ≤ j)).
  - rewrite -> drop_app_le by lia. rewrite -> take_app_le; [done|]. rw length_drop. lia.
  - by replace (Z.to_nat (j - i)) with 0%nat by lia.
Qed.

Lemma py_from_pos l i : 0 ≤ i → py_from l i = drop (Z.to_nat i) l.
Proof.
  intros ?. unfold py_from, norm_idx, zlen. rewrite -> (proj2 (Z.ltb_ge i 0)) by lia.
  destruct (decide (i ≤ Z.of_nat (length l))); [by rw Z.min_l|].
  rewrite -> !drop_ge by lia. done.
Qed.

Lemma py_slice_from l i j : 0 ≤ i → zlen l ≤ j → py_slice l i j = py_from l i.
Proof.
  intros ? Hj. pose proof (Zle_0_nat (length l)). unfold zlen in Hj.
  rewrite -> py_from_pos, py_slice_pos by lia. apply take_ge. rw length_drop. lia.
Qed.

Lemma py_upto_pos l j : 0 ≤ j → py_upto l j = take (Z.to_nat j) l.
Proof.
  intros ?. unfold py_upto, norm_idx, zlen. rw (proj2 (Z.ltb_ge j 0)) //.
  destruct (decide (j ≤ Z.of_nat (length l))); [by rw Z.min_l|].
  rewrite -> !take_ge by lia. done.
Qed.

Lemma py_index_lookup l i x :
  0 ≤ i → py_index l i = Ok x ↔ l !! Z.to_nat i = Some x.
Proof.
  intros ?. unfold py_index. rewrite -> (proj2 (Z.ltb_ge i 0)) by lia.
  rewrite -> (proj2 (Z.ltb_ge i 0)) by lia. destruct (l !! Z.to_nat i); naive_solver.
Qed.

End seqs.

Lemma stride_aux_lookup {A} (n : nat) : (0 < n)%nat → ∀ (l : list A) skip j,
  stride_aux l skip n !! j = l !! (skip + j * n)%nat.
Proof.
  intros Hn l. induction l as [|x l IH]; intros skip j; simpl; [by rewrite !lookup_nil|].
  destruct skip as [|k]; [destruct j as [|j]|]; simpl.
  - done.
  - rewrite -> IH. destruct n as [|n]; [lia|]. simpl. f_equal. lia.
  - by rewrite -> IH.
Qed.

Lemma py_stride_lookup {A} (l : list A) i n (j : nat) :
  0 ≤ i → 0 < n → py_stride l i n !! j = l !! (Z.to_nat (i + Z.of_nat j * n)).
Proof.
  intros Hi Hn. unfold py_stride. rewrite -> stride_aux_lookup by lia. f_equal. nia.
Qed.

(** The strides of a list share it out. *)
Lemma stride_aux_partition {A} (n : nat) (l : list A) : (0 < n)%nat →
  concat ((λ r, stride_aux l r n) <$> seq 0 n) ≡ₚ l.
Proof.
  intros Hn. destruct n as [|n]; [lia|]. induction l as [|x l IH].
  - clear Hn. induction (seq 0 (S n)) as [|r rs IH]; [done|]. csimpl. done.
  - rewrite <- cons_seq, <- fmap_S_seq. cbn [fmap list_fmap concat stride_aux]. rewrite <- list_fmap_compose.
    cbn [app]. constructor. rewrite -> Nat.sub_succ, Nat.sub_0_r. etrans; [|exact IH].
    rewrite -> seq_S, fmap_app, concat_app. csimpl. rewrite -> app_nil_r. apply Permutation_app_comm.
Qed.

Lemma stride_aux_zip {A B} (n : nat) (l : list A) : ∀ (k : list B) r,
  length l = length k → stride_aux (zip l k) r n = zip (stride_aux l r n) (stride_aux k r n).
Proof.
  induction l as [|x l IH]; intros [|y k] r Hl; try done. injection Hl as Hl.
  change (zip (x :: l) (y :: k)) with ((x, y) :: zip l k). cbn [stride_aux].
  destruct r as [|r]; [|by apply IH]. rewrite -> IH by done. done.
Qed.

Lemma stride_aux_drop {A} (n : nat) (l : list A) : ∀ r, stride_aux l r n = stride_aux (drop r l) 0 n.
Proof. induction l as [|x l IH]; intros [|r]; try done. cbn [stride_aux drop]. apply IH. Qed.

Lemma stride_aux_fmap {A B} (f : A → B) (n : nat) (l : list A) : ∀ r,
  stride_aux (f <$> l) r n = f <$> stride_aux l r n.
Proof. induction l as [|x l IH]; intros [|r]; csimpl; [done|done|by rewrite -> IH|apply IH]. Qed.

Lemma elem_of_py_range_step a b n x : 0 < n →
  x ∈ py_range_step a b n ↔ a ≤ x < b ∧ (x - a) mod n = 0.
Proof.
  intros Hn. unfold py_range_step. rewrite -> list_elem_of_fmap. setoid_rewrite elem_of_seqZ. split.
  - intros (k & -> & Hk). replace (a + k * n - a) with (k * n) by lia. rewrite -> Z.mod_mul by lia. split; [|done].
    assert (k * n < b - a); [|nia]. pose proof (Z.mul_div_le (b - a + n - 1) n Hn). nia.
  - intros [Hx Hm]. exists ((x - a) / n). pose proof (Z.div_mod (x - a) n). split; [lia|].
    split; [apply Z.div_pos; lia|]. rewrite -> Z.add_0_l. apply Z.div_lt_upper_bound; [done|].
    pose proof (Z.div_mod (b - a + n - 1) n). pose proof (Z.mod_pos_bound (b - a + n - 1) n Hn). lia.
Qed.

Lemma NoDup_py_range_step a b n : n ≠ 0 → NoDup (py_range_step a b n).
Proof. intros Hn. apply NoDup_fmap_2; [|apply NoDup_seqZ]. intros x y Hxy. nia. Qed.

#[export] Hint Resolve zlen_nonneg : ucm.
#[export] Hint Rewrite @zlen_app @zlen_cons @py_slice_full : ucm.

(** ** Reasoning about the monads *)

Lemma zsum_cons x l : zsum (x :: l) = x + zsum l.
Proof. done. Qed.

Lemma zsum_app l k : zsum (l ++ k) = zsum l + zsum k.
Proof. induction l; simpl; rw ?zsum_cons; unfold zsum in *; simpl in *; lia. Qed.

Lemma zsum_nonneg l : Forall (λ x, 0 ≤ x) l → 0 ≤ zsum l.
Proof. induction 1; rw ?zsum_cons; unfold zsum in *; simpl in *; lia. Qed.

Lemma map_res_length {A B} (f : A → res B) l k :
  map_res f l = Ok k → length k = length l.
Proof.
  revert k. induction l as [|x l IH]; simpl; intros k Hk; simplify_eq; [done|].
  destruct (f x) as [y|]; simpl in Hk; [|done].
  destruct (map_res f l) as [ys|] eqn:E; simpl in Hk; simplify_eq. simpl. by rw IH.
Qed.

Lemma map_res_Forall2 {A B} (f : A → res B) l k :
  map_res f l = Ok k ↔ Forall2 (λ x y, f x = Ok y) l k.
Proof.
  revert k. induction l as [|x l IH]; intros k; simpl.
  - split; [by intros [= <-]|intros Hk; by inversion Hk].
  - destruct (f x) as [y|] eqn:Hx; simpl.
    + destruct (map_res f l) as [ys|] eqn:E; simpl.
      * split; [intros [= <-]; constructor; [done|by apply IH]|].
        intros Hk. inversion Hk as [|? y' ? k' ? Hk']; simplify_eq.
        apply IH in Hk' as [= ->]. congruence.
      * split; [done|]. intros Hk. inversion Hk as [|? ? ? k' ? Hk']. by apply IH in Hk'.
    + split; [done|]. intros Hk. inversion Hk. congruence.
Qed.

Lemma map_res_concat {A B} (f : A → res B) ls :
  map_res f (concat ls) = @concat B <$> map_res (map_res f) ls.
Proof.
  assert (Happ : ∀ l k, map_res f (l ++ k) =
    (a ← map_res f l; b ← map_res f k; Ok (a ++ b))).
  { induction l as [|x l IH]; intros k; simpl.
    - by destruct (map_res f k).
    - destruct (f x); simpl; [|done]. rewrite -> IH.
      destruct (map_res f l); simpl; [|done]. by destruct (map_res f k). }
  induction ls as [|l ls IH]; [done|]. rewrite -> concat_cons, Happ, IH. simpl.
  destruct (map_res f l); simpl; [|done]. by destruct (map_res (map_res f) ls).
Qed.

Lemma map_res_pure {A B} (f : A → res B) (g : A → B) l :
  (∀ x, x ∈ l → f x = Ok (g x)) → map_res f l = Ok (g <$> l).
Proof.
  intros Hf. apply map_res_Forall2, Forall2_fmap_r, Forall_Forall2_diag, Forall_forall. exact Hf.
Qed.

Lemma py_index_in {A} (l : list A) i : 0 ≤ i < zlen l → ∃ x, py_index l i = Ok x ∧ l !! Z.to_nat i = Some x.
Proof.
  intros Hi. destruct (lookup_lt_is_Some_2 l (Z.to_nat i)) as [x Hx]; [unfold zlen in Hi; lia|].
  exists x. split; [|done]. apply py_index_lookup; [lia|done].
Qed.

Lemma py_alter_in {A} (f : A → A) l i : 0 ≤ i < zlen l → py_alter f l i = Ok (alter f (Z.to_nat i) l).
Proof.
  intros Hi. unfold py_alter. rewrite -> (proj2 (Z.ltb_ge i 0)), (proj2 (Z.ltb_ge i 0)), (proj2 (Z.leb_gt (zlen l) i)) by lia. done.
Qed.

Lemma py_set_in {A} (x : A) (l : list A) i : 0 ≤ i < zlen l → py_alter (λ _, x) l i = Ok (<[Z.to_nat i := x]> l).
Proof.
  intros Hi. rewrite -> py_alter_in by done. f_equal. generalize (Z.to_nat i). clear i Hi.
  induction l as [|y l IH]; intros [|n]; cbn; [done..|]. f_equal. apply IH.
Qed.

Lemma bind_Ok {A B} (m : res A) (f : A → res B) b :
  m ≫= f = Ok b ↔ ∃ a, m = Ok a ∧ f a = Ok b.
Proof. destruct m; simpl; naive_solver. Qed.

(** [m] keeps the state property [P], whether it returns or raises. *)
Definition preserves {S A} (P : S → Prop) (m : M S A) : Prop :=
  ∀ s, P s → P (m s).2.

Section preserves.
  Context {S : Type} (P : S → Prop).

Lemma preserves_ret {A} (a : A) : preserves P (mret a : M S A).
Proof. by intros s. Qed.

Lemma preserves_raise {A} e : preserves P (raise e : M S A).
Proof. by intros s. Qed.

Lemma preserves_gets {A} (f : S → A) : preserves P (gets f).
Proof. by intros s. Qed.

Lemma preserves_get : preserves P get.
Proof. by intros s. Qed.

Lemma preserves_of_res {A} (r : res A) : preserves P (of_res r).
Proof. by intros s. Qed.

Lemma preserves_modify f : (∀ s, P s → P (f s)) → preserves P (modify f).
Proof. intros Hf s Hs. by apply Hf. Qed.

Lemma preserves_bind {A B} (m : M S A) (f : A → M S B) :
  preserves P m → (∀ a, preserves P (f a)) → preserves P (m ≫= f).
Proof.
  intros Hm Hf s Hs. specialize (Hm s Hs). unfold mbind, M_bind.
  destruct (m s) as [[a|e] s']; simpl in *; [by apply Hf|done].
Qed.

Lemma preserves_try {A} (m : M S A) h :
  preserves P m → (∀ e, preserves P (h e)) → preserves P (try_except m h).
Proof.
  intros Hm Hh s Hs. specialize (Hm s Hs). unfold try_except.
  destruct (m s) as [[a|e] s']; simpl in *; [done|by apply Hh].
Qed.

Lemma preserves_finally {A} (m : M S A) f :
  preserves P m → preserves P f → preserves P (try_finally m f).
Proof.
  intros Hm Hf s Hs. specialize (Hm s Hs). unfold try_finally.
  destruct (m s) as [r s']; simpl in *. specialize (Hf s' Hm).
  by destruct (f s') as [[]].
Qed.

Lemma preserves_for_each {A} (l : list A) (body : A → M S unit) :
  (∀ x, x ∈ l → preserves P (body x)) → preserves P (for_each l body).
Proof.
  induction l as [|x l IH]; intros Hb; simpl; [apply preserves_ret|].
  apply preserves_bind; [apply Hb; by left|]. intros _.
  apply IH. intros y Hy. apply Hb. by right.
Qed.

Lemma preserves_for_fold {A B} (l : list A) (acc : B) (body : B → A → M S B) :
  (∀ b x, x ∈ l → preserves P (body b x)) → preserves P (for_fold l acc body).
Proof.
  revert acc. induction l as [|x l IH]; intros acc Hb; simpl; [apply preserves_ret|].
  apply preserves_bind; [apply Hb; by left|]. intros b.
  apply IH. intros b' y Hy. apply Hb. by right.
Qed.

Lemma preserves_if {A} (b : bool) (m n : M S A) :
  preserves P m → preserves P n → preserves P (if b then m else n).
Proof. by destruct b. Qed.

(** A method of a component keeps what it keeps of the component. *)
Lemma preserves_lift {T A} (getter : S → T) (setter : T → S → S) (Q : T → Prop) (m : M T A) :
  (∀ s, P s → Q (getter s)) → (∀ s t, P s → Q t → P (setter t s)) → preserves Q m → preserves P (lift getter setter m).
Proof.
  intros Hget Hset Hm s Hs. specialize (Hm (getter s) (Hget s Hs)). unfold lift. destruct (m (getter s)) as [r t]. by apply Hset.
Qed.

End preserves.

#[export] Hint Resolve preserves_ret preserves_raise preserves_gets preserves_get
  preserves_of_res preserves_bind preserves_try preserves_finally
  preserves_for_each preserves_for_fold preserves_if : ucm.

(** [m] run from a state satisfying [P] returns a value and a state satisfying
    [Q], or raises in a state satisfying [E]. *)
Definition triple {S A} (P : S → Prop) (m : M S A) (Q : A → S → Prop) (E : S → Prop) : Prop :=
  ∀ s, P s → match m s with
             | (Ok a, s') => Q a s'
             | (Raise _, s') => E s'
             end.

Section triple.
  Context {S : Type} (E : S → Prop).

Lemma triple_ret {A} (a : A) (Q : A → S → Prop) : triple (Q a) (mret a : M S A) Q E.
Proof. by intros s. Qed.

Lemma triple_raise {A} e (Q : A → S → Prop) : triple E (raise e : M S A) Q E.
Proof. by intros s. Qed.

Lemma triple_gets {A} (f : S → A) (Q : A → S → Prop) : triple (λ s, Q (f s) s) (gets f) Q E.
Proof. by intros s. Qed.

Lemma triple_modify f (Q : unit → S → Prop) : triple (λ s, Q tt (f s)) (modify f) Q E.
Proof. by intros s. Qed.

Lemma triple_of_res {A} (r : res A) (P : S → Prop) (Q : A → S → Prop) :
  (∀ a s, r = Ok a → P s → Q a s) → (∀ s, P s → E s) → triple P (of_res r) Q E.
Proof. intros HQ HE s Hs. unfold of_res. destruct r; eauto. Qed.

Lemma triple_bind {A B} P R Q (m : M S A) (f : A → M S B) :
  triple P m R E → (∀ a, triple (R a) (f a) Q E) → triple P (m ≫= f) Q E.
Proof.
  intros Hm Hf s Hs. specialize (Hm s Hs). unfold mbind, M_bind.
  destruct (m s) as [[a|e] s']; [by apply Hf|done].
Qed.

Lemma triple_conseq {A} (P P' : S → Prop) (Q Q' : A → S → Prop) m :
  triple P' m Q' E → (∀ s, P s → P' s) → (∀ a s, Q' a s → Q a s) → triple P m Q E.
Proof.
  intros Hm HP HQ s Hs. specialize (Hm s (HP s Hs)). destruct (m s) as [[a|e] s']; auto.
Qed.

Lemma triple_try {A} P Q E' (m : M S A) h :
  triple P m Q E' → (∀ e, triple E' (h e) Q E) → triple P (try_except m h) Q E.
Proof.
  intros Hm Hh s Hs. specialize (Hm s Hs). unfold try_except.
  destruct (m s) as [[a|e] s']; [done|]. by apply Hh.
Qed.

Lemma triple_for_fold {A B} (l : list A) (I : B → S → Prop) (acc : B) (body : B → A → M S B) :
  (∀ b x, x ∈ l → triple (I b) (body b x) I E) → triple (I acc) (for_fold l acc body) I E.
Proof.
  revert acc. induction l as [|x l IH]; intros acc Hb; simpl; [apply triple_ret|].
  eapply triple_bind; [apply Hb; by left|]. intros b.
  apply IH. intros b' y Hy. apply Hb. by right.
Qed.

Lemma triple_for_each {A} (l : list A) (I : list A → S → Prop) (body : A → M S unit) :
  (∀ x k, triple (I (x :: k)) (body x) (λ _, I k) E) → triple (I l) (for_each l body) (λ _, I []) E.
Proof.
  intros Hb. induction l as [|x l IH]; simpl; [by intros s|]. eapply triple_bind; [apply Hb|]. intros ?. exact IH.
Qed.

Lemma triple_keeps {A} (m : M S A) (P : S → Prop) : preserves P m → (∀ s, P s → E s) → triple P m (λ _, P) E.
Proof. intros Hm HE s Hs. specialize (Hm s Hs). destruct (m s) as [[a|e] s']; [exact Hm|by apply HE]. Qed.

End triple.

(** Runs that may raise at any point. *)
Notation runs P m Q := (triple P m Q (λ _, True)).

Section runs.
  Context {S : Type}.

Lemma runs_preserves {A} (P : S → Prop) (m : M S A) : preserves P m → runs P m (λ _, P).
Proof. intros Hm s Hs. specialize (Hm s Hs). by destruct (m s) as [[a|] s']. Qed.

Lemma runs_bind {A B} P R Q (m : M S A) (f : A → M S B) :
  runs P m R → (∀ a, runs (R a) (f a) Q) → runs P (m ≫= f) Q.
Proof. apply triple_bind. Qed.

Lemma runs_exists {A B} (P : B → S → Prop) (m : M S A) Q :
  (∀ x, runs (P x) m Q) → runs (λ s, ∃ x, P x s) m Q.
Proof. intros Hm s [x Hs]. exact (Hm x s Hs). Qed.

Lemma runs_given {A} (P : S → Prop) (H : Prop) (m : M S A) Q : (H → runs P m Q) → runs (λ s, H ∧ P s) m Q.
Proof. intros Hm s [Hh Hs]. exact (Hm Hh s Hs). Qed.

Lemma runs_ret {A} (a : A) (P : S → Prop) (Q : A → S → Prop) : (∀ s, P s → Q a s) → runs P (mret a : M S A) Q.
Proof. intros Hq s Hs. by apply Hq. Qed.

Lemma runs_raise {A} e (P : S → Prop) (Q : A → S → Prop) : runs P (raise e : M S A) Q.
Proof. by intros s Hs. Qed.

Lemma runs_of_res {A B} (r : res A) (k : A → M S B) P Q :
  (∀ a, r = Ok a → runs P (k a) Q) → runs P (of_res r ≫= k) Q.
Proof. intros Hk s Hs. destruct r as [a|e]; [exact (Hk a eq_refl s Hs)|done]. Qed.

Lemma runs_gets {A B} (f : S → A) (k : A → M S B) a P Q :
  (∀ s, P s → f s = a) → runs P (k a) Q → runs P (gets f ≫= k) Q.
Proof. intros Hf Hk s Hs. specialize (Hk s Hs). rewrite <- (Hf s Hs) in Hk. exact Hk. Qed.

End runs.

(** Running the first command of a sequence. *)
Lemma M_bind_Ok {S A B} (m : M S A) (k : A → M S B) s a s' :
  m s = (Ok a, s') → (m ≫= k) s = k a s'.
Proof. intros Hm. unfold mbind, M_bind. by rw Hm. Qed.

Lemma M_bind_Raise {S A B} (m : M S A) (k : A → M S B) s e s' :
  m s = (Raise e, s') → (m ≫= k) s = (Raise e, s').
Proof. intros Hm. unfold mbind, M_bind. by rw Hm. Qed.

Lemma M_Ok_inv {S A B} (m : M S A) (k : A → M S B) s b s' :
  (m ≫= k) s = (Ok b, s') → ∃ a s1, m s = (Ok a, s1) ∧ k a s1 = (Ok b, s').
Proof. unfold mbind, M_bind. destruct (m s) as [[a|e] s1]; [by exists a, s1|done]. Qed.

Lemma M_bind_assoc {S A B C} (m : M S A) (f : A → M S B) (g : B → M S C) s :
  ((m ≫= f) ≫= g) s = (m ≫= λ a, f a ≫= g) s.
Proof. unfold mbind, M_bind. by destruct (m s) as [[a|e] s']. Qed.

(** [mstep] runs a command that computes, [mrun H] one whose run is [H]. *)
Ltac mstep := erewrite M_bind_Ok by reflexivity; cbn [fst snd].
Ltac mrun H := erewrite M_bind_Ok by exact H; cbn [fst snd].

Lemma for_each_app {S A} (l k : list A) (body : A → M S unit) (s : S) :
  for_each (l ++ k) body s = (for_each l body ;; for_each k body) s.
Proof.
  revert s. induction l as [|x l IH]; intros s; [done|]. cbn [app for_each]. unfold mbind, M_bind in *.
  destruct (body x s) as [[[]|e] s1]; [apply IH|done].
Qed.

(** One step of symbolic execution of a monadic program applied to a state. *)
Ltac munfold :=
  unfold mbind, M_bind, mret, M_ret, raise, get, gets, modify, of_res,
    try_except, try_finally, lift in *; simpl in *.

(** Splits a hypothesis [m ≫= f = Ok b] of the [res] monad. *)
Ltac res_inv H :=
  let x := fresh "x" in let Hx := fresh "Hx" in
  apply bind_Ok in H as (x & Hx & H).
