(* ===== verification/Runtime.v ===== *)
(** * The services the connectors run against

    The key-value store interface [UcmKVStoreBaseV1] of
    [ucm/store/ucmstore_v1.py], the event handles of
    [ucm/integration/vllm/device.py] and the metric samples sent to
    [ucm.shared.metrics].  The concrete stores and the accelerator runtimes are
    native code, so their operations are the methods of the classes [StoreOps]
    and [DeviceOps] over an abstract world [W]; what the connectors rely on is
    stated in the law classes. *)
From S2P Require Import Prelude.
Open Scope Z_scope.

(** ** Stores *)

(** A reference to a store object and the identity [id(task)] of a task object. *)
Abbreviation sref := Z.
Abbreviation task := Z.

(** Rows of device addresses, one row per block. *)
Abbreviation addr_rows := (list (list Z)).

(** The operations of [UcmKVStoreBaseV1] the connectors call. *)
Class StoreOps (W : Type) := {
  st_lookup : sref → list bytes → M W (list bool);
  st_lookup_on_prefix : sref → list bytes → M W Z;
  st_prefetch : sref → list bytes → M W unit;
  st_load_data : sref → list bytes → list Z → addr_rows → M W task;
  st_dump_data : sref → list bytes → list Z → addr_rows → Z → M W task;
  st_wait : sref → task → M W unit;
  st_check : sref → task → M W bool;
}.

(** What the docstrings of [UcmKVStoreBaseV1] promise of the two lookups: one
    answer per block in order, and the largest index of the contiguous hit
    prefix, -1 when there is none. *)
Class StoreLaws (W : Type) `{StoreOps W} := {
  st_lookup_length r ids w bs w' :
    st_lookup r ids w = (Ok bs, w') → length bs = length ids;
  st_prefix_bounds r ids w n w' :
    st_lookup_on_prefix r ids w = (Ok n, w') → -1 ≤ n < zlen ids;
}.

(** ** Devices *)

Inductive platform := CUDA | NPU.

#[export] Instance platform_eq_dec : EqDecision platform.
Proof. solve_decision. Defined.

(** The runtime calls of the two device classes. [cuda_event_recorded] creates
    an event, records it on the current stream and returns its raw handle. *)
Class DeviceOps (W : Type) := {
  cuda_event_recorded : M W Z;
  acl_create_event : M W (Z * Z);
  acl_record_event : Z → M W Z;
  acl_destroy_event : Z → M W Z;
  stream_synchronize : M W unit;
}.

(** [Device.events]: the events kept alive, by handle. *)
Record device := Device { dev_kind : platform; events : gmap Z Z }.

Section device.
  Context {W : Type} `{DeviceOps W}.

(** Calls into the runtime leave the device object alone. *)
Definition on_rt {A} (m : M W A) : M (device * W) A :=
  lift snd (λ w s, (s.1, w)) m.

Definition keep_event (handle event : Z) : M (device * W) unit :=
  modify (λ s, (Device (dev_kind s.1) (<[handle := event]> (events s.1)), s.2)).

Definition cuda_get_event_handle : M (device * W) Z :=
  try_except
    (handle ← on_rt cuda_event_recorded;
     keep_event handle handle ;;
     mret handle)
    (λ _, mret 0).

Definition npu_get_event_handle : M (device * W) Z :=
  try_except
    ('(event, ret) ← on_rt acl_create_event;
     if decide (ret ≠ 0) then mret 0 else
     ret ← on_rt (acl_record_event event);
     if decide (ret ≠ 0) then on_rt (acl_destroy_event event) ;; mret 0 else
     keep_event event event ;;
     mret event)
    (λ _, mret 0).

Definition get_event_handle : M (device * W) Z := λ s,
  match dev_kind s.1 with
  | CUDA => cuda_get_event_handle s
  | NPU => npu_get_event_handle s
  end.

Definition synchronize : M (device * W) unit := on_rt stream_synchronize.

Definition forget_event (handle : Z) : M (device * W) unit :=
  modify (λ s, (Device (dev_kind s.1) (delete handle (events s.1)), s.2)).

Definition cuda_destroy_event_handle (handle : Z) : M (device * W) unit :=
  forget_event handle.

Definition npu_destroy_event_handle (handle : Z) : M (device * W) unit :=
  event ← gets (λ s, events s.1 !! handle);
  forget_event handle ;;
  match event with
  | Some e => try_except (on_rt (acl_destroy_event e) ;; mret tt) (λ _, mret tt)
  | None => mret tt
  end.

Definition destroy_event_handle (handle : Z) : M (device * W) unit := λ s,
  match dev_kind s.1 with
  | CUDA => cuda_destroy_event_handle handle s
  | NPU => npu_destroy_event_handle handle s
  end.

(** All handles at once; the destructions happen in the order of the map. *)
Definition destroy_event_handles : M (device * W) unit :=
  d ← gets fst;
  match dev_kind d with
  | CUDA => mret tt
  | NPU => for_each (map_to_list (events d)) (λ e,
             try_except (on_rt (acl_destroy_event e.2) ;; mret tt) (λ _, mret tt))
  end ;;
  modify (λ s, (Device (dev_kind s.1) ∅, s.2)).

(** Destroying a handle never raises, forgets that handle and no other. *)
Lemma destroy_event_handle_spec h s :
  ∃ s', destroy_event_handle h s = (Ok tt, s') ∧
        dev_kind s'.1 = dev_kind s.1 ∧ events s'.1 = delete h (events s.1).
Proof.
  destruct s as [[k ev] w]. unfold destroy_event_handle. simpl. destruct k.
  { eexists. split; [done|]. done. }
  unfold npu_destroy_event_handle, forget_event, on_rt. munfold.
  destruct (ev !! h) as [e|]; munfold; [|by eexists].
  destruct (acl_destroy_event e w) as [[r|x] w']; by eexists.
Qed.

(** Asking for a handle never raises; it returns 0 and keeps nothing, or it
    returns a handle it keeps alive. *)
Lemma get_event_handle_spec s :
  ∃ h s', get_event_handle s = (Ok h, s') ∧ dev_kind s'.1 = dev_kind s.1 ∧
    ((h = 0 ∧ events s'.1 = events s.1) ∨
     events s'.1 = <[h := h]> (events s.1)).
Proof.
  destruct s as [[k ev] w]. unfold get_event_handle. simpl. destruct k.
  - unfold cuda_get_event_handle, on_rt, keep_event. munfold.
    destruct (cuda_event_recorded w) as [[h|x] w']; simpl; eauto 10.
  - unfold npu_get_event_handle, on_rt, keep_event. munfold.
    destruct (acl_create_event w) as [[[e r]|x] w']; simpl; [|eauto 10].
    case_decide; simpl; [eauto 10|].
    destruct (acl_record_event e w') as [[r2|x] w2]; simpl; [|eauto 10].
    case_decide; simpl; [|eauto 10].
    destruct (acl_destroy_event e w2) as [[r3|x] w3]; simpl; eauto 10.
Qed.

(** Destroying all handles never raises and leaves none. *)
Lemma destroy_event_handles_spec s :
  ∃ s', destroy_event_handles s = (Ok tt, s') ∧
        dev_kind s'.1 = dev_kind s.1 ∧ events s'.1 = ∅.
Proof.
  destruct s as [[k ev] w]. unfold destroy_event_handles. mstep. destruct k.
  { mstep. eexists. split; [reflexivity|]. done. }
  assert (Hl : ∀ l s, ∃ w', for_each l (λ e : Z * Z,
      try_except (on_rt (acl_destroy_event e.2) ;; mret tt) (λ _, mret tt)) s = (Ok tt, (s.1, w'))).
  { induction l as [|e l IH]; intros [d w0]; [by exists w0|]. cbn [for_each].
    unfold on_rt. munfold. destruct (acl_destroy_event e.2 w0) as [[r|x] w1]; simpl;
      by destruct (IH (d, w1)). }
  destruct (Hl (map_to_list ev) (Device NPU ev, w)) as (w' & Hrun). mrun Hrun.
  eexists. split; [reflexivity|]. done.
Qed.

End device.

(** ** Metrics

    [ucmmetrics.update_stats] receives named samples.  Counts and ratios are
    kept; a sample derived from a clock reading is recorded as [MTime]. *)
Inductive mval :=
  | MCount (n : Z)
  | MRatio (num den : Z)
  | MTime.

#[export] Instance mval_eq_dec : EqDecision mval.
Proof. solve_decision. Defined.

Abbreviation stats := (list (string * mval)).
