(* ===== verification/PyStrings.v ===== *)
(** * Python strings

    The operations on strings the models share, on ASCII: white space, numbers,
    cutting and joining.  Their lemmas say that a number survives the round trip
    through its text and that a joined text is cut where it was joined. *)
From S2P Require Import Prelude.
Open Scope Z_scope.

Definition is_space (c : ascii) : bool :=
  let n := N_of_ascii c in ((9 <=? n) && (n <=? 13))%N || ((28 <=? n) && (n <=? 32))%N.

Fixpoint lstrip (s : string) : string :=
  match s with String c s' => if is_space c then lstrip s' else s | EmptyString => s end.

Fixpoint rstrip (s : string) : string :=
  match s with
  | EmptyString => EmptyString
  | String c s' =>
      match rstrip s' with
      | EmptyString => if is_space c then EmptyString else String c EmptyString
      | r => String c r
      end
  end.

Definition strip (s : string) : string := rstrip (lstrip s).

Definition digit_of (c : ascii) : option Z :=
  let n := Z.of_N (N_of_ascii c) in if (48 <=? n) && (n <=? 57) then Some (n - 48) else None.

Definition is_digit (c : ascii) : bool := match digit_of c with Some _ => true | None => false end.

Fixpoint forall_chars (p : ascii → bool) (s : string) : bool :=
  match s with String c s => p c && forall_chars p s | EmptyString => true end.

(** [s.isdigit()], [s.isnumeric()] *)
Definition isdigit (s : string) : bool := negb (String.eqb s "") && forall_chars is_digit s.

(** The digits of [int(s)], single underscores between them. *)
Fixpoint int_digits (acc : Z) (s : string) : option Z :=
  match s with
  | EmptyString => Some acc
  | String c s' =>
      match digit_of c with
      | Some d => int_digits (10 * acc + d) s'
      | None =>
          match s' with
          | String c' _ => if Ascii.eqb c "_" && is_digit c' then int_digits acc s' else None
          | EmptyString => None
          end
      end
  end.

Definition unsigned (s : string) : option Z :=
  match s with String c _ => if is_digit c then int_digits 0 s else None | EmptyString => None end.

Definition signed (s : string) : option Z :=
  match s with
  | String c s' =>
      if Ascii.eqb c "-" then Z.opp <$> unsigned s'
      else if Ascii.eqb c "+" then unsigned s' else unsigned s
  | EmptyString => None
  end.

(** [int(s)] *)
Definition py_int (s : string) : res Z :=
  match signed (strip s) with
  | Some n => Ok n
  | None => Raise (ValueError "invalid literal for int() with base 10")
  end.

Definition upper_char (c : ascii) : ascii :=
  let n := N_of_ascii c in if ((97 <=? n) && (n <=? 122))%N then ascii_of_N (n - 32) else c.
Definition lower_char (c : ascii) : ascii :=
  let n := N_of_ascii c in if ((65 <=? n) && (n <=? 90))%N then ascii_of_N (n + 32) else c.
Fixpoint map_chars (f : ascii → ascii) (s : string) : string :=
  match s with String c s => String (f c) (map_chars f s) | EmptyString => EmptyString end.
Definition upper := map_chars upper_char.
Definition lower := map_chars lower_char.

(** [s.split(sep, 1)] of a string that contains [sep] *)
Fixpoint partition (sep : ascii) (s : string) : option (string * string) :=
  match s with
  | EmptyString => None
  | String c s' =>
      if Ascii.eqb c sep then Some (EmptyString, s')
      else (λ p, (String c p.1, p.2)) <$> partition sep s'
  end.

(** [s.split(None, n)]; [s.split()] with [n] large enough. *)
Fixpoint split_ws (n : nat) (cur s : string) : list string :=
  match s with
  | EmptyString => if String.eqb cur "" then [] else [cur]
  | String c s' =>
      if is_space c then
        if String.eqb cur "" then split_ws n "" s' else cur :: split_ws (n - 1) "" s'
      else if String.eqb cur "" && (n =? 0)%nat then [s]
      else split_ws n (cur +:+ String c "") s'
  end.
Definition words (s : string) : list string := split_ws (String.length s) "" s.

(** ["".join(s.split())] *)
Definition squeeze (s : string) : string := foldr String.append "" (words s).

(** [sep.join(l)] *)
Fixpoint join (sep : string) (l : list string) : string :=
  match l with [] => "" | [s] => s | s :: l => s +:+ sep +:+ join sep l end.

Fixpoint drop_prefix (p s : string) : option string :=
  match p, s with
  | EmptyString, _ => Some s
  | String a p, String b s => if Ascii.eqb a b then drop_prefix p s else None
  | _, _ => None
  end.

Fixpoint contains (needle s : string) : bool :=
  String.prefix needle s || match s with EmptyString => false | String _ s => contains needle s end.

(** [s.splitlines()] of the output of a command: only a newline ends a line, the
    rarer separators being white space to the one reader of the lines. *)
Definition split_lines (s : string) : list string := split_on "010" s.

(** ** Numbers as text *)

Lemma digit_of_char (n : N) : (n < 10)%N → digit_of (pretty_N_char n) = Some (Z.of_N n).
Proof.
  intros Hn. assert (n = 0 ∨ n = 1 ∨ n = 2 ∨ n = 3 ∨ n = 4 ∨ n = 5 ∨ n = 6 ∨ n = 7 ∨ n = 8 ∨ n = 9)%N as H by lia.
  by repeat destruct H as [->|H]; [..|subst n].
Qed.

(** The property of all the characters of a number. *)
Lemma pretty_go_chars (p : ascii → bool) (Hp : ∀ n, (n < 10)%N → p (pretty_N_char n) = true) n : ∀ s,
  forall_chars p s = true → forall_chars p (pretty_N_go n s) = true.
Proof.
  induction (N.lt_wf_0 n) as [n _ IH]. intros s Hs. destruct (decide (n = 0%N)) as [->|Hn]; [by rewrite -> pretty_N_go_0|].
  rewrite -> pretty_N_go_step by lia. apply IH; [apply N.div_lt; lia|]. cbn [forall_chars]. rewrite -> Hp; [done|].
  apply N.mod_lt. done.
Qed.

Lemma int_digits_go n : ∀ s, int_digits 0 (pretty_N_go n s) = int_digits (Z.of_N n) s.
Proof.
  induction (N.lt_wf_0 n) as [n _ IH]. intros s. destruct (decide (n = 0%N)) as [->|Hn]; [by rewrite -> pretty_N_go_0|].
  rewrite -> pretty_N_go_step by lia. rewrite -> IH by (apply N.div_lt; lia). cbn [int_digits].
  rewrite -> digit_of_char by (by apply N.mod_lt). f_equal. rewrite -> N2Z.inj_div, N2Z.inj_mod.
  pose proof (Z.div_mod (Z.of_N n) 10). lia.
Qed.

Lemma digit_not_space c : is_digit c = true → is_space c = false.
Proof. destruct c as [ [] [] [] [] [] [] [] [] ]; vm_compute; done. Qed.

Lemma forall_chars_weaken (p q : ascii → bool) s :
  (∀ c, p c = true → q c = true) → forall_chars p s = true → forall_chars q s = true.
Proof.
  intros Hpq. induction s as [|c s IH]; [done|]. cbn [forall_chars]. intros [Hc Hs]%andb_true_iff.
  apply andb_true_iff. split; [by apply Hpq|by apply IH].
Qed.

Lemma str_app_cons c s t : String c s +:+ t = String c (s +:+ t).
Proof. done. Qed.

Lemma forall_chars_app (p : ascii → bool) s t :
  forall_chars p (s +:+ t) = forall_chars p s && forall_chars p t.
Proof. induction s as [|c s IH]; [done|]. rewrite -> str_app_cons. cbn [forall_chars]. by rewrite -> IH, andb_assoc. Qed.

Lemma strip_id s : forall_chars (λ c, negb (is_space c)) s = true → strip s = s.
Proof.
  intros Hs. unfold strip. assert (Hl : lstrip s = s).
  { destruct s as [|c s]; [done|]. cbn in *. apply andb_true_iff in Hs as [Hc _]. by destruct (is_space c). }
  rewrite -> Hl. clear Hl. induction s as [|c s IH]; [done|]. cbn in *. apply andb_true_iff in Hs as [Hc Hs].
  rewrite -> IH by done. destruct s; [by destruct (is_space c)|done].
Qed.

(** A number is a non-empty string of digits. *)
Lemma pretty_digits z : 0 ≤ z →
  forall_chars is_digit (pretty z) = true ∧ unsigned (pretty z) = Some z ∧ pretty z ≠ "".
Proof.
  intros Hz. destruct z as [|x|x]; [by vm_compute|clear Hz|lia].
  change (pretty (Zpos x)) with (pretty_N_go (Npos x) "").
  assert (Hd : forall_chars is_digit (pretty_N_go (N.pos x) "") = true).
  { apply pretty_go_chars; [|done]. intros n Hn. unfold is_digit. by rewrite -> digit_of_char. }
  pose proof (int_digits_go (Npos x) "") as Hi. cbn [int_digits] in Hi. split; [done|].
  destruct (pretty_N_go (Npos x) "") as [|c s]; [done|]. split; [|done]. unfold unsigned. cbn [forall_chars] in Hd.
  apply andb_true_iff in Hd as [-> _]. exact Hi.
Qed.

Lemma py_int_pretty z : 0 ≤ z → py_int (pretty z) = Ok z.
Proof.
  intros Hz. destruct (pretty_digits z Hz) as (Hd & Hu & Hne). unfold py_int. rewrite -> strip_id; cycle 1.
  { eapply forall_chars_weaken; [|exact Hd]. intros c Hc. by rewrite -> digit_not_space. }
  assert (Hm : signed (pretty z) = Some z); [|by rewrite -> Hm].
  rewrite <- Hu. destruct (pretty z) as [|c s]; [done|]. cbn [forall_chars] in Hd. apply andb_true_iff in Hd as [Hc _].
  destruct c as [ [] [] [] [] [] [] [] [] ]; try discriminate Hc; reflexivity.
Qed.

(** ** Cutting texts *)

Lemma partition_first a b sep :
  forall_chars (λ c, negb (Ascii.eqb c sep)) a = true → partition sep (a +:+ String sep b) = Some (a, b).
Proof.
  induction a as [|c a IH]; [intros _; change ("" +:+ ?x) with x; cbn; by rewrite -> Ascii.eqb_refl|]. rewrite -> str_app_cons.
  cbn [forall_chars partition split_on]. intros [Hc Ha]%andb_true_iff.
  apply negb_true_iff in Hc. rewrite -> Hc. by rewrite -> IH.
Qed.

Lemma partition_none a sep :
  forall_chars (λ c, negb (Ascii.eqb c sep)) a = true → partition sep a = None.
Proof.
  induction a as [|c a IH]; cbn [forall_chars partition split_on]; [done|]. intros [Hc Ha]%andb_true_iff. apply negb_true_iff in Hc. rewrite -> Hc. by rewrite -> IH.
Qed.

Lemma digits_no (p : ascii → bool) z :
  (∀ c, is_digit c = true → p c = true) → 0 ≤ z → forall_chars p (pretty z) = true.
Proof. intros Hp Hz. eapply forall_chars_weaken; [exact Hp|]. by apply pretty_digits. Qed.

Lemma split_on_app sep a b :
  forall_chars (λ c, negb (Ascii.eqb c sep)) a = true → split_on sep (a +:+ String sep b) = a :: split_on sep b.
Proof.
  induction a as [|c a IH]; [intros _; change ("" +:+ ?x) with x; cbn; by rewrite -> Ascii.eqb_refl|]. rewrite -> str_app_cons.
  cbn [forall_chars partition split_on]. intros [Hc Ha]%andb_true_iff. apply negb_true_iff in Hc.
  rewrite -> Hc. by rewrite -> IH.
Qed.

Lemma split_on_none sep a : forall_chars (λ c, negb (Ascii.eqb c sep)) a = true → split_on sep a = [a].
Proof.
  induction a as [|c a IH]; cbn [forall_chars partition split_on]; [done|]. intros [Hc Ha]%andb_true_iff. apply negb_true_iff in Hc. by rewrite -> Hc, IH.
Qed.

Lemma split_on_join sep parts :
  parts ≠ [] → Forall (λ s, forall_chars (λ c, negb (Ascii.eqb c sep)) s = true) parts →
  split_on sep (join (String sep "") parts) = parts.
Proof.
  intros Hne Hp. induction Hp as [|a parts Ha Hp IH]; [done|]. destruct parts as [|b parts]; [by apply split_on_none|].
  change (join (String sep "") (a :: b :: parts)) with (a +:+ String sep (join (String sep "") (b :: parts))).
  rewrite -> split_on_app by done. by rewrite -> IH.
Qed.

(** A text is cut at its last separator in one way only. *)
Lemma last_sep_inj sep a1 b1 a2 b2 :
  forall_chars (λ c, negb (Ascii.eqb c sep)) b1 = true → forall_chars (λ c, negb (Ascii.eqb c sep)) b2 = true →
  a1 +:+ String sep b1 = a2 +:+ String sep b2 → a1 = a2 ∧ b1 = b2.
Proof.
  assert (Hno : ∀ a b, forall_chars (λ c, negb (Ascii.eqb c sep)) (a +:+ String sep b) = false).
  { intros a b. rewrite -> forall_chars_app. cbn [forall_chars]. by rewrite -> Ascii.eqb_refl, andb_false_r. }
  intros H1 H2. revert a2. induction a1 as [|c a1 IH]; intros [|c' a2] Heq; rewrite -> ?str_app_cons in Heq.
  - by injection Heq.
  - injection Heq as <- Heq. rewrite -> Heq, Hno in H1. done.
  - injection Heq as -> Heq. rewrite <- Heq, Hno in H2. done.
  - injection Heq as -> Heq. by destruct (IH a2 Heq) as [-> ->].
Qed.

Lemma pretty_no_sep sep (z : Z) : is_digit sep = false → sep ≠ "-"%char →
  forall_chars (λ c, negb (Ascii.eqb c sep)) (pretty z) = true.
Proof.
  intros Hd Hm.
  assert (Hpos : ∀ z, 0 ≤ z → forall_chars (λ c, negb (Ascii.eqb c sep)) (pretty z) = true).
  { intros y Hy. eapply forall_chars_weaken; [|by apply pretty_digits]. intros c Hc. apply negb_true_iff, Ascii.eqb_neq. congruence. }
  destruct z as [|x|x]; [by apply Hpos|by apply Hpos|].
  change (pretty (Z.neg x)) with (String "-" (pretty (Z.pos x))). cbn [forall_chars]. rewrite -> Hpos by lia.
  rewrite -> andb_true_r. apply negb_true_iff, Ascii.eqb_neq. congruence.
Qed.
