(* ===== verification/DeviceAffinity.v ===== *)
(** * CPU affinity of the devices

    The second half of [device.py]: which CPU cores belong to a worker and which
    to its store.  [get_cpu_affinity] finds the cores near the device, as a list
    of ranges such as [0-43,88-131], from the files and commands of the host, or
    falls back to an even split of the allowed cores over the ranks;
    [split_cores] divides every range between the worker and the store.  The
    host is a parameter: the answers it gives while the affinity is computed. *)
From S2P Require Import Prelude PyStrings.
Open Scope Z_scope.

(** ** Ranges of cores *)

Definition range_str (r : Z * Z) : string :=
  if r.1 =? r.2 then pretty r.1 else pretty r.1 +:+ "-" +:+ pretty r.2.

(** The maximal ranges of consecutive cores; [s] and [e] delimit the current one. *)
Fixpoint ranges (s e : Z) (cores : list Z) : list (Z * Z) :=
  match cores with
  | [] => [(s, e)]
  | c :: cores => if c =? e + 1 then ranges s c cores else (s, e) :: ranges c c cores
  end.

Definition cpulist (cores : list Z) : option string :=
  match cores with
  | [] => None
  | c :: cores => Some (join "," (range_str <$> ranges c c cores))
  end.

(** [sorted(set(cores))] *)
Definition py_sorted (l : list Z) : list Z := merge_sort Z.le l.
Definition _to_cpulist_str (cores : list Z) : option string := cpulist (py_sorted (remove_dups cores)).

(** The cores of one range; its ends may be swapped. *)
Definition parse_range (part : string) : res (list Z) :=
  match partition "-" part with
  | Some (x, y) =>
      a ← py_int x; b ← py_int y;
      Ok (if b <? a then py_range b (a + 1) else py_range a (b + 1))
  | None => c ← py_int part; Ok [c]
  end.

(** ** The host *)

Record host := Host {
  (** [None] when the file does not exist *)
  h_file : string → option (res string);
  h_command : list string → res string;
  h_environ : string → option string;
  (** a set of cores, listed in some order *)
  h_sched_affinity : res (list Z);
  h_device_count : Z;
  (** domain, bus and device of a CUDA device *)
  h_pci : Z → res (Z * Z * Z);
}.

Section affinity.
  Variable h : host.

(** [try: m except: r] *)
Definition catch {A} (m : res A) (r : A) : A := match m with Ok a => a | Raise _ => r end.

(** ** [split_cores] *)

Definition split_part (acc : list Z * list Z) (part : string) : res (list Z * list Z) :=
  let part := strip part in
  if String.eqb part "" then Ok acc
  else
    seg ← parse_range part;
    let mid := Z.max 1 (zlen seg / 2) in
    Ok (acc.1 ++ py_upto seg mid, acc.2 ++ py_from seg mid).

(** Worker and store cores of an affinity. *)
Definition split_affinity (cpu_affinity : option string) : list Z * list Z :=
  match cpu_affinity with
  | None | Some EmptyString => ([], [])
  | Some s =>
      catch (
        acc ← fold_res split_part ([], []) (split_on "," s);
        match acc.1 with
        | [] =>
            cores ← h_sched_affinity h;
            Ok (match py_sorted cores with [] => acc | c :: cores => ([c], cores) end)
        | _ => Ok acc
        end) ([], [])
  end.

(** ** The even split over the ranks *)

Definition slice_for_rank (cores : list Z) (total_devices local_rank : Z) : list Z :=
  let base := zlen cores / total_devices in
  let extra := zlen cores mod total_devices in
  let start := local_rank * base + Z.min local_rank extra in
  let len := base + (if local_rank <? extra then 1 else 0) in
  py_slice cores start (start + len).

(** The fallback of both devices, for a number of devices; the allowed cores are
    a set, so that the [_to_cpulist_str] of an NPU is [cpulist] on a slice. *)
Definition fallback_affinity (total_devices : res Z) (local_rank : Z) : option string :=
  catch (
    cores ← h_sched_affinity h;
    match py_sorted cores with
    | [] => Ok None
    | cores =>
        total_devices ← total_devices;
        if (total_devices <=? 0) || (local_rank <? 0) || (total_devices <=? local_rank) then Ok None
        else Ok (cpulist (slice_for_rank cores total_devices local_rank))
    end) None.

Definition visible_parts (visible : string) : list string :=
  filter (λ x, x ≠ "") (strip <$> split_on "," visible).

(** ** CUDA devices *)

Definition hex_digit (n : Z) : ascii := ascii_of_N (Z.to_N (if n <? 10 then 48 + n else 87 + n)).

(** [f"{n:0<width>x}"] for numbers of at most [fuel] digits *)
Fixpoint hex_go (fuel : nat) (n : Z) (acc : string) : string :=
  match fuel with
  | O => acc
  | S fuel => if n =? 0 then acc else hex_go fuel (n / 16) (String (hex_digit (n mod 16)) acc)
  end.
Fixpoint zeros (n : nat) : string := match n with O => "" | S n => String "0" (zeros n) end.
Definition hex_pad (width : nat) (n : Z) : string :=
  let s := hex_go 16 n "" in zeros (width - String.length s) +:+ s.

Definition cuda_numa_affinity (local_rank : Z) : res (option string) :=
  '(domain, bus, device) ← h_pci h local_rank;
  let pci_bus_id := hex_pad 4 domain +:+ ":" +:+ hex_pad 2 bus +:+ ":" +:+ hex_pad 2 device +:+ ".0" in
  match h_file h ("/sys/bus/pci/devices/" +:+ pci_bus_id +:+ "/numa_node") with
  | None => Ok None
  | Some content =>
      content ← content;
      numa_node ← py_int (strip content);
      if numa_node <? 0 then Ok None
      else match h_file h ("/sys/devices/system/node/node" +:+ pretty numa_node +:+ "/cpulist") with
           | None => Ok None
           | Some content => content ← content; Ok (Some (strip content))
           end
  end.

Definition cuda_total_devices : Z :=
  match h_environ h "CUDA_VISIBLE_DEVICES" with
  | None | Some EmptyString => h_device_count h
  | Some visible => zlen (visible_parts visible)
  end.

Definition cuda_get_cpu_affinity (local_rank : Z) : option string :=
  match catch (cuda_numa_affinity local_rank) None with
  | Some s => Some s
  | None => fallback_affinity (Ok cuda_total_devices) local_rank
  end.

(** ** NPU devices *)

Record NpuDeviceInfo := NpuInfo {
  npu_id : Z;
  chip_id : Z;
  pcie_info : option string;
  numa_id : option Z;
}.

Definition set_pcie x i := NpuInfo (npu_id i) (chip_id i) x (numa_id i).
Definition set_numa x i := NpuInfo (npu_id i) (chip_id i) (pcie_info i) x.

Abbreviation device_map := (dict Z NpuDeviceInfo).

(** The logical id of the chip, when it is a number, with its information. *)
Definition from_info_line (line : string) : res (option Z * NpuDeviceInfo) :=
  match split_ws 3 "" (strip line) with
  | [npu; chip; logic; _] =>
      logic_id ← (if isdigit logic then l ← py_int logic; Ok (Some l) else Ok None);
      npu ← py_int npu;
      chip ← py_int chip;
      Ok (logic_id, NpuInfo npu chip None None)
  | _ => Raise (ValueError "not enough values to unpack")
  end.

Definition _get_visible_device_list_from_env : res (option (list Z)) :=
  let visible := match h_environ h "ASCEND_RT_VISIBLE_DEVICES" with
                 | None | Some EmptyString => h_environ h "ASCEND_VISIBLE_DEVICES"
                 | v => v
                 end in
  match visible with
  | None | Some EmptyString => Ok None
  | Some visible => l ← map_res py_int (visible_parts visible); Ok (Some l)
  end.

Definition _get_device_id (local_rank : Z) : res Z :=
  dev_list ← _get_visible_device_list_from_env;
  match dev_list with
  | None | Some [] => Ok local_rank
  | Some dev_list => if local_rank <? zlen dev_list then py_index dev_list local_rank else Ok local_rank
  end.

Definition _get_device_map_info : res device_map :=
  out ← h_command h ["npu-smi"; "info"; "-m"];
  Ok (foldl (λ d line,
        let line := strip line in
        if String.eqb line "" then d
        else match from_info_line line with
             | Ok (Some logic_id, info) => dict_set logic_id info d
             | _ => d
             end) [] (py_from (split_on "010" (strip out)) 1)).

Definition _get_visible_devices : res (list Z) :=
  visible ← _get_visible_device_list_from_env;
  match visible with
  | None | Some [] =>
      Ok (catch (d ← _get_device_map_info; Ok (py_sorted d.*1)) (py_range 0 (h_device_count h)))
  | Some visible => Ok visible
  end.

Definition keyword : string := "PCIeBusInfo".

(** The PCI address in the output of [npu-smi]: the first line with the keyword. *)
Fixpoint find_pcie (lines : list string) : option string :=
  match lines with
  | [] => None
  | line_raw :: lines =>
      let line := squeeze line_raw in
      match drop_prefix keyword line with
      | Some rest => Some (upper (match rest with String _ s => s | EmptyString => "" end))
      | None => find_pcie lines
      end
  end.

Definition _get_pcie_info (d : device_map) : device_map :=
  (λ x, (x.1, set_pcie (catch (
     out ← h_command h ["npu-smi"; "info"; "-t"; "board"; "-i"; pretty (npu_id x.2); "-c"; pretty (chip_id x.2)];
     Ok (find_pcie (split_on "010" (strip out)))) None) x.2)) <$> d.

Fixpoint span_digits (s : string) : string * string :=
  match s with
  | String c s' => if is_digit c then let r := span_digits s' in (String c r.1, r.2) else (EmptyString, s)
  | EmptyString => (EmptyString, EmptyString)
  end.

(** [re.search(r"NUMA\s*node\s*:\s*(\d+)", s, re.IGNORECASE)] *)
Definition match_numa (s : string) : option Z :=
  s ← drop_prefix "numa" (lower s);
  s ← drop_prefix "node" (lstrip s);
  s ← drop_prefix ":" (lstrip s);
  unsigned (span_digits (lstrip s)).1.

Fixpoint search_numa (s : string) : option Z :=
  match match_numa s with
  | Some n => Some n
  | None => match s with EmptyString => None | String _ s => search_numa s end
  end.

Definition numa_of (info : NpuDeviceInfo) : NpuDeviceInfo :=
  match pcie_info info with
  | None | Some EmptyString => info
  | Some pcie =>
      let sysfs := catch (
        match h_file h ("/sys/bus/pci/devices/" +:+ lower pcie +:+ "/numa_node") with
        | None => Ok None
        | Some content =>
            content ← content;
            n ← py_int (strip content);
            Ok (if n <? 0 then None else Some n)
        end) None in
      match sysfs with
      | Some n => set_numa (Some n) info
      | None =>
          match h_command h ["/usr/bin/lspci"; "-s"; pcie; "-vvv"] with
          | Ok out => match search_numa out with Some n => set_numa (Some n) info | None => info end
          | Raise _ => info
          end
      end
  end.

Definition _get_numa_info (d : device_map) : device_map := (λ x, (x.1, numa_of x.2)) <$> d.

(** The number of NUMA nodes in the output of [lscpu]. *)
Fixpoint count_numa_nodes (lines : list string) : Z :=
  match lines with
  | [] => 1
  | line_raw :: lines =>
      let line := squeeze line_raw in
      if contains "NUMAnode(s)" line
      then catch (py_int (default "" (list.last (split_on ":" line)))) 1
      else count_numa_nodes lines
  end.

(** How many devices each node gets, and the devices of every node. *)
Definition device_counts (devices numa_nodes : Z) : list Z :=
  (λ i, devices / numa_nodes + (if i <? devices mod numa_nodes then 1 else 0)) <$> py_range 0 numa_nodes.

Fixpoint distribute (numa : Z) (counts : list Z) (devices : list Z) : list (Z * Z) :=
  match counts with
  | [] => []
  | n :: counts =>
      ((λ d, (d, numa)) <$> py_upto devices n) ++ distribute (numa + 1) counts (py_from devices n)
  end.

Definition _get_numa_info_v2 (d : device_map) (devices : list Z) : res device_map :=
  out ← h_command h ["lscpu"];
  let numa_nodes := count_numa_nodes (split_on "010" out) in
  if numa_nodes =? 0 then Raise ZeroDivisionError
  else Ok (foldl (λ d x, match dict_get x.1 d with
                         | Some info => dict_set x.1 (set_numa (Some x.2) info) d
                         | None => d
                         end) d (distribute 0 (device_counts (zlen devices) numa_nodes) devices)).

(** [re.match(r"NUMA node(\d+) CPU\(s\):\s*(.*)", line)] *)
Definition match_numa_cpus (line : string) : option (Z * string) :=
  s ← drop_prefix "NUMA node" line;
  let '(digits, s) := span_digits s in
  n ← unsigned digits;
  s ← drop_prefix " CPU(s):" s;
  Some (n, lstrip s).

Definition parse_ranges (s : string) : res (list Z) :=
  parts ← map_res parse_range (filter (λ x, x ≠ "") (strip <$> split_on "," s));
  Ok (concat parts).

Definition _get_cpu_info (numa_ids : list Z) : res (dict Z (list Z)) :=
  out ← h_command h ["lscpu"];
  fold_res (λ d line,
    match match_numa_cpus line with
    | Some (n, s) => if decide (n ∈ numa_ids) then r ← parse_ranges s; Ok (dict_set n r d) else Ok d
    | None => Ok d
    end) [] (split_on "010" out).

(** One line of [lscpu -e]: a node and its socket. *)
Definition socket_pair (line : string) : res (option (Z * Z)) :=
  match words line with
  | [cpu; node; socket] =>
      if String.eqb (upper cpu) "CPU" || negb (isdigit node && isdigit socket) then Ok None
      else n ← py_int node; s ← py_int socket; Ok (Some (n, s))
  | _ => Ok None
  end.

(** The socket of every node, its last one if several are listed, and the nodes
    of every socket in order. *)
Definition _get_node_socket_map : res (dict Z Z * dict Z (list Z)) :=
  out ← h_command h ["lscpu"; "-e=cpu,node,socket"];
  pairs ← map_res socket_pair (split_lines out);
  let pairs := omap (M := list) id pairs in
  Ok (foldl (λ d x, dict_set x.1 x.2 d) [] pairs,
      (λ x, (x.1, py_sorted (remove_dups x.2))) <$>
        foldl (λ d x, dict_set x.2 (dict_get_default x.2 [] d ++ [x.1]) d) [] pairs).

Definition _merge_cpulist_parts (cpulist_parts : list string) : option string :=
  match filter (λ x, x ≠ "") (strip <$> cpulist_parts) with [] => None | parts => Some (join "," parts) end.

Definition npu_total_devices : res Z :=
  visible ← _get_visible_device_list_from_env;
  Ok (match visible with None | Some [] => h_device_count h | Some l => zlen l end).

(** The cores of the socket of a device, [None] where the code falls back. *)
Definition npu_socket_affinity (device_id : Z) : res (option string) :=
  devices ← _get_visible_devices;
  d ← _get_device_map_info;
  match d with
  | [] => Ok None
  | _ =>
      let d := _get_numa_info (_get_pcie_info d) in
      d ← (if existsb (λ x, match dict_get x d with Some i => bool_decide (is_Some (numa_id i)) | None => false end) devices
           then Ok d else _get_numa_info_v2 d devices);
      match dict_get device_id d ≫= numa_id with
      | None => Ok None
      | Some numa =>
          '(node_to_socket, socket_to_nodes) ← _get_node_socket_map;
          match dict_get numa node_to_socket with
          | None => Ok None
          | Some socket =>
              let local_numa_ids := py_sorted (dict_get_default socket [numa] socket_to_nodes) in
              cpu_idx_tbl ← _get_cpu_info local_numa_ids;
              Ok (_merge_cpulist_parts (omap (M := list)
                    (λ nid, _to_cpulist_str (dict_get_default nid [] cpu_idx_tbl)) local_numa_ids))
          end
      end
  end.

(** A visible-device list that does not parse raises. *)
Definition npu_get_cpu_affinity (local_rank : Z) : res (option string) :=
  device_id ← _get_device_id local_rank;
  Ok (match catch (npu_socket_affinity device_id) None with
      | Some s => Some s
      | None => fallback_affinity npu_total_devices local_rank
      end).

(** [split_cores] of the two classes. *)
Definition cuda_split_cores (local_rank : Z) : list Z * list Z :=
  split_affinity (cuda_get_cpu_affinity local_rank).
Definition npu_split_cores (local_rank : Z) : res (list Z * list Z) :=
  a ← npu_get_cpu_affinity local_rank; Ok (split_affinity a).

End affinity.
