(* ===== verification/DeviceAffinityProps.v ===== *)
(** * What the CPU affinity guarantees

    Numbers and ranges of cores survive the round trip through their text; the
    even split gives every allowed core to exactly one rank, and [split_cores]
    gives every core of a rank to its worker or to its store. *)
From S2P Require Import Prelude PyStrings DeviceAffinity.
Open Scope Z_scope.

(** ** Ranges as text *)

Lemma digit_no_sep c : is_digit c = true → negb (Ascii.eqb c "-") = true ∧ negb (Ascii.eqb c ",") = true.
Proof. destruct c as [ [] [] [] [] [] [] [] [] ]; vm_compute; done. Qed.

Lemma parse_range_str s e : 0 ≤ s ≤ e → parse_range (range_str (s, e)) = Ok (seqZ s (e - s + 1)).
Proof.
  intros Hse. unfold parse_range, range_str. cbn [fst snd]. destruct (Z.eqb_spec s e) as [<-|Hne].
  - rewrite -> partition_none by (apply digits_no; [|lia]; intros c Hc; by apply digit_no_sep).
    rewrite -> py_int_pretty by lia. cbn. replace (s - s + 1) with 1 by lia. by rewrite -> seqZ_cons, seqZ_nil by lia.
  - change ("-" +:+ pretty e) with (String "-" (pretty e)).
    rewrite -> partition_first by (apply digits_no; [|lia]; intros c Hc; by apply digit_no_sep).
    rewrite -> !py_int_pretty by lia. cbn [mbind res_bind]. rewrite -> (proj2 (Z.ltb_ge _ _)) by lia.
    unfold py_range. do 2 f_equal. lia.
Qed.

(** A range has no comma and no white space, and is not empty. *)
Lemma range_str_chars s e : 0 ≤ s ≤ e →
  forall_chars (λ c, negb (Ascii.eqb c ",")) (range_str (s, e)) = true ∧ strip (range_str (s, e)) = range_str (s, e) ∧
  range_str (s, e) ≠ "".
Proof.
  intros Hse. destruct (pretty_digits s ltac:(lia)) as (_ & _ & Hne).
  assert (Hall : ∀ p : ascii → bool, (∀ c, is_digit c = true → p c = true) → p "-"%char = true →
    forall_chars p (range_str (s, e)) = true).
  { intros p Hp Hd. unfold range_str. cbn [fst snd]. destruct (s =? e); [by apply digits_no; [|lia]|].
    rewrite -> !forall_chars_app. rewrite -> !(digits_no p) by (done || lia). cbn [forall_chars]. by rewrite -> Hd. }
  split; [apply Hall; [|done]; intros c Hc; by apply digit_no_sep|]. split.
  - apply strip_id, Hall; [|done]. intros c Hc. by rewrite -> digit_not_space.
  - unfold range_str. cbn [fst snd]. destruct (s =? e); [done|]. by destruct (pretty s).
Qed.

Definition range_cores (r : Z * Z) : list Z := seqZ r.1 (r.2 - r.1 + 1).

Lemma ranges_spec cores : ∀ s e, 0 ≤ s ≤ e → Forall (λ c, 0 ≤ c) cores →
  concat (range_cores <$> ranges s e cores) = seqZ s (e - s + 1) ++ cores ∧
  Forall (λ r, 0 ≤ r.1 ≤ r.2) (ranges s e cores).
Proof.
  induction cores as [|c cores IH]; intros s e Hse Hc; cbn [ranges].
  - split; [done|by apply Forall_singleton].
  - apply Forall_cons in Hc as [Hc Hcs]. destruct (Z.eqb_spec c (e + 1)) as [->|Hne].
    + destruct (IH s (e + 1)) as [-> Hf]; [lia|done|]. split; [|done].
      replace (e + 1 - s + 1) with ((e - s + 1) + 1) by lia. rewrite -> seqZ_app by lia. rewrite <- app_assoc. f_equal.
      rewrite -> seqZ_cons, seqZ_nil by lia. cbn. f_equal. lia.
    + destruct (IH c c) as [Heq Hf]; [lia|done|]. split; [|by constructor]. csimpl. rewrite -> Heq.
      unfold range_cores at 1. cbn [fst snd]. f_equal. replace (c - c + 1) with 1 by lia. by rewrite -> seqZ_cons, seqZ_nil by lia.
Qed.

(** The text of some cores, cut at the commas, and what it stands for. *)
Lemma cpulist_parts c cores : Forall (λ c, 0 ≤ c) (c :: cores) →
  ∃ rs s, cpulist (c :: cores) = Some s ∧ s ≠ "" ∧ split_on "," s = range_str <$> rs ∧ rs ≠ [] ∧
    Forall (λ r, 0 ≤ r.1 ≤ r.2) rs ∧ concat (range_cores <$> rs) = c :: cores.
Proof.
  intros Hc. pose proof Hc as [Hc0 Hcs]%Forall_cons. destruct (ranges_spec cores c c) as [Heq Hf]; [lia|done|].
  set (rs := ranges c c cores) in *. assert (Hne : rs ≠ []).
  { intros He. rewrite -> He in Heq. replace (c - c + 1) with 1 in Heq by lia. by rewrite -> seqZ_cons in Heq. }
  assert (Hsplit : split_on "," (join "," (range_str <$> rs)) = range_str <$> rs).
  { apply split_on_join; [by destruct rs|]. apply Forall_fmap. eapply Forall_impl; [exact Hf|]. intros [s e] Hr. by apply range_str_chars. }
  exists rs, (join "," (range_str <$> rs)). split; [done|]. split.
  { intros He. rewrite -> He in Hsplit. cbn in Hsplit. destruct rs as [|[s e] rs']; [done|]. injection Hsplit as Hs _.
    apply Forall_cons in Hf as [Hr _]. by destruct (range_str_chars s e Hr) as (_ & _ & []). }
  split; [done|]. split; [done|]. split; [done|]. rewrite -> Heq. replace (c - c + 1) with 1 by lia.
  by rewrite -> seqZ_cons, seqZ_nil by lia.
Qed.

(** Reading back the ranges of a text. *)
Lemma parse_range_strs rs : Forall (λ r, 0 ≤ r.1 ≤ r.2) rs →
  (parts ← map_res parse_range (filter (λ x, x ≠ "") (strip <$> (range_str <$> rs))); Ok (concat parts)) =
  Ok (concat (range_cores <$> rs)).
Proof.
  intros Hr. assert (Hf : filter (λ x, x ≠ "") (strip <$> (range_str <$> rs)) = range_str <$> rs ∧
    map_res parse_range (range_str <$> rs) = Ok (range_cores <$> rs)).
  { induction Hr as [|[a b] rs Hr Hrs [IH1 IH2] ]; [done|]. destruct (range_str_chars a b Hr) as (_ & Hstrip & Hne). csimpl.
    rewrite -> Hstrip, filter_cons, decide_True, IH1 by done. split; [done|]. cbn [map_res].
    rewrite -> parse_range_str by done. cbn [mbind res_bind]. by rewrite -> IH2. }
  destruct Hf as [-> Hm]. by rewrite -> Hm.
Qed.

(** ** [split_cores] *)

Lemma split_seg_perm (seg : list Z) mid : 0 ≤ mid → py_upto seg mid ++ py_from seg mid = seg.
Proof. intros Hm. rewrite -> py_upto_pos, py_from_pos by done. apply take_drop. Qed.

(** Splitting ranges keeps every core, and gives the worker one per range. *)
Lemma split_ranges rs : ∀ acc, Forall (λ r, 0 ≤ r.1 ≤ r.2) rs →
  ∃ w s, fold_res split_part acc (range_str <$> rs) = Ok (acc.1 ++ w, acc.2 ++ s) ∧
    w ++ s ≡ₚ concat (range_cores <$> rs) ∧ zlen rs ≤ zlen w.
Proof.
  induction rs as [|r rs IH]; intros acc Hr.
  - exists [], []. rewrite -> !app_nil_r. by destruct acc.
  - apply Forall_cons in Hr as [Hr Hrs]. destruct r as [a b]. cbn [fst snd] in Hr.
    destruct (range_str_chars a b Hr) as (_ & Hstrip & Hne). set (seg := seqZ a (b - a + 1)).
    set (mid := Z.max 1 (zlen seg / 2)).
    assert (Hmid : 1 ≤ mid) by (unfold mid; lia).
    assert (Hseg : 1 ≤ zlen seg) by (unfold seg, zlen; rewrite -> length_seqZ; lia).
    destruct (IH (acc.1 ++ py_upto seg mid, acc.2 ++ py_from seg mid) Hrs) as (w & s & Hrun & Hp & Hl).
    assert (Hstep : split_part acc (range_str (a, b)) = Ok (acc.1 ++ py_upto seg mid, acc.2 ++ py_from seg mid)).
    { unfold split_part. rewrite -> Hstrip, (proj2 (String.eqb_neq _ _)) by done. by rewrite -> parse_range_str by done. }
    exists (py_upto seg mid ++ w), (py_from seg mid ++ s). cbn [fmap list_fmap fold_res]. rewrite -> Hstep.
    cbn [mbind res_bind]. rewrite -> Hrun. cbn [fst snd]. split; [by rewrite <- !app_assoc|]. split.
    + csimpl. change (range_cores (a, b)) with seg. rewrite <- Hp.
      rewrite <- (split_seg_perm seg mid) at 3 by lia. solve_Permutation.
    + rewrite -> zlen_cons, zlen_app. assert (1 ≤ zlen (py_upto seg mid)); [|lia].
      rewrite -> py_upto_pos by lia. unfold zlen in *. rewrite -> length_take. lia.
Qed.

(** The affinity written for some cores gives all of them, the worker at least
    one, when it is split. *)
Lemma split_affinity_cores h cores :
  cores ≠ [] → Forall (λ c, 0 ≤ c) cores →
  ∃ w s, split_affinity h (cpulist cores) = (w, s) ∧ w ++ s ≡ₚ cores ∧ w ≠ [].
Proof.
  intros Hne Hc. destruct cores as [|c cores]; [done|].
  destruct (cpulist_parts c cores Hc) as (rs & str & -> & Hstr & Hsplit & Hrs & Hf & Hcat).
  destruct (split_ranges rs ([], []) Hf) as (w & s & Hrun & Hp & Hl). exists w, s.
  assert (Hw : w ≠ []) by (intros ->; destruct rs; [done|]; rewrite -> zlen_cons in Hl; change (zlen []) with 0 in Hl; pose proof (zlen_nonneg rs); lia).
  unfold split_affinity. destruct str as [|a str]; [done|]. rewrite -> Hsplit, Hrun. cbn.
  rewrite -> Hcat in Hp. by destruct w.
Qed.

(** ** The even split *)

Section slices.
Variables (cores : list Z) (n : Z).
Hypothesis Hn : 0 < n.

Let base : Z := zlen cores / n.
Let extra : Z := zlen cores mod n.

(** Where the slice of a rank starts; the one of rank [n] would start at the end. *)
Definition slice_start (r : Z) : Z := r * base + Z.min r extra.

Lemma extra_bound : 0 ≤ extra < n.
Proof using Hn. by apply Z.mod_pos_bound. Qed.

Lemma base_nonneg : 0 ≤ base.
Proof using Hn. apply Z.div_pos; [apply zlen_nonneg|done]. Qed.

Lemma slice_start_nonneg r : 0 ≤ r → 0 ≤ slice_start r.
Proof using Hn. intros Hr. unfold slice_start. pose proof base_nonneg. pose proof extra_bound. nia. Qed.

Lemma slice_start_last : slice_start n = zlen cores.
Proof using Hn.
  unfold slice_start. pose proof extra_bound. rewrite -> Z.min_r by lia. unfold base, extra.
  pose proof (Z.div_mod (zlen cores) n). lia.
Qed.

Lemma slice_start_step r : slice_start (r + 1) - slice_start r = base + (if r <? extra then 1 else 0).
Proof using Hn. unfold slice_start. destruct (Z.ltb_spec r extra); lia. Qed.

Lemma slice_start_mono r : slice_start r ≤ slice_start (r + 1).
Proof using Hn. pose proof (slice_start_step r). pose proof base_nonneg. destruct (r <? extra); lia. Qed.

Lemma slice_for_rank_eq r : slice_for_rank cores n r = py_slice cores (slice_start r) (slice_start (r + 1)).
Proof using Hn.
  unfold slice_for_rank. f_equal. pose proof (slice_start_step r). unfold slice_start, base, extra in *. lia.
Qed.

(** The slices of the first ranks are the first cores. *)
Lemma slices_prefix (m : nat) :
  concat (slice_for_rank cores n <$> py_range 0 (Z.of_nat m)) = py_slice cores 0 (slice_start (Z.of_nat m)).
Proof using Hn.
  induction m as [|m IH].
  - cbn. rewrite -> py_slice_empty; [done|]. unfold slice_start. pose proof extra_bound. lia.
  - unfold py_range in *. rewrite -> Z.sub_0_r in *. rewrite -> Nat2Z.inj_succ, <- Z.add_1_r.
    rewrite -> seqZ_app by lia. rewrite -> fmap_app, concat_app, IH. rewrite -> (seqZ_cons (0 + Z.of_nat m)), seqZ_nil by lia. csimpl.
    rewrite -> app_nil_r, Z.add_0_l, slice_for_rank_eq. apply py_slice_app.
    + split; [done|]. apply slice_start_nonneg. lia.
    + apply slice_start_mono.
Qed.

Lemma slices_concat : concat (slice_for_rank cores n <$> py_range 0 n) = cores.
Proof using Hn.
  pose proof (slices_prefix (Z.to_nat n)) as Hp. rewrite -> Z2Nat.id in Hp by lia. rewrite -> Hp, slice_start_last.
  apply py_slice_full.
Qed.

Lemma slice_start_le r : 0 ≤ r < n → slice_start (r + 1) ≤ zlen cores.
Proof using Hn.
  intros Hr. rewrite <- slice_start_last. unfold slice_start. pose proof base_nonneg. pose proof extra_bound. nia.
Qed.

Lemma slice_size r : 0 ≤ r < n → zlen (slice_for_rank cores n r) = base + (if r <? extra then 1 else 0).
Proof using Hn.
  intros Hr. rewrite -> slice_for_rank_eq, py_slice_length, slice_start_step; [done| |by apply slice_start_le].
  split; [apply slice_start_nonneg; lia|apply slice_start_mono].
Qed.

End slices.

(** ** Properties *)

(** Writing cores as a list of ranges and reading the text back gives the
    cores again, sorted and without duplicates: [_to_cpulist_str] and the parsing
    of [_get_cpu_info] agree on the format, however the cores are spread. *)
Theorem cpulist_round_trip cores :
  cores ≠ [] → Forall (λ c, 0 ≤ c) cores →
  ∃ s, _to_cpulist_str cores = Some s ∧ parse_ranges s = Ok (py_sorted (remove_dups cores)).
Proof.
  intros Hne Hc. unfold _to_cpulist_str. set (l := py_sorted (remove_dups cores)).
  assert (Hp : l ≡ₚ remove_dups cores) by apply merge_sort_Permutation.
  assert (Hl : Forall (λ c, 0 ≤ c) l).
  { apply Forall_forall. intros c Hin. rewrite -> Hp, elem_of_remove_dups in Hin. exact (proj1 (Forall_forall _ _) Hc c Hin). }
  destruct l as [|c l'] eqn:El.
  { apply Permutation_nil_l in Hp. destruct cores as [|c cores]; [done|].
    assert (Hin : c ∈ remove_dups (c :: cores)) by (rewrite -> elem_of_remove_dups; by left). rewrite <- Hp in Hin. by apply elem_of_nil in Hin. }
  destruct (cpulist_parts c l' Hl) as (rs & s & Hs & _ & Hsplit & _ & Hf & Hcat). exists s. split; [done|].
  unfold parse_ranges. rewrite -> Hsplit. rewrite <- Hcat. by apply parse_range_strs.
Qed.

Lemma cpulist_round_trip_witness :
  _to_cpulist_str [3; 0; 1; 7; 1; 2] = Some "0-3,7" ∧
  ∃ s, _to_cpulist_str [3; 0; 1; 7; 1; 2] = Some s ∧ parse_ranges s = Ok (py_sorted (remove_dups [3; 0; 1; 7; 1; 2])).
Proof.
  split; [vm_compute; reflexivity|]. apply cpulist_round_trip; [discriminate|].
  repeat (apply Forall_cons; split; [vm_compute; discriminate|]). apply Forall_nil; exact I.
Defined.

(** When the affinity comes from the even split, every allowed core goes to
    exactly one of the ranks, and on its rank to the worker or to the store: the
    slices of the ranks in order are the allowed cores, their sizes differ by at
    most one, the two lists [split_cores] returns for a rank are its slice, and a
    rank that got a core has one for its worker. *)
Theorem affinity_ranks_share_cores h cores n :
  h_sched_affinity h = Ok cores → Forall (λ c, 0 ≤ c) cores → 0 < n →
  let sorted := py_sorted cores in
  let split r := split_affinity h (fallback_affinity h (Ok n) r) in
  concat (slice_for_rank sorted n <$> py_range 0 n) = sorted ∧
  (∀ r, 0 ≤ r < n →
     (split r).1 ++ (split r).2 ≡ₚ slice_for_rank sorted n r ∧
     zlen cores / n ≤ zlen (slice_for_rank sorted n r) ≤ zlen cores / n + 1 ∧
     (slice_for_rank sorted n r ≠ [] → (split r).1 ≠ [])).
Proof.
  intros Hs Hc Hn sorted split. assert (Hp : sorted ≡ₚ cores) by apply merge_sort_Permutation.
  assert (Hlen : zlen sorted = zlen cores) by (unfold zlen; by rewrite -> Hp).
  split; [by apply slices_concat|]. intros r Hr. pose proof (slice_size sorted n Hn r Hr) as Hsz. rewrite -> Hlen in Hsz.
  assert (Hpos : Forall (λ c, 0 ≤ c) (slice_for_rank sorted n r)).
  { rewrite -> slice_for_rank_eq by done. rewrite -> py_slice_pos; [|by apply slice_start_nonneg; lia|apply slice_start_nonneg; lia].
    apply Forall_take, Forall_drop. by rewrite -> Hp. }
  assert (Hfall : fallback_affinity h (Ok n) r = cpulist (slice_for_rank sorted n r)).
  { unfold fallback_affinity. rewrite -> Hs. cbn [mbind res_bind]. fold sorted. destruct sorted as [|c l] eqn:El.
    - unfold slice_for_rank. unfold py_slice. by rewrite -> drop_nil, take_nil.
    - cbn [mbind res_bind]. rewrite -> (proj2 (Z.leb_gt _ _)), (proj2 (Z.ltb_ge _ _)), (proj2 (Z.leb_gt _ _)) by lia. done. }
  split; [|split].
  - unfold split. rewrite -> Hfall. destruct (decide (slice_for_rank sorted n r = [])) as [->|Hne]; [done|].
    destruct (split_affinity_cores h _ Hne Hpos) as (w & s & -> & Hws & _). done.
  - rewrite -> Hsz. destruct (_ <? _); lia.
  - intros Hne. unfold split. rewrite -> Hfall. by destruct (split_affinity_cores h _ Hne Hpos) as (w & s & -> & _ & Hw).
Qed.

Definition example_host : host :=
  Host (λ _, None) (λ _, Raise (RuntimeError "no such command")) (λ _, None) (Ok [5; 0; 1; 2; 8]) 2 (λ _, Raise (RuntimeError "no device")).

Lemma affinity_ranks_share_cores_witness :
  cuda_split_cores example_host 0 = ([0], [1; 2]) ∧ cuda_split_cores example_host 1 = ([5; 8], []) ∧
  concat (slice_for_rank (py_sorted [5; 0; 1; 2; 8]) 2 <$> py_range 0 2) = py_sorted [5; 0; 1; 2; 8].
Proof.
  split; [vm_compute; reflexivity|]. split; [vm_compute; reflexivity|].
  refine (proj1 (affinity_ranks_share_cores example_host [5; 0; 1; 2; 8] 2 eq_refl _ eq_refl)).
  repeat (apply Forall_cons; split; [vm_compute; discriminate|]). apply Forall_nil; exact I.
Defined.

(** A visible-device list that is no list of numbers makes the affinity of an NPU
    raise, where every other failure falls back to the even split. *)
Example npu_malformed_list_raises :
  npu_split_cores (Host (λ _, None) (λ _, Raise (RuntimeError "no such command"))
    (λ v, if String.eqb v "ASCEND_RT_VISIBLE_DEVICES" then Some "npu0" else None) (Ok [0; 1]) 1
    (λ _, Raise (RuntimeError "no device"))) 0
  = Raise (ValueError "invalid literal for int() with base 10").
Proof. by vm_compute. Qed.
