(* ===== verification/RankConsistency.v ===== *)
(** * Cross-rank consistency of stored blocks

    [ucm/integration/vllm/rank_consistency.py]: the scheduler-side tracker of
    blocks missing on some rank, the manager wrapped around every store call,
    and the worker-to-scheduler metadata [UCMWorkerMetadata] of
    [ucm_connector.py]. *)
From S2P Require Import Prelude Runtime.
Open Scope Z_scope.

(** [UCMWorkerMetadata] *)
Record worker_meta := WorkerMeta {
  wm_is_mla : bool;
  wm_load_failed_reqs : gset string;
  wm_missing_reqs : gset string;
  wm_missing_blocks : gset bytes;
  wm_dump_succeeded_blocks : gset bytes;
}.

Definition empty_worker_meta (is_mla : bool) : worker_meta :=
  WorkerMeta is_mla ∅ ∅ ∅ ∅.

Definition wm_mark_failed (req_id : string) (m : worker_meta) : worker_meta :=
  WorkerMeta (wm_is_mla m) ({[req_id]} ∪ wm_load_failed_reqs m)
    (wm_missing_reqs m) (wm_missing_blocks m) (wm_dump_succeeded_blocks m).

Definition wm_mark_missing (req_id : string) (rank0_block_ids : list bytes)
    (m : worker_meta) : worker_meta :=
  WorkerMeta (wm_is_mla m) (wm_load_failed_reqs m)
    ({[req_id]} ∪ wm_missing_reqs m)
    (list_to_set rank0_block_ids ∪ wm_missing_blocks m)
    (wm_dump_succeeded_blocks m).

(** [UCMWorkerMetadata.aggregate]; the two [assert]s are the [Raise]. *)
Definition aggregate (m other : worker_meta) : res worker_meta :=
  if decide (wm_is_mla m = wm_is_mla other) then
    Ok (WorkerMeta (wm_is_mla m)
      (wm_load_failed_reqs m ∪ wm_load_failed_reqs other)
      (wm_missing_reqs m ∪ wm_missing_reqs other)
      (wm_missing_blocks m ∪ wm_missing_blocks other)
      (if wm_is_mla m
       then wm_dump_succeeded_blocks m ∪ wm_dump_succeeded_blocks other
       else wm_dump_succeeded_blocks m ∩ wm_dump_succeeded_blocks other))
  else Raise AssertionError.

(** ** The tracker *)

Module Tracker.

(** A Python [set] fixes neither the order it iterates in nor the element
    [pop] removes; both are parameters of the tracker. *)
Class SetOrder := {
  set_iter : gset bytes → list bytes;
  set_pop : gset bytes → option bytes;
}.

Class SetOrderLaws `{SetOrder} := {
  set_iter_perm X : set_iter X ≡ₚ elements X;
  set_pop_elem X : X ≠ ∅ → ∃ x, set_pop X = Some x ∧ x ∈ X;
}.

(** [RankConsistencyTracker._inconsistent] *)
Abbreviation tracker := (gset bytes).

Definition MAX_INCONSISTENT_BLOCKS : Z := 2000000.

Section tracker.
  Context `{SetOrder}.

(** One iteration of the loop of [mark_missing]: the set, [added], [evicted]. *)
Definition mark_missing_step (acc : tracker * Z * Z) (block_id : bytes)
    : tracker * Z * Z :=
  let '(inc, added, evicted) := acc in
  if decide (block_id ∈ inc) then acc else
  let '(inc, evicted) :=
    if decide (MAX_INCONSISTENT_BLOCKS ≤ Z.of_nat (size inc))
    then (match set_pop inc with Some x => inc ∖ {[x]} | None => inc end, evicted + 1)
    else (inc, evicted) in
  ({[block_id]} ∪ inc, added + 1, evicted).

(** [mark_missing], which returns [added]. *)
Definition mark_missing (rank0_block_ids : gset bytes) (t : tracker) : Z * tracker :=
  let '(t', added, _) := foldl mark_missing_step (t, 0, 0) (set_iter rank0_block_ids) in
  (added, t').

Definition clear_dumped (rank0_block_ids : gset bytes) (t : tracker) : Z * tracker :=
  let before := Z.of_nat (size t) in
  let t' := t ∖ rank0_block_ids in
  (before - Z.of_nat (size t'), t').

(** The index of the first inconsistent block. *)
Fixpoint first_inconsistent (t : tracker) (block_ids : list bytes) : option nat :=
  match block_ids with
  | [] => None
  | b :: l => if decide (b ∈ t) then Some 0%nat else S <$> first_inconsistent t l
  end.

Definition valid_prefix (t : tracker) (block_ids : list bytes) : list bytes :=
  match first_inconsistent t block_ids with
  | Some index => take index block_ids
  | None => block_ids
  end.

End tracker.
End Tracker.
Export Tracker.

(** ** The manager *)

Module Manager.

(** [RankConsistencyManager]; the dictionaries from task identities and request
    ids are only looked up, so they are finite maps. *)
Record manager := Manager {
  enabled : bool;
  tracker_ : option tracker;
  missing_reqs : gset string;
  missing_blocks : gset bytes;
  dump_succeeded_blocks : gset bytes;
  load_task_contexts : gmap task (sref * dict string (list bytes));
  dump_task_contexts : gmap task (sref * dict string (gset bytes));
  dump_blocks_by_request : gmap string (gset bytes);
  dump_failed_blocks_by_request : gmap string (gset bytes);
}.

(** [RankConsistencyManager.__init__] *)
Definition init_manager (is_scheduler use_consistency_manager : bool) : manager :=
  Manager use_consistency_manager
    (if is_scheduler && use_consistency_manager then Some ∅ else None)
    ∅ ∅ ∅ ∅ ∅ ∅ ∅.

Definition set_tracker t m := Manager (enabled m) t (missing_reqs m) (missing_blocks m)
  (dump_succeeded_blocks m) (load_task_contexts m) (dump_task_contexts m)
  (dump_blocks_by_request m) (dump_failed_blocks_by_request m).
Definition set_load_ctx c m := Manager (enabled m) (tracker_ m) (missing_reqs m)
  (missing_blocks m) (dump_succeeded_blocks m) c (dump_task_contexts m)
  (dump_blocks_by_request m) (dump_failed_blocks_by_request m).
Definition set_dump_ctx c m := Manager (enabled m) (tracker_ m) (missing_reqs m)
  (missing_blocks m) (dump_succeeded_blocks m) (load_task_contexts m) c
  (dump_blocks_by_request m) (dump_failed_blocks_by_request m).
Definition set_dump_blocks b m := Manager (enabled m) (tracker_ m) (missing_reqs m)
  (missing_blocks m) (dump_succeeded_blocks m) (load_task_contexts m)
  (dump_task_contexts m) b (dump_failed_blocks_by_request m).
Definition set_dump_failed b m := Manager (enabled m) (tracker_ m) (missing_reqs m)
  (missing_blocks m) (dump_succeeded_blocks m) (load_task_contexts m)
  (dump_task_contexts m) (dump_blocks_by_request m) b.

(** [d.setdefault(k, set()).update(x)] *)
Definition set_update (k : string) (x : gset bytes) (d : gmap string (gset bytes))
    : gmap string (gset bytes) :=
  <[k := default ∅ (d !! k) ∪ x]> d.

Definition update_all (l : dict string (gset bytes)) (d : gmap string (gset bytes))
    : gmap string (gset bytes) :=
  foldl (λ d kv, set_update kv.1 kv.2 d) d l.

(** [_mark_load_context_missing] *)
Definition mark_load_context_missing (ctx : dict string (list bytes)) (m : manager)
    : manager :=
  foldl (λ m kv,
    Manager (enabled m) (tracker_ m) ({[kv.1]} ∪ missing_reqs m)
      (list_to_set kv.2 ∪ missing_blocks m) (dump_succeeded_blocks m)
      (load_task_contexts m) (dump_task_contexts m) (dump_blocks_by_request m)
      (dump_failed_blocks_by_request m)) m ctx.

(** [_record_dump_failure] *)
Definition record_dump_failure (ctx : dict string (gset bytes)) (m : manager) : manager :=
  set_dump_failed (update_all ctx (dump_failed_blocks_by_request m)) m.

Section manager.
  Context {W : Type} `{StoreOps W} `{SetOrder}.

Definition on_store {A} (m : M W A) : M (manager * W) A :=
  lift snd (λ w s, (s.1, w)) m.
Definition upd (f : manager → manager) : M (manager * W) unit :=
  modify (λ s, (f s.1, s.2)).

Definition lookup_on_prefix (store : sref) (block_ids : list bytes)
    : M (manager * W) Z :=
  m ← gets fst;
  if negb (enabled m) then on_store (st_lookup_on_prefix store block_ids) else
  let block_ids := match tracker_ m with
                   | Some t => valid_prefix t block_ids
                   | None => block_ids
                   end in
  match block_ids with
  | [] => mret (-1)
  | _ => on_store (st_lookup_on_prefix store block_ids)
  end.

Definition lookup_all (store : sref) (block_ids : list bytes)
    : M (manager * W) (list bool) :=
  results ← on_store (st_lookup store block_ids);
  m ← gets fst;
  match tracker_ m with
  | None => mret results
  | Some t => mret (zip_with (λ b (r : bool), if decide (b ∈ t) then false else r)
                             block_ids results)
  end.

(** Re-raises after recording a [StoreNotFoundError] against the requests. *)
Definition classify_load_error (ctx : dict string (list bytes)) {A} (e : exn)
    : M (manager * W) A :=
  m ← gets fst;
  (if enabled m && bool_decide (e = StoreNotFoundError)
   then upd (mark_load_context_missing ctx) else mret tt) ;;
  raise e.

Definition submit_load (store : sref) (block_ids_by_request : dict string (list bytes))
    (block_ids : list bytes) (shard_indices : list Z) (ptrs : addr_rows)
    : M (manager * W) task :=
  m ← gets fst;
  let request_context := if enabled m then block_ids_by_request else [] in
  t ← try_except (on_store (st_load_data store block_ids shard_indices ptrs))
                 (classify_load_error request_context);
  upd (λ m, set_load_ctx (<[t := (store, request_context)]> (load_task_contexts m)) m) ;;
  mret t.

Definition wait_load (t : task) : M (manager * W) unit :=
  m ← gets fst;
  match load_task_contexts m !! t with
  | None => raise (RuntimeError "Load task was not submitted through submit_load().")
  | Some (store, request_context) =>
      upd (λ m, set_load_ctx (delete t (load_task_contexts m)) m) ;;
      try_except (on_store (st_wait store t)) (classify_load_error request_context)
  end.

Definition submit_dump (store : sref) (block_ids_by_request : dict string (gset bytes))
    (block_ids : list bytes) (shard_indices : list Z) (ptrs : addr_rows)
    (event_handle : Z) : M (manager * W) task :=
  m ← gets fst;
  let request_context := if enabled m then block_ids_by_request else [] in
  upd (λ m, set_dump_blocks (update_all request_context (dump_blocks_by_request m)) m) ;;
  t ← try_except
        (on_store (st_dump_data store block_ids shard_indices ptrs event_handle))
        (λ e, upd (record_dump_failure request_context) ;; raise e);
  upd (λ m, set_dump_ctx (<[t := (store, request_context)]> (dump_task_contexts m)) m) ;;
  mret t.

Definition wait_dump (t : task) : M (manager * W) unit :=
  m ← gets fst;
  match dump_task_contexts m !! t with
  | None => raise (RuntimeError "Dump task was not submitted through submit_dump().")
  | Some (store, request_context) =>
      upd (λ m, set_dump_ctx (delete t (dump_task_contexts m)) m) ;;
      try_except (on_store (st_wait store t))
        (λ e, upd (record_dump_failure request_context) ;; raise e)
  end.

(** The requests named by an outstanding dump task. *)
Definition pending_request_ids (m : manager) : gset string :=
  map_fold (λ _ c acc, list_to_set c.2.*1 ∪ acc) ∅ (dump_task_contexts m).

(** The loop body of [finish_dump]. *)
Definition finish_request (m : manager) (request_id : string) : manager :=
  let block_ids := default ∅ (dump_blocks_by_request m !! request_id) in
  let failed_block_ids := default ∅ (dump_failed_blocks_by_request m !! request_id) in
  Manager (enabled m) (tracker_ m) (missing_reqs m) (missing_blocks m)
    (dump_succeeded_blocks m ∪ (block_ids ∖ failed_block_ids))
    (load_task_contexts m) (dump_task_contexts m)
    (delete request_id (dump_blocks_by_request m))
    (delete request_id (dump_failed_blocks_by_request m)).

(** The loop only unions disjoint per-request contributions, so any order of the
    set [request_ids] gives the same manager; [elements] is the one taken here. *)
Definition finish_dump (request_ids : gset string) : M (manager * W) unit :=
  m ← gets fst;
  if negb (enabled m) then mret tt else
  if decide (request_ids ∩ pending_request_ids m ≠ ∅)
  then raise (RuntimeError "Dump tasks are still pending for requests")
  else upd (λ m, foldl finish_request m (elements request_ids)).

(** [update_worker_meta] moves the accumulated events into the metadata. *)
Definition update_worker_meta (wm : worker_meta) (m : manager) : worker_meta * manager :=
  if negb (enabled m) then (wm, m) else
  (WorkerMeta (wm_is_mla wm) (wm_load_failed_reqs wm)
     (wm_missing_reqs wm ∪ missing_reqs m)
     (wm_missing_blocks wm ∪ missing_blocks m)
     (wm_dump_succeeded_blocks wm ∪ dump_succeeded_blocks m),
   Manager (enabled m) (tracker_ m) ∅ ∅ ∅ (load_task_contexts m)
     (dump_task_contexts m) (dump_blocks_by_request m) (dump_failed_blocks_by_request m)).

(** [apply_worker_meta] on the scheduler: clear dumped, then mark missing. *)
Definition apply_worker_meta (wm : worker_meta) (m : manager) : manager :=
  match tracker_ m with
  | None => m
  | Some t =>
      let '(cleared, t) := clear_dumped (wm_dump_succeeded_blocks wm) t in
      let '(added, t) := mark_missing (wm_missing_blocks wm) t in
      set_tracker (Some t) m
  end.

End manager.
End Manager.
Export Manager.

(** ** Properties of the tracker *)

Lemma size_add (b : bytes) (X : gset bytes) :
  b ∉ X → size ({[b]} ∪ X) = S (size X).
Proof. intros Hb. rewrite -> size_union by set_solver. by rw size_singleton. Qed.

Section tracker_props.
  Context `{SetOrderLaws}.

Lemma first_inconsistent_Some t l i :
  first_inconsistent t l = Some i →
  ∃ b, l !! i = Some b ∧ b ∈ t ∧ ∀ b', b' ∈ take i l → b' ∉ t.
Proof.
  revert i. induction l as [|b l IH]; intros i; simpl; [done|].
  case_decide as Hb; intros Hi; simplify_eq.
  { exists b. repeat split; try done. intros b' Hb'. by apply elem_of_nil in Hb'. }
  apply fmap_Some in Hi as (j & Hj & ->).
  destruct (IH _ Hj) as (b' & Hl & Ht & Hpre).
  exists b'. repeat split; try done. intros x.
  simpl. rw elem_of_cons. intros [->|Hx]; [done|by apply Hpre].
Qed.

Lemma first_inconsistent_None t l :
  first_inconsistent t l = None ↔ ∀ b, b ∈ l → b ∉ t.
Proof.
  induction l as [|b l IH]; simpl.
  - split; [|done]. intros _ x Hx. by apply elem_of_nil in Hx.
  - case_decide as Hb.
    + split; [done|]. intros Hall. exfalso. by apply (Hall b); [left|].
    + rw fmap_None IH. split.
      * intros Hl x. rw elem_of_cons. intros [->|]; auto.
      * intros Hl x Hx. apply Hl. by right.
Qed.

Lemma valid_prefix_prefix t l : valid_prefix t l `prefix_of` l.
Proof.
  unfold valid_prefix. destruct (first_inconsistent t l); [|done].
  apply prefix_take.
Qed.

Lemma valid_prefix_clean t l b : b ∈ valid_prefix t l → b ∉ t.
Proof.
  unfold valid_prefix. destruct (first_inconsistent t l) as [i|] eqn:Hi.
  - destruct (first_inconsistent_Some _ _ _ Hi) as (x & Hx & Hxt & Hpre). auto.
  - intros Hb. by apply (proj1 (first_inconsistent_None t l)).
Qed.

Lemma valid_prefix_longest t l k :
  k `prefix_of` l → (∀ b, b ∈ k → b ∉ t) → k `prefix_of` valid_prefix t l.
Proof.
  intros [m ->] Hk. unfold valid_prefix.
  destruct (first_inconsistent t (k ++ m)) as [i|] eqn:Hi; [|by apply prefix_app_r].
  destruct (first_inconsistent_Some _ _ _ Hi) as (x & Hx & Hxt & Hpre).
  destruct (decide (i < length k)%nat) as [Hlt|Hge].
  - exfalso. rewrite -> lookup_app_l in Hx by lia.
    apply (Hk x); [|done]. by eapply list_elem_of_lookup_2.
  - rewrite -> take_app_ge by lia. by apply prefix_app_r.
Qed.

Lemma mark_missing_step_size t a e b :
  Z.of_nat (size t) ≤ MAX_INCONSISTENT_BLOCKS →
  Z.of_nat (size (mark_missing_step (t, a, e) b).1.1) ≤ MAX_INCONSISTENT_BLOCKS.
Proof.
  intros Ht. unfold mark_missing_step. case_decide as Hb; [done|].
  case_decide as Hmax; simpl.
  - assert (t ≠ ∅) as Hne.
    { intros ->. rw size_empty in Hmax. unfold MAX_INCONSISTENT_BLOCKS in Hmax. lia. }
    destruct (set_pop_elem t Hne) as (x & -> & Hx).
    rewrite -> size_add, size_difference by set_solver.
    rw size_singleton. assert (size t ≠ 0%nat) by (intros Hz; apply Hne, leibniz_equiv, size_empty_inv, Hz).
    lia.
  - rewrite -> size_add by set_solver. lia.
Qed.

Lemma mark_missing_foldl_size l acc :
  Z.of_nat (size acc.1.1) ≤ MAX_INCONSISTENT_BLOCKS →
  Z.of_nat (size (foldl mark_missing_step acc l).1.1) ≤ MAX_INCONSISTENT_BLOCKS.
Proof.
  revert acc. induction l as [|b l IH]; intros [[t a] e] Hsz; simpl; [done|].
  apply IH. by apply mark_missing_step_size.
Qed.

Lemma mark_missing_foldl_noevict l t a e :
  Z.of_nat (size (list_to_set l ∪ t)) ≤ MAX_INCONSISTENT_BLOCKS →
  ∃ a', foldl mark_missing_step (t, a, e) l = (list_to_set l ∪ t, a', e) ∧
        a' = a + Z.of_nat (size (list_to_set l ∖ t)).
Proof.
  revert t a. induction l as [|b l IH]; intros t a Hsz; simpl.
  { eexists. split; [by rewrite (left_id_L ∅ (∪))|]. replace (∅ ∖ t : gset bytes) with (∅ : gset bytes) by set_solver. rw size_empty. lia. }
  case_decide as Hb.
  - destruct (IH t a) as (a' & -> & ->).
    { replace (list_to_set l ∪ t) with (list_to_set (b :: l) ∪ t); [done|].
      simpl. set_solver. }
    eexists. split.
    + f_equal. f_equal. set_solver.
    + do 3 f_equal. set_solver.
  - assert (Z.of_nat (size t) < MAX_INCONSISTENT_BLOCKS) as Hlt.
    { enough (size ({[b]} ∪ t) ≤ size (list_to_set (b :: l) ∪ t))%nat as Hle.
      { rewrite -> size_add in Hle by set_solver. lia. }
      apply subseteq_size. simpl. set_solver. }
    rewrite -> decide_False by lia.
    destruct (IH ({[b]} ∪ t) (a + 1)) as (a' & -> & ->).
    { replace (list_to_set l ∪ ({[b]} ∪ t)) with (list_to_set (b :: l) ∪ t); [done|].
      simpl. set_solver. }
    eexists. split.
    + f_equal. f_equal. set_solver.
    + replace (({[b]} ∪ list_to_set l) ∖ t : gset bytes)
        with ({[b]} ∪ (list_to_set l ∖ ({[b]} ∪ t)) : gset bytes).
      * rewrite -> size_add by set_solver. lia.
      * apply set_eq. intros x. destruct (decide (x = b)); set_solver.
Qed.

Lemma set_iter_list_to_set X : list_to_set (set_iter X) = X.
Proof. rw set_iter_perm. apply list_to_set_elements_L. Qed.

(** Below the limit marking is set union, and the result counts the new marks. *)
Lemma mark_missing_union s t :
  Z.of_nat (size (s ∪ t)) ≤ MAX_INCONSISTENT_BLOCKS →
  mark_missing s t = (Z.of_nat (size (s ∖ t)), s ∪ t).
Proof.
  intros Hsz. unfold mark_missing.
  destruct (mark_missing_foldl_noevict (set_iter s) t 0 0) as (a' & -> & ->);
    rw set_iter_list_to_set //.
Qed.

Lemma mark_missing_size s t :
  Z.of_nat (size t) ≤ MAX_INCONSISTENT_BLOCKS →
  Z.of_nat (size (mark_missing s t).2) ≤ MAX_INCONSISTENT_BLOCKS.
Proof.
  intros Ht. unfold mark_missing.
  pose proof (mark_missing_foldl_size (set_iter s) (t, 0, 0) Ht) as Hf.
  by destruct (foldl _ _ _) as [[t' a] e].
Qed.

End tracker_props.
