(* ===== verification/MindieHash.v ===== *)
(** * The block hashes of MindIE

    The hash chain of [prefix_cache_plugin.py], in Python's unbounded integers,
    and its C++ counterpart [uc_hash_ext.cpp], which the plugin calls, in 64-bit
    words.  A block is hashed from the hash of the block before it and its
    tokens; 0 stands for no hash. *)
From S2P Require Import Prelude.
Open Scope Z_scope.

Definition HASH_SHIFT_LEFT : Z := 6.
Definition HASH_SHIFT_RIGHT : Z := 2.
Definition INVALID_HASH_VALUE : Z := 0.
Definition EXTRA_HASH : Z := INVALID_HASH_VALUE.
Definition HASH_CONST : Z := 0x9e3779b97f4a7c15.

(** What is hashed: a Python integer, a NumPy one, which is no instance of [int],
    or a string. *)
Inductive hashed := HInt (z : Z) | HNumpy (z : Z) | HStr (s : string).

(** [hash(z)] of an integer: modulo a Mersenne prime, and never -1. *)
Definition py_hash_int (z : Z) : Z :=
  let r := Z.sgn z * (Z.abs z mod (2 ^ 61 - 1)) in
  if r =? -1 then -2 else r.

Fixpoint str_hash (acc : Z) (s : string) : Z :=
  match s with
  | EmptyString => acc
  | String c s => str_hash (Z.land (acc * 31 + Z.of_N (N_of_ascii c)) (2 ^ 64 - 1)) s
  end.

Definition cpp_style_hash (value : hashed) : Z :=
  match value with
  | HInt z => z
  | HStr s => str_hash 0 s
  | HNumpy z => py_hash_int z
  end.

Definition hash_combine (seed : Z) (token_id : hashed) : Z :=
  let seed := Z.lxor seed
    (cpp_style_hash token_id + HASH_CONST + Z.shiftl seed HASH_SHIFT_LEFT + Z.shiftr seed HASH_SHIFT_RIGHT) in
  let seed := if seed =? INVALID_HASH_VALUE then 1 else seed in
  seed mod 2 ^ 64.

Definition hash_block (prefix_hash_value : Z) (block_token_ids : list hashed) : Z :=
  let seed := INVALID_HASH_VALUE in
  let seed := if prefix_hash_value =? INVALID_HASH_VALUE then seed
              else hash_combine seed (HInt prefix_hash_value) in
  let seed := foldl hash_combine seed block_token_ids in
  hash_combine seed (HInt EXTRA_HASH).

(** ** The extension *)

Definition HashCombine (seed v : Z) : Z :=
  let result := Z.lxor seed
    (u64 (v + HASH_CONST + u64 (Z.shiftl seed HASH_SHIFT_LEFT) + Z.shiftr seed HASH_SHIFT_RIGHT)) in
  if result =? INVALID_HASH_VALUE then 1 else result.

(** [ToU64Mask] of a token of [width] bits, as an unsigned word. *)
Definition ToU64Mask (width v : Z) : Z := v mod 2 ^ width.

Definition HashBlock (width prefix_hash : Z) (tokens : list Z) : Z :=
  let seed := 0 in
  let seed := if prefix_hash =? 0 then seed else HashCombine seed prefix_hash in
  let seed := foldl (λ s t, HashCombine s (ToU64Mask width t)) seed tokens in
  HashCombine seed EXTRA_HASH.

(** The loop over the blocks [b], [b + 1], ..., [n] of them. *)
Fixpoint hash_blocks (width prefix_hash_value block_size : Z) (tokens : list Z) (b : Z) (n : nat) : list Z :=
  match n with
  | O => []
  | S n =>
      let h := HashBlock width prefix_hash_value (py_slice tokens (b * block_size) ((b + 1) * block_size)) in
      h :: hash_blocks width h block_size tokens (b + 1) n
  end.

(** [hash_prefix]; its last three arguments are unsigned. *)
Definition HashPrefix (width prefix0 : Z) (tokens : list Z) (block_size start_block end_block : Z) : res (list Z) :=
  if block_size =? 0 then Raise (RuntimeError "block_size must be > 0")
  else if end_block <? start_block then Raise (RuntimeError "end_block must be >= start_block")
  else if zlen tokens <? end_block * block_size then Raise (RuntimeError "tokens too short")
  else Ok (hash_blocks width (u64 prefix0) block_size tokens start_block (Z.to_nat (end_block - start_block))).

(** ** Agreement *)

(** The chain of [hash_block] over the same blocks. *)
Fixpoint hash_block_chain (prefix_hash_value block_size : Z) (tokens : list Z) (b : Z) (n : nat) : list Z :=
  match n with
  | O => []
  | S n =>
      let h := hash_block prefix_hash_value (HInt <$> py_slice tokens (b * block_size) ((b + 1) * block_size)) in
      h :: hash_block_chain h block_size tokens (b + 1) n
  end.

(** The seeds that pass through the combination of a block. *)
Fixpoint seeds (seed : Z) (l : list hashed) : list Z :=
  match l with [] => [] | t :: l => hash_combine seed t :: seeds (hash_combine seed t) l end.
Definition block_seeds (prefix_hash_value : Z) (l : list hashed) : list Z :=
  seeds INVALID_HASH_VALUE
    ((if prefix_hash_value =? INVALID_HASH_VALUE then [] else [HInt prefix_hash_value]) ++ l ++ [HInt EXTRA_HASH]).

Lemma lxor_mod_pow2 a x w : 0 ≤ w → 0 ≤ a < 2 ^ w → Z.lxor a x mod 2 ^ w = Z.lxor a (x mod 2 ^ w).
Proof.
  intros Hw Ha. apply Z.bits_inj'. intros i Hi. rewrite -> Z.lxor_spec.
  destruct (Z.ltb_spec i w).
  - rewrite -> !Z.mod_pow2_bits_low by lia. by rewrite -> Z.lxor_spec.
  - rewrite -> !Z.mod_pow2_bits_high by lia. rewrite <- (Z.mod_small a (2 ^ w)) by done.
    by rewrite -> Z.mod_pow2_bits_high by lia.
Qed.

Lemma lxor_bounds a x : 0 ≤ a < 2 ^ 64 → 0 ≤ Z.lxor a (u64 x) < 2 ^ 64.
Proof.
  intros Ha. unfold u64. rewrite <- lxor_mod_pow2 by lia. by apply Z.mod_pos_bound.
Qed.

Lemma hash_combine_bounds seed v : 0 ≤ hash_combine seed v < 2 ^ 64.
Proof. by apply Z.mod_pos_bound. Qed.

Lemma HashCombine_bounds seed v : 0 ≤ seed < 2 ^ 64 → 0 < HashCombine seed v < 2 ^ 64.
Proof.
  intros Hs. unfold HashCombine. pose proof (lxor_bounds seed
    (v + HASH_CONST + u64 (Z.shiftl seed HASH_SHIFT_LEFT) + Z.shiftr seed HASH_SHIFT_RIGHT) Hs).
  destruct (Z.eqb_spec (Z.lxor seed (u64 (v + HASH_CONST + u64 (Z.shiftl seed HASH_SHIFT_LEFT) +
    Z.shiftr seed HASH_SHIFT_RIGHT))) INVALID_HASH_VALUE); unfold INVALID_HASH_VALUE in *; lia.
Qed.

(** One step: the two agree, except where Python's reduction modulo 2^64 comes
    after the replacement of 0. *)
Lemma hash_combine_agrees seed v :
  0 ≤ seed < 2 ^ 64 → hash_combine seed (HInt v) ≠ 0 → HashCombine seed v = hash_combine seed (HInt v).
Proof.
  intros Hs Hne. unfold HashCombine, hash_combine in *. cbn [cpp_style_hash] in *.
  set (x := v + HASH_CONST + Z.shiftl seed HASH_SHIFT_LEFT + Z.shiftr seed HASH_SHIFT_RIGHT) in *.
  assert (Hx : u64 (v + HASH_CONST + u64 (Z.shiftl seed HASH_SHIFT_LEFT) + Z.shiftr seed HASH_SHIFT_RIGHT) = u64 x).
  { unfold u64, x. rewrite -> (Z.add_mod (v + HASH_CONST + _)), (Z.add_mod (v + HASH_CONST)) by lia.
    rewrite -> Z.mod_mod by lia. rewrite <- (Z.add_mod (v + HASH_CONST)), <- Z.add_mod by lia. done. }
  rewrite -> Hx. unfold u64. rewrite <- lxor_mod_pow2 by lia. unfold INVALID_HASH_VALUE in *.
  destruct (Z.eqb_spec (Z.lxor seed x) 0) as [->|Hn]; [done|].
  destruct (Z.eqb_spec (Z.lxor seed x mod 2 ^ 64) 0); [|done]. lia.
Qed.

(** No seed of the blocks is 0. *)
Fixpoint chain_valid (prefix_hash_value block_size : Z) (tokens : list Z) (b : Z) (n : nat) : Prop :=
  match n with
  | O => True
  | S n =>
      let block := HInt <$> py_slice tokens (b * block_size) ((b + 1) * block_size) in
      Forall (λ s, s ≠ INVALID_HASH_VALUE) (block_seeds prefix_hash_value block) ∧
      chain_valid (hash_block prefix_hash_value block) block_size tokens (b + 1) n
  end.

Lemma foldl_combine_agrees width l : ∀ seed,
  31 ≤ width → 0 ≤ seed < 2 ^ 64 → Forall (λ t, 0 ≤ t < 2 ^ 31) l →
  Forall (λ s, s ≠ INVALID_HASH_VALUE) (seeds seed (HInt <$> l)) →
  foldl (λ s t, HashCombine s (ToU64Mask width t)) seed l = foldl hash_combine seed (HInt <$> l).
Proof.
  induction l as [|t l IH]; intros seed Hw Hs Hl Hv; [done|]. apply Forall_cons in Hl as [Ht Hl].
  cbn [fmap list_fmap seeds] in Hv. apply Forall_cons in Hv as [Hne Hv]. cbn [fmap list_fmap foldl].
  assert (Hm : ToU64Mask width t = t).
  { apply Z.mod_small. pose proof (Z.pow_le_mono_r 2 31 width). lia. }
  rewrite -> Hm, hash_combine_agrees by done. apply IH; [done|apply hash_combine_bounds|done|done].
Qed.

Lemma seeds_app seed l k : seeds seed (l ++ k) = seeds seed l ++ seeds (foldl hash_combine seed l) k.
Proof. revert seed. induction l as [|t l IH]; intros seed; [done|]. cbn. by rewrite -> IH. Qed.

Lemma foldl_combine_bounds l : ∀ seed, 0 ≤ seed < 2 ^ 64 → 0 ≤ foldl hash_combine seed l < 2 ^ 64.
Proof. induction l as [|t l IH]; intros seed Hs; [done|]. cbn. apply IH, hash_combine_bounds. Qed.

Lemma HashBlock_agrees width prefix l :
  31 ≤ width → Forall (λ t, 0 ≤ t < 2 ^ 31) l →
  Forall (λ s, s ≠ INVALID_HASH_VALUE) (block_seeds prefix (HInt <$> l)) →
  HashBlock width prefix l = hash_block prefix (HInt <$> l).
Proof.
  intros Hw Hl Hv. unfold HashBlock, hash_block, block_seeds in *. unfold INVALID_HASH_VALUE in *.
  set (s0 := if prefix =? 0 then 0 else hash_combine 0 (HInt prefix)).
  assert (Hs0 : (if prefix =? 0 then 0 else HashCombine 0 prefix) = s0 ∧ 0 ≤ s0 < 2 ^ 64 ∧
    Forall (λ s, s ≠ 0) (seeds s0 ((HInt <$> l) ++ [HInt EXTRA_HASH]))).
  { unfold s0. destruct (prefix =? 0); [done|]. apply Forall_cons in Hv as [Hne Hv].
    rewrite -> hash_combine_agrees by done. split; [done|]. split; [apply hash_combine_bounds|done]. }
  destruct Hs0 as (-> & Hb & Hs). rewrite -> seeds_app in Hs. apply Forall_app in Hs as [Hs Hlast].
  rewrite -> foldl_combine_agrees by done. apply Forall_cons in Hlast as [Hlast _].
  apply hash_combine_agrees; [by apply foldl_combine_bounds|done].
Qed.

Lemma HashBlock_bounds width prefix l : 0 < HashBlock width prefix l < 2 ^ 64.
Proof.
  apply HashCombine_bounds. set (s0 := if prefix =? 0 then 0 else HashCombine 0 prefix).
  assert (Hs0 : 0 ≤ s0 < 2 ^ 64).
  { unfold s0. destruct (prefix =? 0); [done|]. pose proof (HashCombine_bounds 0 prefix). lia. }
  clearbody s0. revert s0 Hs0. induction l as [|t l IH]; intros s0 Hs0; [done|]. cbn. apply IH.
  pose proof (HashCombine_bounds s0 (ToU64Mask width t)). lia.
Qed.

Lemma hash_blocks_spec width bs tokens n : ∀ prefix b,
  let l := hash_blocks width prefix bs tokens b n in
  length l = n ∧ Forall (λ h, 0 < h < 2 ^ 64) l ∧
  (31 ≤ width → Forall (λ t, 0 ≤ t < 2 ^ 31) tokens → chain_valid prefix bs tokens b n →
   l = hash_block_chain prefix bs tokens b n).
Proof.
  induction n as [|n IH]; intros prefix b; [done|]. cbn [hash_blocks hash_block_chain chain_valid length].
  set (block := py_slice tokens (b * bs) ((b + 1) * bs)).
  destruct (IH (HashBlock width prefix block) (b + 1)) as (Hlen & Hb & _). rewrite -> Hlen. split; [done|].
  split; [constructor; [apply HashBlock_bounds|done]|]. intros Hw Ht [Hv Hvs].
  assert (Heq : HashBlock width prefix block = hash_block prefix (HInt <$> block)).
  { apply HashBlock_agrees; [done| |done]. unfold block, py_slice. by apply Forall_take, Forall_drop. }
  destruct (IH (hash_block prefix (HInt <$> block)) (b + 1)) as (_ & _ & Hc). rewrite -> Heq, Hc by done. done.
Qed.

(** The extension computes the block hashes of the plugin: for a prefix that
    is long enough it returns one 64-bit hash per block, none of them the value
    that stands for no hash, and they are the chain of [hash_block] whenever no
    seed of that chain is reduced to 0. *)
Theorem hash_prefix_agrees width prefix0 tokens bs start_block end_block :
  31 ≤ width → 0 ≤ prefix0 < 2 ^ 64 → Forall (λ t, 0 ≤ t < 2 ^ 31) tokens →
  0 < bs → 0 ≤ start_block ≤ end_block → end_block * bs ≤ zlen tokens →
  ∃ l, HashPrefix width prefix0 tokens bs start_block end_block = Ok l ∧
    zlen l = end_block - start_block ∧ Forall (λ h, h ≠ INVALID_HASH_VALUE ∧ 0 ≤ h < 2 ^ 64) l ∧
    (chain_valid prefix0 bs tokens start_block (Z.to_nat (end_block - start_block)) →
     l = hash_block_chain prefix0 bs tokens start_block (Z.to_nat (end_block - start_block))).
Proof.
  intros Hw Hp Ht Hbs Hse Hlen. unfold HashPrefix.
  rewrite -> (proj2 (Z.eqb_neq _ _)), (proj2 (Z.ltb_ge _ _)), (proj2 (Z.ltb_ge _ _)) by lia.
  unfold u64. rewrite -> Z.mod_small by done.
  destruct (hash_blocks_spec width bs tokens (Z.to_nat (end_block - start_block)) prefix0 start_block) as (Hl & Hb & Hc).
  eexists. split; [done|]. split; [unfold zlen; lia|]. split; [|by auto].
  eapply Forall_impl; [exact Hb|]. intros h Hh. unfold INVALID_HASH_VALUE. cbn in Hh. lia.
Qed.

Lemma hash_prefix_agrees_witness :
  HashPrefix 64 0 [5; 6; 7; 8; 9] 2 0 2 = Ok (hash_block_chain 0 2 [5; 6; 7; 8; 9] 0 2).
Proof.
  destruct (hash_prefix_agrees 64 0 [5; 6; 7; 8; 9] 2 0 2) as (l & Hl & _ & _ & Hc).
  - vm_compute; discriminate.
  - split; vm_compute; [discriminate|reflexivity].
  - repeat (apply Forall_cons; split; [split; vm_compute; [discriminate|reflexivity]|]). apply Forall_nil; exact I.
  - vm_compute; reflexivity.
  - split; vm_compute; discriminate.
  - vm_compute; discriminate.
  - rewrite -> Hl, Hc; [reflexivity|]. repeat split; repeat (apply Forall_cons; split; [vm_compute; discriminate|]); apply Forall_nil; exact I.
Defined.

(** The reduction modulo 2^64 comes last in Python: a seed can become the value
    that stands for no hash, where the extension replaces it by 1. *)
Example hash_combine_may_be_invalid :
  hash_combine 0 (HInt (2 ^ 64 - HASH_CONST)) = INVALID_HASH_VALUE ∧ HashCombine 0 (2 ^ 64 - HASH_CONST) = 1.
Proof. by vm_compute. Qed.
