(* ===== verification/Sim.v ===== *)
(** * A concrete world for the examples

    An in-memory instance of the store and device interfaces, used by the
    witnesses to run the models: a store holds a set of blocks, a load task
    fails with [StoreNotFoundError] at [wait] when a block is absent, a dump
    task adds its blocks at [wait] unless one of them is in [sim_bad]. *)
From S2P Require Import Prelude Runtime RankConsistency.
Open Scope Z_scope.

Record sim := MkSim {
  sim_present : gset (sref * bytes);
  sim_bad : gset bytes;
  sim_tasks : gmap task (bool * list bytes);
  sim_next : Z;
  sim_event : Z;
}.

Definition sim_init (present : list (sref * bytes)) (bad : list bytes) : sim :=
  MkSim (list_to_set present) (list_to_set bad) ∅ 1 100.

Definition sim_new_task (dump : bool) (ids : list bytes) : M sim task := λ w,
  (Ok (sim_next w),
   MkSim (sim_present w) (sim_bad w) (<[sim_next w := (dump, ids)]> (sim_tasks w))
     (sim_next w + 1) (sim_event w)).

Definition sim_has (r : sref) (w : sim) (b : bytes) : bool :=
  bool_decide ((r, b) ∈ sim_present w).

Fixpoint sim_prefix (r : sref) (w : sim) (ids : list bytes) : Z :=
  match ids with
  | [] => 0
  | b :: l => if sim_has r w b then 1 + sim_prefix r w l else 0
  end.

Definition sim_wait (r : sref) (t : task) : M sim unit := λ w,
  match sim_tasks w !! t with
  | None => (Raise (RuntimeError "no such task"), w)
  | Some (false, ids) =>
      (if forallb (sim_has r w) ids then Ok tt else Raise StoreNotFoundError, w)
  | Some (true, ids) =>
      if existsb (λ b, bool_decide (b ∈ sim_bad w)) ids
      then (Raise (RuntimeError "dump failed"), w)
      else (Ok tt, MkSim (list_to_set (pair r <$> ids) ∪ sim_present w) (sim_bad w)
                     (sim_tasks w) (sim_next w) (sim_event w))
  end.

#[export] Instance sim_store : StoreOps sim := {|
  st_lookup := λ r ids w, (Ok (sim_has r w <$> ids), w);
  st_lookup_on_prefix := λ r ids w, (Ok (sim_prefix r w ids - 1), w);
  st_prefetch := λ r ids, mret tt;
  st_load_data := λ r ids sh ptrs, sim_new_task false ids;
  st_dump_data := λ r ids sh ptrs ev, sim_new_task true ids;
  st_wait := sim_wait;
  st_check := λ r t, mret true;
|}.

Lemma sim_prefix_bounds r w ids : 0 ≤ sim_prefix r w ids ≤ zlen ids.
Proof.
  induction ids as [|b l IH]; unfold zlen in *; simpl; [lia|].
  destruct (sim_has r w b); lia.
Qed.

#[export] Instance sim_store_laws : StoreLaws sim.
Proof.
  split; simpl.
  - intros r ids w bs w' Heq. simplify_eq. by rw length_fmap.
  - intros r ids w n w' Heq. simplify_eq. pose proof (sim_prefix_bounds r w' ids). lia.
Defined.

Definition sim_fresh_event : M sim Z := λ w,
  (Ok (sim_event w), MkSim (sim_present w) (sim_bad w) (sim_tasks w) (sim_next w)
                       (sim_event w + 1)).

#[export] Instance sim_device : DeviceOps sim := {|
  cuda_event_recorded := sim_fresh_event;
  acl_create_event := (e ← sim_fresh_event; mret (e, 0));
  acl_record_event := λ e, mret 0;
  acl_destroy_event := λ e, mret 0;
  stream_synchronize := mret tt;
|}.

(** Sets iterated in the order of [elements]; [pop] takes the first one. *)
#[export] Instance sim_order : SetOrder := {|
  set_iter := elements;
  set_pop := λ X, head (elements X);
|}.

#[export] Instance sim_order_laws : SetOrderLaws.
Proof.
  split; [done|]. intros X HX. simpl.
  destruct (elements X) as [|x l] eqn:E.
  - apply elements_empty_inv in E. by apply leibniz_equiv in E.
  - exists x. split; [done|]. apply elem_of_elements. rw E. by left.
Defined.
