(* ===== verification/RankProps.v ===== *)
(** * What the rank consistency manager guarantees

    Properties of [RankConsistency.v]: lookups never report a block marked
    missing, a mark reported together with a stale dump success survives, the
    tracker is bounded, and a block whose dump failed is never reported as
    dumped. *)
From S2P Require Import Prelude Runtime RankConsistency Sim.
Open Scope Z_scope.

(** ** Helper lemmas *)

Section manager_lemmas.
  Context {W : Type} `{StoreOps W} `{SetOrder}.

Lemma lookup_update_all l d r :
  default ∅ (update_all l d !! r) =
  default ∅ (d !! r) ∪ ⋃ (snd <$> filter (λ kv, kv.1 = r) l).
Proof.
  unfold update_all. revert d. induction l as [|[k x] l IH]; intros d; simpl.
  { by rewrite (right_id_L ∅ (∪)). }
  rewrite IH. unfold set_update. rw lookup_insert filter_cons. simpl.
  repeat case_decide; simplify_eq; simpl; [|done]. by rewrite -(assoc_L (∪)).
Qed.

Lemma update_all_mono l d r b :
  b ∈ default ∅ (d !! r) → b ∈ default ∅ (update_all l d !! r).
Proof. rewrite lookup_update_all. set_solver. Qed.

Lemma update_all_elem l d r x b :
  (r, x) ∈ l → b ∈ x → b ∈ default ∅ (update_all l d !! r).
Proof.
  intros Hin Hb. rewrite lookup_update_all. apply elem_of_union_r, elem_of_union_list.
  exists x. split; [|done]. apply list_elem_of_fmap. exists (r, x). split; [done|].
  by apply list_elem_of_filter.
Qed.

Lemma mark_load_keeps ctx m :
  dump_failed_blocks_by_request (mark_load_context_missing ctx m) =
    dump_failed_blocks_by_request m ∧
  dump_succeeded_blocks (mark_load_context_missing ctx m) = dump_succeeded_blocks m ∧
  tracker_ (mark_load_context_missing ctx m) = tracker_ m ∧
  missing_reqs (mark_load_context_missing ctx m) = list_to_set ctx.*1 ∪ missing_reqs m ∧
  missing_blocks (mark_load_context_missing ctx m) =
    ⋃ (list_to_set <$> ctx.*2) ∪ missing_blocks m.
Proof.
  unfold mark_load_context_missing. revert m.
  induction ctx as [|[r l] ctx IH]; intros m; csimpl.
  { rewrite !(left_id_L ∅ (∪)). done. }
  destruct (IH (Manager (enabled m) (tracker_ m) ({[r]} ∪ missing_reqs m)
    (list_to_set l ∪ missing_blocks m) (dump_succeeded_blocks m)
    (load_task_contexts m) (dump_task_contexts m) (dump_blocks_by_request m)
    (dump_failed_blocks_by_request m))) as (-> & -> & -> & -> & ->). simpl.
  repeat split; set_solver.
Qed.

Lemma finish_foldl_spec l m :
  NoDup l →
  let m' := foldl finish_request m l in
  (∀ b, b ∈ dump_succeeded_blocks m' ↔
     b ∈ dump_succeeded_blocks m ∨
     ∃ r, r ∈ l ∧ b ∈ default ∅ (dump_blocks_by_request m !! r) ∧
          b ∉ default ∅ (dump_failed_blocks_by_request m !! r)) ∧
  (∀ r, dump_blocks_by_request m' !! r =
     if decide (r ∈ l) then None else dump_blocks_by_request m !! r) ∧
  (∀ r, dump_failed_blocks_by_request m' !! r =
     if decide (r ∈ l) then None else dump_failed_blocks_by_request m !! r) ∧
  tracker_ m' = tracker_ m ∧ enabled m' = enabled m ∧
  dump_task_contexts m' = dump_task_contexts m.
Proof.
  revert m. induction l as [|r l IH]; intros m Hnd; simpl.
  { split; [set_solver|]. repeat split; intros; by rewrite decide_False. }
  apply NoDup_cons in Hnd as [Hr Hnd].
  destruct (IH (finish_request m r) Hnd) as (Hs & Hb & Hf & -> & -> & ->).
  split; [|split; [|split; [|done]]]; simpl in *.
  - intros b. rewrite Hs. rw elem_of_union elem_of_difference. split.
    + intros [[?|[? ?]]|(r' & Hr' & Hin & Hnin)]; [by left|right; set_solver|].
      right. exists r'. rewrite -> !lookup_delete_ne in * by (intros ->; done). set_solver.
    + intros [?|(r' & Hr' & Hin & Hnin)]; [tauto|].
      apply elem_of_cons in Hr' as [->|Hr']; [tauto|].
      right. exists r'. rewrite -> !lookup_delete_ne by (intros ->; done). done.
  - intros r'. rewrite Hb. rw lookup_delete. repeat case_decide; set_solver.
  - intros r'. rewrite Hf. rw lookup_delete. repeat case_decide; set_solver.
Qed.

(** Calls made around the store keep a property of the manager that the updates
    of the manager keep. *)
Lemma preserves_on_store {A} (P : manager → Prop) (m : M W A) :
  preserves (λ s : manager * W, P s.1) (on_store m).
Proof. intros [mg w] Hm. unfold on_store. munfold. by destruct (m w). Qed.

Lemma preserves_upd (P : manager → Prop) f :
  (∀ m, P m → P (f m)) → preserves (λ s : manager * W, P s.1) (upd f).
Proof. intros Hf. apply preserves_modify. intros [m w]. apply Hf. Qed.

(** ** Sequences of manager calls *)

(** A call of the worker on its manager, with the arguments it passes. *)
Inductive mop :=
  | OSubmitLoad (st : sref) (ctx : dict string (list bytes)) (ids : list bytes)
      (shards : list Z) (ptrs : addr_rows)
  | OWaitLoad (t : task)
  | OSubmitDump (st : sref) (ctx : dict string (gset bytes)) (ids : list bytes)
      (shards : list Z) (ptrs : addr_rows) (event : Z)
  | OWaitDump (t : task)
  | OFinish (request_ids : gset string).

(** The callers catch every exception of a manager call. *)
Definition run_mop (o : mop) : M (manager * W) unit :=
  try_except
    match o with
    | OSubmitLoad st ctx ids sh ptrs => submit_load st ctx ids sh ptrs ;; mret tt
    | OWaitLoad t => wait_load t
    | OSubmitDump st ctx ids sh ptrs ev => submit_dump st ctx ids sh ptrs ev ;; mret tt
    | OWaitDump t => wait_dump t
    | OFinish ids => finish_dump ids
    end
    (λ _, mret tt).

Definition run_mops (ops : list mop) : M (manager * W) unit := for_each ops run_mop.

Definition finishes (r : string) (o : mop) : bool :=
  match o with OFinish ids => bool_decide (r ∈ ids) | _ => false end.

(** A failure stays on record until the request is finished. *)
Definition failed_at (r : string) (b : bytes) (m : manager) : Prop :=
  b ∈ default ∅ (dump_failed_blocks_by_request m !! r).

Definition keeps_failed (r : string) (b : bytes) {A} (m : M (manager * W) A) : Prop :=
  preserves (λ s : manager * W, failed_at r b s.1) m.

Lemma keeps_upd r b f :
  (∀ m, failed_at r b m → failed_at r b (f m)) → keeps_failed r b (upd f).
Proof. apply preserves_upd. Qed.

Lemma failed_at_record r b ctx m :
  failed_at r b m → failed_at r b (record_dump_failure ctx m).
Proof. apply update_all_mono. Qed.

Lemma keeps_classify r b ctx A (e : exn) :
  keeps_failed r b (classify_load_error (A := A) ctx e).
Proof.
  apply preserves_bind; [apply preserves_gets|]. intros m.
  apply preserves_bind; [|intros; apply preserves_raise].
  apply preserves_if; [|apply preserves_ret]. apply keeps_upd. intros m0 Hm0.
  unfold failed_at. by rewrite (proj1 (mark_load_keeps ctx m0)).
Qed.

Lemma keeps_record_raise r b ctx A (e : exn) :
  keeps_failed r b (upd (record_dump_failure ctx) ;; raise e : M (manager * W) A).
Proof.
  apply preserves_bind; [|intros; apply preserves_raise].
  apply keeps_upd. intros. by apply failed_at_record.
Qed.

Lemma keeps_finish r b ids : r ∉ ids → keeps_failed r b (finish_dump ids).
Proof.
  intros Hr. unfold finish_dump. apply preserves_bind; [apply preserves_gets|]. intros m.
  apply preserves_if; [apply preserves_ret|]. case_decide; [apply preserves_raise|].
  apply keeps_upd. intros m0 Hm0. unfold failed_at.
  destruct (finish_foldl_spec (elements ids) m0) as (_ & _ & Hf & _);
    [apply NoDup_elements|].
  rewrite Hf. rw decide_False //. by rw elem_of_elements.
Qed.

Lemma keeps_submit_load r b st ctx ids sh ptrs :
  keeps_failed r b (submit_load st ctx ids sh ptrs).
Proof.
  apply preserves_bind; [apply preserves_gets|]. intros m.
  apply preserves_bind; [apply preserves_try; [apply preserves_on_store|]|];
    [intros; apply keeps_classify|].
  intros t. apply preserves_bind; [by apply keeps_upd|intros; apply preserves_ret].
Qed.

Lemma keeps_wait_load r b t : keeps_failed r b (wait_load t).
Proof.
  apply preserves_bind; [apply preserves_gets|]. intros m.
  destruct (load_task_contexts m !! t) as [[st ctx]|]; [|apply preserves_raise].
  apply preserves_bind; [by apply keeps_upd|]. intros _.
  apply preserves_try; [apply preserves_on_store|intros; apply keeps_classify].
Qed.

Lemma keeps_submit_dump r b st ctx ids sh ptrs ev :
  keeps_failed r b (submit_dump st ctx ids sh ptrs ev).
Proof.
  apply preserves_bind; [apply preserves_gets|]. intros m.
  apply preserves_bind; [by apply keeps_upd|]. intros _.
  apply preserves_bind; [apply preserves_try; [apply preserves_on_store|]|];
    [intros; apply keeps_record_raise|].
  intros t. apply preserves_bind; [by apply keeps_upd|intros; apply preserves_ret].
Qed.

Lemma keeps_wait_dump r b t : keeps_failed r b (wait_dump t).
Proof.
  apply preserves_bind; [apply preserves_gets|]. intros m.
  destruct (dump_task_contexts m !! t) as [[st ctx]|]; [|apply preserves_raise].
  apply preserves_bind; [by apply keeps_upd|]. intros _.
  apply preserves_try; [apply preserves_on_store|intros; apply keeps_record_raise].
Qed.

Lemma failed_stays r b ops :
  (∀ o, o ∈ ops → finishes r o = false) → keeps_failed r b (run_mops ops).
Proof.
  intros Hops. apply preserves_for_each. intros o Ho. specialize (Hops o Ho).
  apply preserves_try; [|intros; apply preserves_ret].
  destruct o; simpl in *.
  - apply preserves_bind; [apply keeps_submit_load|intros; apply preserves_ret].
  - apply keeps_wait_load.
  - apply preserves_bind; [apply keeps_submit_dump|intros; apply preserves_ret].
  - apply keeps_wait_dump.
  - apply keeps_finish. by apply bool_decide_eq_false in Hops.
Qed.

Lemma finish_dump_spec ids (s s' : manager * W) :
  finish_dump ids s = (Ok tt, s') → enabled s.1 = true →
  (∀ b, b ∈ dump_succeeded_blocks s'.1 ↔
     b ∈ dump_succeeded_blocks s.1 ∨
     ∃ r, r ∈ ids ∧ b ∈ default ∅ (dump_blocks_by_request s.1 !! r) ∧ ¬ failed_at r b s.1) ∧
  (∀ r, r ∈ ids → dump_blocks_by_request s'.1 !! r = None ∧
                  dump_failed_blocks_by_request s'.1 !! r = None) ∧
  ids ∩ pending_request_ids s.1 = ∅.
Proof.
  destruct s as [m w]. unfold finish_dump. munfold. intros Hf Hen. rewrite Hen in Hf.
  simpl in Hf. case_decide as Hp; [done|].
  unfold upd, modify in Hf. simpl in Hf. simplify_eq. simpl.
  destruct (finish_foldl_spec (elements ids) m) as (Hs & Hb & Hfl & _);
    [apply NoDup_elements|].
  split; [|split].
  - intros b. rewrite Hs. by setoid_rewrite elem_of_elements.
  - intros r Hr. rw Hb Hfl. by rewrite -> !decide_True by (by apply elem_of_elements).
  - done.
Qed.

(** A failing wait puts the blocks of the task on record. *)
Lemma wait_dump_failed_at t (s : manager * W) e s' st ctx r x b :
  dump_task_contexts s.1 !! t = Some (st, ctx) →
  (r, x) ∈ ctx → b ∈ x →
  wait_dump t s = (Raise e, s') → failed_at r b s'.1.
Proof.
  destruct s as [m w]. simpl. intros Ht Hr Hb. unfold wait_dump, on_store. munfold.
  rewrite Ht. munfold. unfold upd, modify. simpl.
  destruct (st_wait st t w) as [[[]|e0] w']; simpl; intros; simplify_eq. simpl.
  unfold failed_at. by eapply update_all_elem.
Qed.

End manager_lemmas.

(** ** Aggregation of the ranks' metadata *)

(** vLLM folds [aggregate] over the metadata of the workers. *)
Definition aggregate_all (m : worker_meta) (others : list worker_meta) : res worker_meta :=
  foldl (λ acc o, m ← acc; aggregate m o) (Ok m) others.

Section merge.
  Context {B} `{Countable B} (f : worker_meta → gset B).

Lemma merged_some mo m o l b :
  f mo = f m ∪ f o →
  (∃ x, x ∈ mo :: l ∧ b ∈ f x) ↔ (∃ x, x ∈ m :: o :: l ∧ b ∈ f x).
Proof.
  intros Hf. split.
  - intros (x & Hx & Hb). apply elem_of_cons in Hx as [->|Hx].
    + rewrite Hf in Hb. apply elem_of_union in Hb as [Hb|Hb];
        [exists m|exists o]; split; try done; [left|right; left].
    + exists x. split; [by do 2 right|done].
  - intros (x & Hx & Hb). rewrite !elem_of_cons in Hx. destruct Hx as [->|[->|Hx]].
    + exists mo. split; [left|]. rewrite Hf. by apply elem_of_union_l.
    + exists mo. split; [left|]. rewrite Hf. by apply elem_of_union_r.
    + exists x. split; [by right|done].
Qed.

Lemma merged_every mo m o l b :
  f mo = f m ∩ f o →
  (∀ x, x ∈ mo :: l → b ∈ f x) ↔ (∀ x, x ∈ m :: o :: l → b ∈ f x).
Proof.
  intros Hf. rw -!Forall_forall !Forall_cons Hf elem_of_intersection. tauto.
Qed.

End merge.

Lemma aggregate_all_ok m others :
  Forall (λ o, wm_is_mla o = wm_is_mla m) others →
  ∃ m', aggregate_all m others = Ok m' ∧ wm_is_mla m' = wm_is_mla m ∧
    (∀ b, b ∈ wm_dump_succeeded_blocks m' ↔
      if wm_is_mla m then ∃ o, o ∈ m :: others ∧ b ∈ wm_dump_succeeded_blocks o
      else ∀ o, o ∈ m :: others → b ∈ wm_dump_succeeded_blocks o) ∧
    (∀ b, b ∈ wm_missing_blocks m' ↔ ∃ o, o ∈ m :: others ∧ b ∈ wm_missing_blocks o) ∧
    (∀ r, r ∈ wm_load_failed_reqs m' ↔ ∃ o, o ∈ m :: others ∧ r ∈ wm_load_failed_reqs o).
Proof.
  unfold aggregate_all. revert m. induction others as [|o others IH]; intros m Hall; simpl.
  { exists m. split; [done|]. split; [done|].
    destruct (wm_is_mla m); repeat split; set_solver. }
  apply Forall_cons in Hall as [Ho Hall]. unfold aggregate at 2.
  rewrite -> decide_True by done.
  match goal with |- context [foldl _ (Ok ?x) _] => set (mo := x); destruct (IH mo) as
    (m' & Hf & Hm & Hs & Hb & Hr) end.
  { simpl. eapply Forall_impl; [done|]. naive_solver. }
  exists m'. split; [done|]. split; [done|].
  split; [|split].
  - intros b. rewrite Hs. unfold mo at 1. simpl wm_is_mla.
    destruct (wm_is_mla m) eqn:Hmla; [apply merged_some|apply merged_every];
      unfold mo; simpl; by rewrite ?Hmla.
  - intros b. rewrite Hb. by apply merged_some.
  - intros r. rewrite Hr. by apply merged_some.
Qed.

Lemma tracker_apply `{SetOrderLaws} wm m t :
  tracker_ m = Some t →
  tracker_ (apply_worker_meta wm m) =
    Some (mark_missing (wm_missing_blocks wm) (t ∖ wm_dump_succeeded_blocks wm)).2.
Proof.
  intros Ht. unfold apply_worker_meta. rewrite Ht. simpl.
  by destruct (mark_missing _ _) as [a t'].
Qed.

(** ** Properties *)

(** The blocks the scheduler forwards to a prefix lookup are the longest prefix of the
    request that holds no block marked inconsistent. *)
Theorem valid_prefix_longest_clean t l :
  valid_prefix t l `prefix_of` l ∧ (∀ b, b ∈ valid_prefix t l → b ∉ t) ∧
  (∀ k, k `prefix_of` l → (∀ b, b ∈ k → b ∉ t) → k `prefix_of` valid_prefix t l).
Proof.
  split; [apply valid_prefix_prefix|]. split; [apply valid_prefix_clean|].
  apply valid_prefix_longest.
Qed.

(** However many worker reports the scheduler applies, its tracker never holds more than
    [MAX_INCONSISTENT_BLOCKS] blocks. *)
Theorem tracker_stays_bounded `{SetOrderLaws} (reports : list worker_meta) t :
  tracker_ (foldl (λ m wm, apply_worker_meta wm m) (init_manager true true) reports) = Some t →
  Z.of_nat (size t) ≤ MAX_INCONSISTENT_BLOCKS.
Proof.
  assert (∀ m, (∀ t, tracker_ m = Some t → Z.of_nat (size t) ≤ MAX_INCONSISTENT_BLOCKS) →
    ∀ t, tracker_ (foldl (λ m wm, apply_worker_meta wm m) m reports) = Some t →
    Z.of_nat (size t) ≤ MAX_INCONSISTENT_BLOCKS) as Hgen.
  { induction reports as [|wm reports IH]; intros m Hm; simpl; [done|].
    apply IH. intros t'. destruct (tracker_ m) as [t0|] eqn:Ht0.
    - rewrite (tracker_apply wm m t0 Ht0). intros [= <-]. apply mark_missing_size.
      etrans; [|by apply (Hm t0)]. apply inj_le, subseteq_size. set_solver.
    - unfold apply_worker_meta. rewrite Ht0. congruence. }
  apply Hgen. simpl. intros t' [= <-]. rw size_empty.
  unfold MAX_INCONSISTENT_BLOCKS. lia.
Qed.

Lemma tracker_stays_bounded_witness :
  Z.of_nat (size ({[ [1] ]} : gset bytes)) ≤ MAX_INCONSISTENT_BLOCKS.
Proof.
  apply (@tracker_stays_bounded sim_order sim_order_laws [WorkerMeta false ∅ ∅ {[ [1] ]} ∅]).
  vm_compute. reflexivity.
Defined.

(** Applying a worker report first clears the blocks it says were dumped and then marks the
    ones it says are missing, so a block reported in both sets ends up marked; nothing
    else enters or leaves the tracker. *)
Theorem fresh_mark_survives_stale_dump `{SetOrderLaws} wm m t :
  tracker_ m = Some t →
  Z.of_nat (size (wm_missing_blocks wm ∪ (t ∖ wm_dump_succeeded_blocks wm)))
    ≤ MAX_INCONSISTENT_BLOCKS →
  tracker_ (apply_worker_meta wm m) =
    Some (wm_missing_blocks wm ∪ (t ∖ wm_dump_succeeded_blocks wm)).
Proof.
  intros Ht Hsz. rewrite (tracker_apply wm m t Ht). by rewrite mark_missing_union.
Qed.

Lemma fresh_mark_survives_stale_dump_witness :
  tracker_ (apply_worker_meta (WorkerMeta false ∅ ∅ {[ [1] ]} {[ [1]; [2] ]})
              (set_tracker (Some {[ [2]; [3] ]}) (init_manager true true))) =
    Some ({[ [1] ]} ∪ ({[ [2]; [3] ]} ∖ {[ [1]; [2] ]})).
Proof.
  refine (fresh_mark_survives_stale_dump (WorkerMeta false ∅ ∅ {[ [1] ]} {[ [1]; [2] ]})
    (set_tracker (Some {[ [2]; [3] ]}) (init_manager true true)) {[ [2]; [3] ]} eq_refl _).
  vm_compute. discriminate.
Defined.

(** C5: A prefix lookup through the scheduler's manager never counts as a hit a block the
    tracker marks as missing on some rank, whatever the store answers. *)
Theorem lookup_on_prefix_avoids_marked {W} `{StoreLaws W} store ids (s s' : manager * W) t n :
  enabled s.1 = true → tracker_ s.1 = Some t →
  lookup_on_prefix store ids s = (Ok n, s') →
  -1 ≤ n < zlen ids ∧ ∀ b, b ∈ take (Z.to_nat (n + 1)) ids → b ∉ t.
Proof.
  destruct s as [m w]. simpl. intros Hen Ht. unfold lookup_on_prefix, on_store. munfold.
  rewrite Hen Ht. simpl. destruct (valid_prefix_prefix t ids) as [rest Hrest].
  pose proof (valid_prefix_clean t ids) as Hclean.
  destruct (valid_prefix t ids) as [|b0 l] eqn:Hvp; simpl.
  { intros [= <- <-]. split; [pose proof (zlen_nonneg ids); lia|].
    simpl. intros b Hb. by apply elem_of_nil in Hb. }
  destruct (st_lookup_on_prefix store (b0 :: l) w) as [[k|e] w'] eqn:Hst;
    simpl; [|done]. intros [= <- _].
  apply st_prefix_bounds in Hst. rw Hrest zlen_app. pose proof (zlen_nonneg rest).
  split; [lia|]. intros b. rewrite -> take_app_le by (unfold zlen in *; lia).
  intros Hb. apply Hclean. by apply elem_of_take in Hb as (i & Hi%list_elem_of_lookup_2 & _).
Qed.

Lemma lookup_on_prefix_avoids_marked_witness :
  -1 ≤ 0 < zlen [[7]; [8]; [9]] ∧ ∀ b, b ∈ take (Z.to_nat (0 + 1)) [[7]; [8]; [9]] →
    b ∉ ({[ [8] ]} : gset bytes).
Proof.
  apply (lookup_on_prefix_avoids_marked 0 [[7]; [8]; [9]]
           (set_tracker (Some {[ [8] ]}) (init_manager true true),
            sim_init [(0, [7]); (0, [8]); (0, [9])] [])
           (set_tracker (Some {[ [8] ]}) (init_manager true true),
            sim_init [(0, [7]); (0, [8]); (0, [9])] [])); reflexivity.
Defined.

(** An exact lookup answers one boolean per block, in order; a block is reported present
    only if the store has it and the tracker does not mark it. *)
Theorem lookup_all_masks_marked {W} `{StoreLaws W} store ids (s s' : manager * W) t bs :
  tracker_ s.1 = Some t →
  lookup_all store ids s = (Ok bs, s') →
  length bs = length ids ∧ ∃ raw,
    (st_lookup store ids s.2).1 = Ok raw ∧
    ∀ i b, ids !! i = Some b → bs !! i = Some true ↔ raw !! i = Some true ∧ b ∉ t.
Proof.
  destruct s as [m w]. simpl. intros Ht. unfold lookup_all, on_store. munfold.
  destruct (st_lookup store ids w) as [[raw|e] w'] eqn:Hst; simpl; [|done].
  rewrite Ht. intros [= <- <-]. pose proof (st_lookup_length _ _ _ _ _ Hst) as Hlen.
  split; [rw length_zip_with; lia|]. exists raw. split; [done|]. intros i b Hb.
  rewrite lookup_zip_with Hb. simpl.
  destruct (raw !! i) as [r|]; simpl; [|naive_solver].
  case_decide; naive_solver.
Qed.

Lemma lookup_all_masks_marked_witness :
  length [true; false; false] = length [[7]; [8]; [9]] ∧ ∃ raw,
    (st_lookup 0 [[7]; [8]; [9]] (sim_init [(0, [7]); (0, [8])] [])).1 = Ok raw ∧
    ∀ i b, [[7]; [8]; [9]] !! i = Some b →
      [true; false; false] !! i = Some true ↔ raw !! i = Some true ∧ b ∉ ({[ [8] ]} : gset bytes).
Proof.
  apply (lookup_all_masks_marked 0 [[7]; [8]; [9]]
           (set_tracker (Some {[ [8] ]}) (init_manager true true),
            sim_init [(0, [7]); (0, [8])] [])
           (set_tracker (Some {[ [8] ]}) (init_manager true true),
            sim_init [(0, [7]); (0, [8])] [])); reflexivity.
Defined.

(** When no dump task of the requests is outstanding, [finish_dump] reports for them
    exactly the blocks they submitted minus the blocks of their failed tasks, and forgets
    their bookkeeping; otherwise it raises. *)
Theorem finish_dump_reports {W} ids (s s' : manager * W) :
  enabled s.1 = true → finish_dump ids s = (Ok tt, s') →
  (∀ b, b ∈ dump_succeeded_blocks s'.1 ↔ b ∈ dump_succeeded_blocks s.1 ∨
     ∃ r, r ∈ ids ∧ b ∈ default ∅ (dump_blocks_by_request s.1 !! r) ∧
          b ∉ default ∅ (dump_failed_blocks_by_request s.1 !! r)) ∧
  (∀ r, r ∈ ids → dump_blocks_by_request s'.1 !! r = None ∧
                  dump_failed_blocks_by_request s'.1 !! r = None) ∧
  ids ∩ pending_request_ids s.1 = ∅.
Proof. intros Hen Hf. by apply finish_dump_spec. Qed.

Definition dumped_once : manager * sim :=
  (run_mops [OSubmitDump 0 [("a"%string, {[ [1]; [2] ]})] [[1]; [2]] [0; 0] [] 0; OWaitDump 1]
     (init_manager false true, sim_init [] [])).2.

Lemma finish_dump_reports_witness :
  ∃ s', finish_dump {["a"%string]} dumped_once = (Ok tt, s') ∧
        [1] ∈ dump_succeeded_blocks s'.1.
Proof.
  eexists. split; [reflexivity|].
  apply (finish_dump_reports {["a"%string]} dumped_once); [reflexivity..|].
  right. exists "a"%string. split; [|split]; by apply (bool_decide_unpack _); vm_compute.
Defined.

(** A dump of the block [b] for the request [r] that raises: the store refuses the
    submission, or the wait for the task fails. *)
Inductive dump_fails {W} `{StoreOps W} (r : string) (b : bytes) (s s' : manager * W) : Prop :=
  | submit_fails st ctx ids shards ptrs event e x : enabled s.1 = true → (r, x) ∈ ctx → b ∈ x →
      submit_dump st ctx ids shards ptrs event s = (Raise e, s') → dump_fails r b s s'
  | wait_fails t st ctx e x : dump_task_contexts s.1 !! t = Some (st, ctx) → (r, x) ∈ ctx → b ∈ x →
      wait_dump t s = (Raise e, s') → dump_fails r b s s'.

Lemma dump_fails_at {W} `{StoreOps W} r b (s s' : manager * W) : dump_fails r b s s' → failed_at r b s'.1.
Proof.
  destruct 1 as [st ctx ids shards ptrs event e x Hen Hr Hb Hrun|t st ctx e x Ht Hr Hb Hrun].
  - revert Hrun. destruct s as [m w]. cbn in Hen. unfold submit_dump, on_store. munfold. rewrite Hen. unfold upd, modify. simpl.
    destruct (st_dump_data st ids shards ptrs event w) as [[t|e0] w']; simpl; intros; simplify_eq. simpl.
    unfold failed_at. by eapply update_all_elem.
  - by eapply wait_dump_failed_at.
Qed.


Definition failing_dump : manager * sim :=
  (run_mops [OSubmitDump 0 [("a"%string, {[ [1]; [2] ]})] [[1]; [2]] [0; 0] [] 0]
     (init_manager false true, sim_init [] [[2]])).2.

(** A store that refuses every dump. *)
Definition full_store : StoreOps sim := {|
  st_lookup := st_lookup; st_lookup_on_prefix := st_lookup_on_prefix; st_prefetch := st_prefetch; st_load_data := st_load_data;
  st_dump_data := λ r ids sh ptrs ev w, (Raise (RuntimeError "no space"), w); st_wait := st_wait; st_check := st_check;
|}.


(** A load task waited through the manager is waited at most once.  The first wait takes
    the task's context; if the store raises [StoreNotFoundError] on an enabled manager, every
    request of the task and its rank-0 blocks are queued for the scheduler.  Any later wait on
    the task raises and leaves the manager and the store unchanged. *)
Theorem wait_load_consumes_and_classifies {W} `{StoreOps W} t st ctx (s s' : manager * W) r :
  load_task_contexts s.1 !! t = Some (st, ctx) →
  wait_load t s = (r, s') →
  (r = Raise StoreNotFoundError → enabled s.1 = true →
     missing_reqs s'.1 = list_to_set ctx.*1 ∪ missing_reqs s.1 ∧
     missing_blocks s'.1 = ⋃ (list_to_set <$> ctx.*2) ∪ missing_blocks s.1) ∧
  (r ≠ Raise StoreNotFoundError →
     missing_reqs s'.1 = missing_reqs s.1 ∧ missing_blocks s'.1 = missing_blocks s.1) ∧
  ∃ e, wait_load t s' = (Raise e, s').
Proof.
  destruct s as [m w]. simpl. intros Ht. unfold wait_load at 1, on_store, classify_load_error.
  munfold. rewrite Ht. unfold upd, modify. munfold.
  assert (∀ m' w', load_task_contexts m' !! t = None →
    ∃ e, wait_load t (m', w' : W) = (Raise e, (m', w'))) as Hagain.
  { intros m' w' Hm'. unfold wait_load. munfold. rewrite Hm'. by eexists. }
  assert (∀ c m0, load_task_contexts (mark_load_context_missing c m0) = load_task_contexts m0)
    as Hctx.
  { unfold mark_load_context_missing. intros c. induction c; intros m0; simpl; [done|].
    by rewrite IHc. }
  destruct (st_wait st t w) as [[[]|e] w']; simpl.
  { intros [= <- <-]. simpl. split; [done|]. split; [done|]. apply Hagain. simpl.
    apply lookup_delete_eq. }
  destruct (enabled m) eqn:Hen; case_bool_decide as He; simpl; intros [= <- <-]; simpl.
  - split; [|split; [naive_solver|]].
    + intros _ _. by destruct (mark_load_keeps ctx (set_load_ctx (delete t
        (load_task_contexts m)) m)) as (_ & _ & _ & -> & ->).
    + apply Hagain. rewrite Hctx. simpl. apply lookup_delete_eq.
  - split; [naive_solver|]. split; [done|]. apply Hagain. simpl. apply lookup_delete_eq.
  - split; [naive_solver|]. split; [done|]. apply Hagain. simpl. apply lookup_delete_eq.
  - split; [naive_solver|]. split; [done|]. apply Hagain. simpl. apply lookup_delete_eq.
Qed.

Definition loading_missing : manager * sim :=
  (run_mops [OSubmitLoad 0 [("a"%string, [[1]])] [[1]] [0] []]
     (init_manager false true, sim_init [] [])).2.

Lemma wait_load_consumes_and_classifies_witness :
  ∃ s', wait_load 1 loading_missing = (Raise StoreNotFoundError, s') ∧
    missing_blocks s'.1 = {[ [1] ]} ∧ ∃ e, wait_load 1 s' = (Raise e, s').
Proof.
  eexists. split; [vm_compute; reflexivity|].
  edestruct (wait_load_consumes_and_classifies 1 0 [("a"%string, [[1]])] loading_missing)
    as (Hnf & _ & Hagain); [vm_compute; reflexivity..|].
  split; [vm_compute; reflexivity|]. exact Hagain.
Defined.

(** Folding the workers' metadata over the ranks: with MLA a block is reported dumped when
    some rank dumped it, without MLA only when every rank did; a block is missing, or a
    request failed, when some rank says so.  The result does not depend on the order. *)
Theorem aggregate_over_ranks m others m' :
  aggregate_all m others = Ok m' →
  Forall (λ o, wm_is_mla o = wm_is_mla m) others →
  (∀ b, b ∈ wm_dump_succeeded_blocks m' ↔
      if wm_is_mla m then ∃ o, o ∈ m :: others ∧ b ∈ wm_dump_succeeded_blocks o
      else ∀ o, o ∈ m :: others → b ∈ wm_dump_succeeded_blocks o) ∧
  (∀ b, b ∈ wm_missing_blocks m' ↔ ∃ o, o ∈ m :: others ∧ b ∈ wm_missing_blocks o) ∧
  (∀ r, r ∈ wm_load_failed_reqs m' ↔ ∃ o, o ∈ m :: others ∧ r ∈ wm_load_failed_reqs o).
Proof.
  intros Hagg Hall. destruct (aggregate_all_ok m others Hall) as (x & Hx & _ & Hrest).
  rewrite Hx in Hagg. by simplify_eq.
Qed.

Lemma aggregate_over_ranks_witness :
  ∃ m', aggregate_all (WorkerMeta false ∅ ∅ ∅ {[ [1]; [2] ]})
          [WorkerMeta false {["r"%string]} ∅ {[ [9] ]} {[ [2]; [3] ]}] = Ok m' ∧
        [2] ∈ wm_dump_succeeded_blocks m' ∧ [1] ∉ wm_dump_succeeded_blocks m'.
Proof.
  eexists. split; [reflexivity|].
  edestruct (aggregate_over_ranks (WorkerMeta false ∅ ∅ ∅ {[ [1]; [2] ]})
    [WorkerMeta false {["r"%string]} ∅ {[ [9] ]} {[ [2]; [3] ]}]) as (Hs & _);
    [reflexivity|repeat constructor|].
  split; by apply (bool_decide_unpack _); vm_compute.
Defined.
