(* ===== verification/PyHash.v ===== *)
(** * Python's [hashlib.md5] and [pickle.dumps]

    The two library functions the request hasher calls, as the interface
    [PyHash] with the facts the code relies on, and as concrete functions: MD5
    of RFC 1321, and the protocol-5 pickle of the values the hasher is given. *)
From S2P Require Import Prelude.
Open Scope Z_scope.

(** The values given to [pickle.dumps]: a string, the pair of a parent and a
    tuple of tokens, the seed of a KV-cache group and the key of a state block
    (tuples of three and four items), and the pair of a parent that is an integer
    and a tuple of tokens. *)
Inductive pyobj :=
  | PStr (s : string)
  | PPair (b : bytes) (ints : list Z)
  | PSeed (tag base_seed : bytes) (group_id : Z)
  | PState (seed tag : bytes) (seq_len : Z) (prefix_hash : bytes)
  | PLong (n : Z) (ints : list Z).

Definition is_byte (b : Z) : Prop := 0 ≤ b < 256.

(** What the hasher builds: short strings and non-negative 31-bit integers; the
    pair with an integer parent is not covered. *)
Definition wf_obj (o : pyobj) : Prop :=
  match o with
  | PStr s => (String.length s < 256)%nat
  | PPair b l => zlen b < 256 ∧ Forall (λ x, 0 ≤ x < 2 ^ 31) l
  | PSeed t b n => zlen t < 256 ∧ zlen b < 256 ∧ 0 ≤ n < 2 ^ 31
  | PState s t n p => zlen s < 256 ∧ zlen t < 256 ∧ 0 ≤ n < 2 ^ 31 ∧ zlen p < 256
  | PLong _ _ => False
  end.

Class PyHash := {
  md5 : bytes → bytes;
  pickle_dumps : pyobj → bytes;
}.

(** An MD5 digest has 16 bytes; pickling is injective (it can be loaded back). *)
Class PyHashLaws `{PyHash} := {
  md5_length m : length (md5 m) = 16%nat;
  pickle_dumps_inj o1 o2 :
    wf_obj o1 → wf_obj o2 → pickle_dumps o1 = pickle_dumps o2 → o1 = o2;
}.

(** ** Little-endian words *)

Fixpoint le_bytes (n : nat) (z : Z) : bytes :=
  match n with
  | O => []
  | S n => z mod 256 :: le_bytes n (z / 256)
  end.

Fixpoint le_word (l : bytes) : Z :=
  match l with
  | [] => 0
  | b :: l => b + 256 * le_word l
  end.

Lemma le_bytes_length n z : length (le_bytes n z) = n.
Proof. revert z. induction n; intros z; simpl; [done|by f_equal]. Qed.

Lemma le_bytes_inj n x y :
  0 ≤ x < 256 ^ Z.of_nat n → 0 ≤ y < 256 ^ Z.of_nat n →
  le_bytes n x = le_bytes n y → x = y.
Proof.
  revert x y. induction n as [|n IH]; intros x y Hx Hy; [simpl in *; lia|].
  rewrite -> Nat2Z.inj_succ, Z.pow_succ_r in Hx, Hy by lia.
  cbn [le_bytes]. intros [= Hm Hd]. apply IH in Hd;
    [pose proof (Z.div_mod x 256); pose proof (Z.div_mod y 256); lia|..];
    (split; [apply Z.div_pos; lia|apply Z.div_lt_upper_bound; lia]).
Qed.

(** ** MD5 *)

Module Md5.

Definition w32 (z : Z) : Z := z mod 2 ^ 32.
Definition not32 (z : Z) : Z := Z.lxor z (2 ^ 32 - 1).
Definition rotl (x s : Z) : Z := Z.lor (w32 (Z.shiftl x s)) (Z.shiftr x (32 - s)).

(** [K[i] = floor(2^32 * abs(sin(i + 1)))] *)
Definition K : list Z := [
  3614090360; 3905402710; 606105819; 3250441966; 4118548399; 1200080426;
  2821735955; 4249261313; 1770035416; 2336552879; 4294925233; 2304563134;
  1804603682; 4254626195; 2792965006; 1236535329; 4129170786; 3225465664;
  643717713; 3921069994; 3593408605; 38016083; 3634488961; 3889429448;
  568446438; 3275163606; 4107603335; 1163531501; 2850285829; 4243563512;
  1735328473; 2368359562; 4294588738; 2272392833; 1839030562; 4259657740;
  2763975236; 1272893353; 4139469664; 3200236656; 681279174; 3936430074;
  3572445317; 76029189; 3654602809; 3873151461; 530742520; 3299628645;
  4096336452; 1126891415; 2878612391; 4237533241; 1700485571; 2399980690;
  4293915773; 2240044497; 1873313359; 4264355552; 2734768916; 1309151649;
  4149444226; 3174756917; 718787259; 3951481745].

Definition shifts (i : Z) : Z :=
  nth (Z.to_nat (4 * (i / 16) + i mod 4))
    [7; 12; 17; 22; 5; 9; 14; 20; 4; 11; 16; 23; 6; 10; 15; 21] 0.

Definition mix (i b c d : Z) : Z * Z :=
  if i <? 16 then (Z.lor (Z.land b c) (Z.land (not32 b) d), i)
  else if i <? 32 then (Z.lor (Z.land d b) (Z.land (not32 d) c), (5 * i + 1) mod 16)
  else if i <? 48 then (Z.lxor b (Z.lxor c d), (3 * i + 5) mod 16)
  else (Z.lxor c (Z.lor b (not32 d)), (7 * i) mod 16).

Definition round (m : list Z) (st : Z * Z * Z * Z) (ik : Z * Z) : Z * Z * Z * Z :=
  let '(a, b, c, d) := st in
  let '(i, k) := ik in
  let '(f, g) := mix i b c d in
  let f := w32 (f + a + k + nth (Z.to_nat g) m 0) in
  (d, w32 (b + rotl f (shifts i)), b, c).

Fixpoint words (n : nat) (l : bytes) : list Z :=
  match n with
  | O => []
  | S n => le_word (take 4 l) :: words n (drop 4 l)
  end.

Definition block (st : Z * Z * Z * Z) (m : list Z) : Z * Z * Z * Z :=
  let '(a, b, c, d) := st in
  let '(a', b', c', d') := foldl (round m) st (zip (seqZ 0 64) K) in
  (w32 (a + a'), w32 (b + b'), w32 (c + c'), w32 (d + d')).

Fixpoint blocks (fuel : nat) (st : Z * Z * Z * Z) (l : bytes) : Z * Z * Z * Z :=
  match fuel, l with
  | S fuel, _ :: _ => blocks fuel (block st (words 16 l)) (drop 64 l)
  | _, _ => st
  end.

(** A 1 bit, zeros up to 56 modulo 64, and the length in bits. *)
Definition pad (m : bytes) : bytes :=
  m ++ 128 :: replicate (Z.to_nat ((55 - zlen m) mod 64)) 0
    ++ le_bytes 8 ((8 * zlen m) mod 2 ^ 64).

Definition digest (m : bytes) : bytes :=
  let p := pad m in
  let '(a, b, c, d) :=
    blocks (length p) (1732584193, 4023233417, 2562383102, 271733878) p in
  le_bytes 4 a ++ le_bytes 4 b ++ le_bytes 4 c ++ le_bytes 4 d.

Lemma digest_length m : length (digest m) = 16%nat.
Proof.
  unfold digest. destruct (blocks _ _ _) as [[[a b] c] d].
  by rw !length_app !le_bytes_length.
Qed.

End Md5.

(** ** Pickle, protocol 5 *)

Module Pickle.

(** [save_long]: BININT1, BININT2, BININT, else LONG1 on the fewest bytes. *)
Definition long_bytes (x : Z) : bytes :=
  let n := (Z.log2 (Z.abs x) + 1) / 8 + 1 in
  let enc := le_bytes (Z.to_nat n) (x mod 256 ^ n) in
  let short := le_bytes (Z.to_nat (n - 1)) (x mod 256 ^ (n - 1)) in
  if (x <? 0) && (1 <? n) && (- 128 * 256 ^ (n - 2) <=? x) then short else enc.

Definition int_op (x : Z) : bytes :=
  if (0 <=? x) && (x <? 256) then [75; x]
  else if (0 <=? x) && (x <? 65536) then 77 :: le_bytes 2 x
  else if (- 2 ^ 31 <=? x) && (x <? 2 ^ 31) then 74 :: le_bytes 4 (x mod 2 ^ 32)
  else let b := long_bytes x in 138 :: zlen b :: b.

(** The opcode closing a tuple of up to three items, 't' after a mark otherwise;
    every non-empty tuple is memoized (148). *)
Definition tuple_op (l : list Z) : bytes :=
  let items := concat (int_op <$> l) in
  match length l with
  | O => [41]
  | 1%nat => items ++ [133; 148]
  | 2%nat => items ++ [134; 148]
  | 3%nat => items ++ [135; 148]
  | _ => 40 :: items ++ [116; 148]
  end.

(** SHORT_BINBYTES, or BINBYTES from 256 bytes on. *)
Definition bytes_op (b : bytes) : bytes :=
  (if zlen b <? 256 then 67 :: zlen b :: b else 66 :: le_bytes 4 (zlen b) ++ b) ++ [148].

Definition str_bytes (s : string) : bytes :=
  (λ a, Z.of_N (Ascii.N_of_ascii a)) <$> String.list_ascii_of_string s.

(** SHORT_BINUNICODE, or BINUNICODE from 256 bytes on. *)
Definition str_op (s : string) : bytes :=
  let b := str_bytes s in
  (if zlen b <? 256 then 140 :: zlen b :: b else 88 :: le_bytes 4 (zlen b) ++ b) ++ [148].

Definition body (o : pyobj) : bytes :=
  match o with
  | PStr s => str_op s ++ [46]
  | PPair b l => bytes_op b ++ tuple_op l ++ [134; 148; 46]
  | PSeed t b n => bytes_op t ++ bytes_op b ++ int_op n ++ [135; 148; 46]
  | PState s t n p =>
      40 :: bytes_op s ++ bytes_op t ++ int_op n ++ bytes_op p ++ [116; 148; 46]
  | PLong n l => int_op n ++ tuple_op l ++ [134; 148; 46]
  end.

(** One frame holds the whole body: it stays below the 64 KiB at which the
    pickler starts a second one. *)
Definition dumps (o : pyobj) : bytes :=
  let b := body o in [128; 5; 149] ++ le_bytes 8 (zlen b) ++ b.

Definition int_op_head (x : Z) : Z := nth 0 (int_op x) 0.

Lemma int_op_inj x y r1 r2 :
  0 ≤ x < 2 ^ 31 → 0 ≤ y < 2 ^ 31 →
  int_op x ++ r1 = int_op y ++ r2 → x = y ∧ r1 = r2.
Proof.
  intros Hx Hy. unfold int_op. rewrite -> !(Z.mod_small _ (2 ^ 32)) by lia.
  repeat match goal with |- context [if ?b then _ else _] => destruct b eqn:? end;
    try lia; intros Heq.
  1: by injection Heq as -> ->.
  all: try (exfalso; discriminate Heq).
  - apply app_inj_1 in Heq as [He ->]; [|done].
    apply (f_equal tail), (le_bytes_inj 2) in He; [done|simpl; lia..].
  - apply app_inj_1 in Heq as [He ->]; [|done].
    apply (f_equal tail), (le_bytes_inj 4) in He; [done|simpl; lia..].
Qed.

Lemma int_op_cases x :
  0 ≤ x < 2 ^ 31 → ∃ h t, int_op x = h :: t ∧ (h = 75 ∨ h = 77 ∨ h = 74).
Proof.
  intros Hx. unfold int_op.
  repeat match goal with |- context [if ?b then _ else _] => destruct b eqn:? end;
    try lia; eauto 10.
Qed.

Definition terminator (t : Z) : Prop := t ∈ [41; 133; 134; 135; 116].

Lemma ints_op_inj l1 l2 t1 t2 r1 r2 :
  Forall (λ x, 0 ≤ x < 2 ^ 31) l1 → Forall (λ x, 0 ≤ x < 2 ^ 31) l2 →
  terminator t1 → terminator t2 →
  concat (int_op <$> l1) ++ t1 :: r1 = concat (int_op <$> l2) ++ t2 :: r2 →
  l1 = l2.
Proof.
  unfold terminator. intros H1. revert l2.
  induction H1 as [|x l1 Hx H1 IH]; intros l2 H2 Ht1 Ht2 Heq; destruct l2 as [|y l2].
  - done.
  - exfalso. apply Forall_cons in H2 as [Hy _].
    destruct (int_op_cases y Hy) as (h & t & Hh & Hc). cbn in Heq. rewrite Hh in Heq.
    injection Heq as -> _. set_solver.
  - exfalso. destruct (int_op_cases x Hx) as (h & t & Hh & Hc). cbn in Heq.
    rewrite Hh in Heq. injection Heq as <- _. set_solver.
  - apply Forall_cons in H2 as [Hy H2]. cbn in Heq. rewrite -!app_assoc in Heq.
    apply int_op_inj in Heq as [-> Heq]; [|done..]. f_equal. by apply IH.
Qed.

Lemma bytes_op_inj b1 b2 r1 r2 :
  zlen b1 < 256 → zlen b2 < 256 →
  bytes_op b1 ++ r1 = bytes_op b2 ++ r2 → b1 = b2 ∧ r1 = r2.
Proof.
  intros H1 H2. unfold bytes_op.
  rewrite -> (proj2 (Z.ltb_lt (zlen b1) 256)), (proj2 (Z.ltb_lt (zlen b2) 256)) by done.
  rewrite -!app_assoc. simpl. intros [= Hl Hb].
  apply app_inj_1 in Hb as [-> Hb]; [|unfold zlen in Hl; lia]. by simplify_eq.
Qed.

(** A tuple is its items with an opcode before and a terminator after. *)
Lemma tuple_op_shape l :
  ∃ pre t r, tuple_op l = pre ++ concat (int_op <$> l) ++ t :: r ∧ terminator t ∧
    (pre = [] ∧ (length l ≤ 3)%nat ∨ pre = [40] ∧ (3 < length l)%nat).
Proof.
  unfold tuple_op, terminator.
  destruct l as [|x [|y [|z [|u l]]]].
  - exists [], 41, []. split; [done|]. split; [set_solver|left; split; [done|simpl; lia]].
  - exists [], 133, [148]. split; [done|]. split; [set_solver|left; split; [done|simpl; lia]].
  - exists [], 134, [148]. split; [done|]. split; [set_solver|left; split; [done|simpl; lia]].
  - exists [], 135, [148]. split; [done|]. split; [set_solver|left; split; [done|simpl; lia]].
  - exists [40], 116, [148]. split; [done|]. split; [set_solver|right; split; [done|simpl; lia]].
Qed.

Lemma tuple_op_inj l1 l2 r1 r2 :
  Forall (λ x, 0 ≤ x < 2 ^ 31) l1 → Forall (λ x, 0 ≤ x < 2 ^ 31) l2 →
  tuple_op l1 ++ r1 = tuple_op l2 ++ r2 → l1 = l2.
Proof.
  intros H1 H2.
  destruct (tuple_op_shape l1) as (p1 & t1 & u1 & -> & Ht1 & Hp1).
  destruct (tuple_op_shape l2) as (p2 & t2 & u2 & -> & Ht2 & Hp2).
  rewrite -!app_assoc. simpl. intros Heq.
  destruct Hp1 as [[-> Hl1]|[-> Hl1]], Hp2 as [[-> Hl2]|[-> Hl2]]; simpl in Heq.
  - by apply (ints_op_inj _ _ t1 t2 (u1 ++ r1) (u2 ++ r2)).
  - exfalso. destruct l1 as [|x l1].
    + simpl in Heq. injection Heq as -> _. unfold terminator in Ht1. set_solver.
    + apply Forall_cons in H1 as [Hx _]. destruct (int_op_cases x Hx) as (h & t & Hh & Hc).
      cbn in Heq. rewrite Hh in Heq. injection Heq as -> _. lia.
  - exfalso. destruct l2 as [|x l2].
    + simpl in Heq. injection Heq as <- _. unfold terminator in Ht2. set_solver.
    + apply Forall_cons in H2 as [Hx _]. destruct (int_op_cases x Hx) as (h & t & Hh & Hc).
      cbn in Heq. rewrite Hh in Heq. injection Heq as <- _. lia.
  - injection Heq as Heq. by apply (ints_op_inj _ _ t1 t2 (u1 ++ r1) (u2 ++ r2)).
Qed.

Lemma str_bytes_inj : Inj (=) (=) str_bytes.
Proof.
  intros s1 s2. revert s2. unfold str_bytes.
  induction s1 as [|a s1 IH]; intros [|b s2]; simpl; intros Heq; try done.
  injection Heq as Ha Hs. apply IH in Hs as ->. f_equal.
  apply N2Z.inj in Ha. rewrite <- (Ascii.ascii_N_embedding a), <- (Ascii.ascii_N_embedding b).
  by rw Ha.
Qed.

Lemma str_bytes_length s : length (str_bytes s) = String.length s.
Proof. induction s; [done|]. unfold str_bytes in *. simpl. by f_equal. Qed.

Lemma str_op_inj s1 s2 r1 r2 :
  (String.length s1 < 256)%nat → (String.length s2 < 256)%nat →
  str_op s1 ++ r1 = str_op s2 ++ r2 → s1 = s2.
Proof.
  intros H1 H2. unfold str_op.
  rewrite -> (proj2 (Z.ltb_lt (zlen (str_bytes s1)) 256)), (proj2 (Z.ltb_lt (zlen (str_bytes s2)) 256))
    by (unfold zlen; rewrite str_bytes_length; lia).
  rewrite -!app_assoc. simpl. intros [= Hl Hb].
  apply app_inj_1 in Hb as [Hb _]; [|unfold zlen in Hl; lia]. by apply str_bytes_inj.
Qed.

(** The first opcode tells strings, tuples that start with bytes and marks apart. *)
Lemma bytes_op_head b : zlen b < 256 → ∃ t, bytes_op b = 67 :: t.
Proof. intros Hb. unfold bytes_op. rewrite -> (proj2 (Z.ltb_lt _ _)) by done. by eexists. Qed.

Lemma tuple_op_no_bytes l b r1 r2 :
  Forall (λ x, 0 ≤ x < 2 ^ 31) l → zlen b < 256 → tuple_op l ++ r1 ≠ bytes_op b ++ r2.
Proof.
  intros Hl Hb Heq. destruct (bytes_op_head b Hb) as (t & Ht). rewrite Ht in Heq.
  destruct (tuple_op_shape l) as (p & o & u & Hs & Ho & Hp). rewrite Hs in Heq.
  destruct Hp as [[-> _]|[-> _]]; [|done].
  destruct Hl as [|x l Hx Hl].
  - simpl in Heq. injection Heq as -> _. unfold terminator in Ho. set_solver.
  - destruct (int_op_cases x Hx) as (h & t' & Hh & Hc). cbn in Heq. rewrite Hh in Heq.
    injection Heq as -> _. lia.
Qed.

Lemma body_inj o1 o2 : wf_obj o1 → wf_obj o2 → body o1 = body o2 → o1 = o2.
Proof.
  assert (Hstr : ∀ s, (String.length s < 256)%nat → ∃ t, body (PStr s) = 140 :: t).
  { intros s Hs. unfold body, str_op.
    rewrite -> (proj2 (Z.ltb_lt _ _)); [by eexists|unfold zlen; rewrite str_bytes_length; lia]. }
  intros H1 H2 Heq.
  destruct o1 as [s1|b1 l1|t1 b1 n1|s1 t1 n1 p1|n1 l1], o2 as [s2|b2 l2|t2 b2 n2|s2 t2 n2 p2|n2 l2];
    try (exfalso; exact H1); try (exfalso; exact H2).
  all: try (destruct (Hstr _ H1) as (? & E); rewrite E in Heq).
  all: try (destruct (Hstr _ H2) as (? & E'); rewrite E' in Heq).
  all: cbn [wf_obj] in H1, H2; destruct_and?; cbn [body] in Heq.
  all: try (exfalso; repeat match goal with
    | H : zlen ?b < 256, Heq : context [bytes_op ?b] |- _ =>
        destruct (bytes_op_head b H) as (? & E3); rewrite E3 in Heq; clear E3
    end; discriminate Heq).
  - f_equal. rewrite <- E, <- E' in Heq. cbn [body] in Heq. by apply str_op_inj in Heq.
  - apply bytes_op_inj in Heq as [-> Heq]; [|done..]. f_equal. by apply tuple_op_inj in Heq.
  - exfalso. apply bytes_op_inj in Heq as [_ Heq]; [|done..]. by apply tuple_op_no_bytes in Heq.
  - exfalso. apply bytes_op_inj in Heq as [_ Heq]; [|done..]. by apply symmetry, tuple_op_no_bytes in Heq.
  - apply bytes_op_inj in Heq as [-> Heq]; [|done..]. apply bytes_op_inj in Heq as [-> Heq]; [|done..].
    by apply int_op_inj in Heq as [-> _].
  - injection Heq as Heq. apply bytes_op_inj in Heq as [-> Heq]; [|done..].
    apply bytes_op_inj in Heq as [-> Heq]; [|done..]. apply int_op_inj in Heq as [-> Heq]; [|done..].
    by apply bytes_op_inj in Heq as [-> _].
Qed.

Lemma dumps_inj o1 o2 : wf_obj o1 → wf_obj o2 → dumps o1 = dumps o2 → o1 = o2.
Proof.
  intros H1 H2. unfold dumps. intros [_ Heq]%app_inj_1; [|done].
  apply app_inj_1 in Heq as [_ Heq]; [|by rw !le_bytes_length]. by apply body_inj.
Qed.

End Pickle.

#[export] Instance cpython_hash : PyHash := {|
  md5 := Md5.digest;
  pickle_dumps := Pickle.dumps;
|}.

#[export] Instance cpython_hash_laws : PyHashLaws.
Proof.
  split; [exact Md5.digest_length|exact Pickle.dumps_inj].
Defined.

(** Values computed by CPython 3. *)
Example md5_empty : Md5.digest [] =
  [212; 29; 140; 217; 143; 0; 178; 4; 233; 128; 9; 152; 236; 248; 66; 126].
Proof. vm_compute. reflexivity. Qed.

Example pickle_pair_example :
  Pickle.dumps (PPair (seqZ 0 16) [1; 256; 65536; 2147483647; 5]) =
  [128; 5; 149; 42; 0; 0; 0; 0; 0; 0; 0; 67; 16; 0; 1; 2; 3; 4; 5; 6; 7; 8; 9; 10; 11;
   12; 13; 14; 15; 148; 40; 75; 1; 77; 0; 1; 74; 0; 0; 1; 0; 74; 255; 255; 255; 127;
   75; 5; 116; 148; 134; 148; 46].
Proof. vm_compute. reflexivity. Qed.

Example pickle_state_example :
  Pickle.dumps (PState [1; 2] [85] 4096 [7]) =
  [128; 5; 149; 20; 0; 0; 0; 0; 0; 0; 0; 40; 67; 2; 1; 2; 148; 67; 1; 85; 148; 77; 0; 16;
   67; 1; 7; 148; 116; 148; 46].
Proof. vm_compute. reflexivity. Qed.
