(* ===== verification/Mindie.v ===== *)
(** * The MindIE integration

    [unifiedcache_mempool.py], [uc_utils.py] and the patched
    [prefix_cache_plugin.py] under [ucm/integration/mindie].  The plugin names a
    block by the hash of its prefix and the rank that holds it, asks a memory
    pool to load the blocks the scheduler found remotely and to store the blocks
    it computed; the pool maps names to identifiers and drives a store.  Model
    inputs and attention masks are the engine's. *)
From S2P Require Import Prelude PyStrings Runtime PyHash MindieHash.
Open Scope Z_scope.

(** [try: m except RuntimeError as e: h e] *)
Definition try_runtime {S A} (m : M S A) (h : exn → M S A) : M S A :=
  try_except m (λ e, if is_runtime_error e then h e else raise e).

(** ** Configuration *)

Record uid_file := UidFile {
  uf_timestamp : Z;
  uf_uid : option string;
}.

(** [get_dual_consensus_uids] inside its file lock: [file] is what the
    coordination file held, [now] the clock and [strftime] the format of a time. *)
Definition get_dual_consensus_uids (strftime : Z → string) (prefix_a : string) (timeout now : Z)
    (file : uid_file) : string * uid_file :=
  let fresh :=
    let mla_store_uid := prefix_a +:+ "_" +:+ strftime now in
    (mla_store_uid, UidFile now (Some mla_store_uid)) in
  match uf_uid file with
  | None | Some EmptyString => fresh
  | Some uid => if timeout <? now - uf_timestamp file then fresh else (uid, file)
  end.

Record parallel_config := ParallelConfig {
  pc_dp_size : Z;
  pc_tp_size : Z;
  pc_sp_size : Z;
  pc_cp_size : Z;
  pc_scp_size : Z;
}.

Definition parse_mindie_config (model_config : dict string Z) : parallel_config :=
  let dp := dict_get_default "dp" 1 model_config in
  let tp := dict_get_default "tp" 1 model_config in
  let sp := dict_get_default "sp" 1 model_config in
  let cp := dict_get_default "cp" 1 model_config in
  let world_size := dict_get_default "worldSize" 1 model_config in
  let tp := if (tp * dp =? 1) || (tp * cp =? 1) then world_size else tp in
  ParallelConfig dp tp sp cp (sp * cp).

(** [is_mla] and [share_buffer_enable]. *)
Definition parse_model_config (has_kv_lora_rank : bool) (scp_size : Z) : bool * bool :=
  (has_kv_lora_rank, has_kv_lora_rank && (scp_size =? 1)).

(** Adjacent string literals are one string. *)
Definition certs_to_check : list string := ["/etc/kvcs/tls/ca.crt"; "/etc/kvcs/tls/tls.crt" +:+ "/etc/kvcs/tls/tls.key"].

Definition check_kvcs_certificates (is_file : string → bool) : res unit :=
  match filter (λ p, is_file p = false) certs_to_check with
  | [] => Ok tt
  | missing_certs => Raise (FileNotFoundError missing_certs)
  end.

(** The bytes of a block of the key and of the value tensor of every layer. *)
Definition get_io_size_info (kv_caches : option (list (Z * Z))) : res (list Z * Z) :=
  match kv_caches with
  | None => Ok ([0], 0)
  | Some kv_caches =>
      '(k_io_size, v_io_size) ← py_index kv_caches 0;
      let num_layers := length kv_caches in
      let tensor_size_list := replicate num_layers k_io_size ++ replicate num_layers v_io_size in
      Ok (tensor_size_list, zsum tensor_size_list)
  end.

Inductive store_class := PipelineStoreConfig | KVCSStoreConfig.

Definition config_class (num_accelerator : bool) (storage_platform : option string) : res store_class :=
  if num_accelerator then Ok PipelineStoreConfig
  else match storage_platform with
       | None => Ok KVCSStoreConfig
       | Some p =>
           if String.eqb p "ASERIES" then Ok KVCSStoreConfig
           else if String.eqb p "PACIFIC9950" then Ok PipelineStoreConfig
           else Raise (ValueError "Invalid STORAGE_PLATFORM")
       end.

(** What [get_unified_config] adds to the user's configuration. *)
Record store_config := StoreConfig {
  sc_class : store_class;
  sc_device_id : Z;
  sc_share_buffer_enable : bool;
  sc_unique_id : string;
  sc_tensor_size_list : list Z;
  sc_shard_size : Z;
  sc_block_size : Z;
  sc_kvcs_report_divisor : Z;
}.

Record runtime_config := RuntimeConfig {
  is_mla : bool;
  scp_size : Z;
  tp_size : Z;
}.

Definition get_unified_config (model_config : dict string Z) (has_kv_lora_rank : bool)
    (kv_caches : option (list (Z * Z))) (device_id : Z) (unique_id : string) (num_accelerator : bool)
    (storage_platform : option string) (kvcs_tls_enable : bool) (is_file : string → bool) :
    res (runtime_config * store_config) :=
  let p := parse_mindie_config model_config in
  let '(mla, share_buffer_enable) := parse_model_config has_kv_lora_rank (pc_scp_size p) in
  '(tensor_sizes, shard_size) ← get_io_size_info kv_caches;
  cls ← config_class num_accelerator storage_platform;
  _ ← match cls with
      | KVCSStoreConfig => if kvcs_tls_enable then check_kvcs_certificates is_file else Ok tt
      | PipelineStoreConfig => Ok tt
      end;
  Ok (RuntimeConfig mla (pc_scp_size p) (pc_tp_size p),
      StoreConfig cls device_id share_buffer_enable unique_id tensor_sizes shard_size shard_size
        (if 1 <? pc_scp_size p then 1 else pc_tp_size p)).

(** ** Addresses of the blocks *)

(** A cache tensor, in elements; [t_data_ptr] is the address of its storage. *)
Record npu_tensor := NpuTensor {
  t_num_blocks : Z;
  t_element_size : Z;
  t_data_ptr : Z;
  t_storage_offset : Z;
  t_stride0 : Z;
}.

Definition block_ptrs (t : npu_tensor) (max_num_blocks : Z) : list Z :=
  let base := u64 (t_data_ptr t + t_storage_offset t * t_element_size t) in
  let stride0 := u64 (t_stride0 t * t_element_size t) in
  (λ b, u64 (base + stride0 * b)) <$> py_range 0 max_num_blocks.

(** [ptr_table] by layer, then key or value, then block. *)
Definition KVPtrComputer (npu_cache : list (npu_tensor * npu_tensor)) : res (list (list (list Z))) :=
  match npu_cache with
  | [] => Raise AssertionError
  | (ref, _) :: _ =>
      let n := t_num_blocks ref in
      if forallb (λ x, (t_num_blocks x.1 =? n) && (t_num_blocks x.2 =? n)) npu_cache
      then Ok ((λ x, [block_ptrs x.1 n; block_ptrs x.2 n]) <$> npu_cache)
      else Raise AssertionError
  end.

Definition ptrs_for_blocks_np (ptr_table : list (list (list Z))) (block_ids : list Z) :
    res (list (list (list Z))) :=
  map_res (λ b, map_res (map_res (λ ptrs, py_index ptrs b)) ptr_table) block_ids.

(** ** The memory pool *)

Definition LOAD_OK : Z := 0.
Definition DUMP_OK : Z := 0.
Definition LOAD_ERROR : Z := -1.
Definition DUMP_ERROR : Z := -1.
Definition TASK_INVALID : Z := 0.

(** The bits of [BypassMode]. *)
Definition BYPASS_GET : Z := 1.
Definition BYPASS_PUT : Z := 2.
Definition BYPASS_EXISTS : Z := 4.

Record pool_conf := PoolConf {
  runtime_cfg : runtime_config;
  bypass : Z;
  uc_store : sref;
}.

Definition bypassed (pc : pool_conf) (mode : Z) : bool := negb (Z.land (bypass pc) mode =? 0).

(** The caches of all tensor-parallel ranks are the same. *)
Definition shared_by_tp (pc : pool_conf) : bool := is_mla (runtime_cfg pc) && (scp_size (runtime_cfg pc) =? 1).

(** [l[i::n]], for [n] not negative. *)
Definition py_step {A} (l : list A) (i n : Z) : res (list A) :=
  if n =? 0 then Raise (ValueError "slice step cannot be zero") else Ok (py_stride (py_from l i) 0 n).

Section mempool.
  Context {W : Type} `{StoreOps W} `{PyHash}.
  (** The identifier of a task; [None] when the store returned no task. *)
  Variable task_id : task → option Z.
  Variable pc : pool_conf.

(** The state of the pool is its [tp_rank], -1 until the first key tells it. *)
Notation PM := (M (Z * W)).

Definition on_store {A} (m : M W A) : PM A := lift snd (λ w s, (s.1, w)) m.
Definition set_tp_rank (r : Z) : PM unit := modify (λ s, (r, s.2)).

(** [key.encode("utf-8")] of an ASCII key *)
Definition str_bytes (s : string) : bytes := (λ c, Z.of_N (N_of_ascii c)) <$> String.list_ascii_of_string s.
Definition str_to_md5_bytes (key : string) : bytes := md5 (str_bytes key).

(** The loop over the keys, [rank0_keys] and [cur_tp] being its variables. *)
Fixpoint rank_0_keys (all keys rank0_keys : list string) (cur_tp : option Z) : PM (list string * Z) :=
  match keys with
  | [] => match cur_tp with
          | Some cur_tp => mret (rank0_keys, cur_tp)
          | None => raise UnboundLocalError
          end
  | key :: keys =>
      let parts := split_on "_" key in
      p ← of_res (py_index parts 1);
      cur_tp ← of_res (py_int p);
      rank ← gets fst;
      (if rank <? 0 then set_tp_rank cur_tp else mret tt) ;;
      if cur_tp =? 0 then mret (all, cur_tp)
      else rank_0_keys all keys (rank0_keys ++ [join "_" (<[1%nat := "0"]> parts)]) (Some cur_tp)
  end.

Definition _get_tp_rank_0_hash_key (keys : list string) : PM (list string * Z) :=
  rank_0_keys keys keys [] None.

Definition _get_tensors_for_store (mindie_tensors : list (list (list Z))) : addr_rows :=
  @concat Z <$> mindie_tensors.

Definition _check_task (t : task) : bool :=
  match task_id t with None => false | Some id => negb (id =? TASK_INVALID) end.

Fixpoint _wait_tasks (tasks : list task) : PM bool :=
  match tasks with
  | [] => mret true
  | t :: tasks =>
      ok ← try_runtime (on_store (st_wait (uc_store pc) t) ;; mret true) (λ _, mret false);
      if (ok : bool) then _wait_tasks tasks else mret false
  end.

Definition exists_ (keys : list string) : PM bool :=
  if bypassed pc BYPASS_EXISTS then mret false
  else
    let lookup keys :=
      let hash_keys := str_to_md5_bytes <$> keys in
      try_runtime (found_idx ← on_store (st_lookup_on_prefix (uc_store pc) hash_keys); mret (0 <=? found_idx))
        (λ _, mret false) in
    if shared_by_tp pc then
      '(keys, cur_tp) ← _get_tp_rank_0_hash_key keys;
      if 0 <? cur_tp then mret true else lookup keys
    else lookup keys.

Definition batch_exist (keys : list string) : PM (list bool) :=
  let n := zlen keys in
  assert_ (0 <? n) ;;
  let none_found := replicate (length keys) false in
  if bypassed pc BYPASS_EXISTS then mret none_found
  else
    let tp_size := tp_size (runtime_cfg pc) in
    if shared_by_tp pc then
      if (tp_size <=? 0) || negb (n mod tp_size =? 0) then mret none_found
      else
        let block_tp0_keys := py_stride keys 0 tp_size in
        try_runtime (
          found_idx ← on_store (st_lookup_on_prefix (uc_store pc) (str_to_md5_bytes <$> block_tp0_keys));
          let num_hit_blocks := found_idx + 1 in
          mret (concat ((λ block_idx, replicate (Z.to_nat tp_size) (block_idx <? num_hit_blocks)) <$>
                          py_range 0 (zlen block_tp0_keys))))
          (λ _, mret none_found)
    else
      found_idx ← try_runtime (
        found_idx ← on_store (st_lookup_on_prefix (uc_store pc) (str_to_md5_bytes <$> keys)); mret (Some found_idx))
        (λ _, mret None);
      match found_idx with
      | Some found_idx =>
          mret (replicate (Z.to_nat (found_idx + 1)) true ++ replicate (Z.to_nat (n - found_idx - 1)) false)
      | None => mret none_found
      end.

(** Submit, check and wait for one task. *)
Definition transfer (submit : PM task) (ok error : Z) : PM Z :=
  t ← try_runtime (t ← submit; mret (Some t)) (λ _, mret None);
  match t with
  | None => mret error
  | Some t =>
      if negb (_check_task t) then mret error
      else done ← _wait_tasks [t]; mret (if (done : bool) then ok else error)
  end.

(** The keys and tensors a rank stores. *)
Definition put_selection (keys : list string) (tensors : list (list (list Z))) :
    PM (list string * list (list (list Z))) :=
  if shared_by_tp pc then
    '(tp0_keys, _) ← _get_tp_rank_0_hash_key keys;
    tp_rank ← gets fst;
    keys ← of_res (py_step tp0_keys tp_rank (tp_size (runtime_cfg pc)));
    tensors ← of_res (match keys with [] => Ok tensors | _ => py_step tensors tp_rank (tp_size (runtime_cfg pc)) end);
    mret (keys, tensors)
  else mret (keys, tensors).

Definition put (keys : list string) (tensors : list (list (list Z))) : PM Z :=
  if bypassed pc BYPASS_PUT then mret DUMP_OK
  else
    '(keys, tensors) ← put_selection keys tensors;
    match keys, shared_by_tp pc with
    | [], true => mret DUMP_OK
    | _, _ =>
        let hash_keys := str_to_md5_bytes <$> keys in
        transfer (on_store (st_dump_data (uc_store pc) hash_keys ((λ _, 0) <$> hash_keys)
                    (_get_tensors_for_store tensors) 0)) DUMP_OK DUMP_ERROR
    end.

Definition get (keys : list string) (tensors : list (list (list Z))) : PM Z :=
  if bypassed pc BYPASS_GET then mret LOAD_OK
  else
    '(keys, _) ← (if shared_by_tp pc then _get_tp_rank_0_hash_key keys else mret (keys, 0));
    let hash_keys := str_to_md5_bytes <$> keys in
    transfer (on_store (st_load_data (uc_store pc) hash_keys ((λ _, 0) <$> hash_keys)
                (_get_tensors_for_store tensors))) LOAD_OK LOAD_ERROR.

End mempool.

(** ** The plugin *)

Record plugin_conf := PluginConf {
  pl_scp_size : Z;
  pl_scp_rank : Z;
  pl_tp_size : Z;
  pl_tp_rank : Z;
  pl_model_name : string;
  pl_attn_dp_rank : Z;
  pl_num_put_layers : Z;
  (** whether there is a memory pool *)
  pl_mempool : bool;
}.

(** Block counts of the requests, in total or by rank. *)
Inductive counts := PerRequest (l : list Z) | PerRank (l : list (list Z)).

Record input_metadata := InputMeta {
  is_prefill : bool;
  batch_size : Z;
  batch_seq_len : list Z;
  batch_dp_rank_ids : list Z;
  max_block_size : Z;
  batch_block_tables : list (list Z);
  computed_blocks : option counts;
  remote_computed_blocks : option counts;
  input_ids : list Z;
}.

Section plugin.
  Variable c : plugin_conf.

Definition _prefix_key_suffix : string :=
  if 1 <? pl_scp_size c
  then "_" +:+ pretty (pl_scp_rank c) +:+ "_" +:+ pretty (pl_scp_size c) +:+ "_" +:+ pl_model_name c
  else "_" +:+ pretty (pl_tp_rank c) +:+ "_" +:+ pretty (pl_tp_size c) +:+ "_" +:+ pl_model_name c.

Definition get_prefix_keys (hash_value : Z) : string := pretty hash_value +:+ _prefix_key_suffix.

(** [np.zeros] when there are no counts *)
Definition counts_or_zeros (n : Z) (x : option counts) : option counts :=
  match x with
  | Some x => Some x
  | None => Some (if 1 <? pl_scp_size c
                  then PerRank (replicate (Z.to_nat n) (replicate (Z.to_nat (pl_scp_size c)) 0))
                  else PerRequest (replicate (Z.to_nat n) 0))
  end.

(** [np.sum(x, axis=1)] *)
Definition sum_ranks (x : option counts) : res (option counts) :=
  match x with
  | Some (PerRank l) => Ok (Some (PerRequest (zsum <$> l)))
  | _ => Raise (ValueError "axis 1 is out of bounds")
  end.

Definition sum_if_scp (x : option counts) : res (option counts) :=
  if 1 <? pl_scp_size c then sum_ranks x else Ok x.

(** [int(x[i])] *)
Definition count_at (x : option counts) (i : Z) : res Z :=
  match x with
  | None => Raise (TypeError "'NoneType' object is not subscriptable")
  | Some (PerRequest l) => py_index l i
  | Some (PerRank l) =>
      row ← py_index l i;
      match row with [n] => Ok n | _ => Raise (TypeError "only length-1 arrays can be converted to Python scalars") end
  end.

(** The blocks of [computed, stop) a rank holds, with their position in its
    block table. *)
Definition rank_blocks (computed stop : Z) : list (Z * Z) :=
  if 1 <? pl_scp_size c then
    let first := computed + (pl_scp_rank c - computed mod pl_scp_size c) mod pl_scp_size c in
    let blocks := py_range_step first stop (pl_scp_size c) in
    zip blocks (seqZ 0 (zlen blocks))
  else (λ b, (b, b)) <$> py_range computed stop.

(** The keys of these blocks and their block ids. *)
Definition keys_of (prefix_hashes : list Z) (batch_block_tables : list (list Z)) (i : Z) (blocks : list (Z * Z)) :
    res (list (string * Z)) :=
  map_res (λ x,
    h ← py_index prefix_hashes x.1;
    block_table ← py_index batch_block_tables i;
    id ← py_index block_table x.2;
    Ok (get_prefix_keys h, id)) blocks.

(** One request of [get_prefix_kvcache_from_mempool]; [offset] is where its
    tokens start. *)
Definition get_request (md : input_metadata) (computed_blocks remote_computed_blocks : option counts)
    (acc : Z * list (string * Z)) (i : Z) : res (Z * list (string * Z)) :=
  let '(offset, keys) := acc in
  seq_len ← py_index (batch_seq_len md) i;
  dp ← py_index (batch_dp_rank_ids md) i;
  let next := offset + seq_len in
  if negb (dp =? pl_attn_dp_rank c) then Ok (next, keys)
  else
    let bs := max_block_size md in
    let full_blocks := if bs =? 0 then 0 else (seq_len - 1) / bs in
    if full_blocks <=? 0 then Ok (next, keys)
    else
      computed ← count_at computed_blocks i;
      remote_computed ← count_at remote_computed_blocks i;
      if (remote_computed <=? computed) || (full_blocks <=? computed) then Ok (next, keys)
      else
        let remote_computed := Z.min remote_computed full_blocks in
        let flat := py_slice (input_ids md) offset (offset + remote_computed * bs) in
        prefix_hashes ← HashPrefix 64 INVALID_HASH_VALUE flat bs 0 remote_computed;
        new ← keys_of prefix_hashes (batch_block_tables md) i (rank_blocks computed remote_computed);
        Ok (next, keys ++ new).

(** The keys to load and their block ids. *)
Definition get_keys (md : input_metadata) : res (list (string * Z)) :=
  computed ← sum_if_scp (counts_or_zeros (batch_size md) (computed_blocks md));
  remote_computed ← sum_if_scp (remote_computed_blocks md);
  acc ← fold_res (get_request md computed remote_computed) (0, []) (py_range 0 (batch_size md));
  Ok acc.2.

(** One request of [put_prefix_kvcache_to_mempool]. *)
Definition put_request (md : input_metadata) (batch_input_ids : list (list Z)) (batch_seq_lens : list Z)
    (remote_computed_blocks : option counts) (keys : list (string * Z)) (i : Z) : res (list (string * Z)) :=
  dp ← py_index (batch_dp_rank_ids md) i;
  if negb (dp =? pl_attn_dp_rank c) then Ok keys
  else
    let bs := max_block_size md in
    seq_len ← py_index batch_seq_lens i;
    if negb (bs =? 0) && (seq_len - 1 <? bs) then Ok keys
    else if bs =? 0 then Raise ZeroDivisionError
    else
      let full_blocks := (seq_len - 1) / bs in
      if full_blocks <=? 0 then Ok keys
      else
        computed ← count_at remote_computed_blocks i;
        if full_blocks <=? computed then Ok keys
        else
          row ← py_index batch_input_ids i;
          prefix_hashes ← HashPrefix 64 INVALID_HASH_VALUE (py_upto row (full_blocks * bs)) bs 0 full_blocks;
          new ← keys_of prefix_hashes (batch_block_tables md) i (rank_blocks computed full_blocks);
          Ok (keys ++ new).

Definition in_dp_rank (md : input_metadata) : bool :=
  existsb (λ d, d =? pl_attn_dp_rank c) (batch_dp_rank_ids md).

(** The keys to store and their block ids; [None] when there is nothing to do. *)
Definition put_keys (md : input_metadata) (batch_input_ids : list (list Z)) (batch_seq_lens : list Z) :
    res (list (string * Z)) :=
  if negb (pl_mempool c) || negb (is_prefill md) || negb (in_dp_rank md) then Ok []
  else
    remote ← sum_if_scp (counts_or_zeros (batch_size md) (remote_computed_blocks md));
    fold_res (put_request md batch_input_ids batch_seq_lens remote) [] (py_range 0 (batch_size md)).

(** What [put_prefix_kvcache_put_task_queue] queues, one task per layer: first,
    last, and whether only keys and values are saved.  Without sequence
    parallelism the counts are per request. *)
Definition put_tasks (md : input_metadata) : res (list (bool * bool * bool)) :=
  only_save_kv ← match remote_computed_blocks md with
                 | None => Ok true
                 | Some x =>
                     if pl_scp_size c =? 1 then
                       match x with
                       | PerRequest l =>
                           Ok (zsum ((λ x, if x.1 =? pl_attn_dp_rank c then x.2 else 0) <$> zip (batch_dp_rank_ids md) l) =? 0)
                       | PerRank _ => Raise (ValueError "The truth value of an array is ambiguous")
                       end
                     else Ok false
                 end;
  Ok ((λ layer_id, (layer_id =? 0, layer_id =? pl_num_put_layers c - 1, only_save_kv)) <$> py_range 0 (pl_num_put_layers c)).

(** ** The plugin and its pool *)

Section pool.
  Context {W : Type} `{StoreOps W} `{PyHash}.
  Variable task_id : task → option Z.
  Variable pc : pool_conf.
  Variable ptr_table : list (list (list Z)).
  (** The wait for a layer's event of the engine. *)
  Variable wait_event : bool → M W unit.

Definition get_prefix_kvcache_from_mempool (md : input_metadata) : M (Z * W) unit :=
  if negb (pl_mempool c) then mret tt
  else
    keys ← of_res (get_keys md);
    match keys with
    | [] => mret tt
    | _ =>
        kvcache_tensors ← of_res (ptrs_for_blocks_np ptr_table keys.*2);
        get task_id pc keys.*1 kvcache_tensors ;;
        mret tt
    end.

Definition put_prefix_kvcache_to_mempool (md : input_metadata) (batch_input_ids : list (list Z))
    (batch_seq_lens : list Z) : M (Z * W) unit :=
  keys ← of_res (put_keys md batch_input_ids batch_seq_lens);
  match keys with
  | [] => mret tt
  | _ =>
      kvcache_tensors ← of_res (ptrs_for_blocks_np ptr_table keys.*2);
      put task_id pc keys.*1 kvcache_tensors ;;
      mret tt
  end.

(** One input of [_put_prefix_kvcache_thread]; the flag is [save_event]. *)
Definition put_thread_step (md : input_metadata) (batch_input_ids : list (list Z)) (batch_seq_lens : list Z) :
    M (bool * (Z * W)) unit :=
  tasks ← of_res (put_tasks md);
  for_each tasks (λ t : bool * bool * bool,
    let '(is_first, is_last, only_save_kv) := t in
    (if (is_first : bool) then modify (λ s, (false, s.2)) else mret tt) ;;
    lift (λ s, s.2.2) (λ w s, (s.1, (s.2.1, w))) (wait_event only_save_kv) ;;
    if (is_last : bool) then
      lift snd (λ x s, (s.1, x)) (put_prefix_kvcache_to_mempool md batch_input_ids batch_seq_lens) ;;
      modify (λ s, (true, s.2))
    else mret tt).

End pool.
End plugin.
