(* ===== verification/MindieProps.v ===== *)
(** * What the MindIE integration guarantees

    The ranks of a sequence-parallel group share out the blocks of a request,
    the tensor-parallel ranks of a model whose caches are the same share out what
    is stored; the pool answers one flag per key; and what one request stored
    another request with the same prefix asks for under the same names. *)
From S2P Require Import Prelude PyStrings Runtime PyHash MindieHash Mindie.
Open Scope Z_scope.

(** ** Sequence-parallel ranks *)

Definition with_scp (c : plugin_conf) (n r : Z) : plugin_conf :=
  PluginConf n r (pl_tp_size c) (pl_tp_rank c) (pl_model_name c) (pl_attn_dp_rank c) (pl_num_put_layers c) (pl_mempool c).

Lemma zip_seqZ_fst {A} (l : list A) : (zip l (seqZ 0 (zlen l))).*1 = l.
Proof. apply fst_zip. unfold zlen. rewrite -> length_seqZ. lia. Qed.

Lemma rank_blocks_fst c a b :
  (rank_blocks c a b).*1 =
  if 1 <? pl_scp_size c then
    py_range_step (a + (pl_scp_rank c - a mod pl_scp_size c) mod pl_scp_size c) b (pl_scp_size c)
  else py_range a b.
Proof.
  unfold rank_blocks. destruct (1 <? pl_scp_size c); [apply zip_seqZ_fst|].
  rewrite <- list_fmap_compose. apply list_fmap_id.
Qed.

(** A rank holds the blocks that are congruent to it. *)
Lemma elem_of_rank_blocks c a b x :
  1 < pl_scp_size c → 0 ≤ pl_scp_rank c < pl_scp_size c →
  x ∈ (rank_blocks c a b).*1 ↔ a ≤ x < b ∧ x mod pl_scp_size c = pl_scp_rank c.
Proof.
  intros Hn Hr. set (n := pl_scp_size c) in *. set (r := pl_scp_rank c) in *.
  rewrite -> rank_blocks_fst. fold n r. rewrite -> (proj2 (Z.ltb_lt _ _)) by done. rewrite -> elem_of_py_range_step by lia.
  set (d := (r - a mod n) mod n). assert (Hd : 0 ≤ d < n) by (apply Z.mod_pos_bound; lia).
  assert (Hfirst : (a + d) mod n = r).
  { unfold d. rewrite -> Zplus_mod_idemp_r. rewrite <- Zplus_mod_idemp_l. replace (a mod n + (r - a mod n)) with r by lia.
    by apply Z.mod_small. }
  assert (Hmod : ∀ y, (y - (a + d)) mod n = 0 ↔ y mod n = r).
  { intros y. rewrite <- Hfirst. split; intros Hy.
    - apply Z.mod_divide in Hy as [k Hk]; [|lia]. replace y with (a + d + k * n) by lia. apply Z.mod_add. lia.
    - rewrite -> Zminus_mod, Hy. rewrite -> Z.sub_diag. by apply Z.mod_0_l; lia. }
  rewrite -> Hmod. split; [intros [??]; split; lia|]. intros [Hx Hm]. split; [|done].
  assert (a + d ≤ x); [|lia]. destruct (Z.le_gt_cases (a + d) x); [done|].
  assert (Heq : (a + d - x) mod n = 0). { rewrite -> Zminus_mod, Hfirst, Hm, Z.sub_diag. by apply Z.mod_0_l; lia. }
  rewrite -> Z.mod_small in Heq by lia. lia.
Qed.

Lemma NoDup_rank_blocks c a b : NoDup (rank_blocks c a b).*1.
Proof.
  rewrite -> rank_blocks_fst. destruct (Z.ltb_spec 1 (pl_scp_size c)); [|apply NoDup_seqZ].
  apply NoDup_py_range_step. lia.
Qed.

Lemma NoDup_concat_disjoint {A} (ls : list (list A)) :
  Forall NoDup ls → (∀ i j l k x, ls !! i = Some l → ls !! j = Some k → x ∈ l → x ∈ k → i = j) → NoDup (concat ls).
Proof.
  induction ls as [|l ls IH]; intros Hn Hd; [constructor|]. apply Forall_cons in Hn as [Hl Hls]. cbn [concat].
  apply NoDup_app. split; [done|]. split.
  - intros x Hx (k & Hin & Hk)%list_elem_of_In%in_concat. apply list_elem_of_In in Hin, Hk.
    apply list_elem_of_lookup in Hin as [j Hj]. by specialize (Hd 0%nat (S j) l k x eq_refl Hj Hx Hk).
  - apply IH; [done|]. intros i j k m x Hi Hj Hx Hy. by specialize (Hd (S i) (S j) k m x Hi Hj Hx Hy) as [= ->].
Qed.

(** The ranks of a sequence-parallel group share out the blocks of a request:
    every block from the first one not computed up to the last full one belongs
    to exactly one rank, the one it is congruent to, whether it is loaded or
    stored. *)
Theorem mindie_scp_ranks_share_blocks c n computed stop :
  1 < n →
  concat ((λ r, (rank_blocks (with_scp c n r) computed stop).*1) <$> py_range 0 n) ≡ₚ py_range computed stop ∧
  ∀ r b, 0 ≤ r < n → b ∈ (rank_blocks (with_scp c n r) computed stop).*1 → b mod n = r.
Proof.
  intros Hn. assert (Hin : ∀ r x, 0 ≤ r < n → x ∈ (rank_blocks (with_scp c n r) computed stop).*1 ↔
    computed ≤ x < stop ∧ x mod n = r) by (intros r x Hr; by apply elem_of_rank_blocks).
  split; [|intros r b Hr Hb; by apply Hin in Hb as [_ Hm]].
  apply NoDup_Permutation.
  - apply NoDup_concat_disjoint.
    + apply Forall_fmap, Forall_forall. intros r _. apply NoDup_rank_blocks.
    + intros i j l k x Hi Hj Hl Hk. rewrite -> list_lookup_fmap in Hi, Hj.
      unfold py_range in Hi, Hj. rewrite -> Z.sub_0_r in Hi, Hj.
      destruct (seqZ 0 n !! i) as [ri|] eqn:Ei; [|done]. destruct (seqZ 0 n !! j) as [rj|] eqn:Ej; [|done].
      apply lookup_seqZ in Ei as [-> Hi']. apply lookup_seqZ in Ej as [-> Hj']. injection Hi as <-. injection Hj as <-.
      apply Hin in Hl as [_ Hl]; [|lia]. apply Hin in Hk as [_ Hk]; [|lia]. lia.
  - apply NoDup_seqZ.
  - intros x. unfold py_range at 2. rewrite -> elem_of_seqZ. split.
    + intros (l & Hl & Hx)%list_elem_of_In%in_concat. apply list_elem_of_In in Hl, Hx.
      apply list_elem_of_fmap in Hl as (r & -> & Hr). apply elem_of_seqZ in Hr. apply Hin in Hx as [Hx _]; lia.
    + intros Hx. apply list_elem_of_In, in_concat. pose proof (Z.mod_pos_bound x n ltac:(lia)) as Hm.
      exists (rank_blocks (with_scp c n (x mod n)) computed stop).*1. split.
      * apply list_elem_of_In, list_elem_of_fmap. exists (x mod n). split; [done|]. apply elem_of_seqZ. lia.
      * apply list_elem_of_In, Hin; [done|]. split; [lia|done].
Qed.

Definition example_plugin : plugin_conf := PluginConf 2 0 4 1 "m" 0 1 true.

Lemma mindie_scp_ranks_share_blocks_witness :
  (rank_blocks (with_scp example_plugin 2 1) 3 8).*1 = [3; 5; 7] ∧
  concat ((λ r, (rank_blocks (with_scp example_plugin 2 r) 3 8).*1) <$> py_range 0 2) ≡ₚ py_range 3 8.
Proof. split; [vm_compute; reflexivity|]. apply (mindie_scp_ranks_share_blocks example_plugin 2 3 8). reflexivity. Defined.

(** A rank reads its block table from the first entry, wherever its first block
    lies: with two blocks computed, block 2 is paired with the entry of block 0. *)
Example scp_table_read_from_its_start :
  rank_blocks (with_scp example_plugin 2 0) 2 6 = [(2, 0); (4, 1)].
Proof. by vm_compute. Qed.

(** ** Stored by one rank, once *)

Lemma join_split_on (sep : ascii) s : join (String sep "") (split_on sep s) = s.
Proof.
  induction s as [|a s IH]; [done|]. cbn [split_on]. destruct (Ascii.eqb_spec a sep) as [->|Hne].
  - destruct (split_on sep s) as [|c cs] eqn:E; [by destruct s; cbn in E; repeat case_match|].
    change (join (String sep "") ("" :: c :: cs)) with ("" +:+ String sep "" +:+ join (String sep "") (c :: cs)).
    by rewrite -> IH.
  - destruct (split_on sep s) as [|c cs] eqn:E; [by destruct s; cbn in E; repeat case_match|].
    rewrite <- IH. destruct cs; done.
Qed.

(** The name of a block on a rank of the tensor-parallel group. *)
Definition tp_key (r : Z) (rest : string) (h : Z) : string :=
  pretty h +:+ String "_" (pretty r +:+ String "_" rest).

Lemma digit_no_underscore c : is_digit c = true → negb (Ascii.eqb c "_") = true.
Proof. destruct c as [ [] [] [] [] [] [] [] [] ]; vm_compute; done. Qed.

Lemma split_tp_key r rest h : 0 ≤ h → 0 ≤ r →
  split_on "_" (tp_key r rest h) = pretty h :: pretty r :: split_on "_" rest.
Proof.
  intros Hh Hr. unfold tp_key. rewrite -> !split_on_app; [done| |].
  all: by apply digits_no; [apply digit_no_underscore|].
Qed.

Lemma tp_key_rank_0 r rest h : 0 ≤ h → 0 ≤ r →
  join "_" (<[1%nat := "0"]> (split_on "_" (tp_key r rest h))) = tp_key 0 rest h.
Proof.
  intros Hh Hr. rewrite -> split_tp_key by done.
  change (<[1%nat:="0"]> (pretty h :: pretty r :: split_on "_" rest)) with (pretty h :: "0" :: split_on "_" rest).
  assert (Hcons : ∀ a l, l ≠ [] → join "_" (a :: l) = a +:+ "_" +:+ join "_" l) by (intros a [|b l]; done).
  rewrite -> !Hcons; [|by destruct rest; cbn; repeat case_match|done]. by rewrite -> join_split_on.
Qed.

Section shared.
  Context {W : Type} `{StoreOps W} `{PyHash}.
  Variable pc : pool_conf.

Notation PM := (M (Z * W)).

Lemma rank_0_keys_run (all : list string) rest hs r : 0 < r → Forall (λ h, 0 ≤ h) hs → ∀ acc cur rank w,
  rank = -1 ∨ rank = r → hs ≠ [] ∨ cur = Some r ∧ rank = r →
  rank_0_keys all (tp_key r rest <$> hs) acc cur ((rank, w) : Z * W) =
    (Ok (acc ++ (tp_key 0 rest <$> hs), r), (r, w)).
Proof.
  intros Hr Hhs. induction Hhs as [|h hs Hh Hhs IH]; intros acc cur rank w Hrank Hne.
  - destruct Hne as [|[-> ->] ]; [done|]. cbn. by rewrite -> app_nil_r.
  - cbn [fmap list_fmap rank_0_keys]. rewrite -> tp_key_rank_0 by lia. rewrite -> split_tp_key by lia.
    mstep. rewrite -> py_int_pretty by lia. mstep. mstep.
    assert (Hset : (if rank <? 0 then set_tp_rank r else mret tt) ((rank, w) : Z * W) = (Ok tt, (r, w))).
    { destruct Hrank as [-> | ->]; [done|]. by rewrite -> (proj2 (Z.ltb_ge _ _)) by lia. }
    mrun Hset. rewrite -> (proj2 (Z.eqb_neq _ _)) by lia. rewrite -> IH by auto. by rewrite <- app_assoc.
Qed.

Lemma tp_rank_0_keys rest hs rank r (w : W) : rank = -1 ∨ rank = r → 0 ≤ r → hs ≠ [] → Forall (λ h, 0 ≤ h) hs →
  _get_tp_rank_0_hash_key (tp_key r rest <$> hs) ((rank, w) : Z * W) = (Ok (tp_key 0 rest <$> hs, r), (r, w)).
Proof.
  intros Hrank Hr Hne Hhs. unfold _get_tp_rank_0_hash_key. destruct (decide (r = 0)) as [->|Hr0].
  - destruct hs as [|h hs]; [done|]. apply Forall_cons in Hhs as [Hh Hhs]. cbn [fmap list_fmap rank_0_keys].
    rewrite -> split_tp_key by lia. mstep. rewrite -> py_int_pretty by lia. mstep. mstep. by destruct Hrank as [-> | ->]; mstep.
  - rewrite -> rank_0_keys_run by (try lia; by [|left]). done.
Qed.

Lemma py_step_stride {A} (l : list A) r n : 0 ≤ r → 0 < n →
  py_step l r n = Ok (stride_aux l (Z.to_nat r) (Z.to_nat n)).
Proof.
  intros Hr Hn. unfold py_step. rewrite -> (proj2 (Z.eqb_neq _ _)) by lia. f_equal. unfold py_stride.
  rewrite -> py_from_pos by done. by rewrite -> (stride_aux_drop _ _ (Z.to_nat r)).
Qed.

(** What a rank of a shared cache stores. *)
Lemma put_selection_run rest hs tensors rank r (w : W) :
  let n := tp_size (runtime_cfg pc) in
  rank = -1 ∨ rank = r →
  shared_by_tp pc = true → 0 ≤ r < n → hs ≠ [] → Forall (λ h, 0 ≤ h) hs → length tensors = length hs →
  ∃ w', put_selection pc (tp_key r rest <$> hs) tensors ((rank, w) : Z * W) =
    (Ok (stride_aux (tp_key 0 rest <$> hs) (Z.to_nat r) (Z.to_nat n),
         match stride_aux (tp_key 0 rest <$> hs) (Z.to_nat r) (Z.to_nat n) with
         | [] => tensors
         | _ => stride_aux tensors (Z.to_nat r) (Z.to_nat n)
         end), w').
Proof.
  intros n Hrank Hsh Hr Hne Hhs Hlen. eexists. unfold put_selection. rewrite -> Hsh.
  mrun (tp_rank_0_keys rest hs rank r w Hrank ltac:(lia) Hne Hhs). mstep. fold n.
  rewrite -> (py_step_stride (tp_key 0 rest <$> hs)) by lia. mstep. destruct (stride_aux _ _ _) eqn:E; [done|].
  rewrite -> py_step_stride by lia. mstep. by rewrite <- E.
Qed.

End shared.

(** When the caches of the tensor-parallel ranks are the same, they share out
    what is stored: each rank, given the same blocks under its own names, selects
    names of rank 0 with their tensors, and over all ranks every block is selected
    exactly once, with its own tensors. *)
Theorem mindie_tp_ranks_share_put {W} (pc : pool_conf) rest hs (tensors : list (list (list Z))) (w : W) :
  let n := tp_size (runtime_cfg pc) in
  shared_by_tp pc = true → 0 < n → hs ≠ [] → Forall (λ h, 0 ≤ h) hs → length tensors = length hs →
  ∃ selected : Z → list string * list (list (list Z)),
    (∀ r, 0 ≤ r < n →
       (put_selection pc (tp_key r rest <$> hs) tensors ((-1, w) : Z * W)).1 = Ok (selected r)) ∧
    concat ((λ r, zip (selected r).1 (selected r).2) <$> py_range 0 n) ≡ₚ zip (tp_key 0 rest <$> hs) tensors.
Proof.
  intros n Hsh Hn Hne Hhs Hlen. set (keys := tp_key 0 rest <$> hs).
  set (sel := λ r, (stride_aux keys (Z.to_nat r) (Z.to_nat n),
    match stride_aux keys (Z.to_nat r) (Z.to_nat n) with [] => tensors | _ => stride_aux tensors (Z.to_nat r) (Z.to_nat n) end)).
  exists sel. split.
  { intros r Hr. destruct (put_selection_run pc rest hs tensors (-1) r w) as (w' & Hrun); [by left|done..|]. by rewrite -> Hrun. }
  assert (Hzip : ∀ r, zip (sel r).1 (sel r).2 = stride_aux (zip keys tensors) (Z.to_nat r) (Z.to_nat n)).
  { intros r. rewrite -> stride_aux_zip by (unfold keys; by rewrite -> length_fmap). unfold sel. cbn [fst snd].
    by destruct (stride_aux keys _ _). }
  erewrite -> list_fmap_ext; [|intros i r _; apply Hzip].
  unfold py_range. rewrite -> Z.sub_0_r. unfold seqZ. rewrite <- list_fmap_compose.
  erewrite -> list_fmap_ext; [apply (stride_aux_partition (Z.to_nat n)); lia|].
  intros i r _. cbn. do 2 f_equal. lia.
Qed.

Definition example_pool : pool_conf := PoolConf (RuntimeConfig true 1 2) 0 0.

Lemma mindie_tp_ranks_share_put_witness :
  (put_selection example_pool (tp_key 1 "m_x" <$> [7; 8; 9]) [ [[1]]; [[2]]; [[3]] ] (-1, tt)).1 =
    Ok (["8_0_m_x"], [ [[2]] ]) ∧
  ∃ selected : Z → list string * list (list (list Z)),
    (∀ r, 0 ≤ r < 2 →
       (put_selection example_pool (tp_key r "m_x" <$> [7; 8; 9]) [ [[1]]; [[2]]; [[3]] ] (-1, tt)).1 = Ok (selected r)) ∧
    concat ((λ r, zip (selected r).1 (selected r).2) <$> py_range 0 2) ≡ₚ
      zip (tp_key 0 "m_x" <$> [7; 8; 9]) [ [[1]]; [[2]]; [[3]] ].
Proof.
  split; [vm_compute; reflexivity|].
  apply (mindie_tp_ranks_share_put example_pool "m_x" [7; 8; 9] [ [[1]]; [[2]]; [[3]] ] tt).
  - reflexivity.
  - reflexivity.
  - discriminate.
  - repeat (apply Forall_cons; split; [vm_compute; discriminate|]). apply Forall_nil; exact I.
  - reflexivity.
Defined.

(** ** What was stored is found *)

Lemma hash_blocks_agree width bs t1 t2 n2 : ∀ n1 b p, (n2 ≤ n1)%nat →
  (∀ k, b ≤ k < b + Z.of_nat n2 → py_slice t1 (k * bs) ((k + 1) * bs) = py_slice t2 (k * bs) ((k + 1) * bs)) →
  take n2 (hash_blocks width p bs t1 b n1) = hash_blocks width p bs t2 b n2.
Proof.
  induction n2 as [|n2 IH]; intros n1 b p Hn Hs; [done|]. destruct n1 as [|n1]; [lia|]. cbn [hash_blocks take].
  rewrite <- (Hs b) by lia. f_equal. apply IH; [lia|]. intros k Hk. apply Hs. lia.
Qed.

(** The slices of a common prefix are the same. *)
Lemma prefix_slices {A} (l k : list A) n i j :
  0 ≤ i ≤ j → j ≤ n → py_upto l n = py_upto k n → py_slice l i j = py_slice k i j.
Proof.
  intros Hi Hj Heq. rewrite -> !py_upto_pos in Heq by lia. rewrite -> !py_slice_pos by lia.
  assert (Ht : ∀ x : list A, take (Z.to_nat (j - i)) (drop (Z.to_nat i) x) =
    take (Z.to_nat (j - i)) (drop (Z.to_nat i) (take (Z.to_nat n) x))).
  { intros x. rewrite -> skipn_firstn_comm, take_take. f_equal. lia. }
  rewrite -> (Ht l), (Ht k). by rewrite -> Heq.
Qed.

Lemma HashPrefix_run bs tokens n : 0 < bs → 0 ≤ n → n * bs ≤ zlen tokens →
  HashPrefix 64 INVALID_HASH_VALUE tokens bs 0 n = Ok (hash_blocks 64 0 bs tokens 0 (Z.to_nat n)).
Proof.
  intros Hbs Hn Hl. unfold HashPrefix.
  rewrite -> (proj2 (Z.eqb_neq _ _)), (proj2 (Z.ltb_ge _ _)), (proj2 (Z.ltb_ge _ _)) by lia. by rewrite -> Z.sub_0_r.
Qed.

Lemma keys_of_run c hashes tables i table blocks :
  py_index tables i = Ok table → Forall (λ x, 0 ≤ x.1 < zlen hashes ∧ 0 ≤ x.2 < zlen table) blocks →
  ∃ ks, keys_of c hashes tables i blocks = Ok ks ∧
    ks.*1 = (λ b, get_prefix_keys c (default 0 (hashes !! Z.to_nat b))) <$> blocks.*1.
Proof.
  intros Ht. induction 1 as [|[b p] blocks [Hb Hp] _ IH]; [by exists []|]. destruct IH as (ks & Hks & Hfst).
  cbn [fst snd] in Hb, Hp. destruct (py_index_in hashes b Hb) as (h & Hh & Hl).
  destruct (py_index_in table p Hp) as (id & Hid & _). unfold keys_of in *. cbn [map_res fst snd].
  rewrite -> Hks, Hh. cbn [mbind res_bind]. rewrite -> Ht. cbn [mbind res_bind]. rewrite -> Hid. cbn [mbind res_bind].
  eexists. split; [done|]. csimpl. by rewrite -> Hl, Hfst.
Qed.

Definition rank_ok (c : plugin_conf) : Prop := 1 < pl_scp_size c → 0 ≤ pl_scp_rank c < pl_scp_size c.

Lemma rank_blocks_bounds c a b : rank_ok c → 0 ≤ a → Forall (λ x, a ≤ x.1 < b ∧ 0 ≤ x.2 < b) (rank_blocks c a b).
Proof.
  intros Hc Ha. apply Forall_forall. intros x Hx. assert (Hx1 : x.1 ∈ (rank_blocks c a b).*1) by (apply list_elem_of_fmap; by exists x).
  unfold rank_blocks in Hx. destruct (Z.ltb_spec 1 (pl_scp_size c)) as [Hn|Hn].
  - apply elem_of_rank_blocks in Hx1 as [Hx1 _]; [|done|by apply Hc]. split; [done|].
    destruct x as [x1 x2]. cbn [fst snd] in *. apply list_elem_of_lookup in Hx as [k Hk]. apply lookup_zip_Some in Hk as [Hb Hp].
    apply lookup_seqZ in Hp as [Hp _]. unfold py_range_step in Hb. rewrite -> list_lookup_fmap in Hb.
    destruct (seqZ 0 _ !! k) as [q|] eqn:Eq; [|done]. apply lookup_seqZ in Eq as [-> _]. injection Hb as Hb.
    set (d := (pl_scp_rank c - a mod pl_scp_size c) mod pl_scp_size c) in *.
    assert (0 ≤ d) by (apply Z.mod_pos_bound; lia). rewrite -> Hp. split; [lia|]. nia.
  - rewrite -> rank_blocks_fst in Hx1. rewrite -> (proj2 (Z.ltb_ge _ _)) in Hx1 by done.
    unfold py_range in Hx1. apply elem_of_seqZ in Hx1. apply list_elem_of_fmap in Hx as (y & -> & _). cbn in *. lia.
Qed.

Lemma rank_blocks_mono c a a' b b' x : rank_ok c → a ≤ a' → b' ≤ b →
  x ∈ (rank_blocks c a' b').*1 → x ∈ (rank_blocks c a b).*1.
Proof.
  intros Hc Ha Hb Hx. destruct (Z.lt_ge_cases 1 (pl_scp_size c)) as [Hn|Hn].
  - apply elem_of_rank_blocks in Hx as [Hx Hm]; [|done|by apply Hc]. apply elem_of_rank_blocks; [done|by apply Hc|].
    split; [lia|done].
  - rewrite -> rank_blocks_fst in *. rewrite -> (proj2 (Z.ltb_ge _ _)) in * by done.
    unfold py_range in *. rewrite -> elem_of_seqZ in *. lia.
Qed.

(** A request of this rank: [s] tokens, [computed] blocks there already, at least
    one full block more. *)
Record request_ready (c : plugin_conf) (md : input_metadata) (lens : list Z) (counts : option counts)
    (i s computed stop : Z) : Prop := {
  ready_dp : py_index (batch_dp_rank_ids md) i = Ok (pl_attn_dp_rank c);
  ready_len : py_index lens i = Ok s;
  ready_computed : count_at counts i = Ok computed;
  ready_range : 0 ≤ computed < stop;
  ready_full : stop ≤ (s - 1) / max_block_size md;
  ready_table : ∃ table, py_index (batch_block_tables md) i = Ok table ∧ stop ≤ zlen table;
}.

Section requests.
  Variable c : plugin_conf.
  Variables (md : input_metadata) (bs : Z).
  Hypothesis Hbs : 0 < bs.
  Hypothesis Hmd : max_block_size md = bs.
  Hypothesis Hc : rank_ok c.

Lemma new_keys tokens n computed i table stop :
  0 ≤ computed → 0 ≤ stop → stop = n → n * bs ≤ zlen tokens → py_index (batch_block_tables md) i = Ok table → stop ≤ zlen table →
  ∃ ks, keys_of c (hash_blocks 64 0 bs tokens 0 (Z.to_nat n)) (batch_block_tables md) i (rank_blocks c computed stop) = Ok ks ∧
    ks.*1 = (λ b, get_prefix_keys c (default 0 (hash_blocks 64 0 bs tokens 0 (Z.to_nat n) !! Z.to_nat b))) <$>
              (rank_blocks c computed stop).*1.
Proof using Hc.
  intros Hcomp Hst Hstop Hlen Ht Htl. eapply keys_of_run; [done|]. eapply Forall_impl; [by apply rank_blocks_bounds|].
  intros x [Hx Hx2]. destruct (hash_blocks_spec 64 bs tokens (Z.to_nat n) 0 0) as [Hl _]. unfold zlen in *. rewrite -> Hl. lia.
Qed.

Lemma put_request_run lens rows counts keys i s computed row :
  let full := (s - 1) / bs in
  request_ready c md lens counts i s computed full → py_index rows i = Ok row → full * bs ≤ zlen row →
  ∃ ks, put_request c md rows lens counts keys i = Ok (keys ++ ks) ∧
    ks.*1 = (λ b, get_prefix_keys c (default 0 (hash_blocks 64 0 bs (py_upto row (full * bs)) 0 (Z.to_nat full) !! Z.to_nat b))) <$>
              (rank_blocks c computed full).*1.
Proof using Hbs Hmd Hc.
  intros full [Hdp Hlen Hcomp Hrange _ (table & Ht & Htl)] Hrow Hrl.
  pose proof (Z.mul_div_le (s - 1) bs Hbs) as Hmul.
  assert (Hs : bs ≤ s - 1) by (unfold full in *; nia).
  assert (Hzl : zlen (py_upto row (full * bs)) = full * bs).
  { unfold zlen in *. rewrite -> py_upto_pos, length_take by nia. nia. }
  destruct (new_keys (py_upto row (full * bs)) full computed i table full) as (ks & Hks & Hfst); [lia|lia|done|lia|done|done|].
  exists ks. split; [|done]. unfold put_request. rewrite -> Hdp. cbn [mbind res_bind]. rewrite -> Z.eqb_refl. cbn [negb].
  rewrite -> Hlen. cbn [mbind res_bind]. rewrite -> Hmd. fold full.
  rewrite -> (proj2 (Z.eqb_neq bs 0)), (proj2 (Z.ltb_ge _ _)), (proj2 (Z.leb_gt _ _)) by lia. cbn [negb andb].
  rewrite -> Hcomp. cbn [mbind res_bind]. rewrite -> (proj2 (Z.leb_gt _ _)) by lia. rewrite -> Hrow. cbn [mbind res_bind].
  rewrite -> HashPrefix_run by lia. cbn [mbind res_bind]. rewrite -> Hks. done.
Qed.

Lemma get_request_run counts remote off keys i s computed r :
  let stop := Z.min r ((s - 1) / bs) in
  let flat := py_slice (input_ids md) off (off + stop * bs) in
  request_ready c md (batch_seq_len md) counts i s computed stop → count_at remote i = Ok r →
  0 ≤ off → off + stop * bs ≤ zlen (input_ids md) →
  ∃ ks, get_request c md counts remote (off, keys) i = Ok (off + s, keys ++ ks) ∧
    ks.*1 = (λ b, get_prefix_keys c (default 0 (hash_blocks 64 0 bs flat 0 (Z.to_nat stop) !! Z.to_nat b))) <$>
              (rank_blocks c computed stop).*1.
Proof using Hbs Hmd Hc.
  intros stop flat [Hdp Hlen Hcomp Hrange Hfull (table & Ht & Htl)] Hr Hoff Hids.
  assert (Hzl : zlen flat = stop * bs).
  { unfold flat. rewrite -> py_slice_length by nia. lia. }
  destruct (new_keys flat stop computed i table stop) as (ks & Hks & Hfst); [lia|lia|done|lia|done|done|].
  exists ks. split; [|done]. unfold get_request. rewrite -> Hlen. cbn [mbind res_bind]. rewrite -> Hdp. cbn [mbind res_bind].
  rewrite -> Z.eqb_refl. cbn [negb]. rewrite -> Hmd, (proj2 (Z.eqb_neq bs 0)), (proj2 (Z.leb_gt _ _)) by lia.
  rewrite -> Hcomp. cbn [mbind res_bind]. rewrite -> Hr. cbn [mbind res_bind].
  rewrite -> (proj2 (Z.leb_gt _ _)), (proj2 (Z.leb_gt _ _)) by lia. cbn [orb]. fold stop flat.
  rewrite -> HashPrefix_run by lia. cbn [mbind res_bind]. rewrite -> Hks. done.
Qed.

End requests.

(** ** What the ranks hand the store *)

Definition with_tp (c : plugin_conf) (r : Z) : plugin_conf :=
  PluginConf (pl_scp_size c) (pl_scp_rank c) (pl_tp_size c) r (pl_model_name c) (pl_attn_dp_rank c) (pl_num_put_layers c) (pl_mempool c).

(** The keys a rank makes of hashes and block ids. *)
Definition named (c : plugin_conf) (hks : list (Z * Z)) : list (string * Z) := (λ x, (get_prefix_keys c x.1, x.2)) <$> hks.

Lemma named_app c a b : named c (a ++ b) = named c a ++ named c b.
Proof. apply fmap_app. Qed.

(** Without sequence parallelism a key is the hash, the rank and the rest. *)
Lemma prefix_keys_tp c (hs : list Z) : pl_scp_size c ≤ 1 →
  get_prefix_keys c <$> hs = tp_key (pl_tp_rank c) (pretty (pl_tp_size c) +:+ "_" +:+ pl_model_name c) <$> hs.
Proof.
  intros Hs. apply list_fmap_ext. intros _ x _. unfold get_prefix_keys, _prefix_key_suffix.
  by rewrite -> (proj2 (Z.ltb_ge _ _)) by done.
Qed.

Lemma named_fst c hks : pl_scp_size c ≤ 1 →
  (named c hks).*1 = tp_key (pl_tp_rank c) (pretty (pl_tp_size c) +:+ "_" +:+ pl_model_name c) <$> hks.*1.
Proof. intros Hs. rewrite <- prefix_keys_tp by done. unfold named. by rewrite <- !list_fmap_compose. Qed.

Definition hashes_nonneg (rs : res (list (Z * Z))) : Prop :=
  match rs with Ok hks => Forall (λ h, 0 ≤ h) hks.*1 | Raise _ => True end.

Lemma HashPrefix_nonneg w p tokens bs a b hashes : HashPrefix w p tokens bs a b = Ok hashes → Forall (λ h, 0 ≤ h) hashes.
Proof.
  unfold HashPrefix. repeat case_match; intros [= <-]. edestruct hash_blocks_spec as (_ & Hp & _).
  eapply Forall_impl; [exact Hp|]. cbn. lia.
Qed.

(** A step that adds to the keys those of the same blocks on every rank. *)
Definition adds (c : plugin_conf) (step : Z → list (string * Z) → res (list (string * Z))) : Prop :=
  ∃ rs, hashes_nonneg rs ∧ ∀ r keys, step r keys = (λ hks, keys ++ named (with_tp c r) hks) <$> rs.

Lemma adds_nothing c : adds c (λ _ keys, Ok keys).
Proof. exists (Ok []). split; [by constructor|]. intros r keys. cbn. by rewrite -> app_nil_r. Qed.

Lemma adds_raise c e : adds c (λ _ _, Raise e).
Proof. by exists (Raise e). Qed.

Lemma adds_bind {A} c (x : res A) step : (∀ a, x = Ok a → adds c (step a)) → adds c (λ r keys, a ← x; step a r keys).
Proof. intros Hs. destruct x as [a|e]; [by apply Hs|apply adds_raise]. Qed.

Lemma adds_if c (b : bool) s1 s2 : adds c s1 → adds c s2 → adds c (λ r keys, if b then s1 r keys else s2 r keys).
Proof. by destruct b. Qed.

(** The keys of the ranks differ in the rank only. *)
Lemma adds_keys c hashes tables i blocks : Forall (λ h, 0 ≤ h) hashes →
  adds c (λ r keys, new ← keys_of (with_tp c r) hashes tables i blocks; Ok (keys ++ new)).
Proof.
  intros Hh. set (hash_of := λ x : Z * Z, h ← py_index hashes x.1; table ← py_index tables i; id ← py_index table x.2; Ok (h, id)).
  exists (map_res hash_of blocks). split.
  - destruct (map_res hash_of blocks) as [hks|] eqn:E; [|done]. apply map_res_Forall2 in E. cbn.
    induction E as [|x y blocks hks Hxy _ IH]; [by apply Forall_nil|]. csimpl. apply Forall_cons. split; [|exact IH]. unfold hash_of in Hxy.
    destruct (py_index hashes x.1) as [h|] eqn:Eh; [|done]. cbn [mbind res_bind] in Hxy.
    destruct (py_index tables i) as [table|]; [|done]. cbn [mbind res_bind] in Hxy.
    destruct (py_index table x.2) as [id|]; [|done]. injection Hxy as <-. unfold py_index in Eh. case_match; [done|].
    case_match eqn:El; [|done]. injection Eh as ->. exact (Forall_lookup_1 _ _ _ _ Hh El).
  - intros r keys. assert (Heq : keys_of (with_tp c r) hashes tables i blocks = named (with_tp c r) <$> map_res hash_of blocks).
    { induction blocks as [|x blocks IH]; [done|]. unfold keys_of in *. cbn [map_res]. rewrite -> IH.
      change (hash_of x) with (h ← py_index hashes x.1; table ← py_index tables i; id ← py_index table x.2; Ok (h, id)).
      destruct (py_index hashes x.1); [|reflexivity]. cbn [mbind res_bind].
      destruct (py_index tables i) as [table|]; [|reflexivity]. cbn [mbind res_bind].
      destruct (py_index table x.2); [|reflexivity]. cbn [mbind res_bind]. by destruct (map_res hash_of blocks). }
    rewrite -> Heq. by destruct (map_res hash_of blocks).
Qed.

Lemma put_request_adds c md rows lens counts i : adds c (λ r keys, put_request (with_tp c r) md rows lens counts keys i).
Proof.
  unfold put_request. apply adds_bind. intros dp _.
  refine (adds_if c (negb (dp =? pl_attn_dp_rank c)) _ _ _ _); [apply adds_nothing|].
  apply adds_bind. intros s _. apply adds_if; [apply adds_nothing|]. apply adds_if; [apply adds_raise|].
  apply adds_if; [apply adds_nothing|]. apply adds_bind. intros computed _. apply adds_if; [apply adds_nothing|].
  apply adds_bind. intros row _. apply adds_bind. intros hashes Hh.
  refine (adds_keys c hashes _ i (rank_blocks c computed _) _). by eapply HashPrefix_nonneg.
Qed.

Lemma put_requests_adds c md rows lens counts l :
  adds c (λ r keys, fold_res (put_request (with_tp c r) md rows lens counts) keys l).
Proof.
  induction l as [|i l (rs2 & Hn2 & IH)]; [apply adds_nothing|].
  destruct (put_request_adds c md rows lens counts i) as (rs1 & Hn1 & Hi).
  exists (h1 ← rs1; h2 ← rs2; Ok (h1 ++ h2)). split.
  { destruct rs1 as [h1|]; [|done]. destruct rs2 as [h2|]; [|done]. cbn. rewrite -> fmap_app. by apply Forall_app. }
  intros r keys. cbn [fold_res]. rewrite -> Hi. destruct rs1 as [h1|]; [|done]. cbn. rewrite -> IH.
  destruct rs2 as [h2|]; [|done]. cbn. by rewrite -> named_app, app_assoc.
Qed.

(** The keys of a batch are those of its requests. *)
Lemma put_requests_include c md rows lens counts i l out :
  fold_res (put_request c md rows lens counts) [] l = Ok out → i ∈ l →
  ∃ ks, put_request c md rows lens counts [] i = Ok ks ∧ ks ⊆ out.
Proof.
  assert (Hc : with_tp c (pl_tp_rank c) = c) by (by destruct c).
  assert (Hstep : ∀ j keys, put_request c md rows lens counts keys j = (λ ks, keys ++ ks) <$> put_request c md rows lens counts [] j).
  { intros j keys. destruct (put_request_adds c md rows lens counts j) as (rs & _ & Hj).
    pose proof (Hj (pl_tp_rank c) keys) as H1. pose proof (Hj (pl_tp_rank c) []) as H2. rewrite -> Hc in H1, H2.
    rewrite -> H1, H2. by destruct rs. }
  assert (Hgrow : ∀ l keys out, fold_res (put_request c md rows lens counts) keys l = Ok out →
    keys ⊆ out ∧ ∀ i, i ∈ l → ∃ ks, put_request c md rows lens counts [] i = Ok ks ∧ ks ⊆ out).
  { clear l out i. induction l as [|j l IH]; intros keys out; cbn [fold_res].
    { intros [= <-]. split; [done|]. intros i Hi. by apply not_elem_of_nil in Hi. }
    rewrite -> Hstep. destruct (put_request c md rows lens counts [] j) as [ks|] eqn:Ej; [|done]. cbn. intros Hrun.
    apply IH in Hrun as [Hk Hrun]. split; [set_solver|]. intros i [-> | Hi]%elem_of_cons; [|by apply Hrun].
    exists ks. split; [done|]. set_solver. }
  intros Hrun Hi. by eapply Hgrow.
Qed.

(** The keys of a rank of the batch, from the hashes all the ranks share. *)
Lemma put_keys_named c md rows lens stored : put_keys c md rows lens = Ok stored →
  ∃ hks, Forall (λ h, 0 ≤ h) hks.*1 ∧ ∀ r, put_keys (with_tp c r) md rows lens = Ok (named (with_tp c r) hks).
Proof.
  intros Hrun. assert (Hc : with_tp c (pl_tp_rank c) = c) by (by destruct c).
  unfold put_keys in *. 
  destruct (negb (pl_mempool c) || negb (is_prefill md) || negb (in_dp_rank c md)) eqn:E.
  { exists []. split; [by apply Forall_nil|]. intros r. unfold in_dp_rank in *. cbn. by rewrite -> E. }
  destruct (sum_if_scp c (counts_or_zeros c (batch_size md) (remote_computed_blocks md))) as [counts|e] eqn:Ec; [|done].
  destruct (put_requests_adds c md rows lens counts (py_range 0 (batch_size md))) as (rs & Hn & Hr).
  cbn [mbind res_bind] in Hrun. rewrite <- Hc in Hrun. rewrite -> Hr in Hrun. destruct rs as [hks|]; [|done].
  exists hks. split; [exact Hn|]. intros r.
  change (in_dp_rank (with_tp c r) md) with (in_dp_rank c md). change (pl_mempool (with_tp c r)) with (pl_mempool c).
  change (sum_if_scp (with_tp c r) (counts_or_zeros (with_tp c r) (batch_size md) (remote_computed_blocks md)))
    with (sum_if_scp c (counts_or_zeros c (batch_size md) (remote_computed_blocks md))).
  rewrite -> E, Ec. cbn [mbind res_bind]. apply Hr.
Qed.

(** The name [get] and [put] make of a key. *)
Definition store_name (pc : pool_conf) (key : string) : string :=
  if shared_by_tp pc then join "_" (<[1%nat := "0"]> (split_on "_" key)) else key.

(** The ranks that store the blocks of rank [q]: the whole tensor-parallel group
    when they share their caches. *)
Definition stores_for (pc : pool_conf) (q r : Z) : Prop :=
  if shared_by_tp pc then 0 ≤ r < tp_size (runtime_cfg pc) else r = q.

Section handed.
  Context {W : Type}.
  Variables (c : plugin_conf) (pc : pool_conf).
  Hypothesis Hpc : shared_by_tp pc = true → pl_scp_size c ≤ 1 ∧ 0 ≤ pl_tp_rank c < tp_size (runtime_cfg pc).

(** The names [get] hands the store. *)
Lemma get_hands (hs : list Z) rank (w : W) : rank = -1 ∨ rank = pl_tp_rank c → shared_by_tp pc = true → Forall (λ h, 0 ≤ h) hs → hs ≠ [] →
  _get_tp_rank_0_hash_key (get_prefix_keys c <$> hs) ((rank, w) : Z * W) =
    (Ok (store_name pc <$> (get_prefix_keys c <$> hs), pl_tp_rank c), (pl_tp_rank c, w)).
Proof using Hpc.
  intros Hrank Hsh Hh Hne. destruct (Hpc Hsh) as [Hs Hr].
  rewrite -> (prefix_keys_tp c hs Hs), tp_rank_0_keys by (done || lia).
  do 3 f_equal. rewrite <- (list_fmap_compose (tp_key _ _) (store_name pc)). apply list_fmap_ext. intros k h Hk. unfold store_name.
  rewrite -> Hsh. cbn. rewrite -> tp_key_rank_0; [done| |lia]. by eapply Forall_lookup_1 in Hh; [|exact Hk].
Qed.

(** Every key of a batch is handed to the store by some rank that calls [put]
    with its own keys of that batch. *)
Lemma put_hands hks k : Forall (λ h, 0 ≤ h) hks.*1 → k ∈ (named c hks).*1 →
  ∃ r, stores_for pc (pl_tp_rank c) r ∧ ∀ tensors rank (w : W), rank = -1 ∨ rank = r → length tensors = length hks →
    ∃ names ts s', put_selection pc (named (with_tp c r) hks).*1 tensors ((rank, w) : Z * W) = (Ok (names, ts), s') ∧
      store_name pc k ∈ names.
Proof using Hpc.
  intros Hh Hk. unfold stores_for, store_name. destruct (shared_by_tp pc) eqn:Hsh.
  - destruct (Hpc eq_refl) as [Hs Hr]. rewrite -> named_fst in Hk by done. apply list_elem_of_fmap in Hk as (h & -> & Hin).
    assert (Hh0 : 0 ≤ h) by (eapply Forall_forall in Hh; [exact Hh|exact Hin]). rewrite -> tp_key_rank_0 by lia.
    set (rest := pretty (pl_tp_size c) +:+ "_" +:+ pl_model_name c). set (n := tp_size (runtime_cfg pc)) in *.
    assert (Hmem : tp_key 0 rest h ∈ concat ((λ r, stride_aux (tp_key 0 rest <$> hks.*1) r (Z.to_nat n)) <$> seq 0 (Z.to_nat n))).
    { rewrite -> stride_aux_partition by lia. apply list_elem_of_fmap. by exists h. }
    apply list_elem_of_In, in_concat in Hmem as (l & Hl & Hmem). apply list_elem_of_In in Hl, Hmem.
    apply list_elem_of_fmap in Hl as (r & -> & Hr'). apply elem_of_seq in Hr'. exists (Z.of_nat r). split; [lia|].
    intros tensors rank w Hrank Hlen. destruct (put_selection_run pc rest hks.*1 tensors rank (Z.of_nat r) w) as (w' & Hrun).
    + done.
    + done.
    + lia.
    + intros Hn. rewrite -> Hn in Hin. by apply not_elem_of_nil in Hin.
    + done.
    + by rewrite -> length_fmap.
    + rewrite -> named_fst by done.
      change (pl_tp_rank (with_tp c (Z.of_nat r))) with (Z.of_nat r).
      change (pretty (pl_tp_size (with_tp c (Z.of_nat r))) +:+ "_" +:+ pl_model_name (with_tp c (Z.of_nat r))) with rest.
      rewrite -> Hrun. eexists _, _, _. split; [done|]. by rewrite -> Nat2Z.id.
  - exists (pl_tp_rank c). split; [done|]. intros tensors rank w _ _. replace (with_tp c (pl_tp_rank c)) with c by (by destruct c).
    unfold put_selection. rewrite -> Hsh. eexists _, _, _. by split.
Qed.

End handed.

Lemma in_dp_rank_ready c md lens counts i s computed stop :
  0 ≤ i → request_ready c md lens counts i s computed stop → in_dp_rank c md = true.
Proof.
  intros Hi [Hdp _ _ _ _ _]. apply existsb_exists. exists (pl_attn_dp_rank c). split; [|apply Z.eqb_refl].
  apply py_index_lookup in Hdp; [|done]. by eapply list_elem_of_In, list_elem_of_lookup_2.
Qed.

(** The keys of a common prefix are the same. *)
Lemma wanted_in_stored c bs row flat computed1 computed2 full stop :
  rank_ok c → 0 < bs → 0 ≤ computed1 ≤ computed2 → stop ≤ full → py_upto row (stop * bs) = py_upto flat (stop * bs) →
  (λ b, get_prefix_keys c (default 0 (hash_blocks 64 0 bs flat 0 (Z.to_nat stop) !! Z.to_nat b))) <$> (rank_blocks c computed2 stop).*1
  ⊆ (λ b, get_prefix_keys c (default 0 (hash_blocks 64 0 bs (py_upto row (full * bs)) 0 (Z.to_nat full) !! Z.to_nat b))) <$>
      (rank_blocks c computed1 full).*1.
Proof.
  intros Hc Hbs Hcc Hsf Heq k Hk. apply list_elem_of_fmap in Hk as (b & -> & Hb). apply list_elem_of_fmap. exists b.
  split; [|by eapply (rank_blocks_mono c computed1 computed2 full stop); [done|lia|done|exact Hb]].
  assert (Hbr : computed2 ≤ b < stop).
  { apply list_elem_of_fmap in Hb as (x & -> & Hx).
    by pose proof (rank_blocks_bounds c computed2 stop Hc ltac:(lia)) as Hf; eapply Forall_forall in Hf as [Hf _]; [|exact Hx]. }
  do 2 f_equal. rewrite <- (hash_blocks_agree 64 bs (py_upto row (full * bs)) _ (Z.to_nat stop) (Z.to_nat full)); [|lia|].
  { apply lookup_take_lt. lia. }
  intros m Hm. apply (prefix_slices _ _ (stop * bs)); [nia|nia|]. rewrite <- Heq.
  rewrite -> !py_upto_pos by nia. rewrite -> !take_take. f_equal. nia.
Qed.

Lemma wanted_hashes c bs flat n (keys : list string) (blocks : list Z) prefix b :
  keys = (λ x, get_prefix_keys c (default 0 (hash_blocks 64 prefix bs flat b n !! Z.to_nat x))) <$> blocks →
  ∃ hs, keys = get_prefix_keys c <$> hs ∧ Forall (λ h, 0 ≤ h) hs.
Proof.
  intros ->. exists ((λ x, default 0 (hash_blocks 64 prefix bs flat b n !! Z.to_nat x)) <$> blocks). split.
  - by rewrite <- list_fmap_compose.
  - apply Forall_fmap, Forall_forall. intros x _. cbn. destruct (_ !! Z.to_nat x) eqn:E; [|done].
    edestruct hash_blocks_spec as (_ & Hp & _). apply (Forall_lookup_1 _ _ _ _ Hp) in E. cbn in *. lia.
Qed.

(** C39: what the pool is asked for was handed to it.  When a request of an earlier
    batch was put with the tokens of the blocks that are found remotely, from no
    later block on, the names [get] makes of the keys of these blocks were all
    selected by the [put] of that batch: by this rank, or, when the caches of the
    tensor-parallel ranks are shared and each stores its part, by one of the group. *)
Theorem mindie_get_finds_put {W} c pc md1 lens rows counts1 i s1 computed1 row stored
    md2 counts2 remote off keys2 j s2 computed2 r bs :
  let full := (s1 - 1) / bs in
  let stop := Z.min r ((s2 - 1) / bs) in
  let q := pl_tp_rank c in
  (shared_by_tp pc = true → pl_scp_size c ≤ 1 ∧ 0 ≤ q < tp_size (runtime_cfg pc)) →
  0 < bs → max_block_size md1 = bs → max_block_size md2 = bs → rank_ok c →
  pl_mempool c = true → is_prefill md1 = true → 0 ≤ i < batch_size md1 →
  sum_if_scp c (counts_or_zeros c (batch_size md1) (remote_computed_blocks md1)) = Ok counts1 →
  request_ready c md1 lens counts1 i s1 computed1 full → py_index rows i = Ok row → full * bs ≤ zlen row →
  put_keys c md1 rows lens = Ok stored →
  request_ready c md2 (batch_seq_len md2) counts2 j s2 computed2 stop → count_at remote j = Ok r →
  0 ≤ off → off + stop * bs ≤ zlen (input_ids md2) →
  computed1 ≤ computed2 → stop ≤ full →
  py_upto row (stop * bs) = py_slice (input_ids md2) off (off + stop * bs) →
  ∃ wanted, get_request c md2 counts2 remote (off, keys2) j = Ok (off + s2, keys2 ++ wanted) ∧
    zlen wanted = zlen (rank_blocks c computed2 stop) ∧
    (∀ rank (w : W), shared_by_tp pc = true → rank = -1 ∨ rank = q → wanted ≠ [] →
       (_get_tp_rank_0_hash_key wanted.*1 (rank, w)).1 = Ok (store_name pc <$> wanted.*1, q)) ∧
    ∀ key, key ∈ wanted.*1 → ∃ t stored_t, stores_for pc q t ∧ put_keys (with_tp c t) md1 rows lens = Ok stored_t ∧
      ∀ tensors rank (w : W), rank = -1 ∨ rank = t → length tensors = length stored_t →
        ∃ names ts s', put_selection pc stored_t.*1 tensors (rank, w) = (Ok (names, ts), s') ∧ store_name pc key ∈ names.
Proof.
  intros full stop q Hpc Hbs Hm1 Hm2 Hc Hpool Hpre Hi Hcnt Hr1 Hrow Hrl Hput Hr2 Hrem Hoff Hids Hcc Hsf Heq.
  destruct (put_request_run c md1 bs Hbs Hm1 Hc lens rows counts1 [] i s1 computed1 row Hr1 Hrow Hrl) as (new & Hnew & Hs).
  destruct (get_request_run c md2 bs Hbs Hm2 Hc counts2 remote off keys2 j s2 computed2 r Hr2 Hrem Hoff Hids) as (wanted & Hget & Hw).
  fold full in Hs. fold stop in Hw. exists wanted. split; [done|]. split.
  { unfold zlen. rewrite <- (length_fmap fst wanted), Hw, !length_fmap. done. }
  split.
  { intros rank w Hsh Hrank Hne. destruct (wanted_hashes c bs _ (Z.to_nat stop) wanted.*1 (rank_blocks c computed2 stop).*1 0 0 Hw) as (hs & Hhs & Hpos). rewrite -> Hhs.
    rewrite -> (get_hands c pc Hpc); [done|done|done|done|]. intros ->. apply Hne. by apply (fmap_nil_inv fst). }
  assert (Hin : new ⊆ stored).
  { unfold put_keys in Hput. rewrite -> Hpool, Hpre in Hput. rewrite -> (in_dp_rank_ready c md1 _ _ _ _ _ _ (proj1 Hi) Hr1) in Hput.
    cbn [negb orb] in Hput. rewrite -> Hcnt in Hput. cbn [mbind res_bind] in Hput.
    destruct (put_requests_include c md1 rows lens counts1 i _ stored Hput) as (ks & Hks & Hsub); [apply elem_of_seqZ; lia|].
    rewrite -> Hnew in Hks. injection Hks as <-. exact Hsub. }
  destruct (put_keys_named c md1 rows lens stored Hput) as (hks & Hn & Hall).
  assert (Hst : stored = named c hks).
  { pose proof (Hall q) as Hq. replace (with_tp c q) with c in Hq by (by destruct c). rewrite -> Hput in Hq. by injection Hq. }
  intros key Hkey. assert (Hks : key ∈ (named c hks).*1).
  { rewrite <- Hst. assert (Hnk : key ∈ new.*1); [|by apply list_elem_of_fmap in Hnk as (x & -> & Hx); apply list_elem_of_fmap; exists x; auto].
    destruct Hr1 as [_ _ _ Hc1 _ _], Hr2 as [_ _ _ Hc2 _ _]. rewrite -> Hw in Hkey. rewrite -> Hs.
    eapply (wanted_in_stored c bs row _ computed1 computed2 full stop); [done|done|lia|done| |exact Hkey].
    rewrite -> Heq. rewrite -> py_upto_pos by nia.
    rewrite -> take_ge; [done|]. pose proof (py_slice_length (input_ids md2) off (off + stop * bs) ltac:(nia) Hids) as Hl. unfold zlen in Hl. lia. }
  destruct (put_hands (W:=W) c pc Hpc hks key Hn Hks) as (t & Ht & Hsel). exists t, (named (with_tp c t) hks).
  split; [done|]. split; [apply Hall|]. intros tensors rank w Hrank Hlen. apply Hsel; [done|]. unfold named in Hlen. by rewrite -> length_fmap in Hlen.
Qed.

Definition example_md (remote : option counts) (ids : list Z) : input_metadata :=
  InputMeta true 1 [zlen ids] [0] 2 [ [10; 11; 12] ] None remote ids.

(** Two tensor-parallel ranks with shared caches: rank 1 put three blocks and is
    asked for two of them later; it selected the second only, rank 0 the others. *)
Definition example_tp_plugin : plugin_conf := PluginConf 1 0 2 1 "m" 0 1 true.

Lemma mindie_get_finds_put_witness :
  let md1 := example_md None [1; 2; 3; 4; 5; 6; 7] in
  let md2 := example_md (Some (PerRequest [2])) [1; 2; 3; 4; 9; 9] in
  ∃ stored, put_keys example_tp_plugin md1 [ [1; 2; 3; 4; 5; 6; 7] ] [7] = Ok stored ∧ length stored = 3%nat ∧
  ∃ wanted, get_request example_tp_plugin md2 (Some (PerRequest [0])) (Some (PerRequest [2])) (0, []) 0 = Ok (0 + 6, [] ++ wanted) ∧
    zlen wanted = 2 ∧
    ∀ key, key ∈ wanted.*1 → ∃ t stored_t, stores_for example_pool 1 t ∧
      put_keys (with_tp example_tp_plugin t) md1 [ [1; 2; 3; 4; 5; 6; 7] ] [7] = Ok stored_t ∧
      ∀ tensors rank (w : unit), rank = -1 ∨ rank = t → length tensors = length stored_t →
        ∃ names ts s', put_selection example_pool stored_t.*1 tensors (rank, w) = (Ok (names, ts), s') ∧
          store_name example_pool key ∈ names.
Proof.
  intros md1 md2. eexists. split; [vm_compute; reflexivity|]. split; [reflexivity|].
  destruct (mindie_get_finds_put (W:=unit) example_tp_plugin example_pool md1 [7] [ [1; 2; 3; 4; 5; 6; 7] ]
    (Some (PerRequest [0])) 0 7 0 [1; 2; 3; 4; 5; 6; 7] (default [] (match put_keys example_tp_plugin md1 [ [1; 2; 3; 4; 5; 6; 7] ] [7] with Ok l => Some l | _ => None end)) md2
    (Some (PerRequest [0])) (Some (PerRequest [2])) 0 [] 0 6 0 2 2) as (wanted & Hget & Hlen & _ & Hall).
  - intros _. repeat split; vm_compute; discriminate.
  - reflexivity.
  - reflexivity.
  - reflexivity.
  - intros H. exfalso. vm_compute in H. discriminate.
  - reflexivity.
  - reflexivity.
  - split; vm_compute; [discriminate|reflexivity].
  - reflexivity.
  - split; [reflexivity|reflexivity|reflexivity|split; vm_compute; [discriminate|reflexivity]|vm_compute; discriminate|].
    exists [10; 11; 12]. split; [reflexivity|vm_compute; discriminate].
  - reflexivity.
  - vm_compute; discriminate.
  - vm_compute; reflexivity.
  - split; [reflexivity|reflexivity|reflexivity|split; vm_compute; [discriminate|reflexivity]|vm_compute; discriminate|].
    exists [10; 11; 12]. split; [reflexivity|vm_compute; discriminate].
  - reflexivity.
  - vm_compute; discriminate.
  - vm_compute; discriminate.
  - vm_compute; discriminate.
  - vm_compute; discriminate.
  - reflexivity.
  - exists wanted. split; [exact Hget|]. split; [exact Hlen|]. exact Hall.
Defined.

(** ** The pool *)

Lemma stride_length {A} (n m : nat) : (0 < n)%nat → ∀ l : list A,
  length l = (m * n)%nat → length (stride_aux l 0 n) = m.
Proof.
  intros Hn. induction m as [|m IH]; intros l Hl; [by destruct l|]. destruct l as [|x l]; [cbn in Hl; lia|].
  cbn [stride_aux length]. f_equal. rewrite -> stride_aux_drop. apply IH. rewrite -> length_drop. cbn in Hl. lia.
Qed.

Lemma replicate_blocks {A} (f : Z → A) (n : Z) (m : nat) : 0 < n →
  concat ((λ b, replicate (Z.to_nat n) (f b)) <$> seqZ 0 (Z.of_nat m)) = (λ j, f (j / n)) <$> seqZ 0 (Z.of_nat m * n).
Proof.
  intros Hn. induction m as [|m IH]; [done|]. rewrite -> Nat2Z.inj_succ, <- Z.add_1_r.
  rewrite -> seqZ_app by lia. rewrite -> fmap_app, concat_app, IH. rewrite -> (seqZ_cons (0 + Z.of_nat m)), (seqZ_nil (Z.succ (0 + Z.of_nat m))) by lia.
  csimpl. rewrite -> app_nil_r. replace ((Z.of_nat m + 1) * n) with (Z.of_nat m * n + n) by lia.
  rewrite -> seqZ_app by nia. rewrite -> fmap_app. f_equal. apply list_eq. intros i.
  rewrite -> list_lookup_fmap. destruct (Z.lt_ge_cases (Z.of_nat i) n) as [Hi|Hi].
  - rewrite -> lookup_replicate_2, lookup_seqZ_lt by lia. cbn. do 2 f_equal.
    replace (0 + Z.of_nat m * n + Z.of_nat i) with (Z.of_nat i + Z.of_nat m * n) by lia.
    rewrite -> Z.div_add, Z.div_small by lia. lia.
  - rewrite -> lookup_seqZ_ge by lia. cbn. apply lookup_replicate_None. lia.
Qed.

Lemma prefix_flags k n : -1 ≤ k < n →
  replicate (Z.to_nat (k + 1)) true ++ replicate (Z.to_nat (n - k - 1)) false = (λ j, j / 1 <=? k) <$> seqZ 0 n.
Proof.
  intros Hk. replace n with (k + 1 + (n - k - 1)) at 2 by lia. rewrite -> seqZ_app, fmap_app by lia. f_equal.
  all: symmetry; apply list_eq; intros i; rewrite -> list_lookup_fmap.
  - destruct (Z.lt_ge_cases (Z.of_nat i) (k + 1)).
    + rewrite -> lookup_replicate_2, lookup_seqZ_lt by lia. cbn. rewrite -> Z.div_1_r. f_equal. apply Z.leb_le. lia.
    + rewrite -> lookup_seqZ_ge by lia. symmetry. apply lookup_replicate_None. lia.
  - destruct (Z.lt_ge_cases (Z.of_nat i) (n - k - 1)).
    + rewrite -> lookup_replicate_2, lookup_seqZ_lt by lia. cbn. rewrite -> Z.div_1_r. f_equal. apply Z.leb_gt. lia.
    + rewrite -> lookup_seqZ_ge by lia. symmetry. apply lookup_replicate_None. lia.
Qed.

(** [batch_exist] answers one flag per key, true for the keys of the blocks of the
    prefix the store holds, and false for all of them when the lookup fails. *)
Theorem batch_exist_prefix {W} `{StoreOps W} `{PyHash} pc keys (s : Z * W) :
  let n := tp_size (runtime_cfg pc) in
  let shared := shared_by_tp pc in
  keys ≠ [] → bypassed pc BYPASS_EXISTS = false → (shared = true → 0 < n ∧ zlen keys mod n = 0) →
  let hash_keys := str_to_md5_bytes <$> (if shared then py_stride keys 0 n else keys) in
  match st_lookup_on_prefix (uc_store pc) hash_keys s.2 with
  | (Ok k, w') => -1 ≤ k < zlen hash_keys →
      batch_exist pc keys s =
        (Ok ((λ j, j / (if shared then n else 1) <=? k) <$> py_range 0 (zlen keys)), (s.1, w'))
  | (Raise e, w') => is_runtime_error e = true →
      batch_exist pc keys s = (Ok (replicate (length keys) false), (s.1, w'))
  end.
Proof.
  intros n shared Hne Hby Hn hash_keys. unfold batch_exist. rewrite -> Hby.
  assert (Hlen : 0 < zlen keys) by (destruct keys; [done|rewrite -> zlen_cons; pose proof (zlen_nonneg keys); lia]).
  rewrite -> (proj2 (Z.ltb_lt _ _)) by done. fold shared n. destruct shared eqn:Hsh.
  - destruct (Hn eq_refl) as [Hn0 Hmod]. rewrite -> (proj2 (Z.leb_gt _ _)), Hmod by done. cbn [orb negb Z.eqb].
    unfold on_store, lift, try_runtime, try_except. munfold. fold hash_keys.
    destruct (st_lookup_on_prefix (uc_store pc) hash_keys s.2) as [[k|e] w'].
    + intros Hk. cbn. do 2 f_equal. unfold py_range. rewrite -> !Z.sub_0_r.
      assert (Hm : zlen (py_stride keys 0 n) = zlen keys / n).
      { unfold zlen, py_stride. rewrite -> (stride_length (Z.to_nat n) (Z.to_nat (zlen keys / n))); [|lia|].
        - apply Z2Nat.id, Z.div_pos; [apply zlen_nonneg|done].
        - apply Nat2Z.inj. rewrite -> Nat2Z.inj_mul, !Z2Nat.id; [|lia|apply Z.div_pos; [apply zlen_nonneg|done] ].
          fold (zlen keys). pose proof (Z.div_mod (zlen keys) n). lia. }
      rewrite -> Hm. pose proof (Z.div_pos (zlen keys) n ltac:(lia) Hn0) as Hq.
      rewrite <- (Z2Nat.id (zlen keys / n)) by done.
      rewrite -> (replicate_blocks (λ b, b <? k + 1)) by done. rewrite -> Z2Nat.id by done.
      replace (zlen keys / n * n) with (zlen keys) by (pose proof (Z.div_mod (zlen keys) n); lia).
      apply list_fmap_ext. intros j x _. destruct (Z.ltb_spec (x / n) (k + 1)), (Z.leb_spec (x / n) k); lia.
    + intros He. cbn. by rewrite -> He.
  - unfold on_store, lift, try_runtime, try_except. munfold. fold hash_keys.
    destruct (st_lookup_on_prefix (uc_store pc) hash_keys s.2) as [[k|e] w'].
    + intros Hk. cbn. do 2 f_equal. unfold py_range. rewrite -> Z.sub_0_r. apply prefix_flags.
      unfold hash_keys, zlen in Hk |- *. rewrite -> length_fmap in Hk. lia.
    + intros He. cbn. by rewrite -> He.
Qed.

Lemma wait_one {W} `{StoreOps W} pc t (s : Z * W) :
  _wait_tasks pc [t] s =
    match st_wait (uc_store pc) t s.2 with
    | (Ok _, w') => (Ok true, (s.1, w'))
    | (Raise e, w') => (if is_runtime_error e then Ok false else Raise e, (s.1, w'))
    end.
Proof.
  cbn [_wait_tasks]. unfold try_runtime, on_store. munfold.
  destruct (st_wait (uc_store pc) t s.2) as [[[]|e] w']; [done|]. by destruct (is_runtime_error e).
Qed.

(** A transfer reports success exactly when the store accepted it, gave it a task
    and the wait for the task returned; a [RuntimeError] of the store is reported
    as an error and never raised. *)
Lemma transfer_outcome {W} `{StoreOps W} task_id pc (submit : M (Z * W) task) ok error s :
  ok ≠ error →
  let '(r, s') := transfer task_id pc submit ok error s in
  match r with
  | Ok code =>
      (code = ok ↔ ∃ t s1, submit s = (Ok t, s1) ∧ _check_task task_id t = true ∧
         (st_wait (uc_store pc) t s1.2).1 = Ok tt) ∧ (code = ok ∨ code = error)
  | Raise e => is_runtime_error e = false
  end.
Proof.
  intros Hne. unfold transfer, try_runtime, try_except, raise, mbind, M_bind, mret, M_ret.
  destruct (submit s) as [[t|e] s1] eqn:Hsub.
  - destruct (_check_task task_id t) eqn:Ht.
    + cbn [negb]. rewrite -> wait_one.
      destruct (st_wait (uc_store pc) t s1.2) as [[[]|e] w'] eqn:Hw; cbn.
      * split; [|by left]. split; [intros _|done]. exists t, s1. by rewrite -> Hw.
      * destruct (is_runtime_error e) eqn:He; cbn; [|done]. split; [|by right]. split; [intros ->; done|].
        intros (t' & s1' & [= <- <-] & _ & Hok). by rewrite -> Hw in Hok.
    + cbn. split; [|by right]. split; [intros ->; done|]. intros (t' & s1' & [= <- <-] & Hok & _). by rewrite -> Ht in Hok.
  - destruct (is_runtime_error e) eqn:He; [|done]. split; [|by right]. split; [intros ->; done|].
    by intros (t' & s1' & [= ] & _).
Qed.

(** ** One identifier for all processes *)

(** The processes that start within the timeout of the identifier in the file
    use that identifier and leave the file alone. *)
Lemma uid_consensus strftime prefix_a timeout t0 file0 uid file ts :
  get_dual_consensus_uids strftime prefix_a timeout t0 file0 = (uid, file) →
  Forall (λ t, t - uf_timestamp file ≤ timeout) ts →
  Forall (λ t, get_dual_consensus_uids strftime prefix_a timeout t file = (uid, file)) ts.
Proof.
  intros Hrun Hts. assert (Hfile : uf_uid file = Some uid ∧ uid ≠ "").
  { unfold get_dual_consensus_uids in Hrun.
    assert (Hfresh : prefix_a +:+ "_" +:+ strftime t0 ≠ "") by (destruct prefix_a; done).
    destruct (uf_uid file0) as [[|a u]|] eqn:Hu; [by injection Hrun as <- <-| |by injection Hrun as <- <-].
    destruct (timeout <? t0 - uf_timestamp file0); injection Hrun as <- <-; [done|]. by rewrite -> Hu. }
  destruct Hfile as [Hu Hne]. eapply Forall_impl; [exact Hts|]. intros t Ht. unfold get_dual_consensus_uids.
  rewrite -> Hu. destruct uid; [done|]. by rewrite -> (proj2 (Z.ltb_ge _ _)) by (cbn in Ht; lia).
Qed.

(** A missing comma joins two paths, so the check fails where all three files of
    a TLS setup exist. *)
Example certificates_never_found :
  check_kvcs_certificates (λ p, existsb (String.eqb p)
    ["/etc/kvcs/tls/ca.crt"; "/etc/kvcs/tls/tls.crt"; "/etc/kvcs/tls/tls.key"]) =
  Raise (FileNotFoundError ["/etc/kvcs/tls/tls.crt/etc/kvcs/tls/tls.key"]).
Proof. by vm_compute. Qed.

(** Remote counts are needed whenever there is a pool: a batch with local hits
    only raises. *)
Example local_hits_only_raise :
  get_keys (with_scp example_plugin 1 0) (InputMeta true 1 [5] [0] 2 [ [10; 11; 12] ] (Some (PerRequest [1])) None [1; 2; 3; 4; 5]) =
  Raise (TypeError "'NoneType' object is not subscriptable").
Proof. by vm_compute. Qed.
