(* ===== verification/Hashing.v ===== *)
(** * Block identifiers

    [RequestHasher] and [generate_hash] of [ucm_connector.py]: the identifier of
    a block of tokens is the MD5 digest of the model's metadata, the identifier
    of the block before it and its tokens, so identifiers form a chain along the
    request. *)
From S2P Require Import Prelude PyHash.
Open Scope Z_scope.

(** What [RequestHasher.__init__] reads of the vLLM configuration. The
    speculative configuration is its method (possibly absent) and its number of
    speculative tokens. *)
Record hash_conf := HashConf {
  hc_model : string;
  hc_tensor_parallel_size : Z;
  hc_dtype : string;
  hc_speculative : option (option string * Z);
  hc_sparse_sfa_c8 : bool;
  hc_sparse_li_c8 : bool;
}.

Definition bool_int (b : bool) : string := if b then "1" else "0".

Definition spec_info (c : hash_conf) : string :=
  match hc_speculative c with
  | None => ""
  | Some (spec_method, spec_tokens) =>
      ":" +:+ default "" spec_method +:+ ":" +:+ pretty spec_tokens
  end.

Definition sparse_c8_info (c : hash_conf) : string :=
  ":sfa_c8=" +:+ bool_int (hc_sparse_sfa_c8 c) +:+ ":li_c8=" +:+ bool_int (hc_sparse_li_c8 c).

(** [RequestHasher.__init__]: [meta_bytes] *)
Definition meta_bytes (c : hash_conf) (rank_id : Z) : bytes :=
  Pickle.str_bytes
    (hc_model c +:+ ":" +:+ pretty (hc_tensor_parallel_size c) +:+ ":" +:+
     hc_dtype c +:+ ":" +:+ pretty rank_id +:+ spec_info c +:+ sparse_c8_info c).

(** The argument of a hasher: raw bytes are hashed as they are. *)
Inductive hash_input :=
  | IBytes (b : bytes)
  | IObj (o : pyobj).

Section hashing.
  Context `{PyHash}.

(** [RequestHasher.__call__] *)
Definition request_hasher (meta : bytes) (input_data : hash_input) : bytes :=
  let input_bytes := match input_data with
                     | IBytes b => b
                     | IObj o => pickle_dumps o
                     end in
  md5 (meta ++ input_bytes).

Definition hash_seed (meta : bytes) : bytes := request_hasher meta (IObj (PStr "UCM_HASH_SEED")).

(** The loop of [generate_hash] over the block starts. *)
Fixpoint hash_blocks (meta : bytes) (block_size : Z) (token_ids : list Z)
    (starts : list Z) (parent_block_hash_value : bytes) : list bytes :=
  match starts with
  | [] => []
  | start :: starts =>
      let block_token_ids := py_slice token_ids start (start + block_size) in
      if zlen block_token_ids <? block_size then []
      else
        let hash_value :=
          request_hasher meta (IObj (PPair parent_block_hash_value block_token_ids)) in
        hash_value :: hash_blocks meta block_size token_ids starts hash_value
  end.

Definition generate_hash (meta : bytes) (block_size : Z) (token_ids : list Z)
    (parent_block_hash_value : bytes) : list bytes :=
  hash_blocks meta block_size token_ids
    (py_range_step 0 (zlen token_ids) block_size) parent_block_hash_value.

(** [_make_other_rank_hashers]: the metadata of the hashers of ranks 1 to tp - 1. *)
Definition make_other_rank_hashers (is_mla : bool) (c : hash_conf) : list bytes :=
  if is_mla then []
  else meta_bytes c <$> py_range 1 (hc_tensor_parallel_size c).

(** The rank-scoped identifiers of rank-0 blocks: rank 0 and MLA use them as they are. *)
Definition rank_block_ids (meta : bytes) (rank0 : bool) (ids : list bytes) : list bytes :=
  if rank0 then ids else (λ b, request_hasher meta (IBytes b)) <$> ids.

(** ** Reference definition: the chain over consecutive full blocks *)

Fixpoint chain (meta : bytes) (blocks : list (list Z)) (parent : bytes) : list bytes :=
  match blocks with
  | [] => []
  | b :: blocks =>
      let h := request_hasher meta (IObj (PPair parent b)) in h :: chain meta blocks h
  end.

(** The byte strings this chain hashes. *)
Fixpoint chain_inputs (meta : bytes) (blocks : list (list Z)) (parent : bytes) : list bytes :=
  match blocks with
  | [] => []
  | b :: blocks =>
      (meta ++ pickle_dumps (PPair parent b)) :: chain_inputs meta blocks (request_hasher meta (IObj (PPair parent b)))
  end.

(** The full blocks of [n] tokens. *)
Fixpoint full_blocks (count n : nat) (l : list Z) : list (list Z) :=
  match count with
  | O => []
  | S count => take n l :: full_blocks count n (drop n l)
  end.

End hashing.

(** ** Lemmas *)

Lemma div_ceil_lt n bs k : 0 < bs → k < n / bs → k * bs + bs ≤ n.
Proof.
  intros Hbs Hk. pose proof (Z.mul_div_le n bs Hbs). nia.
Qed.

Lemma div_ceil_ge n bs k : 0 < bs → n / bs ≤ k → n < k * bs + bs.
Proof.
  intros Hbs Hk. pose proof (Z.mul_succ_div_gt n bs Hbs). nia.
Qed.

Section lemmas.
  Context `{PyHash}.

Lemma hash_blocks_chain meta bs l n : ∀ k parent,
  0 < bs → 0 ≤ k → k + Z.of_nat n = (zlen l + bs - 1) / bs →
  hash_blocks meta bs l ((λ k, 0 + k * bs) <$> seqZ k (Z.of_nat n)) parent =
  chain meta (full_blocks (Z.to_nat (zlen l / bs - k)) (Z.to_nat bs)
                (drop (Z.to_nat (k * bs)) l)) parent.
Proof.
  induction n as [|n IH]; intros k parent Hbs Hk Hn.
  { assert (zlen l / bs ≤ k).
    { replace k with ((zlen l + bs - 1) / bs) by lia. apply Z.div_le_mono; lia. }
    by replace (Z.to_nat (zlen l / bs - k)) with 0%nat by lia. }
  rewrite -> Nat2Z.inj_succ, seqZ_cons by lia. rewrite -> Z.pred_succ. csimpl.
  rewrite -> py_slice_pos by lia.
  replace (0 + k * bs + bs - (0 + k * bs)) with bs by lia.
  destruct (decide (k < zlen l / bs)) as [Hlt|Hge].
  - pose proof (div_ceil_lt _ _ _ Hbs Hlt).
    rewrite -> (proj2 (Z.ltb_ge _ _)); cycle 1.
    { unfold zlen in *. rewrite -> length_take, length_drop. lia. }
    replace (Z.to_nat (zlen l / bs - k)) with (S (Z.to_nat (zlen l / bs - Z.succ k))) by lia.
    simpl. f_equal. rewrite -> IH by lia. do 2 f_equal. rw drop_drop. f_equal. nia.
  - pose proof (div_ceil_ge (zlen l) bs k Hbs).
    rewrite -> (proj2 (Z.ltb_lt _ _)); cycle 1.
    { unfold zlen in *. rewrite -> length_take, length_drop. lia. }
    by replace (Z.to_nat (zlen l / bs - k)) with 0%nat by lia.
Qed.

(** [generate_hash] computes the chain over the full blocks. *)
Lemma generate_hash_chain meta bs l parent :
  0 < bs →
  generate_hash meta bs l parent =
  chain meta (full_blocks (Z.to_nat (zlen l / bs)) (Z.to_nat bs) l) parent.
Proof.
  intros Hbs. unfold generate_hash, py_range_step.
  replace (zlen l - 0 + bs - 1) with (zlen l + bs - 1) by lia.
  assert (0 ≤ (zlen l + bs - 1) / bs) by (apply Z.div_pos; unfold zlen; lia).
  rewrite -> (eq_sym (Z2Nat.id _ H0)).
  rewrite -> (hash_blocks_chain meta bs l _ 0 parent) by lia.
  by rewrite -> Z.sub_0_r, drop_0.
Qed.

Lemma chain_length meta blocks parent : length (chain meta blocks parent) = length blocks.
Proof. revert parent. induction blocks; intros; simpl; [done|by f_equal]. Qed.

Lemma full_blocks_length c n l : length (full_blocks c n l) = c.
Proof. revert l. induction c; intros; simpl; [done|by f_equal]. Qed.

Lemma full_blocks_lookup c n l i :
  (i < c)%nat → full_blocks c n l !! i = Some (take n (drop (i * n) l)).
Proof.
  revert l i. induction c as [|c IH]; intros l [|i] Hi; simpl; [lia..|done|].
  rewrite -> IH by lia. by rw drop_drop.
Qed.

Lemma full_blocks_app c1 c2 n l1 l2 :
  length l1 = (c1 * n)%nat →
  full_blocks (c1 + c2) n (l1 ++ l2) = full_blocks c1 n l1 ++ full_blocks c2 n l2.
Proof.
  revert l1. induction c1 as [|c1 IH]; intros l1 Hl; simpl in *.
  - by destruct l1.
  - rewrite -> take_app_le by lia. f_equal. rewrite -> drop_app_le by lia.
    apply IH. rw length_drop. lia.
Qed.

Lemma full_blocks_concat c n l : (c * n ≤ length l)%nat → concat (full_blocks c n l) = take (c * n) l.
Proof.
  revert l. induction c as [|c IH]; intros l Hl; simpl in *; [done|].
  rewrite -> IH by (rw length_drop; lia). by rw take_take_drop.
Qed.

Lemma chain_app meta bl1 bl2 parent :
  chain meta (bl1 ++ bl2) parent =
  chain meta bl1 parent ++ chain meta bl2 (default parent (last (chain meta bl1 parent))).
Proof.
  revert parent. induction bl1 as [|b bl1 IH]; intros parent; [done|].
  cbn [app chain]. rw IH last_cons. cbn [app]. do 3 f_equal.
  by destruct (last (chain meta bl1 _)).
Qed.


(** Two different strings with the same digest, one of each list: the lists are
    those of the strings the program hashed, so this is a collision it met. *)
Definition md5_clash (xs ys : list bytes) : Prop := ∃ x y, x ∈ xs ∧ y ∈ ys ∧ x ≠ y ∧ md5 x = md5 y.

Lemma md5_eq_or_clash (P : Prop) x y xs ys : md5 x = md5 y → (x = y → P) → P ∨ md5_clash (x :: xs) (y :: ys).
Proof.
  intros Heq HP. destruct (decide (x = y)); [left; by apply HP|].
  right. exists x, y. split_and!; [left|left|done|done].
Qed.

Lemma md5_clash_mono xs ys xs' ys' : md5_clash xs ys → xs ⊆ xs' → ys ⊆ ys' → md5_clash xs' ys'.
Proof. intros (x & y & ? & ? & ?) Hx Hy. exists x, y. split; [by apply Hx|]. split; [by apply Hy|done]. Qed.

Lemma chain_ids_length `{!PyHashLaws} meta bl parent :
  Forall (λ h, length h = 16%nat) (chain meta bl parent).
Proof.
  revert parent. induction bl; intros; simpl; constructor; [|done].
  apply md5_length.
Qed.

(** Equal [i]-th identifiers come from equal blocks up to [i] and equal parents. *)
Lemma chain_binding `{!PyHashLaws} meta i : ∀ bl1 bl2 p1 p2 h,
  Forall (Forall (λ x, 0 ≤ x < 2 ^ 31)) bl1 → Forall (Forall (λ x, 0 ≤ x < 2 ^ 31)) bl2 →
  zlen p1 < 256 → zlen p2 < 256 →
  chain meta bl1 p1 !! i = Some h → chain meta bl2 p2 !! i = Some h →
  (p1 = p2 ∧ take (S i) bl1 = take (S i) bl2) ∨ md5_clash (chain_inputs meta bl1 p1) (chain_inputs meta bl2 p2).
Proof.
  induction i as [|i IH]; intros [|b1 bl1] [|b2 bl2] p1 p2 h Hf1 Hf2 Hp1 Hp2; try done;
    rewrite -> Forall_cons in Hf1, Hf2; destruct Hf1 as [Hb1 Hf1], Hf2 as [Hb2 Hf2];
    cbn [chain chain_inputs lookup list_lookup].
  - intros [= <-] [= Hq]. apply md5_eq_or_clash; [exact (eq_sym Hq)|]. intros Heq.
    apply (inj (app meta)) in Heq. apply pickle_dumps_inj in Heq; [|done..].
    injection Heq as -> ->. by rw ?take_0.
  - intros H1 H2. assert (Hl : ∀ m, zlen (md5 m) < 256) by (intros m; unfold zlen; rw md5_length; lia).
    destruct (IH _ _ _ _ h Hf1 Hf2 (Hl _) (Hl _) H1 H2) as [ [Heq Ht]|?];
      [|right; eapply md5_clash_mono; [done|by apply list_subseteq_cons..] ].
    apply md5_eq_or_clash; [exact Heq|]. intros Heq'.
    apply (inj (app meta)) in Heq'. apply pickle_dumps_inj in Heq'; [|done..]. injection Heq' as -> ->.
    simpl. by rw Ht.
Qed.

Lemma full_blocks_Forall (P : Z → Prop) c n l :
  Forall P l → Forall (Forall P) (full_blocks c n l).
Proof.
  revert l. induction c; intros l Hl; simpl; constructor; auto using Forall_take, Forall_drop.
Qed.

Lemma full_blocks_take c n l i :
  (i ≤ c)%nat → take i (full_blocks c n l) = full_blocks i n l.
Proof.
  revert c l. induction i as [|i IH]; intros [|c] l Hi; simpl; [done..|lia|].
  f_equal. apply IH. lia.
Qed.

Lemma full_blocks_prefix c n l k : (c * n ≤ k)%nat → full_blocks c n (take k l) = full_blocks c n l.
Proof.
  revert l k. induction c as [|c IH]; intros l k Hk; simpl in *; [done|].
  rewrite -> take_take, Nat.min_l by lia. f_equal. rewrite -> skipn_firstn_comm. apply IH. lia.
Qed.

Lemma chain_take meta bl parent i : take i (chain meta bl parent) = chain meta (take i bl) parent.
Proof. revert bl parent. induction i; intros [|b bl] parent; simpl; [done..|]. by f_equal. Qed.

(** The identifiers of the blocks of a prefix are a prefix of the identifiers. *)
Lemma generate_hash_take meta bs l e parent :
  0 < bs → 0 ≤ e ≤ zlen l → (bs | e) →
  take (Z.to_nat (e / bs)) (generate_hash meta bs l parent) =
  generate_hash meta bs (take (Z.to_nat e) l) parent.
Proof.
  intros Hbs He [k ->]. rewrite -> Z.div_mul by lia. rewrite -> !generate_hash_chain by done.
  assert (0 ≤ k) by nia. assert (k ≤ zlen l / bs) by (apply Z.div_le_lower_bound; lia).
  assert (Hlen : zlen (take (Z.to_nat (k * bs)) l) = k * bs).
  { unfold zlen in *. rewrite length_take. lia. }
  rewrite -> Hlen, Z.div_mul by lia. rewrite -> chain_take, full_blocks_take by lia. f_equal.
  symmetry. apply full_blocks_prefix. nia.
Qed.

Lemma generate_hash_zlen meta bs l parent :
  0 < bs → zlen (generate_hash meta bs l parent) = zlen l / bs.
Proof.
  intros Hbs. rewrite -> generate_hash_chain by done. unfold zlen.
  rewrite -> chain_length, full_blocks_length. pose proof (Z.div_pos (Z.of_nat (length l)) bs). lia.
Qed.

End lemmas.

(** The metadata of two ranks differ. *)
Lemma str_bytes_app s1 s2 :
  Pickle.str_bytes (s1 +:+ s2) = Pickle.str_bytes s1 ++ Pickle.str_bytes s2.
Proof. induction s1; [done|]. unfold Pickle.str_bytes in *. simpl. by f_equal. Qed.

Lemma meta_bytes_inj c r1 r2 x y :
  length x = length y → meta_bytes c r1 ++ x = meta_bytes c r2 ++ y → r1 = r2 ∧ x = y.
Proof.
  intros Hl Heq. apply app_inj_2 in Heq as [Heq ->]; [|done]. split; [|done].
  unfold meta_bytes in Heq. rewrite -> !str_bytes_app in Heq.
  do 6 apply (inj (app _)) in Heq. rewrite -> !app_assoc in Heq.
  do 2 apply (inj (λ l, l ++ _)) in Heq.
  apply Pickle.str_bytes_inj in Heq. by apply (inj pretty).
Qed.

(** ** Properties *)

(** [generate_hash] gives one identifier per full block of tokens, none for
    the partial last block, and it is incremental: when the tokens split at a
    block boundary, the identifiers are those of the first part followed by
    those of the second part hashed with the last identifier of the first part
    as parent.  A request extended with more tokens therefore keeps the
    identifiers of the blocks it already had. *)
Theorem generate_hash_incremental `{PyHash} meta bs l1 l2 parent :
  0 < bs → zlen l1 mod bs = 0 →
  let ids1 := generate_hash meta bs l1 parent in
  zlen ids1 = zlen l1 / bs ∧
  zlen (generate_hash meta bs (l1 ++ l2) parent) = zlen (l1 ++ l2) / bs ∧
  generate_hash meta bs (l1 ++ l2) parent =
    ids1 ++ generate_hash meta bs l2 (default parent (last ids1)).
Proof.
  intros Hbs Hmod ids1. unfold ids1. clear ids1. rewrite -> !generate_hash_chain by done.
  pose proof (zlen_nonneg l1). pose proof (zlen_nonneg l2).
  pose proof (Z.div_mod (zlen l1) bs ltac:(lia)) as Hdiv. rewrite -> Hmod, Z.add_0_r in Hdiv.
  pose proof (Z.div_pos (zlen l1) bs). pose proof (Z.div_pos (zlen l2) bs).
  assert (Happ : zlen (l1 ++ l2) / bs = zlen l1 / bs + zlen l2 / bs).
  { rw zlen_app {1}Hdiv Z.mul_comm Z.div_add_l //. lia. }
  assert (Hlen : ∀ n l p, 0 ≤ n →
    zlen (chain meta (full_blocks (Z.to_nat n) (Z.to_nat bs) l) p) = n).
  { intros. unfold zlen. rw chain_length full_blocks_length. lia. }
  split_and!; [apply Hlen; lia|apply Hlen; lia|].
  rw Happ. rewrite -> Z2Nat.inj_add, full_blocks_app, chain_app by (unfold zlen in *; nia). done.
Qed.

Lemma generate_hash_incremental_witness :
  let meta := meta_bytes (HashConf "m" 1 "torch.bfloat16" None false false) 0 in
  let ids1 := generate_hash meta 2 [10; 300] (hash_seed meta) in
  zlen ids1 = 1 ∧
  zlen (generate_hash meta 2 ([10; 300] ++ [70000; 4; 7]) (hash_seed meta)) = 2 ∧
  generate_hash meta 2 ([10; 300] ++ [70000; 4; 7]) (hash_seed meta) =
    ids1 ++ generate_hash meta 2 [70000; 4; 7] (default (hash_seed meta) (last ids1)).
Proof.
  exact (generate_hash_incremental (H := cpython_hash)
    (meta_bytes (HashConf "m" 1 "torch.bfloat16" None false false) 0) 2 [10; 300] [70000; 4; 7]
    (hash_seed (meta_bytes (HashConf "m" 1 "torch.bfloat16" None false false) 0))
    eq_refl eq_refl).
Defined.

(** C25: An identifier stands for the whole token prefix: when two requests have
    the same identifier at position [i], their first [(i + 1) * block_size]
    tokens are the same, unless MD5 gave the same digest to two different byte
    strings among those hashed for the two requests. *)
Theorem generate_hash_binding `{PyHashLaws} meta bs l1 l2 i h :
  0 < bs →
  Forall (λ x, 0 ≤ x < 2 ^ 31) l1 → Forall (λ x, 0 ≤ x < 2 ^ 31) l2 →
  generate_hash meta bs l1 (hash_seed meta) !! i = Some h →
  generate_hash meta bs l2 (hash_seed meta) !! i = Some h →
  take (S i * Z.to_nat bs) l1 = take (S i * Z.to_nat bs) l2 ∨
  md5_clash (chain_inputs meta (full_blocks (Z.to_nat (zlen l1 / bs)) (Z.to_nat bs) l1) (hash_seed meta))
            (chain_inputs meta (full_blocks (Z.to_nat (zlen l2 / bs)) (Z.to_nat bs) l2) (hash_seed meta)).
Proof.
  intros Hbs Hl1 Hl2. rewrite -> !generate_hash_chain by done. intros Hi1 Hi2.
  assert (Hp : zlen (hash_seed meta) < 256) by (unfold zlen, hash_seed, request_hasher; rw md5_length; lia).
  pose proof (lookup_lt_Some _ _ _ Hi1) as Hc1. pose proof (lookup_lt_Some _ _ _ Hi2) as Hc2.
  rewrite -> chain_length, full_blocks_length in Hc1, Hc2.
  destruct (chain_binding meta i _ _ _ _ h (full_blocks_Forall _ _ _ _ Hl1)
    (full_blocks_Forall _ _ _ _ Hl2) Hp Hp Hi1 Hi2) as [ [_ Ht]|?]; [left|by right].
  rewrite -> !full_blocks_take in Ht by lia. apply (f_equal (@concat Z)) in Ht.
  pose proof (Z.mul_div_le (zlen l1) bs Hbs). pose proof (Z.mul_div_le (zlen l2) bs Hbs).
  rewrite -> !full_blocks_concat in Ht by (unfold zlen in *; nia). done.
Qed.

Lemma generate_hash_binding_witness :
  let meta := meta_bytes (HashConf "m" 1 "torch.bfloat16" None false false) 0 in
  generate_hash meta 2 [10; 300; 5] (hash_seed meta) !! 0%nat =
    Some [196; 61; 203; 57; 126; 51; 184; 25; 18; 21; 19; 229; 59; 242; 115; 98] ∧
  (take (1 * 2) [10; 300; 5] = take (1 * 2) [10; 300; 70000; 4] ∨
   md5_clash (H := cpython_hash) (chain_inputs meta [ [10; 300] ] (hash_seed meta))
     (chain_inputs meta [ [10; 300]; [70000; 4] ] (hash_seed meta))).
Proof.
  split; [vm_compute; reflexivity|].
  refine (generate_hash_binding (H := cpython_hash)
    (meta_bytes (HashConf "m" 1 "torch.bfloat16" None false false) 0) 2
    [10; 300; 5] [10; 300; 70000; 4] 0%nat
    [196; 61; 203; 57; 126; 51; 184; 25; 18; 21; 19; 229; 59; 242; 115; 98] eq_refl _ _ _ _).
  - repeat constructor; lia.
  - repeat constructor; lia.
  - vm_compute. reflexivity.
  - vm_compute. reflexivity.
Defined.

(** The rank-scoped identifiers a tensor-parallel worker derives from the
    scheduler's identifiers never clash between two different ranks: equal
    identifiers of rank [r1] and rank [r2] would exhibit an MD5 collision.  On
    one rank two different blocks keep different identifiers, again up to a
    collision; rank 0 and MLA workers use the scheduler's identifiers as they are. *)
Theorem rank_ids_disjoint `{PyHash} c r1 r2 ids1 ids2 i j b1 b2 h :
  ids1 !! i = Some b1 → ids2 !! j = Some b2 → length b1 = length b2 →
  rank_block_ids (meta_bytes c r1) false ids1 !! i = Some h →
  rank_block_ids (meta_bytes c r2) false ids2 !! j = Some h →
  (r1 = r2 ∧ b1 = b2) ∨ md5_clash [meta_bytes c r1 ++ b1] [meta_bytes c r2 ++ b2].
Proof.
  intros Hi Hj Hl. unfold rank_block_ids. rewrite -> !list_lookup_fmap, Hi, Hj. simpl.
  intros [= <-] [= Hq]. apply md5_eq_or_clash; [exact (eq_sym Hq)|]. intros Heq.
  by apply meta_bytes_inj in Heq as [-> ->].
Qed.

Lemma rank_ids_disjoint_witness :
  let c := HashConf "m" 4 "torch.bfloat16" None false false in
  rank_block_ids (meta_bytes c 1) false [[1; 2]] =
    rank_block_ids (meta_bytes c 1) false [[1; 2]] ∧
  ((1 = 1 ∧ [1; 2] = [1; 2]) ∨
   let c := HashConf "m" 4 "torch.bfloat16" None false false in
   md5_clash (H := cpython_hash) [meta_bytes c 1 ++ [1; 2] ] [meta_bytes c 1 ++ [1; 2] ]).
Proof.
  split; [reflexivity|].
  refine (rank_ids_disjoint (H := cpython_hash) (HashConf "m" 4 "torch.bfloat16" None false false)
    1 1 [[1; 2]] [[1; 2]] 0%nat 0%nat [1; 2] [1; 2] _ eq_refl eq_refl eq_refl eq_refl eq_refl).
Defined.
