(* ===== verification/KVLayout.v ===== *)
(** * The layout of a worker's KV caches

    [KVCacheLayout] and [SharedIndexerKVCacheLayout] of [ucm_connector.py]: the
    tensors vLLM registers for its layers become arrays of base addresses,
    strides and copy sizes, from which the address of every block is computed in
    64-bit unsigned arithmetic. *)
From S2P Require Import Prelude PyStrings.
From Stdlib Require Import Ascii.
Open Scope Z_scope.

(** [_drop_null_vllm_blocks]: vLLM block 0 is the null block. *)
Definition _drop_null_vllm_blocks {A} (ucm_block_ids : list A) (vllm_block_ids : list Z) :
    list A * list Z :=
  match ucm_block_ids, vllm_block_ids with
  | [], _ | _, [] => (ucm_block_ids, vllm_block_ids)
  | _, _ =>
      let kept := filter (λ p, p.2 ≠ 0) (zip ucm_block_ids vllm_block_ids) in
      (kept.*1, kept.*2)
  end.

(** What the layout reads of a tensor; strides count elements. *)
Record tensor := Tensor {
  t_data_ptr : Z;
  t_shape : list Z;
  t_stride : list Z;
  t_element_size : Z;
}.

(** [t[i]] *)
Definition tensor_index (t : tensor) (i : Z) : res tensor :=
  match t_shape t, t_stride t with
  | n :: shape, s :: stride =>
      let j := if i <? 0 then i + n else i in
      if (j <? 0) || (n <=? j) then Raise IndexError
      else Ok (Tensor (t_data_ptr t + j * s * t_element_size t) shape stride (t_element_size t))
  | _, _ => Raise IndexError
  end.

Definition t_dim (t : tensor) : Z := zlen (t_shape t).

Definition prod (l : list Z) : Z := foldr Z.mul 1 l.

(** The entry of a layer in [kv_caches]: a tensor, a tuple of tensors, or
    anything else. *)
Inductive kv_layer :=
  | KVTensor (t : tensor)
  | KVTuple (ts : list tensor)
  | KVOther.

Record KVCacheTensorInfo := TensorInfo {
  ti_ptr : Z;
  ti_bytes_per_block : Z;
  ti_buffer_size : Z;
}.

Record SharedIndexerLayerInfo := LayerInfo {
  li_layer_id : option Z;
  li_sfa_tensors : list KVCacheTensorInfo;
  li_indexer : option KVCacheTensorInfo;
  li_scale : option KVCacheTensorInfo;
}.

Record KVCacheSegment := Segment {
  sg_ptr : Z;
  sg_copy_size : Z;
  sg_block_stride : Z;
  sg_buffer_size : Z;
}.

(** ** Arrays of [np.uint64] *)

Inductive nparr :=
  | Arr0 (x : Z)
  | Arr1 (l : list Z)
  | Arr2 (rows : list (list Z)).

(** [np.asarray(rows, dtype=np.uint64)], which refuses rows of different lengths. *)
Definition np_matrix (rows : list (list Z)) : res nparr :=
  if decide (Forall (λ r, length r = length (default [] (head rows))) rows)
  then Ok (Arr2 ((λ r : list Z, u64 <$> r) <$> rows))
  else Raise (ValueError "inhomogeneous shape").

Definition np_vector (l : list Z) : nparr := Arr1 (u64 <$> l).

(** [a[0]] *)
Definition np_first (a : nparr) : res nparr :=
  match a with
  | Arr1 (x :: _) => Ok (Arr0 x)
  | Arr2 (r :: _) => Ok (Arr1 r)
  | _ => Raise IndexError
  end.

Definition np_tolist (a : nparr) : list Z :=
  match a with
  | Arr0 x => [x]
  | Arr1 l => l
  | Arr2 rows => concat rows
  end.

Definition np_sum (a : nparr) : Z := u64 (zsum (np_tolist a)).

(** ** [KVCacheLayout] *)

Record layout := Layout {
  base_ptrs : nparr;
  buffer_sizes : nparr;
  tensor_size_lists : nparr;
  block_stride_lists : nparr;
  lay_use_layerwise : bool;
  pp_size : Z;
  num_hidden_layers : Z;
  layer_name_to_id : dict string Z;
  first_layer_id : Z;
  num_blocks : Z;
}.

(** [handle_tensor] inside [_collect_tensor_rows] *)
Definition handle_tensor (t : tensor) (size_dims : list Z) : res KVCacheTensorInfo :=
  dims ← map_res (py_index (t_shape t)) size_dims;
  let stride := prod dims * t_element_size t in
  t0 ← tensor_index t 0;
  n ← py_index (t_shape t) 0;
  Ok (TensorInfo (t_data_ptr t0) stride (n * stride)).

(** The tensors of one layer, in the order they are appended. *)
Definition layer_infos (kv : kv_layer) : res (list KVCacheTensorInfo) :=
  match kv with
  | KVTensor t =>
      if t_dim t =? 5 then
        t0 ← tensor_index t 0; k ← handle_tensor t0 [-3; -2; -1];
        t1 ← tensor_index t 1; v ← handle_tensor t1 [-3; -2; -1];
        Ok [k; v]
      else if t_dim t =? 3 then
        k ← handle_tensor t [-2; -1]; Ok [k]
      else Raise (ValueError "Unsupported kv cache tensor shape")
  | KVTuple ts => map_res (λ t, handle_tensor t [-3; -2; -1]) ts
  | KVOther => Raise (TypeError "Unsupported kv cache type")
  end.

Definition name_to_id (name_to_id : dict string Z) (name : string) : res Z :=
  dict_index name name_to_id.

(** One iteration of [_collect_tensor_rows]. *)
Definition collect_step (ids : dict string Z) (first : Z)
    (st : list (list KVCacheTensorInfo) * list (option Z)) (kv : string * kv_layer) :
    res (list (list KVCacheTensorInfo) * list (option Z)) :=
  layer_id ← dict_index kv.1 ids;
  let local_layer_id := layer_id - first in
  row_layer_ids ← py_alter (λ _, Some layer_id) st.2 local_layer_id;
  infos ← layer_infos kv.2;
  tensor_rows ← py_alter (λ row, row ++ infos) st.1 local_layer_id;
  Ok (tensor_rows, row_layer_ids).

Definition _collect_tensor_rows (ids : dict string Z) (first : Z)
    (kvcaches : dict string kv_layer) :
    res (list (list KVCacheTensorInfo) * list (option Z)) :=
  let num_rows := length (remove_dups ids.*2) in
  fold_res (collect_step ids first) (replicate num_rows [], replicate num_rows None) kvcaches.

(** [_build_layout]: the arrays [(base_ptrs, buffer_sizes, tensor_size_lists)];
    the strides are the tensor sizes. *)
Definition build_arrays (use_layerwise : bool) (tensor_rows : list (list KVCacheTensorInfo)) :
    res (nparr * nparr * nparr) :=
  let raw_ptr_rows := (λ row : list KVCacheTensorInfo, ti_ptr <$> row) <$> tensor_rows in
  let stride_rows := (λ row : list KVCacheTensorInfo, ti_bytes_per_block <$> row) <$> tensor_rows in
  let buffer_size_rows := (λ row : list KVCacheTensorInfo, ti_buffer_size <$> row) <$> tensor_rows in
  if negb use_layerwise then
    Ok (np_vector (concat raw_ptr_rows), np_vector (concat buffer_size_rows),
        np_vector (concat stride_rows))
  else
    match tensor_rows with
    | [] | [] :: _ => Raise (ValueError "KV cache layout must contain at least one tensor")
    | _ :: _ =>
        let expected_strides := default [] (head stride_rows) in
        if decide (Exists (λ row, row ≠ expected_strides) stride_rows)
        then Raise (ValueError "Invalid generic KV cache layout")
        else
          b ← np_matrix raw_ptr_rows;
          t ← np_matrix stride_rows;
          s ← np_matrix buffer_size_rows;
          Ok (b, s, t)
    end.

(** The configuration [KVCacheLayout.__init__] reads; [lc_platform] and the two
    sparse flags are read by the shared-indexer layout. *)
Record layout_conf := LayoutConf {
  lc_use_layerwise : bool;
  lc_pp_size : Z;
  lc_num_hidden_layers : Z;
  lc_num_blocks : Z;
  lc_is_cuda : bool;
  lc_sfa_c8 : bool;
  lc_li_c8 : bool;
}.

(** [{name: extract_layer_index(name) for name in kvcaches}], with vLLM's
    [extract_layer_index] as a parameter. *)
Definition layer_ids (extract_layer_index : string → res Z) (names : list string) :
    res (dict string Z) :=
  map_res (λ name, id ← extract_layer_index name; Ok (name, id)) names.

(** The part of [__init__] before [_build_layout]. *)
Definition init_layout (extract_layer_index : string → res Z) (c : layout_conf)
    (kvcaches : dict string kv_layer) : res (dict string Z * Z) :=
  if (1 <? lc_pp_size c) && (lc_num_hidden_layers c <=? 0)
  then Raise (ValueError "num_hidden_layers must be > 0 when pp_size > 1")
  else
    ids ← layer_ids extract_layer_index kvcaches.*1;
    match ids with
    | [] => Raise StopIteration
    | (_, first) :: _ => Ok (ids, first)
    end.

Definition mk_layout (c : layout_conf) (ids : dict string Z) (first : Z)
    (bp bs ts st : nparr) : layout :=
  Layout bp bs ts st (lc_use_layerwise c) (lc_pp_size c) (lc_num_hidden_layers c)
    ids first (lc_num_blocks c).

(** [KVCacheLayout._build_layout] *)
Definition _build_layout (c : layout_conf) (ids : dict string Z) (first : Z)
    (kvcaches : dict string kv_layer) : res layout :=
  '(tensor_rows, _) ← _collect_tensor_rows ids first kvcaches;
  '(bp, bs, ts) ← build_arrays (lc_use_layerwise c) tensor_rows;
  Ok (mk_layout c ids first bp bs ts ts).

(** [KVCacheLayout.__init__] *)
Definition KVCacheLayout (extract_layer_index : string → res Z) (c : layout_conf)
    (kvcaches : dict string kv_layer) : res layout :=
  '(ids, first) ← init_layout extract_layer_index c kvcaches;
  _build_layout c ids first kvcaches.

(** Addresses: a row per block, or a matrix per block (or per layer). *)
Inductive addrs :=
  | Addr2 (a : list (list Z))
  | Addr3 (a : list (list (list Z))).

(** One entry, in [np.uint64] arithmetic. *)
Definition block_addr (stride ptr id : Z) : Z := u64 (u64 (u64 id * stride) + ptr).

Definition extract_block_addrs (L : layout) (vllm_block_ids : list Z) (layer_first : bool) :
    res addrs :=
  match block_stride_lists L, base_ptrs L with
  | Arr1 strides, Arr1 ptrs =>
      if lay_use_layerwise L then Raise IndexError
      else if layer_first
      then Raise (ValueError "layer_first=True requires a layerwise KV cache layout")
      else Ok (Addr2 ((λ id, zip_with (λ s p, block_addr s p id) strides ptrs) <$> vllm_block_ids))
  | Arr2 strides, Arr2 ptrs =>
      if negb (lay_use_layerwise L) then Raise IndexError
      else if layer_first then
        Ok (Addr3 (zip_with (λ srow prow,
              (λ id, zip_with (λ s p, block_addr s p id) srow prow) <$> vllm_block_ids)
              strides ptrs))
      else
        Ok (Addr3 ((λ id, zip_with (λ srow prow,
              zip_with (λ s p, block_addr s p id) srow prow) strides ptrs) <$> vllm_block_ids))
  | _, _ => Raise IndexError
  end.

Definition tensor_size_list (L : layout) : res (list Z) :=
  if negb (lay_use_layerwise L) then Ok (np_tolist (tensor_size_lists L))
  else r ← np_first (tensor_size_lists L); Ok (np_tolist r).

Definition shard_size (L : layout) : res Z :=
  if negb (lay_use_layerwise L) then Ok (np_sum (tensor_size_lists L))
  else r ← np_first (tensor_size_lists L); Ok (np_sum r).

Definition block_size (L : layout) : res Z :=
  if 1 <? pp_size L then
    r ← np_first (tensor_size_lists L); Ok (u64 (np_sum r * num_hidden_layers L))
  else Ok (np_sum (tensor_size_lists L)).

(** ** [SharedIndexerKVCacheLayout] *)

Definition _ghost_segment (slot_size : Z) : KVCacheSegment := Segment 0 slot_size 0 0.

Definition _real_segment (ptr copy_size block_stride buffer_size : Z) : KVCacheSegment :=
  Segment ptr copy_size block_stride buffer_size.

Definition _whole_tensor_segment (t : KVCacheTensorInfo) : KVCacheSegment :=
  Segment (ti_ptr t) (ti_bytes_per_block t) (ti_bytes_per_block t) (ti_buffer_size t).

Definition _validate_uniform_sizes (values : list Z) (description : string) : res Z :=
  match merge_sort Z.le (remove_dups values) with
  | [v] => Ok v
  | _ => Raise (ValueError description)
  end.

Inductive cache_role := Attention | Indexer.

#[export] Instance cache_role_eq_dec : EqDecision cache_role.
Proof. solve_decision. Defined.

(** Layer names are dotted ASCII paths: the components after the first ["layers"] followed by a number. *)
Fixpoint after_layer (path_components : list string) : option (list string) :=
  match path_components with
  | component :: rest =>
      match rest with
      | next :: rest' =>
          if String.eqb component "layers" && isdigit next then Some rest'
          else after_layer rest
      | [] => None
      end
  | [] => None
  end.

(** The pattern [(?:^|\.)indexer(?:\.|$)] matches a whole component. *)
Definition _cuda_cache_role (layer_name : string) : cache_role :=
  let path_components := filter (λ c, c ≠ EmptyString) (split_on "." (lower layer_name)) in
  let path_components := default path_components (after_layer path_components) in
  if bool_decide ("indexer" ∈ path_components) then Indexer else Attention.

Definition cuda_tensor_info (component : tensor) : res KVCacheTensorInfo :=
  s0 ← py_index (t_stride component) 0;
  let bytes_per_block := s0 * t_element_size component in
  let payload_size := prod (py_from (t_shape component) 1) * t_element_size component in
  if decide (bytes_per_block ≠ payload_size)
  then Raise (ValueError "CUDA Shared Indexer KV cache requires contiguous blocks")
  else
    n ← py_index (t_shape component) 0;
    Ok (TensorInfo (t_data_ptr component) bytes_per_block (n * bytes_per_block)).

(** The cuda layout calls tensor methods on every entry, which a tuple lacks. *)
Definition _cuda_tensor_infos (kv : kv_layer) (role : cache_role) :
    res (list KVCacheTensorInfo) :=
  match kv with
  | KVTensor t =>
      if t_dim t =? 5 then
        n ← py_index (t_shape t) 0;
        if bool_decide (role ≠ Attention) || negb (n =? 2)
        then Raise (ValueError "CUDA 5D combined KV cache")
        else
          t0 ← tensor_index t 0; t1 ← tensor_index t 1;
          map_res cuda_tensor_info [t0; t1]
      else map_res cuda_tensor_info [t]
  | _ => Raise AttributeError
  end.

Inductive layout_mode := BF16 | LI_C8 | MIXED.

(** The row of one layer in [_build_segment_rows]. *)
Definition segment_row (mode : layout_mode) (indexer_size index_chunk_size scale_size : Z)
    (layer : SharedIndexerLayerInfo) : res (list KVCacheSegment) :=
  let segments := _whole_tensor_segment <$> li_sfa_tensors layer in
  match mode, li_indexer layer, li_scale layer with
  | BF16, Some indexer, _ => Ok (segments ++ [_whole_tensor_segment indexer])
  | BF16, None, _ => Ok (segments ++ [_ghost_segment indexer_size])
  | LI_C8, Some indexer, Some scale =>
      Ok (segments ++ [_whole_tensor_segment indexer; _whole_tensor_segment scale])
  | LI_C8, _, None =>
      Ok (segments ++ [_ghost_segment index_chunk_size; _ghost_segment scale_size])
  | MIXED, Some indexer, Some scale =>
      Ok (segments ++
          [_real_segment (ti_ptr indexer) index_chunk_size (ti_bytes_per_block indexer)
             (ti_buffer_size indexer);
           _ghost_segment index_chunk_size;
           _whole_tensor_segment scale])
  | MIXED, Some indexer, None =>
      if decide (ti_bytes_per_block indexer ≠ 2 * index_chunk_size)
      then Raise (ValueError "Cannot split BF16 Indexer tensor into two C8-sized segments")
      else
        Ok (segments ++
            [_real_segment (ti_ptr indexer) index_chunk_size (ti_bytes_per_block indexer)
               (ti_buffer_size indexer);
             _real_segment (ti_ptr indexer + index_chunk_size) index_chunk_size
               (ti_bytes_per_block indexer) 0;
             _ghost_segment scale_size])
  | MIXED, None, None =>
      Ok (segments ++
          [_ghost_segment index_chunk_size; _ghost_segment index_chunk_size;
           _ghost_segment scale_size])
  | _, None, Some _ => Raise AttributeError
  end.

Definition _build_segment_rows (mode : layout_mode)
    (indexer_size index_chunk_size scale_size : Z) (layers : list SharedIndexerLayerInfo) :
    res (list (list KVCacheSegment)) :=
  map_res (segment_row mode indexer_size index_chunk_size scale_size) layers.

(** [_set_segment_rows]: [(base_ptrs, tensor_size_lists, block_stride_lists,
    buffer_sizes)] *)
Definition _set_segment_rows (rows : list (list KVCacheSegment)) :
    res (nparr * nparr * nparr * nparr) :=
  let attr (f : KVCacheSegment → Z) :=
    np_matrix ((λ row : list KVCacheSegment, f <$> row) <$> rows) in
  bp ← attr sg_ptr; ts ← attr sg_copy_size; st ← attr sg_block_stride;
  bs ← attr sg_buffer_size;
  Ok (bp, ts, st, bs).

Definition cuda_slots : Type := option (list KVCacheTensorInfo) * option (list KVCacheTensorInfo).

(** One iteration of the collection loop of [_build_cuda_layout]. *)
Definition cuda_collect_step (ids : dict string Z) (layer_tensors : dict Z cuda_slots)
    (kv : string * kv_layer) : res (dict Z cuda_slots) :=
  layer_id ← dict_index kv.1 ids;
  let '(attention, indexer) := dict_get_default layer_id (None, None) layer_tensors in
  match _cuda_cache_role kv.1 with
  | Attention =>
      match attention with
      | Some _ => Raise (ValueError "Duplicate CUDA Shared Indexer cache")
      | None => infos ← _cuda_tensor_infos kv.2 Attention;
                Ok (dict_set layer_id (Some infos, indexer) layer_tensors)
      end
  | Indexer =>
      match indexer with
      | Some _ => Raise (ValueError "Duplicate CUDA Shared Indexer cache")
      | None => infos ← _cuda_tensor_infos kv.2 Indexer;
                Ok (dict_set layer_id (attention, Some infos) layer_tensors)
      end
  end.

Definition cuda_layer_info (layer_tensors : dict Z cuda_slots) (layer_id : Z) :
    res SharedIndexerLayerInfo :=
  '(attention, indexer_tensors) ← dict_index layer_id layer_tensors;
  match attention with
  | None => Raise (ValueError "CUDA Shared Indexer KV cache layer has no Attention tensor")
  | Some attention =>
      match indexer_tensors with
      | None => Ok (LayerInfo (Some layer_id) attention None None)
      | Some [t] => Ok (LayerInfo (Some layer_id) attention (Some t) None)
      | Some _ => Raise (ValueError "CUDA Shared Indexer layer must have one Indexer tensor")
      end
  end.

Definition sfa_sizes (layer : SharedIndexerLayerInfo) : list Z :=
  ti_bytes_per_block <$> li_sfa_tensors layer.

(** The layers of [_build_cuda_layout], by increasing layer id. *)
Definition cuda_layers (ids : dict string Z) (kvcaches : dict string kv_layer) :
    res (Z * list SharedIndexerLayerInfo) :=
  layer_tensors ← fold_res (cuda_collect_step ids) [] kvcaches;
  let row_layer_ids := merge_sort Z.le layer_tensors.*1 in
  first ← py_index row_layer_ids 0;
  layers ← map_res (cuda_layer_info layer_tensors) row_layer_ids;
  Ok (first, layers).

Definition cuda_segment_rows (layers : list SharedIndexerLayerInfo) :
    res (list (list KVCacheSegment)) :=
  l0 ← py_index layers 0;
  let attention_sizes := sfa_sizes l0 in
  if decide (Exists (λ l, sfa_sizes l ≠ attention_sizes) (py_from layers 1))
  then Raise (ValueError "CUDA Shared Indexer layers must have the same Attention slots")
  else
    let indexers := omap li_indexer layers in
    match indexers with
    | [] => Raise (ValueError "did not find any independent Indexer layer")
    | _ :: _ =>
        indexer_size ← _validate_uniform_sizes (ti_bytes_per_block <$> indexers)
                         "CUDA Indexer block size";
        _build_segment_rows BF16 indexer_size 0 0 layers
    end.

Definition _build_cuda_layout (c : layout_conf) (ids : dict string Z)
    (kvcaches : dict string kv_layer) : res layout :=
  '(first, layers) ← cuda_layers ids kvcaches;
  rows ← cuda_segment_rows layers;
  '(bp, ts, st, bs) ← _set_segment_rows rows;
  Ok (mk_layout c ids first bp bs ts st).

(** [LayerInfo] of one row of [_build_ascend_layout]. *)
Definition ascend_layer_info (base_tensor_count max_extra_count : Z)
    (row : option Z * list KVCacheTensorInfo) : res SharedIndexerLayerInfo :=
  let extras := py_from row.2 base_tensor_count in
  if max_extra_count <? zlen extras
  then Raise (ValueError "Unsupported Shared Indexer tensors after the SFA cache")
  else
    Ok (LayerInfo row.1 (py_upto row.2 base_tensor_count) (extras !! 0%nat)
          (if zlen extras =? 2 then extras !! 1%nat else None)).

Definition ascend_layers (c : layout_conf) (row_layer_ids : list (option Z))
    (tensor_rows : list (list KVCacheTensorInfo)) : res (list SharedIndexerLayerInfo) :=
  match tensor_rows with
  | [] | [] :: _ => Raise (ValueError "KV cache layout must contain at least one tensor")
  | row0 :: _ =>
      let base_tensor_count := if lc_sfa_c8 c then 1 else 2 in
      let base row := ti_bytes_per_block <$> py_upto row base_tensor_count in
      if negb (zlen (base row0) =? base_tensor_count)
      then Raise (ValueError "The first Shared Indexer layer has no SFA base tensor.")
      else if decide (Exists (λ row, base row ≠ base row0) tensor_rows)
      then Raise (ValueError "Shared Indexer layers must have identical SFA base tensors")
      else
        map_res (ascend_layer_info base_tensor_count (if lc_li_c8 c then 2 else 1))
          (zip row_layer_ids tensor_rows)
  end.

Definition c8_layer (l : SharedIndexerLayerInfo) : option (KVCacheTensorInfo * KVCacheTensorInfo) :=
  match li_indexer l, li_scale l with
  | Some i, Some s => Some (i, s)
  | _, _ => None
  end.

Definition bf16_layer (l : SharedIndexerLayerInfo) : option KVCacheTensorInfo :=
  match li_indexer l, li_scale l with
  | Some i, None => Some i
  | _, _ => None
  end.

Definition ascend_segment_rows (layers : list SharedIndexerLayerInfo) :
    res (list (list KVCacheSegment)) :=
  let c8_layers := omap c8_layer layers in
  let bf16_layers := omap bf16_layer layers in
  let sizes := fmap ti_bytes_per_block in
  match c8_layers, bf16_layers with
  | [], [] => Raise (ValueError "did not find any full Indexer layer")
  | [], _ :: _ =>
      indexer_size ← _validate_uniform_sizes (sizes bf16_layers) "BF16 Indexer block size";
      _build_segment_rows BF16 indexer_size 0 0 layers
  | _ :: _, _ =>
      index_chunk_size ← _validate_uniform_sizes (sizes c8_layers.*1) "C8 Indexer block size";
      scale_size ← _validate_uniform_sizes (sizes c8_layers.*2) "LI C8 scale block size";
      _build_segment_rows (match bf16_layers with [] => LI_C8 | _ :: _ => MIXED end)
        0 index_chunk_size scale_size layers
  end.

Definition _build_ascend_layout (c : layout_conf) (ids : dict string Z) (first : Z)
    (kvcaches : dict string kv_layer) : res layout :=
  '(tensor_rows, row_layer_ids) ← _collect_tensor_rows ids first kvcaches;
  layers ← ascend_layers c row_layer_ids tensor_rows;
  rows ← ascend_segment_rows layers;
  '(bp, ts, st, bs) ← _set_segment_rows rows;
  Ok (mk_layout c ids first bp bs ts st).

(** [SharedIndexerKVCacheLayout.__init__], with its [_build_layout] dispatch. *)
Definition SharedIndexerKVCacheLayout (extract_layer_index : string → res Z)
    (c : layout_conf) (kvcaches : dict string kv_layer) : res layout :=
  '(ids, first) ← init_layout extract_layer_index c kvcaches;
  if negb (lc_use_layerwise c) then _build_layout c ids first kvcaches
  else if lc_is_cuda c then _build_cuda_layout c ids kvcaches
  else _build_ascend_layout c ids first kvcaches.

(** [_has_shared_indexer_layers] and [supports]; [None] stands for an absent or
    non-sequence [indexer_types], and a [None] item for a non-string. *)
Definition _has_shared_indexer_layers (indexer_types : option (list (option string))) : bool :=
  match indexer_types with
  | None => false
  | Some l => existsb (λ o, match o with Some s => String.eqb (lower s) "shared" | None => false end) l
  end.

Definition supports (use_layerwise : bool) (device_type : string)
    (indexer_types : option (list (option string))) : bool :=
  use_layerwise && (String.eqb device_type "npu" || String.eqb device_type "cuda") &&
  _has_shared_indexer_layers indexer_types.
