(* ===== verification/KVLayoutProps.v ===== *)
(** * What the KV cache layouts guarantee

    Lemmas and properties of [KVLayout]: the shape invariant of the arrays, the
    block addresses, the rows of the generic and of the shared-indexer layouts. *)
From S2P Require Import Prelude KVLayout.
From Stdlib Require Import Ascii.
Open Scope Z_scope.

(** The shape of the four arrays: vectors of one length in direct mode; in
    layerwise mode matrices of one shape whose rows have the same copy sizes. *)
Definition same_shape (a b : list (list Z)) : Prop := Forall2 (λ r s, length r = length s) a b.

Definition layout_ok (L : layout) : Prop :=
  if lay_use_layerwise L then
    ∃ bp bs ts st sizes, base_ptrs L = Arr2 bp ∧ buffer_sizes L = Arr2 bs ∧
      tensor_size_lists L = Arr2 ts ∧ block_stride_lists L = Arr2 st ∧
      same_shape bp ts ∧ same_shape bs ts ∧ same_shape st ts ∧
      ts ≠ [] ∧ Forall (λ r, r = sizes) ts
  else
    ∃ bp bs ts, base_ptrs L = Arr1 bp ∧ buffer_sizes L = Arr1 bs ∧
      tensor_size_lists L = Arr1 ts ∧ block_stride_lists L = Arr1 ts ∧
      length bp = length ts ∧ length bs = length ts.

Lemma np_matrix_Ok rows a :
  np_matrix rows = Ok a → a = Arr2 ((λ r : list Z, u64 <$> r) <$> rows).
Proof. unfold np_matrix. case_decide; naive_solver. Qed.

Lemma np_matrix_uniform rows n :
  Forall (λ r, length r = n) rows → np_matrix rows = Ok (Arr2 ((λ r : list Z, u64 <$> r) <$> rows)).
Proof.
  intros Hn. unfold np_matrix. rw decide_True //. destruct rows as [|r rows]; [constructor|].
  simpl. pose proof (Forall_inv Hn) as Hr. simpl in Hr. by rw Hr.
Qed.

Lemma fmap_same_shape {A} (f g : A → Z) (rows : list (list A)) :
  same_shape ((λ r : list Z, u64 <$> r) <$> ((λ r : list A, f <$> r) <$> rows))
             ((λ r : list Z, u64 <$> r) <$> ((λ r : list A, g <$> r) <$> rows)).
Proof.
  induction rows; constructor; [by rw !length_fmap|done].
Qed.

Lemma concat_fmap {A B} (f : A → B) (rows : list (list A)) :
  concat ((λ r : list A, f <$> r) <$> rows) = f <$> concat rows.
Proof. induction rows as [|r rows IH]; csimpl; [done|]. by rw fmap_app IH. Qed.

Lemma build_arrays_ok c ids first rows bp bs ts :
  build_arrays (lc_use_layerwise c) rows = Ok (bp, bs, ts) →
  layout_ok (mk_layout c ids first bp bs ts ts).
Proof.
  unfold build_arrays, layout_ok. destruct c as [lw ? ? ? ? ? ?]; simpl.
  destruct lw; simpl; intros Hb.
  - destruct rows as [|[|t row] rows]; [done..|]. case_decide as Hex; [done|].
    res_inv Hb. res_inv Hb. res_inv Hb. simplify_eq.
    apply np_matrix_Ok in Hx as ->. apply np_matrix_Ok in Hx0 as ->. apply np_matrix_Ok in Hx1 as ->.
    eexists _, _, _, _, (u64 <$> (ti_bytes_per_block <$> t :: row)).
    do 4 (split; [reflexivity|]). split_and!; [apply fmap_same_shape..|done|].
    apply not_Exists_Forall in Hex; [|intros ?; apply _].
    apply Forall_fmap. eapply Forall_impl; [exact Hex|]. intros r Hr. simpl in *.
    destruct (decide (r = ti_bytes_per_block t :: (ti_bytes_per_block <$> row))) as [->|]; done.
  - simplify_eq. eexists _, _, _. do 4 (split; [reflexivity|]).
    by rw !length_fmap !concat_fmap !length_fmap.
Qed.

(** ** Rows of the generic layout *)

(** The row an entry of [kv_caches] is collected into. *)
Definition row_index (ids : dict string Z) (first : Z) (num_rows : nat) (name : string) : Z :=
  let local_layer_id := dict_get_default name 0 ids - first in
  if local_layer_id <? 0 then local_layer_id + Z.of_nat num_rows else local_layer_id.

(** The tensors of an entry, none when it is refused. *)
Definition infos_of (kv : string * kv_layer) : list KVCacheTensorInfo :=
  match layer_infos kv.2 with Ok infos => infos | Raise _ => [] end.

Definition row_infos (ids : dict string Z) (first : Z) (n r : nat) (kvcaches : dict string kv_layer) :
    list KVCacheTensorInfo :=
  concat (infos_of <$> filter (λ kv, row_index ids first n kv.1 = Z.of_nat r) kvcaches).

Lemma py_alter_Ok {A} (f : A → A) l i k :
  py_alter f l i = Ok k →
  let j := if i <? 0 then i + zlen l else i in
  0 ≤ j < zlen l ∧ k = alter f (Z.to_nat j) l.
Proof.
  unfold py_alter. set (j := if i <? 0 then _ else _). simpl.
  destruct (j <? 0) eqn:E1; simpl; [done|]. destruct (zlen l <=? j) eqn:E2; [done|].
  intros [= <-]. split; [lia|done].
Qed.

Lemma concat_alter_app {A} (rows : list (list A)) j x :
  (j < length rows)%nat → concat (alter (λ r, r ++ x) j rows) ≡ₚ concat rows ++ x.
Proof.
  revert j. induction rows as [|r rows IH]; intros [|j] Hj; simpl in *; [lia..| |].
  - change (alter (λ r, r ++ x) 0%nat (r :: rows)) with ((r ++ x) :: rows). simpl.
    rw -!app_assoc. f_equiv. apply Permutation_app_comm.
  - change (alter (λ r, r ++ x) (S j) (r :: rows)) with (r :: alter (λ r, r ++ x) j rows). simpl.
    rw IH; [by rw app_assoc|lia].
Qed.

Lemma collect_fold ids first kvcaches : ∀ rows0 rids0 rows rids,
  length rids0 = length rows0 →
  fold_res (collect_step ids first) (rows0, rids0) kvcaches = Ok (rows, rids) →
  length rows = length rows0 ∧ length rids = length rows0 ∧
  (∀ r, (r < length rows0)%nat → rows !! r =
     Some (default [] (rows0 !! r) ++ row_infos ids first (length rows0) r kvcaches)) ∧
  concat rows ≡ₚ concat rows0 ++ concat (infos_of <$> kvcaches) ∧
  Forall (λ kv, is_ok (layer_infos kv.2)) kvcaches.
Proof.
  induction kvcaches as [|[name kv] kvcaches IH]; intros rows0 rids0 rows rids Hlen Hf; simpl in Hf.
  { simplify_eq. split_and!; [done..| |simpl; by rw app_nil_r|constructor].
    intros r Hr. apply lookup_lt_is_Some in Hr as [row ->]. unfold row_infos. simpl. by rw app_nil_r. }
  res_inv Hf. unfold collect_step in Hx. simpl in Hx.
  res_inv Hx. rename x0 into id, Hx0 into Hid. res_inv Hx. rename x0 into rids1, Hx0 into Hr1.
  res_inv Hx. rename x0 into infos, Hx0 into Hinf. res_inv Hx. rename x0 into rows1, Hx0 into Hrows.
  simplify_eq. apply py_alter_Ok in Hr1 as [_ ->]. apply py_alter_Ok in Hrows as [Hj ->].
  apply IH in Hf as (Hl1 & Hl2 & Hrow & Hperm & Hall); [|by rw !length_alter].
  rewrite -> !length_alter in *.
  unfold zlen in *.
  set (j := if id - first <? 0 then id - first + Z.of_nat (length rows0) else id - first) in *.
  assert (Hri : row_index ids first (length rows0) name = j).
  { unfold row_index, dict_get_default. unfold dict_index in Hid.
    destruct (dict_get name ids); by simplify_eq/=. }
  assert (Hinfo : infos_of (name, kv) = infos) by (unfold infos_of; simpl; by rw Hinf).
  split_and!; [done..| | |].
  - intros r Hr. rw Hrow //. unfold row_infos. rw filter_cons. simpl. rw Hri.
    f_equal. case_decide as Hd.
    + rewrite -> Hd, Nat2Z.id, list_lookup_alter_eq. csimpl. rw Hinfo.
      apply lookup_lt_is_Some in Hr as [row ->]. simpl. by rw app_assoc.
    + rw list_lookup_alter_ne //. lia.
  - csimpl. rw Hperm concat_alter_app; [|lia]. by rw Hinfo -app_assoc.
  - constructor; [by rw Hinf|done].
Qed.

(** ** Rows of the shared-indexer layouts *)

Lemma validate_uniform values d v :
  _validate_uniform_sizes values d = Ok v → Forall (λ x, x = v) values.
Proof.
  unfold _validate_uniform_sizes. pose proof (merge_sort_Permutation Z.le (remove_dups values)) as Hp.
  destruct (merge_sort Z.le (remove_dups values)) as [|y [|z l]]; [done| |done].
  intros [= ->]. apply Forall_forall. intros x Hx. apply elem_of_remove_dups in Hx.
  rewrite <- Hp in Hx. by apply list_elem_of_singleton in Hx.
Qed.

(** The copy sizes of the slots after the attention tensors. *)
Definition extra_sizes (mode : layout_mode) (isz icz ssz : Z) : list Z :=
  match mode with
  | BF16 => [isz]
  | LI_C8 => [icz; ssz]
  | MIXED => [icz; icz; ssz]
  end.

Definition layer_fits (mode : layout_mode) (isz icz ssz : Z) (l : SharedIndexerLayerInfo) : Prop :=
  match mode, li_indexer l, li_scale l with
  | BF16, Some i, None => ti_bytes_per_block i = isz
  | LI_C8, Some i, Some s => ti_bytes_per_block i = icz ∧ ti_bytes_per_block s = ssz
  | MIXED, Some i, Some s => ti_bytes_per_block i = icz ∧ ti_bytes_per_block s = ssz
  | MIXED, Some i, None => True
  | _, None, None => True
  | _, _, _ => False
  end.

Lemma segment_row_sizes mode isz icz ssz l row :
  layer_fits mode isz icz ssz l →
  segment_row mode isz icz ssz l = Ok row →
  sg_copy_size <$> row = sfa_sizes l ++ extra_sizes mode isz icz ssz.
Proof.
  unfold layer_fits, segment_row, sfa_sizes. intros Hfit Hrow.
  assert (Hs : sg_copy_size <$> (_whole_tensor_segment <$> li_sfa_tensors l) =
               ti_bytes_per_block <$> li_sfa_tensors l).
  { rw -list_fmap_compose. by apply list_fmap_ext. }
  destruct mode, (li_indexer l) as [i|], (li_scale l) as [s|]; try done;
    repeat case_decide; simplify_eq; rw fmap_app Hs; simpl; destruct_and?; try done; congruence.
Qed.

(** The tensors of a layer. *)
Definition layer_tensors (l : SharedIndexerLayerInfo) : list KVCacheTensorInfo :=
  li_sfa_tensors l ++ option_list (li_indexer l) ++ option_list (li_scale l).

(** The segments that copy memory; the others have a zero stride. *)
Definition real_segments (row : list KVCacheSegment) : list KVCacheSegment :=
  filter (λ s, sg_block_stride s ≠ 0) row.

(** Tensor [t] contains segment [s]: same stride, and within the bytes of a block. *)
Definition segment_of (s : KVCacheSegment) (t : KVCacheTensorInfo) : Prop :=
  sg_block_stride s = ti_bytes_per_block t ∧ ti_ptr t ≤ sg_ptr s ∧
  sg_ptr s + sg_copy_size s ≤ ti_ptr t + ti_bytes_per_block t.

(** The real segments of [row] are exactly the bytes of the tensors [ts]. *)
Definition covers (row : list KVCacheSegment) (ts : list KVCacheTensorInfo) : Prop :=
  zsum (sg_copy_size <$> real_segments row) = zsum (ti_bytes_per_block <$> ts) ∧
  Forall (λ s, (sg_block_stride s = 0 ∧ sg_ptr s = 0) ∨ Exists (segment_of s) ts) row.

Lemma covers_app r1 r2 t1 t2 : covers r1 t1 → covers r2 t2 → covers (r1 ++ r2) (t1 ++ t2).
Proof.
  intros [Hz1 Hf1] [Hz2 Hf2]. split.
  - unfold real_segments in *. rw filter_app !fmap_app !zsum_app. lia.
  - apply Forall_app. split; (eapply Forall_impl; [eassumption|]); intros s [?|?];
      rw Exists_app; tauto.
Qed.

Lemma covers_nil : covers [] [].
Proof. by split. Qed.

Lemma covers_whole t row ts :
  0 < ti_bytes_per_block t → covers row ts → covers (_whole_tensor_segment t :: row) (t :: ts).
Proof.
  intros Ht Hc. apply (covers_app [_] row [t] ts); [|done]. split.
  - unfold real_segments. rw filter_cons. rewrite -> decide_True by (simpl; lia). simpl. lia.
  - constructor; [|constructor]. right. constructor. unfold segment_of. simpl. lia.
Qed.

Lemma covers_ghost n row ts : covers row ts → covers (_ghost_segment n :: row) ts.
Proof.
  intros [Hz Hf]. split.
  - unfold real_segments in *. rw filter_cons. rewrite -> decide_False by (simpl; lia). done.
  - constructor; [by left|done].
Qed.

Lemma covers_wholes ts :
  Forall (λ t, 0 < ti_bytes_per_block t) ts → covers (_whole_tensor_segment <$> ts) ts.
Proof. induction 1; csimpl; auto using covers_nil, covers_whole. Qed.

(** The head of a C8 indexer is the whole tensor. *)
Lemma covers_real_whole t icz row ts :
  0 < ti_bytes_per_block t → ti_bytes_per_block t = icz → covers row ts →
  covers (_real_segment (ti_ptr t) icz (ti_bytes_per_block t) (ti_buffer_size t) :: row) (t :: ts).
Proof. intros Ht <- Hc. by apply (covers_whole t). Qed.

(** The two halves of a BF16 indexer. *)
Lemma covers_halves t icz row ts :
  0 < ti_bytes_per_block t → ti_bytes_per_block t = 2 * icz → covers row ts →
  covers (_real_segment (ti_ptr t) icz (ti_bytes_per_block t) (ti_buffer_size t) ::
          _real_segment (ti_ptr t + icz) icz (ti_bytes_per_block t) 0 :: row) (t :: ts).
Proof.
  intros Ht Hicz Hc. apply (covers_app [_; _] row [t] ts); [|done]. split.
  - unfold real_segments. rewrite -> !filter_cons, !decide_True by (simpl; lia). simpl. lia.
  - constructor; [|constructor; [|constructor]]; right; constructor; unfold segment_of; simpl; lia.
Qed.

#[local] Hint Resolve covers_nil covers_whole covers_ghost covers_wholes covers_real_whole
  covers_halves : ucm.

Lemma segment_row_covers mode isz icz ssz l row :
  Forall (λ t, 0 < ti_bytes_per_block t) (layer_tensors l) →
  layer_fits mode isz icz ssz l →
  segment_row mode isz icz ssz l = Ok row →
  covers row (layer_tensors l).
Proof.
  unfold layer_tensors. rw !Forall_app. intros (Hsfa & Hi & Hsc) Hfit Hrow.
  unfold segment_row, layer_fits in *.
  destruct (li_indexer l) as [i|], (li_scale l) as [sc|]; simpl in *;
    rewrite -> ?Forall_cons in *; destruct mode; try done;
    repeat case_decide; simplify_eq; destruct_and?;
    (apply covers_app; [by apply covers_wholes|]); simpl; auto 6 with ucm lia.
Qed.

(** Rows built for layers that fit have one size vector and cover their tensors. *)
Lemma segment_rows_spec mode isz icz ssz sizes layers rows :
  Forall (layer_fits mode isz icz ssz) layers →
  Forall (λ l, sfa_sizes l = sizes) layers →
  _build_segment_rows mode isz icz ssz layers = Ok rows →
  Forall (λ r, sg_copy_size <$> r = sizes ++ extra_sizes mode isz icz ssz) rows ∧
  (Forall (λ l, Forall (λ t, 0 < ti_bytes_per_block t) (layer_tensors l)) layers →
   Forall2 (λ row l, covers row (layer_tensors l)) rows layers).
Proof.
  unfold _build_segment_rows. rw map_res_Forall2. intros Hfit Hsz Hrows.
  induction Hrows as [|l row layers rows Hrow Hrows IH]; [split; constructor|].
  apply Forall_cons in Hfit as [Hfit Hfits]. apply Forall_cons in Hsz as [Hsz Hszs].
  destruct (IH Hfits Hszs) as [IHs IHc]. split.
  - constructor; [|done]. by rewrite -> (segment_row_sizes _ _ _ _ _ _ Hfit Hrow), Hsz.
  - intros [Hp Hps]%Forall_cons. constructor; [|by apply IHc]. by eapply segment_row_covers.
Qed.

(** What both platform-specific collections guarantee of the layers they hand
    to the row builder. *)
Definition layers_ok (layers : list SharedIndexerLayerInfo) : Prop :=
  layers ≠ [] ∧ Forall (λ l, is_Some (li_scale l) → is_Some (li_indexer l)) layers.

Lemma map_res_fmap {A B C} (f : A → res B) (g : B → C) (h : A → C) l k :
  (∀ x y, f x = Ok y → g y = h x) → map_res f l = Ok k → g <$> k = h <$> l.
Proof.
  intros Hf Hk. apply map_res_Forall2 in Hk.
  induction Hk as [|x y l k Hxy Hk IH]; csimpl; [done|]. by rewrite -> (Hf x y Hxy), IH.
Qed.

Lemma map_res_Forall {A B} (f : A → res B) (P : B → Prop) l k :
  (∀ x y, f x = Ok y → P y) → map_res f l = Ok k → Forall P k.
Proof. intros Hf Hk. apply map_res_Forall2 in Hk. induction Hk; eauto. Qed.

Lemma ascend_layers_spec c rids rows layers :
  length rids = length rows → ascend_layers c rids rows = Ok layers →
  layers_ok layers ∧ ∃ sizes, Forall (λ l, sfa_sizes l = sizes) layers.
Proof.
  intros Hlen. unfold ascend_layers. destruct rows as [|[|t row0] rows]; [done..|].
  set (n := if lc_sfa_c8 c then 1 else 2). set (m := if lc_li_c8 c then 2 else 1).
  case_match; [done|]. case_decide as Hex; [done|]. intros Hm.
  set (rows' := (t :: row0) :: rows) in *.
  assert (Hinfo : ∀ x y, ascend_layer_info n m x = Ok y →
    (is_Some (li_scale y) → is_Some (li_indexer y)) ∧ li_sfa_tensors y = py_upto x.2 n).
  { intros [id row] y. unfold ascend_layer_info. case_match; [done|]. intros [= <-]. simpl.
    split; [|done]. destruct (py_from row n); [|done]. by destruct (zlen [] =? 2). }
  split.
  - split.
    + pose proof (map_res_length _ _ _ Hm) as Hl. intros ->. revert Hl.
      rewrite -> length_zip_with. unfold rows' in *. simpl in *. lia.
    + eapply map_res_Forall; [|exact Hm]. intros x y Hxy. by apply Hinfo in Hxy as [? _].
  - exists (ti_bytes_per_block <$> py_upto (t :: row0) n).
    apply not_Exists_Forall in Hex; [|intros ?; apply _].
    assert (Hf : sfa_sizes <$> layers = (λ x : option Z * _, ti_bytes_per_block <$> py_upto x.2 n) <$> zip rids rows').
    { eapply map_res_fmap; [|exact Hm]. intros x y Hxy. apply Hinfo in Hxy as [_ Hxy].
      unfold sfa_sizes. by rw Hxy. }
    rewrite -> Forall_forall in Hex. apply Forall_forall. intros l Hl.
    assert (Hin : sfa_sizes l ∈ sfa_sizes <$> layers) by (apply list_elem_of_fmap; eauto).
    rewrite -> Hf in Hin. apply list_elem_of_fmap in Hin as ([id row] & -> & Hin).
    apply elem_of_zip_r in Hin. specialize (Hex _ Hin). simpl in *.
    by destruct (decide (ti_bytes_per_block <$> py_upto row n = ti_bytes_per_block <$> py_upto (t :: row0) n)).
Qed.

Lemma cuda_layers_spec ids kvcaches first layers :
  cuda_layers ids kvcaches = Ok (first, layers) → layers_ok layers ∧ Forall (λ l, li_scale l = None) layers.
Proof.
  unfold cuda_layers. intros H. res_inv H. res_inv H. res_inv H. simplify_eq.
  assert (Hn : Forall (λ l, li_scale l = None) layers).
  { eapply map_res_Forall; [|exact Hx1]. intros i l Hl. unfold cuda_layer_info in Hl.
    res_inv Hl. destruct x0 as [[att|] ind]; [|done].
    destruct ind as [[|i0 [|]]|]; by simplify_eq. }
  split; [split|done].
  - intros ->. apply map_res_length in Hx1. destruct (merge_sort Z.le x.*1); [|done].
    unfold py_index in Hx0. simpl in Hx0. done.
  - eapply Forall_impl; [exact Hn|]. intros l Hl [? Hs]. simpl in *. congruence.
Qed.

Lemma omap_Forall {A B} (f : A → option B) (P : B → Prop) l x y :
  Forall P (omap f l) → x ∈ l → f x = Some y → P y.
Proof.
  intros Hall Hx Hy. rewrite -> Forall_forall in Hall. apply Hall. apply list_elem_of_omap. eauto.
Qed.

Lemma cuda_segment_rows_fits layers rows :
  Forall (λ l, li_scale l = None) layers → cuda_segment_rows layers = Ok rows →
  ∃ isz sizes, _build_segment_rows BF16 isz 0 0 layers = Ok rows ∧
    Forall (layer_fits BF16 isz 0 0) layers ∧ Forall (λ l, sfa_sizes l = sizes) layers.
Proof.
  unfold cuda_segment_rows. intros Hn H. res_inv H. rename x into l0.
  case_decide as Hex; [done|]. destruct (omap li_indexer layers) as [|i0 inds] eqn:Ei; [done|].
  res_inv H. rename x into isz. exists isz, (sfa_sizes l0). split; [done|]. split.
  - apply validate_uniform in Hx0. rewrite <- Ei in Hx0. apply Forall_fmap in Hx0.
    rewrite -> Forall_forall in Hn |- *. intros l Hl. unfold layer_fits. rewrite -> (Hn _ Hl).
    destruct (li_indexer l) as [i|] eqn:El; [|done].
    exact (omap_Forall _ _ _ _ _ Hx0 Hl El).
  - destruct layers as [|l layers]; [done|]. unfold py_index in Hx. simpl in Hx. simplify_eq.
    apply not_Exists_Forall in Hex; [|intros ?; apply _].
    rewrite -> py_from_pos in Hex by lia. simpl in Hex. rewrite -> drop_0 in Hex.
    constructor; [done|]. eapply Forall_impl; [exact Hex|]. simpl. intros l' Hl'.
    by destruct (decide (sfa_sizes l' = sfa_sizes l0)).
Qed.

Lemma ascend_segment_rows_fits layers rows :
  layers_ok layers → ascend_segment_rows layers = Ok rows →
  ∃ mode isz icz ssz, _build_segment_rows mode isz icz ssz layers = Ok rows ∧
    Forall (layer_fits mode isz icz ssz) layers.
Proof.
  unfold ascend_segment_rows. intros [_ Hok] H.
  destruct (omap c8_layer layers) as [|c c8s] eqn:Ec.
  - destruct (omap bf16_layer layers) as [|b bfs] eqn:Eb; [done|]. res_inv H.
    rename x into isz. exists BF16, isz, 0, 0. split; [done|].
    apply validate_uniform in Hx. rewrite <- Eb in Hx. apply Forall_fmap in Hx.
    rewrite -> Forall_forall in Hok |- *. intros l Hl. specialize (Hok l Hl).
    unfold layer_fits. destruct (li_indexer l) as [i|] eqn:Ei, (li_scale l) as [s|] eqn:Es.
    + assert (Hc : c8_layer l = Some (i, s)) by (unfold c8_layer; by rw Ei Es).
      assert (Hin : (i, s) ∈ omap c8_layer layers) by (apply list_elem_of_omap; eauto).
      rewrite -> Ec in Hin. by apply elem_of_nil in Hin.
    + refine (omap_Forall bf16_layer _ _ l i Hx Hl _). unfold bf16_layer. by rw Ei Es.
    + destruct Hok as [? ?]; eauto; done.
    + done.
  - set (mode := match omap bf16_layer layers with [] => LI_C8 | _ => MIXED end) in *.
    res_inv H. res_inv H. rename x into icz, x0 into ssz. exists mode, 0, icz, ssz. split; [done|].
    apply validate_uniform in Hx, Hx0. rewrite <- Ec in Hx, Hx0.
    rewrite -> Forall_fmap, Forall_fmap in Hx, Hx0.
    rewrite -> Forall_forall in Hok |- *. intros l Hl. specialize (Hok l Hl).
    unfold layer_fits. destruct (li_indexer l) as [i|] eqn:Ei, (li_scale l) as [s|] eqn:Es.
    + assert (Hc : c8_layer l = Some (i, s)) by (unfold c8_layer; by rw Ei Es).
      pose proof (omap_Forall _ _ _ _ _ Hx Hl Hc). pose proof (omap_Forall _ _ _ _ _ Hx0 Hl Hc).
      simpl in *. unfold mode. by destruct (omap bf16_layer layers).
    + assert (Hin : i ∈ omap bf16_layer layers).
      { apply list_elem_of_omap. exists l. split; [done|]. unfold bf16_layer. by rw Ei Es. }
      unfold mode. destruct (omap bf16_layer layers); [by apply elem_of_nil in Hin|done].
    + destruct Hok as [? ?]; eauto; done.
    + unfold mode. by destruct (omap bf16_layer layers).
Qed.

Lemma set_segment_rows_ok rows sizes :
  Forall (λ r, sg_copy_size <$> r = sizes) rows →
  let attr (f : KVCacheSegment → Z) :=
    (λ r : list Z, u64 <$> r) <$> ((λ row : list KVCacheSegment, f <$> row) <$> rows) in
  _set_segment_rows rows = Ok (Arr2 (attr sg_ptr), Arr2 (attr sg_copy_size),
                               Arr2 (attr sg_block_stride), Arr2 (attr sg_buffer_size)) ∧
  Forall (λ r, r = u64 <$> sizes) (attr sg_copy_size).
Proof.
  intros Hs attr.
  assert (Hm : ∀ f, np_matrix ((λ row : list KVCacheSegment, f <$> row) <$> rows) = Ok (Arr2 (attr f))).
  { intros f. apply (np_matrix_uniform _ (length sizes)). apply Forall_fmap.
    eapply Forall_impl; [exact Hs|]. intros r <-. simpl. by rw !length_fmap. }
  split.
  - unfold _set_segment_rows. by rewrite !Hm.
  - unfold attr. rw !Forall_fmap. eapply Forall_impl; [exact Hs|]. by intros r <-.
Qed.

Lemma set_rows_layout_ok c ids first rows sizes bp ts st bs :
  lc_use_layerwise c = true → rows ≠ [] → Forall (λ r, sg_copy_size <$> r = sizes) rows →
  _set_segment_rows rows = Ok (bp, ts, st, bs) → layout_ok (mk_layout c ids first bp bs ts st).
Proof.
  intros Hlw Hne Hs. destruct (set_segment_rows_ok rows sizes Hs) as [-> Hu]. intros [= <- <- <- <-].
  unfold layout_ok. simpl. rw Hlw. eexists _, _, _, _, _. do 4 (split; [reflexivity|]).
  split_and!; [apply fmap_same_shape..| |exact Hu].
  destruct rows; [done|]. done.
Qed.

(** The two ways [SharedIndexerKVCacheLayout] describes a model's layers. *)
Definition shared_build (c : layout_conf) (ids : dict string Z) (first : Z)
    (kvcaches : dict string kv_layer) (layers : list SharedIndexerLayerInfo)
    (rows : list (list KVCacheSegment)) : Prop :=
  if lc_is_cuda c then
    ∃ first', cuda_layers ids kvcaches = Ok (first', layers) ∧ cuda_segment_rows layers = Ok rows
  else
    ∃ trows rids, _collect_tensor_rows ids first kvcaches = Ok (trows, rids) ∧
      ascend_layers c rids trows = Ok layers ∧ ascend_segment_rows layers = Ok rows.

Lemma collect_lengths ids first kvcaches trows rids :
  _collect_tensor_rows ids first kvcaches = Ok (trows, rids) → length rids = length trows.
Proof.
  intros Hc. apply collect_fold in Hc as (Hl1 & Hl2 & _); [congruence|]. by rw !length_replicate.
Qed.

Lemma shared_build_spec c ids first kvcaches layers rows :
  shared_build c ids first kvcaches layers rows →
  rows ≠ [] ∧
  ∃ slots, Forall (λ r, sg_copy_size <$> r = slots) rows ∧
  (Forall (λ l, Forall (λ t, 0 < ti_bytes_per_block t) (layer_tensors l)) layers →
   Forall2 (λ row l, covers row (layer_tensors l)) rows layers).
Proof.
  intros Hb.
  assert (∃ mode isz icz ssz sizes, layers ≠ [] ∧
    _build_segment_rows mode isz icz ssz layers = Ok rows ∧
    Forall (layer_fits mode isz icz ssz) layers ∧ Forall (λ l, sfa_sizes l = sizes) layers)
    as (mode & isz & icz & ssz & sizes & Hne & Hr & Hf & Hs).
  { unfold shared_build in Hb. destruct (lc_is_cuda c).
    - destruct Hb as (f & Hl & Hr). apply cuda_layers_spec in Hl as [[Hne _] Hn].
      destruct (cuda_segment_rows_fits _ _ Hn Hr) as (isz & sizes & ? & ? & ?).
      by exists BF16, isz, 0, 0, sizes.
    - destruct Hb as (trows & rids & Hcol & Hl & Hr). apply collect_lengths in Hcol.
      destruct (ascend_layers_spec _ _ _ _ Hcol Hl) as [Hok [sizes Hs]].
      destruct (ascend_segment_rows_fits _ _ Hok Hr) as (mode & isz & icz & ssz & ? & ?).
      exists mode, isz, icz, ssz, sizes. split; [by apply Hok|done]. }
  destruct (segment_rows_spec _ _ _ _ _ _ _ Hf Hs Hr) as [Hu Hc]. split; [|eauto].
  intros ->. apply map_res_length in Hr. by destruct layers.
Qed.

Lemma shared_layout_inv e c kvcaches L :
  SharedIndexerKVCacheLayout e c kvcaches = Ok L → lc_use_layerwise c = true →
  ∃ ids first0 first layers rows bp ts st bs,
    shared_build c ids first0 kvcaches layers rows ∧
    _set_segment_rows rows = Ok (bp, ts, st, bs) ∧ L = mk_layout c ids first bp bs ts st.
Proof.
  unfold SharedIndexerKVCacheLayout. intros H Hlw. res_inv H. destruct x as [ids first].
  rewrite -> Hlw in H. simpl in H. unfold shared_build. destruct (lc_is_cuda c).
  - unfold _build_cuda_layout in H. res_inv H. destruct x as [f layers]. res_inv H. res_inv H.
    destruct x0 as [[[bp ts] st] bs]. simplify_eq. naive_solver.
  - unfold _build_ascend_layout in H. res_inv H. destruct x as [trows rids]. res_inv H. res_inv H.
    res_inv H. destruct x1 as [[[bp ts] st] bs]. simplify_eq.
    exists ids, first, first, x, x0, bp, ts, st, bs. naive_solver.
Qed.

Lemma generic_layout_inv c ids first kvcaches L :
  _build_layout c ids first kvcaches = Ok L →
  ∃ rows rids bp bs ts, _collect_tensor_rows ids first kvcaches = Ok (rows, rids) ∧
    build_arrays (lc_use_layerwise c) rows = Ok (bp, bs, ts) ∧ L = mk_layout c ids first bp bs ts ts.
Proof.
  unfold _build_layout. intros H. res_inv H. destruct x as [rows rids]. res_inv H.
  destruct x as [[bp bs] ts]. simplify_eq. naive_solver.
Qed.

(** The layouts the connectors can hold. *)
Definition built (e : string → res Z) (c : layout_conf) (kvcaches : dict string kv_layer)
    (L : layout) : Prop :=
  KVCacheLayout e c kvcaches = Ok L ∨ SharedIndexerKVCacheLayout e c kvcaches = Ok L.

Lemma built_ok e c kvcaches L : built e c kvcaches L → layout_ok L.
Proof.
  intros [H|H].
  - unfold KVCacheLayout in H. res_inv H. destruct x as [ids first].
    apply generic_layout_inv in H as (? & ? & ? & ? & ? & ? & ? & ->). by eapply build_arrays_ok.
  - destruct (lc_use_layerwise c) eqn:Hlw.
    + destruct (shared_layout_inv _ _ _ _ H Hlw) as (ids & f0 & f & layers & rows & bp & ts & st & bs & Hb & Hs & ->).
      destruct (shared_build_spec _ _ _ _ _ _ Hb) as (Hne & slots & Hu & _).
      by eapply set_rows_layout_ok.
    + unfold SharedIndexerKVCacheLayout in H. res_inv H. destruct x as [ids first].
      rewrite -> Hlw in H. simpl in H.
      apply generic_layout_inv in H as (? & ? & ? & ? & ? & ? & ? & ->). by eapply build_arrays_ok.
Qed.

(** ** Addresses *)

(** [m[i][j]] *)
Definition at2 {A} (m : list (list A)) (i j : nat) : option A :=
  match m !! i with Some row => row !! j | None => None end.

(** Entry [(r, j)] of an array; a vector has the single row 0. *)
Definition arr_at (a : nparr) (r j : nat) : option Z :=
  match a with
  | Arr0 _ => None
  | Arr1 l => match r with O => l !! j | S _ => None end
  | Arr2 rows => at2 rows r j
  end.

(** The address of block [i] for tensor [j] of row [r]. *)
Definition addr_at (a : addrs) (layer_first : bool) (i r j : nat) : option Z :=
  match a with
  | Addr2 m => match r with O => at2 m i j | S _ => None end
  | Addr3 m =>
      match (if layer_first then at2 m r i else at2 m i r) with
      | Some row => row !! j
      | None => None
      end
  end.

Lemma zip_with_lookup {A B C} (f : A → B → C) l k i x y :
  l !! i = Some x → k !! i = Some y → zip_with f l k !! i = Some (f x y).
Proof. intros Hx Hy. rw lookup_zip_with Hx Hy //. Qed.

Lemma extract_addrs_spec L ids layer_first :
  layout_ok L → (layer_first = true → lay_use_layerwise L = true) →
  ∃ a, extract_block_addrs L ids layer_first = Ok a ∧
  ∀ i r j id s p, ids !! i = Some id →
    arr_at (block_stride_lists L) r j = Some s → arr_at (base_ptrs L) r j = Some p →
    addr_at a layer_first i r j = Some (block_addr s p id).
Proof.
  unfold layout_ok, extract_block_addrs. intros Hok Hlf.
  destruct (lay_use_layerwise L).
  - destruct Hok as (bp & bs & ts & st & sizes & Hbp & _ & _ & Hst & _). rw Hbp Hst. simpl.
    destruct layer_first; (eexists; split; [reflexivity|]); unfold arr_at, addr_at, at2; intros i r j id s p Hi Hs Hp;
      destruct (st !! r) as [srow|] eqn:Hsr; try done; destruct (bp !! r) as [prow|] eqn:Hpr; try done;
      simpl in *.
    + rewrite -> (zip_with_lookup _ _ _ _ _ _ Hsr Hpr). simpl. rewrite -> list_lookup_fmap, Hi. simpl.
      by apply (zip_with_lookup (λ s p, block_addr s p id)).
    + rewrite -> list_lookup_fmap, Hi. simpl. rewrite -> (zip_with_lookup _ _ _ _ _ _ Hsr Hpr). simpl.
      by apply (zip_with_lookup (λ s p, block_addr s p id)).
  - destruct Hok as (bp & bs & ts & Hbp & _ & _ & Hst & _). rw Hbp Hst. simpl.
    destruct layer_first; [by specialize (Hlf eq_refl)|].
    eexists; split; [reflexivity|]; unfold arr_at, addr_at, at2; intros i [|r] j id s p Hi Hs Hp; try done.
    rewrite -> list_lookup_fmap, Hi. simpl. by apply (zip_with_lookup (λ s p, block_addr s p id)).
Qed.

Lemma block_addr_exact s p b id :
  0 ≤ p → 0 < s → p + b < 2 ^ 64 → 0 ≤ id → (id + 1) * s ≤ b → block_addr s p id = p + id * s.
Proof.
  intros Hp Hs Hb Hid Hfit. unfold block_addr, u64.
  rewrite -> (Z.mod_small id) by nia. rewrite -> (Z.mod_small (id * s)) by nia.
  rewrite -> Z.mod_small by nia. lia.
Qed.

(** A tensor whose buffer lies in the 64-bit address space. *)
Definition fits (t : KVCacheTensorInfo) : Prop :=
  0 ≤ ti_ptr t ∧ 0 < ti_bytes_per_block t ∧ 0 ≤ ti_buffer_size t ∧
  ti_bytes_per_block t < 2 ^ 64 ∧ ti_ptr t + ti_buffer_size t < 2 ^ 64.

(** Every entry of the arrays of a generic layout is a collected tensor. *)
Lemma build_arrays_entry lw rows bp bs ts r j s :
  build_arrays lw rows = Ok (bp, bs, ts) → arr_at ts r j = Some s →
  ∃ t, t ∈ concat rows ∧ s = u64 (ti_bytes_per_block t) ∧
       arr_at bp r j = Some (u64 (ti_ptr t)) ∧ arr_at bs r j = Some (u64 (ti_buffer_size t)).
Proof.
  unfold build_arrays. destruct lw; simpl; intros Hb Hs.
  - destruct rows as [|[|t0 row0] rows']; [done..|]. set (rows := (t0 :: row0) :: rows') in *.
    case_decide; [done|]. res_inv Hb. res_inv Hb. res_inv Hb. simplify_eq.
    apply np_matrix_Ok in Hx as ->. apply np_matrix_Ok in Hx0 as ->. apply np_matrix_Ok in Hx1 as ->.
    unfold arr_at, at2 in *. rewrite -> !list_lookup_fmap in *.
    destruct (rows !! r) as [row|] eqn:Hr; [|done]. simpl in *. rewrite -> !list_lookup_fmap in *.
    destruct (row !! j) as [t|] eqn:Hj; [|done]. simpl in *. simplify_eq. exists t. split; [|done].
    apply list_elem_of_lookup_2 in Hr, Hj. apply (elem_of_concat rows). by exists row.
  - simplify_eq. destruct r; [|done]. simpl in *. rewrite -> !concat_fmap, !list_lookup_fmap in *.
    destruct (concat rows !! j) as [t|] eqn:Hj; [|done]. simpl in *. simplify_eq. exists t.
    split; [by apply list_elem_of_lookup_2 in Hj|done].
Qed.

Lemma collected_fits ids first kvcaches rows rids :
  _collect_tensor_rows ids first kvcaches = Ok (rows, rids) →
  (∀ kv, kv ∈ kvcaches → Forall fits (infos_of kv)) → Forall fits (concat rows).
Proof.
  intros Hc Hf. apply collect_fold in Hc as (_ & _ & _ & Hp & _); [|by rw !length_replicate].
  assert (Hnil : ∀ n, concat (replicate n ([] : list KVCacheTensorInfo)) = []).
  { intros n. induction n; simpl; done. }
  rewrite -> Hnil in Hp. simpl in Hp.
  apply Forall_forall. intros t Ht. rewrite -> Hp in Ht.
  apply elem_of_concat in Ht as (l & Hl & Ht). apply list_elem_of_fmap in Hl as (kv & -> & Hkv).
  by eapply Forall_forall in Ht; [|apply Hf].
Qed.

(** ** Properties *)

(** Two layers of a combined key/value cache of 4 blocks, for the witnesses. *)
Definition ex_kvcaches : dict string kv_layer :=
  [("model.layers.0.attn", KVTensor (Tensor 4096 [2; 4; 16; 2; 8] [1024; 256; 16; 8; 1] 2));
   ("model.layers.1.attn", KVTensor (Tensor 12288 [2; 4; 16; 2; 8] [1024; 256; 16; 8; 1] 2))].

Definition ex_layer_index (name : string) : res Z :=
  if String.eqb name "model.layers.0.attn" then Ok 0 else Ok 1.

Definition ex_conf (layerwise : bool) : layout_conf := LayoutConf layerwise 1 2 4 true false false.

Definition ex_layout (layerwise : bool) : layout :=
  match KVCacheLayout ex_layer_index (ex_conf layerwise) ex_kvcaches with
  | Ok L => L
  | Raise _ => Layout (Arr0 0) (Arr0 0) (Arr0 0) (Arr0 0) false 0 0 [] 0 0
  end.

(** Every layout that can be built, generic or shared-indexer, CUDA or
    Ascend, is well shaped: base addresses, buffer sizes, copy sizes and strides
    are arrays of one shape, and in layerwise mode every layer has the same copy
    sizes, so one shard size describes all of them. *)
Theorem layouts_well_shaped e c kvcaches L : built e c kvcaches L → layout_ok L.
Proof. exact (built_ok e c kvcaches L). Qed.

Lemma layouts_well_shaped_witness :
  base_ptrs (ex_layout true) = Arr2 [[4096; 6144]; [12288; 14336]] ∧ layout_ok (ex_layout true).
Proof.
  split; [reflexivity|].
  exact (layouts_well_shaped ex_layer_index (ex_conf true) ex_kvcaches (ex_layout true) (or_introl eq_refl)).
Defined.

(** The collection of tensor rows loses and duplicates nothing: there is one
    row per distinct layer id, row [r] holds, in registration order, the tensors
    of the layers whose id is [r] past the first layer's (modulo Python's
    negative indexing), and all rows together are a permutation of the tensors
    of all registered layers, each of which was accepted. *)
Theorem collect_rows_complete ids first kvcaches rows rids :
  _collect_tensor_rows ids first kvcaches = Ok (rows, rids) →
  length rows = length (remove_dups ids.*2) ∧
  (∀ r, (r < length rows)%nat → rows !! r = Some (row_infos ids first (length rows) r kvcaches)) ∧
  concat rows ≡ₚ concat (infos_of <$> kvcaches) ∧
  Forall (λ kv, is_ok (layer_infos kv.2)) kvcaches.
Proof.
  intros Hc. apply collect_fold in Hc as (Hl & _ & Hr & Hp & Hall); [|by rw !length_replicate].
  rewrite -> length_replicate in *. split_and!; [done| | |done].
  - intros r Hr'. rewrite -> Hl in *. rewrite -> Hr by done.
    rewrite -> lookup_replicate_2 by done. done.
  - rw Hp. assert (Hnil : ∀ n, concat (replicate n ([] : list KVCacheTensorInfo)) = [])
      by (intros n; induction n; simpl; done). by rw Hnil.
Qed.

Lemma collect_rows_complete_witness :
  let ids := [("model.layers.0.attn", 0); ("model.layers.1.attn", 1)] in
  let rows := [[TensorInfo 4096 512 2048; TensorInfo 6144 512 2048];
               [TensorInfo 12288 512 2048; TensorInfo 14336 512 2048]] in
  length rows = length (remove_dups ids.*2) ∧
  (∀ r, (r < length rows)%nat → rows !! r = Some (row_infos ids 0 (length rows) r ex_kvcaches)) ∧
  concat rows ≡ₚ concat (infos_of <$> ex_kvcaches) ∧
  Forall (λ kv, is_ok (layer_infos kv.2)) ex_kvcaches.
Proof.
  exact (collect_rows_complete [("model.layers.0.attn", 0); ("model.layers.1.attn", 1)] 0 ex_kvcaches
    [[TensorInfo 4096 512 2048; TensorInfo 6144 512 2048];
     [TensorInfo 12288 512 2048; TensorInfo 14336 512 2048]] [Some 0; Some 1] eq_refl).
Defined.

(** C26: Block addresses of a generic layout are exact and stay inside the
    tensor: for tensors whose buffers lie in the 64-bit address space, the
    address of block [id] for tensor [(r, j)] is base plus [id] times the
    stride, without wrap-around, in block-first and in layer-first order alike;
    its bytes lie inside the buffer of that tensor, and two different blocks
    never overlap. *)
Theorem block_addresses e c kvcaches L ids layer_first :
  KVCacheLayout e c kvcaches = Ok L →
  (∀ kv, kv ∈ kvcaches → Forall fits (infos_of kv)) →
  (layer_first = true → lay_use_layerwise L = true) →
  ∃ a, extract_block_addrs L ids layer_first = Ok a ∧
  ∀ i r j id s p b, ids !! i = Some id →
    arr_at (tensor_size_lists L) r j = Some s → arr_at (base_ptrs L) r j = Some p →
    arr_at (buffer_sizes L) r j = Some b → 0 ≤ id → (id + 1) * s ≤ b →
    addr_at a layer_first i r j = Some (p + id * s) ∧
    p ≤ p + id * s ∧ p + id * s + s ≤ p + b ∧
    (∀ i' id', ids !! i' = Some id' → 0 ≤ id' → (id' + 1) * s ≤ b → id ≠ id' →
       ∃ x, addr_at a layer_first i' r j = Some x ∧ (x + s ≤ p + id * s ∨ p + id * s + s ≤ x)).
Proof.
  intros HL Hfits Hlf. pose proof (built_ok e c kvcaches L (or_introl HL)) as Hok.
  destruct (extract_addrs_spec L ids layer_first Hok Hlf) as (a & Ha & Hspec).
  exists a. split; [done|]. intros i r j id s p b Hi Hs Hp Hb Hid Hle.
  unfold KVCacheLayout in HL. res_inv HL. destruct x as [nids first].
  apply generic_layout_inv in HL as (rows & rids & bp & bs & ts & Hcol & Hba & ->). simpl in *.
  destruct (build_arrays_entry _ _ _ _ _ _ _ _ Hba Hs) as (t & Ht & -> & Hp' & Hb').
  pose proof (collected_fits _ _ _ _ _ Hcol Hfits) as Hall. rewrite -> Forall_forall in Hall.
  destruct (Hall t Ht) as (F1 & F2 & F3 & F4 & F5). simplify_eq.
  unfold u64 in *. rewrite -> !Z.mod_small in * by lia.
  assert (Haddr : ∀ i id, ids !! i = Some id → 0 ≤ id →
    (id + 1) * ti_bytes_per_block t ≤ ti_buffer_size t →
    addr_at a layer_first i r j = Some (ti_ptr t + id * ti_bytes_per_block t)).
  { intros i0 id0 Hi0 Hid0 Hle0. rewrite -> (Hspec _ _ _ _ _ _ Hi0 Hs Hp).
    by rewrite -> (block_addr_exact _ _ (ti_buffer_size t)) by lia. }
  split_and!; [by apply Haddr|nia|nia|]. intros i' id' Hi' Hid' Hle' Hne.
  eexists. split; [by apply Haddr|]. nia.
Qed.

Lemma block_addresses_witness :
  ∃ a, extract_block_addrs (ex_layout true) [3; 1] true = Ok a ∧
    addr_at a true 0 1 1 = Some (14336 + 3 * 512).
Proof.
  assert (Hf : ∀ kv, kv ∈ ex_kvcaches → Forall fits (infos_of kv)).
  { assert (Hall : Forall (λ kv, Forall fits (infos_of kv)) ex_kvcaches).
    { repeat constructor; vm_compute; congruence. }
    intros kv Hkv. by apply (proj1 (Forall_forall _ _) Hall). }
  destruct (block_addresses ex_layer_index (ex_conf true) ex_kvcaches (ex_layout true) [3; 1] true
    eq_refl Hf (λ _, eq_refl)) as (a & Ha & Hspec).
  exists a. split; [exact Ha|].
  refine (proj1 (Hspec 0%nat 1%nat 1%nat 3 512 14336 2048 eq_refl eq_refl eq_refl eq_refl _ _)); lia.
Defined.

(** The shared-indexer rows: all layers get one sequence of slot sizes, so
    the arrays always materialise; in each row the slots that copy memory cover
    exactly the bytes of the tensors of that layer, each slot inside one tensor
    and advancing with its stride; every other slot is a ghost with base 0 and
    stride 0, whose address is the null pointer for every block. *)
Theorem shared_rows_cover_tensors c ids first kvcaches layers rows :
  shared_build c ids first kvcaches layers rows →
  Forall (λ l, Forall (λ t, 0 < ti_bytes_per_block t) (layer_tensors l)) layers →
  is_ok (_set_segment_rows rows) ∧
  (∃ slots, Forall (λ r, sg_copy_size <$> r = slots) rows) ∧
  Forall2 (λ row l, zsum (sg_copy_size <$> real_segments row) =
                    zsum (ti_bytes_per_block <$> layer_tensors l) ∧
                    Forall (λ s, (∀ id, block_addr (sg_block_stride s) (sg_ptr s) id = 0) ∨
                                 Exists (segment_of s) (layer_tensors l)) row) rows layers.
Proof.
  intros Hb Hpos. destruct (shared_build_spec _ _ _ _ _ _ Hb) as (_ & slots & Hu & Hc).
  split_and!; [|by exists slots|].
  - destruct (set_segment_rows_ok rows slots Hu) as [-> _]. done.
  - specialize (Hc Hpos). eapply Forall2_impl; [exact Hc|]. intros row l [Hz Hf]. split; [done|].
    eapply Forall_impl; [exact Hf|]. intros s [[-> ->]|Hs]; [left|by right].
    intros id. unfold block_addr. by rewrite -> Z.mul_0_r.
Qed.

Lemma shared_rows_cover_tensors_witness :
  let kv := [("model.layers.0.attn", KVTensor (Tensor 4096 [4; 16; 8] [128; 8; 1] 2));
             ("model.layers.0.indexer", KVTensor (Tensor 8192 [4; 16; 4] [64; 4; 1] 2));
             ("model.layers.1.attn", KVTensor (Tensor 12288 [4; 16; 8] [128; 8; 1] 2))] in
  let ids := [("model.layers.0.attn", 0); ("model.layers.0.indexer", 0); ("model.layers.1.attn", 1)] in
  let sfa p := TensorInfo p 256 1024 in
  let layers := [LayerInfo (Some 0) [sfa 4096] (Some (TensorInfo 8192 128 512)) None;
                 LayerInfo (Some 1) [sfa 12288] None None] in
  let rows := [[Segment 4096 256 256 1024; Segment 8192 128 128 512];
               [Segment 12288 256 256 1024; Segment 0 128 0 0]] in
  is_ok (_set_segment_rows rows) ∧
  (∃ slots, Forall (λ r, sg_copy_size <$> r = slots) rows) ∧
  Forall2 (λ row l, zsum (sg_copy_size <$> real_segments row) =
                    zsum (ti_bytes_per_block <$> layer_tensors l) ∧
                    Forall (λ s, (∀ id, block_addr (sg_block_stride s) (sg_ptr s) id = 0) ∨
                                 Exists (segment_of s) (layer_tensors l)) row) rows layers.
Proof.
  intros kv ids sfa layers rows.
  refine (shared_rows_cover_tensors (ex_conf true) ids 0 kv layers rows _ _).
  - exists 0. split; vm_compute; reflexivity.
  - repeat constructor.
Defined.

(** The sizes handed to the store: the shard size is the sum of the tensor
    sizes of one shard; without pipeline parallelism a block is one shard in
    direct mode and one shard per layer in layerwise mode; with pipeline
    parallelism a layerwise block counts a shard for every hidden layer of the
    model, while a direct block counts only the first tensor of the layout once
    per hidden layer.  All sums and products are modulo 2^64. *)
Theorem store_sizes e c kvcaches L l :
  built e c kvcaches L → tensor_size_list L = Ok l → l ≠ [] →
  shard_size L = Ok (u64 (zsum l)) ∧
  (pp_size L ≤ 1 → lay_use_layerwise L = false → block_size L = shard_size L) ∧
  (pp_size L ≤ 1 → lay_use_layerwise L = true →
     ∃ rows, tensor_size_lists L = Arr2 rows ∧ block_size L = Ok (u64 (zlen rows * zsum l))) ∧
  (1 < pp_size L → lay_use_layerwise L = true →
     block_size L = Ok (u64 (zsum l * num_hidden_layers L))) ∧
  (1 < pp_size L → lay_use_layerwise L = false →
     ∃ s, head l = Some s ∧ block_size L = Ok (u64 (s * num_hidden_layers L))).
Proof.
  intros Hb%built_ok Hl Hne. unfold layout_ok, tensor_size_list, shard_size, block_size in *.
  destruct (lay_use_layerwise L); simpl in *.
  - destruct Hb as (bp & bs & ts & st & sizes & _ & _ & Hts & _ & _ & _ & _ & Hnil & Hall).
    rw Hts in Hl |- *. destruct ts as [|r0 ts]; [done|]. simpl in *. simplify_eq.
    split_and!; [done|done| | |done].
    + intros ?. rewrite -> (proj2 (Z.ltb_ge 1 (pp_size L))) by lia. eexists. split; [reflexivity|].
      intros. unfold np_sum. do 2 f_equal. rewrite -> zlen_cons. cbn [np_tolist concat].
      rw zsum_app. apply Forall_cons in Hall as [-> Hall].
      enough (zsum (concat ts) = zlen ts * zsum sizes) by lia.
      clear -Hall. induction Hall as [|r ts -> Hall IH]; [done|]. cbn [concat].
      rewrite -> zsum_app, IH, zlen_cons. lia.
    + intros Hpp _. rewrite -> (proj2 (Z.ltb_lt 1 (pp_size L))) by lia. simpl. unfold np_sum, u64.
      by rewrite -> Z.mul_mod_idemp_l by lia.
  - destruct Hb as (bp & bs & ts & _ & _ & Hts & _). rw Hts in Hl |- *. simpl in *. simplify_eq.
    split_and!; [done| |done|done|].
    + intros ?. by rewrite -> (proj2 (Z.ltb_ge 1 (pp_size L))) by lia.
    + intros ? _. rewrite -> (proj2 (Z.ltb_lt 1 (pp_size L))) by lia. destruct l as [|s l]; [done|].
      exists s. split; [done|]. simpl. unfold np_sum, u64. simpl. rewrite -> Z.add_0_r.
      by rewrite -> Z.mul_mod_idemp_l by lia.
Qed.

Lemma store_sizes_witness :
  let L := ex_layout true in
  shard_size L = Ok 1024 ∧ ∃ rows, tensor_size_lists L = Arr2 rows ∧
    block_size L = Ok (u64 (zlen rows * 1024)).
Proof.
  split; [reflexivity|].
  refine (proj1 (proj2 (proj2 (store_sizes ex_layer_index (ex_conf true) ex_kvcaches (ex_layout true)
    [512; 512] (or_introl eq_refl) eq_refl _))) _ eq_refl); [done|vm_compute; congruence].
Defined.
