(* ===== verification/StoreConf.v ===== *)
(** * Store configuration

    How a connector turns the launch configuration into a store:
    [ucm/utils.py] ([Config]), [UCMDirectConnector._create_store], the registry
    of [ucm/store/factory_v1.py], and the pipeline builders of
    [ucm/store/pipeline/connector.py], which stack the native layers of a store.
    The YAML parser and the native layers are outside the model. *)
From S2P Require Import Prelude KVLayout.
Open Scope Z_scope.

(** A configuration value. *)
Inductive cval :=
  | CNone
  | CBool (b : bool)
  | CInt (n : Z)
  | CStr (s : string)
  | CInts (l : list Z)
  | CStrs (l : list string)
  | COther.

Abbreviation config := (dict string cval).

(** [bool(v)] *)
Definition truthy (v : cval) : bool :=
  match v with
  | CNone => false
  | CBool b => b
  | CInt n => negb (n =? 0)
  | CStr s => negb (String.eqb s "")
  | CInts l => negb (bool_decide (l = []))
  | CStrs l => negb (bool_decide (l = []))
  | COther => true
  end.

Definition as_int (v : cval) : res Z :=
  match v with
  | CInt n => Ok n
  | CBool b => Ok (if b then 1 else 0)
  | _ => Raise (TypeError "not an integer")
  end.

(** [config[key]] used as an integer. *)
Definition cfg_int (key : string) (c : config) : res Z := v ← dict_index key c; as_int v.

(** [config.setdefault(key, v)] *)
Definition setdefault (key : string) (v : cval) (c : config) : config :=
  if dict_mem key c then c else dict_set key v c.

(** ** [Config] *)

(** The [kv_connector_extra_config] of vLLM, [None] when there is none; [yaml]
    reads a file and is [None] for a file that cannot be used. *)
Definition _get_default_config : config := [("ucm_connector_name", CStr "UcmNfsStore")].

Definition load_ucm_config_from_yaml (yaml : string → option config) (file_path : string) : config :=
  if String.eqb file_path "" then [] else default [] (yaml file_path).

Definition _load_config (yaml : string → option config) (extra : option config) : res config :=
  match extra with
  | None => Ok _get_default_config
  | Some extra_config =>
      match dict_get "UCM_CONFIG_FILE" extra_config with
      | Some (CStr f) => Ok (load_ucm_config_from_yaml yaml f)
      | Some v => if truthy v then Raise (TypeError "not a path") else Ok []
      | None => match extra_config with
                | [] => Ok _get_default_config
                | _ => Ok extra_config
                end
      end
  end.

(** ** [_create_store] *)

(** One entry of [ucm_connectors]. *)
Record connector_config := ConnectorConfig {
  ucm_connector_name : string;
  ucm_connector_module_path : option string;
  ucm_connector_config : config;
}.

(** The attributes of the connector [_create_store] reads. [sc_role] is the
    layout of the registered caches and the device of a worker, with the cores
    of the store, or [None] for the scheduler. *)
Record store_conf := StoreConf {
  sc_configs : list connector_config;
  sc_is_mla : bool;
  sc_unique_id : string;
  sc_tp_size : Z;
  sc_dp_rank : Z;
  sc_block_size : Z;
  sc_blocks_per_chunk : Z;
  sc_element_size : Z;
  sc_head_size : Z;
  sc_num_layers : Z;
  sc_num_head : Z;
  sc_role : option (layout * Z * list Z);
}.

Definition _set_default_shm_buffer_capacity (c : config) : config :=
  if negb (truthy (dict_get_default "share_buffer_enable" (CBool false) c)) then c
  else match dict_get_default "cache_buffer_capacity_gb" CNone c with
       | CNone => dict_set "cache_buffer_capacity_gb" (CInt 128) c
       | _ => c
       end.

Definition split_backends (c : config) : res config :=
  match dict_get "storage_backends" c with
  | None => Ok c
  | Some (CStr s) => Ok (dict_set "storage_backends" (CStrs (split_on ":" s)) c)
  | Some _ => Raise AttributeError
  end.

(** The loop that registers each real device buffer once. *)
Definition buffer_step (acc : list (Z * Z)) (p : Z * Z) : list (Z * Z) :=
  if (p.1 =? 0) || (p.2 =? 0) then acc
  else if decide (p ∈ acc) then acc
  else acc ++ [p].

Definition gpu_kv_buffers (L : layout) : list (Z * Z) :=
  foldl buffer_step [] (zip (np_tolist (base_ptrs L)) (np_tolist (buffer_sizes L))).

(** [l * n] *)
Definition repeat_list {A} (l : list A) (n : Z) : list A := concat (replicate (Z.to_nat n) l).

Definition worker_store_config (sc : store_conf) (L : layout) (local_rank : Z) (cores : list Z)
    (c : config) : res config :=
  sizes ← tensor_size_list L;
  shard ← shard_size L;
  block ← block_size L;
  let c := dict_set "device_id" (CInt local_rank) c in
  let c := dict_set "tensor_size_list" (CInts (repeat_list sizes (sc_blocks_per_chunk sc))) c in
  let c := dict_set "shard_size" (CInt (shard * sc_blocks_per_chunk sc)) c in
  let c := dict_set "block_size" (CInt (block * sc_blocks_per_chunk sc)) c in
  let c := dict_set "local_rank_size" (CInt (if sc_is_mla sc then sc_tp_size sc else 1)) c in
  let buffers := gpu_kv_buffers L in
  let c := dict_set "gpu_kv_buffer_addrs" (CInts buffers.*1) c in
  let c := dict_set "gpu_kv_buffer_sizes" (CInts buffers.*2) c in
  Ok (match cores with [] => c | _ => dict_set "cpu_affinity_cores" (CInts cores) c end).

(** The block size the scheduler computes without a layout. *)
Definition scheduler_block_size (sc : store_conf) : Z :=
  sc_block_size sc * sc_element_size sc * sc_head_size sc * sc_num_layers sc *
  (if sc_is_mla sc then 1 else sc_num_head sc * 2) * sc_blocks_per_chunk sc.

(** The name, module and configuration handed to the factory. *)
Definition _create_store (sc : store_conf) : res (string * option string * config) :=
  match sc_configs sc with
  | [cc] =>
      let c := setdefault "share_buffer_enable" (CBool (sc_is_mla sc)) (ucm_connector_config cc) in
      c ← split_backends (_set_default_shm_buffer_capacity c);
      let c := dict_set "unique_id" (CStr (sc_unique_id sc)) c in
      c ← match sc_role sc with
          | Some (L, local_rank, cores) => worker_store_config sc L local_rank cores c
          | None => Ok (dict_set "block_size" (CInt (scheduler_block_size sc)) c)
          end;
      let gc := bool_decide (sc_role sc = None) && (sc_dp_rank sc =? 0) in
      Ok (ucm_connector_name cc, ucm_connector_module_path cc,
          dict_set "posix_gc_enable" (CBool gc) c)
  | _ => Raise (RuntimeError "Expected exactly one connector config")
  end.

(** ** [UcmConnectorFactoryV1] *)

(** Registered connectors, by name: module path and class name. *)
Abbreviation registry := (dict string (string * string)%type).

Definition register_connector (name module_path class_name : string) (r : registry) : res registry :=
  if dict_mem name r then Raise (ValueError "already registered")
  else Ok (dict_set name (module_path, class_name) r).

Definition factory_registry : res registry :=
  r ← register_connector "UcmNfsStore" "ucm.store.pcstore.pcstore_connector_v1" "UcmPcStoreV1" [];
  register_connector "UcmPipelineStore" "ucm.store.pipeline.connector" "UcmPipelineStore" r.

(** The class [create_connector] instantiates. *)
Definition create_connector (r : registry) (connector_name : string) (module_path : option string) :
    res (string * string) :=
  match module_path with
  | Some (String _ _ as m) => Ok (m, connector_name)
  | _ => match dict_get connector_name r with
         | Some loaded => Ok loaded
         | None => Raise (ValueError "Unsupported connector type")
         end
  end.

(** ** Pipelines *)

(** One [pipeline.Stack] call: layer, library, configuration. *)
Abbreviation stack_call := ((string * string * config)%type).

Definition on_device (c : config) : res bool :=
  match dict_get "device_id" c with
  | None => Ok false
  | Some v => n ← as_int v; Ok (0 <=? n)
  end.

(** [config |= {"tensor_size": config["shard_size"]}] on a device. *)
Definition with_tensor_size (c : config) : res config :=
  dev ← on_device c;
  if (dev : bool) then v ← dict_index "shard_size" c; Ok (dict_set "tensor_size" v c)
  else Ok c.

Definition cache_call (c : config) : stack_call := ("Cache", "cache/libcachestore.so", c).
Definition posix_call (c : config) : stack_call := ("Posix", "posix/libposixstore.so", c).
Definition empty_call (c : config) : stack_call := ("Empty", "empty/libemptystore.so", c).
Definition fake_call (c : config) : stack_call := ("Fake", "fake/libfakestore.so", c).
Definition mooncake_call (c : config) : stack_call :=
  ("Mooncake", "mooncakestore/libmooncakestore.so", c).

Definition _cache_ds3fs_pipeline_builder (c : config) : res (list stack_call) :=
  ds3fs_config ← with_tensor_size c;
  Ok [("Ds3fs", "ds3fs/libds3fsstore.so", ds3fs_config); cache_call c].

Definition _cache_empty_pipeline_builder (c : config) : res (list stack_call) :=
  Ok [empty_call c; cache_call c].

Definition _cache_posix_pipeline_builder (c : config) : res (list stack_call) :=
  posix_config ← with_tensor_size c; Ok [posix_call posix_config; cache_call c].

(** The compressed shard: [compress_ratio] 32nds, rounded down to 4096 bytes. *)
Definition compressed_shard (shard_size compress_ratio : Z) : Z :=
  shard_size * compress_ratio / 32 / 4096 * 4096.

(** The configuration of the storage below the compressor, or [None] when the
    builder gives up because a block is not a whole number of shards. *)
Definition compress_config (c : config) : res (option config) :=
  dev ← on_device c;
  if negb dev then Ok (Some c) else
  block ← cfg_int "block_size" c;
  shard ← cfg_int "shard_size" c;
  if shard =? 0 then Raise ZeroDivisionError
  else if negb (block mod shard =? 0) then Ok None
  else
    ratio ← cfg_int "compress_ratio" c;
    let layers := block / shard in
    let shard' := compressed_shard shard ratio in
    Ok (Some (dict_set "block_size" (CInt (shard' * layers))
               (dict_set "tensor_size" (CInt shard') (dict_set "shard_size" (CInt shard') c)))).

Definition _build_cache_compress_posix_pipeline (c : config) : res (list stack_call) :=
  posix_config ← compress_config c;
  match posix_config with
  | None => Ok []
  | Some p => Ok [posix_call p; ("Compress", "compress/libcompressor.so", c); cache_call c]
  end.

Definition _empty_pipeline_builder (c : config) : res (list stack_call) := Ok [empty_call c].

Definition fake_config (c : config) : config := dict_set "share_buffer_enable" (CBool true) c.

Definition _fake_pipeline_builder (c : config) : res (list stack_call) :=
  Ok [fake_call (fake_config c)].

Definition _posix_pipeline_builder (c : config) : res (list stack_call) := Ok [posix_call c].

Definition _cache_fake_pipeline_builder (c : config) : res (list stack_call) :=
  Ok [fake_call (fake_config c); cache_call c].

Definition _mooncake_pipeline_builder (c : config) : res (list stack_call) := Ok [mooncake_call c].

Definition _mooncake_posix_pipeline_builder (c : config) : res (list stack_call) :=
  posix_config ← with_tensor_size c; Ok [posix_call posix_config; mooncake_call c].

Abbreviation builder := (config → res (list stack_call)).

(** [UcmPipelineStoreBuilder.registry_] after the module is loaded. *)
Definition builders : dict string builder := [
  ("Cache|Ds3fs", _cache_ds3fs_pipeline_builder);
  ("Cache|Empty", _cache_empty_pipeline_builder);
  ("Cache|Posix", _cache_posix_pipeline_builder);
  ("Empty", _empty_pipeline_builder);
  ("Fake", _fake_pipeline_builder);
  ("Posix", _posix_pipeline_builder);
  ("Cache|Compress|Posix", _build_cache_compress_posix_pipeline);
  ("Cache|Fake", _cache_fake_pipeline_builder);
  ("Mooncake", _mooncake_pipeline_builder);
  ("Mooncake|Posix", _mooncake_posix_pipeline_builder)].

(** [UcmPipelineStore.__init__]: the layers stacked, bottom first. *)
Definition UcmPipelineStore (c : config) : res (list stack_call) :=
  v ← dict_index "store_pipeline" c;
  match v with
  | CStr name => match dict_get name builders with
                 | Some build => build c
                 | None => Raise (ValueError "unknown store pipeline")
                 end
  | _ => Raise (ValueError "unknown store pipeline")
  end.

(** ** [register_kv_caches] *)

(** The layout class chosen for the registered caches. *)
Definition register_layout (extract_layer_index : string → res Z) (c : layout_conf)
    (device_type : string) (indexer_types : option (list (option string)))
    (kv_caches : dict string kv_layer) : res layout :=
  if supports (lc_use_layerwise c) device_type indexer_types
  then SharedIndexerKVCacheLayout extract_layer_index c kv_caches
  else KVCacheLayout extract_layer_index c kv_caches.

(** ** Properties *)

Lemma buffer_step_spec l : ∀ acc,
  let r := foldl buffer_step acc l in
  (NoDup acc → NoDup r) ∧
  (Forall (λ p, p.1 ≠ 0 ∧ p.2 ≠ 0) acc → Forall (λ p, p.1 ≠ 0 ∧ p.2 ≠ 0) r) ∧
  (∀ p, p ∈ r ↔ p ∈ acc ∨ p ∈ l ∧ p.1 ≠ 0 ∧ p.2 ≠ 0).
Proof.
  induction l as [|p l IH]; intros acc r; unfold r; clear r; cbn [foldl].
  { split_and!; [done|done|]. intros p. split; [by left|]. intros [ ? |[Hp _]]; [done|by apply elem_of_nil in Hp]. }
  destruct (IH (buffer_step acc p)) as (Hn & Hf & Hin). unfold buffer_step in *.
  destruct (Z.eqb_spec p.1 0) as [H1|H1]; [|destruct (Z.eqb_spec p.2 0) as [H2|H2]]; simpl in *.
  - split_and!; [done..|]. intros q. rewrite -> Hin, elem_of_cons. split; [tauto|].
    intros [ ? |[ [->|?] ?] ]; tauto.
  - split_and!; [done..|]. intros q. rewrite -> Hin, elem_of_cons. split; [tauto|].
    intros [ ? |[ [->|?] ?] ]; tauto.
  - destruct (decide (p ∈ acc)) as [Hp|Hp].
    + split_and!; [done..|]. intros q. rewrite -> Hin, elem_of_cons. split; [tauto|].
      intros [ ? |[ [->|?] ?] ]; tauto.
    + split_and!.
      * intros Hnd. apply Hn. apply NoDup_app. split; [done|]. split; [|apply NoDup_singleton].
        intros q Hq Hq'. apply list_elem_of_singleton in Hq' as ->. done.
      * intros Hall. apply Hf. apply Forall_app. split; [done|]. by apply Forall_singleton.
      * intros q. rewrite -> Hin, elem_of_app, list_elem_of_singleton, elem_of_cons. split.
        -- intros [[Ha | ->]|Ha]; tauto.
        -- intros [ ? |[ [->|?] ?] ]; tauto.
Qed.

(** The device buffers registered with the store are exactly the real ones:
    each distinct pair of a non-null address and a non-zero size of the layout
    once, and no ghost or padding slot. *)
Theorem gpu_buffers_exact L :
  NoDup (gpu_kv_buffers L) ∧
  ∀ p, p ∈ gpu_kv_buffers L ↔
    p ∈ zip (np_tolist (base_ptrs L)) (np_tolist (buffer_sizes L)) ∧ p.1 ≠ 0 ∧ p.2 ≠ 0.
Proof.
  destruct (buffer_step_spec (zip (np_tolist (base_ptrs L)) (np_tolist (buffer_sizes L))) [])
    as (Hn & _ & Hin). split; [apply Hn; constructor|]. intros p. unfold gpu_kv_buffers. rewrite -> Hin.
  split; [|tauto]. intros [Hp|?]; [by apply elem_of_nil in Hp|done].
Qed.

(** Each registered pipeline stacks the layers its name lists, from the last
    to the first, so that the storage is below the caches in front of it; the
    compressed pipeline alone may stack nothing, and only when a block is not a
    whole number of shards. *)
Theorem pipeline_stacks_named_layers name build c calls :
  dict_get name builders = Some build → build c = Ok calls →
  (λ x, x.1.1) <$> calls = reverse (split_on "|" name) ∨
  (calls = [] ∧ name = "Cache|Compress|Posix" ∧ compress_config c = Ok None).
Proof.
  intros Hb Hrun. apply dict_get_Some_elem in Hb. unfold builders in Hb.
  rewrite -> !elem_of_cons, elem_of_nil in Hb.
  repeat (destruct Hb as [Hb|Hb]; [injection Hb as -> ->|]); try done.
  all: try (unfold _cache_ds3fs_pipeline_builder, _cache_posix_pipeline_builder,
              _mooncake_posix_pipeline_builder, _build_cache_compress_posix_pipeline in Hrun;
            res_inv Hrun).
  all: try (injection Hrun as <-; left; reflexivity).
  destruct x as [p|]; injection Hrun as <-; [left; reflexivity|right; done].
Qed.

(** The storage below the compressor is sized consistently: its shards are
    the shards of the cache scaled by [compress_ratio]/32 and rounded down to a
    multiple of 4096 bytes, never larger than the originals for a ratio of at
    most 32, and its block holds as many shards as the block of the cache. *)
Theorem compressed_sizes c p block shard ratio dev :
  dict_get "device_id" c = Some (CInt dev) → 0 ≤ dev →
  dict_get "block_size" c = Some (CInt block) → dict_get "shard_size" c = Some (CInt shard) →
  dict_get "compress_ratio" c = Some (CInt ratio) → 0 < shard → 0 ≤ ratio ≤ 32 →
  compress_config c = Ok (Some p) →
  ∃ shard', dict_get "shard_size" p = Some (CInt shard') ∧
    dict_get "tensor_size" p = Some (CInt shard') ∧
    dict_get "block_size" p = Some (CInt (shard' * (block / shard))) ∧
    shard' mod 4096 = 0 ∧ 0 ≤ shard' ≤ shard ∧
    shard * ratio / 32 - 4096 < shard' ≤ shard * ratio / 32.
Proof.
  intros Hd Hdev Hb Hs Hr Hshard Hratio. unfold compress_config, on_device, cfg_int, dict_index.
  rw Hd Hb Hs Hr. simpl. rewrite -> (proj2 (Z.leb_le 0 dev)) by lia. simpl.
  rewrite -> (proj2 (Z.eqb_neq shard 0)) by lia. case_match; [done|]. intros [= <-].
  exists (compressed_shard shard ratio). unfold compressed_shard.
  repeat first [rewrite dict_get_set_eq | rewrite -> dict_get_set_ne by done].
  set (m := shard * ratio / 32).
  assert (0 ≤ m) by (apply Z.div_pos; nia).
  assert (m ≤ shard) by (apply Z.div_le_upper_bound; nia).
  pose proof (Z.mul_div_le m 4096 ltac:(lia)). pose proof (Z.mul_succ_div_gt m 4096 ltac:(lia)).
  assert (0 ≤ m / 4096) by (apply Z.div_pos; lia).
  split_and!; try done; try lia. by apply Z.mod_mul.
Qed.

(** ** A worked example *)

Definition ex_compress_conf : config :=
  [("store_pipeline", CStr "Cache|Compress|Posix"); ("device_id", CInt 0);
   ("block_size", CInt 131072); ("shard_size", CInt 65536); ("compress_ratio", CInt 22)].

Lemma pipeline_stacks_named_layers_witness :
  ∃ calls, UcmPipelineStore ex_compress_conf = Ok calls ∧ length calls = 3%nat ∧
    ((λ x, x.1.1) <$> calls = reverse (split_on "|" "Cache|Compress|Posix") ∨
     (calls = [] ∧ "Cache|Compress|Posix" = "Cache|Compress|Posix" ∧
      compress_config ex_compress_conf = Ok None)).
Proof.
  eexists. split; [reflexivity|]. split; [reflexivity|].
  apply (pipeline_stacks_named_layers "Cache|Compress|Posix" _build_cache_compress_posix_pipeline
           ex_compress_conf); reflexivity.
Defined.

Lemma compressed_sizes_witness :
  ∃ shard', 0 ≤ shard' ≤ 65536 ∧ shard' mod 4096 = 0.
Proof.
  destruct (compressed_sizes ex_compress_conf
    (match compress_config ex_compress_conf with Ok (Some p) => p | _ => [] end)
    131072 65536 22 0) as (s & _ & _ & _ & Hm & Hb & _); try reflexivity; try lia.
  exists s. by split.
Defined.
