(* ===== verification/StoreWrappers.v ===== *)
(** * The Python wrappers of the native stores

    [UcmPipelineStore] of [ucm/store/pipeline/connector.py] with the conversions
    of its binding, [UcmPcStoreV1] of [ucm/store/pcstore], the older [UcmPcStore]
    and [UcmNfsStore], and the registry of [ucm/store/factory.py].  The native
    stores are the methods of the classes below; a configuration object is the
    dictionary of the attributes set on it. *)
From S2P Require Import Prelude Runtime KVLayout StoreConf.
Open Scope Z_scope.

(** Block identifiers, addresses of the tensors of a block, or an array of them. *)
Inductive addr_arg :=
  | AddrLists (rows : addr_rows)
  | AddrArray (cols : Z) (rows : addr_rows).

(** ** Pipelines *)

(** A shard of a task: block, index, addresses. *)
Record shard := Shard { sh_owner : bytes; sh_index : Z; sh_addrs : list Z }.

(** The topmost native store of a pipeline. *)
Class PipelineNative (W : Type) := {
  pn_Lookup : sref → list bytes → M W (list bool);
  pn_LookupOnPrefix : sref → list bytes → M W Z;
  pn_Prefetch : sref → list bytes → M W unit;
  pn_Load : sref → list shard → M W task;
  pn_Dump : sref → list shard → Z → M W task;
  pn_Wait : sref → task → M W unit;
  pn_Check : sref → task → M W bool;
}.

(** The 16-byte blocks of a buffer; the binding drops an incomplete one. *)
Fixpoint blocks_of (count : nat) (flat : bytes) : list bytes :=
  match count with
  | O => []
  | S count => take 16 flat :: blocks_of count (drop 16 flat)
  end.
Definition BufferArrayView (flat : bytes) : list bytes := blocks_of (length flat / 16) flat.

(** [array.array("Q", l)] *)
Definition array_Q (l : list Z) : res (list Z) :=
  if forallb (λ x, (0 <=? x) && (x <? 2 ^ 64)) l then Ok l else Raise OverflowError.

(** [np.array(rows, dtype=np.uint64)], whose rows have one length. *)
Definition rectangular (rows : addr_rows) : bool :=
  match rows with [] => true | r :: rows => forallb (λ x, zlen x =? zlen r) rows end.
Definition to_matrix (a : addr_arg) : res addr_rows :=
  match a with
  | AddrArray _ rows => Ok rows
  | AddrLists rows =>
      if negb (rectangular rows) then Raise (ValueError "inhomogeneous shape")
      else if forallb (forallb (λ x, (0 <=? x) && (x <? 2 ^ 64))) rows then Ok rows else Raise OverflowError
  end.

Definition MakeTaskDesc (flat : bytes) (indexes : list Z) (addrs : addr_rows) : res (list shard) :=
  let ids := BufferArrayView flat in
  if negb (zlen ids =? zlen indexes) || negb (zlen ids =? zlen addrs)
  then Raise (RuntimeError "invalid dim")
  else Ok ((λ x, Shard x.1.1 x.1.2 x.2) <$> zip (zip ids indexes) addrs).

(** The rows of [n_cols] elements of a flat list. *)
Fixpoint reshape (n_rows n_cols : nat) (flat : list Z) : addr_rows :=
  match n_rows with
  | O => []
  | S n => take n_cols flat :: reshape n n_cols (drop n_cols flat)
  end.

(** The addresses of tensors, as an array with the width of the first row;
    [np.fromiter] wants that many elements and ignores further ones. *)
Definition _tensor_normalize (tensors : addr_rows) : res addr_rows :=
  first_row ← py_index tensors 0;
  let n_rows := length tensors in
  let n_cols := length first_row in
  let flat := concat tensors in
  if (length flat <? n_rows * n_cols)%nat then Raise (ValueError "iterator too short")
  else Ok (reshape n_rows n_cols (take (n_rows * n_cols) flat)).

Section pipeline.
  Context {W : Type} `{PipelineNative W}.

Definition pl_lookup (r : sref) (block_ids : list bytes) : M W (list bool) :=
  pn_Lookup r (BufferArrayView (concat block_ids)).
Definition pl_lookup_on_prefix (r : sref) (block_ids : list bytes) : M W Z :=
  pn_LookupOnPrefix r (BufferArrayView (concat block_ids)).
Definition pl_prefetch (r : sref) (block_ids : list bytes) : M W unit :=
  pn_Prefetch r (BufferArrayView (concat block_ids)).

Definition pl_load (r : sref) (block_ids : list bytes) (shard_index : list Z) (dst_tensor : addr_rows) : M W task :=
  indexes ← of_res (array_Q shard_index);
  addrs ← of_res (_tensor_normalize dst_tensor);
  desc ← of_res (MakeTaskDesc (concat block_ids) indexes addrs);
  pn_Load r desc.
Definition pl_dump (r : sref) (block_ids : list bytes) (shard_index : list Z) (src_tensor : addr_rows) : M W task :=
  indexes ← of_res (array_Q shard_index);
  addrs ← of_res (_tensor_normalize src_tensor);
  desc ← of_res (MakeTaskDesc (concat block_ids) indexes addrs);
  pn_Dump r desc 0.

Definition pl_load_data (r : sref) (block_ids : list bytes) (shard_index : list Z) (dst_addr : addr_arg) : M W task :=
  indexes ← of_res (array_Q shard_index);
  addrs ← of_res (to_matrix dst_addr);
  desc ← of_res (MakeTaskDesc (concat block_ids) indexes addrs);
  pn_Load r desc.
Definition pl_dump_data (r : sref) (block_ids : list bytes) (shard_index : list Z) (src_addr : addr_arg)
    (prerequisite_handle : Z) : M W task :=
  indexes ← of_res (array_Q shard_index);
  addrs ← of_res (to_matrix src_addr);
  desc ← of_res (MakeTaskDesc (concat block_ids) indexes addrs);
  pn_Dump r desc prerequisite_handle.

Definition pl_wait (r : sref) (t : task) : M W unit := pn_Wait r t.
Definition pl_check (r : sref) (t : task) : M W bool := pn_Check r t.

(** The store interface of the connectors, which pass arrays. *)
Definition pipeline_store : StoreOps W := {|
  st_lookup := pl_lookup;
  st_lookup_on_prefix := pl_lookup_on_prefix;
  st_prefetch := pl_prefetch;
  st_load_data r ids sh rows := pl_load_data r ids sh (AddrArray (zlen (default [] (head rows))) rows);
  st_dump_data r ids sh rows ev := pl_dump_data r ids sh (AddrArray (zlen (default [] (head rows))) rows) ev;
  st_wait := pl_wait;
  st_check := pl_check;
|}.

End pipeline.

(** ** [UcmPcStoreV1] *)

(** The native PC store; [Check] answers with a status and whether it finished. *)
Class PcNative (W : Type) := {
  pc_Setup : config → M W Z;
  pc_LookupBatch : sref → list bytes → M W (list bool);
  pc_LoadToDevice : sref → list bytes → list Z → M W task;
  pc_DumpFromDevice : sref → list bytes → list Z → M W task;
  pc_Wait : sref → task → M W Z;
  pc_Check : sref → task → M W (Z * bool);
  pc_AllocBatch : sref → list bytes → M W (list Z);
  pc_CommitBatch : sref → list bytes → bool → M W unit;
}.

(** The attributes of the native configuration object. *)
Definition pc_attrs : list string :=
  ["storageBackends"; "kvcacheBlockSize"; "transferEnable"; "uniqueId"; "transferIoDirect"; "transferLocalRankSize";
   "transferDeviceId"; "transferStreamNumber"; "transferIoSize"; "transferBufferNumber"; "transferTimeoutMs";
   "transferScatterGatherEnable"; "transferUseGdr"; "shardDataDir"; "gpuKvBufferAddrs"; "gpuKvBufferSizes"].

Definition key_mapping : dict string string :=
  [("unique_id", "uniqueId"); ("io_direct", "transferIoDirect"); ("local_rank_size", "transferLocalRankSize");
   ("device_id", "transferDeviceId"); ("stream_number", "transferStreamNumber"); ("tensor_size", "transferIoSize");
   ("buffer_number", "transferBufferNumber"); ("timeout_ms", "transferTimeoutMs");
   ("use_scatter_gather", "transferScatterGatherEnable"); ("use_gdr", "transferUseGdr");
   ("shard_data_dir", "shardDataDir"); ("gpu_kv_buffer_addrs", "gpuKvBufferAddrs");
   ("gpu_kv_buffer_sizes", "gpuKvBufferSizes")].

(** The one tensor size of the store. *)
Definition set_tensor_size (c : config) : res config :=
  let uniform {A} `{EqDecision A} (x : A) (l : list A) (v : cval) :=
    if bool_decide (Forall (λ y, y = x) l) then Ok (dict_set "tensor_size" v c)
    else Raise (RuntimeError "PcStore does not support different tensor sizes.") in
  match dict_get "tensor_size_list" c with
  | None => Ok c
  | Some (CInts (x :: l)) => uniform x l (CInt x)
  | Some (CStrs (x :: l)) => uniform x l (CStr x)
  | Some _ => Raise (RuntimeError "tensor_size_list must be a non-empty list.")
  end.

(** [setattr] for the mapped keys. *)
Definition set_param (p : config) (x : string * cval) : config :=
  match dict_get x.1 key_mapping with
  | Some attr => if decide (attr ∈ pc_attrs) then dict_set attr x.2 p else p
  | None => p
  end.

Definition pc_v1_param (c : config) : res config :=
  storage_backends ← dict_index "storage_backends" c;
  transfer_enable ← on_device c;
  let param := [("storageBackends", storage_backends); ("kvcacheBlockSize", dict_get_default "block_size" (CInt 0) c);
                ("transferEnable", CBool transfer_enable)] in
  c ← set_tensor_size c;
  Ok (foldl set_param param c).

(** [lookup_on_prefix] after the lookup; [i] is the index of the head. *)
Fixpoint prefix_index (i : Z) (found : list bool) : Z :=
  match found with
  | [] => i - 1
  | b :: found => if b then prefix_index (i + 1) found else i - 1
  end.

(** [_flatten_tensor_ptrs]: the two lists have room for the width of the first
    row; what stays empty holds [None]. *)
Definition _flatten_tensor_ptrs (block_ids : list bytes) (tensors : addr_rows) : res (list (option (bytes * Z))) :=
  first_row ← (py_index tensors 0 : res (list Z));
  let total_len := (length block_ids * length first_row)%nat in
  let pairs : list (bytes * Z) := concat ((λ x : bytes * list Z, pair x.1 <$> x.2) <$> zip block_ids tensors) in
  if (total_len <? length pairs)%nat then Raise IndexError
  else Ok ((Some <$> pairs) ++ replicate (total_len - length pairs) None).

(** The binding cannot convert [None]. *)
Definition cast_items (l : list (option (bytes * Z))) : res (list (bytes * Z)) :=
  map_res (λ x, match x with Some p => Ok p | None => Raise (RuntimeError "Unable to cast") end) l.

(** [np.repeat(block_ids, addrs.shape[1])] and [addrs.ravel()] *)
Definition flatten_addrs (block_ids : list bytes) (a : addr_arg) : res (list bytes * list Z) :=
  rows ← to_matrix a;
  cols ← match a with
         | AddrArray cols _ => Ok cols
         | AddrLists [] => Raise IndexError
         | AddrLists (row :: _) => Ok (zlen row)
         end;
  Ok (concat (replicate (Z.to_nat cols) <$> block_ids), concat rows).

(** The items of a native task: the lists up to the shorter one. *)
Definition SubmitPy (ids : list bytes) (addrs : list Z) : list (bytes * Z) := zip ids addrs.

Section pc.
  Context {W : Type} `{PcNative W}.

Definition UcmPcStoreV1 (c : config) : M W unit :=
  param ← of_res (pc_v1_param c);
  ret ← pc_Setup param;
  if ret =? 0 then mret tt else raise (RuntimeError "Failed to initialize ucmpcstore").

Definition pc_lookup (r : sref) (block_ids : list bytes) : M W (list bool) := pc_LookupBatch r block_ids.
Definition pc_lookup_on_prefix (r : sref) (block_ids : list bytes) : M W Z :=
  found ← pc_lookup r block_ids; mret (prefix_index 0 found).
Definition pc_prefetch (r : sref) (block_ids : list bytes) : M W unit := mret tt.

Definition pc_load (r : sref) (block_ids : list bytes) (shard_index : list Z) (dst_tensor : addr_rows) : M W task :=
  items ← of_res (_flatten_tensor_ptrs block_ids dst_tensor);
  items ← of_res (cast_items items);
  pc_LoadToDevice r items.*1 items.*2.
Definition pc_dump (r : sref) (block_ids : list bytes) (shard_index : list Z) (src_tensor : addr_rows) : M W task :=
  items ← of_res (_flatten_tensor_ptrs block_ids src_tensor);
  items ← of_res (cast_items items);
  pc_DumpFromDevice r items.*1 items.*2.

Definition pc_load_data (r : sref) (block_ids : list bytes) (shard_index : list Z) (dst_addr : addr_arg) : M W task :=
  '(ids, addrs) ← of_res (flatten_addrs block_ids dst_addr); pc_LoadToDevice r ids addrs.
Definition pc_dump_data (r : sref) (block_ids : list bytes) (shard_index : list Z) (src_addr : addr_arg)
    (prerequisite_handle : Z) : M W task :=
  '(ids, addrs) ← of_res (flatten_addrs block_ids src_addr); pc_DumpFromDevice r ids addrs.

Definition pc_wait (r : sref) (t : task) : M W unit :=
  ret ← pc_Wait r t;
  if ret =? 0 then mret tt else raise (RuntimeError "Failed to wait task").

(** What the binding answers: a status and whether the task is finished. *)
Definition pc_check (r : sref) (t : task) : M W (Z * bool) := pc_Check r t.

(** [bool(p)] of a tuple of two. *)
Definition pair_truth {A B} (p : A * B) : bool := negb (length [inl p.1; inr p.2] =? 0)%nat.

(** The store interface of the connectors.  They use the answer of [check] as a
    condition, and what [pc_check] returns is a pair, not the boolean the interface
    asks for. *)
Definition pc_store : StoreOps W := {|
  st_lookup := pc_lookup;
  st_lookup_on_prefix := pc_lookup_on_prefix;
  st_prefetch := pc_prefetch;
  st_load_data r ids sh rows := pc_load_data r ids sh (AddrArray (zlen (default [] (head rows))) rows);
  st_dump_data r ids sh rows ev := pc_dump_data r ids sh (AddrArray (zlen (default [] (head rows))) rows) ev;
  st_wait := pc_wait;
  st_check r t := answer ← pc_check r t; mret (pair_truth answer);
|}.

(** ** The older wrappers *)

(** [[path for path in config[key].split(":") if path]] *)
Definition backend_paths (c : config) : res (list string) :=
  v ← dict_index "storage_backends" c;
  match v with
  | CStr s => Ok (filter (λ p, p ≠ "") (split_on ":" s))
  | _ => Raise AttributeError
  end.

Definition is_worker (c : config) : res bool :=
  v ← dict_index "role" c;
  Ok (match v with CStr s => String.eqb s "worker" | _ => false end).

Definition set_attrs (c : config) (l : list (string * (string + string * cval))) (p : config) : res config :=
  fold_res (λ p x,
    match x.2 with
    | inl key => v ← dict_index key c; Ok (dict_set x.1 v p)
    | inr (key, dflt) => Ok (dict_set x.1 (dict_get_default key dflt c) p)
    end) p l.

Definition base_param (int_of : string → res Z) (c : config) : res (bool * config) :=
  storage_backends ← backend_paths c;
  v ← dict_index "kv_block_size" c;
  block_size ← match v with CStr s => int_of s | v => as_int v end;
  transfer_enable ← is_worker c;
  Ok (transfer_enable, [("storageBackends", CStrs storage_backends); ("kvcacheBlockSize", CInt block_size);
                        ("transferEnable", CBool transfer_enable)]).

Definition pc_param (int_of : string → res Z) (c : config) : res config :=
  '(transfer_enable, p) ← base_param int_of c;
  if (transfer_enable : bool) then
    set_attrs c
      [("uniqueId", inl "unique_id"); ("transferDeviceId", inl "device"); ("transferIoSize", inl "io_size");
       ("transferIoDirect", inr ("use_direct", CBool false)); ("transferStreamNumber", inr ("stream_number", CInt 8));
       ("transferBufferNumber", inr ("buffer_number", CInt 4096)); ("transferLocalRankSize", inr ("local_rank_size", CInt 1));
       ("transferScatterGatherEnable", inr ("use_scatter_gatter", CBool false)); ("transferUseGdr", inr ("use_gdr", CBool false));
       ("gpuKvBufferAddrs", inr ("gpu_kv_buffer_addrs", CInts [])); ("gpuKvBufferSizes", inr ("gpu_kv_buffer_sizes", CInts []))] p
  else Ok p.

Definition UcmPcStore (int_of : string → res Z) (c : config) : M W unit :=
  param ← of_res (pc_param int_of c);
  ret ← pc_Setup param;
  if ret =? 0 then mret tt else raise (RuntimeError "Failed to initialize ucmpcstore").

Definition pc_create (r : sref) (block_ids : list bytes) : M W (list Z) := pc_AllocBatch r block_ids.
Definition pc_load_tensors (r : sref) (block_ids : list bytes) (dst_tensor : list Z) : M W task :=
  pc_LoadToDevice r block_ids dst_tensor.
Definition pc_dump_tensors (r : sref) (block_ids : list bytes) (src_tensor : list Z) : M W task :=
  pc_DumpFromDevice r block_ids src_tensor.
Definition pc_commit (r : sref) (block_ids : list bytes) (is_success : bool) : M W unit :=
  pc_CommitBatch r block_ids is_success.

End pc.

(** The native NFS store and the attributes of its configuration object. *)
Class NfsNative (W : Type) := {
  nfs_Setup : config → M W Z;
  nfs_AllocBatch : sref → list bytes → M W (list Z);
  nfs_LookupBatch : sref → list bytes → M W (list bool);
  nfs_LoadToDevice : sref → list bytes → list Z → list Z → list Z → M W task;
  nfs_DumpFromDevice : sref → list bytes → list Z → list Z → list Z → M W task;
  nfs_Wait : sref → task → M W Z;
  nfs_Check : sref → task → M W (Z * bool);
  nfs_CommitBatch : sref → list bytes → bool → M W unit;
}.

Definition nfs_attrs : list string :=
  ["storageBackends"; "kvcacheBlockSize"; "transferEnable"; "transferDeviceId"; "transferStreamNumber"; "transferIoSize";
   "transferIoDirect"; "transferBufferNumber"; "transferTimeoutMs"; "tempDumpDirEnable"; "hotnessEnable"; "hotnessInterval";
   "storageCapacity"; "recycleEnable"; "recycleThresholdRatio"].

(** [attrs] are the attributes of the installed library's configuration. *)
Definition nfs_param (int_of : string → res Z) (attrs : list string) (c : config) : res config :=
  '(transfer_enable, p) ← base_param int_of c;
  p ← (if (transfer_enable : bool) then
         set_attrs c
           [("transferDeviceId", inl "device"); ("transferIoSize", inl "io_size");
            ("transferIoDirect", inr ("use_direct", CBool false)); ("transferStreamNumber", inr ("stream_number", CInt 32));
            ("transferBufferNumber", inr ("buffer_number", CInt 512))] p
       else Ok p);
  let p := if decide ("storage_capacity" ∈ attrs)
           then dict_set "storageCapacity" (dict_get_default "storage_capacity" (CInt 0) c) p else p in
  if decide ("recycle_enable" ∈ attrs) then
    let recycle := match dict_get_default "recycle_enable" (CInt 0) c with
                   | CInt n => n =? 1
                   | CBool b => b
                   | _ => false
                   end in
    let p := dict_set "recycleEnable" (CBool recycle) p in
    Ok (if recycle then dict_set "recycleThresholdRatio" (dict_get_default "recycle_threshold_ratio" COther c) p else p)
  else Ok p.

(** A tensor: its address, number of elements and bytes of an element. *)
Record tensor_buf := TensorBuf { tb_ptr : Z; tb_numel : Z; tb_element_size : Z }.
Definition tb_bytes (t : tensor_buf) : Z := tb_numel t * tb_element_size t.

Section nfs.
  Context {W : Type} `{NfsNative W}.

Definition UcmNfsStore (int_of : string → res Z) (c : config) : M W unit :=
  param ← of_res (nfs_param int_of nfs_attrs c);
  ret ← nfs_Setup param;
  if ret =? 0 then mret tt else raise (RuntimeError "Failed to initialize ucmnfsstore").

Definition nfs_create (r : sref) (block_ids : list bytes) : M W (list Z) := nfs_AllocBatch r block_ids.
Definition nfs_lookup (r : sref) (block_ids : list bytes) : M W (list bool) := nfs_LookupBatch r block_ids.
Definition nfs_load (r : sref) (block_ids : list bytes) (offset : list Z) (dst_tensor : list tensor_buf) : M W task :=
  nfs_LoadToDevice r block_ids offset (tb_ptr <$> dst_tensor) (tb_bytes <$> dst_tensor).
Definition nfs_dump (r : sref) (block_ids : list bytes) (offset : list Z) (src_tensor : list tensor_buf) : M W task :=
  nfs_DumpFromDevice r block_ids offset (tb_ptr <$> src_tensor) (tb_bytes <$> src_tensor).
Definition nfs_fetch_data (r : sref) (block_ids : list bytes) (offset dst_addr size : list Z) : M W task :=
  nfs_LoadToDevice r block_ids offset dst_addr size.
Definition nfs_dump_data (r : sref) (block_ids : list bytes) (offset src_addr size : list Z) : M W task :=
  nfs_DumpFromDevice r block_ids offset src_addr size.
Definition nfs_wait (r : sref) (t : task) : M W Z := nfs_Wait r t.
Definition nfs_commit (r : sref) (block_ids : list bytes) (is_success : bool) : M W unit :=
  nfs_CommitBatch r block_ids is_success.
Definition nfs_check (r : sref) (t : task) : M W (Z * bool) := nfs_Check r t.

End nfs.

(** ** [UcmConnectorFactory], the older registry *)

Definition legacy_factory_registry : res registry :=
  r ← register_connector "UcmNfsStore" "ucm.store.nfsstore.nfsstore_connector" "UcmNfsStore" [];
  r ← register_connector "UcmPcStore" "ucm.store.pcstore.pcstore_connector" "UcmPcStore" r;
  register_connector "UcmMooncakeStore" "ucm.store.mooncakestore.mooncake_connector" "UcmMooncakeStore" r.

Definition legacy_create_connector (r : registry) (connector_name : string) : res (string * string) :=
  match dict_get connector_name r with
  | Some loaded => Ok loaded
  | None => Raise (ValueError "Unsupported connector type")
  end.
