(* ===== verification/StoreWrappersProps.v ===== *)
(** * Properties of the store wrappers

    The wrappers hand every block, shard and address to the native store together,
    and the lookups keep the contract of the store interface when the native store
    does; the check of the PC store does not. *)
From S2P Require Import Prelude Runtime KVLayout StoreConf StoreWrappers.
Open Scope Z_scope.

(** ** Pipelines *)

Lemma blocks_of_concat (ids : list bytes) : Forall (λ b, length b = 16%nat) ids →
  blocks_of (length ids) (concat ids) = ids.
Proof.
  induction 1 as [|b ids Hb _ IH]; [done|]. cbn [length blocks_of concat].
  rewrite -> take_app_length' by done. rewrite -> drop_app_length' by done. by rewrite -> IH.
Qed.

Lemma length_concat_16 (ids : list bytes) : Forall (λ b, length b = 16%nat) ids →
  length (concat ids) = (length ids * 16)%nat.
Proof. induction 1 as [|b ids Hb _ IH]; [done|]. cbn. rewrite -> length_app, IH. lia. Qed.

(** The buffer of 16-byte identifiers is read back as these identifiers. *)
Lemma BufferArrayView_concat (ids : list bytes) : Forall (λ b, length b = 16%nat) ids →
  BufferArrayView (concat ids) = ids.
Proof.
  intros Hids. unfold BufferArrayView. rewrite -> length_concat_16, Nat.div_mul by done. by apply blocks_of_concat.
Qed.

Lemma reshape_concat n (rows : addr_rows) : Forall (λ r, length r = n) rows → reshape (length rows) n (concat rows) = rows.
Proof.
  induction 1 as [|r rows Hr _ IH]; [done|]. cbn [length reshape concat].
  rewrite -> take_app_length' by done. rewrite -> drop_app_length' by done. by rewrite -> IH.
Qed.

Lemma rectangular_spec rows : rectangular rows = true → ∃ n, Forall (λ r : list Z, length r = n) rows.
Proof.
  destruct rows as [|r rows]; [by exists 0%nat|]. cbn. intros Hr. exists (length r). constructor; [done|].
  apply Forall_forall. intros x Hx. apply forallb_forall with (x := x) in Hr; [|by apply list_elem_of_In].
  apply Z.eqb_eq in Hr. unfold zlen in Hr. lia.
Qed.

(** Tensors given as rows of one length keep their addresses and their places. *)
Lemma tensor_normalize_rows rows : rows ≠ [] → rectangular rows = true → _tensor_normalize rows = Ok rows.
Proof.
  intros Hne Hr. destruct (rectangular_spec _ Hr) as [n Hn]. destruct rows as [|r rows]; [done|].
  unfold _tensor_normalize. assert (Hlen : length (concat (r :: rows)) = (length (r :: rows) * n)%nat).
  { clear Hne Hr. induction Hn as [|x l Hx _ IH]; [done|]. cbn [concat length]. rewrite -> length_app, IH. lia. }
  assert (Hw : length r = n) by (by inversion Hn).
  change (py_index (r :: rows) 0) with (Ok r). cbn [mbind res_bind]. rewrite -> Hw, Hlen, Nat.ltb_irrefl.
  rewrite -> take_ge by lia. by rewrite -> reshape_concat.
Qed.

Lemma array_Q_ok l : Forall (λ x, 0 ≤ x < 2 ^ 64) l → array_Q l = Ok l.
Proof.
  intros Hl. unfold array_Q. rewrite -> (proj2 (forallb_forall _ _)); [done|]. intros x Hx%list_elem_of_In.
  rewrite -> Forall_forall in Hl. specialize (Hl x Hx). apply andb_true_iff. rewrite -> Z.leb_le, Z.ltb_lt. lia.
Qed.

(** C40: A pipeline store hands the native store exactly the shards the caller means:
    for 16-byte identifiers, 64-bit shard numbers and an array of addresses, shard
    [i] of a load or a dump is block [i] with index [i] and the addresses of row
    [i] - or, when the numbers of blocks, indices and rows differ, nothing is
    submitted and RuntimeError is raised. *)
Theorem pipeline_shards_exact `{PipelineNative W} r ids sh rows ev (w : W) :
  Forall (λ b, length b = 16%nat) ids → Forall (λ x, 0 ≤ x < 2 ^ 64) sh →
  let store := pipeline_store (W := W) in
  if decide (length sh = length ids ∧ length rows = length ids) then
    let shards := (λ x, Shard x.1.1 x.1.2 x.2) <$> zip (zip ids sh) rows in
    @st_load_data W store r ids sh rows w = pn_Load r shards w ∧
    @st_dump_data W store r ids sh rows ev w = pn_Dump r shards ev w ∧
    sh_owner <$> shards = ids ∧ sh_index <$> shards = sh ∧ sh_addrs <$> shards = rows
  else
    @st_load_data W store r ids sh rows w = (Raise (RuntimeError "invalid dim"), w) ∧
    @st_dump_data W store r ids sh rows ev w = (Raise (RuntimeError "invalid dim"), w).
Proof.
  intros Hids Hsh store. cbn [st_load_data st_dump_data store pipeline_store].
  unfold pl_load_data, pl_dump_data. rewrite -> array_Q_ok by done. unfold of_res, mbind, M_bind. cbn [to_matrix].
  unfold MakeTaskDesc. rewrite -> BufferArrayView_concat by done. unfold zlen. case_decide as Hl.
  - destruct Hl as [H1 H2]. rewrite -> H1, H2, !Z.eqb_refl. cbn [negb orb].
    split; [done|]. split; [done|]. rewrite <- !list_fmap_compose.
    assert (Hz : length (zip ids sh) = length rows) by (rewrite -> length_zip; lia). split_and!.
    + transitivity ((zip (zip ids sh) rows).*1.*1); [by rewrite <- list_fmap_compose|]. rewrite -> !fst_zip by lia. done.
    + transitivity ((zip (zip ids sh) rows).*1.*2); [by rewrite <- list_fmap_compose|].
      rewrite -> fst_zip by lia. by rewrite -> snd_zip by lia.
    + transitivity ((zip (zip ids sh) rows).*2); [done|]. apply snd_zip. lia.
  - destruct (Z.eqb_spec (Z.of_nat (length ids)) (Z.of_nat (length sh))), (Z.eqb_spec (Z.of_nat (length ids)) (Z.of_nat (length rows)));
      cbn [negb orb]; try done. exfalso. apply Hl. lia.
Qed.

(** ** The PC store *)

(** The binding answers once per block. *)
Class PcNativeLaws (W : Type) `{PcNative W} := {
  pc_LookupBatch_length r ids (w : W) bs w' : pc_LookupBatch r ids w = (Ok bs, w') → length bs = length ids
}.

Lemma prefix_index_spec found : ∀ i, let n := prefix_index i found in
  i - 1 ≤ n < i + zlen found ∧ (∀ k : nat, i + Z.of_nat k ≤ n → found !! k = Some true) ∧
  (n + 1 < i + zlen found → found !! Z.to_nat (n + 1 - i) = Some false).
Proof.
  induction found as [|b found IH]; intros i n; unfold n; clear n; cbn [prefix_index].
  { unfold zlen. cbn. split_and!; [lia|lia| |]; intros; lia. }
  rewrite -> zlen_cons. pose proof (zlen_nonneg found). destruct b.
  - destruct (IH (i + 1)) as (Hb & Hin & Hout). split_and!; [lia|lia| |].
    + intros [|k] Hk; [done|]. cbn. apply Hin. lia.
    + intros Hn. replace (Z.to_nat (prefix_index (i + 1) found + 1 - i))
        with (S (Z.to_nat (prefix_index (i + 1) found + 1 - (i + 1)))) by lia. cbn. apply Hout. lia.
  - split_and!; [lia|lia| |].
    + intros k Hk. lia.
    + intros _. by replace (Z.to_nat (i - 1 + 1 - i)) with 0%nat by lia.
Qed.

(** The lookups of the PC store keep the laws of the store interface, and
    [lookup_on_prefix] is the last index of the longest
    prefix of found blocks - all blocks up to it are found, the next one is not. *)
Theorem pc_store_lookups `{PcNativeLaws W} :
  @StoreLaws W (pc_store (W := W)) ∧
  ∀ r ids (w w' : W) n, pc_lookup_on_prefix r ids w = (Ok n, w') →
    ∃ found, pc_lookup r ids w = (Ok found, w') ∧
      (∀ k : nat, Z.of_nat k ≤ n → found !! k = Some true) ∧
      (n + 1 < zlen ids → found !! Z.to_nat (n + 1) = Some false).
Proof.
  assert (Hp : ∀ r ids (w w' : W) n, pc_lookup_on_prefix r ids w = (Ok n, w') →
    ∃ found, pc_lookup r ids w = (Ok found, w') ∧ n = prefix_index 0 found ∧ zlen found = zlen ids).
  { intros r ids w w' n Hn. unfold pc_lookup_on_prefix in Hn. apply M_Ok_inv in Hn as (found & w1 & Hf & Hr).
    injection Hr as <- <-. exists found. split; [done|]. split; [done|]. unfold zlen. f_equal.
    by eapply pc_LookupBatch_length. }
  split; [split|].
  - intros r ids w bs w' Hl. by eapply pc_LookupBatch_length.
  - intros r ids w n w' Hn. destruct (Hp _ _ _ _ _ Hn) as (found & _ & -> & Hl).
    destruct (prefix_index_spec found 0) as [Hb _]. lia.
  - intros r ids w w' n Hn. destruct (Hp _ _ _ _ _ Hn) as (found & Hf & -> & Hl).
    destruct (prefix_index_spec found 0) as (_ & Hin & Hout). exists found. split; [done|]. split; [done|].
    intros Hlt. rewrite -> Z.sub_0_r in Hout. apply Hout. lia.
Qed.

(** The check of the PC store is no boolean: as a condition, its answer is true for
    every task the native store answers for, finished or not. *)
Lemma pc_check_always_true `{PcNative W} r t (w w' : W) answer :
  pc_check r t w = (Ok answer, w') → @st_check W pc_store r t w = (Ok true, w').
Proof. intros Hc. cbn [st_check pc_store]. by mrun Hc. Qed.

(** The pairs of a block and an address that a transfer is about. *)
Definition block_items (ids : list bytes) (rows : addr_rows) : list (bytes * Z) :=
  concat ((λ x : bytes * list Z, pair x.1 <$> x.2) <$> zip ids rows).

Lemma zip_repeat_rows m ids rows : Forall (λ r : list Z, length r = m) rows → length rows = length ids →
  zip (concat (replicate m <$> ids)) (concat rows) = block_items ids rows ∧
  length (concat (replicate m <$> ids)) = length (concat rows).
Proof.
  intros Hr. revert ids. unfold block_items. induction Hr as [|row rows Hm Hr IH]; intros [|b ids] Hl; try done.
  injection Hl as Hl. csimpl. destruct (IH ids Hl) as [Hz Hn].
  assert (Hrow : zip (replicate m b) row = pair b <$> row).
  { subst m. clear. induction row as [|x row IH]; [done|]. csimpl. by rewrite -> IH. }
  rewrite -> zip_with_app by (rewrite -> length_replicate; lia). rewrite -> !length_app, length_replicate.
  split; [by rewrite -> Hrow, Hz|lia].
Qed.

Lemma cast_items_all items : cast_items (Some <$> items) = Ok items.
Proof. unfold cast_items. apply map_res_Forall2. induction items; csimpl; by constructor. Qed.

Lemma length_block_items m ids rows : Forall (λ r : list Z, length r = m) rows → length rows = length ids →
  length (block_items ids rows) = (length ids * m)%nat.
Proof.
  intros Hr. revert ids. unfold block_items. induction Hr as [|row rows Hm Hr IH]; intros [|b ids] Hl; try done.
  injection Hl as Hl. csimpl. rewrite -> length_app, length_fmap, (IH ids Hl). lia.
Qed.

(** Whether tensors or arrays of addresses are passed, a transfer of the PC store
    submits every address of row [i] under block [i], in order, and nothing else. *)
Theorem pc_transfers_aligned `{PcNative W} r ids sh rows (w : W) :
  rows ≠ [] → rectangular rows = true → length rows = length ids →
  ∃ ids' addrs, SubmitPy ids' addrs = block_items ids rows ∧ length ids' = length addrs ∧
    pc_load r ids sh rows w = pc_LoadToDevice r ids' addrs w ∧
    @st_load_data W pc_store r ids sh rows w = pc_LoadToDevice r ids' addrs w ∧
    pc_dump r ids sh rows w = pc_DumpFromDevice r ids' addrs w ∧
    @st_dump_data W pc_store r ids sh rows 0 w = pc_DumpFromDevice r ids' addrs w.
Proof.
  intros Hne Hrect Hl. destruct (rectangular_spec _ Hrect) as [m Hm].
  destruct (zip_repeat_rows m ids rows Hm Hl) as [Hz Hn].
  exists (concat (replicate m <$> ids)), (concat rows). split; [done|]. split; [done|].
  assert (Hflat : _flatten_tensor_ptrs ids rows = Ok (Some <$> block_items ids rows)).
  { destruct rows as [|row rows]; [done|]. assert (Hw : length row = m) by (by inversion Hm).
    unfold _flatten_tensor_ptrs. change (py_index (row :: rows) 0) with (Ok row). cbn [mbind res_bind].
    fold (block_items ids (row :: rows)). rewrite -> Hw, (length_block_items m), Nat.ltb_irrefl, Nat.sub_diag by done.
    cbn [replicate]. by rewrite -> app_nil_r. }
  assert (Harr : flatten_addrs ids (AddrArray (zlen (default [] (head rows))) rows) = Ok (concat (replicate m <$> ids), concat rows)).
  { destruct rows as [|row rows]; [done|]. assert (Hw : length row = m) by (by inversion Hm).
    change (default [] (head (row :: rows))) with row. unfold flatten_addrs. cbn [to_matrix mbind res_bind]. unfold zlen. by rewrite -> Hw, Nat2Z.id. }
  assert (H1 : (block_items ids rows).*1 = concat (replicate m <$> ids)) by (rewrite <- Hz; apply fst_zip; lia).
  assert (H2 : (block_items ids rows).*2 = concat rows) by (rewrite <- Hz; apply snd_zip; lia).
  cbn [st_load_data st_dump_data pc_store]. unfold pc_load, pc_dump, pc_load_data, pc_dump_data, of_res, mbind, M_bind.
  rewrite -> Hflat, Harr, cast_items_all, H1, H2. done.
Qed.

Lemma set_attrs_other c l key : ∀ p p', set_attrs c l p = Ok p' → key ∉ l.*1 → dict_get key p' = dict_get key p.
Proof.
  unfold set_attrs. induction l as [|[attr [src|[src dflt] ] ] l IH]; intros p p' Hp Hk; csimpl in *; [by simplify_eq| |];
    apply not_elem_of_cons in Hk as [Hne Hk]; [res_inv Hp; res_inv Hx; injection Hx as <-|];
    rewrite -> (IH _ _ Hp Hk), dict_get_set_ne by done; done.
Qed.

(** The storage capacity and the recycling of the NFS store are never
    configured: the attributes asked for are not those of the native
    configuration. *)
Theorem nfs_capacity_never_set int_of c p : nfs_param int_of nfs_attrs c = Ok p →
  dict_get "storageCapacity" p = None ∧ dict_get "recycleEnable" p = None.
Proof.
  unfold nfs_param, base_param. intros Hp. res_inv Hp. destruct x as [tr p0].
  res_inv Hx. res_inv Hx. res_inv Hx. res_inv Hx. injection Hx as <- <-. res_inv Hp.
  rewrite -> !decide_False in Hp by (by apply (bool_decide_unpack _)). injection Hp as <-.
  destruct x2; [|by injection Hx as <-]. by rewrite -> !(set_attrs_other _ _ _ _ _ Hx) by (apply (bool_decide_unpack _); vm_compute; exact I).
Qed.

(** ** Native stores for the examples, which record what they are asked *)

#[export] Instance sim_pipeline : PipelineNative (list (list shard)) := {|
  pn_Lookup r ids := mret ((λ _, true) <$> ids);
  pn_LookupOnPrefix r ids := mret (zlen ids - 1);
  pn_Prefetch r ids := mret tt;
  pn_Load r l := λ w, (Ok (zlen w), l :: w);
  pn_Dump r l ev := λ w, (Ok (zlen w), l :: w);
  pn_Wait r t := mret tt;
  pn_Check r t := mret true;
|}.

(** Blocks whose first byte is even are stored. *)
#[export] Instance sim_pc : PcNative (list (list (bytes * Z))) := {|
  pc_Setup c := mret 0;
  pc_LookupBatch r ids := mret ((λ b, Z.even (default 1 (head b))) <$> ids);
  pc_LoadToDevice r ids addrs := λ w, (Ok (zlen w), SubmitPy ids addrs :: w);
  pc_DumpFromDevice r ids addrs := λ w, (Ok (zlen w), SubmitPy ids addrs :: w);
  pc_Wait r t := mret 0;
  pc_Check r t := mret (0, false);
  pc_AllocBatch r ids := mret ((λ _, 0) <$> ids);
  pc_CommitBatch r ids ok := mret tt;
|}.

#[export] Instance sim_pc_laws : PcNativeLaws (list (list (bytes * Z))).
Proof. split. intros r ids w bs w' [= <- <-]. by rewrite -> length_fmap. Defined.

(** A task that the native store says is not finished counts as finished. *)
Example unfinished_checks_true :
  (pc_check 0 7 ([] : list (list (bytes * Z)))).1 = Ok (0, false) ∧ (@st_check _ pc_store 0 7 ([] : list (list (bytes * Z)))).1 = Ok true.
Proof. by split. Qed.

Lemma pipeline_shards_exact_witness :
  @st_load_data _ (pipeline_store (W := list (list shard))) 0 [replicate 16 1; replicate 16 2] [0; 1] [ [100; 101]; [200; 201] ] [] =
  (Ok 0, [ [Shard (replicate 16 1) 0 [100; 101]; Shard (replicate 16 2) 1 [200; 201] ] ]).
Proof.
  destruct (pipeline_shards_exact (W := list (list shard)) 0 [replicate 16 1; replicate 16 2] [0; 1] [ [100; 101]; [200; 201] ] 0 []) as [Hl _].
  - repeat constructor.
  - repeat constructor; lia.
  - exact Hl.
Defined.

Lemma pc_store_lookups_witness :
  @StoreLaws _ (pc_store (W := list (list (bytes * Z)))) ∧
  ∃ found, pc_lookup 0 [ [2]; [4]; [5]; [6] ] ([] : list (list (bytes * Z))) = (Ok found, []) ∧
    found !! 1%nat = Some true ∧ found !! 2%nat = Some false.
Proof.
  destruct (pc_store_lookups (W := list (list (bytes * Z)))) as [Hs Hp]. split; [exact Hs|].
  destruct (Hp 0 [ [2]; [4]; [5]; [6] ] [] [] 1 eq_refl) as (found & Hf & Hin & Hout).
  exists found. split; [exact Hf|]. split; [by apply Hin|by apply Hout].
Defined.

Lemma pc_transfers_aligned_witness :
  pc_load 0 [ [1]; [2] ] [0; 0] [ [10; 11]; [20; 21] ] ([] : list (list (bytes * Z))) =
  (Ok 0, [ [([1], 10); ([1], 11); ([2], 20); ([2], 21)] ]).
Proof.
  destruct (pc_transfers_aligned (W := list (list (bytes * Z))) 0 [ [1]; [2] ] [0; 0] [ [10; 11]; [20; 21] ] [])
    as (ids & addrs & Hs & _ & Hl & _); [done|reflexivity|reflexivity|].
  rewrite -> Hl. cbn [pc_LoadToDevice sim_pc]. rewrite -> Hs. reflexivity.
Defined.
