(* ===== verification/Mooncake.v ===== *)
(** * The Mooncake store

    [ucm/store/mooncakestore/mooncake_connector.py]: a store whose transfers are
    coroutines run one after the other by an event loop in a thread of its own.
    [load] and [dump] hand a coroutine to the loop and register its future under a
    task number, [wait] takes the task out and waits for the future, [shutdown]
    cancels what is registered and stops the loop.  The threads interleave at the
    steps below: a coroutine awaits nothing, so the loop runs it without
    interruption.  The distributed store, tensors and their serialisation are
    parameters. *)
From S2P Require Import Prelude StoreConf.
Open Scope Z_scope.

Definition DEFAULT_GLOBAL_SEGMENT_SIZE : Z := 3355443200.
Definition DEFAULT_LOCAL_BUFFER_SIZE : Z := 1073741824.

Record MooncakeStoreConfig := MooncakeConf {
  local_hostname : cval;
  metadata_server : cval;
  global_segment_size : cval;
  local_buffer_size : cval;
  protocol : cval;
  device_name : cval;
  master_server_address : cval;
}.

Definition load_from_dict (c : config) : MooncakeStoreConfig :=
  MooncakeConf (dict_get_default "local_hostname" CNone c) (dict_get_default "metadata_server" CNone c)
    (dict_get_default "global_segment_size" (CInt DEFAULT_GLOBAL_SEGMENT_SIZE) c)
    (dict_get_default "local_buffer_size" (CInt DEFAULT_LOCAL_BUFFER_SIZE) c)
    (dict_get_default "protocol" (CStr "tcp") c) (dict_get_default "device_name" (CStr "") c)
    (dict_get_default "master_server_address" CNone c).

(** The distributed store. *)
Class MooncakeNative (W : Type) := {
  mn_setup : MooncakeStoreConfig → M W unit;
  mn_is_exist : string → M W Z;
  mn_get : string → M W (option bytes);
  mn_put : string → bytes → M W Z;
  mn_close : M W unit;
}.

(** Tensors with the comparison of their shapes and types, and safetensors. *)
Class Tensors (T : Type) := {
  same_kind : T → T → bool;
  safetensors_save : T → bytes;
  safetensors_load : bytes → res T;
}.

(** A coroutine: block ids, offsets and the tensors it works on. *)
Inductive coro :=
  | CLoad (block_ids : list string) (offset : list Z) (dst_tensor : list Z)
  | CDump (block_ids : list string) (offset : list Z) (src_tensor : list Z).

(** What a future holds when it is done. *)
Inductive outcome :=
  | Returned (ret : Z)
  | Failed (e : exn)
  | Cancelled.

Record mooncake := Mooncake {
  shutting_down : bool;
  task_id : Z;
  tasks : dict Z Z;
  (** the loop: whether it runs, its coroutines with their futures, what is done *)
  loop_running : bool;
  loop_queue : list (Z * coro);
  loop_done : dict Z outcome;
  next_future : Z;
}.

Definition new_mooncake : mooncake := Mooncake false 0 [] true [] [] 1.

(** The key of a block. *)
Definition block_hash (block_id : string) (offset : Z) : string := block_id +:+ "_" +:+ pretty offset.

Section mooncake.
  Context {W T : Type} `{MooncakeNative W} `{Tensors T}.

(** The memory the tensors live in. *)
Abbreviation memory := (gmap Z T).
Notation LM := (M (memory * W)).
Notation MM := (M (mooncake * (memory * W))).

Definition on_store {B} (m : M W B) : LM B := lift snd (λ w s, (s.1, w)) m.
Definition on_loop {B} (m : LM B) : MM B := lift snd (λ x s, (s.1, x)) m.
Definition upm (f : mooncake → mooncake) : MM unit := modify (λ s, (f s.1, s.2)).
Definition getm {B} (f : mooncake → B) : MM B := gets (λ s, f s.1).

Definition tensor_at (r : Z) : LM T := m ← gets fst; of_res (match m !! r with Some t => Ok t | None => Raise AttributeError end).

(** A type error of the store is raised again as one. *)
Definition retype {B} (m : M W B) : M W B :=
  try_except m (λ e, match e with TypeError _ => raise (TypeError "Mooncake Store Type Error.") | e => raise e end).

(** The loops over the blocks; [true] when all were transferred. *)
Fixpoint load_blocks (l : list (string * Z)) (offset : list Z) (i : Z) : LM Z :=
  match l with
  | [] => mret 0
  | (block_id, dst) :: l =>
      o ← of_res (py_index offset i);
      data ← on_store (retype (mn_get (block_hash block_id o)));
      match data with
      | Some ((_ :: _) as data) =>
          tensor_cpu ← of_res (safetensors_load data);
          dst_t ← tensor_at dst;
          assert_ (same_kind dst_t tensor_cpu) ;;
          modify (λ s, (<[dst := tensor_cpu]> s.1, s.2)) ;;
          load_blocks l offset (i + 1)
      | _ => mret 1
      end
  end.

Fixpoint dump_blocks (l : list (string * Z)) (offset : list Z) (i : Z) : LM Z :=
  match l with
  | [] => mret 0
  | (block_id, src) :: l =>
      t ← tensor_at src;
      o ← of_res (py_index offset i);
      ret ← on_store (retype (mn_put (block_hash block_id o) (safetensors_save t)));
      if ret =? 0 then dump_blocks l offset (i + 1) else mret ret
  end.

Definition _load_impl (block_ids : list string) (offset : list Z) (dst_tensor : list Z) : LM Z :=
  assert_ (zlen block_ids =? zlen dst_tensor) ;; load_blocks (zip block_ids dst_tensor) offset 0.
Definition _dump_impl (block_ids : list string) (offset : list Z) (src_tensor : list Z) : LM Z :=
  assert_ (zlen block_ids =? zlen src_tensor) ;; dump_blocks (zip block_ids src_tensor) offset 0.

Definition run_coro (c : coro) : LM Z :=
  match c with
  | CLoad block_ids offset dst => _load_impl block_ids offset dst
  | CDump block_ids offset src => _dump_impl block_ids offset src
  end.

(** ** The steps of the threads *)

Definition shutdown_error {B} : MM B := raise (RuntimeError "UcmMooncakeStore is shutting down.").

Definition mc_lookup (block_ids : list string) : MM (list bool) :=
  down ← getm shutting_down;
  if (down : bool) then shutdown_error
  else on_loop (on_store ((fix go l := match l with
    | [] => mret []
    | b :: l => n ← mn_is_exist (block_hash b 0); rest ← go l; mret ((n =? 1) :: rest)
    end) block_ids)).

Definition mc_create (block_ids : list string) : MM (list Z) := mret ((λ _, 0) <$> block_ids).

(** [run_coroutine_threadsafe], then the section under the lock. *)
Definition submit (c : coro) : MM Z :=
  down ← getm shutting_down;
  if (down : bool) then shutdown_error
  else
    f ← getm next_future;
    upm (λ s, Mooncake (shutting_down s) (task_id s) (tasks s) (loop_running s) (loop_queue s ++ [(f, c)]) (loop_done s) (f + 1)) ;;
    mret f.
Definition register (f : Z) : MM Z :=
  upm (λ s, Mooncake (shutting_down s) (task_id s + 1) (dict_set (task_id s + 1) f (tasks s)) (loop_running s)
              (loop_queue s) (loop_done s) (next_future s)) ;;
  getm task_id.

Definition mc_load (block_ids : list string) (offset dst_tensor : list Z) : MM Z :=
  f ← submit (CLoad block_ids offset dst_tensor); register f.
Definition mc_dump (block_ids : list string) (offset src_tensor : list Z) : MM Z :=
  f ← submit (CDump block_ids offset src_tensor); register f.

(** A future that is done stays as it is. *)
Definition set_done (f : Z) (o : outcome) (d : dict Z outcome) : dict Z outcome :=
  if dict_mem f d then d else dict_set f o d.

(** The loop runs its oldest coroutine. *)
Definition loop_step : MM unit :=
  running ← getm loop_running;
  queue ← getm loop_queue;
  match (running : bool), queue with
  | true, (f, c) :: queue =>
      r ← (λ s, let '(r, x) := run_coro c s.2 in (Ok r, (s.1, x)));
      let o := match r with Ok n => Returned n | Raise e => Failed e end in
      upm (λ s, Mooncake (shutting_down s) (task_id s) (tasks s) (loop_running s) queue (set_done f o (loop_done s)) (next_future s))
  | _, _ => mret tt
  end.

(** [wait] takes the task out, then waits; a future that is never done is
    cancelled after the timeout. *)
Definition wait_begin (t : Z) : MM (option Z) :=
  d ← getm tasks;
  upm (λ s, Mooncake (shutting_down s) (task_id s) (dict_del t (tasks s)) (loop_running s) (loop_queue s) (loop_done s) (next_future s)) ;;
  mret (dict_get t d).
Definition wait_end (f : Z) : MM Z :=
  d ← getm loop_done;
  match dict_get f d with
  | Some (Returned ret) => mret ret
  | Some _ => mret 1
  | None =>
      upm (λ s, Mooncake (shutting_down s) (task_id s) (tasks s) (loop_running s) (loop_queue s) (set_done f Cancelled (loop_done s)) (next_future s)) ;;
      mret 1
  end.

(** [wait] by a thread that lets the loop work [n] times before the timeout. *)
Definition mc_wait (n : nat) (t : Z) : MM Z :=
  f ← wait_begin t;
  match f with
  | None => mret 1
  | Some f => for_each (replicate n tt) (λ _, loop_step) ;; wait_end f
  end.

Definition mc_shutdown : MM unit :=
  down ← getm shutting_down;
  if (down : bool) then mret tt
  else
    upm (λ s, Mooncake true (task_id s) [] false (loop_queue s)
                (foldl (λ d f, set_done f Cancelled d) (loop_done s) (tasks s).*2) (next_future s)) ;;
    on_loop (on_store mn_close).

(** [__init__]: a type error of the setup is only logged. *)
Definition UcmMooncakeStore (c : config) : MM unit :=
  on_loop (on_store (try_except (mn_setup (load_from_dict c))
    (λ e, match e with TypeError _ => mret tt | e => raise e end))) ;;
  upm (λ _, new_mooncake).

End mooncake.
