(* ===== verification/MooncakeProps.v ===== *)
(** * Properties of the Mooncake store

    Keys stand for blocks, what was dumped is what is loaded, and under every
    interleaving of the threads a registered task is settled by the loop. *)
From S2P Require Import Prelude PyStrings StoreConf Mooncake.
Open Scope Z_scope.

(** ** Keys *)

(** The key of a block determines the block and the offset. *)
Lemma block_hash_inj b1 o1 b2 o2 : block_hash b1 o1 = block_hash b2 o2 → b1 = b2 ∧ o1 = o2.
Proof.
  unfold block_hash. intros Heq.
  destruct (last_sep_inj "_" b1 (pretty o1) b2 (pretty o2)) as [Hb Ho]; [by apply pretty_no_sep|by apply pretty_no_sep|exact Heq|].
  split; [exact Hb|]. by apply (inj pretty).
Qed.

(** ** Dumps and loads *)

(** The distributed store as a map: what was put is what [get] and [is_exist] see. *)
Class MooncakeLaws (W : Type) `{MooncakeNative W} := {
  kv : W → gmap string bytes;
  mn_is_exist_spec k w : mn_is_exist k w = (Ok (if kv w !! k then 1 else 0), w);
  mn_get_spec k w : mn_get k w = (Ok (kv w !! k), w);
  mn_put_spec k v w r w' : mn_put k v w = (r, w') → r = Ok 0 → kv w' = <[k := v]> (kv w);
}.

Class TensorLaws (T : Type) `{Tensors T} := {
  load_save t : safetensors_load (safetensors_save t) = Ok t;
  save_not_empty t : safetensors_save t ≠ [];
}.

Section transfers.
  Context {W T : Type} `{MooncakeLaws W} `{TensorLaws T}.
Abbreviation memory := (gmap Z T).

(** The key of the [k]-th block of a transfer. *)
Definition keys_from (ids : list string) (offset : list Z) : list string :=
  (λ x, block_hash x.1 x.2) <$> zip ids offset.

Lemma retype_Ok {B} (m : M W B) w x w' : retype m w = (Ok x, w') → m w = (Ok x, w').
Proof. unfold retype, try_except. destruct (m w) as [[y|e] w1]; [done|]. by destruct e. Qed.

Lemma dump_blocks_run l offset : ∀ i ks (m : memory) (w w' : W) m', 0 ≤ i →
  length ks = length l → (∀ k, (k < length l)%nat → is_Some (offset !! (Z.to_nat i + k)%nat)) →
  (∀ k b src, l !! k = Some (b, src) → ∃ o, offset !! (Z.to_nat i + k)%nat = Some o ∧ ks !! k = Some (block_hash b o)) →
  NoDup ks → dump_blocks l offset i (m, w) = (Ok 0, (m', w')) →
  m' = m ∧ (∀ key, key ∉ ks → kv w' !! key = kv w !! key) ∧
  (∀ k b src, l !! k = Some (b, src) → ∃ t key, m !! src = Some t ∧ ks !! k = Some key ∧ kv w' !! key = Some (safetensors_save t)).
Proof.
  induction l as [|[b src] l IH]; intros i ks m w w' m' Hi Hks Ho Hkey Hnd Hrun; cbn [dump_blocks] in Hrun.
  { injection Hrun as <- <-. split_and!; [done|done|]. intros k b src Hk. by rewrite -> lookup_nil in Hk. }
  destruct ks as [|key ks]; [done|]. injection Hks as Hks. apply NoDup_cons in Hnd as [Hkn Hnd].
  apply M_Ok_inv in Hrun as (t & s1 & Ht & Hrun). unfold tensor_at, gets, of_res, mbind, M_bind in Ht. cbn in Ht.
  destruct (m !! src) as [t'|] eqn:Hsrc; [|done]. injection Ht as -> <-.
  apply M_Ok_inv in Hrun as (o & s1 & Ho1 & Hrun). unfold of_res in Ho1. injection Ho1 as Ho1 <-.
  apply py_index_lookup in Ho1; [|done].
  destruct (Hkey 0%nat b src eq_refl) as (o' & Ho' & Hk'). rewrite -> Nat.add_0_r, Ho1 in Ho'. injection Ho' as <-.
  cbn in Hk'. injection Hk' as ->.
  apply M_Ok_inv in Hrun as (ret & s1 & Hput & Hrun). unfold on_store, lift in Hput. cbn [snd fst] in Hput.
  destruct (retype _ w) as [r1 w1] eqn:Hr. injection Hput as -> <-. apply retype_Ok in Hr.
  destruct (ret =? 0) eqn:Hz; [apply Z.eqb_eq in Hz as ->|injection Hrun as -> _; done].
  pose proof (mn_put_spec _ _ _ _ _ Hr eq_refl) as Hkv.
  destruct (IH (i + 1) ks m w1 w' m') as (-> & Hother & Hin); [lia|done| | |done|exact Hrun|].
  { intros k Hk. replace (Z.to_nat (i + 1) + k)%nat with (Z.to_nat i + S k)%nat by lia. apply Ho. cbn. lia. }
  { intros k b' src' Hk. destruct (Hkey (S k) b' src' Hk) as (o' & Hoo & Hkk). exists o'. split; [|exact Hkk].
    rewrite <- Hoo. f_equal. lia. }
  split; [done|]. split.
  - intros k [Hne Hk]%not_elem_of_cons. rewrite -> Hother, Hkv, lookup_insert_ne by done. done.
  - intros [|k] b' src' Hk; cbn in Hk.
    + injection Hk as <- <-. exists t, (block_hash b o). split_and!; [done|done|]. rewrite -> Hother, Hkv by done. apply lookup_insert_eq.
    + apply Hin in Hk as (t' & key & ? & ? & ?). by exists t', key.
Qed.

Lemma load_blocks_run l offset : ∀ i (m : memory) (w : W) ts, 0 ≤ i → NoDup l.*2 → length ts = length l →
  (∀ k b dst, l !! k = Some (b, dst) → ∃ o t td, offset !! (Z.to_nat i + k)%nat = Some o ∧ ts !! k = Some t ∧
     kv w !! block_hash b o = Some (safetensors_save t) ∧ m !! dst = Some td ∧ same_kind td t = true) →
  ∃ m', load_blocks l offset i (m, w) = (Ok 0, (m', w)) ∧
    (∀ r, r ∉ l.*2 → m' !! r = m !! r) ∧ (∀ k b dst, l !! k = Some (b, dst) → m' !! dst = ts !! k).
Proof.
  induction l as [|[b dst] l IH]; intros i m w ts Hi Hnd Hts Hl.
  { exists m. split_and!; [done|done|]. intros k b dst Hk. by rewrite -> lookup_nil in Hk. }
  destruct ts as [|t ts]; [done|]. injection Hts as Hts. csimpl in Hnd. apply NoDup_cons in Hnd as [Hdn Hnd].
  destruct (Hl 0%nat b dst eq_refl) as (o & t0 & td & Ho & Ht & Hkv & Hm & Hk). cbn in Ht. injection Ht as <-.
  rewrite -> Nat.add_0_r in Ho. cbn [load_blocks].
  erewrite M_bind_Ok; [|unfold of_res; apply py_index_lookup in Ho; [rewrite -> Ho; reflexivity|done] ].
  erewrite M_bind_Ok; [|unfold on_store, lift, retype, try_except; cbn [snd]; rewrite -> mn_get_spec; reflexivity].
  cbn [fst snd]. rewrite -> Hkv. destruct (safetensors_save t) as [|x xs] eqn:Hs; [by destruct (save_not_empty t)|].
  rewrite <- Hs, load_save. mstep. erewrite M_bind_Ok; [|unfold tensor_at; mstep; rewrite -> Hm; reflexivity].
  cbn [fst snd]. rewrite -> Hk. cbn [assert_]. mstep. mstep.
  destruct (IH (i + 1) (<[dst := t]> m) w ts) as (m' & Hrun & Hother & Hin); [lia|done|done| |].
  { intros k b' dst' Hk'. destruct (Hl (S k) b' dst' Hk') as (o' & t' & td' & Ho' & Ht' & Hkv' & Hm' & Hs').
    exists o', t', td'. split_and!; [|done|done| |done].
    - rewrite <- Ho'. f_equal. lia.
    - rewrite -> lookup_insert_ne; [done|]. intros <-. apply Hdn. apply list_elem_of_fmap. exists (b', dst).
      split; [done|]. by eapply list_elem_of_lookup_2. }
  exists m'. split; [exact Hrun|]. split.
  - intros r. csimpl. intros [Hne Hr]%not_elem_of_cons. rewrite -> Hother by done. by rewrite -> lookup_insert_ne.
  - intros [|k] b' dst' Hk'; cbn in Hk'.
    + injection Hk' as <- <-. cbn. rewrite -> Hother by done. apply lookup_insert_eq.
    + by apply Hin in Hk'.
Qed.

(** A store that takes tasks and whose loop has nothing left to do. *)
Definition idle (st : mooncake) : Prop :=
  shutting_down st = false ∧ loop_running st = true ∧ loop_queue st = [] ∧
  ∀ f, f ∈ (loop_done st).*1 → f < next_future st.

(** Handing over a coroutine and waiting for it. *)
Lemma transfer_waits c st (x : memory * W) : idle st → ∃ st', idle st' ∧
  (f ← submit c; t ← register f; mc_wait 1 t) (st, x) =
  (Ok (match (run_coro c x).1 with Ok n => n | Raise _ => 1 end), (st', (run_coro c x).2)).
Proof.
  intros (Hd & Hr & Hq & Hf). destruct st as [down tid tsk run queue dn nf]. cbn in *. subst.
  destruct (run_coro c x) as [r x'] eqn:Hc.
  assert (Hfresh : dict_mem nf dn = false).
  { unfold dict_mem. apply bool_decide_eq_false. intros [o Ho]. apply dict_get_Some_elem in Ho.
    specialize (Hf nf). apply Z.lt_irrefl with nf. apply Hf. apply list_elem_of_fmap. by exists (nf, o). }
  set (o := match r with Ok n => Returned n | Raise e => Failed e end).
  exists (Mooncake false (tid + 1) (dict_del (tid + 1) (dict_set (tid + 1) nf tsk)) true [] (dict_set nf o dn) (nf + 1)).
  split.
  { split_and!; try done. cbn. intros f [->|Hin]%dict_set_keys; [lia|]. specialize (Hf f Hin). lia. }
  do 2 mstep. unfold mc_wait. mstep. cbn [tasks task_id next_future]. rewrite -> dict_get_set_eq.
  assert (Hl : loop_step (Mooncake false (tid + 1) (dict_del (tid + 1) (dict_set (tid + 1) nf tsk)) true [(nf, c)] dn (nf + 1), x) =
    (Ok tt, (Mooncake false (tid + 1) (dict_del (tid + 1) (dict_set (tid + 1) nf tsk)) true [] (dict_set nf o dn) (nf + 1), x'))).
  { unfold loop_step. do 2 mstep. cbn [loop_running loop_queue]. unfold mbind, M_bind. cbn [snd]. rewrite -> Hc.
    unfold upm, modify. cbn. unfold set_done. by rewrite -> Hfresh. }
  cbn [replicate for_each app]. erewrite M_bind_Ok; [|erewrite M_bind_Ok by exact Hl; reflexivity].
  unfold wait_end. mstep. cbn [loop_done]. rewrite -> dict_get_set_eq. unfold o. by destruct r.
Qed.

End transfers.

(** A dump waited for with result 0 leaves every block in the store under its key. *)
Lemma dump_stores {W T} `{MooncakeLaws W} `{TensorLaws T} st (m : gmap Z T) (w : W) ids offset srcs s1 :
  idle st → length offset = length ids → NoDup (zip ids offset) →
  (t ← mc_dump ids offset srcs; mc_wait 1 t) (st, (m, w)) = (Ok 0, s1) →
  length srcs = length ids ∧ ∃ st1 w1, idle st1 ∧ s1 = (st1, (m, w1)) ∧
    ∀ k b o src, ids !! k = Some b → offset !! k = Some o → srcs !! k = Some src →
      ∃ t, m !! src = Some t ∧ kv w1 !! block_hash b o = Some (safetensors_save t).
Proof.
  intros Hidle Hlo Hnd Hrun. unfold mc_dump in Hrun. rewrite -> M_bind_assoc in Hrun.
  destruct (transfer_waits (CDump ids offset srcs) st (m, w) Hidle) as (st1 & Hidle1 & Hw). rewrite -> Hw in Hrun. clear Hw.
  destruct (run_coro _ (m, w)) as [[n|e] [m1 w1] ] eqn:Hc; [|by simplify_eq]. injection Hrun as -> <-.
  cbn [run_coro] in Hc. unfold _dump_impl in Hc. apply M_Ok_inv in Hc as ([] & x & Ha & Hc).
  unfold assert_ in Ha. destruct (zlen ids =? zlen srcs) eqn:Hls; [|done]. injection Ha as <-. apply Z.eqb_eq in Hls. unfold zlen in Hls.
  assert (Hl2 : length (zip ids offset) = length ids) by (rewrite -> length_zip; lia).
  assert (Hl3 : length (zip ids srcs) = length ids) by (rewrite -> length_zip; lia).
  assert (Hks : ∀ k b o, ids !! k = Some b → offset !! k = Some o → keys_from ids offset !! k = Some (block_hash b o)).
  { intros k b o Hb Ho. unfold keys_from. rewrite -> list_lookup_fmap, lookup_zip_with, Hb, Ho. done. }
  destruct (dump_blocks_run (zip ids srcs) offset 0 (keys_from ids offset) m w w1 m1) as (-> & _ & Hin).
  - lia.
  - unfold keys_from. rewrite -> length_fmap. lia.
  - intros k Hk. apply lookup_lt_is_Some. cbn. lia.
  - intros k b src [Hb Hs]%lookup_zip_Some. destruct (lookup_lt_is_Some_2 offset k) as [o Ho]; [apply lookup_lt_Some in Hb; lia|].
    exists o. split; [done|]. by apply Hks.
  - unfold keys_from. apply NoDup_fmap_2_strong; [|done]. intros [b1 o1] [b2 o2] _ _ Heq.
    apply block_hash_inj in Heq as [? ?]. cbn in *. by subst.
  - exact Hc.
  - split; [lia|]. exists st1, w1. split_and!; [done|done|]. intros k b o src Hb Ho Hs.
    destruct (Hin k b src) as (t & key & Ht & Hkey & Hkv); [by apply lookup_zip_Some|].
    rewrite -> (Hks k b o Hb Ho) in Hkey. injection Hkey as <-. by exists t.
Qed.

(** Blocks in the store are loaded into the tensors given. *)
Lemma load_finds {W T} `{MooncakeLaws W} `{TensorLaws T} st (m : gmap Z T) (w : W) ids offset dsts ts :
  idle st → length offset = length ids → length dsts = length ids → length ts = length ids → NoDup dsts →
  (∀ k b o dst t, ids !! k = Some b → offset !! k = Some o → dsts !! k = Some dst → ts !! k = Some t →
     kv w !! block_hash b o = Some (safetensors_save t) ∧ ∃ td, m !! dst = Some td ∧ same_kind td t = true) →
  ∃ s2, (t ← mc_load ids offset dsts; mc_wait 1 t) (st, (m, w)) = (Ok 0, s2) ∧
    (∀ k dst, dsts !! k = Some dst → s2.2.1 !! dst = ts !! k) ∧
    ∀ r, r ∉ dsts → s2.2.1 !! r = m !! r.
Proof.
  intros Hidle Hlo Hld Hlt Hnd Hall. destruct (transfer_waits (CLoad ids offset dsts) st (m, w) Hidle) as (st2 & _ & Hw).
  unfold mc_load. rewrite -> M_bind_assoc, Hw. clear Hw. cbn [run_coro]. unfold _load_impl.
  assert (Hz : (zlen ids =? zlen dsts) = true) by (apply Z.eqb_eq; unfold zlen; lia). rewrite -> Hz. cbn [assert_].
  erewrite M_bind_Ok by reflexivity.
  destruct (load_blocks_run (zip ids dsts) offset 0 m w ts) as (m2 & Hload & Hother & Hdst).
  - lia.
  - rewrite -> snd_zip by lia. done.
  - rewrite -> length_zip. lia.
  - intros k b dst [Hb Hd]%lookup_zip_Some. pose proof (lookup_lt_Some _ _ _ Hb) as Hk.
    destruct (lookup_lt_is_Some_2 offset k) as [o Ho]; [lia|]. destruct (lookup_lt_is_Some_2 ts k) as [t Ht]; [lia|].
    destruct (Hall k b o dst t Hb Ho Hd Ht) as (Hkv & td & Htd & Hkind). by exists o, t, td.
  - rewrite -> Hload. eexists. split; [reflexivity|]. cbn [fst snd]. split.
    + intros k dst Hd. destruct (lookup_lt_is_Some_2 ids k) as [b Hb]; [apply lookup_lt_Some in Hd; lia|].
      apply (Hdst k b). by apply lookup_zip_Some.
    + intros r Hr. apply Hother. by rewrite -> snd_zip by lia.
Qed.

(** C22: What was dumped is what is loaded: when a dump of distinct blocks into an
    otherwise idle store was waited for with result 0, the blocks at offset 0 are
    found by [lookup], and loading the same blocks into other tensors of the same
    kind returns 0 and gives each of them the contents of the tensor dumped.  The
    dump changes no tensor, the load none but its destinations. *)
Theorem mooncake_load_finds_dump {W T} `{MooncakeLaws W} `{TensorLaws T} st (m : gmap Z T) (w : W) ids offset srcs dsts s1 :
  idle st → length offset = length ids → length dsts = length ids → NoDup (zip ids offset) → NoDup dsts →
  (t ← mc_dump ids offset srcs; mc_wait 1 t) (st, (m, w)) = (Ok 0, s1) →
  (∀ k src dst, srcs !! k = Some src → dsts !! k = Some dst →
     ∃ t td, m !! src = Some t ∧ m !! dst = Some td ∧ same_kind td t = true) →
  (∀ k b, ids !! k = Some b → offset !! k = Some 0 → (mc_lookup (T := T) [b] s1).1 = Ok [true]) ∧
  s1.2.1 = m ∧
  ∃ s2, (t ← mc_load ids offset dsts; mc_wait 1 t) s1 = (Ok 0, s2) ∧
    (∀ k src dst, srcs !! k = Some src → dsts !! k = Some dst → s2.2.1 !! dst = m !! src) ∧
    ∀ r, r ∉ dsts → s2.2.1 !! r = m !! r.
Proof.
  intros Hidle Hlo Hld Hnd Hndd Hrun Hkinds.
  destruct (dump_stores st m w ids offset srcs s1 Hidle Hlo Hnd Hrun) as (Hls & st1 & w1 & Hidle1 & -> & Hstored). split; [|split; [done|] ].
  - intros k b Hb Ho. destruct Hidle1 as (Hdown & _). unfold mc_lookup. mstep. rewrite -> Hdown.
    destruct (lookup_lt_is_Some_2 srcs k) as [src Hsrc]; [apply lookup_lt_Some in Hb; lia|].
    destruct (Hstored k b 0 src Hb Ho Hsrc) as (t & _ & Hkv).
    unfold on_loop, on_store, lift. cbn [snd fst]. unfold mbind, M_bind. rewrite -> mn_is_exist_spec, Hkv. done.
  - assert (Hsome : is_Some (mapM (λ src, m !! src) srcs)).
    { apply mapM_is_Some, Forall_lookup. intros k src Hs. pose proof (lookup_lt_Some _ _ _ Hs) as Hk.
      destruct (lookup_lt_is_Some_2 ids k) as [b Hb]; [lia|]. destruct (lookup_lt_is_Some_2 offset k) as [o Ho]; [lia|].
      destruct (Hstored k b o src Hb Ho Hs) as (t & Ht & _). by exists t. }
    destruct Hsome as [ts Hts]. apply mapM_Some in Hts. pose proof (Forall2_length _ _ _ Hts) as Hlt.
    assert (Hsrc : ∀ k t, ts !! k = Some t → ∃ src, srcs !! k = Some src ∧ m !! src = Some t).
    { intros k t Ht. destruct (Forall2_lookup_r _ _ _ _ _ Hts Ht) as (src & Hs & Hm). by exists src. }
    destruct (load_finds st1 m w1 ids offset dsts ts) as (s2 & Hload & Hdst & Hother); [done|done|done|lia|done| |].
    + intros k b o dst t Hb Ho Hd Ht. destruct (Hsrc k t Ht) as (src & Hs & Hm).
      destruct (Hstored k b o src Hb Ho Hs) as (t1 & Ht1 & Hkv), (Hkinds k src dst Hs Hd) as (t2 & td & Ht2 & Htd & Hk).
      simplify_eq. split; [done|]. by exists td.
    + exists s2. split; [exact Hload|]. split; [|exact Hother]. intros k src dst Hs Hd. rewrite -> (Hdst k dst Hd).
      destruct (Forall2_lookup_l _ _ _ _ _ Hts Hs) as (t & Ht & Heq). congruence.
Qed.

(** ** Interleavings *)

Section threads.
  Context {W T : Type} `{MooncakeNative W} `{Tensors T}.
Abbreviation memory := (gmap Z T).

(** The states the threads can bring the store to, with the futures that were
    handed to the loop and are not registered yet.  Memory and the distributed
    store may change at any time. *)
Inductive mc_run : list Z → mooncake → Prop :=
  | run_new : mc_run [] new_mooncake
  | run_submit F st (x : memory * W) c f st' x' :
      mc_run F st → submit c (st, x) = (Ok f, (st', x')) → mc_run (f :: F) st'
  | run_register F G f st (x : memory * W) t st' x' :
      mc_run (F ++ f :: G) st → register f (st, x) = (Ok t, (st', x')) → mc_run (F ++ G) st'
  | run_loop F st (x : memory * W) st' x' :
      mc_run F st → loop_step (st, x) = (Ok tt, (st', x')) → mc_run F st'
  | run_wait F st (x : memory * W) t f st' x' :
      mc_run F st → wait_begin t (st, x) = (Ok f, (st', x')) → mc_run F st'
  | run_waited F st (x : memory * W) f r st' x' :
      mc_run F st → wait_end f (st, x) = (Ok r, (st', x')) → mc_run F st'
  | run_shutdown F st (x : memory * W) st' x' r :
      mc_run F st → mc_shutdown (st, x) = (r, (st', x')) → mc_run F st'.

(** Every future is one task's or one thread's, and queued or done. *)
Definition futures_ok (F : list Z) (st : mooncake) : Prop :=
  NoDup (F ++ (tasks st).*2) ∧ NoDup (tasks st).*1 ∧
  (∀ t, t ∈ (tasks st).*1 → 1 ≤ t ≤ task_id st) ∧ 0 ≤ task_id st ∧
  (∀ f, f ∈ F ++ (tasks st).*2 → f ∈ (loop_queue st).*1 ∨ is_Some (dict_get f (loop_done st))) ∧
  (∀ f, f ∈ (F ++ (tasks st).*2) ++ (loop_queue st).*1 → f < next_future st).

Lemma set_done_get f g o d : dict_get g (set_done f o d) = match dict_get g d with
  | Some o' => Some o' | None => if decide (f = g) then Some o else None end.
Proof.
  unfold set_done, dict_mem. case_bool_decide as Hf.
  - case_decide as Hg; [subst; destruct Hf as [o' ->]; done|by destruct (dict_get g d)].
  - rewrite -> dict_get_set. case_decide as Hg; [subst|by destruct (dict_get g d)].
    destruct (dict_get g d) eqn:Hd; [|done]. exfalso. apply Hf. by eexists.
Qed.

Lemma set_done_mono f g o d : is_Some (dict_get g d) → is_Some (dict_get g (set_done f o d)).
Proof. rewrite -> set_done_get. by intros [o' ->]. Qed.

Lemma futures_submit F st x c f st' x' : futures_ok F st → submit (T := T) (W := W) c (st, x) = (Ok f, (st', x')) →
  futures_ok (f :: F) st'.
Proof.
  intros (Hn & Hk & Ht & Hi & Hq & Hlt) Hrun. unfold submit in Hrun. munfold. destruct (shutting_down st); [done|]. munfold.
  injection Hrun as <- <- <-. split_and!; cbn.
  - constructor; [|done]. intros Hin. apply (Z.lt_irrefl (next_future st)), Hlt, elem_of_app. by left.
  - done.
  - done.
  - done.
  - intros f [->|Hf]%elem_of_cons; rewrite -> fmap_app, elem_of_app; [left; right; left|].
    destruct (Hq f Hf); tauto.
  - intros f Hf. rewrite -> fmap_app in Hf. csimpl in *.
    assert (Hc : f = next_future st ∨ f ∈ (F ++ (tasks st).*2) ++ (loop_queue st).*1) by set_solver.
    destruct Hc as [->|Hc]; [lia|]. specialize (Hlt f Hc). lia.
Qed.

Lemma futures_register F G f st (x : memory * W) t st' x' :
  futures_ok (F ++ f :: G) st → register f (st, x) = (Ok t, (st', x')) → futures_ok (F ++ G) st'.
Proof.
  intros (Hn & Hk & Ht & Hi & Hq & Hlt) Hrun. unfold register in Hrun. munfold. injection Hrun as <- <- <-.
  assert (Hfresh : task_id st + 1 ∉ (tasks st).*1) by (intros Hin%Ht; lia).
  assert (Hp : (F ++ G) ++ (dict_set (task_id st + 1) f (tasks st)).*2 ≡ₚ (F ++ f :: G) ++ (tasks st).*2).
  { rewrite -> dict_set_fresh by done. rewrite -> fmap_app. csimpl. rewrite <- !app_assoc. cbn. apply Permutation_app_head.
    rewrite -> app_assoc. symmetry. rewrite -> Permutation_cons_append. done. }
  split_and!; cbn [tasks task_id loop_queue loop_done next_future].
  - by rewrite -> Hp.
  - by apply dict_set_NoDup.
  - intros t Hin%dict_set_keys. destruct Hin as [->|Hin]; [lia|]. specialize (Ht t Hin). lia.
  - lia.
  - intros g Hg. apply Hq. by rewrite <- Hp.
  - intros g Hg. apply Hlt. by rewrite <- Hp.
Qed.

Lemma futures_loop F st (x : memory * W) st' x' : futures_ok F st → loop_step (st, x) = (Ok tt, (st', x')) → futures_ok F st'.
Proof.
  intros (Hn & Hk & Ht & Hi & Hq & Hlt) Hrun. unfold loop_step in Hrun. do 2 (erewrite M_bind_Ok in Hrun by reflexivity).
  cbn [fst snd] in Hrun. destruct (loop_running st); [|injection Hrun as <- <-; by split_and!].
  destruct (loop_queue st) as [|[f c] queue] eqn:Hqueue; [injection Hrun as <- <-; by split_and!; rewrite -> ?Hqueue|].
  unfold mbind, M_bind in Hrun. cbn [snd] in Hrun. destruct (run_coro c x) as [r x1]. unfold upm, modify in Hrun. cbn in Hrun.
  injection Hrun as <- <-. split_and!; cbn [tasks task_id loop_queue loop_done next_future]; try done.
  - intros g Hg. destruct (Hq g Hg) as [Hin|Hd]; [|right; by apply set_done_mono].
    csimpl in *. apply elem_of_cons in Hin as [->|Hin]; [right|by left]. rewrite -> set_done_get.
    destruct (dict_get f (loop_done st)); [done|]. by rewrite -> decide_True.
  - intros g Hg. apply Hlt. csimpl. set_solver.
Qed.

Lemma futures_wait F st (x : memory * W) t f st' x' : futures_ok F st → wait_begin t (st, x) = (Ok f, (st', x')) → futures_ok F st'.
Proof.
  intros (Hn & Hk & Ht & Hi & Hq & Hlt) Hrun. unfold wait_begin in Hrun. munfold. injection Hrun as <- <- <-.
  assert (Hs : (dict_del t (tasks st)).*2 `sublist_of` (tasks st).*2) by apply fmap_sublist, sublist_filter.
  assert (Hin : ∀ g, g ∈ F ++ (dict_del t (tasks st)).*2 → g ∈ F ++ (tasks st).*2).
  { intros g. rewrite -> !elem_of_app. intros [Hg|Hg]; [by left|right]. by eapply elem_of_sublist. }
  split_and!; cbn [tasks task_id loop_queue loop_done next_future]; try done.
  - eapply sublist_NoDup; [exact Hn|]. by apply sublist_app.
  - by apply dict_del_NoDup.
  - intros u [_ Hu]%dict_del_keys. by apply Ht.
  - intros g Hg. apply Hq. by apply Hin.
  - intros g [Hg|Hg]%elem_of_app; apply Hlt; apply elem_of_app; [left; by apply Hin|by right].
Qed.

Lemma futures_waited F st (x : memory * W) f r st' x' : futures_ok F st → wait_end f (st, x) = (Ok r, (st', x')) → futures_ok F st'.
Proof.
  intros (Hn & Hk & Ht & Hi & Hq & Hlt) Hrun. unfold wait_end in Hrun. munfold.
  destruct (dict_get f (loop_done st)) as [[]|]; munfold; injection Hrun as <- <- <-; split_and!; try done; cbn.
  intros g Hg. destruct (Hq g Hg); [by left|right]. by apply set_done_mono.
Qed.

Lemma futures_shutdown F st (x : memory * W) st' x' r : futures_ok F st → mc_shutdown (st, x) = (r, (st', x')) → futures_ok F st'.
Proof.
  intros (Hn & Hk & Ht & Hi & Hq & Hlt) Hrun. unfold mc_shutdown in Hrun. munfold. destruct (shutting_down st); munfold.
  { injection Hrun as <- <- <-. by split_and!. }
  unfold on_loop, on_store, lift in Hrun. cbn in Hrun. destruct (mn_close _) as [r1 w1]. injection Hrun as <- <- <-.
  split_and!; cbn [tasks task_id loop_queue loop_done next_future]; try done.
  - apply NoDup_app in Hn as (Hn & _). csimpl. by rewrite -> app_nil_r.
  - constructor.
  - intros t Hin. by apply elem_of_nil in Hin.
  - intros f. csimpl. rewrite -> app_nil_r. intros Hf. destruct (Hq f) as [?|Hd]; [set_solver|by left|right].
    clear -Hd. revert Hd. generalize (loop_done st). induction (tasks st).*2 as [|g l IH]; intros d Hd; [done|].
    cbn. apply IH. by apply set_done_mono.
  - intros f Hf. apply Hlt. csimpl in *. set_solver.
Qed.

Lemma run_futures F st : mc_run F st → futures_ok F st.
Proof.
  induction 1; [|by eapply futures_submit|by eapply futures_register|by eapply futures_loop|by eapply futures_wait
    |by eapply futures_waited|by eapply futures_shutdown].
  split_and!; cbn; [apply NoDup_nil_2|apply NoDup_nil_2| |lia| |]; intros f Hf; by apply elem_of_nil in Hf.
Qed.

(** [f] was done before, or its coroutine was run. *)
Definition settled_as (f : Z) (d d' : dict Z outcome) : Prop :=
  match dict_get f d with
  | Some o => dict_get f d' = Some o
  | None => ∃ o, dict_get f d' = Some o ∧ o ≠ Cancelled
  end.

Lemma loop_steps n : ∀ st (x : memory * W), loop_running st = true → ∃ st' x',
  for_each (replicate n tt) (λ _, loop_step) (st, x) = (Ok tt, (st', x')) ∧ tasks st' = tasks st ∧
  (∀ f, is_Some (dict_get f (loop_done st)) → dict_get f (loop_done st') = dict_get f (loop_done st)) ∧
  (∀ f, f ∈ (take n (loop_queue st)).*1 → settled_as f (loop_done st) (loop_done st')).
Proof.
  induction n as [|n IH]; intros st x Hr.
  { exists st, x. split_and!; try done. rewrite -> take_0. intros f Hf. by apply elem_of_nil in Hf. }
  assert (Hstep : ∃ st1 x1, loop_step (st, x) = (Ok tt, (st1, x1)) ∧ loop_running st1 = true ∧ tasks st1 = tasks st ∧
    loop_queue st1 = drop 1 (loop_queue st) ∧
    (∀ f, is_Some (dict_get f (loop_done st)) → dict_get f (loop_done st1) = dict_get f (loop_done st)) ∧
    (∀ f, f ∈ (take 1 (loop_queue st)).*1 → settled_as f (loop_done st) (loop_done st1)) ∧
    (∀ f o, dict_get f (loop_done st) = None → dict_get f (loop_done st1) = Some o → o ≠ Cancelled)).
  { unfold loop_step. destruct st as [down tid tsk run queue dn nf]. cbn in Hr. subst. destruct queue as [|[f c] queue].
    - eexists _, x. split; [reflexivity|]. split_and!; try done; [intros f Hf; by apply elem_of_nil in Hf|].
      cbn. intros f o Hn Ho. congruence.
    - do 2 (erewrite M_bind_Ok by reflexivity). cbn [fst snd loop_running loop_queue]. unfold mbind, M_bind. cbn [snd].
      destruct (run_coro c x) as [r x1]. unfold upm, modify. cbn. eexists _, x1. split; [reflexivity|].
      split_and!; try done; cbn [loop_done].
      + intros g [o Ho]. by rewrite -> set_done_get, Ho.
      + intros g. cbn [take]. rewrite -> take_0. intros ->%list_elem_of_singleton. unfold settled_as. cbn [fst]. rewrite -> set_done_get.
        destruct (dict_get f dn); [done|]. rewrite -> decide_True by done. eexists. split; [reflexivity|]. by destruct r.
      + intros g o Hn. rewrite -> set_done_get, Hn. case_decide; [|done]. intros [= <-]. by destruct r. }
  destruct Hstep as (st1 & x1 & Hs1 & Hr1 & Ht1 & Hq1 & Hd1 & Hh1 & Hc1).
  destruct (IH st1 x1 Hr1) as (st2 & x2 & Hs2 & Ht2 & Hd2 & Hh2). exists st2, x2.
  split; [cbn [replicate for_each]; by erewrite M_bind_Ok by exact Hs1|]. split; [congruence|]. split.
  { intros f Hf. rewrite -> Hd2, Hd1; [done|done|]. by rewrite -> Hd1. }
  assert (Hset : ∀ f o, dict_get f (loop_done st1) = Some o → dict_get f (loop_done st2) = Some o).
  { intros f o Ho. rewrite -> Hd2; [done|by exists o]. }
  intros f. rewrite -> Hq1 in Hh2. destruct (loop_queue st) as [|e queue]; [by intros Hf%elem_of_nil|].
  cbn [take] in *. rewrite -> take_0 in Hh1. change (drop 1 (e :: queue)) with (drop 0 queue) in Hh2. rewrite -> drop_0 in Hh2. rewrite -> fmap_cons in *. intros [->|Hf]%elem_of_cons.
  - specialize (Hh1 e.1 ltac:(left)). unfold settled_as in *. destruct (dict_get e.1 (loop_done st)); [by apply Hset|].
    destruct Hh1 as (o & Ho & Hne). exists o. split; [by apply Hset|done].
  - specialize (Hh2 f Hf). unfold settled_as in *. destruct (dict_get f (loop_done st)) as [o|] eqn:Ho.
    + apply Hset. by rewrite -> Hd1 by by exists o.
    + destruct (dict_get f (loop_done st1)) as [o|] eqn:Ho1; [|done].
      exists o. split; [done|]. by eapply Hc1.
Qed.

End threads.

(** C24: Under every interleaving of callers, waiters, the loop and shutdown: the
    futures of the registered tasks are different and their numbers lie between 1
    and the last one given out; while the loop runs, waiting for a registered task
    returns once the loop has done what was queued before - with the result of its
    coroutine, or 1 when that raised or was cancelled, never because of the timeout
    - and a second wait for the task returns 1. *)
Theorem mooncake_wait_settles {W T} `{MooncakeNative W} `{Tensors T} F st (x : gmap Z T * W) t f n :
  mc_run (W := W) (T := T) F st → loop_running st = true → dict_get t (tasks st) = Some f → (length (loop_queue st) ≤ n)%nat →
  1 ≤ t ≤ task_id st ∧ (∀ t', dict_get t' (tasks st) = Some f → t' = t) ∧
  ∃ o st' x', mc_wait n t (st, x) = (Ok (match o with Returned ret => ret | _ => 1 end), (st', x')) ∧
    dict_get f (loop_done st') = Some o ∧ (o = Cancelled → dict_get f (loop_done st) = Some Cancelled) ∧
    ∀ n' x'', (mc_wait n' t (st', x'')).1 = Ok 1.
Proof.
  intros Hrun Hr Ht Hn. destruct (run_futures F st Hrun) as (Hnd & Hk & Htr & _ & Hq & _).
  pose proof (dict_get_Some_elem _ _ _ Ht) as Hel. split; [|split].
  - apply Htr. apply list_elem_of_fmap. by exists (t, f).
  - intros t' Ht'. apply dict_get_Some_elem in Ht'. apply NoDup_app in Hnd as (_ & _ & Hnd).
    apply list_elem_of_lookup in Hel as [i Hi], Ht' as [j Hj].
    assert (i = j) as ->; [|congruence]. eapply (NoDup_lookup (tasks st).*2); [done| |]; rewrite -> list_lookup_fmap.
    + by rewrite -> Hi.
    + by rewrite -> Hj.
  - set (st0 := Mooncake (shutting_down st) (task_id st) (dict_del t (tasks st)) (loop_running st) (loop_queue st) (loop_done st) (next_future st)).
    destruct (loop_steps n st0 x Hr) as (st1 & x1 & Hl & Ht1 & Hkeep & Hdone).
    assert (Hf : ∃ o, dict_get f (loop_done st1) = Some o ∧ (o = Cancelled → dict_get f (loop_done st) = Some Cancelled)).
    { destruct (Hq f) as [Hin|Hd].
      - apply elem_of_app. right. apply list_elem_of_fmap. by exists (t, f).
      - specialize (Hdone f). unfold st0 in Hdone. cbn in Hdone. rewrite -> take_ge in Hdone by done. specialize (Hdone Hin).
        unfold settled_as in Hdone. destruct (dict_get f (loop_done st)) as [o|]; [by exists o; split; [|intros ->]|].
        destruct Hdone as (o & Ho & Hne). by exists o.
      - destruct Hd as [o Ho]. exists o. rewrite -> Hkeep by by exists o. split; [done|by intros ->]. }
    destruct Hf as (o & Ho & Hc). exists o, st1, x1. split; [|split; [done|split; [done|] ] ].
    + unfold mc_wait. mstep. rewrite -> Ht. fold st0.
      erewrite M_bind_Ok by exact Hl. unfold wait_end. mstep. rewrite -> Ho. by destruct o.
    + intros n' x''. unfold mc_wait. erewrite M_bind_Ok by reflexivity. cbn [fst]. rewrite -> Ht1. unfold st0. cbn [tasks].
      by rewrite -> dict_get_del_eq.
Qed.

(** Waiting once the loop has stopped. *)
Lemma wait_stopped {W T} `{MooncakeNative W} `{Tensors T} n (s : mooncake * (gmap Z T * W)) t f :
  loop_running s.1 = false → dict_get t (tasks s.1) = Some f → dict_get f (loop_done s.1) = None →
  (mc_wait n t s).1 = Ok 1 ∧ dict_get f (loop_done (mc_wait n t s).2.1) = Some Cancelled.
Proof.
  destruct s as [st x]. cbn [fst]. intros Hr Ht Hf.
  assert (Hn : ∀ s : mooncake * (gmap Z T * W), loop_running s.1 = false →
    for_each (replicate n tt) (λ _, loop_step) s = (Ok tt, s)).
  { clear. intros s Hs. induction n as [|n IH]; [done|]. cbn [replicate for_each]. erewrite M_bind_Ok; [exact IH|].
    unfold loop_step. mstep. mstep. by rewrite -> Hs. }
  unfold mc_wait. mstep. rewrite -> Ht. erewrite M_bind_Ok by (apply Hn; exact Hr). unfold wait_end. mstep. cbn [loop_done]. rewrite -> Hf.
  mstep. split; [done|]. cbn. unfold set_done, dict_mem. rewrite -> Hf. apply dict_get_set_eq.
Qed.

(** ** A concrete store *)

(** The distributed store is a map; a tensor is its values. *)
#[export] Instance sim_mooncake : MooncakeNative (gmap string bytes) := {|
  mn_setup _ := mret tt;
  mn_is_exist k := λ w, (Ok (if w !! k then 1 else 0), w);
  mn_get k := λ w, (Ok (w !! k), w);
  mn_put k v := λ w, (Ok 0, <[k := v]> w);
  mn_close := mret tt;
|}.

#[export] Instance sim_mooncake_laws : MooncakeLaws (gmap string bytes).
Proof. refine {| kv := λ w, w |}; [done|done|]. intros k v w r w' [= <- <-] _. done. Defined.

#[export] Instance sim_tensors : Tensors (list Z) := {|
  same_kind t u := zlen t =? zlen u;
  safetensors_save t := 0 :: t;
  safetensors_load b := match b with _ :: t => Ok t | [] => Raise (RuntimeError "empty") end;
|}.

#[export] Instance sim_tensor_laws : TensorLaws (list Z).
Proof. by split. Defined.

Definition sim_memory : gmap Z (list Z) := <[1 := [5; 6]]> (<[2 := [7; 8]]> (<[3 := [0; 0]]> (<[4 := [0; 0]]> ∅))).

Lemma mooncake_load_finds_dump_witness :
  let s1 := ((t ← mc_dump ["a"; "b"] [0; 1] [1; 2]; mc_wait 1 t) (new_mooncake, (sim_memory, ∅ : gmap string bytes))).2 in
  (mc_lookup (T := list Z) ["a"] s1).1 = Ok [true] ∧
  ∃ s2, (t ← mc_load ["a"; "b"] [0; 1] [3; 4]; mc_wait 1 t) s1 = (Ok 0, s2) ∧
    s2.2.1 !! 3 = Some [5; 6] ∧ s2.2.1 !! 4 = Some [7; 8] ∧ s2.2.1 !! 1 = Some [5; 6].
Proof.
  intros s1.
  destruct (mooncake_load_finds_dump new_mooncake sim_memory (∅ : gmap string bytes) ["a"; "b"] [0; 1] [1; 2] [3; 4] s1) as (Hl & _ & s2 & Hs & Hm & Hother).
  - split_and!; try done. intros f Hf. by apply elem_of_nil in Hf.
  - reflexivity.
  - reflexivity.
  - by apply (bool_decide_unpack _).
  - by apply (bool_decide_unpack _).
  - vm_compute. reflexivity.
  - intros [|[|k] ] src dst Hsrc Hdst; cbn in *; simplify_eq; eexists _, _; (split; [reflexivity|]); (split; [reflexivity|]); reflexivity.
  - split; [by apply (Hl 0%nat "a")|]. exists s2. split; [exact Hs|]. split; [by rewrite -> (Hm 0%nat 1 3)|]. split; [by rewrite -> (Hm 1%nat 2 4)|].
    rewrite -> Hother by (by apply (bool_decide_unpack _)). done.
Defined.

Lemma mooncake_wait_settles_witness :
  let s := (mc_load ["a"] [0] [3] (new_mooncake, (sim_memory, ∅ : gmap string bytes))).2 in
  dict_get 1 (tasks s.1) = Some 1 ∧
  ∃ o st' x', mc_wait 1 1 s = (Ok (match o with Returned ret => ret | _ => 1 end), (st', x')) ∧ dict_get 1 (loop_done st') = Some o.
Proof.
  intros s. split; [reflexivity|].
  destruct (mooncake_wait_settles (W := gmap string bytes) (T := list Z) [] s.1 s.2 1 1 1) as (_ & _ & o & st' & x' & Hw & Ho & _).
  - eapply (run_register [] [] 1 _ s.2); [|reflexivity]. cbn. eapply (run_submit [] _ s.2); [apply run_new|reflexivity].
  - reflexivity.
  - reflexivity.
  - exact (le_n 1).
  - exists o, st', x'. by split.
Defined.

(** A task registered while the store shuts down: its coroutine was handed over
    before, shutdown has not seen it, and the stopped loop never runs it, so the
    wait ends only with the timeout. *)
Example registered_during_shutdown :
  let s := (f ← submit (CLoad ["a"] [0] [3]); mc_shutdown ;; register f) (new_mooncake, (sim_memory, ∅ : gmap string bytes)) in
  s.1 = Ok 1 ∧ dict_get 1 (tasks s.2.1) = Some 1 ∧
  ∀ n, (mc_wait n 1 s.2).1 = Ok 1 ∧ dict_get 1 (loop_done (mc_wait n 1 s.2).2.1) = Some Cancelled.
Proof.
  split; [reflexivity|]. split; [reflexivity|]. intros n. by apply (wait_stopped n _ 1 1).
Qed.
