(* ===== verification/Sglang.v ===== *)
(** * The SGLang adapter

    [ucm/integration/sglang]: [UnifiedCacheStoreConfig], which turns the launch
    configuration into the configuration of a store, [SglangUcmConnector], which
    names pages, pairs them with their host buffers and transfers them, and
    [UnifiedCacheStore], the back end SGLang calls.  The host memory pool, the
    YAML parser and the store factory are parameters. *)
From S2P Require Import Prelude PyStrings Runtime PyHash Hashing StoreConf.
Open Scope Z_scope.

(** The connector section of the extra configuration. *)
Record kv_connector_config := KVConnectorConfig {
  kvc_ucm_connector_config : option config;
  kvc_ucm_connector_name : option string;
  kvc_ucm_connector_module_path : option string;
}.
(** The entries of an extra configuration; only the connector section matters. *)
Abbreviation extra_config := (dict string (option kv_connector_config)).

Record hicache_storage_config := HiCacheStorageConfig {
  hs_extra_config : option extra_config;
  hs_is_mla_model : bool;
  hs_model_name : option string;
  hs_tp_rank : Z;
  hs_tp_size : Z;
}.

(** The host memory pool; [hp_id] is what its buffers depend on. *)
Record host_pool := HostPool {
  hp_id : Z;
  hp_layout : string;
  hp_page_size : Z;
  hp_size_per_token : Z;
}.

(** [_load_extra_config_from_yaml_env]: [env] is the file name of the
    environment, [read] the parsed file, [None] when there is no such file; a root
    that is no dictionary is [Some None]. *)
Definition _load_extra_config_from_yaml_env (env : string) (read : string → option (option extra_config)) :
    res (option extra_config) :=
  if String.eqb env "" then Ok None
  else match read env with
       | None => Ok None
       | Some None => Raise (ValueError "YAML root must be a dict")
       | Some (Some data) => Ok (Some data)
       end.

Definition load_from_config (yaml_extra : res (option extra_config)) (local_rank : Z)
    (sc : hicache_storage_config) (pool : host_pool) : res (option string * string * config) :=
  let extra := default [] (hs_extra_config sc) in
  extra ← (if dict_mem "kv_connector_extra_config" extra then Ok extra
           else y ← yaml_extra; Ok (match y with Some y => dict_update y extra | None => extra end));
  match extra with
  | [] => Raise (ValueError "Missing extra_config")
  | _ =>
      match default None (dict_get "kv_connector_extra_config" extra) with
      | None => Raise (ValueError "Missing config: extra_config['kv_connector_extra_config']")
      | Some kvc =>
          let page_bytes := hp_page_size pool * hp_size_per_token pool in
          let tensor_size := if hs_is_mla_model sc then page_bytes else page_bytes / 2 in
          let block_size := tensor_size * (if hs_is_mla_model sc then 1 else 2) in
          match kvc_ucm_connector_config kvc, kvc_ucm_connector_name kvc with
          | None, _ => Raise (ValueError "Missing config: kv_connector_extra_config['ucm_connector_config']")
          | _, None => Raise (ValueError "Missing config: kv_connector_extra_config['ucm_connector_name']")
          | Some c, Some name =>
              let c := dict_set "store_pipeline" (CStr "Posix") c in
              backends ← dict_index "storage_backends" c;
              paths ← match backends with
                      | CStr s => Ok (filter (λ p, p ≠ "") (split_on ":" s))
                      | _ => Raise AttributeError
                      end;
              let c := dict_set "storage_backends" (CStrs paths) c in
              let c := dict_set "device_id" (CInt local_rank) c in
              let c := dict_set "tensor_size" (CInt tensor_size) c in
              let c := dict_set "shard_size" (CInt block_size) c in
              let c := dict_set "block_size" (CInt block_size) c in
              let c := dict_set "stream_number" (CInt 8) c in
              Ok (kvc_ucm_connector_module_path kvc, name, c)
          end
      end
  end.

(** ** [SglangUcmConnector] *)

Record sgl_connector := SglConnector {
  sg_store : sref;
  sg_pool : host_pool;
  sg_model : option string;
  sg_is_mla : bool;
  sg_tp_rank : Z;
  sg_tp_size : Z;
}.

(** The bytes of a text in UTF-8. *)
Definition utf8 (s : string) : bytes := (λ c, Z.of_N (N_of_ascii c)) <$> String.list_ascii_of_string s.

Definition _encode_key `{PyHash} (key : string) : bytes := md5 (utf8 key).
Definition _encode_keys `{PyHash} (keys : list string) : list bytes := _encode_key <$> keys.

Definition _build_config_suffix (c : sgl_connector) : string :=
  let model_name := match sg_model c with
                    | Some m => String.concat "-" (split_on "/" m)
                    | None => ""
                    end in
  if sg_is_mla c then "_" +:+ model_name
  else "_" +:+ model_name +:+ "_" +:+ pretty (sg_tp_rank c) +:+ "_" +:+ pretty (sg_tp_size c).

Definition _get_physical_key (c : sgl_connector) (logical_key : string) : string := logical_key +:+ _build_config_suffix c.
Definition _get_physical_keys (c : sgl_connector) (logical_keys : list string) : list string := _get_physical_key c <$> logical_keys.

Section sglang.
  Context {W : Type} `{StoreOps W} `{PyHash}.
  (** [get_page_buffer_meta]: the addresses of the buffers of some pages. *)
  Variable page_buffers : host_pool → list Z → list Z.
  (** [create_connector] of the factory: name, configuration, module. *)
  Variable create_store : string → config → option string → M W sref.

Definition from_hicache (yaml_extra : res (option extra_config)) (local_rank : Z) (sc : hicache_storage_config)
    (pool : option host_pool) : M W sgl_connector :=
  match pool with
  | None => raise (ValueError "mem_pool_host must be provided for UnifiedCache")
  | Some pool =>
      '(module_path, name, c) ← of_res (load_from_config yaml_extra local_rank sc pool);
      store ← create_store name c module_path;
      mret (SglConnector store pool (hs_model_name sc) (hs_is_mla_model sc) (hs_tp_rank sc) (hs_tp_size sc))
  end.

(** The buffers of the pages: a key and a value buffer each, or one for MLA. *)
Definition ptr_rows (is_mla : bool) (ptrs : list Z) : addr_rows :=
  if is_mla then (λ p, [p]) <$> ptrs
  else (λ x, [x.1; x.2]) <$> zip (py_stride ptrs 0 2) (py_stride ptrs 1 2).

Definition _generate_task (c : sgl_connector) (encoded_keys : list bytes) (host_indices : list Z) :
    list bytes * list Z * addr_rows :=
  match encoded_keys with
  | [] => ([], [], [])
  | _ => (encoded_keys, (λ _, 0) <$> encoded_keys, ptr_rows (sg_is_mla c) (page_buffers (sg_pool c) host_indices))
  end.

(** [wait] with its [except RuntimeError]. *)
Definition wait_all (c : sgl_connector) (keys : list string) (t : task) : M W (list bool) :=
  try_except (st_wait (sg_store c) t ;; mret ((λ _, true) <$> keys))
    (λ e, if is_runtime_error e then mret ((λ _, false) <$> keys) else raise e).

Definition batch_get_v1 (c : sgl_connector) (keys : list string) (host_indices : list Z) : M W (list bool) :=
  match keys with
  | [] => mret []
  | _ =>
      let encoded_keys := _encode_keys (_get_physical_keys c keys) in
      let '(key_list, shard_index_list, ptr_list) := _generate_task c encoded_keys host_indices in
      t ← st_load_data (sg_store c) key_list shard_index_list ptr_list;
      wait_all c keys t
  end.

Definition batch_set_v1 (c : sgl_connector) (keys : list string) (host_indices : list Z) : M W (list bool) :=
  match keys with
  | [] => mret []
  | _ =>
      let encoded_keys := _encode_keys (_get_physical_keys c keys) in
      let '(key_list, shard_index_list, ptr_list) := _generate_task c encoded_keys host_indices in
      t ← st_dump_data (sg_store c) key_list shard_index_list ptr_list 0;
      wait_all c keys t
  end.

Definition sgl_exists (c : sgl_connector) (key : string) : M W bool :=
  if sg_is_mla c && negb (sg_tp_rank c =? 0) then mret true
  else
    found ← st_lookup (sg_store c) (_encode_keys [_get_physical_key c key]);
    of_res (py_index found 0).

Definition batch_exists (c : sgl_connector) (keys : list string) : M W Z :=
  match keys with
  | [] => mret 0
  | _ =>
      if sg_is_mla c && negb (sg_tp_rank c =? 0) then mret (zlen keys)
      else
        n ← st_lookup_on_prefix (sg_store c) (_encode_keys (_get_physical_keys c keys));
        mret (n + 1)
  end.

(** ** [UnifiedCacheStore] *)

Record unified_store := UnifiedStore {
  us_config : hicache_storage_config;
  us_connector : option sgl_connector;
  us_mem_pool_host : option host_pool;
}.

Notation UM := (M (unified_store * W)).

Definition on_world {B} (m : M W B) : UM B := lift snd (λ w s, (s.1, w)) m.

Definition _ensure_initialized : UM sgl_connector :=
  c ← gets (λ s, us_connector s.1);
  p ← gets (λ s, us_mem_pool_host s.1);
  match c, p with
  | Some c, Some _ => mret c
  | _, _ => raise (RuntimeError "UnifiedCacheStore is not initialized yet.")
  end.

Definition register_mem_pool_host (yaml_extra : res (option extra_config)) (local_rank : Z) (pool : host_pool) : UM unit :=
  if negb (String.eqb (hp_layout pool) "page_first") then raise (ValueError "page_first required")
  else
    modify (λ s, (UnifiedStore (us_config s.1) (us_connector s.1) (Some pool), s.2)) ;;
    c ← gets (λ s, us_connector s.1);
    match c with
    | None =>
        sc ← gets (λ s, us_config s.1);
        c ← on_world (from_hicache yaml_extra local_rank sc (Some pool));
        modify (λ s, (UnifiedStore (us_config s.1) (Some c) (us_mem_pool_host s.1), s.2))
    | Some c =>
        modify (λ s, (UnifiedStore (us_config s.1)
          (Some (SglConnector (sg_store c) pool (sg_model c) (sg_is_mla c) (sg_tp_rank c) (sg_tp_size c)))
          (us_mem_pool_host s.1), s.2))
    end.

(** [__init__]; [context] is the pool when SGLang passes one. *)
Definition UnifiedCacheStore (yaml_extra : res (option extra_config)) (local_rank : Z)
    (storage_config : option hicache_storage_config) (context : option host_pool) : UM unit :=
  match storage_config with
  | None => raise (ValueError "storage_config must be provided for UnifiedCacheStore.")
  | Some sc =>
      modify (λ s, (UnifiedStore sc None None, s.2)) ;;
      match context with Some pool => register_mem_pool_host yaml_extra local_rank pool | None => mret tt end
  end.

Definition us_batch_get_v1 (keys : list string) (host_indices : list Z) : UM (list bool) :=
  c ← _ensure_initialized; on_world (batch_get_v1 c keys host_indices).
Definition us_batch_set_v1 (keys : list string) (host_indices : list Z) : UM (list bool) :=
  c ← _ensure_initialized; on_world (batch_set_v1 c keys host_indices).
Definition us_exists (key : string) : UM bool := c ← _ensure_initialized; on_world (sgl_exists c key).
Definition us_batch_exists (keys : list string) : UM Z := c ← _ensure_initialized; on_world (batch_exists c keys).
(** [get], [batch_get], [set] and [batch_set] *)
Definition us_unsupported {B} : UM B := raise NotImplementedError.
Definition us_clear : UM bool := mret false.

End sglang.
