(* ===== verification/SglangProps.v ===== *)
(** * Properties of the SGLang adapter

    Ranks do not share names, pages go with their own buffers, and a batch
    succeeds or fails as a whole. *)
From S2P Require Import Prelude PyStrings Runtime Sim RankConsistency PyHash Hashing StoreConf Sglang.
Open Scope Z_scope.

Lemma utf8_inj : Inj (=) (=) utf8.
Proof.
  assert (Hc : Inj (=) (=) (λ c : ascii, Z.of_N (N_of_ascii c))).
  { intros c1 c2 Hc. apply N2Z.inj in Hc. rewrite <- (ascii_N_embedding c1), <- (ascii_N_embedding c2). by rewrite -> Hc. }
  intros s1 s2 Heq. unfold utf8 in Heq. apply (inj (fmap (λ c : ascii, Z.of_N (N_of_ascii c)))) in Heq.
  rewrite <- (String.string_of_list_ascii_of_string s1), <- (String.string_of_list_ascii_of_string s2). by rewrite -> Heq.
Qed.
#[export] Existing Instance utf8_inj.

Lemma str_app_assoc (a b c : string) : (a +:+ b) +:+ c = a +:+ b +:+ c.
Proof. induction a as [|x a IH]; [done|]. rewrite -> !str_app_cons. by rewrite -> IH. Qed.

(** With split heads, two ranks of the same number of ranks - whatever the keys
    and the models - never use the same name for a page, so none reads or overwrites
    the pages of another, unless MD5 gives the two different physical keys the same
    digest; under MLA all ranks of a model use the same names. *)
Theorem sglang_names_of_ranks `{PyHash} c1 c2 k1 k2 :
  (sg_is_mla c1 = false → sg_is_mla c2 = false → sg_tp_size c1 = sg_tp_size c2 →
   _encode_key (_get_physical_key c1 k1) = _encode_key (_get_physical_key c2 k2) →
   sg_tp_rank c1 = sg_tp_rank c2 ∨
   md5_clash [utf8 (_get_physical_key c1 k1)] [utf8 (_get_physical_key c2 k2)]) ∧
  (sg_is_mla c1 = true → sg_is_mla c2 = true → sg_model c1 = sg_model c2 →
   _encode_key (_get_physical_key c1 k1) = _encode_key (_get_physical_key c2 k1)).
Proof.
  split.
  - intros Hm1 Hm2 Hs Heq. unfold _encode_key in Heq.
    apply md5_eq_or_clash; [exact Heq|]. intros Hu. apply (inj utf8) in Hu.
    unfold _get_physical_key, _build_config_suffix in Hu. rewrite -> Hm1, Hm2 in Hu.
    set (n1 := match sg_model c1 with Some m => String.concat "-" (split_on "/" m) | None => "" end) in Hu.
    set (n2 := match sg_model c2 with Some m => String.concat "-" (split_on "/" m) | None => "" end) in Hu.
    assert (Hu' : ((k1 +:+ "_" +:+ n1) +:+ String "_" (pretty (sg_tp_rank c1))) +:+ String "_" (pretty (sg_tp_size c1)) =
                  ((k2 +:+ "_" +:+ n2) +:+ String "_" (pretty (sg_tp_rank c2))) +:+ String "_" (pretty (sg_tp_size c2))).
    { rewrite -> !str_app_assoc. exact Hu. }
    apply last_sep_inj in Hu' as [Hu' _]; [|by apply pretty_no_sep..].
    apply last_sep_inj in Hu' as [_ Hr]; [|by apply pretty_no_sep..]. by apply (inj pretty).
  - intros Hm1 Hm2 Hs. unfold _get_physical_key, _build_config_suffix. by rewrite -> Hm1, Hm2, Hs.
Qed.

Lemma length_by_lookup {A} (l : list A) n : (∀ i, (i < n)%nat → is_Some (l !! i)) → l !! n = None → length l = n.
Proof.
  intros Hin Hn. apply lookup_ge_None in Hn. destruct (decide (length l < n)%nat) as [Hl|]; [|lia].
  destruct (Hin (length l) Hl) as [x Hx]. apply lookup_lt_Some in Hx. lia.
Qed.

(** The row of page [i] holds its buffers. *)
Lemma ptr_rows_lookup (is_mla : bool) ptrs (n i : nat) :
  length ptrs = (n * if is_mla then 1 else 2)%nat → (i < n)%nat →
  if is_mla then ∃ p, ptrs !! i = Some p ∧ ptr_rows is_mla ptrs !! i = Some [p]
  else ∃ k v, ptrs !! (2 * i)%nat = Some k ∧ ptrs !! (2 * i + 1)%nat = Some v ∧ ptr_rows is_mla ptrs !! i = Some [k; v].
Proof.
  intros Hl Hi. unfold ptr_rows. destruct is_mla.
  - destruct (lookup_lt_is_Some_2 ptrs i) as [p Hp]; [lia|]. exists p. split; [done|]. by rewrite -> list_lookup_fmap, Hp.
  - destruct (lookup_lt_is_Some_2 ptrs (2 * i)) as [k Hk]; [lia|].
    destruct (lookup_lt_is_Some_2 ptrs (2 * i + 1)) as [v Hv]; [lia|]. exists k, v. split; [done|]. split; [done|].
    rewrite -> list_lookup_fmap, lookup_zip_with, !py_stride_lookup by lia.
    replace (Z.to_nat (0 + Z.of_nat i * 2)) with (2 * i)%nat by lia.
    replace (Z.to_nat (1 + Z.of_nat i * 2)) with (2 * i + 1)%nat by lia. rewrite -> Hk, Hv. done.
Qed.

Lemma ptr_rows_length (is_mla : bool) ptrs (n : nat) :
  length ptrs = (n * if is_mla then 1 else 2)%nat → length (ptr_rows is_mla ptrs) = n.
Proof.
  intros Hl. apply length_by_lookup.
  - intros i Hi. pose proof (ptr_rows_lookup is_mla ptrs n i Hl Hi) as Hr.
    destruct is_mla; [destruct Hr as (p & _ & ->)|destruct Hr as (k & v & _ & _ & ->)]; done.
  - unfold ptr_rows. destruct is_mla; rewrite -> list_lookup_fmap.
    + rewrite -> (proj2 (lookup_ge_None ptrs n)) by lia. done.
    + rewrite -> lookup_zip_with, (py_stride_lookup ptrs 0) by lia.
      rewrite -> (proj2 (lookup_ge_None ptrs _)) by lia. done.
Qed.

(** What a batch answers, given what the wait for its transfer does. *)
Definition batch_answer {W} (keys : list string) (x : res unit * W) : res (list bool) * W :=
  match x with
  | (Ok _, w) => (Ok ((λ _, true) <$> keys), w)
  | (Raise e, w) => (if is_runtime_error e then Ok ((λ _, false) <$> keys) else Raise e, w)
  end.

(** A batch of pages whose buffers the pool knows is one transfer: every name
    once, with shard 0 and the key and value buffers of its own page (its one
    buffer under MLA); when the transfer completes all pages are reported
    transferred, when it fails with a RuntimeError none is, other errors and
    refused submissions are raised; an empty batch does nothing. *)
Theorem sglang_batch_transfers {W} `{StoreOps W} `{PyHash} page_buffers c keys host_indices (w : W) :
  let names := _encode_keys (_get_physical_keys c keys) in
  let ptrs := page_buffers (sg_pool c) host_indices in
  let rows := ptr_rows (sg_is_mla c) ptrs in
  length ptrs = (length keys * if sg_is_mla c then 1 else 2)%nat →
  (∀ i : nat, (i < length keys)%nat →
     if sg_is_mla c then ∃ p, ptrs !! i = Some p ∧ rows !! i = Some [p]
     else ∃ k v, ptrs !! (2 * i)%nat = Some k ∧ ptrs !! (2 * i + 1)%nat = Some v ∧ rows !! i = Some [k; v]) ∧
  length rows = length keys ∧
  batch_get_v1 page_buffers c keys host_indices w =
    (if decide (keys = []) then (Ok [], w)
     else match st_load_data (sg_store c) names ((λ _, 0) <$> names) rows w with
          | (Ok t, w) => batch_answer keys (st_wait (sg_store c) t w)
          | (Raise e, w) => (Raise e, w)
          end) ∧
  batch_set_v1 page_buffers c keys host_indices w =
    (if decide (keys = []) then (Ok [], w)
     else match st_dump_data (sg_store c) names ((λ _, 0) <$> names) rows 0 w with
          | (Ok t, w) => batch_answer keys (st_wait (sg_store c) t w)
          | (Raise e, w) => (Raise e, w)
          end).
Proof.
  intros names ptrs rows Hl. split; [intros i Hi; by apply (ptr_rows_lookup _ _ (length keys))|].
  split; [by apply ptr_rows_length|].
  assert (Hw : ∀ t w, wait_all c keys t w = batch_answer keys (st_wait (sg_store c) t w)).
  { intros t w1. unfold wait_all, try_except, mbind, M_bind. destruct (st_wait (sg_store c) t w1) as [[[]|e] w2]; [done|].
    cbn. by destruct (is_runtime_error e). }
  unfold batch_get_v1, batch_set_v1. destruct keys as [|k keys]; [by rewrite -> !decide_True|].
  rewrite -> !decide_False by done. unfold _generate_task. fold names.
  assert (Hn : ∃ n names', names = n :: names') by (by eexists _, _). destruct Hn as (n & names' & Hn). rewrite -> Hn. fold ptrs. fold rows.
  unfold mbind, M_bind. split.
  - destruct (st_load_data _ _ _ _ w) as [[t|e] w1]; [apply Hw|done].
  - destruct (st_dump_data _ _ _ _ _ w) as [[t|e] w1]; [apply Hw|done].
Qed.

(** The pages reported present form a prefix of the batch whenever the rank
    keeps pages of its own: the answer is between 0 and the number of pages, and it
    is what the store answers for the names; under MLA the ranks other than 0
    answer for all pages without asking. *)
Theorem sglang_batch_exists_bounds {W} `{StoreLaws W} `{PyHash} c keys (w w' : W) n :
  batch_exists c keys w = (Ok n, w') →
  0 ≤ n ≤ zlen keys ∧
  (sg_is_mla c = true → sg_tp_rank c ≠ 0 → n = zlen keys ∧ w' = w) ∧
  ((sg_is_mla c = false ∨ sg_tp_rank c = 0) → keys ≠ [] →
     st_lookup_on_prefix (sg_store c) (_encode_keys (_get_physical_keys c keys)) w = (Ok (n - 1), w')).
Proof.
  unfold batch_exists. pose proof (zlen_nonneg keys) as Hz. destruct keys as [|k keys].
  { intros [= <- <-]. split_and!; [lia|lia|by intros|by intros]. }
  destruct (sg_is_mla c && negb (sg_tp_rank c =? 0)) eqn:Hm.
  - intros [= <- <-]. split; [lia|]. split; [done|]. intros [Hf|Hf]; [by rewrite -> Hf in Hm|].
    rewrite -> Hf in Hm. by rewrite -> andb_comm in Hm.
  - intros Hrun. apply M_Ok_inv in Hrun as (p & w1 & Hp & Hr). injection Hr as <- <-.
    pose proof (st_prefix_bounds _ _ _ _ _ Hp) as Hb. unfold _encode_keys, _get_physical_keys, zlen in *.
    rewrite -> !length_fmap in Hb. split; [lia|]. split.
    + intros Hmla Hr. rewrite -> Hmla in Hm. cbn in Hm. apply negb_false_iff, Z.eqb_eq in Hm. done.
    + intros _ _. by replace (p + 1 - 1) with p by lia.
Qed.

(** ** A concrete adapter *)

Definition sim_pool : host_pool := HostPool 1000 "page_first" 64 128.
Definition sim_conn (is_mla : bool) (rank : Z) : sgl_connector := SglConnector 0 sim_pool (Some "org/model") is_mla rank 2.
Definition sim_buffers (p : host_pool) (l : list Z) : list Z := concat ((λ i, [hp_id p + 2 * i; hp_id p + 2 * i + 1]) <$> l).

Lemma sglang_names_of_ranks_witness :
  _encode_key (H := cpython_hash) (_get_physical_key (sim_conn false 0) "a") ≠
  _encode_key (H := cpython_hash) (_get_physical_key (sim_conn false 1) "a") ∧
  (_encode_key (H := cpython_hash) (_get_physical_key (sim_conn false 0) "a") =
   _encode_key (H := cpython_hash) (_get_physical_key (sim_conn false 1) "a") → 0 = 1 ∨
   md5_clash (H := cpython_hash) [utf8 (_get_physical_key (sim_conn false 0) "a")] [utf8 (_get_physical_key (sim_conn false 1) "a")]) ∧
  _encode_key (H := cpython_hash) (_get_physical_key (sim_conn true 0) "a") =
  _encode_key (H := cpython_hash) (_get_physical_key (sim_conn true 1) "a").
Proof.
  destruct (sglang_names_of_ranks (H := cpython_hash) (sim_conn false 0) (sim_conn false 1) "a" "a") as [Hn _].
  destruct (sglang_names_of_ranks (H := cpython_hash) (sim_conn true 0) (sim_conn true 1) "a" "a") as [_ Hm].
  split; [vm_compute; discriminate|]. split; [exact (Hn eq_refl eq_refl eq_refl)|exact (Hm eq_refl eq_refl eq_refl)].
Defined.

Lemma sglang_batch_transfers_witness :
  let c := sim_conn false 0 in
  let rows := ptr_rows false (sim_buffers sim_pool [3; 5]) in
  rows !! 1%nat = Some [1010; 1011] ∧ length rows = 2%nat ∧
  (batch_set_v1 (H0 := cpython_hash) sim_buffers c ["a"; "b"] [3; 5] (sim_init [] [])).1 = Ok [true; true] ∧
  (batch_get_v1 (H0 := cpython_hash) sim_buffers c ["a"; "b"] [3; 5] (sim_init [] [])).1 = Ok [false; false].
Proof.
  intros c rows.
  destruct (sglang_batch_transfers (H0 := cpython_hash) sim_buffers c ["a"; "b"] [3; 5] (sim_init [] [])) as (Hrow & Hlen & Hget & Hset).
  - reflexivity.
  - split; [reflexivity|]. split; [exact Hlen|].
    rewrite -> Hset, Hget. split; vm_compute; reflexivity.
Defined.

Lemma sglang_batch_exists_bounds_witness :
  ∃ n w', batch_exists (H0 := cpython_hash) (sim_conn false 0) ["a"; "b"] (sim_init [] []) = (Ok n, w') ∧ 0 ≤ n ≤ 2.
Proof.
  destruct (batch_exists (H0 := cpython_hash) (sim_conn false 0) ["a"; "b"] (sim_init [] [])) as [[n|e] w'] eqn:Hrun.
  - exists n, w'. split; [reflexivity|].
    destruct (sglang_batch_exists_bounds (H1 := cpython_hash) _ _ _ _ _ Hrun) as [Hb _]. exact Hb.
  - exfalso. vm_compute in Hrun. discriminate Hrun.
Defined.
