(* ===== verification/MetricsConfig.v ===== *)
(** * Metric definitions

    [ucm/metrics_config.py]: from the YAML configuration of the metrics to the
    definitions of the counters, gauges and histograms, and which consumers are
    switched on.  Floating-point numbers are IEEE doubles ([spec_float] with
    precision 53); reading a file, and what texts and numbers are to each other, are
    arguments.  The keys of a mapping are texts; names, prefixes and the like may be
    values of any kind. *)
From Stdlib Require Import SpecFloat.
From S2P Require Import Prelude PyStrings.
Open Scope Z_scope.

(** ** Doubles *)

Abbreviation float := spec_float.
Definition fzero : float := S754_zero false.
Definition fadd : float → float → float := SFadd 53 1024.
Definition fmul : float → float → float := SFmul 53 1024.
Definition fltb : float → float → bool := SFltb.
Definition feqb : float → float → bool := SFeqb.
Definition is_finite (f : float) : bool :=
  match f with S754_zero _ | S754_finite _ _ _ => true | _ => false end.

(** [float(n)] *)
Definition float_of_Z (n : Z) : float := binary_normalize 53 1024 n 0 false.
(** The literal [m * 10 ** -k] *)
Definition dec (m k : Z) : float := SFdiv 53 1024 (float_of_Z m) (float_of_Z (10 ^ k)).

(** ** Values of a YAML document *)

Inductive yval :=
  | YNull
  | YBool (b : bool)
  | YInt (n : Z)
  | YFloat (f : float)
  | YStr (s : string)
  | YList (l : list yval)
  | YDict (d : list (string * yval)).

Abbreviation yconf := (dict string yval).

(** [bool(v)] *)
Definition ytruthy (v : yval) : bool :=
  match v with
  | YNull => false
  | YBool b => b
  | YInt n => negb (n =? 0)
  | YFloat f => negb (feqb f fzero)
  | YStr s => negb (String.eqb s "")
  | YList l => match l with [] => false | _ => true end
  | YDict d => match d with [] => false | _ => true end
  end.

(** [for x in v] *)
Definition yiter (v : yval) : res (list yval) :=
  match v with
  | YList l => Ok l
  | YDict d => Ok (YStr <$> d.*1)
  | YStr s => Ok ((λ c, YStr (String c "")) <$> String.list_ascii_of_string s)
  | _ => Raise (TypeError "not iterable")
  end.

(** [float(s)] of a text, [None] when it is not a number, and [str(v)] of a float, a
    list or a mapping. *)
Record py_texts := PyTexts {
  float_of_str : string → option float;
  repr_of : yval → string;
}.

(** [str(v)], also what an f-string makes of [v]. *)
Definition py_str (py : py_texts) (v : yval) : string :=
  match v with
  | YStr s => s
  | YNull => "None"
  | YBool b => if b then "True" else "False"
  | YInt n => pretty n
  | _ => repr_of py v
  end.

(** The native registry takes texts only. *)
Definition as_text (v : yval) : res string :=
  match v with YStr s => Ok s | _ => Raise (TypeError "incompatible function arguments") end.

(** What cannot be a member of a set or a key of a dictionary. *)
Definition unhashable (v : yval) : bool :=
  match v with YList _ | YDict _ => true | _ => false end.

(** [d[k] = x] for a dictionary that is only read at texts: keys of other kinds need
    not be kept. *)
Definition set_key {A} (k : yval) (x : A) (d : dict string A) : res (dict string A) :=
  if unhashable k then Raise (TypeError "unhashable type")
  else Ok (match k with YStr s => dict_set s x d | _ => d end).

Definition METRIC_TYPES : list string := ["counter"; "gauge"; "histogram"].
Definition VLLM_EXCLUDED_METRICS : list string := ["interval_lookup_hit_rates"].
Definition MULTIPROC_CONSUMER : string := "multiproc".
Definition VLLM_CONNECTOR_CONSUMER : string := "vllm_connector".
Definition ENABLE_METRICS_CONFIG_KEY : string := "enable_metrics".

Record metric_definition := MetricDefinition {
  md_name : yval;
  md_metric_type : string;
  md_documentation : yval;
  md_buckets : list float;
  md_vllm_connector_name : string;
  md_vllm_connector_buckets : list float;
  md_vllm_connector_value_scale : float;
  md_vllm_connector_enabled : bool;
}.

(** [read] is [None] for a file that is missing or cannot be opened or parsed. *)
Definition load_metrics_config (read : yval → option yval) (config_path : yval) : yconf :=
  if negb (ytruthy config_path) then []
  else match read config_path with
       | Some (YDict config) => config
       | _ => []
       end.

Definition _as_bool (value : option yval) (dflt : bool) : bool :=
  match value with
  | None | Some YNull => dflt
  | Some (YBool b) => b
  | Some (YStr s) => bool_decide (lower s ∈ ["1"; "true"; "yes"; "on"])
  | Some v => ytruthy v
  end.

(** [launch_config or {}]: [None] and an empty dictionary are the same. *)
Definition metrics_enabled (launch_config : yconf) : bool :=
  _as_bool (dict_get ENABLE_METRICS_CONFIG_KEY launch_config) true.

Definition load_launch_metrics_config (read : yval → option yval) (dflt launch_config : yconf) : yconf :=
  if negb (metrics_enabled launch_config) then []
  else
    match launch_config with
    | [] => dflt
    | _ =>
        match dict_get "metrics_config" launch_config with
        | Some (YDict inline_config) => inline_config
        | _ =>
            let config_path := dict_get_default "metrics_config_path" (YStr "") launch_config in
            if ytruthy config_path then load_metrics_config read config_path else dflt
        end
    end.

Definition consumer_enabled (config : yconf) (consumer : string) : bool :=
  match dict_get "consumers" config with
  | Some (YDict consumers) => _as_bool (dict_get consumer consumers) false
  | _ => true
  end.

(** ** One definition *)

(** [name not in VLLM_EXCLUDED_METRICS] *)
Definition not_excluded (name : yval) : res bool :=
  if unhashable name then Raise (TypeError "unhashable type")
  else Ok (match name with YStr s => negb (bool_decide (s ∈ VLLM_EXCLUDED_METRICS)) | _ => true end).

Definition _metric_vllm_connector_enabled (name : yval) (item : yconf) : res bool :=
  if dict_mem "vllm_connector_enabled" item then Ok (_as_bool (dict_get "vllm_connector_enabled" item) true)
  else not_excluded name.

Definition vllm_connector_prefix (config : yconf) : yval :=
  dict_get_default "vllm_connector_prefix" (YStr "ucm:") config.

Definition multiproc_prefix (config : yconf) : yval :=
  dict_get_default "multiproc_prefix" (dict_get_default "metric_prefix" (YStr "ucm:") config) config.

(** [name.startswith(prefix)] refuses a prefix that is not a text. *)
Definition _ensure_prefix (name : string) (prefix : yval) : res string :=
  match prefix with
  | YStr prefix =>
      Ok (if String.prefix prefix name then name
          else prefix +:+ match partition ":" name with Some (_, rest) => rest | None => name end)
  | _ => Raise (TypeError "startswith first arg must be str or a tuple of str")
  end.

Section config.
  Context (py : py_texts).

Definition multiproc_metric_name (config : yconf) (metric_name : yval) : string :=
  py_str py (multiproc_prefix config) +:+ py_str py metric_name.

Definition _vllm_connector_metric_name (name : yval) (item : yconf) (prefix : yval) : res string :=
  let configured := dict_get_default "vllm_connector_name" YNull item in
  if ytruthy configured then _ensure_prefix (py_str py configured) prefix
  else Ok (py_str py prefix +:+ py_str py name).

(** [float(v)] *)
Definition py_float (v : yval) : res float :=
  match v with
  | YFloat f => Ok f
  | YInt n => let f := float_of_Z n in if is_finite f then Ok f else Raise OverflowError
  | YBool b => Ok (float_of_Z (if b then 1 else 0))
  | YStr s => match float_of_str py s with Some f => Ok f | None => Raise (ValueError "could not convert string to float") end
  | _ => Raise (TypeError "float() argument must be a string or a real number")
  end.

(** [item.get(key, []) or []] *)
Definition items_of (key : string) (item : yconf) : res (list yval) :=
  let v := dict_get_default key (YList []) item in
  if ytruthy v then yiter v else Ok [].

Definition _vllm_connector_value_scale (item : yconf) : res float :=
  match dict_get "vllm_connector_value_scale" item with
  | Some v => py_float v
  | None => Ok (float_of_Z 1)
  end.

(** The body of the inner loop of [get_metric_definitions]. *)
Definition metric_definition_of (config : yconf) (metric_type : string) (item : yval) : res (list metric_definition) :=
  match item with
  | YDict item =>
      match dict_get "name" item with
      | None => Ok []
      | Some name =>
          if negb (ytruthy name) then Ok []
          else
            bs ← items_of "buckets" item;
            buckets ← map_res py_float bs;
            scale ← _vllm_connector_value_scale item;
            vllm_connector_buckets ←
              match dict_get "vllm_connector_buckets" item with
              | None | Some YNull => Ok ((λ b, fmul b scale) <$> buckets)
              | Some v => vs ← yiter v; map_res py_float vs
              end;
            enabled ← _metric_vllm_connector_enabled name item;
            vllm_name ← _vllm_connector_metric_name name item (vllm_connector_prefix config);
            Ok [MetricDefinition name metric_type (dict_get_default "documentation" (YStr "") item) buckets vllm_name
                  vllm_connector_buckets scale enabled]
      end
  | _ => Ok []
  end.

Definition get_metric_definitions (config : yconf) : res (list metric_definition) :=
  match config with
  | [] => Ok []
  | _ =>
      ds ← map_res (λ metric_type,
             items ← items_of metric_type config;
             ds ← map_res (metric_definition_of config metric_type) items;
             Ok (concat ds)) METRIC_TYPES;
      Ok (concat ds)
  end.

Definition get_vllm_connector_metric_definitions (config : yconf) : res (list metric_definition) :=
  ds ← get_metric_definitions config;
  Ok (filter (λ d, md_vllm_connector_enabled d = true) ds).

Definition _metric_definition_counts (definitions : list metric_definition) : dict string Z :=
  (λ t, (t, zlen (filter (λ d, md_metric_type d = t) definitions))) <$> METRIC_TYPES.

End config.
