(* ===== verification/MetricsDefault.v ===== *)
(** * The default metrics configuration

    The tables of [ucm/default_metrics_config.py]: the counters, gauges and
    histograms that are defined when the launch configuration names no other. *)
From Stdlib Require Import SpecFloat.
From S2P Require Import Prelude MetricsConfig.
Open Scope Z_scope.

Definition _COUNTER_METRICS_1 : list (string * string) := [
  ("cache_lookup_hit_blocks_total", "Number of lookup hits served by the Cache stage (no descent to backend)");
  ("cache_lookup_miss_blocks_total", "Number of lookup misses at the Cache stage (had to query the backend)");
  ("cache_load_blocks_total", "Total blocks loaded by the Cache stage");
  ("cache_dump_blocks_total", "Total blocks dumped by the Cache stage");
  ("cache_load_shards_total", "Total shards dispatched by Cache load (num blocks * shards_per_block)");
  ("cache_load_backend_shards_total", "Shards that descended to the backend on load (true cache miss at the buffer-allocation stage; aka backend-load count)");
  ("cache_dump_shards_total", "Total shards dispatched by Cache dump (mirror of cache_load_shards_total)");
  ("cache_dump_backend_shards_total", "Shards actually pushed to backend on dump (excludes !handle.Owner() skips in shared-buffer scenario)");
  ("cache_load_queue_full_total", "Number of Cache load submissions rejected because the waiting queue was full");
  ("cache_dump_queue_full_total", "Number of Cache dump submissions rejected because the waiting queue was full");
  ("cache_backend_load_submit_errors_total", "Number of Cache load backend submit failures");
  ("cache_backend_load_wait_errors_total", "Number of Cache load backend wait failures");
  ("cache_backend_dump_submit_errors_total", "Number of Cache dump backend submit failures");
  ("cache_backend_dump_wait_errors_total", "Number of Cache dump backend wait failures");
  ("cache_h2d_errors_total", "Number of Cache host-to-device transfer or sync failures");
  ("cache_d2h_errors_total", "Number of Cache device-to-host transfer, event wait, or sync failures");
  ("cache_load_bytes_total", "Total bytes loaded through the Cache stage (per-task size summed)");
  ("cache_dump_bytes_total", "Total bytes dumped through the Cache stage (per-task size summed)");
  ("posix_s2h_bytes_total", "Total bytes transferred from posix storage to host buffer (load path, summed per completed task)");
  ("posix_h2s_bytes_total", "Total bytes transferred from host buffer to posix storage (dump path, summed per completed task)");
  ("posix_lookup_query_blocks_total", "Total blocks submitted to Posix lookup");
  ("posix_lookup_hit_blocks_total", "Blocks found by Posix lookup");
  ("posix_healthy_count_total", "Number of successful Posix health probes");
  ("posix_unhealthy_count_total", "Number of failed Posix health probes");
  ("posix_aio_timeout_total", "Number of Posix AIO task or submit timeouts");
  ("posix_io_timeout_total", "Number of Posix synchronous worker task timeouts");
  ("posix_open_errors_total", "Number of Posix open failures");
  ("posix_io_errors_total", "Number of Posix read, write, or AIO completion failures");
  ("mooncake_load_blocks_total", "Total blocks loaded through the Mooncake stage");
  ("mooncake_dump_blocks_total", "Total blocks dumped through the Mooncake stage");
  ("mooncake_lookup_hit_blocks_total", "Blocks found directly by Mooncake lookup before backend descent");
  ("mooncake_healthy_count_total", "Number of successful Mooncake health probes");
  ("mooncake_unhealthy_count_total", "Number of failed Mooncake health probes");
  ("mooncake_load_bytes_total", "Total bytes loaded through the Mooncake stage")
].

Definition _COUNTER_METRICS_2 : list (string * string) := [
  ("mooncake_dump_bytes_total", "Total bytes dumped through the Mooncake stage");
  ("mooncake_load_hit_shards_total", "Mooncake load shards served directly from Mooncake");
  ("mooncake_load_miss_shards_total", "Mooncake load shards that missed and descended to backend or recompute");
  ("mooncake_load_backend_shards_total", "Mooncake load shards submitted to the backend after a Mooncake miss");
  ("mooncake_dump_existing_shards_total", "Mooncake dump shards already present in Mooncake");
  ("mooncake_dump_missing_shards_total", "Mooncake dump shards written to Mooncake because they were missing");
  ("mooncake_dump_backend_shards_total", "Mooncake dump shards archived to the backend");
  ("mooncake_load_queue_full_total", "Number of Mooncake load submissions rejected because the waiting queue was full");
  ("mooncake_dump_queue_full_total", "Number of Mooncake dump submissions rejected because the waiting queue was full");
  ("mooncake_get_errors_total", "Number of Mooncake batch get failures");
  ("mooncake_put_errors_total", "Number of Mooncake batch put failures");
  ("mooncake_backend_load_submit_errors_total", "Number of Mooncake backend load submit failures");
  ("mooncake_backend_load_wait_errors_total", "Number of Mooncake backend load wait failures");
  ("mooncake_backend_dump_submit_errors_total", "Number of Mooncake backend dump submit failures");
  ("mooncake_backend_dump_wait_errors_total", "Number of Mooncake backend dump wait failures");
  ("mooncake_h2d_errors_total", "Number of Mooncake H2D transfer or sync failures");
  ("mooncake_d2h_errors_total", "Number of Mooncake D2H transfer, event wait, or sync failures");
  ("mooncake_h2d_bytes_total", "Total Mooncake bytes copied from host to device");
  ("mooncake_d2h_bytes_total", "Total Mooncake bytes copied from device to host");
  ("load_bytes_total", "Total bytes loaded through the UCM connector (summed across all start_load_kv calls)");
  ("save_bytes_total", "Total bytes saved through the UCM connector (summed across all wait_for_save calls)");
  ("total_prefix_query_tokens_total", "Total prefix cache query tokens observed by the UCM connector");
  ("gpu_hbm_hit_tokens_total", "Prefix cache tokens already hit in GPU or HBM before UCM lookup");
  ("ucm_hit_tokens_total", "Prefix cache tokens hit by the UCM connector");
  ("total_prefix_query_blocks_total", "Total full prefix blocks queried through the UCM connector");
  ("gpu_hbm_hit_blocks_total", "Full prefix blocks already hit in GPU or HBM before UCM lookup");
  ("connector_lookup_errors_total", "Number of connector lookup errors treated as cache misses");
  ("connector_load_submit_errors_total", "Number of connector load submit failures");
  ("connector_load_wait_errors_total", "Number of connector load wait failures");
  ("connector_load_invalid_requests_total", "Number of connector load failure events that invalidated request blocks");
  ("connector_load_invalid_blocks_total", "Number of newly invalidated vLLM block ids caused by connector load failures");
  ("connector_dump_submit_errors_total", "Number of connector dump submit failures");
  ("connector_dump_wait_errors_total", "Number of connector dump wait failures")
].

Definition _COUNTER_METRICS : list (string * string) := _COUNTER_METRICS_1 ++ _COUNTER_METRICS_2.

Definition _GAUGE_METRICS_1 : list (string * string * yconf) := [
  ("cache_lookup_hit_rate", "Instantaneous Cache stage hit rate from the most recent lookup call", [("multiprocess_mode", YStr "livemostrecent")]);
  ("posix_store_health", "Effective Posix health breaker state, where 1 is enabled and 0 is fused", [("multiprocess_mode", YStr "livemostrecent")]);
  ("mooncake_store_health", "Effective Mooncake health breaker state, where 1 is enabled and 0 is fused", [("multiprocess_mode", YStr "livemostrecent")])
].

Definition _GAUGE_METRICS : list (string * string * yconf) := _GAUGE_METRICS_1.

Definition _HISTOGRAM_METRICS_1 : list (string * string * list yval) := [
  ("load_requests_num", "Number of requests loaded from ucm",
   [YInt 1; YInt 5; YInt 10; YInt 20; YInt 50; YInt 100; YInt 200; YInt 500; YInt 1000]);
  ("load_blocks_num", "Number of blocks loaded from ucm",
   [YInt 0; YInt 50; YInt 100; YInt 150; YInt 200; YInt 250; YInt 300; YInt 350; YInt 400; YInt 550; YInt 600; YInt 750; YInt 800; YInt 850; YInt 900; YInt 950; YInt 1000]);
  ("load_duration", "Time to load from ucm (ms)",
   [YInt 0; YInt 50; YInt 100; YInt 150; YInt 200; YInt 250; YInt 300; YInt 350; YInt 400; YInt 550; YInt 600; YInt 750; YInt 800; YInt 850; YInt 900; YInt 950; YInt 1000]);
  ("load_speed", "Speed of loading from ucm (GB/s)",
   [YInt 1; YInt 2; YInt 3; YInt 4; YInt 5; YInt 6; YInt 7; YInt 8; YInt 9; YInt 10; YInt 11; YInt 12; YInt 13; YInt 14; YInt 15; YInt 20; YInt 21; YInt 22; YInt 23; YInt 24; YInt 25; YInt 26; YInt 27; YInt 28; YInt 29; YInt 30; YInt 31; YInt 32; YInt 33; YInt 34; YInt 35; YInt 36; YInt 37; YInt 38; YInt 39; YInt 40; YInt 50; YInt 60; YInt 70; YInt 80; YInt 90; YInt 100]);
  ("save_requests_num", "Number of requests saved to ucm",
   [YInt 1; YInt 5; YInt 10; YInt 20; YInt 50; YInt 100; YInt 200; YInt 500; YInt 1000]);
  ("save_blocks_num", "Number of blocks saved to ucm",
   [YInt 0; YInt 50; YInt 100; YInt 150; YInt 200; YInt 250; YInt 300; YInt 350; YInt 400; YInt 550; YInt 600; YInt 750; YInt 800; YInt 850; YInt 900; YInt 950; YInt 1000]);
  ("save_duration", "Time from UCM connector wait_for_save entry to async dump task completion (ms)",
   [YInt 0; YInt 50; YInt 100; YInt 150; YInt 200; YInt 250; YInt 300; YInt 350; YInt 400; YInt 550; YInt 600; YInt 750; YInt 800; YInt 850; YInt 900; YInt 950; YInt 1000]);
  ("save_completion_wait_duration", "Time spent blocked while confirming async UCM connector dump completion (ms)",
   [YInt 0; YInt 1; YInt 2; YInt 5; YInt 10; YInt 20; YInt 50; YInt 100; YInt 150; YInt 200; YInt 250; YInt 300; YInt 350; YInt 400; YInt 550; YInt 600; YInt 750; YInt 800; YInt 850; YInt 900; YInt 950; YInt 1000]);
  ("interval_lookup_hit_rates", "Hit rates of ucm lookup requests",
   [YFloat (dec 0 1); YFloat (dec 1 1); YFloat (dec 2 1); YFloat (dec 3 1); YFloat (dec 4 1); YFloat (dec 5 1); YFloat (dec 6 1); YFloat (dec 7 1); YFloat (dec 8 1); YFloat (dec 9 1); YFloat (dec 10 1)]);
  ("cache_lookup_duration_ms", "Cache buffer lookup wall-clock time per `Lookup` / `LookupOnPrefix` call (ms)",
   [YFloat (dec 1 2); YFloat (dec 5 2); YFloat (dec 1 1); YFloat (dec 2 1); YFloat (dec 5 1); YInt 1; YInt 2; YInt 5; YInt 10; YInt 20; YInt 50; YInt 100]);
  ("cache_lookup_backend_duration_ms", "Backend lookup wall-clock time when descending due to no buffer or buffer miss (ms)",
   [YFloat (dec 5 2); YFloat (dec 1 1); YFloat (dec 2 1); YFloat (dec 5 1); YInt 1; YInt 2; YInt 5; YInt 10; YInt 20; YInt 50; YInt 100; YInt 200; YInt 500]);
  ("cache_load_duration_ms", "End-to-end Cache stage load task duration (ms)",
   [YFloat (dec 1 1); YFloat (dec 5 1); YInt 1; YInt 2; YInt 5; YInt 10; YInt 20; YInt 50; YInt 100; YInt 200; YInt 500; YInt 1000; YInt 2000; YInt 5000]);
  ("cache_dump_duration_ms", "End-to-end Cache stage dump task duration (ms)",
   [YFloat (dec 1 1); YFloat (dec 5 1); YInt 1; YInt 2; YInt 5; YInt 10; YInt 20; YInt 50; YInt 100; YInt 200; YInt 500; YInt 1000; YInt 2000; YInt 5000]);
  ("cache_load_bandwidth_gbps", "Cache stage effective load bandwidth (GB/s)",
   [YFloat (dec 5 1); YInt 1; YInt 2; YInt 4; YInt 8; YInt 12; YInt 16; YInt 24; YInt 32; YInt 48; YInt 64; YInt 96; YInt 128; YInt 192; YInt 256]);
  ("cache_dump_bandwidth_gbps", "Cache stage effective dump bandwidth (GB/s)",
   [YFloat (dec 5 1); YInt 1; YInt 2; YInt 4; YInt 8; YInt 12; YInt 16; YInt 24; YInt 32; YInt 48; YInt 64; YInt 96; YInt 128; YInt 192; YInt 256]);
  ("cache_load_queue_wait_duration_ms", "Time a Cache load task spent queued before dispatch worker pickup (ms)",
   [YFloat (dec 1 1); YFloat (dec 5 1); YInt 1; YInt 2; YInt 5; YInt 10; YInt 20; YInt 50; YInt 100; YInt 500]);
  ("cache_dump_queue_wait_duration_ms", "Time a Cache dump task spent queued before dispatch worker pickup (ms)",
   [YFloat (dec 1 1); YFloat (dec 5 1); YInt 1; YInt 2; YInt 5; YInt 10; YInt 20; YInt 50; YInt 100; YInt 500]);
  ("cache_load_backend_submit_duration_ms", "Cache load backend submit duration: buffer allocation plus synchronous backend load submission (ms).",
   [YFloat (dec 1 1); YFloat (dec 5 1); YInt 1; YInt 2; YInt 5; YInt 10; YInt 20; YInt 50; YInt 100; YInt 500]);
  ("cache_shard_backend_wait_ms", "Cache load per-shard time spent in WaitBackendTaskReady before H2D submit (ms). This is not a task-level duration.",
   [YFloat (dec 1 1); YFloat (dec 5 1); YInt 1; YInt 2; YInt 5; YInt 10; YInt 20; YInt 50; YInt 100; YInt 200; YInt 500]);
  ("cache_h2d_submit_ms", "Cache load per-shard H2D async submit CPU cost after backend wait (ms). Submission only; NOT the actual transfer time (see cache_h2d_sync_ms).",
   [YFloat (dec 1 1); YFloat (dec 5 1); YInt 1; YInt 2; YInt 5; YInt 10; YInt 20; YInt 50; YInt 100; YInt 200; YInt 500]);
  ("cache_h2d_sync_ms", "Cache load residual H2D stream drain after the last shard submit (ms). Large => H2D copy is the bottleneck; ~0 with large cache_shard_backend_wait_ms => storage read is the bottleneck.",
   [YFloat (dec 1 1); YFloat (dec 5 1); YInt 1; YInt 2; YInt 5; YInt 10; YInt 20; YInt 50; YInt 100; YInt 200; YInt 500]);
  ("cache_dump_mkbuf_duration_ms", "Cache dump mk_buf phase: buffer allocation/reuse + D2H async submit before stream sync (ms)",
   [YFloat (dec 1 1); YFloat (dec 5 1); YInt 1; YInt 2; YInt 5; YInt 10; YInt 20; YInt 50; YInt 100; YInt 200; YInt 500]);
  ("cache_dump_prereq_wait_ms", "Cache dump time waiting for the prerequisite compute event (layer KV ready) to fire before D2H can start (ms). Large => dump is compute-gated, not copy-gated.",
   [YFloat (dec 1 1); YFloat (dec 5 1); YInt 1; YInt 2; YInt 5; YInt 10; YInt 20; YInt 50; YInt 100; YInt 200; YInt 500]);
  ("cache_d2h_duration_ms", "Cache dump stream synchronize duration including prerequisite compute wait and D2H copy (ms). Use cache_dump_prereq_wait_ms to estimate the compute-gated portion.",
   [YFloat (dec 1 1); YFloat (dec 5 1); YInt 1; YInt 2; YInt 5; YInt 10; YInt 20; YInt 50; YInt 100; YInt 200; YInt 500])
].

Definition _HISTOGRAM_METRICS_2 : list (string * string * list yval) := [
  ("cache_dump_backend_submit_duration_ms", "Cache dump backend submit duration: synchronous time to pass buffers to the lower tier (ms). Does NOT include the lower tier's actual write time.",
   [YFloat (dec 1 1); YFloat (dec 5 1); YInt 1; YInt 2; YInt 5; YInt 10; YInt 20; YInt 50; YInt 100; YInt 500]);
  ("cache_dump_backend_wait_duration_ms", "Cache dump time waiting for the lower tier to finish writing a dumped task (ms). Large => storage write is the bottleneck.",
   [YFloat (dec 1 1); YFloat (dec 5 1); YInt 1; YInt 2; YInt 5; YInt 10; YInt 20; YInt 50; YInt 100; YInt 200; YInt 500; YInt 1000; YInt 2000]);
  ("posix_load_task_duration_ms", "End-to-end Posix load task duration (ms): submit to last shard finished, task-level (compare with cache_load_duration_ms)",
   [YFloat (dec 1 1); YFloat (dec 5 1); YInt 1; YInt 2; YInt 5; YInt 10; YInt 20; YInt 50; YInt 100; YInt 200; YInt 500; YInt 1000; YInt 2000; YInt 5000]);
  ("posix_dump_task_duration_ms", "End-to-end Posix dump task duration (ms): submit to last shard finished, task-level (compare with cache_dump_duration_ms)",
   [YFloat (dec 1 1); YFloat (dec 5 1); YInt 1; YInt 2; YInt 5; YInt 10; YInt 20; YInt 50; YInt 100; YInt 200; YInt 500; YInt 1000; YInt 2000; YInt 5000]);
  ("posix_s2h_bandwidth_gbps", "Posix stage read bandwidth per task (GB/s) = totalBytes / task_wallclock",
   [YFloat (dec 5 2); YFloat (dec 1 1); YFloat (dec 2 1); YFloat (dec 5 1); YInt 1; YFloat (dec 15 1); YInt 2; YFloat (dec 25 1); YInt 3; YFloat (dec 35 1); YInt 4; YInt 5; YInt 6; YInt 7; YInt 8; YInt 9; YInt 10; YInt 11; YInt 12; YInt 14; YInt 16; YInt 20; YInt 24; YInt 32]);
  ("posix_h2s_bandwidth_gbps", "Posix stage write bandwidth per task (GB/s) = totalBytes / task_wallclock",
   [YFloat (dec 5 2); YFloat (dec 1 1); YFloat (dec 2 1); YFloat (dec 5 1); YInt 1; YFloat (dec 15 1); YInt 2; YFloat (dec 25 1); YInt 3; YFloat (dec 35 1); YInt 4; YInt 5; YInt 6; YInt 7; YInt 8; YInt 9; YInt 10; YInt 11; YInt 12; YInt 14; YInt 16; YInt 20; YInt 24; YInt 32]);
  ("posix_load_queue_wait_duration_ms", "Time a Posix load task spent queued before first worker pickup (ms)",
   [YFloat (dec 1 1); YFloat (dec 5 1); YInt 1; YInt 2; YInt 5; YInt 10; YInt 20; YInt 50; YInt 100; YInt 500]);
  ("posix_dump_queue_wait_duration_ms", "Time a Posix dump task spent queued before first worker pickup (ms)",
   [YFloat (dec 1 1); YFloat (dec 5 1); YInt 1; YInt 2; YInt 5; YInt 10; YInt 20; YInt 50; YInt 100; YInt 500]);
  ("mooncake_load_duration_ms", "End-to-end Mooncake load task duration (ms)",
   [YFloat (dec 1 1); YFloat (dec 5 1); YInt 1; YInt 2; YInt 5; YInt 10; YInt 20; YInt 50; YInt 100; YInt 200; YInt 500; YInt 1000; YInt 2000; YInt 5000]);
  ("mooncake_dump_duration_ms", "End-to-end Mooncake dump task duration (ms)",
   [YFloat (dec 1 1); YFloat (dec 5 1); YInt 1; YInt 2; YInt 5; YInt 10; YInt 20; YInt 50; YInt 100; YInt 200; YInt 500; YInt 1000; YInt 2000; YInt 5000]);
  ("mooncake_load_bandwidth_gbps", "Mooncake stage effective load bandwidth (GB/s)",
   [YFloat (dec 5 1); YInt 1; YInt 2; YInt 4; YInt 8; YInt 12; YInt 16; YInt 24; YInt 32; YInt 48; YInt 64; YInt 96; YInt 128; YInt 192; YInt 256]);
  ("mooncake_dump_bandwidth_gbps", "Mooncake stage effective dump bandwidth (GB/s)",
   [YFloat (dec 5 1); YInt 1; YInt 2; YInt 4; YInt 8; YInt 12; YInt 16; YInt 24; YInt 32; YInt 48; YInt 64; YInt 96; YInt 128; YInt 192; YInt 256]);
  ("mooncake_load_queue_wait_duration_ms", "Time a Mooncake load task spent queued before dispatch worker pickup (ms)",
   [YFloat (dec 1 1); YFloat (dec 5 1); YInt 1; YInt 2; YInt 5; YInt 10; YInt 20; YInt 50; YInt 100; YInt 500]);
  ("mooncake_dump_queue_wait_duration_ms", "Time a Mooncake dump task spent queued before dispatch worker pickup (ms)",
   [YFloat (dec 1 1); YFloat (dec 5 1); YInt 1; YInt 2; YInt 5; YInt 10; YInt 20; YInt 50; YInt 100; YInt 500]);
  ("mooncake_get_duration_ms", "Mooncake batch get duration on the load path (ms)",
   [YFloat (dec 1 1); YFloat (dec 5 1); YInt 1; YInt 2; YInt 5; YInt 10; YInt 20; YInt 50; YInt 100; YInt 200; YInt 500]);
  ("mooncake_exists_duration_ms", "Mooncake batch exists check duration on the dump path (ms)",
   [YFloat (dec 1 1); YFloat (dec 5 1); YInt 1; YInt 2; YInt 5; YInt 10; YInt 20; YInt 50; YInt 100; YInt 200; YInt 500]);
  ("mooncake_put_duration_ms", "Mooncake batch put duration on the dump path (ms)",
   [YFloat (dec 1 1); YFloat (dec 5 1); YInt 1; YInt 2; YInt 5; YInt 10; YInt 20; YInt 50; YInt 100; YInt 200; YInt 500; YInt 1000; YInt 2000]);
  ("mooncake_load_backend_submit_duration_ms", "Mooncake load backend submit duration after Mooncake miss (ms)",
   [YFloat (dec 1 1); YFloat (dec 5 1); YInt 1; YInt 2; YInt 5; YInt 10; YInt 20; YInt 50; YInt 100; YInt 500]);
  ("mooncake_backend_load_wait_duration_ms", "Mooncake load time waiting for the backend to finish a missed shard (ms)",
   [YFloat (dec 1 1); YFloat (dec 5 1); YInt 1; YInt 2; YInt 5; YInt 10; YInt 20; YInt 50; YInt 100; YInt 200; YInt 500]);
  ("mooncake_h2d_duration_ms", "Mooncake load H2D stream drain duration (ms)",
   [YFloat (dec 1 1); YFloat (dec 5 1); YInt 1; YInt 2; YInt 5; YInt 10; YInt 20; YInt 50; YInt 100; YInt 200; YInt 500]);
  ("mooncake_dump_prereq_wait_ms", "Mooncake dump time waiting for prerequisite compute event before put (ms)",
   [YFloat (dec 1 1); YFloat (dec 5 1); YInt 1; YInt 2; YInt 5; YInt 10; YInt 20; YInt 50; YInt 100; YInt 200; YInt 500]);
  ("mooncake_d2h_duration_ms", "Mooncake dump D2H stream drain duration for backend archive (ms)",
   [YFloat (dec 1 1); YFloat (dec 5 1); YInt 1; YInt 2; YInt 5; YInt 10; YInt 20; YInt 50; YInt 100; YInt 200; YInt 500]);
  ("mooncake_dump_backend_submit_duration_ms", "Mooncake dump backend submit duration after D2H archive copy (ms)",
   [YFloat (dec 1 1); YFloat (dec 5 1); YInt 1; YInt 2; YInt 5; YInt 10; YInt 20; YInt 50; YInt 100; YInt 500]);
  ("mooncake_dump_backend_wait_duration_ms", "Mooncake dump time waiting for backend archive completion (ms)",
   [YFloat (dec 1 1); YFloat (dec 5 1); YInt 1; YInt 2; YInt 5; YInt 10; YInt 20; YInt 50; YInt 100; YInt 200; YInt 500; YInt 1000; YInt 2000]);
  ("layerwise_batch_total_ms", "Layerwise batch wall-clock time from start_load_kv entry to wait_for_save return (ms)",
   [YFloat (dec 1 1); YFloat (dec 5 1); YInt 1; YInt 2; YInt 5; YInt 10; YInt 20; YInt 50; YInt 100; YInt 200; YInt 500; YInt 1000; YInt 2000; YInt 5000; YInt 10000]);
  ("layerwise_batch_total_load_only_ms", "Layerwise load-only batch wall-clock time from start_load_kv entry to wait_for_save return (ms)",
   [YFloat (dec 1 1); YFloat (dec 5 1); YInt 1; YInt 2; YInt 5; YInt 10; YInt 20; YInt 50; YInt 100; YInt 200; YInt 500; YInt 1000; YInt 2000; YInt 5000; YInt 10000])
].

Definition _HISTOGRAM_METRICS_3 : list (string * string * list yval) := [
  ("layerwise_batch_total_save_only_ms", "Layerwise save-only batch wall-clock time from start_load_kv entry to wait_for_save return (ms)",
   [YFloat (dec 1 1); YFloat (dec 5 1); YInt 1; YInt 2; YInt 5; YInt 10; YInt 20; YInt 50; YInt 100; YInt 200; YInt 500; YInt 1000; YInt 2000; YInt 5000; YInt 10000]);
  ("layerwise_batch_total_load_save_ms", "Layerwise load-and-save batch wall-clock time from start_load_kv entry to wait_for_save return (ms)",
   [YFloat (dec 1 1); YFloat (dec 5 1); YInt 1; YInt 2; YInt 5; YInt 10; YInt 20; YInt 50; YInt 100; YInt 200; YInt 500; YInt 1000; YInt 2000; YInt 5000; YInt 10000]);
  ("layerwise_batch_total_no_transfer_ms", "Layerwise batch wall-clock time with neither load nor save work (ms)",
   [YFloat (dec 1 1); YFloat (dec 5 1); YInt 1; YInt 2; YInt 5; YInt 10; YInt 20; YInt 50; YInt 100; YInt 200; YInt 500; YInt 1000; YInt 2000; YInt 5000; YInt 10000]);
  ("layerwise_batch_load_wait_total_load_only_ms", "Total wait_for_layer_load blocking time accumulated within one load-only layerwise batch (ms)",
   [YFloat (dec 1 1); YFloat (dec 5 1); YInt 1; YInt 2; YInt 5; YInt 10; YInt 20; YInt 50; YInt 100; YInt 200; YInt 500; YInt 1000; YInt 2000; YInt 5000; YInt 10000]);
  ("layerwise_batch_load_wait_total_load_save_ms", "Total wait_for_layer_load blocking time accumulated within one load-and-save layerwise batch (ms)",
   [YFloat (dec 1 1); YFloat (dec 5 1); YInt 1; YInt 2; YInt 5; YInt 10; YInt 20; YInt 50; YInt 100; YInt 200; YInt 500; YInt 1000; YInt 2000; YInt 5000; YInt 10000]);
  ("layerwise_batch_save_tail_save_only_ms", "wait_for_save tail duration within one save-only layerwise batch (ms)",
   [YFloat (dec 1 1); YFloat (dec 5 1); YInt 1; YInt 2; YInt 5; YInt 10; YInt 20; YInt 50; YInt 100; YInt 200; YInt 500; YInt 1000; YInt 2000]);
  ("layerwise_batch_save_tail_load_save_ms", "wait_for_save tail duration within one load-and-save layerwise batch (ms)",
   [YFloat (dec 1 1); YFloat (dec 5 1); YInt 1; YInt 2; YInt 5; YInt 10; YInt 20; YInt 50; YInt 100; YInt 200; YInt 500; YInt 1000; YInt 2000]);
  ("layerwise_wait_blocking_ms", "Time wait_for_layer_load blocked before returning (ms). Near 0 = good overlap.",
   [YInt 0; YFloat (dec 1 1); YFloat (dec 5 1); YInt 1; YInt 2; YInt 5; YInt 10; YInt 20; YInt 50; YInt 100; YInt 200; YInt 500]);
  ("layerwise_wait_tasks_count", "Number of per-request load tasks awaited in a single layer wait",
   [YInt 0; YInt 1; YInt 2; YInt 4; YInt 8; YInt 16; YInt 32; YInt 64]);
  ("layerwise_inter_wait_interval_ms", "Interval between consecutive wait_for_layer_load calls (~forward time) (ms)",
   [YFloat (dec 1 1); YFloat (dec 5 1); YInt 1; YInt 2; YInt 5; YInt 10; YInt 20; YInt 50; YInt 100; YInt 200; YInt 500]);
  ("layerwise_next_layer_submit_ms", "Time to submit next layer's load tasks inside wait_for_layer_load (ms)",
   [YFloat (dec 1 2); YFloat (dec 5 2); YFloat (dec 1 1); YFloat (dec 5 1); YInt 1; YInt 2; YInt 5; YInt 10; YInt 20; YInt 50]);
  ("layerwise_first_layer_submit_ms", "Time to submit first layer load tasks during start_load_kv - TTFT critical (ms)",
   [YFloat (dec 5 2); YFloat (dec 1 1); YFloat (dec 5 1); YInt 1; YInt 2; YInt 5; YInt 10; YInt 20; YInt 50; YInt 100]);
  ("layerwise_first_layer_requests", "Number of requests whose first-layer load was submitted in start_load_kv",
   [YInt 0; YInt 1; YInt 2; YInt 4; YInt 8; YInt 16; YInt 32; YInt 64; YInt 128]);
  ("layerwise_save_submit_ms", "Time to submit one layer's dump task in save_kv_layer (ms)",
   [YFloat (dec 1 2); YFloat (dec 5 2); YFloat (dec 1 1); YFloat (dec 5 1); YInt 1; YInt 2; YInt 5; YInt 10; YInt 20; YInt 50]);
  ("layerwise_save_tail_total_ms", "Legacy metric; LayerWise no longer waits for dump completion in wait_for_save",
   [YFloat (dec 1 1); YFloat (dec 5 1); YInt 1; YInt 2; YInt 5; YInt 10; YInt 20; YInt 50; YInt 100; YInt 200; YInt 500; YInt 1000; YInt 2000]);
  ("fawa_scheduler_lookup_external_hit_blocks_ms", "store lookup latency",
   [YInt 1; YInt 2; YInt 4; YInt 6; YInt 8; YInt 10; YInt 12; YInt 14; YInt 16; YInt 18; YInt 20; YInt 30; YInt 40; YInt 50]);
  ("fawa_scheduler_get_num_new_matched_tokens_ms", "store lookup latency + generate block hash latency",
   [YInt 1; YInt 2; YInt 4; YInt 6; YInt 8; YInt 10; YInt 12; YInt 14; YInt 16; YInt 18; YInt 20; YInt 30; YInt 40; YInt 50]);
  ("fawa_worker_wait_wait_all_load_task_ms", "store load latency",
   [YInt 1; YInt 5; YInt 10; YInt 20; YInt 30; YInt 40; YInt 50; YInt 60; YInt 70; YInt 80; YInt 100; YInt 150; YInt 200; YInt 250; YInt 300; YInt 350; YInt 400; YInt 450; YInt 500; YInt 550; YInt 600; YInt 650; YInt 700; YInt 750; YInt 800; YInt 850; YInt 900; YInt 950; YInt 1000; YInt 1250; YInt 1500; YInt 1750; YInt 2000]);
  ("fawa_worker_start_load_kv_ms", "store load task latency + generate task latency",
   [YInt 1; YInt 5; YInt 10; YInt 20; YInt 30; YInt 40; YInt 50; YInt 60; YInt 70; YInt 80; YInt 100; YInt 150; YInt 200; YInt 250; YInt 300; YInt 350; YInt 400; YInt 450; YInt 500; YInt 550; YInt 600; YInt 650; YInt 700; YInt 750; YInt 800; YInt 850; YInt 900; YInt 950; YInt 1000; YInt 1250; YInt 1500; YInt 1750; YInt 2000]);
  ("fawa_worker_wait_for_save_ms", "store dump task latency",
   [YInt 1; YInt 5; YInt 10; YInt 20; YInt 30; YInt 40; YInt 50; YInt 60; YInt 70; YInt 80; YInt 100; YInt 150; YInt 200; YInt 250; YInt 300; YInt 350; YInt 400; YInt 450; YInt 500])
].

Definition _HISTOGRAM_METRICS : list (string * string * list yval) := _HISTOGRAM_METRICS_1 ++ _HISTOGRAM_METRICS_2 ++ _HISTOGRAM_METRICS_3.

Definition default_metric (name documentation : string) (extra : yconf) : yval :=
  YDict (dict_update extra [("name", YStr name); ("documentation", YStr documentation)]).
Definition _histogram_metric (name documentation : string) (buckets : list yval) : yval :=
  default_metric name documentation [("buckets", YList buckets)].

Definition DEFAULT_METRICS_CONFIG : yconf := [
  ("log_interval", YInt 5);
  ("vllm_connector_prefix", YStr "ucm:");
  ("consumers", YDict [("vllm_connector", YBool true)]);
  ("counter", YList ((λ x, default_metric x.1 x.2 []) <$> _COUNTER_METRICS));
  ("gauge", YList ((λ x, default_metric x.1.1 x.1.2 x.2) <$> _GAUGE_METRICS));
  ("histogram", YList ((λ x, _histogram_metric x.1.1 x.1.2 x.2) <$> _HISTOGRAM_METRICS))
].

Definition get_default_metrics_config : yconf := DEFAULT_METRICS_CONFIG.
