(* ===== verification/Metrics.v ===== *)
(** * Metrics

    From a sample to Prometheus: the native registry with its double-buffered
    statistics ([ucm/shared/metrics/cc/domain/metrics.cc]), the dispatcher that
    drains it into one buffer per consumer ([ucm/metrics_dispatcher.py]), the
    statistics handed to vLLM and their Prometheus counterparts
    ([ucm/integration/vllm/metrics.py]), and the logger of the multi-process path
    ([ucm/observability.py]).  The Prometheus client is the class [PromClient]. *)
From Stdlib Require Import SpecFloat.
From S2P Require Import Prelude PyStrings MetricsConfig.
Open Scope Z_scope.

(** Adds counts position by position, growing [cur] where [add] is longer. *)
Fixpoint add_counts (cur add : list Z) : list Z :=
  match cur, add with
  | [], _ => add
  | _, [] => cur
  | c :: cur, a :: add => (c + a) :: add_counts cur add
  end.

(** What [get_all_stats_and_clear] returns; also the buffer of a consumer. *)
Record snapshot := Snapshot {
  sn_counters : dict string float;
  sn_gauges : dict string float;
  sn_histograms : dict string (list Z * float);
}.
Definition _empty_stats : snapshot := Snapshot [] [] [].

(** ** The native registry *)

Inductive metric_type := COUNTER | GAUGE | HISTOGRAM.

#[export] Instance metric_type_eq_dec : EqDecision metric_type.
Proof. solve_decision. Defined.

Record metric_info := MetricInfo { mi_name : string; mi_type : metric_type; mi_buckets : list float }.

Record inner_buffer := InnerBuffer {
  ib_counters : dict Z float;
  ib_gauges : dict Z float;
  ib_histograms : dict Z (list Z * float);
}.
Definition empty_buffer : inner_buffer := InnerBuffer [] [] [].

(** The two buffers of a thread; [false] is the first one. *)
Record metric_buffer := MetricBuffer { mb_write_idx : bool; mb_buf0 : inner_buffer; mb_buf1 : inner_buffer }.
Definition mb_get (i : bool) (b : metric_buffer) : inner_buffer := if i then mb_buf1 b else mb_buf0 b.
Definition mb_set (i : bool) (x : inner_buffer) (b : metric_buffer) : metric_buffer :=
  if i then MetricBuffer (mb_write_idx b) (mb_buf0 b) x else MetricBuffer (mb_write_idx b) x (mb_buf1 b).

(** [rg_buffers] are the buffers of the threads that sent a sample, in the
    order in which they did. *)
Record registry := Registry {
  rg_inited : bool;
  rg_name_to_id : dict string Z;
  rg_metrics : list metric_info;
  rg_buffers : dict Z metric_buffer;
}.
Definition new_registry : registry := Registry false [] [] [].

Definition NormalizeBuckets (buckets : list float) : list float :=
  match last buckets with
  | Some (S754_infinity false) => buckets
  | _ => buckets ++ [S754_infinity false]
  end.

Definition SetUp : M registry unit :=
  modify (λ r, Registry true (rg_name_to_id r) (rg_metrics r) (rg_buffers r)).

Definition parse_type (type : string) : option metric_type :=
  let typeUpper := upper type in
  if String.eqb typeUpper "COUNTER" then Some COUNTER
  else if String.eqb typeUpper "GAUGE" then Some GAUGE
  else if String.eqb typeUpper "HISTOGRAM" then Some HISTOGRAM
  else None.

Definition CreateStats (name type : string) (buckets : list float) : M registry unit :=
  r ← get;
  if negb (rg_inited r) then raise (RuntimeError "Please call SetUp() first!")
  else
    match parse_type type with
    | None => mret tt
    | Some t =>
        if dict_mem name (rg_name_to_id r) then mret tt
        else
          modify (λ r, Registry (rg_inited r) (dict_set name (zlen (rg_metrics r)) (rg_name_to_id r))
            (rg_metrics r ++ [MetricInfo name t (match t with HISTOGRAM => NormalizeBuckets buckets | _ => [] end)])
            (rg_buffers r))
    end.

(** [std::lower_bound] on [len] elements from [first]. *)
Fixpoint lower_bound_from (fuel : nat) (buckets : list float) (value : float) (first len : nat) : nat :=
  match fuel with
  | O => first
  | S fuel =>
      if (len =? 0)%nat then first
      else
        let half := (len / 2)%nat in
        let mid := (first + half)%nat in
        if fltb (nth mid buckets fzero) value then lower_bound_from fuel buckets value (mid + 1) (len - half - 1)
        else lower_bound_from fuel buckets value first half
  end.
Definition lower_bound (buckets : list float) (value : float) : nat :=
  lower_bound_from (length buckets) buckets value 0 (length buckets).

(** A sample of a histogram; an index outside of the counts would be undefined
    behaviour, here an [IndexError]. *)
Definition observe_histogram (buckets : list float) (value : float) (h : list Z * float) : res (list Z * float) :=
  let counts := match h.1 with [] => replicate (length buckets) 0 | c => c end in
  counts ← py_alter (λ c, u64 (c + 1)) counts (Z.of_nat (lower_bound buckets value));
  Ok (counts, fadd h.2 value).

Definition UpdateBuffer (info : metric_info) (id : Z) (value : float) (b : inner_buffer) : res inner_buffer :=
  match mi_type info with
  | COUNTER =>
      Ok (InnerBuffer (dict_set id (fadd (dict_get_default id fzero (ib_counters b)) value) (ib_counters b))
            (ib_gauges b) (ib_histograms b))
  | GAUGE => Ok (InnerBuffer (ib_counters b) (dict_set id value (ib_gauges b)) (ib_histograms b))
  | HISTOGRAM =>
      match mi_buckets info with
      | [] => Ok b
      | buckets =>
          h ← observe_histogram buckets value (dict_get_default id ([], fzero) (ib_histograms b));
          Ok (InnerBuffer (ib_counters b) (ib_gauges b) (dict_set id h (ib_histograms b)))
      end
  end.

(** [UpdateStats] by a thread: its buffer is registered with its first sample,
    and the write guard keeps the buffer it writes from being switched. *)
Definition UpdateStats (thread : Z) (name : string) (value : float) : M registry unit :=
  r ← get;
  match rg_inited r, dict_get name (rg_name_to_id r) with
  | true, Some id =>
      match rg_metrics r !! Z.to_nat id with
      | None => mret tt
      | Some info =>
          let b := dict_get_default thread (MetricBuffer false empty_buffer empty_buffer) (rg_buffers r) in
          x ← of_res (UpdateBuffer info id value (mb_get (mb_write_idx b) b));
          modify (λ r, Registry (rg_inited r) (rg_name_to_id r) (rg_metrics r)
                         (dict_set thread (mb_set (mb_write_idx b) x b) (rg_buffers r)))
      end
  | _, _ => mret tt
  end.

Definition UpdateStatsMap (thread : Z) (values : list (string * float)) : M registry unit :=
  for_each values (λ x, UpdateStats thread x.1 x.2).

(** Adds what one buffer holds to the totals. *)
Definition add_named {A} (metrics : list metric_info) (f : A → option A → A) (acc : dict string A) (x : Z * A) : dict string A :=
  match metrics !! Z.to_nat x.1 with
  | Some info => dict_set (mi_name info) (f x.2 (dict_get (mi_name info) acc)) acc
  | None => acc
  end.
Definition add_float (v : float) (total : option float) : float := fadd (default fzero total) v.
Definition add_histogram (h : list Z * float) (total : option (list Z * float)) : list Z * float :=
  let t := default ([], fzero) total in (u64 <$> add_counts t.1 h.1, fadd t.2 h.2).
Definition read_buffer (metrics : list metric_info) (total : snapshot) (b : inner_buffer) : snapshot :=
  Snapshot (foldl (add_named metrics add_float) (sn_counters total) (ib_counters b))
    (foldl (add_named metrics (λ v _, v)) (sn_gauges total) (ib_gauges b))
    (foldl (add_named metrics add_histogram) (sn_histograms total) (ib_histograms b)).

(** [SwitchBuffer] and [ClearReadBuffer]: the buffer written so far is read and
    emptied, the thread goes on with the other one. *)
Definition switch_buffer (b : metric_buffer) : metric_buffer :=
  mb_set (mb_write_idx b) empty_buffer (MetricBuffer (negb (mb_write_idx b)) (mb_buf0 b) (mb_buf1 b)).

Definition GetAllStatsAndClear : M registry snapshot :=
  r ← get;
  modify (λ r, Registry (rg_inited r) (rg_name_to_id r) (rg_metrics r) ((λ x, (x.1, switch_buffer x.2)) <$> rg_buffers r)) ;;
  mret (foldl (read_buffer (rg_metrics r)) _empty_stats ((λ x, mb_get (mb_write_idx x.2) x.2) <$> rg_buffers r)).

(** [setup_ucm_metrics] *)
Definition setup_ucm_metrics (py : py_texts) (config : yconf) : M registry (list metric_definition) :=
  definitions ← of_res (get_metric_definitions py config);
  match definitions with
  | [] => mret []
  | _ =>
      SetUp ;;
      for_each definitions (λ d,
        name ← of_res (as_text (md_name d)); CreateStats name (md_metric_type d) (md_buckets d)) ;;
      mret definitions
  end.

(** ** The dispatcher *)

Definition CONSUMERS : list string := [MULTIPROC_CONSUMER; VLLM_CONNECTOR_CONSUMER].

Record dispatcher := MetricsDispatcher_ {
  dp_definitions_by_name : dict string metric_definition;
  dp_enabled : dict string bool;
  dp_buffers : dict string snapshot;
}.

(** [{d.name: d for d in definitions}]: the last definition of a name wins. *)
Definition by_name (definitions : list metric_definition) : res (dict string metric_definition) :=
  fold_res (λ acc d, set_key (md_name d) d acc) [] definitions.

Definition MetricsDispatcher (py : py_texts) (config : yconf) : res dispatcher :=
  definitions ← get_metric_definitions py config;
  defs ← by_name definitions;
  Ok (MetricsDispatcher_ defs ((λ c, (c, consumer_enabled config c)) <$> CONSUMERS)
        ((λ c, (c, _empty_stats)) <$> CONSUMERS)).

Definition _consumer_definition (defs : dict string metric_definition) (metric_name metric_type consumer : string) :
    option metric_definition :=
  match dict_get metric_name defs with
  | None => None
  | Some definition =>
      if negb (String.eqb (md_metric_type definition) metric_type) then None
      else if String.eqb consumer VLLM_CONNECTOR_CONSUMER && negb (md_vllm_connector_enabled definition) then None
      else Some definition
  end.

(** One loop of [_merge_stats]: values without a definition are dropped. *)
Definition merge_section {A B} (defined : string → bool) (f : A → option B → B) (acc : dict string B) (stats : dict string A) : dict string B :=
  foldl (λ acc x, if defined x.1 then dict_set x.1 (f x.2 (dict_get x.1 acc)) acc else acc) acc stats.

Definition _merge_histogram (h : list Z * float) (cur : option (list Z * float)) : list Z * float :=
  let '(current_counts, current_sum) := default (replicate (length h.1) 0, fzero) cur in
  (add_counts current_counts h.1, fadd current_sum h.2).

Definition consumer_defines (defs : dict string metric_definition) (metric_type consumer metric_name : string) : bool :=
  match _consumer_definition defs metric_name metric_type consumer with Some _ => true | None => false end.

Definition _merge_stats (defs : dict string metric_definition) (consumer : string) (buffer s : snapshot) : snapshot :=
  Snapshot (merge_section (consumer_defines defs "counter" consumer) add_float (sn_counters buffer) (sn_counters s))
    (merge_section (consumer_defines defs "gauge" consumer) (λ v _, v) (sn_gauges buffer) (sn_gauges s))
    (merge_section (consumer_defines defs "histogram" consumer) _merge_histogram (sn_histograms buffer) (sn_histograms s)).

Definition is_empty_snapshot (s : snapshot) : bool :=
  match sn_counters s, sn_gauges s, sn_histograms s with [], [], [] => true | _, _, _ => false end.

(** The dispatcher and the registry of the process. *)
Abbreviation DM := (M (dispatcher * registry)).
Definition on_registry {B} (m : M registry B) : DM B := lift snd (λ r s, (s.1, r)) m.

Definition drain_consumer (s : snapshot) (consumer : string) (dp : dispatcher) : dispatcher :=
  if dict_get_default consumer false (dp_enabled dp) then
    MetricsDispatcher_ (dp_definitions_by_name dp) (dp_enabled dp)
      (dict_set consumer (_merge_stats (dp_definitions_by_name dp) consumer
         (dict_get_default consumer _empty_stats (dp_buffers dp)) s) (dp_buffers dp))
  else dp.

Definition drain_to_consumers : DM unit :=
  s ← on_registry GetAllStatsAndClear;
  if is_empty_snapshot s then mret tt
  else for_each CONSUMERS (λ consumer, modify (λ x, (drain_consumer s consumer x.1, x.2))).

Definition get_stats_and_clear (consumer : string) : DM snapshot :=
  if negb (bool_decide (consumer ∈ CONSUMERS)) then raise (ValueError "Unsupported metrics consumer")
  else
    dp ← gets fst;
    b ← of_res (dict_index consumer (dp_buffers dp));
    modify (λ x, (MetricsDispatcher_ (dp_definitions_by_name x.1) (dp_enabled x.1)
                    (dict_set consumer _empty_stats (dp_buffers x.1)), x.2)) ;;
    mret b.

(** [get_metrics_dispatcher]: one dispatcher per process, made by the first caller. *)
Definition get_metrics_dispatcher (py : py_texts) (config : yconf) : M (option dispatcher * registry) unit :=
  x ← get;
  match x.1 with
  | Some _ => mret tt
  | None => dp ← of_res (MetricsDispatcher py config); modify (λ x, (Some dp, x.2))
  end.
