(* ===== verification/MetricsExport.v ===== *)
(** * Metrics handed to vLLM and to Prometheus

    [UCMConnectorStats] and [UCMPromMetrics] of
    [ucm/integration/vllm/metrics.py], [PrometheusStatsLogger] of
    [ucm/observability.py], and the facade's methods that connect them to the
    dispatcher.  Starting the thread of the logger, the environment variable and
    the directory of the multi-process mode are left out. *)
From Stdlib Require Import SpecFloat.
From S2P Require Import Prelude PyStrings MetricsConfig Metrics.
Open Scope Z_scope.

(** A worker rank, before [str()]. *)
Inductive rank_arg := RankInt (n : Z) | RankStr (s : string).
Definition rank_str (r : rank_arg) : string := match r with RankInt n => pretty n | RankStr s => s end.

(** A histogram entry: observations, or bucket counts with a sum. *)
Inductive hval :=
  | HList (l : list float)
  | HSnap (bucket_counts : list Z) (sum : float).

Record stats_data := StatsData {
  counters_by_rank : dict string (dict string float);
  gauges_by_rank : dict string (dict string float);
  histograms_by_rank : dict string (dict string hval);
}.
Definition no_data : stats_data := StatsData [] [] [].

Record connector_stats := ConnStats { cs_worker_rank : option string; cs_data : stats_data }.

(** ** [UCMConnectorStats] *)

Definition UCMConnectorStats (data : option stats_data) (worker_rank : option rank_arg) : connector_stats :=
  ConnStats (rank_str <$> worker_rank) (default no_data data).

Definition _rank_key (s : connector_stats) (worker_rank : option rank_arg) : string :=
  match worker_rank with
  | Some r => rank_str r
  | None => default "unknown" (cs_worker_rank s)
  end.

Definition _finite (value : float) : option float := if is_finite value then Some value else None.

(** [section.setdefault(rank, {})[name] = v] *)
Definition set_ranked {A} (rank name : string) (v : A) (section : dict string (dict string A)) : dict string (dict string A) :=
  dict_set rank (dict_set name v (dict_get_default rank [] section)) section.

Definition has_type (defs : dict string metric_definition) (name type : string) : bool :=
  match dict_get name defs with
  | Some definition => String.eqb (md_metric_type definition) type
  | None => false
  end.

Definition _histogram_snapshot (value : list Z * float) : hval := HSnap value.1 value.2.

Definition from_ucm_snapshot (s : snapshot) (worker_rank : option rank_arg) (definitions : list metric_definition) : res connector_stats :=
  let stats := UCMConnectorStats None worker_rank in
  let rank := _rank_key stats None in
  defs ← by_name (filter (λ d, md_vllm_connector_enabled d = true) definitions);
  let scalars type := foldl (λ acc x,
    if has_type defs x.1 type then
      match _finite x.2 with Some v => set_ranked rank x.1 v acc | None => acc end
    else acc) in
  Ok (ConnStats (cs_worker_rank stats)
    (StatsData (scalars "counter" [] (sn_counters s)) (scalars "gauge" [] (sn_gauges s))
       (foldl (λ acc x, if has_type defs x.1 "histogram" then set_ranked rank x.1 (_histogram_snapshot x.2) acc else acc)
          [] (sn_histograms s)))).

(** [setdefault(name, []).append(v)], which fails on an entry of counts. *)
Definition append_observation (v : float) (cur : option hval) : res hval :=
  match cur with
  | None => Ok (HList [v])
  | Some (HList l) => Ok (HList (l ++ [v]))
  | Some (HSnap _ _) => Raise AttributeError
  end.

Definition record (py : py_texts) (observations : yconf) (metric_types : dict string string)
    (worker_rank : option rank_arg) : M connector_stats unit :=
  s ← get;
  let rank := _rank_key s worker_rank in
  for_each observations (λ x,
    value_float ← of_res (py_float py x.2);
    match _finite value_float with
    | None => mret tt
    | Some v =>
        let metric_type := dict_get_default x.1 "histogram" metric_types in
        if String.eqb metric_type "counter" then
          modify (λ s, ConnStats (cs_worker_rank s)
            (StatsData (set_ranked rank x.1 v (counters_by_rank (cs_data s))) (gauges_by_rank (cs_data s)) (histograms_by_rank (cs_data s))))
        else if String.eqb metric_type "gauge" then
          modify (λ s, ConnStats (cs_worker_rank s)
            (StatsData (counters_by_rank (cs_data s)) (set_ranked rank x.1 v (gauges_by_rank (cs_data s))) (histograms_by_rank (cs_data s))))
        else
          s ← get;
          h ← of_res (append_observation v (dict_get x.1 (dict_get_default rank [] (histograms_by_rank (cs_data s)))));
          modify (λ s, ConnStats (cs_worker_rank s)
            (StatsData (counters_by_rank (cs_data s)) (gauges_by_rank (cs_data s)) (set_ranked rank x.1 h (histograms_by_rank (cs_data s)))))
    end).

Definition clone_and_reset : M connector_stats connector_stats :=
  s ← get; modify (λ s, ConnStats (cs_worker_rank s) no_data) ;; mret s.

Definition cs_is_empty (s : connector_stats) : bool :=
  let empty {A} (section : dict string (dict string A)) := forallb (λ x, match x.2 with [] => true | _ => false end) section in
  empty (counters_by_rank (cs_data s)) && empty (gauges_by_rank (cs_data s)) && empty (histograms_by_rank (cs_data s)).

(** [_merge_histogram_value]: the entry of the accumulator after the merge. *)
Definition _merge_histogram_value (value : hval) (cur : option hval) : res hval :=
  match value, cur with
  | HList l, None => Ok (HList l)
  | HList l, Some (HList k) => Ok (HList (k ++ l))
  | HList _, Some (HSnap _ _) => Raise AttributeError
  | HSnap _ sum, Some (HList k) => Ok (HList (k ++ [sum]))
  | HSnap counts sum, Some (HSnap k s) => Ok (HSnap (add_counts k counts) (fadd s sum))
  | HSnap counts sum, None => Ok (HSnap (add_counts (replicate (length counts) 0) counts) (fadd fzero sum))
  end.

Definition update_ranked (section other : dict string (dict string float)) : dict string (dict string float) :=
  foldl (λ acc x, dict_set x.1 (dict_update x.2 (dict_get_default x.1 [] acc)) acc) section other.

Definition merge_histograms (section other : dict string (dict string hval)) : res (dict string (dict string hval)) :=
  fold_res (λ acc x,
    rank_data ← fold_res (λ rank_data y,
      h ← _merge_histogram_value y.2 (dict_get y.1 rank_data);
      Ok (dict_set y.1 h rank_data)) (dict_get_default x.1 [] acc) x.2;
    Ok (dict_set x.1 rank_data acc)) section other.

Definition aggregate_stats (other s : connector_stats) : res connector_stats :=
  if cs_is_empty other then Ok s
  else
    histograms ← merge_histograms (histograms_by_rank (cs_data s)) (histograms_by_rank (cs_data other));
    Ok (ConnStats (cs_worker_rank s)
          (StatsData (update_ranked (counters_by_rank (cs_data s)) (counters_by_rank (cs_data other)))
             (update_ranked (gauges_by_rank (cs_data s)) (gauges_by_rank (cs_data other))) histograms)).

(** ** The Prometheus client *)

(** Metrics and labelled children are handles.  [prom_nbuckets] is the number of
    buckets a histogram exposes, [None] when it exposes none. *)
Class PromClient (W : Type) := {
  prom_new : string → dict string yval → M W Z;
  prom_labels : Z → list string → M W Z;
  prom_labels_kw : Z → dict string string → M W Z;
  prom_inc : Z → float → M W unit;
  prom_set : Z → float → M W unit;
  prom_observe : Z → float → M W unit;
  prom_nbuckets : Z → M W (option Z);
  prom_bucket_inc : Z → Z → Z → M W unit;
  prom_sum_inc : Z → float → M W unit;
}.

Section prom.
  Context {W : Type} `{PromClient W} (py : py_texts).

(** [for bucket, count in zip(buckets, counts): if count: bucket.inc(count)],
    then the sum. *)
Definition add_to_buckets (metric : Z) (bucket_counts : list Z) (sum_delta : float) : M W unit :=
  for_each (zip (py_range 0 (zlen bucket_counts)) bucket_counts) (λ x,
    if x.2 =? 0 then mret tt else prom_bucket_inc metric x.1 x.2) ;;
  if feqb sum_delta fzero then mret tt else prom_sum_inc metric sum_delta.

(** *** [UCMPromMetrics] *)

Record prom_metrics := PromMetrics {
  pm_definitions : dict string metric_definition;
  pm_metrics_by_name : dict string Z;
  pm_labeled_metrics : dict (Z * string * string) Z;
  pm_engine_labelvalues : dict Z (list string);
}.

Abbreviation PM := (M (prom_metrics * W)).
Definition on_prom {B} (m : M W B) : PM B := lift snd (λ w s, (s.1, w)) m.

Definition _create_metric (definition : metric_definition) (labelnames : list string) : M W Z :=
  let metric_kwargs := [("name", YStr (md_vllm_connector_name definition)); ("documentation", md_documentation definition);
                        ("labelnames", YList (YStr <$> labelnames))] in
  if String.eqb (md_metric_type definition) "histogram" then
    prom_new "histogram" (dict_set "buckets" (YList (YFloat <$> md_vllm_connector_buckets definition)) metric_kwargs)
  else if String.eqb (md_metric_type definition) "counter" then prom_new "counter" metric_kwargs
  else prom_new "gauge" metric_kwargs.

Definition UCMPromMetrics (config : yconf) (labelnames : list string) (labelvalues : dict Z (list string)) : M W prom_metrics :=
  definitions ← of_res (get_vllm_connector_metric_definitions py config);
  defs ← of_res (by_name definitions);
  metrics ← for_fold definitions [] (λ acc d,
    m ← _create_metric d (labelnames ++ ["worker_rank"]);
    of_res (set_key (md_name d) m acc));
  mret (PromMetrics defs metrics [] labelvalues).

Definition _definition (metric_name type : string) (p : prom_metrics) : option metric_definition :=
  match dict_get metric_name (pm_definitions p) with
  | None => None
  | Some definition =>
      if negb (String.eqb (md_metric_type definition) type) then None
      else if dict_mem metric_name (pm_metrics_by_name p) then Some definition else None
  end.

Definition _metric (engine_idx : Z) (worker_rank metric_name : string) : PM Z :=
  p ← gets fst;
  let key := (engine_idx, worker_rank, metric_name) in
  match dict_get key (pm_labeled_metrics p) with
  | Some m => mret m
  | None =>
      metric ← of_res (dict_index metric_name (pm_metrics_by_name p));
      values ← of_res (dict_index engine_idx (pm_engine_labelvalues p));
      m ← on_prom (prom_labels metric (values ++ [worker_rank]));
      modify (λ s, (PromMetrics (pm_definitions s.1) (pm_metrics_by_name s.1)
                      (dict_set key m (pm_labeled_metrics s.1)) (pm_engine_labelvalues s.1), s.2)) ;;
      mret m
  end.

(** One pass over the ranks of a section. *)
Definition observe_section {A} (section : dict string (dict string A)) (type : string)
    (body : string → string → metric_definition → A → PM unit) : PM unit :=
  for_each section (λ r, for_each r.2 (λ x,
    p ← gets fst;
    match _definition x.1 type p with
    | None => mret tt
    | Some definition => body r.1 x.1 definition x.2
    end)).

Definition _observe_counters (data : stats_data) (engine_idx : Z) : PM unit :=
  observe_section (counters_by_rank data) "counter" (λ rank name _ value,
    match _finite value with
    | Some v => if fltb v fzero then mret tt else m ← _metric engine_idx rank name; on_prom (prom_inc m v)
    | None => mret tt
    end).

Definition _observe_gauges (data : stats_data) (engine_idx : Z) : PM unit :=
  observe_section (gauges_by_rank data) "gauge" (λ rank name _ value,
    match _finite value with
    | Some v => m ← _metric engine_idx rank name; on_prom (prom_set m v)
    | None => mret tt
    end).

Definition _update_histogram_snapshot (metric : Z) (bucket_counts : list Z) (sum : float) (definition : metric_definition) : PM unit :=
  let sum_delta := fmul sum (md_vllm_connector_value_scale definition) in
  buckets ← on_prom (prom_nbuckets metric);
  match buckets with
  | Some n => if n =? zlen bucket_counts then on_prom (add_to_buckets metric bucket_counts sum_delta) else mret tt
  | None => mret tt
  end.

Definition _observe_histograms (data : stats_data) (engine_idx : Z) : PM unit :=
  observe_section (histograms_by_rank data) "histogram" (λ rank name definition value,
    m ← _metric engine_idx rank name;
    match value with
    | HList l => for_each l (λ o,
        match _finite o with
        | Some v => on_prom (prom_observe m (fmul v (md_vllm_connector_value_scale definition)))
        | None => mret tt
        end)
    | HSnap bucket_counts sum => _update_histogram_snapshot m bucket_counts sum definition
    end).

Definition observe (data : stats_data) (engine_idx : Z) : PM unit :=
  _observe_counters data engine_idx ;; _observe_gauges data engine_idx ;; _observe_histograms data engine_idx.

(** *** [PrometheusStatsLogger] *)

(** [lg_metric_mappings] is the mapping of the module, shared by the loggers of
    the process; the other fields are those of the logger. *)
Record logger := Logger {
  lg_metric_mappings : dict string Z;
  lg_config : yconf;
  lg_labels : dict string string;
  lg_is_running : bool;
}.

(** The process: the logger, the dispatcher and the registry, the client. *)
Definition process : Type := logger * (option dispatcher * registry) * W.
Abbreviation LM := (M process).
Definition on_logger {B} (m : M logger B) : LM B := lift (λ s, s.1.1) (λ l s, (l, s.1.2, s.2)) m.
Definition on_metrics {B} (m : M (option dispatcher * registry) B) : LM B := lift (λ s, s.1.2) (λ x s, (s.1.1, x, s.2)) m.
Definition on_client {B} (m : M W B) : LM B := lift snd (λ w s, (s.1, w)) m.
Definition on_native {B} (m : M registry B) : M (option dispatcher * registry) B := lift snd (λ r s, (s.1, r)) m.

(** The dispatcher's methods, when there is one. *)
Definition on_dispatcher {B} (m : M (dispatcher * registry) B) : M (option dispatcher * registry) B := λ s,
  match s.1 with
  | Some dp => let '(r, (dp, reg)) := m (dp, s.2) in (r, (Some dp, reg))
  | None => (Raise AttributeError, s)
  end.

(** [metric_type_config] *)
Definition default_kwargs (metric_type : string) : yconf :=
  if String.eqb metric_type "gauge" then [("multiprocess_mode", YStr "all")]
  else if String.eqb metric_type "histogram" then [("buckets", YList [])]
  else [].

(** [cfg.get(key, dflt)] of an entry of the configuration. *)
Definition cfg_get (key : string) (cfg : yval) : res (option yval) :=
  match cfg with YDict d => Ok (dict_get key d) | _ => Raise AttributeError end.

Definition register_metric (metric_type : string) (cfg : yval) : LM Z :=
  name ← of_res (cfg_get "name" cfg);
  let name := default YNull name in
  if negb (ytruthy name) then mret 0
  else
    doc ← of_res (cfg_get "documentation" cfg);
    l ← gets (λ s, s.1.1);
    let prometheus_name := multiproc_metric_name py (lg_config l) name in
    let kwargs := default_kwargs metric_type in
    let own := match cfg with YDict d => filter (λ x, dict_mem x.1 kwargs = true) d | _ => [] end in
    let metric_kwargs := dict_update own (dict_update kwargs
      [("name", YStr prometheus_name); ("documentation", default (YStr "") doc);
       ("labelnames", YList (YStr <$> (lg_labels l).*1))]) in
    metric ← on_client (prom_new metric_type metric_kwargs);
    l ← gets (λ s, s.1.1);
    mappings ← of_res (set_key name metric (lg_metric_mappings l));
    on_logger (modify (λ l, Logger mappings (lg_config l) (lg_labels l) (lg_is_running l))) ;;
    mret 1.

Definition _register_metrics_by_type (metric_type : string) : LM Z :=
  l ← gets (λ s, s.1.1);
  cfg_list ← of_res (yiter (dict_get_default metric_type (YList []) (lg_config l)));
  for_fold cfg_list 0 (λ n cfg, k ← register_metric metric_type cfg; mret (n + k)).

Definition _init_metrics_from_config : LM unit :=
  for_each METRIC_TYPES (λ metric_type, _register_metrics_by_type metric_type ;; mret tt).

(** [__init__]; a logger that does not start its thread has no work to do. *)
Definition PrometheusStatsLogger (read : yval → option yval) (model_name worker_id : string) (config_path : yval) : LM unit :=
  l ← gets (λ s, s.1.1);
  match lg_metric_mappings l with
  | _ :: _ => mret tt
  | [] =>
      let config := load_metrics_config read config_path in
      on_logger (modify (λ l, Logger (lg_metric_mappings l) config (lg_labels l) (lg_is_running l))) ;;
      definitions ← of_res (get_metric_definitions py config);
      match definitions with
      | [] => mret tt
      | _ =>
          if negb (consumer_enabled config MULTIPROC_CONSUMER) then mret tt
          else
            on_metrics (on_native (setup_ucm_metrics py config)) ;;
            on_metrics (get_metrics_dispatcher py config) ;;
            on_logger (modify (λ l, Logger (lg_metric_mappings l) (lg_config l)
              [("model_name", model_name); ("worker_id", worker_id)] (lg_is_running l))) ;;
            _init_metrics_from_config ;;
            on_logger (modify (λ l, Logger (lg_metric_mappings l) (lg_config l) (lg_labels l) true))
      end
  end.

Definition _update_counter (metric : Z) (value : float) : M W unit :=
  if fltb value fzero then mret tt else prom_inc metric value.
Definition _update_gauge (metric : Z) (value : float) : M W unit := prom_set metric value.
Definition _update_histogram (metric : Z) (value : list Z * float) : M W unit :=
  buckets ← prom_nbuckets metric;
  match buckets with
  | Some n => if n =? zlen value.1 then add_to_buckets metric value.1 value.2 else mret tt
  | None => mret tt
  end.

(** Unknown metrics and failing updates are logged. *)
Definition _update_with_func {A} (update_func : Z → A → M W unit) (stats : dict string A) : LM unit :=
  for_each stats (λ x,
    l ← gets (λ s, s.1.1);
    match dict_get x.1 (lg_metric_mappings l) with
    | None => mret tt
    | Some metric =>
        on_client (try_except (m ← prom_labels_kw metric (lg_labels l); update_func m x.2) (λ _, mret tt))
    end).

Definition logger_update_stats (s : snapshot) : LM unit :=
  _update_with_func _update_counter (sn_counters s) ;;
  _update_with_func _update_gauge (sn_gauges s) ;;
  _update_with_func _update_histogram (sn_histograms s).

(** One round of [update_stats_loop]. *)
Definition update_stats_round : LM unit :=
  on_metrics (on_dispatcher drain_to_consumers) ;;
  s ← on_metrics (on_dispatcher (get_stats_and_clear MULTIPROC_CONSUMER));
  logger_update_stats s.

End prom.

(** ** The facade's side ([UCMConnector]) *)

Record facade_metrics := FacadeMetrics {
  fm_metrics_config : yconf;
  fm_vllm_metrics_enabled : bool;
  fm_vllm_metric_definitions : list metric_definition;
  fm_has_dispatcher : bool;
}.

Definition is_nil {A} (l : list A) : bool := match l with [] => true | _ => false end.

(** [_setup_ucm_metrics], without the logger of the multi-process path, whose
    condition is [wants_logger]. *)
Definition _setup_ucm_metrics (py : py_texts) (read : yval → option yval) (dflt launch_config : yconf) :
    M (option dispatcher * registry) facade_metrics :=
  let config := load_launch_metrics_config read dflt launch_config in
  let on := negb (is_nil config) in
  has ← (if on && (consumer_enabled config MULTIPROC_CONSUMER || consumer_enabled config VLLM_CONNECTOR_CONSUMER) then
           lift snd (λ r s, (s.1, r)) (setup_ucm_metrics py config) ;;
           get_metrics_dispatcher py config ;; mret true
         else mret false);
  if on && consumer_enabled config VLLM_CONNECTOR_CONSUMER then
    definitions ← of_res (get_vllm_connector_metric_definitions py config);
    mret (FacadeMetrics config (negb (is_nil definitions)) definitions has)
  else mret (FacadeMetrics config false [] has).

Definition wants_logger (launch_config config : yconf) : bool :=
  ytruthy (dict_get_default "metrics_config_path" (YStr "") launch_config) &&
  negb (is_nil config) && consumer_enabled config MULTIPROC_CONSUMER.

Definition get_kv_connector_stats (f : facade_metrics) (worker_rank : option rank_arg) :
    M (option dispatcher * registry) (option connector_stats) :=
  if negb (fm_vllm_metrics_enabled f) then mret None
  else if negb (fm_has_dispatcher f) then mret None
  else
    on_dispatcher drain_to_consumers ;;
    s ← on_dispatcher (get_stats_and_clear VLLM_CONNECTOR_CONSUMER);
    stats ← of_res (from_ucm_snapshot s worker_rank (fm_vllm_metric_definitions f));
    mret (if cs_is_empty stats then None else Some stats).

Definition build_kv_connector_stats (data : option stats_data) : connector_stats := UCMConnectorStats data None.

(** [build_prom_metrics]; [config] is the metrics configuration of the launch. *)
Definition build_prom_metrics {W} `{PromClient W} (py : py_texts) (config : yconf)
    (labelnames : list string) (labelvalues : dict Z (list string)) : M W (option prom_metrics) :=
  match config with
  | [] => mret None
  | _ =>
      if negb (consumer_enabled config VLLM_CONNECTOR_CONSUMER) then mret None
      else
        definitions ← of_res (get_vllm_connector_metric_definitions py config);
        match definitions with
        | [] => mret None
        | _ => m ← UCMPromMetrics py config labelnames labelvalues; mret (Some m)
        end
  end.
