(* ===== verification/MetricsProps.v ===== *)
(** * Properties of the metrics

    No sample is lost between the native registry and the consumers, however
    many threads send and whichever consumer drains; the registry never indexes
    outside of its bucket counts; definitions are well formed. *)
From Stdlib Require Import SpecFloat.
From S2P Require Import Prelude PyStrings MetricsConfig MetricsDefault Metrics MetricsExport.
Open Scope Z_scope.

(** ** Counts of a histogram *)

Definition cnt (i : nat) (o : option (list Z * float)) : Z := match o with Some h => nth i h.1 0 | None => 0 end.

Lemma nth_add_counts i a : ∀ b, nth i (add_counts a b) 0 = nth i a 0 + nth i b 0.
Proof.
  revert i. induction a as [|x a IH]; intros [|i] [|y b]; cbn [add_counts nth]; rewrite ?Z.add_0_r; try done.
Qed.

Lemma nth_u64 i l : nth i (u64 <$> l) 0 = u64 (nth i l 0).
Proof. revert i. induction l as [|x l IH]; intros [|i]; cbn; auto. Qed.

Lemma nth_zeros i n : nth i (replicate n 0) 0 = 0.
Proof. revert i. induction n as [|n IH]; intros [|i]; cbn; auto. Qed.

Lemma nth_nonneg i (l : list Z) : Forall (λ x, 0 ≤ x) l → 0 ≤ nth i l 0.
Proof. revert i. induction l as [|x l IH]; intros [|i] Hl; cbn; try lia; apply Forall_cons in Hl as [? ?]; auto. Qed.

Lemma cnt_merge i h o : cnt i (Some (_merge_histogram h o)) = cnt i o + cnt i (Some h).
Proof. unfold _merge_histogram. destruct o as [ [c s]|]; cbn -[add_counts replicate]; by rewrite -> nth_add_counts, ?nth_zeros. Qed.

Lemma cnt_add_histogram i h o : 0 ≤ cnt i o → 0 ≤ cnt i (Some h) → cnt i o + cnt i (Some h) < 2 ^ 64 →
  cnt i (Some (add_histogram h o)) = cnt i o + cnt i (Some h).
Proof.
  intros Ho Hh Hb. unfold add_histogram. cbn [cnt fst]. rewrite -> nth_u64, nth_add_counts.
  assert (Hc : nth i (default ([], fzero) o).1 0 = cnt i o) by (destruct o; [done|by destruct i]).
  rewrite -> Hc. unfold u64. apply Z.mod_small. cbn [cnt] in *. lia.
Qed.

(** ** [lower_bound] stays inside the buckets *)

Lemma lower_bound_from_le fuel bs v : ∀ first len, (lower_bound_from fuel bs v first len ≤ first + len)%nat.
Proof.
  induction fuel as [|fuel IH]; intros f len; cbn [lower_bound_from]; [lia|].
  destruct (len =? 0)%nat eqn:E; [lia|]. apply Nat.eqb_neq in E.
  pose proof (Nat.div_lt len 2 ltac:(lia) ltac:(lia)).
  case_match; [pose proof (IH (f + len / 2 + 1)%nat (len - len / 2 - 1)%nat)|pose proof (IH f (len / 2)%nat)]; lia.
Qed.

(** The result is past position [k] only when [k] was compared and is smaller. *)
Lemma lower_bound_from_past fuel bs v k : ∀ first len, (first ≤ k < first + len)%nat →
  (k < lower_bound_from fuel bs v first len)%nat → (k + 1 = first + len)%nat → fltb (nth k bs fzero) v = true.
Proof.
  induction fuel as [|fuel IH]; intros f len Hk Hlt Hl; cbn [lower_bound_from] in Hlt; [lia|].
  destruct (len =? 0)%nat eqn:E; [apply Nat.eqb_eq in E; lia|]. apply Nat.eqb_neq in E.
  pose proof (Nat.div_lt len 2 ltac:(lia) ltac:(lia)).
  destruct (fltb (nth (f + len / 2) bs fzero) v) eqn:Hc.
  - destruct (decide (k = f + len / 2)%nat) as [->|Hne]; [done|]. eapply IH; [|exact Hlt|]; lia.
  - pose proof (lower_bound_from_le fuel bs v f (len / 2)). lia.
Qed.

Lemma lower_bound_in bs v : (lower_bound (bs ++ [S754_infinity false]) v < length (bs ++ [S754_infinity false]))%nat.
Proof.
  unfold lower_bound. set (l := bs ++ [S754_infinity false]).
  pose proof (lower_bound_from_le (length l) l v 0 (length l)) as Hle.
  destruct (decide (lower_bound_from (length l) l v 0 (length l) = length l)) as [He|]; [|lia].
  assert (Hlen : length l = S (length bs)) by (unfold l; rewrite length_app; cbn; lia).
  pose proof (lower_bound_from_past (length l) l v (length bs) 0 (length l)) as Hp.
  specialize (Hp ltac:(lia) ltac:(lia) ltac:(lia)). unfold l in Hp. rewrite -> app_nth2, Nat.sub_diag in Hp by lia.
  cbn [nth] in Hp. destruct v as [ [|]|[|]| |[|] ? ?]; discriminate Hp.
Qed.

(** ** The registry *)

#[local] Arguments zsum : simpl never.

Lemma zsum_dict_set {K V} `{EqDecision K} (f : K * V → Z) k v d :
  zsum (f <$> dict_set k v d) = zsum (f <$> d) + f (k, v) - match dict_get k d with Some v0 => f (k, v0) | None => 0 end.
Proof.
  induction d as [|[k0 v0] d IH]; csimpl; [rewrite -> zsum_cons; unfold zsum; cbn; lia|]. case_decide; csimpl; rewrite -> !zsum_cons; [subst; lia|].
  rewrite -> IH. lia.
Qed.

Definition histograms_ok (metrics : list metric_info) (hs : dict Z (list Z * float)) : Prop :=
  NoDup hs.*1 ∧ ∀ id h, dict_get id hs = Some h → 0 ≤ id ∧ Forall (λ c, 0 ≤ c) h.1 ∧
    ∃ info, metrics !! Z.to_nat id = Some info ∧ mi_type info = HISTOGRAM ∧ length h.1 = length (mi_buckets info).

Definition active (b : metric_buffer) : inner_buffer := mb_get (mb_write_idx b) b.

Definition buffer_ok (metrics : list metric_info) (b : metric_buffer) : Prop :=
  mb_get (negb (mb_write_idx b)) b = empty_buffer ∧ histograms_ok metrics (ib_histograms (active b)).

Definition names_ok (r : registry) : Prop :=
  (∀ name id, dict_get name (rg_name_to_id r) = Some id →
     0 ≤ id ∧ ∃ info, rg_metrics r !! Z.to_nat id = Some info ∧ mi_name info = name) ∧
  (∀ k info, rg_metrics r !! k = Some info → dict_get (mi_name info) (rg_name_to_id r) = Some (Z.of_nat k)) ∧
  Forall (λ info, mi_type info = HISTOGRAM → ∃ bs, mi_buckets info = bs ++ [S754_infinity false]) (rg_metrics r).

Definition registry_ok (r : registry) : Prop :=
  names_ok r ∧ Forall (λ x, buffer_ok (rg_metrics r) x.2) (rg_buffers r).

(** The samples of histogram [id] in bucket [i] that wait in the buffers. *)
Definition pending (r : registry) (id : Z) (i : nat) : Z :=
  zsum ((λ x, cnt i (dict_get id (ib_histograms (active x.2)))) <$> rg_buffers r).

Lemma cnt_nonneg metrics hs id i : histograms_ok metrics hs → 0 ≤ cnt i (dict_get id hs).
Proof. intros [_ Hh]. destruct (dict_get id hs) as [h|] eqn:E; cbn; [|done]. apply nth_nonneg. by apply (Hh _ _ E). Qed.

Lemma pending_ge r id i t b : registry_ok r → dict_get t (rg_buffers r) = Some b →
  0 ≤ cnt i (dict_get id (ib_histograms (active b))) ≤ pending r id i.
Proof.
  intros [_ Hb] Ht. unfold pending. apply dict_get_Some_elem in Ht. induction (rg_buffers r) as [|x l IH]; [by apply not_elem_of_nil in Ht|].
  apply Forall_cons in Hb as [Hx Hl]. csimpl. rewrite -> zsum_cons.
  pose proof (cnt_nonneg _ _ id i (proj2 Hx)).
  assert (0 ≤ zsum ((λ x, cnt i (dict_get id (ib_histograms (active x.2)))) <$> l)).
  { apply zsum_nonneg, Forall_forall. intros y Hy. apply list_elem_of_fmap in Hy as (z & -> & Hz).
    rewrite -> Forall_forall in Hl. eapply cnt_nonneg. apply (Hl _ Hz). }
  apply elem_of_cons in Ht as [<-|Ht]; [cbn [snd] in *; lia|]. specialize (IH Hl Ht). lia.
Qed.

Lemma nth_alter_u64 i k (l : list Z) : (k < length l)%nat → 0 ≤ nth i l 0 < 2 ^ 64 - 1 →
  nth i (alter (λ c, u64 (c + 1)) k l) 0 = nth i l 0 + (if decide (k = i) then 1 else 0).
Proof.
  revert i k. induction l as [|x l IH]; intros [|i] [|k] Hk Hb; cbn [length alter list_alter nth] in *; try lia.
  - unfold u64. rewrite -> Z.mod_small by lia. case_decide; lia.
  - case_decide; lia.
  - case_decide; lia.
  - rewrite -> IH by lia. repeat case_decide; lia.
Qed.

Lemma observe_in_range bs v h : (∃ b, bs = b ++ [S754_infinity false]) → (h.1 = [] ∨ length h.1 = length bs) →
  Forall (λ c, 0 ≤ c) h.1 →
  ∃ h', observe_histogram bs v h = Ok h' ∧ length h'.1 = length bs ∧ Forall (λ c, 0 ≤ c) h'.1 ∧
    ∀ i, cnt i (Some h) < 2 ^ 64 - 1 → cnt i (Some h') = cnt i (Some h) + (if decide (lower_bound bs v = i) then 1 else 0).
Proof.
  intros [b ->] Hl Hn. pose proof (lower_bound_in b v) as Hlt. set (bs := b ++ [S754_infinity false]) in *.
  unfold observe_histogram. set (counts := match h.1 with [] => replicate (length bs) 0 | c => c end).
  assert (length counts = length bs ∧ Forall (λ c, 0 ≤ c) counts ∧ ∀ i, nth i counts 0 = nth i h.1 0) as (Hcl & Hcn & Hci).
  { unfold counts. destruct h.1 as [|c l] eqn:E.
    - split_and!; [by rewrite -> length_replicate|by apply Forall_replicate|]. intros i. rewrite -> nth_zeros. by destruct i.
    - destruct Hl as [?|Hl]; [done|]. by rewrite <- E in *. }
  rewrite -> py_alter_in, Nat2Z.id by (unfold zlen; lia). eexists. split; [reflexivity|]. cbn [fst].
  split_and!.
  - by rewrite -> length_alter.
  - apply Forall_lookup. intros j x Hj. rewrite -> Forall_lookup in Hcn. rewrite -> list_lookup_alter in Hj. case_decide; [|eauto].
    apply fmap_Some in Hj as (y & _ & ->). apply Z.mod_pos_bound. lia.
  - intros i Hi. cbn [cnt fst] in *. rewrite -> nth_alter_u64, Hci; [done|by rewrite -> Hcl|].
    rewrite -> Hci. split; [by apply nth_nonneg|lia].
Qed.

(** What a sample adds to bucket [i] of histogram [id]. *)
Definition sample_adds (r : registry) (id : Z) (i : nat) (name : string) (v : float) : Z :=
  match dict_get name (rg_name_to_id r), rg_metrics r !! Z.to_nat id with
  | Some id', Some info => if decide (id' = id ∧ mi_type info = HISTOGRAM ∧ lower_bound (mi_buckets info) v = i) then 1 else 0
  | _, _ => 0
  end.

Lemma update_buffer_ok metrics info id v b : metrics !! Z.to_nat id = Some info → 0 ≤ id →
  Forall (λ info, mi_type info = HISTOGRAM → ∃ bs, mi_buckets info = bs ++ [S754_infinity false]) metrics →
  histograms_ok metrics (ib_histograms b) →
  ∃ b', UpdateBuffer info id v b = Ok b' ∧ histograms_ok metrics (ib_histograms b') ∧
    ∀ id' i, cnt i (dict_get id' (ib_histograms b)) < 2 ^ 64 - 1 →
      cnt i (dict_get id' (ib_histograms b')) = cnt i (dict_get id' (ib_histograms b)) +
        (if decide (id = id' ∧ mi_type info = HISTOGRAM ∧ lower_bound (mi_buckets info) v = i) then 1 else 0).
Proof.
  intros Hm Hid Hb [Hnd Hh]. rewrite -> Forall_lookup in Hb. unfold UpdateBuffer. destruct (mi_type info) eqn:Ht.
  1, 2: eexists; split; [reflexivity|]; split; [done|]; intros; rewrite -> decide_False by naive_solver; cbn; lia.
  destruct (Hb _ _ Hm Ht) as [bs Hbs]. destruct (mi_buckets info) as [|x l] eqn:E; [by destruct bs|]. rewrite <- E in *.
  set (h := dict_get_default id ([], fzero) (ib_histograms b)).
  destruct (observe_in_range (mi_buckets info) v h) as (h' & Ho & Hl' & Hn' & Hc'); [by exists bs| | |].
  - unfold h, dict_get_default. destruct (dict_get id _) as [h0|] eqn:Hg; [right|by left].
    apply Hh in Hg as (_ & _ & info' & Hm' & _ & Hlen). cbn. congruence.
  - unfold h, dict_get_default. destruct (dict_get id _) as [h0|] eqn:Hg; [|by constructor]. by apply Hh in Hg as (_ & ? & _).
  - assert (Hd : ∀ i, cnt i (Some h) = cnt i (dict_get id (ib_histograms b))).
    { intros i. unfold h, dict_get_default. destruct (dict_get id _); [done|by destruct i]. }
    rewrite -> Ho. cbn. eexists. split; [reflexivity|]. cbn. split.
    + split; [by apply dict_set_NoDup|]. intros id' h0. rewrite -> dict_get_set. case_decide as Hi.
      * intros [= <-]. subst id'. split_and!; [done|done|]. by exists info.
      * apply Hh.
    + intros id' i Hi. rewrite -> dict_get_set. destruct (decide (id' = id)) as [->|Hne].
      * rewrite -> decide_True, Hc', Hd by (done || by rewrite -> Hd). repeat case_decide; naive_solver.
      * rewrite -> decide_False, (decide_False (P := id = id' ∧ _)) by naive_solver. lia.
Qed.

Lemma update_stats_ok r t name v : registry_ok r →
  ∃ r', UpdateStats t name v r = (Ok tt, r') ∧ registry_ok r' ∧
    rg_name_to_id r' = rg_name_to_id r ∧ rg_metrics r' = rg_metrics r ∧ rg_inited r' = rg_inited r ∧
    (rg_inited r = true → ∀ id i, pending r id i < 2 ^ 64 - 1 → pending r' id i = pending r id i + sample_adds r id i name v).
Proof.
  intros Hr. pose proof Hr as [ [Hn1 [Hn2 Hn3] ] Hb]. unfold UpdateStats. mstep.
  assert (Hskip : ∀ P : Prop, (P → rg_inited r = true → ∀ id i, sample_adds r id i name v = 0) → P →
    ∃ r', (Ok tt, r) = (Ok tt, r') ∧ registry_ok r' ∧ rg_name_to_id r' = rg_name_to_id r ∧ rg_metrics r' = rg_metrics r ∧
      rg_inited r' = rg_inited r ∧ (rg_inited r = true → ∀ id i, pending r id i < 2 ^ 64 - 1 → pending r' id i = pending r id i + sample_adds r id i name v)).
  { intros P HP p. exists r. split_and!; try done. intros Hi id i _. rewrite -> HP by done. lia. }
  destruct (rg_inited r) eqn:Hi; [|by apply (Hskip True); naive_solver].
  destruct (dict_get name (rg_name_to_id r)) as [id|] eqn:Hid.
  2:{ apply (Hskip True); [|done]. intros _ _ id i. unfold sample_adds. by rewrite -> Hid. }
  destruct (Hn1 _ _ Hid) as (Hid0 & info & Hm & Hnm). rewrite -> Hm.
  set (b0 := MetricBuffer false empty_buffer empty_buffer). set (b := dict_get_default t b0 (rg_buffers r)).
  assert (Hbok : buffer_ok (rg_metrics r) b).
  { unfold b, dict_get_default. destruct (dict_get t (rg_buffers r)) as [b1|] eqn:Hg.
    - apply dict_get_Some_elem in Hg. rewrite -> Forall_forall in Hb. apply (Hb _ Hg).
    - split; [done|]. split; [constructor|done]. }
  destruct Hbok as [He Hh]. destruct (update_buffer_ok _ _ _ v _ Hm Hid0 Hn3 Hh) as (b' & Hu & Hh' & Hc).
  unfold active in Hu. rewrite -> Hu. cbn. eexists. split; [reflexivity|].
  assert (Ha : active (mb_set (mb_write_idx b) b' b) = b') by (unfold active; destruct b as [ [] ? ?]; done).
  split_and!; [|done..|].
  - split; [done|]. cbn. apply Forall_forall. intros [t' x] Hx. rewrite -> Forall_forall in Hb.
    assert (Hx' : x = mb_set (mb_write_idx b) b' b ∨ (t', x) ∈ rg_buffers r).
    { apply dict_set_elem in Hx as [ [= -> ->]|Hx]; auto. }
    cbn [snd]. destruct Hx' as [->|Hx']; [|by apply (Hb _ Hx')]. split; [|by rewrite -> Ha].
    clear -He. destruct b as [ [] ? ?]; cbn in *; done.
  - intros _ id' i Hlt. unfold pending. cbn [rg_buffers]. rewrite -> zsum_dict_set. cbn [fst snd]. rewrite -> Ha.
    assert (Hold : cnt i (dict_get id' (ib_histograms (active b))) =
      match dict_get t (rg_buffers r) with Some v0 => cnt i (dict_get id' (ib_histograms (active v0))) | None => 0 end).
    { unfold b, dict_get_default. by destruct (dict_get t (rg_buffers r)). }
    rewrite <- Hold. rewrite -> Hc; cycle 1.
    { rewrite -> Hold. destruct (dict_get t (rg_buffers r)) as [b1|] eqn:Hg; [|lia]. pose proof (pending_ge r id' i t b1 Hr Hg). lia. }
    unfold sample_adds. rewrite -> Hid. unfold pending.
    destruct (decide (id = id')) as [<-|Hne].
    + rewrite -> Hm. repeat case_decide; naive_solver lia.
    + destruct (rg_metrics r !! Z.to_nat id'); repeat case_decide; naive_solver lia.
Qed.

(** Reading a buffer adds its counts to those of the name of each histogram. *)
Lemma add_named_counts r id info i hs : names_ok r → rg_metrics r !! Z.to_nat id = Some info → 0 ≤ id → ∀ acc,
  NoDup hs.*1 → Forall (λ x, 0 ≤ x.1 ∧ Forall (λ c, 0 ≤ c) x.2.1) hs →
  0 ≤ cnt i (dict_get (mi_name info) acc) → cnt i (dict_get (mi_name info) acc) + cnt i (dict_get id hs) < 2 ^ 64 →
  cnt i (dict_get (mi_name info) (foldl (add_named (rg_metrics r) add_histogram) acc hs)) =
    cnt i (dict_get (mi_name info) acc) + cnt i (dict_get id hs).
Proof.
  intros (_ & Hinj & _) Hm Hid. induction hs as [|[id0 h0] hs IH]; intros acc Hnd Hf Ha Hb; [cbn; lia|].
  csimpl in Hnd. apply NoDup_cons in Hnd as [Hni Hnd]. apply Forall_cons in Hf as [ [Hid0 Hc0] Hf]. cbn [fst snd] in *.
  cbn [foldl dict_get] in *. unfold add_named at 2. cbn [fst snd].
  destruct (decide (id = id0)) as [<-|Hne].
  - rewrite -> Hm. assert (Hz : cnt i (dict_get id hs) = 0) by (by rewrite -> (proj2 (dict_get_None _ _) Hni)).
    pose proof (nth_nonneg i h0.1 Hc0). assert (Hk : cnt i (Some (add_histogram h0 (dict_get (mi_name info) acc))) =
      cnt i (dict_get (mi_name info) acc) + cnt i (Some h0)) by (apply cnt_add_histogram; done).
    rewrite -> IH; rewrite -> ?dict_get_set_eq, ?Hk, ?Hz; try done; cbn [cnt] in *; lia.
  - destruct (rg_metrics r !! Z.to_nat id0) as [info0|] eqn:Hm0; [|by apply IH].
    assert (mi_name info ≠ mi_name info0).
    { intros He. apply Hinj in Hm, Hm0. rewrite -> He in Hm. rewrite -> Hm in Hm0. injection Hm0. lia. }
    rewrite -> IH; rewrite -> ?dict_get_set_ne by done; done.
Qed.

Lemma foldl_read_histograms metrics bs : ∀ acc,
  sn_histograms (foldl (read_buffer metrics) acc bs) =
  foldl (λ h b, foldl (add_named metrics add_histogram) h (ib_histograms b)) (sn_histograms acc) bs.
Proof. induction bs as [|b bs IH]; intros acc; [done|]. cbn [foldl]. by rewrite -> IH. Qed.

Lemma add_named_NoDup {A} metrics (f : A → option A → A) hs : ∀ acc, NoDup acc.*1 → NoDup (foldl (add_named metrics f) acc hs).*1.
Proof.
  induction hs as [|x hs IH]; intros acc Ha; [done|]. apply IH. unfold add_named. case_match; [by apply dict_set_NoDup|done].
Qed.

Lemma get_all_ok r : registry_ok r → ∃ s r', GetAllStatsAndClear r = (Ok s, r') ∧ registry_ok r' ∧
  rg_name_to_id r' = rg_name_to_id r ∧ rg_metrics r' = rg_metrics r ∧ rg_inited r' = rg_inited r ∧
  (∀ id i, pending r' id i = 0) ∧ NoDup (sn_histograms s).*1 ∧
  ∀ id info i, rg_metrics r !! Z.to_nat id = Some info → 0 ≤ id → pending r id i < 2 ^ 64 →
    cnt i (dict_get (mi_name info) (sn_histograms s)) = pending r id i.
Proof.
  intros [Hn Hb]. eexists _, _. split; [reflexivity|]. cbn [fst snd rg_metrics rg_name_to_id rg_inited].
  assert (Hempty : ∀ b, buffer_ok (rg_metrics r) b → active (switch_buffer b) = empty_buffer ∧ buffer_ok (rg_metrics r) (switch_buffer b)).
  { intros [ [] b0 b1] [He Hh]; unfold active, switch_buffer in *; cbn in *; subst;
      (split; [done|split; [done|split; [apply NoDup_nil_2|done] ] ]). }
  split_and!; try done.
  - split; [done|]. cbn. apply Forall_fmap, Forall_forall. intros x Hx. rewrite -> Forall_forall in Hb. cbn. apply Hempty, Hb, Hx.
  - intros id i. unfold pending. cbn. rewrite <- list_fmap_compose. assert (Hz : Forall (λ x : Z * metric_buffer,
      cnt i (dict_get id (ib_histograms (active (switch_buffer x.2)))) = 0) (rg_buffers r)).
    { eapply Forall_impl; [exact Hb|]. intros x Hx. by rewrite -> (proj1 (Hempty _ Hx)). }
    clear -Hz. induction Hz as [|x l Hx Hl IH]; [done|]. csimpl. rewrite -> zsum_cons, Hx. exact IH.
  - rewrite -> foldl_read_histograms. cbn. assert (HN : ∀ bs acc, NoDup (A := string) acc.*1 →
      NoDup (foldl (λ h b, foldl (add_named (rg_metrics r) add_histogram) h (ib_histograms b)) acc bs).*1).
    { induction bs as [|b bs IH]; intros acc Ha; [done|]. apply IH. by apply add_named_NoDup. }
    apply HN. constructor.
  - intros id info i Hm Hid Hp. rewrite -> foldl_read_histograms. unfold pending in *. cbn [sn_histograms _empty_stats].
    assert (HG : ∀ l acc, Forall (λ x : Z * metric_buffer, buffer_ok (rg_metrics r) x.2) l → 0 ≤ cnt i (dict_get (mi_name info) acc) →
      cnt i (dict_get (mi_name info) acc) + zsum ((λ x, cnt i (dict_get id (ib_histograms (active x.2)))) <$> l) < 2 ^ 64 →
      cnt i (dict_get (mi_name info) (foldl (λ h b, foldl (add_named (rg_metrics r) add_histogram) h (ib_histograms b)) acc
        ((λ x, mb_get (mb_write_idx x.2) x.2) <$> l))) =
      cnt i (dict_get (mi_name info) acc) + zsum ((λ x, cnt i (dict_get id (ib_histograms (active x.2)))) <$> l)).
    { induction l as [|x l IH]; intros acc Hl Ha Hlt; [unfold zsum; cbn; lia|]. apply Forall_cons in Hl as [Hx Hl]. csimpl in Hlt. csimpl.
      rewrite -> zsum_cons in *. pose proof (cnt_nonneg _ _ id i (proj2 Hx)). destruct Hx as [_ [Hnd Hh] ].
      assert (0 ≤ zsum ((λ x, cnt i (dict_get id (ib_histograms (active x.2)))) <$> l)).
      { apply zsum_nonneg, Forall_forall. intros y Hy. apply list_elem_of_fmap in Hy as (z & -> & Hz).
        rewrite -> Forall_forall in Hl. eapply cnt_nonneg. apply (Hl _ Hz). }
      assert (Hk := add_named_counts r id info i (ib_histograms (active x.2)) Hn Hm Hid acc Hnd).
      rewrite -> IH; [| done | |]; unfold active in *; rewrite -> Hk; try lia;
        apply Forall_forall; intros [id' h'] Hin; apply dict_elem_get in Hin; [|done| |done| |done]; cbn; naive_solver. }
    rewrite -> HG; [done|done|done|done].
Qed.

(** ** Creating the metrics *)

Lemma create_stats_ok name type buckets : preserves (λ r, registry_ok r ∧ rg_buffers r = []) (CreateStats name type buckets).
Proof.
  intros r [ [ (H1 & H2 & H3) Hb] He]. unfold CreateStats. mstep. destruct (rg_inited r); cbn [negb]; [|done].
  destruct (parse_type type) as [t|]; [|done]. destruct (dict_mem name (rg_name_to_id r)) eqn:Hmem; [done|].
  unfold dict_mem in Hmem. apply bool_decide_eq_false in Hmem. cbn. split; [|done]. split; [|by rewrite He]. unfold names_ok. cbn.
  split_and!.
  - intros n id. rewrite -> dict_get_set. case_decide as Hn.
    + intros [= <-]. subst. split; [apply zlen_nonneg|]. unfold zlen. rewrite -> Nat2Z.id, list_lookup_middle by done. by eexists.
    + intros Hg. destruct (H1 _ _ Hg) as (? & info & Hm & ?). split; [done|]. exists info.
      by rewrite -> lookup_app_l by (by eapply lookup_lt_Some).
  - intros k info Hk. apply lookup_app_Some in Hk as [Hk|[Hk Hi] ].
    + rewrite -> dict_get_set_ne; [by apply H2|]. intros ->. apply H2 in Hk. apply Hmem. by eexists.
    + apply list_lookup_singleton_Some in Hi as [Hi <-]. cbn. rewrite -> dict_get_set_eq. f_equal. unfold zlen. lia.
  - apply Forall_app. split; [done|]. apply Forall_singleton. cbn. intros ->. unfold NormalizeBuckets.
    destruct (last buckets) as [ [ | [|] | | ]|] eqn:Hl; try by eexists.
    apply last_Some in Hl as [bs ->]. by exists bs.
Qed.

Lemma create_stats_inited name type buckets r : rg_inited (CreateStats name type buckets r).2 = rg_inited r.
Proof.
  unfold CreateStats. mstep. destruct (rg_inited r) eqn:Hi; cbn [negb]; [|done]. destruct (parse_type type); [|done].
  by destruct (dict_mem name (rg_name_to_id r)).
Qed.

Lemma setup_ok py config ds r : setup_ucm_metrics py config new_registry = (Ok ds, r) →
  registry_ok r ∧ rg_buffers r = [] ∧ (rg_inited r = true ∨ rg_name_to_id r = []).
Proof.
  assert (Hnew : ∀ b, registry_ok (Registry b [] [] [])).
  { intros b. split; [|constructor]. split_and!; [done|intros k info Hk; by rewrite lookup_nil in Hk|constructor]. }
  unfold setup_ucm_metrics, of_res. intros Hr. apply M_Ok_inv in Hr as (defs & r1 & H1 & Hr). injection H1 as H1 <-.
  destruct defs as [|d defs]; [injection Hr as <- <-; split_and!; [apply Hnew|done|by right]|].
  apply M_Ok_inv in Hr as ([] & r2 & H2 & Hr). injection H2 as <-.
  apply M_Ok_inv in Hr as ([] & r3 & H3 & Hr). injection Hr as _ <-.
  assert (HP : preserves (λ r, (registry_ok r ∧ rg_buffers r = []) ∧ rg_inited r = true)
    (for_each (d :: defs) (λ d, name ← (λ s, (as_text (md_name d), s)); CreateStats name (md_metric_type d) (md_buckets d)))).
  { apply preserves_for_each. intros x _. apply preserves_bind; [apply preserves_of_res|]. intros n r0 [Hp Hi].
    pose proof (create_stats_ok n (md_metric_type x) (md_buckets x) r0 Hp) as Hq.
    split; [exact Hq|]. by rewrite -> create_stats_inited. }
  specialize (HP (Registry true [] [] []) (conj (conj (Hnew true) eq_refl) eq_refl)). cbn [rg_buffers new_registry rg_name_to_id rg_metrics] in H3.
  unfold new_registry in H3. cbn [rg_name_to_id rg_metrics rg_buffers] in H3. rewrite -> H3 in HP. cbn in HP. naive_solver.
Qed.

(** ** The dispatcher *)

Lemma merge_section_get {A B} (defined : string → bool) (f : A → option B → B) n stats : ∀ acc, NoDup stats.*1 →
  dict_get n (merge_section defined f acc stats) =
    if defined n then match dict_get n stats with Some a => Some (f a (dict_get n acc)) | None => dict_get n acc end
    else dict_get n acc.
Proof.
  induction stats as [|[k a] stats IH]; intros acc Hnd; [by destruct (defined n)|]. csimpl in Hnd. apply NoDup_cons in Hnd as [Hni Hnd].
  unfold merge_section in *. cbn [foldl dict_get fst snd]. rewrite -> IH by done.
  destruct (decide (n = k)) as [->|Hne].
  - rewrite -> (proj2 (dict_get_None _ _) Hni). destruct (defined k) eqn:Hd; [|done]. apply dict_get_set_eq.
  - destruct (defined k); [|done]. by rewrite -> !dict_get_set_ne by done.
Qed.

(** The samples of histogram [n] in bucket [i] that consumer [c] has not read. *)
Definition buffered (dp : dispatcher) (c n : string) (i : nat) : Z :=
  cnt i (dict_get n (sn_histograms (dict_get_default c _empty_stats (dp_buffers dp)))).

Definition defines (dp : dispatcher) (c n : string) : bool := consumer_defines (dp_definitions_by_name dp) "histogram" c n.

Lemma drain_consumer_counts s c' dp c n i : NoDup (sn_histograms s).*1 →
  dict_get_default c false (dp_enabled dp) = true → defines dp c n = true →
  buffered (drain_consumer s c' dp) c n i =
    buffered dp c n i + (if decide (c' = c) then cnt i (dict_get n (sn_histograms s)) else 0).
Proof.
  intros Hnd He Hd. unfold drain_consumer, buffered. case_decide as Hc.
  - subst c'. rewrite -> He. cbn [dp_buffers]. unfold dict_get_default at 1. rewrite -> dict_get_set_eq. cbn [default sn_histograms _merge_stats].
    unfold defines in Hd. cbn. rewrite -> merge_section_get, Hd by done. destruct (dict_get n (sn_histograms s)) as [h|]; [|cbn; lia].
    by rewrite -> cnt_merge.
  - rewrite -> Z.add_0_r. case_match; [|done]. cbn [dp_buffers]. unfold dict_get_default at 1. by rewrite -> dict_get_set_ne by done.
Qed.

Lemma drain_consumer_static s c dp :
  dp_definitions_by_name (drain_consumer s c dp) = dp_definitions_by_name dp ∧ dp_enabled (drain_consumer s c dp) = dp_enabled dp ∧
  ∀ k, is_Some (dict_get k (dp_buffers dp)) → is_Some (dict_get k (dp_buffers (drain_consumer s c dp))).
Proof.
  unfold drain_consumer. case_match; [|done]. split_and!; [done..|]. intros k Hk. cbn. rewrite -> dict_get_set. by case_decide.
Qed.

(** What does not change: definitions, switches and the places of the buffers. *)
Definition same_dispatcher (dp dp' : dispatcher) : Prop :=
  dp_definitions_by_name dp' = dp_definitions_by_name dp ∧ dp_enabled dp' = dp_enabled dp ∧
  ∀ k, is_Some (dict_get k (dp_buffers dp)) → is_Some (dict_get k (dp_buffers dp')).
Definition same_registry (r r' : registry) : Prop :=
  rg_name_to_id r' = rg_name_to_id r ∧ rg_metrics r' = rg_metrics r ∧ rg_inited r' = rg_inited r.

Lemma drain_ok dp r : registry_ok r → ∃ dp' r', drain_to_consumers (dp, r) = (Ok tt, (dp', r')) ∧ registry_ok r' ∧
  same_dispatcher dp dp' ∧ same_registry r r' ∧ (∀ id i, pending r' id i = 0) ∧
  ∀ c n id info i, c ∈ CONSUMERS → dict_get_default c false (dp_enabled dp) = true → defines dp c n = true →
    dict_get n (rg_name_to_id r) = Some id → rg_metrics r !! Z.to_nat id = Some info → pending r id i < 2 ^ 64 →
    buffered dp' c n i = buffered dp c n i + pending r id i.
Proof.
  intros Hr. destruct (get_all_ok r Hr) as (s & r' & Hg & Hr' & Hs1 & Hs2 & Hs3 & Hp & Hnd & Hc).
  assert (Hc' : ∀ n id info i, dict_get n (rg_name_to_id r) = Some id → rg_metrics r !! Z.to_nat id = Some info → pending r id i < 2 ^ 64 →
    cnt i (dict_get n (sn_histograms s)) = pending r id i).
  { intros n id info i Hn Hm Hlt. pose proof (proj1 (proj1 Hr) _ _ Hn) as (Hid & info' & Hm' & <-). by apply Hc. }
  unfold drain_to_consumers. erewrite M_bind_Ok; [|unfold on_registry, lift; cbn [snd]; by rewrite -> Hg]. cbn [fst].
  destruct (is_empty_snapshot s) eqn:He.
  - exists dp, r'. split_and!; try done. intros c n id info i _ _ _ Hn Hm Hlt. rewrite <- (Hc' n id info i) by done.
    unfold is_empty_snapshot in He. destruct (sn_counters s), (sn_gauges s), (sn_histograms s); try discriminate He. cbn. lia.
  - exists (drain_consumer s VLLM_CONNECTOR_CONSUMER (drain_consumer s MULTIPROC_CONSUMER dp)), r'.
    pose proof (drain_consumer_static s MULTIPROC_CONSUMER dp) as (Hd1 & He1 & Hb1).
    pose proof (drain_consumer_static s VLLM_CONNECTOR_CONSUMER (drain_consumer s MULTIPROC_CONSUMER dp)) as (Hd2 & He2 & Hb2).
    split_and!; try done.
    + split_and!; [congruence|congruence|auto].
    + intros c n id info i Hin Hen Hdf Hn Hm Hlt. rewrite <- (Hc' n id info i) by done.
      rewrite -> drain_consumer_counts; [|done|by rewrite -> He1|by unfold defines in *; rewrite -> Hd1].
      rewrite -> drain_consumer_counts by done. unfold CONSUMERS in Hin. rewrite -> !elem_of_cons in Hin.
      destruct Hin as [->|[->|Hin] ]; [| |by apply not_elem_of_nil in Hin].
      * rewrite -> decide_True, decide_False by done. lia.
      * rewrite -> decide_False, decide_True by done. lia.
Qed.

Lemma read_ok c dp r : c ∈ CONSUMERS → is_Some (dict_get c (dp_buffers dp)) → ∃ b dp',
  get_stats_and_clear c (dp, r) = (Ok b, (dp', r)) ∧ same_dispatcher dp dp' ∧
  (∀ n i, buffered dp' c n i = 0 ∧ cnt i (dict_get n (sn_histograms b)) = buffered dp c n i) ∧
  ∀ c' n i, c' ≠ c → buffered dp' c' n i = buffered dp c' n i.
Proof.
  intros Hc [b Hb]. unfold get_stats_and_clear. rewrite -> bool_decide_true by done. cbn [negb]. mstep.
  unfold dict_index. rewrite -> Hb. mstep. mstep. exists b. eexists. split; [reflexivity|]. unfold buffered, dict_get_default. cbn.
  split_and!; try done.
  - split_and!; [done..|]. cbn. intros k Hk. rewrite -> dict_get_set. by case_decide.
  - intros n i. rewrite -> dict_get_set_eq, Hb. done.
  - intros c' n i Hne. by rewrite -> dict_get_set_ne by done.
Qed.

(** ** Runs: samples of any thread, drains and reads in any order *)

Section runs.
  Context (py : py_texts) (config : yconf).

(** [metrics_run S R x]: after the samples [S] and the reads [R], oldest first. *)
Inductive metrics_run : list (string * float) → list (string * snapshot) → dispatcher * registry → Prop :=
  | run_start dp ds reg : MetricsDispatcher py config = Ok dp →
      setup_ucm_metrics py config new_registry = (Ok ds, reg) → metrics_run [] [] (dp, reg)
  | run_sample S R dp reg t n v res reg' : metrics_run S R (dp, reg) → UpdateStats t n v reg = (res, reg') →
      metrics_run (S ++ [(n, v)]) R (dp, reg')
  | run_drain S R x res x' : metrics_run S R x → drain_to_consumers x = (res, x') → metrics_run S R x'
  | run_read S R x c b x' : metrics_run S R x → get_stats_and_clear c x = (Ok b, x') → metrics_run S (R ++ [(c, b)]) x'.

Definition reads_of (c n : string) (i : nat) (R : list (string * snapshot)) : Z :=
  zsum ((λ x, if decide (x.1 = c) then cnt i (dict_get n (sn_histograms x.2)) else 0) <$> R).
Definition sent (buckets : list float) (n : string) (i : nat) (S : list (string * float)) : Z :=
  zlen (filter (λ x, x.1 = n ∧ lower_bound buckets x.2 = i) S).

Definition accounted S R (dp : dispatcher) (reg : registry) : Prop :=
  ∀ c n id info i, c ∈ CONSUMERS → dict_get_default c false (dp_enabled dp) = true → defines dp c n = true →
    dict_get n (rg_name_to_id reg) = Some id → rg_metrics reg !! Z.to_nat id = Some info → mi_type info = HISTOGRAM →
    zlen S < 2 ^ 64 →
    reads_of c n i R + buffered dp c n i + pending reg id i = sent (mi_buckets info) n i S ∧
    0 ≤ reads_of c n i R ∧ 0 ≤ buffered dp c n i.

Lemma reads_of_snoc c n i R c' b : reads_of c n i (R ++ [(c', b)]) =
  reads_of c n i R + (if decide (c' = c) then cnt i (dict_get n (sn_histograms b)) else 0).
Proof. unfold reads_of. rewrite -> fmap_app, zsum_app. cbn. unfold zsum at 2. cbn. lia. Qed.

Lemma sent_snoc bs n i S n' v : sent bs n i (S ++ [(n', v)]) =
  sent bs n i S + (if decide (n' = n ∧ lower_bound bs v = i) then 1 else 0).
Proof. unfold sent. rewrite -> filter_app, zlen_app. rewrite filter_cons filter_nil. cbn [fst snd]. by case_decide. Qed.

Lemma sent_le bs n i S : 0 ≤ sent bs n i S ≤ zlen S.
Proof. unfold sent, zlen. pose proof (length_filter (λ x, x.1 = n ∧ lower_bound bs x.2 = i) S). lia. Qed.

Lemma pending_nonneg reg id i : registry_ok reg → 0 ≤ pending reg id i.
Proof.
  intros [_ Hb]. apply zsum_nonneg, Forall_forall. intros y Hy. apply list_elem_of_fmap in Hy as (z & -> & Hz).
  rewrite -> Forall_forall in Hb. eapply cnt_nonneg. apply (Hb _ Hz).
Qed.

Definition run_ok S R (x : dispatcher * registry) : Prop :=
  registry_ok x.2 ∧ (rg_inited x.2 = true ∨ rg_name_to_id x.2 = []) ∧
  dp_enabled x.1 = (λ c, (c, consumer_enabled config c)) <$> CONSUMERS ∧
  (∀ c, c ∈ CONSUMERS → is_Some (dict_get c (dp_buffers x.1))) ∧ accounted S R x.1 x.2.

Lemma start_ok dp ds reg : MetricsDispatcher py config = Ok dp →
  setup_ucm_metrics py config new_registry = (Ok ds, reg) → run_ok [] [] (dp, reg).
Proof.
  intros Hdp Hset. apply setup_ok in Hset as (Hr & Hb & Hi). unfold MetricsDispatcher in Hdp. apply bind_Ok in Hdp as (ds' & _ & Hdp).
  apply bind_Ok in Hdp as (defs & _ & [= <-]).
  assert (HC : ∀ (P : string → Prop), P MULTIPROC_CONSUMER → P VLLM_CONNECTOR_CONSUMER → ∀ c, c ∈ CONSUMERS → P c).
  { intros P H1 H2 c Hc. unfold CONSUMERS in Hc. rewrite -> !elem_of_cons in Hc. destruct Hc as [->|[->|Hc] ]; [done|done|by apply not_elem_of_nil in Hc]. }
  split_and!; [done|done|done| |].
  - apply HC; by eexists.
  - intros c n id info i Hc _ _ _ _ _ _. unfold pending. cbn [fst snd]. rewrite -> Hb. revert c Hc. apply HC; by vm_compute.
Qed.

Lemma sample_ok S R dp reg t n v res reg' : run_ok S R (dp, reg) → UpdateStats t n v reg = (res, reg') → run_ok (S ++ [(n, v)]) R (dp, reg').
Proof.
  intros (Hr & Hi & He & Hk & HA) Hu. cbn [fst snd] in *.
  destruct (update_stats_ok reg t n v Hr) as (reg1 & Hu' & Hr1 & Hn1 & Hm1 & Hi1 & Hc). rewrite -> Hu in Hu'. injection Hu' as -> ->.
  split_and!; [done|cbn [snd]; by rewrite -> Hi1, Hn1|done|done|]. cbn [fst snd].
  intros c m id info i Hcc Hen Hdf Hni Hmi Ht HS. rewrite -> zlen_app in HS. change (zlen [(n, v)]) with 1 in HS.
  rewrite -> Hn1 in Hni. rewrite -> Hm1 in Hmi. destruct (HA c m id info i Hcc Hen Hdf Hni Hmi Ht ltac:(lia)) as (Hsum & H1 & H2).
  split_and!; [|done|done]. pose proof (sent_le (mi_buckets info) m i S).
  destruct Hi as [Hi|Hi]; [|by rewrite -> Hi in Hni]. rewrite -> sent_snoc, Hc by (done || lia). rewrite <- Hsum.
  unfold sample_adds. rewrite -> Hmi. pose proof (proj1 (proj1 Hr)) as Hnames.
  destruct (dict_get n (rg_name_to_id reg)) as [id'|] eqn:Hid'.
  + assert (id' = id ↔ n = m) as Hiff.
    { split; [|congruence]. intros ->. apply Hnames in Hid' as (_ & info1 & Hx1 & <-), Hni as (_ & info2 & Hx2 & <-). congruence. }
    repeat case_decide; naive_solver lia.
  + rewrite -> decide_False by (intros [-> _]; congruence). lia.
Qed.

Lemma drained_ok S R dp reg : run_ok S R (dp, reg) → ∃ dp' reg', drain_to_consumers (dp, reg) = (Ok tt, (dp', reg')) ∧ run_ok S R (dp', reg') ∧
  same_dispatcher dp dp' ∧ same_registry reg reg' ∧ ∀ id i, pending reg' id i = 0.
Proof.
  intros (Hr & Hi & He & Hk & HA). cbn [fst snd] in *.
  destruct (drain_ok dp reg Hr) as (dp1 & reg1 & Hd' & Hr1 & Hsd & Hsr & Hp & Hc). exists dp1, reg1.
  pose proof Hsd as (Hd1 & He1 & Hk1). pose proof Hsr as (Hn1 & Hm1 & Hi1). split; [done|]. split; [|done].
  split_and!; cbn [fst snd]; [done|by rewrite -> Hi1, Hn1|by rewrite -> He1|intros; apply Hk1; auto|].
  intros c n id info i Hcc Hen Hdf Hni Hmi Ht HS. unfold defines in Hdf. rewrite -> Hd1 in Hdf. rewrite -> He1 in Hen. rewrite -> Hn1 in Hni. rewrite -> Hm1 in Hmi.
  destruct (HA c n id info i Hcc Hen Hdf Hni Hmi Ht HS) as (Hsum & H1 & H2). pose proof (sent_le (mi_buckets info) n i S).
  pose proof (pending_nonneg reg id i Hr). rewrite -> (Hc c n id info i), Hp by (done || lia). lia.
Qed.

Lemma readable_ok S R dp reg c : run_ok S R (dp, reg) → c ∈ CONSUMERS → ∃ b dp', get_stats_and_clear c (dp, reg) = (Ok b, (dp', reg)) ∧
  run_ok S (R ++ [(c, b)]) (dp', reg) ∧ same_dispatcher dp dp' ∧ ∀ n i, buffered dp' c n i = 0.
Proof.
  intros (Hr & Hi & He & Hk & HA) Hcc. cbn [fst snd] in *.
  destruct (read_ok c dp reg Hcc (Hk c Hcc)) as (b & dp1 & Hg & (Hd1 & He1 & Hk1) & Hz & Ho). exists b, dp1. split; [done|].
  split; [|split; [done|intros n i; apply Hz] ]. split_and!; cbn [fst snd]; [done|done|by rewrite -> He1|intros; apply Hk1; auto|].
  intros c' n id info i Hcc' Hen Hdf Hni Hmi Ht HS. unfold defines in Hdf. rewrite -> Hd1 in Hdf. rewrite -> He1 in Hen.
  destruct (HA c' n id info i Hcc' Hen Hdf Hni Hmi Ht HS) as (Hsum & H1 & H2). rewrite -> reads_of_snoc.
  destruct (decide (c = c')) as [->|Hne].
  - destruct (Hz n i) as [Hz1 Hz2]. lia.
  - rewrite -> Ho by done. lia.
Qed.

Lemma run_is_ok S R x : metrics_run S R x → run_ok S R x.
Proof.
  induction 1 as [dp ds reg Hdp Hset|S R dp reg t n v res reg' Hrun IH Hu|S R [dp reg] res x' Hrun IH Hd|S R [dp reg] c b x' Hrun IH Hg].
  - by eapply start_ok.
  - by eapply sample_ok.
  - destruct (drained_ok _ _ _ _ IH) as (dp1 & reg1 & Hd' & H & _). congruence.
  - assert (Hcc : c ∈ CONSUMERS) by (unfold get_stats_and_clear in Hg; case_bool_decide; [done|discriminate Hg]).
    destruct (readable_ok _ _ _ _ c IH Hcc) as (b1 & dp1 & Hg' & H & _). congruence.
Qed.

End runs.

(** C13: No sample is lost or counted twice: after any history of samples sent by any
    threads, drains by any consumer and reads, if a consumer that is switched on and
    defines a histogram drains and reads once more, its reads together count, in
    every bucket, exactly the samples of that bucket sent so far (fewer than 2^64) -
    whatever the other consumer drained or read in between. *)
Theorem samples_reach_consumers py config S R dp reg c n id info :
  metrics_run py config S R (dp, reg) →
  c ∈ CONSUMERS → consumer_enabled config c = true → defines dp c n = true →
  dict_get n (rg_name_to_id reg) = Some id → rg_metrics reg !! Z.to_nat id = Some info → mi_type info = HISTOGRAM →
  zlen S < 2 ^ 64 →
  ∃ b x1 x2, drain_to_consumers (dp, reg) = (Ok tt, x1) ∧ get_stats_and_clear c x1 = (Ok b, x2) ∧
    ∀ i, reads_of c n i (R ++ [(c, b)]) = sent (mi_buckets info) n i S.
Proof.
  intros Hrun Hc He Hd Hn Hm Ht HS. pose proof (run_is_ok _ _ _ _ _ Hrun) as Hok.
  destruct (drained_ok _ _ _ _ _ Hok) as (dp1 & reg1 & Hdr & Hok1 & (Hd1 & _ & _) & (Hn1 & Hm1 & _) & Hp).
  destruct (readable_ok _ _ _ _ _ c Hok1 Hc) as (b & dp2 & Hrd & (_ & _ & He2 & _ & HA) & (Hd2 & _ & _) & Hz).
  exists b, (dp1, reg1), (dp2, reg1). split; [done|]. split; [done|]. intros i. cbn [fst snd] in *.
  destruct (HA c n id info i) as (Hsum & _ & _); try done.
  - rewrite -> He2. clear -Hc He. unfold CONSUMERS in *. rewrite -> !elem_of_cons in Hc. unfold dict_get_default.
    destruct Hc as [->|[->|Hc] ]; [by rewrite <- He|by rewrite <- He|by apply not_elem_of_nil in Hc].
  - unfold defines in *. by rewrite -> Hd2, Hd1.
  - by rewrite -> Hn1.
  - by rewrite -> Hm1.
  - rewrite -> Hp, Hz in Hsum. lia.
Qed.

(** In every state of a run sending a sample, draining and reading succeed: in
    particular a sample never indexes outside of the bucket counts of its histogram,
    whatever its value (infinite and NaN included) and however the configured
    buckets are ordered. *)
Theorem metrics_never_raise py config S R dp reg t n v c :
  metrics_run py config S R (dp, reg) →
  is_ok (UpdateStats t n v reg).1 = true ∧ is_ok (drain_to_consumers (dp, reg)).1 = true ∧
  (is_ok (get_stats_and_clear c (dp, reg)).1 = true ↔ c ∈ CONSUMERS) ∧
  ∀ id info, dict_get n (rg_name_to_id reg) = Some id → rg_metrics reg !! Z.to_nat id = Some info → mi_type info = HISTOGRAM →
    (lower_bound (mi_buckets info) v < length (mi_buckets info))%nat.
Proof.
  intros Hrun. pose proof (run_is_ok _ _ _ _ _ Hrun) as Hok. pose proof (proj1 Hok) as Hr. cbn [snd] in Hr. split_and!.
  - by destruct (update_stats_ok reg t n v Hr) as (reg1 & -> & _).
  - by destruct (drained_ok _ _ _ _ _ Hok) as (dp1 & reg1 & -> & _).
  - split.
    + unfold get_stats_and_clear. case_bool_decide; done.
    + intros Hc. by destruct (readable_ok _ _ _ _ _ c Hok Hc) as (b & dp1 & -> & _).
  - intros id info _ Hm Ht. destruct Hr as [ (_ & _ & Hb) _]. rewrite -> Forall_lookup in Hb.
    destruct (Hb _ _ Hm Ht) as [bs ->]. apply lower_bound_in.
Qed.

(** ** Definitions *)

Lemma prefix_app p s : String.prefix p (p +:+ s) = true.
Proof. induction p as [|c p IH]; [by destruct s|]. rewrite -> str_app_cons. cbn. by destruct (ascii_dec c c). Qed.

Lemma ensure_prefix_prefix py name prefix vllm_name :
  _ensure_prefix name prefix = Ok vllm_name → String.prefix (py_str py prefix) vllm_name = true.
Proof.
  unfold _ensure_prefix. destruct prefix as [| | | |p| |]; try done. intros [= <-]. cbn [py_str].
  destruct (String.prefix p name) eqn:E; [done|]. apply prefix_app.
Qed.

Definition definition_ok (py : py_texts) (prefix : yval) (t : string) (d : metric_definition) : Prop :=
  md_metric_type d = t ∧ ytruthy (md_name d) = true ∧
  String.prefix (py_str py prefix) (md_vllm_connector_name d) = true.

Lemma definition_of_ok py config t item ds :
  metric_definition_of py config t item = Ok ds → Forall (definition_ok py (vllm_connector_prefix config) t) ds.
Proof.
  unfold metric_definition_of. destruct item as [| | | | | |item]; try (intros [= <-]; constructor).
  destruct (dict_get "name" item) as [name|]; [|intros [= <-]; constructor].
  destruct (ytruthy name) eqn:Hn; cbn [negb]; [|intros [= <-]; constructor].
  intros H. apply bind_Ok in H as (bs & _ & H). apply bind_Ok in H as (buckets & _ & H). apply bind_Ok in H as (scale & _ & H).
  apply bind_Ok in H as (vb & _ & H).
  apply bind_Ok in H as (enabled & _ & H). apply bind_Ok in H as (vn & Hv & [= <-]).
  apply Forall_singleton. split_and!; [done|exact Hn|]. cbn. unfold _vllm_connector_metric_name in Hv.
  destruct (ytruthy _) in Hv; [by eapply ensure_prefix_prefix|]. injection Hv as <-. apply prefix_app.
Qed.

Lemma map_res_concat_Forall {A B} (P : B → Prop) (f : A → res (list B)) l ds :
  (∀ x k, f x = Ok k → Forall P k) → map_res f l = Ok ds → Forall P (concat ds).
Proof.
  intros Hf H. apply map_res_Forall2 in H. induction H; cbn; [constructor|]. apply Forall_app. split; [by eapply Hf|done].
Qed.

(** C12: The definitions read from any configuration that is accepted are well formed:
    counters first, then gauges, then histograms, each with a name that is not empty
    and a name for vLLM that carries the configured prefix, whether or not the
    configured name had it; names and prefixes that are not texts count as what an
    f-string makes of them. *)
Theorem metric_definitions_well_formed py config ds :
  get_metric_definitions py config = Ok ds →
  let ok := definition_ok py (vllm_connector_prefix config) in
  ∃ counters gauges histograms, ds = counters ++ gauges ++ histograms ∧
    Forall (ok "counter") counters ∧ Forall (ok "gauge") gauges ∧ Forall (ok "histogram") histograms.
Proof.
  intros H ok. revert H. unfold get_metric_definitions.
  destruct config as [|x config]; [intros [= <-]; exists [], [], []; split_and!; constructor|].
  set (cf := x :: config) in *. unfold METRIC_TYPES. intros H. apply bind_Ok in H as (dss & Hm & [= <-]).
  assert (Hs : ∀ t k, (items ← items_of t cf; ds ← map_res (metric_definition_of py cf t) items; Ok (concat ds)) = Ok k →
    Forall (ok t) k).
  { intros t k H. apply bind_Ok in H as (items & _ & H). apply bind_Ok in H as (ds & Hds & [= <-]).
    eapply map_res_concat_Forall; [|exact Hds]. intros y k. apply definition_of_ok. }
  apply map_res_Forall2 in Hm. apply Forall2_cons_inv_l in Hm as (c & dss1 & Hc & Hm & ->).
  apply Forall2_cons_inv_l in Hm as (g & dss2 & Hg & Hm & ->). apply Forall2_cons_inv_l in Hm as (h & dss3 & Hh & Hm & ->).
  apply Forall2_nil_inv_l in Hm as ->. exists c, g, h. cbn [concat]. rewrite app_nil_r. split_and!; [done|by apply Hs..].
Qed.

Fixpoint increasing (l : list float) : bool :=
  match l with
  | x :: ((y :: _) as l) => fltb x y && increasing l
  | _ => true
  end.

(** The default configuration: 67 counters, 3 gauges and 70 histograms with different
    names, increasing buckets, all sent to vLLM but one; the sample [save_speed] of
    the hybrid connector is not among them, so the registry drops it. *)
Theorem default_config_sound py : ∃ ds names, get_metric_definitions py get_default_metrics_config = Ok ds ∧
  _metric_definition_counts ds = [("counter", 67); ("gauge", 3); ("histogram", 70)] ∧
  md_name <$> ds = YStr <$> names ∧ NoDup names ∧ Forall (λ d, increasing (md_buckets d) = true) ds ∧
  (md_name <$> filter (λ d, md_vllm_connector_enabled d = false) ds) = [YStr "interval_lookup_hit_rates"] ∧
  "save_speed" ∉ names.
Proof.
  eexists. exists (omap (λ d, match md_name d with YStr s => Some s | _ => None end)
    (match get_metric_definitions py get_default_metrics_config with Ok ds => ds | Raise _ => [] end)).
  split; [vm_compute; reflexivity|]. split_and!.
  - vm_compute. reflexivity.
  - vm_compute. reflexivity.
  - apply (bool_decide_unpack _). vm_compute. exact I.
  - apply (bool_decide_unpack _). vm_compute. exact I.
  - vm_compute. reflexivity.
  - apply (bool_decide_unpack _). vm_compute. exact I.
Qed.

(** ** Aggregation of statistics *)

Definition ranked {A} (rank name : string) (section : dict string (dict string A)) : option A :=
  dict_get name (dict_get_default rank [] section).

Definition hcnt (i : nat) (o : option hval) : Z := match o with Some (HSnap k _) => nth i k 0 | _ => 0 end.
Definition is_snap (h : hval) : Prop := match h with HSnap _ _ => True | HList _ => False end.

Definition snaps (d : dict string hval) : Prop := NoDup d.*1 ∧ Forall is_snap d.*2.
Definition section_ok {A} (P : dict string A → Prop) (section : dict string (dict string A)) : Prop :=
  NoDup section.*1 ∧ Forall P section.*2.
(** The statistics made of snapshots: no list of observations. *)
Definition stats_ok (s : connector_stats) : Prop :=
  section_ok (λ d, NoDup d.*1) (counters_by_rank (cs_data s)) ∧ section_ok (λ d, NoDup d.*1) (gauges_by_rank (cs_data s)) ∧
  section_ok snaps (histograms_by_rank (cs_data s)).

Lemma section_default {A} (P : dict string A → Prop) section rank : section_ok P section → P [] → P (dict_get_default rank [] section).
Proof.
  intros [_ Hf] H0. unfold dict_get_default. destruct (dict_get rank section) as [d|] eqn:E; [|done].
  apply dict_get_Some_elem in E. rewrite -> Forall_forall in Hf. apply Hf. apply list_elem_of_fmap. by exists (rank, d).
Qed.

Lemma snaps_set d n h : snaps d → is_snap h → snaps (dict_set n h d).
Proof.
  intros [Hn Hf] Hh. split; [by apply dict_set_NoDup|]. apply Forall_forall. intros x Hx. apply list_elem_of_fmap in Hx as ([k y] & -> & Hx).
  apply dict_set_elem in Hx as [ [= -> ->]|Hx]; [done|]. rewrite -> Forall_forall in Hf. apply Hf, list_elem_of_fmap. by exists (k, y).
Qed.

Lemma section_set {A} (P : dict string A → Prop) section rank d : section_ok P section → P d → section_ok P (dict_set rank d section).
Proof.
  intros [Hn Hf] Hd. split; [by apply dict_set_NoDup|]. apply Forall_forall. intros x Hx. apply list_elem_of_fmap in Hx as ([k y] & -> & Hx).
  apply dict_set_elem in Hx as [ [= -> ->]|Hx]; [done|]. rewrite -> Forall_forall in Hf. apply Hf, list_elem_of_fmap. by exists (k, y).
Qed.

Lemma ranked_set {A} rank rank' name (d : dict string A) section :
  ranked rank name (dict_set rank' d section) = if decide (rank' = rank) then dict_get name d else ranked rank name section.
Proof. unfold ranked, dict_get_default. rewrite -> dict_get_set. by case_decide. Qed.

Lemma ranked_cons {A} rank rank' name (d : dict string A) section :
  ranked rank name ((rank', d) :: section) = if decide (rank' = rank) then dict_get name d else ranked rank name section.
Proof. unfold ranked, dict_get_default. cbn. repeat case_decide; congruence || done. Qed.

Lemma ranked_none {A} rank name (section : dict string (dict string A)) : rank ∉ section.*1 → ranked rank name section = None.
Proof. intros Hn. unfold ranked, dict_get_default. by rewrite -> (proj2 (dict_get_None _ _) Hn). Qed.

Lemma update_ranked_get rank name section : ∀ acc, section_ok (λ d, NoDup d.*1) section →
  ranked rank name (update_ranked acc section) = match ranked rank name section with Some v => Some v | None => ranked rank name acc end.
Proof.
  induction section as [|[r d] section IH]; intros acc [Hn Hf]; [done|]. csimpl in Hn. csimpl in Hf.
  apply NoDup_cons in Hn as [Hni Hn]. apply Forall_cons in Hf as [Hd Hf].
  unfold update_ranked in *. cbn [foldl fst snd]. rewrite -> IH by done. rewrite -> ranked_set, ranked_cons. case_decide; [|done].
  subst. rewrite -> ranked_none, dict_get_update by done. done.
Qed.

Lemma merge_snaps d : ∀ acc, snaps acc → NoDup d.*1 → Forall is_snap d.*2 → ∃ acc',
  fold_res (λ rank_data y, h ← _merge_histogram_value y.2 (dict_get y.1 rank_data); Ok (dict_set y.1 h rank_data)) acc d = Ok acc' ∧
  snaps acc' ∧ ∀ n i, hcnt i (dict_get n acc') = hcnt i (dict_get n acc) + hcnt i (dict_get n d).
Proof.
  induction d as [|[n0 h0] d IH]; intros acc Ha Hn Hf; [exists acc; split; [done|]; split; [done|]; intros; cbn; lia|].
  csimpl in Hn. csimpl in Hf. apply NoDup_cons in Hn as [Hni Hn]. apply Forall_cons in Hf as [Hh Hf]. destruct h0 as [|c0 s0]; [done|].
  assert (∃ h, _merge_histogram_value (HSnap c0 s0) (dict_get n0 acc) = Ok h ∧ is_snap h ∧
    ∀ i, hcnt i (Some h) = hcnt i (dict_get n0 acc) + nth i c0 0) as (h & Hm & Hs & Hc).
  { destruct (dict_get n0 acc) as [ [l|k s]|] eqn:E.
    - apply dict_get_Some_elem in E. destruct Ha as [_ Ha]. rewrite -> Forall_forall in Ha. exfalso. apply (Ha (HList l)).
      apply list_elem_of_fmap. by exists (n0, HList l).
    - eexists. split; [reflexivity|]. split; [done|]. intros i. apply nth_add_counts.
    - eexists. split; [reflexivity|]. split; [done|]. intros i. cbn. by rewrite -> nth_add_counts, nth_zeros. }
  cbn [fold_res fst snd]. rewrite -> Hm. cbn [mbind res_bind].
  destruct (IH (dict_set n0 h acc) (snaps_set _ _ _ Ha Hs) Hn Hf) as (acc' & Hr & Ha' & Hc'). exists acc'. split; [done|]. split; [done|].
  intros n i. rewrite -> Hc', dict_get_set. cbn [dict_get]. case_decide as Hk; [|by rewrite -> decide_False by congruence]. subst.
  rewrite -> decide_True, Hc, (proj2 (dict_get_None _ _) Hni) by done. cbn. lia.
Qed.

Lemma merge_histograms_ok other : ∀ section, section_ok snaps section → section_ok snaps other → ∃ merged,
  merge_histograms section other = Ok merged ∧ section_ok snaps merged ∧
  ∀ rank n i, hcnt i (ranked rank n merged) = hcnt i (ranked rank n section) + hcnt i (ranked rank n other).
Proof.
  induction other as [|[r d] other IH]; intros section Hs [Hn Hf].
  { exists section. split; [done|]. split; [done|]. intros. unfold ranked at 3, dict_get_default. cbn. lia. }
  csimpl in Hn. csimpl in Hf. apply NoDup_cons in Hn as [Hni Hn]. apply Forall_cons in Hf as [ [Hd1 Hd2] Hf].
  assert (Hr : snaps (dict_get_default r [] section)) by (apply section_default; [done|split; [apply NoDup_nil_2|constructor] ]).
  destruct (merge_snaps d _ Hr Hd1 Hd2) as (rd & Hm & Hrd & Hc). unfold merge_histograms in *. cbn [fold_res fst snd]. rewrite -> Hm. cbn [mbind res_bind].
  destruct (IH (dict_set r rd section) (section_set _ _ _ _ Hs Hrd) (conj Hn Hf)) as (merged & Hmg & Hok & Hc'). exists merged.
  split; [done|]. split; [done|]. intros rank n i. rewrite -> Hc', ranked_set, ranked_cons. case_decide; [|done].
  subst. rewrite -> Hc, (ranked_none _ _ other) by done. unfold ranked. cbn. lia.
Qed.

(** Aggregating the statistics of workers never fails on statistics made of
    snapshots, keeps them well formed, and is exact: the counts of every histogram
    and rank are added bucket by bucket, and of counters and gauges the value of
    the other statistics wins where it has one - a counter of the same rank is
    replaced, not added. *)
Theorem aggregation_exact other s :
  stats_ok s → stats_ok other → ∃ s', aggregate_stats other s = Ok s' ∧ stats_ok s' ∧ cs_worker_rank s' = cs_worker_rank s ∧
  ∀ rank n,
    ranked rank n (counters_by_rank (cs_data s')) =
      match ranked rank n (counters_by_rank (cs_data other)) with Some v => Some v | None => ranked rank n (counters_by_rank (cs_data s)) end ∧
    ranked rank n (gauges_by_rank (cs_data s')) =
      match ranked rank n (gauges_by_rank (cs_data other)) with Some v => Some v | None => ranked rank n (gauges_by_rank (cs_data s)) end ∧
    ∀ i, hcnt i (ranked rank n (histograms_by_rank (cs_data s'))) =
      hcnt i (ranked rank n (histograms_by_rank (cs_data s))) + hcnt i (ranked rank n (histograms_by_rank (cs_data other))).
Proof.
  intros (Hc & Hg & Hh) (Hc' & Hg' & Hh'). unfold aggregate_stats. destruct (cs_is_empty other) eqn:E.
  - exists s. do 3 (split; [done|]). intros rank n. unfold cs_is_empty in E. rewrite -> !andb_true_iff, !forallb_forall in E.
    assert (Hnone : ∀ {A} (sec : dict string (dict string A)), (∀ x, In x sec → match x.2 with [] => true | _ => false end = true) → ranked rank n sec = None).
    { intros A sec Hsec. unfold ranked, dict_get_default. destruct (dict_get rank sec) as [d|] eqn:Ed; [|done].
      apply dict_get_Some_elem, list_elem_of_In in Ed. apply Hsec in Ed. cbn in *. by destruct d. }
    destruct E as [ [E1 E2] E3]. rewrite -> (Hnone _ (counters_by_rank (cs_data other)) E1), (Hnone _ (gauges_by_rank (cs_data other)) E2).
    rewrite -> (Hnone _ (histograms_by_rank (cs_data other)) E3). split_and!; [done|done|]. intros i. cbn. lia.
  - destruct (merge_histograms_ok _ _ Hh Hh') as (merged & -> & Hm & Hcnt). cbn [mbind res_bind]. eexists. split; [reflexivity|].
    unfold stats_ok. cbn [cs_data counters_by_rank gauges_by_rank histograms_by_rank cs_worker_rank].
    assert (Hup : ∀ acc sec, section_ok (λ d : dict string float, NoDup d.*1) acc → section_ok (λ d, NoDup d.*1) sec → section_ok (λ d, NoDup d.*1) (update_ranked acc sec)).
    { intros acc sec Ha [_ Hf]. revert acc Ha. induction sec as [|[r d] sec IH]; intros acc Ha; [done|]. csimpl in Hf. apply Forall_cons in Hf as [Hd Hf].
      unfold update_ranked in *. cbn [foldl fst snd]. apply IH; [done|]. apply section_set; [done|]. apply dict_update_NoDup.
      apply section_default; [done|apply NoDup_nil_2]. }
    split; [split; [by apply Hup|split; [by apply Hup|done] ]|]. split; [done|]. intros rank n. rewrite -> !update_ranked_get by done. split_and!; [done|done|apply Hcnt].
Qed.

Lemma set_ranked_ok {A} (P : dict string A → Prop) rank n v section :
  (∀ d, P d → P (dict_set n v d)) → P [] → section_ok P section → section_ok P (set_ranked rank n v section).
Proof. intros Hs H0 Hok. unfold set_ranked. apply section_set; [done|]. apply Hs. by apply section_default. Qed.

Lemma foldl_section_ok {A B} (P : dict string A → Prop) (f : dict string (dict string A) → B → dict string (dict string A)) l : ∀ acc,
  (∀ acc x, section_ok P acc → section_ok P (f acc x)) → section_ok P acc → section_ok P (foldl f acc l).
Proof. induction l as [|x l IH]; intros acc Hf Ha; [done|]. apply IH; auto. Qed.

(** The statistics made from a snapshot satisfy the condition. *)
Lemma snapshot_stats_ok s rank definitions stats : from_ucm_snapshot s rank definitions = Ok stats → stats_ok stats.
Proof.
  assert (Hn : ∀ {A} (P : dict string A → Prop), section_ok P []) by (split; [apply NoDup_nil_2|constructor]).
  unfold from_ucm_snapshot. intros (defs & _ & [= <-])%bind_Ok. split_and!; cbn [cs_data counters_by_rank gauges_by_rank histograms_by_rank];
    (apply foldl_section_ok; [|apply Hn]); intros acc x Ha; repeat case_match; try done; apply set_ranked_ok; try done.
  1, 3: by intros; apply dict_set_NoDup.
  1, 2: apply NoDup_nil_2.
  - intros d Hd. by apply snaps_set.
  - split; [apply NoDup_nil_2|constructor].
Qed.

(** ** The logger of the multi-process path *)

Lemma update_with_func_ok {W} `{PromClient W} {A} (f : Z → A → M W unit) stats : ∀ s : process (W := W), ∃ w,
  _update_with_func f stats s = (Ok tt, (s.1, w)).
Proof.
  unfold _update_with_func. induction stats as [|x stats IH]; intros [lm w]; [by exists w|]. cbn [for_each].
  match goal with |- context [((?m ≫= ?k) (lm, w))] => assert (Hx : ∃ w', m (lm, w) = (Ok tt, (lm, w'))) end.
  { mstep. destruct (dict_get x.1 (lg_metric_mappings lm.1)) as [metric|]; [|by exists w]. unfold on_client, lift, try_except. cbn [snd].
    destruct ((m ← prom_labels_kw metric (lg_labels lm.1); f m x.2) w) as [ [ []|e] w'] eqn:E; by exists w'. }
  destruct Hx as [w' Hx]. destruct (IH (lm, w')) as [w'' HI]. exists w''. by mrun Hx.
Qed.

(** A round of the logger always completes, whatever the Prometheus client
    raises and whichever metrics it knows: the multi-process buffer is left empty, and
    what was drained also waits in the buffer of the other consumer. *)
Theorem logger_round_survives {W} `{PromClient W} fos config S R dp reg (l : logger) (w : W) :
  metrics_run fos config S R (dp, reg) →
  ∃ dp' reg' w', update_stats_round ((l, (Some dp, reg)), w) = (Ok tt, ((l, (Some dp', reg')), w')) ∧
    (∀ n i, buffered dp' MULTIPROC_CONSUMER n i = 0) ∧
    ∀ n id info i, consumer_enabled config VLLM_CONNECTOR_CONSUMER = true → defines dp VLLM_CONNECTOR_CONSUMER n = true →
      dict_get n (rg_name_to_id reg) = Some id → rg_metrics reg !! Z.to_nat id = Some info → pending reg id i < 2 ^ 64 →
      buffered dp' VLLM_CONNECTOR_CONSUMER n i = buffered dp VLLM_CONNECTOR_CONSUMER n i + pending reg id i.
Proof.
  intros Hrun. apply run_is_ok in Hrun as (Hr & _ & He & Hk & _). cbn [fst snd] in *.
  destruct (drain_ok dp reg Hr) as (dp1 & reg1 & Hd & _ & (_ & _ & Hk1) & _ & _ & Hc).
  assert (Hm : MULTIPROC_CONSUMER ∈ CONSUMERS) by left.
  destruct (read_ok MULTIPROC_CONSUMER dp1 reg1 Hm (Hk1 _ (Hk _ Hm))) as (b & dp2 & Hg & _ & Hz & Ho).
  unfold update_stats_round. erewrite M_bind_Ok; [|unfold on_metrics, on_dispatcher, lift; cbn [fst snd]; by rewrite -> Hd].
  erewrite M_bind_Ok; [|unfold on_metrics, on_dispatcher, lift; cbn [fst snd]; by rewrite -> Hg]. cbn [fst snd]. unfold logger_update_stats.
  destruct (update_with_func_ok _update_counter (sn_counters b) ((l, (Some dp2, reg1)), w)) as [w1 H1]. mrun H1.
  destruct (update_with_func_ok _update_gauge (sn_gauges b) ((l, (Some dp2, reg1)), w1)) as [w2 H2]. mrun H2.
  destruct (update_with_func_ok _update_histogram (sn_histograms b) ((l, (Some dp2, reg1)), w2)) as [w3 H3]. rewrite -> H3.
  exists dp2, reg1, w3. split; [done|]. split; [intros; apply Hz|]. intros n id info i Hen Hdf Hn Hmm Hp.
  rewrite -> Ho by done. apply (Hc _ _ _ info); [by right; left| |done..]. rewrite -> He. by rewrite <- Hen.
Qed.

(** ** Examples and witnesses *)

(** A client that knows the names of its metrics, and whose histograms hide their buckets. *)
#[local] Instance sim_client : PromClient (list string) := {|
  prom_new t _ := λ w, (Ok (zlen w), w ++ [t]);
  prom_labels m _ := mret m;
  prom_labels_kw m _ := mret m;
  prom_inc _ _ := mret tt;
  prom_set _ _ := raise AttributeError;
  prom_observe _ _ := mret tt;
  prom_nbuckets _ := mret None;
  prom_bucket_inc _ _ _ := mret tt;
  prom_sum_inc _ _ := mret tt;
|}.

(** Texts that are no numbers, and a textual form for the values that need one. *)
Definition sim_no_text : py_texts := PyTexts (λ _, None) (λ _, "...").

(** A configuration whose section of gauges is present and empty ([gauge:]) is
    accepted by [get_metric_definitions], but the logger's registration iterates
    over [None]. *)
Example null_section_breaks_logger :
  let config := [("counter", YList [YDict [("name", YStr "a")] ]); ("gauge", YNull)] in
  let read (_ : yval) := Some (YDict config) in
  (∃ ds, get_metric_definitions sim_no_text config = Ok ds ∧ length ds = 1%nat) ∧
  (PrometheusStatsLogger sim_no_text read "m" "0" (YStr "f") ((Logger [] [] [] false, (None, new_registry)), [])).1 =
    Raise (TypeError "not iterable").
Proof. split; [eexists; split; [vm_compute; reflexivity|done]|vm_compute; reflexivity]. Qed.

Definition sim_metrics : yconf := [("histogram", YList [YDict [("name", YStr "lat"); ("buckets", YList [YInt 1; YInt 2])] ]);
  ("counter", YList [YDict [("name", YStr "hits_total"); ("vllm_connector_name", YStr "old:hits_total")] ])].
Definition sim_dispatcher : dispatcher := match MetricsDispatcher sim_no_text sim_metrics with Ok dp => dp | Raise _ => MetricsDispatcher_ [] [] [] end.
Definition sim_registry : registry := (setup_ucm_metrics sim_no_text sim_metrics new_registry).2.
(** Two threads send; the first consumer drains and reads in between. *)
Definition sim_x1 : dispatcher * registry := (sim_dispatcher, (UpdateStats 1 "lat" (dec 15 1) sim_registry).2).
Definition sim_x2 : dispatcher * registry := (drain_to_consumers sim_x1).2.
Definition sim_b2 : snapshot := match (get_stats_and_clear MULTIPROC_CONSUMER sim_x2).1 with Ok b => b | Raise _ => _empty_stats end.
Definition sim_x3 : dispatcher * registry := (get_stats_and_clear MULTIPROC_CONSUMER sim_x2).2.
Definition sim_x4 : dispatcher * registry := (sim_x3.1, (UpdateStats 2 "lat" (dec 5 0) sim_x3.2).2).

Lemma sim_metrics_run : metrics_run sim_no_text sim_metrics
  [("lat", dec 15 1); ("lat", dec 5 0)] [(MULTIPROC_CONSUMER, sim_b2)] (sim_x4.1, sim_x4.2).
Proof.
  apply (run_sample _ _ [("lat", dec 15 1)] _ sim_x3.1 sim_x3.2 2 "lat" (dec 5 0) (Ok tt)); [|vm_compute; reflexivity].
  replace (sim_x3.1, sim_x3.2) with sim_x3 by (vm_compute; reflexivity).
  apply (run_read _ _ _ [] sim_x2 MULTIPROC_CONSUMER); [|vm_compute; reflexivity].
  apply (run_drain _ _ _ _ sim_x1 (Ok tt)); [|vm_compute; reflexivity].
  apply (run_sample _ _ [] _ sim_dispatcher sim_registry 1 "lat" (dec 15 1) (Ok tt)); [|vm_compute; reflexivity].
  eapply run_start; vm_compute; reflexivity.
Qed.

Lemma samples_reach_consumers_witness :
  let info := MetricInfo "lat" HISTOGRAM [dec 1 0; dec 2 0; S754_infinity false] in
  sent (mi_buckets info) "lat" 1 [("lat", dec 15 1); ("lat", dec 5 0)] = 1 ∧
  ∃ b x1 x2, drain_to_consumers (sim_x4.1, sim_x4.2) = (Ok tt, x1) ∧ get_stats_and_clear VLLM_CONNECTOR_CONSUMER x1 = (Ok b, x2) ∧
    ∀ i, reads_of VLLM_CONNECTOR_CONSUMER "lat" i ([(MULTIPROC_CONSUMER, sim_b2)] ++ [(VLLM_CONNECTOR_CONSUMER, b)]) =
      sent (mi_buckets info) "lat" i [("lat", dec 15 1); ("lat", dec 5 0)].
Proof.
  intros info. split; [vm_compute; reflexivity|].
  apply (samples_reach_consumers sim_no_text sim_metrics _ _ sim_x4.1 sim_x4.2 VLLM_CONNECTOR_CONSUMER "lat" 1 info sim_metrics_run);
    [right; left|..]; vm_compute; reflexivity.
Defined.

Lemma metrics_never_raise_witness :
  is_ok (UpdateStats 3 "lat" S754_nan sim_x4.2).1 = true ∧ is_ok (drain_to_consumers (sim_x4.1, sim_x4.2)).1 = true ∧
  (is_ok (get_stats_and_clear "other" (sim_x4.1, sim_x4.2)).1 = true ↔ "other" ∈ CONSUMERS) ∧
  ∀ id info, dict_get "lat" (rg_name_to_id sim_x4.2) = Some id → rg_metrics sim_x4.2 !! Z.to_nat id = Some info → mi_type info = HISTOGRAM →
    (lower_bound (mi_buckets info) S754_nan < length (mi_buckets info))%nat.
Proof. exact (metrics_never_raise sim_no_text sim_metrics _ _ sim_x4.1 sim_x4.2 3 "lat" S754_nan "other" sim_metrics_run). Defined.

Lemma logger_round_survives_witness : ∃ dp' reg' w',
  update_stats_round ((Logger [("lat", 0)] [] [] true, (Some sim_x4.1, sim_x4.2)), []) = (Ok tt, ((Logger [("lat", 0)] [] [] true, (Some dp', reg')), w')) ∧
    (∀ n i, buffered dp' MULTIPROC_CONSUMER n i = 0) ∧
    ∀ n id info i, consumer_enabled sim_metrics VLLM_CONNECTOR_CONSUMER = true → defines sim_x4.1 VLLM_CONNECTOR_CONSUMER n = true →
      dict_get n (rg_name_to_id sim_x4.2) = Some id → rg_metrics sim_x4.2 !! Z.to_nat id = Some info → pending sim_x4.2 id i < 2 ^ 64 →
      buffered dp' VLLM_CONNECTOR_CONSUMER n i = buffered sim_x4.1 VLLM_CONNECTOR_CONSUMER n i + pending sim_x4.2 id i.
Proof. exact (logger_round_survives sim_no_text sim_metrics _ _ sim_x4.1 sim_x4.2 (Logger [("lat", 0)] [] [] true) [] sim_metrics_run). Defined.

(** A gauge named by a number, under a prefix that is a number. *)
Definition sim_odd_metrics : yconf :=
  [("vllm_connector_prefix", YInt 7); ("gauge", YList [YDict [("name", YInt 42)] ])].

Lemma metric_definitions_well_formed_witness :
  (∃ ds counters gauges histograms,
    get_metric_definitions sim_no_text sim_metrics = Ok ds ∧ ds = counters ++ gauges ++ histograms ∧
    let ok := definition_ok sim_no_text (YStr "ucm:") in
    Forall (ok "counter") counters ∧ Forall (ok "gauge") gauges ∧ Forall (ok "histogram") histograms ∧
    (md_vllm_connector_name <$> ds) = ["ucm:hits_total"; "ucm:lat"]) ∧
  ∃ ds counters gauges histograms,
    get_metric_definitions sim_no_text sim_odd_metrics = Ok ds ∧ ds = counters ++ gauges ++ histograms ∧
    let ok := definition_ok sim_no_text (YInt 7) in
    Forall (ok "counter") counters ∧ Forall (ok "gauge") gauges ∧ Forall (ok "histogram") histograms ∧
    (md_vllm_connector_name <$> ds) = ["742"].
Proof.
  split; eexists.
  - destruct (metric_definitions_well_formed sim_no_text sim_metrics _ eq_refl) as (c & g & h & H1 & H2 & H3 & H4).
    exists c, g, h. split; [reflexivity|]. split; [exact H1|]. split; [exact H2|]. split; [exact H3|]. split; [exact H4|]. vm_compute. reflexivity.
  - destruct (metric_definitions_well_formed sim_no_text sim_odd_metrics _ eq_refl) as (c & g & h & H1 & H2 & H3 & H4).
    exists c, g, h. split; [reflexivity|]. split; [exact H1|]. split; [exact H2|]. split; [exact H3|]. split; [exact H4|]. vm_compute. reflexivity.
Defined.

Definition sim_stats (rank : Z) (counts : list Z) : connector_stats :=
  match from_ucm_snapshot (Snapshot [("hits_total", dec 3 0)] [] [("lat", (counts, dec 1 0))]) (Some (RankInt rank))
    (match get_metric_definitions sim_no_text sim_metrics with Ok ds => ds | Raise _ => [] end) with
  | Ok stats => stats
  | Raise _ => ConnStats None no_data
  end.

Lemma sim_stats_ok rank counts : stats_ok (sim_stats rank counts).
Proof.
  apply (snapshot_stats_ok (Snapshot [("hits_total", dec 3 0)] [] [("lat", (counts, dec 1 0))]) (Some (RankInt rank))
    (match get_metric_definitions sim_no_text sim_metrics with Ok ds => ds | Raise _ => [] end)). vm_compute. reflexivity.
Qed.

Lemma aggregation_exact_witness : ∃ s', aggregate_stats (sim_stats 0 [0; 4]) (sim_stats 0 [1; 2; 3]) = Ok s' ∧ stats_ok s' ∧
  hcnt 1 (ranked "0" "lat" (histograms_by_rank (cs_data s'))) = 6.
Proof.
  destruct (aggregation_exact (sim_stats 0 [0; 4]) (sim_stats 0 [1; 2; 3]) (sim_stats_ok _ _) (sim_stats_ok _ _))
    as (s' & H1 & H2 & _ & H3).
  exists s'. split; [exact H1|]. split; [exact H2|]. destruct (H3 "0" "lat") as (_ & _ & Hh). rewrite -> Hh. vm_compute. reflexivity.
Defined.
