(* ===== verification/HlaLayout.v ===== *)
(** * Layout and store of the hybrid linear-attention connector

    The configuration half of [hla_connector.py], for models whose full-attention
    and linear-attention (mamba) layers share raw tensors: the specifications of
    the KV-cache groups, [HybridLinearAttentionLayout], which cuts each shared
    tensor into the slots copied per block, and the configuration of the store
    in direct and in layerwise mode. *)
From S2P Require Import Prelude Runtime KVLayout StoreConf.
Open Scope Z_scope.

(** ** Specifications *)

(** What the connector reads of a vLLM [KVCacheSpec]: [dtype_size] and
    [dtype_sizes] are the element sizes of the data types; [head_size_v] is the
    head size of the values, the one of the keys when the attribute is absent. *)
Inductive kv_cache_spec :=
  | FullAttentionSpec (block_size num_kv_heads head_size head_size_v dtype_size : Z)
  | MambaSpec (block_size : Z) (mamba_cache_mode : string) (shapes : list (list Z))
      (dtype_sizes : list Z)
  | OtherSpec (block_size : Z)
  | UniformTypeKVCacheSpecs (block_size : Z) (kv_cache_specs : dict string kv_cache_spec).

Definition spec_block_size (s : kv_cache_spec) : Z :=
  match s with
  | FullAttentionSpec n _ _ _ _ | MambaSpec n _ _ _ | OtherSpec n | UniformTypeKVCacheSpecs n _ => n
  end.

(** A group: its specification and its layers. A raw tensor: its size in bytes
    and the layers that share it. *)
Record hla_group := HlaGroup {
  hg_spec : kv_cache_spec;
  hg_layer_names : list string;
}.

Record raw_tensor := RawTensor {
  rt_size : Z;
  rt_shared_by : list string;
}.

Record kv_cache_config := KVCacheConfig {
  kv_cache_groups : list hla_group;
  kv_cache_tensors : list raw_tensor;
  kc_num_blocks : Z;
}.

Definition specs_of (d : dict string (list kv_cache_spec)) (name : string) : list kv_cache_spec :=
  dict_get_default name [] d.

(** [out[name].append(spec)] *)
Definition add_spec (d : dict string (list kv_cache_spec)) (p : string * kv_cache_spec) :
    dict string (list kv_cache_spec) :=
  dict_set p.1 (specs_of d p.1 ++ [p.2]) d.

(** The specifications one group gives its layers. *)
Definition group_layer_specs (g : hla_group) : res (list (string * kv_cache_spec)) :=
  match hg_spec g with
  | UniformTypeKVCacheSpecs _ by_name =>
      map_res (λ name, s ← dict_index name by_name; Ok (name, s)) (hg_layer_names g)
  | spec => Ok ((λ name, (name, spec)) <$> hg_layer_names g)
  end.

Definition layer_name_to_kv_cache_spec (c : kv_cache_config) :
    res (dict string (list kv_cache_spec)) :=
  per_group ← map_res group_layer_specs (kv_cache_groups c);
  Ok (foldl add_spec [] (concat per_group)).

(** [next(iter(specs.values()))] raises on an empty dictionary. *)
Definition block_size_from_kv_cache_spec (s : kv_cache_spec) : res Z :=
  match s with
  | UniformTypeKVCacheSpecs _ [] => Raise StopIteration
  | UniformTypeKVCacheSpecs _ ((_, s) :: _) => Ok (spec_block_size s)
  | s => Ok (spec_block_size s)
  end.

Fixpoint is_mamba_align_kv_cache_spec (s : kv_cache_spec) : res bool :=
  match s with
  | UniformTypeKVCacheSpecs _ [] => Raise StopIteration
  | UniformTypeKVCacheSpecs _ ((_, s) :: _) => is_mamba_align_kv_cache_spec s
  | MambaSpec _ mode _ _ => Ok (String.eqb mode "align")
  | _ => Ok false
  end.

Definition is_full_attention_spec (s : kv_cache_spec) : bool :=
  match s with FullAttentionSpec _ _ _ _ _ => true | _ => false end.
Definition is_mamba_spec (s : kv_cache_spec) : bool :=
  match s with MambaSpec _ _ _ _ => true | _ => false end.
Definition is_mamba_align_spec (s : kv_cache_spec) : bool :=
  match s with MambaSpec _ mode _ _ => String.eqb mode "align" | _ => false end.

(** [supports_kv_cache_layout]; the platform is [None] for devices other than
    CUDA-like ones and NPUs. *)
Definition supports_kv_cache_layout (device : option platform) (c : option kv_cache_config) :
    res bool :=
  match c, device with
  | None, _ | _, None => Ok false
  | Some c, Some _ =>
      layer_to_specs ← layer_name_to_kv_cache_spec c;
      Ok (existsb (λ t,
        let shared_specs := concat (specs_of layer_to_specs <$> rt_shared_by t) in
        existsb is_full_attention_spec shared_specs && existsb is_mamba_align_spec shared_specs)
        (kv_cache_tensors c))
  end.

(** ** [HybridLinearAttentionLayout] *)

Definition _mamba_component_sizes (s : kv_cache_spec) : list Z :=
  match s with
  | MambaSpec _ _ shapes dtype_sizes => zip_with (λ shape d, prod shape * d) shapes dtype_sizes
  | _ => []
  end.

Definition _attention_component_sizes (s : kv_cache_spec) : res (Z * Z) :=
  match s with
  | FullAttentionSpec bs heads head_size head_size_v d =>
      Ok (bs * heads * head_size * d, bs * heads * head_size_v * d)
  | _ => Raise AssertionError
  end.

(** A row appended to the four lists of [_build_layout]. *)
Record hla_row := HlaRow {
  hr_base_ptrs : list Z;
  hr_buffer_sizes : list Z;
  hr_tensor_sizes : list Z;
  hr_block_strides : list Z;
}.

(** [min(l)] *)
Definition py_min (l : list Z) : res Z :=
  match l with
  | [] => Raise (ValueError "min() of an empty sequence")
  | x :: l => Ok (foldl Z.min x l)
  end.

Definition _append_contiguous_page_layout (num_blocks : Z) (raw : raw_tensor)
    (shared_ptrs : list Z) : res hla_row :=
  if num_blocks =? 0 then Raise ZeroDivisionError
  else if negb (rt_size raw mod num_blocks =? 0)
  then Raise (ValueError "Invalid hybrid linear-attention raw tensor size")
  else
    let page_size := rt_size raw / num_blocks in
    base ← py_min shared_ptrs;
    Ok (HlaRow [base] [rt_size raw] [page_size] [page_size]).

(** Three components laid out one after the other, each for all the blocks. *)
Definition component_major (num_blocks base a b c : Z) : hla_row :=
  let sizes := [a; b; c] in
  HlaRow [base; base + a * num_blocks; base + (a + b) * num_blocks]
    ((λ size, size * num_blocks) <$> sizes) sizes sizes.

Definition _append_ascend_component_major_layout (num_blocks : Z) (raw : raw_tensor)
    (shared_ptrs : list Z) (mamba_specs attn_specs : list kv_cache_spec) : res hla_row :=
  mamba_spec ← py_index mamba_specs 0;
  match _mamba_component_sizes mamba_spec with
  | conv_size :: ssm_size :: _ =>
      attn_spec ← py_index attn_specs 0;
      '(k_size, v_size) ← _attention_component_sizes attn_spec;
      let middle_size := Z.max k_size ssm_size in
      if num_blocks =? 0 then Raise ZeroDivisionError else
      let page_size := rt_size raw / num_blocks in
      let tail_size := page_size - conv_size - middle_size in
      if tail_size <=? 0
      then Raise (ValueError "Invalid Ascend hybrid linear-attention page layout")
      else if tail_size <? v_size
      then Raise (ValueError "Ascend hybrid linear-attention tail cannot hold attention V")
      else
        base ← py_min shared_ptrs;
        Ok (component_major num_blocks base conv_size middle_size tail_size)
  | _ => _append_contiguous_page_layout num_blocks raw shared_ptrs
  end.

Definition _append_ascend_attn_only_layout (num_blocks : Z) (raw : raw_tensor)
    (shared_ptrs : list Z) (attn_specs : list kv_cache_spec) : res hla_row :=
  attn_spec ← py_index attn_specs 0;
  '(k_size, v_size) ← _attention_component_sizes attn_spec;
  if num_blocks =? 0 then Raise ZeroDivisionError else
  let page_size := rt_size raw / num_blocks in
  let conv_padding_size := page_size - k_size - v_size in
  if conv_padding_size <=? 0 then _append_contiguous_page_layout num_blocks raw shared_ptrs
  else
    p ← py_min shared_ptrs;
    Ok (component_major num_blocks (p - conv_padding_size * num_blocks)
          conv_padding_size k_size v_size).

(** The attributes a [HybridLinearAttentionLayout] adds to the inherited ones. *)
Record hla_layout := HlaLayout {
  hl_base : layout;
  row_slices : list (Z * Z);
  row_tensor_size_lists : list (list Z);
  row_shard_sizes : list Z;
  row_addr_lookup : dict Z (list (list Z));
  layer_name_to_row : dict string Z;
}.

(** Addresses of some slots for some blocks. *)
Definition slot_addrs (strides ptrs ids : list Z) : list (list Z) :=
  (λ id, zip_with (λ s p, block_addr s p id) strides ptrs) <$> ids.

(** The slices of the flattened rows, from an offset on. *)
Fixpoint slices_from (offset : Z) (rows : list (list Z)) : list (Z * Z) :=
  match rows with
  | [] => []
  | row :: rows => (offset, offset + zlen row) :: slices_from (offset + zlen row) rows
  end.

Definition _finalize_layout_arrays (c : layout_conf) (ids : dict string Z) (first : Z)
    (rows : list hla_row) (name_to_row : dict string Z) : hla_layout :=
  let flat f := u64 <$> concat (f <$> rows) in
  let base_ptrs := flat hr_base_ptrs in
  let strides := flat hr_block_strides in
  let row_slices := slices_from 0 (hr_tensor_sizes <$> rows) in
  let all_block_ids := py_range 0 (lc_num_blocks c) in
  HlaLayout
    (mk_layout c ids first (Arr1 base_ptrs) (Arr1 (flat hr_buffer_sizes))
       (Arr1 (flat hr_tensor_sizes)) (Arr1 strides))
    row_slices (hr_tensor_sizes <$> rows) ((λ r, zsum (hr_tensor_sizes r)) <$> rows)
    (zip (seqZ 0 (zlen rows))
       ((λ s, slot_addrs (py_slice strides s.1 s.2) (py_slice base_ptrs s.1 s.2) all_block_ids) <$>
          row_slices))
    name_to_row.

Definition layer_ptrs (kv : kv_layer) : list Z :=
  match kv with
  | KVTensor t => [t_data_ptr t]
  | KVTuple ts => t_data_ptr <$> ts
  | KVOther => []
  end.

Definition _collect_shared_tensor_info (kc : kv_cache_config) (raw : raw_tensor)
    (kvcaches : dict string kv_layer) : res (list kv_cache_spec * list Z) :=
  layer_to_specs ← layer_name_to_kv_cache_spec kc;
  let present := omap (λ name, (λ kv, (name, kv)) <$> dict_get name kvcaches) (rt_shared_by raw) in
  Ok (concat ((λ p, specs_of layer_to_specs p.1) <$> present),
      concat ((λ p, layer_ptrs p.2) <$> present)).

(** The layout chosen for one raw tensor. *)
Definition tensor_row (is_npu : bool) (num_blocks : Z) (raw : raw_tensor)
    (shared_specs : list kv_cache_spec) (shared_ptrs : list Z) : res hla_row :=
  let mamba_specs := filter (λ s, is_mamba_spec s) shared_specs in
  let attn_specs := filter (λ s, is_full_attention_spec s) shared_specs in
  match is_npu, attn_specs, mamba_specs with
  | true, _ :: _, _ :: _ =>
      _append_ascend_component_major_layout num_blocks raw shared_ptrs mamba_specs attn_specs
  | true, _ :: _, [] => _append_ascend_attn_only_layout num_blocks raw shared_ptrs attn_specs
  | _, _, _ => _append_contiguous_page_layout num_blocks raw shared_ptrs
  end.

(** One raw tensor of [_build_layout]: the rows and [layer_name_to_row]. *)
Definition build_row (is_npu : bool) (kc : kv_cache_config) (num_blocks : Z)
    (kvcaches : dict string kv_layer) (acc : list hla_row * dict string Z) (raw : raw_tensor) :
    res (list hla_row * dict string Z) :=
  match rt_shared_by raw with
  | [] => Ok acc
  | _ =>
      '(shared_specs, shared_ptrs) ← _collect_shared_tensor_info kc raw kvcaches;
      match shared_ptrs with
      | [] => Ok acc
      | _ =>
          row ← tensor_row is_npu num_blocks raw shared_specs shared_ptrs;
          Ok (acc.1 ++ [row],
              foldl (λ d name, dict_set name (zlen acc.1) d) acc.2 (rt_shared_by raw))
      end
  end.

Definition HybridLinearAttentionLayout (extract_layer_index : string → res Z) (is_npu : bool)
    (c : layout_conf) (kc : kv_cache_config) (kvcaches : dict string kv_layer) : res hla_layout :=
  '(ids, first) ← init_layout extract_layer_index c kvcaches;
  '(rows, name_to_row) ← fold_res (build_row is_npu kc (lc_num_blocks c) kvcaches) ([], [])
                           (kv_cache_tensors kc);
  Ok (_finalize_layout_arrays c ids first rows name_to_row).

(** All the rows of each block. *)
Definition hla_extract_block_addrs (L : hla_layout) (vllm_block_ids : list Z) (layer_first : bool) :
    res (list (list Z)) :=
  if layer_first then Raise (ValueError "layer_first is not supported for flattened hybrid layout")
  else Ok (slot_addrs (np_tolist (block_stride_lists (hl_base L))) (np_tolist (base_ptrs (hl_base L)))
             vllm_block_ids).

(** One row of each block, from the table of addresses; indexing it with a block
    out of range raises. *)
Definition extract_block_addrs_for_row (L : hla_layout) (vllm_block_ids : list Z) (row_id : Z) :
    res (list (list Z)) :=
  if (row_id <? 0) || (zlen (row_slices L) <=? row_id)
  then Raise (ValueError "Invalid hybrid row_id")
  else match dict_get row_id (row_addr_lookup L) with
       | Some lookup => map_res (λ id, py_index lookup (u64 id)) vllm_block_ids
       | None =>
           s ← py_index (row_slices L) row_id;
           Ok (slot_addrs (py_slice (np_tolist (block_stride_lists (hl_base L))) s.1 s.2)
                 (py_slice (np_tolist (base_ptrs (hl_base L))) s.1 s.2) vllm_block_ids)
       end.

(** ** The store *)

(** The overrides of the layerwise connector: the sizes of one row, a shard, and
    a block of the row-sharded store. *)
Record size_override := SizeOverride {
  so_tensor_size_list : list Z;
  so_shard_size : Z;
  so_block_size : Z;
}.

Definition hla_worker_sizes (L : hla_layout) (o : option size_override) : res (list Z * Z * Z) :=
  match o with
  | Some o => Ok (so_tensor_size_list o, so_shard_size o, so_block_size o)
  | None =>
      sizes ← tensor_size_list (hl_base L);
      shard ← shard_size (hl_base L);
      block ← block_size (hl_base L);
      Ok (sizes, shard, block)
  end.

Definition hla_worker_store_config (sc : store_conf) (L : hla_layout) (o : option size_override)
    (local_rank : Z) (cores : list Z) (c : config) : res config :=
  '(sizes, shard, block) ← hla_worker_sizes L o;
  let c := dict_set "device_id" (CInt local_rank) c in
  let c := dict_set "tensor_size_list" (CInts (repeat_list sizes (sc_blocks_per_chunk sc))) c in
  let c := dict_set "shard_size" (CInt (shard * sc_blocks_per_chunk sc)) c in
  let c := dict_set "block_size" (CInt (block * sc_blocks_per_chunk sc)) c in
  let c := dict_set "local_rank_size" (CInt (if sc_is_mla sc then sc_tp_size sc else 1)) c in
  let buffers := gpu_kv_buffers (hl_base L) in
  let c := dict_set "gpu_kv_buffer_addrs" (CInts buffers.*1) c in
  let c := dict_set "gpu_kv_buffer_sizes" (CInts buffers.*2) c in
  Ok (match cores with [] => c | _ => dict_set "cpu_affinity_cores" (CInts cores) c end).

(** [_create_store] of the hybrid connectors; [worker] is the layout, the
    overrides, the device and the cores of a worker. *)
Definition hla_create_store (sc : store_conf)
    (worker : option (hla_layout * option size_override * Z * list Z)) (unique_id_suffix : string) :
    res (string * option string * config) :=
  match sc_configs sc with
  | [cc] =>
      let c := setdefault "share_buffer_enable" (CBool (sc_is_mla sc)) (ucm_connector_config cc) in
      c ← split_backends (_set_default_shm_buffer_capacity c);
      let c := dict_set "unique_id" (CStr (sc_unique_id sc +:+ unique_id_suffix)) c in
      c ← match worker with
          | Some (L, o, local_rank, cores) => hla_worker_store_config sc L o local_rank cores c
          | None => Ok (dict_set "block_size" (CInt (scheduler_block_size sc)) c)
          end;
      let gc := bool_decide (worker = None) && (sc_dp_rank sc =? 0) in
      Ok (ucm_connector_name cc, ucm_connector_module_path cc,
          dict_set "posix_gc_enable" (CBool gc) c)
  | _ => Raise (RuntimeError "Expected exactly one connector config")
  end.

(** ** Registration in layerwise mode *)

(** The layer of each row whose save dumps the row: the one with the largest id,
    the first of them on ties. *)
Definition later_layer (name_to_id : dict string Z) (first : Z) (best name : string) : string :=
  if dict_get_default best first name_to_id <? dict_get_default name first name_to_id
  then name else best.

Definition row_to_layers (name_to_row : dict string Z) : dict Z (list string) :=
  foldl (λ d p, dict_set p.2 (dict_get_default p.2 [] d ++ [p.1]) d) [] name_to_row.

Definition row_save_layer (name_to_id : dict string Z) (first : Z) (name_to_row : dict string Z) :
    dict Z string :=
  (λ r, (r.1, match r.2 with [] => "" | n :: l => foldl (later_layer name_to_id first) n l end)) <$>
    row_to_layers name_to_row.

Definition row_ids (L : hla_layout) : list Z :=
  merge_sort Z.le (remove_dups (layer_name_to_row L).*2).

(** The checks of [register_kv_caches]: the sizes of the row-sharded store. *)
Definition register_rows (L : hla_layout) : res size_override :=
  match row_ids L with
  | [] => Raise (RuntimeError "Hybrid layerwise layout has no cache rows.")
  | first_row_id :: _ =>
      let last_row_id := foldl Z.max first_row_id (row_ids L) in
      if zlen (row_tensor_size_lists L) <=? last_row_id
      then Raise (RuntimeError "Hybrid layerwise row mapping is inconsistent with layout rows")
      else
        sizes ← py_index (row_tensor_size_lists L) first_row_id;
        all ← map_res (py_index (row_tensor_size_lists L)) (row_ids L);
        if decide (Exists (λ s, s ≠ sizes) all)
        then Raise (RuntimeError "Hybrid layerwise rows must share the same tensor layout")
        else Ok (SizeOverride sizes (zsum sizes) (zsum sizes * (last_row_id + 1)))
  end.
