(* ===== verification/HlaLayoutProps.v ===== *)
(** * What the hybrid layout guarantees

    Each shared raw tensor becomes one row of slots that tile it: the slots of
    all the blocks are disjoint, stay inside the tensor and add up to its pages;
    the addresses of a row are exact, and the rows of a block are together all
    its slots. *)
From S2P Require Import Prelude Runtime KVLayout KVLayoutProps StoreConf HlaLayout.
Open Scope Z_scope.

(** ** Rows *)

(** The first addresses of consecutive regions of [nb] slots of these sizes. *)
Fixpoint tile_bases (nb base : Z) (sizes : list Z) : list Z :=
  match sizes with
  | [] => []
  | s :: sizes => base :: tile_bases nb (base + s * nb) sizes
  end.

(** A row whose slots tile [nb] pages of [page] bytes from [base] on. *)
Record tiles (nb base page : Z) (row : hla_row) : Prop := {
  ti_sizes : Forall (λ s, 0 ≤ s) (hr_tensor_sizes row);
  ti_page : zsum (hr_tensor_sizes row) = page;
  ti_bases : hr_base_ptrs row = tile_bases nb base (hr_tensor_sizes row);
  ti_strides : hr_block_strides row = hr_tensor_sizes row;
  ti_buffers : hr_buffer_sizes row = (λ s, s * nb) <$> hr_tensor_sizes row;
}.

Lemma component_major_tiles nb base a b c :
  0 ≤ a → 0 ≤ b → 0 ≤ c → tiles nb base (a + b + c) (component_major nb base a b c).
Proof.
  intros Ha Hb Hc. unfold component_major. split; cbn [hr_base_ptrs hr_buffer_sizes hr_tensor_sizes hr_block_strides]; try done.
  - repeat constructor; done.
  - unfold zsum. simpl. lia.
  - cbn [tile_bases]. by rewrite -> Z.mul_add_distr_r, Z.add_assoc.
Qed.

Lemma contiguous_tiles nb raw ptrs row :
  0 < nb → 0 ≤ rt_size raw → _append_contiguous_page_layout nb raw ptrs = Ok row →
  ∃ base, py_min ptrs = Ok base ∧ tiles nb base (rt_size raw / nb) row ∧ rt_size raw / nb * nb = rt_size raw.
Proof.
  intros Hnb Hs. unfold _append_contiguous_page_layout.
  destruct (Z.eqb_spec nb 0); [lia|]. destruct (Z.eqb_spec (rt_size raw mod nb) 0) as [Hm|]; [|done].
  cbn [negb]. intros Hrun. res_inv Hrun. injection Hrun as <-. exists x. split; [done|].
  pose proof (Z.div_mod (rt_size raw) nb ltac:(lia)). assert (0 ≤ rt_size raw / nb) by (apply Z.div_pos; lia).
  assert (Heq : rt_size raw / nb * nb = rt_size raw) by lia.
  split; [|done]. split; cbn [hr_base_ptrs hr_buffer_sizes hr_tensor_sizes hr_block_strides]; try done.
  - by repeat constructor.
  - unfold zsum. simpl. lia.
  - simpl. by rewrite -> Heq.
Qed.

(** Specifications whose components have sizes. *)
Definition sizes_nonneg (s : kv_cache_spec) : Prop :=
  Forall (λ z, 0 ≤ z) (_mamba_component_sizes s) ∧
  ∀ k v, _attention_component_sizes s = Ok (k, v) → 0 ≤ k ∧ 0 ≤ v.

(** The bytes per block in front of what the layers of a raw tensor see: the
    attention layers that have a tensor to themselves on an NPU see it from the
    keys on, behind the space of the convolution states. *)
Definition bytes_before (is_npu : bool) (nb : Z) (raw : raw_tensor) (specs : list kv_cache_spec) : Z :=
  match is_npu, filter (λ s, is_full_attention_spec s) specs, filter (λ s, is_mamba_spec s) specs with
  | true, attn :: _, [] =>
      match _attention_component_sizes attn with
      | Ok (k, v) => Z.max 0 (rt_size raw / nb - k - v)
      | Raise _ => 0
      end
  | _, _, _ => 0
  end.

(** The layers see the raw tensor at address [addr]. *)
Definition placed_at (is_npu : bool) (nb : Z) (raw : raw_tensor) (specs : list kv_cache_spec)
    (ptrs : list Z) (addr : Z) : Prop :=
  ∀ p, py_min ptrs = Ok p → p = addr + bytes_before is_npu nb raw specs * nb.

Lemma py_index0 {A} (l : list A) x : py_index l 0 = Ok x → x ∈ l.
Proof. intros Hx. apply py_index_lookup in Hx; [|lia]. by eapply list_elem_of_lookup_2. Qed.

(** Every layout chosen for a raw tensor tiles it from its first byte on. *)
Lemma tensor_row_tiles is_npu nb raw specs ptrs addr row :
  0 < nb → 0 ≤ rt_size raw → Forall sizes_nonneg specs → placed_at is_npu nb raw specs ptrs addr →
  tensor_row is_npu nb raw specs ptrs = Ok row → tiles nb addr (rt_size raw / nb) row.
Proof.
  intros Hnb Hs Hspecs. rewrite -> Forall_forall in Hspecs. unfold placed_at, bytes_before, tensor_row.
  assert (Hcont : (∀ p, py_min ptrs = Ok p → p = addr + 0 * nb) →
    _append_contiguous_page_layout nb raw ptrs = Ok row → tiles nb addr (rt_size raw / nb) row).
  { intros Hp Hc. destruct (contiguous_tiles nb raw ptrs row Hnb Hs Hc) as (base & Hb & Ht & _).
    apply Hp in Hb. by replace addr with base by lia. }
  set (mamba := filter (λ s, is_mamba_spec s) specs). set (attn := filter (λ s, is_full_attention_spec s) specs).
  assert (Hattn : ∀ s, s ∈ attn → s ∈ specs) by (intros s [_ ?]%list_elem_of_filter; done).
  assert (Hmamba : ∀ s, s ∈ mamba → s ∈ specs) by (intros s [_ ?]%list_elem_of_filter; done).
  clearbody mamba attn.
  destruct is_npu; [|destruct attn, mamba; exact Hcont]. destruct attn as [|a attn0]; [destruct mamba; exact Hcont|].
  destruct mamba as [|m0 mamba0].
  - unfold _append_ascend_attn_only_layout. change (py_index (a :: attn0) 0) with (Ok a).
    unfold mbind at 1, res_bind at 1.
    destruct (_attention_component_sizes a) as [[k v]|e] eqn:Hkv; [|done]. intros Hp. unfold mbind at 1, res_bind at 1.
    destruct (proj2 (Hspecs a (Hattn a ltac:(left))) k v Hkv) as [Hk Hv]. destruct (Z.eqb_spec nb 0); [lia|].
    set (pad := rt_size raw / nb - k - v) in *. destruct (Z.leb_spec pad 0).
    { apply Hcont. intros p Hmin. rewrite -> (Hp p Hmin). by rewrite -> Z.max_l by lia. }
    intros Hrun. apply bind_Ok in Hrun as (p & Hmin & [= <-]). rewrite -> (Hp p Hmin), Z.max_r by lia.
    replace (rt_size raw / nb) with (pad + k + v) by (unfold pad; lia).
    replace (addr + pad * nb - pad * nb) with addr by lia. by apply component_major_tiles; try lia.
  - intros Hp. unfold _append_ascend_component_major_layout. intros Hrun. apply bind_Ok in Hrun as (ms & Hms & Hrun).
    apply py_index0, Hmamba in Hms. pose proof (proj1 (Hspecs ms Hms)) as Hpos.
    destruct (_mamba_component_sizes ms) as [|conv [|ssm sizes]]; [by apply Hcont..|].
    apply bind_Ok in Hrun as (a' & Ha & Hrun). apply py_index0, Hattn in Ha.
    apply bind_Ok in Hrun as ([k v] & Hkv & Hrun). destruct (proj2 (Hspecs a' Ha) k v Hkv) as [Hk Hv].
    apply Forall_cons in Hpos as [Hconv [Hssm _]%Forall_cons]. destruct (Z.eqb_spec nb 0); [lia|].
    set (tail := rt_size raw / nb - conv - Z.max k ssm) in *.
    destruct (Z.leb_spec tail 0); [done|]. destruct (Z.ltb_spec tail v); [done|].
    apply bind_Ok in Hrun as (p & Hmin & [= <-]). apply Hp in Hmin. replace p with addr by lia.
    replace (rt_size raw / nb) with (conv + Z.max k ssm + tail) by (unfold tail; lia).
    apply component_major_tiles; lia.
Qed.

(** *** Geometry *)

(** The region of slot [j] lies between those before and after it. *)
Lemma tile_bases_lookup nb sizes : ∀ base j a s,
  0 ≤ nb → Forall (λ s, 0 ≤ s) sizes → tile_bases nb base sizes !! j = Some a → sizes !! j = Some s →
  0 ≤ s ∧ a = base + zsum (take j sizes) * nb ∧ zsum (take j sizes) + s + zsum (drop (S j) sizes) = zsum sizes ∧
  0 ≤ zsum (take j sizes) ∧ 0 ≤ zsum (drop (S j) sizes).
Proof.
  induction sizes as [|s0 sizes IH]; intros base j a s Hnb Hpos Ha Hs; [done|].
  apply Forall_cons in Hpos as [Hs0 Hpos]. destruct j as [|j].
  - simpl in Ha, Hs. injection Ha as <-. injection Hs as <-. rewrite -> zsum_cons. cbn [take drop].
    pose proof (zsum_nonneg sizes Hpos). change (zsum []) with 0. rewrite -> ?drop_0. lia.
  - simpl in Ha, Hs. destruct (IH _ j a s Hnb Hpos Ha Hs) as (Hs' & -> & Hsum & H1 & H2).
    cbn [take drop]. rewrite -> !zsum_cons. split_and!; try done; lia.
Qed.

(** Different slots of different blocks are disjoint. *)
Definition disjoint_slots (nb base page : Z) (bases sizes : list Z) : Prop :=
  (∀ i j a s, 0 ≤ i < nb → bases !! j = Some a → sizes !! j = Some s →
     base ≤ a + i * s ∧ a + i * s + s ≤ base + page * nb) ∧
  (∀ i j a s i' j' a' s', 0 ≤ i < nb → 0 ≤ i' < nb → bases !! j = Some a → sizes !! j = Some s →
     bases !! j' = Some a' → sizes !! j' = Some s' → (i, j) ≠ (i', j') →
     a + i * s + s ≤ a' + i' * s' ∨ a' + i' * s' + s' ≤ a + i * s).

Lemma take_sum_le sizes (j j' : nat) s :
  Forall (λ s, 0 ≤ s) sizes → (j < j')%nat → sizes !! j = Some s →
  zsum (take j sizes) + s ≤ zsum (take j' sizes).
Proof.
  intros Hpos Hlt Hs.
  assert (Heq : take j' sizes = take (S j) sizes ++ take (j' - S j) (drop (S j) sizes)).
  { rewrite -> take_take_drop. f_equal. lia. }
  rewrite -> Heq, zsum_app, (take_S_r _ _ _ Hs), zsum_app.
  pose proof (zsum_nonneg (take (j' - S j) (drop (S j) sizes))
    ltac:(by apply Forall_take, Forall_drop)). change (zsum [s]) with (s + 0). lia.
Qed.

Lemma tiles_disjoint nb base page row :
  0 ≤ nb → tiles nb base page row → disjoint_slots nb base page (hr_base_ptrs row) (hr_tensor_sizes row).
Proof.
  intros Hnb [Hpos <- Hb _ _]. rewrite -> Hb. split.
  - intros i j a s Hi Ha Hs. destruct (tile_bases_lookup nb _ _ _ _ _ Hnb Hpos Ha Hs) as (Hs0 & -> & Hsum & H1 & H2).
    split; nia.
  - assert (Hlt : ∀ i (j : nat) a s i' (j' : nat) a' s', 0 ≤ i < nb → 0 ≤ i' < nb →
      tile_bases nb base (hr_tensor_sizes row) !! j = Some a → hr_tensor_sizes row !! j = Some s →
      tile_bases nb base (hr_tensor_sizes row) !! j' = Some a' → hr_tensor_sizes row !! j' = Some s' →
      (j < j')%nat → a + i * s + s ≤ a' + i' * s').
    { intros i j a s i' j' a' s' Hi Hi' Ha Hs Ha' Hs' Hjj.
      destruct (tile_bases_lookup nb _ _ _ _ _ Hnb Hpos Ha Hs) as (Hs0 & -> & _).
      destruct (tile_bases_lookup nb _ _ _ _ _ Hnb Hpos Ha' Hs') as (Hs0' & -> & _).
      pose proof (take_sum_le _ _ _ _ Hpos Hjj Hs). nia. }
    intros i j a s i' j' a' s' Hi Hi' Ha Hs Ha' Hs' Hne.
    destruct (lt_eq_lt_dec j j') as [[Hj|Hj]|Hj].
    + left. by apply (Hlt i j a s i' j' a' s').
    + subst j'. rewrite -> Ha in Ha'. rewrite -> Hs in Hs'. injection Ha' as <-. injection Hs' as <-.
      destruct (tile_bases_lookup nb _ _ _ _ _ Hnb Hpos Ha Hs) as (Hs0 & _).
      assert (i ≠ i') by congruence. destruct (decide (i < i')); [left|right]; nia.
    + right. by apply (Hlt i' j' a' s' i j a s).
Qed.

(** ** Addresses *)

(** Rows whose lists have one entry per slot. *)
Definition row_shaped (row : hla_row) : Prop :=
  length (hr_base_ptrs row) = length (hr_tensor_sizes row) ∧
  length (hr_block_strides row) = length (hr_tensor_sizes row).

Lemma tile_bases_length nb sizes : ∀ base, length (tile_bases nb base sizes) = length sizes.
Proof. induction sizes; intros; simpl; [done|by f_equal]. Qed.

Lemma tiles_shaped nb base page row : tiles nb base page row → row_shaped row.
Proof. intros [_ _ Hb Hs _]. split; [by rewrite -> Hb, tile_bases_length|by rewrite Hs]. Qed.

(** The addresses of one block in one row, in 64-bit arithmetic. *)
Definition row_addrs (row : hla_row) (id : Z) : list Z :=
  zip_with (λ s p, block_addr s p id) (u64 <$> hr_block_strides row) (u64 <$> hr_base_ptrs row).

Lemma slices_from_lookup ls : ∀ off (r : nat) l,
  ls !! r = Some l →
  slices_from off ls !! r = Some (off + zlen (concat (take r ls)), off + zlen (concat (take r ls)) + zlen (l : list Z)).
Proof.
  induction ls as [|l0 ls IH]; intros off [|r] l Hl; [done..| |].
  - simpl in Hl. injection Hl as ->. cbn [slices_from lookup list_lookup take concat]. change (zlen []) with 0.
    by rewrite -> Z.add_0_r.
  - cbn [slices_from lookup list_lookup take concat]. rewrite -> (IH _ _ _ Hl), zlen_app. do 2 f_equal; lia.
Qed.

Lemma slices_from_length ls : ∀ off, length (slices_from off ls) = length ls.
Proof. induction ls; intros; simpl; [done|by f_equal]. Qed.

(** Cutting the concatenation of same-shaped rows gives the rows back. *)
Lemma py_slice_concat (f : hla_row → list Z) rows (r : nat) row :
  Forall (λ row, length (f row) = length (hr_tensor_sizes row)) rows → rows !! r = Some row →
  let off := zlen (concat (take r (hr_tensor_sizes <$> rows))) in
  py_slice (concat (f <$> rows)) off (off + zlen (hr_tensor_sizes row)) = f row.
Proof.
  intros Hsh Hr off.
  assert (Hoff : off = zlen (concat (f <$> take r rows))).
  { unfold off. clear off. rewrite <- fmap_take. clear Hr. revert r.
    induction Hsh as [|x rows Hx Hsh IH]; intros [|r]; [done..|].
    cbn [take fmap list_fmap concat]. rewrite -> !zlen_app, IH. unfold zlen. by rewrite Hx. }
  assert (Hrow : length (f row) = length (hr_tensor_sizes row)).
  { rewrite -> Forall_lookup in Hsh. by apply (Hsh r). }
  rewrite <- (take_drop_middle rows r row Hr), fmap_app, fmap_cons, concat_app, concat_cons.
  rewrite -> py_slice_pos by (unfold zlen in *; lia). rewrite -> Hoff.
  replace (zlen (concat (f <$> take r rows)) + zlen (hr_tensor_sizes row) - zlen (concat (f <$> take r rows)))
    with (zlen (f row)) by (unfold zlen; rewrite Hrow; lia).
  unfold zlen. rewrite -> !Nat2Z.id, drop_app_length, take_app_length. done.
Qed.

Section final.
  Variable c : layout_conf.
  Variable ids : dict string Z.
  Variable first : Z.
  Variable rows : list hla_row.
  Variable names : dict string Z.
Let L : hla_layout := _finalize_layout_arrays c ids first rows names.
Let nb : Z := lc_num_blocks c.
  Hypothesis Hshape : Forall row_shaped rows.
  Hypothesis Hnb : nb ≤ 2 ^ 64.

Lemma py_slice_fmap {A B} (f : A → B) (l : list A) i j : py_slice (f <$> l) i j = f <$> py_slice l i j.
Proof. unfold py_slice, zlen. by rewrite -> length_fmap, fmap_take, fmap_drop. Qed.

Lemma row_slots (r : nat) row :
  rows !! r = Some row →
  let s := (zlen (concat (take r (hr_tensor_sizes <$> rows))),
            zlen (concat (take r (hr_tensor_sizes <$> rows))) + zlen (hr_tensor_sizes row)) in
  row_slices L !! r = Some s ∧
  (∀ l, slot_addrs (py_slice (np_tolist (block_stride_lists (hl_base L))) s.1 s.2)
          (py_slice (np_tolist (base_ptrs (hl_base L))) s.1 s.2) l = row_addrs row <$> l).
Proof.
  intros Hr s. split.
  - unfold L, _finalize_layout_arrays. cbn [row_slices].
    rewrite -> (slices_from_lookup _ 0 r (hr_tensor_sizes row)); [done|]. by rewrite -> list_lookup_fmap, Hr.
  - intros l. unfold L, _finalize_layout_arrays, mk_layout.
    cbn [hl_base block_stride_lists base_ptrs np_tolist]. rewrite -> !py_slice_fmap. unfold s. cbn [fst snd].
    rewrite -> (py_slice_concat hr_block_strides), (py_slice_concat hr_base_ptrs); try done.
    + eapply Forall_impl; [exact Hshape|]. by intros x [? _].
    + eapply Forall_impl; [exact Hshape|]. by intros x [_ ?].
Qed.

(** One row of some blocks, through the table of addresses. *)
Lemma row_addresses (r : nat) row l :
  rows !! r = Some row → Forall (λ id, 0 ≤ id < nb) l →
  extract_block_addrs_for_row L l (Z.of_nat r) = Ok (row_addrs row <$> l).
Proof.
  intros Hr Hl. destruct (row_slots r row Hr) as [Hs Hslots].
  unfold extract_block_addrs_for_row.
  rewrite -> (proj2 (Z.ltb_ge (Z.of_nat r) 0)), (proj2 (Z.leb_gt _ _)) by (pose proof (lookup_lt_Some _ _ _ Hs); unfold zlen; lia).
  cbn [orb].
  set (s := (zlen (concat (take r (hr_tensor_sizes <$> rows))),
    zlen (concat (take r (hr_tensor_sizes <$> rows))) + zlen (hr_tensor_sizes row))) in *.
  assert (Hlook : dict_get (Z.of_nat r) (row_addr_lookup L) = Some (row_addrs row <$> py_range 0 nb)).
  { unfold L, _finalize_layout_arrays. cbn [row_addr_lookup]. apply dict_elem_get.
    - rewrite -> fst_zip; [apply NoDup_seqZ|]. rewrite -> length_seqZ, length_fmap, slices_from_length, length_fmap. unfold zlen. lia.
    - apply (list_elem_of_lookup_2 _ r), lookup_zip_with_Some. eexists _, _. split; [done|]. split.
      + apply lookup_seqZ. apply lookup_lt_Some in Hr. unfold zlen. lia.
      + rewrite -> list_lookup_fmap. unfold L, _finalize_layout_arrays in Hs. cbn [row_slices] in Hs. rewrite -> Hs.
        simpl. f_equal. exact (Hslots (py_range 0 (lc_num_blocks c))). }
  rewrite -> Hlook. apply map_res_pure. intros id Hid. rewrite -> Forall_forall in Hl. apply Hl in Hid.
  unfold u64. rewrite -> Z.mod_small by lia. apply py_index_lookup; [lia|].
  rewrite -> list_lookup_fmap. unfold py_range. rewrite -> (proj2 (lookup_seqZ 0 (nb - 0) (Z.to_nat id) id)); [done|lia].
Qed.

(** All the slots of some blocks: the rows one after the other. *)
Lemma flat_addresses l :
  hla_extract_block_addrs L l false = Ok ((λ id, concat ((λ row, row_addrs row id) <$> rows)) <$> l).
Proof.
  unfold hla_extract_block_addrs, L, _finalize_layout_arrays, mk_layout.
  cbn [hl_base block_stride_lists base_ptrs np_tolist]. unfold slot_addrs. f_equal.
  apply list_fmap_ext. intros i id _. clear -Hshape.
  induction Hshape as [|row rows' [H1 H2] _ IH]; [done|]. csimpl.
  rewrite -> !fmap_app, zip_with_app.
  2:{ rewrite -> !length_fmap. congruence. }
  rewrite -> IH by (by apply Forall_cons in Hshape as [_ ?]). done.
Qed.

End final.

(** Without wrap-around the addresses are the exact ones. *)
Lemma row_addrs_exact nb base page row id :
  tiles nb base page row → 0 ≤ base → base + page * nb < 2 ^ 64 → 0 ≤ id < nb →
  row_addrs row id = zip_with (λ a s, a + id * s) (hr_base_ptrs row) (hr_tensor_sizes row).
Proof.
  intros Ht Hb Hfit Hid. pose proof (tiles_disjoint nb base page row ltac:(lia) Ht) as [Hin _].
  pose proof (tiles_shaped _ _ _ _ Ht) as [Hl1 Hl2].
  unfold row_addrs. rewrite -> (ti_strides _ _ _ _ Ht). apply list_eq. intros j.
  rewrite -> !lookup_zip_with, !list_lookup_fmap.
  destruct (hr_tensor_sizes row !! j) as [s|] eqn:Hs; [|by destruct (hr_base_ptrs row !! j)].
  destruct (hr_base_ptrs row !! j) as [a|] eqn:Ha; [|done]. simpl. f_equal.
  pose proof (proj1 (Forall_lookup _ _) (ti_sizes _ _ _ _ Ht) j s Hs) as Hs0. simpl in Hs0.
  pose proof (Hin 0 j a s ltac:(lia) Ha Hs) as [Hlo _]. pose proof (Hin (nb - 1) j a s ltac:(lia) Ha Hs) as [_ Hhi].
  pose proof (Hin id j a s Hid Ha Hs) as [_ Hhi'].
  unfold block_addr, u64. destruct (decide (s = 0)) as [->|Hne].
  - rewrite -> (Z.mod_small 0), Z.mul_0_r, (Z.mod_small 0) by lia.
    rewrite -> !(Z.mod_small a) by lia. lia.
  - rewrite -> (Z.mod_small s), (Z.mod_small a) by nia. rewrite -> (Z.mod_small id) by nia.
    rewrite -> (Z.mod_small (id * s)), Z.mod_small by nia. lia.
Qed.

(** ** The layout of a configuration *)

(** Row [row] is the one built for [raw]. *)
Definition row_of (is_npu : bool) (kc : kv_cache_config) (nb : Z) (kvcaches : dict string kv_layer)
    (raw : raw_tensor) (row : hla_row) : Prop :=
  ∃ specs ptrs, _collect_shared_tensor_info kc raw kvcaches = Ok (specs, ptrs) ∧
    tensor_row is_npu nb raw specs ptrs = Ok row.

(** The rows are those of some of the raw tensors, in their order. *)
Lemma build_rows_spec is_npu kc nb kvcaches raws : ∀ acc before rows names,
  Forall2 (row_of is_npu kc nb kvcaches) before acc.1 →
  fold_res (build_row is_npu kc nb kvcaches) acc raws = Ok (rows, names) →
  ∃ raws', raws' `sublist_of` raws ∧ Forall2 (row_of is_npu kc nb kvcaches) (before ++ raws') rows.
Proof.
  induction raws as [|raw raws IH]; intros acc before rows names Hacc Hrun.
  { simpl in Hrun. injection Hrun as ->. exists []. by rewrite -> app_nil_r. }
  cbn [fold_res] in Hrun. apply bind_Ok in Hrun as (acc1 & Hb & Hrun).
  assert (Hskip : acc1 = acc → ∃ raws', raws' `sublist_of` raw :: raws ∧
    Forall2 (row_of is_npu kc nb kvcaches) (before ++ raws') rows).
  { intros ->. destruct (IH acc before rows names Hacc Hrun) as (raws' & Hsub & HF).
    exists raws'. split; [by apply sublist_cons|done]. }
  unfold build_row in Hb. destruct (rt_shared_by raw) as [|n0 ns]; [injection Hb as <-; by apply Hskip|].
  apply bind_Ok in Hb as ([specs ptrs] & Hc & Hb). destruct ptrs as [|p ptrs]; [injection Hb as <-; by apply Hskip|].
  apply bind_Ok in Hb as (row & Hr & [= <-]). clear Hskip.
  eapply (IH _ (before ++ [raw])) in Hrun as (raws' & Hsub & HF); last first.
  - cbn [fst]. apply Forall2_app; [done|]. apply Forall2_cons. split; [|done]. by exists specs, (p :: ptrs).
  - exists (raw :: raws'). split; [by apply sublist_skip|]. by rewrite <- app_assoc in HF.
Qed.

(** What a configuration has to satisfy: blocks, sizes, and raw tensors inside
    the 64-bit address space that the layers see as the engine places them. *)
Record hla_conf_ok (is_npu : bool) (nb : Z) (kc : kv_cache_config) (kvcaches : dict string kv_layer)
    (raw_addr : raw_tensor → Z) : Prop := {
  hc_blocks : 0 < nb ≤ 2 ^ 64;
  hc_sizes : ∀ raw, raw ∈ kv_cache_tensors kc →
    0 ≤ rt_size raw ∧ 0 ≤ raw_addr raw ∧ raw_addr raw + rt_size raw < 2 ^ 64;
  hc_specs : ∀ raw specs ptrs, raw ∈ kv_cache_tensors kc →
    _collect_shared_tensor_info kc raw kvcaches = Ok (specs, ptrs) →
    Forall sizes_nonneg specs ∧ placed_at is_npu nb raw specs ptrs (raw_addr raw);
}.

(** The slots of different blocks or components do not overlap, and all lie in
    the [size] bytes from [addr] on. *)
Definition slots_inside (nb addr size : Z) (bases sizes : list Z) : Prop :=
  (∀ i j a s, 0 ≤ i < nb → bases !! j = Some a → sizes !! j = Some s →
     addr ≤ a + i * s ∧ a + i * s + s ≤ addr + size) ∧
  (∀ i j a s i' j' a' s', 0 ≤ i < nb → 0 ≤ i' < nb → bases !! j = Some a → sizes !! j = Some s →
     bases !! j' = Some a' → sizes !! j' = Some s' → (i, j) ≠ (i', j') →
     a + i * s + s ≤ a' + i' * s' ∨ a' + i' * s' + s' ≤ a + i * s).

Lemma div_mul_le a b : 0 < b → a / b * b ≤ a.
Proof. intros Hb. pose proof (Z.mul_div_le a b Hb). lia. Qed.

(** ** Property *)

(** C23: The hybrid layout addresses its tensors exactly.  Every row stands for one
    raw tensor, the rows in the order of the tensors; the slots copied per block add
    up to a page of it; every slot of every block lies inside the tensor, between its
    first byte and its last, wherever the engine has placed it, and the slots of
    different blocks and components never overlap.  The addresses of a row come out
    of the table exactly, without wrap-around, and the flat addresses of a block are
    those of its rows, one after the other.  The tensors are assumed to be seen by
    their layers as the engines place them: from the first byte on, and by attention
    layers alone on an NPU from behind the padding on. *)
Theorem hla_rows_tile_tensors e is_npu c kc kvcaches raw_addr L l :
  let nb := lc_num_blocks c in
  HybridLinearAttentionLayout e is_npu c kc kvcaches = Ok L →
  hla_conf_ok is_npu nb kc kvcaches raw_addr → Forall (λ id, 0 ≤ id < nb) l →
  ∃ (raws : list raw_tensor) (addrs : list (list (list Z))),
    raws `sublist_of` kv_cache_tensors kc ∧ length raws = length addrs ∧
    length addrs = length (row_slices L) ∧
    hla_extract_block_addrs L l false =
      Ok ((λ k, concat (omap (λ m, m !! k) addrs)) <$> seq 0 (length l)) ∧
    ∀ r raw a, raws !! r = Some raw → addrs !! r = Some a →
      extract_block_addrs_for_row L l (Z.of_nat r) = Ok a ∧
      ∃ bases sizes, zsum sizes = rt_size raw / nb ∧ length bases = length sizes ∧
        slots_inside nb (raw_addr raw) (rt_size raw) bases sizes ∧
        a = (λ id, zip_with (λ b s, b + id * s) bases sizes) <$> l.
Proof.
  intros nb HL [Hnb Hsizes Hspecs] Hl. unfold HybridLinearAttentionLayout in HL.
  apply bind_Ok in HL as ([ids first] & _ & HL). apply bind_Ok in HL as ([rows names] & Hrows & [= <-]).
  apply (build_rows_spec _ _ _ _ _ _ []) in Hrows as (raws & Hsub & HF); [|constructor]. fold nb in HF. cbn [app] in HF.
  assert (Hok : ∀ r raw row, raws !! r = Some raw → rows !! r = Some row → raw ∈ kv_cache_tensors kc ∧
    tiles nb (raw_addr raw) (rt_size raw / nb) row).
  { intros r raw row Hraw Hr. destruct (Forall2_lookup_lr _ _ _ _ _ _ HF Hraw Hr) as (specs & ptrs & Hc & Ht).
    assert (Hin : raw ∈ kv_cache_tensors kc) by (eapply elem_of_sublist; [by eapply list_elem_of_lookup_2|done]).
    destruct (Hspecs raw specs ptrs Hin Hc) as [Hsp Hpl], (Hsizes raw Hin) as [Hs _].
    split; [done|]. by apply (tensor_row_tiles is_npu nb raw specs ptrs); try lia. }
  assert (Hsh : Forall row_shaped rows).
  { apply Forall_lookup. intros r row Hr. destruct (Forall2_lookup_r _ _ _ _ _ HF Hr) as (raw & Hraw & _).
    eapply tiles_shaped, (Hok r raw row Hraw Hr). }
  exists raws, ((λ row, row_addrs row <$> l) <$> rows).
  split; [done|]. split; [by rewrite -> length_fmap; eapply Forall2_length|]. split.
  { unfold _finalize_layout_arrays. cbn [row_slices]. by rewrite -> slices_from_length, !length_fmap. }
  split.
  - rewrite -> (flat_addresses c ids first rows names Hsh). f_equal. apply list_eq. intros k.
    rewrite -> !list_lookup_fmap. destruct (l !! k) as [id|] eqn:Hk.
    + rewrite -> lookup_seq_lt by (by eapply lookup_lt_Some). simpl. do 2 f_equal. clear -Hk.
      induction rows as [|row rows IH]; [done|]. csimpl. rewrite -> list_lookup_fmap, Hk. simpl. by rewrite <- IH.
    + rewrite -> lookup_seq_ge by (by apply lookup_ge_None). done.
  - intros r raw a Hraw Ha. rewrite -> list_lookup_fmap in Ha. destruct (rows !! r) as [row|] eqn:Hr; [|done].
    injection Ha as <-. split; [apply row_addresses; [done|lia|done|done]|].
    destruct (Hok r raw row Hraw Hr) as (Hin & Ht). destruct (Hsizes raw Hin) as (Hs & Hb0 & Hb1).
    pose proof (div_mul_le (rt_size raw) nb ltac:(lia)) as Hdiv.
    exists (hr_base_ptrs row), (hr_tensor_sizes row).
    split; [exact (ti_page _ _ _ _ Ht)|]. split; [apply (tiles_shaped _ _ _ _ Ht)|]. split.
    + destruct (tiles_disjoint nb _ _ row ltac:(lia) Ht) as [Hins Hdis]. split; [|exact Hdis].
      intros i j b s Hi Hb Hsz. pose proof (Hins i j b s Hi Hb Hsz). lia.
    + apply list_fmap_ext. intros k id Hk. apply (row_addrs_exact nb (raw_addr raw) (rt_size raw / nb)); try done; [lia|].
      rewrite -> Forall_lookup in Hl. by apply (Hl k).
Qed.

(** Two raw tensors on an NPU, each shared by an attention and a mamba layer, and
    one that an attention layer has to itself. *)
Definition ex_hla_config : kv_cache_config :=
  KVCacheConfig
    [HlaGroup (FullAttentionSpec 2 1 4 4 2) ["a.0"; "a.1"; "a.2"];
     HlaGroup (MambaSpec 4 "align" [[2]; [5]] [2; 4]) ["m.0"; "m.1"]]
    [RawTensor 160 ["a.0"; "m.0"]; RawTensor 160 ["a.1"; "m.1"]; RawTensor 160 ["a.2"] ] 4.

Definition ex_hla_kvcaches : dict string kv_layer :=
  [("a.0", KVTensor (Tensor 4096 [] [] 2)); ("m.0", KVTensor (Tensor 4096 [] [] 2));
   ("a.1", KVTensor (Tensor 8192 [] [] 2)); ("m.1", KVTensor (Tensor 8192 [] [] 2));
   ("a.2", KVTensor (Tensor 12320 [] [] 2))].

Definition ex_hla_index (name : string) : res Z :=
  if String.eqb name "a.0" || String.eqb name "m.0" then Ok 0
  else if String.eqb name "a.2" then Ok 2 else Ok 1.

(** Where the engine has placed the tensors. *)
Definition ex_hla_addr (raw : raw_tensor) : Z :=
  match rt_shared_by raw with
  | ["a.0"; _] => 4096 | ["a.1"; _] => 8192 | _ => 12288
  end.

Definition ex_hla_layout (is_npu : bool) : hla_layout :=
  match HybridLinearAttentionLayout ex_hla_index is_npu (ex_conf false) ex_hla_config ex_hla_kvcaches with
  | Ok L => L
  | Raise _ => HlaLayout (ex_layout false) [] [] [] [] []
  end.

Lemma ex_specs_nonneg : Forall sizes_nonneg [FullAttentionSpec 2 1 4 4 2; MambaSpec 4 "align" [[2]; [5]] [2; 4]].
Proof.
  apply Forall_cons. split; [split; [constructor|cbn; intros k v [= <- <-]; lia]|].
  apply Forall_cons. split; [split; [cbn; repeat constructor; lia|done]|constructor].
Qed.

Lemma ex_hla_conf_ok : hla_conf_ok true 4 ex_hla_config ex_hla_kvcaches ex_hla_addr.
Proof.
  pose proof ex_specs_nonneg as Hspecs. split; [lia| |].
  - intros raw [-> |[-> |[-> |[]%elem_of_nil]%elem_of_cons]%elem_of_cons]%elem_of_cons; vm_compute; repeat split; discriminate.
  - intros raw specs ptrs [-> |[-> |[-> |[]%elem_of_nil]%elem_of_cons]%elem_of_cons]%elem_of_cons Hc;
      vm_compute in Hc; injection Hc as <- <-.
    1,2: split; [exact Hspecs|]; intros p Hp; vm_compute in Hp; injection Hp as <-; reflexivity.
    split; [by apply Forall_cons in Hspecs as [? _]; apply Forall_singleton|].
    intros p Hp. vm_compute in Hp. injection Hp as <-. reflexivity.
Qed.

Lemma hla_rows_tile_tensors_witness :
  hla_extract_block_addrs (ex_hla_layout true) [3; 1] false =
    Ok [[4096 + 3 * 4; 4112 + 3 * 20; 4192 + 3 * 16; 8192 + 3 * 4; 8208 + 3 * 20; 8288 + 3 * 16;
         12288 + 3 * 8; 12320 + 3 * 16; 12384 + 3 * 16];
        [4096 + 4; 4112 + 20; 4192 + 16; 8192 + 4; 8208 + 20; 8288 + 16; 12288 + 8; 12320 + 16; 12384 + 16] ] ∧
  ∃ (raws : list raw_tensor) (addrs : list (list (list Z))),
    raws `sublist_of` kv_cache_tensors ex_hla_config ∧ length raws = length addrs ∧
    length addrs = 3%nat ∧
    hla_extract_block_addrs (ex_hla_layout true) [3; 1] false =
      Ok ((λ k, concat (omap (λ m, m !! k) addrs)) <$> seq 0 2) ∧
    ∀ r raw a, raws !! r = Some raw → addrs !! r = Some a →
      extract_block_addrs_for_row (ex_hla_layout true) [3; 1] (Z.of_nat r) = Ok a ∧
      ∃ bases sizes, zsum sizes = rt_size raw / 4 ∧ length bases = length sizes ∧
        slots_inside 4 (ex_hla_addr raw) (rt_size raw) bases sizes ∧
        a = (λ id, zip_with (λ b s, b + id * s) bases sizes) <$> [3; 1].
Proof.
  split; [vm_compute; reflexivity|].
  exact (hla_rows_tile_tensors ex_hla_index true (ex_conf false) ex_hla_config ex_hla_kvcaches ex_hla_addr (ex_hla_layout true)
    [3; 1] eq_refl ex_hla_conf_ok
    ltac:(apply Forall_cons; split; [split; [discriminate|reflexivity]|
          apply Forall_cons; split; [split; [discriminate|reflexivity]|constructor] ])).
Defined.
