(* ===== verification/HlaGroups.v ===== *)
(** * Groups of the hybrid linear-attention connector

    [KVCacheGroupManager] of [hla_connector.py]: every full-attention group has
    its own chain of block identifiers; a mamba-align group has one state block,
    keyed at the boundaries common to all groups (the multiples of the least
    common multiple of their block sizes) by the identifier of the prefix.  The
    lookup first bounds the hit by the full-attention groups, then searches
    backwards for a boundary where every state is stored. *)
From S2P Require Import Prelude Runtime PyHash Hashing HlaLayout.
Open Scope Z_scope.

Record GroupInfo := Group {
  gi_group_id : Z;
  gi_block_size : Z;
  gi_layer_names : list string;
  gi_seed : bytes;
  gi_is_mamba_align : bool;
}.

Definition is_full_attention (g : GroupInfo) : bool := negb (gi_is_mamba_align g).

(** [hm_meta] is the metadata of the hasher. *)
Record group_manager := GroupManager {
  hm_meta : bytes;
  groups_by_id : list GroupInfo;
  full_attn_groups : list GroupInfo;
  state_groups : list GroupInfo;
  lcm_block_size : Z;
}.

Definition num_groups (m : group_manager) : Z := zlen (groups_by_id m).

Definition GROUP_SEED : bytes := Pickle.str_bytes "UCM_GROUP_SEED".
Definition MAMBA_ALIGN_STATE : bytes := Pickle.str_bytes "UCM_MAMBA_ALIGN_STATE".

(** [math.lcm( *l)] *)
Definition py_lcm (l : list Z) : Z := foldr Z.lcm 1 l.

Section groups.
  Context `{PyHash}.

Definition group_seed (meta base_seed : bytes) (group_id : Z) : bytes :=
  request_hasher meta (IObj (PSeed GROUP_SEED base_seed group_id)).

Definition group_info (meta base_seed : bytes) (p : Z * hla_group) : res GroupInfo :=
  block_size ← block_size_from_kv_cache_spec (hg_spec p.2);
  align ← is_mamba_align_kv_cache_spec (hg_spec p.2);
  Ok (Group p.1 block_size (hg_layer_names p.2) (group_seed meta base_seed p.1) align).

(** The assertion that every block size divides their least common multiple,
    which divides by each of them. *)
Definition check_lcm (lcm : Z) (groups : list GroupInfo) : res unit :=
  fold_res (λ _ g, if gi_block_size g =? 0 then Raise ZeroDivisionError
                   else if lcm mod gi_block_size g =? 0 then Ok tt else Raise AssertionError)
    tt groups.

(** [KVCacheGroupManager.__init__] *)
Definition KVCacheGroupManager (c : kv_cache_config) (meta base_seed : bytes) : res group_manager :=
  groups ← map_res (group_info meta base_seed)
             (zip (seqZ 0 (zlen (kv_cache_groups c))) (kv_cache_groups c));
  let fa := filter (λ g, is_full_attention g) groups in
  let states := filter (λ g, gi_is_mamba_align g) groups in
  match fa with
  | [] => Raise AssertionError
  | _ =>
      let lcm := py_lcm (gi_block_size <$> groups) in
      _ ← check_lcm lcm groups;
      Ok (GroupManager meta groups fa states lcm)
  end.

Definition compute_block_hashes (m : group_manager) (g : GroupInfo) (token_ids : list Z) : list bytes :=
  if gi_is_mamba_align g then replicate (Z.to_nat (zlen token_ids / gi_block_size g)) []
  else generate_hash (hm_meta m) (gi_block_size g) token_ids (gi_seed g).

Definition compute_all_group_block_ids (m : group_manager) (token_ids : list Z) : list (list bytes) :=
  (λ g, compute_block_hashes m g token_ids) <$> groups_by_id m.

(** The key of the state of a group after [seq_len] tokens; the error path of a
    prefix without identifier reads the primary group again for its message. *)
Definition compute_mamba_align_state_hash (m : group_manager) (g : GroupInfo) (seq_len : Z)
    (group_block_ids : list (list bytes)) : res (option bytes) :=
  if (seq_len <=? 0) || negb (seq_len mod lcm_block_size m =? 0) then Ok None
  else
    primary ← py_index (full_attn_groups m) 0;
    let prefix_idx := seq_len / gi_block_size primary - 1 in
    if prefix_idx <? 0 then Ok None
    else
      prefix_hashes ← py_index group_block_ids (gi_group_id primary);
      match py_index prefix_hashes prefix_idx with
      | Raise _ | Ok [] => Ok None
      | Ok prefix_hash =>
          Ok (Some (request_hasher (hm_meta m)
                      (IObj (PState (gi_seed g) MAMBA_ALIGN_STATE seq_len prefix_hash))))
      end.

(** ** Lookup *)

(** The two lookups of the store and the error counter, in the monad of the
    connector. *)
Section lookup.
  Context {S : Type}.
  Variable lookup_on_prefix : list bytes → M S Z.
  Variable lookup_all : list bytes → M S (list bool).
  Variable record_error : M S unit.
  Variable m : group_manager.

(** The tokens one full-attention group can contribute. *)
Definition candidate (num_computed_tokens : Z) (group_block_ids : list (list bytes)) (fa : GroupInfo) :
    M S Z :=
  fa_block_ids ← of_res (py_index group_block_ids (gi_group_id fa));
  match py_from fa_block_ids (num_computed_tokens / gi_block_size fa) with
  | [] => mret 0
  | fa_external =>
      hit ← try_except (n ← lookup_on_prefix fa_external; mret (Some (n + 1)))
              (λ _, record_error ;; mret None);
      mret (match hit with
            | Some fa_hit_blocks => Z.max fa_hit_blocks 0 * gi_block_size fa
            | None => 0
            end)
  end.

(** The keys of all the states at a boundary, empty where there is none. *)
Definition state_keys (group_block_ids : list (list bytes)) (pos : Z) : res (list bytes) :=
  map_res (λ sg, h ← compute_mamba_align_state_hash m sg pos group_block_ids; Ok (default [] h))
    (state_groups m).

(** The backward scan over boundaries; [None] is the early return after an
    error of the store. *)
Fixpoint scan_states (group_block_ids : list (list bytes)) (best : Z) (positions : list Z) :
    M S (option Z) :=
  match positions with
  | [] => mret (Some best)
  | pos :: positions =>
      pos_hashes ← of_res (state_keys group_block_ids pos);
      results ← try_except (r ← lookup_all pos_hashes; mret (Some r))
                  (λ _, record_error ;; mret None);
      match results with
      | None => mret None
      | Some results =>
          if forallb id results then mret (Some pos)
          else scan_states group_block_ids best positions
      end
  end.

(** [range(a, b, -step)] for a positive [step]. *)
Definition py_range_down (a b step : Z) : list Z :=
  (λ k, a - k * step) <$> seqZ 0 ((a - b + step - 1) / step).

Definition prefetch_hashes (group_block_ids : list (list bytes)) (best_pos : Z) : res (list bytes) :=
  let lcm := lcm_block_size m in
  keys ← map_res (λ pos,
    map_res (λ sg, compute_mamba_align_state_hash m sg pos group_block_ids) (state_groups m))
    (py_range_step lcm (best_pos + lcm) lcm);
  Ok (omap (M := list) id (concat keys)).

(** [external_hit_tokens], [external_hit_lcm_blocks], [mamba_prefetch_hashes] *)
Definition lookup_external_hit_tokens (num_computed_tokens : Z) (group_block_ids : list (list bytes)) :
    M S (Z * Z * list bytes) :=
  let lcm := lcm_block_size m in
  assert_ (zlen group_block_ids =? num_groups m) ;;
  assert_ (num_computed_tokens mod lcm =? 0) ;;
  candidates ← for_fold (full_attn_groups m) [] (λ cs fa,
    c ← candidate num_computed_tokens group_block_ids fa; mret (cs ++ [c]));
  min_external_hit_tokens ← of_res (py_min candidates);
  let external_hit_tokens := min_external_hit_tokens / lcm * lcm in
  if external_hit_tokens <=? 0 then mret (0, 0, []) else
  let total_hit_tokens := num_computed_tokens + external_hit_tokens in
  match state_groups m with
  | [] => mret (external_hit_tokens, external_hit_tokens / lcm, [])
  | _ =>
      best ← scan_states group_block_ids num_computed_tokens
               (py_range_down total_hit_tokens num_computed_tokens lcm);
      match best with
      | None => mret (0, 0, [])
      | Some best_pos =>
          let external_hit_tokens := best_pos - num_computed_tokens in
          if external_hit_tokens <=? 0 then mret (0, 0, []) else
          keys ← of_res (prefetch_hashes group_block_ids best_pos);
          mret (external_hit_tokens, external_hit_tokens / lcm, keys)
      end
  end.

End lookup.
End groups.
