(* ===== verification/Direct.v ===== *)
(** * The direct connector, scheduler side

    [UCMDirectConnector] of [ucm_connector.py]: the state of a connector object
    and the operations the vLLM scheduler calls.  A request is matched against
    the store ([get_num_new_matched_tokens]), its loads and dumps are planned
    chunk by chunk ([build_connector_meta]), load failures reported by the
    workers undo the plan ([update_connector_output]), and a finished request is
    kept until its dumps are done ([request_finished]). *)
From S2P Require Import Prelude Runtime RankConsistency PyHash Hashing KVLayout.
Open Scope Z_scope.

(** ** Data *)

Record RequestMeta := ReqMeta {
  rm_ucm_block_ids : list bytes;
  rm_hbm_hit_block_num : Z;
  rm_total_hit_block_num : Z;
  rm_num_token_ids : Z;
  rm_vllm_block_ids : list Z;
  rm_token_processed : Z;
}.

(** Pairs of UCM block ids and vLLM block ids. *)
Record RequestDispatchMeta := DispatchMeta {
  load_block_ids : list bytes * list Z;
  dump_block_ids : list bytes * list Z;
}.

Record UCMConnectorMetadata := ConnMetadata {
  request_meta : dict string RequestDispatchMeta;
  preempted_req_ids : gset string;
}.

Record PendingDumpTask := PendingDump {
  pd_task : task;
  pd_request_ids : gset string;
  pd_event_handle : Z;
  pd_wait_for_save_start_ms : Z;
}.

(** The attributes fixed by [__init__] and [register_kv_caches].  The
    speculative configuration is [num_speculative_tokens], [None] when it does
    not convert to an integer. *)
Record conf := Conf {
  use_layerwise : bool;
  cf_is_mla : bool;
  tp_rank : Z;
  tp_size : Z;
  cf_block_size : Z;
  hash_block_size : Z;
  cp_world_size : Z;
  hash_meta : bytes;
  other_rank_hashers : list bytes;
  speculative_tokens : option (option Z);
  enable_event_sync : bool;
  skip_null_vllm_blocks : bool;
  persist_token_threshold : Z;
  store : sref;
  kv_cache_layout : layout;
  block_data_size : Z;
}.

(** The attributes that change, the metadata bound by vLLM for the current
    step, and the metric samples sent so far. *)
Record conn := Conn {
  rank_consistency : manager;
  dev : option device;
  requests_meta : dict string RequestMeta;
  invalid_block_ids : gset Z;
  async_dump_req_ids : gset string;
  pending_dump_tasks : list PendingDumpTask;
  connector_worker_meta : worker_meta;
  recompute_tokens : option Z;
  connector_metadata : option UCMConnectorMetadata;
  metrics : list stats;
}.

Definition set_rc (m : manager) (c : conn) : conn :=
  Conn m (dev c) (requests_meta c) (invalid_block_ids c) (async_dump_req_ids c)
    (pending_dump_tasks c) (connector_worker_meta c) (recompute_tokens c)
    (connector_metadata c) (metrics c).
Definition set_dev (d : option device) (c : conn) : conn :=
  Conn (rank_consistency c) d (requests_meta c) (invalid_block_ids c) (async_dump_req_ids c)
    (pending_dump_tasks c) (connector_worker_meta c) (recompute_tokens c)
    (connector_metadata c) (metrics c).
Definition set_requests_meta (r : dict string RequestMeta) (c : conn) : conn :=
  Conn (rank_consistency c) (dev c) r (invalid_block_ids c) (async_dump_req_ids c)
    (pending_dump_tasks c) (connector_worker_meta c) (recompute_tokens c)
    (connector_metadata c) (metrics c).
Definition set_invalid (x : gset Z) (c : conn) : conn :=
  Conn (rank_consistency c) (dev c) (requests_meta c) x (async_dump_req_ids c)
    (pending_dump_tasks c) (connector_worker_meta c) (recompute_tokens c)
    (connector_metadata c) (metrics c).
Definition set_async (x : gset string) (c : conn) : conn :=
  Conn (rank_consistency c) (dev c) (requests_meta c) (invalid_block_ids c) x
    (pending_dump_tasks c) (connector_worker_meta c) (recompute_tokens c)
    (connector_metadata c) (metrics c).
Definition set_pending (x : list PendingDumpTask) (c : conn) : conn :=
  Conn (rank_consistency c) (dev c) (requests_meta c) (invalid_block_ids c)
    (async_dump_req_ids c) x (connector_worker_meta c) (recompute_tokens c)
    (connector_metadata c) (metrics c).
Definition set_wm (x : worker_meta) (c : conn) : conn :=
  Conn (rank_consistency c) (dev c) (requests_meta c) (invalid_block_ids c)
    (async_dump_req_ids c) (pending_dump_tasks c) x (recompute_tokens c)
    (connector_metadata c) (metrics c).
Definition set_recompute (x : option Z) (c : conn) : conn :=
  Conn (rank_consistency c) (dev c) (requests_meta c) (invalid_block_ids c)
    (async_dump_req_ids c) (pending_dump_tasks c) (connector_worker_meta c) x
    (connector_metadata c) (metrics c).
Definition set_metadata (x : option UCMConnectorMetadata) (c : conn) : conn :=
  Conn (rank_consistency c) (dev c) (requests_meta c) (invalid_block_ids c)
    (async_dump_req_ids c) (pending_dump_tasks c) (connector_worker_meta c)
    (recompute_tokens c) x (metrics c).
Definition set_metrics (x : list stats) (c : conn) : conn :=
  Conn (rank_consistency c) (dev c) (requests_meta c) (invalid_block_ids c)
    (async_dump_req_ids c) (pending_dump_tasks c) (connector_worker_meta c)
    (recompute_tokens c) (connector_metadata c) x.

(** [_consistency_manager_enabled]; the configured value, if any, wins. *)
Definition _consistency_manager_enabled (configured : option bool) (is_mla : bool) : bool :=
  default (negb is_mla) configured.

(** The state [__init__] leaves; [register_kv_caches] creates the device. *)
Definition init_conn (is_scheduler : bool) (configured : option bool) (is_mla : bool) : conn :=
  Conn (init_manager is_scheduler (_consistency_manager_enabled configured is_mla)) None [] ∅ ∅ []
    (empty_worker_meta is_mla) None None [].

(** What the scheduler operations read of a vLLM [Request]. *)
Record request := Req {
  request_id : string;
  all_token_ids : list Z;
  num_tokens : Z;
  num_prompt_tokens : Z;
}.

(** What they read of a [SchedulerOutput].  The resumed flags come as a list or,
    from newer vLLM versions, as the set of resumed requests. *)
Inductive resumed_flags :=
  | ResumedList (l : list bool)
  | ResumedSet (s : gset string).

Inductive cached_reqs :=
  | CachedList (l : list (string * list Z * bool))
  | CachedData (req_ids : list string) (new_block_ids : list (option (list Z)))
      (resumed : resumed_flags).

Record scheduler_output := SchedOut {
  scheduled_new_reqs : list (string * list Z);
  scheduled_cached_reqs : cached_reqs;
  num_scheduled_tokens : dict string Z;
  finished_req_ids : gset string;
  so_preempted_req_ids : option (gset string);
}.

(** ** The monad of the connector *)

Section direct.
  Context {W : Type} `{StoreOps W} `{DeviceOps W} `{SetOrder} `{PyHash}.
  Variable cf : conf.

Definition on_rc {A} (m : M (manager * W) A) : M (conn * W) A :=
  lift (λ s, (rank_consistency s.1, s.2)) (λ t s, (set_rc t.1 s.1, t.2)) m.

Definition on_w {A} (m : M W A) : M (conn * W) A :=
  lift snd (λ w s, (s.1, w)) m.

Definition updc (f : conn → conn) : M (conn * W) unit := modify (λ s, (f s.1, s.2)).

Definition getc {A} (f : conn → A) : M (conn * W) A := gets (λ s, f s.1).

(** [ucmmetrics.update_stats(sample)] *)
Definition update_stats (sample : stats) : M (conn * W) unit :=
  updc (λ c, set_metrics (metrics c ++ [sample]) c).

Definition _record_counter (name : string) : M (conn * W) unit :=
  update_stats [(name, MCount 1)].

(** ** Matching *)

Definition full_hit_recompute_tokens : Z :=
  if negb (use_layerwise cf) then 1
  else match speculative_tokens cf with
       | None => 2
       | Some spec => Z.max (default 0 spec) 0 + 2
       end.

Definition _get_full_hit_recompute_tokens : M (conn * W) Z :=
  cached ← getc recompute_tokens;
  match cached with
  | Some n => mret n
  | None => let n := full_hit_recompute_tokens in
            updc (set_recompute (Some n)) ;; mret n
  end.

Definition _prefetch_other_rank_hashes (rank0_block_ids : list bytes) : M (conn * W) unit :=
  match other_rank_hashers cf, rank0_block_ids with
  | [], _ | _, [] => mret tt
  | hashers, _ =>
      on_w (st_prefetch (store cf)
        (concat ((λ meta, (λ b, request_hasher meta (IBytes b)) <$> rank0_block_ids) <$> hashers)))
  end.

(** The lookup of [get_num_new_matched_tokens] with its [try]: the number of
    external hit blocks. *)
Definition lookup_external (external_block_ids : list bytes) : M (conn * W) Z :=
  match external_block_ids with
  | [] => mret 0
  | _ =>
      try_except
        (last_hit ← on_rc (lookup_on_prefix (store cf) external_block_ids);
         let external_hit_hashes := last_hit + 1 in
         _prefetch_other_rank_hashes (py_upto external_block_ids external_hit_hashes) ;;
         mret (external_hit_hashes / cp_world_size cf))
        (λ _, _record_counter "connector_lookup_errors_total" ;; mret 0)
  end.

(** The external tokens left after keeping [recompute] tokens to recompute. *)
Definition cap_external_tokens (num_tokens total_hit_tokens external_hit_tokens recompute : Z) : Z :=
  let actual_recompute_tokens := num_tokens - total_hit_tokens in
  if actual_recompute_tokens <? recompute
  then Z.max 0 (external_hit_tokens - (recompute - actual_recompute_tokens))
  else external_hit_tokens.

Definition get_num_new_matched_tokens (r : request) (num_computed_tokens : Z) :
    M (conn * W) (Z * bool) :=
  assert_ (num_computed_tokens mod cf_block_size cf =? 0) ;;
  let hbm_hit_block_num := num_computed_tokens / cf_block_size cf in
  let ucm_block_ids := generate_hash (hash_meta cf) (hash_block_size cf) (all_token_ids r)
                         (hash_seed (hash_meta cf)) in
  if num_tokens r <? persist_token_threshold cf then mret (0, false) else
  let external_block_ids := py_from ucm_block_ids (hbm_hit_block_num * cp_world_size cf) in
  external_hit_blocks ← lookup_external external_block_ids;
  match external_block_ids with
  | [] => mret (0, false)
  | _ =>
      update_stats [("interval_lookup_hit_rates",
        MRatio (external_hit_blocks * cp_world_size cf) (zlen ucm_block_ids))] ;;
      let total_hit_block_num := hbm_hit_block_num + external_hit_blocks in
      recompute_tokens ← _get_full_hit_recompute_tokens;
      let external_hit_tokens :=
        cap_external_tokens (num_tokens r) (total_hit_block_num * cf_block_size cf)
          (external_hit_blocks * cf_block_size cf) recompute_tokens in
      updc (λ c, set_requests_meta (dict_set (request_id r)
        (ReqMeta ucm_block_ids hbm_hit_block_num total_hit_block_num (zlen (all_token_ids r)) []
           (hbm_hit_block_num * cf_block_size cf + external_hit_tokens))
        (requests_meta c)) c) ;;
      mret (external_hit_tokens, false)
  end.

(** ** Planning transfers *)

(** The new request metadata and the dispatch. *)
Definition _generate_dispatch_meta (req_meta : RequestMeta) (new_tokens : Z)
    (vllm_block_ids : list Z) (need_load : bool) : RequestMeta * RequestDispatchMeta :=
  let hbm := rm_hbm_hit_block_num req_meta in
  let total := rm_total_hit_block_num req_meta in
  let ucm_block_ids := rm_ucm_block_ids req_meta in
  let all_vllm := rm_vllm_block_ids req_meta ++ vllm_block_ids in
  let load :=
    if need_load then
      (py_slice ucm_block_ids (hbm * cp_world_size cf) (total * cp_world_size cf),
       py_slice vllm_block_ids hbm total)
    else ([], []) in
  let processed := rm_token_processed req_meta in
  let with_meta p := ReqMeta ucm_block_ids hbm total (rm_num_token_ids req_meta) all_vllm p in
  if processed <? rm_num_token_ids req_meta then
    let start_idx := processed / cf_block_size cf in
    let end_idx := (processed + new_tokens) / cf_block_size cf in
    let dump_ucm := py_slice ucm_block_ids (start_idx * cp_world_size cf) (end_idx * cp_world_size cf) in
    let dump_vllm := py_slice all_vllm start_idx end_idx in
    let dump_vllm :=
      if rm_num_token_ids req_meta <? processed + new_tokens
      then py_upto dump_vllm (zlen dump_ucm) else dump_vllm in
    (with_meta (processed + new_tokens), DispatchMeta load (dump_ucm, dump_vllm))
  else (with_meta processed, DispatchMeta load ([], [])).

(** One request of [build_connector_meta]; [args] computes the vLLM blocks and
    the [need_load] flag, as [None] when the request's lists are too short. *)
Definition dispatch_request (so : scheduler_output) (id : string) (args : res (list Z * bool))
    (disp : dict string RequestDispatchMeta) : M (conn * W) (dict string RequestDispatchMeta) :=
  metas ← getc requests_meta;
  match dict_get id metas with
  | None => mret disp
  | Some req_meta =>
      '(vllm_block_ids, need_load) ← of_res args;
      n ← of_res (dict_index id (num_scheduled_tokens so));
      let '(req_meta', d) := _generate_dispatch_meta req_meta n vllm_block_ids need_load in
      updc (λ c, set_requests_meta (dict_set id req_meta' (requests_meta c)) c) ;;
      mret (dict_set id d disp)
  end.

Definition cached_args (new_block_ids : list (option (list Z))) (resumed : resumed_flags)
    (i : Z) (id : string) : res (list Z * bool) :=
  blocks ← py_index new_block_ids i;
  flag ← match resumed with
         | ResumedList l => py_index l i
         | ResumedSet s => Ok (bool_decide (id ∈ s))
         end;
  Ok (default [] blocks, flag).

Definition dispatch_cached (so : scheduler_output) (disp : dict string RequestDispatchMeta) :
    M (conn * W) (dict string RequestDispatchMeta) :=
  match scheduled_cached_reqs so with
  | CachedData req_ids new_block_ids resumed =>
      for_fold (zip (seqZ 0 (zlen req_ids)) req_ids) disp (λ disp x,
        dispatch_request so x.2 (cached_args new_block_ids resumed x.1 x.2) disp)
  | CachedList l =>
      for_fold l disp (λ disp x, dispatch_request so x.1.1 (Ok (x.1.2, x.2)) disp)
  end.

Definition _track_async_dump_requests (disp : dict string RequestDispatchMeta) :
    M (conn * W) unit :=
  updc (λ c, set_async (async_dump_req_ids c ∪
    list_to_set (filter (λ kv, (dump_block_ids kv.2).1 ≠ []) disp).*1) c).

Definition build_connector_meta (so : scheduler_output) : M (conn * W) UCMConnectorMetadata :=
  disp ← for_fold (scheduled_new_reqs so) [] (λ disp x,
    dispatch_request so x.1 (Ok (x.2, true)) disp);
  disp ← dispatch_cached so disp;
  updc (λ c, set_requests_meta
    (filter (λ kv, kv.1 ∉ finished_req_ids so) (requests_meta c)) c) ;;
  _track_async_dump_requests disp ;;
  mret (ConnMetadata disp (default ∅ (so_preempted_req_ids so))).

(** ** Worker reports and finished requests *)

(** The effect of one failed load on the scheduler's plan. *)
Definition failed_load (meta : worker_meta) (metas : dict string RequestMeta) (req_id : string) :
    dict string RequestMeta :=
  match dict_get req_id metas with
  | Some rm =>
      if decide (req_id ∈ wm_missing_reqs meta) then
        dict_set req_id
          (ReqMeta (rm_ucm_block_ids rm) (rm_hbm_hit_block_num rm) (rm_hbm_hit_block_num rm)
             (rm_num_token_ids rm) (rm_vllm_block_ids rm)
             (rm_hbm_hit_block_num rm * cf_block_size cf)) metas
      else dict_del req_id metas
  | None => dict_del req_id metas
  end.

(** [None] when the output carries no [UCMWorkerMetadata]. Each request is
    handled on its own, so the order of the set does not matter. *)
Definition update_connector_output (connector_output : option worker_meta) : M (conn * W) unit :=
  match connector_output with
  | None => mret tt
  | Some meta =>
      updc (λ c, set_rc (apply_worker_meta meta (rank_consistency c)) c) ;;
      updc (λ c, set_requests_meta
        (foldl (failed_load meta) (requests_meta c) (elements (wm_load_failed_reqs meta))) c)
  end.

Definition request_finished (id : string) : M (conn * W) bool :=
  async ← getc async_dump_req_ids;
  if decide (id ∈ async) then
    updc (λ c, set_async (async_dump_req_ids c ∖ {[id]}) c) ;; mret true
  else mret false.

(** [request_finished_all_groups] passes the first group of blocks on, which
    [request_finished] does not read. *)
Definition request_finished_all_groups (id : string) (block_ids : list (list Z)) :
    M (conn * W) bool := request_finished id.

End direct.
