(* ===== verification/DirectWorker.v ===== *)
(** * The direct connector, worker side

    The operations of [UCMDirectConnector] a worker runs around a forward pass:
    loads are submitted and awaited before it ([start_load_kv]); dumps are
    submitted after it with an event recorded on the compute stream
    ([wait_for_save]) and complete in the background, so the object keeps a list
    of pending dump tasks that it polls, flushes on preemption, and drains when
    a request finishes ([get_finished]). Clock readings are arguments. *)
From S2P Require Import Prelude Runtime RankConsistency PyHash Hashing KVLayout Direct.
Open Scope Z_scope.

Section worker.
  Context {W : Type} `{StoreOps W} `{DeviceOps W} `{SetOrder} `{PyHash}.
  Variable cf : conf.

Notation C := (M (conn * W)).

(** A method call on [self.device], which has no attributes when it is [None]. *)
Definition on_dev {A} (m : M (device * W) A) : C A := λ s,
  match dev s.1 with
  | None => (Raise AttributeError, s)
  | Some d => match m (d, s.2) with (r, t) => (r, (set_dev (Some t.1) s.1, t.2)) end
  end.

(** ** Errors *)

Definition _record_load_error (metric_name : string) (block_ids : list Z) : C unit :=
  old ← getc invalid_block_ids;
  let invalid_blocks := list_to_set block_ids : gset Z in
  updc (λ c, set_invalid (invalid_block_ids c ∪ invalid_blocks) c) ;;
  update_stats [(metric_name, MCount 1); ("connector_load_invalid_requests_total", MCount 1);
    ("connector_load_invalid_blocks_total", MCount (Z.of_nat (size (invalid_blocks ∖ old))))].

Definition mark_failed (req_id : string) : C unit :=
  updc (λ c, set_wm (wm_mark_failed req_id (connector_worker_meta c)) c).

Definition get_block_ids_with_load_errors : C (gset Z) :=
  res ← getc invalid_block_ids;
  updc (set_invalid ∅) ;;
  mret res.

Definition build_connector_worker_meta : C (option worker_meta) :=
  c ← getc id;
  if negb (enabled (rank_consistency c)) &&
     bool_decide (wm_load_failed_reqs (connector_worker_meta c) = ∅)
  then mret None
  else
    let '(meta, m) := update_worker_meta (connector_worker_meta c) (rank_consistency c) in
    updc (λ c, set_wm (empty_worker_meta (wm_is_mla meta)) (set_rc m c)) ;;
    mret (Some meta).

Definition _get_connector_metadata : C UCMConnectorMetadata :=
  m ← getc connector_metadata;
  match m with Some m => mret m | None => raise AssertionError end.

(** ** Addresses *)

(** [addrs.reshape(addrs.shape[0], -1)], refused for an empty array. *)
Definition flatten_rows (a : addrs) : res addr_rows :=
  match a with
  | Addr2 [] | Addr3 [] => Raise (ValueError "cannot reshape array of size 0")
  | Addr2 rows => Ok rows
  | Addr3 mats => Ok ((λ m : list (list Z), concat m) <$> mats)
  end.

Definition block_ptrs (vllm_block_ids : list Z) : res addr_rows :=
  a ← extract_block_addrs (kv_cache_layout cf) vllm_block_ids false; flatten_rows a.

(** Rank-scoped store ids. *)
Definition rank_ids (rank0 : bool) (ids : list bytes) : list bytes :=
  rank_block_ids (hash_meta cf) rank0 ids.

Definition drop_nulls (p : list bytes * list Z) : list bytes * list Z :=
  if skip_null_vllm_blocks cf then _drop_null_vllm_blocks p.1 p.2 else p.

(** ** Loads *)

Record load_acc := LoadAcc {
  la_request_to_task : dict string task;
  la_is_load : bool;
  la_num_loaded_block : Z;
  la_num_loaded_request : Z;
  la_request_to_load_blocks : dict string Z;
}.

(** The vLLM blocks reported as invalid when the load of a request fails. *)
Definition failed_blocks (d : RequestDispatchMeta) : list Z :=
  (load_block_ids d).2 ++ (dump_block_ids d).2.

(** The [try] block around one load submission. *)
Definition submit_request_load (req_id : string) (ucm_block_ids : list bytes)
    (vllm_block_ids : list Z) : C task :=
  total_ptrs ← of_res (block_ptrs vllm_block_ids);
  on_rc (submit_load (store cf) [(req_id, ucm_block_ids)]
    (rank_ids ((tp_rank cf =? 0) || cf_is_mla cf) ucm_block_ids)
    (replicate (length ucm_block_ids) 0) total_ptrs).

(** One iteration of the submission loop of [start_load_kv]. *)
Definition load_step (acc : load_acc) (x : string * RequestDispatchMeta) : C load_acc :=
  let '(req_id, d) := x in
  match (load_block_ids d).1 with
  | [] => mret acc
  | _ :: _ =>
      let '(ucm_block_ids, vllm_block_ids) := drop_nulls (load_block_ids d) in
      match ucm_block_ids with
      | [] => mret (LoadAcc (la_request_to_task acc) true (la_num_loaded_block acc)
                      (la_num_loaded_request acc) (la_request_to_load_blocks acc))
      | _ :: _ =>
          try_except
            (t ← submit_request_load req_id ucm_block_ids vllm_block_ids;
             mret (LoadAcc (dict_set req_id t (la_request_to_task acc)) true
                     (la_num_loaded_block acc + zlen ucm_block_ids)
                     (la_num_loaded_request acc + 1)
                     (dict_set req_id (zlen ucm_block_ids) (la_request_to_load_blocks acc))))
            (λ _,
             _record_load_error "connector_load_submit_errors_total" (failed_blocks d) ;;
             mark_failed req_id ;;
             mret (LoadAcc (la_request_to_task acc) true (la_num_loaded_block acc)
                     (la_num_loaded_request acc + 1) (la_request_to_load_blocks acc)))
      end
  end.

(** One iteration of the wait loop; returns [num_loaded_block]. *)
Definition wait_load_step (meta : UCMConnectorMetadata) (loaded : dict string Z) (n : Z)
    (x : string * task) : C Z :=
  try_except
    (on_rc (wait_load x.2) ;; mret n)
    (λ _,
     d ← of_res (dict_index x.1 (request_meta meta));
     _record_load_error "connector_load_wait_errors_total" (failed_blocks d) ;;
     mark_failed x.1 ;;
     mret (n - dict_get_default x.1 0 loaded)).

Definition start_load_kv (load_start_time load_end_time : Z) : C unit :=
  metadata ← _get_connector_metadata;
  acc ← for_fold (request_meta metadata) (LoadAcc [] false 0 0 []) load_step;
  num_loaded_block ← for_fold (la_request_to_task acc) (la_num_loaded_block acc)
    (wait_load_step metadata (la_request_to_load_blocks acc));
  let load_duration_ms := load_end_time - load_start_time in
  let load_bytes := num_loaded_block * block_data_size cf in
  (if load_duration_ms =? 0 then raise ZeroDivisionError else mret tt) ;;
  (if la_is_load acc then
     update_stats [("load_requests_num", MCount (la_num_loaded_request acc));
       ("load_blocks_num", MCount num_loaded_block);
       ("load_duration", MTime); ("load_speed", MTime);
       ("load_bytes_total", MCount load_bytes)]
   else mret tt).

(** ** Pending dumps *)

Definition _get_dump_event_handle : C Z :=
  if negb (enable_event_sync cf) then on_dev synchronize ;; mret 0
  else
    event_handle ← on_dev get_event_handle;
    (if event_handle =? 0 then on_dev synchronize else mret tt) ;;
    mret event_handle.

(** [destroy_event_handle] under the condition of its callers. The field of the
    task object that it resets is not read again: a released task is dropped. *)
Definition release_event (event_handle : Z) : C unit :=
  d ← getc dev;
  if enable_event_sync cf && negb (event_handle =? 0) && bool_decide (is_Some d)
  then on_dev (destroy_event_handle event_handle) else mret tt.

Definition _wait_pending_dump_task (p : PendingDumpTask) : C unit :=
  try_finally
    (on_rc (wait_dump (pd_task p)) ;;
     update_stats
       ((if 0 <? pd_wait_for_save_start_ms p then [("save_duration", MTime)] else []) ++
        [("save_completion_wait_duration", MTime)]))
    (release_event (pd_event_handle p)).

(** A wait whose failure is logged only. *)
Definition wait_logged (p : PendingDumpTask) : C unit :=
  try_except (_wait_pending_dump_task p) (λ _, mret tt).

(** One iteration of [_poll_pending_dump_tasks]; returns the remaining tasks. *)
Definition poll_step (remaining : list PendingDumpTask) (p : PendingDumpTask) :
    C (list PendingDumpTask) :=
  done ← try_except (on_w (st_check (store cf) (pd_task p))) (λ _, mret false);
  if negb done then mret (remaining ++ [p])
  else wait_logged p ;; mret remaining.

Definition _poll_pending_dump_tasks : C unit :=
  tasks ← getc pending_dump_tasks;
  remaining ← for_fold tasks [] poll_step;
  updc (set_pending remaining).

(** Waits for the tasks that name a request of [ids]; returns the others. *)
Definition drain_step (ids : gset string) (remaining : list PendingDumpTask)
    (p : PendingDumpTask) : C (list PendingDumpTask) :=
  if decide (pd_request_ids p ∩ ids = ∅) then mret (remaining ++ [p])
  else wait_logged p ;; mret remaining.

(** [_flush_pending_dump_tasks] with [None] waits for every task. *)
Definition _flush_pending_dump_tasks (ids : option (gset string)) : C unit :=
  tasks ← getc pending_dump_tasks;
  updc (set_pending []) ;;
  remaining ← for_fold tasks [] (λ remaining p,
    match ids with
    | Some ids => drain_step ids remaining p
    | None => wait_logged p ;; mret remaining
    end);
  updc (set_pending remaining).

Definition handle_preemptions (preempted : option (gset string)) : C unit :=
  match preempted with
  | Some ids => if decide (ids = ∅) then mret tt else _flush_pending_dump_tasks (Some ids)
  | None => mret tt
  end.

(** ** Dumps *)

Record save_acc := SaveAcc {
  sa_is_save : bool;
  sa_num_saved_block : Z;
  sa_num_saved_request : Z;
  sa_ucm_block_ids : list bytes;
  sa_vllm_block_ids : list Z;
  sa_request_ids : gset string;
  sa_by_request : dict string (gset bytes);
}.

(** One iteration of the collection loop of [wait_for_save]. *)
Definition save_step (acc : save_acc) (x : string * RequestDispatchMeta) : save_acc :=
  let '(req_id, d) := x in
  match (dump_block_ids d).1 with
  | [] => acc
  | _ :: _ =>
      let '(ucm_block_ids, vllm_block_ids) := drop_nulls (dump_block_ids d) in
      match ucm_block_ids with
      | [] => acc
      | _ :: _ =>
          SaveAcc true (sa_num_saved_block acc + zlen ucm_block_ids)
            (sa_num_saved_request acc + 1)
            (sa_ucm_block_ids acc ++ rank_ids (tp_rank cf =? 0) ucm_block_ids)
            (sa_vllm_block_ids acc ++ vllm_block_ids)
            ({[req_id]} ∪ sa_request_ids acc)
            (dict_set req_id (list_to_set ucm_block_ids) (sa_by_request acc))
      end
  end.

Definition collect_saves (reqs : dict string RequestDispatchMeta) : save_acc :=
  foldl save_step (SaveAcc false 0 0 [] [] ∅ []) reqs.

(** The requests with blocks to dump. *)
Definition dump_request_ids (m : UCMConnectorMetadata) : gset string :=
  list_to_set (filter (λ kv, (dump_block_ids kv.2).1 ≠ []) (request_meta m)).*1.

(** The [try] block of [wait_for_save]: [Some (task, event_handle)], or [None]
    after a failure; the event, obtained before the submission, is destroyed
    when the submission fails. *)
Definition submit_save (acc : save_acc) : C (option (task * Z)) :=
  prepared ← try_except
    (total_ptrs ← of_res (block_ptrs (sa_vllm_block_ids acc));
     event_handle ← _get_dump_event_handle;
     mret (Some (total_ptrs, event_handle)))
    (λ _, mret None);
  match prepared with
  | None => mret None
  | Some (total_ptrs, event_handle) =>
      try_except
        (t ← on_rc (submit_dump (store cf) (sa_by_request acc) (sa_ucm_block_ids acc)
                      (replicate (length (sa_ucm_block_ids acc)) 0) total_ptrs event_handle);
         mret (Some (t, event_handle)))
        (λ _, release_event event_handle ;; mret None)
  end.

Definition wait_for_save (wait_for_save_start_ms : Z) : C unit :=
  _poll_pending_dump_tasks ;;
  metadata ← _get_connector_metadata;
  updc (λ c, set_async (async_dump_req_ids c ∪ dump_request_ids metadata) c) ;;
  if cf_is_mla cf && negb (tp_rank cf =? 0) then mret tt else
  let acc := collect_saves (request_meta metadata) in
  if negb (sa_is_save acc) then mret tt else
  submitted ← submit_save acc;
  match submitted with
  | None => mret tt
  | Some (t, event_handle) =>
      update_stats [("save_requests_num", MCount (sa_num_saved_request acc));
        ("save_blocks_num", MCount (sa_num_saved_block acc));
        ("save_bytes_total", MCount (sa_num_saved_block acc * block_data_size cf))] ;;
      updc (λ c, set_pending (pending_dump_tasks c ++
        [PendingDump t (sa_request_ids acc) event_handle wait_for_save_start_ms]) c)
  end.

(** The part of [get_finished] that waits for the tasks of finished requests. *)
Definition drain_finished (async_finished_req_ids : gset string) : C unit :=
  if decide (async_finished_req_ids = ∅) then mret tt
  else
    tasks ← getc pending_dump_tasks;
    remaining ← for_fold tasks [] (drain_step async_finished_req_ids);
    updc (set_pending remaining).

(** [get_finished]: the requests whose dumps are now settled. *)
Definition get_finished (finished_req_ids : gset string) : C (option (gset string)) :=
  async ← getc async_dump_req_ids;
  let async_finished_req_ids := finished_req_ids ∩ async in
  drain_finished async_finished_req_ids ;;
  on_rc (finish_dump async_finished_req_ids) ;;
  updc (λ c, set_async (async_dump_req_ids c ∖ async_finished_req_ids) c) ;;
  mret (if decide (async_finished_req_ids = ∅) then None else Some async_finished_req_ids).

(** vLLM's [bind_connector_metadata] and [clear_connector_metadata]. *)
Definition bind_connector_metadata (m : UCMConnectorMetadata) : C unit :=
  updc (set_metadata (Some m)).
Definition clear_connector_metadata : C unit := updc (set_metadata None).

End worker.
