(* ===== verification/Hla.v ===== *)
(** * The hybrid linear-attention connector

    [UCMHybridLinearAttentionConnector] of [hla_connector.py]: matching over all
    the groups, the plan of a step as one flat list of pairs over all the
    groups, and dumps that complete before the step ends.  It inherits the loads
    and the reports of the direct connector. *)
From S2P Require Import Prelude Runtime RankConsistency PyHash Hashing KVLayout Direct DirectWorker.
From S2P Require Import HlaLayout HlaGroups.
Open Scope Z_scope.

(** [RequestMeta] extended with the blocks of each group; [hr_meta] holds the
    identifiers of the primary full-attention group, and counts LCM blocks. *)
Record HLARequestMeta := HlaReq {
  hr_meta : RequestMeta;
  group_ucm_block_ids : list (list bytes);
  group_vllm_block_ids : list (list Z);
}.

Definition set_group_blocks (v : list (list Z)) (rm : HLARequestMeta) : HLARequestMeta :=
  HlaReq (hr_meta rm) (group_ucm_block_ids rm) v.

Definition add_processed (n : Z) (rm : HLARequestMeta) : HLARequestMeta :=
  let r := hr_meta rm in
  HlaReq (ReqMeta (rm_ucm_block_ids r) (rm_hbm_hit_block_num r) (rm_total_hit_block_num r)
            (rm_num_token_ids r) (rm_vllm_block_ids r) (rm_token_processed r + n))
    (group_ucm_block_ids rm) (group_vllm_block_ids rm).

Record hla := Hla {
  hbase : conn;
  h_requests_meta : dict string HLARequestMeta;
}.

(** What [build_connector_meta] reads of a [SchedulerOutput]: blocks by group. *)
Inductive h_cached_reqs :=
  | HCachedList (l : list (string * list (list Z) * bool))
  | HCachedData (req_ids : list string) (new_block_ids : list (option (list (list Z))))
      (resumed : resumed_flags).

Record h_scheduler_output := HSchedOut {
  hso_new_reqs : list (string * list (list Z));
  hso_cached_reqs : h_cached_reqs;
  hso_num_scheduled_tokens : dict string Z;
  hso_finished_req_ids : gset string;
  hso_preempted_req_ids : option (gset string);
}.

(** Pairs of UCM and vLLM block ids, one list over all the groups. *)
Abbreviation id_pairs := ((list bytes * list Z)%type).

(** [extend_non_null] *)
Definition extend_non_null (dst src : id_pairs) : id_pairs :=
  let kept := filter (λ p, p.2 ≠ 0) (zip src.1 src.2) in
  (dst.1 ++ kept.*1, dst.2 ++ kept.*2).

(** ** Planning *)

Section plan.
  Context `{PyHash}.
  Variable m : group_manager.
Let lcm : Z := lcm_block_size m.

Notation R := (M HLARequestMeta).

(** The update of the block table of one group. *)
Definition merge_blocks (existing incoming : list Z) (full : bool) : list Z :=
  if full then incoming
  else match existing, incoming with
       | [], _ => incoming
       | _, [] => existing
       | _, _ => if decide (py_from existing (- zlen incoming) = incoming) then existing
                 else existing ++ incoming
       end.

Definition merge_group_blocks (new_blocks : list (list Z)) (full : bool) (gid : Z) : R unit :=
  incoming ← of_res (py_index new_blocks gid);
  tables ← gets group_vllm_block_ids;
  existing ← of_res (py_index tables gid);
  tables' ← of_res (py_alter (λ _, merge_blocks existing incoming full) tables gid);
  modify (set_group_blocks tables').

(** The running state block: the last non-null block. *)
Fixpoint last_non_null (i : nat) (block_ids : list Z) : option nat :=
  match i with
  | O => None
  | S i => match block_ids !! i with
           | Some b => if b =? 0 then last_non_null i block_ids else Some i
           | None => last_non_null i block_ids
           end
  end.

(** [append_mamba_align_state_block]; [load] is the reason. *)
Definition append_state_block (rm : HLARequestMeta) (dst : id_pairs) (p : Z * GroupInfo)
    (seq_len : Z) (load : bool) : res id_pairs :=
  let '(gid, group) := p in
  let state_idx := Z.max ((seq_len - 1) / gi_block_size group) 0 in
  block_ids ← py_index (group_vllm_block_ids rm) gid;
  let vllm_state_idx :=
    if load then from_option Z.of_nat state_idx (last_non_null (length block_ids) block_ids)
    else state_idx in
  match py_index block_ids vllm_state_idx with
  | Raise _ => Ok dst
  | Ok vllm_block_id =>
      if vllm_block_id =? 0 then Ok dst
      else
        ucm_block_id ← compute_mamba_align_state_hash m group seq_len (group_ucm_block_ids rm);
        Ok (match ucm_block_id with
            | None => dst
            | Some ucm_block_id => (dst.1 ++ [ucm_block_id], dst.2 ++ [vllm_block_id])
            end)
  end.

(** The blocks of a full-attention group between two token positions. *)
Definition append_attn_blocks (rm : HLARequestMeta) (dst : id_pairs) (p : Z * GroupInfo)
    (tok_start tok_end : Z) : res id_pairs :=
  let '(gid, group) := p in
  let start_blk := tok_start / gi_block_size group in
  let end_blk := tok_end / gi_block_size group in
  if end_blk <=? start_blk then Ok dst
  else
    ucm ← py_index (group_ucm_block_ids rm) gid;
    vllm ← py_index (group_vllm_block_ids rm) gid;
    Ok (extend_non_null dst (py_slice ucm start_blk end_blk, py_slice vllm start_blk end_blk)).

Definition load_group (rm : HLARequestMeta) (dst : id_pairs) (p : Z * GroupInfo) : res id_pairs :=
  let total_hit_tokens := rm_total_hit_block_num (hr_meta rm) * lcm in
  if gi_is_mamba_align p.2 then append_state_block rm dst p total_hit_tokens true
  else append_attn_blocks rm dst p (rm_hbm_hit_block_num (hr_meta rm) * lcm) total_hit_tokens.

(** A state is dumped only when the chunk ends at a boundary it passed. *)
Definition dump_group (rm : HLARequestMeta) (dump_tok_end : Z) (dst : id_pairs) (p : Z * GroupInfo) :
    res id_pairs :=
  let dump_tok_start := rm_token_processed (hr_meta rm) in
  let first_lcm_b := (dump_tok_start / lcm + 1) * lcm in
  let last_lcm_b := dump_tok_end / lcm * lcm in
  if is_full_attention p.2 then append_attn_blocks rm dst p dump_tok_start dump_tok_end
  else if negb (dump_tok_end =? last_lcm_b) || (last_lcm_b <? first_lcm_b) then Ok dst
  else append_state_block rm dst p last_lcm_b false.

Definition indexed_groups : list (Z * GroupInfo) :=
  zip (seqZ 0 (num_groups m)) (groups_by_id m).

Definition _generate_hla_dispatch_meta (new_tokens : Z) (new_blocks : list (list Z))
    (need_load full : bool) : R RequestDispatchMeta :=
  assert_ (zlen new_blocks =? num_groups m) ;;
  for_each (seqZ 0 (num_groups m)) (merge_group_blocks new_blocks full) ;;
  rm ← get;
  let r := hr_meta rm in
  load ← (if need_load && (0 <? rm_total_hit_block_num r - rm_hbm_hit_block_num r)
          then of_res (fold_res (load_group rm) ([], []) indexed_groups)
          else mret ([], []));
  dump ← (if rm_token_processed r <? rm_num_token_ids r then
            let dump_tok_end := Z.min (rm_token_processed r + new_tokens) (rm_num_token_ids r) in
            dump ← of_res (fold_res (dump_group rm dump_tok_end) ([], []) indexed_groups);
            modify (add_processed new_tokens) ;;
            mret dump
          else mret ([], []));
  mret (DispatchMeta load dump).

End plan.

(** ** The connector *)

Section hla.
  Context {W : Type} `{StoreOps W} `{DeviceOps W} `{SetOrder} `{PyHash}.
  Variable cf : conf.

Notation HM := (M (hla * W)).

Definition on_hbase {A} (x : M (conn * W) A) : HM A :=
  lift (λ s, (hbase s.1, s.2)) (λ t s, (Hla t.1 (h_requests_meta s.1), t.2)) x.

Definition updh (f : hla → hla) : HM unit := modify (λ s, (f s.1, s.2)).
Definition geth {A} (f : hla → A) : HM A := gets (λ s, f s.1).
Definition set_h_requests x (c : hla) : hla := Hla (hbase c) x.

(** Mutation of the metadata of one request, kept when it raises. *)
Definition on_hreq {A} (req_id : string) (rm : HLARequestMeta) (x : M HLARequestMeta A) : HM A := λ s,
  match x rm with
  | (r, rm') => (r, (set_h_requests (dict_set req_id rm' (h_requests_meta s.1)) s.1, s.2))
  end.

Section scheduler.
  Variable m : group_manager.
Let lcm : Z := lcm_block_size m.

(** The identifiers looked up: those of the first [max_hit] LCM blocks. *)
Definition lookup_ids (num_tokens recompute_tokens : Z) (ids : list (list bytes)) : list (list bytes) :=
  let max_hit_lcm_blocks := Z.max 0 ((num_tokens - recompute_tokens) / lcm) in
  if max_hit_lcm_blocks <? num_tokens / lcm
  then zip_with (λ g l, py_upto l (max_hit_lcm_blocks * (lcm / gi_block_size g))) (groups_by_id m) ids
  else ids.

(** The heat updates of the hit blocks: the local ones, the states, and the
    blocks of the other ranks. *)
Definition prefetch_hits (primary_block_ids mamba_prefetch_hashes : list bytes)
    (num_local num_hit : Z) : M (conn * W) unit :=
  let prefetch ids := match ids with [] => mret tt | _ => on_w (st_prefetch (store cf) ids) end in
  prefetch (py_slice primary_block_ids 0 num_local) ;;
  prefetch mamba_prefetch_hashes ;;
  _prefetch_other_rank_hashes cf (py_slice primary_block_ids 0 num_hit ++ mamba_prefetch_hashes).

Definition hla_lookup (num_computed_tokens : Z) (ids : list (list bytes)) :
    M (conn * W) (Z * Z * list bytes) :=
  lookup_external_hit_tokens
    (λ block_ids, on_rc (lookup_on_prefix (store cf) block_ids))
    (λ block_ids, on_rc (lookup_all (store cf) block_ids))
    (_record_counter "connector_lookup_errors_total") m num_computed_tokens ids.

Definition get_num_new_matched_tokens (r : request) (num_computed_tokens : Z) : HM (Z * bool) :=
  assert_ (num_computed_tokens mod lcm =? 0) ;;
  let hbm_hit_block_num := num_computed_tokens / lcm in
  if num_tokens r <? persist_token_threshold cf then mret (0, false) else
  let group_ids := compute_all_group_block_ids m (all_token_ids r) in
  primary ← of_res (py_index (full_attn_groups m) 0);
  primary_block_ids ← of_res (py_index group_ids (gi_group_id primary));
  recompute_tokens ← on_hbase (_get_full_hit_recompute_tokens cf);
  '(external_hit_tokens, external_hit_lcm_blocks, mamba_prefetch_hashes) ←
    on_hbase (hla_lookup num_computed_tokens (lookup_ids (num_tokens r) recompute_tokens group_ids));
  let total_hit_block_num := hbm_hit_block_num + external_hit_lcm_blocks in
  let total_hit_tokens := total_hit_block_num * lcm in
  on_hbase (prefetch_hits primary_block_ids mamba_prefetch_hashes
    (num_computed_tokens / gi_block_size primary) (total_hit_tokens / gi_block_size primary)) ;;
  (match primary_block_ids with
   | [] => mret tt
   | _ => on_hbase (update_stats [("interval_lookup_hit_rates",
            MRatio (external_hit_lcm_blocks * lcm) (zlen primary_block_ids * gi_block_size primary))])
   end) ;;
  updh (λ c, set_h_requests (dict_set (request_id r)
    (HlaReq (ReqMeta primary_block_ids hbm_hit_block_num total_hit_block_num (zlen (all_token_ids r))
               [] total_hit_tokens)
       group_ids (replicate (Z.to_nat (num_groups m)) []))
    (h_requests_meta c)) c) ;;
  mret (external_hit_tokens, false).

Definition update_state_after_alloc (req_id : string) (block_ids : list (list Z)) : HM unit :=
  metas ← geth h_requests_meta;
  match dict_get req_id metas with
  | None => mret tt
  | Some rm =>
      assert_ (zlen block_ids =? num_groups m) ;;
      updh (λ c, set_h_requests (dict_set req_id (set_group_blocks block_ids rm) (h_requests_meta c)) c)
  end.

(** One scheduled request; [args] gives its new blocks, whether to load and
    whether the blocks are the full table. *)
Definition h_dispatch_request (so : h_scheduler_output) (req_id : string)
    (args : res (list (list Z) * bool * bool)) (disp : dict string RequestDispatchMeta) :
    HM (dict string RequestDispatchMeta) :=
  metas ← geth h_requests_meta;
  match dict_get req_id metas with
  | None => mret disp
  | Some rm =>
      '(blocks, need_load, full) ← of_res args;
      n ← of_res (dict_index req_id (hso_num_scheduled_tokens so));
      d ← on_hreq req_id rm (_generate_hla_dispatch_meta m n blocks need_load full);
      mret (dict_set req_id d disp)
  end.

Definition h_cached_args (new_block_ids : list (option (list (list Z)))) (resumed : resumed_flags)
    (i : Z) (req_id : string) : res (list (list Z) * bool * bool) :=
  blocks ← py_index new_block_ids i;
  flag ← match resumed with
         | ResumedList l => py_index l i
         | ResumedSet s => Ok (bool_decide (req_id ∈ s))
         end;
  Ok (default (replicate (Z.to_nat (num_groups m)) []) blocks, flag, flag).

Definition h_dispatch_cached (so : h_scheduler_output) (disp : dict string RequestDispatchMeta) :
    HM (dict string RequestDispatchMeta) :=
  match hso_cached_reqs so with
  | HCachedData req_ids new_block_ids resumed =>
      for_fold (zip (seqZ 0 (zlen req_ids)) req_ids) disp (λ disp x,
        h_dispatch_request so x.2 (h_cached_args new_block_ids resumed x.1 x.2) disp)
  | HCachedList l =>
      for_fold l disp (λ disp x, h_dispatch_request so x.1.1 (Ok (x.1.2, x.2, x.2)) disp)
  end.

Definition build_connector_meta (so : h_scheduler_output) : HM UCMConnectorMetadata :=
  disp ← for_fold (hso_new_reqs so) [] (λ disp x,
    h_dispatch_request so x.1 (Ok (x.2, true, true)) disp);
  disp ← h_dispatch_cached so disp;
  updh (λ c, set_h_requests
    (filter (λ kv, kv.1 ∉ hso_finished_req_ids so) (h_requests_meta c)) c) ;;
  mret (ConnMetadata disp (default ∅ (hso_preempted_req_ids so))).

(** The inherited [update_connector_output] on the metadata of this connector. *)
Definition h_failed_load (meta : worker_meta) (metas : dict string HLARequestMeta) (req_id : string) :
    dict string HLARequestMeta :=
  match dict_get req_id metas with
  | Some rm =>
      if decide (req_id ∈ wm_missing_reqs meta) then
        let r := hr_meta rm in
        dict_set req_id
          (HlaReq (ReqMeta (rm_ucm_block_ids r) (rm_hbm_hit_block_num r) (rm_hbm_hit_block_num r)
                     (rm_num_token_ids r) (rm_vllm_block_ids r) (rm_hbm_hit_block_num r * lcm))
             (group_ucm_block_ids rm) (group_vllm_block_ids rm)) metas
      else dict_del req_id metas
  | None => dict_del req_id metas
  end.

Definition update_connector_output (connector_output : option worker_meta) : HM unit :=
  match connector_output with
  | None => mret tt
  | Some meta =>
      on_hbase (updc (λ c, set_rc (apply_worker_meta meta (rank_consistency c)) c)) ;;
      updh (λ c, set_h_requests
        (foldl (h_failed_load meta) (h_requests_meta c) (elements (wm_load_failed_reqs meta))) c)
  end.

End scheduler.

Definition request_finished_all_groups (req_id : string) (block_ids : list (list Z)) : HM bool :=
  mret false.

(** ** Dumps *)

Definition hla_rank0 : bool := tp_rank cf mod tp_size cf =? 0.

Definition _rank_scoped_ucm_block_ids (ids : list bytes) : list bytes :=
  rank_ids cf (hla_rank0 || cf_is_mla cf) ids.

(** One request of the collection loop of [wait_for_save]. *)
Definition h_save_step (acc : save_acc) (x : string * RequestDispatchMeta) : save_acc :=
  let '(req_id, d) := x in
  match (dump_block_ids d).1 with
  | [] => acc
  | _ :: _ =>
      let '(ucm_block_ids, vllm_block_ids) := drop_nulls cf (dump_block_ids d) in
      match ucm_block_ids with
      | [] => acc
      | _ :: _ =>
          SaveAcc true (sa_num_saved_block acc + zlen ucm_block_ids)
            (sa_num_saved_request acc + 1)
            (sa_ucm_block_ids acc ++ _rank_scoped_ucm_block_ids ucm_block_ids)
            (sa_vllm_block_ids acc ++ vllm_block_ids)
            ({[req_id]} ∪ sa_request_ids acc)
            (dict_set req_id (list_to_set ucm_block_ids) (sa_by_request acc))
      end
  end.

Definition h_collect_saves (reqs : dict string RequestDispatchMeta) : save_acc :=
  foldl h_save_step (SaveAcc false 0 0 [] [] ∅ []) reqs.

(** The submission, [extract_block_addrs] being the one of the hybrid layout;
    its failure destroys an event that was created. *)
Definition h_submit_save (L : hla_layout) (acc : save_acc) : M (conn * W) (option (task * Z)) :=
  prepared ← try_except
    (total_ptrs ← of_res (rows ← hla_extract_block_addrs L (sa_vllm_block_ids acc) false;
                          flatten_rows (Addr2 rows));
     event_handle ← _get_dump_event_handle cf;
     mret (Some (total_ptrs, event_handle)))
    (λ _, mret None);
  match prepared with
  | None => mret None
  | Some (total_ptrs, event_handle) =>
      try_except
        (t ← on_rc (submit_dump (store cf) (sa_by_request acc) (sa_ucm_block_ids acc)
                      (replicate (length (sa_ucm_block_ids acc)) 0) total_ptrs event_handle);
         mret (Some (t, event_handle)))
        (λ _, release_event cf event_handle ;; mret None)
  end.

(** The requests whose dumps are settled at the end of the step. *)
Definition h_finish (acc : save_acc) : M (conn * W) unit :=
  on_rc (finish_dump (list_to_set (sa_by_request acc).*1)).

(** The wait, with the event destroyed in any case; [false] after a failure. *)
Definition h_wait_save (acc : save_acc) (t : task) (event_handle : Z) : M (conn * W) bool :=
  try_finally
    (ok ← try_except (on_rc (wait_dump t) ;; mret true) (λ _, mret false);
     (if (ok : bool) then mret tt else h_finish acc) ;;
     mret ok)
    (release_event cf event_handle).

Definition h_wait_for_save (L : hla_layout) : M (conn * W) unit :=
  if cf_is_mla cf && negb hla_rank0 then mret tt else
  metadata ← _get_connector_metadata;
  let acc := h_collect_saves (request_meta metadata) in
  match sa_ucm_block_ids acc with
  | [] => mret tt
  | _ =>
      submitted ← h_submit_save L acc;
      match submitted with
      | None => h_finish acc
      | Some (t, event_handle) =>
          ok ← h_wait_save acc t event_handle;
          if negb ok then mret tt else
          h_finish acc ;;
          update_stats [("save_requests_num", MCount (sa_num_saved_request acc));
            ("save_blocks_num", MCount (sa_num_saved_block acc));
            ("save_duration", MTime); ("save_speed", MTime);
            ("save_bytes_total", MCount (sa_num_saved_block acc * block_data_size cf))]
      end
  end.

End hla.
