(* ===== verification/HlaLayerWise.v ===== *)
(** * The layerwise hybrid linear-attention connector

    [UCMHybridLinearAttentionLayerWiseConnector] of [hla_connector.py].  The
    unit of transfer is a row of the hybrid layout, shared by several layers.
    vLLM announces only the full-attention layer that ends a row, so the rows
    are loaded ahead: row 0 before the pass, row [r + 1] at the end of row [r];
    further rows are submitted in advance.  A row is dumped after its last
    layer, and all dumps are awaited at the end of the step. *)
From S2P Require Import Prelude Runtime RankConsistency PyHash Hashing KVLayout Direct DirectWorker.
From S2P Require Import HlaLayout HlaGroups Hla.
Open Scope Z_scope.

(** The attributes fixed by [__init__] and [register_kv_caches]. *)
Record hlw_conf := HlwConf {
  hw_cf : conf;
  hw_layout : hla_layout;
  hw_row_save_layer : dict Z string;
  load_prefetch_rows : Z;
  hw_is_mtp : bool;
}.

(** [max(1, int(config))], 2 when the value does not convert. *)
Definition prefetch_rows (configured : option Z) : Z :=
  match configured with Some n => Z.max 1 n | None => 2 end.

(** [register_kv_caches] with the prefetch depth and the draft method. *)
Definition register_hlw (cf : conf) (L : hla_layout) (configured : option Z) (is_mtp : bool) : hlw_conf :=
  HlwConf cf L (row_save_layer (layer_name_to_id (hl_base L)) (default 0 (head (merge_sort Z.le
      (remove_dups (layer_name_to_id (hl_base L)).*2)))) (layer_name_to_row L))
    (prefetch_rows configured) is_mtp.

(** One entry of [request_data]: the request, its identifiers, those of the
    store, and its vLLM blocks. *)
Record row_entry := RowEntry {
  re_request_id : string;
  re_ucm_block_ids : list bytes;
  re_store_block_ids : list bytes;
  re_vllm_block_ids : list Z;
}.

(** [_dump_transfer_data] *)
Record dump_data := DumpData {
  dd_ucm_block_ids : list bytes;
  dd_vllm_block_ids : list Z;
  dd_request_ids : gset string;
  dd_by_request : dict string (gset bytes);
}.

Record hlw := Hlw {
  hw_base : conn;
  hw_load_tasks : dict Z (dict string task);
  hw_dump_tasks : dict Z (list PendingDumpTask);
  hw_request_data : list row_entry;
  hw_failure_req_ids : gset string;
  submitted_load_rows : gset Z;
  dump_transfer_data : option dump_data;
  hw_is_save : bool;
  hw_need_load : bool;
  deferred_mtp_row_dumps : dict Z (list bytes * list Z * gset string);
  hw_prev_wait_end : option Z;
  hw_batch_start : option Z;
}.

Definition init_hlw (c : conn) : hlw := Hlw c [] [] [] ∅ ∅ None false false [] None None.

Definition set_hw_load x c := Hlw (hw_base c) x (hw_dump_tasks c) (hw_request_data c)
  (hw_failure_req_ids c) (submitted_load_rows c) (dump_transfer_data c) (hw_is_save c)
  (hw_need_load c) (deferred_mtp_row_dumps c) (hw_prev_wait_end c) (hw_batch_start c).
Definition set_hw_dumps x c := Hlw (hw_base c) (hw_load_tasks c) x (hw_request_data c)
  (hw_failure_req_ids c) (submitted_load_rows c) (dump_transfer_data c) (hw_is_save c)
  (hw_need_load c) (deferred_mtp_row_dumps c) (hw_prev_wait_end c) (hw_batch_start c).
Definition set_hw_requests x c := Hlw (hw_base c) (hw_load_tasks c) (hw_dump_tasks c) x
  (hw_failure_req_ids c) (submitted_load_rows c) (dump_transfer_data c) (hw_is_save c)
  (hw_need_load c) (deferred_mtp_row_dumps c) (hw_prev_wait_end c) (hw_batch_start c).
Definition set_hw_failure x c := Hlw (hw_base c) (hw_load_tasks c) (hw_dump_tasks c)
  (hw_request_data c) x (submitted_load_rows c) (dump_transfer_data c) (hw_is_save c)
  (hw_need_load c) (deferred_mtp_row_dumps c) (hw_prev_wait_end c) (hw_batch_start c).
Definition set_hw_submitted x c := Hlw (hw_base c) (hw_load_tasks c) (hw_dump_tasks c)
  (hw_request_data c) (hw_failure_req_ids c) x (dump_transfer_data c) (hw_is_save c)
  (hw_need_load c) (deferred_mtp_row_dumps c) (hw_prev_wait_end c) (hw_batch_start c).
Definition set_hw_data x c := Hlw (hw_base c) (hw_load_tasks c) (hw_dump_tasks c)
  (hw_request_data c) (hw_failure_req_ids c) (submitted_load_rows c) x (hw_is_save c)
  (hw_need_load c) (deferred_mtp_row_dumps c) (hw_prev_wait_end c) (hw_batch_start c).
Definition set_hw_is_save x c := Hlw (hw_base c) (hw_load_tasks c) (hw_dump_tasks c)
  (hw_request_data c) (hw_failure_req_ids c) (submitted_load_rows c) (dump_transfer_data c) x
  (hw_need_load c) (deferred_mtp_row_dumps c) (hw_prev_wait_end c) (hw_batch_start c).
Definition set_hw_need x c := Hlw (hw_base c) (hw_load_tasks c) (hw_dump_tasks c)
  (hw_request_data c) (hw_failure_req_ids c) (submitted_load_rows c) (dump_transfer_data c)
  (hw_is_save c) x (deferred_mtp_row_dumps c) (hw_prev_wait_end c) (hw_batch_start c).
Definition set_hw_deferred x c := Hlw (hw_base c) (hw_load_tasks c) (hw_dump_tasks c)
  (hw_request_data c) (hw_failure_req_ids c) (submitted_load_rows c) (dump_transfer_data c)
  (hw_is_save c) (hw_need_load c) x (hw_prev_wait_end c) (hw_batch_start c).
Definition set_hw_prev x c := Hlw (hw_base c) (hw_load_tasks c) (hw_dump_tasks c)
  (hw_request_data c) (hw_failure_req_ids c) (submitted_load_rows c) (dump_transfer_data c)
  (hw_is_save c) (hw_need_load c) (deferred_mtp_row_dumps c) x (hw_batch_start c).
Definition set_hw_batch x c := Hlw (hw_base c) (hw_load_tasks c) (hw_dump_tasks c)
  (hw_request_data c) (hw_failure_req_ids c) (submitted_load_rows c) (dump_transfer_data c)
  (hw_is_save c) (hw_need_load c) (deferred_mtp_row_dumps c) (hw_prev_wait_end c) x.
Definition set_hw_base x c := Hlw x (hw_load_tasks c) (hw_dump_tasks c)
  (hw_request_data c) (hw_failure_req_ids c) (submitted_load_rows c) (dump_transfer_data c)
  (hw_is_save c) (hw_need_load c) (deferred_mtp_row_dumps c) (hw_prev_wait_end c) (hw_batch_start c).

(** [needle in s] *)
Fixpoint str_contains (needle s : string) : bool :=
  String.prefix needle s ||
  match s with EmptyString => false | String _ s => str_contains needle s end.

Section hlw.
  Context {W : Type} `{StoreOps W} `{DeviceOps W} `{SetOrder} `{PyHash}.
  Variable hcf : hlw_conf.
Let cf : conf := hw_cf hcf.
Let L : hla_layout := hw_layout hcf.
Let num_rows : Z := zlen (row_ids L).

Notation HW := (M (hlw * W)).

Definition on_hw {A} (x : M (conn * W) A) : HW A :=
  lift (λ s, (hw_base s.1, s.2)) (λ t s, (set_hw_base t.1 s.1, t.2)) x.

Definition updw (f : hlw → hlw) : HW unit := modify (λ s, (f s.1, s.2)).
Definition getw {A} (f : hlw → A) : HW A := gets (λ s, f s.1).

Definition hw_is_mtp_layer (layer_name : string) : bool :=
  hw_is_mtp hcf && str_contains "mtp" layer_name.

(** ** Loads *)

Definition _mark_load_failed (metadata : UCMConnectorMetadata) (req_id : string) : HW unit :=
  match dict_get req_id (request_meta metadata) with
  | Some d => on_hw (updc (λ c, set_invalid (invalid_block_ids c ∪ list_to_set (load_block_ids d).2) c))
  | None => mret tt
  end ;;
  updw (λ c, set_hw_failure ({[req_id]} ∪ hw_failure_req_ids c) c) ;;
  on_hw (mark_failed req_id).

(** One request of [_submit_request_load_tasks_for_row]. *)
Definition submit_row_load (metadata : UCMConnectorMetadata) (row_id : Z) (e : row_entry) : HW unit :=
  failed ← getw hw_failure_req_ids;
  if decide (re_request_id e ∈ failed) then mret tt else
  try_except
    (row_ptrs ← of_res (extract_block_addrs_for_row L (re_vllm_block_ids e) row_id);
     t ← on_hw (on_rc (submit_load (store cf) [(re_request_id e, re_ucm_block_ids e)]
           (re_store_block_ids e) (replicate (length (re_store_block_ids e)) row_id) row_ptrs));
     updw (λ c, set_hw_load (dict_set row_id
       (dict_set (re_request_id e) t (dict_get_default row_id [] (hw_load_tasks c))) (hw_load_tasks c)) c))
    (λ _, _mark_load_failed metadata (re_request_id e)).

Definition _submit_request_load_tasks_for_row (metadata : UCMConnectorMetadata) (row_id : Z) : HW unit :=
  entries ← getw hw_request_data;
  for_each entries (submit_row_load metadata row_id) ;;
  updw (λ c, set_hw_submitted ({[row_id]} ∪ submitted_load_rows c) c).

Definition _submit_request_load_tasks_for_row_once (metadata : UCMConnectorMetadata) (row_id : Z) : HW unit :=
  submitted ← getw submitted_load_rows;
  if decide (row_id ∈ submitted) then mret tt
  else _submit_request_load_tasks_for_row metadata row_id.

Definition wait_row_task (metadata : UCMConnectorMetadata) (x : string * task) : HW unit :=
  try_except (on_hw (on_rc (wait_load x.2))) (λ _, _mark_load_failed metadata x.1).

(** [_wait_row_load], which returns the number of tasks. *)
Definition _wait_row_load (metadata : UCMConnectorMetadata) (row_id : Z) : HW Z :=
  tasks ← getw hw_load_tasks;
  let row_tasks := dict_get_default row_id [] tasks in
  updw (set_hw_load (dict_del row_id tasks)) ;;
  for_each row_tasks (wait_row_task metadata) ;;
  mret (zlen row_tasks).

(** One request of the collection loop of [start_load_kv]. *)
Definition collect_row_load (x : string * RequestDispatchMeta) : HW unit :=
  match (load_block_ids x.2).1 with
  | [] => mret tt
  | _ =>
      let '(ucm_block_ids, vllm_block_ids) := drop_nulls cf (load_block_ids x.2) in
      match ucm_block_ids with
      | [] => mret tt
      | _ =>
          updw (λ c, set_hw_need true (set_hw_requests
            (hw_request_data c ++ [RowEntry x.1 ucm_block_ids
               (_rank_scoped_ucm_block_ids cf ucm_block_ids) vllm_block_ids]) c))
      end
  end.

Definition start_load_kv (now : Z) : HW unit :=
  updw (λ c, set_hw_batch (Some now) (set_hw_prev None c)) ;;
  metadata ← on_hw _get_connector_metadata;
  updw (λ c, Hlw (hw_base c) [] (hw_dump_tasks c) [] ∅ ∅ None (hw_is_save c) false []
               (hw_prev_wait_end c) (hw_batch_start c)) ;;
  for_each (request_meta metadata) collect_row_load ;;
  need ← getw hw_need_load;
  if need && negb (num_rows =? 0) then
    for_each (py_range 0 (Z.min (load_prefetch_rows hcf + 1) num_rows))
      (_submit_request_load_tasks_for_row_once metadata) ;;
    _ ← _wait_row_load metadata 0; mret tt
  else mret tt.

Definition wait_for_layer_load (layer_name : string) (wait_end : Z) : HW unit :=
  metadata ← getw (λ c, connector_metadata (hw_base c));
  need ← getw hw_need_load;
  match metadata with
  | None => mret tt
  | Some metadata =>
      if negb need then mret tt else
      match dict_get layer_name (layer_name_to_row L) with
      | None => mret tt
      | Some row_id =>
          let next_row_id := row_id + 1 in
          if num_rows <=? next_row_id then mret tt else
          _submit_request_load_tasks_for_row_once metadata next_row_id ;;
          n_tasks ← _wait_row_load metadata next_row_id;
          let prefetch_start := next_row_id + 1 in
          let prefetch_end := Z.min (prefetch_start + load_prefetch_rows hcf) num_rows in
          for_each (py_range prefetch_start prefetch_end)
            (_submit_request_load_tasks_for_row_once metadata) ;;
          prev ← getw hw_prev_wait_end;
          on_hw (update_stats
            ([("layerwise_wait_blocking_ms", MTime); ("layerwise_wait_tasks_count", MCount n_tasks)] ++
             (match prev with Some _ => [("layerwise_inter_wait_interval_ms", MTime)] | None => [] end) ++
             (if prefetch_start <? prefetch_end
              then [("layerwise_next_layer_submit_ms", MTime)] else []))) ;;
          updw (set_hw_prev (Some wait_end))
      end
  end.

(** ** Dumps *)

(** One request of [_build_dump_transfer_data]: a request without a non-null
    block is listed but dumps nothing. *)
Definition dump_data_step (acc : dump_data) (x : string * RequestDispatchMeta) : dump_data :=
  match (dump_block_ids x.2).1 with
  | [] => acc
  | _ =>
      let ids := {[x.1]} ∪ dd_request_ids acc in
      let '(ucm_block_ids, vllm_block_ids) := drop_nulls cf (dump_block_ids x.2) in
      match ucm_block_ids with
      | [] => DumpData (dd_ucm_block_ids acc) (dd_vllm_block_ids acc) ids (dd_by_request acc)
      | _ =>
          DumpData (dd_ucm_block_ids acc ++ _rank_scoped_ucm_block_ids cf ucm_block_ids)
            (dd_vllm_block_ids acc ++ vllm_block_ids) ids
            (dict_set x.1 (list_to_set ucm_block_ids) (dd_by_request acc))
      end
  end.

Definition _build_dump_transfer_data (metadata : UCMConnectorMetadata) : dump_data :=
  foldl dump_data_step (DumpData [] [] ∅ []) (request_meta metadata).

(** The [try] block around the submission of one row; a failure is only logged. *)
Definition submit_row_dump (row_id : Z) (by_request : dict string (gset bytes))
    (ucm_block_ids : list bytes) (row_ptrs : addr_rows) (request_ids : gset string) : HW unit :=
  try_except
    (event_handle ← on_hw (_get_dump_event_handle cf);
     t ← on_hw (on_rc (submit_dump (store cf) by_request ucm_block_ids
           (replicate (length ucm_block_ids) row_id) row_ptrs event_handle));
     updw (λ c, set_hw_dumps (dict_set row_id
       (dict_get_default row_id [] (hw_dump_tasks c) ++ [PendingDump t request_ids event_handle 0])
       (hw_dump_tasks c)) c))
    (λ _, mret tt).

(** The data of the batch, built by the first row that is saved. *)
Definition batch_dump_data (metadata : UCMConnectorMetadata) : HW dump_data :=
  memo ← getw dump_transfer_data;
  match memo with
  | Some d => mret d
  | None => let d := _build_dump_transfer_data metadata in
            updw (set_hw_data (Some d)) ;; mret d
  end.

Definition save_row (metadata : UCMConnectorMetadata) (layer_name : string) (row_id : Z) : HW unit :=
  d ← batch_dump_data metadata;
  match dd_ucm_block_ids d with
  | [] => mret tt
  | ucm_block_ids =>
      updw (set_hw_is_save true) ;;
      if hw_is_mtp_layer layer_name then
        updw (λ c, set_hw_deferred
          (dict_set row_id (ucm_block_ids, dd_vllm_block_ids d, dd_request_ids d)
             (deferred_mtp_row_dumps c)) c)
      else
        row_ptrs ← of_res (extract_block_addrs_for_row L (dd_vllm_block_ids d) row_id);
        submit_row_dump row_id (dd_by_request d) ucm_block_ids row_ptrs (dd_request_ids d)
  end.

Definition save_kv_layer (layer_name : string) : HW unit :=
  metadata ← getw (λ c, connector_metadata (hw_base c));
  match metadata with
  | None => mret tt
  | Some metadata =>
      if cf_is_mla cf && negb (hla_rank0 cf) then mret tt else
      match dict_get layer_name (layer_name_to_row L) with
      | None => mret tt
      | Some row_id =>
          if decide (dict_get row_id (hw_row_save_layer hcf) = Some layer_name)
          then save_row metadata layer_name row_id else mret tt
      end
  end.

(** One deferred row; computing its addresses is inside the [try] here. *)
Definition flush_row (by_request : dict string (gset bytes))
    (x : Z * (list bytes * list Z * gset string)) : HW unit :=
  let '(row_id, (ucm_ids, vllm_ids, req_ids)) := x in
  match extract_block_addrs_for_row L vllm_ids row_id with
  | Raise _ => mret tt
  | Ok row_ptrs => submit_row_dump row_id by_request ucm_ids row_ptrs req_ids
  end.

Definition _flush_deferred_mtp_dumps : HW unit :=
  deferred ← getw deferred_mtp_row_dumps;
  updw (set_hw_deferred []) ;;
  data ← getw dump_transfer_data;
  for_each deferred (flush_row (match data with Some d => dd_by_request d | None => [] end)).

Definition wait_row_dumps (row_id : Z) : HW unit :=
  tasks ← getw hw_dump_tasks;
  updw (set_hw_dumps (dict_del row_id tasks)) ;;
  for_each (dict_get_default row_id [] tasks) (λ p,
    try_except (on_hw (on_rc (wait_dump (pd_task p)))) (λ _, mret tt)).

(** The batch time, sent once per batch. *)
Definition batch_total (with_tail : bool) : HW unit :=
  started ← getw hw_batch_start;
  let tail := if with_tail then [("layerwise_save_tail_total_ms", MTime)] else [] in
  let total := match started with Some _ => [("layerwise_batch_total_ms", MTime)] | None => [] end in
  updw (set_hw_batch None) ;;
  match tail ++ total with [] => mret tt | st => on_hw (update_stats st) end.

Definition wait_for_save : HW unit :=
  saving ← getw hw_is_save;
  if negb saving then batch_total false
  else
    data ← getw dump_transfer_data;
    _flush_deferred_mtp_dumps ;;
    for_each (row_ids L) wait_row_dumps ;;
    on_hw (on_rc (finish_dump (match data with Some d => dd_request_ids d | None => ∅ end))) ;;
    batch_total true ;;
    updw (λ c, set_hw_dumps [] (set_hw_data None (set_hw_is_save false c))) ;;
    if enable_event_sync cf then on_hw (on_dev destroy_event_handles) else mret tt.

End hlw.
