(* ===== verification/HlaGroupProps.v ===== *)
(** * What the lookup over hybrid groups guarantees

    The manager built from a configuration is well formed; the lookup returns
    the latest boundary all the groups can resume from; identifiers and state
    keys depend on the prefix alone, so what one request stored another one
    finds. *)
From S2P Require Import Prelude Runtime PyHash Hashing HlaLayout HlaGroups.
Open Scope Z_scope.

(** ** Well-formed managers *)

Definition group_ok (lcm : Z) (g : GroupInfo) : Prop :=
  0 < gi_block_size g ∧ (gi_block_size g | lcm).

Record manager_ok (m : group_manager) : Prop := {
  mo_lcm : 0 < lcm_block_size m;
  mo_groups : Forall (group_ok (lcm_block_size m)) (groups_by_id m);
  mo_ids : ∀ i g, groups_by_id m !! i = Some g → gi_group_id g = Z.of_nat i;
  mo_fa : full_attn_groups m = filter (λ g, is_full_attention g) (groups_by_id m);
  mo_states : state_groups m = filter (λ g, gi_is_mamba_align g) (groups_by_id m);
  mo_primary : full_attn_groups m ≠ [];
}.

Lemma py_lcm_pos l : Forall (λ x, 0 < x) l → 0 < py_lcm l.
Proof.
  induction 1 as [|x l Hx Hl IH]; [done|]. cbn [py_lcm foldr]. fold (py_lcm l).
  pose proof (Z.lcm_nonneg x (py_lcm l)).
  assert (Z.lcm x (py_lcm l) ≠ 0); [|lia]. rewrite Z.lcm_eq_0. lia.
Qed.

Lemma py_lcm_divide l x : x ∈ l → (x | py_lcm l).
Proof.
  induction l as [|y l IH]; [by intros ?%elem_of_nil|].
  rewrite elem_of_cons. cbn [py_lcm foldr]. fold (py_lcm l). intros [->|Hx].
  - apply Z.divide_lcm_l.
  - etrans; [by apply IH|]. apply Z.divide_lcm_r.
Qed.

Definition spec_ok (s : kv_cache_spec) : Prop := ∀ n, block_size_from_kv_cache_spec s = Ok n → 0 < n.

(** A manager built from specifications with positive block sizes is well formed. *)
Lemma group_manager_ok `{PyHash} c meta seed m :
  KVCacheGroupManager c meta seed = Ok m →
  Forall (λ g, spec_ok (hg_spec g)) (kv_cache_groups c) →
  manager_ok m ∧ zlen (groups_by_id m) = zlen (kv_cache_groups c) ∧ hm_meta m = meta.
Proof.
  unfold KVCacheGroupManager. intros Hrun Hspecs. res_inv Hrun. rename x into groups, Hx into Hg.
  pose proof (map_res_length _ _ _ Hg) as Hlen. apply map_res_Forall2 in Hg.
  assert (Hinfo : ∀ i g, groups !! i = Some g → gi_group_id g = Z.of_nat i ∧ 0 < gi_block_size g).
  { intros i g Hi. destruct (Forall2_lookup_r _ _ _ _ _ Hg Hi) as ([z hg] & Hz & Hgi).
    apply lookup_zip_with_Some in Hz as (z' & hg' & [= <- <-] & Hz & Hhg).
    apply lookup_seqZ in Hz as [-> Hlt]. unfold group_info in Hgi. res_inv Hgi.
    rename x into n, Hx into Hn. res_inv Hgi. injection Hgi as <-. simpl. split; [lia|].
    rewrite -> Forall_lookup in Hspecs. by apply (Hspecs i hg Hhg). }
  destruct (filter (λ g, is_full_attention g) groups) as [|p fa] eqn:Hfa; [done|].
  res_inv Hrun. injection Hrun as <-. split; [|split; [|done]].
  - split; simpl; try done.
    + apply py_lcm_pos, Forall_fmap, Forall_lookup. intros i g Hi. apply (Hinfo i g Hi).
    + apply Forall_lookup. intros i g Hi. split; [apply (Hinfo i g Hi)|].
      apply py_lcm_divide, list_elem_of_fmap. exists g. split; [done|]. by eapply list_elem_of_lookup_2.
    + intros i g Hi. by apply Hinfo.
  - simpl. unfold zlen in *. rewrite -> Hlen, length_zip_with, length_seqZ. lia.
Qed.

Section groups.
  Context `{PyHash}.
  Variable m : group_manager.
  Hypothesis Hm : manager_ok m.
Let lcm : Z := lcm_block_size m.

Lemma group_pos g : g ∈ groups_by_id m → 0 < gi_block_size g ∧ (gi_block_size g | lcm).
Proof. intros Hg. destruct Hm as [_ Hf _ _ _ _]. rewrite -> Forall_forall in Hf. by apply Hf. Qed.

Lemma fa_group g : g ∈ full_attn_groups m → g ∈ groups_by_id m ∧ gi_is_mamba_align g = false.
Proof.
  rewrite (mo_fa _ Hm). rewrite list_elem_of_filter. unfold is_full_attention.
  by destruct (gi_is_mamba_align g); intros [? ?].
Qed.

Lemma state_group g : g ∈ state_groups m → g ∈ groups_by_id m ∧ gi_is_mamba_align g = true.
Proof.
  rewrite (mo_states _ Hm). rewrite list_elem_of_filter.
  by destruct (gi_is_mamba_align g); intros [? ?].
Qed.

Lemma all_ids_index g toks :
  g ∈ groups_by_id m →
  py_index (compute_all_group_block_ids m toks) (gi_group_id g) = Ok (compute_block_hashes m g toks).
Proof.
  intros [i Hi]%list_elem_of_lookup_1. rewrite (mo_ids _ Hm i g Hi).
  apply py_index_lookup; [lia|]. unfold compute_all_group_block_ids.
  by rewrite -> Nat2Z.id, list_lookup_fmap, Hi.
Qed.

Lemma primary_group : ∃ p, py_index (full_attn_groups m) 0 = Ok p ∧ p ∈ full_attn_groups m.
Proof.
  destruct (full_attn_groups m) as [|p l] eqn:E; [by destruct (mo_primary _ Hm)|].
  exists p. split; [by apply py_index_lookup|by left].
Qed.

(** *** Keys of states *)

(** The identifier of the prefix of [pos] tokens, read in the primary group. *)
Definition prefix_hash (ids : list (list bytes)) (pos : Z) : option bytes :=
  primary ← head (full_attn_groups m);
  l ← ids !! Z.to_nat (gi_group_id primary);
  l !! Z.to_nat (pos / gi_block_size primary - 1).

Lemma group_ids_index (ids : list (list bytes)) g :
  zlen ids = num_groups m → g ∈ groups_by_id m →
  ∃ l, py_index ids (gi_group_id g) = Ok l ∧ ids !! Z.to_nat (gi_group_id g) = Some l.
Proof.
  intros Hlen [i Hi]%list_elem_of_lookup_1. rewrite (mo_ids _ Hm i g Hi).
  apply lookup_lt_Some in Hi. apply py_index_in. unfold num_groups, zlen in *. lia.
Qed.

(** The key of a state at a boundary is a function of the prefix. *)
Lemma state_hash_spec (ids : list (list bytes)) g pos :
  zlen ids = num_groups m →
  ∃ h, compute_mamba_align_state_hash m g pos ids = Ok h ∧
    (0 < pos → (lcm | pos) →
     h = match prefix_hash ids pos with
         | None | Some [] => None
         | Some p => Some (request_hasher (hm_meta m) (IObj (PState (gi_seed g) MAMBA_ALIGN_STATE pos p)))
         end) ∧
    (¬ (0 < pos ∧ (lcm | pos)) → h = None).
Proof.
  intros Hlen. unfold compute_mamba_align_state_hash. pose proof (mo_lcm _ Hm) as Hlcm. fold lcm in Hlcm |- *.
  destruct primary_group as (p & Hp & Hin).
  destruct (fa_group p Hin) as [Hgrp _]. destruct (group_pos p Hgrp) as [Hbs Hdiv].
  destruct (Z.leb_spec pos 0); cbn [orb].
  { exists None. split; [done|]. split; intros; [lia|done]. }
  destruct (Z.eqb_spec (pos mod lcm) 0) as [Hmod|Hmod]; cbn [negb].
  2:{ exists None. split; [done|]. split; [|done]. intros _ Hd%Z.mod_divide; lia. }
  apply Z.mod_divide in Hmod; [|lia]. rewrite -> Hp. cbn [mbind res_bind].
  assert (Hge : gi_block_size p ≤ pos) by (apply Z.divide_pos_le; [lia|by etrans]).
  assert (1 ≤ pos / gi_block_size p) by (apply Z.div_le_lower_bound; lia).
  rewrite -> (proj2 (Z.ltb_ge _ _)) by lia.
  destruct (group_ids_index ids p Hlen Hgrp) as (l & Hl & Hlk). rewrite -> Hl. cbn [mbind res_bind].
  unfold prefix_hash. assert (Hhead : head (full_attn_groups m) = Some p).
  { apply py_index_lookup in Hp; [|lia]. by destruct (full_attn_groups m). }
  rewrite -> Hhead. simpl. rewrite -> Hlk. simpl.
  destruct (l !! Z.to_nat (pos / gi_block_size p - 1)) as [h|] eqn:Hh.
  - assert (Hi : py_index l (pos / gi_block_size p - 1) = Ok h) by (apply py_index_lookup; [lia|done]).
    rewrite -> Hi. destruct h; eexists; (split; [reflexivity|]); split; [done|tauto|done|tauto].
  - destruct (py_index l (pos / gi_block_size p - 1)) as [h|e] eqn:Hi.
    { apply py_index_lookup in Hi; [congruence|lia]. }
    eexists. split; [done|]. split; [done|tauto].
Qed.

End groups.

(** ** The lookup *)

(** The number of identifiers before the first one that is not stored. *)
Fixpoint stored_prefix (stored : bytes → bool) (ids : list bytes) : Z :=
  match ids with
  | [] => 0
  | b :: ids => if stored b then 1 + stored_prefix stored ids else 0
  end.

Lemma stored_prefix_bounds stored ids : 0 ≤ stored_prefix stored ids ≤ zlen ids.
Proof.
  induction ids as [|b ids IH]; [done|]. cbn [stored_prefix]. rewrite -> zlen_cons.
  destruct (stored b); lia.
Qed.

Lemma stored_prefix_lookup stored ids i :
  0 ≤ i < stored_prefix stored ids → ∃ h, ids !! Z.to_nat i = Some h ∧ stored h = true.
Proof.
  revert i. induction ids as [|b ids IH]; cbn [stored_prefix]; intros i Hi; [lia|].
  destruct (stored b) eqn:Hb; [|lia]. destruct (decide (i = 0)) as [->|Hne]; [by exists b|].
  destruct (IH (i - 1)) as (h & Hh & Hs); [lia|]. exists h.
  replace (Z.to_nat i) with (S (Z.to_nat (i - 1))) by lia. done.
Qed.

(** A run of stored identifiers is within the prefix. *)
Lemma stored_prefix_ge stored ids n :
  (∀ i, 0 ≤ i < n → ∃ h, ids !! Z.to_nat i = Some h ∧ stored h = true) → n ≤ stored_prefix stored ids.
Proof.
  revert n. induction ids as [|b ids IH]; cbn [stored_prefix]; intros n Hn.
  { destruct (decide (n ≤ 0)) as [|Hp]; [done|]. destruct (Hn 0) as (h & Hh & _); [lia|done]. }
  destruct (decide (n ≤ 0)) as [|Hp]; [destruct (stored b); [pose proof (stored_prefix_bounds stored ids)|]; lia|].
  destruct (Hn 0) as (h & [= <-] & ->); [lia|].
  assert (n - 1 ≤ stored_prefix stored ids); [|lia]. apply IH. intros i Hi.
  destruct (Hn (i + 1)) as (h & Hh & Hs); [lia|]. exists h. split; [|done].
  by replace (Z.to_nat (i + 1)) with (S (Z.to_nat i)) in Hh by lia.
Qed.

Lemma all_stored stored (keys : list bytes) :
  forallb id (stored <$> keys) = true ↔ Forall (λ k, stored k = true) keys.
Proof.
  induction keys as [|k keys IH]; csimpl; [done|]. rewrite -> andb_true_iff, IH, Forall_cons. done.
Qed.

Lemma foldl_min_spec l x :
  (foldl Z.min x l = x ∨ foldl Z.min x l ∈ l) ∧ foldl Z.min x l ≤ x ∧
  Forall (λ y, foldl Z.min x l ≤ y) l.
Proof.
  revert x. induction l as [|y l IH]; intros x; cbn [foldl].
  - split_and!; [by left|lia|constructor].
  - destruct (IH (Z.min x y)) as (Hin & Hle & Hall). split_and!; [|lia|constructor; [lia|done]].
    destruct Hin as [->|Hin]; [|right; by right].
    destruct (Z.min_spec x y) as [[_ ->]|[_ ->]]; [by left|right; by left].
Qed.

Lemma py_min_spec l : l ≠ [] → ∃ n, py_min l = Ok n ∧ n ∈ l ∧ Forall (λ y, n ≤ y) l.
Proof.
  destruct l as [|x l]; [done|]. intros _. eexists. split; [done|].
  destruct (foldl_min_spec l x) as (Hin & Hle & Hall). split; [|by constructor].
  destruct Hin as [->|Hin]; [by left|by right].
Qed.

(** The candidates of a backward scan: the multiples above the computed tokens. *)
Lemma py_range_down_spec a b step x :
  0 < step → (step | b - a) → (x ∈ py_range_down b a step ↔ a < x ≤ b ∧ (step | x - a)).
Proof.
  intros Hs [q Hq]. unfold py_range_down. rewrite -> list_elem_of_fmap.
  replace ((b - a + step - 1) / step) with q
    by (rewrite -> Hq; replace (q * step + step - 1) with (step - 1 + q * step) by lia;
        rewrite -> Z.div_add, Z.div_small by lia; lia).
  split.
  - intros (k & -> & Hk). apply elem_of_seqZ in Hk. split; [nia|]. exists (q - k). lia.
  - intros [Hx [k Hk]]. exists (q - k). split; [lia|]. apply elem_of_seqZ. nia.
Qed.

Lemma py_range_down_sorted a b step : 0 < step → StronglySorted Z.gt (py_range_down b a step).
Proof.
  intros Hs. unfold py_range_down.
  assert (Hgen : ∀ (n : nat) k, StronglySorted Z.gt ((λ k, b - k * step) <$> seqZ k (Z.of_nat n))).
  { induction n as [|n IH]; intros k; [constructor|].
    rewrite -> Nat2Z.inj_succ, seqZ_cons, Z.pred_succ by lia. csimpl. constructor; [apply IH|].
    apply Forall_fmap, Forall_forall. intros x Hx%elem_of_seqZ. simpl. nia. }
  destruct (decide (0 ≤ (b - a + step - 1) / step)) as [Hn|Hn].
  - rewrite <- (Z2Nat.id _ Hn). apply Hgen.
  - rewrite -> seqZ_nil by lia. constructor.
Qed.

Section lookup.
  Context `{PyHash} {S : Type}.
  Variable m : group_manager.
  Hypothesis Hm : manager_ok m.
Let lcm : Z := lcm_block_size m.
  Variable lookup_on_prefix : list bytes → M S Z.
  Variable lookup_all : list bytes → M S (list bool).
  Variable record_error : M S unit.
  Variable ids : list (list bytes).
  Hypothesis Hids : zlen ids = num_groups m.

Notation candidate := (candidate lookup_on_prefix record_error).
Notation scan_states := (scan_states lookup_all record_error m).
Notation lookup := (lookup_external_hit_tokens lookup_on_prefix lookup_all record_error m).

Lemma state_keys_ok pos : ∃ keys, state_keys m ids pos = Ok keys.
Proof.
  unfold state_keys. exists ((λ g, match compute_mamba_align_state_hash m g pos ids with
    | Ok h => default [] h | Raise _ => [] end) <$> state_groups m).
  apply map_res_pure. intros g Hg. destruct (state_hash_spec m Hm ids g pos Hids) as (h & -> & _). done.
Qed.

Lemma prefetch_hashes_ok best : ∃ keys, prefetch_hashes m ids best = Ok keys.
Proof.
  unfold prefetch_hashes. set (hash pos g := match compute_mamba_align_state_hash m g pos ids with
    | Ok h => h | Raise _ => None end).
  rewrite -> (map_res_pure _ (λ pos, (λ g, hash pos g) <$> state_groups m)).
  - by eexists.
  - intros pos _. apply map_res_pure. intros g _. unfold hash.
    by destruct (state_hash_spec m Hm ids g pos Hids) as (h & -> & _).
Qed.

(** What a run of the lookup is made of, for stores whose answers keep [I]: [R]
    describes the candidates of the full-attention groups and [T] the scan. *)
Lemma lookup_runs (I : S → Prop) computed (R : GroupInfo → Z → Prop)
    (T : list Z → option Z → Prop) (s : S) :
  (∀ fa s, fa ∈ full_attn_groups m → I s →
    ∃ c s', candidate computed ids fa s = (Ok c, s') ∧ I s' ∧ R fa c) →
  (∀ positions s, I s →
    ∃ r s', scan_states ids computed positions s = (Ok r, s') ∧ I s' ∧ T positions r) →
  I s → computed mod lcm = 0 →
  ∃ cs n ext keys s', lookup computed ids s = (Ok (ext, ext / lcm, keys), s') ∧ I s' ∧
    Forall2 R (full_attn_groups m) cs ∧ py_min cs = Ok n ∧
    let cap := n / lcm * lcm in
    (cap ≤ 0 ∧ ext = 0 ∨
     0 < cap ∧ state_groups m = [] ∧ ext = cap ∨
     0 < cap ∧ state_groups m ≠ [] ∧ ∃ r, T (py_range_down (computed + cap) computed lcm) r ∧
       ext = match r with Some pos => Z.max 0 (pos - computed) | None => 0 end).
Proof.
  intros HR HT HI Hmod.
  assert (Hfold : ∀ gs acc s, gs ⊆ full_attn_groups m → I s → ∃ cs s',
    for_fold gs acc (λ cs fa, c ← candidate computed ids fa; mret (cs ++ [c])) s = (Ok (acc ++ cs), s') ∧
    I s' ∧ Forall2 R gs cs).
  { clear s HI. induction gs as [|g gs IH]; intros acc s Hsub HI.
    - exists [], s. rewrite app_nil_r. done.
    - destruct (HR g s) as (c & s1 & Hc & HI1 & HRc); [set_solver|done|].
      destruct (IH (acc ++ [c]) s1) as (cs & s2 & Hrun & HI2 & Hcs); [set_solver|done|].
      exists (c :: cs), s2. split_and!; [|done|by constructor]. simpl.
      unfold mbind, M_bind at 1. unfold mbind, M_bind at 1. rewrite -> Hc. cbn.
      unfold mbind in Hrun. rewrite -> Hrun. by rewrite <- app_assoc. }
  destruct (Hfold (full_attn_groups m) [] s) as (cs & s1 & Hrun & HI1 & Hcs); [done..|].
  assert (Hne : cs ≠ []). { intros ->. inversion Hcs as [Heq|]. by destruct (mo_primary _ Hm). }
  destruct (py_min_spec cs Hne) as (n & Hmin & _ & _).
  exists cs, n. unfold lookup_external_hit_tokens, assert_. fold lcm.
  rewrite -> (proj2 (Z.eqb_eq _ _) Hids), (proj2 (Z.eqb_eq _ _) Hmod). mstep. mstep.
  cbn [app] in Hrun. mrun Hrun. rewrite -> Hmin. mstep. set (cap := n / lcm * lcm).
  destruct (Z.leb_spec cap 0).
  { exists 0, [], s1. split; [done|]. split_and!; try done. by left. }
  destruct (state_groups m) as [|sg sgs] eqn:Hsg.
  { exists cap, [], s1. split; [done|]. split_and!; try done. right. by left. }
  destruct (HT (py_range_down (computed + cap) computed lcm) s1 HI1) as (r & s2 & Hscan & HI2 & Hr).
  mrun Hscan. destruct r as [pos|].
  2:{ exists 0, [], s2. split; [done|]. split_and!; try done. right. right. split_and!; try done. by exists None. }
  destruct (Z.leb_spec (pos - computed) 0).
  - exists 0, [], s2. split; [done|]. split_and!; try done. right. right. split_and!; try done.
    exists (Some pos). split; [done|lia].
  - destruct (prefetch_hashes_ok pos) as (keys & ->). mstep.
    exists (pos - computed), keys, s2. split; [done|]. split_and!; try done. right. right.
    split_and!; try done. exists (Some pos). split; [done|lia].
Qed.

(** A group's candidate, for any answers of the store. *)
Lemma candidate_bounds (I : S → Prop) computed fa (s : S) :
  (∀ l s, I s → l ≠ [] → ∃ r s', lookup_on_prefix l s = (r, s') ∧ I s' ∧
    match r with Ok n => -1 ≤ n < zlen l | Raise _ => True end) →
  (∀ s, I s → ∃ s', record_error s = (Ok tt, s') ∧ I s') →
  fa ∈ full_attn_groups m → I s → 0 ≤ computed →
  ∃ l c s', py_index ids (gi_group_id fa) = Ok l ∧ candidate computed ids fa s = (Ok c, s') ∧ I s' ∧
    0 ≤ c ∧ (0 < c → computed / gi_block_size fa * gi_block_size fa + c ≤ zlen l * gi_block_size fa).
Proof.
  intros Hl Hrec Hfa HI Hc. destruct (fa_group m Hm fa Hfa) as [Hg _].
  destruct (group_pos m Hm fa Hg) as [Hbs _].
  destruct (group_ids_index m Hm ids fa Hids Hg) as (l & Hidx & _).
  exists l. unfold HlaGroups.candidate. rewrite -> Hidx. mstep.
  assert (0 ≤ computed / gi_block_size fa) by (apply Z.div_pos; lia).
  rewrite -> py_from_pos by done.
  destruct (drop _ l) as [|b l'] eqn:Hd.
  { exists 0, s. split_and!; try done; lia. }
  destruct (Hl (b :: l') s HI ltac:(done)) as (r & s1 & Hrun & HI1 & Hr).
  assert (Hlen : zlen (b :: l') = zlen l - computed / gi_block_size fa).
  { rewrite <- Hd. unfold zlen. rewrite -> length_drop. apply (f_equal length) in Hd.
    rewrite -> length_drop in Hd. simpl in Hd. lia. }
  destruct r as [n|e].
  - eexists _, s1. split; [done|]. split.
    { unfold mbind at 1, M_bind at 1, try_except, mbind at 1, M_bind at 1. rewrite -> Hrun. done. }
    split; [done|]. simpl. nia.
  - destruct (Hrec s1 HI1) as (s2 & Hrun2 & HI2). exists 0, s2. split; [done|].
    split; [|split; [done|lia]].
    unfold mbind at 1, M_bind at 1, try_except, mbind at 1, M_bind at 1. rewrite -> Hrun.
    by mrun Hrun2.
Qed.

Lemma scan_states_run (I : S → Prop) best positions (s : S) :
  (∀ l s, I s → ∃ r s', lookup_all l s = (r, s') ∧ I s') →
  (∀ s, I s → ∃ s', record_error s = (Ok tt, s') ∧ I s') → I s →
  ∃ r s', scan_states ids best positions s = (Ok r, s') ∧ I s' ∧
    match r with Some pos => pos = best ∨ pos ∈ positions | None => True end.
Proof.
  intros Hl Hrec. revert s. induction positions as [|pos positions IH]; intros s HI.
  { exists (Some best), s. split_and!; auto. }
  cbn [HlaGroups.scan_states]. destruct (state_keys_ok pos) as (keys & ->). mstep.
  destruct (Hl keys s HI) as (r & s1 & Hrun & HI1). unfold mbind, M_bind, try_except. rewrite -> Hrun.
  destruct r as [results|e]; cbn -[scan_states].
  - destruct (forallb id results).
    + exists (Some pos), s1. split_and!; [done..|]. right. by left.
    + destruct (IH s1 HI1) as (r & s2 & Hrun2 & HI2 & Hr). exists r, s2. split_and!; [done..|].
      destruct r; [|done]. destruct Hr; [by left|right; by right].
  - destruct (Hrec s1 HI1) as (s2 & Hrun2 & HI2). rewrite -> Hrun2. by exists None, s2.
Qed.

(** The store answers for a set of blocks, [stored]. *)
Definition answers (I : S → Prop) (stored : bytes → bool) : Prop :=
  (∀ l s, I s → l ≠ [] → ∃ s', lookup_on_prefix l s = (Ok (stored_prefix stored l - 1), s') ∧ I s') ∧
  (∀ l s, I s → ∃ s', lookup_all l s = (Ok (stored <$> l), s') ∧ I s').

Lemma candidate_answers I stored computed fa (s : S) :
  answers I stored → fa ∈ full_attn_groups m → I s → 0 ≤ computed →
  ∃ l s', py_index ids (gi_group_id fa) = Ok l ∧
    candidate computed ids fa s =
      (Ok (stored_prefix stored (py_from l (computed / gi_block_size fa)) * gi_block_size fa), s') ∧ I s'.
Proof.
  intros [Hl _] Hfa HI Hc. destruct (fa_group m Hm fa Hfa) as [Hg _].
  destruct (group_ids_index m Hm ids fa Hids Hg) as (l & Hidx & _).
  exists l. unfold HlaGroups.candidate. rewrite -> Hidx. mstep.
  pose proof (stored_prefix_bounds stored (py_from l (computed / gi_block_size fa))) as Hb.
  destruct (py_from l _) as [|b l'] eqn:Hd.
  { by exists s. }
  destruct (Hl (b :: l') s HI ltac:(done)) as (s1 & Hrun & HI1).
  exists s1. split; [done|]. split; [|done].
  unfold mbind at 1, M_bind at 1, try_except, mbind at 1, M_bind at 1. rewrite -> Hrun.
  cbn -[stored_prefix Z.mul Z.max Z.add]. unfold mret, M_ret. do 2 f_equal. lia.
Qed.

Lemma scan_answers I stored best positions (s : S) :
  answers I stored → I s →
  ∃ r s', scan_states ids best positions s = (Ok (Some r), s') ∧ I s' ∧
    let ok pos := ∃ keys, state_keys m ids pos = Ok keys ∧ Forall (λ k, stored k = true) keys in
    ((r ∈ positions ∧ ok r) ∨ r = best) ∧
    (StronglySorted Z.gt positions → Forall (λ pos, best < pos) positions →
     ∀ pos, pos ∈ positions → ok pos → pos ≤ r).
Proof.
  intros [_ Hl]. revert s. induction positions as [|pos positions IH]; intros s HI.
  { exists best, s. split_and!; auto. set_solver. }
  cbn [HlaGroups.scan_states]. destruct (state_keys_ok pos) as (keys & Hk). rewrite -> Hk. mstep.
  destruct (Hl keys s HI) as (s1 & Hrun & HI1). unfold mbind, M_bind, try_except. rewrite -> Hrun.
  cbn -[scan_states]. destruct (forallb id (stored <$> keys)) eqn:Hall.
  - exists pos, s1. split_and!; [done..| |].
    + left. split; [by left|]. exists keys. split; [done|]. by apply all_stored.
    + intros [_ Hgt]%StronglySorted_inv _ pos' [->|Hin]%elem_of_cons _; [lia|].
      rewrite -> Forall_forall in Hgt. apply Hgt in Hin. lia.
  - destruct (IH s1 HI1) as (r & s2 & Hrun2 & HI2 & Hr & Hmax). exists r, s2. split_and!; [done..| |].
    + destruct Hr as [[? ?]|?]; [left; split; [by right|done]|by right].
    + intros [Hsort Hgt]%StronglySorted_inv [Hb Hbs]%Forall_cons_1 pos' [Heq|Hin]%elem_of_cons Hok;
        [subst pos'|by apply Hmax]. exfalso. destruct Hok as (keys' & Hk' & Hst).
      rewrite -> Hk in Hk'. injection Hk' as <-. apply not_true_iff_false in Hall. by apply Hall, all_stored.
Qed.

(** A boundary the request can resume from: the blocks of every full-attention
    group up to it, from the computed tokens on, and the state of every other
    group at it are stored. *)
Record usable (stored : bytes → bool) (computed pos : Z) : Prop := {
  us_after : computed < pos;
  us_lcm : (lcm | pos);
  us_attention : ∀ g l, g ∈ full_attn_groups m → py_index ids (gi_group_id g) = Ok l →
    ∀ i, computed / gi_block_size g ≤ i < pos / gi_block_size g →
      ∃ h, l !! Z.to_nat i = Some h ∧ stored h = true;
  us_states : ∃ keys, state_keys m ids pos = Ok keys ∧ Forall (λ k, stored k = true) keys;
}.

(** A boundary is usable for the attention groups iff the candidates reach it. *)
Lemma usable_candidates stored computed pos cs n :
  0 ≤ computed → (lcm | computed) → (lcm | pos) → computed < pos →
  Forall2 (λ g c, ∃ l, py_index ids (gi_group_id g) = Ok l ∧
    c = stored_prefix stored (py_from l (computed / gi_block_size g)) * gi_block_size g)
    (full_attn_groups m) cs →
  py_min cs = Ok n →
  (pos ≤ computed + n / lcm * lcm ↔
   ∀ g l, g ∈ full_attn_groups m → py_index ids (gi_group_id g) = Ok l →
    ∀ i, computed / gi_block_size g ≤ i < pos / gi_block_size g →
      ∃ h, l !! Z.to_nat i = Some h ∧ stored h = true).
Proof.
  intros Hc Hlc Hlp Hlt Hcs Hmin. pose proof (mo_lcm _ Hm) as Hlcm. fold lcm in Hlcm.
  assert (Hne : cs ≠ []) by (intros ->; simplify_eq).
  destruct (py_min_spec cs Hne) as (n' & Hmin' & Hin & Hle). rewrite -> Hmin in Hmin'. injection Hmin' as <-.
  assert (Hcap : pos ≤ computed + n / lcm * lcm ↔ pos - computed ≤ n).
  { destruct Hlc as [a ->], Hlp as [b ->]. rewrite <- Z.mul_sub_distr_r.
    pose proof (Z.mul_div_le n lcm Hlcm). split; [lia|]. intros Hn.
    assert (b - a ≤ n / lcm) by (apply Z.div_le_lower_bound; lia). nia. }
  rewrite -> Hcap.
  assert (Hpos : ∀ g, g ∈ full_attn_groups m → 0 < gi_block_size g ∧
    pos / gi_block_size g * gi_block_size g = pos ∧
    computed / gi_block_size g * gi_block_size g = computed ∧ 0 ≤ computed / gi_block_size g).
  { intros g [Hg _]%(fa_group m Hm). destruct (group_pos m Hm g Hg) as [Hbs Hdiv]. fold lcm in Hdiv.
    split; [done|]. assert (0 ≤ computed / gi_block_size g) by (apply Z.div_pos; lia).
    split_and!; [| |done]; rewrite -> Z.mul_comm; symmetry; apply Z_div_exact_full_2; try lia;
      apply Z.mod_divide; try lia; by etrans. }
  split.
  - intros Hn g l Hg Hl i Hi. destruct (Hpos g Hg) as (Hbs & Hp1 & Hp2 & Hp3).
    apply list_elem_of_lookup_1 in Hg as [k Hk].
    destruct (Forall2_lookup_l _ _ _ _ _ Hcs Hk) as (c & Hck & l' & Hl' & ->).
    rewrite -> Hl in Hl'. injection Hl' as <-. rewrite -> Forall_lookup in Hle. specialize (Hle k _ Hck).
    simpl in Hle. destruct (stored_prefix_lookup stored (py_from l (computed / gi_block_size g))
      (i - computed / gi_block_size g)) as (h & Hh & Hs); [nia|].
    exists h. split; [|done]. rewrite -> py_from_pos, lookup_drop in Hh by done. rewrite <- Hh. f_equal. lia.
  - intros Hall. apply list_elem_of_lookup_1 in Hin as [k Hk].
    destruct (Forall2_lookup_r _ _ _ _ _ Hcs Hk) as (g & Hgk & l & Hl & ->).
    apply list_elem_of_lookup_2 in Hgk. destruct (Hpos g Hgk) as (Hbs & Hp1 & Hp2 & Hp3).
    assert (pos / gi_block_size g - computed / gi_block_size g ≤
      stored_prefix stored (py_from l (computed / gi_block_size g))); [|nia].
    apply stored_prefix_ge. intros i Hi.
    destruct (Hall g l Hgk Hl (computed / gi_block_size g + i)) as (h & Hh & Hs); [lia|].
    exists h. split; [|done]. rewrite -> py_from_pos, lookup_drop by done. rewrite <- Hh. f_equal. lia.
Qed.

(** What the lookup returns when the store answers for [stored]. *)
Lemma lookup_latest (I : S → Prop) stored computed (s : S) :
  answers I stored → I s → 0 ≤ computed → (lcm | computed) →
  ∃ ext keys s', lookup computed ids s = (Ok (ext, ext / lcm, keys), s') ∧ I s' ∧
    0 ≤ ext ∧ (lcm | ext) ∧ (0 < ext → usable stored computed (computed + ext)) ∧
    ∀ pos, usable stored computed pos → pos ≤ computed + ext.
Proof.
  intros Ha HI Hc Hlc. pose proof (mo_lcm _ Hm) as Hlcm. fold lcm in Hlcm.
  set (R g c := ∃ l, py_index ids (gi_group_id g) = Ok l ∧
    c = stored_prefix stored (py_from l (computed / gi_block_size g)) * gi_block_size g).
  set (ok pos := ∃ keys, state_keys m ids pos = Ok keys ∧ Forall (λ k, stored k = true) keys).
  set (T positions r := ∃ pos, r = Some pos ∧ ((pos ∈ positions ∧ ok pos) ∨ pos = computed) ∧
    (StronglySorted Z.gt positions → Forall (λ pos, computed < pos) positions →
     ∀ pos', pos' ∈ positions → ok pos' → pos' ≤ pos)).
  destruct (lookup_runs I computed R T s) as (cs & n & ext & keys & s' & Hrun & HI' & Hcs & Hmin & Hext).
  { intros fa s0 Hfa HI0. destruct (candidate_answers I stored computed fa s0) as (l & s1 & Hl & Hr & HI1);
      [done..|]. eexists _, s1. split; [done|]. split; [done|]. by exists l. }
  { intros positions s0 HI0. destruct (scan_answers I stored computed positions s0) as (r & s1 & Hr & HI1 & Ho);
      [done..|]. exists (Some r), s1. split; [done|]. split; [done|]. by exists r. }
  { done. }
  { apply Z.mod_divide; [lia|done]. }
  exists ext, keys, s'. split; [done|]. split; [done|]. set (cap := n / lcm * lcm) in *.
  assert (Hcap : ∀ pos, (lcm | pos) → computed < pos → _) by
    (intros pos Hp Hlt; exact (usable_candidates stored computed pos cs n Hc Hlc Hp Hlt Hcs Hmin)).
  fold cap in Hcap. assert (Hdc : (lcm | cap)) by (by exists (n / lcm)).
  destruct Hext as [[Hle ->]|[(Hpos & Hsg & ->)|(Hpos & Hsg & r & (pos & -> & Hr & Hmax) & ->)]].
  - split; [done|]. split; [apply Z.divide_0_r|]. split; [lia|].
    intros pos [Hlt Hp Hat _]. apply (Hcap pos Hp Hlt) in Hat. lia.
  - assert (Hok : ok cap) by (unfold ok, state_keys; rewrite Hsg; by exists []).
    split; [lia|]. split; [done|]. split.
    + intros _. assert (Hd : (lcm | computed + cap)) by (by apply Z.divide_add_r).
      split; [lia|done|apply Hcap; [done|lia..]|]. unfold state_keys. rewrite Hsg. by exists [].
    + intros pos [Hlt Hp Hat _]. by apply (Hcap pos Hp Hlt).
  - assert (Hrange : ∀ x, x ∈ py_range_down (computed + cap) computed lcm ↔
      computed < x ≤ computed + cap ∧ (lcm | x - computed)).
    { intros x. apply py_range_down_spec; [done|]. by replace (computed + cap - computed) with cap by lia. }
    assert (Hdiv : ∀ x, (lcm | x - computed) ↔ (lcm | x)).
    { intros x. split; [|intros; by apply Z.divide_sub_r].
      intros Hd. replace x with (x - computed + computed) by lia. by apply Z.divide_add_r. }
    assert (Hmax' : ∀ x, usable stored computed x → x ≤ pos).
    { intros x [Hlt Hp Hat Hst]. apply Hmax; [by apply py_range_down_sorted| |apply Hrange|done].
      - apply Forall_forall. intros y [? _]%Hrange. lia.
      - split; [|by apply Hdiv]. split; [done|]. by apply (Hcap x Hp Hlt). }
    split; [lia|]. destruct Hr as [[[Hin Hd]%Hrange Hok]| ->].
    + rewrite -> Z.max_r by lia. split; [done|]. apply (proj1 (Hdiv pos)) in Hd.
      replace (computed + (pos - computed)) with pos by lia. split; [|done].
      intros _. split; [lia|done|apply Hcap; [done|lia..]|done].
    + rewrite -> Z.sub_diag, Z.max_id. split; [apply Z.divide_0_r|]. split; [lia|].
      intros x Hx. apply Hmax' in Hx. lia.
Qed.

End lookup.

(** ** Property *)

(** C17: The hybrid lookup returns the latest boundary a request can resume from:
    it never raises, the tokens it promises end at a boundary common to all the
    groups, every attention block up to it and every state at it are stored, and
    no later boundary has both; it promises nothing when there is none.  The
    store is assumed to answer for a set of blocks. *)
Theorem hla_lookup_latest_boundary `{PyHash} {S} m
    (lookup_on_prefix : list bytes → M S Z) (lookup_all : list bytes → M S (list bool))
    (record_error : M S unit) (I : S → Prop) stored ids computed (s : S) :
  let lcm := lcm_block_size m in
  manager_ok m → answers lookup_on_prefix lookup_all I stored → I s →
  zlen ids = num_groups m → 0 ≤ computed → (lcm | computed) →
  ∃ ext keys s',
    lookup_external_hit_tokens lookup_on_prefix lookup_all record_error m computed ids s =
      (Ok (ext, ext / lcm, keys), s') ∧ 0 ≤ ext ∧
    (0 < ext → usable m ids stored computed (computed + ext)) ∧
    ∀ pos, usable m ids stored computed pos → pos ≤ computed + ext.
Proof.
  intros lcm Hm Ha HI Hids Hc Hd.
  destruct (lookup_latest m Hm lookup_on_prefix lookup_all record_error ids Hids I stored computed s)
    as (ext & keys & s' & Hrun & _ & H0 & _ & Hu & Hmax); [done..|]. eauto 10.
Qed.

(** An attention group with blocks of 2 tokens and a state group with blocks of 4. *)
Definition ex_manager : group_manager :=
  let fa := Group 0 2 ["attn"] [7] false in
  let st := Group 1 4 ["mamba"] [8] true in
  GroupManager [109] [fa; st] [fa] [st] 4.

Lemma ex_manager_ok : manager_ok ex_manager.
Proof.
  split; try done.
  - apply Forall_cons. split; [split; [done|by apply (Z.mod_divide 4 2)]|].
    apply Forall_cons. split; [split; [done|by apply (Z.mod_divide 4 4)]|done].
  - intros [|[|i]] g; [by intros [= <-]..|done].
Qed.

(** A pure store holding the first two attention blocks and the state after them. *)
Definition ex_ids : list (list bytes) := compute_all_group_block_ids ex_manager [1; 2; 3; 4; 5; 6; 7; 8; 9].

Definition ex_stored (b : bytes) : bool :=
  bool_decide (b ∈ take 2 (compute_block_hashes ex_manager (Group 0 2 ["attn"] [7] false)
                             [1; 2; 3; 4; 5; 6; 7; 8; 9])) ||
  match compute_mamba_align_state_hash ex_manager (Group 1 4 ["mamba"] [8] true) 4 ex_ids with
  | Ok (Some h) => bool_decide (b = h)
  | _ => false
  end.

Definition ex_on_prefix (l : list bytes) : M unit Z := mret (stored_prefix ex_stored l - 1).
Definition ex_all (l : list bytes) : M unit (list bool) := mret (ex_stored <$> l).

Lemma hla_lookup_latest_boundary_witness :
  lookup_external_hit_tokens ex_on_prefix ex_all (mret tt) ex_manager 0 ex_ids tt =
    (Ok (4, 1, match state_keys ex_manager ex_ids 4 with Ok keys => keys | _ => [] end), tt) ∧
  ∃ ext keys s',
    lookup_external_hit_tokens ex_on_prefix ex_all (mret tt) ex_manager 0 ex_ids tt =
      (Ok (ext, ext / 4, keys), s') ∧ 0 ≤ ext ∧
    (0 < ext → usable ex_manager ex_ids ex_stored 0 (0 + ext)) ∧
    ∀ pos, usable ex_manager ex_ids ex_stored 0 pos → pos ≤ 0 + ext.
Proof.
  split; [vm_compute; reflexivity|].
  apply (hla_lookup_latest_boundary ex_manager ex_on_prefix ex_all (mret tt) (λ _, True) ex_stored ex_ids 0 tt).
  - apply ex_manager_ok.
  - split; intros; eexists; (split; [reflexivity|done]).
  - done.
  - vm_compute. reflexivity.
  - done.
  - apply Z.divide_0_r.
Defined.
