(* ===== verification/DispatchProps.v ===== *)
(** * Planning of dumps: chunks and one-shot transfers

    Properties of [_generate_dispatch_meta]: running a prompt in chunks dumps
    the same blocks as running it at once, each with its own vLLM block. *)
From S2P Require Import Prelude Runtime RankConsistency PyHash Hashing KVLayout Direct.
Open Scope Z_scope.

Lemma zip_take {A B} (l : list A) (k : list B) n : zip (take n l) (take n k) = take n (zip l k).
Proof. revert l k. induction n; intros [|] [|]; simpl; try done; by rw IHn. Qed.

Lemma zip_drop {A B} (l : list A) (k : list B) n : zip (drop n l) (drop n k) = drop n (zip l k).
Proof.
  revert l k. induction n as [|n IH]; intros [|x l] [|y k]; simpl; try done.
  by destruct (drop n l).
Qed.

Lemma zip_slice {A B} (l : list A) (k : list B) i j :
  0 ≤ i → 0 ≤ j → zip (py_slice l i j) (py_slice k i j) = py_slice (zip l k) i j.
Proof. intros. rewrite -> !py_slice_pos by lia. by rw zip_take zip_drop. Qed.

Lemma zip_upto_length {A B} (l : list A) (k : list B) : zip l (py_upto k (zlen l)) = zip l k.
Proof.
  rewrite -> py_upto_pos by apply zlen_nonneg. unfold zlen. rw Nat2Z.id.
  revert k. induction l as [|x l IH]; intros [|y k]; simpl; try done. by rw IH.
Qed.

Lemma zip_app_slice {A B} (l : list A) (k m : list B) i j :
  0 ≤ i → 0 ≤ j → j ≤ zlen k → py_slice (zip l (k ++ m)) i j = py_slice (zip l k) i j.
Proof.
  intros Hi Hj Hk. rewrite <- !zip_slice by lia. f_equal. by apply py_slice_prefix.
Qed.

Section dispatch.
  Variable cf : conf.
  Hypothesis Hbs : 0 < cf_block_size cf.
  Hypothesis Hcp : 0 < cp_world_size cf.

(** A prompt processed in chunks of [n] tokens with newly allocated vLLM blocks. *)
Fixpoint run_chunks (rm : RequestMeta) (chunks : list (Z * list Z)) :
    RequestMeta * list RequestDispatchMeta :=
  match chunks with
  | [] => (rm, [])
  | (n, blocks) :: chunks =>
      let '(rm', d) := _generate_dispatch_meta cf rm n blocks false in
      let '(rm'', ds) := run_chunks rm' chunks in
      (rm'', d :: ds)
  end.

(** vLLM has allocated a block for every full block of tokens it schedules. *)
Fixpoint allocated (rm : RequestMeta) (chunks : list (Z * list Z)) : Prop :=
  match chunks with
  | [] => True
  | (n, blocks) :: chunks =>
      0 ≤ n ∧
      (rm_token_processed rm + n) / cf_block_size cf ≤ zlen (rm_vllm_block_ids rm ++ blocks) ∧
      allocated (_generate_dispatch_meta cf rm n blocks false).1 chunks
  end.

(** The (UCM block, vLLM block) pairs a dispatch dumps. *)
Definition dumped_pairs (d : RequestDispatchMeta) : list (bytes * Z) :=
  zip (dump_block_ids d).1 (dump_block_ids d).2.

(** One dispatch, whatever its loads. *)
Lemma generate_dispatch_spec rm n blocks b rm' d :
  0 ≤ rm_token_processed rm → 0 ≤ n →
  _generate_dispatch_meta cf rm n blocks b = (rm', d) →
  let p := rm_token_processed rm in
  let p' := rm_token_processed rm' in
  rm_ucm_block_ids rm' = rm_ucm_block_ids rm ∧ rm_num_token_ids rm' = rm_num_token_ids rm ∧
  rm_hbm_hit_block_num rm' = rm_hbm_hit_block_num rm ∧
  rm_total_hit_block_num rm' = rm_total_hit_block_num rm ∧
  rm_vllm_block_ids rm' = rm_vllm_block_ids rm ++ blocks ∧
  p' = (if p <? rm_num_token_ids rm then p + n else p) ∧
  (dump_block_ids d).1 = py_slice (rm_ucm_block_ids rm)
    (p / cf_block_size cf * cp_world_size cf) (p' / cf_block_size cf * cp_world_size cf) ∧
  (cp_world_size cf = 1 → dumped_pairs d =
    py_slice (zip (rm_ucm_block_ids rm) (rm_vllm_block_ids rm'))
      (p / cf_block_size cf) (p' / cf_block_size cf)).
Proof.
  intros Hp Hn. unfold _generate_dispatch_meta.
  assert (0 ≤ rm_token_processed rm / cf_block_size cf) by (apply Z.div_pos; lia).
  assert (0 ≤ (rm_token_processed rm + n) / cf_block_size cf) by (apply Z.div_pos; lia).
  destruct (rm_token_processed rm <? rm_num_token_ids rm) eqn:Hlt; intros [= <- <-]; simpl;
    split_and!; try done.
  - intros Hc. unfold dumped_pairs. simpl. rewrite -> Hc, !Z.mul_1_r.
    case_match; [rw zip_upto_length|]; by apply zip_slice.
  - rewrite -> py_slice_empty; [done|]. split; [apply Z.mul_nonneg_nonneg; lia|lia].
  - intros Hc. unfold dumped_pairs. simpl. rewrite -> py_slice_empty by lia. done.
Qed.

Lemma div_le a b : 0 ≤ a ≤ b → 0 ≤ a / cf_block_size cf ≤ b / cf_block_size cf.
Proof. intros. split; [apply Z.div_pos; lia|apply Z.div_le_mono; lia]. Qed.

Lemma run_chunks_spec chunks : ∀ rm rm' ds,
  0 ≤ rm_token_processed rm → Forall (λ c, 0 ≤ c.1) chunks →
  run_chunks rm chunks = (rm', ds) →
  rm_token_processed rm ≤ rm_token_processed rm' ∧
  rm_ucm_block_ids rm' = rm_ucm_block_ids rm ∧ rm_num_token_ids rm' = rm_num_token_ids rm ∧
  (∃ more, rm_vllm_block_ids rm' = rm_vllm_block_ids rm ++ more) ∧
  (rm_token_processed rm' = rm_token_processed rm + zsum chunks.*1 ∨
   rm_num_token_ids rm ≤ rm_token_processed rm' ≤ rm_token_processed rm + zsum chunks.*1) ∧
  concat ((λ d, (dump_block_ids d).1) <$> ds) = py_slice (rm_ucm_block_ids rm)
    (rm_token_processed rm / cf_block_size cf * cp_world_size cf)
    (rm_token_processed rm' / cf_block_size cf * cp_world_size cf) ∧
  (cp_world_size cf = 1 → allocated rm chunks →
   concat (dumped_pairs <$> ds) = py_slice (zip (rm_ucm_block_ids rm) (rm_vllm_block_ids rm'))
     (rm_token_processed rm / cf_block_size cf) (rm_token_processed rm' / cf_block_size cf)).
Proof.
  induction chunks as [|[n blocks] chunks IH]; intros rm rm' ds Hp Hn Hrun; simpl in Hrun.
  { simplify_eq. pose proof (div_le _ _ (conj Hp (Z.le_refl _))) as Hd. split_and!; try done.
    - exists []. by rw app_nil_r.
    - left. simpl. unfold zsum. simpl. lia.
    - rewrite -> py_slice_empty; [done|]. split; [apply Z.mul_nonneg_nonneg; lia|lia].
    - intros. rewrite -> py_slice_empty by lia. done. }
  destruct (_generate_dispatch_meta cf rm n blocks false) as [rm1 d] eqn:Hd.
  destruct (run_chunks rm1 chunks) as [rm2 ds'] eqn:Hrun'. simplify_eq.
  apply Forall_cons in Hn as [Hn Hns]. simpl in Hn.
  destruct (generate_dispatch_spec _ _ _ _ _ _ Hp Hn Hd) as (Hi & Hnum & _ & _ & Hv & Hp1 & Hdump & Hpairs).
  assert (Hle : rm_token_processed rm ≤ rm_token_processed rm1) by (rw Hp1; case_match; lia).
  destruct (IH rm1 rm' ds' ltac:(lia) Hns Hrun') as (Hle2 & Hi2 & Hnum2 & [more Hm] & Htot & Hdumps & Hps).
  rewrite -> Hi, Hnum in *.
  pose proof (div_le _ _ (conj Hp Hle)) as Hd1.
  pose proof (div_le (rm_token_processed rm1) (rm_token_processed rm') ltac:(lia)) as Hd2.
  split_and!; try lia; try done.
  - exists (blocks ++ more). by rw Hm Hv app_assoc.
  - rewrite -> fmap_cons, zsum_cons. cbn [fst].
    assert (0 ≤ zsum chunks.*1) by (apply zsum_nonneg; by apply Forall_fmap).
    revert Hp1. destruct (Z.ltb_spec (rm_token_processed rm) (rm_num_token_ids rm)); lia.
  - csimpl. rw Hdumps Hdump. rewrite -> py_slice_app by nia. done.
  - intros Hc (_ & Hal & Hals). rewrite -> Hd in Hals. cbn [fst] in Hals. csimpl.
    rw (Hpairs Hc) (Hps Hc Hals). rewrite <- (py_slice_app (zip (rm_ucm_block_ids rm) (rm_vllm_block_ids rm'))
      (rm_token_processed rm / cf_block_size cf) (rm_token_processed rm1 / cf_block_size cf)
      (rm_token_processed rm' / cf_block_size cf)) by lia.
    f_equal. rw Hm. destruct (decide (rm_token_processed rm < rm_num_token_ids rm)).
    + rewrite -> zip_app_slice; [done|lia..|]. rewrite -> Hp1, (proj2 (Z.ltb_lt _ _)), Hv by lia. lia.
    + assert (rm_token_processed rm1 = rm_token_processed rm) as ->.
      { rewrite -> Hp1, (proj2 (Z.ltb_ge _ _)) by lia. done. }
      rewrite -> !py_slice_empty by lia. done.
Qed.

End dispatch.

(** ** Property *)

(** C2: Chunked prefill dumps what a one-shot prefill would.  When the chunks
    scheduled for a prompt reach its end, the dumps of all chunks, in order, are
    the block ids from the first block not yet processed to the last full block,
    each exactly once; and when vLLM has allocated a block for every full block
    it schedules, each of them is paired with the vLLM block of the same
    position of the request, although a chunk only brings its new blocks. *)
Theorem chunked_dumps_cover_prompt cf rm chunks rm' ds :
  0 < cf_block_size cf → 0 < cp_world_size cf → 0 ≤ rm_token_processed rm →
  Forall (λ c, 0 ≤ c.1) chunks → run_chunks cf rm chunks = (rm', ds) →
  rm_num_token_ids rm ≤ rm_token_processed rm + zsum chunks.*1 →
  zlen (rm_ucm_block_ids rm) ≤ rm_num_token_ids rm / cf_block_size cf * cp_world_size cf →
  concat ((λ d, (dump_block_ids d).1) <$> ds) =
    py_from (rm_ucm_block_ids rm) (rm_token_processed rm / cf_block_size cf * cp_world_size cf) ∧
  (cp_world_size cf = 1 → allocated cf rm chunks →
   concat (dumped_pairs <$> ds) =
     py_from (zip (rm_ucm_block_ids rm) (rm_vllm_block_ids rm'))
       (rm_token_processed rm / cf_block_size cf)).
Proof.
  intros Hbs Hcp Hp Hn Hrun Hend Hlen.
  destruct (run_chunks_spec cf Hbs Hcp _ _ _ _ Hp Hn Hrun) as (Hle & _ & _ & _ & Htot & Hd & Hps).
  assert (Hfin : rm_num_token_ids rm / cf_block_size cf ≤ rm_token_processed rm' / cf_block_size cf)
    by (apply Z.div_le_mono; lia).
  assert (0 ≤ rm_token_processed rm / cf_block_size cf) by (apply Z.div_pos; lia).
  split.
  - rw Hd. apply py_slice_from; [apply Z.mul_nonneg_nonneg; lia|nia].
  - intros Hc Hal. rewrite -> (Hps Hc Hal). apply py_slice_from; [lia|].
    assert (zlen (zip (rm_ucm_block_ids rm) (rm_vllm_block_ids rm')) ≤ zlen (rm_ucm_block_ids rm)).
    { unfold zlen. rewrite -> length_zip_with. lia. }
    rewrite -> Hc, Z.mul_1_r in *. lia.
Qed.

(** A configuration of a single-rank worker with blocks of 4 tokens. *)
Definition ex_cf : conf :=
  Conf false false 0 1 4 4 1 [] [] None true false 0 1
    (Layout (Arr1 []) (Arr1 []) (Arr1 []) (Arr1 []) false 1 0 [] 0 8) 512.

Lemma chunked_dumps_cover_prompt_witness :
  let rm := ReqMeta [[1]; [2]; [3]] 0 0 14 [] 0 in
  let chunks := [(5, [21; 22]); (9, [23; 24])] in
  concat ((λ d, (dump_block_ids d).1) <$> (run_chunks ex_cf rm chunks).2) = [[1]; [2]; [3]] ∧
  (1 = 1 → allocated ex_cf rm chunks →
   concat (dumped_pairs <$> (run_chunks ex_cf rm chunks).2) = [([1], 21); ([2], 22); ([3], 23)]).
Proof.
  refine (chunked_dumps_cover_prompt ex_cf (ReqMeta [[1]; [2]; [3]] 0 0 14 [] 0)
    [(5, [21; 22]); (9, [23; 24])] _ _ eq_refl eq_refl _ _ eq_refl _ _).
  - vm_compute. congruence.
  - repeat constructor; vm_compute; congruence.
  - vm_compute. congruence.
  - vm_compute. congruence.
Defined.
