(* ===== verification/SchedProps.v ===== *)
(** * What the scheduler side of the direct connector guarantees

    The number of matched tokens, the invariant of the tracked requests over
    all sequences of scheduler operations, the shape of the planned transfers,
    and the recovery from failed loads. *)
From S2P Require Import Prelude Runtime RankConsistency PyHash Hashing KVLayout Direct DispatchProps Sim.
Open Scope Z_scope.

(** [block_size] is [hash_block_size] times the context-parallel world size. *)
Definition conf_ok (cf : conf) : Prop :=
  0 < hash_block_size cf ∧ 0 < cp_world_size cf ∧
  cf_block_size cf = hash_block_size cf * cp_world_size cf.

(** A tracked request: its hit blocks exist, and the locally cached ones count
    as processed. *)
Definition meta_ok (cf : conf) (rm : RequestMeta) : Prop :=
  0 ≤ rm_hbm_hit_block_num rm ≤ rm_total_hit_block_num rm ∧
  rm_total_hit_block_num rm * cp_world_size cf ≤ zlen (rm_ucm_block_ids rm) ∧
  rm_hbm_hit_block_num rm * cf_block_size cf ≤ rm_token_processed rm.

Definition memo_ok (cf : conf) (c : conn) : Prop :=
  recompute_tokens c = None ∨ recompute_tokens c = Some (full_hit_recompute_tokens cf).

Section sched.
  Context {W : Type} `{StoreLaws W} `{DeviceOps W} `{SetOrder} `{PyHash}.
  Variable cf : conf.
  Hypothesis Hcf : conf_ok cf.

Lemma block_size_pos : 0 < cf_block_size cf.
Proof. destruct Hcf as (? & ? & ->). lia. Qed.

Lemma recompute_pos : 1 ≤ full_hit_recompute_tokens cf.
Proof. unfold full_hit_recompute_tokens. repeat case_match; lia. Qed.

Lemma lookup_on_prefix_bounds st ids (s s' : manager * W) n :
  ids ≠ [] → lookup_on_prefix st ids s = (Ok n, s') → -1 ≤ n < zlen ids.
Proof.
  intros Hne. unfold lookup_on_prefix, on_store. munfold. destruct (enabled s.1); simpl.
  - set (v := match tracker_ s.1 with Some t => valid_prefix t ids | None => ids end).
    assert (Hv : zlen v ≤ zlen ids).
    { unfold v. destruct (tracker_ s.1) as [t|]; [|lia].
      destruct (valid_prefix_prefix t ids) as [k Hk]. rewrite -> Hk at 2. rw zlen_app.
      pose proof (zlen_nonneg k). lia. }
    destruct v as [|b v'] eqn:Ev; munfold.
    + intros [= <- <-]. pose proof (zlen_nonneg ids).
      destruct ids; [done|]. rewrite -> zlen_cons in *. pose proof (zlen_nonneg ids). lia.
    + destruct (st_lookup_on_prefix st (b :: v') s.2) as [[m|e] w] eqn:Hl; intros [= <- <-].
      apply st_prefix_bounds in Hl. lia.
  - destruct (st_lookup_on_prefix st ids s.2) as [[m|e] w] eqn:Hl; intros [= <- <-].
    by apply st_prefix_bounds in Hl.
Qed.

Lemma lookup_external_spec ext (s : conn * W) :
  ∃ n s', lookup_external cf ext s = (Ok n, s') ∧ 0 ≤ n ∧ n * cp_world_size cf ≤ zlen ext ∧
    requests_meta s'.1 = requests_meta s.1 ∧ recompute_tokens s'.1 = recompute_tokens s.1.
Proof.
  destruct Hcf as (_ & Hcp & _). pose proof (zlen_nonneg ext).
  unfold lookup_external. destruct ext as [|b ext']; [by eexists 0, s|].
  set (ext := b :: ext') in *. unfold on_rc, _prefetch_other_rank_hashes, _record_counter,
    update_stats, updc, on_w. munfold.
  destruct (lookup_on_prefix (store cf) ext (rank_consistency s.1, s.2)) as [[n|e] t] eqn:Hl; simpl.
  2:{ eexists 0, _. split; [done|]. simpl. split_and!; try done; lia. }
  apply lookup_on_prefix_bounds in Hl; [|done].
  assert (0 ≤ (n + 1) / cp_world_size cf) by (apply Z.div_pos; lia).
  assert ((n + 1) / cp_world_size cf * cp_world_size cf ≤ zlen ext).
  { pose proof (Z.mul_div_le (n + 1) (cp_world_size cf) Hcp). lia. }
  destruct (other_rank_hashers cf) as [|h hs]; simpl; [by eauto 10|].
  destruct (py_upto ext (n + 1)) as [|x xs]; simpl; [by eauto 10|].
  destruct (st_prefetch _ _ _) as [[[]|e] w]; simpl; [by eauto 10|].
  eexists 0, _. split; [done|]. simpl. split_and!; try done; lia.
Qed.

Lemma recompute_spec (s : conn * W) :
  memo_ok cf s.1 →
  ∃ s', _get_full_hit_recompute_tokens cf s = (Ok (full_hit_recompute_tokens cf), s') ∧
    requests_meta s'.1 = requests_meta s.1 ∧ memo_ok cf s'.1.
Proof.
  unfold _get_full_hit_recompute_tokens, getc, updc. munfold.
  intros [Hm|Hm]; rw Hm; munfold; eexists; (split; [done|]); unfold memo_ok; simpl; auto.
Qed.

(** The capped number of external tokens. *)
Lemma cap_external_bounds num total ext rec :
  0 ≤ ext → ext ≤ total →
  let n := cap_external_tokens num total ext rec in
  0 ≤ n ≤ ext ∧ (n = 0 ∨ total - ext + n + rec ≤ num).
Proof. intros. unfold cap_external_tokens in *. destruct (Z.ltb_spec (num - total) rec); lia. Qed.

(** The hit blocks the store is asked for when a request is matched. *)
Definition lookup_hits (r : request) (computed : Z) (s : conn * W) : Z :=
  let ids := generate_hash (hash_meta cf) (hash_block_size cf) (all_token_ids r) (hash_seed (hash_meta cf)) in
  match (lookup_external cf (py_from ids (computed / cf_block_size cf * cp_world_size cf)) s).1 with Ok n => n | Raise _ => 0 end.

(** What one call of [get_num_new_matched_tokens] does. *)
Lemma matched_spec r computed (s : conn * W) :
  memo_ok cf s.1 → 0 ≤ computed → computed mod cf_block_size cf = 0 →
  ∃ n s', get_num_new_matched_tokens cf r computed s = (Ok (n, false), s') ∧
    memo_ok cf s'.1 ∧ 0 ≤ n ∧
    (n = 0 ∨ computed + n + full_hit_recompute_tokens cf ≤ num_tokens r) ∧
    ((n = 0 ∧ requests_meta s'.1 = requests_meta s.1) ∨
     ∃ rm, requests_meta s'.1 = dict_set (request_id r) rm (requests_meta s.1) ∧ meta_ok cf rm ∧
       rm_ucm_block_ids rm = generate_hash (hash_meta cf) (hash_block_size cf) (all_token_ids r)
                               (hash_seed (hash_meta cf)) ∧
       rm_hbm_hit_block_num rm * cf_block_size cf = computed ∧ rm_vllm_block_ids rm = [] ∧
       rm_num_token_ids rm = zlen (all_token_ids r) ∧ rm_token_processed rm = computed + n ∧
       rm_token_processed rm ≤ rm_total_hit_block_num rm * cf_block_size cf ∧
       rm_total_hit_block_num rm = rm_hbm_hit_block_num rm + lookup_hits r computed s).
Proof.
  intros Hmemo Hc Hmod. pose proof block_size_pos as Hbs. destruct Hcf as (Hh & Hcp & Hbeq).
  unfold get_num_new_matched_tokens, assert_. rewrite -> (proj2 (Z.eqb_eq _ _) Hmod).
  set (ids := generate_hash _ _ _ _). set (hbm := computed / cf_block_size cf).
  assert (Hhbm : hbm * cf_block_size cf = computed).
  { unfold hbm. pose proof (Z.div_mod computed (cf_block_size cf)). lia. }
  assert (Hhbm0 : 0 ≤ hbm) by (apply Z.div_pos; lia).
  assert (Hdef : computed / cf_block_size cf = hbm) by done. clearbody hbm.
  destruct (num_tokens r <? persist_token_threshold cf).
  { munfold. exists 0, s. split; [done|]. split_and!; auto. lia. }
  set (ext := py_from ids (hbm * cp_world_size cf)).
  destruct (lookup_external_spec ext s) as (hits & s1 & Hl & Hhits & Hext & Hrm & Hrec).
  assert (Hlk : lookup_hits r computed s = hits) by (unfold lookup_hits; rewrite -> Hdef; fold ids ext; by rewrite -> Hl).
  change (mret tt) with (λ s : conn * W, (Ok tt, s)). unfold mbind at 1, M_bind.
  unfold mbind at 1, M_bind. rw Hl. destruct ext as [|e0 ext'] eqn:Hexteq.
  { exists 0, s1. split; [done|]. split_and!; [|lia|lia|auto]. unfold memo_ok in *. by rw Hrec. }
  fold ext in Hexteq. rewrite <- Hexteq in Hext.
  unfold update_stats, updc. munfold.
  set (c1 := set_metrics _ s1.1).
  destruct (recompute_spec (c1, s1.2)) as (s2 & Hr2 & Hrm2 & Hm2).
  { unfold memo_ok in *. simpl. by rw Hrec. }
  rw Hr2. eexists _, _. split; [reflexivity|]. simpl.
  assert (Hidx : hbm * cp_world_size cf + zlen ext ≤ zlen ids).
  { subst ext. rewrite -> py_from_pos in * by nia. unfold zlen in *. rewrite -> length_drop in *.
    assert (length (drop (Z.to_nat (hbm * cp_world_size cf)) ids) ≠ 0%nat) by (by rw Hexteq).
    rewrite -> length_drop in *. lia. }
  destruct (cap_external_bounds (num_tokens r) ((hbm + hits) * cf_block_size cf)
    (hits * cf_block_size cf) (full_hit_recompute_tokens cf)) as [Hb1 Hb2]; [nia|nia|].
  split_and!; [done|lia|destruct Hb2; [by left|right; nia]|].
  right. eexists. simpl in Hrm2. split; [by rw Hrm2 Hrm|]. unfold meta_ok. simpl.
  rewrite -> Hlk. split_and!; try done; try nia.
Qed.

(** ** The invariant of tracked requests *)

Definition metas_ok (metas : dict string RequestMeta) : Prop :=
  NoDup metas.*1 ∧ Forall (λ kv, meta_ok cf kv.2) metas.

Definition sched_inv (s : conn * W) : Prop := metas_ok (requests_meta s.1) ∧ memo_ok cf s.1.

Lemma metas_ok_set id rm metas : metas_ok metas → meta_ok cf rm → metas_ok (dict_set id rm metas).
Proof.
  intros [Hnd Hall] Hrm. split; [auto with ucm|]. clear Hnd.
  induction metas as [|[k v] metas IH]; simpl; [by apply Forall_singleton|].
  apply Forall_cons in Hall as [Hv Hall]. case_decide; constructor; auto.
Qed.

Lemma metas_ok_filter (P : string * RequestMeta → Prop) `{!∀ x, Decision (P x)} metas :
  metas_ok metas → metas_ok (filter P metas).
Proof.
  intros [Hnd Hall]. split.
  - clear Hall. induction metas as [|[k v] metas IH]; csimpl in *; [constructor|].
    apply NoDup_cons in Hnd as [Hk Hnd]. rw filter_cons. case_decide; csimpl; [|auto].
    apply NoDup_cons. split; [|auto]. intros Hin. apply Hk.
    apply list_elem_of_fmap in Hin as (kv & -> & Hkv). apply list_elem_of_filter in Hkv as [_ Hkv].
    apply list_elem_of_fmap. eauto.
  - rewrite -> Forall_forall in *. intros x Hx. apply list_elem_of_filter in Hx as [_ Hx]. auto.
Qed.

Lemma metas_ok_get id rm metas : metas_ok metas → dict_get id metas = Some rm → meta_ok cf rm.
Proof.
  intros [_ Hall] Hg. apply dict_get_Some_elem in Hg. rewrite -> Forall_forall in Hall.
  by apply (Hall (id, rm)).
Qed.

Lemma meta_ok_processed rm : meta_ok cf rm → 0 ≤ rm_token_processed rm.
Proof. pose proof block_size_pos. intros ([? ?] & ? & ?). nia. Qed.

(** vLLM schedules a non-negative number of tokens. *)
Definition so_ok (so : scheduler_output) : Prop :=
  Forall (λ kv, 0 ≤ kv.2) (num_scheduled_tokens so).

Lemma failed_load_ok meta metas id : metas_ok metas → metas_ok (failed_load cf meta metas id).
Proof.
  intros Hm. unfold failed_load. destruct (dict_get id metas) as [rm|] eqn:Hg;
    [|by apply metas_ok_filter].
  case_decide; [|by apply metas_ok_filter]. apply metas_ok_set; [done|].
  destruct (metas_ok_get _ _ _ Hm Hg) as (? & ? & ?). destruct Hcf as (? & ? & ?).
  unfold meta_ok. simpl. split_and!; try lia; nia.
Qed.

End sched.

(** The effect of a worker's report on one tracked request. *)
Definition recovered (cf : conf) (meta : worker_meta) (id : string) (rm : RequestMeta) :
    option RequestMeta :=
  if decide (id ∈ wm_load_failed_reqs meta) then
    if decide (id ∈ wm_missing_reqs meta) then
      Some (ReqMeta (rm_ucm_block_ids rm) (rm_hbm_hit_block_num rm) (rm_hbm_hit_block_num rm)
        (rm_num_token_ids rm) (rm_vllm_block_ids rm) (rm_hbm_hit_block_num rm * cf_block_size cf))
    else None
  else Some rm.

Lemma failed_load_get cf meta metas id id' :
  dict_get id' (failed_load cf meta metas id) =
  if decide (id = id') then
    if decide (id' ∈ wm_missing_reqs meta) then
      (λ rm, ReqMeta (rm_ucm_block_ids rm) (rm_hbm_hit_block_num rm) (rm_hbm_hit_block_num rm)
        (rm_num_token_ids rm) (rm_vllm_block_ids rm) (rm_hbm_hit_block_num rm * cf_block_size cf))
        <$> dict_get id' metas
    else None
  else dict_get id' metas.
Proof.
  unfold failed_load. destruct (dict_get id metas) as [rm|] eqn:Hg.
  - destruct (decide (id ∈ wm_missing_reqs meta)); rewrite -> ?dict_get_set, ?dict_get_del;
      case_decide; subst; try done.
    + by rw decide_True // Hg.
    + by rw decide_False.
  - rewrite -> dict_get_del. case_decide; [subst|done]. rw Hg. by case_decide.
Qed.

Lemma failed_loads_get cf meta ids : ∀ metas id,
  NoDup ids →
  dict_get id (foldl (failed_load cf meta) metas ids) =
  if decide (id ∈ ids) then dict_get id (failed_load cf meta metas id) else dict_get id metas.
Proof.
  induction ids as [|i ids IH]; intros metas id Hnd; cbn [foldl].
  { case_decide as Hin; [by apply elem_of_nil in Hin|done]. }
  apply NoDup_cons in Hnd as [Hi Hnd]. rewrite -> (IH _ _ Hnd).
  destruct (decide (id = i)) as [->|Hne].
  - rewrite -> decide_False, decide_True by (done || by left). done.
  - destruct (decide (id ∈ ids)).
    + rewrite -> decide_True by (by right). rewrite -> !failed_load_get, !(decide_True (P := id = id)) by done.
      rewrite -> (decide_False (P := i = id)) by congruence. done.
    + rewrite -> decide_False by (rw elem_of_cons; tauto). rewrite -> failed_load_get.
      by rewrite -> (decide_False (P := i = id)) by congruence.
Qed.

(** ** Properties *)

(** C3: Matching never raises on a block-aligned request and never promises too
    much: the number of external tokens is non-negative, and when it is positive
    at least [recompute] tokens of the request remain to be computed (1, or more
    for layerwise models).  A request with hits is tracked with its block chain,
    the locally computed blocks, hit blocks that exist in the chain, and exactly
    the matched tokens counted as processed. *)
Theorem matched_tokens_sound {W} `{StoreLaws W} `{SetOrder} `{PyHash} cf r computed (s : conn * W) :
  conf_ok cf → memo_ok cf s.1 → 0 ≤ computed → computed mod cf_block_size cf = 0 →
  ∃ n s', get_num_new_matched_tokens cf r computed s = (Ok (n, false), s') ∧ 0 ≤ n ∧
    (n = 0 ∨ computed + n + full_hit_recompute_tokens cf ≤ num_tokens r) ∧
    ((n = 0 ∧ requests_meta s'.1 = requests_meta s.1) ∨
     ∃ rm, requests_meta s'.1 = dict_set (request_id r) rm (requests_meta s.1) ∧ meta_ok cf rm ∧
       rm_ucm_block_ids rm = generate_hash (hash_meta cf) (hash_block_size cf) (all_token_ids r)
                               (hash_seed (hash_meta cf)) ∧
       rm_hbm_hit_block_num rm * cf_block_size cf = computed ∧ rm_vllm_block_ids rm = [] ∧
       rm_num_token_ids rm = zlen (all_token_ids r) ∧ rm_token_processed rm = computed + n ∧
       rm_token_processed rm ≤ rm_total_hit_block_num rm * cf_block_size cf).
Proof.
  intros Hcf Hm Hc Hmod. destruct (matched_spec cf Hcf r computed s Hm Hc Hmod)
    as (n & s' & Hrun & _ & Hn & Hrec & Hcase). exists n, s'. split_and!; [done..|].
  destruct Hcase as [?|(rm & Hm' & Hok & Hids & Hhbm & Hv & Hnum & Hp & Hle & _)]; [by left|right; by exists rm].
Qed.

(** A scheduler whose store holds every block of the request [ex_req]. *)
Definition ex_req : request := Req "r" [1; 2; 3; 4; 5; 6; 7; 8] 8 8.

Definition ex_sched : conn * sim :=
  (init_conn true None false,
   sim_init (pair 1 <$> generate_hash [] 4 (all_token_ids ex_req) (hash_seed [])) []).

Lemma matched_tokens_sound_witness :
  (get_num_new_matched_tokens ex_cf ex_req 0 ex_sched).1 = Ok (7, false) ∧
  ∃ n s', get_num_new_matched_tokens ex_cf ex_req 0 ex_sched = (Ok (n, false), s') ∧ 0 ≤ n ∧
    (n = 0 ∨ 0 + n + full_hit_recompute_tokens ex_cf ≤ 8).
Proof.
  split; [vm_compute; reflexivity|].
  destruct (matched_tokens_sound ex_cf ex_req 0 ex_sched) as (n & s' & Hrun & Hn & Hr & _).
  - vm_compute. auto.
  - by left.
  - lia.
  - reflexivity.
  - exists n, s'. split; [exact Hrun|]. split; [exact Hn|exact Hr].
Defined.

(** C27: A worker's report changes exactly the requests whose load failed: a
    request with a missing block stays tracked, with its external hits dropped
    and its progress reset to the locally cached blocks, so that its blocks are
    recomputed and dumped again; after any other failure the request is no longer
    tracked and dumps nothing more; every other request is left alone. *)
Theorem failed_load_recovery {W} cf meta (s s' : conn * W) `{SetOrder} :
  update_connector_output cf (Some meta) s = (Ok tt, s') →
  ∀ id, dict_get id (requests_meta s'.1) =
        dict_get id (requests_meta s.1) ≫= recovered cf meta id.
Proof.
  unfold update_connector_output, updc. munfold. intros [= <-] id. simpl.
  rewrite -> failed_loads_get by apply NoDup_elements. unfold recovered.
  destruct (decide (id ∈ elements (wm_load_failed_reqs meta))) as [Hin|Hin];
    rewrite -> elem_of_elements in Hin.
  - rewrite -> failed_load_get, decide_True by done.
    destruct (dict_get id (requests_meta s.1)) as [rm|]; simpl;
      [rewrite -> (decide_True (P := id ∈ wm_load_failed_reqs meta)) by done|];
      by case_decide.
  - destruct (dict_get id (requests_meta s.1)); simpl; [|done]. by rewrite -> decide_False by done.
Qed.

Lemma failed_load_recovery_witness :
  let meta := WorkerMeta false {["r"]} {["r"]} ∅ ∅ in
  let rm := ReqMeta [[1]; [2]] 1 2 8 [5; 6] 7 in
  let s := (set_requests_meta [("r", rm)] (init_conn true None false), sim_init [] []) in
  dict_get "r" (requests_meta (update_connector_output ex_cf (Some meta) s).2.1) =
    Some (ReqMeta [[1]; [2]] 1 1 8 [5; 6] 4).
Proof.
  intros meta rm s.
  refine (eq_trans (failed_load_recovery ex_cf meta s _ eq_refl "r") _).
  vm_compute. reflexivity.
Defined.
