(* ===== verification/PlanProps.v ===== *)
(** * What the planned transfers of the direct connector are

    Every transfer planned by [build_connector_meta] is traced back to the matching of
    its request: which blocks the store was asked for, where they go, and which blocks
    of the prompt a scheduled chunk completes. *)
From S2P Require Import Prelude Runtime RankConsistency PyHash Hashing KVLayout Direct DispatchProps SchedProps Sim.
Open Scope Z_scope.

(** A call of [get_num_new_matched_tokens]: the request, the tokens computed locally
    and the hit blocks found in the store. *)
Record matching := Matching {
  mt_request : request;
  mt_computed : Z;
  mt_hits : Z;
}.

Definition chain_of `{PyHash} (cf : conf) (r : request) : list bytes :=
  generate_hash (hash_meta cf) (hash_block_size cf) (all_token_ids r) (hash_seed (hash_meta cf)).

(** The elements [i] to [j - 1]. *)
Definition segment {A} (l : list A) (i j : Z) : list A := take (Z.to_nat (j - i)) (drop (Z.to_nat i) l).

(** A tracked request is as it was matched: its chain, its locally cached blocks, and the
    hit blocks of the store, all of them or, after a failed load, none. *)
Record tracked_as `{PyHash} (cf : conf) (id : string) (m : matching) (rm : RequestMeta) : Prop := TrackedAs {
  ta_id : request_id (mt_request m) = id;
  ta_chain : rm_ucm_block_ids rm = chain_of cf (mt_request m);
  ta_tokens : rm_num_token_ids rm = zlen (all_token_ids (mt_request m));
  ta_local : rm_hbm_hit_block_num rm * cf_block_size cf = mt_computed m;
  ta_hits : rm_total_hit_block_num rm = rm_hbm_hit_block_num rm + mt_hits m ∨
            rm_total_hit_block_num rm = rm_hbm_hit_block_num rm;
}.

(** How a scheduler output names a request: its new vLLM blocks and whether its hits
    have to be loaded. *)
Inductive scheduled_as (so : scheduler_output) (id : string) : list Z → bool → Prop :=
  | scheduled_new blocks : (id, blocks) ∈ scheduled_new_reqs so → scheduled_as so id blocks true
  | scheduled_old l blocks resumed : scheduled_cached_reqs so = CachedList l → (id, blocks, resumed) ∈ l →
      scheduled_as so id blocks resumed
  | scheduled_data ids nb flags (i : nat) blocks resumed : scheduled_cached_reqs so = CachedData ids nb flags →
      ids !! i = Some id → cached_args nb flags (Z.of_nat i) id = Ok (blocks, resumed) → scheduled_as so id blocks resumed.

Definition cached_ids (c : cached_reqs) : list string :=
  match c with CachedList l => l.*1.*1 | CachedData ids _ _ => ids end.
Definition scheduled_ids (so : scheduler_output) : list string := (scheduled_new_reqs so).*1 ++ cached_ids (scheduled_cached_reqs so).

Lemma scheduled_as_id so id blocks resumed : scheduled_as so id blocks resumed → id ∈ scheduled_ids so.
Proof.
  unfold scheduled_ids. destruct 1 as [blocks Hin|l blocks resumed E Hin|ids nb flags i blocks resumed E Hid _]; apply elem_of_app.
  - left. apply list_elem_of_fmap. by exists (id, blocks).
  - right. rewrite -> E. cbn. apply list_elem_of_fmap. exists (id, blocks). split; [done|]. apply list_elem_of_fmap. by exists (id, blocks, resumed).
  - right. rewrite -> E. by eapply list_elem_of_lookup_2.
Qed.

(** The loads of a request: its hit blocks in the store, each into the vLLM block of its
    place, when it starts or resumes; nothing otherwise. *)
Definition loads_hits (cf : conf) (rm : RequestMeta) (blocks : list Z) (resumed : bool) (d : RequestDispatchMeta) : Prop :=
  let hbm := rm_hbm_hit_block_num rm in
  let total := rm_total_hit_block_num rm in
  if resumed then
    (load_block_ids d).1 = segment (rm_ucm_block_ids rm) (hbm * cp_world_size cf) (total * cp_world_size cf) ∧
    zlen (load_block_ids d).1 = (total - hbm) * cp_world_size cf ∧
    (load_block_ids d).2 = segment blocks hbm total
  else load_block_ids d = ([], []).

(** The dumps of a request: the blocks that the tokens of this step complete, each from
    the vLLM block of its place. *)
Definition dumps_completed (cf : conf) (rm : RequestMeta) (blocks : list Z) (n : Z) (d : RequestDispatchMeta) : Prop :=
  let p := rm_token_processed rm in
  let first := p / cf_block_size cf in
  let last := (if p <? rm_num_token_ids rm then p + n else p) / cf_block_size cf in
  rm_hbm_hit_block_num rm ≤ first ≤ last ∧
  (dump_block_ids d).1 = segment (rm_ucm_block_ids rm) (first * cp_world_size cf) (last * cp_world_size cf) ∧
  (cp_world_size cf = 1 → dumped_pairs d = segment (zip (rm_ucm_block_ids rm) (rm_vllm_block_ids rm ++ blocks)) first last).

(** vLLM schedules a request once in a step, for a number of tokens. *)
Definition step_ok (so : scheduler_output) : Prop := so_ok so ∧ NoDup (scheduled_ids so).

Section plan.
  Context {W : Type} `{StoreLaws W} `{DeviceOps W} `{SetOrder} `{PyHash}.
  Variable cf : conf.
  Hypothesis Hcf : conf_ok cf.

(** The calls of the scheduler, with the matchings so far. *)
Inductive sched_run (s0 : conn * W) : list matching → conn * W → Prop :=
  | run_start : sched_run s0 [] s0
  | run_match hist s r computed : sched_run s0 hist s → 0 ≤ computed →
      sched_run s0 (Matching r computed (lookup_hits cf r computed s) :: hist) (get_num_new_matched_tokens cf r computed s).2
  | run_build hist s so : sched_run s0 hist s → step_ok so → sched_run s0 hist (build_connector_meta cf so s).2
  | run_output hist s o : sched_run s0 hist s → sched_run s0 hist (update_connector_output cf o s).2
  | run_finished hist s id : sched_run s0 hist s → sched_run s0 hist (request_finished id s).2.

Definition tracked (hist : list matching) (metas : dict string RequestMeta) : Prop :=
  ∀ id rm, dict_get id metas = Some rm → ∃ m, m ∈ hist ∧ tracked_as cf id m rm.

Definition plan_inv (hist : list matching) (s : conn * W) : Prop := sched_inv cf s ∧ tracked hist (requests_meta s.1).

Lemma tracked_set hist id m rm metas : tracked hist metas → m ∈ hist → tracked_as cf id m rm → tracked hist (dict_set id rm metas).
Proof. intros Ht Hm Has id' rm'. rewrite -> dict_get_set. case_decide; [subst; intros [= <-]; eauto|apply Ht]. Qed.

Lemma tracked_filter hist (P : string * RequestMeta → Prop) `{!∀ x, Decision (P x)} metas :
  NoDup metas.*1 → tracked hist metas → tracked hist (filter P metas).
Proof.
  intros Hnd Ht id rm Hg%dict_get_Some_elem. apply list_elem_of_filter in Hg as [_ Hg]. apply Ht. by apply dict_elem_get.
Qed.

(** ** One request *)

Lemma meta_ok_step rm n blocks b rm' d : meta_ok cf rm → 0 ≤ n → _generate_dispatch_meta cf rm n blocks b = (rm', d) →
  meta_ok cf rm' ∧ loads_hits cf rm blocks b d ∧ dumps_completed cf rm blocks n d ∧
  ∀ id m, tracked_as cf id m rm → tracked_as cf id m rm'.
Proof.
  intros Hok Hn Hd. pose proof (block_size_pos cf Hcf) as Hbs. destruct Hcf as (Hh & Hcp & _).
  pose proof (meta_ok_processed cf Hcf rm Hok) as Hp. destruct Hok as ([Hh0 Hht] & Htot & Hproc).
  destruct (generate_dispatch_spec cf Hbs Hcp rm n blocks b rm' d Hp Hn Hd) as (Hi & Hnum & Hhb & Htt & Hv & Hp' & Hdump & Hpairs).
  set (p := rm_token_processed rm) in *. rewrite -> Hp', Hv in *.
  assert (Hle : p ≤ (if p <? rm_num_token_ids rm then p + n else p)) by (case_match; lia).
  assert (Hfirst : rm_hbm_hit_block_num rm ≤ p / cf_block_size cf) by (apply Z.div_le_lower_bound; lia).
  pose proof (Z.div_le_mono _ _ (cf_block_size cf) Hbs Hle) as Hlast.
  split_and!.
  - unfold meta_ok. rewrite -> Hi, Hhb, Htt, Hp'. lia.
  - assert (Hload : load_block_ids d = if b then
        (py_slice (rm_ucm_block_ids rm) (rm_hbm_hit_block_num rm * cp_world_size cf) (rm_total_hit_block_num rm * cp_world_size cf),
         py_slice blocks (rm_hbm_hit_block_num rm) (rm_total_hit_block_num rm)) else ([], [])).
    { clear -Hd. revert Hd. unfold _generate_dispatch_meta. case_match; by intros [= _ <-]. }
    unfold loads_hits. rewrite -> Hload. destruct b; [|done]. cbn [fst snd]. rewrite -> py_slice_length by nia.
    split_and!; [by apply py_slice_pos; nia|lia|by apply py_slice_pos; lia].
  - split; [done|]. fold p. split.
    + rewrite -> Hdump. apply py_slice_pos; nia.
    + intros Hc. rewrite -> (Hpairs Hc). apply py_slice_pos; lia.
  - intros id m [H1' H2' H3' H4' H5']. split; congruence || (rewrite -> ?Hhb, ?Htt; done).
Qed.

(** ** One step *)

(** What the plan holds for a request, in terms of the state [s0] before the step. *)
Definition planned (so : scheduler_output) (s0 : conn * W) (id : string) (d : RequestDispatchMeta) : Prop :=
  ∃ rm blocks resumed n, dict_get id (requests_meta s0.1) = Some rm ∧ scheduled_as so id blocks resumed ∧
    dict_get id (num_scheduled_tokens so) = Some n ∧ loads_hits cf rm blocks resumed d ∧ dumps_completed cf rm blocks n d.

(** After the requests of [seen]: the others are as before, and the plan holds the tracked
    ones of [seen]. *)
Record plan_at (hist : list matching) (so : scheduler_output) (s0 : conn * W) (seen : list string)
    (disp : dict string RequestDispatchMeta) (s : conn * W) : Prop := PlanAt {
  pa_inv : plan_inv hist s;
  pa_rest : ∀ id, id ∉ seen → dict_get id (requests_meta s.1) = dict_get id (requests_meta s0.1);
  pa_planned : ∀ id d, (id, d) ∈ disp → planned so s0 id d;
  pa_complete : ∀ id, id ∈ seen → is_Some (dict_get id (requests_meta s0.1)) → id ∈ disp.*1;
}.

Lemma dispatch_request_plan hist so s0 seen id args disp :
  so_ok so → id ∉ seen → (∀ blocks resumed, args = Ok (blocks, resumed) → scheduled_as so id blocks resumed) →
  triple (plan_at hist so s0 seen disp) (dispatch_request (W := W) cf so id args disp)
    (λ disp' s, plan_at hist so s0 (seen ++ [id]) disp' s) (plan_inv hist).
Proof.
  intros Hso Hid Hargs s [ [Hinv Ht] Hrest Hpl Hcomp]. unfold dispatch_request, getc, updc. munfold.
  destruct (dict_get id (requests_meta s.1)) as [rm|] eqn:Hg; cycle 1.
  { split; [by split| |done|].
    - intros id' Hn. apply Hrest. set_solver.
    - intros id' [Hin|Hin%list_elem_of_singleton]%elem_of_app Hs; [auto|]. subst id'.
      rewrite -> Hrest in Hg by done. rewrite -> Hg in Hs. by destruct Hs. }
  unfold of_res. destruct args as [ [blocks b]|e]; [|by split]. munfold.
  destruct (dict_index id (num_scheduled_tokens so)) as [n|e] eqn:Hn; [|by split].
  unfold dict_index in Hn. destruct (dict_get id (num_scheduled_tokens so)) as [n'|] eqn:Hn'; [|done]. injection Hn as ->.
  assert (Hnn : 0 ≤ n).
  { pose proof Hn' as He. apply dict_get_Some_elem in He. unfold so_ok in Hso. rewrite -> Forall_forall in Hso. by apply (Hso _ He). }
  destruct (_generate_dispatch_meta cf rm n blocks b) as [rm' d] eqn:Hgen. pose proof Hinv as [Hm Hmemo].
  destruct (meta_ok_step _ _ _ _ _ _ (metas_ok_get cf _ _ _ Hm Hg) Hnn Hgen) as (Hok & Hload & Hdump & Has).
  destruct (Ht id rm Hg) as (m & Hmh & Htr). munfold. split; cbn.
  - split; [split; cbn; [by apply metas_ok_set|done]|]. cbn. eapply tracked_set; eauto.
  - intros id' Hni. rewrite -> dict_get_set_ne by set_solver. apply Hrest. set_solver.
  - intros id' d' [ [= -> ->]|Hin]%dict_set_elem; [|by apply Hpl].
    exists rm, blocks, b, n. rewrite <- Hrest by done. split_and!; [done|by apply Hargs|done|done|done].
  - intros id' Hin Hs. apply dict_set_keys. apply elem_of_app in Hin as [Hin|Hin%list_elem_of_singleton]; [right; auto|by left].
Qed.

Lemma dispatch_loop {A} hist so s0 (key : A → string) (args : A → res (list Z * bool)) (l : list A) : so_ok so →
  (∀ x blocks resumed, x ∈ l → args x = Ok (blocks, resumed) → scheduled_as so (key x) blocks resumed) → ∀ seen disp,
  NoDup (seen ++ (key <$> l)) →
  triple (plan_at hist so s0 seen disp) (for_fold l disp (λ disp x, dispatch_request (W := W) cf so (key x) (args x) disp))
    (λ disp' s, plan_at hist so s0 (seen ++ (key <$> l)) disp' s) (plan_inv hist).
Proof.
  intros Hso. induction l as [|x l IH]; intros Hargs seen disp Hnd; cbn [for_fold].
  - csimpl. rewrite -> app_nil_r. apply triple_ret.
  - assert (Heq : seen ++ (key <$> x :: l) = (seen ++ [key x]) ++ (key <$> l)) by (by rewrite <- app_assoc).
    rewrite -> Heq in *. eapply triple_bind.
    + apply dispatch_request_plan; [done| |intros ? ? ?; by apply Hargs; [left|]].
      apply NoDup_app in Hnd as [Hnd _]. apply NoDup_app in Hnd as (_ & Hd & _). intros Hin. apply (Hd _ Hin). left.
    + intros disp'. apply (IH (λ y b r Hy, Hargs y b r (list_elem_of_further _ _ _ Hy)) (seen ++ [key x]) disp' Hnd).
Qed.

Lemma dispatch_cached_plan hist so s0 seen disp : so_ok so → NoDup (seen ++ cached_ids (scheduled_cached_reqs so)) →
  triple (plan_at hist so s0 seen disp) (dispatch_cached (W := W) cf so disp)
    (λ disp' s, plan_at hist so s0 (seen ++ cached_ids (scheduled_cached_reqs so)) disp' s) (plan_inv hist).
Proof.
  intros Hso Hnd. unfold dispatch_cached. destruct (scheduled_cached_reqs so) as [l|ids nb flags] eqn:E; cbn [cached_ids] in *.
  - rewrite <- list_fmap_compose in *. apply (dispatch_loop hist so s0 (λ x, x.1.1) (λ x, Ok (x.1.2, x.2))); [done| |done].
    intros [ [id blocks] b] ? ? Hx [= <- <-]. by eapply scheduled_old.
  - assert (Hk : snd <$> zip (seqZ 0 (zlen ids)) ids = ids).
    { apply snd_zip. rewrite -> length_seqZ. unfold zlen. lia. }
    rewrite <- Hk in Hnd. replace (seen ++ ids) with (seen ++ (zip (seqZ 0 (zlen ids)) ids).*2) by (by rewrite -> Hk).
    apply (dispatch_loop hist so s0 snd (λ x, cached_args nb flags x.1 x.2)); [done| |done].
    intros [i id] blocks b [k Hx]%list_elem_of_lookup Hargs. apply lookup_zip_Some in Hx as [Hi Hid].
    apply lookup_seqZ in Hi as [-> _]. eapply scheduled_data; [done|exact Hid|]. by rewrite -> Z.add_0_l in Hargs.
Qed.

Lemma build_plan hist so s : plan_inv hist s → step_ok so →
  match build_connector_meta cf so s with
  | (Ok md, s') => plan_inv hist s' ∧ (∀ id d, (id, d) ∈ request_meta md → planned so s id d ∧
      ((dump_block_ids d).1 ≠ [] → id ∈ async_dump_req_ids s'.1)) ∧
      ∀ id, id ∈ scheduled_ids so → is_Some (dict_get id (requests_meta s.1)) → id ∈ (request_meta md).*1
  | (Raise _, s') => plan_inv hist s'
  end.
Proof.
  intros Hinv [Hso Hnd].
  assert (Htr : triple (plan_at hist so s [] []) (build_connector_meta (W := W) cf so)
    (λ md s', plan_inv hist s' ∧ (∀ id d, (id, d) ∈ request_meta md → planned so s id d ∧
      ((dump_block_ids d).1 ≠ [] → id ∈ async_dump_req_ids s'.1)) ∧
      ∀ id, id ∈ scheduled_ids so → is_Some (dict_get id (requests_meta s.1)) → id ∈ (request_meta md).*1) (plan_inv hist)).
  { unfold build_connector_meta, scheduled_ids in *. eapply triple_bind.
    { apply (dispatch_loop hist so s fst (λ x, Ok (x.2, true))); [done| |by apply NoDup_app in Hnd as [? _]].
      intros [id blocks] ? ? Hx [= <- <-]. by apply scheduled_new. }
    intros disp. eapply triple_bind; [by apply dispatch_cached_plan|]. clear disp.
    intros disp s1 [ [ [Hm Hmemo] Ht] _ Hpl Hcomp]. unfold updc, _track_async_dump_requests. munfold. split_and!.
    - split; [split; [by apply metas_ok_filter|done]|]. apply tracked_filter; [apply Hm|done].
    - intros id d Hin. split; [by apply Hpl|]. intros Hne. apply elem_of_union. right.
      apply elem_of_list_to_set, list_elem_of_fmap. exists (id, d). split; [done|]. by apply list_elem_of_filter.
    - exact Hcomp. }
  apply Htr. split; [done|done| |].
  - by intros id d ?%elem_of_nil.
  - by intros id ?%elem_of_nil.
Qed.

(** ** Runs *)

Lemma failed_load_inv hist meta metas id : metas_ok cf metas → tracked hist metas →
  metas_ok cf (failed_load cf meta metas id) ∧ tracked hist (failed_load cf meta metas id).
Proof.
  intros Hm Ht. split; [by apply failed_load_ok|]. intros id' rm'. rewrite -> failed_load_get.
  case_decide; [|apply Ht]. case_decide; [|done]. destruct (dict_get id' metas) as [rm|] eqn:Hg; [|done]. intros [= <-].
  destruct (Ht id' rm Hg) as (m & Hmh & [H1' H2' H3' H4' H5']). exists m. split; [done|]. by split; cbn; auto.
Qed.

Lemma match_inv hist s r computed : plan_inv hist s → 0 ≤ computed →
  plan_inv (Matching r computed (lookup_hits cf r computed s) :: hist) (get_num_new_matched_tokens cf r computed s).2.
Proof.
  intros [ [Hm Hmemo] Ht] Hc. set (m := Matching _ _ _).
  assert (Hold : tracked (m :: hist) (requests_meta s.1)).
  { intros id rm Hg. destruct (Ht id rm Hg) as (m' & Hin & Has). exists m'. split; [by right|done]. }
  destruct (decide (computed mod cf_block_size cf = 0)) as [Hmod|Hmod].
  - destruct (matched_spec cf Hcf r computed s Hmemo Hc Hmod) as (n & s' & -> & Hm' & _ & _ & Hcase). cbn.
    destruct Hcase as [ [_ Hrm]|(rm & Hrm & Hok & Hids & Hhbm & _ & Hnum & Hp & _ & Hhits)]; unfold plan_inv, sched_inv; rewrite -> Hrm.
    + by split.
    + split; [split; [by apply metas_ok_set|done]|]. eapply tracked_set; [done|by left|]. split; cbn; [done|exact Hids|done|done|by left].
  - unfold get_num_new_matched_tokens, assert_. rewrite -> (proj2 (Z.eqb_neq _ _) Hmod). by split.
Qed.

Lemma sched_run_inv s0 hist s : sched_run s0 hist s → requests_meta s0.1 = [] → recompute_tokens s0.1 = None → plan_inv hist s.
Proof.
  intros Hrun Hm0 Hr0. induction Hrun as [|hist s r computed _ IH Hc|hist s so _ IH Hso|hist s o _ IH|hist s id _ IH].
  - split; [split; [rewrite -> Hm0; split; constructor|by left]|]. intros id rm Hg. by rewrite -> Hm0 in Hg.
  - by apply match_inv.
  - pose proof (build_plan hist so s IH Hso) as Hb. destruct (build_connector_meta cf so s) as [ [md|e] s']; [apply Hb|done].
  - destruct o as [meta|]; [|done]. destruct IH as [ [Hm Hmemo] Ht]. unfold update_connector_output, updc. munfold.
    assert (Hall : ∀ ids metas, metas_ok cf metas → tracked hist metas →
      metas_ok cf (foldl (failed_load cf meta) metas ids) ∧ tracked hist (foldl (failed_load cf meta) metas ids)).
    { induction ids as [|id ids IHids]; intros metas Hmo Htr; [done|]. cbn. destruct (failed_load_inv hist meta metas id Hmo Htr) as [Hmo' Htr']. by apply IHids. }
    destruct (Hall (elements (wm_load_failed_reqs meta)) _ Hm Ht). by split.
  - unfold request_finished, getc, updc. munfold. by case_decide.
Qed.

End plan.


