(* ===== verification/HlaPlanProps.v ===== *)
(** * The plans of the hybrid linear-attention connector

    A chunk of a prompt dumps the attention blocks it completes and, when it
    ends at a boundary of all the groups, their states; the keys of a prefix are
    the same for every request that starts with it. *)
From S2P Require Import Prelude Runtime RankConsistency PyHash Hashing KVLayout Direct DirectWorker Sim DispatchProps SchedProps.
From S2P Require Import HlaLayout HlaGroups Hla HlaGroupProps.
Open Scope Z_scope.

(** ** Merging block tables *)

Definition merged (new_blocks : list (list Z)) (full : bool) (tables : list (list Z)) : list (list Z) :=
  zip_with (λ old new, merge_blocks old new full) tables new_blocks.

Section plan.
  Context `{PyHash}.
  Variable m : group_manager.
  Hypothesis Hm : manager_ok m.
Let lcm : Z := lcm_block_size m.

Lemma merge_groups_run new_blocks full (n : nat) : ∀ k rm,
  zlen new_blocks = zlen (group_vllm_block_ids rm) → 0 ≤ k →
  k + Z.of_nat n = zlen new_blocks →
  for_each (seqZ k (Z.of_nat n)) (merge_group_blocks new_blocks full) rm =
    (Ok tt, set_group_blocks (take (Z.to_nat k) (group_vllm_block_ids rm) ++
       merged (drop (Z.to_nat k) new_blocks) full (drop (Z.to_nat k) (group_vllm_block_ids rm))) rm).
Proof.
  induction n as [|n IH]; intros k rm Hlen Hk Hn.
  { cbn [for_each seqZ]. rewrite -> seqZ_nil by lia. cbn [for_each]. unfold mret, M_ret.
    rewrite -> !drop_ge by (unfold zlen in *; lia). unfold merged. simpl.
    rewrite -> app_nil_r, take_ge by (unfold zlen in *; lia). by destruct rm. }
  rewrite -> Nat2Z.inj_succ, seqZ_cons, Z.pred_succ by lia. cbn [for_each].
  destruct (py_index_in new_blocks k) as (new & Hnew & Hnew'); [lia|].
  destruct (py_index_in (group_vllm_block_ids rm) k) as (old & Hold & Hold'); [lia|].
  set (rm1 := set_group_blocks (alter (λ _, merge_blocks old new full) (Z.to_nat k)
    (group_vllm_block_ids rm)) rm).
  assert (Hstep : merge_group_blocks new_blocks full k rm = (Ok tt, rm1)).
  { unfold merge_group_blocks. rewrite -> Hnew. mstep. mstep. rewrite -> Hold. mstep.
    rewrite -> py_alter_in by lia. mstep. done. }
  mrun Hstep. rewrite -> (IH (Z.succ k) rm1); [|unfold zlen in *; simpl; rewrite length_alter; lia|lia..].
  unfold rm1. f_equal. unfold set_group_blocks. cbn [hr_meta group_ucm_block_ids group_vllm_block_ids]. f_equal.
  replace (Z.to_nat (Z.succ k)) with (S (Z.to_nat k)) by lia.
  assert (Hlt : (Z.to_nat k < length (group_vllm_block_ids rm))%nat) by (unfold zlen in *; lia).
  rewrite -> (drop_S _ _ _ Hold'), (drop_S _ _ _ Hnew'). unfold merged. simpl.
  rewrite -> (take_S_r _ _ (merge_blocks old new full))
    by (rewrite -> list_lookup_alter_eq, Hold'; done).
  rewrite <- app_assoc. rewrite -> take_alter_ge, drop_alter_lt by lia. done.
Qed.

(** ** The dumps of one chunk *)

(** The pairs of an attention group between two tokens, and of a state. *)
Definition group_ids_of (rm : HLARequestMeta) (x : Z * GroupInfo) : list bytes :=
  default [] (group_ucm_block_ids rm !! Z.to_nat x.1).
Definition table_of (rm : HLARequestMeta) (x : Z * GroupInfo) : list Z :=
  default [] (group_vllm_block_ids rm !! Z.to_nat x.1).

Definition attn_part (rm : HLARequestMeta) (p e : Z) (x : Z * GroupInfo) : list (bytes * Z) :=
  filter (λ q, q.2 ≠ 0)
    (zip (py_slice (group_ids_of rm x) (p / gi_block_size x.2) (e / gi_block_size x.2))
         (py_slice (table_of rm x) (p / gi_block_size x.2) (e / gi_block_size x.2))).

Definition state_idx (table : list Z) (e block_size : Z) (load : bool) : Z :=
  let i := Z.max ((e - 1) / block_size) 0 in
  if load then from_option Z.of_nat i (last_non_null (length table) table) else i.

Definition state_part (rm : HLARequestMeta) (e : Z) (load : bool) (x : Z * GroupInfo) : list (bytes * Z) :=
  match table_of rm x !! Z.to_nat (state_idx (table_of rm x) e (gi_block_size x.2) load),
        compute_mamba_align_state_hash m x.2 e (group_ucm_block_ids rm) with
  | Some v, Ok (Some u) => if v =? 0 then [] else [(u, v)]
  | _, _ => []
  end.

(** What a group contributes to the dump of tokens [p] to [e], and to a load. *)
Definition dump_part (rm : HLARequestMeta) (p e : Z) (x : Z * GroupInfo) : list (bytes * Z) :=
  if gi_is_mamba_align x.2 then
    if (e mod lcm =? 0) && ((p / lcm + 1) * lcm <=? e) then state_part rm e false x else []
  else attn_part rm p e x.

Definition load_part (rm : HLARequestMeta) (p e : Z) (x : Z * GroupInfo) : list (bytes * Z) :=
  if gi_is_mamba_align x.2 then state_part rm e true x else attn_part rm p e x.

Lemma indexed_group gid g :
  (gid, g) ∈ indexed_groups m → gid = gi_group_id g ∧ g ∈ groups_by_id m ∧ 0 ≤ gid < num_groups m.
Proof.
  unfold indexed_groups. intros [i Hi]%list_elem_of_lookup_1.
  apply lookup_zip_with_Some in Hi as (z & g' & [= -> ->] & Hz & Hg).
  apply lookup_seqZ in Hz as [-> Hlt]. rewrite -> (mo_ids _ Hm i g' Hg).
  split_and!; [lia|by eapply list_elem_of_lookup_2|lia..].
Qed.

Lemma group_indexed g : g ∈ groups_by_id m → (gi_group_id g, g) ∈ indexed_groups m.
Proof.
  intros [i Hi]%list_elem_of_lookup_1. rewrite (mo_ids _ Hm i g Hi). apply (list_elem_of_lookup_2 _ i).
  apply lookup_zip_with_Some. exists (Z.of_nat i), g. split_and!; [done| |done].
  apply lookup_seqZ. apply lookup_lt_Some in Hi. unfold num_groups, zlen. lia.
Qed.

(** Metadata shaped for the groups. *)
Definition shaped (rm : HLARequestMeta) : Prop :=
  zlen (group_ucm_block_ids rm) = num_groups m ∧ zlen (group_vllm_block_ids rm) = num_groups m ∧
  0 ≤ rm_token_processed (hr_meta rm).

Definition extend (dst : id_pairs) (l : list (bytes * Z)) : id_pairs := (dst.1 ++ l.*1, dst.2 ++ l.*2).

Lemma extend_nil dst : extend dst [] = dst.
Proof. destruct dst. unfold extend. simpl. by rewrite -> !app_nil_r. Qed.

Lemma append_state_run rm e dst x load :
  shaped rm → x ∈ indexed_groups m →
  append_state_block m rm dst x e load = Ok (extend dst (state_part rm e load x)).
Proof.
  destruct x as [gid g]. intros (Hids & Htab & _) Hx. destruct (indexed_group gid g Hx) as (_ & _ & Hgid).
  destruct (py_index_in (group_vllm_block_ids rm) gid) as (tab & Ht & Ht'); [lia|].
  unfold append_state_block, state_part, table_of. cbn [fst snd]. rewrite -> Ht, Ht'.
  cbn [mbind res_bind default from_option id]. change (if load then _ else _) with (state_idx tab e (gi_block_size g) load).
  assert (Hidx : 0 ≤ state_idx tab e (gi_block_size g) load).
  { unfold state_idx. destruct load; [|lia]. destruct (last_non_null _ _); simpl; lia. }
  destruct (tab !! Z.to_nat _) as [v|] eqn:Hv.
  - rewrite -> (proj2 (py_index_lookup tab _ v Hidx) Hv).
    destruct (state_hash_spec m Hm (group_ucm_block_ids rm) g e Hids) as (h & -> & _).
    destruct (Z.eqb_spec v 0); [destruct h; by rewrite extend_nil|]. simpl. destruct h; [done|by rewrite extend_nil].
  - destruct (py_index tab _) eqn:E; [apply py_index_lookup in E; [congruence|lia]|by rewrite extend_nil].
Qed.

Lemma append_attn_run rm p e dst x :
  shaped rm → 0 ≤ p → 0 ≤ e → x ∈ indexed_groups m →
  append_attn_blocks rm dst x p e = Ok (extend dst (attn_part rm p e x)).
Proof.
  destruct x as [gid g]. intros (Hids & Htab & _) Hp He Hx.
  destruct (indexed_group gid g Hx) as (_ & Hg & Hgid). destruct (group_pos m Hm g Hg) as [Hbs _].
  destruct (py_index_in (group_ucm_block_ids rm) gid) as (ids & Hi & Hi'); [lia|].
  destruct (py_index_in (group_vllm_block_ids rm) gid) as (tab & Ht & Ht'); [lia|].
  unfold append_attn_blocks, attn_part, group_ids_of, table_of. cbn [fst snd]. rewrite -> Hi', Ht'.
  cbn [default from_option id].
  destruct (Z.leb_spec (e / gi_block_size g) (p / gi_block_size g)).
  - rewrite -> !py_slice_empty; [by rewrite extend_nil|split; [apply Z.div_pos; lia|done]..].
  - rewrite -> Hi, Ht. done.
Qed.

Lemma dump_group_run rm e dst x :
  shaped rm → 0 ≤ e → x ∈ indexed_groups m →
  dump_group m rm e dst x = Ok (extend dst (dump_part rm (rm_token_processed (hr_meta rm)) e x)).
Proof.
  intros Hs He Hx. pose proof (mo_lcm _ Hm) as Hlcm. fold lcm in Hlcm. pose proof Hs as (_ & _ & Hp).
  set (p := rm_token_processed (hr_meta rm)) in *.
  unfold dump_group, dump_part, is_full_attention. fold p lcm.
  destruct (gi_is_mamba_align x.2) eqn:Hal; cbn [negb]; [|by apply append_attn_run].
  pose proof (Z.div_mod e lcm ltac:(lia)) as Hdm.
  assert (Hcond : negb (e =? e / lcm * lcm) || (e / lcm * lcm <? (p / lcm + 1) * lcm) =
    negb ((e mod lcm =? 0) && ((p / lcm + 1) * lcm <=? e))).
  { destruct (Z.eqb_spec (e mod lcm) 0) as [Hz|Hz]; cbn [andb negb].
    - assert (Heq : e / lcm * lcm = e) by lia. rewrite -> Heq, Z.eqb_refl. apply Z.ltb_antisym.
    - rewrite -> (proj2 (Z.eqb_neq _ _)) by lia. done. }
  rewrite -> Hcond. destruct (Z.eqb_spec (e mod lcm) 0) as [Hz|Hz]; cbn [andb negb]; [|by rewrite extend_nil].
  destruct (Z.leb_spec ((p / lcm + 1) * lcm) e); cbn [negb]; [|by rewrite extend_nil].
  replace (e / lcm * lcm) with e by lia. by apply append_state_run.
Qed.

Lemma load_group_run rm dst x :
  let r := hr_meta rm in
  shaped rm → 0 ≤ rm_hbm_hit_block_num r → 0 ≤ rm_total_hit_block_num r → x ∈ indexed_groups m →
  load_group m rm dst x =
    Ok (extend dst (load_part rm (rm_hbm_hit_block_num r * lcm) (rm_total_hit_block_num r * lcm) x)).
Proof.
  intros r Hs Hh Ht Hx. pose proof (mo_lcm _ Hm) as Hlcm. fold lcm in Hlcm.
  unfold load_group, load_part. fold r lcm. destruct (gi_is_mamba_align x.2).
  - by apply append_state_run.
  - apply append_attn_run; [done|lia|lia|done].
Qed.

(** A fold over the groups whose steps extend the lists. *)
Lemma extend_fold (f : id_pairs → Z * GroupInfo → res id_pairs) part xs : ∀ dst,
  (∀ dst x, x ∈ xs → f dst x = Ok (extend dst (part x))) →
  fold_res f dst xs = Ok (extend dst (concat (part <$> xs))).
Proof.
  induction xs as [|x xs IH]; intros dst Hf; [by rewrite extend_nil|].
  cbn [fold_res]. rewrite -> Hf by left. cbn [mbind res_bind].
  rewrite -> IH by (intros; apply Hf; by right). f_equal. unfold extend. csimpl.
  by rewrite -> !fmap_app, !app_assoc.
Qed.

(** The dump and the metadata after a chunk, and the tables it merges. *)
Definition chunk_end (rm : HLARequestMeta) (new_tokens : Z) : Z :=
  Z.min (rm_token_processed (hr_meta rm) + new_tokens) (rm_num_token_ids (hr_meta rm)).

Definition after_merge (new_blocks : list (list Z)) (full : bool) (rm : HLARequestMeta) : HLARequestMeta :=
  set_group_blocks (merged new_blocks full (group_vllm_block_ids rm)) rm.

Definition chunk_pairs (rm : HLARequestMeta) (p e : Z) : list (bytes * Z) :=
  concat (dump_part rm p e <$> indexed_groups m).

Definition load_pairs (rm : HLARequestMeta) (p e : Z) : list (bytes * Z) :=
  concat (load_part rm p e <$> indexed_groups m).

(** The loads planned with a chunk. *)
Definition planned_loads (rm : HLARequestMeta) (need_load : bool) : list (bytes * Z) :=
  let r := hr_meta rm in
  if need_load && (0 <? rm_total_hit_block_num r - rm_hbm_hit_block_num r)
  then load_pairs rm (rm_hbm_hit_block_num r * lcm) (rm_total_hit_block_num r * lcm) else [].

Lemma chunk_run rm n blocks need_load full :
  shaped rm → 0 ≤ rm_hbm_hit_block_num (hr_meta rm) ≤ rm_total_hit_block_num (hr_meta rm) →
  0 ≤ n → zlen blocks = num_groups m →
  rm_token_processed (hr_meta rm) < rm_num_token_ids (hr_meta rm) →
  let rm1 := after_merge blocks full rm in
  let load := planned_loads rm1 need_load in
  let l := chunk_pairs rm1 (rm_token_processed (hr_meta rm)) (chunk_end rm n) in
  _generate_hla_dispatch_meta m n blocks need_load full rm =
    (Ok (DispatchMeta (load.*1, load.*2) (l.*1, l.*2)), add_processed n rm1) ∧
  shaped rm1 ∧ shaped (add_processed n rm1).
Proof.
  intros (Hids & Htab & Hp) Hhits Hn Hb Hlt rm1 load l.
  assert (Htab1 : zlen (group_vllm_block_ids rm1) = num_groups m).
  { simpl. unfold merged, zlen in *. rewrite -> length_zip_with. lia. }
  assert (Hs1 : shaped rm1) by (split; [done|split; [exact Htab1|done]]).
  split; [|split; [done|split; [done|split; [exact Htab1|simpl; lia]]]].
  unfold _generate_hla_dispatch_meta, assert_. rewrite -> (proj2 (Z.eqb_eq _ _) Hb). mstep.
  assert (Hmerge : for_each (seqZ 0 (num_groups m)) (merge_group_blocks blocks full) rm = (Ok tt, rm1)).
  { rewrite <- Hb. change (zlen blocks) with (Z.of_nat (length blocks)).
    rewrite -> merge_groups_run; [|congruence|lia|unfold zlen; lia]. rewrite -> !drop_0. done. }
  mrun Hmerge. mstep. fold lcm.
  assert (Hload : (if need_load && (0 <? rm_total_hit_block_num (hr_meta rm1) - rm_hbm_hit_block_num (hr_meta rm1))
     then of_res (fold_res (load_group m rm1) ([], []) (indexed_groups m)) else mret ([], [])) rm1 =
     (Ok (load.*1, load.*2), rm1)).
  { unfold load, planned_loads. destruct (need_load && _); [|done].
    rewrite -> (extend_fold _ (load_part rm1 (rm_hbm_hit_block_num (hr_meta rm1) * lcm)
      (rm_total_hit_block_num (hr_meta rm1) * lcm))); [done|].
    intros dst x Hx. apply load_group_run; simpl; [done|lia|lia|done]. }
  mrun Hload. cbv zeta. rewrite -> (proj2 (Z.ltb_lt _ _)) by exact Hlt.
  assert (He : 0 ≤ chunk_end rm n) by (unfold chunk_end; lia).
  assert (Hcmd : (dump ← of_res (fold_res (dump_group m rm1 (chunk_end rm n)) ([], []) (indexed_groups m));
     modify (add_processed n) ;; mret dump) rm1 = (Ok (l.*1, l.*2), add_processed n rm1)).
  { rewrite -> (extend_fold _ (dump_part rm1 (rm_token_processed (hr_meta rm)) (chunk_end rm n))); [done|].
    intros dst x Hx. exact (dump_group_run rm1 _ dst x Hs1 He Hx). }
  mrun Hcmd. done.
Qed.

(** *** The blocks a plan names *)

(** Identifier [u] goes to or comes from vLLM block [v]: the block of an attention
    group at the same position, or the block of the state after [e] tokens, at
    its position for a dump and in the running block for a load. *)
Inductive names (rm : HLARequestMeta) (p e : Z) (load : bool) (u : bytes) (v : Z) : Prop :=
  | names_block g i :
      g ∈ full_attn_groups m → p / gi_block_size g ≤ i < e / gi_block_size g →
      group_ids_of rm (gi_group_id g, g) !! Z.to_nat i = Some u →
      table_of rm (gi_group_id g, g) !! Z.to_nat i = Some v → v ≠ 0 → names rm p e load u v
  | names_state g :
      g ∈ state_groups m → (load = false → (lcm | e) ∧ p < e) →
      compute_mamba_align_state_hash m g e (group_ucm_block_ids rm) = Ok (Some u) →
      table_of rm (gi_group_id g, g) !!
        Z.to_nat (state_idx (table_of rm (gi_group_id g, g)) e (gi_block_size g) load) = Some v →
      v ≠ 0 → names rm p e load u v.

Lemma names_processed n rm p e load u v :
  names (add_processed n rm) p e load u v ↔ names rm p e load u v.
Proof.
  split; intros [g i Hg Hi Hu Hw Hv|g Hg Hc Hh Ht Hv].
  1,3: by apply (names_block _ _ _ _ _ _ g i).
  all: by apply (names_state _ _ _ _ _ _ g).
Qed.

Lemma elem_of_attn_part rm p e x u v :
  0 ≤ p → 0 ≤ e → x ∈ indexed_groups m →
  (u, v) ∈ attn_part rm p e x ↔
    v ≠ 0 ∧ ∃ i, p / gi_block_size x.2 ≤ i < e / gi_block_size x.2 ∧
      group_ids_of rm x !! Z.to_nat i = Some u ∧ table_of rm x !! Z.to_nat i = Some v.
Proof.
  intros Hp He Hx. destruct x as [gid g]. destruct (indexed_group gid g Hx) as (_ & Hg & _).
  destruct (group_pos m Hm g Hg) as [Hbs _]. unfold attn_part. cbn [fst snd].
  assert (0 ≤ p / gi_block_size g) by (apply Z.div_pos; lia). set (a := p / gi_block_size g) in *.
  destruct (decide (a ≤ e / gi_block_size g)) as [Hae|Hae].
  2:{ split.
      - assert (0 ≤ e / gi_block_size g) by (apply Z.div_pos; lia).
        intros [_ Hin]%list_elem_of_filter. exfalso. revert Hin.
        rewrite -> !py_slice_empty by lia. by intros ?%elem_of_nil.
      - intros (_ & i & Hi & _). lia. }
  rewrite -> list_elem_of_filter. cbn [snd]. split.
  - intros [Hv [k Hk]%list_elem_of_lookup_1]. split; [done|].
    apply lookup_zip_with_Some in Hk as (u' & v' & [= <- <-] & Hu & Hw).
    pose proof (lookup_lt_Some _ _ _ Hu) as Hlt.
    pose proof (py_slice_length_le (group_ids_of rm (gid, g)) a (e / gi_block_size g)) as Hle.
    assert (Z.of_nat k < e / gi_block_size g - a) by (unfold zlen in Hle; lia).
    exists (a + Z.of_nat k). split; [lia|]. rewrite -> py_slice_lookup in Hu by lia.
    rewrite -> py_slice_lookup in Hw by lia.
    by replace (Z.to_nat (a + Z.of_nat k)) with (Z.to_nat a + k)%nat by lia.
  - intros (Hv & i & Hi & Hu & Hw). split; [done|]. apply (list_elem_of_lookup_2 _ (Z.to_nat (i - a))).
    apply lookup_zip_with_Some. exists u, v. split; [done|]. do 2 rewrite -> py_slice_lookup by lia.
    by replace (Z.to_nat a + Z.to_nat (i - a))%nat with (Z.to_nat i) by lia.
Qed.

Lemma elem_of_state_part rm e load x u v :
  (u, v) ∈ state_part rm e load x ↔
    v ≠ 0 ∧ compute_mamba_align_state_hash m x.2 e (group_ucm_block_ids rm) = Ok (Some u) ∧
    table_of rm x !! Z.to_nat (state_idx (table_of rm x) e (gi_block_size x.2) load) = Some v.
Proof.
  unfold state_part. destruct (table_of rm x !! _) as [v'|]; [|set_solver].
  destruct (compute_mamba_align_state_hash _ _ _ _) as [[u'|]|]; [|set_solver..].
  destruct (Z.eqb_spec v' 0) as [->|Hne]; [set_solver|].
  rewrite -> list_elem_of_singleton. naive_solver.
Qed.

Lemma elem_of_parts (part : Z * GroupInfo → list (bytes * Z)) u v :
  (u, v) ∈ concat (part <$> indexed_groups m) ↔
  ∃ g, g ∈ groups_by_id m ∧ (u, v) ∈ part (gi_group_id g, g).
Proof.
  rewrite -> elem_of_concat. split.
  - intros (l & (x & -> & Hx)%list_elem_of_fmap & Hin). destruct x as [gid g].
    destruct (indexed_group gid g Hx) as (-> & Hg & _). eauto.
  - intros (g & Hg & Hin). exists (part (gi_group_id g, g)). split; [|done].
    apply list_elem_of_fmap. eexists. split; [done|]. by apply group_indexed.
Qed.

Lemma group_kind g :
  g ∈ groups_by_id m → if gi_is_mamba_align g then g ∈ state_groups m else g ∈ full_attn_groups m.
Proof.
  intros Hg. destruct (gi_is_mamba_align g) eqn:Hal.
  - rewrite (mo_states _ Hm). apply list_elem_of_filter. by rewrite Hal.
  - rewrite (mo_fa _ Hm). apply list_elem_of_filter. unfold is_full_attention. by rewrite Hal.
Qed.

Lemma chunk_pairs_spec rm p e u v :
  0 ≤ p → 0 ≤ e → (u, v) ∈ chunk_pairs rm p e ↔ names rm p e false u v.
Proof.
  intros Hp He. pose proof (mo_lcm _ Hm) as Hlcm. fold lcm in Hlcm.
  unfold chunk_pairs. rewrite -> elem_of_parts. split.
  - intros (g & Hg & Hin). pose proof (group_kind g Hg) as Hk. unfold dump_part in Hin. cbn [snd] in Hin.
    destruct (gi_is_mamba_align g).
    + destruct (Z.eqb_spec (e mod lcm) 0) as [Hz|]; [|by apply elem_of_nil in Hin]. cbn [andb] in Hin.
      destruct (Z.leb_spec ((p / lcm + 1) * lcm) e); [|by apply elem_of_nil in Hin].
      apply elem_of_state_part in Hin as (Hv & Hh & Ht). apply (names_state _ _ _ _ _ _ g); try done.
      intros _. split; [by apply Z.mod_divide; [lia|]|]. pose proof (Z.mul_succ_div_gt p lcm Hlcm). lia.
    + apply elem_of_attn_part in Hin as (Hv & i & Hi & Hu & Hw); [|done|done|by apply group_indexed].
      by apply (names_block _ _ _ _ _ _ g i).
  - intros [g i Hg Hi Hu Hw Hv|g Hg Hc Hh Ht Hv].
    + destruct (fa_group m Hm g Hg) as [Hgrp Hal]. exists g. split; [done|].
      unfold dump_part. cbn [snd]. rewrite Hal. apply elem_of_attn_part; [done|done|by apply group_indexed|].
      split; [done|]. by exists i.
    + destruct (state_group m Hm g Hg) as [Hgrp Hal]. exists g. split; [done|].
      unfold dump_part. cbn [snd]. rewrite Hal. destruct (Hc eq_refl) as [[k ->] Hlt].
      rewrite -> Z_mod_mult. cbn [Z.eqb andb].
      assert (p / lcm < k) by (apply Z.div_lt_upper_bound; lia).
      rewrite -> (proj2 (Z.leb_le _ _)) by nia. by apply elem_of_state_part.
Qed.

Lemma load_pairs_spec rm p e u v :
  0 ≤ p → 0 ≤ e → (u, v) ∈ load_pairs rm p e ↔ names rm p e true u v.
Proof.
  intros Hp He. unfold load_pairs. rewrite -> elem_of_parts. split.
  - intros (g & Hg & Hin). pose proof (group_kind g Hg) as Hk. unfold load_part in Hin. cbn [snd] in Hin.
    destruct (gi_is_mamba_align g).
    + apply elem_of_state_part in Hin as (Hv & Hh & Ht). by apply (names_state _ _ _ _ _ _ g).
    + apply elem_of_attn_part in Hin as (Hv & i & Hi & Hu & Hw); [|done|done|by apply group_indexed].
      by apply (names_block _ _ _ _ _ _ g i).
  - intros [g i Hg Hi Hu Hw Hv|g Hg Hc Hh Ht Hv].
    + destruct (fa_group m Hm g Hg) as [Hgrp Hal]. exists g. split; [done|].
      unfold load_part. cbn [snd]. rewrite Hal. apply elem_of_attn_part; [done|done|by apply group_indexed|].
      split; [done|]. by exists i.
    + destruct (state_group m Hm g Hg) as [Hgrp Hal]. exists g. split; [done|].
      unfold load_part. cbn [snd]. rewrite Hal. by apply elem_of_state_part.
Qed.

(** ** The chunks of a prompt *)

Abbreviation chunk := ((Z * list (list Z) * bool)%type).

Fixpoint run_hchunks (chunks : list chunk) : M HLARequestMeta (list RequestDispatchMeta) :=
  match chunks with
  | [] => mret []
  | (n, blocks, full) :: chunks =>
      d ← _generate_hla_dispatch_meta m n blocks false full;
      ds ← run_hchunks chunks;
      mret (d :: ds)
  end.

(** The positions the chunks end at. *)
Fixpoint ends (chunks : list chunk) (p num : Z) : list Z :=
  match chunks with
  | [] => []
  | (n, _, _) :: chunks => Z.min (p + n) num :: ends chunks (p + n) num
  end.

(** The tables have a block for all that tokens [p] to [e] complete. *)
Definition allocated_for (rm : HLARequestMeta) (p e : Z) (x : Z * GroupInfo) : Prop :=
  ∃ table, group_vllm_block_ids rm !! Z.to_nat x.1 = Some table ∧
  let covers i := ∃ v, table !! Z.to_nat i = Some v ∧ v ≠ 0 in
  if gi_is_mamba_align x.2 then (lcm | e) → covers (Z.max ((e - 1) / gi_block_size x.2) 0)
  else ∀ i, p / gi_block_size x.2 ≤ i < e / gi_block_size x.2 → covers i.

(** Prompt chunks whose blocks are allocated when they are scheduled. *)
Fixpoint covered (chunks : list chunk) (rm : HLARequestMeta) : Prop :=
  match chunks with
  | [] => True
  | (n, blocks, full) :: chunks =>
      let p := rm_token_processed (hr_meta rm) in
      0 ≤ n ∧ zlen blocks = num_groups m ∧ p < rm_num_token_ids (hr_meta rm) ∧
      (∀ x, x ∈ indexed_groups m →
        allocated_for (after_merge blocks full rm) p (chunk_end rm n) x) ∧
      covered chunks (add_processed n (after_merge blocks full rm))
  end.

Lemma covered_nonneg chunks rm : covered chunks rm → Forall (λ c, 0 ≤ c.1.1) chunks.
Proof.
  revert rm. induction chunks as [|[ [n blocks] full] chunks IH]; intros rm; [done|].
  intros (Hn & _ & _ & _ & Hcov). constructor; [done|]. by eapply IH.
Qed.

Lemma ends_bounds chunks p num e :
  Forall (λ c, 0 ≤ c.1.1) chunks → e ∈ ends chunks p num → Z.min p num ≤ e ≤ num.
Proof.
  intros Hn. revert p. induction Hn as [|[ [n blocks] full] chunks Hn0 Hn IH]; intros p He.
  { by apply elem_of_nil in He. }
  cbn [ends fst] in *. apply elem_of_cons in He as [->|He]; [lia|]. apply IH in He. lia.
Qed.

(** The blocks and the states of a prefix of [e] tokens, from token [p] on. *)
Definition prefix_keys (ids : list (list bytes)) (p e : Z) (u : bytes) : Prop :=
  (∃ g l i, g ∈ full_attn_groups m ∧ ids !! Z.to_nat (gi_group_id g) = Some l ∧
     p / gi_block_size g ≤ i < e / gi_block_size g ∧ l !! Z.to_nat i = Some u) ∨
  ((lcm | e) ∧ p < e ∧
   ∃ g, g ∈ state_groups m ∧ compute_mamba_align_state_hash m g e ids = Ok (Some u)).

Definition planned (ds : list RequestDispatchMeta) (u : bytes) : Prop :=
  ∃ d, d ∈ ds ∧ u ∈ (dump_block_ids d).1.

(** The keys completed by one chunk are in its dump. *)
Lemma chunk_pairs_keys rm p e u :
  0 ≤ p → 0 ≤ e → (∀ x, x ∈ indexed_groups m → allocated_for rm p e x) →
  prefix_keys (group_ucm_block_ids rm) p e u → u ∈ (chunk_pairs rm p e).*1.
Proof.
  intros Hp He Hall Hu. apply list_elem_of_fmap.
  assert (∃ v, names rm p e false u v) as [v Hv]; [|exists (u, v); split; [done|by apply chunk_pairs_spec]].
  destruct Hu as [(g & l & i & Hg & Hl & Hi & Hu)|(Hd & Hlt & g & Hg & Hh)].
  - destruct (fa_group m Hm g Hg) as [Hgrp Hal].
    destruct (Hall _ (group_indexed g Hgrp)) as (tab & Ht & Hcov). cbn [fst snd] in *. rewrite -> Hal in Hcov.
    destruct (Hcov i Hi) as (v & Hv & Hnz). exists v. apply (names_block _ _ _ _ _ _ g i); try done.
    + unfold group_ids_of. simpl. by rewrite Hl.
    + unfold table_of. simpl. by rewrite Ht.
  - destruct (state_group m Hm g Hg) as [Hgrp Hal].
    destruct (Hall _ (group_indexed g Hgrp)) as (tab & Ht & Hcov). cbn [fst snd] in *. rewrite -> Hal in Hcov.
    destruct (Hcov Hd) as (v & Hv & Hnz). exists v. apply (names_state _ _ _ _ _ _ g); try done.
    unfold table_of. simpl. by rewrite Ht.
Qed.

(** Every prompt chunked over allocated blocks plans all the keys of the
    prefixes its chunks end at. *)
Lemma run_hchunks_keys chunks : ∀ rm,
  shaped rm → 0 ≤ rm_hbm_hit_block_num (hr_meta rm) ≤ rm_total_hit_block_num (hr_meta rm) →
  covered chunks rm →
  ∃ ds rm', run_hchunks chunks rm = (Ok ds, rm') ∧ shaped rm' ∧
    rm_token_processed (hr_meta rm') = rm_token_processed (hr_meta rm) + zsum ((λ c, c.1.1) <$> chunks) ∧
    ∀ e u, e ∈ ends chunks (rm_token_processed (hr_meta rm)) (rm_num_token_ids (hr_meta rm)) →
      prefix_keys (group_ucm_block_ids rm) (rm_token_processed (hr_meta rm)) e u → planned ds u.
Proof.
  induction chunks as [|[ [n blocks] full] chunks IH]; intros rm Hs Hhits Hcov.
  { exists [], rm. split; [done|]. split; [done|]. split; [simpl; unfold zsum; simpl; lia|].
    intros e u He. by apply elem_of_nil in He. }
  destruct Hcov as (Hn & Hb & Hlt & Hall & Hcov). set (p := rm_token_processed (hr_meta rm)) in *.
  destruct (chunk_run rm n blocks false full Hs Hhits Hn Hb Hlt) as (Hrun & Hsm & Hs1). fold p in Hrun.
  set (rm1 := after_merge blocks full rm) in *. set (e1 := chunk_end rm n) in *.
  destruct (IH _ Hs1 Hhits Hcov) as (ds & rm' & Hruns & Hs' & Hproc & Hkeys).
  assert (Hp0 : 0 ≤ p) by apply Hs.
  assert (He1' : 0 ≤ e1) by (unfold e1, chunk_end; fold p; lia).
  eexists (_ :: ds), rm'. split; [|split; [done|split]].
  - cbn [run_hchunks]. mrun Hrun. mrun Hruns. done.
  - rewrite -> Hproc, fmap_cons, zsum_cons. simpl. fold p. lia.
  - assert (Hfirst : ∀ u, prefix_keys (group_ucm_block_ids rm) p e1 u →
      planned (DispatchMeta ([], []) ((chunk_pairs rm1 p e1).*1, (chunk_pairs rm1 p e1).*2) :: ds) u).
    { intros u Hu. eexists. split; [by left|]. simpl. by apply chunk_pairs_keys. }
    assert (Hlater : ∀ u, planned ds u →
      planned (DispatchMeta ([], []) ((chunk_pairs rm1 p e1).*1, (chunk_pairs rm1 p e1).*2) :: ds) u).
    { intros u (d & Hd & Hu). exists d. split; [by right|done]. }
    intros e u He Hu. cbn [ends] in He. apply elem_of_cons in He as [->|He]; [by apply Hfirst|].
    assert (Hnext : p + n < rm_num_token_ids (hr_meta rm)).
    { destruct chunks as [|[ [n2 b2] f2] chunks]; [by apply elem_of_nil in He|].
      destruct Hcov as (_ & _ & Hlt2 & _). simpl in Hlt2. fold p in Hlt2. lia. }
    assert (He1 : e1 = p + n) by (unfold e1, chunk_end; fold p; lia).
    specialize (Hkeys e u He). simpl in Hkeys. fold p in Hkeys.
    destruct Hu as [(g & l & i & Hg & Hl & Hi & Hu)|(Hd & Hpe & g & Hg & Hu)].
    + destruct (decide (i < e1 / gi_block_size g)).
      * apply Hfirst. left. exists g, l, i. split_and!; try done; lia.
      * apply Hlater, Hkeys. left. exists g, l, i. rewrite -> He1 in *. split_and!; try done; lia.
    + destruct (decide (p + n < e)).
      * apply Hlater, Hkeys. right. split_and!; [done..|]. by exists g.
      * apply Hfirst. right. assert (e = e1) as ->; [|split_and!; [done..|by exists g] ].
        pose proof (ends_bounds _ _ _ _ (covered_nonneg _ _ Hcov) He). lia.
Qed.

End plan.

(** ** Requests with a common prefix *)

Section prefix.
  Context `{PyHashLaws}.
  Variable m : group_manager.
  Hypothesis Hm : manager_ok m.
Let lcm : Z := lcm_block_size m.

(** The identifiers of the blocks of a common prefix are the same, and there. *)
Lemma common_ids g t1 t2 e i :
  g ∈ full_attn_groups m → 0 ≤ e → e ≤ zlen t1 → e ≤ zlen t2 → (lcm | e) →
  take (Z.to_nat e) t1 = take (Z.to_nat e) t2 → 0 ≤ i < e / gi_block_size g →
  ∃ h, compute_block_hashes m g t1 !! Z.to_nat i = Some h ∧
    compute_block_hashes m g t2 !! Z.to_nat i = Some h ∧ h ≠ [].
Proof.
  intros Hg He H1 H2 Hd Heq Hi. destruct (fa_group m Hm g Hg) as [Hgrp Hal].
  destruct (group_pos m Hm g Hgrp) as [Hbs Hdiv].
  assert (Hbe : (gi_block_size g | e)) by (by etrans).
  unfold compute_block_hashes. rewrite -> Hal.
  pose proof (generate_hash_take (hm_meta m) _ t1 e (gi_seed g) Hbs (conj He H1) Hbe) as Ht1.
  pose proof (generate_hash_take (hm_meta m) _ t2 e (gi_seed g) Hbs (conj He H2) Hbe) as Ht2.
  rewrite <- Heq, <- Ht1 in Ht2. clear Ht1.
  assert (Hlen : zlen (generate_hash (hm_meta m) (gi_block_size g) t1 (gi_seed g)) = zlen t1 / gi_block_size g)
    by (by apply generate_hash_zlen).
  assert (e / gi_block_size g ≤ zlen t1 / gi_block_size g) by (apply Z.div_le_mono; lia).
  destruct (lookup_lt_is_Some_2 (generate_hash (hm_meta m) (gi_block_size g) t1 (gi_seed g)) (Z.to_nat i))
    as [h Hh]; [unfold zlen in *; lia|].
  exists h. split; [done|]. split.
  - rewrite <- Hh. rewrite <- (lookup_take_lt _ (Z.to_nat (e / gi_block_size g))) by lia.
    rewrite -> Ht2. by apply lookup_take_lt; lia.
  - rewrite -> generate_hash_chain in Hh by done. apply list_elem_of_lookup_2 in Hh.
    pose proof (chain_ids_length (hm_meta m) (full_blocks (Z.to_nat (zlen t1 / gi_block_size g))
      (Z.to_nat (gi_block_size g)) t1) (gi_seed g)) as Hall.
    rewrite -> Forall_forall in Hall. apply Hall in Hh. by intros ->.
Qed.

Lemma all_ids_lookup g toks :
  g ∈ groups_by_id m →
  compute_all_group_block_ids m toks !! Z.to_nat (gi_group_id g) = Some (compute_block_hashes m g toks).
Proof.
  intros [i Hi]%list_elem_of_lookup_1. rewrite (mo_ids _ Hm i g Hi). unfold compute_all_group_block_ids.
  by rewrite -> Nat2Z.id, list_lookup_fmap, Hi.
Qed.

Lemma all_ids_zlen toks : zlen (compute_all_group_block_ids m toks) = num_groups m.
Proof. unfold compute_all_group_block_ids, num_groups, zlen. by rewrite length_fmap. Qed.

(** Truncated for the lookup, they keep the blocks of the first [e] tokens. *)
Lemma lookup_ids_zlen n rec toks : zlen (lookup_ids m n rec (compute_all_group_block_ids m toks)) = num_groups m.
Proof.
  unfold lookup_ids. case_match; [|apply all_ids_zlen].
  unfold compute_all_group_block_ids, num_groups, zlen. rewrite -> length_zip_with, length_fmap. lia.
Qed.

Lemma lookup_ids_lookup n rec toks g e i :
  g ∈ groups_by_id m → 0 ≤ e → (lcm | e) → e + rec ≤ n → 0 ≤ i < e / gi_block_size g →
  ∃ l, lookup_ids m n rec (compute_all_group_block_ids m toks) !! Z.to_nat (gi_group_id g) = Some l ∧
    l !! Z.to_nat i = compute_block_hashes m g toks !! Z.to_nat i.
Proof.
  intros Hg He Hd Hn Hi. pose proof (mo_lcm _ Hm) as Hlcm. fold lcm in Hlcm.
  destruct (group_pos m Hm g Hg) as [Hbs [q Hq]]. fold lcm in Hq. unfold lookup_ids. fold lcm.
  case_match; [|rewrite -> all_ids_lookup by done; by eexists].
  pose proof (all_ids_lookup g toks Hg) as Hl.
  pose proof Hg as [k Hk]%list_elem_of_lookup_1. rewrite (mo_ids _ Hm k g Hk) in Hl |- *.
  rewrite -> Nat2Z.id in *. eexists. rewrite -> lookup_zip_with, Hk. simpl. rewrite -> Hl. simpl.
  split; [done|]. destruct Hd as [b ->].
  assert (b ≤ (n - rec) / lcm) by (apply Z.div_le_lower_bound; lia).
  assert (Hb : b * lcm / gi_block_size g = b * q).
  { rewrite -> Hq, Z.mul_assoc. apply Z.div_mul. lia. }
  assert (Hlq : lcm / gi_block_size g = q) by (rewrite -> Hq; apply Z.div_mul; lia).
  assert (0 ≤ b) by nia. rewrite -> Hlq. rewrite -> py_upto_pos by nia.
  apply lookup_take_lt. nia.
Qed.

(** The lookup truncated and the request planned agree on the prefix. *)
Lemma common_prefix_hash n rec t1 t2 e :
  0 < e → e ≤ zlen t1 → e ≤ zlen t2 → (lcm | e) → e + rec ≤ n →
  take (Z.to_nat e) t1 = take (Z.to_nat e) t2 →
  ∃ h, h ≠ [] ∧ prefix_hash m (compute_all_group_block_ids m t1) e = Some h ∧
    prefix_hash m (lookup_ids m n rec (compute_all_group_block_ids m t2)) e = Some h.
Proof.
  intros He H1 H2 Hd Hn Heq. destruct (primary_group m Hm) as (p & Hp & Hin).
  destruct (fa_group m Hm p Hin) as [Hgrp _]. destruct (group_pos m Hm p Hgrp) as [Hbs Hdiv].
  assert (gi_block_size p ≤ e) by (apply Z.divide_pos_le; [lia|by etrans]).
  assert (1 ≤ e / gi_block_size p) by (apply Z.div_le_lower_bound; lia).
  assert (Hi : 0 ≤ e / gi_block_size p - 1 < e / gi_block_size p) by lia.
  destruct (common_ids p t1 t2 e _ Hin ltac:(lia) H1 H2 Hd Heq Hi) as (h & Hh1 & Hh2 & Hne).
  destruct (lookup_ids_lookup n rec t2 p e _ Hgrp ltac:(lia) Hd Hn Hi) as (l & Hl & Hll).
  exists h. split; [done|]. unfold prefix_hash.
  assert (Hhead : head (full_attn_groups m) = Some p).
  { apply py_index_lookup in Hp; [|lia]. by destruct (full_attn_groups m). }
  rewrite -> Hhead. simpl. rewrite -> all_ids_lookup by done. simpl. rewrite -> Hh1, Hl. simpl.
  split; [done|]. by rewrite -> Hll.
Qed.

(** What is stored of one request is usable for another one with the prefix. *)
Lemma stored_prefix_usable stored n rec t1 t2 computed e :
  0 ≤ computed < e → e ≤ zlen t1 → e ≤ zlen t2 → (lcm | e) → e + rec ≤ n →
  take (Z.to_nat e) t1 = take (Z.to_nat e) t2 →
  (∀ u, prefix_keys m (compute_all_group_block_ids m t1) 0 e u → stored u = true) →
  usable m (lookup_ids m n rec (compute_all_group_block_ids m t2)) stored computed e.
Proof.
  intros Hc H1 H2 Hd Hn Heq Hst. split; [lia|done| |].
  - intros g l Hg Hl i Hi. destruct (fa_group m Hm g Hg) as [Hgrp _].
    destruct (group_pos m Hm g Hgrp) as [Hbs _].
    assert (0 ≤ computed / gi_block_size g) by (apply Z.div_pos; lia).
    destruct (common_ids g t1 t2 e i Hg ltac:(lia) H1 H2 Hd Heq ltac:(lia)) as (h & Hh1 & Hh2 & _).
    destruct (lookup_ids_lookup n rec t2 g e i Hgrp ltac:(lia) Hd Hn ltac:(lia)) as (l' & Hl' & Hll).
    assert (Hgid : 0 ≤ gi_group_id g).
    { pose proof Hgrp as [k Hk]%list_elem_of_lookup_1. rewrite (mo_ids _ Hm k g Hk). lia. }
    apply py_index_lookup in Hl; [|done]. rewrite -> Hl' in Hl. injection Hl as <-.
    exists h. split; [by rewrite Hll|]. apply Hst. left.
    exists g, (compute_block_hashes m g t1), i. split_and!; [done|by apply all_ids_lookup| |lia|done].
    rewrite -> Z.div_0_l by lia. lia.
  - destruct (common_prefix_hash n rec t1 t2 e ltac:(lia) H1 H2 Hd Hn Heq) as (h & Hne & Hp1 & Hp2).
    destruct h as [|b h]; [done|].
    set (key g := request_hasher (hm_meta m) (IObj (PState (gi_seed g) MAMBA_ALIGN_STATE e (b :: h)))).
    exists (key <$> state_groups m). split.
    + apply map_res_pure. intros g Hg.
      destruct (state_hash_spec m Hm _ g e (lookup_ids_zlen n rec t2)) as (k & -> & Hk & _).
      rewrite -> Hk, Hp2 by (done || lia). done.
    + apply Forall_fmap, Forall_forall. intros g Hg. simpl. apply Hst. right.
      split; [done|]. split; [lia|]. exists g. split; [done|].
      destruct (state_hash_spec m Hm _ g e (all_ids_zlen t1)) as (k & -> & Hk & _).
      rewrite -> Hk, Hp1 by (done || lia). done.
Qed.

End prefix.
