(* ===== verification/HlaProps.v ===== *)
(** * What the hybrid linear-attention connector guarantees

    The plan of a chunk names the right blocks; what one request dumped another
    one with the same prefix finds; matching promises boundaries only and leaves
    tokens to recompute. *)
From S2P Require Import Prelude Runtime RankConsistency PyHash Hashing KVLayout Direct DirectWorker Sim DispatchProps SchedProps.
From S2P Require Import HlaLayout HlaGroups Hla HlaGroupProps HlaPlanProps.
Open Scope Z_scope.

(** ** Matching *)

Lemma lookup_all_run {W} `{StoreOps W} st ids (s : manager * W) :
  ∃ r s', lookup_all st ids s = (r, s').
Proof. destruct (lookup_all st ids s) as [r s'] eqn:E. by exists r, s'. Qed.

Section matching.
  Context {W : Type} `{StoreLaws W} `{DeviceOps W} `{SetOrder} `{PyHash}.
  Variable cf : conf.
  Variable m : group_manager.
  Hypothesis Hm : manager_ok m.
Let lcm : Z := lcm_block_size m.

(** The lookup keeps the tracked requests of the base connector. *)
Definition same_memo (c0 : conn) (s : conn * W) : Prop := recompute_tokens s.1 = recompute_tokens c0.

Lemma hla_lookup_bounds computed ids (s : conn * W) :
  zlen ids = num_groups m → 0 ≤ computed → (lcm | computed) →
  ∃ ext keys s', hla_lookup cf m computed ids s = (Ok (ext, ext / lcm, keys), s') ∧
    recompute_tokens s'.1 = recompute_tokens s.1 ∧ 0 ≤ ext ∧ (lcm | ext) ∧
    (0 < ext → ∀ g l, g ∈ full_attn_groups m → py_index ids (gi_group_id g) = Ok l →
      computed + ext ≤ zlen l * gi_block_size g).
Proof.
  intros Hids Hc Hd. pose proof (mo_lcm _ Hm) as Hlcm. fold lcm in Hlcm.
  set (I (t : conn * W) := recompute_tokens t.1 = recompute_tokens s.1).
  set (R g c := ∃ l, py_index ids (gi_group_id g) = Ok l ∧ 0 ≤ c ∧
    (0 < c → computed / gi_block_size g * gi_block_size g + c ≤ zlen l * gi_block_size g)).
  set (T (positions : list Z) (r : option Z) :=
    match r with Some pos => pos = computed ∨ pos ∈ positions | None => True end).
  assert (Hrec : ∀ t : conn * W, I t → ∃ t', _record_counter "connector_lookup_errors_total" t = (Ok tt, t') ∧ I t').
  { intros t Ht. eexists. split; [reflexivity|]. exact Ht. }
  unfold hla_lookup.
  destruct (lookup_runs m Hm (λ block_ids, on_rc (lookup_on_prefix (store cf) block_ids))
    (λ block_ids, on_rc (lookup_all (store cf) block_ids))
    (_record_counter "connector_lookup_errors_total") ids Hids I computed R T s)
    as (cs & n & ext & keys & s' & Hrun & HI & Hcs & Hmin & Hext).
  - intros fa t Hfa Ht.
    destruct (candidate_bounds m Hm (λ block_ids, on_rc (lookup_on_prefix (store cf) block_ids))
      (_record_counter "connector_lookup_errors_total") ids Hids I computed fa t) as (l & c & t' & Hl & Hr & HI & Hb1 & Hb2);
      [|done|done|done|done|].
    + intros l t0 Ht0 Hl. unfold on_rc, lift.
      destruct (lookup_on_prefix (store cf) l (rank_consistency t0.1, t0.2)) as [r u] eqn:E.
      eexists _, _. split; [reflexivity|]. split; [done|]. destruct r; [|done].
      by eapply lookup_on_prefix_bounds.
    + exists c, t'. split; [done|]. split; [done|]. by exists l.
  - intros positions t Ht. apply (scan_states_run m Hm); [done| |done|done].
    intros l t0 Ht0. unfold on_rc, lift.
    destruct (lookup_all (store cf) l (rank_consistency t0.1, t0.2)) as [r u].
    eexists _, _. split; [reflexivity|]. exact Ht0.
  - done.
  - apply Z.mod_divide; [lia|done].
  - fold lcm in Hrun, Hext. exists ext, keys, s'. split; [exact Hrun|]. split; [done|].
    set (cap := n / lcm * lcm) in *.
    assert (Hcapn : 0 < cap → 0 < n ∧ cap ≤ n).
    { unfold cap. pose proof (Z.mul_div_le n lcm Hlcm). lia. }
    assert (Hle : 0 ≤ ext ∧ (lcm | ext) ∧ (0 < ext → 0 < cap ∧ ext ≤ cap)).
    { assert (Hdc : (lcm | cap)) by (by exists (n / lcm)).
      destruct Hext as [[Hle ->]|[(Hpos & Hsg & ->)|(Hpos & Hsg & r & Hr & ->)]].
      - split; [done|]. split; [apply Z.divide_0_r|lia].
      - split; [lia|]. done.
      - destruct r as [pos|]; [|split; [done|]; split; [apply Z.divide_0_r|lia] ].
        split; [lia|]. destruct Hr as [->|Hin].
        + rewrite -> Z.sub_diag. split; [apply Z.divide_0_r|lia].
        + apply py_range_down_spec in Hin as [? ?]; [|done|by replace (computed + cap - computed) with cap by lia].
          rewrite -> Z.max_r by lia. split; [done|lia]. }
    split; [lia|]. split; [tauto|]. intros Hpos g l Hg Hl.
    destruct (fa_group m Hm g Hg) as [Hgrp _]. destruct (group_pos m Hm g Hgrp) as [Hbs Hdiv].
    apply list_elem_of_lookup_1 in Hg as [k Hk].
    destruct (Forall2_lookup_l _ _ _ _ _ Hcs Hk) as (c & Hck & l' & Hl' & Hc0 & Hcb).
    rewrite -> Hl in Hl'. injection Hl' as <-.
    assert (Hne : cs ≠ []) by (intros ->; done).
    destruct (py_min_spec cs Hne) as (n' & Hmin' & _ & Hall). rewrite -> Hmin in Hmin'. injection Hmin' as <-.
    rewrite -> Forall_lookup in Hall. specialize (Hall k c Hck). simpl in Hall.
    assert (computed / gi_block_size g * gi_block_size g = computed).
    { rewrite -> Z.mul_comm. symmetry. apply Z_div_exact_full_2; [lia|]. apply Z.mod_divide; [lia|]. by etrans. }
    lia.
Qed.

(** The identifiers looked up leave the tokens to recompute. *)
Lemma lookup_ids_bound n rec ids g l total :
  g ∈ groups_by_id m → 1 ≤ rec → zlen ids = num_groups m →
  (∀ l, ids !! Z.to_nat (gi_group_id g) = Some l → zlen l * gi_block_size g ≤ n) →
  py_index (lookup_ids m n rec ids) (gi_group_id g) = Ok l →
  0 < total → (lcm | total) → total ≤ zlen l * gi_block_size g → total + rec ≤ n.
Proof.
  intros Hg Hrec Hids Hn Hl Ht Hd Hle. pose proof (mo_lcm _ Hm) as Hlcm. fold lcm in Hlcm.
  destruct (group_pos m Hm g Hg) as [Hbs [q Hq]]. fold lcm in Hq.
  pose proof Hg as [k Hk]%list_elem_of_lookup_1. pose proof (mo_ids _ Hm k g Hk) as Hgid.
  apply py_index_lookup in Hl; [|lia]. unfold lookup_ids in Hl. fold lcm in Hl.
  assert (Htot : total / lcm * lcm = total).
  { destruct Hd as [b ->]. by rewrite -> Z.div_mul by lia. }
  pose proof (Z.mul_div_le (n - rec) lcm Hlcm) as Hmax.
  assert (Hgoal : total / lcm ≤ Z.max 0 ((n - rec) / lcm) → total + rec ≤ n) by nia.
  destruct (Z.ltb_spec (Z.max 0 ((n - rec) / lcm)) (n / lcm)) as [Hcut|Hcut].
  - rewrite -> Hgid, Nat2Z.id, lookup_zip_with, Hk in Hl. simpl in Hl.
    destruct (ids !! k) as [l0|] eqn:Hl0; [|done]. simpl in Hl. injection Hl as <-.
    assert (Hlq : lcm / gi_block_size g = q) by (rewrite -> Hq; apply Z.div_mul; lia).
    rewrite -> Hlq, py_upto_pos in Hle by nia.
    assert (zlen (take (Z.to_nat (Z.max 0 ((n - rec) / lcm) * q)) l0) ≤ Z.max 0 ((n - rec) / lcm) * q).
    { unfold zlen. rewrite length_take. nia. }
    apply Hgoal. assert (total ≤ Z.max 0 ((n - rec) / lcm) * lcm) by nia. nia.
  - apply Hgoal. specialize (Hn l Hl). assert (total / lcm ≤ n / lcm); [|lia].
    apply Z.div_le_mono; lia.
Qed.

(** Heat updates return, or fail in the store. *)
Definition store_raises : Prop := ∃ ids (w : W) e w', st_prefetch (store cf) ids w = (Raise e, w').

Lemma prefetch_run ids (s : conn * W) :
  ∃ r w', on_w (st_prefetch (store cf) ids) s = (r, (s.1, w')) ∧
    match r with Ok _ => True | Raise _ => store_raises end.
Proof.
  unfold on_w, lift. destruct (st_prefetch (store cf) ids s.2) as [r w'] eqn:E.
  exists r, w'. split; [done|]. destruct r; [done|]. by exists ids, s.2, e, w'.
Qed.

Lemma seq_run {A} (x : M (conn * W) unit) (k : M (conn * W) A) c w (Q : res A → conn * W → Prop) :
  (∃ r w', x (c, w) = (r, (c, w')) ∧ match r with Ok _ => True | Raise _ => store_raises end) →
  (∀ e w', store_raises → Q (Raise e) (c, w')) →
  (∀ w', ∃ r s', k (c, w') = (r, s') ∧ Q r s') →
  ∃ r s', (x ;; k) (c, w) = (r, s') ∧ Q r s'.
Proof.
  intros (r & w' & Hx & Hr) HR HK. destruct r as [[]|e].
  - destruct (HK w') as (r & s' & Hk & HQ). exists r, s'. split; [|done]. by mrun Hx.
  - exists (Raise e), (c, w'). split; [by apply M_bind_Raise|]. by apply HR.
Qed.

Lemma prefetch_hits_run primary keys a b c w :
  ∃ r w', prefetch_hits cf primary keys a b (c, w) = (r, (c, w')) ∧
    match r with Ok _ => True | Raise _ => store_raises end.
Proof.
  set (Q (r : res unit) (s : conn * W) := s.1 = c ∧ match r with Ok _ => True | Raise _ => store_raises end).
  assert (Hend : ∀ x : M (conn * W) unit, (∃ r s', x (c, w) = (r, s') ∧ Q r s') →
    ∃ r w', x (c, w) = (r, (c, w')) ∧ match r with Ok _ => True | Raise _ => store_raises end).
  { intros x (r & [c' w'] & Hx & Hc & Hr). simpl in Hc. subst c'. by exists r, w'. }
  assert (Hpf : ∀ ids w, ∃ r w', (match ids with [] => mret tt | _ => on_w (st_prefetch (store cf) ids) end) (c, w)
      = (r, (c, w')) ∧ match r with Ok _ => True | Raise _ => store_raises end).
  { intros [|b0 ids] w0; [by eexists (Ok tt), w0|]. exact (prefetch_run (b0 :: ids) (c, w0)). }
  unfold prefetch_hits. apply Hend. apply seq_run; [apply Hpf|done|]. intros w1.
  apply seq_run; [apply Hpf|done|]. intros w2. unfold _prefetch_other_rank_hashes.
  destruct (other_rank_hashers cf) as [|h hs]; [by eexists (Ok tt), _|].
  destruct (_ ++ _) as [|b0 bs]; [by eexists (Ok tt), _|].
  destruct (prefetch_run (concat ((λ meta, (λ b, request_hasher meta (IBytes b)) <$> b0 :: bs) <$> h :: hs))
    (c, w2)) as (r & w3 & Hr & Hok). by exists r, (c, w3).
Qed.

(** The metadata matching leaves for a request. *)
Definition matched_meta (r : request) (computed n : Z) : HLARequestMeta :=
  HlaReq (ReqMeta (match py_index (full_attn_groups m) 0 with
                   | Ok p => compute_block_hashes m p (all_token_ids r)
                   | Raise _ => []
                   end) (computed / lcm) ((computed + n) / lcm) (zlen (all_token_ids r)) [] (computed + n))
    (compute_all_group_block_ids m (all_token_ids r)) (replicate (Z.to_nat (num_groups m)) []).

Lemma h_matched_spec r computed (s : hla * W) :
  memo_ok cf (hbase s.1) → 0 ≤ computed → computed mod lcm = 0 → num_tokens r = zlen (all_token_ids r) →
  ∃ res s', get_num_new_matched_tokens cf m r computed s = (res, s') ∧
    match res with
    | Raise _ => store_raises ∧ h_requests_meta s'.1 = h_requests_meta s.1
    | Ok (n, asynchronous) =>
        asynchronous = false ∧ 0 ≤ n ∧ (lcm | n) ∧
        (0 < n → computed + n + full_hit_recompute_tokens cf ≤ num_tokens r) ∧
        ((n = 0 ∧ h_requests_meta s'.1 = h_requests_meta s.1) ∨
         h_requests_meta s'.1 = dict_set (request_id r) (matched_meta r computed n) (h_requests_meta s.1))
    end.
Proof.
  intros Hmemo Hc Hmod Hnum. pose proof (mo_lcm _ Hm) as Hlcm. fold lcm in Hlcm.
  pose proof Hmod as Hd. apply Z.mod_divide in Hd; [|lia].
  destruct s as [h w]. cbn [fst] in *.
  unfold get_num_new_matched_tokens, assert_. fold lcm. rewrite -> (proj2 (Z.eqb_eq _ _) Hmod). mstep.
  destruct (num_tokens r <? persist_token_threshold cf).
  { eexists _, _. split; [reflexivity|]. split_and!; [done..|apply Z.divide_0_r|lia|by left]. }
  destruct (primary_group m Hm) as (p & Hp & Hin). rewrite -> Hp. mstep.
  destruct (fa_group m Hm p Hin) as [Hgrp Hal]. destruct (group_pos m Hm p Hgrp) as [Hbs _].
  rewrite -> (all_ids_index m Hm p (all_token_ids r) Hgrp). mstep.
  destruct (recompute_spec cf (hbase h, w) Hmemo) as (s1 & Hrec & _ & Hmemo1).
  set (ids := lookup_ids m (num_tokens r) (full_hit_recompute_tokens cf) (compute_all_group_block_ids m (all_token_ids r))).
  destruct (hla_lookup_bounds computed ids s1) as (ext & keys & s2 & Hl & _ & Hext & Hde & Hbound);
    [apply lookup_ids_zlen|done|done|].
  assert (Hr1 : on_hbase (_get_full_hit_recompute_tokens cf) (h, w) =
    (Ok (full_hit_recompute_tokens cf), (Hla s1.1 (h_requests_meta h), s1.2))).
  { unfold on_hbase, lift. cbn [fst snd]. by rewrite -> Hrec. }
  mrun Hr1.
  assert (Hr2 : on_hbase (hla_lookup cf m computed ids) (Hla s1.1 (h_requests_meta h), s1.2) =
    (Ok (ext, ext / lcm, keys), (Hla s2.1 (h_requests_meta h), s2.2))).
  { unfold on_hbase, lift. cbn [fst snd hbase]. rewrite <- surjective_pairing, Hl. done. }
  mrun Hr2. cbv zeta.
  assert (Hext' : ext / lcm * lcm = ext) by (destruct Hde as [b ->]; by rewrite -> Z.div_mul by lia).
  assert (Hcomp' : computed / lcm * lcm = computed) by (destruct Hd as [b ->]; by rewrite -> Z.div_mul by lia).
  replace (computed / lcm + ext / lcm) with ((computed + ext) / lcm) by
    (destruct Hde as [b ->], Hd as [b' ->]; rewrite <- Z.mul_add_distr_r, !Z.div_mul by lia; done).
  replace ((computed + ext) / lcm * lcm) with (computed + ext) by
    (destruct Hde as [b ->], Hd as [b' ->]; rewrite <- Z.mul_add_distr_r, Z.div_mul by lia; done).
  destruct (prefetch_hits_run (compute_block_hashes m p (all_token_ids r)) keys
    (computed / gi_block_size p) ((computed + ext) / gi_block_size p) s2.1 s2.2) as (pr & w3 & Hpf & Hok).
  assert (Hr3 : on_hbase (prefetch_hits cf (compute_block_hashes m p (all_token_ids r)) keys
      (computed / gi_block_size p) ((computed + ext) / gi_block_size p)) (Hla s2.1 (h_requests_meta h), s2.2) =
    (pr, (Hla s2.1 (h_requests_meta h), w3))).
  { unfold on_hbase, lift. cbn [fst snd hbase]. by rewrite -> Hpf. }
  destruct pr as [[]|e].
  2:{ eexists _, _. split; [by apply M_bind_Raise|]. done. }
  mrun Hr3.
  assert (Hrecpos : 1 ≤ full_hit_recompute_tokens cf) by apply recompute_pos.
  assert (Hrm : HlaReq (ReqMeta (compute_block_hashes m p (all_token_ids r)) (computed / lcm)
       ((computed + ext) / lcm) (zlen (all_token_ids r)) [] (computed + ext))
     (compute_all_group_block_ids m (all_token_ids r)) (replicate (Z.to_nat (num_groups m)) []) =
     matched_meta r computed ext) by (unfold matched_meta; by rewrite -> Hp).
  assert (Hst : ∃ b, match compute_block_hashes m p (all_token_ids r) with
     | [] => mret tt
     | _ => on_hbase (update_stats [("interval_lookup_hit_rates", MRatio (ext / lcm * lcm)
              (zlen (compute_block_hashes m p (all_token_ids r)) * gi_block_size p))])
     end (Hla s2.1 (h_requests_meta h), w3) = (Ok tt, (Hla b (h_requests_meta h), w3))).
  { destruct (compute_block_hashes m p (all_token_ids r)); eexists; reflexivity. }
  destruct Hst as (b & Hst). mrun Hst. mstep.
  eexists (Ok (ext, false)), _. split; [reflexivity|]. cbn [fst snd]. split_and!; [done|done|done| |].
  - intros Hpos. destruct (group_ids_index m Hm ids p (lookup_ids_zlen m _ _ _) Hgrp) as (l & Hl1 & _).
    apply (lookup_ids_bound _ _ (compute_all_group_block_ids m (all_token_ids r)) p l);
      [done|done|apply all_ids_zlen| |exact Hl1|lia|by apply Z.divide_add_r|by apply (Hbound Hpos p l)].
    intros l0 Hl0. rewrite -> all_ids_lookup in Hl0 by done. injection Hl0 as <-.
    unfold compute_block_hashes. rewrite -> Hal, generate_hash_zlen, Hnum by done.
    pose proof (Z.mul_div_le (zlen (all_token_ids r)) _ Hbs). lia.
  - right. by rewrite <- Hrm.
Qed.

End matching.

(** ** Properties *)

(** C18: The plan of a prompt chunk names the right blocks: it succeeds, its loads
    and dumps are exactly the pairs of [names], so attention blocks between the
    computed and the hit tokens are loaded and those the chunk completes are
    dumped, each with the vLLM block of the same position of its table; states
    are loaded into the running block and dumped when the chunk ends at a
    boundary of all the groups it just passed; null blocks are never named. *)
Theorem hla_plan_names_blocks `{PyHash} m rm n blocks full :
  let r := hr_meta rm in
  let lcm := lcm_block_size m in
  manager_ok m → shaped m rm → 0 ≤ rm_hbm_hit_block_num r < rm_total_hit_block_num r →
  0 ≤ n → zlen blocks = num_groups m → rm_token_processed r < rm_num_token_ids r →
  ∃ d rm', _generate_hla_dispatch_meta m n blocks true full rm = (Ok d, rm') ∧
    rm_token_processed (hr_meta rm') = rm_token_processed r + n ∧
    length (load_block_ids d).1 = length (load_block_ids d).2 ∧
    length (dump_block_ids d).1 = length (dump_block_ids d).2 ∧
    (∀ u v, (u, v) ∈ zip (load_block_ids d).1 (load_block_ids d).2 ↔
       names m rm' (rm_hbm_hit_block_num r * lcm) (rm_total_hit_block_num r * lcm) true u v) ∧
    (∀ u v, (u, v) ∈ zip (dump_block_ids d).1 (dump_block_ids d).2 ↔
       names m rm' (rm_token_processed r) (chunk_end rm n) false u v).
Proof.
  intros r lcm Hm Hs Hhits Hn Hb Hlt. unfold r in *. clear r. pose proof (mo_lcm _ Hm) as Hlcm. fold lcm in Hlcm.
  destruct (chunk_run m Hm rm n blocks true full Hs ltac:(lia) Hn Hb Hlt) as (Hrun & _ & _).
  set (rm1 := after_merge blocks full rm) in *. eexists _, _. split; [exact Hrun|].
  cbn [load_block_ids dump_block_ids fst snd]. rewrite -> !zip_fst_snd, !length_fmap.
  split; [done|]. split; [done|]. split; [done|]. pose proof Hs as (_ & _ & Hp). split.
  - intros u v. unfold planned_loads. change (hr_meta rm1) with (hr_meta rm).
    rewrite -> (proj2 (Z.ltb_lt _ _)) by lia. cbn [andb].
    rewrite -> names_processed. apply load_pairs_spec; [done|unfold lcm in *; nia..].
  - intros u v. rewrite -> names_processed. apply chunk_pairs_spec; [done..|]. unfold chunk_end. lia.
Qed.

(** C16: What one request dumps another one finds: when a request that had no
    hits is computed in chunks over allocated blocks and the chunks planned are
    stored, a request with the same first [e] tokens, for a boundary [e] that
    ends a chunk, resumes at least there, however the prompt was chunked. *)
Theorem hla_dumped_prefix_hits `{PyHashLaws} {S} m
    (lookup_on_prefix : list bytes → M S Z) (lookup_all : list bytes → M S (list bool))
    (record_error : M S unit) (I : S → Prop) stored r1 chunks r2 recompute computed e (s : S) :
  let lcm := lcm_block_size m in
  let rm := matched_meta m r1 0 0 in
  manager_ok m → answers lookup_on_prefix lookup_all I stored → I s → covered m chunks rm →
  e ∈ ends chunks 0 (zlen (all_token_ids r1)) → (lcm | e) →
  take (Z.to_nat e) (all_token_ids r1) = take (Z.to_nat e) (all_token_ids r2) →
  0 ≤ recompute → e + recompute ≤ zlen (all_token_ids r2) →
  0 ≤ computed < e → (lcm | computed) →
  ∃ ds rm', run_hchunks m chunks rm = (Ok ds, rm') ∧
    ((∀ u, planned ds u → stored u = true) →
     ∃ ext keys s',
       lookup_external_hit_tokens lookup_on_prefix lookup_all record_error m computed
         (lookup_ids m (zlen (all_token_ids r2)) recompute
            (compute_all_group_block_ids m (all_token_ids r2))) s = (Ok (ext, ext / lcm, keys), s') ∧
       e ≤ computed + ext).
Proof.
  intros lcm rm Hm Ha HI Hcov He Hd Heq Hrec Hn Hc Hdc.
  assert (Hs : shaped m rm).
  { split; [apply all_ids_zlen|]. split; [|done]. unfold rm, matched_meta, zlen. simpl.
    rewrite -> length_replicate. unfold num_groups, zlen. lia. }
  assert (Hhits : 0 ≤ rm_hbm_hit_block_num (hr_meta rm) ≤ rm_total_hit_block_num (hr_meta rm)).
  { pose proof (mo_lcm _ Hm). simpl. rewrite -> !Z.div_0_l by lia. lia. }
  destruct (run_hchunks_keys m Hm chunks rm Hs Hhits Hcov) as (ds & rm' & Hrun & _ & _ & Hkeys).
  exists ds, rm'. split; [done|]. intros Hst.
  set (ids := lookup_ids _ _ _ _).
  destruct (lookup_latest m Hm lookup_on_prefix lookup_all record_error ids (lookup_ids_zlen m _ _ _)
    I stored computed s) as (ext & keys & s0 & Hlook & _ & _ & _ & _ & Hmax); [done|done|lia|done|].
  exists ext, keys, s0. split; [done|]. apply Hmax.
  assert (Hb : Z.min 0 (zlen (all_token_ids r1)) ≤ e ≤ zlen (all_token_ids r1))
    by (eapply (ends_bounds m); [by eapply covered_nonneg|exact He]).
  apply (stored_prefix_usable m Hm stored _ _ (all_token_ids r1)); try done; try lia.
  intros u Hu. apply Hst. by apply (Hkeys e u).
Qed.

(** Matching of the hybrid connector is sound: it promises whole boundaries,
    never the tokens to recompute, and asks for no asynchronous load; a request
    is tracked with exactly the tokens promised as hits.  It raises only when a
    heat update of the store does, and then leaves every tracked request as it was. *)
Theorem hla_matched_tokens_sound {W} `{StoreLaws W} `{DeviceOps W} `{SetOrder} `{PyHash} cf m r computed
    (s : hla * W) :
  let lcm := lcm_block_size m in
  manager_ok m → memo_ok cf (hbase s.1) → 0 ≤ computed → computed mod lcm = 0 →
  num_tokens r = zlen (all_token_ids r) →
  ∃ res s', get_num_new_matched_tokens cf m r computed s = (res, s') ∧
    match res with
    | Raise _ => (∃ ids (w : W) e w', st_prefetch (store cf) ids w = (Raise e, w')) ∧
        h_requests_meta s'.1 = h_requests_meta s.1
    | Ok (n, asynchronous) =>
        asynchronous = false ∧ 0 ≤ n ∧ (lcm | n) ∧
        (0 < n → computed + n + full_hit_recompute_tokens cf ≤ num_tokens r) ∧
        ((n = 0 ∧ h_requests_meta s'.1 = h_requests_meta s.1) ∨
         h_requests_meta s'.1 = dict_set (request_id r) (matched_meta m r computed n) (h_requests_meta s.1))
    end.
Proof. intros lcm Hm. exact (h_matched_spec cf m Hm r computed s). Qed.

(** A request of 8 tokens computed in two chunks, another one with 9 tokens. *)
Definition ex_req (toks : list Z) : request := Req "a" toks (zlen toks) (zlen toks).

Lemma hla_plan_names_blocks_witness :
  let rm := HlaReq (ReqMeta [] 0 1 8 [] 4) (compute_all_group_block_ids ex_manager [1; 2; 3; 4; 5; 6; 7; 8])
              [ []; [] ] in
  ∃ d rm', _generate_hla_dispatch_meta ex_manager 4 [ [3; 4; 5; 6]; [0; 9] ] true true rm = (Ok d, rm') ∧
    rm_token_processed (hr_meta rm') = 8 ∧
    length (load_block_ids d).1 = length (load_block_ids d).2 ∧
    length (dump_block_ids d).1 = length (dump_block_ids d).2 ∧
    (∀ u v, (u, v) ∈ zip (load_block_ids d).1 (load_block_ids d).2 ↔ names ex_manager rm' 0 4 true u v) ∧
    (∀ u v, (u, v) ∈ zip (dump_block_ids d).1 (dump_block_ids d).2 ↔ names ex_manager rm' 4 8 false u v).
Proof.
  refine (hla_plan_names_blocks ex_manager
    (HlaReq (ReqMeta [] 0 1 8 [] 4) (compute_all_group_block_ids ex_manager [1; 2; 3; 4; 5; 6; 7; 8]) [ []; [] ])
    4 [ [3; 4; 5; 6]; [0; 9] ] true ex_manager_ok _ _ _ _ _).
  - split; [vm_compute; reflexivity|]. split; [reflexivity|]. vm_compute. congruence.
  - simpl. lia.
  - lia.
  - reflexivity.
  - simpl. lia.
Defined.

Lemma hla_dumped_prefix_hits_witness :
  let chunks := [(4, [ [3; 4]; [9] ], true); (4, [ [5; 6]; [10] ], false)] in
  let r1 := ex_req [1; 2; 3; 4; 5; 6; 7; 8] in
  let r2 := ex_req [1; 2; 3; 4; 5; 6; 7; 7; 7] in
  ∃ ds rm', run_hchunks ex_manager chunks (matched_meta ex_manager r1 0 0) = (Ok ds, rm') ∧
    ((∀ u, planned ds u → true = true) →
     ∃ ext keys s',
       lookup_external_hit_tokens (λ l, mret (stored_prefix (λ _, true) l - 1)) (λ l, mret ((λ _, true) <$> l))
         (mret tt) ex_manager 0
         (lookup_ids ex_manager (zlen (all_token_ids r2)) 1
            (compute_all_group_block_ids ex_manager (all_token_ids r2))) tt = (Ok (ext, ext / 4, keys), s') ∧
       4 ≤ 0 + ext).
Proof.
  refine (hla_dumped_prefix_hits ex_manager (λ l, mret (stored_prefix (λ _, true) l - 1))
    (λ l, mret ((λ _, true) <$> l)) (mret tt) (λ _, True) (λ _, true)
    (ex_req [1; 2; 3; 4; 5; 6; 7; 8]) [(4, [ [3; 4]; [9] ], true); (4, [ [5; 6]; [10] ], false)]
    (ex_req [1; 2; 3; 4; 5; 6; 7; 7; 7]) 1 0 4 tt ex_manager_ok _ I _ _ _ _ _ _ _ _).
  - split; intros; eexists; (split; [reflexivity|done]).
  - assert (Hx : indexed_groups ex_manager = [(0, Group 0 2 ["attn"] [7] false); (1, Group 1 4 ["mamba"] [8] true)])
      by reflexivity.
    assert (Hnum : num_groups ex_manager = 2) by reflexivity.
    cbn [covered]. rewrite -> Hx, Hnum. split_and!; try done; try (vm_compute; congruence).
    + intros x Hin. apply elem_of_cons in Hin as [->|Hin];
        [|apply list_elem_of_singleton in Hin as ->]; eexists; (split; [vm_compute; reflexivity|]); cbn [fst snd gi_is_mamba_align gi_block_size].
      * intros i Hi. assert (0 ≤ i < 2) by exact Hi.
        assert (i = 0 ∨ i = 1) as [->| ->] by lia; eexists; split; reflexivity || done.
      * intros _. eexists. split; [vm_compute; reflexivity|done].
    + intros x Hin. apply elem_of_cons in Hin as [->|Hin];
        [|apply list_elem_of_singleton in Hin as ->]; eexists; (split; [vm_compute; reflexivity|]); cbn [fst snd gi_is_mamba_align gi_block_size].
      * intros i Hi. assert (2 ≤ i < 4) by exact Hi.
        assert (i = 2 ∨ i = 3) as [->| ->] by lia; eexists; split; reflexivity || done.
      * intros _. eexists. split; [vm_compute; reflexivity|done].
  - left.
  - by apply (Z.mod_divide 4 4).
  - reflexivity.
  - lia.
  - vm_compute. congruence.
  - lia.
  - apply Z.divide_0_r.
Defined.

Lemma hla_matched_tokens_sound_witness :
  let s := (Hla (init_conn true None false) [], sim_init [] []) in
  ∃ res s', get_num_new_matched_tokens (W := sim) ex_cf ex_manager (ex_req [1; 2; 3; 4; 5]) 0 s = (res, s') ∧
    match res with
    | Raise _ => (∃ ids (w : sim) e w', st_prefetch (store ex_cf) ids w = (Raise e, w')) ∧
        h_requests_meta s'.1 = []
    | Ok (n, asynchronous) =>
        asynchronous = false ∧ 0 ≤ n ∧ (4 | n) ∧ (0 < n → 0 + n + full_hit_recompute_tokens ex_cf ≤ 5) ∧
        ((n = 0 ∧ h_requests_meta s'.1 = []) ∨
         h_requests_meta s'.1 = dict_set "a" (matched_meta ex_manager (ex_req [1; 2; 3; 4; 5]) 0 n) [])
    end.
Proof.
  exact (hla_matched_tokens_sound ex_cf ex_manager (ex_req [1; 2; 3; 4; 5]) 0
    (Hla (init_conn true None false) [], sim_init [] []) ex_manager_ok (or_introl eq_refl)
    (Z.le_refl 0) eq_refl eq_refl).
Defined.
