(* ===== verification/WorkerProps.v ===== *)
(** * What the worker side of the direct connector guarantees

    The invariant tying outstanding dump contexts and live events to the list of
    pending dump tasks, over all sequences of worker operations, and what it
    gives for [get_finished] and for the event handles. *)
From S2P Require Import Prelude Runtime RankConsistency PyHash Hashing KVLayout Direct DirectWorker DispatchProps Sim.
Open Scope Z_scope.

(** Every outstanding dump context belongs to a task of [tasks] that names its
    requests. *)
Definition ctx_covered (tasks : list PendingDumpTask) (m : manager) : Prop :=
  ∀ t st ctx, dump_task_contexts m !! t = Some (st, ctx) →
  ∃ p, p ∈ tasks ∧ pd_task p = t ∧ list_to_set ctx.*1 ⊆ pd_request_ids p.

(** Every live event is the handle of a task of [tasks]. *)
Definition events_covered (sync : bool) (tasks : list PendingDumpTask) (d : option device) : Prop :=
  ∀ dv h, d = Some dv → is_Some (events dv !! h) → h ≠ 0 →
  sync = true ∧ ∃ p, p ∈ tasks ∧ pd_event_handle p = h.

Lemma ctx_covered_more t1 t2 m : t1 ⊆ t2 → ctx_covered t1 m → ctx_covered t2 m.
Proof. intros Hs Hc t st ctx Ht. destruct (Hc t st ctx Ht) as (p & ? & ?). eauto. Qed.

Lemma events_covered_more sync t1 t2 d : t1 ⊆ t2 → events_covered sync t1 d → events_covered sync t2 d.
Proof. intros Hs Hc dv h Hd Hh Hne. destruct (Hc dv h Hd Hh Hne) as (? & p & ? & ?). eauto 10. Qed.

(** Calls made one after the other, whatever they raise: what each returned or
    raised, and the state after the last one. *)
Section attempts.
  Context {S A B : Type}.
  Variable m : A → M S B.

Fixpoint attempts (l : list A) (s : S) : list (A * res B) * S :=
  match l with
  | [] => ([], s)
  | x :: l =>
      let '(r, s1) := m x s in
      let '(rs, s2) := attempts l s1 in ((x, r) :: rs, s2)
  end.

End attempts.

Definition raised {A B} (l : list (A * res B)) : list A :=
  omap (λ p, match p.2 with Raise _ => Some p.1 | Ok _ => None end) l.
Definition returned {A B} (l : list (A * res B)) : list (A * B) :=
  omap (λ p, match p.2 with Ok b => Some (p.1, b) | Raise _ => None end) l.

Lemma attempts_keys {S A B} (m : A → M S B) l : ∀ s, (attempts m l s).1.*1 = l.
Proof.
  induction l as [|x l IH]; intros s; [done|]. cbn [attempts]. destruct (m x s) as [r s1].
  specialize (IH s1). destruct (attempts m l s1) as [rs s2]. csimpl. by f_equal.
Qed.

Lemma raised_sub {A B} (l : list (A * res B)) : raised l ⊆ l.*1.
Proof.
  intros x. unfold raised. rewrite -> list_elem_of_omap. intros ([y r] & Hin & Hx).
  apply list_elem_of_fmap. exists (y, r). split; [|done]. destruct r; simpl in *; congruence.
Qed.

Lemma returned_sub {A B} (l : list (A * res B)) : (returned l).*1 ⊆ l.*1.
Proof.
  intros x [[y b] [-> Hin]]%list_elem_of_fmap. unfold returned in Hin.
  apply list_elem_of_omap in Hin as ([z r] & Hin & Hz). apply list_elem_of_fmap. exists (z, r).
  split; [|done]. destruct r; simpl in *; congruence.
Qed.

Section worker.
  Context {W : Type} `{StoreOps W} `{DeviceOps W} `{SetOrder} `{PyHash}.
  Variable cf : conf.

Definition covered (tasks : list PendingDumpTask) (s : conn * W) : Prop :=
  ctx_covered tasks (rank_consistency s.1) ∧ events_covered (enable_event_sync cf) tasks (dev s.1).

(** The fields the waits leave alone. *)
Definition framed (s s' : conn * W) : Prop :=
  pending_dump_tasks s'.1 = pending_dump_tasks s.1 ∧
  async_dump_req_ids s'.1 = async_dump_req_ids s.1 ∧
  connector_metadata s'.1 = connector_metadata s.1 ∧
  enabled (rank_consistency s'.1) = enabled (rank_consistency s.1).

Lemma framed_refl s : framed s s.
Proof. done. Qed.

Lemma framed_trans s1 s2 s3 : framed s1 s2 → framed s2 s3 → framed s1 s3.
Proof. unfold framed. naive_solver congruence. Qed.

(** ** Waiting for one dump *)

Lemma wait_dump_spec t (s : manager * W) :
  ∃ r s', wait_dump t s = (r, s') ∧ enabled s'.1 = enabled s.1 ∧
    dump_task_contexts s'.1 = delete t (dump_task_contexts s.1).
Proof.
  unfold wait_dump, upd, on_store. munfold.
  destruct (dump_task_contexts s.1 !! t) as [[st ctx]|] eqn:Ht; simpl.
  - destruct (st_wait st t s.2) as [[[]|e] w]; simpl; eauto.
  - exists (Raise (RuntimeError "Dump task was not submitted through submit_dump().")), s.
    split_and!; try done. by rewrite delete_id.
Qed.

Lemma release_event_spec h (s : conn * W) :
  ∃ s', release_event cf h s = (Ok tt, s') ∧ framed s s' ∧
    rank_consistency s'.1 = rank_consistency s.1 ∧
    ∀ dv, dev s'.1 = Some dv → ∃ dv0, dev s.1 = Some dv0 ∧
      (events dv = delete h (events dv0) ∨
       events dv = events dv0 ∧ (enable_event_sync cf = false ∨ h = 0)).
Proof.
  unfold release_event, getc, on_dev. munfold.
  destruct (enable_event_sync cf) eqn:Hs; simpl.
  2:{ exists s. split_and!; try done. intros dv ->. eauto 10. }
  destruct (Z.eqb_spec h 0) as [->|Hh]; simpl.
  { exists s. split_and!; try done. intros dv ->. eauto 10. }
  destruct (dev s.1) as [dv0|] eqn:Hd; case_bool_decide as His; simpl;
    [|by destruct His|by destruct His|].
  - rw ?Hd. destruct (destroy_event_handle_spec h (dv0, s.2)) as (s' & -> & _ & Hev).
    eexists. split; [reflexivity|]. split_and!; try done. simpl. intros dv [= <-]. eauto.
  - exists s. split_and!; try done. by rw Hd.
Qed.

Lemma wait_logged_spec p (s : conn * W) :
  ∃ s', wait_logged cf p s = (Ok tt, s') ∧ framed s s' ∧
    (∀ rest, covered (p :: rest) s → covered rest s').
Proof.
  unfold wait_logged, _wait_pending_dump_task, on_rc, update_stats, updc. munfold.
  destruct (wait_dump_spec (pd_task p) (rank_consistency s.1, s.2)) as (r & t & -> & Hen & Hctx).
  simpl in *.
  set (s1 := match r with Ok _ => _ | Raise _ => _ end).
  assert (Hs1 : framed s s1.2 ∧ dev s1.2.1 = dev s.1 ∧
    dump_task_contexts (rank_consistency s1.2.1) = delete (pd_task p) (dump_task_contexts (rank_consistency s.1))).
  { unfold s1, framed. destruct r; simpl; done. }
  destruct s1 as [r1 s1]. simpl in Hs1. destruct Hs1 as (Hf1 & Hd1 & Hc1).
  destruct (release_event_spec (pd_event_handle p) s1) as (s2 & Hr2 & Hf2 & Hrc2 & Hev2).
  exists s2. split; [|split].
  - rw Hr2. by destruct r1 as [[]|].
  - exact (framed_trans _ _ _ Hf1 Hf2).
  - intros rest [Hctxs Hevs]. split.
    + intros t' st ctx Ht'. rewrite -> Hrc2, Hc1, lookup_delete_Some in Ht'.
      destruct Ht' as [Hne Ht']. destruct (Hctxs t' st ctx Ht') as (q & Hq & Hqt & Hsub).
      apply elem_of_cons in Hq as [->|Hq]; [done|eauto].
    + intros dv h Hdv Hh Hne. destruct (Hev2 dv Hdv) as (dv0 & Hdv0 & Hcase).
      rewrite -> Hd1 in Hdv0.
      assert (Hh0 : is_Some (events dv0 !! h)).
      { destruct Hcase as [Hcase|[Hcase _]]; rewrite -> Hcase in Hh; [|done].
        apply lookup_delete_is_Some in Hh. tauto. }
      destruct (Hevs dv0 h Hdv0 Hh0 Hne) as (Hsync & q & Hq & Hqh). split; [done|].
      apply elem_of_cons in Hq as [->|Hq]; [exfalso|eauto].
      destruct Hcase as [Hcase|[Hcase Hor]].
      * rewrite -> Hcase, Hqh, lookup_delete_eq in Hh. by destruct Hh.
      * destruct Hor; congruence.
Qed.

(** ** Draining and polling *)

Lemma covered_more t1 t2 s : t1 ⊆ t2 → covered t1 s → covered t2 s.
Proof. intros Hs [Hc He]. split; eauto using ctx_covered_more, events_covered_more. Qed.

Lemma wait_logged_rest p rem rest (s : conn * W) :
  covered (rem ++ p :: rest) s →
  ∃ s', wait_logged cf p s = (Ok tt, s') ∧ framed s s' ∧ covered (rem ++ rest) s'.
Proof.
  intros Hc. destruct (wait_logged_spec p s) as (s' & Hw & Hf & Hcov). exists s'.
  split_and!; [done|done|]. apply Hcov. eapply covered_more; [|exact Hc].
  intros x. rewrite -> !elem_of_app, !elem_of_cons, elem_of_app. tauto.
Qed.

(** A drain removes exactly the tasks that name one of the requests. *)
Lemma drain_loop ids tasks : ∀ rem (s : conn * W),
  covered (rem ++ tasks) s →
  ∃ s', for_fold tasks rem (drain_step cf ids) s =
        (Ok (rem ++ filter (λ p, pd_request_ids p ∩ ids = ∅) tasks), s') ∧
    framed s s' ∧ covered (rem ++ filter (λ p, pd_request_ids p ∩ ids = ∅) tasks) s'.
Proof.
  induction tasks as [|p tasks IH]; intros rem s Hc; simpl.
  { rewrite -> app_nil_r in *. exists s. split_and!; [done|apply framed_refl|done]. }
  rw filter_cons. unfold mbind, M_bind, drain_step at 1. case_decide as Hd.
  - rewrite -> (cons_middle p rem tasks), app_assoc in Hc.
    destruct (IH (rem ++ [p]) s Hc) as (s' & Hrun & Hf & Hc').
    rewrite <- !app_assoc in Hrun, Hc'. eauto.
  - destruct (wait_logged_rest p rem tasks s Hc) as (s1 & Hw & Hf1 & Hc1). unfold mbind, M_bind.
    rw Hw. destruct (IH rem s1 Hc1) as (s' & Hrun & Hf & Hc').
    exists s'. split_and!; [exact Hrun|by eapply framed_trans; [exact Hf1|]|done].
Qed.

(** A poll keeps a sublist of the tasks. *)
Lemma poll_loop tasks : ∀ rem (s : conn * W),
  covered (rem ++ tasks) s →
  ∃ kept s', for_fold tasks rem (poll_step cf) s = (Ok (rem ++ kept), s') ∧
    kept `sublist_of` tasks ∧ framed s s' ∧ covered (rem ++ kept) s'.
Proof.
  induction tasks as [|p tasks IH]; intros rem s Hc; simpl.
  { exists [], s. rewrite -> app_nil_r in *. split_and!; [done|done|apply framed_refl|done]. }
  unfold mbind, M_bind, poll_step at 1. unfold try_except, on_w, lift, mbind, M_bind.
  assert (Hkeep : ∀ s1 : conn * W, framed s s1 → covered (rem ++ p :: tasks) s1 →
    ∃ kept s', for_fold tasks (rem ++ [p]) (poll_step cf) s1 = (Ok (rem ++ kept), s') ∧
      kept `sublist_of` p :: tasks ∧ framed s s' ∧ covered (rem ++ kept) s').
  { intros s1 Hf1 Hc1. rewrite -> (cons_middle p rem tasks), app_assoc in Hc1.
    destruct (IH (rem ++ [p]) s1 Hc1) as (kept & s' & Hrun & Hsub & Hf & Hc').
    rewrite <- !app_assoc in Hrun, Hc'. exists (p :: kept), s'.
    split_and!; [exact Hrun|by apply sublist_skip|exact (framed_trans _ _ _ Hf1 Hf)|done]. }
  destruct (st_check (store cf) (pd_task p) s.2) as [[b|e] w]; simpl; [destruct b; simpl|].
  - destruct (wait_logged_rest p rem tasks (s.1, w) Hc) as (s1 & Hw & Hf1 & Hc1). rw Hw.
    destruct (IH rem s1 Hc1) as (kept & s' & Hrun & Hsub & Hf & Hc').
    exists kept, s'. split_and!; [exact Hrun|by apply sublist_cons| |done].
    exact (framed_trans s _ _ Hf1 Hf).
  - apply (Hkeep (s.1, w)); done.
  - apply (Hkeep (s.1, w)); done.
Qed.

(** The invariant: the pending tasks cover the contexts and the events. *)
Definition worker_inv (s : conn * W) : Prop := covered (pending_dump_tasks s.1) s.

Lemma poll_spec (s : conn * W) :
  worker_inv s →
  ∃ s', _poll_pending_dump_tasks cf s = (Ok tt, s') ∧ worker_inv s' ∧
    pending_dump_tasks s'.1 `sublist_of` pending_dump_tasks s.1 ∧
    async_dump_req_ids s'.1 = async_dump_req_ids s.1 ∧
    connector_metadata s'.1 = connector_metadata s.1.
Proof.
  intros Hinv. unfold _poll_pending_dump_tasks, getc, updc. munfold.
  destruct (poll_loop _ [] s Hinv) as (kept & s1 & Hrun & Hsub & (Hp & Ha & Hm & _) & Hc).
  simpl in *. rw Hrun. eexists. split; [done|]. simpl. split_and!; auto.
Qed.

Lemma flush_spec ids (s : conn * W) :
  worker_inv s →
  ∃ s', _flush_pending_dump_tasks cf (Some ids) s = (Ok tt, s') ∧ worker_inv s' ∧
    pending_dump_tasks s'.1 = filter (λ p, pd_request_ids p ∩ ids = ∅) (pending_dump_tasks s.1) ∧
    async_dump_req_ids s'.1 = async_dump_req_ids s.1.
Proof.
  intros Hinv. unfold _flush_pending_dump_tasks, getc, updc. munfold.
  destruct (drain_loop ids (pending_dump_tasks s.1) [] (set_pending [] s.1, s.2) Hinv)
    as (s1 & Hrun & (Hp & Ha & Hm & _) & Hc).
  simpl in *. rw Hrun. eexists. split; [done|]. simpl. split_and!; auto.
Qed.

(** ** Dumps *)

Lemma synchronize_spec (s : conn * W) :
  ∃ r s', on_dev synchronize s = (r, s') ∧ s'.1 = s.1.
Proof.
  unfold on_dev, synchronize, on_rt. munfold. destruct (dev s.1) as [d|] eqn:Hd; simpl; [|by eauto].
  destruct (stream_synchronize s.2) as [r w]. simpl. eexists _, _. split; [done|]. simpl.
  unfold set_dev. rewrite <- Hd. by destruct (s.1).
Qed.

Lemma acquire_event_spec (s : conn * W) :
  (dev s.1 = None ∧ on_dev get_event_handle s = (Raise AttributeError, s)) ∨
  ∃ d h s' d', dev s.1 = Some d ∧ on_dev get_event_handle s = (Ok h, s') ∧ framed s s' ∧
    rank_consistency s'.1 = rank_consistency s.1 ∧ dev s'.1 = Some d' ∧
    (events d' = events d ∨ events d' = <[h := h]> (events d)).
Proof.
  unfold on_dev. destruct (dev s.1) as [d|] eqn:Hd; [right|by left].
  destruct (get_event_handle_spec (d, s.2)) as (h & t & -> & _ & Hev).
  eexists d, h, _, _. do 2 (split; [reflexivity|]). split_and!; try done. simpl in *. tauto.
Qed.

(** A handle gained by [L] is covered once a task holding it is added. *)
Lemma events_covered_gain sync L d d' h p :
  events_covered sync L (Some d) → events d' = events d ∨ events d' = <[h := h]> (events d) →
  (h ≠ 0 → sync = true ∧ pd_event_handle p = h) →
  events_covered sync (p :: L) (Some d').
Proof.
  intros HL Hev Hp dv h0 [= <-] Hh Hne.
  destruct (decide (h0 = h)) as [->|Hhh].
  - destruct (Hp Hne). split; [done|]. exists p. split; [by left|done].
  - assert (Hin : is_Some (events d !! h0)).
    { destruct Hev as [Hev|Hev]; rewrite -> Hev in Hh; [done|].
      by rewrite -> lookup_insert_ne in Hh. }
    destruct (HL d h0 eq_refl Hin Hne) as (? & q & ? & ?). split; [done|]. exists q. split; [by right|done].
Qed.

Lemma events_covered_zero sync L d d' :
  events_covered sync L (Some d) → events d' = events d ∨ events d' = <[0 := 0]> (events d) →
  events_covered sync L (Some d').
Proof.
  intros HL Hev dv h0 [= <-] Hh Hne. apply (HL d h0 eq_refl); [|done].
  destruct Hev as [Hev|Hev]; rewrite -> Hev in Hh; [done|]. by rewrite -> lookup_insert_ne in Hh.
Qed.

(** The handle for a dump is the only event gained; a failure gains none. *)
Lemma dump_event_spec (s : conn * W) :
  ∃ r s', _get_dump_event_handle cf s = (r, s') ∧ framed s s' ∧
    rank_consistency s'.1 = rank_consistency s.1 ∧
    ∀ L, events_covered (enable_event_sync cf) L (dev s.1) →
      match r with
      | Ok h => ∀ p, pd_event_handle p = h → events_covered (enable_event_sync cf) (p :: L) (dev s'.1)
      | Raise _ => events_covered (enable_event_sync cf) L (dev s'.1)
      end.
Proof.
  unfold _get_dump_event_handle. destruct (enable_event_sync cf) eqn:Hsync; simpl.
  2:{ unfold mbind, M_bind. destruct (synchronize_spec s) as (r & s' & -> & Heq).
      destruct r as [[]|e]; (eexists _, s'; split; [reflexivity|]);
        unfold framed; rewrite -> Heq; split_and!; try done.
      intros L HL p _. eapply events_covered_more; [|exact HL]. set_solver. }
  unfold mbind, M_bind.
  destruct (acquire_event_spec s) as [[Hd ->]|(d & h & s1 & d' & Hd & -> & Hf & Hrc & Hd' & Hev)].
  { eexists _, s. split; [done|]. split_and!; try done. }
  destruct (Z.eqb_spec h 0) as [->|Hh].
  - destruct (synchronize_spec s1) as (r & s2 & -> & Heq).
    destruct r as [[]|e]; (eexists _, s2; split; [reflexivity|]);
      unfold framed in *; rewrite -> Heq; split_and!; try tauto; intros L HL;
      rewrite -> Hd in HL; rw Hd'.
    + intros p _. eapply (events_covered_more _ L); [set_solver|]. by eapply events_covered_zero.
    + by eapply events_covered_zero.
  - eexists _, s1. split; [reflexivity|]. split_and!; try apply Hf; [done|].
    intros L HL p Hp. rewrite -> Hd in HL. rw Hd'. by eapply events_covered_gain.
Qed.

Lemma submit_dump_spec st br ids sh ptrs ev (s : manager * W) :
  ∃ r s', submit_dump st br ids sh ptrs ev s = (r, s') ∧ enabled s'.1 = enabled s.1 ∧
    match r with
    | Ok t => ∃ ctx, ctx.*1 ⊆ br.*1 ∧
        dump_task_contexts s'.1 = <[t := (st, ctx)]> (dump_task_contexts s.1)
    | Raise _ => dump_task_contexts s'.1 = dump_task_contexts s.1
    end.
Proof.
  unfold submit_dump, upd, on_store. munfold.
  destruct (st_dump_data st ids sh ptrs ev s.2) as [[t|e] w]; simpl.
  - eexists _, _. split; [reflexivity|]. simpl. split; [done|].
    exists (if enabled s.1 then br else []). split; [|done]. destruct (enabled s.1); set_solver.
  - eexists _, _. split; [reflexivity|]. simpl. done.
Qed.

(** The two [try] blocks of a dump submission, for the addresses [ptrs]. *)
Definition submit_prepared (ptrs : res addr_rows) (acc : save_acc) : M (conn * W) (option (task * Z)) :=
  prepared ← try_except
    (total_ptrs ← of_res ptrs;
     event_handle ← _get_dump_event_handle cf;
     mret (Some (total_ptrs, event_handle)))
    (λ _, mret None);
  match prepared with
  | None => mret None
  | Some (total_ptrs, event_handle) =>
      try_except
        (t ← on_rc (submit_dump (store cf) (sa_by_request acc) (sa_ucm_block_ids acc)
                      (replicate (length (sa_ucm_block_ids acc)) 0) total_ptrs event_handle);
         mret (Some (t, event_handle)))
        (λ _, release_event cf event_handle ;; mret None)
  end.

(** A submission either keeps what [tasks] cover, or returns a task whose pending
    entry restores it. *)
Lemma submit_prepared_spec addrs acc tasks (s : conn * W) :
  covered tasks s →
  ∃ r s', submit_prepared addrs acc s = (Ok r, s') ∧ framed s s' ∧
    match r with
    | Some (t, h) => ∀ p, pd_task p = t → pd_event_handle p = h →
        list_to_set (sa_by_request acc).*1 ⊆ pd_request_ids p →
        covered (p :: tasks) s'
    | None => covered tasks s'
    end.
Proof.
  intros [Hctx Hev]. unfold submit_prepared, of_res, try_except, on_rc, lift, mbind, M_bind.
  destruct addrs as [ptrs|e]; [|by exists None, s].
  destruct (dump_event_spec s) as (rh & s1 & -> & Hf1 & Hrc1 & Hev1).
  destruct rh as [h|e]; simpl.
  2:{ exists None, s1. split_and!; [done|apply Hf1..|]. split; [by rw Hrc1|by apply Hev1]. }
  destruct (submit_dump_spec (store cf) (sa_by_request acc) (sa_ucm_block_ids acc)
    (replicate (length (sa_ucm_block_ids acc)) 0) ptrs h (rank_consistency s1.1, s1.2))
    as (r & t & -> & Hen & Hr). simpl in *.
  destruct r as [tk|e]; simpl.
  - eexists (Some (tk, h)), _. split; [reflexivity|]. split.
    { unfold framed in *. simpl. rw Hen. tauto. }
    intros p Hpt Hph Hsub. destruct Hr as (ctx & Hkeys & Hr). split; simpl.
    + intros t' st ctx' Ht'. rewrite -> Hr, lookup_insert_Some in Ht'.
      destruct Ht' as [[<- [= <- <-]]|[Hne Ht']].
      * exists p. split_and!; [by left|done|]. set_solver.
      * rewrite -> Hrc1 in Ht'. destruct (Hctx t' st ctx' Ht') as (q & ? & ?).
        exists q. split; [by right|done].
    + by apply Hev1.
  - set (s2 := (set_rc t.1 s1.1, t.2)).
    destruct (release_event_spec h s2) as (s3 & Hrel & Hf3 & Hrc3 & Hd3).
    unfold s2 in Hrel. rw Hrel.
    eexists None, s3. split; [reflexivity|]. split.
    { unfold framed in *. simpl in *. rewrite -> Hen in *. naive_solver congruence. }
    split.
    + intros t' st ctx Ht'. rewrite -> Hrc3 in Ht'. simpl in Ht'. rewrite -> Hr, Hrc1 in Ht'. eauto.
    + intros dv h0 Hdv Hh Hne. destruct (Hd3 dv Hdv) as (dv0 & Hdv0 & Hcase). simpl in Hdv0.
      assert (Hh0 : is_Some (events dv0 !! h0)).
      { destruct Hcase as [Hcase|[Hcase _]]; rewrite -> Hcase in Hh; [|done].
        apply lookup_delete_is_Some in Hh. tauto. }
      destruct (Hev1 _ Hev (PendingDump 0 ∅ h 0) eq_refl dv0 h0 Hdv0 Hh0 Hne) as (Hs & q & Hq & Hqh).
      split; [done|]. apply elem_of_cons in Hq as [->|Hq]; [exfalso|by exists q]. simpl in Hqh. subst h0.
      destruct Hcase as [Hcase|[_ [?|?]]]; [|congruence..].
      rewrite -> Hcase, lookup_delete_eq in Hh. by destruct Hh.
Qed.

Lemma submit_save_spec acc (s : conn * W) :
  worker_inv s →
  ∃ r s', submit_save cf acc s = (Ok r, s') ∧ framed s s' ∧
    match r with
    | Some (t, h) => ∀ p, pd_task p = t → pd_event_handle p = h →
        list_to_set (sa_by_request acc).*1 ⊆ pd_request_ids p →
        covered (p :: pending_dump_tasks s.1) s'
    | None => covered (pending_dump_tasks s.1) s'
    end.
Proof. exact (submit_prepared_spec (block_ptrs cf (sa_vllm_block_ids acc)) acc _ s). Qed.

Lemma collect_saves_requests reqs :
  list_to_set (sa_by_request (collect_saves cf reqs)).*1 ⊆ sa_request_ids (collect_saves cf reqs).
Proof.
  unfold collect_saves.
  assert (Hgen : ∀ acc, list_to_set (sa_by_request acc).*1 ⊆ sa_request_ids acc →
    list_to_set (sa_by_request (foldl (save_step cf) acc reqs)).*1 ⊆
      sa_request_ids (foldl (save_step cf) acc reqs)); [|by apply Hgen].
  induction reqs as [|[id d] reqs IH]; intros acc Hacc; simpl; [done|]. apply IH.
  unfold save_step. destruct (dump_block_ids d).1; [done|].
  destruct (drop_nulls cf (dump_block_ids d)) as [[|b us] vs]; [done|]. simpl.
  intros x. rewrite -> elem_of_list_to_set, dict_set_keys, elem_of_union, elem_of_singleton.
  intros [->|Hx]; [by left|right]. apply Hacc. by apply elem_of_list_to_set.
Qed.

Lemma wait_for_save_inv now (s : conn * W) : worker_inv s → worker_inv (wait_for_save cf now s).2.
Proof.
  intros Hinv. unfold wait_for_save, _get_connector_metadata, getc, updc, update_stats.
  unfold mbind at 1, M_bind. destruct (poll_spec s Hinv) as (s1 & -> & Hinv1 & _ & _ & _). munfold.
  destruct (connector_metadata s1.1) as [md|]; simpl; [|done].
  destruct (cf_is_mla cf && negb (tp_rank cf =? 0)); [done|].
  set (acc := collect_saves cf (request_meta md)). destruct (sa_is_save acc); [|done]. simpl.
  set (s2 := (set_async _ s1.1, s1.2)).
  assert (Hinv2 : worker_inv s2) by done.
  destruct (submit_save_spec acc s2 Hinv2) as (r & s3 & Hrun & (Hp & _) & Hr).
  unfold mbind, M_bind, mret, M_ret. rw Hrun.
  destruct r as [[t h]|]; unfold worker_inv in *; simpl; [|by rw Hp].
  rw Hp. eapply covered_more; [|apply (Hr (PendingDump t (sa_request_ids acc) h now));
    [done|done|apply collect_saves_requests]].
  intros x. simpl. rewrite -> elem_of_app, elem_of_cons, list_elem_of_singleton. tauto.
Qed.

(** ** Finished requests *)

Lemma pending_request_ids_elem (m : manager) id :
  id ∈ pending_request_ids m ↔
  ∃ t st ctx, dump_task_contexts m !! t = Some (st, ctx) ∧ id ∈ ctx.*1.
Proof.
  unfold pending_request_ids.
  apply (map_fold_weak_ind (λ (X : gset string) (c : gmap task (sref * dict string (gset bytes))), id ∈ X ↔ ∃ t st ctx, c !! t = Some (st, ctx) ∧ id ∈ ctx.*1)).
  - split; [set_solver|]. intros (t & st & ctx & Hl & _). by rewrite -> lookup_empty in Hl.
  - intros t [st ctx] m' X Ht IH. rewrite -> elem_of_union, elem_of_list_to_set, IH. simpl. split.
    + intros [Hin|(t' & st' & ctx' & Hl & Hin)].
      * exists t, st, ctx. by rewrite -> lookup_insert_eq.
      * exists t', st', ctx'. rewrite -> lookup_insert_ne by congruence. done.
    + intros (t' & st' & ctx' & Hl & Hin). destruct (decide (t = t')) as [->|Hne].
      * rewrite -> lookup_insert_eq in Hl. simplify_eq. by left.
      * rewrite -> lookup_insert_ne in Hl by done. right. eauto.
Qed.

(** Once no task of [tasks] names a request of [ids], none is outstanding. *)
Lemma covered_no_pending ids tasks (s : conn * W) :
  covered tasks s → Forall (λ p, pd_request_ids p ∩ ids = ∅) tasks →
  ids ∩ pending_request_ids (rank_consistency s.1) = ∅.
Proof.
  intros [Hc _] Hall. apply leibniz_equiv. intros id. split; [|by intros ?%elem_of_empty].
  intros [Hid Hp]%elem_of_intersection. exfalso.
  apply pending_request_ids_elem in Hp as (t & st & ctx & Ht & Hin).
  destruct (Hc t st ctx Ht) as (p & Hp & _ & Hsub).
  rewrite -> Forall_forall in Hall. specialize (Hall p Hp). simpl in Hall.
  assert (Hbad : id ∈ pd_request_ids p ∩ ids).
  { apply elem_of_intersection. split; [|done]. apply Hsub. by apply elem_of_list_to_set. }
  rewrite -> Hall in Hbad. by apply elem_of_empty in Hbad.
Qed.

Lemma finish_dump_frame ids (s : manager * W) :
  ids ∩ pending_request_ids s.1 = ∅ →
  ∃ m, finish_dump ids s = (Ok tt, (m, s.2)) ∧ dump_task_contexts m = dump_task_contexts s.1 ∧
    enabled m = enabled s.1.
Proof.
  intros Hids. unfold finish_dump, upd. munfold. destruct s as [m w]. simpl in *.
  destruct (enabled m) eqn:Hen; simpl; [|by eauto].
  rewrite -> decide_False by (by intros []). eexists. split; [reflexivity|]. simpl.
  rewrite <- Hen. clear Hids Hen. revert m.
  induction (elements ids) as [|i l IH]; intros m; simpl; [done|].
  destruct (IH (finish_request m i)) as [-> ->]. done.
Qed.

Lemma drain_finished_spec ids (s : conn * W) :
  worker_inv s →
  ∃ s1, drain_finished cf ids s = (Ok tt, s1) ∧ worker_inv s1 ∧
    async_dump_req_ids s1.1 = async_dump_req_ids s.1 ∧
    pending_dump_tasks s1.1 = filter (λ p, pd_request_ids p ∩ ids = ∅) (pending_dump_tasks s.1).
Proof.
  intros Hinv. unfold drain_finished, getc, updc. case_decide as Hd.
  - exists s. split_and!; try done. rewrite -> Hd. clear.
    induction (pending_dump_tasks s.1) as [|p l IH]; [done|]. rw filter_cons.
    rewrite -> decide_True by (apply leibniz_equiv, intersection_empty_r). by rw -IH.
  - munfold. destruct (drain_loop ids (pending_dump_tasks s.1) [] s Hinv)
      as (s1 & Hrun & (Hp & Ha & Hm & _) & Hc). rw Hrun. eexists. split; [reflexivity|].
    simpl in *. split_and!; auto.
Qed.

Lemma get_finished_spec ids (s : conn * W) :
  worker_inv s →
  let done_ids := ids ∩ async_dump_req_ids s.1 in
  ∃ s', get_finished cf ids s =
      (Ok (if decide (done_ids = ∅) then None else Some done_ids), s') ∧
    worker_inv s' ∧
    async_dump_req_ids s'.1 = async_dump_req_ids s.1 ∖ done_ids ∧
    (∀ p, p ∈ pending_dump_tasks s'.1 ↔
       p ∈ pending_dump_tasks s.1 ∧ pd_request_ids p ∩ done_ids = ∅) ∧
    done_ids ∩ pending_request_ids (rank_consistency s'.1) = ∅.
Proof.
  intros Hinv done_ids. unfold get_finished, getc, on_rc, lift, updc. munfold. fold done_ids.
  pose proof (drain_finished_spec done_ids s Hinv) as Hdr.
  destruct Hdr as (s1 & -> & Hinv1 & Ha1 & Hp1). simpl.
  assert (Hfree : done_ids ∩ pending_request_ids (rank_consistency s1.1) = ∅).
  { eapply covered_no_pending; [exact Hinv1|]. rw Hp1. apply Forall_forall.
    intros p Hp. by apply list_elem_of_filter in Hp as [? _]. }
  destruct (finish_dump_frame done_ids (rank_consistency s1.1, s1.2) Hfree) as (m & -> & Hctx & Hen).
  simpl in *. eexists. split; [reflexivity|]. simpl. split_and!.
  - destruct Hinv1 as [Hc1 He1]. split; [|done]. intros t st ctx Ht. simpl in *. rewrite -> Hctx in Ht. eauto.
  - by rw Ha1.
  - intros p. rw Hp1 list_elem_of_filter. tauto.
  - apply leibniz_equiv. intros id. split; [|by intros ?%elem_of_empty].
    intros [Hid Hpen]%elem_of_intersection. rewrite <- Hfree. apply elem_of_intersection. split; [done|].
    rewrite -> pending_request_ids_elem in *. by rewrite -> Hctx in Hpen.
Qed.

(** ** Loads *)

Lemma mark_load_context_frame ctx : ∀ m,
  dump_task_contexts (mark_load_context_missing ctx m) = dump_task_contexts m ∧
  load_task_contexts (mark_load_context_missing ctx m) = load_task_contexts m.
Proof.
  induction ctx as [|kv ctx IH]; intros m; [done|]. unfold mark_load_context_missing in *.
  simpl. destruct (IH (Manager (enabled m) (tracker_ m) ({[kv.1]} ∪ missing_reqs m)
    (list_to_set kv.2 ∪ missing_blocks m) (dump_succeeded_blocks m)
    (load_task_contexts m) (dump_task_contexts m) (dump_blocks_by_request m)
    (dump_failed_blocks_by_request m))) as [-> ->]. done.
Qed.

Lemma submit_load_spec st br ids sh ptrs (s : manager * W) :
  ∃ r s', submit_load st br ids sh ptrs s = (r, s') ∧
    dump_task_contexts s'.1 = dump_task_contexts s.1 ∧
    match r with
    | Ok t => ∃ ctx, load_task_contexts s'.1 = <[t := (st, ctx)]> (load_task_contexts s.1)
    | Raise _ => load_task_contexts s'.1 = load_task_contexts s.1
    end.
Proof.
  unfold submit_load, classify_load_error, upd, on_store. munfold.
  destruct (st_load_data st ids sh ptrs s.2) as [[t|e] w]; simpl.
  - eexists _, _. split; [reflexivity|]. simpl. eauto.
  - destruct (enabled s.1 && bool_decide (e = StoreNotFoundError)); simpl;
      eexists _, _; (split; [reflexivity|]); simpl; [apply mark_load_context_frame|done].
Qed.

Lemma wait_load_spec t (s : manager * W) :
  ∃ r s', wait_load t s = (r, s') ∧
    dump_task_contexts s'.1 = dump_task_contexts s.1 ∧
    load_task_contexts s'.1 = delete t (load_task_contexts s.1).
Proof.
  unfold wait_load, classify_load_error, upd, on_store. munfold.
  destruct (load_task_contexts s.1 !! t) as [[st ctx]|] eqn:Ht; simpl.
  - destruct (st_wait st t s.2) as [[[]|e] w]; simpl; [by eauto|].
    destruct (enabled s.1 && bool_decide (e = StoreNotFoundError)); simpl;
      eexists _, _; (split; [reflexivity|]); simpl; [|done].
    by destruct (mark_load_context_frame ctx (set_load_ctx (delete t (load_task_contexts s.1)) s.1)) as [-> ->].
  - eexists _, s. split; [reflexivity|]. split; [done|]. by rewrite delete_id.
Qed.

(** What a load phase may change, relative to the state [s0] it starts from: the
    failed requests [F] are reported as invalid blocks and as failed. *)
Definition reported (s0 : conn * W) (F : list (string * RequestDispatchMeta)) (s : conn * W) : Prop :=
  invalid_block_ids s.1 =
    invalid_block_ids s0.1 ∪ list_to_set (concat ((λ x, failed_blocks x.2) <$> F)) ∧
  wm_load_failed_reqs (connector_worker_meta s.1) =
    wm_load_failed_reqs (connector_worker_meta s0.1) ∪ list_to_set F.*1 ∧
  pending_dump_tasks s.1 = pending_dump_tasks s0.1 ∧ dev s.1 = dev s0.1 ∧
  connector_metadata s.1 = connector_metadata s0.1 ∧
  dump_task_contexts (rank_consistency s.1) = dump_task_contexts (rank_consistency s0.1).

Lemma reported_nil s : reported s [] s.
Proof. unfold reported. simpl. split_and!; try done; set_solver. Qed.

(** Recording a failed load. *)
Lemma report_failure_spec name x s0 F (s : conn * W) :
  reported s0 F s →
  ∃ s', (_record_load_error name (failed_blocks x.2) ;; mark_failed x.1) s = (Ok tt, s') ∧
    reported s0 (F ++ [x]) s' ∧ rank_consistency s'.1 = rank_consistency s.1 ∧ s'.2 = s.2.
Proof.
  intros (Hi & Hf & Hr). unfold _record_load_error, mark_failed, getc, updc, update_stats. munfold.
  eexists. split; [reflexivity|]. split; [|done]. unfold reported. simpl.
  rewrite -> Hi, Hf, !fmap_app, concat_app, !list_to_set_app_L. simpl. rewrite -> app_nil_r.
  split_and!; try tauto; set_solver.
Qed.

(** The load contexts are those of the tasks collected so far. *)
Definition tasks_cover (tasks : dict string task) (s : conn * W) : Prop :=
  ∀ t, is_Some (load_task_contexts (rank_consistency s.1) !! t) → t ∈ tasks.*2.

(** The manager and the store under a connector. *)
Definition store_of (s : conn * W) : manager * W := (rank_consistency s.1, s.2).

(** The requests that load anything once null blocks are left out, the submission
    of the load of one of them, and everything a step submits and awaits. *)
Definition wants_load (x : string * RequestDispatchMeta) : Prop :=
  (drop_nulls cf (load_block_ids x.2)).1 ≠ [].

#[export] Instance wants_load_dec x : Decision (wants_load x).
Proof. unfold wants_load. apply _. Defined.

Definition request_submit (x : string * RequestDispatchMeta) : M (manager * W) task :=
  let '(ucm_block_ids, vllm_block_ids) := drop_nulls cf (load_block_ids x.2) in
  ptrs ← of_res (block_ptrs cf vllm_block_ids);
  submit_load (store cf) [(x.1, ucm_block_ids)]
    (rank_ids cf ((tp_rank cf =? 0) || cf_is_mla cf) ucm_block_ids)
    (replicate (length ucm_block_ids) 0) ptrs.

Definition await_load (p : string * RequestDispatchMeta * task) : M (manager * W) unit := wait_load p.2.

Definition task_names (l : list (string * RequestDispatchMeta * task)) : dict string task :=
  (λ p, (p.1.1, p.2)) <$> l.

Lemma drop_nulls_nil x : (load_block_ids x).1 = [] → (drop_nulls cf (load_block_ids x)).1 = [].
Proof.
  intros Hx. unfold drop_nulls. destruct (skip_null_vllm_blocks cf); [|done]. rewrite -> Hx. done.
Qed.

Lemma load_step_skips acc x (s : conn * W) :
  ¬ wants_load x → ∃ acc', load_step cf acc x s = (Ok acc', s) ∧
    la_request_to_task acc' = la_request_to_task acc.
Proof.
  intros Hx. unfold load_step. destruct x as [id d]. unfold wants_load in Hx. simpl in Hx.
  destruct (load_block_ids d).1 as [|b0 bs0]; [by exists acc|].
  destruct (drop_nulls cf (load_block_ids d)) as [[|b us] vs]; [by eexists|]. by destruct Hx.
Qed.

Lemma load_step_spec s0 F acc x (s : conn * W) :
  wants_load x → reported s0 F s → tasks_cover (la_request_to_task acc) s → x.1 ∉ (la_request_to_task acc).*1 →
  ∃ acc' s', load_step cf acc x s = (Ok acc', s') ∧ store_of s' = (request_submit x (store_of s)).2 ∧
    tasks_cover (la_request_to_task acc') s' ∧
    match (request_submit x (store_of s)).1 with
    | Ok t => reported s0 F s' ∧ la_request_to_task acc' = la_request_to_task acc ++ [(x.1, t)]
    | Raise _ => reported s0 (F ++ [x]) s' ∧ la_request_to_task acc' = la_request_to_task acc
    end.
Proof.
  intros Hw Hrep Hcov Hx. unfold load_step. destruct x as [id d]. simpl in Hx.
  unfold wants_load in Hw. unfold request_submit. cbn [fst snd] in *.
  destruct (load_block_ids d).1 as [|b0 bs0] eqn:E; [by rewrite -> drop_nulls_nil in Hw|].
  destruct (drop_nulls cf (load_block_ids d)) as [[|b us] vs]; [done|]. clear Hw E.
  set (ids := b :: us). unfold submit_request_load, of_res.
  assert (Hfail : ∀ s1 : conn * W, reported s0 F s1 → tasks_cover (la_request_to_task acc) s1 →
    ∃ acc' s', (_record_load_error "connector_load_submit_errors_total" (failed_blocks d) ;;
      mark_failed id ;;
      mret (LoadAcc (la_request_to_task acc) true (la_num_loaded_block acc)
              (la_num_loaded_request acc + 1) (la_request_to_load_blocks acc))) s1 = (Ok acc', s') ∧
    store_of s' = store_of s1 ∧ tasks_cover (la_request_to_task acc') s' ∧
    reported s0 (F ++ [(id, d)]) s' ∧ la_request_to_task acc' = la_request_to_task acc).
  { intros s1 Hr1 Hc1.
    destruct (report_failure_spec "connector_load_submit_errors_total" (id, d) s0 F s1 Hr1)
      as (s2 & Hrun & Hr2 & Hl2 & Hw2).
    unfold mbind, M_bind in *. cbn [fst snd] in Hrun.
    destruct (_record_load_error _ _ s1) as [[[]|e1] sa]; [|done]. rw Hrun.
    eexists _, s2. split; [reflexivity|]. split; [unfold store_of; congruence|]. split; [|done]. simpl.
    intros t Ht. rewrite -> Hl2 in Ht. auto. }
  unfold try_except, mbind, M_bind, on_rc, lift.
  destruct (block_ptrs cf vs) as [ptrs|e]; [|exact (Hfail s Hrep Hcov)]. fold (store_of s).
  destruct (submit_load_spec (store cf) [(id, ids)] (rank_ids cf ((tp_rank cf =? 0) || cf_is_mla cf) ids)
    (replicate (length ids) 0) ptrs (store_of s)) as (r & t & -> & Hd & Hl).
  destruct r as [tk|e]; cbn [fst snd].
  - eexists _, _. split; [reflexivity|]. simpl. rewrite -> dict_set_fresh by done.
    split; [by destruct t|]. split_and!; [| |done].
    + destruct Hl as [ctx Hl]. intros t' Ht'. simpl in *. rewrite -> Hl in Ht'.
      rewrite -> fmap_app, elem_of_app. simpl. destruct (decide (t' = tk)) as [->|Hne].
      * right. by apply list_elem_of_singleton.
      * left. apply Hcov. by rewrite -> lookup_insert_ne in Ht' by done.
    + unfold reported in *. simpl in *. rewrite -> Hd. tauto.
  - destruct (Hfail (set_rc t.1 s.1, t.2)) as (acc' & s' & Hrun & Hst & Hc & Hr).
    + unfold reported in *. simpl in *. rewrite -> Hd. tauto.
    + intros t' Ht'. simpl in *. rewrite -> Hl in Ht'. auto.
    + exists acc', s'. split; [exact Hrun|]. split; [|done]. rewrite -> Hst. by destruct t.
Qed.

Lemma load_loop s0 reqs : ∀ F prev acc (s : conn * W),
  NoDup reqs.*1 → (∀ k, k ∈ (task_names prev).*1 → k ∉ reqs.*1) →
  la_request_to_task acc = task_names prev → reported s0 F s → tasks_cover (task_names prev) s →
  let '(sub, σ) := attempts request_submit (filter wants_load reqs) (store_of s) in
  ∃ acc' s', for_fold reqs acc (load_step cf) s = (Ok acc', s') ∧ store_of s' = σ ∧
    reported s0 (F ++ raised sub) s' ∧ la_request_to_task acc' = task_names (prev ++ returned sub) ∧
    tasks_cover (task_names (prev ++ returned sub)) s'.
Proof.
  induction reqs as [|x reqs IH]; intros F prev acc s Hnd Hdis Hacc Hrep Hcov; cbn [for_fold].
  { cbn. rewrite -> !app_nil_r. by exists acc, s. }
  rewrite -> fmap_cons, NoDup_cons in Hnd. destruct Hnd as [Hx Hnd]. rewrite -> filter_cons.
  assert (Hdis' : ∀ k, k ∈ (task_names prev).*1 → k ∉ reqs.*1).
  { intros k Hk Hin. apply (Hdis k Hk). by right. }
  case_decide as Hw.
  2:{ destruct (load_step_skips acc x s Hw) as (acc1 & Hrun & Hacc1).
      unfold mbind, M_bind. rw Hrun. apply IH; try done. by rewrite -> Hacc1. }
  cbn [attempts]. destruct (load_step_spec s0 F acc x s Hw Hrep) as (acc1 & s1 & Hrun & Hst & Hc1 & Hr1).
  { by rewrite -> Hacc. }
  { rewrite -> Hacc. intros Hin. apply (Hdis _ Hin). by left. }
  unfold mbind, M_bind. rw Hrun. destruct (request_submit x (store_of s)) as [r σ1]. cbn [fst snd] in *.
  subst σ1. rewrite -> Hacc in Hr1.
  destruct r as [t|e]; destruct Hr1 as [Hr1 Ht1].
  - assert (Hn : la_request_to_task acc1 = task_names (prev ++ [(x, t)])).
    { rewrite -> Ht1. unfold task_names. by rewrite -> fmap_app. }
    rewrite -> Hn in Hc1. specialize (IH F (prev ++ [(x, t)]) acc1 s1 Hnd).
    destruct (attempts request_submit (filter wants_load reqs) (store_of s1)) as [sub σ].
    destruct IH as (acc' & s' & Hrun' & Hst' & Hr' & Hn' & Hc'); [|done..|].
    + intros k Hk. unfold task_names in Hk. rewrite -> !fmap_app, elem_of_app in Hk.
      destruct Hk as [Hk|Hk%list_elem_of_singleton]; [by apply Hdis'|by subst k].
    + exists acc', s'. cbn. rewrite <- app_assoc in Hn', Hc'. done.
  - rewrite -> Ht1 in Hc1. specialize (IH (F ++ [x]) prev acc1 s1 Hnd Hdis' Ht1 Hr1 Hc1).
    destruct (attempts request_submit (filter wants_load reqs) (store_of s1)) as [sub σ].
    cbn. by rewrite <- app_assoc in IH.
Qed.

Lemma wait_loop md loaded s0 tasks : ∀ n F (s : conn * W),
  Forall (λ p, dict_get p.1.1 (request_meta md) = Some p.1.2) tasks →
  reported s0 F s → tasks_cover (task_names tasks) s →
  let '(wtd, σ) := attempts await_load tasks (store_of s) in
  ∃ n' s', for_fold (task_names tasks) n (wait_load_step md loaded) s = (Ok n', s') ∧ store_of s' = σ ∧
    reported s0 (F ++ (raised wtd).*1) s' ∧ load_task_contexts (rank_consistency s'.1) = ∅.
Proof.
  induction tasks as [|[[id d] t] tasks IH]; intros n F s Hsub Hrep Hcov.
  { cbn. rewrite -> app_nil_r. eexists n, s. split_and!; [done..|]. apply map_eq. intros k.
    rewrite -> lookup_empty. destruct (load_task_contexts _ !! k) eqn:Hk; [|done].
    assert (Hin : k ∈ ([] : dict string task).*2) by (apply Hcov; eauto). by apply elem_of_nil in Hin. }
  apply Forall_cons in Hsub as [Hget Hsub]. cbn [fst snd] in Hget.
  unfold task_names. csimpl. cbn [for_fold attempts]. fold (task_names tasks).
  unfold mbind at 1, M_bind, wait_load_step at 1, try_except, on_rc, lift.
  unfold mbind at 1, M_bind, await_load at 1. cbn [fst snd]. fold (store_of s).
  destruct (wait_load_spec t (store_of s)) as (r & m & -> & Hd & Hl). simpl in Hd, Hl.
  set (s1 := (set_rc m.1 s.1, m.2)). assert (Hst1 : store_of s1 = m) by (by destruct m).
  assert (Hrep1 : reported s0 F s1) by (unfold reported in *; simpl; rewrite -> Hd; tauto).
  assert (Hcov1 : tasks_cover (task_names tasks) s1).
  { intros t' Ht'. simpl in Ht'. rewrite -> Hl, lookup_delete_is_Some in Ht'. destruct Ht' as [Hne Ht'].
    specialize (Hcov t' Ht'). unfold task_names in Hcov. csimpl in Hcov.
    apply elem_of_cons in Hcov as [?|?]; [|done]. simpl in *. congruence. }
  destruct r as [[]|e].
  - specialize (IH n F s1 Hsub Hrep1 Hcov1). rewrite -> Hst1 in IH.
    destruct (attempts await_load tasks m) as [wtd σ]. exact IH.
  - unfold of_res, dict_index, mbind, M_bind. rw Hget.
    destruct (report_failure_spec "connector_load_wait_errors_total" (id, d) s0 F s1 Hrep1)
      as (s2 & Hrun & Hr2 & Hl2 & Hw2).
    unfold mbind, M_bind in Hrun. cbn [fst snd] in Hrun.
    destruct (_record_load_error _ _ s1) as [[[]|e1] sa]; [|done]. rw Hrun.
    unfold mret, M_ret.
    assert (Hcov2 : tasks_cover (task_names tasks) s2) by (intros t' Ht'; rewrite -> Hl2 in Ht'; auto).
    specialize (IH (n - dict_get_default id 0 loaded) (F ++ [(id, d)]) s2 Hsub Hr2 Hcov2).
    assert (Hst2 : store_of s2 = m) by (rewrite <- Hst1; unfold store_of; congruence). rewrite -> Hst2 in IH.
    destruct (attempts await_load tasks m) as [wtd σ]. cbn. by rewrite <- app_assoc in IH.
Qed.

(** All the loads of a step: what became of the submissions and of the waits. *)
Definition loads_run (md : UCMConnectorMetadata) (σ : manager * W) :
    list (string * RequestDispatchMeta * res task) *
    list (string * RequestDispatchMeta * task * res unit) * (manager * W) :=
  let '(submitted, σ1) := attempts request_submit (filter wants_load (request_meta md)) σ in
  let '(awaited, σ2) := attempts await_load (returned submitted) σ1 in
  (submitted, awaited, σ2).

Lemma start_load_spec md t0 t1 (s : conn * W) :
  connector_metadata s.1 = Some md → NoDup (request_meta md).*1 →
  load_task_contexts (rank_consistency s.1) = ∅ →
  let '(submitted, awaited, σ) := loads_run md (store_of s) in
  ∃ r s', start_load_kv cf t0 t1 s = (r, s') ∧ store_of s' = σ ∧
    reported s (raised submitted ++ (raised awaited).*1) s' ∧
    load_task_contexts (rank_consistency s'.1) = ∅ ∧ (t0 ≠ t1 → r = Ok tt).
Proof.
  intros Hmd Hnd Hl. unfold start_load_kv, _get_connector_metadata, getc, update_stats, updc, loads_run.
  munfold. rw Hmd. munfold.
  pose proof (load_loop s (request_meta md) [] [] (LoadAcc [] false 0 0 []) s Hnd) as Hload.
  pose proof (attempts_keys request_submit (filter wants_load (request_meta md)) (store_of s)) as Hkeys.
  destruct (attempts request_submit (filter wants_load (request_meta md)) (store_of s)) as [sub σ1].
  destruct Hload as (acc & s1 & -> & <- & Hr1 & Ht1 & Hc1).
  { intros k Hk. by apply elem_of_nil in Hk. }
  { done. }
  { apply reported_nil. }
  { intros t [? Ht]. by rewrite -> Hl, lookup_empty in Ht. }
  cbn [app] in *. rewrite -> Ht1.
  pose proof (wait_loop md (la_request_to_load_blocks acc) s (returned sub) (la_num_loaded_block acc) (raised sub) s1) as Hwait.
  destruct (attempts await_load (returned sub) (store_of s1)) as [wtd σ2].
  destruct Hwait with (2 := Hr1) (3 := Hc1) as (n & s2 & -> & <- & Hr2 & Hl2).
  { apply Forall_forall. intros [[id d] t] Hin. cbn [fst snd].
    apply dict_elem_get; [done|]. simpl in Hkeys.
    assert (Hin' : (id, d) ∈ sub.*1) by (apply returned_sub, list_elem_of_fmap; by exists (id, d, t)).
    rewrite -> Hkeys in Hin'. by apply list_elem_of_filter in Hin' as [_ ?]. }
  destruct (Z.eqb_spec (t1 - t0) 0) as [Ht|Ht]; munfold.
  - eexists _, s2. split; [reflexivity|]. split_and!; [done..|lia].
  - destruct (la_is_load acc); munfold; eexists _, _; (split; [reflexivity|]); split_and!; done.
Qed.

(** ** Sequences of worker operations *)

Lemma inv_on_rc {A} (m : M (manager * W) A) :
  (∀ t, dump_task_contexts (m t).2.1 = dump_task_contexts t.1) → preserves worker_inv (on_rc m).
Proof.
  intros Hm s [Hc He]. unfold on_rc, lift. specialize (Hm (rank_consistency s.1, s.2)).
  destruct (m _) as [r t]. simpl in *. split; [|done]. intros k st ctx Hk. simpl in *.
  rewrite -> Hm in Hk. eauto.
Qed.

Lemma inv_updc f :
  (∀ c, pending_dump_tasks (f c) = pending_dump_tasks c ∧ dev (f c) = dev c ∧
        dump_task_contexts (rank_consistency (f c)) = dump_task_contexts (rank_consistency c)) →
  preserves worker_inv (updc (W := W) f).
Proof.
  intros Hf s [Hc He]. unfold updc, modify. simpl. destruct (Hf s.1) as (Hp & Hd & Hx). split; simpl.
  - intros k st ctx Hk. rewrite -> Hx in Hk. rw Hp. eauto.
  - by rw Hp Hd.
Qed.

Lemma inv_load_error name blocks : preserves worker_inv (_record_load_error name blocks).
Proof.
  apply preserves_bind; [apply preserves_gets|]. intros old.
  apply preserves_bind; [by apply inv_updc|]. intros _. by apply inv_updc.
Qed.

Lemma inv_load_step acc x : preserves worker_inv (load_step cf acc x).
Proof.
  unfold load_step. destruct x as [id d]. destruct (load_block_ids d).1; [apply preserves_ret|].
  destruct (drop_nulls cf (load_block_ids d)) as [[|b us] vs]; [apply preserves_ret|].
  apply preserves_try.
  - apply preserves_bind; [|intros; apply preserves_ret]. unfold submit_request_load.
    apply preserves_bind; [apply preserves_of_res|]. intros ptrs. apply inv_on_rc. intros t.
    by destruct (submit_load_spec (store cf) [(id, b :: us)]
      (rank_ids cf ((tp_rank cf =? 0) || cf_is_mla cf) (b :: us)) (replicate (length (b :: us)) 0) ptrs t)
      as (r & s' & -> & ? & _).
  - intros e. apply preserves_bind; [apply inv_load_error|]. intros _.
    apply preserves_bind; [by apply inv_updc|]. intros _. apply preserves_ret.
Qed.

Lemma start_load_inv t0 t1 : preserves worker_inv (start_load_kv cf t0 t1).
Proof.
  unfold start_load_kv. apply preserves_bind.
  { apply preserves_bind; [apply preserves_gets|]. intros [m|]; [apply preserves_ret|apply preserves_raise]. }
  intros md. apply preserves_bind; [apply preserves_for_fold; intros; apply inv_load_step|].
  intros acc. apply preserves_bind.
  - apply preserves_for_fold. intros n [id t] _. apply preserves_try.
    + apply preserves_bind; [|intros; apply preserves_ret]. apply inv_on_rc. intros s. cbn [snd].
      by destruct (wait_load_spec t s) as (r & s' & -> & ? & _).
    + intros e. apply preserves_bind; [apply preserves_of_res|]. intros d.
      apply preserves_bind; [apply inv_load_error|]. intros _.
      apply preserves_bind; [by apply inv_updc|]. intros _. apply preserves_ret.
  - intros n. apply preserves_bind; [apply preserves_if; [apply preserves_raise|apply preserves_ret]|].
    intros _. apply preserves_if; [by apply inv_updc|apply preserves_ret].
Qed.

(** The calls a vLLM worker makes on its connector. *)
Inductive worker_step (s : conn * W) : conn * W → Prop :=
  | step_bind md : worker_step s (bind_connector_metadata md s).2
  | step_clear : worker_step s (clear_connector_metadata s).2
  | step_load t0 t1 : worker_step s (start_load_kv cf t0 t1 s).2
  | step_save now : worker_step s (wait_for_save cf now s).2
  | step_preempt ids : worker_step s (handle_preemptions cf ids s).2
  | step_worker_finished ids : worker_step s (get_finished cf ids s).2
  | step_errors : worker_step s (get_block_ids_with_load_errors s).2
  | step_meta : worker_step s (build_connector_worker_meta s).2.

Lemma worker_step_inv s s' : worker_step s s' → worker_inv s → worker_inv s'.
Proof.
  destruct 1 as [md| |t0 t1|now|ids|ids| |]; intros Hinv.
  - by apply inv_updc.
  - by apply inv_updc.
  - by apply start_load_inv.
  - by apply wait_for_save_inv.
  - unfold handle_preemptions. destruct ids as [ids|]; [|done]. case_decide; [done|].
    by destruct (flush_spec ids s Hinv) as (s' & -> & ? & _).
  - by destruct (get_finished_spec ids s Hinv) as (s' & -> & ? & _).
  - done.
  - unfold build_connector_worker_meta, getc, updc. munfold. case_match; [done|]. clear H3.
    destruct (update_worker_meta _ _) as [wm m] eqn:Hu. simpl. destruct Hinv as [Hc He].
    split; [|done]. intros t st ctx Ht. simpl in Ht. apply (Hc t st ctx).
    unfold update_worker_meta in Hu. case_match; by simplify_eq/=.
Qed.

Lemma worker_reach_inv s s' : rtc worker_step s s' → worker_inv s → worker_inv s'.
Proof. induction 1; eauto using worker_step_inv. Qed.

(** A connector whose KV caches have just been registered. *)
Definition fresh_worker (s : conn * W) : Prop :=
  ∃ configured is_mla k, s.1 = set_dev (Some (Device k ∅)) (init_conn false configured is_mla).

Lemma fresh_worker_inv s : fresh_worker s → worker_inv s.
Proof.
  intros (configured & is_mla & k & Hs). unfold worker_inv, covered. rw Hs. split.
  - intros t st ctx Ht. simpl in Ht. by rewrite -> lookup_empty in Ht.
  - intros dv h Hd Hh. simpl in Hd. simplify_eq. simpl in Hh. rewrite -> lookup_empty in Hh.
    by destruct Hh.
Qed.

End worker.

(** ** The batch of one save *)

(** The pairs a request contributes, if any. *)
Definition save_pairs (cf : conf) (x : string * RequestDispatchMeta) :
    option (string * (list bytes * list Z)) :=
  match (dump_block_ids x.2).1 with
  | [] => None
  | _ :: _ => let p := drop_nulls cf (dump_block_ids x.2) in
              match p.1 with [] => None | _ :: _ => Some (x.1, p) end
  end.

Lemma save_step_pairs `{PyHash} cf acc x :
  save_step cf acc x =
  match save_pairs cf x with
  | None => acc
  | Some (id, p) =>
      SaveAcc true (sa_num_saved_block acc + zlen p.1) (sa_num_saved_request acc + 1)
        (sa_ucm_block_ids acc ++ rank_ids cf (tp_rank cf =? 0) p.1) (sa_vllm_block_ids acc ++ p.2)
        ({[id]} ∪ sa_request_ids acc) (dict_set id (list_to_set p.1) (sa_by_request acc))
  end.
Proof.
  unfold save_step, save_pairs. destruct x as [id d]. simpl.
  destruct (dump_block_ids d).1; [done|]. by destruct (drop_nulls cf (dump_block_ids d)) as [[|b us] vs].
Qed.

Lemma collect_saves_fold `{PyHash} cf reqs : ∀ acc,
  let sel := omap (save_pairs cf) reqs in
  let acc' := foldl (save_step cf) acc reqs in
  sa_is_save acc' = sa_is_save acc || negb (bool_decide (sel = [])) ∧
  sa_ucm_block_ids acc' = sa_ucm_block_ids acc ++
    concat ((λ x, rank_ids cf (tp_rank cf =? 0) x.2.1) <$> sel) ∧
  sa_vllm_block_ids acc' = sa_vllm_block_ids acc ++ concat ((λ x, x.2.2) <$> sel) ∧
  sa_request_ids acc' = sa_request_ids acc ∪ list_to_set sel.*1 ∧
  (NoDup sel.*1 → (∀ k, k ∈ sel.*1 → k ∉ (sa_by_request acc).*1) →
   sa_by_request acc' = sa_by_request acc ++ ((λ x, (x.1, list_to_set x.2.1)) <$> sel)).
Proof.
  induction reqs as [|x reqs IH]; intros acc sel acc'; unfold sel, acc'; clear sel acc'.
  { cbn. rewrite -> orb_false_r, !app_nil_r. split_and!; [done..| |done]. set_solver. }
  cbn [foldl omap list_omap]. rewrite -> save_step_pairs.
  destruct (save_pairs cf x) as [[id p]|]; [|apply IH].
  match goal with |- context [foldl (save_step cf) ?a reqs] => destruct (IH a) as (Hs & Hu & Hv & Hr & Hb) end.
  rewrite -> Hs, Hu, Hv, Hr. cbn [sa_is_save sa_ucm_block_ids sa_vllm_block_ids sa_request_ids sa_by_request] in *.
  rewrite -> !fmap_cons, !concat_cons, !app_assoc. split_and!; [|done|done| |].
  - by rewrite -> orb_true_l, orb_comm.
  - simpl. set_solver.
  - intros Hnd Hfresh. apply NoDup_cons in Hnd as [Hid Hnd]. cbn [fst] in *.
    assert (Hidf : id ∉ (sa_by_request acc).*1) by (apply Hfresh; by left).
    rewrite -> Hb; rewrite -> ?dict_set_fresh by done; [by rewrite <- app_assoc|done|].
    intros k Hk. rewrite -> fmap_app, elem_of_app. intros [Hk'|Hk'].
    + eapply Hfresh; [|exact Hk']. by right.
    + apply list_elem_of_singleton in Hk' as ->. done.
Qed.

(** ** Properties *)


(** A single-rank worker with two blocks of one tensor, and a plan dumping them. *)
Definition ex_worker_cf : conf :=
  Conf false false 0 1 4 4 1 [] [] None true false 0 1
    (Layout (Arr1 [4096]) (Arr1 [1024]) (Arr1 [512]) (Arr1 [512]) false 1 0 [] 0 2) 512.

Definition ex_worker : conn * sim :=
  (set_dev (Some (Device CUDA ∅)) (init_conn false None false), sim_init [] []).

Definition ex_plan : UCMConnectorMetadata :=
  ConnMetadata [("r", DispatchMeta ([], []) ([[1]; [2]], [0; 1]))] ∅.

(** The worker after one step that dumped the blocks of ["r"]. *)
Definition ex_dumped : conn * sim :=
  (wait_for_save ex_worker_cf 5 (bind_connector_metadata ex_plan ex_worker).2).2.

Lemma ex_dumped_reach : rtc (worker_step ex_worker_cf) ex_worker ex_dumped.
Proof.
  eapply rtc_l; [exact (step_bind ex_worker_cf ex_worker ex_plan)|].
  apply rtc_once. exact (step_save ex_worker_cf _ 5).
Qed.

Lemma ex_worker_fresh : fresh_worker ex_worker.
Proof. exists None, false, CUDA. done. Qed.


(** C8: Event handles are not leaked: in every state a worker can reach, a live
    device event is the handle of a pending dump task, so once nothing is
    pending no event is kept alive, whichever submissions or waits failed. *)
Theorem events_owned_by_pending_dumps {W} `{StoreOps W} `{DeviceOps W} `{SetOrder} `{PyHash} cf
    (s0 s : conn * W) dv h :
  fresh_worker s0 → rtc (worker_step cf) s0 s → dev s.1 = Some dv → is_Some (events dv !! h) → h ≠ 0 →
  enable_event_sync cf = true ∧ ∃ p, p ∈ pending_dump_tasks s.1 ∧ pd_event_handle p = h.
Proof.
  intros Hf Hr Hd Hh Hne.
  destruct (worker_reach_inv cf _ _ Hr (fresh_worker_inv cf _ Hf)) as [_ He]. eauto.
Qed.

Lemma events_owned_by_pending_dumps_witness :
  dev ex_dumped.1 = Some (Device CUDA {[100 := 100]}) ∧
  (true = true ∧ ∃ p, p ∈ pending_dump_tasks ex_dumped.1 ∧ pd_event_handle p = 100).
Proof.
  split; [vm_compute; reflexivity|].
  refine (events_owned_by_pending_dumps ex_worker_cf ex_worker ex_dumped (Device CUDA {[100 := 100]}) 100
    ex_worker_fresh ex_dumped_reach _ _ _).
  - vm_compute. reflexivity.
  - exists 100. vm_compute. reflexivity.
  - lia.
Defined.

(** C7: [start_load_kv] submits the load of every request that has blocks to load,
    in the order of the plan, then waits for every load it could submit, and stops at
    no failure: the store and the manager end up where these calls, made one after
    the other, take them.  A request is reported exactly when one of its two calls
    raised: the vLLM blocks of these requests are added to the invalid blocks, and
    the requests to the failed ones sent to the scheduler, and nothing else is; no
    load is outstanding afterwards, and the call itself raises only if the clock did
    not advance. *)
Theorem start_load_kv_reports {W} `{StoreOps W} `{DeviceOps W} `{SetOrder} `{PyHash} cf md t0 t1
    (s : conn * W) :
  connector_metadata s.1 = Some md → NoDup (request_meta md).*1 →
  load_task_contexts (rank_consistency s.1) = ∅ →
  let '(submitted, awaited, σ) := loads_run cf md (store_of s) in
  let failed := raised submitted ++ (raised awaited).*1 in
  ∃ r s', start_load_kv cf t0 t1 s = (r, s') ∧ store_of s' = σ ∧
    invalid_block_ids s'.1 =
      invalid_block_ids s.1 ∪ list_to_set (concat ((λ x, failed_blocks x.2) <$> failed)) ∧
    wm_load_failed_reqs (connector_worker_meta s'.1) =
      wm_load_failed_reqs (connector_worker_meta s.1) ∪ list_to_set failed.*1 ∧
    load_task_contexts (rank_consistency s'.1) = ∅ ∧ (t0 ≠ t1 → r = Ok tt).
Proof.
  intros Hmd Hnd Hl. pose proof (start_load_spec cf md t0 t1 s Hmd Hnd Hl) as Hspec.
  destruct (loads_run cf md (store_of s)) as [[submitted awaited] σ].
  destruct Hspec as (r & s' & Hrun & Hst & (Hi & Hf & _) & Hctx & Hr). exists r, s'. split_and!; auto.
Qed.

(** Of two loads the second finds its block in the store. *)
Lemma start_load_kv_reports_witness :
  let md := ConnMetadata [("r", DispatchMeta ([[1]], [1]) ([], [])); ("q", DispatchMeta ([[2]], [2]) ([], []))] ∅ in
  let s := (bind_connector_metadata md (ex_worker.1, sim_init [(store ex_worker_cf, [2])] [])).2 in
  ∃ r s', start_load_kv ex_worker_cf 3 8 s = (r, s') ∧
    invalid_block_ids s'.1 = {[1]} ∧
    wm_load_failed_reqs (connector_worker_meta s'.1) = {["r"]} ∧
    load_task_contexts (rank_consistency s'.1) = ∅ ∧ (3 ≠ 8 → r = Ok tt).
Proof.
  intros md s.
  assert (Hnd : NoDup (request_meta md).*1) by (apply (bool_decide_unpack _); vm_compute; done).
  pose proof (start_load_kv_reports ex_worker_cf md 3 8 s eq_refl Hnd eq_refl) as Hrep.
  assert (Hf : let '(submitted, awaited, _) := loads_run ex_worker_cf md (store_of s) in
    raised submitted ++ (raised awaited).*1 = [("r", DispatchMeta ([[1]], [1]) ([], []))]) by (vm_compute; reflexivity).
  destruct (loads_run ex_worker_cf md (store_of s)) as [[submitted awaited] σ]. rewrite -> Hf in Hrep.
  destruct Hrep as (r & s' & Hrun & _ & Hi & Hw & Hrest). exists r, s'.
  split; [exact Hrun|]. split; [by rewrite -> Hi|]. split; [by rewrite -> Hw|exact Hrest].
Defined.

(** One save gathers the whole plan: the batch submitted after a step is the
    concatenation, in the order of the plan, of the rank-scoped block ids of
    every request with blocks to dump, and in the same order of their vLLM
    blocks; the task is filed under exactly these requests, each with its own
    unscoped block ids, and nothing is submitted only if there is nothing to
    dump. *)
Theorem save_batch_complete `{PyHash} cf reqs :
  NoDup reqs.*1 →
  let sel := omap (save_pairs cf) reqs in
  let acc := collect_saves cf reqs in
  sa_is_save acc = negb (bool_decide (sel = [])) ∧
  sa_ucm_block_ids acc = concat ((λ x, rank_ids cf (tp_rank cf =? 0) x.2.1) <$> sel) ∧
  sa_vllm_block_ids acc = concat ((λ x, x.2.2) <$> sel) ∧
  sa_request_ids acc = list_to_set sel.*1 ∧
  sa_by_request acc = (λ x, (x.1, list_to_set x.2.1)) <$> sel.
Proof.
  intros Hnd sel acc.
  destruct (collect_saves_fold cf reqs (SaveAcc false 0 0 [] [] ∅ [])) as (Hs & Hu & Hv & Hr & Hb).
  fold sel in Hs, Hu, Hv, Hr, Hb. fold (collect_saves cf reqs) in *. fold acc in Hs, Hu, Hv, Hr, Hb.
  simpl in *. split_and!; [done..| |].
  - rw Hr. apply (left_id_L ∅ (∪)).
  - apply Hb; [|intros k _; apply not_elem_of_nil].
    assert (Hsub : sel.*1 `sublist_of` reqs.*1).
    { unfold sel. clear. induction reqs as [|x reqs IH]; [done|]. cbn [omap list_omap].
      destruct (save_pairs cf x) as [[id p]|] eqn:E; csimpl; [|by apply sublist_cons].
      assert (id = x.1) as -> by (unfold save_pairs in E; repeat case_match; by simplify_eq).
      by apply sublist_skip. }
    eapply sublist_NoDup; eauto.
Qed.

Lemma save_batch_complete_witness :
  let reqs := [("a", DispatchMeta ([], []) ([[1]; [2]], [4; 5])); ("b", DispatchMeta ([], []) ([], []));
               ("c", DispatchMeta ([], []) ([[3]], [6]))] in
  sa_ucm_block_ids (collect_saves ex_worker_cf reqs) = [[1]; [2]; [3]] ∧
  sa_vllm_block_ids (collect_saves ex_worker_cf reqs) = [4; 5; 6].
Proof.
  intros reqs. assert (Hnd : NoDup reqs.*1) by (apply (bool_decide_unpack _); vm_compute; done).
  destruct (save_batch_complete ex_worker_cf reqs Hnd) as (_ & Hu & Hv & _).
  split; [exact Hu|exact Hv].
Defined.
