(* ===== verification/HlaWorkerProps.v ===== *)
(** * What the workers of the hybrid connectors guarantee

    The dumps of a step complete inside the step: when [wait_for_save] returns,
    no dump is outstanding and no event is alive, and the rows that the layerwise
    connector loads ahead are awaited before a layer reads them. *)
From S2P Require Import Prelude Runtime RankConsistency PyHash Hashing KVLayout KVLayoutProps Direct DirectWorker DispatchProps Sim WorkerProps.
From S2P Require Import HlaLayout HlaLayoutProps HlaGroups Hla HlaLayerWise.
Open Scope Z_scope.

(** ** The direct connector *)

Section direct.
  Context {W : Type} `{StoreOps W} `{DeviceOps W} `{SetOrder} `{PyHash}.
  Variable cf : conf.

(** No outstanding dump and no live event. *)
Definition quiet (s : conn * W) : Prop := covered cf [] s.

Lemma quiet_no_contexts (s : conn * W) : quiet s → dump_task_contexts (rank_consistency s.1) = ∅.
Proof.
  intros [Hc _]. apply map_eq. intros t. rewrite -> lookup_empty.
  destruct (dump_task_contexts (rank_consistency s.1) !! t) as [[st ctx]|] eqn:E; [|done].
  destruct (Hc t st ctx E) as (p & Hp & _). by apply elem_of_nil in Hp.
Qed.

Lemma no_contexts_pending (m : manager) ids :
  dump_task_contexts m = ∅ → ids ∩ pending_request_ids m = ∅.
Proof.
  intros Hm. apply leibniz_equiv. intros id. split; [|by intros ?%elem_of_empty].
  intros [_ Hp]%elem_of_intersection. apply pending_request_ids_elem in Hp as (t & st & ctx & Ht & _).
  rewrite -> Hm, lookup_empty in Ht. done.
Qed.

(** Settling requests when nothing is outstanding. *)
Lemma on_rc_finish_run ids (s : conn * W) :
  dump_task_contexts (rank_consistency s.1) = ∅ →
  ∃ m, on_rc (finish_dump ids) s = (Ok tt, (set_rc m s.1, s.2)) ∧ dump_task_contexts m = ∅ ∧
    enabled m = enabled (rank_consistency s.1).
Proof.
  intros Hc. unfold on_rc, lift.
  destruct (finish_dump_frame ids (rank_consistency s.1, s.2)) as (m & -> & Hm & Hen);
    [by apply no_contexts_pending|]. simpl in *. exists m. by rewrite -> Hm.
Qed.

Lemma quiet_set_rc (m : manager) (s : conn * W) :
  dump_task_contexts m = ∅ → events_covered (enable_event_sync cf) [] (dev s.1) →
  quiet (set_rc m s.1, s.2).
Proof. intros Hm He. split; [|done]. intros t st ctx Ht. simpl in Ht. by rewrite -> Hm, lookup_empty in Ht. Qed.

Lemma on_rc_wait_dump_run t (s : conn * W) :
  ∃ r m w, on_rc (wait_dump t) s = (r, (set_rc m s.1, w)) ∧
    dump_task_contexts m = delete t (dump_task_contexts (rank_consistency s.1)).
Proof.
  unfold on_rc, lift. destruct (wait_dump_spec t (rank_consistency s.1, s.2)) as (r & [m w] & -> & _ & Hd).
  simpl in *. eauto.
Qed.

(** Only the contexts and the events of task [t] are left. *)
Lemma covered_single p (s : conn * W) :
  covered cf [p] s → delete (pd_task p) (dump_task_contexts (rank_consistency s.1)) = ∅.
Proof.
  intros [Hc _]. apply map_eq. intros t. rewrite -> lookup_empty, lookup_delete_None.
  destruct (decide (pd_task p = t)) as [|Hne]; [by left|right].
  destruct (dump_task_contexts (rank_consistency s.1) !! t) as [[st ctx]|] eqn:E; [|done].
  destruct (Hc t st ctx E) as (q & Hq & Ht & _). apply list_elem_of_singleton in Hq. congruence.
Qed.

(** The wait settles the task and its event, whatever the store answers. *)
Lemma h_wait_save_spec acc t h p (s : conn * W) :
  covered cf [p] s → pd_task p = t → pd_event_handle p = h →
  ∃ ok s', h_wait_save cf acc t h s = (Ok ok, s') ∧ quiet s'.
Proof.
  intros Hc Ht Hh. pose proof (covered_single p s Hc) as Hdel. rewrite -> Ht in Hdel.
  destruct Hc as [_ He].
  destruct (on_rc_wait_dump_run t s) as (r & m & w & Hw & Hm). rewrite -> Hdel in Hm.
  assert (Hbody : ∃ ok m', (ok ← try_except (on_rc (wait_dump t) ;; mret true) (λ _, mret false);
      (if (ok : bool) then mret tt else h_finish acc) ;; mret ok) s = (Ok ok, (set_rc m' s.1, w)) ∧
      dump_task_contexts m' = ∅).
  { unfold mbind at 1, M_bind at 1, try_except at 1, mbind at 1, M_bind at 1. rewrite -> Hw.
    destruct r as [[]|e].
    - exists true, m. by split.
    - unfold mret at 1, M_ret at 1. unfold h_finish.
      destruct (on_rc_finish_run (list_to_set (sa_by_request acc).*1) (set_rc m s.1, w) Hm)
        as (m' & Hf & Hm' & _).
      mrun Hf. exists false, m'. by split. }
  destruct Hbody as (ok & m' & Hrun & Hm').
  destruct (release_event_spec cf h (set_rc m' s.1, w)) as (s' & Hrel & _ & Hrc & Hev).
  exists ok, s'. split.
  - unfold h_wait_save, try_finally. rewrite -> Hrun. by rewrite -> Hrel.
  - split.
    + intros t' st ctx Ht'. rewrite -> Hrc in Ht'. simpl in Ht'. by rewrite -> Hm', lookup_empty in Ht'.
    + intros dv k Hdv Hk Hne. exfalso. destruct (Hev dv Hdv) as (dv0 & Hdv0 & Hcase). simpl in Hdv0.
      assert (Hk0 : is_Some (events dv0 !! k)).
      { destruct Hcase as [Hcase|[Hcase _]]; rewrite -> Hcase in Hk; [|done].
        apply lookup_delete_is_Some in Hk. tauto. }
      destruct (He dv0 k Hdv0 Hk0 Hne) as (Hs & q & Hq & Hqk).
      apply list_elem_of_singleton in Hq. subst q. rewrite -> Hh in Hqk. subst k.
      destruct Hcase as [Hcase|[_ [?|?]]]; [|congruence..].
      rewrite -> Hcase, lookup_delete_eq in Hk. by destruct Hk.
Qed.

(** A step that starts quiet ends quiet; it raises only without metadata. *)
Lemma h_wait_for_save_spec L (s : conn * W) :
  quiet s →
  ∃ r s', h_wait_for_save cf L s = (r, s') ∧ quiet s' ∧ (is_Some (connector_metadata s.1) → r = Ok tt).
Proof.
  intros Hq. unfold h_wait_for_save.
  destruct (cf_is_mla cf && negb (hla_rank0 cf)); [by exists (Ok tt), s|].
  destruct (connector_metadata s.1) as [md|] eqn:Hmd.
  2:{ exists (Raise AssertionError), s. split; [|split; [done|by intros []]].
      unfold _get_connector_metadata, getc, mbind, M_bind, gets. by rewrite Hmd. }
  assert (Hget : _get_connector_metadata s = (Ok md, s)).
  { unfold _get_connector_metadata, getc, mbind, M_bind, gets. by rewrite Hmd. }
  mrun Hget. set (acc := h_collect_saves cf (request_meta md)).
  destruct (sa_ucm_block_ids acc) eqn:Hids; [by exists (Ok tt), s|].
  destruct (submit_prepared_spec cf (rows ← hla_extract_block_addrs L (sa_vllm_block_ids acc) false;
    flatten_rows (Addr2 rows)) acc [] s Hq) as (r & s1 & Hrun & _ & Hr).
  change (submit_prepared cf _ acc) with (h_submit_save cf L acc) in Hrun. mrun Hrun.
  destruct r as [[t h]|].
  - pose proof (Hr (PendingDump t (list_to_set (sa_by_request acc).*1) h 0) eq_refl eq_refl (λ x Hx, Hx)) as Hc.
    destruct (h_wait_save_spec acc t h _ s1 Hc eq_refl eq_refl) as (ok & s2 & Hw & Hq2).
    mrun Hw. destruct ok; cbn [negb]; [|by exists (Ok tt), s2].
    destruct (on_rc_finish_run (list_to_set (sa_by_request acc).*1) s2 (quiet_no_contexts s2 Hq2))
      as (m & Hf & Hm & _).
    unfold h_finish. mrun Hf. eexists (Ok tt), _. split; [reflexivity|]. split; [|done].
    apply (quiet_set_rc m s2); [done|apply Hq2].
  - destruct (on_rc_finish_run (list_to_set (sa_by_request acc).*1) s1 (quiet_no_contexts s1 Hr))
      as (m & Hf & Hm & _).
    unfold h_finish. exists (Ok tt), (set_rc m s1.1, s1.2). split; [exact Hf|]. split; [|done].
    apply (quiet_set_rc m s1); [done|apply Hr].
Qed.

End direct.

(** ** Dictionaries of task lists *)

Definition dump_list {A} (d : dict Z (list A)) : list A := concat d.*2.

Lemma elem_of_dump_list {A} (d : dict Z (list A)) p : p ∈ dump_list d ↔ ∃ k l, (k, l) ∈ d ∧ p ∈ l.
Proof.
  unfold dump_list. rewrite -> elem_of_concat. split.
  - intros (l & ([k l'] & -> & Hin)%list_elem_of_fmap & Hp). eauto.
  - intros (k & l & Hin & Hp). exists l. split; [|done]. apply list_elem_of_fmap. by exists (k, l).
Qed.

Lemma elem_of_dict_set {V} k (v : V) (d : dict Z V) x :
  NoDup d.*1 → x ∈ dict_set k v d ↔ x = (k, v) ∨ (x.1 ≠ k ∧ x ∈ d).
Proof.
  intros Hnd. destruct x as [k0 v0]. cbn [fst]. split.
  - intros Hin. apply dict_elem_get in Hin; [|by apply dict_set_NoDup]. rewrite -> dict_get_set in Hin.
    case_decide; [left; congruence|right]. split; [congruence|]. by apply dict_get_Some_elem.
  - intros Hx. apply dict_get_Some_elem. rewrite -> dict_get_set.
    destruct Hx as [[= -> ->]|[Hne Hin]]; [by rewrite -> decide_True by done|].
    rewrite -> decide_False by congruence. by apply dict_elem_get.
Qed.

(** Appending to the list of one key, and removing one key. *)
Lemma dump_list_append {A} k (p : A) (d : dict Z (list A)) q :
  NoDup d.*1 →
  q ∈ dump_list (dict_set k (dict_get_default k [] d ++ [p]) d) ↔ q = p ∨ q ∈ dump_list d.
Proof.
  intros Hnd. rewrite -> !elem_of_dump_list. unfold dict_get_default. split.
  - intros (k' & l & Hin & Hq). apply elem_of_dict_set in Hin as [[= -> ->]|[_ Hin]]; [|right; eauto|done].
    apply elem_of_app in Hq as [Hq|Hq]; [right|left; by apply list_elem_of_singleton].
    destruct (dict_get k d) as [l|] eqn:Hk; [|by apply elem_of_nil in Hq].
    exists k, l. split; [by apply dict_get_Some_elem|done].
  - intros [->|(k' & l & Hin & Hq)].
    + eexists k, _. split; [by apply elem_of_dict_set; [done|left]|]. apply elem_of_app. right. by left.
    + destruct (decide (k' = k)) as [->|Hne].
      * eexists k, _. split; [by apply elem_of_dict_set; [done|left]|]. apply elem_of_app. left.
        apply dict_elem_get in Hin; [|done]. by rewrite -> Hin.
      * exists k', l. split; [|done]. apply elem_of_dict_set; [done|]. by right.
Qed.

Lemma dump_list_split {A} k (d : dict Z (list A)) q :
  NoDup d.*1 → q ∈ dump_list d → q ∈ dict_get_default k [] d ∨ q ∈ dump_list (dict_del k d).
Proof.
  intros Hnd. rewrite -> !elem_of_dump_list. intros (k' & l & Hin & Hq). unfold dict_get_default.
  destruct (decide (k' = k)) as [->|Hne].
  - left. apply dict_elem_get in Hin; [|done]. by rewrite -> Hin.
  - right. exists k', l. split; [|done]. unfold dict_del. apply list_elem_of_filter. done.
Qed.

(** ** The layerwise connector: dumps *)

Section layerwise.
  Context {W : Type} `{StoreOps W} `{DeviceOps W} `{SetOrder} `{PyHash}.
  Variable hcf : hlw_conf.
Let cf : conf := hw_cf hcf.
Let L : hla_layout := hw_layout hcf.

Definition hbase_of (s : hlw * W) : conn * W := (hw_base s.1, s.2).
Definition hw_contexts (s : hlw * W) := dump_task_contexts (rank_consistency (hw_base s.1)).

(** Live events, up to the handle 0 of a failed creation. *)
Definition no_events (s : hlw * W) : Prop :=
  ∀ dv h, dev (hw_base s.1) = Some dv → is_Some (events dv !! h) → h = 0.

(** Outstanding dumps are those of the batch, filed under rows of the layout. *)
Record hw_inv (s : hlw * W) : Prop := {
  hi_nodup : NoDup (hw_dump_tasks s.1).*1;
  hi_rows : (hw_dump_tasks s.1).*1 ⊆ row_ids L;
  hi_deferred : (deferred_mtp_row_dumps s.1).*1 ⊆ row_ids L;
  hi_contexts : ∀ t, is_Some (hw_contexts s !! t) → t ∈ pd_task <$> dump_list (hw_dump_tasks s.1);
  hi_events : hw_is_save s.1 = false ∨ enable_event_sync cf = false → no_events s;
  hi_idle : hw_is_save s.1 = false → hw_dump_tasks s.1 = [] ∧ deferred_mtp_row_dumps s.1 = [];
  hi_dev : is_Some (dev (hw_base s.1));
}.

(** The part of the state the invariant reads. *)
Definition hw_same (s s' : hlw * W) : Prop :=
  hw_dump_tasks s'.1 = hw_dump_tasks s.1 ∧ deferred_mtp_row_dumps s'.1 = deferred_mtp_row_dumps s.1 ∧
  hw_contexts s' = hw_contexts s ∧ dev (hw_base s'.1) = dev (hw_base s.1) ∧ hw_is_save s'.1 = hw_is_save s.1.

Lemma hw_same_inv s s' : hw_same s s' → hw_inv s → hw_inv s'.
Proof.
  intros (H1' & H2' & H3' & H4' & H5') [Hnd Hr Hd Hc He Hi Hv].
  split; unfold no_events in *; rewrite -> ?H1', ?H2', ?H3', ?H4', ?H5'; auto.
Qed.

Lemma hw_same_refl s : hw_same s s.
Proof. done. Qed.

Lemma hw_same_trans s1 s2 s3 : hw_same s1 s2 → hw_same s2 s3 → hw_same s1 s3.
Proof. unfold hw_same. intuition congruence. Qed.

(** Commands that keep that part. *)
Definition hw_pure {A} (m : M (hlw * W) A) : Prop := ∀ s, hw_same s (m s).2.

Lemma hw_pure_preserves {A} (m : M (hlw * W) A) s0 : hw_pure m → preserves (hw_same s0) m.
Proof. intros Hm s Hs. exact (hw_same_trans _ _ _ Hs (Hm s)). Qed.

Lemma hw_pure_intro {A} (m : M (hlw * W) A) : (∀ s0, preserves (hw_same s0) m) → hw_pure m.
Proof. intros Hm s. apply (Hm s). apply hw_same_refl. Qed.

Lemma updw_same s0 f :
  (∀ c, hw_dump_tasks (f c) = hw_dump_tasks c ∧ deferred_mtp_row_dumps (f c) = deferred_mtp_row_dumps c ∧
     hw_base (f c) = hw_base c ∧ hw_is_save (f c) = hw_is_save c) →
  preserves (hw_same s0) (updw (W := W) f).
Proof.
  intros Hf. apply hw_pure_preserves. intros s. unfold hw_same, hw_contexts, updw, modify. simpl.
  destruct (Hf s.1) as (-> & -> & -> & ->). done.
Qed.

Lemma on_hw_updc_same s0 f :
  (∀ c, dump_task_contexts (rank_consistency (f c)) = dump_task_contexts (rank_consistency c) ∧ dev (f c) = dev c) →
  preserves (hw_same s0) (on_hw (W := W) (updc f)).
Proof.
  intros Hf. apply hw_pure_preserves. intros s. unfold hw_same, hw_contexts, on_hw, lift, updc, modify. simpl.
  destruct (Hf (hw_base s.1)) as (-> & ->). done.
Qed.

Lemma on_hw_rc_same {A} s0 (m : M (manager * W) A) :
  (∀ s, dump_task_contexts (m s).2.1 = dump_task_contexts s.1) →
  preserves (hw_same s0) (on_hw (on_rc m)).
Proof.
  intros Hm. apply hw_pure_preserves. intros s. unfold hw_same, hw_contexts, on_hw, on_rc, lift. simpl.
  specialize (Hm (rank_consistency (hw_base s.1), s.2)).
  destruct (m (rank_consistency (hw_base s.1), s.2)) as [r t]. simpl in *. by rewrite Hm.
Qed.

Lemma mark_load_failed_same s0 md id : preserves (hw_same s0) (_mark_load_failed (W := W) md id).
Proof.
  unfold _mark_load_failed. apply preserves_bind; [|intros _].
  - destruct (dict_get id (request_meta md)); [by apply on_hw_updc_same|apply preserves_ret].
  - apply preserves_bind; [by apply updw_same|]. intros _. by apply on_hw_updc_same.
Qed.

Lemma submit_row_load_same s0 md row e : preserves (hw_same s0) (submit_row_load hcf md row e).
Proof.
  unfold submit_row_load. apply preserves_bind; [apply preserves_gets|]. intros failed.
  case_decide; [apply preserves_ret|]. apply preserves_try; [|intros; apply mark_load_failed_same].
  apply preserves_bind; [apply preserves_of_res|]. intros ptrs.
  apply preserves_bind.
  - apply on_hw_rc_same. intros s.
    destruct (submit_load_spec (store (hw_cf hcf)) [(re_request_id e, re_ucm_block_ids e)] (re_store_block_ids e)
      (replicate (length (re_store_block_ids e)) row) ptrs s) as (r & s' & -> & Hd & _). done.
  - intros t. by apply updw_same.
Qed.

Lemma submit_row_once_same s0 md row :
  preserves (hw_same s0) (_submit_request_load_tasks_for_row_once hcf (W := W) md row).
Proof.
  unfold _submit_request_load_tasks_for_row_once. apply preserves_bind; [apply preserves_gets|]. intros sub.
  case_decide; [apply preserves_ret|]. unfold _submit_request_load_tasks_for_row.
  apply preserves_bind; [apply preserves_gets|]. intros entries.
  apply preserves_bind; [|intros _; by apply updw_same].
  apply preserves_for_each. intros e _. apply submit_row_load_same.
Qed.

Lemma wait_row_load_same s0 md row : preserves (hw_same s0) (_wait_row_load (W := W) md row).
Proof.
  unfold _wait_row_load. apply preserves_bind; [apply preserves_gets|]. intros tasks.
  apply preserves_bind; [by apply updw_same|]. intros _.
  apply preserves_bind; [|intros _; apply preserves_ret].
  apply preserves_for_each. intros x _. unfold wait_row_task.
  apply preserves_try; [|intros; apply mark_load_failed_same].
  apply on_hw_rc_same. intros s. destruct (wait_load_spec x.2 s) as (r & s' & -> & Hd & _). done.
Qed.

Lemma wait_for_layer_same s0 name t : preserves (hw_same s0) (wait_for_layer_load hcf (W := W) name t).
Proof.
  unfold wait_for_layer_load. apply preserves_bind; [apply preserves_gets|]. intros md.
  apply preserves_bind; [apply preserves_gets|]. intros need.
  destruct md as [md|]; [|apply preserves_ret]. destruct need; cbn [negb]; [|apply preserves_ret].
  destruct (dict_get name _) as [row|]; [|apply preserves_ret]. case_match; [apply preserves_ret|].
  apply preserves_bind; [apply submit_row_once_same|]. intros _.
  apply preserves_bind; [apply wait_row_load_same|]. intros n.
  apply preserves_bind; [apply preserves_for_each; intros; apply submit_row_once_same|]. intros _.
  apply preserves_bind; [apply preserves_gets|]. intros prev.
  apply preserves_bind; [by apply on_hw_updc_same|]. intros _. by apply updw_same.
Qed.

Lemma hw_same_keeps {A} (m : M (hlw * W) A) : (∀ s0, preserves (hw_same s0) m) → preserves hw_inv m.
Proof. intros Hm s Hs. apply (hw_same_inv s); [|done]. apply (Hm s). apply hw_same_refl. Qed.

Lemma on_hw_metadata_same s0 : preserves (hw_same s0) (on_hw (_get_connector_metadata (W := W))).
Proof.
  apply hw_pure_preserves. intros s. unfold on_hw, lift, _get_connector_metadata, getc, mbind, M_bind, gets. simpl.
  by destruct (connector_metadata (hw_base s.1)).
Qed.

Lemma start_load_hw_inv now : preserves hw_inv (start_load_kv hcf (W := W) now).
Proof.
  unfold start_load_kv.
  apply preserves_bind; [apply hw_same_keeps; intros; by apply updw_same|]. intros _.
  apply preserves_bind; [apply hw_same_keeps, on_hw_metadata_same|]. intros md.
  apply preserves_bind.
  { intros s [Hnd Hr Hd Hc He Hi Hv]. split; try done; [by intros x ?%elem_of_nil|]. intros Hs. by destruct (Hi Hs). }
  intros _. apply preserves_bind; [|intros _].
  - apply preserves_for_each. intros x _. apply hw_same_keeps. intros s0. unfold collect_row_load.
    destruct (load_block_ids x.2).1; [apply preserves_ret|].
    destruct (drop_nulls _ _) as [[|u us] vs]; [apply preserves_ret|by apply updw_same].
  - apply preserves_bind; [apply preserves_gets|]. intros need. apply preserves_if; [|apply preserves_ret].
    apply preserves_bind; [|intros _; apply preserves_bind; [|intros; apply preserves_ret]].
    + apply preserves_for_each. intros; apply hw_same_keeps; intros; apply submit_row_once_same.
    + apply hw_same_keeps; intros; apply wait_row_load_same.
Qed.

Lemma layer_row_in name row : dict_get name (layer_name_to_row L) = Some row → row ∈ row_ids L.
Proof.
  intros Hr. unfold row_ids. rewrite -> merge_sort_Permutation, elem_of_remove_dups.
  apply list_elem_of_fmap. exists (name, row). split; [done|]. by apply dict_get_Some_elem.
Qed.

Lemma dump_event_dev (s : conn * W) :
  is_Some (dev s.1) → is_Some (dev (_get_dump_event_handle cf s).2.1).
Proof.
  assert (Hdev : ∀ A (m : M (device * W) A), preserves (λ s : conn * W, is_Some (dev s.1)) (on_dev m)).
  { intros A m t [d Hd]. unfold on_dev. rewrite -> Hd. destruct (m (d, t.2)) as [r u]. by eexists. }
  revert s. change (preserves (λ s : conn * W, is_Some (dev s.1)) (_get_dump_event_handle cf)).
  unfold _get_dump_event_handle. apply preserves_if.
  - apply preserves_bind; [apply Hdev|]. intros _. apply preserves_ret.
  - apply preserves_bind; [apply Hdev|]. intros h.
    apply preserves_bind; [apply preserves_if; [apply Hdev|apply preserves_ret]|].
    intros _. apply preserves_ret.
Qed.

(** The submission of one row files its task under the row. *)
Lemma submit_row_dump_inv row by_request ids ptrs reqs (s : hlw * W) :
  hw_inv s → row ∈ row_ids L → hw_is_save s.1 = true →
  ∃ s', submit_row_dump hcf row by_request ids ptrs reqs s = (Ok tt, s') ∧ hw_inv s' ∧ hw_is_save s'.1 = true ∧
    deferred_mtp_row_dumps s'.1 = deferred_mtp_row_dumps s.1.
Proof.
  intros Hinv Hrow Hsave. unfold submit_row_dump. fold cf.
  destruct (dump_event_spec cf (hbase_of s)) as (rh & t1 & Hrun1 & _ & Hrc1 & Hev1).
  assert (Hon : on_hw (_get_dump_event_handle cf) s = (rh, (set_hw_base t1.1 s.1, t1.2))).
  { unfold on_hw, lift. unfold hbase_of in Hrun1. by rewrite -> Hrun1. }
  assert (Hinv1 : hw_inv (set_hw_base t1.1 s.1, t1.2)).
  { destruct Hinv as [Hnd Hr Hd Hc He Hi Hv]. pose proof (dump_event_dev (hbase_of s) Hv) as Hv1.
    rewrite -> Hrun1 in Hv1. split; try done.
    - unfold hw_contexts. cbn [fst hw_base set_hw_base]. rewrite -> Hrc1. done.
    - intros [Hf|Hsync]; [simpl in Hf; congruence|]. intros dv h Hdv Hh. simpl in Hdv.
      destruct (decide (h = 0)) as [|Hne]; [done|exfalso].
      assert (Hcov : ∀ L, events_covered (enable_event_sync cf) L (dev (hw_base s.1))).
      { intros L' dv' h' Hdv' Hh' Hne'. destruct Hne'. by apply (He (or_intror Hsync) dv' h'). }
      specialize (Hev1 [] (Hcov [])). destruct rh as [h0|e].
      + destruct (Hev1 (PendingDump 0 ∅ h0 0) eq_refl dv h Hdv Hh Hne) as [? _]. congruence.
      + destruct (Hev1 dv h Hdv Hh Hne) as [? _]. congruence. }
  unfold try_except, mbind, M_bind. rewrite -> Hon. destruct rh as [h|e]; cbn [fst snd].
  2:{ eexists. split; [reflexivity|]. split_and!; done. }
  unfold on_hw at 1, on_rc at 1, lift. cbn [fst snd].
  destruct (submit_dump_spec (store cf) by_request ids (replicate (length ids) row) ptrs h
    (rank_consistency (hw_base (set_hw_base t1.1 s.1)), t1.2)) as (r & t2 & Hrun2 & _ & Hr).
  simpl in Hrun2. simpl. rewrite -> Hrun2. destruct Hinv1 as [Hnd Hrs Hd Hc He Hi Hv]. simpl in *.
  destruct r as [t|e]; cbn [fst snd].
  - destruct Hr as (ctx & _ & Hctx). eexists. split; [reflexivity|]. split; [|done].
    split; simpl.
    + by apply dict_set_NoDup.
    + intros k Hk. apply dict_set_keys in Hk as [->|Hk]; [done|by apply Hrs].
    + done.
    + unfold hw_contexts in *. simpl in *. rewrite -> Hctx. intros t' Ht'.
      apply list_elem_of_fmap. destruct (decide (t' = t)) as [->|Hne].
      * eexists (PendingDump t reqs h 0). split; [done|]. apply dump_list_append; [done|by left].
      * rewrite -> lookup_insert_ne in Ht' by done. apply Hc, list_elem_of_fmap in Ht' as (p & -> & Hp).
        exists p. split; [done|]. apply dump_list_append; [done|by right].
    + intros Hor. exact (He Hor).
    + congruence.
    + done.
  - eexists. split; [reflexivity|]. split; [|done]. split; simpl; try done.
    unfold hw_contexts in *. simpl in *. by rewrite -> Hr.
Qed.

Lemma save_kv_layer_inv name : preserves hw_inv (save_kv_layer hcf (W := W) name).
Proof.
  unfold save_kv_layer. apply preserves_bind; [apply preserves_gets|]. intros [md|]; [|apply preserves_ret].
  apply preserves_if; [apply preserves_ret|].
  destruct (dict_get name (layer_name_to_row (hw_layout hcf))) as [row|] eqn:Hrow; [|apply preserves_ret].
  apply layer_row_in in Hrow. case_decide; [|apply preserves_ret].
  unfold save_row. apply preserves_bind.
  { apply hw_same_keeps. intros s0. unfold batch_dump_data. apply preserves_bind; [apply preserves_gets|].
    intros [d|]; [apply preserves_ret|]. apply preserves_bind; [by apply updw_same|]. intros _. apply preserves_ret. }
  intros d. destruct (dd_ucm_block_ids d) as [|u us]; [apply preserves_ret|].
  intros s Hinv. unfold mbind at 1, M_bind at 1. cbn [updw modify].
  set (s1 := (set_hw_is_save true s.1, s.2)).
  assert (Hinv1 : hw_inv s1).
  { destruct Hinv as [Hnd Hr Hd Hc He Hi Hv]. split; try done. intros [Hf|Hs]; [done|]. by apply He; right. }
  unfold updw, modify. fold s1. destruct (hw_is_mtp_layer hcf name).
  - destruct Hinv1 as [Hnd Hr Hd Hc He Hi Hv]. split; try done. simpl. intros k Hk.
    apply dict_set_keys in Hk as [->|Hk]; [done|by apply Hd].
  - destruct (extract_block_addrs_for_row (hw_layout hcf) (dd_vllm_block_ids d) row) as [ptrs|e]; [|done].
    mstep. destruct (submit_row_dump_inv row (dd_by_request d) (u :: us) ptrs (dd_request_ids d) s1)
      as (s2 & -> & Hinv2 & _); done.
Qed.

(** *** The end of the step *)

(** The requests deferred by draft layers are submitted under their rows. *)
Lemma flush_rows_spec by_request deferred : ∀ s : hlw * W,
  hw_inv s → hw_is_save s.1 = true → deferred.*1 ⊆ row_ids L → deferred_mtp_row_dumps s.1 = [] →
  ∃ s', for_each deferred (flush_row hcf by_request) s = (Ok tt, s') ∧ hw_inv s' ∧ hw_is_save s'.1 = true ∧
    deferred_mtp_row_dumps s'.1 = [].
Proof.
  induction deferred as [|[row [ [u v] r] ] deferred IH]; intros s Hinv Hs Hsub Hd; [by exists s|].
  cbn [for_each flush_row]. assert (Hrow : row ∈ row_ids L) by (apply Hsub; by left).
  assert (Hrest : deferred.*1 ⊆ row_ids L) by (intros k Hk; apply Hsub; by right).
  destruct (extract_block_addrs_for_row (hw_layout hcf) v row) as [ptrs|e].
  - destruct (submit_row_dump_inv row by_request u ptrs r s Hinv Hrow Hs) as (s1 & Hrun & Hinv1 & Hs1 & Hd1).
    mrun Hrun. rewrite -> Hd in Hd1.
    destruct (IH s1 Hinv1 Hs1 Hrest Hd1) as (s' & Hrun' & Hinv' & Hs' & Hd').
    by exists s'.
  - mstep. by apply IH.
Qed.

(** What waiting for dumps may change. *)
Definition hw_waited (s s' : hlw * W) : Prop :=
  deferred_mtp_row_dumps s'.1 = deferred_mtp_row_dumps s.1 ∧ hw_is_save s'.1 = hw_is_save s.1 ∧
  dev (hw_base s'.1) = dev (hw_base s.1).

Lemma wait_tasks_spec tasks : ∀ s : hlw * W,
  ∃ s', for_each tasks (λ p, try_except (on_hw (on_rc (wait_dump (pd_task p)))) (λ _, mret tt)) s = (Ok tt, s') ∧
    hw_waited s s' ∧ hw_dump_tasks s'.1 = hw_dump_tasks s.1 ∧
    ∀ t, is_Some (hw_contexts s' !! t) → is_Some (hw_contexts s !! t) ∧ t ∉ pd_task <$> tasks.
Proof.
  induction tasks as [|p tasks IH]; intros s.
  { exists s. split; [done|]. split_and!; try done. intros t Ht. split; [done|]. by intros ?%elem_of_nil. }
  cbn [for_each]. destruct (on_rc_wait_dump_run (pd_task p) (hbase_of s)) as (r & m & w & Hrun & Hm).
  set (s1 := (set_hw_base (set_rc m (hw_base s.1)) s.1, w)).
  assert (Hstep : try_except (on_hw (on_rc (wait_dump (pd_task p)))) (λ _, mret tt) s = (Ok tt, s1)).
  { unfold try_except, on_hw, lift. unfold hbase_of in Hrun. rewrite -> Hrun. by destruct r as [[]|]. }
  mrun Hstep. destruct (IH s1) as (s' & Hrun' & (Hw1 & Hw2 & Hw3) & Htasks & Hctx).
  exists s'. split; [done|]. split; [by split_and!|]. split; [done|].
  intros t Ht. apply Hctx in Ht as [Ht Hnot]. unfold hw_contexts in Ht. simpl in Ht.
  rewrite -> Hm in Ht. apply lookup_delete_is_Some in Ht as [Hne Ht]. split; [done|].
  rewrite -> fmap_cons, not_elem_of_cons. split; [congruence|done].
Qed.

Lemma wait_row_dumps_spec row (s : hlw * W) :
  NoDup (hw_dump_tasks s.1).*1 →
  (∀ t, is_Some (hw_contexts s !! t) → t ∈ pd_task <$> dump_list (hw_dump_tasks s.1)) →
  ∃ s', wait_row_dumps (W := W) row s = (Ok tt, s') ∧ hw_waited s s' ∧
    hw_dump_tasks s'.1 = dict_del row (hw_dump_tasks s.1) ∧
    ∀ t, is_Some (hw_contexts s' !! t) → t ∈ pd_task <$> dump_list (hw_dump_tasks s'.1).
Proof.
  intros Hnd Hctx. unfold wait_row_dumps. mstep. mstep.
  destruct (wait_tasks_spec (dict_get_default row [] (hw_dump_tasks s.1))
    (set_hw_dumps (dict_del row (hw_dump_tasks s.1)) s.1, s.2)) as (s' & Hrun & Hw & Ht & Hc).
  exists s'. split; [exact Hrun|]. split; [exact Hw|]. split; [exact Ht|].
  intros t His. apply Hc in His as [His Hnot]. apply Hctx in His.
  apply list_elem_of_fmap in His as (p & -> & Hp). rewrite -> Ht. simpl.
  apply (dump_list_split row) in Hp as [Hp|Hp]; [|by apply list_elem_of_fmap; exists p|done].
  exfalso. apply Hnot, list_elem_of_fmap. by exists p.
Qed.

Lemma wait_rows_spec rows : ∀ s : hlw * W,
  NoDup (hw_dump_tasks s.1).*1 →
  (∀ t, is_Some (hw_contexts s !! t) → t ∈ pd_task <$> dump_list (hw_dump_tasks s.1)) →
  ∃ s', for_each rows (wait_row_dumps (W := W)) s = (Ok tt, s') ∧ hw_waited s s' ∧
    (∀ k, k ∈ (hw_dump_tasks s'.1).*1 → k ∈ (hw_dump_tasks s.1).*1 ∧ k ∉ rows) ∧
    ∀ t, is_Some (hw_contexts s' !! t) → t ∈ pd_task <$> dump_list (hw_dump_tasks s'.1).
Proof.
  induction rows as [|row rows IH]; intros s Hnd Hctx.
  { exists s. split; [done|]. split_and!; try done. intros k Hk. split; [done|]. by intros ?%elem_of_nil. }
  cbn [for_each]. destruct (wait_row_dumps_spec row s Hnd Hctx) as (s1 & Hrun & Hw1 & Ht1 & Hc1).
  mrun Hrun. destruct (IH s1) as (s' & Hrun' & Hw' & Hk' & Hc').
  { rewrite -> Ht1. by apply dict_del_NoDup. }
  { done. }
  exists s'. split; [done|]. split; [|split; [|done]].
  - unfold hw_waited in *. intuition congruence.
  - intros k Hk. apply Hk' in Hk as [Hk Hnot]. rewrite -> Ht1 in Hk. apply dict_del_keys in Hk as [Hne Hk].
    split; [done|]. by apply not_elem_of_cons.
Qed.

(** What is left after the step. *)
Definition settled (s : hlw * W) : Prop :=
  hw_contexts s = ∅ ∧ hw_dump_tasks s.1 = [] ∧ deferred_mtp_row_dumps s.1 = [] ∧ hw_is_save s.1 = false ∧ no_events s.

Lemma batch_total_run tail (s : hlw * W) :
  ∃ c, batch_total (W := W) tail s = (Ok tt, (c, s.2)) ∧ hw_same s (c, s.2).
Proof.
  unfold batch_total. mstep. mstep. destruct (hw_batch_start s.1), tail; eexists; (split; [reflexivity|]); done.
Qed.

Lemma no_contexts (s : hlw * W) :
  hw_dump_tasks s.1 = [] → (∀ t, is_Some (hw_contexts s !! t) → t ∈ pd_task <$> dump_list (hw_dump_tasks s.1)) →
  hw_contexts s = ∅.
Proof.
  intros Ht Hc. apply map_eq. intros t. rewrite -> lookup_empty.
  destruct (hw_contexts s !! t) as [x|] eqn:E; [|done].
  assert (Hin : is_Some (hw_contexts s !! t)) by (by eexists). apply Hc in Hin. rewrite -> Ht in Hin.
  by apply elem_of_nil in Hin.
Qed.

Lemma wait_for_save_settles (s : hlw * W) :
  hw_inv s → ∃ s', wait_for_save hcf s = (Ok tt, s') ∧ settled s' ∧ hw_inv s'.
Proof.
  intros Hinv.
  assert (Hback : ∀ s', settled s' → is_Some (dev (hw_base s'.1)) → settled s' ∧ hw_inv s').
  { intros s' Hset Hv. split; [done|]. destruct Hset as (Hc & Ht & Hd & Hs & He).
    split; rewrite -> ?Ht, ?Hd; try done; [constructor|by intros k ?%elem_of_nil|by intros k ?%elem_of_nil|].
    intros t Hin. rewrite -> Hc, lookup_empty in Hin. by destruct Hin. }
  unfold wait_for_save. fold cf L. mstep. destruct (hw_is_save s.1) eqn:Hsave; cbn [negb].
  2:{ destruct (batch_total_run false s) as (c & Hrun & Hsame). exists (c, s.2). split; [exact Hrun|].
      pose proof (hw_same_inv _ _ Hsame Hinv) as [Hnd Hr Hd Hc He Hi Hv].
      assert (Hs' : hw_is_save c = false) by (destruct Hsame as (_ & _ & _ & _ & Hs5); simpl in Hs5; congruence).
      destruct (Hi Hs') as [Hi1 Hi2]. apply Hback; [|done]. split; [apply no_contexts; auto|]. split_and!; auto. }
  mstep. unfold _flush_deferred_mtp_dumps. pose proof Hinv as [Hnd Hr Hd Hc He Hi Hv].
  set (s1 := (set_hw_deferred [] s.1, s.2)).
  assert (Hinv1 : hw_inv s1) by (split; try done; [by intros k ?%elem_of_nil|intros Hf; by destruct (Hi Hf)]).
  destruct (flush_rows_spec (match dump_transfer_data s1.1 with Some d => dd_by_request d | None => [] end)
    (deferred_mtp_row_dumps s.1) s1 Hinv1 Hsave Hd eq_refl) as (s2 & Hrun2 & Hinv2 & Hs2 & Hd2).
  erewrite M_bind_Ok; [|mstep; mstep; mstep; exact Hrun2].
  destruct (wait_rows_spec (row_ids L) s2) as (s3 & Hrun3 & (Hw1 & Hw2 & Hw3) & Hk3 & Hc3); [apply Hinv2..|].
  mrun Hrun3.
  assert (Hempty : hw_dump_tasks s3.1 = []).
  { destruct (hw_dump_tasks s3.1) as [|[k l] d] eqn:E; [done|exfalso].
    destruct (Hk3 k) as [Hin Hnot]; [by left|]. apply Hnot, (hi_rows _ Hinv2), Hin. }
  pose proof (no_contexts s3 Hempty Hc3) as Hctx3.
  set (reqs := match dump_transfer_data s.1 with Some d => dd_request_ids d | None => ∅ end).
  destruct (on_rc_finish_run reqs (hbase_of s3) Hctx3) as (m & Hfin & Hm & _).
  set (s4 := (set_hw_base (set_rc m (hw_base s3.1)) s3.1, s3.2)).
  assert (Hrun4 : on_hw (on_rc (finish_dump reqs)) s3 = (Ok tt, s4)).
  { unfold on_hw, lift. unfold hbase_of in Hfin. by rewrite -> Hfin. }
  mrun Hrun4. destruct (batch_total_run true s4) as (c & Hrun5 & Ht5 & _ & Hc5 & Hdev5 & _).
  unfold hw_contexts in Hc5. cbn [fst snd] in Hc5, Hdev5, Ht5.
  assert (Hd5 : is_Some (dev (hw_base c))).
  { rewrite -> Hdev5. simpl. rewrite -> Hw3. by apply Hinv2. }
  assert (Hdef5 : deferred_mtp_row_dumps c = []).
  { change (deferred_mtp_row_dumps (c, s4.2).1 = []). destruct (batch_total_run true s4) as (c' & Hrun5' & _ & Hdef & _).
    rewrite -> Hrun5 in Hrun5'. injection Hrun5' as <-. rewrite -> Hdef. simpl. by rewrite -> Hw1. }
  mrun Hrun5. mstep. destruct (enable_event_sync cf) eqn:Hsync.
  - destruct Hd5 as [dv Hdv]. unfold on_hw, lift, on_dev. simpl. rewrite -> Hdv.
    destruct (destroy_event_handles_spec (dv, s4.2)) as (t & Hrun & _ & Hev). unfold s4 in Hrun. simpl in Hrun.
    rewrite -> Hrun. eexists. split; [reflexivity|].
    apply Hback; [split; [|split; [|split; [|split] ] ]; try done|by eexists].
    + unfold hw_contexts in *. simpl in *. by rewrite -> Hc5.
    + intros d h [= <-] Hh. simpl in Hh. rewrite -> Hev, lookup_empty in Hh. by destruct Hh.
  - eexists. split; [reflexivity|].
    apply Hback; [split; [|split; [|split; [|split] ] ]; try done|done].
    + unfold hw_contexts in *. simpl in *. by rewrite -> Hc5.
    + intros d h Hd' Hh. simpl in Hd'. rewrite -> Hdev5 in Hd'. simpl in Hd'. rewrite -> Hw3 in Hd'.
      exact (hi_events _ Hinv2 (or_intror Hsync) d h Hd' Hh).
Qed.

(** *** What the world sees of the end of the step *)

(** A fact about the world that no call undoes. *)
Record world_kept (P : W → Prop) : Prop := WorldKept {
  wk_dump : ∀ r ids shards ptrs event, preserves P (st_dump_data r ids shards ptrs event);
  wk_wait : ∀ r t, preserves P (st_wait r t);
  wk_cuda : preserves P cuda_event_recorded;
  wk_create : preserves P acl_create_event;
  wk_record : ∀ e, preserves P (acl_record_event e);
  wk_destroy : ∀ e, preserves P (acl_destroy_event e);
  wk_synchronize : preserves P stream_synchronize;
}.

Section kept.
  Variable P : W → Prop.
  Hypothesis HP : world_kept P.

Notation keeps m := (preserves (λ s, P s.2) m).

Lemma keeps_store {A} (m : M W A) : preserves P m → keeps (on_store m).
Proof. intros Hm. unfold on_store. by apply (preserves_lift _ snd _ P). Qed.

Lemma keeps_rt {A} (m : M W A) : preserves P m → keeps (on_rt m).
Proof. intros Hm. unfold on_rt. by apply (preserves_lift _ snd _ P). Qed.

Lemma keeps_rc {A} (m : M (manager * W) A) : keeps m → keeps (on_rc m).
Proof. intros Hm. unfold on_rc. by apply (preserves_lift _ _ _ (λ t, P t.2)). Qed.

Lemma keeps_hw {A} (m : M (conn * W) A) : keeps m → keeps (on_hw m).
Proof. intros Hm. unfold on_hw. by apply (preserves_lift _ _ _ (λ t, P t.2)). Qed.

Lemma keeps_dev {A} (m : M (device * W) A) : keeps m → keeps (on_dev m).
Proof.
  intros Hm s Hs. unfold on_dev. destruct (dev s.1) as [d|]; [|done]. specialize (Hm (d, s.2) Hs).
  by destruct (m (d, s.2)) as [r t].
Qed.

Lemma flush_keeps_wait_dump t : keeps (wait_dump t).
Proof.
  unfold wait_dump. apply preserves_bind; [apply preserves_gets|]. intros m.
  destruct (dump_task_contexts m !! t) as [ [st ctx]|]; [|apply preserves_raise].
  apply preserves_bind; [by apply preserves_modify|]. intros _.
  apply preserves_try; [apply keeps_store, (wk_wait P HP)|]. intros e.
  apply preserves_bind; [by apply preserves_modify|intros _; apply preserves_raise].
Qed.

Lemma flush_keeps_finish ids : keeps (finish_dump (W := W) ids).
Proof.
  unfold finish_dump. apply preserves_bind; [apply preserves_gets|]. intros m.
  destruct (negb (enabled m)); [apply preserves_ret|]. case_decide; [apply preserves_raise|by apply preserves_modify].
Qed.

Lemma flush_keeps_submit_dump st ctx ids shards ptrs event : keeps (submit_dump st ctx ids shards ptrs event).
Proof.
  unfold submit_dump. apply preserves_bind; [apply preserves_gets|]. intros m.
  apply preserves_bind; [by apply preserves_modify|]. intros _.
  apply preserves_bind; [|intros t; apply preserves_bind; [by apply preserves_modify|intros _; apply preserves_ret] ].
  apply preserves_try; [apply keeps_store, (wk_dump P HP)|]. intros e.
  apply preserves_bind; [by apply preserves_modify|intros _; apply preserves_raise].
Qed.

Lemma keeps_event : keeps (_get_dump_event_handle cf).
Proof.
  assert (Hsync : keeps (on_dev (W := W) synchronize)) by (apply keeps_dev, keeps_rt, (wk_synchronize P HP)).
  assert (Hkeep : ∀ h e, keeps (keep_event (W := W) h e)) by (intros; by apply preserves_modify).
  unfold _get_dump_event_handle. apply preserves_if; [apply preserves_bind; [done|intros; apply preserves_ret]|].
  apply preserves_bind; [apply keeps_dev|].
  - intros s Hs. unfold get_event_handle. destruct (dev_kind s.1); revert s Hs.
    + match goal with |- ∀ s, _ → P (?m s).2.2 => change (keeps m) end. unfold cuda_get_event_handle.
      apply preserves_try; [|intros; apply preserves_ret]. apply preserves_bind; [apply keeps_rt, (wk_cuda P HP)|].
      intros h. apply preserves_bind; [done|intros; apply preserves_ret].
    + match goal with |- ∀ s, _ → P (?m s).2.2 => change (keeps m) end. unfold npu_get_event_handle.
      apply preserves_try; [|intros; apply preserves_ret]. apply preserves_bind; [apply keeps_rt, (wk_create P HP)|].
      intros [event ret]. case_decide; [apply preserves_ret|]. apply preserves_bind; [apply keeps_rt, (wk_record P HP)|].
      intros ret'. case_decide; (apply preserves_bind; [|intros; apply preserves_ret]); [|done].
      apply keeps_rt, (wk_destroy P HP).
  - intros h. apply preserves_bind; [apply preserves_if; [done|apply preserves_ret]|intros; apply preserves_ret].
Qed.

Lemma keeps_destroy_all : keeps (destroy_event_handles (W := W)).
Proof.
  unfold destroy_event_handles. apply preserves_bind; [apply preserves_gets|]. intros d.
  apply preserves_bind; [|intros _; by apply preserves_modify]. destruct (dev_kind d); [apply preserves_ret|].
  apply preserves_for_each. intros e _. apply preserves_try; [|intros; apply preserves_ret].
  apply preserves_bind; [apply keeps_rt, (wk_destroy P HP)|intros; apply preserves_ret].
Qed.

Lemma keeps_submit_row row by_request ids ptrs reqs : keeps (submit_row_dump hcf (W := W) row by_request ids ptrs reqs).
Proof.
  unfold submit_row_dump. apply preserves_try; [|intros; apply preserves_ret].
  apply preserves_bind; [apply keeps_hw, keeps_event|]. intros h.
  apply preserves_bind; [apply keeps_hw, keeps_rc, flush_keeps_submit_dump|]. intros t. by apply preserves_modify.
Qed.

Lemma keeps_flush_row by_request x : keeps (flush_row hcf (W := W) by_request x).
Proof.
  destruct x as [row [ [u v] r] ]. cbn [flush_row].
  destruct (extract_block_addrs_for_row _ _ _); [apply keeps_submit_row|apply preserves_ret].
Qed.

(** A submission that marks the world: without a failing synchronization it is made. *)
Lemma submit_row_marks row by_request ids ptrs reqs (s : hlw * W) : is_Some (dev (hw_base s.1)) →
  (∀ w, is_ok (stream_synchronize (W := W) w).1 = true) →
  (∀ event w, P (st_dump_data (store cf) ids (replicate (length ids) row) ptrs event w).2) →
  P (submit_row_dump hcf row by_request ids ptrs reqs s).2.2.
Proof.
  intros Hdev Hsync Hmark. unfold submit_row_dump. fold cf.
  assert (Hs1 : ∀ c : conn * W, is_Some (dev c.1) → ∃ c', on_dev synchronize c = (Ok tt, c') ∧ is_Some (dev c'.1)).
  { intros c [d Hd]. unfold on_dev, synchronize, on_rt. munfold. rewrite -> Hd. specialize (Hsync c.2).
    destruct (stream_synchronize c.2) as [ [ []|e] w]; [|done]. eexists. split; [reflexivity|]. by eexists. }
  assert (Hev : ∃ h c', _get_dump_event_handle cf (hbase_of s) = (Ok h, c')).
  { unfold _get_dump_event_handle. destruct (negb (enable_event_sync cf)).
    - destruct (Hs1 (hbase_of s) Hdev) as (c' & Hrun & _). mrun Hrun. by eexists _, _.
    - destruct Hdev as [d Hd]. destruct (get_event_handle_spec (d, s.2)) as (h & t & Hrun & _).
      assert (Hon : on_dev get_event_handle (hbase_of s) = (Ok h, (set_dev (Some t.1) (hw_base s.1), t.2))).
      { unfold on_dev, hbase_of. cbn [fst snd]. rewrite -> Hd. by rewrite -> Hrun. }
      mrun Hon. destruct (h =? 0); [|by eexists _, _].
      destruct (Hs1 (set_dev (Some t.1) (hw_base s.1), t.2)) as (c' & Hrun' & _); [by eexists|]. mrun Hrun'. by eexists _, _. }
  destruct Hev as (h & c' & Hev).
  assert (Hon : on_hw (_get_dump_event_handle cf) s = (Ok h, (set_hw_base c'.1 s.1, c'.2))).
  { unfold on_hw, lift. unfold hbase_of in Hev. by rewrite -> Hev. }
  unfold try_except. mrun Hon. unfold mbind, M_bind, on_hw, on_rc, lift. cbn [fst snd hw_base set_hw_base].
  unfold submit_dump, on_store, upd. munfold. specialize (Hmark h c'.2).
  destruct (st_dump_data _ _ _ _ _ _) as [ [t|e] w]; exact Hmark.
Qed.

Lemma flush_marks by_request row ids vllm reqs ptrs deferred : ∀ s : hlw * W,
  hw_inv s → hw_is_save s.1 = true → deferred.*1 ⊆ row_ids L → deferred_mtp_row_dumps s.1 = [] →
  (∀ w, is_ok (stream_synchronize (W := W) w).1 = true) →
  (row, (ids, vllm, reqs)) ∈ deferred → extract_block_addrs_for_row L vllm row = Ok ptrs →
  (∀ event w, P (st_dump_data (store cf) ids (replicate (length ids) row) ptrs event w).2) →
  P (for_each deferred (flush_row hcf by_request) s).2.2.
Proof.
  induction deferred as [|x deferred IH]; intros s Hinv Hs Hsub Hd Hsync Hin Hptrs Hmark; [by apply elem_of_nil in Hin|].
  cbn [for_each]. destruct (flush_rows_spec by_request [x] s) as (s1 & Hrun & Hinv1 & Hs1 & Hd1); [done|done| |done|].
  { intros k [->|Hk%elem_of_nil]%elem_of_cons; [|done]. apply Hsub. by left. }
  assert (Hx : flush_row hcf by_request x s = (Ok tt, s1)).
  { cbn [for_each] in Hrun. unfold mbind, M_bind in Hrun. destruct (flush_row hcf by_request x s) as [ [ []|e] s0]; [|discriminate Hrun]. cbn in Hrun. by injection Hrun as <-. }
  mrun Hx. apply elem_of_cons in Hin as [<-|Hin].
  - apply (preserves_for_each (λ t : hlw * W, P t.2)); [intros; apply keeps_flush_row|].
    cbn [flush_row] in Hx. fold L in Hx. rewrite -> Hptrs in Hx.
    pose proof (submit_row_marks row by_request ids ptrs reqs s (hi_dev _ Hinv) Hsync Hmark) as Hp. by rewrite -> Hx in Hp.
  - apply IH; try done. intros k Hk. apply Hsub. by right.
Qed.

Lemma wait_for_save_marks row ids vllm reqs ptrs (s : hlw * W) : hw_inv s →
  (∀ w, is_ok (stream_synchronize (W := W) w).1 = true) →
  (row, (ids, vllm, reqs)) ∈ deferred_mtp_row_dumps s.1 → extract_block_addrs_for_row L vllm row = Ok ptrs →
  (∀ event w, P (st_dump_data (store cf) ids (replicate (length ids) row) ptrs event w).2) →
  P (wait_for_save hcf s).2.2.
Proof.
  intros Hinv Hsync Hin Hptrs Hmark. pose proof Hinv as [Hnd Hr Hd Hc He Hi Hv].
  assert (Hsave : hw_is_save s.1 = true).
  { destruct (hw_is_save s.1) eqn:E; [done|]. destruct (Hi eq_refl) as [_ Hnil]. rewrite -> Hnil in Hin. by apply elem_of_nil in Hin. }
  unfold wait_for_save. fold cf L. mstep. rewrite -> Hsave. cbn [negb]. mstep. unfold _flush_deferred_mtp_dumps.
  set (s1 := (set_hw_deferred [] s.1, s.2)). set (by_request := match dump_transfer_data s1.1 with Some d => dd_by_request d | None => [] end).
  assert (Hinv1 : hw_inv s1) by (split; try done; [by intros k ?%elem_of_nil|intros Hf; by destruct (Hi Hf)]).
  destruct (flush_rows_spec by_request (deferred_mtp_row_dumps s.1) s1 Hinv1 Hsave Hd eq_refl) as (s2 & Hrun2 & _).
  pose proof (flush_marks by_request row ids vllm reqs ptrs _ s1 Hinv1 Hsave Hd eq_refl Hsync Hin Hptrs Hmark) as Hp.
  rewrite -> Hrun2 in Hp. cbn [snd] in Hp. erewrite M_bind_Ok; [|mstep; mstep; mstep; exact Hrun2].
  clear -HP Hp. revert s2 Hp. match goal with |- ∀ s2, _ → P (?m s2).2.2 => change (keeps m) end.
  apply preserves_bind; [|intros _].
  { apply preserves_for_each. intros row' _. unfold wait_row_dumps. apply preserves_bind; [apply preserves_gets|]. intros tasks.
    apply preserves_bind; [by apply preserves_modify|]. intros _. apply preserves_for_each. intros p _.
    apply preserves_try; [apply keeps_hw, keeps_rc, flush_keeps_wait_dump|intros; apply preserves_ret]. }
  apply preserves_bind; [apply keeps_hw, keeps_rc, flush_keeps_finish|]. intros _.
  apply preserves_bind; [|intros _].
  { unfold batch_total. apply preserves_bind; [apply preserves_gets|]. intros started.
    apply preserves_bind; [by apply preserves_modify|]. intros _. destruct (_ ++ _); [apply preserves_ret|].
    apply keeps_hw. by apply preserves_modify. }
  apply preserves_bind; [by apply preserves_modify|]. intros _.
  apply preserves_if; [apply keeps_hw, keeps_dev, keeps_destroy_all|apply preserves_ret].
Qed.

End kept.

(** *** Sequences of calls *)

(** The calls of a step, in any order. *)
Inductive hw_step (s : hlw * W) : hlw * W → Prop :=
  | hw_bind md : hw_step s (on_hw (bind_connector_metadata md) s).2
  | hw_clear : hw_step s (on_hw clear_connector_metadata s).2
  | hw_start now : hw_step s (start_load_kv hcf now s).2
  | hw_wait name now : hw_step s (wait_for_layer_load hcf name now s).2
  | hw_save name : hw_step s (save_kv_layer hcf name s).2
  | hw_finish : hw_step s (wait_for_save hcf s).2
  | hw_errors : hw_step s (on_hw get_block_ids_with_load_errors s).2.

Lemma hw_step_inv s s' : hw_step s s' → hw_inv s → hw_inv s'.
Proof.
  intros [md| |now|name now|name| |] Hinv.
  - by apply (hw_same_inv s).
  - by apply (hw_same_inv s).
  - by apply start_load_hw_inv.
  - apply (hw_same_keeps (wait_for_layer_load hcf name now)); [|done]. intros s0. apply wait_for_layer_same.
  - by apply save_kv_layer_inv.
  - destruct (wait_for_save_settles s Hinv) as (s1 & -> & _ & Hi). exact Hi.
  - by apply (hw_same_inv s).
Qed.

Lemma hw_reach_inv s s' : rtc hw_step s s' → hw_inv s → hw_inv s'.
Proof. induction 1; eauto using hw_step_inv. Qed.

(** A worker that has registered its device and done nothing else. *)
Definition fresh_hlw (s : hlw * W) : Prop :=
  ∃ c, s.1 = init_hlw c ∧ dump_task_contexts (rank_consistency c) = ∅ ∧ ∃ k, dev c = Some (Device k ∅).

Lemma fresh_hlw_inv s : fresh_hlw s → hw_inv s.
Proof.
  intros (c & Hs & Hc & k & Hd). split; unfold hw_contexts, no_events; rewrite -> Hs; simpl.
  - constructor.
  - by intros x ?%elem_of_nil.
  - by intros x ?%elem_of_nil.
  - rewrite -> Hc. intros t. rewrite -> lookup_empty. by intros [].
  - intros _ dv h. rewrite -> Hd. intros [= <-]. simpl. rewrite -> lookup_empty. by intros [].
  - done.
  - rewrite -> Hd. by eexists.
Qed.

End layerwise.

(** ** Properties *)

(** In the direct hybrid connector the dumps of a step are over when
    [wait_for_save] returns: from a state without outstanding dumps or live
    events the call never raises, whatever the store and the device answer, and
    it leaves no outstanding dump and no live event. *)
Theorem hla_saves_settle {W} `{StoreOps W} `{DeviceOps W} `{SetOrder} `{PyHash} cf L (s : conn * W) :
  quiet cf s → is_Some (connector_metadata s.1) →
  ∃ s', h_wait_for_save cf L s = (Ok tt, s') ∧
    dump_task_contexts (rank_consistency s'.1) = ∅ ∧
    ∀ dv h, dev s'.1 = Some dv → is_Some (events dv !! h) → h = 0.
Proof.
  intros Hq Hmd. destruct (h_wait_for_save_spec cf L s Hq) as (r & s' & Hrun & Hq' & Hr).
  rewrite -> (Hr Hmd) in Hrun. exists s'. split; [done|]. split; [by eapply quiet_no_contexts|].
  intros dv h Hd Hh. destruct (decide (h = 0)) as [|Hne]; [done|].
  destruct (proj2 Hq' dv h Hd Hh Hne) as (_ & p & Hp & _). by apply elem_of_nil in Hp.
Qed.

Lemma hla_saves_settle_witness :
  let s : conn * sim := (set_metadata (Some ex_plan) (set_dev (Some (Device CUDA ∅)) (init_conn false None false)),
    sim_init [] []) in
  ∃ s', h_wait_for_save ex_worker_cf (ex_hla_layout true) s = (Ok tt, s') ∧
    dump_task_contexts (rank_consistency s'.1) = ∅ ∧
    ∀ dv h, dev s'.1 = Some dv → is_Some (events dv !! h) → h = 0.
Proof.
  refine (hla_saves_settle ex_worker_cf (ex_hla_layout true)
    (set_metadata (Some ex_plan) (set_dev (Some (Device CUDA ∅)) (init_conn false None false)),
      sim_init [] []) _ (ex_intro _ ex_plan eq_refl)).
  split.
  - intros t st ctx Ht. simpl in Ht. by rewrite -> lookup_empty in Ht.
  - intros dv h [= <-] Hh. simpl in Hh. rewrite -> lookup_empty in Hh. by destruct Hh.
Defined.

(** C20: In every state the layerwise hybrid connector can reach by its calls, in
    any order and whatever the store and the device answer, [wait_for_save]
    returns without raising, and afterwards no dump is deferred, recorded or
    outstanding, nothing is being saved and no event is alive.  Every deferred draft
    row has been submitted to the store, under its shard and with its addresses,
    unless the device failed to synchronize: whatever the submission of a row brings
    about in the world, and no later call undoes, holds afterwards. *)
Theorem hlw_saves_settle {W} `{StoreOps W} `{DeviceOps W} `{SetOrder} `{PyHash} hcf (s0 s : hlw * W) :
  fresh_hlw s0 → rtc (hw_step hcf) s0 s →
  ∃ s', wait_for_save hcf s = (Ok tt, s') ∧
    dump_task_contexts (rank_consistency (hw_base s'.1)) = ∅ ∧ hw_dump_tasks s'.1 = [] ∧
    deferred_mtp_row_dumps s'.1 = [] ∧ hw_is_save s'.1 = false ∧
    (∀ dv h, dev (hw_base s'.1) = Some dv → is_Some (events dv !! h) → h = 0) ∧
    ∀ (P : W → Prop) row ids vllm reqs ptrs, world_kept P →
      (∀ w, is_ok (stream_synchronize (W := W) w).1 = true) →
      (row, (ids, vllm, reqs)) ∈ deferred_mtp_row_dumps s.1 →
      extract_block_addrs_for_row (hw_layout hcf) vllm row = Ok ptrs →
      (∀ event w, P (st_dump_data (store (hw_cf hcf)) ids (replicate (length ids) row) ptrs event w).2) → P s'.2.
Proof.
  intros Hf Hr. pose proof (hw_reach_inv hcf _ _ Hr (fresh_hlw_inv hcf _ Hf)) as Hinv.
  destruct (wait_for_save_settles hcf s Hinv) as (s' & Hrun & (Hc & Ht & Hd & Hs & He) & _).
  exists s'. do 6 (split; [done|]). intros P row ids vllm reqs ptrs HP Hsync Hin Hptrs Hmark.
  pose proof (wait_for_save_marks hcf P HP row ids vllm reqs ptrs s Hinv Hsync Hin Hptrs Hmark) as Hp. by rewrite -> Hrun in Hp.
Qed.

(** A layerwise connector whose second row ends with a draft layer. *)
Definition ex_mtp_config : kv_cache_config :=
  KVCacheConfig
    [HlaGroup (FullAttentionSpec 2 1 4 4 2) ["a.0"; "mtp.1"];
     HlaGroup (MambaSpec 4 "align" [[2]; [5]] [2; 4]) ["m.0"; "m.1"]]
    [RawTensor 160 ["a.0"; "m.0"]; RawTensor 160 ["mtp.1"; "m.1"]] 4.

Definition ex_mtp_kvcaches : dict string kv_layer :=
  [("a.0", KVTensor (Tensor 4096 [] [] 2)); ("m.0", KVTensor (Tensor 4096 [] [] 2));
   ("mtp.1", KVTensor (Tensor 8192 [] [] 2)); ("m.1", KVTensor (Tensor 8192 [] [] 2))].

Definition ex_mtp_layout : hla_layout :=
  match HybridLinearAttentionLayout ex_hla_index true (ex_conf false) ex_mtp_config ex_mtp_kvcaches with
  | Ok L => L
  | Raise _ => HlaLayout (ex_layout false) [] [] [] [] []
  end.

Definition ex_hcf : hlw_conf := register_hlw ex_worker_cf ex_mtp_layout None true.

Definition ex_hlw : hlw * sim :=
  (init_hlw (set_dev (Some (Device CUDA ∅)) (init_conn false None false)), sim_init [] []).

Definition ex_hlw_bound : hlw * sim := (on_hw (bind_connector_metadata ex_plan) ex_hlw).2.
Definition ex_hlw_saved : hlw * sim := (save_kv_layer ex_hcf "mtp.1" ex_hlw_bound).2.

(** A dump of these blocks was submitted to the example store. *)
Definition dump_requested (ids : list bytes) (w : sim) : Prop :=
  ∃ t, t < sim_next w ∧ sim_tasks w !! t = Some (true, ids).

Lemma dump_requested_kept ids : world_kept (dump_requested ids).
Proof.
  split; try (intros; intros w Hw; exact Hw).
  - intros r ids' shards ptrs event w (t & Ht & Hl). exists t. split; [simpl; lia|].
    simpl. rewrite -> lookup_insert_ne by lia. exact Hl.
  - intros r t w Hw. simpl. unfold sim_wait. destruct (sim_tasks w !! t) as [ [ [] l]|]; try exact Hw.
    destruct (existsb _ l); exact Hw.
Qed.

Lemma hlw_saves_settle_witness :
  sim_tasks ex_hlw_saved.2 = ∅ ∧
  deferred_mtp_row_dumps ex_hlw_saved.1 = [(1, ([[1]; [2]], [0; 1], {["r"]}))] ∧
  ∃ s', wait_for_save ex_hcf ex_hlw_saved = (Ok tt, s') ∧
    dump_task_contexts (rank_consistency (hw_base s'.1)) = ∅ ∧ hw_dump_tasks s'.1 = [] ∧
    deferred_mtp_row_dumps s'.1 = [] ∧ dump_requested [[1]; [2]] s'.2.
Proof.
  split; [vm_compute; reflexivity|]. split; [vm_compute; reflexivity|].
  destruct (hlw_saves_settle ex_hcf ex_hlw ex_hlw_saved) as (s' & Hrun & Hc & Ht & Hd & _ & _ & Hsub).
  - exists (set_dev (Some (Device CUDA ∅)) (init_conn false None false)).
    split; [reflexivity|]. split; [reflexivity|]. by exists CUDA.
  - eapply rtc_l; [apply (hw_bind ex_hcf ex_hlw ex_plan)|]. apply rtc_once, (hw_save ex_hcf _ "mtp.1").
  - exists s'. do 4 (split; [done|]).
    assert (Hin : (1, ([[1]; [2]], [0; 1], {["r"]})) ∈ deferred_mtp_row_dumps ex_hlw_saved.1) by (vm_compute; left).
    refine (Hsub (dump_requested [[1]; [2]]) 1 [[1]; [2]] [0; 1] {["r"]} _ (dump_requested_kept _) _ Hin _ _).
    + done.
    + vm_compute; reflexivity.
    + intros event w. exists (sim_next w). split; [simpl; lia|]. simpl. by rewrite -> lookup_insert_eq.
Defined.
