(* ===== verification/HlaLoadProps.v ===== *)
(** * What the loads of the layerwise hybrid connector guarantee

    Rows are submitted ahead of the layers that read them; every row is awaited
    before its layers run, each load exactly once, and the requests whose load
    failed on some row are reported. *)
From S2P Require Import Prelude Runtime RankConsistency PyHash Hashing KVLayout Direct DirectWorker DispatchProps Sim WorkerProps.
From S2P Require Import HlaLayout HlaLayoutProps HlaGroups Hla HlaLayerWise HlaWorkerProps.
Open Scope Z_scope.

Section loads.
  Context {W : Type} `{StoreOps W} `{DeviceOps W} `{SetOrder} `{PyHash}.
  Variable hcf : hlw_conf.
Let cf : conf := hw_cf hcf.
Let L : hla_layout := hw_layout hcf.
Let num_rows : Z := zlen (row_ids L).
  Variable md : UCMConnectorMetadata.

Definition md_ids : list string := (request_meta md).*1.

Definition load_contexts (s : hlw * W) := load_task_contexts (rank_consistency (hw_base s.1)).

(** Relative to the connector [c0] the load phase starts from, the failed requests
    [F] are reported with the blocks they were loading. *)
Definition row_reported (c0 : conn) (F : list (string * RequestDispatchMeta)) (s : hlw * W) : Prop :=
  F ⊆ request_meta md ∧
  invalid_block_ids (hw_base s.1) =
    invalid_block_ids c0 ∪ list_to_set (concat ((λ x, (load_block_ids x.2).2) <$> F)) ∧
  wm_load_failed_reqs (connector_worker_meta (hw_base s.1)) =
    wm_load_failed_reqs (connector_worker_meta c0) ∪ list_to_set F.*1 ∧
  hw_failure_req_ids s.1 = list_to_set F.*1 ∧
  connector_metadata (hw_base s.1) = Some md.

(** The recorded tasks are those of requests of the batch, and they cover the
    outstanding loads. *)
Definition tasks_ok (s : hlw * W) : Prop :=
  NoDup (hw_load_tasks s.1).*1 ∧
  (∀ x, x ∈ dump_list (hw_load_tasks s.1) → x.1 ∈ md_ids) ∧
  (∀ t, is_Some (load_contexts s !! t) → t ∈ (dump_list (hw_load_tasks s.1)).*2).

(** The fields a submission or a wait leaves alone. *)
Definition same_batch (s s' : hlw * W) : Prop :=
  hw_request_data s'.1 = hw_request_data s.1 ∧ hw_need_load s'.1 = hw_need_load s.1 ∧
  submitted_load_rows s'.1 = submitted_load_rows s.1.

Lemma same_batch_trans s1 s2 s3 : same_batch s1 s2 → same_batch s2 s3 → same_batch s1 s3.
Proof. unfold same_batch. intuition congruence. Qed.

Definition row_tasks (row : Z) (s : hlw * W) : dict string task := dict_get_default row [] (hw_load_tasks s.1).

Lemma mark_load_failed_spec c0 F id (s : hlw * W) :
  row_reported c0 F s → id ∈ md_ids →
  ∃ s' d, _mark_load_failed md id s = (Ok tt, s') ∧ row_reported c0 ((id, d) :: F) s' ∧ same_batch s s' ∧
    hw_load_tasks s'.1 = hw_load_tasks s.1 ∧ load_contexts s' = load_contexts s.
Proof.
  intros (HF & Hi & Hf & Hq & Hm) Hid. unfold _mark_load_failed.
  destruct (dict_get id (request_meta md)) as [d|] eqn:Hd; [|by apply dict_get_None in Hd].
  eexists _, d. split; [reflexivity|]. split; [|done]. split_and!; simpl; try done.
  - intros x [->|Hx]%elem_of_cons; [by apply dict_get_Some_elem|auto].
  - rewrite -> Hi, list_to_set_app_L. set_solver.
  - rewrite -> Hf. set_solver.
  - rewrite -> Hq. set_solver.
Qed.

Lemma submit_row_load_spec c0 row e F (s : hlw * W) :
  row_reported c0 F s → tasks_ok s → re_request_id e ∈ md_ids → re_request_id e ∉ (row_tasks row s).*1 →
  ∃ s' F', submit_row_load hcf md row e s = (Ok tt, s') ∧ row_reported c0 F' s' ∧ tasks_ok s' ∧
    same_batch s s' ∧ (hw_load_tasks s'.1).*1 ⊆ row :: (hw_load_tasks s.1).*1 ∧
    (row_tasks row s').*1 ⊆ (row_tasks row s).*1 ++ [re_request_id e].
Proof.
  intros Hrep Hok Hid Hfresh. unfold submit_row_load. mstep. fold cf.
  case_decide as Hfail; [exists s, F; split_and!; try done; set_solver|].
  assert (Herr : ∀ s1 : hlw * W, row_reported c0 F s1 → hw_load_tasks s1.1 = hw_load_tasks s.1 →
    load_contexts s1 = load_contexts s → same_batch s s1 →
    ∃ s' F', _mark_load_failed md (re_request_id e) s1 = (Ok tt, s') ∧ row_reported c0 F' s' ∧ tasks_ok s' ∧
      same_batch s s' ∧ (hw_load_tasks s'.1).*1 ⊆ row :: (hw_load_tasks s.1).*1 ∧
      (row_tasks row s').*1 ⊆ (row_tasks row s).*1 ++ [re_request_id e]).
  { intros s1 Hr1 Ht1 Hc1 Hb1.
    destruct (mark_load_failed_spec c0 F (re_request_id e) s1 Hr1 Hid) as (s2 & d & -> & Hr2 & Hb2 & Ht2 & Hc2).
    exists s2, ((re_request_id e, d) :: F). split; [done|]. split; [done|].
    assert (Ht : hw_load_tasks s2.1 = hw_load_tasks s.1) by congruence.
    assert (Hc : load_contexts s2 = load_contexts s) by congruence.
    unfold tasks_ok, row_tasks. rewrite -> Ht, Hc. split; [done|].
    split; [exact (same_batch_trans _ _ _ Hb1 Hb2)|]. set_solver. }
  unfold try_except, mbind, M_bind. cbn [of_res].
  destruct (extract_block_addrs_for_row (hw_layout hcf) (re_vllm_block_ids e) row) as [ptrs|x]; [|by apply Herr].
  unfold of_res. unfold on_hw at 1, on_rc at 1, lift. cbn [fst snd].
  destruct (submit_load_spec (store cf) [(re_request_id e, re_ucm_block_ids e)] (re_store_block_ids e)
    (replicate (length (re_store_block_ids e)) row) ptrs (rank_consistency (hw_base s.1), s.2))
    as (r & t & Hrun & _ & Hl).
  simpl. simpl in Hrun. rewrite -> Hrun. destruct r as [tk|x]; simpl in *.
  2:{ apply Herr; [exact Hrep|done| |done]. unfold load_contexts. simpl. by rewrite -> Hl. }
  destruct Hok as (Hnd & Hids & Hctx). eexists _, F. split; [reflexivity|]. split; [exact Hrep|].
  assert (Hset : dict_set (re_request_id e) tk (row_tasks row s) = row_tasks row s ++ [(re_request_id e, tk)])
    by (by apply dict_set_fresh).
  unfold tasks_ok, row_tasks in *. cbn [fst snd hw_load_tasks set_hw_load set_hw_base]. rewrite -> Hset.
  split; [split_and!|split; [done|split]].
  - by apply dict_set_NoDup.
  - intros x [->|Hx]%dump_list_append; [done|by apply Hids|done].
  - destruct Hl as [ctx Hl]. unfold load_contexts in *. simpl. rewrite -> Hl. intros t' Ht'.
    apply list_elem_of_fmap. destruct (decide (t' = tk)) as [->|Hne].
    + exists (re_request_id e, tk). split; [done|]. apply dump_list_append; [done|by left].
    + rewrite -> lookup_insert_ne in Ht' by done. apply Hctx, list_elem_of_fmap in Ht' as (x & -> & Hx).
      exists x. split; [done|]. apply dump_list_append; [done|by right].
  - intros k Hk. apply dict_set_keys in Hk. set_solver.
  - unfold dict_get_default. rewrite -> dict_get_set_eq. cbn [default from_option id].
    rewrite -> fmap_app. done.
Qed.

Lemma submit_rows_loop c0 row entries : ∀ F (s : hlw * W),
  row_reported c0 F s → tasks_ok s → NoDup (re_request_id <$> entries) →
  (re_request_id <$> entries) ⊆ md_ids → (∀ k, k ∈ (row_tasks row s).*1 → k ∉ re_request_id <$> entries) →
  ∃ s' F', for_each entries (submit_row_load hcf md row) s = (Ok tt, s') ∧ row_reported c0 F' s' ∧ tasks_ok s' ∧
    same_batch s s' ∧ (hw_load_tasks s'.1).*1 ⊆ row :: (hw_load_tasks s.1).*1.
Proof.
  induction entries as [|e entries IH]; intros F s Hrep Hok Hnd Hsub Hdis.
  { exists s, F. split; [reflexivity|]. split_and!; try done. set_solver. }
  rewrite -> fmap_cons, NoDup_cons in Hnd. destruct Hnd as [He Hnd].
  destruct (submit_row_load_spec c0 row e F s Hrep Hok) as (s1 & F1 & Hrun & Hr1 & Ho1 & Hb1 & Hk1 & Hrow1).
  { apply Hsub. by left. }
  { intros Hin. apply (Hdis _ Hin). by left. }
  cbn [for_each]. mrun Hrun.
  destruct (IH F1 s1 Hr1 Ho1 Hnd) as (s' & F' & Hrun' & Hr' & Ho' & Hb' & Hk').
  - intros k Hk. apply Hsub. by right.
  - intros k Hk. apply Hrow1, elem_of_app in Hk as [Hk|Hk].
    + intros Hin. apply (Hdis k Hk). by right.
    + by apply list_elem_of_singleton in Hk as ->.
  - exists s', F'. split_and!; try done; [exact (same_batch_trans _ _ _ Hb1 Hb')|set_solver].
Qed.

(** *** Rows *)

(** Rows below [lo] have been awaited, those below [hi] submitted. *)
Record rows_at (c0 : conn) (lo hi : Z) (s : hlw * W) : Prop := {
  ra_reported : ∃ F, row_reported c0 F s;
  ra_tasks : tasks_ok s;
  ra_rows : ∀ row, row ∈ (hw_load_tasks s.1).*1 → lo ≤ row < hi;
  ra_submitted : ∀ row, 0 ≤ row → row ∈ submitted_load_rows s.1 ↔ row < hi;
  ra_need : hw_need_load s.1 = true;
  ra_entries : NoDup (re_request_id <$> hw_request_data s.1) ∧ (re_request_id <$> hw_request_data s.1) ⊆ md_ids;
}.

Lemma submit_row_spec c0 lo hi (s : hlw * W) :
  0 ≤ hi → lo ≤ hi → rows_at c0 lo hi s →
  ∃ s', _submit_request_load_tasks_for_row_once hcf md hi s = (Ok tt, s') ∧ rows_at c0 lo (hi + 1) s'.
Proof.
  intros Hhi Hlo [ [F Hrep] Hok Hrows Hsub Hneed [Hnd Hmd] ].
  unfold _submit_request_load_tasks_for_row_once. mstep.
  rewrite -> decide_False by (rewrite -> Hsub by done; lia).
  unfold _submit_request_load_tasks_for_row. mstep.
  assert (Hnone : row_tasks hi s = []).
  { unfold row_tasks, dict_get_default. destruct (dict_get hi (hw_load_tasks s.1)) as [l|] eqn:E; [|done].
    apply dict_get_Some_elem in E. assert (Hin : hi ∈ (hw_load_tasks s.1).*1) by (apply list_elem_of_fmap; by exists (hi, l)).
    apply Hrows in Hin. lia. }
  destruct (submit_rows_loop c0 hi (hw_request_data s.1) F s Hrep Hok Hnd Hmd)
    as (s1 & F1 & Hrun & Hr1 & Ho1 & (Hb1 & Hb2 & Hb3) & Hk1).
  { rewrite -> Hnone. by intros k ?%elem_of_nil. }
  mrun Hrun. eexists. split; [reflexivity|]. split; simpl.
  - exists F1. exact Hr1.
  - exact Ho1.
  - intros row Hrow. apply Hk1, elem_of_cons in Hrow as [->|Hrow]; [lia|]. apply Hrows in Hrow. lia.
  - intros row Hrow. rewrite -> Hb3, elem_of_union, elem_of_singleton, Hsub by done. lia.
  - congruence.
  - rewrite -> Hb1. done.
Qed.

Lemma submit_rows_spec c0 lo (n : nat) : ∀ hi (s : hlw * W),
  0 ≤ hi → lo ≤ hi → rows_at c0 lo hi s →
  ∃ s', for_each (seqZ hi (Z.of_nat n)) (_submit_request_load_tasks_for_row_once hcf md) s = (Ok tt, s') ∧
    rows_at c0 lo (hi + Z.of_nat n) s'.
Proof.
  induction n as [|n IH]; intros hi s Hhi Hlo Hat.
  { exists s. rewrite -> seqZ_nil by lia. split; [done|]. by rewrite -> Z.add_0_r. }
  rewrite -> Nat2Z.inj_succ, seqZ_cons, Z.pred_succ by lia. cbn [for_each].
  destruct (submit_row_spec c0 lo hi s Hhi Hlo Hat) as (s1 & Hrun & Hat1). mrun Hrun.
  destruct (IH (Z.succ hi) s1) as (s' & Hrun' & Hat'); [lia|lia|exact Hat1|].
  exists s'. split; [done|]. by replace (hi + Z.succ (Z.of_nat n)) with (Z.succ hi + Z.of_nat n) by lia.
Qed.

(** Rows already submitted are skipped. *)
Lemma submit_submitted_spec c0 lo hi rows (s : hlw * W) :
  rows_at c0 lo hi s → (∀ row, row ∈ rows → 0 ≤ row < hi) →
  for_each rows (_submit_request_load_tasks_for_row_once hcf md) s = (Ok tt, s).
Proof.
  intros Hat. induction rows as [|row rows IH]; intros Hall; [done|]. cbn [for_each].
  assert (Hrun : _submit_request_load_tasks_for_row_once hcf md row s = (Ok tt, s)).
  { unfold _submit_request_load_tasks_for_row_once. mstep. rewrite -> decide_True; [done|].
    destruct (Hall row) as [? ?]; [by left|]. by apply (ra_submitted _ _ _ _ Hat). }
  mrun Hrun. apply IH. intros r Hr. apply Hall. by right.
Qed.

(** Submitting rows up to [b], of which some are already. *)
Lemma submit_range_spec c0 lo hi a b (s : hlw * W) :
  0 ≤ a ≤ hi → lo ≤ hi → rows_at c0 lo hi s →
  ∃ s', for_each (py_range a b) (_submit_request_load_tasks_for_row_once hcf md) s = (Ok tt, s') ∧
    rows_at c0 lo (Z.max hi b) s'.
Proof.
  intros Ha Hlo Hat. unfold py_range. destruct (decide (b ≤ hi)) as [Hb|Hb].
  - exists s. rewrite -> Z.max_l by lia. split; [|done]. apply (submit_submitted_spec c0 lo hi); [done|].
    intros row Hrow%elem_of_seqZ. lia.
  - rewrite -> Z.max_r by lia. replace (b - a) with ((hi - a) + Z.of_nat (Z.to_nat (b - hi))) by lia.
    rewrite -> seqZ_app by lia. replace (a + (hi - a)) with hi by lia.
    destruct (submit_rows_spec c0 lo (Z.to_nat (b - hi)) hi s) as (s' & Hrun & Hat'); [lia|lia|done|].
    replace (hi + Z.of_nat (Z.to_nat (b - hi))) with b in Hat' by lia. exists s'. split; [|done].
    rewrite -> for_each_app. erewrite M_bind_Ok; [exact Hrun|]. apply (submit_submitted_spec c0 lo hi); [done|].
    intros row Hrow%elem_of_seqZ. lia.
Qed.

(** *** Waiting *)

Lemma wait_row_task_spec c0 F x (s : hlw * W) :
  row_reported c0 F s → x.1 ∈ md_ids →
  ∃ s' F', wait_row_task md x s = (Ok tt, s') ∧ row_reported c0 F' s' ∧ same_batch s s' ∧
    hw_load_tasks s'.1 = hw_load_tasks s.1 ∧ load_contexts s' = delete x.2 (load_contexts s).
Proof.
  intros Hrep Hx. unfold wait_row_task, try_except. unfold on_hw at 1, on_rc at 1, lift. cbn [fst snd].
  destruct (wait_load_spec x.2 (rank_consistency (hw_base s.1), s.2)) as (r & t & -> & _ & Hl). simpl in Hl.
  destruct r as [[]|e].
  - eexists _, F. split; [reflexivity|]. split; [exact Hrep|]. split; [done|]. split; [done|exact Hl].
  - destruct (mark_load_failed_spec c0 F x.1 (set_hw_base (set_rc t.1 (hw_base s.1)) s.1, t.2) Hrep Hx)
      as (s2 & d & Hrun & Hr2 & Hb2 & Ht2 & Hc2).
    exists s2, ((x.1, d) :: F). split; [exact Hrun|]. split; [done|]. split; [exact Hb2|].
    split; [exact Ht2|]. rewrite -> Hc2. exact Hl.
Qed.

Lemma wait_row_tasks_loop c0 tasks : ∀ F (s : hlw * W),
  row_reported c0 F s → (∀ x, x ∈ tasks → x.1 ∈ md_ids) →
  ∃ s' F', for_each tasks (wait_row_task md) s = (Ok tt, s') ∧ row_reported c0 F' s' ∧ same_batch s s' ∧
    hw_load_tasks s'.1 = hw_load_tasks s.1 ∧
    ∀ t, is_Some (load_contexts s' !! t) → is_Some (load_contexts s !! t) ∧ t ∉ tasks.*2.
Proof.
  induction tasks as [|x tasks IH]; intros F s Hrep Hall.
  { exists s, F. split; [reflexivity|]. split_and!; try done. intros t Ht. split; [done|]. by intros ?%elem_of_nil. }
  destruct (wait_row_task_spec c0 F x s Hrep) as (s1 & F1 & Hrun & Hr1 & Hb1 & Ht1 & Hc1); [apply Hall; by left|].
  cbn [for_each]. mrun Hrun.
  destruct (IH F1 s1 Hr1) as (s' & F' & Hrun' & Hr' & Hb' & Ht' & Hc').
  { intros y Hy. apply Hall. by right. }
  exists s', F'. split; [done|]. split; [done|]. split; [exact (same_batch_trans _ _ _ Hb1 Hb')|].
  split; [congruence|]. intros t Ht. apply Hc' in Ht as [Ht Hnot]. rewrite -> Hc1 in Ht.
  apply lookup_delete_is_Some in Ht as [Hne Ht]. split; [done|].
  rewrite -> fmap_cons, not_elem_of_cons. split; [congruence|done].
Qed.

(** Waiting for row [lo] leaves only later rows outstanding. *)
Lemma wait_row_spec c0 lo hi (s : hlw * W) :
  lo < hi → rows_at c0 lo hi s →
  ∃ n s', _wait_row_load md lo s = (Ok n, s') ∧ rows_at c0 (lo + 1) hi s'.
Proof.
  intros Hlt [ [F Hrep] (Hnd & Hids & Hctx) Hrows Hsub Hneed Hent ].
  unfold _wait_row_load. mstep. mstep. fold (row_tasks lo s).
  set (s1 := (set_hw_load (dict_del lo (hw_load_tasks s.1)) s.1, s.2)).
  destruct (wait_row_tasks_loop c0 (row_tasks lo s) F s1) as (s2 & F2 & Hrun & Hr2 & (Hb1 & Hb2 & Hb3) & Ht2 & Hc2).
  { exact Hrep. }
  { intros x Hx. apply Hids, elem_of_dump_list. unfold row_tasks, dict_get_default in Hx.
    destruct (dict_get lo (hw_load_tasks s.1)) as [l|] eqn:E; [|by apply elem_of_nil in Hx].
    exists lo, l. split; [by apply dict_get_Some_elem|done]. }
  mrun Hrun. eexists _, s2. split; [reflexivity|]. split.
  - by exists F2.
  - unfold tasks_ok. rewrite -> Ht2. simpl. split_and!.
    + by apply dict_del_NoDup.
    + intros x Hx. apply Hids. apply elem_of_dump_list in Hx as (k & l & Hin & Hx).
      apply elem_of_dump_list. exists k, l. split; [|done]. unfold dict_del in Hin.
      by apply list_elem_of_filter in Hin as [_ ?].
    + intros t Ht. apply Hc2 in Ht as [Ht Hnot]. apply Hctx in Ht. apply list_elem_of_fmap in Ht as (x & -> & Hx).
      apply list_elem_of_fmap. exists x. split; [done|].
      apply (dump_list_split lo) in Hx as [Hx|Hx]; [|done|done].
      exfalso. apply Hnot, list_elem_of_fmap. by exists x.
  - intros row Hrow. rewrite -> Ht2 in Hrow. simpl in Hrow. apply dict_del_keys in Hrow as [Hne Hrow].
    apply Hrows in Hrow. lia.
  - intros row Hrow. rewrite -> Hb3. by apply Hsub.
  - by rewrite -> Hb2.
  - by rewrite -> Hb1.
Qed.

(** The end of row [row]: the next row is awaited and later ones are submitted. *)
Lemma wait_for_layer_rows c0 row hi name now (s : hlw * W) :
  0 ≤ row → 0 ≤ load_prefetch_rows hcf → row + 1 ≤ hi ≤ num_rows → dict_get name (layer_name_to_row L) = Some row →
  rows_at c0 (row + 1) hi s →
  ∃ s' hi', wait_for_layer_load hcf name now s = (Ok tt, s') ∧ hi ≤ hi' ≤ num_rows ∧
    rows_at c0 (Z.min (row + 2) num_rows) hi' s' ∧ Z.min (row + 2) num_rows ≤ hi'.
Proof.
  intros Hrow Hpre Hhi Hname Hat. unfold wait_for_layer_load. fold L num_rows.
  pose proof (ra_reported _ _ _ _ Hat) as [F (_ & _ & _ & _ & Hmd)]. pose proof (ra_need _ _ _ _ Hat) as Hneed.
  mstep. mstep. rewrite -> Hmd, Hneed, Hname. cbn [negb].
  destruct (Z.leb_spec num_rows (row + 1)) as [Hle|Hlt].
  { exists s, hi. split; [reflexivity|]. split; [lia|]. rewrite -> Z.min_r by lia.
    replace (row + 1) with num_rows in Hat by lia. split; [done|lia]. }
  destruct (submit_range_spec c0 (row + 1) hi (row + 1) (row + 2) s) as (s1 & Hrun1 & Hat1); [lia|lia|done|].
  assert (Hr1 : _submit_request_load_tasks_for_row_once hcf md (row + 1) s = (Ok tt, s1)).
  { unfold py_range in Hrun1. replace (row + 2 - (row + 1)) with 1 in Hrun1 by lia.
    rewrite -> (seqZ_cons (row + 1) 1), seqZ_nil in Hrun1 by lia. cbn [for_each] in Hrun1.
    unfold mbind, M_bind in Hrun1. destruct (_submit_request_load_tasks_for_row_once hcf md (row + 1) s) as [[[]|e] t];
      [exact Hrun1|done]. }
  mrun Hr1.
  destruct (wait_row_spec c0 (row + 1) (Z.max hi (row + 2)) s1) as (n & s2 & Hrun2 & Hat2); [lia|done|].
  mrun Hrun2. replace (row + 1 + 1) with (row + 2) in * by lia.
  destruct (submit_range_spec c0 (row + 2) (Z.max hi (row + 2)) (row + 2)
    (Z.min (row + 2 + load_prefetch_rows hcf) num_rows) s2) as (s3 & Hrun3 & Hat3); [lia|lia|done|].
  mrun Hrun3. mstep. eexists _, _. split; [reflexivity|]. rewrite -> (Z.min_l (row + 2)) by lia.
  split; [|split; [destruct Hat3 as [Hr3 Ho3 Hrows3 Hs3 Hn3 He3]; split; [exact Hr3|exact Ho3|exact Hrows3|exact Hs3|exact Hn3|exact He3]|lia]].
  lia.
Qed.

(** *** A forward pass *)

Lemma collect_loop reqs : ∀ s : hlw * W,
  ∃ s', for_each reqs (collect_row_load hcf) s = (Ok tt, s') ∧
    hw_base s'.1 = hw_base s.1 ∧ hw_load_tasks s'.1 = hw_load_tasks s.1 ∧
    hw_failure_req_ids s'.1 = hw_failure_req_ids s.1 ∧ submitted_load_rows s'.1 = submitted_load_rows s.1 ∧
    (∃ new, hw_request_data s'.1 = hw_request_data s.1 ++ new ∧ (re_request_id <$> new) `sublist_of` reqs.*1).
Proof.
  induction reqs as [|x reqs IH]; intros s.
  { exists s. split; [done|]. split_and!; try done. exists []. by rewrite app_nil_r. }
  cbn [for_each]. rewrite -> fmap_cons.
  assert (Hskip : ∃ s', for_each reqs (collect_row_load hcf) s = (Ok tt, s') ∧
    hw_base s'.1 = hw_base s.1 ∧ hw_load_tasks s'.1 = hw_load_tasks s.1 ∧
    hw_failure_req_ids s'.1 = hw_failure_req_ids s.1 ∧ submitted_load_rows s'.1 = submitted_load_rows s.1 ∧
    (∃ new, hw_request_data s'.1 = hw_request_data s.1 ++ new ∧ (re_request_id <$> new) `sublist_of` x.1 :: reqs.*1)).
  { destruct (IH s) as (s' & Hrun & H1' & H2' & H3' & H4' & new & Hd & Hs). exists s'. split; [done|].
    split_and!; try done. exists new. split; [done|]. by apply sublist_cons. }
  assert (Hcase : collect_row_load hcf x s = (Ok tt, s) ∨ ∃ e, re_request_id e = x.1 ∧
    collect_row_load hcf x s = (Ok tt, (set_hw_need true (set_hw_requests (hw_request_data s.1 ++ [e]) s.1), s.2))).
  { unfold collect_row_load. destruct ((load_block_ids x.2).1) as [|b0 bs0]; [by left|].
    destruct (drop_nulls _ _) as [[|u us] vs]; [by left|right]. eexists. split; [|reflexivity]. done. }
  destruct Hcase as [Hc|(e & He & Hc)]; [mrun Hc; exact Hskip|]. mrun Hc.
  match goal with |- context [for_each reqs _ ?s1] => destruct (IH s1) as (s' & Hrun & H1' & H2' & H3' & H4' & new & Hd & Hs) end.
  exists s'. split; [exact Hrun|]. split_and!; try done. simpl in Hd. rewrite <- app_assoc in Hd.
  eexists (_ :: new). split; [exact Hd|]. simpl. rewrite -> He. by apply sublist_skip.
Qed.

(** Before the layers of row [j] run, its loads and those of earlier rows are over. *)
Definition pass_at (c0 : conn) (j : Z) (s : hlw * W) : Prop :=
  if hw_need_load s.1 then ∃ hi, rows_at c0 (Z.min (j + 1) num_rows) hi s ∧ Z.min (j + 1) num_rows ≤ hi ≤ num_rows
  else (∃ F, row_reported c0 F s) ∧ load_contexts s = ∅.

Lemma start_load_rows now (s : hlw * W) :
  connector_metadata (hw_base s.1) = Some md → NoDup md_ids → load_contexts s = ∅ → 0 ≤ load_prefetch_rows hcf →
  ∃ s', start_load_kv hcf now s = (Ok tt, s') ∧ pass_at (hw_base s.1) 0 s'.
Proof.
  intros Hmd Hnd Hctx Hpre. unfold start_load_kv. fold L num_rows. mstep.
  set (s1 := (set_hw_batch (Some now) (set_hw_prev None s.1), s.2)).
  assert (Hget : on_hw (_get_connector_metadata (W := W)) s1 = (Ok md, s1)).
  { unfold on_hw, lift, _get_connector_metadata, getc, mbind, M_bind, gets. simpl. rewrite -> Hmd. by destruct s. }
  mrun Hget. mstep.
  match goal with |- ∃ s', (for_each _ _ ≫= _) ?s2 = _ ∧ _ =>
    destruct (collect_loop (request_meta md) s2) as (s3 & Hrun & Hb & Ht & Hf & Hsub & new & Hnew & Hsl) end.
  mrun Hrun. mstep. simpl in Hb, Ht, Hf, Hsub, Hnew.
  assert (Hctx3 : load_contexts s3 = ∅) by (unfold load_contexts in *; by rewrite -> Hb).
  assert (Hrep : row_reported (hw_base s.1) [] s3).
  { unfold row_reported. rewrite -> Hb, Hf. simpl. split_and!; try done; try set_solver. }
  pose proof (zlen_nonneg (row_ids L)) as Hn. fold num_rows in Hn.
  destruct (hw_need_load s3.1) eqn:Hneed; cbn [andb].
  2:{ exists s3. split; [reflexivity|]. unfold pass_at. rewrite -> Hneed. split; [by exists []|done]. }
  assert (Hat : rows_at (hw_base s.1) 0 0 s3).
  { split.
    - by exists [].
    - unfold tasks_ok. rewrite -> Ht, Hctx3. split; [constructor|]. split; [by intros x ?%elem_of_nil|].
      intros t. rewrite -> lookup_empty. by intros [].
    - rewrite -> Ht. by intros row ?%elem_of_nil.
    - rewrite -> Hsub. intros row Hrow. split; [by intros ?%elem_of_empty|lia].
    - done.
    - rewrite -> Hnew. split; [by eapply sublist_NoDup|]. intros k Hk. by eapply elem_of_submseteq, sublist_submseteq. }
  destruct (Z.eqb_spec num_rows 0) as [Hz|Hz]; cbn [negb].
  { exists s3. split; [reflexivity|]. unfold pass_at. rewrite -> Hneed, Hz. exists 0. split; [|lia]. done. }
  destruct (submit_range_spec (hw_base s.1) 0 0 0 (Z.min (load_prefetch_rows hcf + 1) num_rows) s3)
    as (s4 & Hrun4 & Hat4); [lia|lia|done|]. mrun Hrun4.
  destruct (wait_row_spec (hw_base s.1) 0 (Z.max 0 (Z.min (load_prefetch_rows hcf + 1) num_rows)) s4)
    as (n & s5 & Hrun5 & Hat5); [lia|done|].
  mrun Hrun5. exists s5. split; [reflexivity|]. unfold pass_at.
  rewrite -> (ra_need _ _ _ _ Hat5), Z.min_l by lia. eexists. split; [exact Hat5|lia].
Qed.

Lemma pass_step c0 j name now (s : hlw * W) :
  0 ≤ j < num_rows → 0 ≤ load_prefetch_rows hcf → dict_get name (layer_name_to_row L) = Some j →
  pass_at c0 j s → ∃ s', wait_for_layer_load hcf name now s = (Ok tt, s') ∧ pass_at c0 (j + 1) s'.
Proof.
  intros Hj Hpre Hname Hat. unfold pass_at in Hat. destruct (hw_need_load s.1) eqn:Hneed.
  - destruct Hat as (hi & Hat & Hhi). rewrite -> Z.min_l in Hat, Hhi by lia.
    destruct (wait_for_layer_rows c0 j hi name now s) as (s' & hi' & Hrun & Hhi' & Hat' & Hle); [lia..|done|done|].
    exists s'. split; [done|]. unfold pass_at. rewrite -> (ra_need _ _ _ _ Hat').
    exists hi'. replace (j + 1 + 1) with (j + 2) by lia. split; [done|lia].
  - exists s. split; [|unfold pass_at; by rewrite -> Hneed].
    destruct Hat as [[F (_ & _ & _ & _ & Hmd)] _]. unfold wait_for_layer_load. mstep. mstep. by rewrite -> Hmd, Hneed.
Qed.

Lemma pass_loop c0 now (n : nat) : ∀ j names (s : hlw * W),
  0 ≤ j → j + Z.of_nat n ≤ num_rows → 0 ≤ load_prefetch_rows hcf →
  Forall2 (λ name row, dict_get name (layer_name_to_row L) = Some row) names (seqZ j (Z.of_nat n)) →
  pass_at c0 j s →
  ∃ s', for_each names (λ name, wait_for_layer_load hcf name now) s = (Ok tt, s') ∧ pass_at c0 (j + Z.of_nat n) s'.
Proof.
  induction n as [|n IH]; intros j names s Hj Hn Hpre Hnames Hat.
  - rewrite -> seqZ_nil in Hnames by lia. apply Forall2_nil_inv_r in Hnames as ->.
    exists s. split; [done|]. by rewrite -> Z.add_0_r.
  - rewrite -> Nat2Z.inj_succ, seqZ_cons, Z.pred_succ in Hnames by lia.
    apply Forall2_cons_inv_r in Hnames as (name & names' & Hname & Hnames & ->). cbn [for_each].
    destruct (pass_step c0 j name now s) as (s1 & Hrun & Hat1); [lia|done..|]. mrun Hrun.
    destruct (IH (Z.succ j) names' s1) as (s' & Hrun' & Hat'); [lia|lia|done|done|done|].
    exists s'. split; [done|]. by replace (j + Z.of_nat (S n)) with (Z.succ j + Z.of_nat n) by lia.
Qed.

(** The loads outstanding at a point of the pass. *)
Lemma pass_outstanding c0 j (s : hlw * W) :
  0 ≤ j → pass_at c0 j s →
  (∃ F, row_reported c0 F s) ∧
  (∀ t, is_Some (load_contexts s !! t) →
     ∃ row tasks, (row, tasks) ∈ hw_load_tasks s.1 ∧ t ∈ tasks.*2 ∧ j < row < num_rows) ∧
  (num_rows ≤ j + 1 → load_contexts s = ∅).
Proof.
  intros Hj Hat. unfold pass_at in Hat. destruct (hw_need_load s.1).
  2:{ destruct Hat as [Hrep Hc]. split; [done|]. split; [|done]. rewrite -> Hc. intros t. rewrite -> lookup_empty. by intros []. }
  destruct Hat as (hi & [Hrep (_ & _ & Hctx) Hrows _ _ _] & Hhi). split; [done|].
  assert (Hout : ∀ t, is_Some (load_contexts s !! t) →
    ∃ row tasks, (row, tasks) ∈ hw_load_tasks s.1 ∧ t ∈ tasks.*2 ∧ Z.min (j + 1) num_rows ≤ row < hi).
  { intros t Ht. apply Hctx, list_elem_of_fmap in Ht as (x & -> & Hx).
    apply elem_of_dump_list in Hx as (row & tasks & Hin & Hx). exists row, tasks. split; [done|].
    split; [apply list_elem_of_fmap; by exists x|]. apply Hrows, list_elem_of_fmap. by exists (row, tasks). }
  split.
  - intros t Ht. destruct (Hout t Ht) as (row & tasks & Hin & Htk & Hb). exists row, tasks. split_and!; try done; lia.
  - intros Hle. apply map_eq. intros t. rewrite -> lookup_empty.
    destruct (load_contexts s !! t) as [x|] eqn:E; [|done].
    destruct (Hout t) as (row & tasks & _ & _ & Hb); [by eexists|]. lia.
Qed.

End loads.

(** ** Property *)


(** Two requests over two rows, one of which misses a block of the store. *)
Definition ex_hlw_loading : hlw * sim :=
  (init_hlw (set_metadata (Some (ConnMetadata [("a", DispatchMeta ([[1]], [1]) ([], []));
       ("b", DispatchMeta ([[2]], [2]) ([], []))] ∅))
     (set_dev (Some (Device CUDA ∅)) (init_conn false None false))), sim_init [(1, [1])] []).


