(* ===== verification/LayerWise.v ===== *)
(** * The layerwise connector

    [UCMLayerWiseConnector] of [ucm_connector.py], which extends the direct
    connector so that transfers overlap the forward pass: the loads of a layer
    are awaited just before that layer runs and the loads of the next layer are
    submitted then; the dumps of a layer are submitted right after it ran.  The
    dumps of multi-token-prediction layers, which may run several times in one
    batch, are deferred to the end of the batch.  Clock readings are arguments;
    the accumulated blocking time, which only feeds a metric, is not kept. *)
From S2P Require Import Prelude Runtime RankConsistency PyHash Hashing KVLayout Direct DirectWorker.
Open Scope Z_scope.

(** The attributes fixed after [register_kv_caches]: [lw_layer_ids] is
    [sorted(set(layer_name_to_id.values()))]. *)
Record lw_conf := LwConf {
  lw_cf : conf;
  lw_layer_ids : list Z;
  mtp_layer_start : option Z;
  mtp_layer_end : option Z;
}.

(** One entry of [request_data]: request, block ids, store block ids, and the
    address matrix of every layer. *)
Record load_entry := LoadEntry {
  le_request_id : string;
  le_ucm_block_ids : list bytes;
  le_store_block_ids : list bytes;
  le_total_ptrs : list (list (list Z));
}.

(** A deferred dump: store block ids, vLLM block ids, requests. *)
Definition deferred_dump : Type := list bytes * list Z * gset string.

Record lwc := Lwc {
  base : conn;
  load_tasks : dict Z (dict string task);
  request_data : list load_entry;
  failure_req_ids : gset string;
  need_load : bool;
  is_save : bool;
  dump_total_ptrs : option (list (list (list Z)));
  deferred_mtp_dumps : dict Z deferred_dump;
  prev_wait_end : option Z;
  batch_start : option Z;
}.

(** The state after [__init__]. *)
Definition init_lwc (c : conn) : lwc := Lwc c [] [] ∅ false false None [] None None.

(** [_init_mtp_layerwise_dump_state]: the draft method and [n_predict], the
    latter [None] when it is absent or not a number. *)
Definition _init_mtp_layerwise_dump_state (speculative : option (option string * option Z)) :
    bool * Z :=
  match speculative with
  | None => (false, 0)
  | Some (mtp_method, n_predict) =>
      let is_mtp := match mtp_method with
                    | None => false
                    | Some m =>
                        String.eqb m "mtp" ||
                        ((4 <=? String.length m)%nat &&
                         String.eqb (String.substring (String.length m - 4) 4 m) "_mtp")
                    end in
      if negb is_mtp then (false, 0)
      else (true, match n_predict with Some n => Z.max n 0 | None => 0 end)
  end.

(** [_refresh_mtp_layer_range] *)
Definition _refresh_mtp_layer_range (is_mtp : bool) (num_mtp_layers num_hidden_layers : Z) :
    option Z * option Z :=
  if negb is_mtp || (num_mtp_layers <=? 0) then (None, None)
  else if num_hidden_layers <=? 0 then (None, None)
  else (Some num_hidden_layers, Some (num_hidden_layers + num_mtp_layers)).

(** [register_kv_caches]: the layer ids and the MTP range of a layout. *)
Definition register_layers (cf : conf) (is_mtp : bool) (num_mtp_layers : Z) : lw_conf :=
  let L := kv_cache_layout cf in
  let '(first, last) := _refresh_mtp_layer_range is_mtp num_mtp_layers (num_hidden_layers L) in
  LwConf cf (merge_sort Z.le (remove_dups (layer_name_to_id L).*2)) first last.

Section layerwise.
  Context {W : Type} `{StoreOps W} `{DeviceOps W} `{SetOrder} `{PyHash}.
  Variable lcf : lw_conf.
Let cf : conf := lw_cf lcf.

Notation L := (M (lwc * W)).

Definition _is_mtp_layer (layer_id : Z) : bool :=
  match mtp_layer_start lcf, mtp_layer_end lcf with
  | Some first, Some last => (first <=? layer_id) && (layer_id <? last)
  | _, _ => false
  end.

(** [self.first_layer_id], the smallest layer id. *)
Definition first_layer : res Z := py_index (lw_layer_ids lcf) 0.

(** A method inherited from the direct connector. *)
Definition on_base {A} (m : M (conn * W) A) : L A :=
  lift (λ s, (base s.1, s.2))
       (λ t s, (Lwc t.1 (load_tasks s.1) (request_data s.1) (failure_req_ids s.1) (need_load s.1)
                  (is_save s.1) (dump_total_ptrs s.1) (deferred_mtp_dumps s.1) (prev_wait_end s.1)
                  (batch_start s.1), t.2)) m.

Definition updl (f : lwc → lwc) : L unit := modify (λ s, (f s.1, s.2)).
Definition getl {A} (f : lwc → A) : L A := gets (λ s, f s.1).

Definition set_load_tasks x c := Lwc (base c) x (request_data c) (failure_req_ids c) (need_load c)
  (is_save c) (dump_total_ptrs c) (deferred_mtp_dumps c) (prev_wait_end c) (batch_start c).
Definition set_failure x c := Lwc (base c) (load_tasks c) (request_data c) x (need_load c)
  (is_save c) (dump_total_ptrs c) (deferred_mtp_dumps c) (prev_wait_end c) (batch_start c).
Definition set_is_save x c := Lwc (base c) (load_tasks c) (request_data c) (failure_req_ids c)
  (need_load c) x (dump_total_ptrs c) (deferred_mtp_dumps c) (prev_wait_end c) (batch_start c).
Definition set_ptrs x c := Lwc (base c) (load_tasks c) (request_data c) (failure_req_ids c)
  (need_load c) (is_save c) x (deferred_mtp_dumps c) (prev_wait_end c) (batch_start c).
Definition set_deferred x c := Lwc (base c) (load_tasks c) (request_data c) (failure_req_ids c)
  (need_load c) (is_save c) (dump_total_ptrs c) x (prev_wait_end c) (batch_start c).
Definition set_prev_wait_end x c := Lwc (base c) (load_tasks c) (request_data c) (failure_req_ids c)
  (need_load c) (is_save c) (dump_total_ptrs c) (deferred_mtp_dumps c) x (batch_start c).
Definition set_batch_start x c := Lwc (base c) (load_tasks c) (request_data c) (failure_req_ids c)
  (need_load c) (is_save c) (dump_total_ptrs c) (deferred_mtp_dumps c) (prev_wait_end c) x.

(** The address matrices of every layer. *)
Definition layer_addrs (vllm_block_ids : list Z) : res (list (list (list Z))) :=
  a ← extract_block_addrs (kv_cache_layout cf) vllm_block_ids true;
  match a with Addr3 m => Ok m | Addr2 m => Ok [m] end.

Definition lw_rank0 : bool := tp_rank cf mod tp_size cf =? 0.

(** ** Loads *)

(** The failure of one request on one layer. *)
Definition load_failed (metric_name : string) (d : RequestDispatchMeta) (req_id : string) : L unit :=
  on_base (_record_load_error metric_name (failed_blocks d)) ;;
  updl (λ c, set_failure ({[req_id]} ∪ failure_req_ids c) c) ;;
  on_base (mark_failed req_id).

(** One request of [_submit_request_load_tasks_for_layer]. *)
Definition submit_layer_load (layer_id local_row : Z) (metadata : UCMConnectorMetadata)
    (e : load_entry) : L unit :=
  failed ← getl failure_req_ids;
  if decide (le_request_id e ∈ failed) then mret tt else
  try_except
    (layer_ptrs ← of_res (py_index (le_total_ptrs e) local_row);
     t ← on_base (on_rc (submit_load (store cf) [(le_request_id e, le_ucm_block_ids e)]
           (le_store_block_ids e) (replicate (length (le_ucm_block_ids e)) layer_id) layer_ptrs));
     updl (λ c, set_load_tasks (dict_set layer_id
       (dict_set (le_request_id e) t (dict_get_default layer_id [] (load_tasks c))) (load_tasks c)) c))
    (λ _,
     d ← of_res (dict_index (le_request_id e) (request_meta metadata));
     load_failed "connector_load_submit_errors_total" d (le_request_id e)).

Definition _submit_request_load_tasks_for_layer (layer_id local_row : Z)
    (metadata : UCMConnectorMetadata) : L unit :=
  entries ← getl request_data;
  for_each entries (submit_layer_load layer_id local_row metadata).

(** One request of the collection loop of [start_load_kv]. *)
Definition collect_load (x : string * RequestDispatchMeta) : L unit :=
  match (load_block_ids x.2).1 with
  | [] => mret tt
  | ucm_block_ids =>
      updl (λ c, Lwc (base c) (load_tasks c) (request_data c) (failure_req_ids c) true (is_save c)
        (dump_total_ptrs c) (deferred_mtp_dumps c) (prev_wait_end c) (batch_start c)) ;;
      total_ptrs ← of_res (layer_addrs (load_block_ids x.2).2);
      updl (λ c, Lwc (base c) (load_tasks c)
        (request_data c ++ [LoadEntry x.1 ucm_block_ids
           (rank_ids cf (lw_rank0 || cf_is_mla cf) ucm_block_ids) total_ptrs])
        (failure_req_ids c) (need_load c) (is_save c) (dump_total_ptrs c) (deferred_mtp_dumps c)
        (prev_wait_end c) (batch_start c))
  end.

Definition start_load_kv (now : Z) : L unit :=
  updl (set_batch_start (Some now)) ;;
  metadata ← on_base _get_connector_metadata;
  updl (λ c, Lwc (base c) [] [] ∅ false (is_save c) (dump_total_ptrs c) (deferred_mtp_dumps c)
               None (batch_start c)) ;;
  for_each (request_meta metadata) collect_load ;;
  need ← getl need_load;
  if (need : bool) then
    first ← of_res first_layer;
    _submit_request_load_tasks_for_layer first 0 metadata ;;
    c ← getl id;
    on_base (update_stats [("layerwise_first_layer_submit_ms", MTime);
      ("layerwise_first_layer_requests",
       MCount (zlen (request_data c) - Z.of_nat (size (failure_req_ids c))))])
  else mret tt.

(** One task of the wait loop of [wait_for_layer_load]. *)
Definition wait_layer_task (metadata : UCMConnectorMetadata) (x : string * task) : L unit :=
  try_except
    (on_base (on_rc (wait_load x.2)))
    (λ _,
     d ← of_res (dict_index x.1 (request_meta metadata));
     load_failed "connector_load_wait_errors_total" d x.1).

Definition wait_for_layer_load (layer_name : string) (wait_end : Z) : L unit :=
  metadata ← getl (λ c, connector_metadata (base c));
  need ← getl need_load;
  match metadata with
  | None => mret tt
  | Some metadata =>
      if negb need then mret tt else
      current_layer_id ← of_res (dict_index layer_name (layer_name_to_id (kv_cache_layout cf)));
      tasks ← getl load_tasks;
      let layer_tasks := dict_get_default current_layer_id [] tasks in
      updl (set_load_tasks (dict_del current_layer_id tasks)) ;;
      for_each layer_tasks (wait_layer_task metadata) ;;
      let next_layer_id := current_layer_id + 1 in
      let has_next := bool_decide (next_layer_id ∈ lw_layer_ids lcf) in
      (if has_next then
         first ← of_res first_layer;
         _submit_request_load_tasks_for_layer next_layer_id (next_layer_id - first) metadata
       else mret tt) ;;
      prev ← getl prev_wait_end;
      on_base (update_stats
        ([("layerwise_wait_blocking_ms", MTime);
          ("layerwise_wait_tasks_count", MCount (zlen layer_tasks))] ++
         (match prev with Some _ => [("layerwise_inter_wait_interval_ms", MTime)] | None => [] end) ++
         (if has_next then [("layerwise_next_layer_submit_ms", MTime)] else []))) ;;
      updl (set_prev_wait_end (Some wait_end))
  end.

(** ** Dumps *)

(** [dump_total_ptrs], computed by the first dump of the batch. *)
Definition batch_ptrs (vllm_block_ids : list Z) : L (list (list (list Z))) :=
  memo ← getl dump_total_ptrs;
  match memo with
  | Some ptrs => mret ptrs
  | None => ptrs ← of_res (layer_addrs vllm_block_ids);
            updl (set_ptrs (Some ptrs)) ;; mret ptrs
  end.

Definition requests_dump_ids (metadata : UCMConnectorMetadata) (ids : list string) :
    res (dict string (gset bytes)) :=
  map_res (λ id, d ← dict_index id (request_meta metadata);
                 Ok (id, list_to_set (dump_block_ids d).1)) ids.

(** The [try] block of [_submit_layerwise_dump_task] for the addresses of one
    layer; the counter and the destruction of the event are its handler. *)
Definition submit_layer_dump (by_request : dict string (gset bytes)) (layer_id : Z)
    (layer_ptrs : res addr_rows) (ucm_block_ids : list bytes) (request_ids : gset string) :
    M (conn * W) unit :=
  prepared ← try_except
    (layer_ptrs ← of_res layer_ptrs;
     event_handle ← _get_dump_event_handle cf;
     mret (Some (layer_ptrs, event_handle)))
    (λ _, mret None);
  match prepared with
  | None => _record_counter "connector_dump_submit_errors_total"
  | Some (layer_ptrs, event_handle) =>
      try_except
        (t ← on_rc (submit_dump (store cf) by_request ucm_block_ids
               (replicate (length ucm_block_ids) layer_id) layer_ptrs event_handle);
         updc (λ c, set_pending (pending_dump_tasks c ++
           [PendingDump t request_ids event_handle 0]) c))
        (λ _, _record_counter "connector_dump_submit_errors_total" ;; release_event cf event_handle)
  end.

(** The set of requests is iterated in the order of [elements]; the resulting
    dictionary is only read by key. *)
Definition _submit_layerwise_dump_task (layer_id : Z) (ucm_block_ids : list bytes)
    (vllm_block_ids : list Z) (request_ids : gset string) : L unit :=
  if decide (request_ids = ∅) then mret tt else
  metadata ← on_base _get_connector_metadata;
  by_request ← of_res (requests_dump_ids metadata (elements request_ids));
  first ← of_res first_layer;
  ptrs ← batch_ptrs vllm_block_ids;
  on_base (submit_layer_dump by_request layer_id (py_index ptrs (layer_id - first))
             ucm_block_ids request_ids).

Definition _flush_deferred_mtp_dumps : L unit :=
  deferred ← getl deferred_mtp_dumps;
  updl (set_deferred []) ;;
  for_each (merge_sort Z.le deferred.*1) (λ layer_id,
    '(ucm_block_ids, vllm_block_ids, request_ids) ← of_res (dict_index layer_id deferred);
    _submit_layerwise_dump_task layer_id ucm_block_ids vllm_block_ids request_ids).

(** One request of the collection loop of [save_kv_layer]. *)
Definition layer_save_step (acc : deferred_dump) (x : string * RequestDispatchMeta) : deferred_dump :=
  let '(ucm, vllm, ids) := acc in
  match (dump_block_ids x.2).1 with
  | [] => acc
  | ucm_block_ids => (ucm ++ rank_ids cf lw_rank0 ucm_block_ids, vllm ++ (dump_block_ids x.2).2,
                      {[x.1]} ∪ ids)
  end.

Definition save_kv_layer (layer_name : string) : L unit :=
  metadata ← getl (λ c, connector_metadata (base c));
  match metadata with
  | None => mret tt
  | Some metadata =>
      if cf_is_mla cf && negb lw_rank0 then mret tt else
      layer_id ← of_res (dict_index layer_name (layer_name_to_id (kv_cache_layout cf)));
      let '(ucm, vllm, ids) := foldl layer_save_step ([], [], ∅) (request_meta metadata) in
      (if decide (ids = ∅) then mret tt
       else
         updl (set_is_save true) ;;
         if _is_mtp_layer layer_id then
           updl (λ c, set_deferred (dict_set layer_id (ucm, vllm, ids) (deferred_mtp_dumps c)) c)
         else _submit_layerwise_dump_task layer_id ucm vllm ids) ;;
      saving ← getl is_save;
      if (saving : bool) then on_base (update_stats [("layerwise_save_submit_ms", MTime)])
      else mret tt
  end.

(** ** The end of a batch *)

(** [_layerwise_batch_stats], with a save tail. *)
Definition _layerwise_batch_stats : L stats :=
  c ← getl id;
  match batch_start c with
  | None => mret []
  | Some _ =>
      let batch_type := (need_load c, is_save c) in
      updl (set_batch_start None) ;;
      mret ([("layerwise_batch_total_ms", MTime);
             (match batch_type with
              | (false, false) => "layerwise_batch_total_no_transfer_ms"
              | (true, false) => "layerwise_batch_total_load_only_ms"
              | (false, true) => "layerwise_batch_total_save_only_ms"
              | (true, true) => "layerwise_batch_total_load_save_ms"
              end, MTime)] ++
            match batch_type with
            | (true, false) => [("layerwise_batch_load_wait_total_load_only_ms", MTime)]
            | (true, true) => [("layerwise_batch_load_wait_total_load_save_ms", MTime)]
            | _ => []
            end ++
            match batch_type with
            | (false, true) => [("layerwise_save_tail_total_ms", MTime);
                                ("layerwise_batch_save_tail_save_only_ms", MTime)]
            | (true, true) => [("layerwise_save_tail_total_ms", MTime);
                               ("layerwise_batch_save_tail_load_save_ms", MTime)]
            | _ => []
            end)
  end.

Definition start_wait (now : Z) (p : PendingDumpTask) : PendingDumpTask :=
  if pd_wait_for_save_start_ms p <=? 0
  then PendingDump (pd_task p) (pd_request_ids p) (pd_event_handle p) now else p.

Definition wait_for_save (wait_for_save_start_ms : Z) : L unit :=
  _flush_deferred_mtp_dumps ;;
  on_base (updc (λ c, set_pending (start_wait wait_for_save_start_ms <$> pending_dump_tasks c) c)) ;;
  on_base (_poll_pending_dump_tasks cf) ;;
  metadata ← getl (λ c, connector_metadata (base c));
  match metadata with
  | Some m => on_base (updc (λ c, set_async (async_dump_req_ids c ∪ dump_request_ids m) c))
  | None => mret tt
  end ;;
  batch_stats ← _layerwise_batch_stats;
  (match batch_stats with [] => mret tt | _ => on_base (update_stats batch_stats) end) ;;
  updl (λ c, set_ptrs None (set_is_save false c)).

End layerwise.
