(* ===== verification/LayerWiseProps.v ===== *)
(** * What the layerwise connector guarantees

    The invariant of the pending dumps carries over from the direct connector
    to every sequence of layerwise operations; the loads of a batch are awaited
    layer by layer; dumps of multi-token-prediction layers are deferred. *)
From S2P Require Import Prelude Runtime RankConsistency PyHash Hashing KVLayout Direct DirectWorker Sim.
From S2P Require Import KVLayoutProps WorkerProps LayerWise.
Open Scope Z_scope.

Section layerwise.
  Context {W : Type} `{StoreOps W} `{DeviceOps W} `{SetOrder} `{PyHash}.
  Variable lcf : lw_conf.
Let cf : conf := lw_cf lcf.

(** The direct connector inside a layerwise one. *)
Definition base_of (s : lwc * W) : conn * W := (base s.1, s.2).

Definition lw_inv (s : lwc * W) : Prop := worker_inv cf (base_of s).

Lemma lw_on_base {A} (m : M (conn * W) A) :
  preserves (worker_inv cf) m → preserves lw_inv (on_base m).
Proof.
  intros Hm s Hs. unfold on_base, lift. specialize (Hm _ Hs). unfold base_of in Hm.
  destruct (m (base s.1, s.2)) as [r [c w]]. exact Hm.
Qed.

Lemma lw_updl f : (∀ c, base (f c) = base c) → preserves lw_inv (updl (W := W) f).
Proof. intros Hf s Hs. unfold updl, modify, lw_inv, base_of in *. simpl. by rw Hf. Qed.

Lemma lw_of_res {A} (r : res A) : preserves lw_inv (of_res r).
Proof. apply preserves_of_res. Qed.

Lemma inv_update_stats x : preserves (worker_inv cf) (update_stats (W := W) x).
Proof. by apply inv_updc. Qed.

Lemma inv_metadata : preserves (worker_inv cf) (_get_connector_metadata (W := W)).
Proof.
  apply preserves_bind; [apply preserves_gets|]. intros [m|]; [apply preserves_ret|apply preserves_raise].
Qed.

(** Submitting the dump of one layer. *)
Lemma submit_layer_dump_inv by_request layer_id ptrs ids reqs :
  list_to_set by_request.*1 ⊆ reqs →
  preserves (worker_inv cf) (submit_layer_dump lcf by_request layer_id ptrs ids reqs).
Proof.
  intros Hsub s Hinv. pose proof Hinv as [Hctx Hev]. unfold submit_layer_dump, of_res. fold cf.
  unfold try_except, mbind, M_bind.
  destruct ptrs as [ptrs|e]; [|by apply inv_update_stats].
  destruct (dump_event_spec cf s) as (rh & s1 & -> & Hf1 & Hrc1 & Hev1).
  assert (Hp1 : pending_dump_tasks s1.1 = pending_dump_tasks s.1) by apply Hf1.
  destruct rh as [h|e]; simpl.
  2:{ apply inv_update_stats. split; [by rw Hrc1 Hp1|]. rw Hp1. by apply Hev1. }
  specialize (Hev1 _ Hev (PendingDump 0 ∅ h 0) eq_refl). unfold on_rc, lift.
  destruct (submit_dump_spec (store cf) by_request ids (replicate (length ids) layer_id) ptrs h
    (rank_consistency s1.1, s1.2)) as (r & t & -> & Hen & Hr). simpl in Hr.
  destruct r as [tk|e]; simpl.
  - destruct Hr as (ctx & Hkeys & Hr). unfold updc, modify. simpl. split; simpl; rw Hp1.
    + intros t' st ctx' Ht'. simpl in Ht'. rewrite -> Hr, lookup_insert_Some in Ht'.
      setoid_rewrite elem_of_app. destruct Ht' as [[<- [= <- <-]]|[Hne Ht']].
      * eexists. split; [right; by left|]. split; [done|]. set_solver.
      * rewrite -> Hrc1 in Ht'. destruct (Hctx t' st ctx' Ht') as (q & ? & ?). eauto.
    + intros dv h0 Hd Hh Hne. destruct (Hev1 dv h0 Hd Hh Hne) as (Hs & q & Hq & Hqh).
      split; [done|]. setoid_rewrite elem_of_app. apply elem_of_cons in Hq as [->|Hq]; [|eauto].
      eexists. split; [right; by left|]. done.
  - unfold _record_counter, update_stats, updc, modify. simpl.
    set (s2 := (set_metrics _ (set_rc t.1 s1.1), t.2)).
    destruct (release_event_spec cf h s2) as (s3 & -> & Hf3 & Hrc3 & Hd3). simpl.
    assert (Hp3 : pending_dump_tasks s3.1 = pending_dump_tasks s.1).
    { destruct Hf3 as [-> _]. exact Hp1. }
    split; rw Hp3.
    + intros t' st ctx Ht'. rewrite -> Hrc3 in Ht'. simpl in Ht'. rewrite -> Hr, Hrc1 in Ht'. eauto.
    + intros dv h0 Hd Hh Hne. destruct (Hd3 dv Hd) as (dv0 & Hdv0 & Hcase). simpl in Hdv0.
      assert (Hh0 : is_Some (events dv0 !! h0)).
      { destruct Hcase as [Hcase|[Hcase _]]; rewrite -> Hcase in Hh; [|done].
        apply lookup_delete_is_Some in Hh. tauto. }
      destruct (Hev1 dv0 h0 Hdv0 Hh0 Hne) as (Hs & q & Hq & Hqh). split; [done|].
      apply elem_of_cons in Hq as [->|Hq]; [exfalso|by exists q]. simpl in Hqh. subst h0.
      destruct Hcase as [Hcase|[_ [?|?]]]; [|congruence..].
      rewrite -> Hcase, lookup_delete_eq in Hh. by destruct Hh.
Qed.

Lemma bind_inv {A B} (m : M (lwc * W) A) (f : A → M (lwc * W) B) :
  preserves lw_inv m → (∀ a, preserves lw_inv (f a)) → preserves lw_inv (m ≫= f).
Proof. apply preserves_bind. Qed.

Lemma load_failed_inv name d id : preserves lw_inv (load_failed name d id).
Proof.
  apply bind_inv; [apply lw_on_base, inv_load_error|]. intros _.
  apply bind_inv; [by apply lw_updl|]. intros _. apply lw_on_base. by apply inv_updc.
Qed.

Lemma submit_layer_load_inv layer_id row md e : preserves lw_inv (submit_layer_load lcf layer_id row md e).
Proof.
  apply bind_inv; [apply preserves_gets|]. intros failed. case_decide; [apply preserves_ret|].
  apply preserves_try.
  - apply bind_inv; [apply lw_of_res|]. intros ptrs. apply bind_inv; [|intros t; by apply lw_updl].
    apply lw_on_base, inv_on_rc. intros t.
    by destruct (submit_load_spec (store (lw_cf lcf)) [(le_request_id e, le_ucm_block_ids e)]
      (le_store_block_ids e) (replicate (length (le_ucm_block_ids e)) layer_id) ptrs t)
      as (r & s' & -> & ? & _).
  - intros x. apply bind_inv; [apply lw_of_res|]. intros d. apply load_failed_inv.
Qed.

Lemma submit_layer_inv layer_id row md :
  preserves lw_inv (_submit_request_load_tasks_for_layer lcf layer_id row md).
Proof.
  apply bind_inv; [apply preserves_gets|]. intros entries. apply preserves_for_each. intros e _.
  apply submit_layer_load_inv.
Qed.

Lemma lw_start_load_inv now : preserves lw_inv (start_load_kv lcf now).
Proof.
  unfold start_load_kv. apply bind_inv; [by apply lw_updl|]. intros _.
  apply bind_inv; [apply lw_on_base, inv_metadata|]. intros md.
  apply bind_inv; [by apply lw_updl|]. intros _. apply bind_inv.
  { apply preserves_for_each. intros x _. unfold collect_load. case_match; [apply preserves_ret|].
    apply bind_inv; [by apply lw_updl|]. intros _. apply bind_inv; [apply lw_of_res|].
    intros ptrs. by apply lw_updl. }
  intros _. apply bind_inv; [apply preserves_gets|]. intros [|]; [|apply preserves_ret].
  apply bind_inv; [apply lw_of_res|]. intros first. apply bind_inv; [apply submit_layer_inv|].
  intros _. apply bind_inv; [apply preserves_gets|]. intros c. apply lw_on_base, inv_update_stats.
Qed.

Lemma wait_layer_inv name now : preserves lw_inv (wait_for_layer_load lcf name now).
Proof.
  unfold wait_for_layer_load. apply bind_inv; [apply preserves_gets|]. intros md.
  apply bind_inv; [apply preserves_gets|]. intros need. destruct md as [md|]; [|apply preserves_ret].
  apply preserves_if; [apply preserves_ret|]. apply bind_inv; [apply lw_of_res|]. intros id.
  apply bind_inv; [apply preserves_gets|]. intros tasks. apply bind_inv; [by apply lw_updl|]. intros _.
  apply bind_inv.
  { apply preserves_for_each. intros x _. apply preserves_try.
    - apply lw_on_base, inv_on_rc. intros t. by destruct (wait_load_spec x.2 t) as (r & s' & -> & ? & _).
    - intros e. apply bind_inv; [apply lw_of_res|]. intros d. apply load_failed_inv. }
  intros _. apply bind_inv.
  { apply preserves_if; [|apply preserves_ret]. apply bind_inv; [apply lw_of_res|]. intros first.
    apply submit_layer_inv. }
  intros _. apply bind_inv; [apply preserves_gets|]. intros prev.
  apply bind_inv; [apply lw_on_base, inv_update_stats|]. intros _. by apply lw_updl.
Qed.

Lemma requests_dump_ids_keys md ids d : requests_dump_ids md ids = Ok d → d.*1 = ids.
Proof.
  unfold requests_dump_ids. rw map_res_Forall2. induction 1 as [|id [k v] ids d Hk Hd IH]; [done|].
  res_inv Hk. simplify_eq. csimpl. by f_equal.
Qed.

Lemma submit_task_inv layer_id ucm vllm ids :
  preserves lw_inv (_submit_layerwise_dump_task lcf layer_id ucm vllm ids).
Proof.
  unfold _submit_layerwise_dump_task. case_decide; [apply preserves_ret|].
  apply bind_inv; [apply lw_on_base, inv_metadata|]. intros md.
  unfold of_res. destruct (requests_dump_ids md (elements ids)) as [d|e] eqn:Hd;
    [|by intros s Hs]. apply requests_dump_ids_keys in Hd.
  intros s Hs. unfold mbind, M_bind. revert s Hs.
  change (preserves lw_inv
    (first ← of_res (first_layer lcf); ptrs ← batch_ptrs lcf vllm;
     on_base (submit_layer_dump lcf d layer_id (py_index ptrs (layer_id - first)) ucm ids))).
  apply bind_inv; [apply lw_of_res|]. intros first. apply bind_inv.
  - apply bind_inv; [apply preserves_gets|]. intros [m|]; [apply preserves_ret|].
    apply bind_inv; [apply lw_of_res|]. intros p. apply bind_inv; [by apply lw_updl|]. intros _.
    apply preserves_ret.
  - intros ptrs. apply lw_on_base, submit_layer_dump_inv. rw Hd. by rewrite list_to_set_elements_L.
Qed.

Lemma save_layer_inv name : preserves lw_inv (save_kv_layer lcf name).
Proof.
  unfold save_kv_layer. apply bind_inv; [apply preserves_gets|]. intros [md|]; [|apply preserves_ret].
  apply preserves_if; [apply preserves_ret|]. apply bind_inv; [apply lw_of_res|]. intros id.
  destruct (foldl _ _ (request_meta md)) as [[ucm vllm] ids]. apply bind_inv.
  - case_decide; [apply preserves_ret|]. apply bind_inv; [by apply lw_updl|]. intros _.
    apply preserves_if; [by apply lw_updl|apply submit_task_inv].
  - intros _. apply bind_inv; [apply preserves_gets|]. intros [|]; [|apply preserves_ret].
    apply lw_on_base, inv_update_stats.
Qed.

Lemma start_wait_inv now :
  preserves (worker_inv cf) (updc (W := W) (λ c, set_pending (start_wait now <$> pending_dump_tasks c) c)).
Proof.
  assert (Hsame : ∀ p, pd_task (start_wait now p) = pd_task p ∧
    pd_request_ids (start_wait now p) = pd_request_ids p ∧
    pd_event_handle (start_wait now p) = pd_event_handle p).
  { intros p. unfold start_wait. by destruct (pd_wait_for_save_start_ms p <=? 0). }
  intros s [Hc He]. unfold updc, modify. simpl. split; simpl.
  - intros t st ctx Ht. simpl in Ht. destruct (Hc t st ctx Ht) as (p & Hp & Hpt & Hsub).
    exists (start_wait now p). destruct (Hsame p) as (-> & -> & _).
    split; [apply list_elem_of_fmap; eauto|done].
  - intros dv h Hd Hh Hne. destruct (He dv h Hd Hh Hne) as (Hs & p & Hp & Hph). split; [done|].
    exists (start_wait now p). destruct (Hsame p) as (_ & _ & ->).
    split; [apply list_elem_of_fmap; eauto|done].
Qed.

Lemma lw_wait_for_save_inv now : preserves lw_inv (wait_for_save lcf now).
Proof.
  unfold wait_for_save. apply bind_inv.
  { apply bind_inv; [apply preserves_gets|]. intros deferred. apply bind_inv; [by apply lw_updl|].
    intros _. apply preserves_for_each. intros id _. apply bind_inv; [apply lw_of_res|].
    intros [[ucm vllm] ids]. apply submit_task_inv. }
  intros _. apply bind_inv; [apply lw_on_base, start_wait_inv|]. intros _. apply bind_inv.
  { apply lw_on_base. intros s Hs. fold cf. by destruct (poll_spec cf s Hs) as (s' & -> & ? & _). }
  intros _. apply bind_inv; [apply preserves_gets|]. intros md. apply bind_inv.
  { destruct md; [|apply preserves_ret]. apply lw_on_base. by apply inv_updc. }
  intros _. apply bind_inv.
  { apply bind_inv; [apply preserves_gets|]. intros c. destruct (batch_start c); [|apply preserves_ret].
    apply bind_inv; [by apply lw_updl|]. intros _. apply preserves_ret. }
  intros batch. apply bind_inv; [|intros _; by apply lw_updl].
  destruct batch; [apply preserves_ret|]. apply lw_on_base, inv_update_stats.
Qed.

(** The calls a vLLM worker makes on a layerwise connector; the inherited ones
    are those of the direct connector. *)
Inductive lw_step (s : lwc * W) : lwc * W → Prop :=
  | lw_step_load now : lw_step s (start_load_kv lcf now s).2
  | lw_step_wait_layer name now : lw_step s (wait_for_layer_load lcf name now s).2
  | lw_step_save_layer name : lw_step s (save_kv_layer lcf name s).2
  | lw_step_save now : lw_step s (wait_for_save lcf now s).2
  | lw_step_base {A} (m : M (conn * W) A) :
      (∀ s, worker_step cf s (m s).2) → lw_step s (on_base m s).2.

Lemma lw_step_inv s s' : lw_step s s' → lw_inv s → lw_inv s'.
Proof.
  destruct 1 as [now|name now|name|now|A m Hm]; intros Hs.
  - by apply lw_start_load_inv.
  - by apply wait_layer_inv.
  - by apply save_layer_inv.
  - by apply lw_wait_for_save_inv.
  - apply lw_on_base; [|done]. intros t Ht. by eapply worker_step_inv; [apply Hm|].
Qed.

Lemma lw_reach_inv s s' : rtc lw_step s s' → lw_inv s → lw_inv s'.
Proof. induction 1; eauto using lw_step_inv. Qed.

(** ** Loads, layer by layer *)

Definition md_keys (md : UCMConnectorMetadata) : list string := (request_meta md).*1.

Notation request := (string * RequestDispatchMeta)%type.

(** The requests of a plan that load anything, and those of them that no failure has
    stopped yet; the submission of the load of one layer of a request. *)
Definition planned (md : UCMConnectorMetadata) : list request :=
  filter (λ x, (load_block_ids x.2).1 ≠ []) (request_meta md).
Definition alive (md : UCMConnectorMetadata) (failed : list request) : list request :=
  filter (λ x, x.1 ∉ failed.*1) (planned md).

Definition layer_submit (layer row : Z) (x : request) : M (manager * W) task :=
  let ucm_block_ids := (load_block_ids x.2).1 in
  total_ptrs ← of_res (layer_addrs lcf (load_block_ids x.2).2);
  ptrs ← of_res (py_index total_ptrs row);
  submit_load (store cf) [(x.1, ucm_block_ids)] (rank_ids cf (lw_rank0 lcf || cf_is_mla cf) ucm_block_ids)
    (replicate (length ucm_block_ids) layer) ptrs.

(** A pass over some layers, from row [row] on: the loads of a layer are submitted
    for the requests that have not failed, then all of them are awaited before the
    next layer.  The result lists the requests that failed. *)
Fixpoint layers_run (md : UCMConnectorMetadata) (layers : list Z) (row : Z) (failed : list request)
    (σ : manager * W) : list request * (manager * W) :=
  match layers with
  | [] => (failed, σ)
  | layer :: layers =>
      let '(submitted, σ1) := attempts (layer_submit layer row) (alive md failed) σ in
      let '(awaited, σ2) := attempts await_load (returned submitted) σ1 in
      layers_run md layers (row + 1) (failed ++ raised submitted ++ (raised awaited).*1) σ2
  end.

Lemma layers_run_app md l1 l2 : ∀ row failed σ,
  layers_run md (l1 ++ l2) row failed σ =
  let '(failed, σ) := layers_run md l1 row failed σ in layers_run md l2 (row + zlen l1) failed σ.
Proof.
  induction l1 as [|layer l1 IH]; intros row failed σ; cbn [app layers_run].
  { by rewrite -> Z.add_0_r. }
  destruct (attempts (layer_submit layer row) (alive md failed) σ) as [sub σ1].
  destruct (attempts await_load (returned sub) σ1) as [wtd σ2]. rewrite -> IH, zlen_cons.
  by replace (row + 1 + zlen l1) with (row + (1 + zlen l1)) by lia.
Qed.

(** The part of the state the load phase keeps. *)
Definition same_requests (s s' : lwc * W) : Prop :=
  request_data s'.1 = request_data s.1 ∧ need_load s'.1 = need_load s.1.

Lemma same_requests_trans (s1 s2 s3 : lwc * W) :
  same_requests s1 s2 → same_requests s2 s3 → same_requests s1 s3.
Proof. unfold same_requests. intros [-> ->] [-> ->]. done. Qed.

Abbreviation lw_store s := (store_of (base_of s)).

(** The requests [failed] are reported, and no more loads are made for them. *)
Definition stopped (s0 : conn * W) (failed : list request) (s : lwc * W) : Prop :=
  reported s0 failed (base_of s) ∧ failure_req_ids s.1 = list_to_set failed.*1.

(** Only [layer] has outstanding loads: the tasks recorded for it. *)
Definition loading (layer : Z) (tasks : list (request * task)) (s : lwc * W) : Prop :=
  (∀ k, dict_get k (load_tasks s.1) =
     if decide (k = layer ∧ tasks ≠ []) then Some (task_names tasks) else None) ∧
  tasks_cover (task_names tasks) (base_of s).

Lemma loading_tasks layer tasks (s : lwc * W) :
  loading layer tasks s → dict_get_default layer [] (load_tasks s.1) = task_names tasks.
Proof.
  intros [Hl _]. unfold dict_get_default. rewrite -> (Hl layer).
  case_decide as Hd; [done|]. destruct tasks; [done|]. destruct Hd. by split.
Qed.

Lemma load_failed_spec name x s0 F (s : lwc * W) :
  stopped s0 F s →
  ∃ s', load_failed name x.2 x.1 s = (Ok tt, s') ∧ stopped s0 (F ++ [x]) s' ∧ same_requests s s' ∧
    load_tasks s'.1 = load_tasks s.1 ∧ lw_store s' = lw_store s.
Proof.
  intros [Hr Hfail]. eexists. split; [reflexivity|]. split; [|done].
  destruct (report_failure_spec name x s0 F (base_of s) Hr) as (s2 & Hrun & Hr2 & _).
  unfold _record_load_error, mark_failed, getc, updc, update_stats in Hrun. munfold. simplify_eq.
  split; [exact Hr2|]. cbn. rewrite -> Hfail, fmap_app, list_to_set_app_L. simpl. set_solver.
Qed.

(** What the batch keeps of a request. *)
Definition entry_for (x : request) (e : load_entry) : Prop :=
  ∃ ptrs, layer_addrs lcf (load_block_ids x.2).2 = Ok ptrs ∧
    e = LoadEntry x.1 (load_block_ids x.2).1
          (rank_ids cf (lw_rank0 lcf || cf_is_mla cf) (load_block_ids x.2).1) ptrs.

Lemma submit_layer_load_skips md layer row x e F s0 (s : lwc * W) :
  entry_for x e → stopped s0 F s → x.1 ∈ F.*1 → submit_layer_load lcf layer row md e s = (Ok tt, s).
Proof.
  intros (ptrs & _ & ->) [_ Hfail] Hx. unfold submit_layer_load. mstep. rewrite -> Hfail.
  rewrite -> decide_True by (by apply elem_of_list_to_set). done.
Qed.

Lemma submit_layer_load_spec md layer row x e F tasks s0 (s : lwc * W) :
  entry_for x e → stopped s0 F s → loading layer tasks s → dict_get x.1 (request_meta md) = Some x.2 →
  x.1 ∉ F.*1 → x.1 ∉ (task_names tasks).*1 →
  ∃ s', submit_layer_load lcf layer row md e s = (Ok tt, s') ∧
    lw_store s' = (layer_submit layer row x (lw_store s)).2 ∧ same_requests s s' ∧
    match (layer_submit layer row x (lw_store s)).1 with
    | Ok t => stopped s0 F s' ∧ loading layer (tasks ++ [(x, t)]) s'
    | Raise _ => stopped s0 (F ++ [x]) s' ∧ loading layer tasks s'
    end.
Proof.
  intros (ptrs & Haddr & ->) Hstop Hload Hget Hx Hfresh. unfold layer_submit. rewrite -> Haddr.
  pose proof (loading_tasks _ _ _ Hload) as Htask. pose proof Hload as [Hk Hcov]. pose proof Hstop as [Hrep Hfail].
  unfold submit_layer_load, getl, gets, try_except, mbind, M_bind. fold cf.
  cbn [le_request_id le_ucm_block_ids le_store_block_ids le_total_ptrs of_res].
  rewrite -> decide_False by (rewrite -> Hfail; by rewrite -> elem_of_list_to_set).
  assert (Herr : ∀ s1 : lwc * W, stopped s0 F s1 → load_tasks s1.1 = load_tasks s.1 →
    load_task_contexts (rank_consistency (base s1.1)) = load_task_contexts (rank_consistency (base s.1)) →
    same_requests s s1 →
    ∃ s', (match of_res (dict_index x.1 (request_meta md)) s1 with
              | (Ok d, s2) => load_failed "connector_load_submit_errors_total" d x.1 s2
              | (Raise e, s2) => (Raise e, s2) end) = (Ok tt, s') ∧
      lw_store s' = lw_store s1 ∧ same_requests s s' ∧ stopped s0 (F ++ [x]) s' ∧ loading layer tasks s').
  { intros s1 Hs1 Ht1 Hc1 Hsame1. unfold of_res, dict_index. rewrite -> Hget.
    destruct (load_failed_spec "connector_load_submit_errors_total" x s0 F s1 Hs1)
      as (s2 & -> & Hs2 & Hsame2 & Ht2 & Hst2). exists s2. split; [done|]. split; [done|].
    split; [by eapply same_requests_trans|]. split; [done|]. split.
    - intros k. rewrite -> Ht2, Ht1. apply Hk.
    - intros t Ht. apply (f_equal fst) in Hst2. cbn in Hst2. unfold base_of in Ht. simpl in Ht.
      rewrite -> Hst2, Hc1 in Ht. by apply Hcov. }
  destruct (py_index ptrs row) as [row_ptrs|ex].
  2:{ destruct (Herr s Hstop eq_refl eq_refl ltac:(done)) as (s' & Hrun & Hst & Hrest).
      destruct Hrest as (Hsame & Hfin). exists s'. by split_and!. }
  unfold on_base at 1, on_rc at 1, lift.
  destruct (submit_load_spec (store cf) [(x.1, (load_block_ids x.2).1)]
    (rank_ids cf (lw_rank0 lcf || cf_is_mla cf) (load_block_ids x.2).1)
    (replicate (length (load_block_ids x.2).1) layer) row_ptrs (lw_store s))
    as (r & t & Hrun & Hd & Hl).
  cbn [fst snd base_of] in *. change (rank_consistency (base s.1), s.2) with (lw_store s). rewrite -> Hrun.
  destruct r as [tk|ex]; cbn [fst snd].
  - unfold updl, modify. eexists. split; [reflexivity|]. split; [by destruct t|]. split; [done|]. split.
    { split; [|exact Hfail]. unfold reported in *. simpl in *. rewrite -> Hd. exact Hrep. }
    assert (Hnew : dict_set x.1 tk (task_names tasks) = task_names (tasks ++ [(x, tk)])).
    { rewrite -> dict_set_fresh by done. unfold task_names. by rewrite -> fmap_app. }
    split.
    + intros k. simpl. rewrite -> dict_get_set. rewrite -> Htask, Hnew, (Hk k).
      destruct (decide (layer = k)) as [<-|Hne].
      * rewrite -> decide_True; [done|]. split; [done|]. by destruct tasks.
      * by rewrite -> !decide_False by (intros [? _]; congruence).
    + destruct Hl as [ctx Hl]. intros t' Ht'. unfold base_of in Ht'. simpl in Ht'. rewrite -> Hl in Ht'.
      unfold task_names. rewrite -> !fmap_app, elem_of_app.
      destruct (decide (t' = tk)) as [->|Hne]; [right; by left|left].
      rewrite -> lookup_insert_ne in Ht' by done. by apply Hcov.
  - match goal with |- context [load_failed _ _ _ ?s1] => set (s2 := s1) end.
    destruct (Herr s2) as (s' & Hrun' & Hst & Hsame & Hfin).
    + split; [|exact Hfail]. unfold reported in *. simpl in *. rewrite -> Hd. exact Hrep.
    + done.
    + exact Hl.
    + done.
    + exists s'. split; [|split; [rewrite -> Hst; by destruct t|done] ].
      revert Hrun'. unfold of_res. by destruct (dict_index x.1 (request_meta md)).
Qed.

Lemma submit_loop md layer row s0 (F0 xs : list request) : ∀ es (F : list request) tasks (s : lwc * W),
  Forall2 entry_for xs es → NoDup xs.*1 → Forall (λ x, dict_get x.1 (request_meta md) = Some x.2) xs →
  (∀ x, x ∈ xs → x.1 ∉ (task_names tasks).*1 ∧ (x.1 ∈ F.*1 ↔ x.1 ∈ F0.*1)) →
  stopped s0 F s → loading layer tasks s →
  let '(sub, σ) := attempts (layer_submit layer row) (filter (λ x, x.1 ∉ F0.*1) xs) (lw_store s) in
  ∃ s', for_each es (submit_layer_load lcf layer row md) s = (Ok tt, s') ∧ lw_store s' = σ ∧
    same_requests s s' ∧ stopped s0 (F ++ raised sub) s' ∧ loading layer (tasks ++ returned sub) s'.
Proof.
  induction xs as [|x xs IH]; intros es F tasks s Hes Hnd Hget Hdis Hstop Hload.
  { apply Forall2_nil_inv_l in Hes as ->. cbn. rewrite -> !app_nil_r. by exists s. }
  apply Forall2_cons_inv_l in Hes as (e & es' & He & Hes & ->).
  rewrite -> fmap_cons, NoDup_cons in Hnd. destruct Hnd as [Hx Hnd].
  apply Forall_cons in Hget as [Hgx Hget]. destruct (Hdis x ltac:(left)) as [Hfresh HF].
  rewrite -> filter_cons. cbn [for_each]. case_decide as Hin.
  2:{ apply HF in Hin. mrun (submit_layer_load_skips md layer row x e F s0 s He Hstop Hin).
      apply IH; try done. intros y Hy. apply Hdis. by right. }
  destruct (submit_layer_load_spec md layer row x e F tasks s0 s He Hstop Hload Hgx) as (s1 & Hrun & Hst & Hsame & Hr);
    [by rewrite -> HF|done|]. mrun Hrun. cbn [attempts].
  destruct (layer_submit layer row x (lw_store s)) as [r σ1]. cbn [fst snd] in *. subst σ1.
  assert (Hne : ∀ y, y ∈ xs → y.1 ≠ x.1).
  { intros y Hy Heq. apply Hx. rewrite <- Heq. apply list_elem_of_fmap. by exists y. }
  destruct r as [t|ex]; destruct Hr as [Hs1 Hl1].
  - specialize (IH es' F (tasks ++ [(x, t)]) s1 Hes Hnd Hget).
    destruct (attempts (layer_submit layer row) (filter (λ x, x.1 ∉ F0.*1) xs) (lw_store s1)) as [sub σ].
    destruct IH as (s' & Hrun' & Hst' & Hsame' & Hs' & Hl'); [|done..|].
    + intros y Hy. destruct (Hdis y ltac:(by right)) as [Hy1 Hy2]. split; [|done].
      unfold task_names. rewrite -> !fmap_app, not_elem_of_app. split; [done|].
      cbn. rewrite -> list_elem_of_singleton. by apply Hne.
    + exists s'. split; [exact Hrun'|]. split; [done|]. split; [by eapply same_requests_trans|].
      cbn. rewrite <- app_assoc in Hl'. done.
  - specialize (IH es' (F ++ [x]) tasks s1 Hes Hnd Hget).
    destruct (attempts (layer_submit layer row) (filter (λ x, x.1 ∉ F0.*1) xs) (lw_store s1)) as [sub σ].
    destruct IH as (s' & Hrun' & Hst' & Hsame' & Hs' & Hl'); [|done..|].
    + intros y Hy. destruct (Hdis y ltac:(by right)) as [Hy1 Hy2]. split; [done|].
      rewrite -> fmap_app, elem_of_app, Hy2. cbn. rewrite -> list_elem_of_singleton.
      pose proof (Hne y Hy). tauto.
    + exists s'. split; [exact Hrun'|]. split; [done|]. split; [by eapply same_requests_trans|].
      cbn. rewrite <- app_assoc in Hs'. done.
Qed.

(** The batch holds the entries of the plan. *)
Definition batch_ok (md : UCMConnectorMetadata) (s : lwc * W) : Prop :=
  Forall2 entry_for (planned md) (request_data s.1) ∧ (need_load s.1 = false → request_data s.1 = []).

Lemma batch_ok_same md (s s' : lwc * W) : same_requests s s' → batch_ok md s → batch_ok md s'.
Proof. unfold batch_ok. by intros [-> ->]. Qed.

Lemma planned_get md : NoDup (md_keys md) →
  NoDup (planned md).*1 ∧ Forall (λ x, dict_get x.1 (request_meta md) = Some x.2) (planned md).
Proof.
  intros Hnd. split.
  - unfold md_keys, planned in *. induction (request_meta md) as [|x l IH]; [done|].
    rewrite -> fmap_cons, NoDup_cons in Hnd. destruct Hnd as [Hx Hl]. rewrite -> filter_cons.
    case_decide; [|by apply IH]. csimpl. apply NoDup_cons. split; [|by apply IH].
    intros (y & Heq & [_ Hy]%list_elem_of_filter)%list_elem_of_fmap. apply Hx. rewrite -> Heq.
    apply list_elem_of_fmap. by exists y.
  - apply Forall_forall. intros [id d] Hx. apply dict_elem_get; [done|].
    by apply list_elem_of_filter in Hx as [_ ?].
Qed.

Lemma submit_layer_spec md layer row s0 F (s : lwc * W) :
  NoDup (md_keys md) → stopped s0 F s → batch_ok md s → loading layer [] s →
  let '(sub, σ) := attempts (layer_submit layer row) (alive md F) (lw_store s) in
  ∃ s', _submit_request_load_tasks_for_layer lcf layer row md s = (Ok tt, s') ∧ lw_store s' = σ ∧
    same_requests s s' ∧ stopped s0 (F ++ raised sub) s' ∧ loading layer (returned sub) s'.
Proof.
  intros Hnd Hstop [Hes _] Hload. destruct (planned_get md Hnd) as [Hnd' Hget].
  unfold _submit_request_load_tasks_for_layer, getl, gets, mbind, M_bind.
  apply (submit_loop md layer row s0 F (planned md) (request_data s.1) F [] s); try done.
  intros x _. split; [|done]. intros Hx. by apply elem_of_nil in Hx.
Qed.

Lemma wait_layer_task_spec md s0 x t F (s : lwc * W) :
  dict_get x.1 (request_meta md) = Some x.2 → stopped s0 F s →
  ∃ s', wait_layer_task md (x.1, t) s = (Ok tt, s') ∧ lw_store s' = (await_load (x, t) (lw_store s)).2 ∧
    stopped s0 (match (await_load (x, t) (lw_store s)).1 with Ok _ => F | Raise _ => F ++ [x] end) s' ∧
    load_task_contexts (rank_consistency (base s'.1)) =
      delete t (load_task_contexts (rank_consistency (base s.1))) ∧
    load_tasks s'.1 = load_tasks s.1 ∧ same_requests s s'.
Proof.
  intros Hget [Hrep Hfail]. unfold wait_layer_task, try_except, mbind, M_bind, await_load.
  unfold on_base at 1, on_rc, lift. cbn [fst snd].
  destruct (wait_load_spec t (lw_store s)) as (r & m & Hrun & Hd & Hl). rewrite -> Hrun.
  unfold store_of, base_of in Hrun. cbn [fst snd] in *. rewrite -> Hrun. cbn [fst snd].
  set (s1 := (Lwc (set_rc m.1 (base s.1)) (load_tasks s.1) (request_data s.1) (failure_req_ids s.1)
    (need_load s.1) (is_save s.1) (dump_total_ptrs s.1) (deferred_mtp_dumps s.1) (prev_wait_end s.1)
    (batch_start s.1), m.2) : lwc * W).
  assert (Hs1 : stopped s0 F s1).
  { split; [|exact Hfail]. unfold reported in *; simpl in *; rewrite -> Hd; exact Hrep. }
  assert (Hst1 : lw_store s1 = m) by (by destruct m).
  destruct r as [[]|e]; [by exists s1|].
  unfold of_res, dict_index. rewrite -> Hget.
  destruct (load_failed_spec "connector_load_wait_errors_total" x s0 F s1 Hs1)
    as (s2 & Hrun2 & Hs2 & Hsame & Ht & Hst2).
  exists s2. split; [exact Hrun2|]. split; [congruence|]. split; [done|]. split_and!; [|done|done].
  apply (f_equal fst) in Hst2. cbn in Hst2. by rewrite -> Hst2.
Qed.

Lemma wait_tasks_loop md s0 tasks : ∀ F (s : lwc * W),
  Forall (λ p, dict_get p.1.1 (request_meta md) = Some p.1.2) tasks → stopped s0 F s →
  tasks_cover (task_names tasks) (base_of s) →
  let '(wtd, σ) := attempts await_load tasks (lw_store s) in
  ∃ s', for_each (task_names tasks) (wait_layer_task md) s = (Ok tt, s') ∧ lw_store s' = σ ∧
    stopped s0 (F ++ (raised wtd).*1) s' ∧ load_task_contexts (rank_consistency (base s'.1)) = ∅ ∧
    load_tasks s'.1 = load_tasks s.1 ∧ same_requests s s'.
Proof.
  induction tasks as [|[x t] tasks IH]; intros F s Hget Hstop Hcov.
  { cbn. rewrite -> app_nil_r. exists s. split_and!; try done. apply map_eq. intros k.
    rewrite -> lookup_empty. destruct (load_task_contexts _ !! k) eqn:Hk; [|done].
    assert (Hin : k ∈ ([] : dict string task).*2) by (apply Hcov; unfold base_of; simpl; eauto).
    by apply elem_of_nil in Hin. }
  apply Forall_cons in Hget as [Hgx Hget]. unfold task_names. csimpl. cbn [for_each attempts]. fold (task_names tasks).
  destruct (wait_layer_task_spec md s0 x t F s Hgx Hstop) as (s1 & Hrun & Hst & Hs1 & Hc1 & Ht1 & Hsame). mrun Hrun.
  destruct (await_load (x, t) (lw_store s)) as [r σ1]. cbn [fst snd] in *. subst σ1.
  set (F1 := match r with Ok _ => F | Raise _ => F ++ [x] end) in *.
  specialize (IH F1 s1 Hget Hs1).
  destruct (attempts await_load tasks (lw_store s1)) as [wtd σ].
  destruct IH as (s' & Hrun' & Hst' & Hs' & Hc' & Ht' & Hsame').
  - intros t' Hin. unfold base_of in Hin. simpl in Hin. rewrite -> Hc1, lookup_delete_is_Some in Hin.
    destruct Hin as [Hne Hin]. specialize (Hcov t' Hin). unfold task_names in Hcov. csimpl in Hcov.
    apply elem_of_cons in Hcov as [?|?]; [|done]. simpl in *. congruence.
  - exists s'. split; [exact Hrun'|]. split; [done|]. split.
    { replace (F ++ (raised (((x, t), r) :: wtd)).*1) with (F1 ++ (raised wtd).*1); [done|].
      unfold F1. destruct r; cbn; [done|]. by rewrite <- app_assoc. }
    split; [done|]. split; [congruence|]. by eapply same_requests_trans.
Qed.

(** The connector after [start_load_kv] and waits for the first [m] layers: all the
    loads of these layers are over, those of the next layer are submitted. *)
Definition next_loads (md : UCMConnectorMetadata) (m : nat) (failed : list request) (σ : manager * W) :
    list (request * res task) * (manager * W) :=
  match lw_layer_ids lcf !! m with
  | Some layer => attempts (layer_submit layer (Z.of_nat m)) (alive md failed) σ
  | None => ([], σ)
  end.

Definition pass_at (md : UCMConnectorMetadata) (first : Z) (s0 : conn * W) (m : nat) (s : lwc * W) : Prop :=
  let '(failed, σ) := layers_run md (take m (lw_layer_ids lcf)) 0 [] (store_of s0) in
  let '(submitted, σ') := next_loads md m failed σ in
  lw_store s = σ' ∧ batch_ok md s ∧ stopped s0 (failed ++ raised submitted) s ∧
  loading (first + Z.of_nat m) (returned submitted) s.

(** The metric and the clock at the end of [wait_for_layer_load]. *)
Lemma layer_epilogue x now s0 F layer tasks (s : lwc * W) :
  ∃ s', (on_base (update_stats x) ;; updl (set_prev_wait_end (Some now))) s = (Ok tt, s') ∧
    lw_store s' = lw_store s ∧ same_requests s s' ∧
    (stopped s0 F s → stopped s0 F s') ∧ (loading layer tasks s → loading layer tasks s').
Proof. eexists. split; [reflexivity|]. by split_and!. Qed.

Lemma loading_none layer (s : lwc * W) :
  load_task_contexts (rank_consistency (base s.1)) = ∅ → (∀ k, dict_get k (load_tasks s.1) = None) →
  loading layer [] s.
Proof.
  intros Hc Hn. split.
  - intros k. by rewrite -> Hn, decide_False by (intros [_ Hne]; done).
  - intros t [x Hx]. unfold base_of in Hx. simpl in Hx. by rewrite -> Hc, lookup_empty in Hx.
Qed.

Section pass.
  Variable md : UCMConnectorMetadata.
  Variable first : Z.
  Variable n : nat.
  Variable s0 : conn * W.
  Hypothesis Hmd : connector_metadata s0.1 = Some md.
  Hypothesis Hnd : NoDup (md_keys md).
  Hypothesis Hids : lw_layer_ids lcf = seqZ first (Z.of_nat n).

Lemma layer_lookup m : (m < n)%nat → lw_layer_ids lcf !! m = Some (first + Z.of_nat m).
Proof. intros Hm. rewrite -> Hids. apply lookup_seqZ. lia. Qed.

Lemma returned_get {B} sub (σ σ' : manager * W) (m : request → M (manager * W) B) failed :
  attempts m (alive md failed) σ = (sub, σ') →
  Forall (λ p, dict_get p.1.1 (request_meta md) = Some p.1.2) (returned sub).
Proof.
  intros Heq. pose proof (attempts_keys m (alive md failed) σ) as Hkeys. rewrite -> Heq in Hkeys.
  apply Forall_forall. intros [x t] Hin. simpl in Hkeys.
  assert (Hin' : x ∈ sub.*1) by (apply returned_sub, list_elem_of_fmap; by exists (x, t)).
  rewrite -> Hkeys in Hin'. apply list_elem_of_filter in Hin' as [_ Hin'].
  destruct (planned_get md Hnd) as [_ Hget]. rewrite -> Forall_forall in Hget. by apply Hget.
Qed.

Lemma wait_for_layer_spec name m now (s : lwc * W) :
  (m < n)%nat → dict_index name (layer_name_to_id (kv_cache_layout cf)) = Ok (first + Z.of_nat m) →
  pass_at md first s0 m s →
  ∃ s', wait_for_layer_load lcf name now s = (Ok tt, s') ∧ pass_at md first s0 (S m) s'.
Proof.
  intros Hm Hname. unfold pass_at. rewrite -> (take_S_r _ m (first + Z.of_nat m)), layers_run_app by (by apply layer_lookup).
  destruct (layers_run md (take m (lw_layer_ids lcf)) 0 [] (store_of s0)) as [failed σ].
  assert (Hlen : zlen (take m (lw_layer_ids lcf)) = Z.of_nat m).
  { unfold zlen. rewrite -> length_take, Hids, length_seqZ. lia. }
  rewrite -> Hlen. unfold next_loads at 1. rewrite -> (layer_lookup m Hm). cbn [layers_run].
  replace (0 + Z.of_nat m) with (Z.of_nat m) by lia.
  destruct (attempts (layer_submit (first + Z.of_nat m) (Z.of_nat m)) (alive md failed) σ) as [sub σ1] eqn:Hsub.
  pose proof (returned_get _ _ _ _ _ Hsub) as Hget. intros (Hst & Hok & Hstop & Hload).
  assert (Hmds : connector_metadata (base s.1) = Some md).
  { destruct Hstop as [(_ & _ & _ & _ & Hm' & _) _]. unfold base_of in Hm'. simpl in Hm'. by rw Hm'. }
  assert (Hnext : bool_decide (first + Z.of_nat m + 1 ∈ lw_layer_ids lcf) = bool_decide (S m < n)%nat).
  { apply bool_decide_ext. rewrite -> Hids, elem_of_seqZ. lia. }
  unfold wait_for_layer_load. fold cf. mstep. mstep. rw Hmds.
  destruct (need_load s.1) eqn:Hneed; cbn [negb].
  2:{ destruct Hok as [Hes Hnil]. specialize (Hnil Hneed). pose proof Hes as Hes'. rewrite -> Hnil in Hes'.
      apply Forall2_nil_inv_r in Hes'.
      assert (Hal : ∀ F, alive md F = []) by (intros F; unfold alive; by rewrite -> Hes').
      rewrite -> Hal in Hsub. cbn in Hsub. injection Hsub as <- <-. cbn [attempts returned raised omap list_omap app fmap list_fmap].
      rewrite -> !app_nil_r in *. exists s. split; [reflexivity|].
      assert (Hnl : next_loads md (S m) failed σ = ([], σ)).
      { unfold next_loads. rewrite -> Hal. by destruct (lw_layer_ids lcf !! S m). }
      rewrite -> Hnl. cbn. rewrite -> app_nil_r. split; [done|]. split; [done|]. split; [done|].
      destruct Hload as [Hk Hc]. split; [|exact Hc]. intros k. rewrite -> Hk.
      by rewrite -> !decide_False by (intros [_ []]; done). }
  mrun (f_equal (λ r, (r, s)) Hname : of_res _ s = _). mstep. mstep.
  rewrite -> (loading_tasks _ _ _ Hload). destruct Hload as [Hk Hcov].
  set (s1 := (set_load_tasks (dict_del (first + Z.of_nat m) (load_tasks s.1)) s.1, s.2)).
  assert (Hnone : ∀ k, dict_get k (load_tasks s1.1) = None).
  { intros k. unfold s1. simpl. rewrite -> dict_get_del. destruct (decide (first + Z.of_nat m = k)) as [|Hd]; [done|].
    rewrite -> Hk, decide_False; [done|]. intros [Heq _]. congruence. }
  pose proof (wait_tasks_loop md s0 (returned sub) (failed ++ raised sub) s1 Hget Hstop Hcov) as Hwait.
  change (lw_store s1) with (lw_store s) in Hwait. rewrite -> Hst in Hwait.
  destruct (attempts await_load (returned sub) σ1) as [wtd σ2].
  destruct Hwait as (s2 & Hrun2 & Hst2 & Hs2 & Hc2 & Ht2 & Hsame2). mrun Hrun2. cbn zeta.
  rewrite <- app_assoc in Hs2. set (failed' := failed ++ raised sub ++ (raised wtd).*1) in *.
  assert (Hok2 : batch_ok md s2) by (by apply (batch_ok_same md s1)).
  assert (Hl2 : ∀ layer, loading layer [] s2).
  { intros layer. apply loading_none; [done|]. intros k. by rewrite -> Ht2. }
  rewrite -> Hnext. clear Hnext. case_bool_decide as Hlt.
  - assert (Hfirst : first_layer lcf = Ok first).
    { unfold first_layer. rewrite -> Hids. destruct n as [|n']; [lia|]. rewrite -> seqZ_cons by lia. done. }
    pose proof (submit_layer_spec md (first + Z.of_nat (S m)) (Z.of_nat (S m)) s0 failed' s2
      Hnd Hs2 Hok2 (Hl2 _)) as Hnx.
    unfold next_loads. rewrite -> (layer_lookup (S m) Hlt).
    replace (first + Z.of_nat m + 1) with (first + Z.of_nat (S m)) by lia. rewrite -> Hst2 in Hnx.
    destruct (attempts (layer_submit (first + Z.of_nat (S m)) (Z.of_nat (S m))) (alive md failed') σ2) as [sub' σ3].
    destruct Hnx as (s3 & Hrun3 & Hst3 & Hsame3 & Hs3 & Hl3).
    erewrite M_bind_Ok by (mrun (f_equal (λ r, (r, s2)) Hfirst : of_res _ s2 = _);
      replace (first + Z.of_nat (S m) - first) with (Z.of_nat (S m)) by lia; exact Hrun3). mstep.
    match goal with |- context [on_base (update_stats ?x)] =>
      destruct (layer_epilogue x now s0 (failed' ++ raised sub') (first + Z.of_nat (S m)) (returned sub') s3)
        as (s' & Hrun & Hst' & Hsame' & Hs' & Hl') end.
    exists s'. split; [exact Hrun|]. split; [congruence|]. split; [|by auto].
    eapply batch_ok_same; [exact Hsame'|]. by apply (batch_ok_same md s2).
  - mstep. mstep. unfold next_loads. rewrite -> lookup_ge_None_2 by (rewrite -> Hids, length_seqZ; lia).
    match goal with |- context [on_base (update_stats ?x)] =>
      destruct (layer_epilogue x now s0 failed' (first + Z.of_nat (S m)) [] s2) as (s' & Hrun & Hst' & Hsame' & Hs' & Hl') end.
    exists s'. split; [exact Hrun|]. cbn. rewrite -> app_nil_r. split; [congruence|]. split; [|by auto].
    by eapply batch_ok_same.
Qed.

(** The forward pass: the layers are awaited in order. *)
Lemma forward_pass now names : ∀ m (s : lwc * W),
  (m + length names ≤ n)%nat →
  Forall2 (λ name layer, dict_index name (layer_name_to_id (kv_cache_layout cf)) = Ok layer)
    names (seqZ (first + Z.of_nat m) (Z.of_nat (length names))) →
  pass_at md first s0 m s →
  ∃ s', for_each names (λ name, wait_for_layer_load lcf name now) s = (Ok tt, s') ∧
    pass_at md first s0 (m + length names) s'.
Proof.
  induction names as [|name names IH]; intros m s Hlen Hnames Hat; cbn [length for_each] in *.
  { exists s. by rewrite -> Nat.add_0_r. }
  rewrite -> seqZ_cons in Hnames by lia. apply Forall2_cons in Hnames as [Hname Hnames].
  destruct (wait_for_layer_spec name m now s ltac:(lia) Hname Hat) as (s1 & Hrun & Hnext). mrun Hrun.
  rewrite -> Nat.add_succ_r. apply (IH (S m)); [lia| |done].
  replace (Z.succ (first + Z.of_nat m)) with (first + Z.of_nat (S m)) in Hnames by lia.
  by replace (Z.pred (Z.of_nat (S (length names)))) with (Z.of_nat (length names)) in Hnames by lia.
Qed.

(** ** The start of a batch *)

Lemma collect_load_loop reqs : ∀ xs (s s' : lwc * W),
  for_each reqs (collect_load lcf) s = (Ok tt, s') → Forall2 entry_for xs (request_data s.1) →
  (need_load s.1 = false → request_data s.1 = []) →
  Forall2 entry_for (xs ++ filter (λ x, (load_block_ids x.2).1 ≠ []) reqs) (request_data s'.1) ∧
  (need_load s'.1 = false → request_data s'.1 = []) ∧
  base_of s' = base_of s ∧ load_tasks s'.1 = load_tasks s.1 ∧ failure_req_ids s'.1 = failure_req_ids s.1.
Proof.
  induction reqs as [|x reqs IH]; intros xs s s' Hrun Hxs Hneed.
  { unfold for_each, mret, M_ret in Hrun. simplify_eq. by rewrite -> app_nil_r. }
  cbn [for_each] in Hrun. unfold mbind, M_bind, collect_load at 1 in Hrun. rewrite -> filter_cons.
  destruct (load_block_ids x.2).1 as [|b ids] eqn:Hb.
  { rewrite -> decide_False by (intros []; done). by apply (IH xs s s' Hrun). }
  rewrite -> decide_True by done.
  unfold updl, modify, of_res, mbind, M_bind in Hrun. cbn [fst snd] in Hrun.
  destruct (layer_addrs lcf (load_block_ids x.2).2) as [ptrs|e] eqn:Haddr; [|done].
  apply (IH (xs ++ [x])) in Hrun; [|simpl|done].
  - by rewrite <- app_assoc in Hrun.
  - apply Forall2_app; [done|]. apply Forall2_cons. split; [|constructor]. exists ptrs. split; [done|]. by rewrite -> Hb.
Qed.

Lemma on_base_metadata (s : lwc * W) :
  connector_metadata (base s.1) = Some md → on_base _get_connector_metadata s = (Ok md, s).
Proof.
  intros Hm. unfold on_base, lift, _get_connector_metadata, getc. munfold. rw Hm. simpl.
  by destruct s as [[] ?].
Qed.

Lemma lw_start_spec now (s s' : lwc * W) :
  s0 = base_of s → load_task_contexts (rank_consistency (base s.1)) = ∅ → (0 < n)%nat →
  start_load_kv lcf now s = (Ok tt, s') → pass_at md first s0 0 s'.
Proof.
  intros Hs0 Hctx Hn. unfold start_load_kv. rewrite -> Hs0 in Hmd.
  mstep. erewrite M_bind_Ok by (apply on_base_metadata; exact Hmd). mstep.
  match goal with |- (_ ≫= _) ?st = _ → _ => set (s1 := st) end.
  destruct (for_each (request_meta md) (collect_load lcf) s1) as [[[]|e] s2] eqn:Hloop;
    [|by erewrite M_bind_Raise by exact Hloop].
  destruct (collect_load_loop (request_meta md) [] s1 s2 Hloop) as (Hes & Hneed & Hb2 & Ht2 & Hf2);
    [constructor|done|]. cbn [app] in Hes. fold (planned md) in Hes.
  assert (Hbase : base_of s2 = s0) by (rewrite -> Hb2, Hs0; by destruct s as [[] ?]).
  mrun Hloop. mstep.
  assert (Hstop : stopped s0 [] s2).
  { split; [rewrite -> Hbase; apply reported_nil|]. by rewrite -> Hf2. }
  assert (Hl2 : loading (first + Z.of_nat 0) [] s2).
  { apply loading_none; [|intros k; by rewrite -> Ht2].
    rewrite <- Hbase in Hs0. unfold base_of in Hs0. by injection Hs0 as -> _. }
  unfold pass_at, next_loads. change (take 0 (lw_layer_ids lcf)) with (@nil Z). cbn [layers_run]. rewrite -> (layer_lookup 0 Hn).
  destruct (need_load s2.1) eqn:Hnl.
  - assert (Hfirst : first_layer lcf = Ok first).
    { unfold first_layer. rewrite -> Hids. destruct n as [|n']; [lia|]. rewrite -> seqZ_cons by lia. done. }
    assert (Hok2 : batch_ok md s2) by (split; [exact Hes|by rewrite -> Hnl]).
    pose proof (submit_layer_spec md first 0 s0 [] s2 Hnd Hstop Hok2) as Hsub.
    rewrite -> Hbase in Hsub. change (Z.of_nat 0) with 0 in *. rewrite -> Z.add_0_r in *. specialize (Hsub Hl2).
    destruct (attempts (layer_submit first 0) (alive md []) (store_of s0)) as [sub σ].
    destruct Hsub as (s3 & Hrun3 & Hst3 & [Hd3 Hn3] & Hs3 & Hl3).
    mrun (f_equal (λ r, (r, s2)) Hfirst : of_res _ s2 = _). mrun Hrun3. mstep.
    intros [= <-]. split; [exact Hst3|]. split; [|split; [exact Hs3|exact Hl3]].
    split; simpl; [by rewrite -> Hd3|by rewrite -> Hn3, Hnl].
  - intros [= <-]. specialize (Hneed eq_refl). pose proof Hes as Hes'. rewrite -> Hneed in Hes'.
    apply Forall2_nil_inv_r in Hes'. unfold alive. rewrite -> Hes'. cbn. rewrite -> Hbase. by split_and!.
Qed.

End pass.

(** Deferred dumps are only kept by [save_kv_layer]. *)
Lemma wait_for_save_clears now (s : lwc * W) : deferred_mtp_dumps (wait_for_save lcf now s).2.1 = [].
Proof.
  set (P := λ s : lwc * W, deferred_mtp_dumps s.1 = []).
  assert (Hb : ∀ A (m : M (conn * W) A), preserves P (on_base m)).
  { intros A m t Ht. unfold on_base, lift. by destruct (m _) as [r [c w]]. }
  assert (Hu : ∀ f, (∀ c, deferred_mtp_dumps (f c) = deferred_mtp_dumps c) → preserves P (updl (W := W) f)).
  { intros f Hf t Ht. unfold updl, modify, P in *. simpl. by rw Hf. }
  assert (Hsub : ∀ id ucm vllm ids, preserves P (_submit_layerwise_dump_task lcf id ucm vllm ids)).
  { intros id ucm vllm ids. unfold _submit_layerwise_dump_task, batch_ptrs. case_decide; [apply preserves_ret|].
    apply preserves_bind; [apply Hb|]. intros md.
    apply preserves_bind; [apply preserves_of_res|]. intros d.
    apply preserves_bind; [apply preserves_of_res|]. intros first.
    apply preserves_bind; [|intros ptrs; apply Hb].
    apply preserves_bind; [apply preserves_gets|]. intros [m|]; [apply preserves_ret|].
    apply preserves_bind; [apply preserves_of_res|]. intros p.
    apply preserves_bind; [by apply Hu|]. intros _. apply preserves_ret. }
  unfold wait_for_save, _flush_deferred_mtp_dumps.
  assert (Hflush : ∀ d, P ((updl (set_deferred []) ;; for_each (merge_sort Z.le d.*1) (λ layer_id,
    '(u, v, r) ← of_res (dict_index layer_id d); _submit_layerwise_dump_task lcf layer_id u v r)) s).2).
  { intros d. mstep. apply preserves_for_each; [|done]. intros id _.
    apply preserves_bind; [apply preserves_of_res|]. intros [[u v] r]. apply Hsub. }
  specialize (Hflush (deferred_mtp_dumps s.1)).
  match goal with |- deferred_mtp_dumps (?m s).2.1 = [] => change (P (m s).2) end.
  unfold mbind at 1, M_bind at 1. erewrite (M_bind_Ok (getl _)) by reflexivity. cbn [fst snd].
  destruct ((updl (set_deferred []) ;; _) s) as [[[]|e] s1]; [|done]. simpl in Hflush.
  revert s1 Hflush.
  match goal with |- ∀ s1, _ → P (?k s1).2 => change (preserves P k) end.
  apply preserves_bind; [apply Hb|]. intros _. apply preserves_bind; [apply Hb|]. intros _.
  apply preserves_bind; [apply preserves_gets|]. intros md.
  apply preserves_bind; [destruct md; [apply Hb|apply preserves_ret]|]. intros _.
  apply preserves_bind.
  { apply preserves_bind; [apply preserves_gets|]. intros c. destruct (batch_start c); [|apply preserves_ret].
    apply preserves_bind; [by apply Hu|]. intros _. apply preserves_ret. }
  intros batch. apply preserves_bind; [destruct batch; [apply preserves_ret|apply Hb]|].
  intros _. by apply Hu.
Qed.
End layerwise.

(** ** Properties *)

(** C9: In a layerwise batch the loads are awaited layer by layer: once
    [start_load_kv] returned, waiting for the first layers of the model in order
    never raises, and the store and the manager are then where they get by submitting
    the loads of each of these layers for the requests that have not failed, awaiting
    all of them, going on to the next layer, and submitting those of the layer that
    comes next.  The outstanding loads are those just submitted for that layer, so
    none is left after the last one.  The requests reported, both as failed and by
    their invalid blocks, are those for which a submission or a wait raised. *)
Theorem layerwise_loads_settled {W} `{StoreOps W} `{DeviceOps W} `{SetOrder} `{PyHash} lcf md
    first n names t0 t1 (s s1 : lwc * W) :
  connector_metadata (base s.1) = Some md → NoDup (md_keys md) →
  load_task_contexts (rank_consistency (base s.1)) = ∅ →
  lw_layer_ids lcf = seqZ first (Z.of_nat n) → (0 < n)%nat → (length names ≤ n)%nat →
  Forall2 (λ name layer, dict_index name (layer_name_to_id (kv_cache_layout (lw_cf lcf))) = Ok layer)
    names (take (length names) (lw_layer_ids lcf)) →
  start_load_kv lcf t0 s = (Ok tt, s1) →
  let '(failed, σ) := layers_run lcf md (take (length names) (lw_layer_ids lcf)) 0 [] (store_of (base_of s)) in
  let '(submitted, σ') := next_loads lcf md (length names) failed σ in
  let reports := failed ++ raised submitted in
  ∃ s2, for_each names (λ name, wait_for_layer_load lcf name t1) s1 = (Ok tt, s2) ∧
    store_of (base_of s2) = σ' ∧
    invalid_block_ids (base s2.1) =
      invalid_block_ids (base s.1) ∪ list_to_set (concat ((λ x, failed_blocks x.2) <$> reports)) ∧
    wm_load_failed_reqs (connector_worker_meta (base s2.1)) =
      wm_load_failed_reqs (connector_worker_meta (base s.1)) ∪ list_to_set reports.*1 ∧
    ∀ t, is_Some (load_task_contexts (rank_consistency (base s2.1)) !! t) → t ∈ (returned submitted).*2.
Proof.
  intros Hmd Hnd Hctx Hids Hn Hlen Hnames Hstart.
  pose proof (lw_start_spec lcf md first n (base_of s) Hmd Hnd Hids t0 s s1 eq_refl Hctx Hn Hstart) as Hat.
  destruct (forward_pass lcf md first n (base_of s) Hmd Hnd Hids t1 names 0 s1) as (s2 & Hrun & Hend); [lia| |done|].
  { rewrite -> Hids in Hnames. rewrite -> Z.add_0_r.
    replace (Z.of_nat n) with (Z.of_nat (length names) + Z.of_nat (n - length names)) in Hnames by lia.
    rewrite -> seqZ_app, take_app_length' in Hnames by (rewrite -> ?length_seqZ; lia). exact Hnames. }
  cbn [Nat.add] in Hend. unfold pass_at in Hend.
  destruct (layers_run lcf md (take (length names) (lw_layer_ids lcf)) 0 [] (store_of (base_of s))) as [failed σ].
  destruct (next_loads lcf md (length names) failed σ) as [submitted σ'].
  destruct Hend as (Hst & _ & [(Hi & Hf & _) _] & [_ Hcov]). exists s2. split_and!; try done.
  intros t Ht. specialize (Hcov t Ht). unfold task_names in Hcov. by rewrite <- list_fmap_compose in Hcov.
Qed.

(** A layerwise worker over the two layers of [ex_kvcaches], the second of which
    counts as a draft layer when [mtp] is set. *)
Definition ex_lcf (mtp : bool) : lw_conf :=
  LwConf (Conf true false 0 1 4 4 1 [] [] None true false 0 1 (ex_layout true) 2048) [0; 1]
    (if mtp then Some 1 else None) (if mtp then Some 2 else None).

Definition ex_lw (present : list (sref * bytes)) (md : UCMConnectorMetadata) : lwc * sim :=
  (init_lwc (set_metadata (Some md)
     (set_dev (Some (Device CUDA ∅)) (init_conn false None false))), sim_init present []).

Definition ex_load_plan : UCMConnectorMetadata :=
  ConnMetadata [("a", DispatchMeta ([[1]], [1]) ([], [])); ("b", DispatchMeta ([[2]], [2]) ([], []))] ∅.

(** The load of the second request fails on the first layer, so it is not made on
    the second one. *)
Lemma layerwise_loads_settled_witness :
  let s := ex_lw [(1, [1])] ex_load_plan in
  let s1 := (start_load_kv (ex_lcf false) 3 s).2 in
  ∃ s2, for_each ["model.layers.0.attn"] (λ name, wait_for_layer_load (ex_lcf false) name 5) s1 = (Ok tt, s2) ∧
    invalid_block_ids (base s2.1) = {[2]} ∧ wm_load_failed_reqs (connector_worker_meta (base s2.1)) = {["b"]} ∧
    ∀ t, is_Some (load_task_contexts (rank_consistency (base s2.1)) !! t) → t ∈ [3].
Proof.
  intros s s1.
  pose proof (layerwise_loads_settled (ex_lcf false) ex_load_plan 0 2 ["model.layers.0.attn"] 3 5 s s1
    eq_refl ltac:(apply (bool_decide_unpack _); vm_compute; done) eq_refl eq_refl ltac:(lia) ltac:(simpl; lia)
    ltac:(repeat constructor) ltac:(vm_compute; reflexivity)) as Hrep.
  set (run := layers_run (ex_lcf false) ex_load_plan (take (length ["model.layers.0.attn"]) (lw_layer_ids (ex_lcf false))) 0 []
    (store_of (base_of s))) in Hrep.
  assert (Hf : run.1 = [("b", DispatchMeta ([[2]], [2]) ([], []))]) by (vm_compute; reflexivity).
  assert (Hn : raised (next_loads (ex_lcf false) ex_load_plan 1 run.1 run.2).1 = [] ∧
    (returned (next_loads (ex_lcf false) ex_load_plan 1 run.1 run.2).1).*2 = [3]) by (vm_compute; done).
  clearbody run. destruct run as [failed σ]. cbn [fst snd] in Hf, Hn. subst failed.
  change (length ["model.layers.0.attn"]) with 1%nat in Hrep.
  destruct (next_loads _ _ 1 _ σ) as [submitted σ']. cbn [fst snd] in Hn. destruct Hn as [Hn1 Hn2].
  rewrite -> Hn1, Hn2 in Hrep. destruct Hrep as (s2 & Hrun & _ & Hi & Hw & Ht). exists s2.
  split; [exact Hrun|]. split; [by rewrite -> Hi|]. split; [by rewrite -> Hw|exact Ht].
Defined.

(** The guarantees about dumps carry over to the layerwise connector: in
    every state reachable by any interleaving of its layer callbacks with the
    inherited calls, live events belong to pending dumps, and [get_finished]
    returns, reports the finished requests that had dumps, and leaves no pending
    or outstanding dump that names one of them. *)
Theorem layerwise_dumps_settle {W} `{StoreOps W} `{DeviceOps W} `{SetOrder} `{PyHash} lcf
    (s0 s : lwc * W) ids :
  fresh_worker (base_of s0) → rtc (lw_step lcf) s0 s →
  let done_ids := ids ∩ async_dump_req_ids (base s.1) in
  (∀ dv h, dev (base s.1) = Some dv → is_Some (events dv !! h) → h ≠ 0 →
     ∃ p, p ∈ pending_dump_tasks (base s.1) ∧ pd_event_handle p = h) ∧
  ∃ s', get_finished (lw_cf lcf) ids (base_of s) =
      (Ok (if decide (done_ids = ∅) then None else Some done_ids), s') ∧
    (∀ p, p ∈ pending_dump_tasks s'.1 → pd_request_ids p ∩ done_ids = ∅) ∧
    done_ids ∩ pending_request_ids (rank_consistency s'.1) = ∅.
Proof.
  intros Hf Hr done_ids.
  pose proof (lw_reach_inv lcf _ _ Hr (fresh_worker_inv (lw_cf lcf) _ Hf)) as Hinv. split.
  - destruct Hinv as [_ He]. intros dv h Hd Hh Hne. by destruct (He dv h Hd Hh Hne).
  - destruct (get_finished_spec (lw_cf lcf) ids (base_of s) Hinv) as (s' & Hrun & _ & _ & Hp & Hfree).
    exists s'. split; [exact Hrun|]. split; [|done]. intros p Hin. by apply Hp.
Qed.

Definition ex_lw_dumped : lwc * sim :=
  (save_kv_layer (ex_lcf false) "model.layers.1.attn"
    (on_base (bind_connector_metadata ex_plan) (ex_lw [] ex_load_plan)).2).2.

Lemma layerwise_dumps_settle_witness :
  let s0 := (init_lwc ex_worker.1, ex_worker.2) : lwc * sim in
  let s := (save_kv_layer (ex_lcf false) "model.layers.1.attn"
              (on_base (bind_connector_metadata ex_plan) s0).2).2 in
  length (pending_dump_tasks (base s.1)) = 1%nat ∧
  ∃ s', get_finished (lw_cf (ex_lcf false)) {["r"]} (base_of s) =
      (Ok (if decide (({["r"]} : gset string) ∩ async_dump_req_ids (base s.1) = ∅) then None
           else Some ({["r"]} ∩ async_dump_req_ids (base s.1))), s').
Proof.
  intros s0 s. split; [vm_compute; reflexivity|].
  assert (Hr : rtc (lw_step (ex_lcf false)) s0 s).
  { eapply rtc_l; [|apply rtc_once; apply lw_step_save_layer].
    apply (lw_step_base (ex_lcf false) s0 (bind_connector_metadata ex_plan)).
    intros t. apply (step_bind _ t ex_plan). }
  destruct (layerwise_dumps_settle (ex_lcf false) s0 s {["r"]} ex_worker_fresh Hr) as (_ & s' & Hrun & _).
  exists s'. exact Hrun.
Defined.

(** Dumps of multi-token-prediction layers are deferred: saving such a layer
    never touches the store, the pending dumps or the device; it records the
    dump batch of the layer, replacing the record of an earlier run of the same
    layer in the batch, so that only the last run is dumped; and when the batch
    ends no deferred dump is left for the next one. *)
Theorem mtp_dumps_deferred {W} `{StoreOps W} `{DeviceOps W} `{SetOrder} `{PyHash} lcf md name layer
    now (s : lwc * W) :
  connector_metadata (base s.1) = Some md →
  dict_index name (layer_name_to_id (kv_cache_layout (lw_cf lcf))) = Ok layer →
  _is_mtp_layer lcf layer = true →
  ∃ s', save_kv_layer lcf name s = (Ok tt, s') ∧ s'.2 = s.2 ∧
    pending_dump_tasks (base s'.1) = pending_dump_tasks (base s.1) ∧
    dev (base s'.1) = dev (base s.1) ∧
    (let batch := foldl (layer_save_step lcf) ([], [], ∅) (request_meta md) in
     deferred_mtp_dumps s'.1 =
       if (cf_is_mla (lw_cf lcf) && negb (lw_rank0 lcf)) || bool_decide (batch.2 = ∅)
       then deferred_mtp_dumps s.1
       else dict_set layer batch (deferred_mtp_dumps s.1)) ∧
    deferred_mtp_dumps (wait_for_save lcf now s').2.1 = [].
Proof.
  intros Hmd Hname Hmtp.
  assert (Hgoal : ∃ s', save_kv_layer lcf name s = (Ok tt, s') ∧ s'.2 = s.2 ∧
    pending_dump_tasks (base s'.1) = pending_dump_tasks (base s.1) ∧
    dev (base s'.1) = dev (base s.1) ∧
    deferred_mtp_dumps s'.1 =
      (let batch := foldl (layer_save_step lcf) ([], [], ∅) (request_meta md) in
       if (cf_is_mla (lw_cf lcf) && negb (lw_rank0 lcf)) || bool_decide (batch.2 = ∅)
       then deferred_mtp_dumps s.1 else dict_set layer batch (deferred_mtp_dumps s.1))).
  { unfold save_kv_layer. mstep. rw Hmd.
    destruct (cf_is_mla (lw_cf lcf) && negb (lw_rank0 lcf)); [by exists s|].
    mrun (f_equal (λ r, (r, s)) Hname : of_res _ s = _).
    destruct (foldl _ _ (request_meta md)) as [[ucm vllm] ids]. simpl.
    unfold mbind, M_bind. destruct (decide (ids = ∅)) as [He|He].
    - rewrite -> bool_decide_eq_true_2 by done. unfold getl, gets, mret, M_ret. cbn [fst snd].
      destruct (is_save s.1); eexists; (split; [reflexivity|]); split_and!; done.
    - rewrite -> bool_decide_eq_false_2 by done. rewrite -> Hmtp.
      unfold updl, modify, getl, gets. cbn. eexists. split; [reflexivity|]. split_and!; done. }
  destruct Hgoal as (s' & Hrun & Hw & Hp & Hd & Hdef). exists s'.
  split_and!; try done. apply wait_for_save_clears.
Qed.

Lemma mtp_dumps_deferred_witness :
  let s := (on_base (bind_connector_metadata ex_plan) (ex_lw [] ex_load_plan)).2 in
  ∃ s', save_kv_layer (ex_lcf true) "model.layers.1.attn" s = (Ok tt, s') ∧ s'.2 = s.2 ∧
    deferred_mtp_dumps s'.1 = [(1, ([[1]; [2]], [0; 1], {["r"]}))].
Proof.
  intros s.
  destruct (mtp_dumps_deferred (ex_lcf true) ex_plan "model.layers.1.attn" 1 5 s eq_refl eq_refl eq_refl)
    as (s' & Hrun & Hw & _ & _ & Hdef & _).
  exists s'. split; [exact Hrun|]. split; [exact Hw|]. rewrite Hdef. vm_compute. reflexivity.
Defined.
