(* ===== verification/Variants.v ===== *)
(** * Variants of the direct connector

    The connectors of [ucm_connector.py] that specialise the direct and the
    layerwise one: [UCMCPConnector] for context parallelism, whose workers each
    transfer their share of the planned blocks; [UCMMockConnector], which lowers
    the hit ratio for benchmarks; [UCMLiteConnector], which only hashes; and the
    unfinished [UCMPDConnector]. *)
From S2P Require Import Prelude Runtime RankConsistency PyHash Hashing KVLayout Direct DirectWorker LayerWise DispatchProps SchedProps Sim.
From Stdlib Require Import SpecFloat.
Open Scope Z_scope.

(** ** Context parallelism *)

(** The process groups and sizes [UCMCPConnector.__init__] reads; [cp_groups]
    is [None] when a group is not initialised, which it treats as sizes 1 and
    ranks 0: world size and rank of the prefill, then of the decode group. *)
Record cp_env := CpEnv {
  cp_launch_layerwise : bool;
  cp_groups : option (Z * Z * Z * Z);
  prefill_context_parallel_size : Z;
  decode_context_parallel_size : Z;
}.

Record cp_ranks := CpRanks {
  pcp_world_size : Z;
  pcp_rank : Z;
  dcp_world_size : Z;
  dcp_rank : Z;
}.

Definition init_cp_ranks (env : cp_env) : cp_ranks :=
  match cp_groups env with
  | Some (pcp_size, pcp_rank, dcp_size, dcp_rank) =>
      CpRanks pcp_size (if 1 <? pcp_size then pcp_rank else 0) dcp_size dcp_rank
  | None => CpRanks 1 0 1 0
  end.

(** [self.current_rank] *)
Definition current_rank (env : cp_env) : Z :=
  let r := init_cp_ranks env in dcp_world_size r * pcp_rank r + dcp_rank r.

Definition env_cp_world_size (env : cp_env) : Z :=
  prefill_context_parallel_size env * decode_context_parallel_size env.

(** [_consistency_manager_enabled] of the variant. *)
Definition cp_consistency_manager_enabled (configured : option bool) : res bool :=
  if default false configured then
    Raise (ValueError "Rank consistency manager is not supported by UCMCPConnector.")
  else Ok false.

(** The attributes [UCMCPConnector.__init__] changes after its parent's. The
    metadata of the hashers is computed with the tensor parallel size divided
    among the decode ranks. *)
Definition cp_init_conf `{PyHash} (env : cp_env) (is_scheduler : bool) (hc : hash_conf)
    (scheduler_store : sref) (cf : conf) : conf :=
  let dcp := dcp_world_size (init_cp_ranks env) in
  let tp_rank := tp_rank cf mod tp_size cf / dcp in
  let hc := if cf_is_mla cf then hc
            else HashConf (hc_model hc) (hc_tensor_parallel_size hc / dcp) (hc_dtype hc)
                   (hc_speculative hc) (hc_sparse_sfa_c8 hc) (hc_sparse_li_c8 hc) in
  Conf (cp_launch_layerwise env) (cf_is_mla cf) tp_rank (tp_size cf)
    (cf_block_size cf * env_cp_world_size env) (hash_block_size cf) (env_cp_world_size env)
    (meta_bytes hc (if is_scheduler then 0 else tp_rank))
    (if is_scheduler then make_other_rank_hashers (cf_is_mla cf) hc else other_rank_hashers cf)
    (speculative_tokens cf) (enable_event_sync cf) (skip_null_vllm_blocks cf)
    (persist_token_threshold cf) (if is_scheduler then scheduler_store else store cf)
    (kv_cache_layout cf) (block_data_size cf).

(** One transfer of a request reduced to the blocks of this rank. *)
Definition cp_share (env : cp_env) (p : list bytes * list Z) : list bytes * list Z :=
  match p.1 with
  | [] => p
  | ucm_block_ids => (py_stride ucm_block_ids (current_rank env) (env_cp_world_size env), p.2)
  end.

Definition cp_request (env : cp_env) (d : RequestDispatchMeta) : RequestDispatchMeta :=
  DispatchMeta (cp_share env (load_block_ids d)) (cp_share env (dump_block_ids d)).

Section cp.
  Context {W : Type} `{StoreOps W} `{DeviceOps W} `{SetOrder} `{PyHash}.
  Variable env : cp_env.
  Variable lcf : lw_conf.

Definition cp_bind_connector_metadata (m : UCMConnectorMetadata) : M (lwc * W) unit :=
  on_base (bind_connector_metadata
    (ConnMetadata ((λ x, (x.1, cp_request env x.2)) <$> request_meta m) (preempted_req_ids m))).

Definition cp_start_load_kv (load_start_time load_end_time : Z) : M (lwc * W) unit :=
  if cp_launch_layerwise env then LayerWise.start_load_kv lcf load_start_time
  else on_base (DirectWorker.start_load_kv (lw_cf lcf) load_start_time load_end_time).

Definition cp_wait_for_layer_load (layer_name : string) (wait_end : Z) : M (lwc * W) unit :=
  if cp_launch_layerwise env then wait_for_layer_load lcf layer_name wait_end else mret tt.

Definition cp_save_kv_layer (layer_name : string) : M (lwc * W) unit :=
  if cp_launch_layerwise env then save_kv_layer lcf layer_name else mret tt.

Definition cp_wait_for_save (start_ms : Z) : M (lwc * W) unit :=
  if cp_launch_layerwise env then LayerWise.wait_for_save lcf start_ms
  else on_base (DirectWorker.wait_for_save (lw_cf lcf) start_ms).

End cp.

(** ** The mock connector *)

(** [float(n)] for an integer [n]. *)
Definition float_of_int (n : Z) : res spec_float :=
  match binary_normalize 53 1024 n 0 false with
  | S754_infinity _ => Raise OverflowError
  | f => Ok f
  end.

(** [int(f)] *)
Definition int_of_float (f : spec_float) : res Z :=
  match f with
  | S754_zero _ => Ok 0
  | S754_infinity _ => Raise OverflowError
  | S754_nan => Raise (ValueError "cannot convert float NaN to integer")
  | S754_finite s m e =>
      let n := if 0 <=? e then Z.pos m * 2 ^ e else Z.pos m / 2 ^ (- e) in
      Ok (if s then - n else n)
  end.

(** [int(hit_ratio * num_prompt_tokens)] *)
Definition expected_hits (hit_ratio : spec_float) (num_prompt_tokens : Z) : res Z :=
  n ← float_of_int num_prompt_tokens; int_of_float (SFmul 53 1024 hit_ratio n).

Section mock.
  Context {W : Type} `{StoreOps W} `{DeviceOps W} `{SetOrder} `{PyHash}.
  Variable cf : conf.
  Variable hit_ratio : spec_float.

(** [get_num_new_matched_tokens] of [UCMMockConnector]. *)
Definition mock_get_num_new_matched_tokens (r : request) (num_computed_tokens : Z) :
    M (conn * W) (Z * bool) :=
  '(hit_tokens, _) ← get_num_new_matched_tokens cf r num_computed_tokens;
  expect_hit_tokens ← of_res (expected_hits hit_ratio (num_prompt_tokens r));
  if hit_tokens <=? expect_hit_tokens then mret (hit_tokens, false) else
  let expect_hit_block_num := expect_hit_tokens / cf_block_size cf in
  metas ← getc requests_meta;
  rm ← of_res (dict_index (request_id r) metas);
  updc (set_requests_meta (dict_set (request_id r)
    (ReqMeta (rm_ucm_block_ids rm) (Z.min expect_hit_block_num (rm_hbm_hit_block_num rm))
       expect_hit_block_num (rm_num_token_ids rm) (rm_vllm_block_ids rm) (rm_token_processed rm))
    metas)) ;;
  mret (expect_hit_block_num * cf_block_size cf, false).

(** ** The connector for disaggregated prefill, not implemented *)

Definition pd_get_num_new_matched_tokens (r : request) (num_computed_tokens : Z) :
    M (conn * W) (Z * bool) := raise NotImplementedError.

Definition pd_get_finished (finished_req_ids : gset string) :
    M (conn * W) (option (gset string) * option (gset string)) := raise NotImplementedError.

End mock.

(** ** The lite connector *)

Record lite := Lite {
  lite_requests_meta : dict string RequestMeta;
  total_block_nums : Z;
}.

Section lite.
  Context `{PyHash}.
  Variable meta : bytes.
  Variable lite_block_size : Z.

(** [generate_hash] of the lite connector. *)
Definition lite_generate_hash (block_size : Z) (token_ids : list Z)
    (parent_block_hash_value : bytes) : list bytes :=
  hash_blocks meta block_size token_ids
    (py_range_step 0 (zlen token_ids) block_size) parent_block_hash_value.

Definition lite_get_num_new_matched_tokens (r : request) (num_computed_tokens : Z) :
    M lite (Z * bool) := λ s,
  let req_blocks_num := zlen (all_token_ids r) / lite_block_size in
  if req_blocks_num <? 1 then (Ok (0, false), s)
  else if dict_mem (request_id r) (lite_requests_meta s) then (Ok (0, false), s)
  else
    let ucm_block_ids := lite_generate_hash lite_block_size (all_token_ids r) (hash_seed meta) in
    (Ok (0, false),
     Lite (dict_set (request_id r) (ReqMeta ucm_block_ids 0 0 (zlen (all_token_ids r)) [] 0)
             (lite_requests_meta s))
       (total_block_nums s + req_blocks_num)).

Definition lite_build_connector_meta (so : scheduler_output) : M lite UCMConnectorMetadata := λ s,
  (Ok (ConnMetadata [] ∅),
   Lite (filter (λ kv, kv.1 ∉ finished_req_ids so) (lite_requests_meta s)) (total_block_nums s)).

Definition lite_request_finished (id : string) : M lite bool := λ s,
  (Ok false, Lite (dict_del id (lite_requests_meta s)) (total_block_nums s)).

End lite.

(** ** Lemmas *)

(** The share of rank [r] of a segment of whole groups of [w] blocks. *)
Lemma stride_slice {A} (l : list A) a b r w (j : nat) :
  0 ≤ a ≤ b → 0 ≤ r < w → b * w ≤ zlen l →
  py_stride (py_slice l (a * w) (b * w)) r w !! j =
    if decide (Z.of_nat j < b - a) then l !! Z.to_nat ((a + Z.of_nat j) * w + r) else None.
Proof.
  intros Hab Hr Hl. rewrite -> py_stride_lookup by lia. case_decide as Hj.
  - rewrite -> py_slice_lookup by nia. f_equal. nia.
  - apply lookup_ge_None. pose proof (py_slice_length l (a * w) (b * w)).
    unfold zlen in *. nia.
Qed.

Lemma stride_slice_length {A} (l : list A) a b r w :
  0 ≤ a ≤ b → 0 ≤ r < w → b * w ≤ zlen l →
  zlen (py_stride (py_slice l (a * w) (b * w)) r w) = b - a.
Proof.
  intros Hab Hr Hl. set (s := py_stride _ _ _).
  assert (Hs : ∀ j : nat, is_Some (s !! j) ↔ Z.of_nat j < b - a).
  { intros j. unfold s. rewrite -> stride_slice by done. case_decide as Hj.
    - split; [done|]. intros _. apply lookup_lt_is_Some. unfold zlen in Hl. nia.
    - split; [by intros []|lia]. }
  pose proof (Hs (length s)) as H1. pose proof (Hs (Z.to_nat (b - a))) as H2.
  rewrite -> lookup_lt_is_Some in H1, H2. unfold zlen. lia.
Qed.

Lemma cp_share_stride env p :
  cp_share env p = (py_stride p.1 (current_rank env) (env_cp_world_size env), p.2).
Proof. destruct p as [[|x l] v]; done. Qed.

(** The configuration of a context-parallel connector satisfies the assumption
    the scheduler theorems make. *)
Lemma cp_init_conf_ok `{PyHash} env sched hc st cf :
  0 < hash_block_size cf → cf_block_size cf = hash_block_size cf → 0 < env_cp_world_size env →
  conf_ok (cp_init_conf env sched hc st cf).
Proof. intros Hh Hb Hw. unfold conf_ok. simpl. rewrite -> Hb. split_and!; lia. Qed.

(** ** Properties *)


(** The mock connector never raises the hits and keeps at most the tokens its
    ratio allows.  When it lowers them it plans to load the blocks between the
    cached ones and the allowed ones, but returns all the allowed tokens as
    external ones: it claims [min k computed] tokens more than it will load. *)
Theorem mock_overclaims_cached_tokens {W} `{StoreLaws W} `{SetOrder} `{PyHash} cf hit_ratio r
    computed expect (s : conn * W) :
  conf_ok cf → memo_ok cf s.1 → 0 ≤ computed → computed mod cf_block_size cf = 0 →
  expected_hits hit_ratio (num_prompt_tokens r) = Ok expect → 0 ≤ expect →
  ∃ n s1 k s', get_num_new_matched_tokens cf r computed s = (Ok (n, false), s1) ∧
    mock_get_num_new_matched_tokens cf hit_ratio r computed s = (Ok (k, false), s') ∧
    0 ≤ k ≤ n ∧ k ≤ expect ∧ (n ≤ expect → k = n ∧ s' = s1) ∧
    (expect < n → ∃ rm, dict_get (request_id r) (requests_meta s'.1) = Some rm ∧
       k - (rm_total_hit_block_num rm - rm_hbm_hit_block_num rm) * cf_block_size cf =
         Z.min k computed).
Proof.
  intros Hcf Hm Hc Hmod He He0.
  destruct (matched_spec cf Hcf r computed s Hm Hc Hmod) as (n & s1 & Hrun & _ & Hn & _ & Hcase).
  pose proof (block_size_pos cf Hcf) as Hbs.
  pose proof (Z.mul_div_le expect _ Hbs). pose proof (Z.div_pos expect _ He0 Hbs).
  unfold mock_get_num_new_matched_tokens. rewrite -> He.
  destruct (Z.leb_spec n expect) as [Hle|Hgt].
  { exists n, s1, n, s1. split_and!; try done; try lia. mrun Hrun. mstep.
    by rewrite -> (proj2 (Z.leb_le _ _) Hle). }
  destruct Hcase as [[-> _]|(rm & Hrm & _ & _ & Hhbm & _)]; [lia|].
  eexists n, s1, (expect / cf_block_size cf * cf_block_size cf), _. split_and!; try done; try lia.
  - mrun Hrun. mstep. rewrite -> (proj2 (Z.leb_gt _ _) Hgt). mstep.
    rewrite -> Hrm. unfold dict_index. rewrite -> dict_get_set_eq. mstep. done.
  - intros _. eexists. split; [simpl; by rewrite -> dict_get_set_eq|]. simpl. nia.
Qed.

(** ** Worked examples *)

Definition ex_cp_env : cp_env := CpEnv false (Some (1, 0, 2, 1)) 1 2.

Definition ex_hash_conf : hash_conf := HashConf "m" 2 "bf16" None false false.

Definition ex_cp_meta : RequestMeta := ReqMeta [[1]; [2]; [3]; [4]; [5]; [6]] 1 2 24 [10] 16.


(** Half of the prompt may hit; the store has all of it and 4 tokens are cached. *)
Lemma mock_overclaims_cached_tokens_witness :
  let half := S754_finite false 4503599627370496 (-53) in
  expected_hits half 8 = Ok 4 ∧
  ∃ k s', mock_get_num_new_matched_tokens ex_cf half ex_req 0 ex_sched = (Ok (k, false), s') ∧
    0 ≤ k ≤ 7 ∧ k ≤ 4.
Proof.
  intros half. split; [vm_compute; reflexivity|].
  destruct (mock_overclaims_cached_tokens ex_cf half ex_req 0 4 ex_sched)
    as (n & s1 & k & s' & Hd & Hm & Hk & Hk' & _).
  - vm_compute. auto.
  - by left.
  - lia.
  - reflexivity.
  - vm_compute. reflexivity.
  - lia.
  - exists k, s'. split; [exact Hm|]. split; [|exact Hk'].
    assert (n = 7) as <-; [|exact Hk]. vm_compute in Hd. congruence.
Defined.
