(* ===== verification/FawaLayout.v ===== *)
(** * Groups, layouts and stores of the FAWA connector

    The configuration half of [UCMFAWAConnector] of [hma_connector.py], for
    models that mix full-attention (FA) and window-attention (WA) groups of KV
    caches: the classification of the groups and their tails
    ([_init_group_metas]), the flat pointer layout of one group
    ([KVCacheGroupLayout]), and the configuration of the two stores. Parsing a
    layer name is vLLM's and a parameter; creating directories is not modelled. *)
From S2P Require Import Prelude Runtime KVLayout Hashing StoreConf.
Open Scope Z_scope.

(** ** Groups *)

(** What the connector reads of a vLLM KV-cache specification: the name of its
    class, [sliding_window], [compress_ratio] (1 when absent), [block_size]. *)
Record kv_spec := KVSpec {
  sp_type : string;
  sp_sliding_window : option Z;
  sp_compress_ratio : Z;
  sp_block_size : Z;
}.

(** One group of [kv_cache_config.kv_cache_groups]; [g_nested] are the values of
    [kv_cache_specs] in order, empty when there are none. *)
Record kv_group := KVGroup {
  g_layer_names : list string;
  g_spec : kv_spec;
  g_nested : list kv_spec;
}.

(** The representative specification of a group. *)
Definition group_spec (g : kv_group) : kv_spec :=
  match g_nested g with s :: _ => s | [] => g_spec g end.

Definition can_handle_ascend_kv_cache_config (groups : option (list kv_group)) : bool :=
  match groups with
  | None => false
  | Some gs => bool_decide ("AscendSlidingWindowMLASpec" ∈ (λ g, sp_type (group_spec g)) <$> gs)
  end.

Definition can_handle_kv_cache_config (groups : option (list kv_group)) : bool :=
  match groups with
  | None => false
  | Some gs =>
      if bool_decide ("SlidingWindowMLASpec" ∈ (λ g, sp_type (group_spec g)) <$> gs) then true
      else can_handle_ascend_kv_cache_config groups
  end.

Definition ASCEND_C4_COMPRESS_RATIO : Z := 4.
Definition DEFAULT_HASH_BLOCK_SIZE : Z := 256.
Definition ASCEND_SUPPORTED_VLLM_BLOCK_SIZES : list Z := [32; 64; 128].

Definition _get_ascend_base_block_size (groups : list kv_group) : res Z :=
  let c4_block_sizes :=
    remove_dups ((λ g, sp_block_size (g_spec g)) <$>
      filter (λ g, sp_sliding_window (group_spec g) = None ∧
                   sp_compress_ratio (group_spec g) = ASCEND_C4_COMPRESS_RATIO) groups) in
  match c4_block_sizes with
  | [block_size] =>
      if decide (block_size ∈ ASCEND_SUPPORTED_VLLM_BLOCK_SIZES) then Ok block_size
      else Raise (ValueError "Unsupported DeepSeek V4 Ascend block size")
  | _ => Raise (ValueError "Expected exactly one Ascend C4 full-attention block size")
  end.

Record KVCacheGroupMeta := GroupMeta {
  gm_token_block_size : Z;
  gm_tail_blocks : Z;
  gm_tail_tokens : Z;
}.

(** What [_init_group_metas] computes. *)
Record fawa_groups := FawaGroups {
  is_ascend_layout : bool;
  ascend_base_block_size : option Z;
  fg_hash_block_size : Z;
  fa_group_ids : list Z;
  window_group_ids : list Z;
  group_metas : dict Z KVCacheGroupMeta;
  max_token_block_size : Z;
  file_size_fa : Z;
  file_size_wa : Z;
}.

Definition round_up (x y : Z) : Z := (x + y - 1) / y * y.

(** [name.split(".")[-1]] *)
Definition last_component (name : string) : string := default "" (last (split_on "." name)).

Section groups.
  Variable extract_layer_index : string → res Z.
  Variable layer_compress_ratios : list Z.

(** The tokens of the tail a group keeps for one hash block. *)
Definition group_tail_tokens (hash_block_size : Z) (g : kv_group) : res Z :=
  match sp_sliding_window (group_spec g) with
  | None => Ok hash_block_size
  | Some window_size =>
      tensor_name ← py_index (g_layer_names g) 0;
      if String.eqb (last_component tensor_name) "swa_cache" then Ok window_size
      else
        layer_index ← extract_layer_index tensor_name;
        ratio ← py_index layer_compress_ratios layer_index;
        Ok (window_size - ratio)
  end.

Definition group_meta (ascend : bool) (hash_block_size : Z) (g : kv_group) : res KVCacheGroupMeta :=
  let spec := group_spec g in
  let token_block_size := if ascend then sp_block_size (g_spec g) * sp_compress_ratio spec
                          else sp_block_size (g_spec g) in
  tail_tokens ← group_tail_tokens hash_block_size g;
  if token_block_size =? 0 then Raise ZeroDivisionError
  else Ok (GroupMeta token_block_size (Z.max (tail_tokens / token_block_size) 1) tail_tokens).

(** The estimated bytes of one FA and one WA file, before rounding;
    [base] is the Ascend base block size and [spec] the number of speculative
    tokens. *)
Definition raw_file_sizes (base : option Z) (spec : option Z) : Z * Z :=
  let '(num_c4a_layers, num_c128a_layers, num_total_layers) :=
    if zlen layer_compress_ratios <? 61 then (21, 20, 43) else (30, 31, 61) in
  let num_total_layers :=
    match spec with
    | Some n => if 0 <? n then num_total_layers + 1 else num_total_layers
    | None => num_total_layers
    end in
  match base with
  | Some b =>
      (b * ((1024 + 128 + 2) * num_c4a_layers + 32 * num_c128a_layers),
       131072 * num_total_layers + (32768 + 8192) * num_c4a_layers)
  | None =>
      ((37376 + 8448) * num_c4a_layers + 1168 * num_c128a_layers,
       37376 * 2 * num_total_layers + (8192 + 32768) * num_c4a_layers)
  end.

Definition window_group (g : kv_group) : bool := bool_decide (sp_sliding_window (group_spec g) ≠ None).

(** The ids of the groups whose class is [window]. *)
Definition select_groups (window : bool) (groups : list kv_group) : list Z :=
  (filter (λ x, window_group x.2 = window) (zip (seqZ 0 (zlen groups)) groups)).*1.

Definition _init_group_metas (groups : list kv_group) (spec : option Z) : res fawa_groups :=
  base ← (if can_handle_ascend_kv_cache_config (Some groups)
          then b ← _get_ascend_base_block_size groups; Ok (Some b)
          else Ok None);
  let ascend := bool_decide (is_Some base) in
  let hash_block_size :=
    match base with Some b => b * ASCEND_C4_COMPRESS_RATIO | None => DEFAULT_HASH_BLOCK_SIZE end in
  metas ← map_res (group_meta ascend hash_block_size) groups;
  let max_size := foldl Z.max 0 (gm_token_block_size <$> metas) in
  if negb (max_size mod hash_block_size =? 0)
  then Raise (ValueError "Maximum token block size must be divisible by hash block size")
  else
    let sizes := raw_file_sizes base spec in
    Ok (FawaGroups ascend base hash_block_size
          (select_groups false groups) (select_groups true groups)
          (zip (seqZ 0 (zlen groups)) metas) max_size
          (round_up sizes.1 4096) (round_up sizes.2 4096)).

End groups.

(** ** [KVCacheGroupLayout] *)

(** The arrays of the layout; the metadata kept for logging is left out. *)
Record glayout := GLayout {
  gl_base_ptrs : list Z;
  gl_block_strides : list Z;
  gl_token_strides : list Z;
  gl_sizes_per_token : list Z;
  gl_block_sizes : list Z;
}.

(** [t[:, i]] *)
Definition tensor_index1 (t : tensor) (i : Z) : res tensor :=
  match t_shape t, t_stride t with
  | n :: m :: shape, s :: s1 :: stride =>
      let j := if i <? 0 then i + m else i in
      if (j <? 0) || (m <=? j) then Raise IndexError
      else Ok (Tensor (t_data_ptr t + j * s1 * t_element_size t) (n :: shape) (s :: stride)
                 (t_element_size t))
  | _, _ => Raise IndexError
  end.

(** One row of the layout: pointer, block stride, token stride, bytes per token,
    tokens per block. *)
Definition view : Type := Z * Z * Z * Z * Z.

(** [handle_tensor]; [math.prod] over the dimensions of [size_dims]. *)
Definition group_handle_tensor (size_dims : list Z) (t : tensor) : res view :=
  first ← tensor_index t 0;
  s0 ← py_index (t_stride t) 0;
  dims ← map_res (py_index (t_shape t)) size_dims;
  let tensor_size := prod dims * t_element_size t in
  tensor_block_size ← py_index (t_shape t) 1;
  s1 ← py_index (t_stride t) 1;
  if tensor_block_size =? 0 then Raise ZeroDivisionError
  else Ok (t_data_ptr first, s0 * t_element_size t, s1 * t_element_size t,
           tensor_size / tensor_block_size, tensor_block_size).

Definition _is_combined_kv_4d (ascend : bool) (expected : option Z) (shape : list Z) : res bool :=
  n1 ← py_index shape 1;
  let mismatch d := match expected with Some e => negb (d =? e) | None => false end in
  if ascend then
    if mismatch n1 then Raise (ValueError "Ascend KV cache tensor block size mismatch") else Ok false
  else
    let is_combined_kv := n1 =? 2 in
    d ← py_index shape (if is_combined_kv then 2 else 1);
    if mismatch d then Raise (ValueError "GPU KV cache tensor block size mismatch")
    else Ok is_combined_kv.

Definition handle_kv_layer_tensor (ascend : bool) (expected : option Z) (t : tensor) : res (list view) :=
  if t_dim t =? 5 then
    k ← tensor_index t 0; v ← tensor_index t 1;
    map_res (group_handle_tensor [-3; -2; -1]) [k; v]
  else if t_dim t =? 4 then
    combined ← _is_combined_kv_4d ascend expected (t_shape t);
    if (combined : bool) then
      k ← tensor_index1 t 0; v ← tensor_index1 t 1;
      map_res (group_handle_tensor [-2; -1]) [k; v]
    else map_res (group_handle_tensor [-3; -2; -1]) [t]
  else if t_dim t =? 3 then map_res (group_handle_tensor [-2; -1]) [t]
  else Raise (ValueError "Unsupported KV cache tensor shape").

Definition layer_views (ascend : bool) (expected : option Z) (l : kv_layer) : res (list view) :=
  match l with
  | KVTensor t => handle_kv_layer_tensor ascend expected t
  | KVTuple ts => vs ← map_res (handle_kv_layer_tensor ascend expected) ts; Ok (concat vs)
  | KVOther => Raise (TypeError "Unsupported KV cache type")
  end.

(** The order of [_sort_key]: layer index, then name. *)
Definition sort_key_le (a b : Z * string) : bool :=
  (a.1 <? b.1) || ((a.1 =? b.1) && String.leb a.2 b.2).

Definition layer_before (a b : Z * string * kv_layer) : Prop := sort_key_le a.1 b.1 = true.

#[export] Instance layer_before_dec : RelDecision layer_before.
Proof. intros a b. unfold layer_before. apply _. Defined.

Definition sort_layers (extract_layer_index : string → res Z) (kvcaches : dict string kv_layer) :
    res (list (Z * string * kv_layer)) :=
  keyed ← map_res (λ x, i ← extract_layer_index x.1; Ok (i, x.1, x.2)) kvcaches;
  Ok (merge_sort layer_before keyed).

Definition KVCacheGroupLayout (extract_layer_index : string → res Z) (ascend : bool)
    (expected : option Z) (kvcaches : dict string kv_layer) : res glayout :=
  sorted ← sort_layers extract_layer_index kvcaches;
  views ← map_res (λ x, layer_views ascend expected x.2) sorted;
  match concat views with
  | [] => Raise (ValueError "KV cache group layout is empty.")
  | vs => Ok (GLayout ((λ v : view, u64 v.1.1.1.1) <$> vs) ((λ v : view, u64 v.1.1.1.2) <$> vs)
                ((λ v : view, u64 v.1.1.2) <$> vs) ((λ v : view, u64 v.1.2) <$> vs)
                ((λ v : view, u64 v.2) <$> vs))
  end.

(** *** Addresses *)

(** [extract_addrs] *)
Definition extract_addrs (L : glayout) (block_ids : list Z) : addr_rows :=
  (λ id, zip_with (λ s p, block_addr s p id) (gl_block_strides L) (gl_base_ptrs L)) <$> block_ids.

(** Rounding an integer to the nearest [float64], ties to even. *)
Definition f64 (z : Z) : Z :=
  let e := Z.max 0 (Z.log2 (Z.abs z) - 52) in
  let q := Z.abs z / 2 ^ e in
  let r := Z.abs z mod 2 ^ e in
  let half := 2 ^ (e - 1) in
  let q' := if (e =? 0) || (r <? half) || ((r =? half) && Z.even q) then q else q + 1 in
  Z.sgn z * (q' * 2 ^ e).

(** The offsets of [extract_addrs_with_offsets]: [np.uint64] when they are built
    with [ones_like] of the block ids, [np.int64] when they come from
    [np.arange].  NumPy multiplies [int64] and [uint64] arrays in [float64], so
    in the second case the whole address is computed in [float64]. *)
Inductive np_offsets :=
  | OffUint64 (l : list Z)
  | OffInt64 (l : list Z).

Definition off_list (o : np_offsets) : list Z :=
  match o with OffUint64 l | OffInt64 l => l end.

Definition off_int64 (o : np_offsets) : bool :=
  match o with OffUint64 _ => false | OffInt64 _ => true end.

(** One address; a [float64] floor division is exact on the offsets inside one
    block that reach it. *)
Definition offset_addr (int64 : bool) (group_token_block_size id offset : Z)
    (ptr stride token_stride tensor_block_size : Z) : Z :=
  if int64 then
    u64 (f64 (f64 (f64 (u64 (u64 id * stride)) +
                   f64 (f64 (f64 (offset * tensor_block_size) / group_token_block_size) *
                        f64 token_stride)) + f64 ptr))
  else
    u64 (u64 (u64 (u64 id * stride) +
              u64 (u64 (offset * tensor_block_size) / group_token_block_size * token_stride)) + ptr).

(** NumPy broadcasting of two columns. *)
Definition np_broadcast (a b : list Z) : res (list (Z * Z)) :=
  if decide (length a = length b) then Ok (zip a b)
  else match a, b with
       | [x], _ => Ok ((λ y, (x, y)) <$> b)
       | _, [y] => Ok ((λ x, (x, y)) <$> a)
       | _, _ => Raise (ValueError "operands could not be broadcast together")
       end.

(** The columns of a layout. *)
Definition gl_columns (L : glayout) : list (Z * Z * Z * Z) :=
  zip (zip (zip (gl_base_ptrs L) (gl_block_strides L)) (gl_token_strides L)) (gl_block_sizes L).

Definition offset_rows (int64 : bool) (L : glayout) (group_token_block_size : Z)
    (rows : list (Z * Z)) : addr_rows :=
  (λ r : Z * Z, (λ c : Z * Z * Z * Z,
     offset_addr int64 group_token_block_size r.1 r.2 c.1.1.1 c.1.1.2 c.1.2 c.2) <$> gl_columns L)
  <$> rows.

Definition extract_addrs_with_offsets (L : glayout) (block_ids : list Z)
    (group_token_block_size : Z) (offsets : np_offsets) : res addr_rows :=
  offset_rows (off_int64 offsets) L group_token_block_size <$>
    np_broadcast block_ids (off_list offsets).

Definition segment_tensor_size_list (L : glayout) (logical_tokens group_token_block_size : Z) : list Z :=
  zip_with (λ per_token n, u64 (per_token * (u64 (n * logical_tokens) / group_token_block_size)))
    (gl_sizes_per_token L) (gl_block_sizes L).

(** ** Stores *)

Record fawa_layouts := FawaLayouts {
  fl_groups : fawa_groups;
  group_layouts : dict Z glayout;
}.

(** The sizes one group contributes. *)
Definition group_sizes (F : fawa_layouts) (group_id : Z) : res (list Z) :=
  match dict_get group_id (group_layouts F) with
  | None => Ok []
  | Some L =>
      meta ← dict_index group_id (group_metas (fl_groups F));
      if gm_tail_tokens meta =? 0 then Ok []
      else
        let segment_tokens := gm_tail_tokens meta / gm_tail_blocks meta in
        Ok (concat (replicate (Z.to_nat (gm_tail_blocks meta))
              (segment_tensor_size_list L segment_tokens (gm_token_block_size meta))))
  end.

Definition _store_tensor_size_list (F : fawa_layouts) (group_ids : list Z) : res (list Z) :=
  sizes ← map_res (group_sizes F) group_ids;
  match concat sizes with
  | [] => Raise (RuntimeError "Worker FAWA layout is empty.")
  | l => Ok l
  end.

(** [os.path.join(a, b)] *)
Definition path_join (a b : string) : string :=
  match b with
  | String "/" _ => b
  | _ => match last (String.list_ascii_of_string a) with
         | None => b
         | Some "/"%char => a +:+ b
         | Some _ => a +:+ "/" +:+ b
         end
  end.

Definition _namespace_storage_backends (store_suffix : string) (c : config) : config :=
  match dict_get "storage_backends" c with
  | Some (CStrs backends) =>
      dict_set "storage_backends" (CStrs ((λ b, path_join b ("fawa_" +:+ store_suffix)) <$> backends)) c
  | _ => c
  end.

Definition fawa_default_shm_buffer_capacity (c : config) : config :=
  if negb (truthy (dict_get_default "share_buffer_enable" (CBool false) c)) then c
  else match dict_get_default "cache_buffer_capacity_gb" CNone c with
       | CNone => dict_set "cache_buffer_capacity_gb" (CInt (128 / 2)) c
       | _ => c
       end.

Definition split_string_backends (c : config) : config :=
  match dict_get "storage_backends" c with
  | Some (CStr s) => dict_set "storage_backends" (CStrs (split_on ":" s)) c
  | _ => c
  end.

(** The capacity must be an integer or a boolean. *)
Definition halve_capacity (c : config) : res config :=
  match dict_get_default "posix_capacity_gb" CNone c with
  | CNone => Ok c
  | v => n ← as_int v; Ok (dict_set "posix_capacity_gb" (CInt (n / 2)) c)
  end.

Definition _base_store_config (sc : store_conf) (is_worker : bool) (store_suffix : string) :
    res (string * option string * config) :=
  match sc_configs sc with
  | [cc] =>
      let c := setdefault "store_pipeline" (CStr "Cache|Empty") (ucm_connector_config cc) in
      let c := setdefault "share_buffer_enable" (CBool (sc_is_mla sc)) c in
      let c := split_string_backends c in
      let c := dict_set "unique_id" (CStr (sc_unique_id sc +:+ "_fawa_" +:+ store_suffix)) c in
      let c := _namespace_storage_backends store_suffix c in
      let c := dict_set "posix_gc_enable" (CBool (negb is_worker && (sc_dp_rank sc =? 0))) c in
      c ← halve_capacity c;
      Ok (ucm_connector_name cc, ucm_connector_module_path cc, c)
  | _ => Raise (RuntimeError "Expected exactly one connector config")
  end.

(** [_create_store]: a worker passes its rank, the tensor sizes and the cores of
    the store; the scheduler knows only the estimated file size. *)
Definition fawa_create_store (sc : store_conf) (file_size : Z) (store_suffix : string)
    (worker : option (Z * option (list Z) * list Z)) : res (string * option string * config) :=
  '(name, module_path, c) ← _base_store_config sc (bool_decide (is_Some worker)) store_suffix;
  let c := fawa_default_shm_buffer_capacity c in
  c ← match worker with
      | Some (local_rank, tensor_size_list, cores) =>
          match tensor_size_list with
          | None => Raise (RuntimeError "Worker FAWA store needs tensor sizes.")
          | Some sizes =>
              let padded_size := round_up (zsum sizes) 4096 in
              let c := dict_set "device_id" (CInt local_rank) c in
              let c := dict_set "tensor_size_list" (CInts sizes) c in
              let c := dict_set "shard_size" (CInt padded_size) c in
              let c := dict_set "block_size" (CInt padded_size) c in
              let c := dict_set "local_rank_size" (CInt (if sc_is_mla sc then sc_tp_size sc else 1)) c in
              Ok (match cores with [] => c | _ => dict_set "cpu_affinity_cores" (CInts cores) c end)
          end
      | None => Ok (dict_set "block_size" (CInt file_size) c)
      end;
  Ok (name, module_path, c).

(** [_create_fa_store] and [_create_wa_store]; [worker] is the local rank, the
    layouts and the cores of a worker. *)
Definition create_group_store (sc : store_conf) (G : fawa_groups) (fa : bool)
    (worker : option (Z * option (dict Z glayout) * list Z)) : res (string * option string * config) :=
  w ← match worker with
      | None => Ok None
      | Some (_, None, _) => Raise (RuntimeError "Worker store needs layouts.")
      | Some (local_rank, Some layouts, cores) =>
          sizes ← _store_tensor_size_list (FawaLayouts G layouts)
                    (if fa then fa_group_ids G else window_group_ids G);
          Ok (Some (local_rank, Some sizes, cores))
      end;
  fawa_create_store sc (if fa then file_size_fa G else file_size_wa G) (if fa then "fa" else "wa") w.

(** [register_kv_caches]: one layout per group. *)
Definition register_group_layouts (extract_layer_index : string → res Z) (G : fawa_groups)
    (groups : list kv_group) (kv_caches : dict string kv_layer) : res (dict Z glayout) :=
  map_res (λ x,
    group_caches ← fold_res (λ caches name, l ← dict_index name kv_caches; Ok (dict_set name l caches))
                     [] (g_layer_names x.2);
    layout ← KVCacheGroupLayout extract_layer_index (is_ascend_layout G)
               (Some (sp_block_size (g_spec x.2))) group_caches;
    Ok (x.1, layout)) (zip (seqZ 0 (zlen groups)) groups).
