(* ===== verification/FawaLayoutProps.v ===== *)
(** * What the FAWA layouts and groups guarantee

    The classification of the groups and the sizes derived from it, and the
    addresses of hash blocks that start inside a physical block. *)
From S2P Require Import Prelude Runtime KVLayout Hashing StoreConf FawaLayout.
Open Scope Z_scope.

(** ** Rounding *)

Lemma f64_exact z : Z.abs z < 2 ^ 53 → f64 z = z.
Proof.
  intros Hz. unfold f64.
  assert (He : Z.max 0 (Z.log2 (Z.abs z) - 52) = 0).
  { destruct (decide (z = 0)) as [->|Hne]; [done|].
    assert (Z.log2 (Z.abs z) < 53); [|lia]. apply Z.log2_lt_pow2; lia. }
  rewrite -> He. simpl. rewrite -> Z.div_1_r, Z.mul_1_r. rewrite -> Z.mul_comm. apply Z.abs_sgn.
Qed.

Lemma u64_exact z : 0 ≤ z < 2 ^ 64 → u64 z = z.
Proof. apply Z.mod_small. Qed.

Lemma round_up_spec x y : 0 < y → round_up x y mod y = 0 ∧ x ≤ round_up x y < x + y.
Proof.
  intros Hy. unfold round_up. split; [by apply Z.mod_mul; lia|].
  pose proof (Z.mul_div_le (x + y - 1) y Hy). pose proof (Z.mul_succ_div_gt (x + y - 1) y Hy). lia.
Qed.

(** An address computed through [int64] offsets is exact below 2^53. *)
Lemma offset_addr_exact gtbs id offset ptr stride ts tbs :
  0 < gtbs → 0 ≤ id → 0 ≤ ptr → 0 ≤ stride → 0 ≤ ts → 0 ≤ tbs → 0 ≤ offset ≤ gtbs →
  gtbs * tbs < 2 ^ 53 → id * stride + tbs * ts + ptr < 2 ^ 53 → id < 2 ^ 64 →
  offset_addr true gtbs id offset ptr stride ts tbs =
    id * stride + offset * tbs / gtbs * ts + ptr.
Proof.
  intros Hg Hid Hp Hs Hts Htbs Hoff Hgt Hsum Hid64. unfold offset_addr.
  assert (Hd0 : 0 ≤ offset * tbs / gtbs) by (apply Z.div_pos; nia).
  assert (Hd1 : offset * tbs / gtbs ≤ tbs) by (apply Z.div_le_upper_bound; nia).
  assert (Hmul : 0 ≤ offset * tbs / gtbs * ts ≤ tbs * ts) by nia.
  assert (Hstride : 0 ≤ id * stride) by nia.
  assert (Hos : 0 ≤ offset * tbs < 2 ^ 53) by nia.
  rewrite -> (u64_exact id) by lia. rewrite -> (u64_exact (id * stride)) by lia.
  rewrite -> (f64_exact (id * stride)) by lia. rewrite -> (f64_exact (offset * tbs)) by lia.
  rewrite -> (f64_exact (offset * tbs / gtbs)) by nia.
  destruct (decide (tbs = 0)) as [->|Hne].
  { rewrite -> Z.mul_0_r, Z.div_0_l, Z.mul_0_l in * by lia.
    rewrite -> !(f64_exact 0), Z.add_0_r, (f64_exact (id * stride)), (f64_exact ptr), f64_exact, u64_exact by lia.
    lia. }
  assert (ts < 2 ^ 53) by nia.
  set (q := offset * tbs / gtbs) in *. clearbody q.
  rewrite -> (f64_exact ts), (f64_exact (q * ts)), (f64_exact (id * stride + q * ts)),
    (f64_exact ptr), f64_exact, u64_exact by lia.
  done.
Qed.

(** The segment of a hash block ends within the tensor block. *)
Lemma segment_inside o tbs hb gtbs :
  0 < gtbs → 0 ≤ tbs → 0 ≤ o ∧ o + hb ≤ gtbs → o * tbs / gtbs + tbs * hb / gtbs ≤ tbs.
Proof.
  intros Hg Ht Ho. pose proof (Z.mul_div_le (o * tbs) gtbs Hg). pose proof (Z.mul_div_le (tbs * hb) gtbs Hg).
  apply (Z.mul_le_mono_pos_l _ _ gtbs); [done|]. nia.
Qed.

(** Above 2^53 it need not be: the low bits of the address are lost. *)
Lemma int64_offsets_round_high_addresses :
  offset_addr true 512 1 256 (2 ^ 53) 1 1 256 = 2 ^ 53 + 128 ∧
  offset_addr true 512 1 0 (2 ^ 53) 1 1 256 ≠ 2 ^ 53 + 1.
Proof. split; vm_compute; [reflexivity|congruence]. Qed.

(** ** Groups *)

Lemma foldl_max_le l : ∀ a, a ≤ foldl Z.max a l ∧ Forall (λ x, x ≤ foldl Z.max a l) l.
Proof.
  induction l as [|x l IH]; intros a; simpl; [done|]. destruct (IH (Z.max a x)) as [H1 H2].
  split; [lia|]. constructor; [lia|done].
Qed.

Section groups.
  Variable extract_layer_index : string → res Z.
  Variable ratios : list Z.

Lemma group_meta_spec ascend hb g meta :
  group_meta extract_layer_index ratios ascend hb g = Ok meta →
  gm_token_block_size meta ≠ 0 ∧ 1 ≤ gm_tail_blocks meta ∧
  gm_tail_blocks meta = Z.max (gm_tail_tokens meta / gm_token_block_size meta) 1 ∧
  (window_group g = false → gm_tail_tokens meta = hb).
Proof.
  unfold group_meta. intros Hrun. apply bind_Ok in Hrun as (tail & Htail & Hrun).
  destruct (Z.eqb_spec (if ascend then sp_block_size (g_spec g) * sp_compress_ratio (group_spec g)
                        else sp_block_size (g_spec g)) 0); [done|].
  injection Hrun as <-. simpl. split_and!; [done|lia|done|]. unfold window_group.
  intros Hw%bool_decide_eq_false. unfold group_tail_tokens in Htail.
  destruct (sp_sliding_window (group_spec g)); [by destruct Hw|]. by injection Htail as <-.
Qed.

Lemma select_groups_elem window groups (g : nat) grp :
  groups !! g = Some grp →
  (Z.of_nat g ∈ select_groups window groups ↔ window_group grp = window).
Proof.
  intros Hg. unfold select_groups. rewrite -> list_elem_of_fmap.
  assert (Hz : zip (seqZ 0 (zlen groups)) groups !! g = Some (Z.of_nat g, grp)).
  { apply lookup_zip_with_Some. exists (Z.of_nat g), grp. split_and!; [done| |done].
    apply lookup_seqZ. apply lookup_lt_Some in Hg. unfold zlen. lia. }
  split.
  - intros ([k grp'] & Hk & Hin). simpl in Hk. subst k. apply list_elem_of_filter in Hin as [Hw Hin].
    apply list_elem_of_lookup in Hin as [i Hi]. apply lookup_zip_with_Some in Hi as (k & x & [= <- <-] & Hk & Hx).
    apply lookup_seqZ in Hk as [Hk _]. simpl in Hw. replace i with g in Hx by lia. congruence.
  - intros Hw. exists (Z.of_nat g, grp). split; [done|]. apply list_elem_of_filter. split; [done|].
    by eapply list_elem_of_lookup_2.
Qed.

Lemma zip_seqZ_get {V} (l : list V) : ∀ a (g : nat) v,
  l !! g = Some v → dict_get (a + Z.of_nat g) (zip (seqZ a (zlen l)) l) = Some v.
Proof.
  induction l as [|x l IH]; intros a g v; [done|]. rewrite -> zlen_cons, seqZ_cons by (unfold zlen; lia).
  replace (Z.pred (1 + zlen l)) with (zlen l) by lia. cbn [zip zip_with dict_get].
  destruct g as [|g]; simpl; intros Hg.
  - rewrite -> decide_True by lia. congruence.
  - rewrite -> decide_False by lia. rewrite <- (IH (Z.succ a) g v Hg). f_equal. lia.
Qed.

End groups.

(** ** Properties *)

(** The groups of a supported model are classified soundly: every group is
    full-attention or window, not both; its tail has at least one block, and for
    a full-attention group the tail is one hash block; the largest block of a
    group is a whole number of hash blocks; and the file sizes are the estimated
    ones rounded up to whole 4096-byte pages. *)
Theorem fawa_groups_classified extract_layer_index ratios groups spec G :
  _init_group_metas extract_layer_index ratios groups spec = Ok G →
  (∀ (g : nat) grp, groups !! g = Some grp → ∃ meta,
     dict_get (Z.of_nat g) (group_metas G) = Some meta ∧
     (Z.of_nat g ∈ window_group_ids G ↔ window_group grp = true) ∧
     (Z.of_nat g ∈ fa_group_ids G ↔ window_group grp = false) ∧
     1 ≤ gm_tail_blocks meta ∧ gm_token_block_size meta ≤ max_token_block_size G ∧
     (window_group grp = false → gm_tail_tokens meta = fg_hash_block_size G)) ∧
  0 < fg_hash_block_size G ∧ max_token_block_size G mod fg_hash_block_size G = 0 ∧
  file_size_fa G mod 4096 = 0 ∧ file_size_wa G mod 4096 = 0 ∧
  let raw := raw_file_sizes ratios (ascend_base_block_size G) spec in
  raw.1 ≤ file_size_fa G < raw.1 + 4096 ∧ raw.2 ≤ file_size_wa G < raw.2 + 4096.
Proof.
  unfold _init_group_metas. intros Hrun. apply bind_Ok in Hrun as (base & Hbase & Hrun).
  set (hb := match base with Some b => b * ASCEND_C4_COMPRESS_RATIO | None => DEFAULT_HASH_BLOCK_SIZE end) in *.
  assert (Hhb : 0 < hb).
  { unfold hb. destruct base as [b|]; [|done].
    destruct (can_handle_ascend_kv_cache_config (Some groups)); [|done].
    unfold _get_ascend_base_block_size in Hbase. destruct (remove_dups _) as [|b' [|]]; simpl in Hbase; try done.
    case_decide as Hin; simpl in Hbase; [|done]. injection Hbase as ->.
    unfold ASCEND_SUPPORTED_VLLM_BLOCK_SIZES, ASCEND_C4_COMPRESS_RATIO in *.
    rewrite -> !elem_of_cons, elem_of_nil in Hin. lia. }
  apply bind_Ok in Hrun as (metas & Hmetas & Hrun). cbv zeta in Hrun.
  destruct (negb _) eqn:Hmod; [done|]. apply negb_false_iff, Z.eqb_eq in Hmod.
  injection Hrun as <-. cbn [group_metas window_group_ids fa_group_ids max_token_block_size
    fg_hash_block_size file_size_fa file_size_wa ascend_base_block_size].
  destruct (foldl_max_le (gm_token_block_size <$> metas) 0) as [_ Hmax].
  pose proof (map_res_length _ _ _ Hmetas) as Hlen. apply map_res_Forall2 in Hmetas.
  split; [|split_and!; try done; apply round_up_spec; lia].
  intros g grp Hg. destruct (Forall2_lookup_l _ _ _ _ _ Hmetas Hg) as (meta & Hmeta & Hm).
  exists meta. split.
  { unfold zlen. rewrite <- Hlen. apply (zip_seqZ_get metas 0 g meta Hmeta). }
  split; [by apply select_groups_elem|]. split; [by apply select_groups_elem|].
  apply group_meta_spec in Hm as (_ & Htb & _ & Htail). split; [done|]. split; [|done].
  rewrite -> Forall_fmap, Forall_forall in Hmax. apply Hmax. by eapply list_elem_of_lookup_2.
Qed.

(** Hash blocks packed in a larger physical block are addressed exactly and
    stay inside it: although the offsets of [np.arange] make NumPy compute in
    [float64], every address below 2^53 is the integer one, and the segment of a
    hash block that starts at its offset ends within the tensor block. *)
Theorem fawa_offset_addresses L block_ids offsets gtbs hb :
  0 < gtbs → 0 ≤ hb → length block_ids = length offsets →
  Forall (λ o, 0 ≤ o ∧ o + hb ≤ gtbs) offsets → Forall (λ i, 0 ≤ i < 2 ^ 64) block_ids →
  Forall (λ c, 0 ≤ c.1.1.1 ∧ 0 ≤ c.1.1.2 ∧ 0 ≤ c.1.2 ∧ 0 ≤ c.2 ∧ gtbs * c.2 < 2 ^ 53 ∧
    Forall (λ id, id * c.1.1.2 + c.2 * c.1.2 + c.1.1.1 < 2 ^ 53) block_ids) (gl_columns L) →
  ∃ rows, extract_addrs_with_offsets L block_ids gtbs (OffInt64 offsets) = Ok rows ∧
    length rows = length block_ids ∧
    ∀ (i c : nat) id o ptr stride ts tbs, block_ids !! i = Some id → offsets !! i = Some o →
      gl_columns L !! c = Some (ptr, stride, ts, tbs) →
      rows !! i ≫= (λ row, row !! c) = Some (id * stride + o * tbs / gtbs * ts + ptr) ∧
      o * tbs / gtbs + tbs * hb / gtbs ≤ tbs.
Proof.
  intros Hg Hhb Hlen Hoffs Hids Hcols. unfold extract_addrs_with_offsets, np_broadcast.
  cbn [off_list off_int64]. rewrite -> decide_True by done. eexists. split; [reflexivity|].
  unfold offset_rows. rewrite -> length_fmap, length_zip_with, Hlen, Nat.min_id. split; [done|].
  intros i c id o ptr stride ts tbs Hid Ho Hc.
  rewrite -> Forall_lookup in Hoffs, Hids. specialize (Hoffs i o Ho). specialize (Hids i id Hid).
  rewrite -> Forall_lookup in Hcols. destruct (Hcols c _ Hc) as (H1 & H2 & H3 & H4 & H5 & H6).
  cbn [fst snd] in H1, H2, H3, H4, H5, H6.
  rewrite -> Forall_lookup in H6. specialize (H6 i id Hid). cbn beta in H6. split; [|by apply segment_inside].
  rewrite -> list_lookup_fmap. erewrite (proj2 (lookup_zip_with_Some _ _ _ _ _)); [|by exists id, o].
  cbn [fmap option_fmap option_map mbind option_bind]. rewrite -> list_lookup_fmap, Hc.
  cbn [fmap option_fmap option_map fst snd]. rewrite -> offset_addr_exact by lia. done.
Qed.

(** ** Worked examples *)

Definition ex_dsv4_groups : list kv_group :=
  [KVGroup ["model.layers.0.attn"] (KVSpec "MLAAttentionSpec" None 4 256) [];
   KVGroup ["model.layers.0.attn.swa_cache"] (KVSpec "SlidingWindowMLASpec" (Some 128) 1 64) []].

Lemma fawa_groups_classified_witness :
  ∃ G, _init_group_metas (λ _, Ok 0) [4; 128] ex_dsv4_groups None = Ok G ∧
    fa_group_ids G = [0] ∧ window_group_ids G = [1] ∧ file_size_fa G mod 4096 = 0.
Proof.
  eexists. split; [vm_compute; reflexivity|]. split; [reflexivity|]. split; [reflexivity|].
  refine (let H := fawa_groups_classified (λ _, Ok 0) [4; 128] ex_dsv4_groups None _ _ in
          proj1 (proj2 (proj2 (proj2 H)))).
  vm_compute. reflexivity.
Defined.

Lemma fawa_offset_addresses_witness :
  ∃ rows, extract_addrs_with_offsets (GLayout [4096] [1024] [4] [4] [256]) [5; 6] 512 (OffInt64 [0; 256]) = Ok rows ∧
    rows !! 1%nat ≫= (λ row, row !! 0%nat) = Some (6 * 1024 + 256 * 256 / 512 * 4 + 4096).
Proof.
  destruct (fawa_offset_addresses (GLayout [4096] [1024] [4] [4] [256]) [5; 6] [0; 256] 512 256)
    as (rows & Hrun & _ & Hrow).
  - lia.
  - lia.
  - reflexivity.
  - repeat constructor; lia.
  - repeat constructor; lia.
  - repeat constructor; simpl; lia.
  - exists rows. split; [exact Hrun|].
    apply (Hrow 1%nat 0%nat 6 256 4096 1024 4 256 eq_refl eq_refl eq_refl).
Defined.
