(* ===== verification/Fawa.v ===== *)
(** * The FAWA connector

    The scheduler and worker operations of [UCMFAWAConnector] of
    [hma_connector.py].  A hash block has one row in the FA store, made of its
    blocks in every full-attention group, and one in the WA store, made of the
    tails of the window groups at its end.  All FA rows of a hit are loaded, and
    the WA row of its last boundary.  FA dumps complete in the background, WA
    dumps before the step ends.  The latency decorator, which only adds a timing
    sample, is left out. *)
From S2P Require Import Prelude Runtime RankConsistency PyHash Hashing KVLayout StoreConf Direct DirectWorker FawaLayout.
Open Scope Z_scope.

(** ** Data *)

Record FAWARequestMeta := FReqMeta {
  fr_ucm_block_ids : list bytes;
  fr_hbm_hit_block_num : Z;
  fr_total_hit_block_num : Z;
  fr_num_token_ids : Z;
  fr_vllm_block_ids : list (list Z);
  fr_token_processed : Z;
}.

Record FAWARequestDispatchMeta := FDispatch {
  load_keys : list bytes;
  load_hash_start : Z;
  load_hash_end : Z;
  load_vllm_block_ids : list (list Z);
  dump_keys : list bytes;
  dump_hash_start : Z;
  dump_hash_end : Z;
  dump_vllm_block_ids : list (list Z);
}.

Record UCMFAWAConnectorMetadata := FMetadata {
  f_request_meta : dict string FAWARequestDispatchMeta;
  f_preempted_req_ids : gset string;
}.

Record FAWALoadTask := FLoadTask {
  lt_request_id : string;
  lt_label : string;
  lt_store : sref;
  lt_task : task;
  lt_key_count : Z;
}.

Record FAWADumpTask := FDumpTask {
  dt_label : string;
  dt_store : sref;
  dt_task : task;
  dt_key_count : Z;
  dt_event_handle : Z;
}.

(** The attributes fixed after [__init__] and [register_kv_caches]. The hash
    block size is the one of the groups. *)
Record fawa_conf := FawaConf {
  fw_cf : conf;
  fw_layouts : fawa_layouts;
  fa_store : option sref;
  wa_store : option sref;
  wa_dump_block_wise : bool;
  load_tokens_threshold : Z;
}.

(** The state: the attributes of the direct connector, and those of this one. *)
Record fawa := Fawa {
  fbase : conn;
  f_requests_meta : dict string FAWARequestMeta;
  tp_dump_tasks : dict (list string) (list FAWADumpTask);
  f_metadata : option UCMFAWAConnectorMetadata;
}.

Definition init_fawa (c : conn) : fawa := Fawa c [] [] None.

(** What [build_connector_meta] reads of a [SchedulerOutput]: blocks by group. *)
Record f_scheduler_output := FSchedOut {
  fso_new_reqs : list (string * list (list Z));
  fso_cached_req_ids : list string;
  fso_new_block_ids : list (option (list (list Z)));
  fso_resumed : resumed_flags;
  fso_num_scheduled_tokens : dict string Z;
  fso_finished_req_ids : gset string;
  fso_preempted_req_ids : option (gset string);
}.

(** ** Planning *)

Section plan.
  Variable fcf : fawa_conf.
Let G : fawa_groups := fl_groups (fw_layouts fcf).
Let hash_block_size : Z := fg_hash_block_size G.

(** [_slice_group_block_ids] *)
Definition _slice_group_block_ids (group_id : Z) (group_block_ids : list Z)
    (window_boundary_token_idx : list Z) (fetch_wa_block_wise : bool) : res (list Z) :=
  meta ← dict_index group_id (group_metas G);
  let tbs := gm_token_block_size meta in
  let tail_blocks := gm_tail_blocks meta in
  if decide (group_id ∈ window_group_ids G) then
    if gm_tail_tokens meta =? 0 then Ok []
    else if fetch_wa_block_wise then
      let offsets := (λ k, tail_blocks - 1 - k) <$> seqZ 0 tail_blocks in
      map_res (py_index group_block_ids)
        (concat ((λ b, (λ o, b / tbs - o) <$> offsets) <$> window_boundary_token_idx))
    else
      boundary ← py_index window_boundary_token_idx (-1);
      let boundary_block_idx := boundary / tbs + 1 in
      Ok (py_slice group_block_ids (boundary_block_idx - tail_blocks) boundary_block_idx)
  else map_res (py_index group_block_ids) ((λ b, b / tbs) <$> window_boundary_token_idx).

(** The blocks of every group for the hash blocks [first] to [last - 1]. *)
Definition group_rows (all_group_block_ids : list (list Z)) (first last : Z) (block_wise : bool) :
    res (list (list Z)) :=
  let window_boundary_token_idx := (λ k, k * hash_block_size - 1) <$> py_range (first + 1) (last + 1) in
  map_res (λ x, _slice_group_block_ids x.1 x.2 window_boundary_token_idx block_wise)
    (zip (seqZ 0 (zlen all_group_block_ids)) all_group_block_ids).

Definition no_blocks : list (list Z) := replicate (length (group_metas G)) [].

Definition set_blocks (v : list (list Z)) (rm : FAWARequestMeta) : FAWARequestMeta :=
  FReqMeta (fr_ucm_block_ids rm) (fr_hbm_hit_block_num rm) (fr_total_hit_block_num rm)
    (fr_num_token_ids rm) v (fr_token_processed rm).

Definition set_processed (n : Z) (rm : FAWARequestMeta) : FAWARequestMeta :=
  FReqMeta (fr_ucm_block_ids rm) (fr_hbm_hit_block_num rm) (fr_total_hit_block_num rm)
    (fr_num_token_ids rm) (fr_vllm_block_ids rm) n.

(** The part of [_generate_dispatch_meta] that collects the blocks of the groups. *)
Definition extend_blocks (new_vllm_block_ids : list (list Z)) : M FAWARequestMeta unit :=
  modify (λ rm, match fr_vllm_block_ids rm with [] => set_blocks no_blocks rm | _ => rm end) ;;
  old ← gets fr_vllm_block_ids;
  if negb (zlen new_vllm_block_ids =? zlen old)
  then raise (RuntimeError "FAWA dispatch metadata expected other KV cache groups")
  else modify (set_blocks (zip_with app old new_vllm_block_ids)).

Definition _generate_dispatch_meta (new_tokens : Z) (new_vllm_block_ids : list (list Z))
    (need_load : bool) : M FAWARequestMeta FAWARequestDispatchMeta :=
  extend_blocks new_vllm_block_ids ;;
  rm ← get;
  let all_group_block_ids := fr_vllm_block_ids rm in
  let hbm := fr_hbm_hit_block_num rm in
  let total := fr_total_hit_block_num rm in
  '(load_keys, load_start, load_end, load_vllm) ←
    (if need_load && (hbm <? total) then
       rows ← of_res (group_rows all_group_block_ids hbm total false);
       mret (py_slice (fr_ucm_block_ids rm) hbm total, hbm, total, rows)
     else mret ([], 0, 0, []));
  let computed_end_token := Z.min (fr_num_token_ids rm) (fr_token_processed rm + new_tokens) in
  let dump_start := Z.max total (fr_token_processed rm / hash_block_size) in
  let dump_end := computed_end_token / hash_block_size in
  '(dump_keys, dump_vllm) ←
    (if dump_start <? dump_end then
       rows ← of_res (group_rows all_group_block_ids dump_start dump_end (wa_dump_block_wise fcf));
       mret (py_slice (fr_ucm_block_ids rm) dump_start dump_end, rows)
     else mret ([], []));
  modify (set_processed computed_end_token) ;;
  mret (FDispatch load_keys load_start load_end load_vllm dump_keys dump_start dump_end dump_vllm).

End plan.

(** ** Addresses *)

(** [np.asarray(ids, dtype=np.uint64)] *)
Definition np_uint64 (ids : list Z) : res (list Z) :=
  if decide (Forall (λ i, 0 ≤ i) ids) then Ok (u64 <$> ids) else Raise OverflowError.

(** [np.concatenate(matrices, axis=1)] *)
Definition np_hconcat (ms : list addr_rows) : res addr_rows :=
  match ms with
  | [] => Raise (ValueError "need at least one array to concatenate")
  | m :: ms' =>
      if decide (Forall (λ m', length m' = length m) ms')
      then Ok (foldl (zip_with app) m ms')
      else Raise (ValueError "array dimensions must match")
  end.

(** [np.vstack(matrices)] *)
Definition np_vstack (ms : list addr_rows) : res addr_rows :=
  let rows := concat ms in
  if decide (Forall (λ r, length r = length (default [] (head rows))) rows) then Ok rows
  else Raise (ValueError "array dimensions must match").

(** [m.reshape(n, -1)] *)
Definition np_reshape (m : addr_rows) (n : Z) : res addr_rows :=
  let flat := concat m in
  if (n <=? 0) || negb (zlen flat mod n =? 0) then Raise (ValueError "cannot reshape array")
  else Ok (full_blocks (Z.to_nat n) (Z.to_nat (zlen flat / n)) flat).

Section addresses.
  Variable F : fawa_layouts.
Let G : fawa_groups := fl_groups F.
Let hash_block_size : Z := fg_hash_block_size G.

Definition fa_group_ptrs (hash_start hash_end : Z) (candidate_vllm_ids : list (list Z)) (group_id : Z) :
    res (option addr_rows) :=
  match dict_get group_id (group_layouts F) with
  | None => Ok None
  | Some L =>
      meta ← dict_index group_id (group_metas G);
      ids ← py_index candidate_vllm_ids group_id;
      block_ids ← np_uint64 ids;
      let tbs := gm_token_block_size meta in
      if hash_block_size =? tbs then Ok (Some (extract_addrs L block_ids))
      else
        let token_offsets := (λ k, (k * hash_block_size) mod tbs) <$> py_range hash_start hash_end in
        Some <$> extract_addrs_with_offsets L block_ids tbs (OffInt64 token_offsets)
  end.

Definition _extract_fa_ptr (hash_start hash_end : Z) (candidate_vllm_ids : list (list Z)) :
    res addr_rows :=
  ms ← map_res (fa_group_ptrs hash_start hash_end candidate_vllm_ids) (fa_group_ids G);
  np_hconcat (omap id ms).

Definition wa_group_ptrs (store_keys : list bytes) (vllm_ids : list (list Z)) (group_id : Z) :
    res (option addr_rows) :=
  match dict_get group_id (group_layouts F) with
  | None => Ok None
  | Some L =>
      meta ← dict_index group_id (group_metas G);
      if gm_tail_tokens meta =? 0 then Ok None
      else
        ids ← py_index vllm_ids group_id;
        block_ids ← np_uint64 ids;
        if (gm_tail_blocks meta =? 1) && (gm_tail_tokens meta <? gm_token_block_size meta) then
          let token_offsets :=
            replicate (length block_ids) (gm_token_block_size meta - gm_tail_tokens meta) in
          Some <$> extract_addrs_with_offsets L block_ids (gm_token_block_size meta)
                     (OffUint64 token_offsets)
        else Some <$> np_reshape (extract_addrs L block_ids) (zlen store_keys)
  end.

Definition _extract_wa_ptr (store_keys : list bytes) (vllm_ids : list (list Z)) : res addr_rows :=
  ms ← map_res (wa_group_ptrs store_keys vllm_ids) (window_group_ids G);
  np_hconcat (omap id ms).

End addresses.

Section fawa.
  Context {W : Type} `{StoreOps W} `{DeviceOps W} `{SetOrder} `{PyHash}.
  Variable fcf : fawa_conf.
Let cf : conf := fw_cf fcf.
Let F : fawa_layouts := fw_layouts fcf.
Let G : fawa_groups := fl_groups F.
Let hash_block_size : Z := fg_hash_block_size G.

Notation FM := (M (fawa * W)).

(** An inherited method. *)
Definition on_fbase {A} (m : M (conn * W) A) : FM A :=
  lift (λ s, (fbase s.1, s.2))
       (λ t s, (Fawa t.1 (f_requests_meta s.1) (tp_dump_tasks s.1) (f_metadata s.1), t.2)) m.

Definition updf (f : fawa → fawa) : FM unit := modify (λ s, (f s.1, s.2)).
Definition getf {A} (f : fawa → A) : FM A := gets (λ s, f s.1).

Definition set_f_requests x (c : fawa) : fawa := Fawa (fbase c) x (tp_dump_tasks c) (f_metadata c).
Definition set_tp_tasks x (c : fawa) : fawa := Fawa (fbase c) (f_requests_meta c) x (f_metadata c).
Definition set_f_metadata x (c : fawa) : fawa :=
  Fawa (fbase c) (f_requests_meta c) (tp_dump_tasks c) x.

(** A mutation of the metadata of one request, kept when it raises. *)
Definition on_req {A} (req_id : string) (rm : FAWARequestMeta) (m : M FAWARequestMeta A) : FM A := λ s,
  match m rm with
  | (r, rm') => (r, (set_f_requests (dict_set req_id rm' (f_requests_meta s.1)) s.1, s.2))
  end.

(** ** Matching *)

(** The loop of [_lookup_external_hit_blocks] from [hit_blocks] down to 0. *)
Fixpoint latest_boundary (wa : sref) (external_keys : list bytes) (hit_blocks : nat) : FM Z :=
  key ← of_res (py_index external_keys (Z.of_nat hit_blocks - 1));
  found ← on_fbase (on_rc (lookup_all wa [key]));
  b ← of_res (py_index found 0);
  if (b : bool) then mret (Z.of_nat hit_blocks)
  else match hit_blocks with O => mret 0 | S n => latest_boundary wa external_keys n end.

Definition _lookup_external_hit_blocks (external_keys : list bytes) : FM Z :=
  match fa_store fcf, wa_store fcf with
  | None, _ => raise (RuntimeError "FA store is not initialized.")
  | _, None => raise (RuntimeError "WA store is not initialized.")
  | Some fa, Some wa =>
      last_hit ← on_fbase (on_rc (lookup_on_prefix fa external_keys));
      let fa_hit_blocks := last_hit + 1 in
      if fa_hit_blocks <=? 0 then mret 0
      else latest_boundary wa external_keys (Z.to_nat fa_hit_blocks)
  end.

Definition get_num_new_matched_tokens (r : request) (num_computed_tokens : Z) : FM (Z * bool) :=
  let wa_hbm := num_computed_tokens / hash_block_size in
  let wa_computed_tokens := wa_hbm * hash_block_size in
  if (num_tokens r <=? persist_token_threshold cf) ||
     (num_tokens r <=? wa_computed_tokens + load_tokens_threshold fcf) then mret (0, false) else
  let canonical_hashes := generate_hash (hash_meta cf) hash_block_size (all_token_ids r)
                            (hash_seed (hash_meta cf)) in
  let external_keys := py_from canonical_hashes wa_hbm in
  match external_keys with
  | [] => mret (0, false)
  | _ =>
      external_hit_blocks ← try_except (_lookup_external_hit_blocks external_keys)
        (λ _, on_fbase (_record_counter "connector_lookup_errors_total") ;; mret 0);
      let total_hit_block_num := wa_hbm + external_hit_blocks in
      let num_total_hit_tokens := external_hit_blocks * hash_block_size + wa_computed_tokens in
      let external_hit_tokens := num_total_hit_tokens - num_computed_tokens in
      let external_hit_tokens :=
        if num_total_hit_tokens =? num_tokens r then external_hit_tokens - 1 else external_hit_tokens in
      let '(external_hit_tokens, num_total_hit_tokens, wa_hbm) :=
        if external_hit_blocks * hash_block_size <=? load_tokens_threshold fcf
        then (0, num_computed_tokens, wa_hbm + external_hit_blocks)
        else (external_hit_tokens, num_total_hit_tokens, wa_hbm) in
      updf (λ c, set_f_requests (dict_set (request_id r)
        (FReqMeta canonical_hashes wa_hbm total_hit_block_num (num_tokens r) [] num_total_hit_tokens)
        (f_requests_meta c)) c) ;;
      mret (external_hit_tokens, false)
  end.

(** ** Plans *)

(** One scheduled request; [args] gives the new blocks, [None] when there are
    none, and whether the request was resumed; a resumed request starts over
    with no blocks. *)
Definition f_dispatch_request (so : f_scheduler_output) (req_id : string)
    (args : res (list (list Z) * bool)) (is_new : bool) (disp : dict string FAWARequestDispatchMeta) :
    FM (dict string FAWARequestDispatchMeta) :=
  metas ← getf f_requests_meta;
  match dict_get req_id metas with
  | None => mret disp
  | Some rm =>
      p ← of_res args;
      let '(new_block_ids, resumed) := (p : list (list Z) * bool) in
      let rm := if (resumed : bool) then set_blocks (no_blocks fcf) rm else rm in
      on_req req_id rm (mret tt) ;;
      n ← of_res (dict_index req_id (fso_num_scheduled_tokens so));
      d ← on_req req_id rm (_generate_dispatch_meta fcf n new_block_ids (is_new || resumed));
      mret (dict_set req_id d disp)
  end.

Definition f_cached_args (so : f_scheduler_output) (i : Z) (req_id : string) :
    res (list (list Z) * bool) :=
  blocks ← py_index (fso_new_block_ids so) i;
  flag ← match fso_resumed so with
         | ResumedList l => py_index l i
         | ResumedSet s => Ok (bool_decide (req_id ∈ s))
         end;
  Ok (default (no_blocks fcf) blocks, flag).

Definition build_connector_meta (so : f_scheduler_output) : FM UCMFAWAConnectorMetadata :=
  disp ← for_fold (fso_new_reqs so) [] (λ disp x,
    f_dispatch_request so x.1 (Ok (x.2, false)) true disp);
  disp ← for_fold (zip (seqZ 0 (zlen (fso_cached_req_ids so))) (fso_cached_req_ids so)) disp
    (λ disp x, f_dispatch_request so x.2 (f_cached_args so x.1 x.2) false disp);
  updf (λ c, set_f_requests
    (filter (λ kv, kv.1 ∉ fso_finished_req_ids so) (f_requests_meta c)) c) ;;
  mret (FMetadata disp (default ∅ (fso_preempted_req_ids so))).

(** The inherited [update_connector_output] on the metadata of this connector. *)
Definition f_failed_load (meta : worker_meta) (metas : dict string FAWARequestMeta) (req_id : string) :
    dict string FAWARequestMeta :=
  match dict_get req_id metas with
  | Some rm =>
      if decide (req_id ∈ wm_missing_reqs meta) then
        dict_set req_id
          (FReqMeta (fr_ucm_block_ids rm) (fr_hbm_hit_block_num rm) (fr_hbm_hit_block_num rm)
             (fr_num_token_ids rm) (fr_vllm_block_ids rm)
             (fr_hbm_hit_block_num rm * hash_block_size)) metas
      else dict_del req_id metas
  | None => dict_del req_id metas
  end.

Definition update_connector_output (connector_output : option worker_meta) : FM unit :=
  match connector_output with
  | None => mret tt
  | Some meta =>
      on_fbase (updc (λ c, set_rc (apply_worker_meta meta (rank_consistency c)) c)) ;;
      updf (λ c, set_f_requests
        (foldl (f_failed_load meta) (f_requests_meta c) (elements (wm_load_failed_reqs meta))) c)
  end.

Definition request_finished_all_groups (req_id : string) (block_ids : list (list Z)) : FM bool := mret true.

(** ** Loads *)

Definition f_get_connector_metadata : FM UCMFAWAConnectorMetadata :=
  m ← getf f_metadata;
  match m with Some m => mret m | None => raise AssertionError end.

Definition _get_request_all_block_ids (req_id : string) : FM (gset Z) :=
  metadata ← f_get_connector_metadata;
  mret (match dict_get req_id (f_request_meta metadata) with
        | None => ∅
        | Some d => list_to_set (concat (load_vllm_block_ids d)) ∪
                    list_to_set (concat (dump_vllm_block_ids d))
        end).

Definition _handle_load_err (req_id : string) : FM unit :=
  affected_block_ids ← _get_request_all_block_ids req_id;
  on_fbase (_record_load_error "connector_load_wait_errors_total" (elements affected_block_ids)) ;;
  on_fbase (mark_failed req_id).

Definition _submit_load_task (req_id label : string) (store : sref) (keys : list bytes)
    (ptrs : addr_rows) : FM FAWALoadTask :=
  t ← on_fbase (on_rc (submit_load store [(req_id, keys)] keys (replicate (length keys) 0) ptrs));
  mret (FLoadTask req_id label store t (zlen keys)).

Definition _wait_load_task (t : FAWALoadTask) : FM unit :=
  try_except (on_fbase (on_rc (wait_load (lt_task t))))
    (λ _, _handle_load_err (lt_request_id t)).

(** A submission inside the [try] block of [start_load_kv]. *)
Definition try_load (req_id : string) (m : FM FAWALoadTask) : FM (option FAWALoadTask) :=
  try_except (t ← m; mret (Some t)) (λ _, _handle_load_err req_id ;; mret None).

Definition submit_fa_load (req_id : string) (d : FAWARequestDispatchMeta) : FM FAWALoadTask :=
  match fa_store fcf, wa_store fcf with
  | None, _ => raise (RuntimeError "FA store is not initialized.")
  | _, None => raise (RuntimeError "WA store is not initialized.")
  | Some fa, Some _ =>
      fa_ptrs ← of_res (_extract_fa_ptr F (load_hash_start d) (load_hash_end d) (load_vllm_block_ids d));
      _submit_load_task req_id "FA" fa (load_keys d) fa_ptrs
  end.

Definition submit_wa_load (req_id : string) (d : FAWARequestDispatchMeta) : FM FAWALoadTask :=
  let window_keys := py_from (load_keys d) (-1) in
  match wa_store fcf with
  | None => raise (RuntimeError "WA store is not initialized.")
  | Some wa =>
      window_ptrs ← of_res (_extract_wa_ptr F window_keys (load_vllm_block_ids d));
      _submit_load_task req_id "WA" wa window_keys window_ptrs
  end.

(** One request of [start_load_kv]: the FA task is kept when the WA one fails. *)
Definition f_load_step (tasks : list FAWALoadTask) (x : string * FAWARequestDispatchMeta) :
    FM (list FAWALoadTask) :=
  match load_keys x.2 with
  | [] => mret tasks
  | _ =>
      fa_task ← try_load x.1 (submit_fa_load x.1 x.2);
      match fa_task with
      | None => mret tasks
      | Some fa_task =>
          wa_task ← try_load x.1 (submit_wa_load x.1 x.2);
          mret (tasks ++ fa_task :: option_list wa_task)
      end
  end.

Definition _wait_all_load_task (tasks : list FAWALoadTask) : FM unit := for_each tasks _wait_load_task.

Definition start_load_kv : FM unit :=
  metadata ← f_get_connector_metadata;
  tasks ← for_fold (f_request_meta metadata) [] f_load_step;
  _wait_all_load_task tasks.

(** ** Background dumps *)

Definition f_destroy_event (h : Z) : FM unit := on_fbase (on_dev (destroy_event_handle h)).

(** Waiting for a dump, with [on_error] for its failure; its event is destroyed
    in any case. *)
Definition f_wait_dump (t : FAWADumpTask) (on_error : FM unit) : FM unit :=
  try_finally (try_except (on_fbase (on_rc (wait_dump (dt_task t)))) (λ _, on_error))
    (f_destroy_event (dt_event_handle t)).

Definition f_poll_task (in_flight_tasks : list FAWADumpTask) (t : FAWADumpTask) :
    FM (list FAWADumpTask) :=
  finished ← try_except (on_fbase (on_w (st_check (dt_store t) (dt_task t)))) (λ _, mret false);
  if (finished : bool) then f_wait_dump t (mret tt) ;; mret in_flight_tasks
  else mret (in_flight_tasks ++ [t]).

Definition f_poll_entry (x : list string * list FAWADumpTask) : FM unit :=
  in_flight_tasks ← for_fold x.2 [] f_poll_task;
  updf (λ c, set_tp_tasks (match in_flight_tasks with
                           | [] => dict_del x.1 (tp_dump_tasks c)
                           | _ => dict_set x.1 in_flight_tasks (tp_dump_tasks c)
                           end) c).

Definition _poll_completed_dump_tasks : FM unit :=
  entries ← getf tp_dump_tasks; for_each entries f_poll_entry.

Definition count_wait_error : FM unit :=
  on_fbase (_record_counter "connector_dump_wait_errors_total").

Definition f_drain_entry (ids : gset string) (finished : list (list string))
    (x : list string * list FAWADumpTask) : FM (list (list string)) :=
  if decide (ids ∩ list_to_set x.1 = ∅) then mret finished
  else for_each x.2 (λ t, f_wait_dump t count_wait_error) ;; mret (finished ++ [x.1]).

Definition _drain_best_effort_dump_tasks (finished_req_ids : gset string) : FM unit :=
  if decide (finished_req_ids = ∅) then mret tt else
  entries ← getf tp_dump_tasks;
  finished ← for_fold entries [] (f_drain_entry finished_req_ids);
  for_each finished (λ ids, updf (λ c, set_tp_tasks (dict_del ids (tp_dump_tasks c)) c)).

Definition handle_preemptions (m : UCMFAWAConnectorMetadata) : FM unit :=
  _drain_best_effort_dump_tasks (f_preempted_req_ids m).

Definition get_finished (finished_req_ids : gset string) : FM (gset string) :=
  _drain_best_effort_dump_tasks finished_req_ids ;;
  on_fbase (on_rc (finish_dump finished_req_ids)) ;;
  mret finished_req_ids.

(** ** Saves *)

(** What the collection loops of [wait_for_save] accumulate. *)
Record fsave := FSave {
  fs_fa_keys : list bytes;
  fs_wa_keys : list bytes;
  fs_fa_rows : list addr_rows;
  fs_wa_rows : list addr_rows;
  fs_request_ids : list string;
  fs_fa_by_request : dict string (gset bytes);
  fs_wa_by_request : dict string (gset bytes);
  fs_ring : Z;
}.

Definition add_fa (req_id : string) (keys : list bytes) (rows : addr_rows) (a : fsave) : fsave :=
  FSave (fs_fa_keys a ++ keys) (fs_wa_keys a) (fs_fa_rows a ++ [rows]) (fs_wa_rows a)
    (fs_request_ids a) (dict_set req_id (list_to_set keys) (fs_fa_by_request a))
    (fs_wa_by_request a) (fs_ring a).

Definition add_wa (req_id : string) (keys : list bytes) (rows : addr_rows) (a : fsave) : fsave :=
  FSave (fs_fa_keys a) (fs_wa_keys a ++ keys) (fs_fa_rows a) (fs_wa_rows a ++ [rows])
    (fs_request_ids a) (fs_fa_by_request a)
    (dict_set req_id (list_to_set keys) (fs_wa_by_request a)) (fs_ring a).

Definition add_request (req_id : string) (ring : Z) (a : fsave) : fsave :=
  FSave (fs_fa_keys a) (fs_wa_keys a) (fs_fa_rows a) (fs_wa_rows a) (fs_request_ids a ++ [req_id])
    (fs_fa_by_request a) (fs_wa_by_request a) ring.

(** The bounds of the keys a rank dumps. *)
Definition tp_block_start (num_keys rank : Z) : Z := num_keys * rank / tp_size cf.

Definition fa_slice (first last : Z) (rows : list (list Z)) : list (list Z) :=
  (λ x, if decide (x.1 ∈ fa_group_ids G) then py_slice x.2 first last else x.2) <$>
    zip (seqZ 0 (zlen rows)) rows.

Definition wa_slice (first last : Z) (rows : list (list Z)) : res (list (list Z)) :=
  map_res (λ x,
    if decide (x.1 ∈ window_group_ids G) then
      meta ← dict_index x.1 (group_metas G);
      Ok (py_slice x.2 (first * gm_tail_blocks meta) (last * gm_tail_blocks meta))
    else Ok x.2) (zip (seqZ 0 (zlen rows)) rows).

(** The WA rows of the last boundary of a request. *)
Definition add_last_wa (req_id : string) (d : FAWARequestDispatchMeta) (a : fsave) : res fsave :=
  let keys := py_from (dump_keys d) (-1) in
  rows ← _extract_wa_ptr F keys (dump_vllm_block_ids d);
  Ok (add_wa req_id keys rows a).

(** One request when there are several ranks. *)
Definition f_save_tp (a : fsave) (x : string * FAWARequestDispatchMeta) : res fsave :=
  let '(req_id, d) := x in
  match dump_keys d with
  | [] => Ok a
  | _ =>
      let num_keys := zlen (dump_keys d) in
      let first := tp_block_start num_keys (tp_rank cf) in
      let last := tp_block_start num_keys (tp_rank cf + 1) in
      let tp_dump_keys := py_slice (dump_keys d) first last in
      let a := add_request req_id (fs_ring a) a in
      a ← (match tp_dump_keys with
           | [] => Ok a
           | _ =>
               rows ← _extract_fa_ptr F (dump_hash_start d + first) (dump_hash_start d + last)
                        (fa_slice first last (dump_vllm_block_ids d));
               Ok (add_fa req_id tp_dump_keys rows a)
           end);
      a ← (if wa_dump_block_wise fcf then
             match tp_dump_keys with
             | [] => Ok a
             | _ =>
                 ids ← wa_slice first last (dump_vllm_block_ids d);
                 rows ← _extract_wa_ptr F tp_dump_keys ids;
                 Ok (add_wa req_id tp_dump_keys rows a)
             end
           else if fs_ring a mod tp_size cf =? tp_rank cf then add_last_wa req_id d a
           else Ok a);
      Ok (FSave (fs_fa_keys a) (fs_wa_keys a) (fs_fa_rows a) (fs_wa_rows a) (fs_request_ids a)
            (fs_fa_by_request a) (fs_wa_by_request a) (fs_ring a + 1))
  end.

(** One request on a single rank. *)
Definition f_save_single (a : fsave) (x : string * FAWARequestDispatchMeta) : res fsave :=
  let '(req_id, d) := x in
  match dump_keys d with
  | [] => Ok a
  | _ =>
      let a := add_request req_id (fs_ring a) a in
      rows ← _extract_fa_ptr F (dump_hash_start d) (dump_hash_end d) (dump_vllm_block_ids d);
      let a := add_fa req_id (dump_keys d) rows a in
      if wa_dump_block_wise fcf then
        rows ← _extract_wa_ptr F (dump_keys d) (dump_vllm_block_ids d);
        Ok (add_wa req_id (dump_keys d) rows a)
      else add_last_wa req_id d a
  end.

Definition f_collect_saves (reqs : dict string FAWARequestDispatchMeta) : res fsave :=
  fold_res (if 1 <? tp_size cf then f_save_tp else f_save_single)
    (FSave [] [] [] [] [] [] [] 0) reqs.

Definition _submit_dump_task (label : string) (store : sref) (keys : list bytes) (ptrs : addr_rows)
    (event_handle : Z) (by_request : dict string (gset bytes)) : FM FAWADumpTask :=
  t ← on_fbase (on_rc (submit_dump store by_request keys (replicate (length keys) 0) ptrs event_handle));
  mret (FDumpTask label store t (zlen keys) event_handle).

(** The handler of a failed submission. *)
Definition f_dump_failed (event_handle : Z) : FM unit :=
  f_destroy_event event_handle ;;
  on_fbase (_record_counter "connector_dump_submit_errors_total").

Definition f_submit_fa (fa : sref) (a : fsave) : FM unit :=
  match fs_fa_keys a with
  | [] => mret tt
  | keys =>
      event_handle ← on_fbase (_get_dump_event_handle cf);
      fa_ptrs ← of_res (np_vstack (fs_fa_rows a));
      let ids := fs_request_ids a in
      updf (λ c, if dict_mem ids (tp_dump_tasks c) then c
                 else set_tp_tasks (dict_set ids [] (tp_dump_tasks c)) c) ;;
      try_except
        (t ← _submit_dump_task "FA" fa keys fa_ptrs event_handle (fs_fa_by_request a);
         updf (λ c, set_tp_tasks
           (dict_set ids (dict_get_default ids [] (tp_dump_tasks c) ++ [t]) (tp_dump_tasks c)) c))
        (λ _, f_dump_failed event_handle)
  end.

Definition f_submit_wa (wa : sref) (a : fsave) : FM unit :=
  match fs_wa_keys a with
  | [] => mret tt
  | keys =>
      event_handle ← on_fbase (_get_dump_event_handle cf);
      window_ptrs ← of_res (np_vstack (fs_wa_rows a));
      try_except
        (t ← _submit_dump_task "WA" wa keys window_ptrs event_handle (fs_wa_by_request a);
         f_wait_dump t count_wait_error)
        (λ _, f_dump_failed event_handle)
  end.

Definition wait_for_save : FM unit :=
  metadata ← f_get_connector_metadata;
  match fa_store fcf, wa_store fcf with
  | None, _ => raise (RuntimeError "FA store is not initialized.")
  | _, None => raise (RuntimeError "WA store is not initialized.")
  | Some fa, Some wa =>
      _poll_completed_dump_tasks ;;
      a ← of_res (f_collect_saves (f_request_meta metadata));
      f_submit_fa fa a ;;
      f_submit_wa wa a
  end.

(** vLLM's [bind_connector_metadata] and [clear_connector_metadata]. *)
Definition bind_connector_metadata (m : UCMFAWAConnectorMetadata) : FM unit :=
  updf (set_f_metadata (Some m)).
Definition clear_connector_metadata : FM unit := updf (set_f_metadata None).

End fawa.
