(* ===== verification/FawaPlanProps.v ===== *)
(** * The plans of the FAWA connector

    Which blocks of every group a plan names for a range of hash blocks, what a
    prompt computed in chunks dumps, and how the ranks share the dumps. *)
From S2P Require Import Prelude Runtime RankConsistency PyHash Hashing KVLayout StoreConf Direct DirectWorker FawaLayout Fawa.
Open Scope Z_scope.

(** ** Sequences of lookups *)

(** Consecutive positions give a slice. *)
Lemma map_res_py_index_run {A} (l : list A) a n :
  0 ≤ a → 0 ≤ n → a + n ≤ zlen l → map_res (py_index l) (seqZ a n) = Ok (py_slice l a (a + n)).
Proof.
  intros Ha Hn Hl. apply map_res_Forall2, Forall2_same_length_lookup. split.
  - rewrite -> length_seqZ. pose proof (py_slice_length l a (a + n)). unfold zlen in *. lia.
  - intros i x y Hx Hy. apply lookup_seqZ in Hx as [-> Hi]. apply py_index_lookup; [lia|].
    rewrite -> py_slice_lookup in Hy by lia. rewrite <- Hy. f_equal. lia.
Qed.

(** Positions in range give one element each. *)
Lemma map_res_py_index_omap {A} (l : list A) ks :
  Forall (λ i, 0 ≤ i < zlen l) ks →
  map_res (py_index l) ks = Ok (omap (λ i, l !! Z.to_nat i) ks) ∧
  length (omap (λ i, l !! Z.to_nat i) ks) = length ks.
Proof.
  induction 1 as [|i ks Hi Hks [IH IHl]]; [done|]. cbn [map_res omap list_omap].
  destruct (py_index_in l i Hi) as (x & Hx & Hlk). rewrite -> Hx, Hlk. simpl.
  rewrite -> IH. simpl. split; [done|]. by f_equal.
Qed.

Lemma omap_lookup_all {A B} (f : A → option B) l (j : nat) x :
  length (omap f l) = length l → l !! j = Some x → omap f l !! j = f x.
Proof.
  revert j. induction l as [|y l IH]; intros j; cbn [omap list_omap]; [done|].
  assert (length (omap f l) ≤ length l)%nat by (clear; induction l as [|z l IH]; cbn [omap list_omap];
    [done|]; destruct (f z); simpl; lia).
  destruct (f y) as [b|] eqn:Hy; simpl; intros Hl Hj; [|cbn in *; lia].
  destruct j as [|j]; simpl in *; [by simplify_eq|]. apply IH; [lia|done].
Qed.

Section plan.
  Variable fcf : fawa_conf.
Let G : fawa_groups := fl_groups (fw_layouts fcf).
Let hb : Z := fg_hash_block_size G.

(** The position, in the blocks of a group, of the block holding the last token
    of hash block [k], and the tail that ends there. *)
Definition boundary_pos (meta : KVCacheGroupMeta) (k : Z) : Z :=
  ((k + 1) * hb - 1) / gm_token_block_size meta.

Definition window_tail (meta : KVCacheGroupMeta) (ids : list Z) (k : Z) : list Z :=
  py_slice ids (boundary_pos meta k + 1 - gm_tail_blocks meta) (boundary_pos meta k + 1).

Definition expected_row (g : Z) (meta : KVCacheGroupMeta) (ids : list Z) (first last : Z)
    (block_wise : bool) : list Z :=
  if decide (g ∈ window_group_ids G) then
    if gm_tail_tokens meta =? 0 then []
    else if block_wise then concat (window_tail meta ids <$> seqZ first (last - first))
    else window_tail meta ids (last - 1)
  else omap (λ i, ids !! Z.to_nat i) (boundary_pos meta <$> seqZ first (last - first)).

(** A group whose tail fits before the end of the first hash block. *)
Definition meta_fits (meta : KVCacheGroupMeta) : Prop :=
  0 < gm_token_block_size meta ∧ 1 ≤ gm_tail_blocks meta ∧
  (gm_tail_blocks meta - 1) * gm_token_block_size meta < hb.

(** The allocated blocks of a group reach the end of hash block [last - 1]. *)
Definition blocks_reach (last : Z) (g : Z) (ids : list Z) : Prop :=
  ∃ meta, dict_get g (group_metas G) = Some meta ∧ meta_fits meta ∧
    last * hb ≤ zlen ids * gm_token_block_size meta.

Definition all_reach (last : Z) (all : list (list Z)) : Prop :=
  Forall (λ x, blocks_reach last x.1 x.2) (zip (seqZ 0 (zlen all)) all).

Lemma boundary_pos_bounds meta (ids : list Z) k last :
  0 < hb → meta_fits meta → last * hb ≤ zlen ids * gm_token_block_size meta →
  0 ≤ k < last → gm_tail_blocks meta - 1 ≤ boundary_pos meta k < zlen ids.
Proof.
  intros Hh (Ht & Htail & Hfit) Hl Hk. unfold boundary_pos. split.
  - apply Z.div_le_lower_bound; nia.
  - apply Z.div_lt_upper_bound; nia.
Qed.

Lemma window_tail_length meta ids k last :
  0 < hb → meta_fits meta → last * hb ≤ zlen ids * gm_token_block_size meta →
  0 ≤ k < last → zlen (window_tail meta ids k) = gm_tail_blocks meta.
Proof.
  intros Hh Hm Hl Hk. pose proof (boundary_pos_bounds meta ids k last Hh Hm Hl Hk).
  destruct Hm as (_ & ? & _). unfold window_tail. rewrite -> py_slice_length; lia.
Qed.

Lemma bounds_list first last :
  (λ k, k * hb - 1) <$> py_range (first + 1) (last + 1) =
  (λ k, (k + 1) * hb - 1) <$> seqZ first (last - first).
Proof.
  unfold py_range. replace (last + 1 - (first + 1)) with (last - first) by lia.
  rewrite -> (Z.add_comm first 1), <- fmap_add_seqZ, <- list_fmap_compose.
  apply list_fmap_ext. intros i x _. unfold compose. f_equal. lia.
Qed.

Lemma slice_group_spec g ids meta first last bw :
  0 < hb → 0 ≤ first < last → dict_get g (group_metas G) = Some meta → meta_fits meta →
  last * hb ≤ zlen ids * gm_token_block_size meta →
  _slice_group_block_ids fcf g ids ((λ k, (k + 1) * hb - 1) <$> seqZ first (last - first)) bw =
    Ok (expected_row g meta ids first last bw).
Proof.
  intros Hh Hfl Hmeta Hfit Hreach. unfold _slice_group_block_ids, expected_row, dict_index.
  fold G. rewrite -> Hmeta. cbn [mbind res_bind].
  pose proof (λ k, boundary_pos_bounds meta ids k last Hh Hfit Hreach) as Hpos.
  set (ks := seqZ first (last - first)).
  assert (Hks : ∀ k, k ∈ ks → 0 ≤ k < last) by (intros k Hk%elem_of_seqZ; lia).
  destruct Hfit as (Ht & Htail & _).
  case_decide as Hw; [|].
  2:{ replace ((λ b, b / gm_token_block_size meta) <$> ((λ k, (k + 1) * hb - 1) <$> ks))
        with (boundary_pos meta <$> ks) by (by rewrite <- list_fmap_compose).
      apply map_res_py_index_omap. apply Forall_fmap, Forall_forall. intros k Hk. simpl.
      specialize (Hpos k (Hks k Hk)). lia. }
  case_match eqn:Htt; [done|]. destruct bw.
  - rewrite -> map_res_concat, <- !list_fmap_compose.
    erewrite (map_res_pure _ (λ l, py_slice ids (default 0 (head l)) (default 0 (head l) + gm_tail_blocks meta))).
    + simpl. rewrite <- list_fmap_compose. do 2 f_equal. apply list_fmap_ext. intros i k Hk.
      apply list_elem_of_lookup_2 in Hk. unfold window_tail. simpl.
      rewrite -> seqZ_cons by lia. simpl. unfold boundary_pos. f_equal; lia.
    + intros l Hl. apply list_elem_of_fmap in Hl as (k & -> & Hk). simpl.
      specialize (Hpos k (Hks k Hk)). unfold boundary_pos in Hpos.
      set (p := ((k + 1) * hb - 1) / gm_token_block_size meta) in *.
      assert (Hseq : (λ o, p - o) <$> ((λ k0, gm_tail_blocks meta - 1 - k0) <$> seqZ 0 (gm_tail_blocks meta))
                = seqZ (p + 1 - gm_tail_blocks meta) (gm_tail_blocks meta)).
      { rewrite <- list_fmap_compose.
        rewrite <- (Z.add_0_r (p + 1 - gm_tail_blocks meta)), <- fmap_add_seqZ.
        apply list_fmap_ext. intros i x _. unfold compose. lia. }
      rewrite -> Hseq, map_res_py_index_run by lia. rewrite -> seqZ_cons by lia. done.
  - unfold ks. replace (last - first) with (Z.of_nat (S (Z.to_nat (last - 1 - first)))) by lia.
    rewrite -> seqZ_S, fmap_app. rewrite -> Z2Nat.id by lia. cbn [fmap list_fmap].
    unfold py_index at 1. rewrite -> zlen_app, zlen_cons.
    set (l := (λ k, (k + 1) * hb - 1) <$> seqZ first (last - 1 - first)).
    assert (0 ≤ zlen l) by (unfold zlen; lia).
    replace (zlen ([] : list Z)) with 0 by done.
    rewrite -> (proj2 (Z.ltb_lt (-1) 0)) by lia. rewrite -> (proj2 (Z.ltb_ge _ 0)) by lia.
    rewrite -> lookup_app_r by (unfold zlen in *; lia).
    replace (Z.to_nat (-1 + (zlen l + (1 + 0))) - length l)%nat with 0%nat by (unfold zlen; lia).
    simpl. unfold window_tail, boundary_pos.
    replace (first + (last - 1 - first)) with (last - 1) by lia. done.
Qed.

(** Every group is sliced as expected. *)
Lemma group_rows_spec all first last bw :
  0 < hb → 0 ≤ first < last → all_reach last all →
  ∃ rows, group_rows fcf all first last bw = Ok rows ∧
    Forall2 (λ x row, ∃ meta, dict_get x.1 (group_metas G) = Some meta ∧ meta_fits meta ∧
      last * hb ≤ zlen x.2 * gm_token_block_size meta ∧ row = expected_row x.1 meta x.2 first last bw)
      (zip (seqZ 0 (zlen all)) all) rows.
Proof.
  intros Hh Hfl Hall. unfold group_rows. fold G hb. rewrite -> bounds_list. unfold all_reach in Hall.
  induction Hall as [|[g ids] l (meta & Hmeta & Hfit & Hreach) Hall IH]; [by exists []|].
  destruct IH as (rows & Hrows & HF). cbn [map_res fst snd].
  rewrite -> (slice_group_spec g ids meta) by done. simpl. rewrite -> Hrows. simpl.
  eexists. split; [done|]. constructor; [|done]. by exists meta.
Qed.

(** ** Prompts computed in chunks *)

(** The blocks and the metadata of a request after a chunk. *)
Definition next_blocks (blocks : list (list Z)) (rm : FAWARequestMeta) : list (list Z) :=
  zip_with app (match fr_vllm_block_ids rm with [] => no_blocks fcf | v => v end) blocks.

Definition next_processed (n : Z) (rm : FAWARequestMeta) : Z :=
  Z.min (fr_num_token_ids rm) (fr_token_processed rm + n).

Definition next_meta (n : Z) (blocks : list (list Z)) (rm : FAWARequestMeta) : FAWARequestMeta :=
  set_processed (next_processed n rm) (set_blocks (next_blocks blocks rm) rm).

(** The blocks of one chunk come for every group and reach the end of the hit
    blocks and of the tokens computed. *)
Definition chunk_allocated (n : Z) (blocks : list (list Z)) (rm : FAWARequestMeta) : Prop :=
  0 ≤ n ∧
  length blocks = length (match fr_vllm_block_ids rm with [] => no_blocks fcf | v => v end) ∧
  all_reach (Z.max (fr_total_hit_block_num rm) (next_processed n rm / hb)) (next_blocks blocks rm).

Fixpoint chunks_allocated (chunks : list (Z * list (list Z) * bool)) (rm : FAWARequestMeta) : Prop :=
  match chunks with
  | [] => True
  | (n, blocks, _) :: chunks =>
      chunk_allocated n blocks rm ∧ chunks_allocated chunks (next_meta n blocks rm)
  end.

(** The plans of a sequence of chunks. *)
Fixpoint run_fchunks (chunks : list (Z * list (list Z) * bool)) :
    M FAWARequestMeta (list FAWARequestDispatchMeta) :=
  match chunks with
  | [] => mret []
  | (n, blocks, need_load) :: chunks =>
      d ← _generate_dispatch_meta fcf n blocks need_load;
      ds ← run_fchunks chunks;
      mret (d :: ds)
  end.

Definition first_dump (rm : FAWARequestMeta) : Z :=
  Z.max (fr_total_hit_block_num rm) (fr_token_processed rm / hb).

Lemma blocks_reach_less a b g ids : 0 < hb → a ≤ b → blocks_reach b g ids → blocks_reach a g ids.
Proof. intros ?? (meta & Hm & Hf & Hl). exists meta. split_and!; [done|done|nia]. Qed.

Lemma all_reach_less a b all : 0 < hb → a ≤ b → all_reach b all → all_reach a all.
Proof. intros ??. unfold all_reach. intros Hf. eapply Forall_impl; [exact Hf|]. intros x. by apply blocks_reach_less. Qed.

Lemma generate_spec n blocks need rm :
  0 < hb → 0 ≤ fr_hbm_hit_block_num rm ≤ fr_total_hit_block_num rm → 0 ≤ fr_token_processed rm →
  chunk_allocated n blocks rm →
  ∃ d, _generate_dispatch_meta fcf n blocks need rm = (Ok d, next_meta n blocks rm) ∧
    dump_keys d = (if first_dump rm <? next_processed n rm / hb
                   then py_slice (fr_ucm_block_ids rm) (first_dump rm) (next_processed n rm / hb) else []) ∧
    load_keys d = (if need && (fr_hbm_hit_block_num rm <? fr_total_hit_block_num rm)
                   then py_slice (fr_ucm_block_ids rm) (fr_hbm_hit_block_num rm) (fr_total_hit_block_num rm)
                   else []).
Proof.
  intros Hh Hhbm Hp (Hn & Hlen & Hreach). unfold _generate_dispatch_meta, extend_blocks.
  set (rm1 := match fr_vllm_block_ids rm with [] => set_blocks (no_blocks fcf) rm | _ => rm end).
  assert (Hrm1 : set_blocks (next_blocks blocks rm) rm1 = set_blocks (next_blocks blocks rm) rm ∧
    zip_with app (fr_vllm_block_ids rm1) blocks = next_blocks blocks rm ∧
    length (fr_vllm_block_ids rm1) = length blocks).
  { unfold rm1, next_blocks. destruct (fr_vllm_block_ids rm) eqn:E; simpl; rw ?E; done. }
  destruct Hrm1 as (Hset & Hzip & Hl1). munfold. fold rm1.
  rewrite -> (proj2 (Z.eqb_eq _ _)) by (unfold zlen; lia). simpl. rewrite -> Hzip, Hset.
  assert (Hfld : fr_hbm_hit_block_num rm1 = fr_hbm_hit_block_num rm ∧
    fr_total_hit_block_num rm1 = fr_total_hit_block_num rm ∧
    fr_token_processed rm1 = fr_token_processed rm ∧ fr_num_token_ids rm1 = fr_num_token_ids rm ∧
    fr_ucm_block_ids rm1 = fr_ucm_block_ids rm).
  { unfold rm1. by destruct (fr_vllm_block_ids rm). }
  destruct Hfld as (-> & -> & -> & -> & ->).
  fold G hb. change (Z.min _ _) with (next_processed n rm). change (Z.max (fr_total_hit_block_num rm) _)
    with (first_dump rm).
  assert (Hload : ∃ rows, (need && (fr_hbm_hit_block_num rm <? fr_total_hit_block_num rm) = true →
    group_rows fcf (next_blocks blocks rm) (fr_hbm_hit_block_num rm) (fr_total_hit_block_num rm) false = Ok rows)).
  { destruct (need && _) eqn:E; [|by exists []]. apply andb_true_iff in E as [_ E%Z.ltb_lt].
    destruct (group_rows_spec (next_blocks blocks rm) (fr_hbm_hit_block_num rm)
      (fr_total_hit_block_num rm) false Hh) as (rows & Hr & _); [lia| |by exists rows].
    eapply all_reach_less; [done| |exact Hreach]. lia. }
  assert (Hdump : ∃ rows, (first_dump rm <? next_processed n rm / hb = true →
    group_rows fcf (next_blocks blocks rm) (first_dump rm) (next_processed n rm / hb)
      (wa_dump_block_wise fcf) = Ok rows)).
  { destruct (Z.ltb_spec (first_dump rm) (next_processed n rm / hb)) as [E|E]; [|by exists []].
    destruct (group_rows_spec (next_blocks blocks rm) (first_dump rm) (next_processed n rm / hb)
      (wa_dump_block_wise fcf) Hh) as (rows & Hr & _).
    - unfold first_dump in *. lia.
    - eapply all_reach_less; [done| |exact Hreach]. lia.
    - by exists rows. }
  destruct Hload as [lrows Hload], Hdump as [drows Hdump].
  destruct (need && _); [rewrite -> Hload by done|]; simpl;
    (destruct (first_dump rm <? _); [rewrite -> Hdump by done|]); simpl; eexists; done.
Qed.

Lemma slice_or_nil {A} (l : list A) a b : 0 ≤ a →
  (if a <? b then py_slice l a b else []) = py_slice l a (Z.max a b).
Proof.
  intros Ha. destruct (Z.ltb_spec a b) as [?|?]; [by rewrite -> Z.max_r by lia|].
  rewrite -> Z.max_l, py_slice_empty by lia. done.
Qed.

Lemma run_fchunks_spec chunks : ∀ rm,
  0 < hb → 0 ≤ fr_hbm_hit_block_num rm ≤ fr_total_hit_block_num rm →
  0 ≤ fr_token_processed rm ≤ fr_num_token_ids rm → chunks_allocated chunks rm →
  ∃ ds rm', run_fchunks chunks rm = (Ok ds, rm') ∧
    fr_token_processed rm' =
      Z.min (fr_num_token_ids rm) (fr_token_processed rm + zsum ((λ c, c.1.1) <$> chunks)) ∧
    concat (dump_keys <$> ds) =
      py_slice (fr_ucm_block_ids rm) (first_dump rm)
        (Z.max (first_dump rm) (fr_token_processed rm' / hb)).
Proof.
  induction chunks as [|[[n blocks] need] chunks IH]; intros rm Hh Hhbm Hp Hall.
  { exists [], rm. split; [done|]. cbn. split; [lia|]. rewrite -> py_slice_empty; [done|].
    unfold first_dump. lia. }
  destruct Hall as [Hc Hall].
  destruct (generate_spec n blocks need rm Hh Hhbm ltac:(lia) Hc) as (d & Hd & Hkeys & _).
  assert (Hn : 0 ≤ n) by apply Hc.
  destruct (IH (next_meta n blocks rm) Hh) as (ds & rm' & Hrun & Hproc & Hconcat); [done| |done|].
  { simpl. unfold next_processed. lia. }
  assert (Hsum : 0 ≤ zsum ((λ c, c.1.1) <$> chunks)).
  { apply zsum_nonneg, Forall_fmap. clear -Hall. revert Hall. generalize (next_meta n blocks rm).
    induction chunks as [|[[m b] k] cs IHc]; intros r Hr; constructor; destruct Hr as [[? _] Hr]; [done|].
    by eapply IHc. }
  simpl in Hproc. unfold next_processed in Hproc.
  assert (Hmono : fr_token_processed rm / hb ≤ next_processed n rm / hb).
  { apply Z.div_le_mono; [done|]. unfold next_processed. lia. }
  assert (Hmono' : next_processed n rm / hb ≤ fr_token_processed rm' / hb).
  { apply Z.div_le_mono; [done|]. unfold next_processed. lia. }
  exists (d :: ds), rm'. split; [|split].
  - simpl. mrun Hd. mrun Hrun. done.
  - rewrite -> fmap_cons, zsum_cons. simpl. lia.
  - rewrite -> fmap_cons, concat_cons, Hkeys, Hconcat. cbn [fr_ucm_block_ids next_meta set_processed set_blocks].
    assert (Hfd : first_dump (next_meta n blocks rm) = Z.max (first_dump rm) (next_processed n rm / hb)).
    { unfold first_dump. simpl. lia. }
    rewrite -> slice_or_nil by (unfold first_dump; lia). rewrite -> Hfd.
    rewrite -> py_slice_app; [f_equal; lia|unfold first_dump; lia|lia].
Qed.

End plan.

(** ** Sharing the dumps among the ranks *)

Definition set_tp_rank (r : Z) (cf : conf) : conf :=
  Conf (use_layerwise cf) (cf_is_mla cf) r (tp_size cf) (cf_block_size cf) (hash_block_size cf)
    (cp_world_size cf) (hash_meta cf) (other_rank_hashers cf) (speculative_tokens cf)
    (enable_event_sync cf) (skip_null_vllm_blocks cf) (persist_token_threshold cf) (store cf)
    (kv_cache_layout cf) (block_data_size cf).

(** The configuration of rank [r]. *)
Definition at_rank (r : Z) (fcf : fawa_conf) : fawa_conf :=
  FawaConf (set_tp_rank r (fw_cf fcf)) (fw_layouts fcf) (fa_store fcf) (wa_store fcf)
    (wa_dump_block_wise fcf) (load_tokens_threshold fcf).

(** Exchanging two nested concatenations. *)
Lemma concat_app_fmap {A B} (f g : A → list B) l :
  concat ((λ x, f x ++ g x) <$> l) ≡ₚ concat (f <$> l) ++ concat (g <$> l).
Proof.
  induction l as [|x l IH]; [done|]. rewrite -> !fmap_cons, !concat_cons, IH. solve_Permutation.
Qed.

Lemma concat_swap {A B C} (f : A → B → list C) (rs : list A) (l : list B) :
  concat ((λ r, concat (f r <$> l)) <$> rs) ≡ₚ concat ((λ x, concat ((λ r, f r x) <$> rs)) <$> l).
Proof.
  induction rs as [|r rs IH].
  - simpl. induction l as [|x l IHl]; [done|]. by rewrite -> fmap_cons, concat_cons, <- IHl.
  - rewrite -> fmap_cons, concat_cons, IH.
    rewrite <- (concat_app_fmap (f r) (λ x, concat ((λ r, f r x) <$> rs))).
    by setoid_rewrite fmap_cons; setoid_rewrite concat_cons.
Qed.

(** Consecutive slices join. *)
Lemma concat_slices {A} (l : list A) (bound : Z → Z) n :
  0 ≤ n → 0 ≤ bound 0 → (∀ r, 0 ≤ r < n → bound r ≤ bound (r + 1)) →
  concat ((λ r, py_slice l (bound r) (bound (r + 1))) <$> seqZ 0 n) = py_slice l (bound 0) (bound n).
Proof.
  intros Hn Hb0. revert n Hn. apply (natlike_ind (λ n, (∀ r, 0 ≤ r < n → bound r ≤ bound (r + 1)) →
    concat ((λ r, py_slice l (bound r) (bound (r + 1))) <$> seqZ 0 n) = py_slice l (bound 0) (bound n))).
  { intros _. by rewrite -> py_slice_empty by lia. }
  intros n Hn IH Hmono. specialize (IH ltac:(intros; apply Hmono; lia)).
  assert (Hge : ∀ k, 0 ≤ k → k ≤ n → bound 0 ≤ bound k).
  { apply (natlike_ind (λ k, k ≤ n → bound 0 ≤ bound k)); [lia|]. intros k Hk IHk Hkn.
    specialize (Hmono k ltac:(lia)). unfold Z.succ in *. specialize (IHk ltac:(lia)). lia. }
  assert (Hsn : seqZ 0 (Z.succ n) = seqZ 0 n ++ [n]).
  { replace (Z.succ n) with (Z.of_nat (S (Z.to_nat n))) by lia. rewrite -> seqZ_S, Z2Nat.id by lia. done. }
  rewrite -> Hsn, fmap_app, concat_app, IH. cbn [fmap list_fmap concat]. rewrite -> app_nil_r.
  specialize (Hge n Hn ltac:(lia)). specialize (Hmono n ltac:(lia)).
  unfold Z.succ. apply py_slice_app; lia.
Qed.

(** Exactly one rank takes the turn [i]. *)
Lemma concat_turn {A} (l : list A) i n :
  0 < n → concat ((λ r, if i mod n =? r then l else []) <$> seqZ 0 n) = l.
Proof.
  intros Hn. pose proof (Z.mod_pos_bound i n Hn) as Hi. set (m := i mod n) in *. clearbody m.
  replace n with (m + (1 + (n - m - 1))) by lia. rewrite -> !seqZ_app, !fmap_app, !concat_app by lia.
  assert (Hskip : ∀ a k, 0 ≤ k → (∀ r, r ∈ seqZ a k → r ≠ m) →
    concat ((λ r, if m =? r then l else []) <$> seqZ a k) = []).
  { intros a k _ Hne. induction (seqZ a k) as [|r rs IH]; [done|].
    rewrite -> fmap_cons, concat_cons, (proj2 (Z.eqb_neq m r)), IH.
    - done.
    - intros r' Hr'. apply Hne. by right.
    - intros ->. by apply (Hne r); [left|]. }
  rewrite -> (Hskip 0 m), (Hskip (0 + m + 1) (n - m - 1))
    by first [lia | intros r Hr%elem_of_seqZ; lia].
  rewrite -> (seqZ_cons (0 + m) 1) by lia. rewrite -> fmap_cons, concat_cons.
  rewrite -> (proj2 (Z.eqb_eq m (0 + m))) by lia. simpl (seqZ _ (Z.pred 1)). cbn. by rewrite -> !app_nil_r.
Qed.

Section share.
  Variable fcf : fawa_conf.
Let tp : Z := tp_size (fw_cf fcf).

(** The keys of one request that the rank of [fcf] dumps. *)
Definition my_keys (d : FAWARequestDispatchMeta) : list bytes :=
  py_slice (dump_keys d) (tp_block_start fcf (zlen (dump_keys d)) (tp_rank (fw_cf fcf)))
    (tp_block_start fcf (zlen (dump_keys d)) (tp_rank (fw_cf fcf) + 1)).

Definition last_key (d : FAWARequestDispatchMeta) : list bytes := py_from (dump_keys d) (-1).

(** The WA keys of the request at turn [i]. *)
Definition my_wa_keys (i : Z) (d : FAWARequestDispatchMeta) : list bytes :=
  if wa_dump_block_wise fcf then my_keys d
  else if i mod tp =? tp_rank (fw_cf fcf) then last_key d else [].

Lemma f_save_tp_spec a id d a' :
  f_save_tp fcf a (id, d) = Ok a' →
  if decide (dump_keys d = []) then a' = a
  else fs_fa_keys a' = fs_fa_keys a ++ my_keys d ∧
       fs_wa_keys a' = fs_wa_keys a ++ my_wa_keys (fs_ring a) d ∧
       fs_ring a' = fs_ring a + 1 ∧ fs_request_ids a' = fs_request_ids a ++ [id].
Proof.
  unfold f_save_tp. destruct (dump_keys d) as [|b0 l0] eqn:Hd.
  { intros [= <-]. by rewrite -> decide_True. }
  rewrite <- Hd in *. rewrite -> decide_False by (rewrite -> Hd; done).
  change (py_slice (dump_keys d) _ _) with (my_keys d). intros Hrun.
  apply bind_Ok in Hrun as (a1 & Ha1 & Hrun). apply bind_Ok in Hrun as (a2 & Ha2 & [= <-]). simpl.
  assert (H1 : fs_fa_keys a1 = fs_fa_keys a ++ my_keys d ∧ fs_wa_keys a1 = fs_wa_keys a ∧
    fs_ring a1 = fs_ring a ∧ fs_request_ids a1 = fs_request_ids a ++ [id]).
  { destruct (my_keys d) as [|k ks]; [injection Ha1 as <-; simpl; by rewrite -> app_nil_r|].
    apply bind_Ok in Ha1 as (rows & _ & [= <-]). done. }
  destruct H1 as (Hfa & Hwa & Hring & Hids). unfold my_wa_keys.
  assert (H2 : fs_fa_keys a2 = fs_fa_keys a1 ∧ fs_ring a2 = fs_ring a1 ∧
    fs_request_ids a2 = fs_request_ids a1 ∧
    fs_wa_keys a2 = fs_wa_keys a1 ++ my_wa_keys (fs_ring a1) d).
  { unfold my_wa_keys. destruct (wa_dump_block_wise fcf).
    - destruct (my_keys d) as [|k ks]; [injection Ha2 as <-; by rewrite -> app_nil_r|].
      apply bind_Ok in Ha2 as (ids & _ & Ha2). by apply bind_Ok in Ha2 as (rows & _ & [= <-]).
    - fold tp in Ha2. destruct (_ =? _).
      + unfold add_last_wa in Ha2. by apply bind_Ok in Ha2 as (rows & _ & [= <-]).
      + injection Ha2 as <-. by rewrite -> app_nil_r. }
  destruct H2 as (-> & -> & -> & ->). rewrite -> Hring. unfold my_wa_keys. rewrite -> Hfa, Hwa, Hids. done.
Qed.

(** The requests with dumps, in order. *)
Definition dumping (reqs : dict string FAWARequestDispatchMeta) : dict string FAWARequestDispatchMeta :=
  filter (λ x, dump_keys x.2 ≠ []) reqs.

Lemma f_save_fold reqs : ∀ a a',
  fold_res (f_save_tp fcf) a reqs = Ok a' →
  fs_fa_keys a' = fs_fa_keys a ++ concat ((λ x, my_keys x.2) <$> dumping reqs) ∧
  fs_wa_keys a' = fs_wa_keys a ++
    concat ((λ x, my_wa_keys x.1 x.2.2) <$> zip (seqZ (fs_ring a) (zlen (dumping reqs))) (dumping reqs)) ∧
  fs_request_ids a' = fs_request_ids a ++ (dumping reqs).*1.
Proof.
  induction reqs as [|[id d] reqs IH]; intros a a'; simpl.
  { intros [= <-]. by rewrite -> !app_nil_r. }
  intros Hrun. apply bind_Ok in Hrun as (a1 & Ha1 & Hrun).
  pose proof (f_save_tp_spec a id d a1 Ha1) as Hspec. destruct (IH a1 a' Hrun) as (Hfa & Hwa & Hids).
  unfold dumping in *. rewrite -> filter_cons. simpl. case_decide as Hd.
  - rewrite -> decide_False by (by intros [] ). subst a1. done.
  - rewrite -> decide_True by done. destruct Hspec as (H1 & H2 & H3 & H4).
    rewrite -> Hfa, Hwa, Hids, H1, H2, H3, H4. rewrite -> zlen_cons, (seqZ_cons (fs_ring a)) by (unfold zlen; lia).
    cbn [zip zip_with]. rewrite -> !fmap_cons, !concat_cons. cbn [fst snd].
    replace (Z.pred (1 + zlen (filter (λ x, dump_keys x.2 ≠ []) reqs))) with
      (zlen (filter (λ x : string * FAWARequestDispatchMeta, dump_keys x.2 ≠ []) reqs)) by lia.
    unfold Z.succ. by rewrite <- !app_assoc.
Qed.

End share.

(** ** Properties *)

(** The rows of a plan name the right blocks: when the allocated blocks reach
    the end of hash block [last - 1], slicing succeeds for every group; a
    full-attention group gets, for each hash block, the block holding its last
    token, and a window group gets the consecutive blocks of the tail that ends
    there, all in range, for every hash block or for the last one only. *)
Theorem fawa_rows_name_blocks fcf all first last bw :
  let G := fl_groups (fw_layouts fcf) in
  0 < fg_hash_block_size G → 0 ≤ first < last → all_reach fcf last all →
  ∃ rows, group_rows fcf all first last bw = Ok rows ∧ length rows = length all ∧
    ∀ (g : nat) ids, all !! g = Some ids → ∃ meta row,
      dict_get (Z.of_nat g) (group_metas G) = Some meta ∧ rows !! g = Some row ∧
      (Z.of_nat g ∉ window_group_ids G → zlen row = last - first ∧
         ∀ j : nat, Z.of_nat j < last - first → ∃ b, row !! j = Some b ∧
           ids !! Z.to_nat (boundary_pos fcf meta (first + Z.of_nat j)) = Some b) ∧
      (Z.of_nat g ∈ window_group_ids G → gm_tail_tokens meta ≠ 0 →
         row = (if bw then concat (window_tail fcf meta ids <$> seqZ first (last - first))
                else window_tail fcf meta ids (last - 1)) ∧
         ∀ k, 0 ≤ k < last → zlen (window_tail fcf meta ids k) = gm_tail_blocks meta).
Proof.
  intros G Hh Hfl Hall. destruct (group_rows_spec fcf all first last bw Hh Hfl Hall) as (rows & Hr & HF).
  pose proof (Forall2_length _ _ _ HF) as Hlen.
  rewrite -> length_zip_with, length_seqZ in Hlen. unfold zlen in Hlen.
  exists rows. split; [done|]. split; [lia|]. intros g ids Hg.
  assert (Hz : zip (seqZ 0 (zlen all)) all !! g = Some (Z.of_nat g, ids)).
  { apply lookup_zip_with_Some. exists (Z.of_nat g), ids. split_and!; [done| |done].
    apply lookup_seqZ. apply lookup_lt_Some in Hg. unfold zlen. lia. }
  destruct (Forall2_lookup_l _ _ _ _ _ HF Hz) as (row & Hrow & meta & Hmeta & Hfit & Hreach & ->).
  exists meta, (expected_row fcf (Z.of_nat g) meta ids first last bw). simpl in *.
  split; [done|]. split; [done|]. unfold expected_row. fold G. split; intros Hw.
  - rewrite -> decide_False by done.
    set (ps := boundary_pos fcf meta <$> seqZ first (last - first)).
    destruct (map_res_py_index_omap ids ps) as [_ Hl].
    { apply Forall_fmap, Forall_forall. intros k Hk%elem_of_seqZ. simpl.
      pose proof (boundary_pos_bounds fcf meta ids k last Hh Hfit Hreach ltac:(lia)).
      destruct Hfit as (_ & ? & _). lia. }
    assert (Hps : length ps = Z.to_nat (last - first)) by (unfold ps; by rewrite -> length_fmap, length_seqZ).
    split; [unfold zlen; lia|]. intros j Hj.
    assert (Hpj : ps !! j = Some (boundary_pos fcf meta (first + Z.of_nat j))).
    { unfold ps. rewrite -> list_lookup_fmap. rewrite -> (proj2 (lookup_seqZ _ _ j (first + Z.of_nat j))); [done|lia]. }
    rewrite -> (omap_lookup_all _ ps j _ Hl Hpj).
    pose proof (boundary_pos_bounds fcf meta ids (first + Z.of_nat j) last Hh Hfit Hreach ltac:(lia)).
    destruct Hfit as (_ & ? & _).
    destruct (py_index_in ids (boundary_pos fcf meta (first + Z.of_nat j))) as (b & _ & Hb); [lia|].
    exists b. done.
  - intros Ht. rewrite -> decide_True by done. rewrite -> (proj2 (Z.eqb_neq _ _)) by done. split; [done|].
    intros k Hk. by eapply window_tail_length.
Qed.

(** C10: A prompt computed in chunks dumps each of its hash blocks once: whatever
    the chunks are, planning succeeds as long as the blocks are allocated, the
    keys planned for dumping are together, in order, exactly the keys of the hash
    blocks completed after those already processed or hit, and the progress is
    the number of tokens computed, at most the length of the prompt. *)
Theorem fawa_chunked_dumps fcf chunks rm :
  let hb := fg_hash_block_size (fl_groups (fw_layouts fcf)) in
  0 < hb → 0 ≤ fr_hbm_hit_block_num rm ≤ fr_total_hit_block_num rm →
  0 ≤ fr_token_processed rm ≤ fr_num_token_ids rm → chunks_allocated fcf chunks rm →
  let first := Z.max (fr_total_hit_block_num rm) (fr_token_processed rm / hb) in
  let computed := Z.min (fr_num_token_ids rm) (fr_token_processed rm + zsum ((λ c, c.1.1) <$> chunks)) in
  ∃ ds rm', run_fchunks fcf chunks rm = (Ok ds, rm') ∧ fr_token_processed rm' = computed ∧
    concat (dump_keys <$> ds) = py_slice (fr_ucm_block_ids rm) first (Z.max first (computed / hb)).
Proof.
  intros hb Hh Hhbm Hp Hall first computed.
  destruct (run_fchunks_spec fcf chunks rm Hh Hhbm Hp Hall) as (ds & rm' & Hrun & Hproc & Hk).
  exists ds, rm'. split; [done|]. split; [done|]. rewrite -> Hproc in Hk. exact Hk.
Qed.


(** ** Worked examples *)

(** One full-attention group and one window group with tails of two blocks. *)
Definition ex_fawa_groups : fawa_groups :=
  FawaGroups false None 256 [0] [1] [(0, GroupMeta 256 1 256); (1, GroupMeta 64 2 128)] 256 4096 4096.

Definition ex_fawa_layouts : fawa_layouts :=
  FawaLayouts ex_fawa_groups
    [(0, GLayout [4096] [1024] [4] [4] [256]); (1, GLayout [65536] [512] [8] [8] [64])].

Definition ex_fawa_cf : conf :=
  Conf false true 0 2 64 256 1 [] [] None true false 0 1
    (Layout (Arr1 []) (Arr1 []) (Arr1 []) (Arr1 []) false 1 0 [] 0 8) 512.

Definition ex_fcf : fawa_conf := FawaConf ex_fawa_cf ex_fawa_layouts (Some 1) (Some 2) true 0.

Definition ex_blocks : list (list Z) := [[5; 6; 7]; [10; 11; 12; 13; 14; 15; 16; 17]].

Lemma ex_blocks_reach : all_reach ex_fcf 2 ex_blocks.
Proof. repeat constructor; (eexists; split_and!; [reflexivity|repeat split; vm_compute; congruence|vm_compute; congruence]). Qed.

Lemma fawa_rows_name_blocks_witness :
  group_rows ex_fcf ex_blocks 0 2 true = Ok [[5; 6]; [12; 13; 16; 17]] ∧
  ∃ rows, group_rows ex_fcf ex_blocks 0 2 true = Ok rows ∧ length rows = 2%nat.
Proof.
  split; [vm_compute; reflexivity|].
  destruct (fawa_rows_name_blocks ex_fcf ex_blocks 0 2 true) as (rows & Hr & Hl & _).
  - vm_compute. reflexivity.
  - lia.
  - exact ex_blocks_reach.
  - exists rows. split; [exact Hr|exact Hl].
Defined.

Lemma fawa_chunked_dumps_witness :
  ∃ ds rm', run_fchunks ex_fcf [(300, [[5; 6]; [10; 11; 12; 13; 14]], true); (300, [[7]; [15; 16; 17]], false)]
      (FReqMeta [[1]; [2]; [3]] 0 0 800 [] 0) = (Ok ds, rm') ∧
    concat (dump_keys <$> ds) = [[1]; [2]].
Proof.
  destruct (fawa_chunked_dumps ex_fcf
    [(300, [[5; 6]; [10; 11; 12; 13; 14]], true); (300, [[7]; [15; 16; 17]], false)]
    (FReqMeta [[1]; [2]; [3]] 0 0 800 [] 0)) as (ds & rm' & Hrun & _ & Hk).
  - vm_compute. reflexivity.
  - simpl. lia.
  - simpl. lia.
  - cbn [chunks_allocated]. split_and!; try done; (split_and!; [lia|reflexivity|]);
      repeat constructor; (eexists; split_and!; [reflexivity|repeat split; vm_compute; congruence|vm_compute; congruence]).
  - exists ds, rm'. split; [exact Hrun|exact Hk].
Defined.

Definition ex_fplan : dict string FAWARequestDispatchMeta :=
  [("r", FDispatch [] 0 0 [] [[1]; [2]; [3]] 0 3 [[5; 6; 7]; [12; 13; 16; 17; 20; 21]])].

Definition ex_saved (r : Z) : fsave :=
  match f_collect_saves (at_rank r ex_fcf) ex_fplan with
  | Ok a => a
  | Raise _ => FSave [] [] [] [] [] [] [] 0
  end.

