(* ===== verification/FawaProps.v ===== *)
(** * What the FAWA connector guarantees

    Matching: the boundary the lookup returns and the tokens it promises.
    Finished requests: the invariant tying outstanding dumps to the tasks kept
    by the worker, over all sequences of worker operations. *)
From S2P Require Import Prelude Runtime RankConsistency PyHash Hashing KVLayout StoreConf Direct DirectWorker DispatchProps SchedProps WorkerProps FawaLayout Fawa FawaPlanProps Sim.
Open Scope Z_scope.

(** ** Matching *)

Section matching.
  Context {W : Type} `{StoreLaws W} `{DeviceOps W} `{SetOrder} `{PyHash}.
  Variable fcf : fawa_conf.

(** An inherited method leaves the attributes of this connector alone. *)
Lemma on_fbase_frame {A} (m : M (conn * W) A) s :
  f_requests_meta (on_fbase m s).2.1 = f_requests_meta s.1 ∧
  tp_dump_tasks (on_fbase m s).2.1 = tp_dump_tasks s.1 ∧
  f_metadata (on_fbase m s).2.1 = f_metadata s.1.
Proof. unfold on_fbase, lift. by destruct (m _). Qed.

Definition same_requests (s0 s : fawa * W) : Prop := f_requests_meta s.1 = f_requests_meta s0.1.

Lemma same_requests_on_fbase {A} s0 (m : M (conn * W) A) : preserves (same_requests s0) (on_fbase m).
Proof. intros s Hs. unfold same_requests. rewrite -> (proj1 (on_fbase_frame m s)). exact Hs. Qed.

(** The boundary found is between 0 and the number of FA hits. *)
Lemma latest_boundary_bounds wa keys n : ∀ (s : fawa * W) h s',
  latest_boundary wa keys n s = (Ok h, s') → 0 ≤ h ≤ Z.of_nat n.
Proof.
  induction n as [|n IH]; intros s h s'; cbn [latest_boundary]; unfold mbind, M_bind;
    (destruct (of_res _ s) as [[k|e] s1]; [|done]);
    (destruct (on_fbase _ s1) as [[l|e] s2]; [|done]);
    (destruct (of_res _ s2) as [[b|e] s3]; [|done]); destruct b; try (intros [= <- _]; lia).
  intros Hrun. apply IH in Hrun. lia.
Qed.

Lemma latest_boundary_frame wa keys n s0 :
  preserves (same_requests s0) (latest_boundary (W := W) wa keys n).
Proof.
  induction n as [|n IH]; cbn [latest_boundary]; repeat (apply preserves_bind;
    [first [apply preserves_of_res | apply same_requests_on_fbase]|intros ?]);
    apply preserves_if; auto using preserves_ret.
Qed.

Lemma lookup_hits_frame keys s0 :
  preserves (same_requests s0) (_lookup_external_hit_blocks (W := W) fcf keys).
Proof.
  unfold _lookup_external_hit_blocks. destruct (fa_store fcf), (wa_store fcf); try apply preserves_raise.
  apply preserves_bind; [apply same_requests_on_fbase|]. intros n.
  apply preserves_if; [apply preserves_ret|apply latest_boundary_frame].
Qed.

Lemma lookup_hits_bounds keys (s : fawa * W) h s' :
  keys ≠ [] → _lookup_external_hit_blocks fcf keys s = (Ok h, s') → 0 ≤ h ≤ zlen keys.
Proof.
  intros Hne. unfold _lookup_external_hit_blocks. destruct (fa_store fcf) as [fa|], (wa_store fcf) as [wa|]; try done.
  unfold on_fbase at 1, on_rc at 1, lift, mbind, M_bind.
  destruct (lookup_on_prefix fa keys _) as [[n|e] t] eqn:Hl; simpl; [|done].
  apply lookup_on_prefix_bounds in Hl; [|done]. pose proof (zlen_nonneg keys).
  destruct (Z.leb_spec (n + 1) 0).
  - intros [= <- _]. lia.
  - intros Hrun. apply latest_boundary_bounds in Hrun. lia.
Qed.

(** The guarded lookup of [get_num_new_matched_tokens]. *)
Lemma guarded_lookup_spec keys (s : fawa * W) :
  keys ≠ [] →
  ∃ h s', try_except (_lookup_external_hit_blocks fcf keys)
      (λ _, on_fbase (_record_counter "connector_lookup_errors_total") ;; mret 0) s = (Ok h, s') ∧
    0 ≤ h ≤ zlen keys ∧ f_requests_meta s'.1 = f_requests_meta s.1.
Proof.
  intros Hne. unfold try_except. pose proof (lookup_hits_frame keys s s eq_refl) as Hfr.
  destruct (_lookup_external_hit_blocks fcf keys s) as [[h|e] s1] eqn:Hl.
  - exists h, s1. split; [done|]. split; [by eapply lookup_hits_bounds|done].
  - eexists 0, _. split; [reflexivity|]. pose proof (zlen_nonneg keys). split; [lia|done].
Qed.

End matching.

(** ** Properties of matching *)

(** The lookup returns the latest usable boundary: with [n] the last hit of
    the prefix lookup in the FA store, the hit blocks are the largest number
    up to [n + 1] whose last block has its window tail in the WA store, and 0
    when no boundary has one.  A lookup in the WA store is assumed to answer
    [has] and to leave the store as it is. *)
Theorem fawa_lookup_latest_boundary {W} `{StoreLaws W} `{DeviceOps W} `{SetOrder} `{PyHash} fcf fa wa
    keys has n (s : fawa * W) t :
  fa_store fcf = Some fa → wa_store fcf = Some wa → keys ≠ [] →
  lookup_on_prefix fa keys (rank_consistency (fbase s.1), s.2) = (Ok n, t) →
  (∀ k, lookup_all wa [k] t = (Ok [has k], t)) →
  ∃ h s', _lookup_external_hit_blocks fcf keys s = (Ok h, s') ∧ 0 ≤ h ≤ n + 1 ∧
    (0 < h → ∃ k, keys !! Z.to_nat (h - 1) = Some k ∧ has k = true) ∧
    (∀ (j : nat) k, h ≤ Z.of_nat j ≤ n → keys !! j = Some k → has k = false).
Proof.
  intros Hfa Hwa Hne Hl Hpure. pose proof (lookup_on_prefix_bounds _ _ _ _ _ Hne Hl) as Hn.
  unfold _lookup_external_hit_blocks. rewrite -> Hfa, Hwa.
  unfold on_fbase at 1, on_rc at 1, lift, mbind, M_bind. cbn [fst snd]. rewrite -> Hl. simpl.
  destruct (Z.leb_spec (n + 1) 0).
  { eexists 0, _. split; [done|]. split_and!; [lia..| |]; intros; lia. }
  set (s1 := (Fawa _ _ _ _, t.2)).
  assert (Hs1 : (rank_consistency (fbase s1.1), s1.2) = t) by (simpl; by destruct t).
  assert (Hgen : ∀ m : nat, Z.of_nat m ≤ n + 1 → ∀ s2 : fawa * W,
    (rank_consistency (fbase s2.1), s2.2) = t →
    ∃ h s', latest_boundary wa keys m s2 = (Ok h, s') ∧ 0 ≤ h ≤ Z.of_nat m ∧
      (0 < h → ∃ k, keys !! Z.to_nat (h - 1) = Some k ∧ has k = true) ∧
      (∀ (j : nat) k, h ≤ Z.of_nat j < Z.of_nat m → keys !! j = Some k → has k = false)).
  { assert (Hstep : ∀ k (s2 : fawa * W), (rank_consistency (fbase s2.1), s2.2) = t →
      ∃ s3, on_fbase (on_rc (lookup_all wa [k])) s2 = (Ok [has k], s3) ∧
        (rank_consistency (fbase s3.1), s3.2) = t).
    { intros k s2 Hs2. unfold on_fbase, on_rc, lift. cbn [fst snd]. rewrite -> Hs2, Hpure.
      eexists. split; [reflexivity|]. simpl. by destruct t. }
    induction m as [|m IH]; intros Hm s2 Hs2; cbn [latest_boundary].
    - destruct (lookup_lt_is_Some_2 keys (length keys - 1)) as [k Hk]; [destruct keys; simpl; [done|lia]|].
      assert (Hi : py_index keys (Z.of_nat 0 - 1) = Ok k).
      { unfold py_index. simpl. rewrite -> (proj2 (Z.ltb_ge _ 0)) by (destruct keys; [done|rewrite -> zlen_cons; pose proof (zlen_nonneg keys); lia]).
        replace (Z.to_nat (Z.of_nat 0 - 1 + zlen keys)) with (length keys - 1)%nat by (unfold zlen; lia). by rewrite -> Hk. }
      rewrite -> Hi. mstep. destruct (Hstep k s2 Hs2) as (s3 & Hrun & _). mrun Hrun. mstep.
      exists 0, s3. split; [by destruct (has k)|]. split_and!; [lia..| |]; intros; lia.
    - destruct (py_index_in keys (Z.of_nat (S m) - 1)) as (k & Hi & Hk); [unfold zlen in *; lia|].
      rewrite -> Hi. mstep. destruct (Hstep k s2 Hs2) as (s3 & Hrun & Hs3). mrun Hrun. mstep.
      destruct (has k) eqn:Hhas.
      + exists (Z.of_nat (S m)), s3. split; [done|]. split_and!; [lia..| |intros; lia]. intros _. by exists k.
      + destruct (IH ltac:(lia) s3 Hs3) as (h & s' & Hrun' & Hb & Hfound & Hno).
        exists h, s'. split; [done|]. split_and!; [lia..|done|]. intros j k' Hj Hk'.
        destruct (decide (j = m)) as [->|Hjm]; [|apply (Hno j); [lia|done]].
        replace (Z.to_nat (Z.of_nat (S m) - 1)) with m in Hk by lia. congruence. }
  destruct (Hgen (Z.to_nat (n + 1)) ltac:(lia) s1 Hs1) as (h & s' & Hrun & Hb & Hf & Hno).
  exists h, s'. split; [done|]. split_and!; [lia..|done|]. intros j k Hj. apply Hno. lia.
Qed.

(** What one call of [get_num_new_matched_tokens] does. *)
Lemma f_matched_spec {W} `{StoreLaws W} `{DeviceOps W} `{SetOrder} `{PyHash} fcf r computed
    (s : fawa * W) :
  let hb := fg_hash_block_size (fl_groups (fw_layouts fcf)) in
  0 < hb → 0 ≤ load_tokens_threshold fcf → 0 ≤ computed → num_tokens r = zlen (all_token_ids r) →
  ∃ n s', get_num_new_matched_tokens fcf r computed s = (Ok (n, false), s') ∧ 0 ≤ n ∧
    (0 < n → computed + n < num_tokens r) ∧
    ((n = 0 ∧ f_requests_meta s'.1 = f_requests_meta s.1) ∨
     ∃ rm, f_requests_meta s'.1 = dict_set (request_id r) rm (f_requests_meta s.1) ∧
       fr_ucm_block_ids rm = generate_hash (hash_meta (fw_cf fcf)) hb (all_token_ids r)
                               (hash_seed (hash_meta (fw_cf fcf))) ∧
       fr_num_token_ids rm = num_tokens r ∧ fr_vllm_block_ids rm = [] ∧
       0 ≤ fr_hbm_hit_block_num rm ≤ fr_total_hit_block_num rm ∧
       fr_total_hit_block_num rm * hb ≤ num_tokens r ∧
       ((n = 0 ∧ fr_hbm_hit_block_num rm = fr_total_hit_block_num rm ∧
         fr_token_processed rm = computed) ∨
        (fr_hbm_hit_block_num rm = computed / hb ∧
         fr_token_processed rm = fr_total_hit_block_num rm * hb ∧
         computed + n = Z.min (fr_token_processed rm) (num_tokens r - 1)))).
Proof.
  intros hb Hh Hth Hc Hnum. unfold get_num_new_matched_tokens. fold hb.
  set (cf := fw_cf fcf). set (ids := generate_hash _ _ _ _). set (wa_hbm := computed / hb).
  assert (Hids : zlen ids = num_tokens r / hb) by (rewrite -> Hnum; by apply generate_hash_zlen).
  assert (Hw : 0 ≤ wa_hbm) by (apply Z.div_pos; lia).
  pose proof (Z.mul_div_le computed hb Hh) as Hle. pose proof (Z.mul_succ_div_gt computed hb Hh) as Hgt.
  pose proof (Z.mul_div_le (num_tokens r) hb Hh) as Hnle. fold wa_hbm in Hle, Hgt.
  destruct (_ || _); [exists 0, s; split; [done|]; split_and!; [lia..|by left]|].
  destruct (py_from ids wa_hbm) as [|k0 ks] eqn:Hext; [exists 0, s; split; [done|]; split_and!; [lia..|by left]|].
  assert (Hlen : zlen (k0 :: ks) = zlen ids - wa_hbm).
  { rewrite <- Hext, py_from_pos by done. unfold zlen. rewrite -> length_drop.
    assert (length (py_from ids wa_hbm) ≠ 0%nat) by (rewrite -> Hext; done).
    rewrite -> py_from_pos, length_drop in * by done. lia. }
  destruct (guarded_lookup_spec fcf (k0 :: ks) s) as (h & s1 & Hrun & Hb & Hreq); [done|].
  mrun Hrun. rewrite -> Hlen, Hids in Hb.
  assert (Htot : (wa_hbm + h) * hb ≤ num_tokens r) by nia.
  set (ext := if h * hb + wa_hbm * hb =? num_tokens r then _ else _).
  assert (Hextv : computed + ext = Z.min ((wa_hbm + h) * hb) (num_tokens r - 1)).
  { unfold ext. destruct (Z.eqb_spec (h * hb + wa_hbm * hb) (num_tokens r)); lia. }
  destruct (Z.leb_spec (h * hb) (load_tokens_threshold fcf)) as [Hsmall|Hbig].
  - eexists 0, _. split; [reflexivity|]. split_and!; [lia..|right]. eexists. simpl. rewrite -> Hreq.
    split; [reflexivity|]. simpl. split_and!; try done; lia.
  - eexists ext, _. split; [reflexivity|]. assert (1 ≤ h) by nia.
    split; [nia|]. split; [lia|]. right. eexists. simpl. rewrite -> Hreq.
    split; [reflexivity|]. simpl. split_and!; try done; lia.
Qed.

(** Matching never raises and never promises too much: external tokens are
    only promised while at least one token of the request remains to be computed.
    A tracked request has hit blocks that exist in its chain, and either the
    promised tokens reach exactly the end of the hit blocks, short of the last
    token when they cover the whole request, or nothing is promised and no block
    will be loaded. *)
Theorem fawa_matched_tokens_sound {W} `{StoreLaws W} `{DeviceOps W} `{SetOrder} `{PyHash} fcf r computed
    (s : fawa * W) :
  let hb := fg_hash_block_size (fl_groups (fw_layouts fcf)) in
  0 < hb → 0 ≤ load_tokens_threshold fcf → 0 ≤ computed → num_tokens r = zlen (all_token_ids r) →
  ∃ n s', get_num_new_matched_tokens fcf r computed s = (Ok (n, false), s') ∧ 0 ≤ n ∧
    (0 < n → computed + n < num_tokens r) ∧
    ((n = 0 ∧ f_requests_meta s'.1 = f_requests_meta s.1) ∨
     ∃ rm, f_requests_meta s'.1 = dict_set (request_id r) rm (f_requests_meta s.1) ∧
       fr_ucm_block_ids rm = generate_hash (hash_meta (fw_cf fcf)) hb (all_token_ids r)
                               (hash_seed (hash_meta (fw_cf fcf))) ∧
       fr_num_token_ids rm = num_tokens r ∧ fr_vllm_block_ids rm = [] ∧
       0 ≤ fr_hbm_hit_block_num rm ≤ fr_total_hit_block_num rm ∧
       fr_total_hit_block_num rm * hb ≤ num_tokens r ∧
       ((n = 0 ∧ fr_hbm_hit_block_num rm = fr_total_hit_block_num rm ∧
         fr_token_processed rm = computed) ∨
        (fr_hbm_hit_block_num rm = computed / hb ∧
         fr_token_processed rm = fr_total_hit_block_num rm * hb ∧
         computed + n = Z.min (fr_token_processed rm) (num_tokens r - 1)))).
Proof. exact (f_matched_spec fcf r computed s). Qed.

(** ** Outstanding dumps *)

(** The tasks the worker keeps, with the requests they are filed under. *)
Definition entry_pend (x : list string * list FAWADumpTask) : list (task * gset string) :=
  (λ t, (dt_task t, list_to_set x.1)) <$> x.2.

Definition pend (d : dict (list string) (list FAWADumpTask)) : list (task * gset string) :=
  concat (entry_pend <$> d).

(** Every outstanding dump context belongs to a task of [P] filed under its requests. *)
Definition fcovers (P : list (task * gset string)) (m : manager) : Prop :=
  ∀ t st ctx, dump_task_contexts m !! t = Some (st, ctx) →
  ∃ ids, (t, ids) ∈ P ∧ list_to_set ctx.*1 ⊆ ids.

Lemma elem_of_pend d p : p ∈ pend d ↔ ∃ x, x ∈ d ∧ p ∈ entry_pend x.
Proof. unfold pend. rewrite -> elem_of_concat. split.
  - intros (l & Hl & Hp). apply list_elem_of_fmap in Hl as (x & -> & Hx). eauto.
  - intros (x & Hx & Hp). exists (entry_pend x). split; [|done]. apply list_elem_of_fmap. eauto.
Qed.

Lemma elem_of_entry_pend x t ids :
  (t, ids) ∈ entry_pend x ↔ ids = list_to_set x.1 ∧ ∃ tk, tk ∈ x.2 ∧ dt_task tk = t.
Proof.
  unfold entry_pend. rewrite -> list_elem_of_fmap. split.
  - intros (tk & [= -> ->] & Hin). eauto.
  - intros [-> (tk & Hin & <-)]. eauto.
Qed.

Lemma fcovers_more P Q m : P ⊆ Q → fcovers P m → fcovers Q m.
Proof. intros Hs Hc t st ctx Ht. destruct (Hc t st ctx Ht) as (ids & ? & ?). eauto. Qed.

Lemma fcovers_same P m m' :
  dump_task_contexts m' = dump_task_contexts m → fcovers P m → fcovers P m'.
Proof. intros Heq Hc t st ctx Ht. rewrite -> Heq in Ht. eauto. Qed.

(** A context removed is a task less to keep. *)
Lemma fcovers_delete t ids P m m' :
  dump_task_contexts m' = delete t (dump_task_contexts m) → fcovers ((t, ids) :: P) m → fcovers P m'.
Proof.
  intros Heq Hc t' st ctx Ht. rewrite -> Heq, lookup_delete_Some in Ht. destruct Ht as [Hne Ht].
  destruct (Hc t' st ctx Ht) as (ids' & Hin & Hsub). apply elem_of_cons in Hin as [[= -> ->]|Hin]; [done|eauto].
Qed.

Section worker.
  Context {W : Type} `{StoreOps W} `{DeviceOps W} `{SetOrder} `{PyHash}.
  Variable fcf : fawa_conf.

(** What an operation inside one step leaves alone. *)
Definition fframe (s s' : fawa * W) : Prop :=
  tp_dump_tasks s'.1 = tp_dump_tasks s.1 ∧ f_metadata s'.1 = f_metadata s.1 ∧
  (is_Some (dev (fbase s.1)) → is_Some (dev (fbase s'.1))).

Lemma fframe_trans s1 s2 s3 : fframe s1 s2 → fframe s2 s3 → fframe s1 s3.
Proof. unfold fframe. naive_solver congruence. Qed.

(** Waiting for a task forgets its context, destroys its event and never raises. *)
Lemma f_wait_dump_spec t count (s : fawa * W) :
  is_Some (dev (fbase s.1)) →
  ∃ s', f_wait_dump t (if (count : bool) then count_wait_error else mret tt) s = (Ok tt, s') ∧ fframe s s' ∧
    dump_task_contexts (rank_consistency (fbase s'.1)) =
      delete (dt_task t) (dump_task_contexts (rank_consistency (fbase s.1))).
Proof.
  intros [d Hd]. unfold f_wait_dump, count_wait_error, f_destroy_event, on_fbase, on_rc, on_dev,
    _record_counter, update_stats, updc. munfold.
  destruct (wait_dump_spec (dt_task t) (rank_consistency (fbase s.1), s.2)) as (r & t' & -> & _ & Hctx).
  simpl in *.
  destruct r as [[]|e]; simpl; [|destruct count; simpl]; rewrite -> Hd;
    match goal with |- context [destroy_event_handle ?h ?x] =>
      destruct (destroy_event_handle_spec h x) as (d' & -> & _) end; simpl;
    (eexists; split; [reflexivity|]; split; [|exact Hctx]); unfold fframe; simpl; eauto.
Qed.

(** A polled task is kept, or waited for. *)
Lemma f_poll_task_cases infl t (s : fawa * W) :
  is_Some (dev (fbase s.1)) →
  ∃ s', fframe s s' ∧
    ((f_poll_task infl t s = (Ok (infl ++ [t]), s') ∧ fbase s'.1 = fbase s.1) ∨
     (f_poll_task infl t s = (Ok infl, s') ∧
      dump_task_contexts (rank_consistency (fbase s'.1)) =
        delete (dt_task t) (dump_task_contexts (rank_consistency (fbase s.1))))).
Proof.
  intros Hd. unfold f_poll_task, on_fbase, on_w, try_except, lift, mbind, M_bind, mret, M_ret. cbn [fst snd].
  destruct (st_check (dt_store t) (dt_task t) s.2) as [[b|e] w]; cbn [fst snd].
  2:{ eexists. split; [|left; split; [reflexivity|]]; done. }
  destruct b; [|eexists; split; [|left; split; [reflexivity|]]; done].
  match goal with |- context [f_wait_dump t ?m ?x] =>
    destruct (f_wait_dump_spec t false x) as (s2 & Hw & Hf2 & Hctx); [done|] end.
  unfold mret, M_ret in Hw. cbn iota in Hw. rewrite -> Hw. exists s2. split; [exact Hf2|]. right. split; [done|exact Hctx].
Qed.

Lemma f_poll_tasks tasks : ∀ infl P (s : fawa * W),
  let E l := (λ t, (dt_task t, P)) <$> l in
  is_Some (dev (fbase s.1)) →
  ∃ kept s', for_fold tasks infl (f_poll_task (W := W)) s = (Ok (infl ++ kept), s') ∧ fframe s s' ∧
    ∀ rest, fcovers (E tasks ++ rest) (rank_consistency (fbase s.1)) →
            fcovers (E kept ++ rest) (rank_consistency (fbase s'.1)).
Proof.
  induction tasks as [|t tasks IH]; intros infl P s E Hdev; cbn [for_fold].
  { exists [], s. rewrite -> app_nil_r. done. }
  destruct (f_poll_task_cases infl t s Hdev) as (s1 & Hf1 & Hcase).
  assert (Hdev1 : is_Some (dev (fbase s1.1))) by (destruct Hf1 as (_ & _ & Hd); auto).
  destruct Hcase as [[Ht Hb1]|[Ht Hctx]]; mrun Ht.
  - destruct (IH (infl ++ [t]) P s1 Hdev1) as (kept & s' & Hrun & Hf & Hc).
    exists (t :: kept), s'. rewrite <- app_assoc in Hrun. split; [done|]. split; [by eapply fframe_trans|].
    intros rest Hrest. rewrite -> Hb1 in Hc.
    eapply fcovers_more; [|apply (Hc ((dt_task t, P) :: rest)); eapply fcovers_more; [|exact Hrest]];
      intros p; unfold E; cbn [fmap list_fmap app]; rewrite -> ?elem_of_cons, !elem_of_app, ?elem_of_cons; tauto.
  - destruct (IH infl P s1 Hdev1) as (kept & s' & Hrun & Hf & Hc).
    exists kept, s'. split; [exact Hrun|]. split; [by eapply fframe_trans|].
    intros rest Hrest. apply Hc. eapply fcovers_delete; [exact Hctx|exact Hrest].
Qed.

(** The invariant of the worker. *)
Definition finv (s : fawa * W) : Prop :=
  fcovers (pend (tp_dump_tasks s.1)) (rank_consistency (fbase s.1)) ∧
  is_Some (dev (fbase s.1)) ∧ NoDup (tp_dump_tasks s.1).*1.

Lemma f_poll_entry_spec x (s : fawa * W) :
  finv s → dict_get x.1 (tp_dump_tasks s.1) = Some x.2 →
  ∃ s', f_poll_entry x s = (Ok tt, s') ∧ finv s' ∧ f_metadata s'.1 = f_metadata s.1 ∧
    ∀ k, k ≠ x.1 → dict_get k (tp_dump_tasks s'.1) = dict_get k (tp_dump_tasks s.1).
Proof.
  intros (Hc & Hd & Hnd) Hget. unfold f_poll_entry.
  destruct (f_poll_tasks x.2 [] (list_to_set x.1) s Hd) as (kept & s1 & Hrun & (Htp & Hmd & Hdev) & Hcov).
  mrun Hrun. unfold updf, modify. eexists. split; [reflexivity|]. rewrite -> app_nil_l.
  set (d := tp_dump_tasks s.1) in *.
  set (d' := match kept with [] => dict_del x.1 d | _ => dict_set x.1 kept d end).
  assert (Hd' : ∀ k, dict_get k d' = if decide (x.1 = k) then (match kept with [] => None | _ => Some kept end)
                                    else dict_get k d).
  { intros k. unfold d'. destruct kept; [apply dict_get_del|apply dict_get_set]. }
  assert (Hnd' : NoDup d'.*1) by (unfold d'; destruct kept; auto with ucm).
  assert (Hgoal : finv (set_tp_tasks d' s1.1, s1.2)).
  { split; [|split]; [|by apply Hdev|exact Hnd']. simpl.
    eapply fcovers_more; [|apply (Hcov (pend (dict_del x.1 d)))].
    - intros [t ids]. rewrite -> elem_of_app, !elem_of_pend. intros [Hin|(y & Hy & Hin)].
      + exists (x.1, kept). apply list_elem_of_fmap in Hin as (tk & [= -> ->] & Hin). split.
        * apply dict_get_Some_elem. rewrite -> Hd', decide_True by done. destruct kept; [by apply elem_of_nil in Hin|done].
        * apply elem_of_entry_pend. eauto.
      + exists y. split; [|done]. destruct y as [k l]. apply dict_get_Some_elem.
        apply dict_elem_get in Hy; [|auto with ucm]. rewrite -> dict_get_del in Hy. rewrite -> Hd'.
        by case_decide.
    - eapply fcovers_more; [|exact Hc]. intros [t ids]. rewrite -> elem_of_app, !elem_of_pend.
      intros (y & Hy & Hin). destruct y as [k l]. apply dict_elem_get in Hy; [|done].
      destruct (decide (x.1 = k)) as [Hk|Hk].
      + left. subst k. rewrite -> Hget in Hy. injection Hy as <-.
        apply elem_of_entry_pend in Hin as [-> (tk & Htk & <-)]. apply list_elem_of_fmap. eauto.
      + right. exists (k, l). split; [|done]. apply dict_get_Some_elem.
        by rewrite -> dict_get_del, decide_False by done. }
  assert (Heq : (match kept with [] => dict_del x.1 (tp_dump_tasks s1.1) | _ => dict_set x.1 kept (tp_dump_tasks s1.1) end) = d')
    by (unfold d'; rewrite -> Htp; by destruct kept).
  cbn [fst snd]. rewrite -> Heq. split; [exact Hgoal|]. split; [done|].
  intros k Hk. simpl. rewrite -> Hd'. by rewrite -> decide_False by congruence.
Qed.

Lemma f_poll_spec (s : fawa * W) :
  finv s → ∃ s', _poll_completed_dump_tasks s = (Ok tt, s') ∧ finv s' ∧ f_metadata s'.1 = f_metadata s.1.
Proof.
  intros Hinv. unfold _poll_completed_dump_tasks, getf. mstep.
  assert (Hgen : ∀ l (s : fawa * W), finv s → NoDup l.*1 →
    (∀ x, x ∈ l → dict_get x.1 (tp_dump_tasks s.1) = Some x.2) →
    ∃ s', for_each l (f_poll_entry (W := W)) s = (Ok tt, s') ∧ finv s' ∧ f_metadata s'.1 = f_metadata s.1).
  { clear. induction l as [|x l IH]; intros s Hinv Hnd Hl; cbn [for_each]; [by exists s|].
    apply NoDup_cons in Hnd as [Hx Hnd].
    destruct (f_poll_entry_spec x s Hinv) as (s1 & Hrun & Hinv1 & Hm1 & Hget); [apply Hl; by left|].
    mrun Hrun. destruct (IH s1 Hinv1 Hnd) as (s' & Hrun' & Hinv' & Hm').
    - intros y Hy. rewrite -> Hget; [apply Hl; by right|]. intros Heq. apply Hx. rewrite <- Heq. apply list_elem_of_fmap. eauto.
    - exists s'. split; [exact Hrun'|]. split; [done|congruence]. }
  apply Hgen; [done|apply Hinv|]. intros [k l] Hx. apply dict_elem_get; [apply Hinv|done].
Qed.

(** ** Draining *)

Lemma f_wait_all tasks : ∀ (s : fawa * W),
  is_Some (dev (fbase s.1)) →
  ∃ s', for_each tasks (λ t, f_wait_dump t count_wait_error) s = (Ok tt, s') ∧ fframe s s' ∧
    ∀ P rest, fcovers (((λ t, (dt_task t, P)) <$> tasks) ++ rest) (rank_consistency (fbase s.1)) →
              fcovers rest (rank_consistency (fbase s'.1)).
Proof.
  induction tasks as [|t tasks IH]; intros s Hd; cbn [for_each]; [by exists s|].
  destruct (f_wait_dump_spec t true s Hd) as (s1 & Hw & Hf1 & Hctx). cbn iota in Hw. mrun Hw.
  destruct (IH s1) as (s' & Hrun & Hf & Hc); [destruct Hf1 as (_ & _ & Hd1); auto|].
  exists s'. split; [exact Hrun|]. split; [by eapply fframe_trans|].
  intros P rest Hrest. apply (Hc P). eapply fcovers_delete; [exact Hctx|exact Hrest].
Qed.

Lemma f_drain_loop ids entries : ∀ fin (s : fawa * W),
  is_Some (dev (fbase s.1)) →
  ∃ s', for_fold entries fin (f_drain_entry (W := W) ids) s =
      (Ok (fin ++ (filter (λ x, ids ∩ list_to_set x.1 ≠ ∅) entries).*1), s') ∧ fframe s s' ∧
    ∀ rest, fcovers (pend entries ++ rest) (rank_consistency (fbase s.1)) →
      fcovers (pend (filter (λ x, ids ∩ list_to_set x.1 = ∅) entries) ++ rest) (rank_consistency (fbase s'.1)).
Proof.
  induction entries as [|x entries IH]; intros fin s Hd; cbn [for_fold].
  { exists s. cbn. by rewrite -> app_nil_r. }
  rewrite -> !filter_cons.
  destruct (decide (ids ∩ list_to_set x.1 = ∅)) as [He|He].
  - rewrite -> (decide_False (P := ids ∩ list_to_set x.1 ≠ ∅)) by (by intros []).
    assert (Hx : f_drain_entry (W := W) ids fin x s = (Ok fin, s))
      by (unfold f_drain_entry; by rewrite -> decide_True by done).
    mrun Hx.
    destruct (IH fin s Hd) as (s' & Hrun & Hf & Hc). exists s'. split; [exact Hrun|]. split; [done|].
    intros rest Hrest. unfold pend in *. rewrite -> fmap_cons, concat_cons in *.
    eapply fcovers_more; [|apply (Hc (entry_pend x ++ rest)); eapply fcovers_more; [|exact Hrest]];
      intros p; rewrite -> !elem_of_app; tauto.
  - rewrite -> (decide_True (P := ids ∩ list_to_set x.1 ≠ ∅)) by done.
    destruct (f_wait_all x.2 s Hd) as (s1 & Hw & Hf1 & Hc1).
    assert (Hw' : f_drain_entry ids fin x s = (Ok (fin ++ [x.1]), s1)).
    { unfold f_drain_entry. rewrite -> decide_False by done. by mrun Hw. }
    mrun Hw'. destruct (IH (fin ++ [x.1]) s1) as (s' & Hrun & Hf & Hc);
      [destruct Hf1 as (_ & _ & Hd1); auto|].
    exists s'. rewrite <- app_assoc in Hrun. split; [exact Hrun|]. split; [by eapply fframe_trans|].
    intros rest Hrest. apply Hc. unfold pend in *. rewrite -> fmap_cons, concat_cons, <- app_assoc in Hrest.
    by apply Hc1 in Hrest.
Qed.

Lemma f_forget_entries fin : ∀ (s : fawa * W),
  ∃ s', for_each fin (λ ids, updf (λ c, set_tp_tasks (dict_del ids (tp_dump_tasks c)) c)) s = (Ok tt, s') ∧
    fbase s'.1 = fbase s.1 ∧ f_metadata s'.1 = f_metadata s.1 ∧
    (∀ x, x ∈ tp_dump_tasks s'.1 ↔ x ∈ tp_dump_tasks s.1 ∧ x.1 ∉ fin) ∧
    (NoDup (tp_dump_tasks s.1).*1 → NoDup (tp_dump_tasks s'.1).*1).
Proof.
  induction fin as [|ids fin IH]; intros s; cbn [for_each].
  { exists s. split_and!; try done. intros x. split; [|by intros []]. intros ?. split; [done|apply not_elem_of_nil]. }
  unfold updf at 1. mstep. set (s1 := (set_tp_tasks _ s.1, s.2)).
  destruct (IH s1) as (s' & Hrun & Hb & Hm & Hin & Hnd). exists s'. split; [exact Hrun|].
  split; [done|]. split; [done|]. split; [|intros Hn; apply Hnd; simpl; auto with ucm].
  intros x. rewrite -> Hin. simpl. unfold dict_del. rewrite -> list_elem_of_filter, elem_of_cons. tauto.
Qed.

Lemma f_drain_spec ids (s : fawa * W) :
  finv s →
  ∃ s', _drain_best_effort_dump_tasks ids s = (Ok tt, s') ∧ finv s' ∧ f_metadata s'.1 = f_metadata s.1 ∧
    ∀ x, x ∈ tp_dump_tasks s'.1 ↔ x ∈ tp_dump_tasks s.1 ∧ ids ∩ list_to_set x.1 = ∅.
Proof.
  intros (Hc & Hd & Hnd). unfold _drain_best_effort_dump_tasks, getf.
  destruct (decide (ids = ∅)) as [->|_].
  { exists s. split; [done|]. split; [done|]. split; [done|]. intros x. split; [|tauto]. intros ?.
    split; [done|]. apply leibniz_equiv, intersection_empty_l. }
  mstep. destruct (f_drain_loop ids (tp_dump_tasks s.1) [] s Hd) as (s1 & Hrun & (Htp & Hm & Hdev) & Hcov).
  mrun Hrun. rewrite -> app_nil_l.
  destruct (f_forget_entries (filter (λ x, ids ∩ list_to_set x.1 ≠ ∅) (tp_dump_tasks s.1)).*1 s1)
    as (s' & Hrun' & Hb & Hm' & Hin & Hnd').
  assert (Hmem : ∀ x, x ∈ tp_dump_tasks s'.1 ↔ x ∈ tp_dump_tasks s.1 ∧ ids ∩ list_to_set x.1 = ∅).
  { intros x. rewrite -> Hin, Htp. split; intros [Hx Hf]; (split; [done|]).
    - destruct (decide (ids ∩ list_to_set x.1 = ∅)) as [?|Hne]; [done|]. exfalso. apply Hf.
      apply list_elem_of_fmap. exists x. split; [done|]. by apply list_elem_of_filter.
    - intros Hbad. apply list_elem_of_fmap in Hbad as (y & Heq & Hy).
      apply list_elem_of_filter in Hy as [Hy _]. apply Hy. by rewrite <- Heq. }
  exists s'. split; [exact Hrun'|]. split; [|split; [congruence|exact Hmem]].
  split; [|split; [by rewrite -> Hb; auto|by apply Hnd'; rewrite -> Htp]]. rewrite -> Hb.
  specialize (Hcov []). rewrite -> !app_nil_r in Hcov. eapply fcovers_more; [|by apply Hcov].
  intros p. rewrite -> !elem_of_pend. intros (x & Hx & Hp). exists x. split; [|done].
  apply Hmem. apply list_elem_of_filter in Hx. tauto.
Qed.

Lemma f_get_finished_spec ids (s : fawa * W) :
  finv s →
  ∃ s', get_finished ids s = (Ok ids, s') ∧ finv s' ∧
    (∀ x, x ∈ tp_dump_tasks s'.1 ↔ x ∈ tp_dump_tasks s.1 ∧ ids ∩ list_to_set x.1 = ∅) ∧
    ids ∩ pending_request_ids (rank_consistency (fbase s'.1)) = ∅.
Proof.
  intros Hinv. destruct (f_drain_spec ids s Hinv) as (s1 & Hrun & (Hc & Hd & Hnd) & Hm & Hmem).
  unfold get_finished. mrun Hrun.
  assert (Hfree : ids ∩ pending_request_ids (rank_consistency (fbase s1.1)) = ∅).
  { apply leibniz_equiv. intros id. split; [|by intros ?%elem_of_empty].
    intros [Hid Hp]%elem_of_intersection. apply pending_request_ids_elem in Hp as (t & st & ctx & Ht & Hin).
    destruct (Hc t st ctx Ht) as (P & HP & Hsub). apply elem_of_pend in HP as (x & Hx & HP).
    apply Hmem in Hx as [_ Hx]. apply elem_of_entry_pend in HP as [-> _].
    rewrite <- Hx. apply elem_of_intersection. split; [done|]. apply Hsub. by apply elem_of_list_to_set. }
  destruct (finish_dump_frame ids (rank_consistency (fbase s1.1), s1.2) Hfree) as (m & Hfin & Hctx & _).
  assert (Hf : on_fbase (on_rc (finish_dump ids)) s1 =
    (Ok tt, (Fawa (set_rc m (fbase s1.1)) (f_requests_meta s1.1) (tp_dump_tasks s1.1) (f_metadata s1.1), s1.2))).
  { unfold on_fbase, on_rc, lift. cbn [fst snd]. by rewrite -> Hfin. }
  mrun Hf. eexists. split; [reflexivity|]. split; [|split; [exact Hmem|]]; simpl in *.
  - split; [by eapply fcovers_same|done].
  - apply leibniz_equiv. intros id. split; [|by intros ?%elem_of_empty].
    intros [Hid Hp]%elem_of_intersection. rewrite <- Hfree. apply elem_of_intersection. split; [done|].
    rewrite -> pending_request_ids_elem in *. by rewrite -> Hctx in Hp.
Qed.

(** ** The other worker operations keep the invariant *)

(** What an inherited method may not change. *)
Definition bframe (s0 s : conn * W) : Prop :=
  dump_task_contexts (rank_consistency s.1) = dump_task_contexts (rank_consistency s0.1) ∧
  (is_Some (dev s0.1) → is_Some (dev s.1)).

Lemma bframe_on_rc {A} s0 (m : M (manager * W) A) :
  (∀ t, dump_task_contexts (m t).2.1 = dump_task_contexts t.1) → preserves (bframe s0) (on_rc m).
Proof.
  intros Hm s [Hc Hd]. unfold on_rc, lift. specialize (Hm (rank_consistency s.1, s.2)).
  destruct (m _) as [r t]. simpl in *. split; simpl; [congruence|done].
Qed.

Lemma bframe_updc s0 f :
  (∀ c, dump_task_contexts (rank_consistency (f c)) = dump_task_contexts (rank_consistency c) ∧
        dev (f c) = dev c) → preserves (bframe s0) (updc (W := W) f).
Proof. intros Hf s [Hc Hd]. destruct (Hf s.1) as [H1' H2']. split; simpl; [congruence|by rewrite -> H2']. Qed.

Lemma bframe_on_dev {A} s0 (m : M (device * W) A) : preserves (bframe s0) (on_dev m).
Proof.
  intros s [Hc Hd]. unfold on_dev. destruct (dev s.1) eqn:Hdev; [|split; simpl; [done|by rewrite -> Hdev]].
  destruct (m _) as [r t]. split; simpl; [done|by eexists].
Qed.

Lemma bframe_on_w {A} s0 (m : M W A) : preserves (bframe s0) (on_w m).
Proof. intros s [Hc Hd]. unfold on_w, lift. by destruct (m _). Qed.

Lemma bframe_load_error s0 name blocks : preserves (bframe s0) (_record_load_error (W := W) name blocks).
Proof.
  apply preserves_bind; [apply preserves_gets|]. intros old.
  apply preserves_bind; [|intros _]; by apply bframe_updc.
Qed.

Lemma bframe_event s0 cf : preserves (bframe s0) (_get_dump_event_handle (W := W) cf).
Proof.
  unfold _get_dump_event_handle. apply preserves_if; (apply preserves_bind; [apply bframe_on_dev|intros h]);
    [apply preserves_ret|]. apply preserves_bind; [|intros; apply preserves_ret].
  apply preserves_if; [apply bframe_on_dev|apply preserves_ret].
Qed.

(** The worker metadata is moved without touching the dump contexts. *)
Lemma bframe_worker_meta s0 : preserves (bframe s0) (build_connector_worker_meta (W := W)).
Proof.
  intros s [Hc Hd]. unfold build_connector_worker_meta, getc, updc. munfold.
  case_match; [by split|].
  destruct (update_worker_meta _ _) as [wm m] eqn:Hu. simpl. split; simpl; [|done].
  rewrite <- Hc. unfold update_worker_meta in Hu. case_match; by simplify_eq/=.
Qed.

Lemma finv_on_fbase {A} (m : M (conn * W) A) :
  (∀ s0, preserves (bframe s0) m) → preserves finv (on_fbase m).
Proof.
  intros Hm s (Hc & Hd & Hnd). destruct (Hm (fbase s.1, s.2) (fbase s.1, s.2)) as [Hctx Hdev]; [done|].
  unfold on_fbase, lift. destruct (m _) as [r t]. simpl in *. split_and!; simpl; [|auto|done].
  by eapply fcovers_same.
Qed.

Lemma finv_handle_load_err id : preserves finv (_handle_load_err (W := W) id).
Proof.
  unfold _handle_load_err, _get_request_all_block_ids, f_get_connector_metadata.
  apply preserves_bind.
  { apply preserves_bind; [|intros; apply preserves_ret].
    apply preserves_bind; [apply preserves_gets|]. intros [m|]; [apply preserves_ret|apply preserves_raise]. }
  intros ids. apply preserves_bind; [apply finv_on_fbase; intros; apply bframe_load_error|].
  intros _. apply finv_on_fbase. intros s0. by apply bframe_updc.
Qed.

Lemma finv_submit_load id label st keys ptrs :
  preserves finv (_submit_load_task (W := W) id label st keys ptrs).
Proof.
  apply preserves_bind; [|intros; apply preserves_ret]. apply finv_on_fbase. intros s0.
  apply bframe_on_rc. intros t.
  by destruct (submit_load_spec st [(id, keys)] keys (replicate (length keys) 0) ptrs t) as (r & s' & -> & ? & _).
Qed.

Lemma finv_load_step tasks x : preserves finv (f_load_step (W := W) fcf tasks x).
Proof.
  unfold f_load_step. destruct (load_keys x.2); [apply preserves_ret|].
  assert (Htry : ∀ m, preserves finv m → preserves finv (try_load (W := W) x.1 m)).
  { intros m Hm. apply preserves_try; [apply preserves_bind; [done|intros; apply preserves_ret]|].
    intros e. apply preserves_bind; [apply finv_handle_load_err|intros; apply preserves_ret]. }
  apply preserves_bind.
  - apply Htry. unfold submit_fa_load. destruct (fa_store fcf), (wa_store fcf); try apply preserves_raise.
    apply preserves_bind; [apply preserves_of_res|intros; apply finv_submit_load].
  - intros [t|]; [|apply preserves_ret]. apply preserves_bind; [|intros; apply preserves_ret].
    apply Htry. unfold submit_wa_load. destruct (wa_store fcf); [|apply preserves_raise].
    apply preserves_bind; [apply preserves_of_res|intros; apply finv_submit_load].
Qed.

Lemma finv_start_load : preserves finv (start_load_kv (W := W) fcf).
Proof.
  unfold start_load_kv, f_get_connector_metadata. apply preserves_bind.
  { apply preserves_bind; [apply preserves_gets|]. intros [m|]; [apply preserves_ret|apply preserves_raise]. }
  intros md. apply preserves_bind; [apply preserves_for_fold; intros; apply finv_load_step|].
  intros tasks. apply preserves_for_each. intros t _. apply preserves_try; [|intros; apply finv_handle_load_err].
  apply finv_on_fbase. intros s0. apply bframe_on_rc. intros s.
  by destruct (wait_load_spec (lt_task t) s) as (r & s' & -> & ? & _).
Qed.

(** The requests a dump is filed under are those of the save. *)
Definition fs_ok (a : fsave) : Prop := (fs_fa_by_request a).*1 ⊆ fs_request_ids a.

Lemma fs_ok_add_request id ring a : fs_ok a → fs_ok (add_request id ring a).
Proof. unfold fs_ok. simpl. set_solver. Qed.

Lemma fs_ok_add_fa id keys rows a : fs_ok a → id ∈ fs_request_ids a → fs_ok (add_fa id keys rows a).
Proof. unfold fs_ok. simpl. intros Hs Hid k Hk. apply dict_set_keys in Hk as [->|Hk]; auto. Qed.

Lemma fs_ok_add_last id d a a' : fs_ok a → add_last_wa fcf id d a = Ok a' → fs_ok a'.
Proof. unfold add_last_wa. intros Hok Hrun. by apply bind_Ok in Hrun as (rows & _ & [= <-]). Qed.

Lemma fs_ok_save (tp : bool) a x a' :
  fs_ok a → (if tp then f_save_tp else f_save_single) fcf a x = Ok a' → fs_ok a'.
Proof.
  intros Hok. destruct x as [id d]. set (b := add_request id (fs_ring a) a).
  assert (Hb : fs_ok b ∧ id ∈ fs_request_ids b).
  { split; [by apply fs_ok_add_request|]. simpl. apply elem_of_app. right. by left. }
  destruct Hb as [Hb Hid]. unfold f_save_tp, f_save_single. fold b.
  destruct tp, (dump_keys d) as [|k0 l0]; try (by intros [= <-]); intros Hrun.
  - apply bind_Ok in Hrun as (a1 & Ha1 & Hrun). apply bind_Ok in Hrun as (a2 & Ha2 & [= <-]).
    assert (H1' : fs_ok a1).
    { destruct (py_slice (k0 :: l0) _ _); [by injection Ha1 as <-|].
      apply bind_Ok in Ha1 as (rows & _ & [= <-]). by apply fs_ok_add_fa. }
    assert (H2' : fs_ok a2); [|exact H2'].
    destruct (wa_dump_block_wise fcf).
    + destruct (py_slice (k0 :: l0) _ _); [by injection Ha2 as <-|].
      apply bind_Ok in Ha2 as (ids & _ & Ha2). by apply bind_Ok in Ha2 as (rows & _ & [= <-]).
    + destruct (_ =? _); [|by injection Ha2 as <-]. by eapply fs_ok_add_last.
  - apply bind_Ok in Hrun as (rows & _ & Hrun).
    pose proof (fs_ok_add_fa id (k0 :: l0) rows b Hb Hid) as Hc. destruct (wa_dump_block_wise fcf).
    + by apply bind_Ok in Hrun as (rows' & _ & [= <-]).
    + by eapply fs_ok_add_last.
Qed.

Lemma f_collect_ok reqs a : f_collect_saves fcf reqs = Ok a → fs_ok a.
Proof.
  unfold f_collect_saves. set (tp := 1 <? tp_size (fw_cf fcf)).
  assert (Hgen : ∀ a0, fs_ok a0 →
    fold_res (if tp then f_save_tp fcf else f_save_single fcf) a0 reqs = Ok a → fs_ok a).
  { induction reqs as [|x reqs IH]; intros a0 Ha0; simpl; [by intros [= <-]|].
    intros Hrun. apply bind_Ok in Hrun as (a1 & Ha1 & Hrun). apply (IH a1); [|done].
    eapply (fs_ok_save tp); [exact Ha0|]. by destruct tp. }
  apply Hgen. by intros k Hk.
Qed.

Lemma finv_dump_failed h : preserves finv (f_dump_failed (W := W) h).
Proof.
  apply preserves_bind; [apply finv_on_fbase; intros; apply bframe_on_dev|].
  intros _. apply finv_on_fbase. intros s0. by apply bframe_updc.
Qed.

Lemma f_submit_spec label st keys ptrs h br (s : fawa * W) :
  ∃ r s', _submit_dump_task label st keys ptrs h br s = (r, s') ∧ fframe s s' ∧
    match r with
    | Ok t => ∃ ctx, ctx.*1 ⊆ br.*1 ∧ dump_task_contexts (rank_consistency (fbase s'.1)) =
        <[dt_task t := (st, ctx)]> (dump_task_contexts (rank_consistency (fbase s.1)))
    | Raise _ => dump_task_contexts (rank_consistency (fbase s'.1)) =
        dump_task_contexts (rank_consistency (fbase s.1))
    end.
Proof.
  unfold _submit_dump_task, on_fbase, on_rc. munfold.
  destruct (submit_dump_spec st br keys (replicate (length keys) 0) ptrs h (rank_consistency (fbase s.1), s.2))
    as (r & t & -> & _ & Hr). simpl in *.
  destruct r as [tk|e]; simpl; (eexists _, _; split; [reflexivity|]; split; [done|]); simpl; [|done].
  destruct Hr as (ctx & ? & ?). by exists ctx.
Qed.

Lemma finv_submit_fa st a : fs_ok a → preserves finv (f_submit_fa (W := W) fcf st a).
Proof.
  intros Hok. unfold f_submit_fa. destruct (fs_fa_keys a) as [|k ks]; [apply preserves_ret|].
  apply preserves_bind; [apply finv_on_fbase; intros; apply bframe_event|]. intros h.
  apply preserves_bind; [apply preserves_of_res|]. intros ptrs. set (ids := fs_request_ids a).
  apply preserves_bind.
  { intros s (Hc & Hd & Hnd). unfold updf, modify. simpl. destruct (dict_mem ids _) eqn:Hmem; [done|].
    split_and!; simpl; [|done|auto with ucm]. eapply fcovers_more; [|exact Hc].
    intros p. rewrite -> !elem_of_pend. intros ([k' l] & Hx & Hp). exists (k', l). split; [|done].
    apply dict_get_Some_elem. apply dict_elem_get in Hx; [|done]. rewrite -> dict_get_set.
    case_decide; [subst k'|done]. unfold dict_mem in Hmem. apply bool_decide_eq_false in Hmem.
    rewrite -> Hx in Hmem. by destruct Hmem. }
  intros _. apply preserves_try; [|intros; apply finv_dump_failed].
  intros s (Hc & Hd & Hnd). unfold mbind, M_bind.
  destruct (f_submit_spec "FA" st (k :: ks) ptrs h (fs_fa_by_request a) s) as (r & s1 & -> & (Htp & _ & Hdev) & Hr).
  destruct r as [t|e]; simpl.
  2:{ split_and!; [by rewrite -> Htp; eapply fcovers_same|auto|by rewrite -> Htp]. }
  destruct Hr as (ctx & Hsub & Hctx).
  split_and!; simpl; [|auto|rewrite -> Htp; auto with ucm]. rewrite -> Htp.
  set (d := tp_dump_tasks s.1) in *.
  intros t' st' ctx' Ht'. rewrite -> Hctx, lookup_insert_Some in Ht'. destruct Ht' as [[<- [= <- <-]]|[Hne Ht']].
  - exists (list_to_set ids). split.
    + apply elem_of_pend. exists (ids, dict_get_default ids [] d ++ [t]). split.
      * apply dict_get_Some_elem, dict_get_set_eq.
      * apply elem_of_entry_pend. split; [done|]. exists t. split; [|done]. simpl. apply elem_of_app. right. by left.
    + intros id. rewrite -> !elem_of_list_to_set. intros Hid. by apply Hok, Hsub.
  - destruct (Hc t' st' ctx' Ht') as (P & HP & HPs). exists P. split; [|done].
    apply elem_of_pend in HP as ([k' l] & Hx & HP). apply elem_of_pend.
    apply dict_elem_get in Hx; [|done]. destruct (decide (ids = k')) as [Hk|Hk].
    + subst k'. exists (ids, dict_get_default ids [] d ++ [t]). split; [apply dict_get_Some_elem, dict_get_set_eq|].
      unfold dict_get_default. fold d in Hx. rewrite -> Hx. simpl.
      apply elem_of_entry_pend in HP as (-> & tk & Htk & <-). apply elem_of_entry_pend. split; [done|].
      exists tk. split; [|done]. simpl in *. apply elem_of_app. by left.
    + exists (k', l). split; [|done]. apply dict_get_Some_elem. by rewrite -> dict_get_set_ne.
Qed.

Lemma finv_submit_wa st a : preserves finv (f_submit_wa (W := W) fcf st a).
Proof.
  unfold f_submit_wa. destruct (fs_wa_keys a) as [|k ks]; [apply preserves_ret|].
  apply preserves_bind; [apply finv_on_fbase; intros; apply bframe_event|]. intros h.
  apply preserves_bind; [apply preserves_of_res|]. intros ptrs.
  apply preserves_try; [|intros; apply finv_dump_failed].
  intros s (Hc & Hd & Hnd). unfold mbind, M_bind.
  destruct (f_submit_spec "WA" st (k :: ks) ptrs h (fs_wa_by_request a) s) as (r & s1 & -> & (Htp & _ & Hdev) & Hr).
  destruct r as [t|e]; simpl.
  2:{ split_and!; [by rewrite -> Htp; eapply fcovers_same|auto|by rewrite -> Htp]. }
  destruct Hr as (ctx & _ & Hctx).
  destruct (f_wait_dump_spec t true s1) as (s2 & Hw & (Htp2 & _ & Hdev2) & Hctx2); [auto|].
  cbn iota in Hw. rewrite -> Hw. simpl. split_and!; [|auto|by rewrite -> Htp2, Htp].
  rewrite -> Htp2, Htp. intros t' st' ctx' Ht'. rewrite -> Hctx2, Hctx, delete_insert_eq in Ht'.
  apply lookup_delete_Some in Ht' as [_ Ht']. eauto.
Qed.

Lemma finv_wait_for_save : preserves finv (wait_for_save (W := W) fcf).
Proof.
  unfold wait_for_save, f_get_connector_metadata. apply preserves_bind.
  { apply preserves_bind; [apply preserves_gets|]. intros [m|]; [apply preserves_ret|apply preserves_raise]. }
  intros md. destruct (fa_store fcf), (wa_store fcf); try apply preserves_raise.
  apply preserves_bind.
  { intros s Hs. by destruct (f_poll_spec s Hs) as (s' & -> & ? & _). }
  intros _ s1 Hs1. unfold mbind, M_bind, of_res.
  destruct (f_collect_saves fcf (f_request_meta md)) as [a|e] eqn:Ha; [|done].
  apply f_collect_ok in Ha. apply (preserves_bind finv); [by apply finv_submit_fa| |done].
  intros _. apply finv_submit_wa.
Qed.

(** The calls a vLLM worker makes on its connector. *)
Inductive fawa_step (s : fawa * W) : fawa * W → Prop :=
  | fstep_bind md : fawa_step s (bind_connector_metadata md s).2
  | fstep_clear : fawa_step s (clear_connector_metadata s).2
  | fstep_load : fawa_step s (start_load_kv fcf s).2
  | fstep_save : fawa_step s (wait_for_save fcf s).2
  | fstep_preempt md : fawa_step s (handle_preemptions md s).2
  | fstep_finished ids : fawa_step s (get_finished ids s).2
  | fstep_errors : fawa_step s (on_fbase get_block_ids_with_load_errors s).2
  | fstep_meta : fawa_step s (on_fbase build_connector_worker_meta s).2.

Lemma fawa_step_inv s s' : fawa_step s s' → finv s → finv s'.
Proof.
  destruct 1 as [md| | | |md|ids| |]; intros Hinv.
  - done.
  - done.
  - by apply finv_start_load.
  - by apply finv_wait_for_save.
  - unfold handle_preemptions. by destruct (f_drain_spec (f_preempted_req_ids md) s Hinv) as (s' & -> & ? & _).
  - by destruct (f_get_finished_spec ids s Hinv) as (s' & -> & ? & _).
  - apply finv_on_fbase; [|done]. intros s0. apply preserves_bind; [apply preserves_gets|]. intros x.
    apply preserves_bind; [by apply bframe_updc|]. intros _. apply preserves_ret.
  - apply finv_on_fbase; [|done]. intros s0. apply bframe_worker_meta.
Qed.

Lemma fawa_reach_inv s s' : rtc fawa_step s s' → finv s → finv s'.
Proof. induction 1; eauto using fawa_step_inv. Qed.

(** A connector whose KV caches have just been registered. *)
Definition fresh_fawa (s : fawa * W) : Prop :=
  ∃ configured is_mla k, s.1 = init_fawa (set_dev (Some (Device k ∅)) (init_conn false configured is_mla)).

Lemma fresh_fawa_inv s : fresh_fawa s → finv s.
Proof.
  intros (configured & is_mla & k & Hs). unfold finv. rewrite -> Hs. split_and!; simpl; [|done|constructor].
  intros t st ctx Ht. simpl in Ht. by rewrite -> lookup_empty in Ht.
Qed.

End worker.

(** ** Properties of finished requests *)

(** Finished requests are settled in every state a FAWA worker can reach: the
    call returns all of them without raising, forgets exactly the background
    tasks filed under one of them, keeping the others, and leaves no outstanding
    dump of a store that names any of them, whichever submissions, waits and
    polls failed before. *)
Theorem fawa_get_finished_settles {W} `{StoreOps W} `{DeviceOps W} `{SetOrder} `{PyHash} fcf
    (s0 s : fawa * W) ids :
  fresh_fawa s0 → rtc (fawa_step fcf) s0 s →
  ∃ s', get_finished ids s = (Ok ids, s') ∧
    (∀ x, x ∈ tp_dump_tasks s'.1 ↔ x ∈ tp_dump_tasks s.1 ∧ ids ∩ list_to_set x.1 = ∅) ∧
    ids ∩ pending_request_ids (rank_consistency (fbase s'.1)) = ∅.
Proof.
  intros Hf Hr. pose proof (fawa_reach_inv fcf _ _ Hr (fresh_fawa_inv _ Hf)) as Hinv.
  destruct (f_get_finished_spec ids s Hinv) as (s' & Hrun & _ & Hmem & Hfree). eauto.
Qed.

(** ** Worked examples *)

Definition ex_fawa_worker : fawa * sim :=
  (init_fawa (set_dev (Some (Device CUDA ∅)) (init_conn false (Some true) true)), sim_init [] []).

(** A single-rank plan dumping three hash blocks. *)
Definition ex_fcf1 : fawa_conf :=
  FawaConf (Conf false true 0 1 64 256 1 [] [] None true false 0 1
    (Layout (Arr1 []) (Arr1 []) (Arr1 []) (Arr1 []) false 1 0 [] 0 8) 512)
    ex_fawa_layouts (Some 1) (Some 2) true 0.

Definition ex_fawa_dumped : fawa * sim :=
  (wait_for_save ex_fcf1 (bind_connector_metadata (FMetadata ex_fplan ∅) ex_fawa_worker).2).2.

Lemma fawa_get_finished_settles_witness :
  length (tp_dump_tasks ex_fawa_dumped.1) = 1%nat ∧
  dump_task_contexts (rank_consistency (fbase ex_fawa_dumped.1)) ≠ ∅ ∧
  ∃ s', get_finished {["r"]} ex_fawa_dumped = (Ok {["r"]}, s') ∧
    {["r"]} ∩ pending_request_ids (rank_consistency (fbase s'.1)) = ∅.
Proof.
  split; [vm_compute; reflexivity|]. split; [vm_compute; discriminate|].
  destruct (fawa_get_finished_settles ex_fcf1 ex_fawa_worker ex_fawa_dumped {["r"]})
    as (s' & Hrun & _ & Hfree).
  - exists (Some true), true, CUDA. reflexivity.
  - eapply rtc_l; [exact (fstep_bind ex_fcf1 ex_fawa_worker (FMetadata ex_fplan ∅))|].
    apply rtc_once. exact (fstep_save ex_fcf1 _).
  - exists s'. split; [exact Hrun|exact Hfree].
Defined.

(** A scheduler with hash blocks of 4 tokens, whose stores hold the first blocks
    of a request of three. *)
Definition ex_fcf4 : fawa_conf :=
  FawaConf (fw_cf ex_fcf1)
    (FawaLayouts (FawaGroups false None 4 [0] [1] [(0, GroupMeta 4 1 4); (1, GroupMeta 2 1 2)] 4 4096 4096) [])
    (Some 1) (Some 2) true 0.

Definition ex_frequest : request := Req "r" [1; 2; 3; 4; 5; 6; 7; 8; 9; 10; 11; 12; 13] 13 13.

Definition ex_fkeys : list bytes := generate_hash [] 4 (all_token_ids ex_frequest) (hash_seed []).

Definition ex_fawa_sched : fawa * sim :=
  (init_fawa (init_conn true (Some false) true),
   sim_init ((pair 1 <$> take 2 ex_fkeys) ++ (pair 2 <$> take 1 ex_fkeys)) []).

Lemma fawa_lookup_latest_boundary_witness :
  (_lookup_external_hit_blocks ex_fcf4 ex_fkeys ex_fawa_sched).1 = Ok 1 ∧
  ∃ h s', _lookup_external_hit_blocks ex_fcf4 ex_fkeys ex_fawa_sched = (Ok h, s') ∧ 0 ≤ h ≤ 1 + 1.
Proof.
  split; [vm_compute; reflexivity|].
  destruct (fawa_lookup_latest_boundary ex_fcf4 1 2 ex_fkeys (sim_has 2 ex_fawa_sched.2) 1 ex_fawa_sched
    (rank_consistency (fbase ex_fawa_sched.1), ex_fawa_sched.2)) as (h & s' & Hrun & Hb & _).
  - reflexivity.
  - reflexivity.
  - vm_compute. discriminate.
  - vm_compute. reflexivity.
  - intros k. reflexivity.
  - exists h, s'. split; [exact Hrun|exact Hb].
Defined.

Lemma fawa_matched_tokens_sound_witness :
  (get_num_new_matched_tokens ex_fcf4 ex_frequest 0 ex_fawa_sched).1 = Ok (4, false) ∧
  ∃ n s', get_num_new_matched_tokens ex_fcf4 ex_frequest 0 ex_fawa_sched = (Ok (n, false), s') ∧
    (0 < n → 0 + n < 13).
Proof.
  split; [vm_compute; reflexivity|].
  destruct (fawa_matched_tokens_sound ex_fcf4 ex_frequest 0 ex_fawa_sched) as (n & s' & Hrun & _ & Hlt & _).
  - vm_compute. reflexivity.
  - vm_compute. congruence.
  - lia.
  - vm_compute. reflexivity.
  - exists n, s'. split; [exact Hrun|exact Hlt].
Defined.
