(* ===== verification/Blend.v ===== *)
(** * The blend connector

    [UCMBlendConnector] of [blend_connector.py], for prompts made of retrieved
    text chunks.  A chunk ends at a block whose last token is the chunk end
    token; its blocks are hashed on their own, so they can be reused wherever
    the chunk appears, after the positions of the loaded keys are shifted.  A
    prompt loads the prefix it shares with an earlier one, then the blocks of
    its chunks that the store holds.  Loads and dumps are the inherited ones. *)
From S2P Require Import Prelude Runtime RankConsistency PyHash Hashing KVLayout Direct DirectWorker Hla.
Open Scope Z_scope.

(** ** Data *)

Record ChunkMetaData := ChunkMeta {
  start_token_dix : Z;
  chunk_tokens_len : Z;
  start_blk_idx : Z;
  chunk_blks_len : Z;
  cached_start_position : Z;
  vllm_blk_ids : list Z;
  chunk_blks_hash : list bytes;
  store_hits : list bool;
}.

Definition end_token_dix (c : ChunkMetaData) : Z := start_token_dix c + chunk_tokens_len c.
Definition end_blk_idx (c : ChunkMetaData) : Z := start_blk_idx c + chunk_blks_len c.
Definition cached_end_position (c : ChunkMetaData) : Z := cached_start_position c + chunk_tokens_len c.
Definition position_offset (c : ChunkMetaData) : Z := start_token_dix c - cached_start_position c.

(** [itertools.compress] *)
Definition compress {A} (data : list A) (selectors : list bool) : list A :=
  (filter (λ p, p.2 = true) (zip data selectors)).*1.

Definition hits_vllm_blk_ids (c : ChunkMetaData) : list Z := compress (vllm_blk_ids c) (store_hits c).
Definition hits_chunk_blks_hash (c : ChunkMetaData) : list bytes :=
  compress (chunk_blks_hash c) (store_hits c).

Definition set_store_hits (h : list bool) (c : ChunkMetaData) : ChunkMetaData :=
  ChunkMeta (start_token_dix c) (chunk_tokens_len c) (start_blk_idx c) (chunk_blks_len c)
    (cached_start_position c) (vllm_blk_ids c) (chunk_blks_hash c) h.
Definition set_vllm_blk_ids (v : list Z) (c : ChunkMetaData) : ChunkMetaData :=
  ChunkMeta (start_token_dix c) (chunk_tokens_len c) (start_blk_idx c) (chunk_blks_len c)
    (cached_start_position c) v (chunk_blks_hash c) (store_hits c).

Definition merge_chunk (c temp_chunk_meta : ChunkMetaData) : ChunkMetaData :=
  ChunkMeta (start_token_dix c) (chunk_tokens_len c + chunk_tokens_len temp_chunk_meta)
    (start_blk_idx c) (chunk_blks_len c + chunk_blks_len temp_chunk_meta)
    (cached_start_position c) (vllm_blk_ids c)
    (chunk_blks_hash c ++ chunk_blks_hash temp_chunk_meta) (store_hits c).

Definition update_meta_partial_pc (num_pc_part_blks block_size : Z) (c : ChunkMetaData) : ChunkMetaData :=
  if 0 <? num_pc_part_blks then
    ChunkMeta (start_token_dix c + num_pc_part_blks * block_size)
      (chunk_tokens_len c - num_pc_part_blks * block_size)
      (start_blk_idx c + num_pc_part_blks) (chunk_blks_len c - num_pc_part_blks)
      (cached_start_position c + num_pc_part_blks * block_size) (vllm_blk_ids c)
      (py_from (chunk_blks_hash c) num_pc_part_blks) (py_from (store_hits c) num_pc_part_blks)
  else c.

Inductive BlendStage := BUILD_CHUNK_CACHE | BUILD_PREFIX_CACHE | CACHE_BLEND.

Definition is_blend_cache (s : BlendStage) : bool :=
  match s with CACHE_BLEND => true | _ => false end.

Record BlendRequestMeta := BlendReq {
  ucm_block_hashs : list bytes;
  pc_hit_block_num : Z;
  chunks_meta : list ChunkMetaData;
  blend_stage : BlendStage;
}.

Definition set_chunks_meta (c : list ChunkMetaData) (rm : BlendRequestMeta) : BlendRequestMeta :=
  BlendReq (ucm_block_hashs rm) (pc_hit_block_num rm) c (blend_stage rm).

(** [RequestDispatchMeta] extended with the chunks. *)
Record BlendRequestDispatchMeta := BlendDispatch {
  bd_dispatch : RequestDispatchMeta;
  bd_chunks_meta : list ChunkMetaData;
}.

Abbreviation UCMBlendConnectorMetadata := (dict string BlendRequestDispatchMeta).

(** The attributes fixed by [__init__].  [has_monitor] tells whether the object
    has the attribute [monitor], which no class of the repository sets. *)
Record blend_conf := BlendConf {
  b_cf : conf;
  chunk_end_token_id : Z;
  has_monitor : bool;
}.

Record blend := BlendConn {
  bbase : conn;
  requests_blend_meta : dict string BlendRequestMeta;
  cos_sin_cache : bool;
  delta_rope : option (list Z * list Z);
}.

Definition set_bbase x (c : blend) := BlendConn x (requests_blend_meta c) (cos_sin_cache c) (delta_rope c).
Definition set_blend_meta x (c : blend) := BlendConn (bbase c) x (cos_sin_cache c) (delta_rope c).
Definition set_cos_sin x (c : blend) := BlendConn (bbase c) (requests_blend_meta c) x (delta_rope c).
Definition set_delta_rope x (c : blend) := BlendConn (bbase c) (requests_blend_meta c) (cos_sin_cache c) x.

(** [__init__] from the sparse section of the launch configuration: raising a
    string is a [TypeError]. *)
Definition init_blend (ucm_sparse_config : dict string (dict string Z)) (cf : conf) (monitor : bool) :
    res blend_conf :=
  match dict_get "Blend" ucm_sparse_config with
  | None => Raise (TypeError "exceptions must derive from BaseException")
  | Some blend_config =>
      t ← dict_index "chunk_end_token_id" blend_config;
      Ok (BlendConf cf t monitor)
  end.

Definition min_blend_threshold : Z := 16.

(** ** Splitting a prompt *)

Section blend.
  Context {W : Type} `{StoreOps W} `{DeviceOps W} `{SetOrder} `{PyHash}.
  Variable bcf : blend_conf.
Let cf : conf := b_cf bcf.
Let bs : Z := cf_block_size cf.

(** The loop variables: the start of the current chunk, the chunks found. *)
Record split_acc := SplitAcc {
  sp_start_blk : Z;
  sp_start_tok : Z;
  sp_chunks : list ChunkMetaData;
  sp_hashes : list bytes;
}.

Definition hash_chunk (token_ids : list Z) : list bytes :=
  generate_hash (hash_meta cf) bs token_ids (hash_seed (hash_meta cf)).

(** One block: [end_idx] is its index and [end_tok] its last token. *)
Definition split_step (all_token_ids : list Z) (acc : split_acc) (p : Z * Z) : res split_acc :=
  let '(end_idx, end_tok) := p in
  t ← py_index all_token_ids end_tok;
  if negb (t =? chunk_end_token_id bcf) then Ok acc
  else
    let hashes := hash_chunk (py_slice all_token_ids (sp_start_tok acc) (end_tok + 1)) in
    let blks := end_idx - sp_start_blk acc + 1 in
    Ok (SplitAcc (end_idx + 1) (end_tok + 1)
          (sp_chunks acc ++ [ChunkMeta (sp_start_tok acc) (blks * bs) (sp_start_blk acc) blks 0 [] hashes []])
          (sp_hashes acc ++ hashes)).

(** The last tokens of the full blocks, with the indices of the blocks. *)
Definition block_ends (n : Z) : list (Z * Z) :=
  let ends := py_range_step (bs - 1) n bs in
  zip (seqZ 0 (zlen ends)) ends.

Definition _process_req (all_token_ids : list Z) :
    res (BlendStage * list bytes * list ChunkMetaData * list bytes) :=
  let prefix_block_hashes := hash_chunk all_token_ids in
  last ← py_index all_token_ids (-1);
  if (last =? chunk_end_token_id bcf) && (zlen all_token_ids mod bs =? 0)
  then Ok (BUILD_CHUNK_CACHE, prefix_block_hashes, [], [])
  else
    acc ← fold_res (split_step all_token_ids) (SplitAcc 0 0 [] []) (block_ends (zlen all_token_ids));
    Ok (match sp_chunks acc with [] => BUILD_PREFIX_CACHE | _ => CACHE_BLEND end,
        prefix_block_hashes, sp_chunks acc, sp_hashes acc).

(** ** Matching *)

Notation BM := (M (blend * W)).

Definition on_bbase {A} (x : M (conn * W) A) : BM A :=
  lift (λ s, (bbase s.1, s.2)) (λ t s, (set_bbase t.1 s.1, t.2)) x.

Definition updb (f : blend → blend) : BM unit := modify (λ s, (f s.1, s.2)).
Definition getb {A} (f : blend → A) : BM A := gets (λ s, f s.1).

(** The number of leading hits. *)
Fixpoint leading_hits (l : list bool) : Z :=
  match l with
  | true :: l => 1 + leading_hits l
  | _ => 0
  end.

(** [sum] of a list of booleans *)
Definition count_true (l : list bool) : Z := zsum ((λ b : bool, if b then 1 else 0) <$> l).

(** The hits filed under the chunks; the first chunk loses its prefix hits and
    is removed when nothing is left of it. *)
Definition assign_hits (pc_hit_blocks : Z) (results : list bool) (chunks : list ChunkMetaData) :
    res (list ChunkMetaData) :=
  let chunks := (λ c, set_store_hits (py_slice results (start_blk_idx c) (end_blk_idx c)) c) <$> chunks in
  match chunks with
  | [] => Raise IndexError
  | first :: rest =>
      let first := update_meta_partial_pc pc_hit_blocks bs first in
      Ok (if chunk_tokens_len first =? 0 then rest else first :: rest)
  end.

Definition _get_req_chunk_hit (req_stage : BlendStage) (prefix_block_hashes : list bytes)
    (req_chunks_meta : list ChunkMetaData) (req_chunks_hashes : list bytes) :
    M (conn * W) (Z * Z * list ChunkMetaData) :=
  pc_lookup_results ← on_rc (lookup_all (store cf) prefix_block_hashes);
  let pc_hit_blocks := leading_hits pc_lookup_results in
  if negb (is_blend_cache req_stage) then mret (pc_hit_blocks, 0, req_chunks_meta)
  else
    chunk_lookup_results ← on_rc (lookup_all (store cf) (py_from req_chunks_hashes pc_hit_blocks));
    chunks ← of_res (assign_hits pc_hit_blocks
      (py_upto pc_lookup_results pc_hit_blocks ++ chunk_lookup_results) req_chunks_meta);
    mret (pc_hit_blocks, count_true chunk_lookup_results, chunks).

(** [self.monitor.update_stats("ConnStats", sample)] *)
Definition monitor_stats (sample : stats) : M (conn * W) unit :=
  if has_monitor bcf then update_stats sample else raise AttributeError.

Definition get_num_new_matched_tokens (r : request) (num_computed_tokens : Z) : BM (Z * bool) :=
  assert_ (num_computed_tokens =? 0) ;;
  let max_blk_num := zlen (all_token_ids r) / bs in
  if max_blk_num =? 0 then mret (0, false) else
  '(req_stage, prefix_block_hashes, req_chunks_meta, req_chunks_hashes) ←
    of_res (_process_req (all_token_ids r));
  '(pc_hit_blocks, chunk_hit_blocks, req_chunks_meta) ←
    on_bbase (_get_req_chunk_hit req_stage prefix_block_hashes req_chunks_meta req_chunks_hashes);
  let blended := negb (chunk_hit_blocks <? min_blend_threshold) in
  let req_stage := if blended then req_stage else BUILD_PREFIX_CACHE in
  let req_chunks_meta := if blended then req_chunks_meta else [] in
  let req_block_hashes := if is_blend_cache req_stage then req_chunks_hashes else prefix_block_hashes in
  on_bbase (monitor_stats [("interval_lookup_hit_rates", MRatio chunk_hit_blocks max_blk_num)]) ;;
  let pc_hit_tokens := pc_hit_blocks * bs in
  let pc_hit_tokens := if pc_hit_tokens =? num_tokens r then pc_hit_tokens - 1 else pc_hit_tokens in
  updb (λ c, set_blend_meta (dict_set (request_id r)
    (BlendReq req_block_hashes pc_hit_blocks req_chunks_meta req_stage) (requests_blend_meta c)) c) ;;
  mret (pc_hit_tokens, false).

(** ** Planning *)

(** The plan of a request and its updated metadata: the chunks, which the plan
    shares with the tracked request, are given their vLLM blocks. *)
Definition _generate_blend_dispatch_meta (rm : BlendRequestMeta) (vllm_block_ids : list Z) :
    BlendRequestMeta * BlendRequestDispatchMeta :=
  let pc := pc_hit_block_num rm in
  let load := (py_upto (ucm_block_hashs rm) pc, py_upto vllm_block_ids pc) in
  if is_blend_cache (blend_stage rm) then
    let chunks := (λ c, set_vllm_blk_ids (py_slice vllm_block_ids (start_blk_idx c) (end_blk_idx c)) c) <$>
                    chunks_meta rm in
    (set_chunks_meta chunks rm,
     BlendDispatch (DispatchMeta
       (load.1 ++ concat (hits_chunk_blks_hash <$> chunks), load.2 ++ concat (hits_vllm_blk_ids <$> chunks))
       ([], [])) chunks)
  else
    (rm, BlendDispatch (DispatchMeta load
       (py_from (ucm_block_hashs rm) pc, py_slice vllm_block_ids pc (zlen (ucm_block_hashs rm))))
       (chunks_meta rm)).

Definition b_dispatch_request (so : h_scheduler_output) (req_id : string) (blocks : res (list Z))
    (disp : UCMBlendConnectorMetadata) : BM UCMBlendConnectorMetadata :=
  metas ← getb requests_blend_meta;
  match dict_get req_id metas with
  | None => mret disp
  | Some rm =>
      _ ← of_res (dict_index req_id (hso_num_scheduled_tokens so));
      vllm_block_ids ← of_res blocks;
      let '(rm', d) := _generate_blend_dispatch_meta rm vllm_block_ids in
      updb (λ c, set_blend_meta (dict_set req_id rm' (requests_blend_meta c)) c) ;;
      mret (dict_set req_id d disp)
  end.

(** [new_block_ids[i][0]]; [None] is not subscriptable. *)
Definition b_cached_blocks (new_block_ids : list (option (list (list Z)))) (i : Z) : res (list Z) :=
  b ← py_index new_block_ids i;
  match b with
  | Some b => py_index b 0
  | None => Raise (TypeError "'NoneType' object is not subscriptable")
  end.

(** A request scheduled before; one scheduled for a single token is decoding. *)
Definition b_dispatch_resumed (so : h_scheduler_output) (req_id : string) (blocks : res (list Z))
    (disp : UCMBlendConnectorMetadata) : BM UCMBlendConnectorMetadata :=
  n ← of_res (dict_index req_id (hso_num_scheduled_tokens so));
  if n =? 1 then mret disp else b_dispatch_request so req_id blocks disp.

Definition b_dispatch_cached (so : h_scheduler_output) (disp : UCMBlendConnectorMetadata) :
    BM UCMBlendConnectorMetadata :=
  match hso_cached_reqs so with
  | HCachedData req_ids new_block_ids _ =>
      for_fold (zip (seqZ 0 (zlen req_ids)) req_ids) disp (λ disp x,
        b_dispatch_resumed so x.2 (b_cached_blocks new_block_ids x.1) disp)
  | HCachedList l =>
      for_fold l disp (λ disp x, b_dispatch_resumed so x.1.1 (py_index x.1.2 0) disp)
  end.

(** Finished requests are removed from the metadata of the base class. *)
Definition build_connector_meta (so : h_scheduler_output) : BM UCMBlendConnectorMetadata :=
  disp ← for_fold (hso_new_reqs so) [] (λ disp x,
    vllm_block_ids ← of_res (py_index x.2 0);
    b_dispatch_request so x.1 (Ok vllm_block_ids) disp);
  disp ← b_dispatch_cached so disp;
  on_bbase (updc (λ c, set_requests_meta
    (filter (λ kv, kv.1 ∉ hso_finished_req_ids so) (requests_meta c)) c)) ;;
  mret disp.

(** ** Positions of the loaded keys *)

Section rope.
  (** [torch.tensor(l, device=self.device)] and the Triton kernel that shifts
      the positions of some blocks of a layer's keys. *)
  Variable torch_tensor : list Z → option device → M W (list Z).
  Variable block_wise_rope_forward : string → list Z → list Z → M W unit.
  Variable layers : list string.

Definition rope_shifts (metadata : UCMBlendConnectorMetadata) : list Z * list Z :=
  let chunks := concat ((λ x, bd_chunks_meta x.2) <$> metadata) in
  (concat (hits_vllm_blk_ids <$> chunks),
   concat ((λ c, replicate (length (hits_vllm_blk_ids c)) (position_offset c)) <$> chunks)).

Definition bind_connector_metadata (metadata : UCMBlendConnectorMetadata) : BM unit :=
  on_bbase (DirectWorker.bind_connector_metadata
    (ConnMetadata ((λ x, (x.1, bd_dispatch x.2)) <$> metadata) ∅)) ;;
  let '(ids, positions) := rope_shifts metadata in
  match ids with
  | [] => mret tt
  | _ =>
      d ← getb (λ c, dev (bbase c));
      ids ← on_bbase (on_w (torch_tensor ids d));
      positions ← on_bbase (on_w (torch_tensor positions d));
      updb (set_delta_rope (Some (ids, positions)))
  end.

Definition clear_connector_metadata : BM unit :=
  on_bbase DirectWorker.clear_connector_metadata ;;
  updb (set_delta_rope None).

(** [setup_model]; the rotary cache of the model may be missing. *)
Definition setup_model (has_rotary : bool) : BM unit :=
  if has_rotary then updb (set_cos_sin true)
  else raise (TypeError "exceptions must derive from BaseException").

Definition _post_process_chunk_cache (layer_name : string) (ids positions : list Z) : BM unit :=
  ready ← getb cos_sin_cache;
  if negb ready then raise (TypeError "exceptions must derive from BaseException")
  else on_bbase (on_w (block_wise_rope_forward layer_name ids positions)).

Definition wait_for_layer_load (layer_name : string) : BM unit :=
  d ← getb delta_rope;
  match d with
  | None => mret tt
  | Some (ids, positions) =>
      if decide (layer_name ∈ layers) then _post_process_chunk_cache layer_name ids positions
      else raise KeyError
  end.

End rope.
End blend.
