(* ===== verification/BlendProps.v ===== *)
(** * What the blend connector guarantees

    How a prompt is split into chunks, what a blended request loads and how far
    the positions of the loaded keys are shifted. *)
From S2P Require Import Prelude Runtime RankConsistency PyHash Hashing KVLayout Direct DirectWorker Hla Blend Sim.
Open Scope Z_scope.

(** ** Splitting *)

(** The chunks follow each other, from block [b] to block [e]. *)
Fixpoint consecutive (b : Z) (cs : list ChunkMetaData) (e : Z) : Prop :=
  match cs with
  | [] => b = e
  | c :: cs => start_blk_idx c = b ∧ consecutive (end_blk_idx c) cs e
  end.

Lemma consecutive_snoc b cs e c :
  consecutive b cs (start_blk_idx c) → e = end_blk_idx c → consecutive b (cs ++ [c]) e.
Proof.
  revert b. induction cs as [|c' cs IH]; intros b; simpl; [by intros -> ->|].
  intros [-> Hc] He. split; [done|]. by apply IH.
Qed.

Section split.
  Context `{PyHash}.
  Variable bcf : blend_conf.
  Variable l : list Z.
Let bs : Z := cf_block_size (b_cf bcf).
Let t : Z := chunk_end_token_id bcf.
  Hypothesis Hbs : 0 < bs.

(** The last token of block [j]. *)
Definition block_end (j : Z) : option Z := l !! Z.to_nat (j * bs + (bs - 1)).

(** A chunk found in the prompt: whole blocks, the last of them and no other
    ending with the chunk end token, hashed on their own. *)
Record chunk_ok (c : ChunkMetaData) : Prop := {
  ck_pos : 0 ≤ start_blk_idx c ∧ 0 < chunk_blks_len c;
  ck_tok : start_token_dix c = start_blk_idx c * bs ∧ chunk_tokens_len c = chunk_blks_len c * bs;
  ck_inside : end_token_dix c ≤ zlen l;
  ck_fresh : cached_start_position c = 0 ∧ vllm_blk_ids c = [] ∧ store_hits c = [];
  ck_hash : chunk_blks_hash c = hash_chunk bcf (py_slice l (start_token_dix c) (end_token_dix c));
  ck_end : block_end (end_blk_idx c - 1) = Some t;
  ck_inner : ∀ j, start_blk_idx c ≤ j < end_blk_idx c - 1 → block_end j ≠ Some t;
}.

(** What the loop has done after [k] blocks. *)
Record split_ok (k : Z) (acc : split_acc) : Prop := {
  so_range : 0 ≤ sp_start_blk acc ≤ k ∧ sp_start_tok acc = sp_start_blk acc * bs;
  so_tiled : consecutive 0 (sp_chunks acc) (sp_start_blk acc);
  so_chunks : Forall chunk_ok (sp_chunks acc);
  so_hashes : sp_hashes acc = concat (chunk_blks_hash <$> sp_chunks acc);
  so_rest : ∀ j, sp_start_blk acc ≤ j < k → block_end j ≠ Some t;
}.

Lemma split_step_ok k acc :
  0 ≤ k < zlen l / bs → split_ok k acc →
  ∃ acc', split_step bcf l acc (k, bs - 1 + k * bs) = Ok acc' ∧ split_ok (k + 1) acc'.
Proof.
  intros Hk [[Hr Ht] Htl Hc Hh Hrest]. pose proof (div_ceil_lt _ _ _ Hbs (proj2 Hk)) as Hend.
  destruct (py_index_in l (bs - 1 + k * bs)) as (x & Hx & Hlx); [nia|].
  assert (Hbe : block_end k = Some x) by (unfold block_end; by replace (k * bs + (bs - 1)) with (bs - 1 + k * bs) by lia).
  unfold split_step. rewrite -> Hx. cbn [mbind res_bind]. fold t bs.
  destruct (Z.eqb_spec x t) as [->|Hne]; cbn [negb].
  - eexists. split; [done|]. set (c := ChunkMeta _ _ _ _ _ _ _ _).
    assert (He : end_blk_idx c = k + 1) by (unfold end_blk_idx, c; cbn; lia).
    assert (Het : end_token_dix c = bs - 1 + k * bs + 1) by (unfold end_token_dix, c; cbn; rewrite -> Ht; lia).
    split; cbn [sp_start_blk sp_start_tok sp_chunks sp_hashes].
    + lia.
    + apply consecutive_snoc; [exact Htl|by rewrite -> He].
    + apply Forall_app. split; [done|]. apply Forall_singleton. split; try done.
      * unfold c; cbn. lia.
      * rewrite -> Het. lia.
      * rewrite -> Het. done.
      * rewrite -> He. by replace (k + 1 - 1) with k by lia.
      * rewrite -> He. intros j Hj. apply Hrest. unfold c in Hj; cbn in Hj. lia.
    + rewrite -> Hh, fmap_app, concat_app. cbn. by rewrite -> app_nil_r.
    + intros j Hj. lia.
  - exists acc. split; [done|]. split; try done; [lia|].
    intros j Hj. destruct (decide (j = k)) as [->|]; [rewrite -> Hbe; congruence|apply Hrest; lia].
Qed.

Lemma split_loop n : ∀ k acc, 0 ≤ k → k + Z.of_nat n ≤ zlen l / bs → split_ok k acc →
  ∃ acc', fold_res (split_step bcf l) acc ((λ j, (j, bs - 1 + j * bs)) <$> seqZ k (Z.of_nat n)) = Ok acc' ∧
    split_ok (k + Z.of_nat n) acc'.
Proof.
  induction n as [|n IH]; intros k acc Hk Hn Hacc.
  - exists acc. split; [done|]. by rewrite -> Z.add_0_r.
  - rewrite -> seqZ_cons by lia. replace (Z.pred (Z.of_nat (S n))) with (Z.of_nat n) by lia. cbn [fmap list_fmap fold_res].
    destruct (split_step_ok k acc ltac:(lia) Hacc) as (acc1 & Hrun & Hacc1). rewrite -> Hrun. cbn [mbind res_bind].
    destruct (IH (Z.succ k) acc1) as (acc' & Hrun' & Hacc'); [lia|lia|by rewrite -> Z.add_1_r in Hacc1|].
    exists acc'. split; [done|]. by replace (k + Z.of_nat (S n)) with (Z.succ k + Z.of_nat n) by lia.
Qed.

Lemma block_ends_eq n :
  0 ≤ n → block_ends bcf n = (λ j, (j, bs - 1 + j * bs)) <$> seqZ 0 (n / bs).
Proof.
  intros Hn. unfold block_ends, py_range_step. fold bs.
  replace (n - (bs - 1) + bs - 1) with n by lia.
  assert (0 ≤ n / bs) by (apply Z.div_pos; lia).
  replace (zlen ((λ k, bs - 1 + k * bs) <$> seqZ 0 (n / bs))) with (n / bs).
  { generalize (seqZ 0 (n / bs)). induction l0 as [|x l' IH]; [done|]. csimpl. by rewrite -> IH. }
  unfold zlen. rewrite -> length_fmap, length_seqZ. lia.
Qed.

Lemma split_all :
  ∃ acc, fold_res (split_step bcf l) (SplitAcc 0 0 [] []) (block_ends bcf (zlen l)) = Ok acc ∧
    split_ok (zlen l / bs) acc.
Proof.
  assert (0 ≤ zlen l / bs) by (apply Z.div_pos; [apply zlen_nonneg|done]).
  rewrite -> block_ends_eq by apply zlen_nonneg. rewrite <- (Z2Nat.id (zlen l / bs)) by done.
  apply (split_loop (Z.to_nat (zlen l / bs)) 0 (SplitAcc 0 0 [] [])); [lia|lia|].
  split; cbn; try done; lia.
Qed.

Lemma chunk_hash_zlen c : chunk_ok c → zlen (chunk_blks_hash c) = chunk_blks_len c.
Proof.
  intros [Hp [Ht Hn] Hin _ -> _ _]. unfold hash_chunk. fold bs. rewrite -> generate_hash_zlen by done.
  unfold end_token_dix in *. rewrite -> py_slice_length; [|nia|done].
  replace (start_token_dix c + chunk_tokens_len c - start_token_dix c) with (chunk_blks_len c * bs) by lia.
  apply Z.div_mul. lia.
Qed.

Lemma chunks_hash_zlen cs : ∀ b e, Forall chunk_ok cs → consecutive b cs e →
  zlen (concat (chunk_blks_hash <$> cs)) = e - b.
Proof.
  induction cs as [|c cs IH]; intros b e Hc Htl; csimpl.
  - simpl in Htl. unfold zlen. simpl. lia.
  - apply Forall_cons in Hc as [Hc Hcs]. destruct Htl as [<- Htl]. rewrite -> zlen_app, (IH _ e) by done.
    rewrite -> chunk_hash_zlen by done. unfold end_blk_idx. lia.
Qed.

Lemma process_req_spec : l ≠ [] →
  ∃ last acc, py_index l (-1) = Ok last ∧ split_ok (zlen l / bs) acc ∧
    _process_req bcf l = Ok (
      if (last =? t) && (zlen l mod bs =? 0) then (BUILD_CHUNK_CACHE, hash_chunk bcf l, [], [])
      else (match sp_chunks acc with [] => BUILD_PREFIX_CACHE | _ => CACHE_BLEND end,
            hash_chunk bcf l, sp_chunks acc, sp_hashes acc)).
Proof.
  intros Hl. destruct split_all as (acc & Hrun & Hacc). unfold _process_req. fold bs t.
  destruct (py_index l (-1)) as [last|e] eqn:Hlast; cycle 1.
  { exfalso. unfold py_index in Hlast. destruct l as [|x l']; [done|]. rewrite -> zlen_cons in Hlast. cbn [Z.ltb Z.compare] in Hlast.
    pose proof (zlen_nonneg l'). rewrite -> (proj2 (Z.ltb_ge _ _)) in Hlast by lia.
    destruct (lookup_lt_is_Some_2 (x :: l') (Z.to_nat (-1 + (1 + zlen l')))) as [y Hy]; [unfold zlen; cbn [length]; lia|].
    by rewrite -> Hy in Hlast. }
  exists last, acc. split; [done|]. split; [done|]. cbn [mbind res_bind].
  destruct ((last =? t) && (zlen l mod bs =? 0)); [done|]. rewrite -> Hrun. done.
Qed.

End split.

(** A prompt is split into its chunks: they follow each other from its start,
    each ends at a block whose last token is the chunk end token and has no such
    block inside, and no full block after the last one ends a chunk; the
    identifiers of a chunk depend only on its own tokens.  A prompt of whole
    blocks that ends with the token is one chunk to build, one without chunks
    builds a prefix. *)
Theorem blend_chunks_split `{PyHash} bcf l :
  let bs := cf_block_size (b_cf bcf) in
  0 < bs → l ≠ [] →
  ∃ last stage chunks hashes, py_index l (-1) = Ok last ∧
    _process_req bcf l = Ok (stage, hash_chunk bcf l, chunks, hashes) ∧
    (stage = BUILD_CHUNK_CACHE ↔ last = chunk_end_token_id bcf ∧ zlen l mod bs = 0) ∧
    (stage = BUILD_CHUNK_CACHE → chunks = []) ∧
    (stage ≠ BUILD_CHUNK_CACHE → (stage = CACHE_BLEND ↔ chunks ≠ []) ∧
       ∃ e, 0 ≤ e ≤ zlen l / bs ∧ consecutive 0 chunks e ∧ Forall (chunk_ok bcf l) chunks ∧
         hashes = concat (chunk_blks_hash <$> chunks) ∧ zlen hashes = e ∧
         ∀ j, e ≤ j < zlen l / bs → block_end bcf l j ≠ Some (chunk_end_token_id bcf)).
Proof.
  intros bs Hbs Hl. destruct (process_req_spec bcf l Hbs Hl) as (last & acc & Hlast & [Hr Ht Hc Hh Hrest] & Hrun).
  rewrite -> Hrun. fold bs in Hr, Hrest |- *. clear Hrun.
  destruct (Z.eqb_spec last (chunk_end_token_id bcf)) as [->|Hne]; [destruct (Z.eqb_spec (zlen l mod bs) 0) as [->|Hm]|].
  1: by eexists _, _, _, _.
  all: eexists _, _, _, _; split; [done|]; cbn [andb]; split; [reflexivity|].
  all: split; [by destruct (sp_chunks acc); naive_solver|]; split; [by destruct (sp_chunks acc)|].
  all: intros _; split; [by destruct (sp_chunks acc)|].
  all: exists (sp_start_blk acc); split; [lia|]; split; [done|]; split; [done|]; split; [done|]; split; [|done].
  all: rewrite -> Hh; pose proof (chunks_hash_zlen bcf l Hbs _ 0 _ Hc Ht); lia.
Qed.

(** ** Hits and plans *)

Lemma compress_app {A} (a b : list A) (s t : list bool) :
  length a = length s → compress (a ++ b) (s ++ t) = compress a s ++ compress b t.
Proof. intros Hl. unfold compress. rewrite -> zip_with_app by done. by rewrite -> filter_app, fmap_app. Qed.

Lemma compress_all {A} (a : list A) (s : list bool) :
  length a = length s → Forall (λ b, b = true) s → compress a s = a.
Proof.
  intros Hl Hs. revert a Hl. induction Hs as [|b s -> Hs IH]; intros [|x a] Hl; try done.
  injection Hl as Hl. unfold compress in *. cbn [zip zip_with]. rewrite -> filter_cons_True by done. csimpl. by f_equal; apply IH.
Qed.

Lemma compress_replicate {A B} (v : list A) (x : B) (s : list bool) :
  length v = length s → compress (replicate (length s) x) s = replicate (length (compress v s)) x.
Proof.
  revert v. induction s as [|b s IH]; intros [|y v] Hl; try done. injection Hl as Hl. specialize (IH v Hl).
  unfold compress in *. cbn [length replicate zip zip_with]. rewrite -> !filter_cons. cbn [snd].
  destruct (decide (b = true)); csimpl; by rewrite -> IH.
Qed.

Lemma leading_hits_spec (s : list bool) :
  0 ≤ leading_hits s ≤ zlen s ∧ Forall (λ b, b = true) (take (Z.to_nat (leading_hits s)) s).
Proof.
  induction s as [|[] s [Hb Hf]]; cbn [leading_hits].
  - split; [done|constructor].
  - rewrite -> zlen_cons. split; [lia|]. rewrite -> Z.add_1_l, Z2Nat.inj_succ by lia. by constructor.
  - split; [pose proof (zlen_nonneg s); rewrite -> zlen_cons; lia|constructor].
Qed.

(** What the planned chunks rely on, for the blocks from [b] to [e]: [H] are the
    identifiers and [R] the hits of all the blocks. *)
Definition filed (H : list bytes) (R : list bool) (c : ChunkMetaData) : Prop :=
  0 ≤ start_blk_idx c ∧ 0 ≤ chunk_blks_len c ∧
  chunk_blks_hash c = py_slice H (start_blk_idx c) (end_blk_idx c) ∧
  store_hits c = py_slice R (start_blk_idx c) (end_blk_idx c).

Lemma consecutive_le cs : ∀ b e, Forall (λ c, 0 ≤ chunk_blks_len c) cs → consecutive b cs e → b ≤ e.
Proof.
  induction cs as [|c cs IH]; intros b e Hc Ht; simpl in Ht; [lia|].
  apply Forall_cons in Hc as [Hc Hcs]. destruct Ht as [<- Ht]. apply IH in Ht; [|done]. unfold end_blk_idx in Ht. lia.
Qed.

Lemma filed_blks H R cs : Forall (filed H R) cs → Forall (λ c, 0 ≤ chunk_blks_len c) cs.
Proof. intros Hf. eapply Forall_impl; [exact Hf|]. by intros c (_ & ? & _). Qed.

(** Compressing chunk by chunk is compressing the whole range. *)
Lemma compress_chunks {A} (F : list A) H R cs : ∀ b e,
  0 ≤ b → e ≤ zlen F → e ≤ zlen R → Forall (filed H R) cs → consecutive b cs e →
  concat ((λ c, compress (py_slice F (start_blk_idx c) (end_blk_idx c)) (store_hits c)) <$> cs) =
  compress (py_slice F b e) (py_slice R b e).
Proof.
  induction cs as [|c cs IH]; intros b e Hb HF HR Hf Ht.
  - simpl in Ht. subst e. by rewrite -> !py_slice_empty by lia.
  - pose proof Hf as Hf0. apply Forall_cons in Hf as [(Hs & Hn & _ & Hhit) Hf]. destruct Ht as [<- Ht].
    assert (end_blk_idx c ≤ e) by (apply (consecutive_le cs); [by eapply filed_blks|done]).
    assert (start_blk_idx c ≤ end_blk_idx c) by (unfold end_blk_idx; lia).
    csimpl. rewrite -> (IH (end_blk_idx c) e) by (done || lia). rewrite -> Hhit.
    rewrite <- (py_slice_app F (start_blk_idx c) (end_blk_idx c) e), <- (py_slice_app R (start_blk_idx c) (end_blk_idx c) e) by lia.
    rewrite -> compress_app; [done|]. apply Nat2Z.inj. change (zlen (py_slice F (start_blk_idx c) (end_blk_idx c)) =
      zlen (py_slice R (start_blk_idx c) (end_blk_idx c))). by rewrite -> !py_slice_length by lia.
Qed.

(** The shift of every block of the chunks. *)
Definition shifts (cs : list ChunkMetaData) : list Z :=
  concat ((λ c, replicate (Z.to_nat (chunk_blks_len c)) (position_offset c)) <$> cs).

Lemma compress_shifts H R cs (v : list Z) : ∀ b e,
  0 ≤ b → e ≤ zlen v → e ≤ zlen R → Forall (filed H R) cs → consecutive b cs e →
  concat ((λ c, replicate (length (compress (py_slice v (start_blk_idx c) (end_blk_idx c)) (store_hits c)))
                  (position_offset c)) <$> cs : list (list Z)) =
  compress (shifts cs) (py_slice R b e).
Proof.
  induction cs as [|c cs IH]; intros b e Hb HF HR Hf Ht.
  - simpl in Ht. subst e. by rewrite -> !py_slice_empty by lia.
  - apply Forall_cons in Hf as [(Hs & Hn & _ & Hhit) Hf]. destruct Ht as [<- Ht].
    assert (end_blk_idx c ≤ e) by (apply (consecutive_le cs); [by eapply filed_blks|done]).
    assert (start_blk_idx c ≤ end_blk_idx c) by (unfold end_blk_idx; lia).
    assert (Hlen : ∀ (B : Type) (F : list B), e ≤ zlen F →
      length (py_slice F (start_blk_idx c) (end_blk_idx c)) = Z.to_nat (chunk_blks_len c)).
    { intros B F HeF. apply Nat2Z.inj. change (zlen (py_slice F (start_blk_idx c) (end_blk_idx c)) = Z.of_nat (Z.to_nat (chunk_blks_len c))).
      rewrite -> py_slice_length by lia. unfold end_blk_idx. lia. }
    unfold shifts. csimpl. change (concat ((λ c, replicate (Z.to_nat (chunk_blks_len c)) (position_offset c)) <$> cs)) with (shifts cs).
    rewrite -> (IH (end_blk_idx c) e) by (done || lia). rewrite -> Hhit.
    rewrite <- (py_slice_app R (start_blk_idx c) (end_blk_idx c) e) by lia.
    rewrite -> compress_app by (rewrite -> length_replicate, Hlen; done).
    f_equal. rewrite <- (compress_replicate (py_slice v (start_blk_idx c) (end_blk_idx c))) by (rewrite -> !Hlen; done).
    by rewrite -> Hlen.
Qed.

Section plan.
  Context `{PyHash}.
  Variable bcf : blend_conf.
  Variable l : list Z.
Let bs : Z := cf_block_size (b_cf bcf).
  Hypothesis Hbs : 0 < bs.

(** The identifiers of the chunks are slices of all the identifiers. *)
Lemma chunks_filed R cs : ∀ pre e,
  Forall (chunk_ok bcf l) cs → consecutive (zlen pre) cs e →
  Forall (filed (pre ++ concat (chunk_blks_hash <$> cs)) R)
    ((λ c, set_store_hits (py_slice R (start_blk_idx c) (end_blk_idx c)) c) <$> cs).
Proof.
  induction cs as [|c cs IH]; intros pre e Hc Ht; csimpl; [constructor|].
  apply Forall_cons in Hc as [Hc Hcs]. destruct Ht as [Hst Ht].
  pose proof (chunk_hash_zlen bcf l Hbs c Hc) as Hlen. pose proof (ck_pos _ _ _ Hc) as Hp.
  pose proof (zlen_nonneg pre). constructor.
  - split; [cbn; lia|]. split; [cbn; lia|]. split; [|done]. cbn [chunk_blks_hash set_store_hits start_blk_idx].
    change (end_blk_idx (set_store_hits (py_slice R (start_blk_idx c) (end_blk_idx c)) c)) with (end_blk_idx c).
    rewrite -> py_slice_pos by (unfold end_blk_idx; lia). rewrite -> Hst. rewrite -> drop_app_length' by (unfold zlen; lia).
    symmetry. apply take_app_length'. unfold end_blk_idx, zlen in *. lia.
  - rewrite -> app_assoc. apply (IH _ e); [done|]. rewrite -> zlen_app, Hlen, <- Hst. exact Ht.
Qed.

(** What [assign_hits] leaves: the chunks past the prefix hits. *)
Lemma assign_hits_spec pc R c0 rest e :
  Forall (chunk_ok bcf l) (c0 :: rest) → consecutive 0 (c0 :: rest) e → 0 ≤ pc ≤ chunk_blks_len c0 →
  ∃ cs, assign_hits bcf pc R (c0 :: rest) = Ok cs ∧ consecutive pc cs e ∧
    Forall (filed (concat (chunk_blks_hash <$> c0 :: rest)) R) cs ∧
    shifts cs = py_from (shifts (c0 :: rest)) pc.
Proof.
  intros Hc Ht Hpc. pose proof (chunks_filed R _ [] e Hc Ht) as Hf. cbn [app] in Hf.
  apply Forall_cons in Hc as [Hc Hcs]. destruct Ht as [Hst Ht]. set (H0 := concat _) in *.
  pose proof (chunk_hash_zlen bcf l Hbs c0 Hc) as Hlen. destruct (ck_tok _ _ _ Hc) as [_ Htok]. fold bs in Htok.
  pose proof (ck_pos _ _ _ Hc) as Hp. csimpl in Hf. apply Forall_cons in Hf as [(_ & _ & Hhash & Hhits) Hf].
  set (sh := λ c, set_store_hits (py_slice R (start_blk_idx c) (end_blk_idx c)) c) in *.
  assert (Hrest : ∀ b cs, consecutive b (sh <$> cs) e ↔ consecutive b cs e).
  { intros b cs. revert b. induction cs as [|c cs IH]; intros b; csimpl; [done|]. by rewrite -> IH. }
  assert (Hsh : ∀ cs, shifts (sh <$> cs) = shifts cs).
  { intros cs. unfold shifts. rewrite <- list_fmap_compose. done. }
  unfold assign_hits. change ((λ c, set_store_hits (py_slice R (start_blk_idx c) (end_blk_idx c)) c) <$> c0 :: rest)
    with (sh c0 :: (sh <$> rest)). cbn beta iota. fold bs.
  set (f := update_meta_partial_pc pc bs (sh c0)).
  assert (Hf0 : start_blk_idx f = pc ∧ end_blk_idx f = end_blk_idx c0 ∧ chunk_tokens_len f = (chunk_blks_len c0 - pc) * bs ∧
    chunk_blks_len f = chunk_blks_len c0 - pc ∧ position_offset f = position_offset c0 ∧
    chunk_blks_hash f = py_from (chunk_blks_hash c0) pc ∧ store_hits f = py_from (store_hits (sh c0)) pc).
  { unfold f, update_meta_partial_pc, end_blk_idx, position_offset. destruct (Z.ltb_spec 0 pc); cbn.
    - by repeat split; lia.
    - assert (pc = 0) as -> by lia. rewrite -> !py_from_pos, !drop_0, Htok by lia. by repeat split; lia. }
  destruct Hf0 as (Hfs & Hfe & Hft & Hfn & Hfo & Hfh & Hfr).
  assert (Hsl : ∀ A (F : list A), py_from (py_slice F 0 (end_blk_idx c0)) pc = py_slice F pc (end_blk_idx c0)).
  { intros A F. unfold end_blk_idx. rewrite -> py_from_pos, !py_slice_pos by lia. rewrite -> Z.sub_0_r, drop_0.
    rewrite -> skipn_firstn_comm. f_equal. lia. }
  assert (Hpos : shifts (c0 :: rest) = replicate (Z.to_nat (chunk_blks_len c0)) (position_offset c0) ++ shifts rest) by done.
  eexists. split; [reflexivity|]. rewrite -> Hft. destruct (Z.eqb_spec ((chunk_blks_len c0 - pc) * bs) 0) as [Hz|Hz].
  - assert (pc = chunk_blks_len c0) as -> by nia. rewrite -> Hrest, Hsh, Hpos, py_from_pos by lia.
    split; [|split]; [|done|by rewrite -> drop_app_length' by (rewrite -> length_replicate; done)].
    unfold end_blk_idx in Ht. by rewrite -> Hst, Z.add_0_l in Ht.
  - split; [split; [done|]; rewrite -> Hrest, Hfe; exact Ht|]. split.
    + constructor; [|done]. split; [lia|]. split; [lia|].
      change (chunk_blks_hash c0 = py_slice H0 (start_blk_idx c0) (end_blk_idx c0)) in Hhash.
      change (store_hits (sh c0)) with (py_slice R (start_blk_idx c0) (end_blk_idx c0)) in Hfr.
      rewrite -> Hst in Hhash, Hfr. by rewrite -> Hfh, Hfr, Hfs, Hfe, Hhash, !Hsl.
    + unfold shifts at 1. csimpl. change (concat _) with (shifts (sh <$> rest)). rewrite -> Hsh, Hpos, Hfo, Hfn, py_from_pos by lia.
      rewrite -> drop_app_le by (rewrite -> length_replicate; lia). rewrite -> drop_replicate. do 2 f_equal. lia.
Qed.

End plan.

Lemma compress_zip {A} (v : list A) (s : list bool) :
  compress v s = compress (py_slice v 0 (zlen s)) s.
Proof.
  rewrite -> py_slice_pos by (try apply zlen_nonneg; lia). rewrite -> Z.sub_0_r, drop_0. unfold zlen. rewrite -> Nat2Z.id.
  revert v. induction s as [|b s IH]; intros [|x v]; try done. unfold compress in *. cbn [length take zip zip_with].
  rewrite -> !filter_cons. cbn [snd]. destruct (decide (b = true)); csimpl; by rewrite -> IH.
Qed.

Lemma process_chunk_hashes `{PyHash} bcf l c (pc : Z) :
  let bs := cf_block_size (b_cf bcf) in
  0 < bs → chunk_ok bcf l c → start_blk_idx c = 0 → 0 ≤ pc ≤ chunk_blks_len c →
  take (Z.to_nat pc) (chunk_blks_hash c) = take (Z.to_nat pc) (hash_chunk bcf l).
Proof.
  intros bs Hbs [Hp [Ht Hn] Hin _ -> _ _] H0 Hpc. rewrite -> Ht, H0 in *. fold bs in Ht, Hn |- *.
  unfold end_token_dix in *. rewrite -> Ht in *. rewrite -> py_slice_pos by nia. rewrite -> Z.sub_0_r, drop_0, Z.mul_0_l, Z.add_0_l in *.
  unfold hash_chunk. rewrite <- (generate_hash_take _ _ l) by first [done|nia|by exists (chunk_blks_len c)].
  fold bs. rewrite -> Hn, Z.div_mul by lia. rewrite -> take_take. f_equal. lia.
Qed.

(** A blended prompt is not covered by its prefix hits. *)
Lemma blend_prefix_short `{PyHash} bcf l prefix c0 rest hashes pc e :
  let bs := cf_block_size (b_cf bcf) in
  0 < bs → _process_req bcf l = Ok (CACHE_BLEND, prefix, c0 :: rest, hashes) →
  consecutive 0 (c0 :: rest) e → chunk_ok bcf l c0 → pc ≤ chunk_blks_len c0 → pc * bs ≠ zlen l.
Proof.
  intros bs Hbs Hproc [H0 _] [Hp [Ht Hn] Hin _ _ Hend _] Hpc Heq. fold bs in Ht, Hn.
  unfold end_token_dix in Hin. rewrite -> Ht, Hn, H0 in Hin. assert (pc = chunk_blks_len c0) as ->.
  { apply Z.le_antisymm; [done|]. apply (Z.mul_le_mono_pos_r _ _ bs Hbs). rewrite -> Heq. lia. }
  destruct l as [|x l0]; [unfold zlen in Heq; cbn [length] in Heq; nia|]. destruct (process_req_spec bcf (x :: l0) Hbs ltac:(done)) as (last & acc & Hlast & _ & Hrun).
  rewrite -> Hproc in Hrun. fold bs in Hrun. rewrite <- Heq, Z.mod_mul in Hrun by lia.
  assert (Hl : last = chunk_end_token_id bcf); [|subst last; rewrite -> Z.eqb_refl in Hrun; cbn in Hrun; congruence].
  unfold block_end in Hend. unfold end_blk_idx in Hend. rewrite -> H0 in Hend. fold bs in Hend.
  replace ((0 + chunk_blks_len c0 - 1) * bs + (bs - 1)) with (zlen (x :: l0) - 1) in Hend by lia.
  unfold py_index in Hlast. cbn [Z.ltb Z.compare] in Hlast. rewrite -> (proj2 (Z.ltb_ge _ _)) in Hlast by (unfold zlen; cbn [length]; lia).
  replace (-1 + zlen (x :: l0)) with (zlen (x :: l0) - 1) in Hlast by lia. rewrite -> Hend in Hlast. congruence.
Qed.

(** A blended prompt, split. *)
Lemma blend_split_facts `{PyHash} bcf l prefix c0 rest hashes :
  let bs := cf_block_size (b_cf bcf) in
  0 < bs → l ≠ [] → _process_req bcf l = Ok (CACHE_BLEND, prefix, c0 :: rest, hashes) →
  ∃ e, 0 ≤ e ≤ zlen l / bs ∧ consecutive 0 (c0 :: rest) e ∧ Forall (chunk_ok bcf l) (c0 :: rest) ∧
    prefix = hash_chunk bcf l ∧ hashes = concat (chunk_blks_hash <$> c0 :: rest) ∧ zlen hashes = e ∧
    zlen l / bs ≠ 0.
Proof.
  intros bs Hbs Hl Hproc. destruct (process_req_spec bcf l Hbs Hl) as (last & acc & _ & [ [Hr _] Ht Hc Hh _] & Hrun).
  rewrite -> Hproc in Hrun. destruct (_ && _); [done|]. injection Hrun as _ -> Hcs ->. rewrite <- Hcs in Hc, Ht, Hh.
  exists (sp_start_blk acc). split; [done|]. split; [done|]. split; [done|]. split; [done|]. split; [done|].
  split; [rewrite -> Hh; pose proof (chunks_hash_zlen bcf l Hbs _ 0 _ Hc Ht); lia|].
  apply Forall_cons in Hc as [[Hp _ _ _ _ _ _] Hc']. destruct Ht as [H0 Ht].
  assert (end_blk_idx c0 ≤ sp_start_blk acc).
  { apply (consecutive_le rest); [|done]. eapply Forall_impl; [exact Hc'|]. intros c [[_ ?] _ _ _ _ _ _]. lia. }
  unfold end_blk_idx in *. fold bs in Hr. lia.
Qed.

(** The plan of filed chunks. *)
Lemma blended_plan H R pc cs v id :
  consecutive pc cs (zlen R) → Forall (filed H R) cs → zlen H = zlen R → zlen R ≤ zlen v →
  0 ≤ pc ≤ zlen R → Forall (λ b, b = true) (take (Z.to_nat pc) R) →
  ∃ rm' d, _generate_blend_dispatch_meta (BlendReq H pc cs CACHE_BLEND) v = (rm', d) ∧
    load_block_ids (bd_dispatch d) = (compress H R, compress v R) ∧ dump_block_ids (bd_dispatch d) = ([], []) ∧
    rope_shifts [(id, d)] = (compress (py_from v pc) (py_from R pc), compress (shifts cs) (py_from R pc)).
Proof.
  intros Ht Hf HHR Hv Hpc Htrue. eexists _, _. split; [reflexivity|].
  cbn [bd_dispatch load_block_ids dump_block_ids ucm_block_hashs pc_hit_block_num chunks_meta fst snd].
  set (cs' := (λ c, set_vllm_blk_ids (py_slice v (start_blk_idx c) (end_blk_idx c)) c) <$> cs).
  assert (Hupto : ∀ A (F : list A), py_upto F pc = py_slice F 0 pc).
  { intros A F. rewrite -> py_upto_pos, py_slice_pos by lia. by rewrite -> Z.sub_0_r, drop_0. }
  assert (Hsplit : ∀ A (F : list A), zlen R ≤ zlen F →
    compress F R = py_slice F 0 pc ++ compress (py_slice F pc (zlen R)) (py_slice R pc (zlen R))).
  { intros A F HF. rewrite -> compress_zip. rewrite <- (py_slice_full R) at 2.
    rewrite <- (py_slice_app F 0 pc), <- (py_slice_app R 0 pc) by lia.
    assert (Hl : length (py_slice F 0 pc) = length (py_slice R 0 pc)).
    { apply Nat2Z.inj. change (zlen (py_slice F 0 pc) = zlen (py_slice R 0 pc)). by rewrite -> !py_slice_length by lia. }
    rewrite -> compress_app by done. rewrite -> (compress_all (py_slice F 0 pc)); [done|done|].
    rewrite -> py_slice_pos by lia. by rewrite -> Z.sub_0_r, drop_0. }
  assert (Hhash : hits_chunk_blks_hash <$> cs' = (λ c, compress (py_slice H (start_blk_idx c) (end_blk_idx c)) (store_hits c)) <$> cs).
  { unfold cs'. rewrite <- list_fmap_compose. apply list_fmap_ext. intros i c Hc. rewrite -> Forall_lookup in Hf.
    destruct (Hf i c Hc) as (_ & _ & Hh & _). unfold compose, hits_chunk_blks_hash. cbn. by rewrite -> Hh. }
  assert (Hvllm : hits_vllm_blk_ids <$> cs' = (λ c, compress (py_slice v (start_blk_idx c) (end_blk_idx c)) (store_hits c)) <$> cs).
  { unfold cs'. by rewrite <- list_fmap_compose. }
  assert (Hfrom : compress (py_from v pc) (py_from R pc) = compress (py_slice v pc (zlen R)) (py_slice R pc (zlen R))).
  { rewrite -> compress_zip, (py_slice_from R) by lia. f_equal. rewrite -> !py_from_pos by lia.
    rewrite -> !py_slice_pos by (try apply zlen_nonneg; lia). rewrite -> drop_0. f_equal. unfold zlen. rewrite -> length_drop. lia. }
  split; [|split; [done|]].
  - rewrite -> !Hupto, Hhash, Hvllm, !Hsplit by lia. f_equal; f_equal; apply (compress_chunks _ H R); done || lia.
  - unfold rope_shifts. cbn [fmap list_fmap concat bd_chunks_meta snd app]. rewrite -> app_nil_r. fold cs'.
    rewrite -> Hvllm, Hfrom. f_equal; [apply (compress_chunks _ H R); done || lia|].
    rewrite <- (py_slice_from R pc (zlen R)) by lia. rewrite <- (compress_shifts H R cs v pc (zlen R)) by (done || lia).
    unfold cs'. rewrite <- list_fmap_compose. done.
Qed.

(** A blended request loads exactly the blocks the store holds, for a connector with
    the attribute [monitor], which no class of the repository sets.  When the
    prefix hits stay inside the first chunk, matching promises them, and the plan
    loads, into its own vLLM block, every block of the chunks that is stored,
    whether found as prefix or as chunk, and dumps nothing; the keys of a stored
    block past the prefix are shifted by the distance between its chunk's place
    in the prompt and the place it was computed at. *)
Theorem blend_plan_loads_hits {W} `{StoreOps W} `{DeviceOps W} `{SetOrder} `{PyHash} bcf (I : conn * W → Prop)
    stored r prefix c0 rest hashes v (s : blend * W) :
  let bs := cf_block_size (b_cf bcf) in
  let pc := leading_hits (stored <$> prefix) in
  0 < bs → has_monitor bcf = true → num_tokens r = zlen (all_token_ids r) →
  (∀ ids s, I s → ∃ s', on_rc (lookup_all (store (b_cf bcf)) ids) s = (Ok (stored <$> ids), s') ∧ I s') →
  I (bbase s.1, s.2) →
  _process_req bcf (all_token_ids r) = Ok (CACHE_BLEND, prefix, c0 :: rest, hashes) →
  pc ≤ chunk_blks_len c0 → min_blend_threshold ≤ count_true (stored <$> py_from hashes pc) →
  zlen hashes ≤ zlen v →
  ∃ s' rm rm' d, get_num_new_matched_tokens bcf r 0 s = (Ok (pc * bs, false), s') ∧
    dict_get (request_id r) (requests_blend_meta s'.1) = Some rm ∧
    _generate_blend_dispatch_meta rm v = (rm', d) ∧
    load_block_ids (bd_dispatch d) = (compress hashes (stored <$> hashes), compress v (stored <$> hashes)) ∧
    dump_block_ids (bd_dispatch d) = ([], []) ∧
    rope_shifts [(request_id r, d)] =
      (compress (py_from v pc) (stored <$> py_from hashes pc),
       compress (py_from (shifts (c0 :: rest)) pc) (stored <$> py_from hashes pc)).
Proof.
  intros bs pc Hbs Hmon Hnt Hlk HI Hproc Hpc Hthr Hv.
  assert (Hl : all_token_ids r ≠ []) by (intros Hl; by rewrite -> Hl in Hproc).
  destruct (blend_split_facts bcf (all_token_ids r) prefix c0 rest hashes Hbs Hl Hproc)
    as (e & He & Htl & Hc & Hprefix & Hh & Hzl & Hn).
  pose proof (leading_hits_spec (stored <$> prefix)) as [Hpc0 Htrue]. fold pc in Hpc0, Htrue.
  pose proof Hc as Hcs. apply Forall_cons in Hcs as [Hc0 _].
  set (R := stored <$> hashes).
  assert (HzR : zlen R = e) by (unfold R, zlen in *; by rewrite -> length_fmap).
  assert (Htake : take (Z.to_nat pc) hashes = take (Z.to_nat pc) prefix).
  { rewrite -> Hh, Hprefix. csimpl. rewrite -> take_app_le.
    - apply process_chunk_hashes; [done|done|by destruct Htl|lia].
    - pose proof (chunk_hash_zlen bcf _ Hbs c0 Hc0) as Hz. unfold zlen in Hz. lia. }
  destruct (assign_hits_spec bcf (all_token_ids r) Hbs pc R c0 rest e Hc Htl ltac:(lia)) as (cs & Hass & Hcs & Hfiled & Hsh).
  rewrite <- Hh in Hfiled.
  destruct (Hlk prefix _ HI) as (s1 & Hrun1 & HI1). destruct (Hlk (py_from hashes pc) _ HI1) as (s2 & Hrun2 & _).
  assert (Hres : py_upto (stored <$> prefix) pc ++ (stored <$> py_from hashes pc) = R).
  { rewrite -> py_upto_pos, py_from_pos by lia. rewrite <- fmap_take, <- Htake, <- fmap_app. by rewrite -> take_drop. }
  assert (Hhit : _get_req_chunk_hit bcf CACHE_BLEND prefix (c0 :: rest) hashes (bbase s.1, s.2) =
    (Ok (pc, count_true (stored <$> py_from hashes pc), cs), s2)).
  { unfold _get_req_chunk_hit. mrun Hrun1. cbn [is_blend_cache negb]. fold pc. mrun Hrun2. rewrite -> Hres, Hass. done. }
  assert (pc ≤ e) by (apply (consecutive_le cs); [by eapply filed_blks|done]).
  destruct (blended_plan hashes R pc cs v (request_id r)) as (rm' & d & Hgen & Hload & Hdump & Hrope);
    [by rewrite -> HzR|done|lia|lia|lia| |].
  { unfold R. by rewrite <- fmap_take, Htake, fmap_take. }
  assert (Hne : pc * bs ≠ zlen (all_token_ids r)) by (eapply blend_prefix_short; done).
  unfold get_num_new_matched_tokens. cbn [assert_ Z.eqb]. mstep. fold bs.
  rewrite -> (proj2 (Z.eqb_neq _ _)) by exact Hn. rewrite -> Hproc. mstep.
  erewrite M_bind_Ok; cycle 1.
  { unfold on_bbase, lift. rewrite -> Hhit. reflexivity. }
  cbn [fst snd]. rewrite -> (proj2 (Z.ltb_ge _ _)) by exact Hthr. cbn [negb is_blend_cache].
  erewrite M_bind_Ok; cycle 1.
  { unfold on_bbase, lift, monitor_stats. rewrite -> Hmon. reflexivity. }
  mstep. rewrite -> Hnt, (proj2 (Z.eqb_neq _ _)) by exact Hne.
  eexists _, _, rm', d. split; [reflexivity|]. split; [cbn; by rewrite -> dict_get_set_eq|].
  split; [exact Hgen|]. split; [done|]. split; [done|]. rewrite -> Hrope, Hsh. do 2 f_equal.
  all: unfold R; by rewrite -> !py_from_pos, fmap_drop by lia.
Qed.

(** ** Examples *)

(** Blocks of two tokens, chunks ending with the token 9. *)
Definition ex_blend_cf (monitor : bool) : blend_conf :=
  BlendConf (Conf false false 0 1 2 2 1 [] [] None true false 0 1
    (Layout (Arr1 []) (Arr1 []) (Arr1 []) (Arr1 []) false 1 0 [] 0 8) 512) 9 monitor.

(** A chunk of two blocks, then 17 copies of a chunk of one block, a question. *)
Definition ex_prompt : list Z := [1; 2; 3; 9] ++ concat (replicate 17 [4; 9]) ++ [5].
Definition ex_blend_req : request := Req "r" ex_prompt (zlen ex_prompt) (zlen ex_prompt).

(** Nothing is tracked yet and the store holds [ids]. *)
Definition ex_blend (ids : list bytes) : blend * sim :=
  (BlendConn (init_conn false None false) [] false None, sim_init (pair 1 <$> ids) []).

(** The first block of the prompt and the repeated chunk are stored. *)
Definition ex_stored : list bytes :=
  hash_chunk (ex_blend_cf true) [1; 2] ++ hash_chunk (ex_blend_cf true) [4; 9].

Lemma blend_chunks_split_witness :
  ∃ last stage chunks hashes, py_index ex_prompt (-1) = Ok last ∧
    _process_req (ex_blend_cf true) ex_prompt = Ok (stage, hash_chunk (ex_blend_cf true) ex_prompt, chunks, hashes) ∧
    (stage = BUILD_CHUNK_CACHE ↔ last = 9 ∧ zlen ex_prompt mod 2 = 0) ∧
    (stage = BUILD_CHUNK_CACHE → chunks = []) ∧
    (stage ≠ BUILD_CHUNK_CACHE → (stage = CACHE_BLEND ↔ chunks ≠ []) ∧
       ∃ e, 0 ≤ e ≤ zlen ex_prompt / 2 ∧ consecutive 0 chunks e ∧
         Forall (chunk_ok (ex_blend_cf true) ex_prompt) chunks ∧
         hashes = concat (chunk_blks_hash <$> chunks) ∧ zlen hashes = e ∧
         ∀ j, e ≤ j < zlen ex_prompt / 2 → block_end (ex_blend_cf true) ex_prompt j ≠ Some 9).
Proof. apply (blend_chunks_split (ex_blend_cf true) ex_prompt); [reflexivity|discriminate]. Defined.

Lemma blend_plan_loads_hits_witness :
  let stored := sim_has 1 (ex_blend ex_stored).2 in
  ∃ prefix c0 rest hashes s' rm rm' d,
    _process_req (ex_blend_cf true) ex_prompt = Ok (CACHE_BLEND, prefix, c0 :: rest, hashes) ∧
    (stored <$> hashes) = true :: false :: replicate 17 true ∧
    get_num_new_matched_tokens (ex_blend_cf true) ex_blend_req 0 (ex_blend ex_stored) =
      (Ok (leading_hits (stored <$> prefix) * 2, false), s') ∧
    dict_get "r" (requests_blend_meta s'.1) = Some rm ∧
    _generate_blend_dispatch_meta rm (seqZ 100 19) = (rm', d) ∧
    load_block_ids (bd_dispatch d) =
      (compress hashes (stored <$> hashes), compress (seqZ 100 19) (stored <$> hashes)) ∧
    dump_block_ids (bd_dispatch d) = ([], []) ∧
    rope_shifts [("r", d)] =
      (compress (py_from (seqZ 100 19) (leading_hits (stored <$> prefix)))
         (stored <$> py_from hashes (leading_hits (stored <$> prefix))),
       compress (py_from (shifts (c0 :: rest)) (leading_hits (stored <$> prefix)))
         (stored <$> py_from hashes (leading_hits (stored <$> prefix)))).
Proof.
  intros stored.
  assert (H : ∃ prefix c0 rest hashes, _process_req (ex_blend_cf true) ex_prompt = Ok (CACHE_BLEND, prefix, c0 :: rest, hashes) ∧
    (stored <$> hashes) = true :: false :: replicate 17 true ∧
    leading_hits (stored <$> prefix) ≤ chunk_blks_len c0 ∧
    min_blend_threshold ≤ count_true (stored <$> py_from hashes (leading_hits (stored <$> prefix))) ∧ zlen hashes = 19).
  { do 4 eexists. split; [vm_compute; reflexivity|]. repeat split; vm_compute; try reflexivity; discriminate. }
  assert (Hlk : ∀ ids (s : conn * sim), s = (init_conn false None false, (ex_blend ex_stored).2) →
    ∃ s', on_rc (lookup_all 1 ids) s = (Ok (stored <$> ids), s') ∧
      s' = (init_conn false None false, (ex_blend ex_stored).2)).
  { intros ids _ ->. eexists. split; reflexivity. }
  clearbody stored. destruct H as (prefix & c0 & rest & hashes & Hproc & Hst & Hpc & Hthr & Hlen).
  assert (Hv : zlen hashes ≤ zlen (seqZ 100 19)) by (rewrite -> Hlen; discriminate).
  destruct (blend_plan_loads_hits (ex_blend_cf true) (λ s, s = (init_conn false None false, (ex_blend ex_stored).2))
    stored ex_blend_req prefix c0 rest hashes (seqZ 100 19) (ex_blend ex_stored) eq_refl eq_refl eq_refl
    Hlk eq_refl Hproc Hpc Hthr Hv) as (s' & rm & rm' & d & Hrun).
  exists prefix, c0, rest, hashes, s', rm, rm', d. exact (conj Hproc (conj Hst Hrun)).
Defined.

(** Without the attribute [monitor], matching raises for every prompt of at
    least one block once its lookups have succeeded, and tracks nothing. *)
Lemma blend_matching_needs_monitor {W} `{StoreOps W} `{DeviceOps W} `{SetOrder} `{PyHash} bcf r (s : blend * W) n s' :
  let bs := cf_block_size (b_cf bcf) in
  has_monitor bcf = false → 0 < zlen (all_token_ids r) / bs →
  get_num_new_matched_tokens bcf r 0 s = (n, s') →
  ¬ is_ok n ∧ requests_blend_meta s'.1 = requests_blend_meta s.1.
Proof.
  intros bs Hmon Hn Hrun. unfold get_num_new_matched_tokens in Hrun. cbn [assert_ Z.eqb] in Hrun.
  erewrite M_bind_Ok in Hrun by reflexivity. fold bs in Hrun. rewrite -> (proj2 (Z.eqb_neq _ _)) in Hrun by lia.
  destruct (_process_req bcf (all_token_ids r)) as [[[[st p] cs] hs]|e]; munfold;
    [|by injection Hrun as <- <-; split; [intros []|]].
  unfold on_bbase, lift, monitor_stats in Hrun. rewrite -> Hmon in Hrun.
  destruct (_get_req_chunk_hit bcf st p cs hs (bbase s.1, s.2)) as [[[[pc ch] cs']|e] s1]; cbn in Hrun;
    by injection Hrun as <- <-; split; [intros []|].
Qed.

Definition ex_split (l : list Z) : list bytes * list ChunkMetaData * list bytes :=
  match _process_req (ex_blend_cf true) l with
  | Ok (_, prefix, chunks, hashes) => (prefix, chunks, hashes)
  | Raise _ => ([], [], [])
  end.

(** When the prefix hits reach past the first chunk, a block of the second chunk
    counts as found although only its prefix identifier is stored: the plan
    loads an identifier the store does not hold. *)
Example prefix_hit_past_first_chunk :
  let l := [1; 9; 2; 9] ++ concat (replicate 17 [4; 9]) ++ [5] in
  let '(prefix, chunks, hashes) := ex_split l in
  let ids := take 2 prefix ++ hash_chunk (ex_blend_cf true) [4; 9] in
  let s := ex_blend ids in
  let run := get_num_new_matched_tokens (ex_blend_cf true) (Req "r" l (zlen l) (zlen l)) 0 s in
  match run.1, dict_get "r" (requests_blend_meta run.2.1) with
  | Ok (n, _), Some rm =>
      n = 4 ∧
      let load := load_block_ids (bd_dispatch (_generate_blend_dispatch_meta rm (seqZ 100 19)).2) in
      existsb (λ id, negb (sim_has 1 s.2 id)) load.1 = true
  | _, _ => False
  end.
Proof. vm_compute. split; reflexivity. Qed.
