(* ===== verification/BlendSparse.v ===== *)
(** * Selective recomputation of blended prompts

    The class [Blend] of [ucm/sparse/blend/blend.py], which runs inside the
    model.  At a configured layer it compares the keys of the loaded chunk
    blocks with the recomputed ones and keeps, of the tokens of those blocks,
    only the ones that deviate most; tokens of missing blocks, of the question
    and of decoding requests are all kept.  From there on the batch is indexed by
    the mask of the kept tokens.  One-dimensional tensors are lists; the
    deviations are computed by torch, so the indices of the largest ones are a
    parameter. *)
From S2P Require Import Prelude Runtime Hashing Direct Blend.
Open Scope Z_scope.

Definition get_num_blks (num_tokens block_size : Z) : Z := (num_tokens + block_size - 1) / block_size.

(** [ReqMeta] of blend.py *)
Record BlendReqMeta := BlendRM {
  req_idx : Z;
  need_blend : bool;
  prefix_len : Z;
  prefix_blk_len : Z;
  chunks_len : Z;
  chunks_blk_len : Z;
  suffix_len : Z;
  suffix_blk_len : Z;
  chunk_hit_mask : list bool;
  chunk_hit_blk_len : Z;
}.

Record BlendMetaData := BlendMeta {
  requests : list BlendReqMeta;
  compute_mask : list bool;
  query_lens : list Z;
  blend_start_req_idx : Z;
  need_re_index : bool;
}.

(** The attention metadata of the batch; [query_start_loc] has one entry more
    than there are requests. *)
Record attn_metadata := AttnMeta {
  query_start_loc : list Z;
  seq_lens : list Z;
  slot_mapping : list Z;
  block_table : list (list Z);
  max_query_len : Z;
  num_actual_tokens : Z;
}.

Record blend_sparse := BlendSparse {
  blend_req_metas : BlendMetaData;
  attn : attn_metadata;
}.

Definition set_requests x m := BlendMeta x (compute_mask m) (query_lens m) (blend_start_req_idx m) (need_re_index m).
Definition set_mask x m := BlendMeta (requests m) x (query_lens m) (blend_start_req_idx m) (need_re_index m).
Definition set_query_lens x m := BlendMeta (requests m) (compute_mask m) x (blend_start_req_idx m) (need_re_index m).
Definition set_re_index x m := BlendMeta (requests m) (compute_mask m) (query_lens m) (blend_start_req_idx m) x.

(** ** Tensor operations *)

(** [l[i:j] = v] for a slice inside the tensor, of the length of [v]. *)
Definition slice_set {A} (l : list A) (i : Z) (v : list A) : list A :=
  py_upto l i ++ v ++ py_from l (i + zlen v).

(** [l[i:j].fill_(x)] *)
Definition fill_slice {A} (l : list A) (i j : Z) (x : A) : list A :=
  let v := py_slice l i j in slice_set l (norm_idx (zlen l) i) ((λ _, x) <$> v).

(** [l[mask]], whose shapes must agree. *)
Definition mask_select {A} (l : list A) (mask : list bool) : res (list A) :=
  if zlen l =? zlen mask then Ok (compress l mask) else Raise IndexError.

(** [l.reshape(n, -1)] *)
Fixpoint rows_of {A} (n : nat) (w : nat) (l : list A) : list (list A) :=
  match n with O => [] | S n => take w l :: rows_of n w (drop w l) end.

Definition reshape_rows {A} (l : list A) (n : Z) : res (list (list A)) :=
  if (n <=? 0) || negb (zlen l mod n =? 0) then Raise (RuntimeError "shape is invalid")
  else Ok (rows_of (Z.to_nat n) (Z.to_nat (zlen l / n)) l).

(** [flat[indices] = True] *)
Definition set_true (flat : list bool) (indices : list Z) : res (list bool) :=
  fold_res (λ f i, py_alter (λ _, true) f i) flat indices.

(** [torch.cumsum] *)
Fixpoint cumsum (acc : Z) (l : list Z) : list Z :=
  match l with [] => [] | x :: l => (acc + x) :: cumsum (acc + x) l end.

(** ** The metadata of a batch *)

Definition reset_blend_meta (forward_mask : list bool) (a : attn_metadata) (num_cached : Z) : res BlendMetaData :=
  last ← py_index (query_start_loc a) (-1);
  let loc := query_start_loc a in
  Ok (BlendMeta [] (py_upto forward_mask last) (zip_with Z.sub (py_from loc 1) (py_upto loc (-1))) num_cached false).

Definition add_request (block_size idx : Z) (chunks : list ChunkMetaData) (seq_lens : list Z)
    (m : BlendMetaData) : res BlendMetaData :=
  match chunks with
  | [] => Ok m
  | first :: _ =>
      let hit_mask := concat (store_hits <$> chunks) in
      let i := blend_start_req_idx m + idx in
      let prefix := start_token_dix first in
      let hits := count_true hit_mask in
      seq_len ← py_index seq_lens i;
      let suffix := seq_len - prefix - zlen hit_mask * block_size in
      Ok (set_requests (requests m ++
        [BlendRM i (0 <? hits) prefix (get_num_blks prefix block_size) (zlen hit_mask * block_size)
           (zlen hit_mask) suffix (get_num_blks suffix block_size) hit_mask hits]) m)
  end.

(** [build_sparse_meta]; [new_reqs] are the new requests in the order of the
    batch, after the [num_cached] requests scheduled before. *)
Definition build_sparse_meta (block_size : Z) (forward_mask : list bool) (a : attn_metadata)
    (num_cached : Z) (new_reqs : list string) (metadata : UCMBlendConnectorMetadata) : res blend_sparse :=
  m ← reset_blend_meta forward_mask a num_cached;
  m ← fold_res (λ m x,
        d ← dict_index x.2 metadata;
        add_request block_size x.1 (bd_chunks_meta d) (seq_lens a) m)
      m (zip (seqZ 0 (zlen new_reqs)) new_reqs);
  Ok (BlendSparse m a).

(** ** A blend layer *)

Section layer.
  Variable block_size : Z.
  (** [int(n * ratio)] of the layer, and the indices of the [k] largest
      deviations among the tokens of the hit blocks of a request. *)
  Variable top_num : Z → Z.
  Variable topk : BlendReqMeta → Z → list Z.

Notation SM := (M blend_sparse).

Definition upds (f : BlendMetaData → BlendMetaData) : SM unit :=
  modify (λ s, BlendSparse (f (blend_req_metas s)) (attn s)).
Definition gets_meta {A} (f : BlendMetaData → A) : SM A := gets (λ s, f (blend_req_metas s)).

Definition reset_compute_mask : SM unit :=
  upds (λ m, set_mask (fill_slice (replicate (length (compute_mask m)) false) 0 (blend_start_req_idx m) true) m).

(** The positions, inside the chunk part of a request, of the tokens of its hit
    blocks. *)
Definition hit_positions (hit_mask : list bool) : list Z :=
  concat (compress ((λ b, seqZ (b * block_size) block_size) <$> seqZ 0 (zlen hit_mask)) hit_mask).

Definition update_req_compute_mask (start chunk_end query_end : Z) (hit_mask : list bool)
    (top_k_indices : list Z) : SM unit :=
  mask ← gets_meta compute_mask;
  let chunks := py_slice mask start chunk_end in
  rows ← of_res (reshape_rows chunks (zlen hit_mask));
  let rows := zip_with (λ (h : bool) row, if h then row else (λ _, true) <$> row) hit_mask rows in
  upds (set_mask (slice_set mask start (concat rows))) ;;
  flat ← of_res (set_true (concat rows) top_k_indices);
  upds (set_mask (slice_set mask start flat)) ;;
  upds (λ m, set_mask (fill_slice (compute_mask m) chunk_end query_end true) m).

Definition update_query_lens (idx reused_num_tokens : Z) : SM unit :=
  lens ← gets_meta query_lens;
  lens ← of_res (py_alter (λ n, n - reused_num_tokens) lens idx);
  upds (set_query_lens lens).

(** One request of the loop of [attention_begin]: whether it was blended.
    [num_keys] is the number of rows of [key]. *)
Definition blend_request (num_keys : Z) (r : BlendReqMeta) : SM bool :=
  loc ← gets (λ s, query_start_loc (attn s));
  start ← of_res (py_index loc (req_idx r));
  query_end ← of_res (py_index loc (req_idx r + 1));
  if negb (need_blend r) then
    upds (λ m, set_mask (fill_slice (compute_mask m) start query_end true) m) ;; mret false
  else
    let chunk_end := start + chunks_len r in
    table ← gets (λ s, block_table (attn s));
    row ← of_res (py_index table (req_idx r));
    his ← of_res (mask_select (py_slice row (prefix_blk_len r) (prefix_blk_len r + chunks_blk_len r)) (chunk_hit_mask r));
    (if zlen (py_slice (seqZ 0 num_keys) start chunk_end) =? chunks_len r then mret tt
     else raise (RuntimeError "shape is invalid")) ;;
    let candidate_len := chunk_hit_blk_len r * block_size in
    let topK_num := top_num candidate_len in
    topK_indices ← of_res (map_res (py_index (hit_positions (chunk_hit_mask r))) (topk r topK_num));
    update_req_compute_mask start chunk_end query_end (chunk_hit_mask r) topK_indices ;;
    update_query_lens (req_idx r) (candidate_len - topK_num) ;;
    mret true.

(** [_update_attn_metadata] *)
Definition _update_attn_metadata : SM unit :=
  s ← get;
  let m := blend_req_metas s in
  let a := attn s in
  slots ← of_res (mask_select (slot_mapping a) (compute_mask m));
  modify (λ s, BlendSparse m
    (AttnMeta (py_upto (query_start_loc a) 1 ++ cumsum 0 (query_lens m)) (seq_lens a) slots (block_table a)
       (foldr Z.max 0 (query_lens m)) (zsum (query_lens m)))).

(** [attention_begin] on a configured layer: the rows of the query, the keys and
    the values, indexed by the mask when a request was blended. *)
Definition attention_begin {A} (query key value : list A) : SM (list A * list A * list A) :=
  reset_compute_mask ;;
  reqs ← gets_meta requests;
  need_update ← for_fold reqs false (λ acc r,
    b ← blend_request (zlen key) r; mret (acc || b));
  if (need_update : bool) then
    upds (set_re_index true) ;;
    _update_attn_metadata ;;
    mask ← gets_meta compute_mask;
    q ← of_res (mask_select query mask);
    k ← of_res (mask_select key mask);
    v ← of_res (mask_select value mask);
    mret (q, k, v)
  else mret (query, key, value).

(** ** The rest of the layer and of the model *)

Definition _index_tensor {A} (tensor : list A) : SM (list A) :=
  re ← gets_meta need_re_index;
  mask ← gets_meta compute_mask;
  if (re : bool) then of_res (mask_select tensor mask) else mret tensor.

Definition ffn_begin {A} (hidden_states residual : list A) : SM (list A * list A) :=
  re ← gets_meta need_re_index;
  mask ← gets_meta compute_mask;
  if re && (zlen mask =? zlen residual) then
    n ← gets (λ s, num_actual_tokens (attn s));
    residual ← _index_tensor residual;
    mret (py_upto hidden_states n, residual)
  else mret (hidden_states, residual).

Definition layer_begin {A} (positions hidden_states residual : list A) : SM (list A * list A * list A) :=
  if negb (zlen positions =? zlen hidden_states) then
    positions ← _index_tensor positions;
    mret (positions, hidden_states, residual)
  else mret (positions, hidden_states, residual).

Definition execute_finished (logits_indices : list Z) : SM (list Z) :=
  re ← gets_meta need_re_index;
  loc ← gets (λ s, query_start_loc (attn s));
  mret (if (re : bool) then (λ e, e - 1) <$> py_from loc 1 else logits_indices).

End layer.
