(* ===== verification/BlendSparseProps.v ===== *)
(** * What the selective recomputation guarantees

    After a blend layer the mask of the kept tokens and the lengths of the
    queries agree, request by request, and no token is dropped except tokens of
    hit blocks. *)
From S2P Require Import Prelude Runtime PyHash Hashing KVLayout Direct Blend BlendSparse.
Open Scope Z_scope.

(** ** Counting *)

Lemma count_true_app (a b : list bool) : count_true (a ++ b) = count_true a + count_true b.
Proof. unfold count_true. by rewrite -> fmap_app, zsum_app. Qed.

Lemma count_true_cons (x : bool) (a : list bool) : count_true (x :: a) = (if x then 1 else 0) + count_true a.
Proof. done. Qed.

Lemma count_true_replicate n (x : bool) : count_true (replicate n x) = if x then Z.of_nat n else 0.
Proof.
  induction n as [|n IH]; [by destruct x|]. cbn [replicate]. rewrite -> count_true_cons, IH. destruct x; lia.
Qed.

Lemma count_true_nonneg (a : list bool) : 0 ≤ count_true a ≤ zlen a.
Proof. induction a as [|[] a IH]; rewrite ?zlen_cons ?count_true_cons; [done|lia|lia]. Qed.

Lemma count_true_insert (l : list bool) i :
  l !! i = Some false → count_true (<[i := true]> l) = count_true l + 1.
Proof.
  revert i. induction l as [|x l IH]; intros [|i] Hi; [done|done| |]; cbn [insert list_insert].
  - injection Hi as ->. by rewrite -> !count_true_cons, Z.add_comm.
  - rewrite -> !count_true_cons, IH by done. lia.
Qed.

Lemma compress_length {A} (v : list A) (s : list bool) :
  length v = length s → zlen (compress v s) = count_true s.
Proof.
  revert v. induction s as [|b s IH]; intros [|x v] Hl; try done. injection Hl as Hl. specialize (IH v Hl).
  unfold compress in *. cbn [zip zip_with]. rewrite -> filter_cons. cbn [snd].
  destruct b; rewrite -> count_true_cons; [|by rewrite -> decide_False by done].
  rewrite -> decide_True by done. csimpl. rewrite -> zlen_cons, IH. done.
Qed.

Lemma set_true_spec idx : ∀ f : list bool,
  NoDup idx → (∀ i, i ∈ idx → 0 ≤ i ∧ f !! Z.to_nat i = Some false) →
  ∃ f', set_true f idx = Ok f' ∧ zlen f' = zlen f ∧ count_true f' = count_true f + zlen idx ∧
    ∀ p, f !! p = Some true → f' !! p = Some true.
Proof.
  induction idx as [|i idx IH]; intros f Hnd Hf.
  - exists f. split; [done|]. split; [done|]. split; [change (zlen []) with 0; lia|done].
  - apply NoDup_cons in Hnd as [Hni Hnd]. destruct (Hf i ltac:(left)) as [Hi0 Hi].
    set (f1 := alter (λ _, true) (Z.to_nat i) f).
    assert (Hf1 : f1 = <[Z.to_nat i := true]> f) by (symmetry; apply list_insert_alter).
    assert (Hstep : py_alter (λ _, true) f i = Ok f1).
    { unfold py_alter. apply lookup_lt_Some in Hi as Hlt. rewrite -> (proj2 (Z.ltb_ge i 0)) by lia.
      rewrite -> (proj2 (Z.ltb_ge i 0)) by lia. by rewrite -> (proj2 (Z.leb_gt _ _)) by (unfold zlen; lia). }
    destruct (IH f1 Hnd) as (f' & Hrun & Hlen & Hc & Hk).
    { intros j Hj. destruct (Hf j ltac:(by right)) as [Hj0 Hj1]. split; [done|]. rewrite -> Hf1, list_lookup_insert_ne; [done|].
      intros He. apply Hni. by replace i with j by lia. }
    exists f'. unfold set_true in *. cbn [fold_res]. rewrite -> Hstep. cbn [mbind res_bind]. split; [done|].
    split; [rewrite -> Hlen, Hf1; unfold zlen; by rewrite -> length_insert|].
    split; [rewrite -> Hc, Hf1, count_true_insert, zlen_cons by done; lia|].
    intros p Hp. apply Hk. rewrite -> Hf1, list_lookup_insert_ne; [done|]. congruence.
Qed.

(** ** The tokens of the hit blocks *)

Section positions.
  Variable bs : Z.
  Hypothesis Hbs : 0 < bs.

Definition positions_from (b : Z) (mask : list bool) : list Z :=
  concat (compress ((λ b, seqZ (b * bs) bs) <$> seqZ b (zlen mask)) mask).

Lemma positions_cons b h mask :
  positions_from b (h :: mask) = (if h : bool then seqZ (b * bs) bs else []) ++ positions_from (b + 1) mask.
Proof.
  unfold positions_from. rewrite -> zlen_cons, seqZ_cons by (pose proof (zlen_nonneg mask); lia).
  replace (Z.pred (1 + zlen mask)) with (zlen mask) by lia. rewrite -> fmap_cons. unfold compress. cbn [zip zip_with].
  rewrite -> filter_cons. cbn [snd]. destruct h; [by rewrite -> decide_True by done|by rewrite -> decide_False by done].
Qed.

Lemma elem_of_positions mask : ∀ b p, p ∈ positions_from b mask →
  ∃ j, mask !! j = Some true ∧ (b + Z.of_nat j) * bs ≤ p < (b + Z.of_nat j + 1) * bs.
Proof.
  induction mask as [|h mask IH]; intros b p Hp; [by apply elem_of_nil in Hp|].
  rewrite -> positions_cons in Hp. apply elem_of_app in Hp as [Hp|Hp].
  - destruct h; [|by apply elem_of_nil in Hp]. apply elem_of_seqZ in Hp. exists 0%nat. split; [done|nia].
  - destruct (IH _ _ Hp) as (j & Hj & Hr). exists (S j). split; [done|]. rewrite -> Nat2Z.inj_succ. nia.
Qed.

Lemma positions_NoDup mask : ∀ b, NoDup (positions_from b mask).
Proof.
  induction mask as [|h mask IH]; intros b; [constructor|]. rewrite -> positions_cons. apply NoDup_app.
  split; [destruct h; [apply NoDup_seqZ|constructor]|]. split; [|apply IH].
  intros p Hp Hq. destruct h; [|by apply elem_of_nil in Hp]. apply elem_of_seqZ in Hp.
  destruct (elem_of_positions _ _ _ Hq) as (j & _ & Hr). nia.
Qed.

Lemma positions_length mask : ∀ b, zlen (positions_from b mask) = count_true mask * bs.
Proof.
  induction mask as [|h mask IH]; intros b; [done|]. rewrite -> positions_cons, zlen_app, count_true_cons, IH.
  destruct h; [unfold zlen; rewrite -> length_seqZ|change (zlen []) with 0]; lia.
Qed.

(** The mask of the chunk part once the missing blocks are filled. *)
Definition block_fill (mask : list bool) : list bool :=
  concat ((λ h, replicate (Z.to_nat bs) (negb h)) <$> mask).

Lemma block_fill_length mask : zlen (block_fill mask) = zlen mask * bs.
Proof.
  unfold block_fill. induction mask as [|h mask IH]; [done|]. csimpl. rewrite -> zlen_app, IH, zlen_cons.
  unfold zlen at 1. rewrite -> length_replicate. lia.
Qed.

Lemma block_fill_count mask : count_true (block_fill mask) = (zlen mask - count_true mask) * bs.
Proof.
  unfold block_fill. induction mask as [|h mask IH]; [done|]. csimpl.
  rewrite -> count_true_app, IH, zlen_cons, count_true_cons, count_true_replicate. destruct h; cbn [negb]; lia.
Qed.

Lemma block_fill_lookup mask : ∀ j h p, mask !! j = Some h → Z.of_nat j * bs ≤ p < (Z.of_nat j + 1) * bs →
  block_fill mask !! Z.to_nat p = Some (negb h).
Proof.
  unfold block_fill. induction mask as [|h' mask IH]; intros [|j] h p Hj Hp; try done; csimpl.
  - injection Hj as ->. rewrite -> lookup_app_l by (rewrite -> length_replicate; nia). apply lookup_replicate. split; [done|nia].
  - rewrite -> lookup_app_r by (rewrite -> length_replicate; nia). rewrite -> length_replicate.
    replace (Z.to_nat p - Z.to_nat bs)%nat with (Z.to_nat (p - bs)) by nia. apply (IH j); [done|nia].
Qed.

(** Every position of the chunk part is in one block. *)
Lemma block_of (mask : list bool) p : 0 ≤ p < zlen mask * bs →
  ∃ j h, mask !! j = Some h ∧ Z.of_nat j * bs ≤ p < (Z.of_nat j + 1) * bs.
Proof.
  intros Hp. pose proof (Z.mul_div_le p bs Hbs). pose proof (Z.mul_succ_div_gt p bs Hbs).
  assert (0 ≤ p / bs) by (apply Z.div_pos; lia). assert (p / bs < zlen mask) by (apply Z.div_lt_upper_bound; lia).
  destruct (lookup_lt_is_Some_2 mask (Z.to_nat (p / bs))) as [h Hh]; [unfold zlen in *; lia|].
  exists (Z.to_nat (p / bs)), h. split; [done|]. rewrite -> Z2Nat.id by lia. lia.
Qed.

Lemma positions_false mask p : p ∈ positions_from 0 mask → 0 ≤ p ∧ block_fill mask !! Z.to_nat p = Some false.
Proof.
  intros Hp. destruct (elem_of_positions _ _ _ Hp) as (j & Hj & Hr). rewrite -> Z.add_0_l in Hr.
  split; [nia|]. by apply (block_fill_lookup mask j true).
Qed.

Lemma in_positions mask j p :
  mask !! j = Some true → Z.of_nat j * bs ≤ p < (Z.of_nat j + 1) * bs → p ∈ positions_from 0 mask.
Proof.
  intros Hj Hp. enough (Hg : ∀ b, p + b * bs ∈ positions_from b mask) by (specialize (Hg 0); by rewrite -> Z.mul_0_l, Z.add_0_r in Hg).
  revert j p Hj Hp. induction mask as [|h mask IH]; intros [|j] p Hj Hp b; try done; rewrite -> positions_cons; apply elem_of_app.
  - left. injection Hj as ->. apply elem_of_seqZ. nia.
  - right. replace (p + b * bs) with ((p - bs) + (b + 1) * bs) by lia. apply (IH j); [done|nia].
Qed.

(** Filling the missing blocks of an empty chunk part, row by row. *)
Lemma fill_rows mask :
  mask ≠ [] →
  ∃ rows, reshape_rows (replicate (Z.to_nat (zlen mask * bs)) false) (zlen mask) = Ok rows ∧
    concat (zip_with (λ (h : bool) row, if h then row else (λ _, true) <$> row) mask rows) = block_fill mask.
Proof.
  intros Hne. assert (0 < zlen mask) by (destruct mask as [|h m]; [done|]; rewrite -> zlen_cons; pose proof (zlen_nonneg m); lia).
  assert (Hz : zlen (replicate (Z.to_nat (zlen mask * bs)) false) = zlen mask * bs) by (unfold zlen at 1; rewrite -> length_replicate; nia).
  unfold reshape_rows. rewrite -> Hz, (proj2 (Z.leb_gt _ _)) by lia. rewrite -> (Z.mul_comm (zlen mask)), Z.mod_mul by lia.
  rewrite -> Z.div_mul by lia. eexists. split; [reflexivity|]. unfold zlen. rewrite -> Nat2Z.id.
  replace (Z.to_nat (bs * Z.of_nat (length mask))) with (length mask * Z.to_nat bs)%nat by nia. clear.
  unfold block_fill. induction mask as [|h mask IH]; [done|]. cbn [length rows_of]. csimpl.
  rewrite -> replicate_add, take_app_length', drop_app_length' by by rewrite -> length_replicate.
  rewrite -> IH. f_equal. destruct h; [done|]. by rewrite -> fmap_replicate.
Qed.

End positions.

(** ** Writing into a segment of the mask *)

Section segment.
  Context {A : Type}.
  Implicit Types D S E : list A.

Lemma segment_get D S E i j : i = zlen D → j = zlen D + zlen S → py_slice (D ++ S ++ E) i j = S.
Proof.
  intros -> ->. pose proof (zlen_nonneg D). pose proof (zlen_nonneg S). rewrite -> py_slice_pos by lia.
  replace (Z.to_nat (zlen D)) with (length D) by (unfold zlen; lia). rewrite -> drop_app_length.
  replace (Z.to_nat (zlen D + zlen S - zlen D)) with (length S) by (unfold zlen; lia). apply take_app_length.
Qed.

Lemma segment_set D S S' E i : i = zlen D → zlen S' = zlen S → slice_set (D ++ S ++ E) i S' = D ++ S' ++ E.
Proof.
  intros -> Hl. pose proof (zlen_nonneg D). pose proof (zlen_nonneg S). unfold slice_set.
  rewrite -> py_upto_pos, py_from_pos by lia. replace (Z.to_nat (zlen D)) with (length D) by (unfold zlen; lia).
  rewrite -> take_app_length. f_equal. f_equal. rewrite -> app_assoc.
  apply drop_app_length'. rewrite -> length_app. unfold zlen in *. lia.
Qed.

Lemma segment_fill D S E i j x : i = zlen D → j = zlen D + zlen S →
  fill_slice (D ++ S ++ E) i j x = D ++ replicate (length S) x ++ E.
Proof.
  intros -> ->. unfold fill_slice. rewrite -> segment_get by done. pose proof (zlen_nonneg D).
  assert (Hn : norm_idx (zlen (D ++ S ++ E)) (zlen D) = zlen D).
  { unfold norm_idx. rewrite -> (proj2 (Z.ltb_ge _ _)), !zlen_app by lia. pose proof (zlen_nonneg S). pose proof (zlen_nonneg E). lia. }
  rewrite -> Hn. replace ((λ _, x) <$> S) with (replicate (length S) x) by (clear; induction S; csimpl; by f_equal).
  apply segment_set; [done|]. unfold zlen. by rewrite -> length_replicate.
Qed.

End segment.

(** ** One request *)

Section layer.
  Variable bs : Z.
  Variable top_num : Z → Z.
  Variable topk : BlendReqMeta → Z → list Z.
  Hypothesis Hbs : 0 < bs.
  (** A ratio between 0 and 1, and [k] different indices of the candidates. *)
  Hypothesis Htop : ∀ n, 0 ≤ n → 0 ≤ top_num n ≤ n.
  Hypothesis Htopk : ∀ r k, 0 ≤ k ≤ chunk_hit_blk_len r * bs →
    zlen (topk r k) = k ∧ NoDup (topk r k) ∧ Forall (λ i, 0 ≤ i < chunk_hit_blk_len r * bs) (topk r k).

(** A request of [q] query tokens as [add_request] describes it; its row of the
    block table covers its chunks. *)
Record req_ok (q : Z) (row : list Z) (r : BlendReqMeta) : Prop := {
  rq_chunks : chunks_len r = zlen (chunk_hit_mask r) * bs ∧ chunks_blk_len r = zlen (chunk_hit_mask r);
  rq_hits : chunk_hit_blk_len r = count_true (chunk_hit_mask r) ∧ need_blend r = (0 <? chunk_hit_blk_len r);
  rq_query : chunks_len r ≤ q;
  rq_row : 0 ≤ prefix_blk_len r ∧ prefix_blk_len r + chunks_blk_len r ≤ zlen row;
}.

(** The tokens kept of a request. *)
Definition kept (q : Z) (r : BlendReqMeta) : Z :=
  q - (chunk_hit_blk_len r * bs - top_num (chunk_hit_blk_len r * bs)).

(** Its part of the mask: as many tokens as are kept, and all the tokens outside
    the hit blocks. *)
Record segment_ok (q : Z) (r : BlendReqMeta) (seg : list bool) : Prop := {
  sg_length : zlen seg = q;
  sg_count : count_true seg = kept q r;
  sg_kept : ∀ p, 0 ≤ p < q → p ∉ positions_from bs 0 (chunk_hit_mask r) → seg !! Z.to_nat p = Some true;
}.

Lemma update_mask_run D E q r row idx (s : blend_sparse) :
  req_ok q row r → 0 < chunk_hit_blk_len r →
  compute_mask (blend_req_metas s) = D ++ replicate (Z.to_nat q) false ++ E →
  NoDup idx → (∀ i, i ∈ idx → i ∈ positions_from bs 0 (chunk_hit_mask r)) →
  zlen idx = top_num (chunk_hit_blk_len r * bs) →
  ∃ seg, segment_ok q r seg ∧
    update_req_compute_mask (zlen D) (zlen D + chunks_len r) (zlen D + q) (chunk_hit_mask r) idx s =
    (Ok tt, BlendSparse (set_mask (D ++ seg ++ E) (blend_req_metas s)) (attn s)).
Proof.
  intros [[Hcl Hcb] [Hh _] Hq _] Hpos Hm Hnd Hidx Hk. set (mask := chunk_hit_mask r) in *.
  assert (Hne : mask ≠ []) by (intros He; rewrite -> He in Hh; change (count_true []) with 0 in Hh; lia).
  destruct (fill_rows bs Hbs mask Hne) as (rows & Hrows & Hfill).
  pose proof (block_fill_length bs Hbs mask) as Hfl. pose proof (zlen_nonneg mask).
  destruct (set_true_spec idx (block_fill bs mask) Hnd) as (flat & Hflat & Hlen & Hc & Hkeep).
  { intros i Hi. apply positions_false; [done|by apply Hidx]. }
  set (C := replicate (Z.to_nat (chunks_len r)) false). set (T := replicate (Z.to_nat (q - chunks_len r)) false).
  assert (HC : zlen C = chunks_len r) by (unfold C, zlen; rewrite -> length_replicate; nia).
  assert (HT : zlen T = q - chunks_len r) by (unfold T, zlen; rewrite -> length_replicate; nia).
  assert (Hsplit : D ++ replicate (Z.to_nat q) false ++ E = D ++ C ++ (T ++ E)).
  { unfold C, T. rewrite -> (app_assoc (replicate _ _)), <- replicate_add. do 3 f_equal. nia. }
  rewrite -> Hsplit in Hm.
  exists (flat ++ replicate (length T) true). split.
  - split.
    + rewrite -> zlen_app, Hlen, Hfl. unfold zlen at 2. rewrite -> length_replicate. change (Z.of_nat (length T)) with (zlen T). lia.
    + rewrite -> count_true_app, Hc, block_fill_count, count_true_replicate by done.
      change (Z.of_nat (length T)) with (zlen T). unfold kept. rewrite -> Hk, HT, Hcl, Hh. fold mask. lia.
    + intros p Hp Hni. destruct (decide (p < chunks_len r)) as [Hlt|Hge].
      * destruct (block_of bs Hbs mask p ltac:(lia)) as (j & h & Hj & Hr).
        rewrite -> lookup_app_l by (unfold zlen in *; lia). apply Hkeep. rewrite -> (block_fill_lookup bs Hbs mask j h p Hj Hr).
        destruct h; [|done]. exfalso. apply Hni. by apply (in_positions bs mask j).
      * rewrite -> lookup_app_r by (unfold zlen in *; lia). apply lookup_replicate. split; [done|]. unfold zlen in *. lia.
  - unfold update_req_compute_mask, upds, gets_meta. mstep. rewrite -> Hm, segment_get by lia.
    fold mask. assert (HrC : reshape_rows C (zlen mask) = Ok rows) by (unfold C; by rewrite -> Hcl). rewrite -> HrC. mstep. mstep. rewrite -> Hfill, Hflat.
    mstep. mstep. rewrite -> (segment_set _ C); [|done|by rewrite -> Hlen, Hfl, HC].
    unfold modify. cbn [blend_req_metas attn set_mask compute_mask requests query_lens blend_start_req_idx need_re_index].
    do 2 f_equal. unfold set_mask. cbn [requests query_lens blend_start_req_idx need_re_index compute_mask]. f_equal.
    rewrite -> (app_assoc D flat). rewrite -> segment_fill; [by rewrite <- !app_assoc| |].
    + rewrite -> zlen_app. lia.
    + rewrite -> zlen_app. lia.
Qed.

(** The picked indices are positions of hit blocks, all different. *)
Lemma picked_positions r :
  chunk_hit_blk_len r = count_true (chunk_hit_mask r) →
  let k := top_num (chunk_hit_blk_len r * bs) in
  ∃ idx, map_res (py_index (hit_positions bs (chunk_hit_mask r))) (topk r k) = Ok idx ∧ zlen idx = k ∧ NoDup idx ∧
    ∀ i, i ∈ idx → i ∈ positions_from bs 0 (chunk_hit_mask r).
Proof.
  intros Hh k. set (mask := chunk_hit_mask r) in *. pose proof (count_true_nonneg mask).
  destruct (Htopk r k) as (Hlen & Hnd & Hrange); [unfold k; rewrite -> Hh; apply Htop; nia|].
  change (hit_positions bs mask) with (positions_from bs 0 mask). set (P := positions_from bs 0 mask).
  assert (HP : zlen P = chunk_hit_blk_len r * bs) by (unfold P; rewrite -> positions_length, Hh; done).
  rewrite -> Forall_forall in Hrange.
  assert (Hin : ∀ i, i ∈ topk r k → P !! Z.to_nat i = Some (P !!! Z.to_nat i)).
  { intros i Hi. apply list_lookup_lookup_total_lt. specialize (Hrange i Hi). unfold zlen in HP. lia. }
  exists ((λ i, P !!! Z.to_nat i) <$> topk r k). split.
  { apply map_res_pure. intros i Hi. apply py_index_lookup; [by apply Hrange|by apply Hin]. }
  split; [unfold zlen in *; by rewrite -> length_fmap|]. split.
  - apply NoDup_fmap_2_strong; [|done]. intros i j Hi Hj Heq. pose proof (Hrange i Hi). pose proof (Hrange j Hj).
    enough (Z.to_nat i = Z.to_nat j) by lia. eapply (NoDup_lookup P); [by apply positions_NoDup|by apply Hin|].
    rewrite -> Heq. by apply Hin.
  - intros i Hi. apply list_elem_of_fmap in Hi as (j & -> & Hj). eapply list_elem_of_lookup_2. by apply Hin.
Qed.

Lemma update_query_lens_run i n q (s : blend_sparse) :
  0 ≤ i → query_lens (blend_req_metas s) !! Z.to_nat i = Some q →
  update_query_lens i n s =
    (Ok tt, BlendSparse (set_query_lens (<[Z.to_nat i := q - n]> (query_lens (blend_req_metas s))) (blend_req_metas s)) (attn s)).
Proof.
  intros Hi Hlen. unfold update_query_lens, gets_meta, upds. mstep. unfold py_alter.
  rewrite -> (proj2 (Z.ltb_ge i 0)) by lia. rewrite -> (proj2 (Z.ltb_ge i 0)) by lia.
  apply lookup_lt_Some in Hlen as Hlt. rewrite -> (proj2 (Z.leb_gt _ _)) by (unfold zlen; lia). cbn [orb].
  assert (Halt : alter (λ n0, n0 - n) (Z.to_nat i) (query_lens (blend_req_metas s)) =
    <[Z.to_nat i := q - n]> (query_lens (blend_req_metas s))); [|by rewrite -> Halt].
  apply list_eq. intros j. destruct (decide (j = Z.to_nat i)) as [->|Hne].
  - by rewrite -> list_lookup_alter_eq, Hlen, list_lookup_insert_eq by done.
  - by rewrite -> list_lookup_alter_ne, list_lookup_insert_ne by congruence.
Qed.

Lemma blend_request_run D E q row r num_keys (s : blend_sparse) :
  req_ok q row r → 0 ≤ q → 0 ≤ req_idx r →
  py_index (query_start_loc (attn s)) (req_idx r) = Ok (zlen D) →
  py_index (query_start_loc (attn s)) (req_idx r + 1) = Ok (zlen D + q) →
  py_index (block_table (attn s)) (req_idx r) = Ok row → zlen D + q ≤ num_keys →
  query_lens (blend_req_metas s) !! Z.to_nat (req_idx r) = Some q →
  compute_mask (blend_req_metas s) = D ++ replicate (Z.to_nat q) false ++ E →
  ∃ seg, segment_ok q r seg ∧ blend_request bs top_num topk num_keys r s =
    (Ok (need_blend r), BlendSparse
       (set_query_lens (<[Z.to_nat (req_idx r) := kept q r]> (query_lens (blend_req_metas s)))
          (set_mask (D ++ seg ++ E) (blend_req_metas s))) (attn s)).
Proof.
  intros Hok Hq Hi Hstart Hend Hrow Hkeys Hlen Hm. pose proof Hok as [[Hcl Hcb] [Hh Hnb] Hcq [Hp0 Hp]].
  pose proof (count_true_nonneg (chunk_hit_mask r)) as Hcnt. pose proof (zlen_nonneg D).
  unfold blend_request. mstep. rewrite -> Hstart, Hend. mstep. mstep. destruct (need_blend r) eqn:Hb; cbn [negb].
  - symmetry in Hnb. apply Z.ltb_lt in Hnb. mstep. rewrite -> Hrow. mstep.
    assert (Hsel : mask_select (py_slice row (prefix_blk_len r) (prefix_blk_len r + chunks_blk_len r)) (chunk_hit_mask r) =
      Ok (compress (py_slice row (prefix_blk_len r) (prefix_blk_len r + chunks_blk_len r)) (chunk_hit_mask r))).
    { unfold mask_select. rewrite -> py_slice_length by lia. by rewrite -> (proj2 (Z.eqb_eq _ _)) by lia. }
    rewrite -> Hsel. mstep.
    assert (Hk : zlen (py_slice (seqZ 0 num_keys) (zlen D) (zlen D + chunks_len r)) = chunks_len r).
    { assert (Hz : zlen (seqZ 0 num_keys) = num_keys) by (unfold zlen; rewrite -> length_seqZ; lia).
      pose proof (zlen_nonneg (chunk_hit_mask r)). rewrite -> py_slice_length; [lia|nia|rewrite -> Hz; lia]. }
    rewrite -> Hk, Z.eqb_refl. mstep.
    destruct (picked_positions r Hh) as (idx & Hidx & Hzl & Hnd & Hin). rewrite -> Hidx. mstep.
    destruct (update_mask_run D E q r row idx s Hok Hnb Hm Hnd Hin Hzl) as (seg & Hseg & Hrun).
    exists seg. split; [done|]. mrun Hrun. erewrite M_bind_Ok by (by apply (update_query_lens_run _ _ q)).
    cbn [blend_req_metas attn set_mask query_lens]. done.
  - symmetry in Hnb. apply Z.ltb_ge in Hnb. assert (H0 : chunk_hit_blk_len r = 0) by lia.
    assert (Ht0 : top_num 0 = 0) by (pose proof (Htop 0); lia).
    assert (Hkq : kept q r = q) by (unfold kept; rewrite -> H0, Z.mul_0_l, Ht0; lia).
    exists (replicate (Z.to_nat q) true). split.
    + split; [unfold zlen; rewrite -> length_replicate; lia|rewrite -> count_true_replicate, Hkq; lia|].
      intros p Hp1 _. apply lookup_replicate. split; [done|lia].
    + unfold upds. mstep. rewrite -> Hm, segment_fill by (unfold zlen; rewrite -> ?length_replicate; lia).
      rewrite -> length_replicate, Hkq, list_insert_id by done. by destruct s as [[] ?].
Qed.

(** ** The batch *)

Lemma cumsum_index (l : list Z) j : 0 ≤ j ≤ zlen l →
  py_index (0 :: cumsum 0 l) j = Ok (zsum (take (Z.to_nat j) l)).
Proof.
  intros Hj. apply py_index_lookup; [lia|]. enough (Hg : ∀ (n : nat) acc, (n ≤ length l)%nat →
    (acc :: cumsum acc l) !! n = Some (acc + zsum (take n l))) by (apply (Hg _ 0); unfold zlen in Hj; lia).
  clear Hj. induction l as [|x l IH]; intros [|n] acc Hn; cbn [length] in Hn; try lia.
  - cbn. f_equal. lia.
  - cbn. f_equal. lia.
  - change ((acc :: cumsum acc (x :: l)) !! S n) with ((acc + x :: cumsum (acc + x) l) !! n).
    rewrite -> (IH n (acc + x)) by lia. cbn [take]. rewrite -> zsum_cons. f_equal. lia.
Qed.

(** What the loop needs of the requests of a batch with query lengths [L]. *)
Definition rows_ok (L : list Z) (table : list (list Z)) (r : BlendReqMeta) : Prop :=
  ∃ q row, L !! Z.to_nat (req_idx r) = Some q ∧ py_index table (req_idx r) = Ok row ∧ req_ok q row r.

Lemma blend_loop L num_keys rs : ∀ i D pre acc (s : blend_sparse),
  0 ≤ i → req_idx <$> rs = seqZ i (zlen rs) → zlen L = i + zlen rs → Forall (λ q, 0 ≤ q) L → zsum L ≤ num_keys →
  Forall (rows_ok L (block_table (attn s))) rs → query_start_loc (attn s) = 0 :: cumsum 0 L →
  zlen D = zsum (take (Z.to_nat i) L) → zlen pre = i →
  query_lens (blend_req_metas s) = pre ++ drop (Z.to_nat i) L →
  compute_mask (blend_req_metas s) = D ++ replicate (Z.to_nat (zsum (drop (Z.to_nat i) L))) false →
  ∃ segs, Forall3 segment_ok (drop (Z.to_nat i) L) rs segs ∧
    for_fold rs acc (λ acc r, b ← blend_request bs top_num topk num_keys r; mret (acc || b)) s =
    (Ok (acc || existsb need_blend rs), BlendSparse
       (set_query_lens (pre ++ zip_with kept (drop (Z.to_nat i) L) rs)
          (set_mask (D ++ concat segs) (blend_req_metas s))) (attn s)).
Proof.
  induction rs as [|r rs IH]; intros i D pre acc s Hi Hidx HL Hnn Hkeys Hrs Hloc HD Hpre Hlens Hm.
  { rewrite -> drop_ge in * by (unfold zlen in *; cbn in *; lia). exists []. split; [constructor|].
    cbn [for_fold existsb concat]. rewrite -> orb_false_r. cbn [zip_with]. rewrite <- Hlens.
    change (replicate _ false) with (@nil bool) in Hm. rewrite <- Hm. by destruct s as [[] ?]. }
  rewrite -> zlen_cons in *. rewrite -> seqZ_cons in Hidx by (pose proof (zlen_nonneg rs); lia).
  replace (Z.pred (1 + zlen rs)) with (zlen rs) in Hidx by lia. injection Hidx as Hri Hidx.
  apply Forall_cons in Hrs as [(q & row & Hq & Hrow & Hok) Hrs]. rewrite -> Hri in Hq, Hrow.
  pose proof (zlen_nonneg rs) as Hrs0. pose proof (drop_S L q (Z.to_nat i) Hq) as Hdrop.
  replace (S (Z.to_nat i)) with (Z.to_nat (Z.succ i)) in Hdrop by lia.
  assert (Hq0 : 0 ≤ q) by (rewrite -> Forall_lookup in Hnn; by apply (Hnn _ _ Hq)).
  assert (Hn0 : 0 ≤ zsum (drop (Z.to_nat (Z.succ i)) L)) by (apply zsum_nonneg; by apply Forall_drop).
  rewrite -> Hdrop in Hm, Hlens. rewrite -> zsum_cons, Z2Nat.inj_add, replicate_add in Hm by lia.
  assert (Htake : zsum (take (Z.to_nat (Z.succ i)) L) = zlen D + q).
  { rewrite -> Z2Nat.inj_succ by lia. rewrite -> (take_S_r L _ q), zsum_app, HD by done. unfold zsum. simpl. lia. }
  assert (Htot : zlen D + q ≤ num_keys).
  { rewrite <- (take_drop (Z.to_nat (Z.succ i)) L), zsum_app, Htake in Hkeys. lia. }
  destruct (blend_request_run D (replicate (Z.to_nat (zsum (drop (Z.to_nat (Z.succ i)) L))) false) q row r num_keys s)
    as (seg & Hseg & Hrun); try done; [lia| | |by rewrite -> Hri| |].
  { rewrite -> Hri, Hloc, cumsum_index, HD by lia. done. }
  { rewrite -> Hri, Hloc, cumsum_index by lia. f_equal. by rewrite -> Z.add_1_r. }
  { rewrite -> Hri, Hlens. apply list_lookup_middle. unfold zlen in Hpre. lia. }
  set (s1 := BlendSparse _ _) in Hrun.
  destruct (IH (Z.succ i) (D ++ seg) (pre ++ [kept q r]) (acc || need_blend r) s1) as (segs & Hsegs & Hloop); try done; try lia.
  { by rewrite -> zlen_app, (sg_length _ _ _ Hseg), Htake. }
  { rewrite -> zlen_app, Hpre. done. }
  { unfold s1. cbn [blend_req_metas query_lens set_query_lens set_mask]. rewrite -> Hri, Hlens.
    replace (Z.to_nat i) with (length pre + 0)%nat at 1 by (unfold zlen in Hpre; lia).
    rewrite -> insert_app_r. cbn [insert list_insert]. by rewrite <- app_assoc. }
  { unfold s1. cbn [blend_req_metas compute_mask set_query_lens set_mask]. by rewrite <- app_assoc. }
  exists (seg :: segs). rewrite -> Hdrop. split; [by constructor|]. cbn [for_fold].
  erewrite M_bind_Ok; cycle 1.
  { erewrite M_bind_Ok by exact Hrun. reflexivity. }
  cbn beta. fold s1. rewrite -> Hloop. cbn [existsb zip_with concat]. rewrite -> orb_assoc.
  unfold s1. cbn [blend_req_metas attn set_query_lens set_mask requests compute_mask query_lens blend_start_req_idx need_re_index].
  by rewrite <- !app_assoc.
Qed.

End layer.

(** ** A batch built from the plan of the connector *)

Section build.
  Variable bs : Z.
  Hypothesis Hbs : 0 < bs.

(** A new request of the batch, with index [i]: it is planned with chunks, its
    query covers them and its block table too. *)
Definition new_req_ok (L : list Z) (a : attn_metadata) (metadata : UCMBlendConnectorMetadata) (i : Z) (name : string) : Prop :=
  ∃ d first rest q row, dict_get name metadata = Some d ∧ bd_chunks_meta d = first :: rest ∧
    L !! Z.to_nat i = Some q ∧ py_index (block_table a) i = Ok row ∧
    let hits := concat (store_hits <$> bd_chunks_meta d) in
    zlen hits * bs ≤ q ∧ 0 ≤ get_num_blks (start_token_dix first) bs ∧
    get_num_blks (start_token_dix first) bs + zlen hits ≤ zlen row.

(** A request of the metadata comes from the chunks planned for it. *)
Definition describes (metadata : UCMBlendConnectorMetadata) (name : string) (r : BlendReqMeta) : Prop :=
  ∃ d, dict_get name metadata = Some d ∧ chunk_hit_mask r = concat (store_hits <$> bd_chunks_meta d).

Lemma build_loop L a metadata names : ∀ k m,
  0 ≤ k → 0 ≤ blend_start_req_idx m → zlen (seq_lens a) = zlen L →
  (∀ j name, names !! j = Some name → new_req_ok L a metadata (blend_start_req_idx m + k + Z.of_nat j) name) →
  ∃ rs, fold_res (λ m x, d ← dict_index x.2 metadata; add_request bs x.1 (bd_chunks_meta d) (seq_lens a) m)
      m (zip (seqZ k (zlen names)) names) = Ok (set_requests (requests m ++ rs) m) ∧
    Forall2 (describes metadata) names rs ∧ Forall (rows_ok bs L (block_table a)) rs ∧
    req_idx <$> rs = seqZ (blend_start_req_idx m + k) (zlen names).
Proof.
  induction names as [|name names IH]; intros k m Hk Hm Hsl Hok.
  { exists []. split; [|by repeat constructor]. cbn. rewrite -> app_nil_r. by destruct m. }
  rewrite -> zlen_cons, !seqZ_cons by (pose proof (zlen_nonneg names); lia).
  replace (Z.pred (1 + zlen names)) with (zlen names) by lia.
  destruct (Hok 0%nat name eq_refl) as (d & first & rest & q & row & Hd & Hc & Hq & Hrow & Hhq & Hp0 & Hp). rewrite -> Z.add_0_r in *.
  assert (Hdi : dict_index name metadata = Ok d) by (unfold dict_index; by rewrite -> Hd).
  destruct (py_index_in (seq_lens a) (blend_start_req_idx m + k)) as (sl & Hsl' & _).
  { rewrite -> Hsl. apply lookup_lt_Some in Hq. unfold zlen. lia. }
  assert (Hadd : ∃ r, add_request bs k (bd_chunks_meta d) (seq_lens a) m = Ok (set_requests (requests m ++ [r]) m) ∧
    describes metadata name r ∧ req_idx r = blend_start_req_idx m + k ∧ rows_ok bs L (block_table a) r).
  { unfold add_request. rewrite -> Hc, Hsl'. cbn [mbind res_bind]. rewrite <- Hc. eexists. split; [reflexivity|].
    split; [by exists d|]. split; [done|]. exists q, row. split; [done|]. split; [done|]. by split; cbn. }
  destruct Hadd as (r & Hadd & Hdr & Hir & Hrr). set (m1 := set_requests (requests m ++ [r]) m) in *.
  change (zip (k :: seqZ (Z.succ k) (zlen names)) (name :: names)) with ((k, name) :: zip (seqZ (Z.succ k) (zlen names)) names).
  cbn [fold_res fst snd]. rewrite -> Hdi. cbn [mbind res_bind]. rewrite -> Hadd. cbn [mbind res_bind].
  destruct (IH (Z.succ k) m1) as (rs & Hrun & Hdesc & Hrows & Hidx); [lia|done|done| |].
  { intros j name' Hj. specialize (Hok (S j) name' Hj). change (blend_start_req_idx m1) with (blend_start_req_idx m).
    by replace (blend_start_req_idx m + Z.succ k + Z.of_nat j) with (blend_start_req_idx m + k + Z.of_nat (S j)) by lia. }
  exists (r :: rs). rewrite -> Hrun. split; [unfold m1, set_requests; cbn; by rewrite <- app_assoc|].
  split; [by constructor|]. split; [by constructor|].
  csimpl. rewrite -> Hidx, Hir. change (blend_start_req_idx m1) with (blend_start_req_idx m).
  pose proof (zlen_nonneg names). rewrite -> (seqZ_cons (blend_start_req_idx m + k)) by lia. f_equal. f_equal; lia.
Qed.

End build.

Lemma cumsum_length (l : list Z) acc : zlen (cumsum acc l) = zlen l.
Proof. revert acc. induction l as [|x l IH]; intros acc; [done|]. cbn [cumsum]. by rewrite -> !zlen_cons, IH. Qed.

(** The differences of the offsets are the lengths. *)
Lemma query_lens_of_cumsum (l : list Z) :
  zip_with Z.sub (py_from (0 :: cumsum 0 l) 1) (py_upto (0 :: cumsum 0 l) (-1)) = l.
Proof.
  rewrite -> py_from_pos by lia. unfold py_upto, norm_idx. cbn [Z.ltb Z.compare].
  rewrite -> zlen_cons, cumsum_length. pose proof (zlen_nonneg l). rewrite -> Z.max_r by lia.
  replace (Z.to_nat (-1 + (1 + zlen l))) with (length l) by (unfold zlen; lia).
  change (drop (Z.to_nat 1) (0 :: cumsum 0 l)) with (cumsum 0 l). clear. generalize 0. induction l as [|x l IH]; intros acc; [done|].
  cbn [cumsum length take zip_with]. f_equal; [lia|apply IH].
Qed.

Lemma zsum_replicate n x : zsum (replicate n x) = Z.of_nat n * x.
Proof. induction n as [|n IH]; [done|]. cbn [replicate]. rewrite -> zsum_cons, IH. lia. Qed.

Lemma segments_count bs top_num qs rs segs :
  Forall3 (segment_ok bs top_num) qs rs segs → count_true (concat segs) = zsum (zip_with (kept bs top_num) qs rs).
Proof.
  induction 1 as [|q r seg qs rs segs Hseg _ IH]; [done|]. cbn [concat zip_with].
  by rewrite -> count_true_app, zsum_cons, IH, (sg_count _ _ _ _ _ Hseg).
Qed.

Lemma segments_length bs top_num qs rs segs :
  Forall3 (segment_ok bs top_num) qs rs segs → zlen (concat segs) = zsum qs.
Proof.
  induction 1 as [|q r seg qs rs segs Hseg _ IH]; [done|]. cbn [concat].
  by rewrite -> zlen_app, zsum_cons, IH, (sg_length _ _ _ _ _ Hseg).
Qed.

Lemma last_offset (l : list Z) : py_index (0 :: cumsum 0 l) (-1) = Ok (zsum l).
Proof.
  pose proof (cumsum_index l (zlen l) ltac:(pose proof (zlen_nonneg l); lia)) as Hi.
  rewrite -> take_ge in Hi by (unfold zlen; lia). rewrite <- Hi. unfold py_index.
  replace (zlen (0 :: cumsum 0 l)) with (1 + zlen l); [|by rewrite -> zlen_cons, cumsum_length].
  pose proof (zlen_nonneg l). rewrite -> (proj2 (Z.ltb_ge (zlen l) 0)) by lia. cbn [Z.ltb Z.compare].
  by replace (-1 + (1 + zlen l)) with (zlen l) by lia.
Qed.

(** The metadata of a batch before its first layer. *)
Definition batch_meta (forward_mask : list bool) (L : list Z) (n0 : Z) (rs : list BlendReqMeta) : BlendMetaData :=
  BlendMeta rs (py_upto forward_mask (zsum L)) L n0 false.

Lemma build_batch bs forward_mask a L n0 names metadata :
  0 < bs → query_start_loc a = 0 :: cumsum 0 L → 0 ≤ n0 → zlen (seq_lens a) = zlen L →
  (∀ j name, names !! j = Some name → new_req_ok bs L a metadata (n0 + Z.of_nat j) name) →
  ∃ rs, build_sparse_meta bs forward_mask a n0 names metadata = Ok (BlendSparse (batch_meta forward_mask L n0 rs) a) ∧
    Forall2 (describes metadata) names rs ∧ Forall (rows_ok bs L (block_table a)) rs ∧ req_idx <$> rs = seqZ n0 (zlen names).
Proof.
  intros Hbs Hloc Hn0 Hsl Hnew. destruct (build_loop bs L a metadata names 0 (batch_meta forward_mask L n0 []))
    as (rs & Hbuild & Hdesc & Hrows & Hidx); [lia|done|done| |].
  { cbn. intros j name Hj. rewrite -> Z.add_0_r. by apply Hnew. }
  exists rs. split; [|split_and!; [done|done|cbn in Hidx; by rewrite -> Z.add_0_r in Hidx] ].
  unfold build_sparse_meta, reset_blend_meta. rewrite -> Hloc, last_offset. cbn [mbind res_bind].
  rewrite -> query_lens_of_cumsum. fold (batch_meta forward_mask L n0 []). by rewrite -> Hbuild.
Qed.

Lemma reset_mask_run (s : blend_sparse) n0 n : 0 ≤ n0 → 0 ≤ n → blend_start_req_idx (blend_req_metas s) = n0 →
  zlen (compute_mask (blend_req_metas s)) = n0 + n →
  reset_compute_mask s = (Ok tt, BlendSparse (set_mask (replicate (Z.to_nat n0) true ++ replicate (Z.to_nat n) false) (blend_req_metas s)) (attn s)).
Proof.
  intros Hn0 Hn Hs Hm. assert (Hl : length (compute_mask (blend_req_metas s)) = (Z.to_nat n0 + Z.to_nat n)%nat) by (unfold zlen in Hm; lia).
  unfold reset_compute_mask, upds, modify. rewrite -> Hl, Hs, replicate_add.
  pose proof (segment_fill [] (replicate (Z.to_nat n0) false) (replicate (Z.to_nat n) false) 0 n0 true
    eq_refl ltac:(unfold zlen; rewrite -> length_replicate; cbn; lia)) as Hf.
  cbn [app] in Hf. rewrite -> length_replicate in Hf. by rewrite -> Hf.
Qed.

Lemma select_run {B} (l : list B) (mask : list bool) : zlen l = zlen mask →
  mask_select l mask = Ok (compress l mask) ∧ zlen (compress l mask) = count_true mask.
Proof. intros Hl. unfold mask_select. rewrite -> Hl, Z.eqb_refl. split; [done|]. apply compress_length. unfold zlen in Hl. lia. Qed.

(** The part of the layer after the requests: the rows the mask keeps. *)
Lemma layer_run {A} bs top_num topk (query key value : list A) s s1 s2 (need : bool) :
  reset_compute_mask s = (Ok tt, s1) →
  for_fold (requests (blend_req_metas s1)) false (λ acc r, b ← blend_request bs top_num topk (zlen key) r; mret (acc || b)) s1 = (Ok need, s2) →
  let m := blend_req_metas s2 in
  let mask := compute_mask m in
  zlen (slot_mapping (attn s2)) = zlen mask → zlen query = zlen mask → zlen key = zlen mask → zlen value = zlen mask →
  ∃ out s', attention_begin bs top_num topk query key value s = (Ok out, s') ∧
    blend_req_metas s' = (if need then set_re_index true m else m) ∧
    if need then
      query_start_loc (attn s') = py_upto (query_start_loc (attn s2)) 1 ++ cumsum 0 (query_lens m) ∧
      num_actual_tokens (attn s') = zsum (query_lens m) ∧
      zlen out.1.1 = count_true mask ∧ zlen out.1.2 = count_true mask ∧ zlen out.2 = count_true mask
    else out = (query, key, value) ∧ attn s' = attn s2.
Proof.
  intros Hreset Hloop m mask Hslot Hq Hk Hv.
  destruct (select_run _ _ Hslot) as [Hs1 _], (select_run _ _ Hq) as [Hs2 Hz2], (select_run _ _ Hk) as [Hs3 Hz3], (select_run _ _ Hv) as [Hs4 Hz4].
  unfold attention_begin. erewrite M_bind_Ok by exact Hreset. unfold gets_meta at 1. mstep. mrun Hloop. destruct need.
  - unfold upds. mstep. erewrite M_bind_Ok; cycle 1.
    { unfold _update_attn_metadata. mstep. cbn [blend_req_metas attn set_re_index compute_mask]. fold m mask. rewrite -> Hs1. mstep. reflexivity. }
    unfold gets_meta. mstep. cbn [blend_req_metas attn set_re_index compute_mask]. fold m mask. rewrite -> Hs2. mstep. rewrite -> Hs3. mstep.
    rewrite -> Hs4. mstep. eexists _, _. split; [reflexivity|]. by split.
  - eexists _, s2. split; [reflexivity|]. by split.
Qed.

(** C30: After a blend layer the batch is consistent, provided every new request of it
    was planned with chunks ([new_req_ok]; a new request without chunks in the batch
    breaks the agreement, [prefix_request_masked_out]).  For a batch of decoding
    requests followed by such requests, the metadata is built and
    the layer runs; the mask is made of one part per request with as many kept
    tokens as the new query length of that request, every token outside the hit
    blocks is kept, and when a request was blended the offsets, the number of
    tokens and the rows passed on are those of the new lengths. *)
Theorem blend_mask_agrees {A} bs top_num topk forward_mask a L n0 names metadata (query key value : list A) :
  0 < bs → (∀ n, 0 ≤ n → 0 ≤ top_num n ≤ n) →
  (∀ r k, 0 ≤ k ≤ chunk_hit_blk_len r * bs → zlen (topk r k) = k ∧ NoDup (topk r k) ∧
     Forall (λ i, 0 ≤ i < chunk_hit_blk_len r * bs) (topk r k)) →
  query_start_loc a = 0 :: cumsum 0 L → Forall (λ q, 0 ≤ q) L → 0 ≤ n0 → zlen L = n0 + zlen names →
  take (Z.to_nat n0) L = replicate (Z.to_nat n0) 1 → zsum L ≤ zlen forward_mask →
  zlen (seq_lens a) = zlen L → zlen (slot_mapping a) = zsum L →
  zlen query = zsum L → zlen key = zsum L → zlen value = zsum L →
  (∀ j name, names !! j = Some name → new_req_ok bs L a metadata (n0 + Z.of_nat j) name) →
  ∃ s s' out segs, build_sparse_meta bs forward_mask a n0 names metadata = Ok s ∧
    attention_begin bs top_num topk query key value s = (Ok out, s') ∧
    let rs := requests (blend_req_metas s) in
    let m := blend_req_metas s' in
    Forall2 (describes metadata) names rs ∧
    Forall3 (segment_ok bs top_num) (drop (Z.to_nat n0) L) rs segs ∧
    compute_mask m = replicate (Z.to_nat n0) true ++ concat segs ∧
    query_lens m = replicate (Z.to_nat n0) 1 ++ zip_with (kept bs top_num) (drop (Z.to_nat n0) L) rs ∧
    count_true (compute_mask m) = zsum (query_lens m) ∧
    if existsb need_blend rs then
      query_start_loc (attn s') = 0 :: cumsum 0 (query_lens m) ∧
      num_actual_tokens (attn s') = zsum (query_lens m) ∧
      zlen out.1.1 = zsum (query_lens m) ∧ zlen out.1.2 = zsum (query_lens m) ∧ zlen out.2 = zsum (query_lens m)
    else out = (query, key, value) ∧ attn s' = attn s.
Proof.
  intros Hbs Htop Htopk Hloc Hnn Hn0 HL Hdec Hfm Hsl Hslot Hqy Hky Hvl Hnew. pose proof (zsum_nonneg L Hnn) as HL0.
  destruct (build_batch bs forward_mask a L n0 names metadata Hbs Hloc Hn0 Hsl Hnew) as (rs & Hb & Hdesc & Hrows & Hidx).
  set (s := BlendSparse _ a) in Hb. assert (Hzrs : zlen rs = zlen names) by (apply Forall2_length in Hdesc; unfold zlen; lia).
  assert (Hn0L : zsum (take (Z.to_nat n0) L) = n0) by (rewrite -> Hdec, zsum_replicate; lia).
  assert (Hsplit : zsum L = n0 + zsum (drop (Z.to_nat n0) L)) by (rewrite <- (take_drop (Z.to_nat n0) L) at 1; rewrite -> zsum_app; lia).
  assert (Hd0 : 0 ≤ zsum (drop (Z.to_nat n0) L)) by (apply zsum_nonneg; by apply Forall_drop).
  assert (Hmask : zlen (compute_mask (blend_req_metas s)) = n0 + zsum (drop (Z.to_nat n0) L)).
  { rewrite <- Hsplit. unfold s, batch_meta, zlen. cbn. rewrite -> py_upto_pos, length_take by lia. unfold zlen in Hfm. lia. }
  pose proof (reset_mask_run s n0 _ Hn0 Hd0 eq_refl Hmask) as Hreset. set (s1 := BlendSparse (set_mask _ _) _) in Hreset.
  destruct (blend_loop bs top_num topk Hbs Htop Htopk L (zlen key) rs n0 (replicate (Z.to_nat n0) true)
    (replicate (Z.to_nat n0) 1) false s1) as (segs & Hsegs & Hloop);
    [done|by rewrite -> Hidx, Hzrs|lia|done|lia|done|done| | |by rewrite <- Hdec, take_drop|done|].
  { unfold zlen. rewrite -> length_replicate, Hn0L. lia. }
  { unfold zlen. rewrite -> length_replicate. lia. }
  set (s2 := BlendSparse _ _) in Hloop. cbn [orb] in Hloop.
  assert (Hlen2 : zlen (compute_mask (blend_req_metas s2)) = zsum L).
  { cbn. rewrite -> zlen_app, (segments_length _ _ _ _ _ Hsegs). unfold zlen. rewrite -> length_replicate. lia. }
  assert (Hcount : count_true (compute_mask (blend_req_metas s2)) = zsum (query_lens (blend_req_metas s2))).
  { change (compute_mask (blend_req_metas s2)) with (replicate (Z.to_nat n0) true ++ concat segs).
    change (query_lens (blend_req_metas s2)) with (replicate (Z.to_nat n0) 1 ++ zip_with (kept bs top_num) (drop (Z.to_nat n0) L) rs).
    rewrite -> count_true_app, count_true_replicate, zsum_app, zsum_replicate, (segments_count _ _ _ _ _ Hsegs). lia. }
  destruct (layer_run bs top_num topk query key value s s1 s2 _ Hreset Hloop) as (out & s' & Hrun & Hmeta & Hneed);
    [rewrite -> Hlen2; done..|]. exists s, s', out, segs. split; [exact Hb|]. split; [exact Hrun|]. cbv zeta. rewrite -> Hmeta.
  change (requests (blend_req_metas s)) with rs. rewrite -> Hcount in Hneed.
  destruct (existsb need_blend rs); (split; [done|]; split; [done|]; split; [done|]; split; [done|]; split; [exact Hcount|]); [|exact Hneed].
  destruct Hneed as (Hq & Hrest). split; [|exact Hrest]. rewrite -> Hq. change (query_start_loc (attn s2)) with (query_start_loc a). rewrite -> Hloc.
  by rewrite -> py_upto_pos by lia.
Qed.

(** ** Examples *)

(** One decoding request, then a request with a prefix of one block, a chunk part
    of three blocks, two of them stored, and a question of two tokens. *)
Definition ex_blend_attn (L : list Z) : attn_metadata :=
  AttnMeta (0 :: cumsum 0 L) (replicate (length L) 10) (seqZ 50 (zsum L)) (replicate (length L) (seqZ 0 8)) 0 0.

Definition ex_chunks : list ChunkMetaData :=
  [ChunkMeta 2 4 1 2 2 [11; 12] [ [1]; [2] ] [true; false]; ChunkMeta 6 2 3 1 0 [13] [ [3] ] [true] ].

Definition ex_blend_md : UCMBlendConnectorMetadata :=
  [("r", BlendDispatch (DispatchMeta ([], []) ([], [])) ex_chunks);
   ("p", BlendDispatch (DispatchMeta ([], []) ([], [])) [])].

Lemma blend_mask_agrees_witness :
  let L := [1; 8] in
  let q := seqZ 0 9 in
  ∃ s s' out segs, build_sparse_meta 2 (replicate 64 false) (ex_blend_attn L) 1 ["r"] ex_blend_md = Ok s ∧
    attention_begin 2 (λ n, n / 2) (λ _ k, seqZ 0 k) q q q s = (Ok out, s') ∧
    let rs := requests (blend_req_metas s) in
    let m := blend_req_metas s' in
    Forall2 (describes ex_blend_md) ["r"] rs ∧
    Forall3 (segment_ok 2 (λ n, n / 2)) [8] rs segs ∧
    compute_mask m = [true] ++ concat segs ∧
    query_lens m = [1] ++ zip_with (kept 2 (λ n, n / 2)) [8] rs ∧
    count_true (compute_mask m) = zsum (query_lens m) ∧
    if existsb need_blend rs then
      query_start_loc (attn s') = 0 :: cumsum 0 (query_lens m) ∧
      num_actual_tokens (attn s') = zsum (query_lens m) ∧
      zlen out.1.1 = zsum (query_lens m) ∧ zlen out.1.2 = zsum (query_lens m) ∧ zlen out.2 = zsum (query_lens m)
    else out = (q, q, q) ∧ attn s' = attn s.
Proof.
  apply (blend_mask_agrees 2 (λ n, n / 2) (λ _ k, seqZ 0 k) (replicate 64 false) (ex_blend_attn [1; 8]) [1; 8] 1 ["r"]
    ex_blend_md (seqZ 0 9) (seqZ 0 9) (seqZ 0 9)); try reflexivity; try lia.
  - intros n Hn. split; [apply Z.div_pos; lia|apply Z.div_le_upper_bound; lia].
  - intros r k Hk. split; [unfold zlen; rewrite -> length_seqZ; lia|]. split; [apply NoDup_seqZ|].
    apply Forall_forall. intros i Hi. apply elem_of_seqZ in Hi. lia.
  - repeat constructor; discriminate.
  - discriminate.
  - intros [|j] name Hj; [|by destruct j]. injection Hj as <-.
    exists (BlendDispatch (DispatchMeta ([], []) ([], [])) ex_chunks), (ChunkMeta 2 4 1 2 2 [11; 12] [ [1]; [2] ] [true; false]),
      [ChunkMeta 6 2 3 1 0 [13] [ [3] ] [true] ], 8, (seqZ 0 8).
    split; [done|]. split; [done|]. split; [done|]. split; [done|]. vm_compute. repeat split; discriminate.
Defined.

(** A new request without chunks in the same batch is not described: its tokens
    are masked out although its query length stays. *)
Example prefix_request_masked_out :
  match build_sparse_meta 2 (replicate 64 false) (ex_blend_attn [1; 8; 4]) 1 ["r"; "p"] ex_blend_md with
  | Ok s =>
      let s' := (attention_begin 2 (λ n, n / 2) (λ _ k, seqZ 0 k) (seqZ 0 13) (seqZ 0 13) (seqZ 0 13) s).2 in
      query_lens (blend_req_metas s') = [1; 6; 4] ∧ count_true (compute_mask (blend_req_metas s')) = 7 ∧
      num_actual_tokens (attn s') = 11
  | Raise _ => False
  end.
Proof. vm_compute. auto. Qed.
