(* ===== verification/Esa.v ===== *)
(** * Block-sparse attention: ESA

    [ucm/sparse/esa/esa.py].  After the prefill of a long prompt, ESA keeps the
    first and the last blocks of the prompt in the device cache, gives every block
    in between a slot of a pool with a representation of its keys, and frees the
    rest of the cache.  During decoding it asks a native worker for the slots that
    match the query best, every [retrieval_stride] steps, and loads their blocks
    from the store under the identifiers the connector dumped them with.  Queries,
    key representations and the worker are parameters. *)
From S2P Require Import Prelude PyStrings Runtime RankConsistency PyHash Hashing.
Open Scope Z_scope.

(** ** The retrieval worker and the order of sets of integers *)

Class RetrievalOps (W : Type) := {
  (** worker of a layer, [topk], slots *)
  rw_submit : Z → Z → list Z → M W Z;
  rw_wait : Z → Z → M W unit;
  (** [get_result(task)["indices"][0]] *)
  rw_result : Z → Z → M W (list Z);
}.

Class IntSetOrder := { int_set_iter : gset Z → list Z }.
Class IntSetOrderLaws `{IntSetOrder} := { int_set_iter_perm X : int_set_iter X ≡ₚ elements X }.

(** ** Data *)

Record ReprePool := Pool {
  free_slots : gset Z;
  allocated : gset Z;
}.

Record ReqMeta := EsaReq {
  rm_request_id : string;
  rm_index_in_batch : Z;
  rm_num_scheduled_tokens : Z;
  rm_num_computed_tokens : Z;
  rm_vllm_block_ids : list Z;
  rm_query_start_loc : Z;
  rm_prompt_token_ids : list Z;
  rm_output_token_ids : list Z;
  rm_is_preempt : bool;
  rm_ucm_block_hashes : list bytes;
}.

Definition num_prompt_tokens (r : ReqMeta) : Z := zlen (rm_prompt_token_ids r).
Definition num_output_tokens (r : ReqMeta) : Z := zlen (rm_output_token_ids r).
Definition esa_num_tokens (r : ReqMeta) : Z := num_prompt_tokens r + num_output_tokens r.
Definition is_last_chunk (r : ReqMeta) : bool :=
  esa_num_tokens r <=? rm_num_computed_tokens r + rm_num_scheduled_tokens r.

(** The ESA section of the configuration. *)
Record esa_cfg := EsaCfg {
  init_window_sz : Z;
  local_window_sz : Z;
  retrieval_stride : Z;
  min_blocks : Z;
}.

(** What a layer's state is created with. *)
Record layer_conf := LayerConf {
  lc_cfg : esa_cfg;
  lc_layer_id : Z;
  lc_num_layers : Z;
  lc_block_size : Z;
  lc_is_mla : bool;
  (** base address and bytes of a block of the key and the value cache *)
  lc_k_base_ptrs : Z;
  lc_k_block_size : Z;
  lc_v_base_ptrs : Z;
  lc_v_block_size : Z;
  lc_store : sref;
  lc_rope_store : sref;
}.

(** ** Pure functions *)

Definition get_offset (block_shape : Z * Z * Z) (rank tp_size precision layer_id : Z) (is_v is_mla : bool) : Z :=
  let '(block_size, num_key_heads_per_tp, head_size) := block_shape in
  let k_min_data_block_size := block_size * num_key_heads_per_tp * head_size * precision in
  let v_min_data_block_size := if negb is_mla then k_min_data_block_size else 0 in
  let layer_size := (k_min_data_block_size + v_min_data_block_size) * (if negb is_mla then tp_size else 1) in
  let k_offset := if is_mla then layer_size * layer_id
                  else layer_size * layer_id + layer_size / tp_size * rank in
  if is_v then k_offset + k_min_data_block_size else k_offset.

(** [math.ceil(n / m)] *)
Definition ceil_div (n m : Z) : Z := (n + m - 1) / m.

Definition get_sparse_range (init_window_sz local_window_sz prompt_len block_size : Z) : Z :=
  ceil_div prompt_len block_size - init_window_sz - local_window_sz.

Section esa.
  Context {W A R : Type} `{StoreOps W} `{RetrievalOps W} `{SetOrder} `{IntSetOrder} `{PyHash}.
  (** The key representation of a block, [int(n * sparse_ratio)] and
      [hash((tuple(ids), type, tensor))]. *)
  Variable repre : A → option A → R.
  Variable top_num : Z → Z.
  Variable task_hash_func : list bytes → string → string → Z.

(** The map to reach and what is still to load of it. *)
Definition diff_two_map (map1 map2 : dict Z bytes) : res (dict Z bytes * dict Z bytes) :=
  '(updated_map, keys2_set, values2_set) ←
    fold_res (λ (acc : dict Z bytes * gset Z * gset bytes) x,
      let '(updated_map, keys2_set, values2_set) := acc in
      if decide (x.1 ∈ map2.*1 ∧ x.2 ∈ map2.*2) then
        if decide (x.1 ∈ keys2_set ∧ x.2 ∈ values2_set)
        then Ok (dict_set x.1 x.2 updated_map, keys2_set ∖ {[x.1]}, values2_set ∖ {[x.2]})
        else Raise KeyError
      else Ok acc)
    ([], list_to_set map2.*1, list_to_set map2.*2) map1;
  Ok (foldl (λ acc x, (dict_set x.1 x.2 acc.1, dict_set x.1 x.2 acc.2)) (updated_map, [])
        (zip (int_set_iter keys2_set) (set_iter values2_set))).

(** ** The pool of slots *)

Definition init_pool (num_slots : Z) : ReprePool := Pool (list_to_set (py_range 0 num_slots)) ∅.

Definition allocate (num_new_slots : Z) : M ReprePool (list Z) :=
  p ← get;
  assert_ (num_new_slots <=? Z.of_nat (size (free_slots p))) ;;
  let slots := py_upto (int_set_iter (free_slots p)) num_new_slots in
  modify (λ p, Pool (free_slots p ∖ list_to_set slots) (allocated p ∪ list_to_set slots)) ;;
  mret slots.

Definition free (slots : list Z) (p : ReprePool) : ReprePool :=
  Pool (free_slots p ∪ list_to_set slots) (allocated p ∖ list_to_set slots).

(** ** The state of a request in a layer *)

Record ReqStatePerLayer := LayerState {
  slots : list Z;
  slots_to_relative_indexes : dict Z Z;
  retrieval_task : option Z;
  req_meta : option ReqMeta;
  esa_tasks : dict Z task;
  rope_tasks : dict Z task;
  block_hashes : option (list bytes);
  pre_topk_block_hashes : dict Z bytes;
  sparse_range : Z;
  init_static_flag : bool;
  init_window : option (list A * option (list A));
  local_window : option (list A * option (list A));
  step : Z;
}.

Definition new_layer_state : ReqStatePerLayer :=
  LayerState [] [] None None [] [] None [] 0 false None None 0.

(** What the requests of a layer share: the pool and the representations of its
    slots, the device caches. *)
Record layer_env := LayerEnv {
  repre_pool : ReprePool;
  data : gmap Z R;
  k_cache : list A;
  v_cache : option (list A);
}.

Definition set_slots x y s := LayerState x y (retrieval_task s) (req_meta s) (esa_tasks s) (rope_tasks s) (block_hashes s) (pre_topk_block_hashes s) (sparse_range s) (init_static_flag s) (init_window s) (local_window s) (step s).
Definition set_retrieval x s := LayerState (slots s) (slots_to_relative_indexes s) x (req_meta s) (esa_tasks s) (rope_tasks s) (block_hashes s) (pre_topk_block_hashes s) (sparse_range s) (init_static_flag s) (init_window s) (local_window s) (step s).
Definition set_meta x s := LayerState (slots s) (slots_to_relative_indexes s) (retrieval_task s) x (esa_tasks s) (rope_tasks s) (block_hashes s) (pre_topk_block_hashes s) (sparse_range s) (init_static_flag s) (init_window s) (local_window s) (step s).
Definition set_tasks x y s := LayerState (slots s) (slots_to_relative_indexes s) (retrieval_task s) (req_meta s) x y (block_hashes s) (pre_topk_block_hashes s) (sparse_range s) (init_static_flag s) (init_window s) (local_window s) (step s).
Definition set_static x s := LayerState (slots s) (slots_to_relative_indexes s) (retrieval_task s) (req_meta s) (esa_tasks s) (rope_tasks s) x (pre_topk_block_hashes s) (sparse_range s) true (init_window s) (local_window s) (step s).
Definition set_pre_topk x s := LayerState (slots s) (slots_to_relative_indexes s) (retrieval_task s) (req_meta s) (esa_tasks s) (rope_tasks s) (block_hashes s) x (sparse_range s) (init_static_flag s) (init_window s) (local_window s) (step s).
Definition set_sparse_range x s := LayerState (slots s) (slots_to_relative_indexes s) (retrieval_task s) (req_meta s) (esa_tasks s) (rope_tasks s) (block_hashes s) (pre_topk_block_hashes s) x (init_static_flag s) (init_window s) (local_window s) (step s).
Definition set_windows x y s := LayerState (slots s) (slots_to_relative_indexes s) (retrieval_task s) (req_meta s) (esa_tasks s) (rope_tasks s) (block_hashes s) (pre_topk_block_hashes s) (sparse_range s) (init_static_flag s) x y (step s).
Definition set_step x s := LayerState (slots s) (slots_to_relative_indexes s) (retrieval_task s) (req_meta s) (esa_tasks s) (rope_tasks s) (block_hashes s) (pre_topk_block_hashes s) (sparse_range s) (init_static_flag s) (init_window s) (local_window s) x.

Notation LM := (M (ReqStatePerLayer * (layer_env * W))).

Section layer.
  Variable lc : layer_conf.
Let cfg : esa_cfg := lc_cfg lc.

Definition upl (f : ReqStatePerLayer → ReqStatePerLayer) : LM unit := modify (λ s, (f s.1, s.2)).
Definition getl {B} (f : ReqStatePerLayer → B) : LM B := gets (λ s, f s.1).
Definition on_env {B} (m : M layer_env B) : LM B := lift (λ s, s.2.1) (λ e s, (s.1, (e, s.2.2))) m.
Definition on_ext {B} (m : M W B) : LM B := lift (λ s, s.2.2) (λ w s, (s.1, (s.2.1, w))) m.
Definition upe (f : layer_env → layer_env) : M layer_env unit := modify f.

(** An attribute that may still be [None], and what its use then raises. *)
Definition need {B} (e : exn) (o : option B) : LM B :=
  match o with Some b => mret b | None => raise e end.
Definition not_subscriptable : exn := TypeError "'NoneType' object is not subscriptable".

Definition update_meta (r : ReqMeta) : LM unit := upl (set_meta (Some r)).

(** Assigning rows to [n] places: a single row goes to all of them. *)
Definition broadcast {B} (n : nat) (rows : list B) : list B :=
  match rows with [row] => replicate n row | _ => rows end.

(** [cache[ids]] and [cache[ids] = rows] *)
Definition gather (cache : list A) (ids : list Z) : res (list A) := map_res (py_index cache) ids.
Definition scatter (cache : list A) (ids : list Z) (rows : list A) : res (list A) :=
  let rows := broadcast (length ids) rows in
  if zlen ids =? zlen rows then fold_res (λ c x, py_alter (λ _, x.2) c x.1) cache (zip ids rows)
  else Raise (RuntimeError "shape mismatch").

Definition block_addrs (ids : list Z) (block_data_size base : Z) : addr_rows :=
  (λ b, [u64 (u64 (u64 b * block_data_size) + base)]) <$> ids.

Definition launch_transfer_task (transfer_type : string) (hashes : list bytes) (vllm_block_ids : list Z) : LM unit :=
  let shard_indexs := (λ _, lc_layer_id lc) <$> hashes in
  task_k ← on_ext (st_load_data (lc_store lc) hashes shard_indexs
                     (block_addrs vllm_block_ids (lc_k_block_size lc) (lc_k_base_ptrs lc)));
  upl (λ s, set_tasks (dict_set (task_hash_func hashes transfer_type "key") task_k (esa_tasks s)) (rope_tasks s) s) ;;
  if negb (lc_is_mla lc) then
    let v_shard_indexs := (λ _, lc_layer_id lc + lc_num_layers lc) <$> hashes in
    task_v ← on_ext (st_load_data (lc_store lc) hashes v_shard_indexs
                       (block_addrs vllm_block_ids (lc_k_block_size lc) (lc_v_base_ptrs lc)));
    upl (λ s, set_tasks (dict_set (task_hash_func hashes transfer_type "value") task_v (esa_tasks s)) (rope_tasks s) s)
  else
    v ← on_env (gets v_cache);
    match v with
    | None => mret tt
    | Some _ =>
        task_rope ← on_ext (st_load_data (lc_rope_store lc) hashes shard_indexs
                              (block_addrs vllm_block_ids (lc_v_block_size lc) (lc_v_base_ptrs lc)));
        upl (λ s, set_tasks (esa_tasks s) (dict_set (task_hash_func hashes transfer_type "value") task_rope (rope_tasks s)) s)
    end.

(** One representation per block, of the keys and, for a rope cache, its rows. *)
Definition extract_block_repre (e : layer_env) (ids : list Z) : res (list R) :=
  ks ← gather (k_cache e) ids;
  match lc_is_mla lc, v_cache e with
  | true, Some v => vs ← gather v ids; Ok ((λ x, repre x.1 (Some x.2)) <$> zip ks vs)
  | _, _ => Ok ((λ k, repre k None) <$> ks)
  end.

Definition maybe_register_static_data : LM unit :=
  flag ← getl init_static_flag;
  if (flag : bool) then mret tt
  else
    r ← getl req_meta;
    r ← need AttributeError r;
    upl (set_static (Some (rm_ucm_block_hashes r))).

Definition wait_transfer_task_done : LM unit :=
  tasks ← getl esa_tasks;
  for_each tasks (λ x, on_ext (st_wait (lc_store lc) x.2)) ;;
  ropes ← getl rope_tasks;
  for_each ropes (λ x, on_ext (st_wait (lc_rope_store lc) x.2)) ;;
  upl (set_tasks [] []).

Definition start_retrieval : LM unit :=
  range ← getl sparse_range;
  indexes ← getl slots;
  t ← on_ext (rw_submit (lc_layer_id lc) (top_num range) indexes);
  upl (set_retrieval (Some t)).

Definition wait_retrieval_and_start_load : LM unit :=
  t ← getl retrieval_task;
  t ← match t with Some t => mret t | None => raise (TypeError "incompatible function arguments") end;
  on_ext (rw_wait (lc_layer_id lc) t) ;;
  choosed_slots ← on_ext (rw_result (lc_layer_id lc) t);
  index ← getl slots_to_relative_indexes;
  rel_block_ids ← of_res (map_res (λ e, dict_index e index) choosed_slots);
  hashes ← getl block_hashes;
  hashes ← need not_subscriptable hashes;
  hashes ← of_res (map_res (py_index hashes) rel_block_ids);
  range ← getl sparse_range;
  r ← getl req_meta;
  r ← need AttributeError r;
  let vllm_block_ids := py_slice (rm_vllm_block_ids r) (init_window_sz cfg) (init_window_sz cfg + top_num range) in
  let target_map := foldl (λ d x, dict_set x.1 x.2 d) [] (zip vllm_block_ids hashes) in
  pre ← getl pre_topk_block_hashes;
  '(pre, diff_blocks) ← of_res (diff_two_map pre target_map);
  upl (set_pre_topk pre) ;;
  (match diff_blocks with [] => mret tt | _ => launch_transfer_task "load" diff_blocks.*2 diff_blocks.*1 end) ;;
  upl (set_retrieval None).

(** The rows of both caches at some blocks; one tensor without a value cache. *)
Definition clone_rows (e : layer_env) (ids : list Z) : res (list A * option (list A)) :=
  ks ← gather (k_cache e) ids;
  match v_cache e with
  | Some v => vs ← gather v ids; Ok (ks, Some vs)
  | None => Ok (ks, None)
  end.

Definition block_repre_data : LM unit :=
  r ← getl req_meta;
  r ← need AttributeError r;
  let range := get_sparse_range (init_window_sz cfg) (local_window_sz cfg) (num_prompt_tokens r) (lc_block_size lc) in
  upl (set_sparse_range range) ;;
  let ids := rm_vllm_block_ids r in
  e ← on_env get;
  vals ← of_res (extract_block_repre e (py_slice ids (init_window_sz cfg) (init_window_sz cfg + range)));
  new_slots ← on_env (lift repre_pool (λ p e, LayerEnv p (data e) (k_cache e) (v_cache e)) (allocate range));
  upl (λ s,
    let og_len := zlen (slots s) in
    set_slots (slots s ++ new_slots)
      (foldl (λ d x, dict_set x.2 (og_len + x.1) d) (slots_to_relative_indexes s)
         (zip (seqZ 0 (zlen new_slots)) new_slots)) s) ;;
  let vals := broadcast (length new_slots) vals in
  (if zlen new_slots =? zlen vals then mret tt else raise (RuntimeError "shape mismatch")) ;;
  on_env (upe (λ e, LayerEnv (repre_pool e) (list_to_map (zip new_slots vals) ∪ data e) (k_cache e) (v_cache e))) ;;
  let local_window_start := init_window_sz cfg + range in
  first ← of_res (clone_rows e (py_upto ids (init_window_sz cfg)));
  last ← of_res (clone_rows e (py_from ids local_window_start));
  upl (set_windows (Some first) (Some last)).

(** The windows written back to the blocks the request has now. *)
Definition restore_windows : LM unit :=
  r ← getl req_meta;
  r ← need AttributeError r;
  let ids := rm_vllm_block_ids r in
  first ← getl init_window;
  last ← getl local_window;
  last ← need not_subscriptable last;
  first ← need not_subscriptable first;
  let local_window_sz := zlen last.1 in
  let head := py_upto ids (init_window_sz cfg) in
  let tail := py_from ids (- local_window_sz) in
  let write (on : layer_env → res layer_env) : LM unit :=
    e ← on_env get; e ← of_res (on e); on_env (upe (λ _, e)) in
  let write_k ids rows := write (λ e,
    k ← scatter (k_cache e) ids rows; Ok (LayerEnv (repre_pool e) (data e) k (v_cache e))) in
  let write_v ids rows := write (λ e,
    match v_cache e with
    | Some v => v ← scatter v ids rows; Ok (LayerEnv (repre_pool e) (data e) (k_cache e) (Some v))
    | None => Ok e
    end) in
  write_k head first.1 ;;
  (match first.2 with Some v => write_v head v | None => mret tt end) ;;
  write_k tail last.1 ;;
  match last.2 with Some v => write_v tail v | None => mret tt end.

Definition attention_begin : LM unit :=
  maybe_register_static_data ;;
  n ← getl step;
  if retrieval_stride cfg =? 0 then raise ZeroDivisionError
  else if n mod retrieval_stride cfg =? 1 then
    (if n =? 1 then restore_windows ;; start_retrieval ;; wait_retrieval_and_start_load else mret tt) ;;
    tasks ← getl esa_tasks;
    if 0 <? zlen tasks then wait_transfer_task_done else mret tt
  else mret tt.

Definition attention_finished : LM unit :=
  n ← getl step;
  if n =? 0 then
    r ← getl req_meta;
    r ← need AttributeError r;
    if is_last_chunk r then block_repre_data ;; upl (λ s, set_step (step s + 1) s) else mret tt
  else
    if retrieval_stride cfg =? 0 then raise ZeroDivisionError
    else
      (if n mod retrieval_stride cfg =? 2 then start_retrieval else mret tt) ;;
      (if n mod retrieval_stride cfg =? 0 then wait_retrieval_and_start_load else mret tt) ;;
      upl (λ s, set_step (step s + 1) s).

End layer.
End esa.
