(* ===== verification/EsaBatch.v ===== *)
(** * ESA over a batch

    The class [ESA] of [ucm/sparse/esa/esa.py]: one [ReqStatePerLayer] per request
    and layer, created when the layer first sees the request and again when the
    request is resumed after a preemption; the identifiers of the blocks it may
    load; and, in the scheduler, the number of slots a sparse request needs. *)
From S2P Require Import Prelude PyStrings Runtime RankConsistency PyHash Hashing Esa.
Open Scope Z_scope.

Definition INVALID_SLOT : Z := -1.

(** What [__init__] fixes; one [layer_conf] per layer. *)
Record esa_conf := EsaConf {
  ec_cfg : esa_cfg;
  ec_rank : Z;
  ec_is_mla : bool;
  ec_block_size : Z;
  ec_layers : list layer_conf;
  (** the metadata of the request hashers of rank 0 and of this rank *)
  ec_meta : bytes;
  ec_rank_meta : bytes;
}.

(** A request of the engine. *)
Record engine_request := EngineRequest {
  er_prompt_token_ids : list Z;
  er_output_token_ids : list Z;
  er_num_computed_tokens : Z;
  er_block_ids : list (list Z);
}.

(** The attention metadata: offsets of the batch and, for MLA, of its prefill
    part, and the number of decoding requests. *)
Record esa_attn := EsaAttn {
  ea_query_start_loc : list Z;
  ea_prefill : option (list Z);
  ea_decode : bool;
  ea_num_decodes : Z;
}.

Record esa_output := EsaOutput {
  eo_num_scheduled_tokens : dict string Z;
  (** the requests scheduled before and whether they were preempted *)
  eo_cached_reqs : list (string * bool);
}.

Section esa.
  Context {W A R : Type} `{StoreOps W} `{RetrievalOps W} `{SetOrder} `{IntSetOrder} `{PyHash}.
  Variable repre : A → option A → R.
  Variable top_num : Z → Z.
  Variable task_hash_func : list bytes → string → string → Z.
  Variable ec : esa_conf.
Let cfg : esa_cfg := ec_cfg ec.

Record esa := EsaState {
  req_states : dict string (list (option (@ReqStatePerLayer A)));
  layer_envs : list (@layer_env A R);
  esa_block_hashes : dict string (dict Z (list bytes));
  sparse_metadata : list ReqMeta;
  sparse_metadata_prefill : list ReqMeta;
  sparse_metadata_decode : list ReqMeta;
  preempt_req_output_tokens : dict string Z;
}.

Definition set_req_states x s := EsaState x (layer_envs s) (esa_block_hashes s) (sparse_metadata s) (sparse_metadata_prefill s) (sparse_metadata_decode s) (preempt_req_output_tokens s).
Definition set_envs x s := EsaState (req_states s) x (esa_block_hashes s) (sparse_metadata s) (sparse_metadata_prefill s) (sparse_metadata_decode s) (preempt_req_output_tokens s).
Definition set_hashes x s := EsaState (req_states s) (layer_envs s) x (sparse_metadata s) (sparse_metadata_prefill s) (sparse_metadata_decode s) (preempt_req_output_tokens s).
Definition set_sparse_metas x y z s := EsaState (req_states s) (layer_envs s) (esa_block_hashes s) x y z (preempt_req_output_tokens s).
Definition set_preempt x s := EsaState (req_states s) (layer_envs s) (esa_block_hashes s) (sparse_metadata s) (sparse_metadata_prefill s) (sparse_metadata_decode s) x.

Notation EM := (M (esa * W)).
Definition upesa (f : esa → esa) : EM unit := modify (λ s, (f s.1, s.2)).
Definition getesa {B} (f : esa → B) : EM B := gets (λ s, f s.1).

(** [int(layer_name.split(".")[2])] *)
Definition layer_id_of (layer_name : string) : res Z :=
  p ← py_index (split_on "." layer_name) 2; py_int p.

(** The state of a request in a layer; [None] before the layer sees it. *)
Definition layer_state (req_id : string) (layer_id : Z) : EM (option (@ReqStatePerLayer A)) :=
  d ← getesa req_states;
  l ← of_res (dict_index req_id d);
  of_res (py_index l layer_id).

Definition set_layer_state (req_id : string) (layer_id : Z) (x : option (@ReqStatePerLayer A)) : EM unit :=
  d ← getesa req_states;
  l ← of_res (dict_index req_id d);
  l ← of_res (py_alter (λ _, x) l layer_id);
  upesa (λ s, set_req_states (dict_set req_id l (req_states s)) s).

Definition on_layer_env {B} (layer_id : Z) (m : M (@layer_env A R * W) B) : EM B :=
  envs ← getesa layer_envs;
  e ← of_res (py_index envs layer_id);
  s ← get;
  let '(r, (e', w')) := m (e, s.2) in
  envs ← of_res (py_alter (λ _, e') envs layer_id);
  modify (λ s, (set_envs envs s.1, w')) ;;
  of_res r.

(** A method of the state of a request in a layer. *)
Definition on_layer {B} (req_id : string) (layer_id : Z) (m : M (@ReqStatePerLayer A * (@layer_env A R * W)) B) : EM B :=
  st ← layer_state req_id layer_id;
  match st with
  | None => raise AttributeError
  | Some st =>
      '(r, st') ← on_layer_env layer_id (λ x, let '(r, (st', x')) := m (st, x) in (Ok (r, st'), x'));
      set_layer_state req_id layer_id (Some st') ;;
      of_res r
  end.

(** [layer_state.repre_pool.free(layer_state.slots)] *)
Definition free_layer_slots (layer_id : Z) (st : option (@ReqStatePerLayer A)) : EM unit :=
  match st with
  | None => raise AttributeError
  | Some st => on_layer_env layer_id (modify (λ x,
      (LayerEnv (free (slots st) (repre_pool x.1)) (data x.1) (k_cache x.1) (v_cache x.1), x.2)))
  end.

Definition get_or_create_layerwise_req_state (r : ReqMeta) (layer_name : string) : EM Z :=
  layer_id ← of_res (layer_id_of layer_name);
  let req_id := rm_request_id r in
  (if rm_is_preempt r then
     st ← layer_state req_id layer_id;
     free_layer_slots layer_id st ;;
     set_layer_state req_id layer_id None
   else mret tt) ;;
  d ← getesa req_states;
  (match dict_get req_id d with
   | Some _ => mret tt
   | None => upesa (λ s, set_req_states (dict_set req_id (replicate (length (ec_layers ec)) None) (req_states s)) s)
   end) ;;
  st ← layer_state req_id layer_id;
  (match st with
   | Some _ => mret tt
   | None => set_layer_state req_id layer_id (Some new_layer_state)
   end) ;;
  mret layer_id.

Definition create_req_state_attention_begin (layer_name : string) (r : ReqMeta) : EM unit :=
  layer_id ← get_or_create_layerwise_req_state r layer_name;
  lc ← of_res (py_index (ec_layers ec) layer_id);
  on_layer (rm_request_id r) layer_id (
    update_meta r ;;
    Esa.attention_begin top_num task_hash_func lc).

(** The requests a call is about: those of the phase for MLA. *)
Definition batch_requests (phase : option string) : EM (list ReqMeta) :=
  if negb (ec_is_mla ec) then getesa sparse_metadata
  else match phase with
       | Some p =>
           if String.eqb p "prefill" then getesa sparse_metadata_prefill
           else if String.eqb p "decode" then getesa sparse_metadata_decode else mret []
       | None => mret []
       end.

Definition attention_begin (layer_name : string) (phase : option string) : EM unit :=
  rs ← batch_requests phase;
  for_each rs (create_req_state_attention_begin layer_name).

Definition update_req_state_attention_end (layer_name : string) (r : ReqMeta) : EM unit :=
  layer_id ← of_res (layer_id_of layer_name);
  lc ← of_res (py_index (ec_layers ec) layer_id);
  on_layer (rm_request_id r) layer_id (
    update_meta r ;;
    Esa.attention_finished repre top_num task_hash_func lc).

Definition attention_finished (layer_name : string) (phase : option string) : EM unit :=
  rs ← batch_requests phase;
  for_each rs (update_req_state_attention_end layer_name).

(** ** Identifiers and metadata *)

Definition is_sparsed_request (prompt_token_ids : list Z) : bool :=
  ec_block_size ec * min_blocks cfg <=? zlen prompt_token_ids.

(** The loop over the block starts; [parent] is the identifier before. *)
Fixpoint sparse_hashes (token_ids : list Z) (num_total_blocks : Z) (starts : list Z) (parent : bytes) : list bytes :=
  match starts with
  | [] => []
  | start :: starts =>
      let block_idx := start / ec_block_size ec in
      if num_total_blocks - local_window_sz cfg <=? block_idx then sparse_hashes token_ids num_total_blocks starts parent
      else
        let block_token_ids := py_slice token_ids start (start + ec_block_size ec) in
        if zlen block_token_ids <? ec_block_size ec then []
        else
          let hash_value := request_hasher (ec_meta ec) (IObj (PPair parent block_token_ids)) in
          let rest := sparse_hashes token_ids num_total_blocks starts hash_value in
          if init_window_sz cfg <=? block_idx then hash_value :: rest else rest
  end.

Definition compute_block_hashes (token_ids : list Z) : list bytes :=
  let hashes := sparse_hashes token_ids (ceil_div (zlen token_ids) (ec_block_size ec))
    (py_range_step 0 (zlen token_ids) (ec_block_size ec)) (hash_seed (ec_meta ec)) in
  if negb (ec_rank ec =? 0) && negb (ec_is_mla ec)
  then (λ b, request_hasher (ec_rank_meta ec) (IBytes b)) <$> hashes else hashes.

Definition set_block_hashes (req_id : string) (token_ids : list Z) (s : esa) : esa :=
  let by_rank := dict_get_default req_id [] (esa_block_hashes s) in
  if dict_mem (ec_rank ec) by_rank then set_hashes (dict_set req_id by_rank (esa_block_hashes s)) s
  else set_hashes (dict_set req_id (dict_set (ec_rank ec) (compute_block_hashes token_ids) by_rank) (esa_block_hashes s)) s.

(** One scheduled request of [build_sparse_meta]. *)
Definition add_sparse_request (out : esa_output) (requests : dict string engine_request)
    (req_ids : list string) (req_id_to_index : dict string Z) (attn : esa_attn) (x : string * Z) : EM unit :=
  let '(req_id, num_scheduled_tokens) := x in
  r ← of_res (dict_index req_id requests);
  if negb (is_sparsed_request (er_prompt_token_ids r)) then mret tt
  else
    upesa (set_block_hashes req_id (er_prompt_token_ids r)) ;;
    let preempted := bool_decide ((req_id, true) ∈ eo_cached_reqs out) in
    let decoding := bool_decide (req_id ∈ req_ids) &&
                    (dict_get_default req_id 0 (eo_num_scheduled_tokens out) =? 1) in
    let meta index loc :=
      index ← of_res index;
      ids ← of_res (py_index (er_block_ids r) 0);
      loc ← of_res (py_index loc index);
      hashes ← getesa esa_block_hashes;
      by_rank ← of_res (dict_index req_id hashes);
      hashes ← of_res (dict_index (ec_rank ec) by_rank);
      mret (EsaReq req_id index num_scheduled_tokens (er_num_computed_tokens r) ids loc
              (er_prompt_token_ids r) (er_output_token_ids r) preempted hashes) in
    let index := dict_index req_id req_id_to_index in
    if negb (ec_is_mla ec) then
      m ← meta index (ea_query_start_loc attn);
      upesa (λ s, set_sparse_metas (sparse_metadata s ++ [m]) (sparse_metadata_prefill s) (sparse_metadata_decode s) s)
    else if decoding then
      if ea_decode attn then
        m ← meta index (ea_query_start_loc attn);
        upesa (λ s, set_sparse_metas (sparse_metadata s) (sparse_metadata_prefill s) (sparse_metadata_decode s ++ [m]) s)
      else mret tt
    else
      index ← of_res index;
      match ea_prefill attn with
      | None => raise AttributeError
      | Some loc =>
          m ← meta (Ok (index - ea_num_decodes attn)) loc;
          upesa (λ s, set_sparse_metas (sparse_metadata s) (sparse_metadata_prefill s ++ [m]) (sparse_metadata_decode s) s)
      end.

Definition build_sparse_meta (out : esa_output) (requests : dict string engine_request)
    (req_ids : list string) (req_id_to_index : dict string Z) (attn : esa_attn) : EM unit :=
  upesa (set_sparse_metas [] [] []) ;;
  for_each (eo_num_scheduled_tokens out) (add_sparse_request out requests req_ids req_id_to_index attn).

Definition request_finished_in_worker (request_id : string) : EM unit :=
  d ← getesa req_states;
  match dict_get request_id d with
  | None => mret tt
  | Some l =>
      for_each (zip (seqZ 0 (zlen l)) l) (λ x, free_layer_slots x.1 x.2) ;;
      upesa (λ s, set_req_states (dict_del request_id (req_states s)) s)
  end.

(** ** In the scheduler *)

(** A request of the scheduler. *)
Record sched_request := SchedRequest {
  sr_request_id : string;
  sr_preempted : bool;
  sr_prompt_token_ids : list Z;
  sr_num_output_tokens : Z;
  sr_num_computed_tokens : Z;
}.

(** The slots of a compressed prompt. *)
Definition compressed_prompt_len (prompt_len : Z) : Z :=
  let block_size := ec_block_size ec in
  let sparse_range := get_sparse_range (init_window_sz cfg) (local_window_sz cfg) prompt_len block_size in
  let flaw := prompt_len mod block_size in
  let local_window_tokens :=
    if flaw =? 0 then block_size * local_window_sz cfg else flaw + block_size * (local_window_sz cfg - 1) in
  init_window_sz cfg * block_size + top_num sparse_range * block_size + local_window_tokens.

(** The output tokens since the last preemption. *)
Definition true_output_tokens (r : sched_request) (d : dict string Z) : Z :=
  match dict_get (sr_request_id r) d with
  | Some n => sr_num_output_tokens r - n
  | None => sr_num_output_tokens r
  end.

Definition estimate_num_slots_sparsed (r : sched_request) : EM Z :=
  (if sr_preempted r
   then upesa (λ s, set_preempt (dict_set (sr_request_id r) (sr_num_output_tokens r) (preempt_req_output_tokens s)) s)
   else mret tt) ;;
  d ← getesa preempt_req_output_tokens;
  if (sr_num_computed_tokens r =? 0) || (true_output_tokens r d =? 0) || negb (is_sparsed_request (sr_prompt_token_ids r))
  then mret INVALID_SLOT
  else mret (compressed_prompt_len (zlen (sr_prompt_token_ids r)) + sr_num_output_tokens r).

(** The cache manager of the engine: free a request, the blocks a request still
    needs, the free blocks, allocate them, and the blocks of a request. *)
Record kv_cache_manager := KVManager {
  km_free : string → M W unit;
  km_get_num_blocks_to_allocate : string → Z → M W Z;
  km_get_num_free_blocks : M W Z;
  km_allocate_new_blocks : string → Z → M W unit;
  km_req_to_blocks : string → M W (list Z);
}.

Definition on_manager {B} (m : M W B) : EM B := lift snd (λ w s, (s.1, w)) m.

Definition allocate_slots (km : kv_cache_manager) (r : sched_request) (num_slots_sparsed : Z) : EM (option (list Z)) :=
  d ← getesa preempt_req_output_tokens;
  (if true_output_tokens r d =? 1 then on_manager (km_free km (sr_request_id r)) else mret tt) ;;
  n ← on_manager (km_get_num_blocks_to_allocate km (sr_request_id r) num_slots_sparsed);
  avail ← on_manager (km_get_num_free_blocks km);
  if avail <? n then mret None
  else
    on_manager (km_allocate_new_blocks km (sr_request_id r) num_slots_sparsed) ;;
    blocks ← on_manager (km_req_to_blocks km (sr_request_id r));
    mret (Some blocks).

End esa.
