(* ===== verification/EsaProps.v ===== *)
(** * Properties of block-sparse attention

    The pool of slots, the plan of loads, the identifiers of the blocks and the
    life of a request in a layer ([Esa.v], [EsaBatch.v]). *)
From S2P Require Import Prelude PyStrings Runtime RankConsistency Sim PyHash Hashing Esa EsaBatch.
Open Scope Z_scope.

(** ** The pool *)

(** Every slot is free or given out, none is both. *)
Definition pool_ok (num_slots : Z) (p : ReprePool) : Prop :=
  free_slots p ## allocated p ∧ free_slots p ∪ allocated p = list_to_set (py_range 0 num_slots).

Lemma init_pool_ok n : pool_ok n (init_pool n).
Proof. unfold pool_ok, init_pool. cbn. set_solver. Qed.

Section pool.
  Context `{IntSetOrderLaws}.

Lemma int_set_iter_spec X : NoDup (int_set_iter X) ∧ (∀ x, x ∈ int_set_iter X ↔ x ∈ X) ∧
  length (int_set_iter X) = size X.
Proof.
  pose proof (int_set_iter_perm X) as Hp. split; [|split].
  - rewrite -> Hp. apply NoDup_elements.
  - intros x. rewrite -> Hp. apply elem_of_elements.
  - rewrite -> (Permutation_length Hp). done.
Qed.

Lemma allocate_run p n : 0 ≤ n ≤ Z.of_nat (size (free_slots p)) →
  let new := take (Z.to_nat n) (int_set_iter (free_slots p)) in
  allocate n p = (Ok new, Pool (free_slots p ∖ list_to_set new) (allocated p ∪ list_to_set new)) ∧
  NoDup new ∧ zlen new = n ∧ ∀ x, x ∈ new → x ∈ free_slots p.
Proof.
  intros Hn. destruct (int_set_iter_spec (free_slots p)) as (Hnd & Hin & Hl). cbn zeta.
  split; [|split; [|split] ].
  - unfold allocate. mstep. rewrite -> (proj2 (Z.leb_le _ _)) by lia. cbn [assert_]. mstep.
    rewrite -> py_upto_pos by lia. done.
  - rewrite <- (take_drop (Z.to_nat n)), NoDup_app in Hnd. apply Hnd.
  - unfold zlen. rewrite -> length_take, Hl. lia.
  - intros x Hx. apply Hin. rewrite <- (take_drop (Z.to_nat n) (int_set_iter _)). apply elem_of_app. by left.
Qed.

End pool.

(** [allocate] either raises without changing the pool, exactly when it has
    fewer free slots than asked, or gives that many distinct slots that nobody
    held, which [free] gives back, restoring the pool; both keep every slot free or
    given out, never both. *)
Theorem esa_pool_allocate_free `{IntSetOrderLaws} num_slots p n :
  pool_ok num_slots p → 0 ≤ n →
  match allocate n p with
  | (Ok new, p') =>
      zlen new = n ∧ NoDup new ∧
      (∀ x, x ∈ new → x ∈ free_slots p ∧ x ∉ allocated p ∧ 0 ≤ x < num_slots ∧ x ∈ allocated p') ∧
      pool_ok num_slots p' ∧ free new p' = p
  | (Raise e, p') => e = AssertionError ∧ p' = p ∧ Z.of_nat (size (free_slots p)) < n
  end.
Proof.
  intros [Hd Hu] Hn. destruct (decide (n ≤ Z.of_nat (size (free_slots p)))) as [Hle|Hgt].
  - destruct (allocate_run p n) as (-> & Hnd & Hl & Hin); [lia|]. split; [done|]. split; [done|].
    revert Hin. generalize (take (Z.to_nat n) (int_set_iter (free_slots p))). intros new Hin.
    split; [|split].
    + intros x Hx. pose proof (Hin x Hx) as Hf. cbn. repeat split; [done|set_solver|..].
      * assert (x ∈ py_range 0 num_slots) as [? ?]%elem_of_seqZ by (apply (elem_of_list_to_set (C := gset Z)); set_solver). lia.
      * assert (x ∈ py_range 0 num_slots) as [? ?]%elem_of_seqZ by (apply (elem_of_list_to_set (C := gset Z)); set_solver). lia.
      * set_solver.
    + split; cbn; [set_solver|]. rewrite <- Hu. apply set_eq. intros x.
      destruct (decide (x ∈ new)) as [Hx|Hx]; pose proof (Hin x); set_solver.
    + destruct p as [f a]. unfold free. cbn in *. f_equal; apply set_eq; intros x;
        destruct (decide (x ∈ new)) as [Hx|Hx]; pose proof (Hin x); set_solver.
  - unfold allocate. munfold. rewrite -> (proj2 (Z.leb_gt _ _)) by lia. cbn. repeat split; lia.
Qed.

(** ** The plan of loads *)

Lemma foldl_pair {A B C} (f : B → A → B) (g : C → A → C) l : ∀ b c,
  foldl (λ acc x, (f acc.1 x, g acc.2 x)) (b, c) l = (foldl f b l, foldl g c l).
Proof. induction l as [|x l IH]; intros b c; [done|]. apply IH. Qed.

Section diff.
  Context `{IntSetOrderLaws} `{SetOrderLaws}.
  Variable map2 : dict Z bytes.

(** The pairs of the first map that stay. *)
Definition keep (x : Z * bytes) : Prop := x.1 ∈ map2.*1 ∧ x.2 ∈ map2.*2.
#[local] Instance keep_dec x : Decision (keep x).
Proof. unfold keep. apply _. Defined.
Definition kept (l : dict Z bytes) : dict Z bytes := filter keep l.

Lemma kept_fold l : ∀ u ks vs,
  NoDup l.*1 → NoDup l.*2 → (∀ x, x ∈ l → keep x → x.1 ∈ ks ∧ x.2 ∈ vs) → (∀ k, k ∈ l.*1 → k ∉ u.*1) →
  fold_res (λ (acc : dict Z bytes * gset Z * gset bytes) x,
      let '(updated_map, keys2_set, values2_set) := acc in
      if decide (x.1 ∈ map2.*1 ∧ x.2 ∈ map2.*2) then
        if decide (x.1 ∈ keys2_set ∧ x.2 ∈ values2_set)
        then Ok (dict_set x.1 x.2 updated_map, keys2_set ∖ {[x.1]}, values2_set ∖ {[x.2]})
        else Raise KeyError
      else Ok acc) (u, ks, vs) l =
  Ok (u ++ kept l, ks ∖ list_to_set (kept l).*1, vs ∖ list_to_set (kept l).*2).
Proof.
  induction l as [|[k v] l IH]; intros u ks vs Hk Hv Hin Hu.
  { cbn. by rewrite -> app_nil_r, !difference_empty_L. }
  cbn [fold_res]. csimpl in *. apply NoDup_cons in Hk as [Hk Hks]. apply NoDup_cons in Hv as [Hv Hvs].
  unfold kept. destruct (decide (keep (k, v))) as [Hc|Hc].
  - rewrite -> filter_cons_True by done. rewrite -> decide_True by exact Hc. rewrite -> decide_True by (apply (Hin (k, v)); [left|exact Hc]). cbn [mbind res_bind].
    rewrite -> dict_set_fresh by (apply Hu; left). rewrite -> IH; [|done|done| |].
    + csimpl. rewrite <- app_assoc. rewrite -> !difference_difference_l_L. done.
    + intros [k' v'] Hx Hx'. destruct (Hin (k', v')) as [? ?]; [by right|done|]. cbn in *.
      split; apply elem_of_difference; (split; [done|]); intros ->%elem_of_singleton.
      * apply Hk. apply list_elem_of_fmap. by exists (k, v').
      * apply Hv. apply list_elem_of_fmap. by exists (k', v).
    + intros k' Hk'. rewrite -> fmap_app. csimpl. pose proof (Hu k'). set_solver.
  - rewrite -> filter_cons_False by done. rewrite -> decide_False by exact Hc. cbn [mbind res_bind]. apply IH; [done|done| |].
    + intros x Hx. apply Hin. by right.
    + intros k' Hk'. apply Hu. by right.
Qed.

Lemma NoDup_kept l : NoDup l.*1 → NoDup l.*2 → NoDup (kept l).*1 ∧ NoDup (kept l).*2.
Proof.
  intros ??. split; (eapply sublist_NoDup; [eassumption|]); apply fmap_sublist, sublist_filter.
Qed.

Lemma kept_incl l : (kept l).*1 ⊆ map2.*1 ∧ (kept l).*2 ⊆ map2.*2.
Proof.
  split; intros x (y & -> & Hy)%list_elem_of_fmap; apply list_elem_of_filter in Hy as [Hy _]; apply Hy.
Qed.

(** What remains of a set of keys after some were taken. *)
Lemma rest_perm `{Countable B} (l k r : list B) : NoDup l → NoDup k → k ⊆ l →
  r ≡ₚ elements (list_to_set l ∖ list_to_set k : gset B) → k ++ r ≡ₚ l.
Proof.
  intros Hl Hk Hin Hr. rewrite -> Hr. apply NoDup_Permutation; [|done|].
  - apply NoDup_app. split; [done|]. split; [|apply NoDup_elements]. set_solver.
  - intros x. rewrite -> elem_of_app, elem_of_elements. specialize (Hin x).
    destruct (decide (x ∈ k)); set_solver.
Qed.

Lemma diff_two_map_run map1 : NoDup map1.*1 → NoDup map1.*2 → NoDup map2.*1 → NoDup map2.*2 →
  ∃ diff, diff_two_map map1 map2 = Ok (kept map1 ++ diff, diff) ∧
    (kept map1 ++ diff).*1 ≡ₚ map2.*1 ∧ (kept map1 ++ diff).*2 ≡ₚ map2.*2.
Proof.
  intros Hk1 Hv1 Hk2 Hv2. unfold diff_two_map. rewrite -> kept_fold; [|done|done| |set_solver].
  2: { intros x _ [Hx1 Hx2]. by rewrite -> !elem_of_list_to_set. }
  cbn [mbind res_bind]. set (ks := _ ∖ _). set (vs := list_to_set map2.*2 ∖ _).
  destruct (NoDup_kept map1 Hk1 Hv1) as [Hk Hv]. destruct (kept_incl map1) as [Ik Iv].
  pose proof (rest_perm _ _ _ Hk2 Hk Ik (int_set_iter_perm ks)) as Pk.
  pose proof (rest_perm _ _ _ Hv2 Hv Iv (set_iter_perm vs)) as Pv.
  assert (Hl : length (int_set_iter ks) = length (set_iter vs)).
  { apply Permutation_length in Pk, Pv. rewrite -> length_app, !length_fmap in *. lia. }
  assert (Z1 : (zip (int_set_iter ks) (set_iter vs)).*1 = int_set_iter ks) by (apply fst_zip; lia).
  assert (Z2 : (zip (int_set_iter ks) (set_iter vs)).*2 = set_iter vs) by (apply snd_zip; lia).
  assert (Hn : NoDup ((kept map1).*1 ++ int_set_iter ks)) by by rewrite -> Pk.
  apply NoDup_app in Hn as (_ & Hn & Hi). exists (zip (int_set_iter ks) (set_iter vs)).
  rewrite -> (foldl_pair (λ d x, dict_set x.1 x.2 d) (λ d x, dict_set x.1 x.2 d)), !foldl_dict_set_fresh, !fmap_app, !Z1, !Z2; [done|..]; rewrite -> ?Z1; try done; set_solver.
Qed.

End diff.

(** Given the blocks loaded so far, one per place, and the wanted assignment of
    blocks to places, [diff_two_map] never raises; it keeps exactly the pairs whose
    place and block are both still wanted and adds pairs to load, so that the result
    uses each wanted place once and holds each wanted block once, and the only loads
    are the added pairs. *)
Theorem esa_diff_fills_places `{IntSetOrderLaws} `{SetOrderLaws} map1 map2 :
  NoDup map1.*1 → NoDup map1.*2 → NoDup map2.*1 → NoDup map2.*2 →
  ∃ diff, diff_two_map map1 map2 = Ok (kept map2 map1 ++ diff, diff) ∧
    (kept map2 map1 ++ diff).*1 ≡ₚ map2.*1 ∧ (kept map2 map1 ++ diff).*2 ≡ₚ map2.*2 ∧
    (∀ x, x ∈ kept map2 map1 ↔ x ∈ map1 ∧ x.1 ∈ map2.*1 ∧ x.2 ∈ map2.*2).
Proof.
  intros ????. destruct (diff_two_map_run map2 map1) as (d & ? & ? & ?); [done..|].
  exists d. split_and!; try done. intros x. unfold kept. rewrite -> list_elem_of_filter. unfold keep. tauto.
Qed.

(** ** The identifiers of the blocks in between *)

Section hashes.
  Context `{PyHash}.
  Variable ec : esa_conf.
Let bs : Z := ec_block_size ec.
Let init : Z := init_window_sz (ec_cfg ec).
Let local : Z := local_window_sz (ec_cfg ec).

Lemma sparse_hashes_slice meta_eq total l n : meta_eq = ec_meta ec → ∀ k parent, 0 < bs → 0 ≤ k →
  let starts := (λ k, 0 + k * bs) <$> seqZ k (Z.of_nat n) in
  sparse_hashes ec l total starts parent =
  drop (Z.to_nat (init - k)) (take (Z.to_nat (total - local - k)) (hash_blocks meta_eq bs l starts parent)).
Proof.
  intros ->. induction n as [|n IH]; intros k parent Hbs Hk starts; unfold starts; clear starts.
  { change (seqZ k (Z.of_nat 0)) with (@nil Z). csimpl. by rewrite -> take_nil, drop_nil. }
  rewrite -> Nat2Z.inj_succ, seqZ_cons by lia. rewrite -> Z.pred_succ. csimpl. fold bs init local.
  rewrite -> Z.add_0_l, Z.div_mul by lia. destruct (Z.leb_spec (total - local) k) as [Hge|Hlt].
  - rewrite -> (IH (Z.succ k) parent) by lia.
    replace (Z.to_nat (total - local - Z.succ k)) with 0%nat by lia.
    replace (Z.to_nat (total - local - k)) with 0%nat by lia. by rewrite -> !take_0, !drop_nil.
  - case_match; [by rewrite -> take_nil, drop_nil|].
    replace (Z.to_nat (total - local - k)) with (S (Z.to_nat (total - local - Z.succ k))) by lia. cbn [take].
    pose proof (IH (Z.succ k) (request_hasher (ec_meta ec) (IObj (PPair parent (py_slice l (k * bs) (k * bs + bs))))) Hbs ltac:(lia)) as IH'.
    cbn zeta in IH'. destruct (Z.leb_spec init k) as [Hi|Hi].
    + replace (Z.to_nat (init - k)) with 0%nat by lia. rewrite -> IH'.
      replace (Z.to_nat (init - Z.succ k)) with 0%nat by lia. done.
    + replace (Z.to_nat (init - k)) with (S (Z.to_nat (init - Z.succ k))) by lia. cbn [drop]. exact IH'.
Qed.

Lemma compute_block_hashes_slice l : 0 < bs → 0 ≤ init →
  compute_block_hashes ec l =
  rank_block_ids (ec_rank_meta ec) ((ec_rank ec =? 0) || ec_is_mla ec)
    (drop (Z.to_nat init) (take (Z.to_nat (ceil_div (zlen l) bs - local))
       (generate_hash (ec_meta ec) bs l (hash_seed (ec_meta ec))))).
Proof.
  intros Hbs Hi. unfold compute_block_hashes, generate_hash, rank_block_ids, py_range_step. fold bs init local.
  rewrite -> Z.sub_0_r. set (n := (zlen l + bs - 1) / bs).
  assert (0 ≤ n) by (apply Z.div_pos; [pose proof (zlen_nonneg l)|]; lia).
  pose proof (sparse_hashes_slice _ (ceil_div (zlen l) bs) l (Z.to_nat n) eq_refl 0 (hash_seed (ec_meta ec)) Hbs ltac:(lia)) as Hs.
  cbn zeta in Hs. rewrite -> Z2Nat.id, !Z.sub_0_r in Hs by lia. unfold bs in Hs at 2 3. fold bs in Hs.
  rewrite -> Hs. destruct (ec_rank ec =? 0), (ec_is_mla ec); done.
Qed.

End hashes.

Lemma ceil_div_spec a b : 0 < b → ceil_div a b = a / b + (if a mod b =? 0 then 0 else 1).
Proof.
  intros Hb. pose proof (Z.div_mod a b ltac:(lia)) as Hd. pose proof (Z.mod_pos_bound a b Hb) as Hm. unfold ceil_div. symmetry.
  destruct (Z.eqb_spec (a mod b) 0) as [E|E]; [apply (Z.div_unique _ _ _ (b - 1)); lia|apply (Z.div_unique _ _ _ (a mod b - 1)); lia].
Qed.

Lemma ceil_div_full n bs : 0 < bs → 0 ≤ n → n / bs ≤ ceil_div n bs ≤ n / bs + 1.
Proof.
  intros Hbs Hn. unfold ceil_div. split; [apply Z.div_le_mono; lia|].
  replace (n / bs + 1) with ((n + bs) / bs); [apply Z.div_le_mono; lia|].
  replace (n + bs) with (n + 1 * bs) by lia. rewrite -> Z.div_add by lia. done.
Qed.

Lemma esa_ids_slice `{PyHash} ec l :
  0 < ec_block_size ec → 0 ≤ init_window_sz (ec_cfg ec) → 1 ≤ local_window_sz (ec_cfg ec) →
  let ids := rank_block_ids (ec_rank_meta ec) ((ec_rank ec =? 0) || ec_is_mla ec)
               (generate_hash (ec_meta ec) (ec_block_size ec) l (hash_seed (ec_meta ec))) in
  let range := get_sparse_range (init_window_sz (ec_cfg ec)) (local_window_sz (ec_cfg ec)) (zlen l) (ec_block_size ec) in
  zlen (compute_block_hashes ec l) = Z.max 0 range ∧
  ∀ i : nat, Z.of_nat i < range →
    compute_block_hashes ec l !! i = ids !! (Z.to_nat (init_window_sz (ec_cfg ec)) + i)%nat ∧
    is_Some (compute_block_hashes ec l !! i).
Proof.
  intros Hbs Hi Hl ids range. pose proof (zlen_nonneg l) as Hn.
  pose proof (ceil_div_full (zlen l) _ Hbs Hn) as Hc. pose proof (generate_hash_zlen (ec_meta ec) _ l (hash_seed (ec_meta ec)) Hbs) as Hg.
  assert (Hlen : zlen (compute_block_hashes ec l) = Z.max 0 range).
  { rewrite -> compute_block_hashes_slice by done. unfold range, get_sparse_range. unfold rank_block_ids.
    unfold zlen in *. case_match; rewrite -> ?length_fmap, length_drop, length_take; lia. }
  split; [done|]. intros i Hr. split.
  - rewrite -> compute_block_hashes_slice by done. unfold ids, rank_block_ids.
    unfold range, get_sparse_range in Hr. case_match; rewrite -> ?list_lookup_fmap, lookup_drop, lookup_take_lt by lia; done.
  - apply lookup_lt_is_Some. unfold zlen in Hlen. lia.
Qed.

(** The identifiers ESA computes for a prompt are those of the blocks between
    the initial and the local window in the chain the connector dumps the prompt
    under (scoped to the rank as the connector scopes them); with a local window
    there is one for every block that is neither in the initial nor in the local
    window, so none is missing for a partial last block. *)
Theorem esa_hashes_are_connector_ids `{PyHash} ec l :
  0 < ec_block_size ec → 0 ≤ init_window_sz (ec_cfg ec) → 1 ≤ local_window_sz (ec_cfg ec) →
  let ids := rank_block_ids (ec_rank_meta ec) ((ec_rank ec =? 0) || ec_is_mla ec)
               (generate_hash (ec_meta ec) (ec_block_size ec) l (hash_seed (ec_meta ec))) in
  let range := get_sparse_range (init_window_sz (ec_cfg ec)) (local_window_sz (ec_cfg ec)) (zlen l) (ec_block_size ec) in
  zlen (compute_block_hashes ec l) = Z.max 0 range ∧
  ∀ i : nat, Z.of_nat i < range →
    compute_block_hashes ec l !! i = ids !! (Z.to_nat (init_window_sz (ec_cfg ec)) + i)%nat ∧
    is_Some (compute_block_hashes ec l !! i).
Proof. apply esa_ids_slice. Qed.

(** ** The life of a request in a layer *)

Section life.
  Context {W A R : Type} `{StoreOps W} `{RetrievalOps W} `{SetOrder} `{IntSetOrder}.
  Variable repre : A → option A → R.
  Variable top_num : Z → Z.
  Variable task_hash_func : list bytes → string → string → Z.
  Variable lc : layer_conf.
Let stride : Z := retrieval_stride (lc_cfg lc).

Notation LS := (@ReqStatePerLayer A).
Notation LST := (LS * (@layer_env A R * W))%type.

(** The runs of the methods of a layer's state: before every call the request is
    updated, and the device caches, the pool and the stores are in any state other
    requests and layers may have left. *)
Inductive layer_run : bool → LS → Prop :=
  | run_new : layer_run false new_layer_state
  | run_begin r st e w st' e' w' :
      layer_run false st →
      (update_meta r ;; Esa.attention_begin top_num task_hash_func lc) (st, (e, w) : @layer_env A R * W) = (Ok tt, (st', (e', w'))) →
      layer_run true st'
  | run_finished r st e w st' e' w' :
      layer_run true st →
      (update_meta r ;; Esa.attention_finished repre top_num task_hash_func lc) (st, (e, w)) = (Ok tt, (st', (e', w'))) →
      layer_run false st'.

(** What the methods do to the step, the retrieval and the loads. *)
Definition core (s : LS) : Z * option Z * dict Z task * dict Z task :=
  (step s, retrieval_task s, esa_tasks s, rope_tasks s).

Lemma preserves_on_env {B} (P : LS → Prop) (m : M layer_env B) : preserves (λ s : LST, P s.1) (on_env m).
Proof. intros [st [e w] ] Hs. unfold on_env, lift. destruct (m _). exact Hs. Qed.

Lemma preserves_on_ext {B} (P : LS → Prop) (m : M W B) : preserves (λ s : LST, P s.1) (on_ext m).
Proof. intros [st [e w] ] Hs. unfold on_ext, lift. destruct (m _). exact Hs. Qed.

Lemma preserves_need {B} (P : LST → Prop) e (o : option B) : preserves P (need e o : M LST B).
Proof. destruct o; [apply preserves_ret|apply preserves_raise]. Qed.

Lemma preserves_upl (P : LS → Prop) f : (∀ st, P st → P (f st)) → preserves (λ s : LST, P s.1) (upl f).
Proof. intros Hf [st x] Hs. by apply Hf. Qed.

Lemma runs_read {B C} (P : LST → Prop) Q (f : LS → B) (k : B → M LST C) :
  (∀ b, runs (λ s, P s ∧ f s.1 = b) (k b) Q) → runs P (getl f ≫= k) Q.
Proof. intros Hk s Hs. cbn. exact (Hk (f s.1) s (conj Hs eq_refl)). Qed.

Lemma runs_upl (P : LS → Prop) (Q : LS → Prop) f :
  (∀ st, P st → Q (f st)) → runs (λ s : LST, P s.1) (upl f) (λ _ s, Q s.1).
Proof. intros Hf [st x] Hs. by apply Hf. Qed.

(** Commands that leave the step, the retrieval and the loads alone. *)
Ltac quiet := repeat first
  [ apply preserves_bind; [|intros ?] | apply (preserves_on_env (λ st, core st = _)) | apply (preserves_on_ext (λ st, core st = _)) | apply preserves_need
  | apply preserves_ret | apply preserves_raise | apply preserves_gets | apply preserves_of_res
  | (apply (preserves_upl (λ st, core st = _)); intros ? <-; reflexivity)
  | match goal with |- preserves _ (match ?x with _ => _ end) => destruct x end ].

Lemma quiet_restore c : preserves (λ s : LST, core s.1 = c) (restore_windows lc : M LST unit).
Proof. unfold restore_windows. quiet. Qed.

Lemma quiet_register c : preserves (λ s : LST, core s.1 = c) (maybe_register_static_data : M LST unit).
Proof. unfold maybe_register_static_data. quiet. Qed.

Lemma quiet_repre c : preserves (λ s : LST, core s.1 = c) (block_repre_data repre lc : M LST unit).
Proof. unfold block_repre_data. quiet. Qed.

Lemma quiet_meta r c : preserves (λ s : LST, core s.1 = c) (update_meta r : M LST unit).
Proof. unfold update_meta. quiet. Qed.

Definition loading n t (st : LS) : Prop := ∃ ts rs, core st = (n, t, ts, rs) ∧ ts ≠ [].

Lemma loads_launch ty hs ids n t ts rs :
  runs (λ s : LST, core s.1 = (n, t, ts, rs)) (launch_transfer_task task_hash_func lc ty hs ids : M LST unit)
       (λ _ s, loading n t s.1).
Proof.
  unfold launch_transfer_task.
  eapply runs_bind; [apply runs_preserves, (preserves_on_ext (λ st, core st = _))|]. intros k.
  eapply runs_bind; [apply (runs_upl (λ st, core st = _) (loading n t))|].
  { intros st [= ????]. subst. eexists _, _. split; [reflexivity|apply dict_set_nonempty]. }
  intros ?. case_match.
  - eapply runs_bind; [apply runs_preserves, (preserves_on_ext (loading n t))|]. intros k'.
    apply (runs_upl (loading n t) (loading n t)). intros st (ts' & rs' & [= ????] & _). subst. eexists _, _. split; [reflexivity|apply dict_set_nonempty].
  - eapply runs_bind; [apply runs_preserves, (preserves_on_env (loading n t))|]. intros [v|].
    + eapply runs_bind; [apply runs_preserves, (preserves_on_ext (loading n t))|]. intros k'.
      apply (runs_upl (loading n t) (loading n t)). intros st (ts' & rs' & [= ????] & Hts). subst. eexists _, _. split; [reflexivity|exact Hts].
    + apply runs_preserves, preserves_ret.
Qed.

Lemma retrieval_starts n t ts rs :
  runs (λ s : LST, core s.1 = (n, t, ts, rs)) (start_retrieval top_num lc : M LST unit)
       (λ _ s, ∃ t', core s.1 = (n, Some t', ts, rs)).
Proof.
  unfold start_retrieval. do 2 (apply runs_read; intros ?).
  eapply triple_conseq with (P' := λ s : LST, core s.1 = (n, t, ts, rs)); [|tauto|intros ? ? Hq; exact Hq].
  eapply runs_bind; [apply runs_preserves, (preserves_on_ext (λ st, core st = _))|]. intros t'.
  apply (runs_upl (λ st, core st = _) (λ st, ∃ t', core st = (n, Some t', ts, rs))).
  intros st [= ????]. subst. by exists t'.
Qed.

(** Loads of rows only accompany other loads. *)
Definition settled n t (st : LS) : Prop := ∃ ts rs, core st = (n, t, ts, rs) ∧ (ts = [] → rs = []).

(** Passes a command that leaves the core alone. *)
Ltac skip := eapply runs_bind; [apply runs_preserves; quiet|intros ?].

Lemma retrieval_ends n t ts rs : (ts = [] → rs = []) →
  runs (λ s : LST, core s.1 = (n, t, ts, rs)) (wait_retrieval_and_start_load top_num task_hash_func lc : M LST unit)
       (λ _ s, settled n None s.1).
Proof.
  intros Hrs. unfold wait_retrieval_and_start_load. do 14 skip. destruct a12 as [pre diff]. skip.
  eapply (runs_bind _ (λ _ s, settled n t s.1)); [|intros ?].
  - destruct diff.
    + intros s Hs. eexists _, _. split; [exact Hs|exact Hrs].
    + eapply triple_conseq; [apply loads_launch|intros ? Hs; exact Hs|]. intros _ s (ts' & rs' & Hs & Hts).
      eexists _, _. split; [exact Hs|done].
  - apply (runs_upl (settled n t) (settled n None)). intros st (ts' & rs' & [= ????] & Hr). subst.
    eexists _, _. split; [reflexivity|exact Hr].
Qed.

Lemma transfers_end n t ts rs :
  runs (λ s : LST, core s.1 = (n, t, ts, rs)) (wait_transfer_task_done lc : M LST unit)
       (λ _ s, core s.1 = (n, t, [], [])).
Proof.
  unfold wait_transfer_task_done. skip.
  eapply runs_bind; [apply runs_preserves, preserves_for_each; intros; quiet|intros ?]. skip.
  eapply runs_bind; [apply runs_preserves, preserves_for_each; intros; quiet|intros ?].
  apply (runs_upl (λ st, core st = _) (λ st, core st = _)). intros st [= ????]. by subst.
Qed.

Lemma read_step {C} n t ts rs (k : Z → M LST C) Q :
  runs (λ s : LST, core s.1 = (n, t, ts, rs)) (k n) Q → runs (λ s : LST, core s.1 = (n, t, ts, rs)) (getl step ≫= k) Q.
Proof. intros Hk s Hs. specialize (Hk s Hs). injection Hs as <- _ _ _. exact Hk. Qed.

Lemma read_tasks {C} n t ts rs (k : dict Z task → M LST C) Q :
  runs (λ s : LST, core s.1 = (n, t, ts, rs)) (k ts) Q → runs (λ s : LST, core s.1 = (n, t, ts, rs)) (getl esa_tasks ≫= k) Q.
Proof. intros Hk s Hs. specialize (Hk s Hs). injection Hs as _ _ <- _. exact Hk. Qed.

Lemma runs_weaken {B} (P : LST → Prop) (m : M LST B) Q : (∀ s, P s → ∀ a, Q a s) → runs P m (λ _, P) → runs P m Q.
Proof. intros HQ Hm. eapply triple_conseq; [exact Hm|done|]. intros a s Hs. by apply HQ. Qed.

(** What holds of a request before ([false]) and after ([true]) the attention. *)
Definition life_ok (after : bool) (c : Z * option Z * dict Z task * dict Z task) : Prop :=
  let '(n, t, ts, rs) := c in
  0 ≤ n ∧
  (n = 0 → t = None) ∧
  (0 < n → is_Some t ↔ n mod stride ≠ 1 ∧ n mod stride ≠ 2) ∧
  (after = true ∨ n mod stride ≠ 1 → ts = []) ∧
  (ts = [] → rs = []).

Hypothesis stride_ok : 3 <= stride.

Lemma life_settled n t t' ts rs : life_ok false (n, t, ts, rs) →
  (n mod stride = 1 → 0 < n → t' = None) → (n mod stride ≠ 1 → t' = t) → life_ok true (n, t', [], []).
Proof.
  intros (H0n & Ht0 & Ht & Hts & Hrs) Hone Hother. assert (H01 : 0 mod stride = 0) by (apply Z.mod_0_l; lia).
  destruct (decide (n mod stride = 1)) as [Hm|Hm]; [|rewrite -> Hother by done; by split_and!].
  assert (0 < n) by (destruct (decide (n = 0)) as [->|]; lia). rewrite -> Hone by done.
  split_and!; try done. intros _. rewrite <- not_eq_None_Some. naive_solver.
Qed.

(** Waiting for the loads, if there are any. *)
Lemma tasks_waited n t ts rs : (ts = [] → rs = []) →
  runs (λ s : LST, core s.1 = (n, t, ts, rs))
    (tasks ← getl esa_tasks; if 0 <? zlen tasks then wait_transfer_task_done lc else mret tt)
    (λ _ s, core s.1 = (n, t, [], [])).
Proof.
  intros Hrs. apply read_tasks. destruct (Z.ltb_spec 0 (zlen ts)) as [Hl|Hl]; [apply transfers_end|].
  destruct ts; [|rewrite -> zlen_cons in Hl; pose proof (zlen_nonneg ts); lia]. rewrite -> Hrs by done.
  apply runs_preserves, preserves_ret.
Qed.

Lemma begin_ok c : life_ok false c →
  runs (λ s : LST, core s.1 = c) (Esa.attention_begin top_num task_hash_func lc : M LST unit) (λ _ s, life_ok true (core s.1)).
Proof.
  intros Hc. destruct c as [ [ [n t] ts] rs]. pose proof Hc as (H0n & Ht0 & Ht & Hts & Hrs). unfold Esa.attention_begin. fold stride.
  eapply runs_bind; [apply runs_preserves, quiet_register|intros ?]. apply read_step.
  rewrite -> (proj2 (Z.eqb_neq stride 0)) by lia. destruct (Z.eqb_spec (n mod stride) 1) as [Hm|Hm].
  - assert (Hn : 0 < n) by (destruct (decide (n = 0)) as [->|]; [rewrite -> Z.mod_0_l in Hm|]; lia).
    assert (t = None) as -> by (apply eq_None_not_Some; rewrite -> Ht by lia; lia).
    eapply (runs_bind _ (λ _ s, settled n None s.1)); [|intros ?].
    + destruct (Z.eqb_spec n 1) as [->|].
      * eapply runs_bind; [apply runs_preserves, quiet_restore|intros ?].
        eapply runs_bind; [apply retrieval_starts|intros ?]. apply runs_exists. intros t'. by apply retrieval_ends.
      * intros s Hs. eexists _, _. split; [exact Hs|exact Hrs].
    + apply runs_exists. intros ts'. apply runs_exists. intros rs'. intros s [Hs Hr]. revert s Hs.
      eapply triple_conseq; [by apply tasks_waited|intros s Hs; exact Hs|]. intros ? s Hs. cbn beta in Hs. rewrite -> Hs.
      by apply (life_settled n None None ts rs).
  - intros s Hs. change (life_ok true (core s.1)). rewrite -> Hs. rewrite -> Hts, Hrs by tauto. by apply (life_settled n t t ts rs).
Qed.

(** The next step: started, ended or left alone. *)
Lemma life_next n t t' ts' rs' : life_ok true (n, t, [], []) → 0 < n →
  (n mod stride = 2 → is_Some t') → (n mod stride = 0 → t' = None) → (n mod stride ≠ 2 → n mod stride ≠ 0 → t' = t) →
  (n mod stride ≠ 0 → ts' = []) → (ts' = [] → rs' = []) → life_ok false (n + 1, t', ts', rs').
Proof.
  intros (H0n & Ht0 & Ht & _) Hn Hstart Hend Hother Hts Hrs. specialize (Ht Hn).
  pose proof (Z.mod_pos_bound n stride ltac:(lia)) as Hb.
  split_and!; [lia|lia| | |done]; intros Hx; rewrite -> mod_succ in * by lia.
  - destruct (decide (n mod stride = 2)) as [E2|E2]; [rewrite -> E2 in *; case_decide; split; [lia|auto|lia|auto]|].
    destruct (decide (n mod stride = 0)) as [E0|E0].
    + rewrite -> Hend by done. rewrite -> E0. rewrite -> is_Some_alt, decide_False by lia. lia.
    + rewrite -> Hother, Ht by done. case_decide; lia.
  - apply Hts. intros E0. rewrite -> E0, decide_False in Hx by lia. destruct Hx as [|Hx]; [done|lia].
Qed.

Lemma step_ends n t ts rs : life_ok false (n + 1, t, ts, rs) →
  runs (λ s : LST, core s.1 = (n, t, ts, rs)) (upl (λ s, set_step (step s + 1) s)) (λ _ s, life_ok false (core s.1)).
Proof.
  intros Hl. apply (runs_upl (λ st, core st = _) (λ st, life_ok false (core st))). intros st [= ????]. by subst.
Qed.

Lemma finished_ok c : life_ok true c →
  runs (λ s : LST, core s.1 = c) (Esa.attention_finished repre top_num task_hash_func lc : M LST unit) (λ _ s, life_ok false (core s.1)).
Proof.
  intros Hc. destruct c as [ [ [n t] ts] rs]. pose proof Hc as (H0n & Ht0 & Ht & Hts & Hrs).
  rewrite -> Hts, Hrs by auto. rewrite -> Hts, Hrs in Hc by auto. clear Hts Hrs. unfold Esa.attention_finished. fold stride. apply read_step.
  rewrite -> (proj2 (Z.eqb_neq stride 0)) by lia. destruct (Z.eqb_spec n 0) as [->|Hn].
  - rewrite -> Ht0 by done. do 2 skip. case_match.
    + eapply runs_bind; [apply runs_preserves, quiet_repre|intros ?]. apply step_ends.
      split_and!; try done. intros _. rewrite -> Z.mod_1_l by lia. rewrite -> is_Some_alt. lia.
    + intros s Hs. change (life_ok false (core s.1)). rewrite -> Hs. split_and!; done.
  - assert (0 < n) by lia. destruct (Z.eqb_spec (n mod stride) 2) as [E2|E2].
    + eapply runs_bind; [apply retrieval_starts|intros ?]. apply runs_exists. intros t'.
      rewrite -> (proj2 (Z.eqb_neq (n mod stride) 0)) by lia.
      eapply runs_bind; [apply runs_preserves, preserves_ret|intros ?]. apply step_ends.
      apply (life_next n t); try done. lia.
    + eapply runs_bind; [apply runs_preserves, preserves_ret|intros ?]. destruct (Z.eqb_spec (n mod stride) 0) as [E0|E0].
      * eapply runs_bind; [by apply retrieval_ends|intros ?]. apply runs_exists. intros ts'. apply runs_exists. intros rs' s [Hs Hr].
        revert s Hs. apply step_ends. by apply (life_next n t).
      * eapply runs_bind; [apply runs_preserves, preserves_ret|intros ?]. apply step_ends. by apply (life_next n t).
Qed.

Lemma run_life after st : layer_run after st → life_ok after (core st).
Proof.
  assert (Hmeta : ∀ (f : M LST unit) r after st e w st' e' w', life_ok after (core st) →
    (∀ c, life_ok after c → runs (λ s : LST, core s.1 = c) f (λ _ s, life_ok (negb after) (core s.1))) →
    (update_meta r ;; f) (st, (e, w)) = (Ok tt, (st', (e', w'))) → life_ok (negb after) (core st')).
  { intros f r af s e w s' e' w' Hl Hf Hr.
    pose proof (runs_bind _ _ _ _ (λ _, f) (runs_preserves _ _ (quiet_meta r (core s))) (λ _, Hf _ Hl) (s, (e, w)) eq_refl) as Hs.
    cbn beta in Hs. rewrite -> Hr in Hs. exact Hs. }
  induction 1 as [|r st e w st' e' w' _ IH Hr|r st e w st' e' w' _ IH Hr].
  - by split_and!.
  - exact (Hmeta _ _ false _ _ _ _ _ _ IH begin_ok Hr).
  - exact (Hmeta _ _ true _ _ _ _ _ _ IH finished_ok Hr).
Qed.

End life.


(** ** The slots of a prompt *)

(** Splits a run that returns. *)
Ltac split_run H a s1 Ha := apply M_Ok_inv in H as (a & s1 & Ha & H).

Section slots.
  Context {W A R : Type} `{StoreOps W} `{RetrievalOps W} `{SetOrder} `{IntSetOrderLaws}.
  Variable repre : A → option A → R.
  Variable lc : layer_conf.

Lemma index_slots (l : list Z) : ∀ (d : dict Z Z) k, NoDup l → (∀ x, x ∈ l → x ∉ d.*1) →
  (∀ i x, l !! i = Some x →
     dict_get x (foldl (λ d x, dict_set x.2 (0 + x.1) d) d (zip (seqZ k (zlen l)) l)) = Some (k + Z.of_nat i)) ∧
  (∀ x, x ∉ l → dict_get x (foldl (λ d x, dict_set x.2 (0 + x.1) d) d (zip (seqZ k (zlen l)) l)) = dict_get x d).
Proof.
  induction l as [|y l IH]; intros d k Hnd Hd; [done|]. apply NoDup_cons in Hnd as [Hy Hnd].
  rewrite -> zlen_cons, seqZ_cons by (pose proof (zlen_nonneg l); lia).
  replace (Z.pred (1 + zlen l)) with (zlen l) by lia. cbn [zip zip_with foldl fst snd].
  destruct (IH (dict_set y (0 + k) d) (Z.succ k) Hnd) as [IHin IHout].
  { intros x Hx. rewrite -> dict_set_keys. intros [->|Hxd]; [done|]. apply (Hd x); [by right|done]. }
  split.
  - intros [|i] x Hi; cbn in Hi; simplify_eq.
    + rewrite -> IHout by done. rewrite -> dict_get_set_eq. f_equal. lia.
    + rewrite -> (IHin i x) by done. f_equal. lia.
  - intros x [Hne Hx]%not_elem_of_cons. rewrite -> IHout by done. by rewrite -> dict_get_set_ne.
Qed.

Lemma list_to_map_zip_lookup {V} (ks : list Z) (vs : list V) i k v :
  NoDup ks → ks !! i = Some k → vs !! i = Some v → length ks = length vs →
  (list_to_map (zip ks vs) : gmap Z V) !! k = Some v.
Proof.
  intros Hnd Hk Hv Hl. apply elem_of_list_to_map_1; [rewrite -> fst_zip by lia; done|].
  apply list_elem_of_lookup. exists i. by rewrite -> lookup_zip_with, Hk, Hv.
Qed.

Lemma extract_lookup e ids vals : extract_block_repre repre lc e ids = Ok vals →
  length vals = length ids ∧
  ∀ i b, ids !! i = Some b → ∃ k v, py_index (k_cache e) b = Ok k ∧ vals !! i = Some (repre k v).
Proof.
  unfold extract_block_repre, gather. intros Hv. res_inv Hv. pose proof (map_res_length _ _ _ Hx) as Hl.
  apply map_res_Forall2 in Hx. destruct (lc_is_mla lc), (v_cache e) as [vc|]; try res_inv Hv; simplify_eq.
  1: pose proof (map_res_length _ _ _ Hx0) as Hl0.
  all: split; [rewrite -> length_fmap; rewrite -> ?length_zip; lia|].
  all: intros i b Hb; pose proof (Forall2_lookup_l _ _ _ _ _ Hx Hb) as (k & Hk & Hkb).
  - destruct (lookup_lt_is_Some_2 x0 i) as [v Hv]; [apply lookup_lt_Some in Hb; lia|].
    exists k, (Some v). by rewrite -> list_lookup_fmap, lookup_zip_with, Hk, Hv.
  - exists k, None. by rewrite -> list_lookup_fmap, Hk.
  - exists k, None. by rewrite -> list_lookup_fmap, Hk.
  - exists k, None. by rewrite -> list_lookup_fmap, Hk.
Qed.

End slots.

(** Running [block_repre_data] on a state without slots. *)
Lemma block_repre_run {W A R} `{StoreOps W} `{RetrievalOps W} `{SetOrder} `{IntSetOrderLaws}
    (repre : A → option A → R) lc st e w st' e' w' r :
  let range := get_sparse_range (init_window_sz (lc_cfg lc)) (local_window_sz (lc_cfg lc)) (num_prompt_tokens r) (lc_block_size lc) in
  req_meta st = Some r → slots st = [] → slots_to_relative_indexes st = [] → 0 ≤ range →
  (block_repre_data repre lc : M (_ * (_ * W)) unit) (st, (e, w)) = (Ok tt, (st', (e', w'))) →
  ∃ new vals,
    allocate range (repre_pool e) = (Ok new, repre_pool e') ∧
    extract_block_repre repre lc e (py_slice (rm_vllm_block_ids r) (init_window_sz (lc_cfg lc)) (init_window_sz (lc_cfg lc) + range)) = Ok vals ∧
    length new = length (broadcast (length new) vals) ∧
    sparse_range st' = range ∧ slots st' = new ∧ block_hashes st' = block_hashes st ∧
    slots_to_relative_indexes st' = foldl (λ d x, dict_set x.2 (0 + x.1) d) [] (zip (seqZ 0 (zlen new)) new) ∧
    data e' = list_to_map (zip new (broadcast (length new) vals)) ∪ data e.
Proof.
  intros range Hr Hs Hi Hrange Hrun. destruct st. cbn in Hr, Hs, Hi. subst. unfold block_repre_data in Hrun.
  do 4 (erewrite M_bind_Ok in Hrun by reflexivity; cbn [fst snd] in Hrun). fold range in Hrun.
  split_run Hrun vals s1 Hvals. unfold of_res in Hvals. injection Hvals as Hvals <-.
  split_run Hrun new s1 Hnew. unfold on_env, lift in Hnew. cbn [fst snd repre_pool] in Hnew.
  destruct (allocate range (repre_pool e)) as [[new'|] p] eqn:Ha; [|done]. injection Hnew as -> <-.
  erewrite M_bind_Ok in Hrun by reflexivity; cbn [fst snd] in Hrun.
  cbn zeta in Hrun. destruct (zlen new =? zlen (broadcast (length new) vals)) eqn:Hl; [|done]. apply Z.eqb_eq in Hl.
  do 2 (erewrite M_bind_Ok in Hrun by reflexivity; cbn [fst snd] in Hrun).
  split_run Hrun wf s1 Hf. unfold of_res in Hf. injection Hf as _ <-.
  split_run Hrun wl s1 Hf. unfold of_res in Hf. injection Hf as _ <-.
  injection Hrun as <- <- _. exists new, vals. split_and!; try done. unfold zlen in Hl. lia.
Qed.


(** ** The slots of a sparse request *)

Lemma compressed_len_shape ec (top_num : Z → Z) p : 0 < ec_block_size ec → 0 ≤ p →
  let blocks := init_window_sz (ec_cfg ec) +
    top_num (get_sparse_range (init_window_sz (ec_cfg ec)) (local_window_sz (ec_cfg ec)) p (ec_block_size ec)) +
    local_window_sz (ec_cfg ec) in
  compressed_prompt_len top_num ec p = p + (blocks - ceil_div p (ec_block_size ec)) * ec_block_size ec.
Proof.
  intros Hbs Hp blocks. unfold blocks, compressed_prompt_len. set (range := get_sparse_range _ _ _ _).
  set (bs := ec_block_size ec) in *. pose proof (Z.div_mod p bs ltac:(lia)) as Hd. pose proof (Z.mod_pos_bound p bs Hbs) as Hm.
  rewrite -> ceil_div_spec by done. destruct (p mod bs =? 0) eqn:E; [apply Z.eqb_eq in E|]; lia.
Qed.

(** The number of slots asked for a sparse request: it is computed without
    error, and in decoding it holds the initial window, the blocks to retrieve and
    the local window exactly - so many blocks with the offset of the prompt's last
    block unchanged - plus the output, and never more than the dense request would
    need. *)
Theorem esa_estimate_exact {W A R} ec (top_num : Z → Z) r (s : @esa A R * W) :
  0 < ec_block_size ec → (∀ n, 0 ≤ n → 0 ≤ top_num n ≤ n) → 0 ≤ sr_num_output_tokens r →
  let p := zlen (sr_prompt_token_ids r) in
  let range := get_sparse_range (init_window_sz (ec_cfg ec)) (local_window_sz (ec_cfg ec)) p (ec_block_size ec) in
  ∃ n s', estimate_num_slots_sparsed top_num ec r s = (Ok n, s') ∧ s'.2 = s.2 ∧
    (n = INVALID_SLOT ∨
     is_sparsed_request ec (sr_prompt_token_ids r) = true ∧
     ceil_div (n - sr_num_output_tokens r) (ec_block_size ec) =
       init_window_sz (ec_cfg ec) + top_num range + local_window_sz (ec_cfg ec) ∧
     (n - sr_num_output_tokens r) mod ec_block_size ec = p mod ec_block_size ec ∧
     (0 ≤ range → n ≤ p + sr_num_output_tokens r)).
Proof.
  intros Hbs Htop Ho p range. pose proof (zlen_nonneg (sr_prompt_token_ids r)) as Hp. fold p in Hp.
  unfold estimate_num_slots_sparsed.
  destruct (sr_preempted r); mstep; mstep; destruct (_ || _) eqn:Hc; eexists _, _; (split; [reflexivity|]); (split; [done|]);
    try (by left); right; apply orb_false_iff in Hc as [_ Hc]; apply negb_false_iff in Hc; (split; [done|]);
    rewrite -> Z.add_simpl_r, compressed_len_shape by done; fold p range; unfold ceil_div; cbn zeta;
    set (k := _ - _ / _); (split; [|split]).
  all: try (by rewrite -> Z.mod_add by lia).
  1, 3: replace (p + k * ec_block_size ec + ec_block_size ec - 1) with (p + ec_block_size ec - 1 + k * ec_block_size ec) by lia;
    rewrite -> Z.div_add by lia; unfold k; lia.
  all: intros Hr; specialize (Htop range Hr); unfold range, get_sparse_range, ceil_div in *; unfold k; nia.
Qed.

(** ** A concrete run *)

#[export] Instance sim_int_order : IntSetOrder := {| int_set_iter := elements |}.
#[export] Instance sim_int_order_laws : IntSetOrderLaws.
Proof. split. done. Defined.

(** A worker that always chooses slot 3. *)
#[export] Instance sim_retrieval : RetrievalOps sim := {|
  rw_submit := λ layer topk slots, mret 7;
  rw_wait := λ layer t, mret tt;
  rw_result := λ layer t, mret [3];
|}.

Definition sim_esa_cfg : esa_cfg := EsaCfg 1 1 3 2.
Definition sim_layer : layer_conf := LayerConf sim_esa_cfg 0 1 2 false 1000 16 2000 16 0 1.
Definition sim_ec : esa_conf := EsaConf sim_esa_cfg 0 false 2 [sim_layer] [] [].
Definition sim_prompt : list Z := [5; 6; 7; 8; 9; 10; 11].
Definition sim_req (hashes : list bytes) : ReqMeta :=
  EsaReq "r" 0 7 0 [0; 1; 2; 3] 0 sim_prompt [] false hashes.
Definition sim_env : @layer_env Z Z :=
  LayerEnv (init_pool 4) ∅ [100; 101; 102; 103; 104; 105] (Some [200; 201; 202; 203; 204; 205]).

Lemma esa_pool_allocate_free_witness : pool_ok 4 (init_pool 4) ∧
  match allocate 2 (init_pool 4) with
  | (Ok new, p') =>
      zlen new = 2 ∧ NoDup new ∧
      (∀ x, x ∈ new → x ∈ free_slots (init_pool 4) ∧ x ∉ allocated (init_pool 4) ∧ 0 ≤ x < 4 ∧ x ∈ allocated p') ∧
      pool_ok 4 p' ∧ free new p' = init_pool 4
  | (Raise e, p') => e = AssertionError ∧ p' = init_pool 4 ∧ Z.of_nat (size (free_slots (init_pool 4))) < 2
  end.
Proof. split; [apply init_pool_ok|]. apply (esa_pool_allocate_free 4 (init_pool 4) 2); [apply init_pool_ok|lia]. Defined.

Lemma esa_diff_fills_places_witness :
  ∃ diff, diff_two_map [(3, [1]); (4, [2])] [(4, [2]); (5, [9])] = Ok ([(4, [2])] ++ diff, diff) ∧
    ([(4, [2])] ++ diff).*1 ≡ₚ [4; 5] ∧ ([(4, [2])] ++ diff).*2 ≡ₚ [[2]; [9]].
Proof.
  destruct (esa_diff_fills_places [(3, [1]); (4, [2])] [(4, [2]); (5, [9])]) as (d & Hd & Hk & Hv & _).
  - by apply (bool_decide_unpack _).
  - by apply (bool_decide_unpack _).
  - by apply (bool_decide_unpack _).
  - by apply (bool_decide_unpack _).
  - by exists d.
Defined.

Lemma esa_estimate_exact_witness :
  let r := SchedRequest "r" false sim_prompt 3 7 in
  let s := (EsaState [] [] [] [] [] [] [], sim_init [] []) : @esa Z Z * sim in
  ∃ n s', estimate_num_slots_sparsed (λ n, n / 2) sim_ec r s = (Ok n, s') ∧ s'.2 = s.2 ∧
    (n = INVALID_SLOT ∨
     is_sparsed_request sim_ec sim_prompt = true ∧ ceil_div (n - 3) 2 = 1 + 1 + 1 ∧ (n - 3) mod 2 = 7 mod 2 ∧
     (0 ≤ 2 → n ≤ 7 + 3)).
Proof.
  intros r s. apply (esa_estimate_exact sim_ec (λ n, n / 2) r s); [reflexivity| |done].
  intros n Hn. split; [apply Z.div_pos|apply Z.div_le_upper_bound]; lia.
Defined.

Definition sim_repre (k : Z) (v : option Z) : Z := k.
Definition sim_top (n : Z) : Z := n / 2.
Definition sim_world : sim := sim_init [(0, [1]); (0, [2])] [].
Definition sim_begin : M (@ReqStatePerLayer Z * (@layer_env Z Z * sim)) unit :=
  update_meta (sim_req [ [1]; [2] ]) ;; Esa.attention_begin sim_top (λ _ _ _, 0) sim_layer.
Definition sim_finished : M (@ReqStatePerLayer Z * (@layer_env Z Z * sim)) unit :=
  update_meta (sim_req [ [1]; [2] ]) ;; Esa.attention_finished sim_repre sim_top (λ _ _ _, 0) sim_layer.

Lemma sim_run_begin s : layer_run sim_repre sim_top (λ _ _ _, 0) sim_layer false s.1 → (sim_begin s).1 = Ok tt →
  layer_run sim_repre sim_top (λ _ _ _, 0) sim_layer true (sim_begin s).2.1.
Proof.
  destruct s as [st [e w] ]. cbn [fst]. intros Hs Hok. destruct (sim_begin (st, (e, w))) as [r [st' [e' w'] ] ] eqn:E. cbn in Hok. subst.
  by eapply run_begin.
Qed.

Lemma sim_run_finished s : layer_run sim_repre sim_top (λ _ _ _, 0) sim_layer true s.1 → (sim_finished s).1 = Ok tt →
  layer_run sim_repre sim_top (λ _ _ _, 0) sim_layer false (sim_finished s).2.1.
Proof.
  destruct s as [st [e w] ]. cbn [fst]. intros Hs Hok. destruct (sim_finished (st, (e, w))) as [r [st' [e' w'] ] ] eqn:E. cbn in Hok. subst.
  by eapply run_finished.
Qed.

(** A prompt, then three decoding steps: the retrieval started at step 2 is
    under way when step 3 has to wait for it. *)
Definition sim_decoded (n : nat) : @ReqStatePerLayer Z * (@layer_env Z Z * sim) :=
  Nat.iter n (λ s, (sim_finished (sim_begin s).2).2) (new_layer_state, (sim_env, sim_world)).


