(* ===== verification/KVStar.v ===== *)
(** * Block-sparse attention: KVStar

    [ucm/sparse/kvstar/multistep.py] and [utils.py].  Like ESA, KVStar keeps the
    first and the last blocks of a long prompt and loads, every
    [retrieval_stride] decoding steps, the blocks in between that match the recent
    queries best; the queries of a group of steps are collected and the retrieval of
    a group runs while the next one is decoded.  The representation of the keys,
    the retrieval worker and the store are parameters. *)
From S2P Require Import Prelude PyStrings Runtime RankConsistency PyHash Hashing Esa EsaBatch.
Open Scope Z_scope.

(** ** Utilities *)

Definition kv_get_offset (block_shape : Z * Z * Z) (rank tp_size precision layer_id : Z) (is_v is_mla : bool) : Z :=
  let '(block_size, num_key_heads_per_tp, head_size) := block_shape in
  let k_min_data_block_size := block_size * num_key_heads_per_tp * head_size * precision in
  let v_min_data_block_size := if negb is_mla then k_min_data_block_size else 0 in
  let layer_size := (k_min_data_block_size + v_min_data_block_size) * tp_size in
  let k_offset := if is_mla then layer_size * layer_id else layer_size * layer_id + layer_size / tp_size * rank in
  if is_v then k_offset + k_min_data_block_size else k_offset.

Definition compute_layer_offset (block_data_size layer_id : Z) (is_v is_mla : bool) : Z :=
  let layer_data_size := if is_mla then block_data_size else block_data_size * 2 in
  let k_offset := layer_data_size * layer_id in
  if is_mla then k_offset
  else if is_v then k_offset + block_data_size else k_offset.

(** [int.from_bytes(b, byteorder="big")] *)
Definition from_bytes_big (b : bytes) : Z := foldl (λ n x, n * 256 + x) 0 b.

Definition md5_int `{PyHash} (o : pyobj) : Z := from_bytes_big (md5 (pickle_dumps o)).

Definition block_hash_func `{PyHash} (parent_block_hash : option Z) (curr_block_token_ids : list Z) : Z :=
  let parent := match parent_block_hash with
                | None | Some 0 => md5_int (PStr "UCMHASHSEED")
                | Some p => p
                end in
  md5_int (PLong parent curr_block_token_ids).

Definition compute_parent_block_hash `{PyHash} (model_name : string) (world_size : Z) (dtype : string) (seed_rank : Z) : Z :=
  from_bytes_big (md5 (Pickle.str_bytes (model_name +:+ ":" +:+ pretty world_size +:+ ":" +:+ dtype +:+ ":" +:+ pretty seed_rank)
                       ++ Pickle.str_bytes "UCM_HASH_SEED")).

(** [str(b)] of bytes: the text of a bytes literal. *)
Definition kv_hex_digit (n : Z) : ascii := ascii_of_N (Z.to_N (if n <? 10 then 48 + n else 87 + n)).
Definition quote_char : Z := 39.
Definition double_quote_char : Z := 34.
Definition escape_byte (quote c : Z) : string :=
  if (c =? quote) || (c =? 92) then String (ascii_of_N 92) (String (ascii_of_N (Z.to_N c)) "")
  else if c =? 9 then "\t" else if c =? 10 then "\n" else if c =? 13 then "\r"
  else if (c <? 32) || (127 <=? c) then "\x" +:+ String (kv_hex_digit (c / 16)) (String (kv_hex_digit (c mod 16)) "")
  else String (ascii_of_N (Z.to_N c)) "".
Definition str_of_bytes (b : bytes) : string :=
  let quote := if bool_decide (quote_char ∈ b) && negb (bool_decide (double_quote_char ∈ b)) then double_quote_char else quote_char in
  let q := String (ascii_of_N (Z.to_N quote)) "" in
  "b" +:+ q +:+ foldr String.append "" (escape_byte quote <$> b) +:+ q.

(** *** CPU binding *)

(** [topology[numa_id].setdefault(core_id, logical_cpu_id)] per line of [lscpu -e]. *)
Definition topology_step (topology : dict Z (dict Z Z)) (line : string) : res (dict Z (dict Z Z)) :=
  match words line with
  | w0 :: w1 :: _ :: w3 :: _ =>
      logical_cpu_id ← py_int w0; numa_id ← py_int w1; core_id ← py_int w3;
      let cores := dict_get_default numa_id [] topology in
      Ok (dict_set numa_id (if dict_mem core_id cores then cores else dict_set core_id logical_cpu_id cores) topology)
  | _ => Ok topology
  end.

Definition get_physical_core_topology (lscpu : string) : res (dict Z (list Z)) :=
  topology ← (fold_res topology_step [] (drop 1 (split_on "010" (strip lscpu))) : res (dict Z (dict Z Z)));
  Ok ((λ x : Z * dict Z Z, (x.1, merge_sort Z.le x.2.*2)) <$> (topology : dict Z (dict Z Z))).

Definition pair_le (x y : Z * Z) : Prop := x.1 < y.1 ∨ (x.1 = y.1 ∧ x.2 ≤ y.2).
#[export] Instance pair_le_dec x y : Decision (pair_le x y).
Proof. unfold pair_le. apply _. Defined.

(** [take n] is [int(n * ratio)]. *)
Definition get_bind_cpus_for_rank (take : Z → Z) (lscpu : string) (world_size rank_id : Z) : res (list (Z * Z) * list Z) :=
  physical_core_map ← get_physical_core_topology lscpu;
  match physical_core_map with
  | [] => Ok ([], [])
  | _ =>
      if world_size =? 0 then Raise ZeroDivisionError
      else
        let sorted_numa_ids := merge_sort Z.le physical_core_map.*1 in
        let cores numa_id := (λ c, (c, numa_id)) <$> dict_get_default numa_id [] physical_core_map in
        let numas_per_rank := zlen physical_core_map / world_size in
        if 0 <? numas_per_rank then
          let alloc_numa_ids := py_slice sorted_numa_ids (rank_id * numas_per_rank) (rank_id * numas_per_rank + numas_per_rank) in
          let bind_info_list := concat ((λ n, py_upto (cores n) (take (zlen (cores n)))) <$> alloc_numa_ids) in
          Ok (merge_sort pair_le bind_info_list, alloc_numa_ids)
        else
          let all_physical_cores_with_numa := concat (cores <$> sorted_numa_ids) in
          let cores_per_rank := zlen all_physical_cores_with_numa / world_size in
          if cores_per_rank =? 0 then Ok ([], sorted_numa_ids)
          else
            let rank_core_share := py_slice all_physical_cores_with_numa (rank_id * cores_per_rank) (rank_id * cores_per_rank + cores_per_rank) in
            Ok (merge_sort pair_le (py_upto rank_core_share (take (zlen rank_core_share))), sorted_numa_ids)
  end.

(** ** Requests *)

Record KvReqMeta := KvReq {
  kr_request_id : string;
  kr_index_in_batch : Z;
  kr_num_prompt_tokens : Z;
  kr_num_output_tokens : Z;
  kr_num_scheduled_tokens : Z;
  kr_num_computed_tokens : Z;
  kr_num_sparsed_tokens : Z;
  kr_vllm_block_ids : list Z;
  kr_token_blk_size : Z;
  kr_prompt_token_ids : list Z;
  kr_query_start_loc : Z;
  kr_query_len : Z;
  kr_retrieval_stride : Z;
  kr_block_hashes : list string;
}.

(** [stage == ReqStage.PREFILL] *)
Definition is_prefill (r : KvReqMeta) : bool := negb (0 <? kr_num_output_tokens r).
Definition kv_is_last_chunk (r : KvReqMeta) : bool :=
  kr_num_prompt_tokens r <=? kr_num_computed_tokens r + kr_num_scheduled_tokens r.

(** The places in the query group that the queries of this step go to. *)
Definition query_offload_info (r : KvReqMeta) : res (option (list Z)) :=
  let stride := kr_retrieval_stride r in
  if is_prefill r then
    let pos := kr_num_computed_tokens r + kr_num_scheduled_tokens r in
    if pos <? kr_num_prompt_tokens r - stride then Ok None
    else
      let valid_end := stride - (kr_num_prompt_tokens r - pos) in
      let valid_num := Z.min valid_end (kr_num_scheduled_tokens r) in
      Ok (Some (py_range (valid_end - valid_num) valid_end))
  else if stride =? 0 then Raise ZeroDivisionError
  else Ok (Some [kr_num_output_tokens r mod stride]).

(** The KVStar section of the configuration. *)
Record kv_cfg := KvCfg { kc_init_window_sz : Z; kc_local_window_sz : Z; kc_retrieval_stride : Z }.

(** What a layer's state is created with: the bytes of a block in a cache too. *)
Record kv_layer_conf := KvLayerConf {
  kl_cfg : kv_cfg;
  kl_layer_id : Z;
  kl_block_size : Z;
  kl_block_data_size : Z;
}.

(** [UcmKVStoreBase] as KVStar uses it: a tensor is a block of the key ([false])
    or value cache of the layer. *)
Class KVStoreBase (W : Type) := {
  kb_load : list string → list Z → list (bool * Z) → M W task;
  kb_wait : task → M W Z;
}.

(** [kvstar_retrieve]: queries, representations, pruned channels, top-k, request;
    the result is [None] when the status is not SUCCESS. *)
Class KVRetrieve (W Q R D : Type) := {
  kv_submit : list Q → list R → option D → Z → Z → M W Z;
  kv_wait : Z → M W unit;
  kv_result : Z → M W (option (list Z));
}.

(** [l.remove(x)] *)
Fixpoint remove_first {B} `{EqDecision B} (x : B) (l : list B) : list B :=
  match l with
  | [] => []
  | y :: l => if decide (x = y) then l else y :: remove_first x l
  end.

Definition record_prefill : string := "prefill".
Definition record_decode (step : Z) : string := "decode" +:+ pretty step.

Section kvstar.
  Context {W A Q R D : Type} `{KVStoreBase W} `{KVRetrieve W Q R D}.
  (** The representations of some blocks, with the channels kept; [int] of the
      sparse ratio times a count, rounded up; the hash of a transfer. *)
  Variable repre : list A → list R * option D.
  Variable top_num : Z → Z.
  Variable task_hash_func : list string → string → string → Z.

Record KvLayerState := KvState {
  kv_meta : KvReqMeta;
  (** [None] for a prompt without representations; the empty tensor at first *)
  blk_repre : option (list R);
  d_pruned_index : option D;
  kv_block_hashes : list string;
  kv_init_window : option (list A * list A);
  kv_local_window : option (list A * list A);
  kv_registered : bool;
  blk_trans_tasks : dict Z task;
  standby_query_group : dict string (list (option Q));
  do_retrieve_query_group : dict string (list Q);
  step_group_retrieve_result : dict string (list string);
  task_waiter : dict string Z;
  pre_swap_area : dict Z string;
}.

Definition new_kv_state (r : KvReqMeta) : KvLayerState := KvState r (Some []) None [] None None false [] [] [] [] [] [].

Definition set_kv_meta x s := KvState x (blk_repre s) (d_pruned_index s) (kv_block_hashes s) (kv_init_window s) (kv_local_window s) (kv_registered s) (blk_trans_tasks s) (standby_query_group s) (do_retrieve_query_group s) (step_group_retrieve_result s) (task_waiter s) (pre_swap_area s).
Definition set_repre x y s := KvState (kv_meta s) x y (kv_block_hashes s) (kv_init_window s) (kv_local_window s) (kv_registered s) (blk_trans_tasks s) (standby_query_group s) (do_retrieve_query_group s) (step_group_retrieve_result s) (task_waiter s) (pre_swap_area s).
Definition set_registered x s := KvState (kv_meta s) (blk_repre s) (d_pruned_index s) x (kv_init_window s) (kv_local_window s) true (blk_trans_tasks s) (standby_query_group s) (do_retrieve_query_group s) (step_group_retrieve_result s) (task_waiter s) (pre_swap_area s).
Definition set_kv_windows x y s := KvState (kv_meta s) (blk_repre s) (d_pruned_index s) (kv_block_hashes s) x y (kv_registered s) (blk_trans_tasks s) (standby_query_group s) (do_retrieve_query_group s) (step_group_retrieve_result s) (task_waiter s) (pre_swap_area s).
Definition set_trans_tasks x s := KvState (kv_meta s) (blk_repre s) (d_pruned_index s) (kv_block_hashes s) (kv_init_window s) (kv_local_window s) (kv_registered s) x (standby_query_group s) (do_retrieve_query_group s) (step_group_retrieve_result s) (task_waiter s) (pre_swap_area s).
Definition set_groups x y s := KvState (kv_meta s) (blk_repre s) (d_pruned_index s) (kv_block_hashes s) (kv_init_window s) (kv_local_window s) (kv_registered s) (blk_trans_tasks s) x y (step_group_retrieve_result s) (task_waiter s) (pre_swap_area s).
Definition set_results x s := KvState (kv_meta s) (blk_repre s) (d_pruned_index s) (kv_block_hashes s) (kv_init_window s) (kv_local_window s) (kv_registered s) (blk_trans_tasks s) (standby_query_group s) (do_retrieve_query_group s) x (task_waiter s) (pre_swap_area s).
Definition set_waiter x s := KvState (kv_meta s) (blk_repre s) (d_pruned_index s) (kv_block_hashes s) (kv_init_window s) (kv_local_window s) (kv_registered s) (blk_trans_tasks s) (standby_query_group s) (do_retrieve_query_group s) (step_group_retrieve_result s) x (pre_swap_area s).
Definition set_pre_swap x s := KvState (kv_meta s) (blk_repre s) (d_pruned_index s) (kv_block_hashes s) (kv_init_window s) (kv_local_window s) (kv_registered s) (blk_trans_tasks s) (standby_query_group s) (do_retrieve_query_group s) (step_group_retrieve_result s) (task_waiter s) x.

(** The caches of the layer, shared by its requests. *)
Record kv_env := KvEnv { kv_k_cache : list A; kv_v_cache : list A }.

Notation KM := (M (KvLayerState * (kv_env * W))).

Section layer.
  Variable kl : kv_layer_conf.
Let cfg : kv_cfg := kl_cfg kl.
Let stride : Z := kc_retrieval_stride cfg.

Definition upk (f : KvLayerState → KvLayerState) : KM unit := modify (λ s, (f s.1, s.2)).
Definition getk {B} (f : KvLayerState → B) : KM B := gets (λ s, f s.1).
Definition on_kext {B} (m : M W B) : KM B := lift (λ s, s.2.2) (λ w s, (s.1, (s.2.1, w))) m.

Definition kv_needs {B} (e : exn) (o : option B) : KM B := match o with Some b => mret b | None => raise e end.
Definition the_meta : KM KvReqMeta := getk kv_meta.

(** The caches are [None] before they are registered. *)
Definition the_caches : KM kv_env :=
  ok ← getk kv_registered;
  if (ok : bool) then gets (λ s, s.2.1) else raise (TypeError "'NoneType' object is not subscriptable").

Definition kv_write (ids : list Z) (rows : list A * list A) : KM unit :=
  e ← the_caches;
  k ← of_res (scatter (kv_k_cache e) ids rows.1);
  v ← of_res (scatter (kv_v_cache e) ids rows.2);
  modify (λ s, (s.1, (KvEnv k v, s.2.2))).

Definition kv_rows (ids : list Z) : KM (list A * list A) :=
  e ← the_caches;
  k ← of_res (gather (kv_k_cache e) ids);
  v ← of_res (gather (kv_v_cache e) ids);
  mret (k, v).

Definition prepare_init_and_local_window : KM unit :=
  r ← the_meta;
  let ids := kr_vllm_block_ids r in
  first ← getk kv_init_window;
  first ← kv_needs (TypeError "'NoneType' object is not subscriptable") first;
  kv_write (py_upto ids (kc_init_window_sz cfg)) first ;;
  last ← getk kv_local_window;
  match last with
  | None => mret tt
  | Some last => kv_write (py_from ids (- kc_local_window_sz cfg)) last
  end.

Definition construct_init_and_local_window : KM unit :=
  r ← the_meta;
  let ids := kr_vllm_block_ids r in
  first ← kv_rows (py_upto ids (kc_init_window_sz cfg));
  upk (λ s, set_kv_windows (Some first) (kv_local_window s) s) ;;
  let local_window_sz := Z.min (kc_local_window_sz cfg) (zlen (py_from ids (kc_init_window_sz cfg))) in
  if 0 <? local_window_sz then
    last ← kv_rows (py_from ids (- local_window_sz));
    upk (λ s, set_kv_windows (kv_init_window s) (Some last) s)
  else mret tt.

Definition get_retrieve_record (cur_step : Z) : string :=
  if cur_step =? 1 then record_prefill else record_decode (cur_step - stride).

Definition retrieval_async (cur_step topk : Z) : KM unit :=
  let retrieve_record := get_retrieve_record cur_step in
  if topk =? 0 then upk (λ s, set_results (dict_set retrieve_record [] (step_group_retrieve_result s)) s)
  else
    groups ← getk standby_query_group;
    group ← of_res (dict_index retrieve_record groups);
    let query_group := omap id group in
    (match query_group with [] => raise (RuntimeError "stack expects a non-empty TensorList") | _ => mret tt end) ;;
    upk (λ s, set_groups (standby_query_group s) (dict_set retrieve_record query_group (do_retrieve_query_group s)) s) ;;
    s ← get;
    r ← the_meta;
    request_id ← of_res (py_int (kr_request_id r));
    task_id ← (match blk_repre s.1 with
               | None => raise (TypeError "incompatible function arguments")
               | Some rs => on_kext (kv_submit query_group rs (d_pruned_index s.1) topk request_id)
               end);
    upk (λ s, set_waiter (dict_set retrieve_record task_id (task_waiter s)) s).

Definition get_retrieve_candidate_block_ids : KM (list Z) :=
  r ← the_meta;
  b ← getk blk_repre;
  b ← kv_needs AttributeError b;
  mret (py_slice (kr_vllm_block_ids r) (kc_init_window_sz cfg) (top_num (zlen b) + kc_init_window_sz cfg)).

Definition kv_launch_transfer_task (transfer_type : string) (block_hashes : list string) (vllm_block_ids : list Z) : KM unit :=
  let offset is_v := (λ _ : string, compute_layer_offset (kl_block_data_size kl) (kl_layer_id kl) is_v false) <$> block_hashes in
  kv_rows vllm_block_ids ;;
  task_k ← on_kext (kb_load block_hashes (offset false) ((λ b, (false, b)) <$> vllm_block_ids));
  task_v ← on_kext (kb_load block_hashes (offset true) ((λ b, (true, b)) <$> vllm_block_ids));
  upk (λ s, set_trans_tasks (dict_set (task_hash_func block_hashes transfer_type "value") task_v
              (dict_set (task_hash_func block_hashes transfer_type "key") task_k (blk_trans_tasks s))) s).

Definition wait_for_blk_transfer_task_done : KM unit :=
  tasks ← getk blk_trans_tasks;
  for_each tasks (λ x, on_kext (kb_wait x.2) ;; mret tt) ;;
  upk (set_trans_tasks []).

(** The group whose result is loaded at a step. *)
Definition need_retrieve_record (load_step : Z) : string :=
  if load_step <=? stride * 2 then record_prefill
  else record_decode ((ceil_div load_step stride - 3) * stride + 1).

(** The swap area against the new result: the blocks that stay, and what is to be
    loaded where. *)
Definition match_swap_area (area : dict Z string) (candidates : list Z) (hashes : list string) :
    dict Z string * (list Z * list string) :=
  match area with
  | [] => (foldl (λ d x, dict_set x.1 x.2 d) [] (zip candidates hashes), (candidates, hashes))
  | _ =>
      let '(matched, (cand, hs)) := foldl (λ acc blk,
        let '(matched, (cand, hs)) := acc in
        match dict_get blk area with
        | Some h => if decide (h ∈ hs) then (dict_set blk h matched, (remove_first blk cand, remove_first h hs)) else acc
        | None => acc
        end) ([], (candidates, hashes)) candidates in
      (foldl (λ d x, dict_set x.1 x.2 d) matched (zip cand hs), (cand, hs))
  end.

(** Waits for the retrieval of a group, unless its result is there already. *)
Definition wait_retrieve_result (record : string) : KM unit :=
  results ← getk step_group_retrieve_result;
  match dict_get record results with
  | Some _ => mret tt
  | None =>
      waiter ← getk task_waiter;
      t ← of_res (dict_index record waiter);
      on_kext (kv_wait t) ;;
      result ← on_kext (kv_result t);
      groups ← getk standby_query_group;
      of_res (dict_index record groups) ;;
      doing ← getk do_retrieve_query_group;
      upk (λ s, set_groups (dict_del record (standby_query_group s)) (do_retrieve_query_group s) s) ;;
      of_res (dict_index record doing) ;;
      upk (λ s, set_groups (standby_query_group s) (dict_del record (do_retrieve_query_group s)) s) ;;
      match result with
      | None => raise AssertionError
      | Some topk_indices =>
          hashes ← getk kv_block_hashes;
          selected ← of_res (map_res (λ i, py_index hashes (i + kc_init_window_sz cfg)) topk_indices);
          upk (λ s, set_results (dict_set record selected (step_group_retrieve_result s)) s)
      end
  end.

Definition load_retrieve_result_async (load_step : Z) (candidates : list Z) : KM unit :=
  let record := need_retrieve_record load_step in
  wait_retrieve_result record ;;
  results ← getk step_group_retrieve_result;
  hashes ← of_res (match dict_get record results with Some hs => Ok hs | None => Raise AttributeError end);
  if negb (String.eqb record record_prefill) || (load_step =? 1) then
    area ← getk pre_swap_area;
    let '(area, (cand, hs)) := match_swap_area area candidates hashes in
    upk (set_pre_swap area) ;;
    match hs with [] => mret tt | _ => kv_launch_transfer_task "load" hs cand end
  else mret tt.

Definition get_decode_step_record (r : KvReqMeta) : string * Z :=
  let cur_decode_step := kr_num_output_tokens r in
  (record_decode ((cur_decode_step - 1) / stride * stride + 1), (cur_decode_step - 1) mod stride).

Definition save_to_standby (group_record : string) (in_query_group_idx query_relative_idx : Z) (tokens_to_offload : list Q) : KM unit :=
  upk (λ s, if dict_mem group_record (standby_query_group s) then s
            else set_groups (dict_set group_record (replicate (Z.to_nat stride) None) (standby_query_group s)) (do_retrieve_query_group s) s) ;;
  q ← of_res (py_index tokens_to_offload query_relative_idx);
  groups ← getk standby_query_group;
  group ← of_res (dict_index group_record groups);
  group ← of_res (py_alter (λ _, Some q) group in_query_group_idx);
  upk (λ s, set_groups (dict_set group_record group (standby_query_group s)) (do_retrieve_query_group s) s).

Definition offload_prefill_query (query : list Q) (query_len query_start_loc : Z) : KM unit :=
  r ← the_meta;
  info ← of_res (query_offload_info r);
  match info with
  | Some ((_ :: _) as info) =>
      let offload_query_len := zlen info in
      assert_ (offload_query_len <=? query_len) ;;
      let stop := query_start_loc + query_len in
      let tokens_to_offload := py_slice query (stop - offload_query_len) stop in
      for_each (zip (py_range 0 (zlen info)) info) (λ x, save_to_standby record_prefill x.2 x.1 tokens_to_offload)
  | _ => mret tt
  end.

Definition kv_attention_begin (query : list Q) : KM unit :=
  r ← the_meta;
  if is_prefill r then offload_prefill_query query (kr_query_len r) (kr_query_start_loc r)
  else
    b ← getk blk_repre;
    match b with
    | None => mret tt
    | Some _ =>
        assert_ (kr_query_len r =? 1) ;;
        if stride =? 0 then raise ZeroDivisionError
        else
          let step := kr_num_output_tokens r in
          let '(group_record, idx) := get_decode_step_record r in
          save_to_standby group_record idx (kr_query_start_loc r) query ;;
          (if step mod stride =? 0 then
             c ← get_retrieve_candidate_block_ids; retrieval_async (step + 1) (zlen c)
           else mret tt) ;;
          (if step =? 1 then
             prepare_init_and_local_window ;;
             c ← get_retrieve_candidate_block_ids;
             wait_for_blk_transfer_task_done ;;
             retrieval_async step (zlen c) ;;
             load_retrieve_result_async step c
           else mret tt) ;;
          if step mod stride =? 1 then wait_for_blk_transfer_task_done else mret tt
    end.

(** [num_blocks_dumped] stays 0. *)
Definition compute_block_repre (num_blocks_need_dump : Z) : KM unit :=
  r ← the_meta;
  if is_prefill r && kv_is_last_chunk r then
    let all_ids := kr_vllm_block_ids r in
    let ids := py_upto all_ids num_blocks_need_dump in
    last_id ← of_res (py_index ids (-1));
    (if last_id <? 2 then upk (λ s, set_repre None (d_pruned_index s) s)
     else
       rows ← kv_rows ids;
       let '(b, d) := repre rows.1 in
       let d_new s := match d with Some d => Some d | None => d_pruned_index s end in
       upk (λ s, set_repre (if zlen b <=? 2 then None
                            else Some (py_slice b (kc_init_window_sz cfg) (- kc_local_window_sz cfg))) (d_new s) s)) ;;
    construct_init_and_local_window
  else mret tt.

Definition maybe_register_kv_cache : KM unit :=
  ok ← getk kv_registered;
  if (ok : bool) then mret tt
  else r ← the_meta; upk (set_registered (kr_block_hashes r)).

Definition kv_attention_finished : KM unit :=
  r ← the_meta;
  if negb (is_prefill r) then
    if stride =? 0 then raise ZeroDivisionError
    else
      let step := kr_num_output_tokens r in
      if (stride * 2 <=? step) && (step mod stride =? 0) then
        c ← get_retrieve_candidate_block_ids; load_retrieve_result_async (step + 1) c
      else mret tt
  else
    maybe_register_kv_cache ;;
    compute_block_repre ((kr_num_computed_tokens r + kr_num_scheduled_tokens r) / kl_block_size kl).

End layer.
End kvstar.
