(* ===== verification/KVStarBatch.v ===== *)
(** * KVStar over a batch

    The class [KVStarMultiStep] of [ucm/sparse/kvstar/multistep.py]: the states of
    the requests in every layer, the identifiers of their blocks, and the slots
    asked of the scheduler and allocated for a sparse request. *)
From S2P Require Import Prelude PyStrings Runtime RankConsistency PyHash Hashing Esa EsaBatch KVStar.
Open Scope Z_scope.

(** What [__init__] fixes. *)
Record kvstar_conf := KvStarConf {
  kv_model : string;
  kv_world_size : Z;
  kv_dtype : string;
  kv_rank : Z;
  kv_is_mla : bool;
  kv_block_size : Z;
  kv_num_hidden_layers : Z;
  kv_layer_cfg : kv_cfg;
  kv_block_data_size : Z;
  (** the metadata of the request hashers of rank 0 and of this rank *)
  kv_meta_bytes : bytes;
  kv_rank_meta_bytes : bytes;
}.

(** ** Identifiers *)

Section hashes.
  Context `{PyHash}.
  Variable kc : kvstar_conf.

(** The blocks after the first; [parent] is the digest before. *)
Fixpoint kv_hash_from (token_ids : list Z) (starts : list Z) (parent : bytes) : list bytes :=
  match starts with
  | [] => []
  | start :: starts =>
      let block_token_ids := py_slice token_ids start (start + kv_block_size kc) in
      if zlen block_token_ids <? kv_block_size kc then []
      else
        let hash_value := request_hasher (kv_meta_bytes kc) (IObj (PPair parent block_token_ids)) in
        hash_value :: kv_hash_from token_ids starts hash_value
  end.

Definition kv_hash_blocks (token_ids : list Z) : list bytes :=
  match py_range_step 0 (zlen token_ids) (kv_block_size kc) with
  | [] => []
  | start :: starts =>
      let block_token_ids := py_slice token_ids start (start + kv_block_size kc) in
      if zlen block_token_ids <? kv_block_size kc then []
      else
        let parent := compute_parent_block_hash (kv_model kc) (kv_world_size kc) (kv_dtype kc) 0 in
        let hash_value := request_hasher (kv_meta_bytes kc) (IObj (PLong parent block_token_ids)) in
        hash_value :: kv_hash_from token_ids starts hash_value
  end.

Definition kv_compute_block_hashes (token_ids : list Z) : list string :=
  let hashes := str_of_bytes <$> kv_hash_blocks token_ids in
  if negb (kv_rank kc =? 0) && negb (kv_is_mla kc)
  then (λ s, str_of_bytes (request_hasher (kv_rank_meta_bytes kc) (IObj (PStr s)))) <$> hashes
  else hashes.

End hashes.

(** ** The worker *)

(** The attention metadata is the offsets of the batch. *)
Record kv_output := KvOutput {
  ko_num_scheduled_tokens : dict string Z;
  ko_req_sparsed_slots : dict string Z;
}.

Section kvstar.
  Context {W A Q R D : Type} `{KVStoreBase W} `{KVRetrieve W Q R D} `{PyHash}.
  Variable repre : list A → list R * option D.
  Variable top_num : Z → Z.
  Variable task_hash_func : list string → string → string → Z.
  Variable kc : kvstar_conf.

Record kvstar := KvStarState {
  kv_req_states : dict string (list (option (@KvLayerState A Q R D)));
  kv_envs : list (@kv_env A);
  kv_hashes_of : dict Z (dict Z (list string));
  kv_sparse_metadata : list KvReqMeta;
}.

Notation KB := (M (kvstar * W)).
Definition upkv (f : kvstar → kvstar) : KB unit := modify (λ s, (f s.1, s.2)).
Definition getkv {B} (f : kvstar → B) : KB B := gets (λ s, f s.1).

Definition kv_layer_conf_of (layer_id : Z) : kv_layer_conf :=
  KvLayerConf (kv_layer_cfg kc) layer_id (kv_block_size kc) (kv_block_data_size kc).

Definition put_state (req_id : string) (l : list (option (@KvLayerState A Q R D))) : KB unit :=
  upkv (λ s, KvStarState (dict_set req_id l (kv_req_states s)) (kv_envs s) (kv_hashes_of s) (kv_sparse_metadata s)).

Definition create_layerwise_req_state (r : KvReqMeta) (layer_name : string) : KB Z :=
  layer_id ← of_res (layer_id_of layer_name);
  let req_id := kr_request_id r in
  d ← getkv kv_req_states;
  (match dict_get req_id d with
   | Some _ => mret tt
   | None => put_state req_id (replicate (Z.to_nat (kv_num_hidden_layers kc)) None)
   end) ;;
  d ← getkv kv_req_states;
  l ← of_res (dict_index req_id d);
  st ← of_res (py_index l layer_id);
  (match st with
   | Some _ => mret tt
   | None => l ← of_res (py_alter (λ _, Some (new_kv_state r)) l layer_id); put_state req_id l
   end) ;;
  mret layer_id.

(** A method of the state of a request in a layer, over the caches of the layer. *)
Definition on_kv_layer {B} (req_id : string) (layer_id : Z) (m : M (@KvLayerState A Q R D * (@kv_env A * W)) B) : KB B :=
  d ← getkv kv_req_states;
  l ← of_res (dict_index req_id d);
  st ← of_res (py_index l layer_id);
  envs ← getkv kv_envs;
  e ← of_res (py_index envs layer_id);
  match st with
  | None => raise AttributeError
  | Some st =>
      s ← get;
      let '(r, (st', (e', w'))) := m (st, (e, s.2)) in
      l' ← of_res (py_alter (λ _, Some st') l layer_id);
      envs' ← of_res (py_alter (λ _, e') envs layer_id);
      modify (λ s, (KvStarState (dict_set req_id l' (kv_req_states s.1)) envs' (kv_hashes_of s.1) (kv_sparse_metadata s.1), w')) ;;
      of_res r
  end.

Definition update_kv_meta (r : KvReqMeta) : M (@KvLayerState A Q R D * (@kv_env A * W)) unit := upk (set_kv_meta r).

Definition kvstar_attention_begin (query : list Q) (layer_name : string) : KB unit :=
  rs ← getkv kv_sparse_metadata;
  for_each rs (λ r,
    layer_id ← create_layerwise_req_state r layer_name;
    on_kv_layer (kr_request_id r) layer_id (
      update_kv_meta r ;;
      kv_attention_begin top_num task_hash_func (kv_layer_conf_of layer_id) query)).

Definition kvstar_attention_finished (layer_name : string) : KB unit :=
  rs ← getkv kv_sparse_metadata;
  for_each rs (λ r,
    layer_id ← create_layerwise_req_state r layer_name;
    on_kv_layer (kr_request_id r) layer_id (
      update_kv_meta r ;;
      kv_attention_finished repre top_num task_hash_func (kv_layer_conf_of layer_id))).

Definition kvstar_request_finished_in_worker (request_id : string) : KB unit :=
  d ← getkv kv_req_states;
  of_res (dict_index request_id d) ;;
  upkv (λ s, KvStarState (dict_del request_id (kv_req_states s)) (kv_envs s) (kv_hashes_of s) (kv_sparse_metadata s)).

Definition kvstar_set_block_hashes (req_id : Z) (token_ids : list Z) (s : kvstar) : kvstar :=
  let by_rank := dict_get_default req_id [] (kv_hashes_of s) in
  let by_rank' := if dict_mem (kv_rank kc) by_rank then by_rank
                  else dict_set (kv_rank kc) (kv_compute_block_hashes kc token_ids) by_rank in
  KvStarState (kv_req_states s) (kv_envs s) (dict_set req_id by_rank' (kv_hashes_of s)) (kv_sparse_metadata s).

Definition kvstar_build_sparse_meta (out : kv_output) (requests : dict string engine_request)
    (req_id_to_index : dict string Z) (query_start_locs : list Z) : KB unit :=
  metas ← for_fold (ko_num_scheduled_tokens out) [] (λ acc x,
    let '(req_id, num_scheduled_tokens) := x in
    r ← of_res (dict_index req_id requests);
    id ← of_res (py_int req_id);
    upkv (kvstar_set_block_hashes id (er_prompt_token_ids r)) ;;
    index ← of_res (dict_index req_id req_id_to_index);
    q_start_loc ← of_res (py_index query_start_locs index);
    q_end ← of_res (py_index query_start_locs (index + 1));
    if kv_block_size kc <? zlen (er_prompt_token_ids r) then
      slots ← of_res (dict_index req_id (ko_req_sparsed_slots out));
      ids ← of_res (py_index (er_block_ids r) 0);
      d ← getkv kv_hashes_of;
      by_rank ← of_res (dict_index id d);
      hashes ← of_res (dict_index (kv_rank kc) by_rank);
      mret (acc ++ [KvReq req_id index (zlen (er_prompt_token_ids r)) (zlen (er_output_token_ids r)) num_scheduled_tokens
                      (er_num_computed_tokens r) slots ids (kv_block_size kc) (er_prompt_token_ids r) q_start_loc
                      (q_end - q_start_loc) (kc_retrieval_stride (kv_layer_cfg kc)) hashes])
    else mret acc);
  upkv (λ s, KvStarState (kv_req_states s) (kv_envs s) (kv_hashes_of s) metas).

(** ** The scheduler *)

(** The slots asked for: the windows, the retrieved blocks and what is decoded. *)
Definition kvstar_estimate_num_slots_sparsed (num_prompt_tokens num_output_tokens : Z) : Z :=
  if num_output_tokens =? 0 then INVALID_SLOT
  else
    let block_size := kv_block_size kc in
    let num_tokens := num_prompt_tokens + num_output_tokens in
    let num_prefill_fully_block := num_prompt_tokens / block_size in
    let keep_fixed := Z.min (kc_init_window_sz (kv_layer_cfg kc) + kc_local_window_sz (kv_layer_cfg kc)) num_prefill_fully_block in
    let saved := top_num (num_prefill_fully_block - keep_fixed) in
    let dense_total := ceil_div num_tokens block_size in
    let compressed := num_prefill_fully_block - saved - keep_fixed in
    let budget := dense_total - compressed in
    let tail := num_tokens mod block_size in
    if tail =? 0 then budget * block_size else (budget - 1) * block_size + tail.

(** The calls made to the engine's cache manager. *)
Record kv_block_manager := KvBlockManager {
  bm_get_blocks : string → M W (list Z);
  bm_maybe_evict_cached_block : Z → M W unit;
  bm_free_blocks : list Z → M W unit;
  bm_set_req_to_blocks : string → list Z → M W unit;
  bm_get_num_blocks_to_allocate : string → Z → M W Z;
  bm_get_num_free_blocks : M W Z;
  bm_allocate_new_blocks : string → Z → M W unit;
}.

(** The blocks given back are the first ones; the list returned is the one the
    manager keeps for the request, read after the allocation. *)
Definition kvstar_allocate_slots (km : kv_block_manager) (request_id : string) (num_slots_sparsed : Z) : M W (option (list Z)) :=
  let num_blocks_need := ceil_div num_slots_sparsed (kv_block_size kc) in
  allocated_blocks ← bm_get_blocks km request_id;
  let n := zlen allocated_blocks in
  for_each allocated_blocks (bm_maybe_evict_cached_block km) ;;
  let returned_blocks := take (Z.to_nat (n - num_blocks_need)) allocated_blocks in
  let kept_blocks := drop (Z.to_nat (n - num_blocks_need)) allocated_blocks in
  bm_free_blocks km returned_blocks ;;
  bm_set_req_to_blocks km request_id kept_blocks ;;
  num_blocks_to_allocate ← bm_get_num_blocks_to_allocate km request_id num_slots_sparsed;
  avail ← bm_get_num_free_blocks km;
  if avail <? num_blocks_to_allocate then mret None
  else
    bm_allocate_new_blocks km request_id num_slots_sparsed ;;
    blocks ← bm_get_blocks km request_id;
    mret (Some blocks).

End kvstar.
