(* ===== verification/KVStarProps.v ===== *)
(** * Properties of KVStar

    The queries a retrieval is made with, the order of retrievals and loads over the
    decoding steps, the swap area and the slots ([KVStar.v], [KVStarBatch.v]). *)
From S2P Require Import Prelude PyStrings Runtime RankConsistency Sim PyHash Hashing Esa EsaBatch EsaProps KVStar KVStarBatch.
Open Scope Z_scope.

(** ** The queries of the prompt *)

Lemma omap_filled {Q} n (l : list Q) : omap id ((Some <$> l) ++ replicate n None) = l.
Proof. induction l as [|x l IH]; cbn; [by induction n|]. f_equal. exact IH. Qed.

Lemma omap_present {Q} n (l : list Q) : omap id (replicate n None ++ (Some <$> l)) = l.
Proof.
  induction n as [|n IH]; cbn; [|exact IH]. rewrite <- (omap_filled 0 l) at 2. cbn. by rewrite -> app_nil_r.
Qed.

Section queries.
  Context {W A Q R D : Type}.
  Variable kl : kv_layer_conf.
Let stride : Z := kc_retrieval_stride (kl_cfg kl).

Notation KST := (@KvLayerState A Q R D * (@kv_env A * W))%type.

(** The group of a record, empty places for a record without one. *)
Definition standby_of (record : string) (st : @KvLayerState A Q R D) : list (option Q) :=
  dict_get_default record (replicate (Z.to_nat stride) None) (standby_query_group st).

Definition put_standby record g (st : @KvLayerState A Q R D) : @KvLayerState A Q R D :=
  set_groups (dict_set record g (standby_query_group st)) (do_retrieve_query_group st) st.

Lemma save_cases record idx rel tokens q st x :
  py_index tokens rel = Ok q →
  let run := (save_to_standby kl record idx rel tokens : M KST unit) (st, x) in
  (∃ g, py_alter (λ _, Some q) (standby_of record st) idx = Ok g ∧ run = (Ok tt, (put_standby record g st, x))) ∨
  (∃ e s, py_alter (λ _, Some q) (standby_of record st) idx = Raise e ∧ run = (Raise e, s)).
Proof.
  intros Hq run. unfold run, save_to_standby. fold stride. destruct st. unfold standby_of, put_standby, dict_mem, dict_get_default in *. cbn.
  mstep. rewrite -> Hq. mstep. mstep. unfold dict_index. destruct (dict_get record _) as [g|] eqn:Hg; cbn in *.
  - rewrite -> Hg. mstep. destruct (py_alter _ g idx) as [g'|e]; mstep || (right; eexists _, _; by split).
    left. by exists g'.
  - rewrite -> dict_get_set_eq. mstep. destruct (py_alter _ (replicate _ _) idx) as [g'|e]; mstep || (right; eexists _, _; by split).
    left. exists g'. split; [done|]. unfold set_groups, upk, modify. cbn. by rewrite -> dict_set_set.
Qed.

Lemma save_run record idx rel tokens q st x :
  py_index tokens rel = Ok q → 0 ≤ idx < zlen (standby_of record st) →
  (save_to_standby kl record idx rel tokens : M KST unit) (st, x) =
    (Ok tt, (put_standby record (<[Z.to_nat idx := Some q]> (standby_of record st)) st, x)).
Proof.
  intros Hq Hidx. pose proof (py_set_in (Some q) _ _ Hidx) as Ha.
  destruct (save_cases record idx rel tokens q st x Hq) as [ (g & Hg & ->)|(e & s & He & _) ]; congruence.
Qed.

Lemma standby_put record record' g st :
  standby_of record' (put_standby record g st) = if decide (record = record') then g else standby_of record' st.
Proof. unfold standby_of, put_standby, dict_get_default. destruct st. cbn. rewrite -> dict_get_set. by case_decide. Qed.

Lemma put_put record g g' st : put_standby record g (put_standby record g' st) = put_standby record g st.
Proof. unfold put_standby, set_groups. destruct st. cbn. by rewrite -> dict_set_set. Qed.

(** Consecutive places get consecutive queries. *)
Lemma save_all_run record tokens : ∀ (q : Q) before p st x,
  0 ≤ p → zlen (standby_of record st) = stride → p + 1 + zlen tokens ≤ stride →
  (for_each (zip (seqZ (zlen before) (1 + zlen tokens)) (seqZ p (1 + zlen tokens)))
     (λ x, save_to_standby kl record x.2 x.1 (before ++ q :: tokens)) : M KST unit) (st, x) =
  (Ok tt, (put_standby record (list_inserts (Z.to_nat p) (Some <$> q :: tokens) (standby_of record st)) st, x)).
Proof.
  induction tokens as [|q' tokens IH]; intros q before p st x Hp Hl Hle; rewrite -> ?zlen_cons in *;
    pose proof (zlen_nonneg before); [change (zlen (@nil Q)) with 0 in *|pose proof (zlen_nonneg tokens)]; rewrite -> (seqZ_cons (zlen before)), (seqZ_cons p) by lia; cbn [zip for_each fst snd].
  - erewrite M_bind_Ok; [|apply save_run; [apply py_index_lookup; [lia|]|lia] ].
    + cbn. done.
    + unfold zlen. rewrite -> Nat2Z.id. by apply list_lookup_middle.
  - erewrite M_bind_Ok; [|apply save_run; [apply py_index_lookup; [lia|]|lia] ].
    2: { unfold zlen. rewrite -> Nat2Z.id. by apply list_lookup_middle. }
    replace (Z.pred (1 + (1 + zlen tokens))) with (1 + zlen tokens) by lia.
    replace (Z.succ (zlen before)) with (zlen (before ++ [q])) by (rewrite -> zlen_app; change (zlen [q]) with 1; lia).
    replace (before ++ q :: q' :: tokens) with ((before ++ [q]) ++ q' :: tokens) by by rewrite <- app_assoc.
    rewrite -> IH; [|lia| |lia]; rewrite -> standby_put, decide_True by done; [|unfold zlen in *; rewrite -> length_insert; lia].
    rewrite -> put_put. replace (Z.to_nat (Z.succ p)) with (S (Z.to_nat p)) by lia.
    do 3 f_equal. symmetry. by apply list_insert_inserts_lt, Nat.lt_succ_diag_r.
Qed.

(** ** The queries of a prompt computed in chunks *)

Variable qs : list Q.
Let prompt : Z := zlen qs.
Let window : Z := Z.max 0 (prompt - stride).
Let missing : Z := Z.max 0 (stride - prompt).

#[local] Ltac sizes :=
  assert (window = Z.max 0 (prompt - stride)) by done; assert (missing = Z.max 0 (stride - prompt)) by done;
  assert (prompt = zlen qs) by done; pose proof (zlen_nonneg qs).

(** The group once the prompt is computed up to [pos]. *)
Definition prefill_group (pos : Z) : list (option Q) :=
  replicate (Z.to_nat missing) None ++ (Some <$> py_slice qs window pos) ++ replicate (Z.to_nat (prompt - pos)) None.

Definition group_upto (c : Z) (st : @KvLayerState A Q R D) : Prop :=
  dict_get record_prefill (standby_query_group st) = if decide (c ≤ window) then None else Some (prefill_group c).

Lemma prefill_group_length pos : 0 ≤ stride → window ≤ pos ≤ prompt → zlen (prefill_group pos) = stride.
Proof.
  intros Hs Hpos. sizes. unfold prefill_group, zlen. rewrite -> !length_app, !length_replicate, length_fmap.
  pose proof (py_slice_length qs window pos ltac:(lia) ltac:(lia)) as Hl. unfold zlen in Hl. lia.
Qed.

Lemma prefill_group_next m pos : window ≤ m ≤ pos → pos ≤ prompt →
  list_inserts (Z.to_nat (missing + m - window)) (Some <$> py_slice qs m pos) (prefill_group m) = prefill_group pos.
Proof.
  intros Hm Hpos. sizes. unfold prefill_group.
  pose proof (py_slice_length qs window m ltac:(lia) ltac:(lia)) as Hl1.
  pose proof (py_slice_length qs m pos ltac:(lia) ltac:(lia)) as Hl2. unfold zlen in Hl1, Hl2.
  replace (Z.to_nat (prompt - m)) with (length (py_slice qs m pos) + Z.to_nat (prompt - pos))%nat by lia.
  rewrite -> replicate_add, !app_assoc, <- (app_assoc _ (replicate (length (py_slice qs m pos)) None)).
  replace (Z.to_nat (missing + m - window)) with (length (replicate (Z.to_nat missing) None ++ (Some <$> py_slice qs window m)) + 0)%nat
    by (rewrite -> length_app, length_replicate, length_fmap; lia).
  rewrite -> list_inserts_app_r, list_inserts_0_r by by rewrite -> length_fmap, length_replicate.
  rewrite -> app_assoc. f_equal.
  rewrite <- app_assoc, <- fmap_app, py_slice_app by lia. done.
Qed.

Lemma group_upto_standby c st : 0 ≤ stride → group_upto c st → standby_of record_prefill st = prefill_group (Z.max window c).
Proof.
  intros Hs Hg. sizes. unfold standby_of, dict_get_default. rewrite -> Hg. case_decide; cbn; [|f_equal; lia].
  unfold prefill_group. rewrite -> Z.max_l, py_slice_empty by lia. cbn. rewrite <- replicate_add. f_equal. lia.
Qed.

(** A chunk of the prompt: the request after [c] tokens, and the queries of the
    batch, those of this request at its place. *)
Record chunk := Chunk { ck_req : KvReqMeta; ck_query : list Q }.
Definition ck_end (ck : chunk) : Z := kr_num_computed_tokens (ck_req ck) + kr_num_scheduled_tokens (ck_req ck).

Definition chunk_ok (c : Z) (ck : chunk) : Prop :=
  let r := ck_req ck in
  kr_num_output_tokens r = 0 ∧ kr_num_prompt_tokens r = prompt ∧ kr_retrieval_stride r = stride ∧
  kr_num_computed_tokens r = c ∧ 0 < kr_num_scheduled_tokens r ∧ kr_query_len r = kr_num_scheduled_tokens r ∧
  0 ≤ kr_query_start_loc r ∧
  py_slice (ck_query ck) (kr_query_start_loc r) (kr_query_start_loc r + kr_query_len r) = py_slice qs c (c + kr_query_len r).

Fixpoint chunks_ok (c : Z) (cks : list chunk) : Prop :=
  match cks with
  | [] => c = prompt
  | ck :: cks => chunk_ok c ck ∧ chunks_ok (ck_end ck) cks
  end.

Definition compute_chunk top_num task_hash_func `{KVStoreBase W} `{KVRetrieve W Q R D} (ck : chunk) : M KST unit :=
  update_kv_meta (ck_req ck) ;; kv_attention_begin top_num task_hash_func kl (ck_query ck).

Lemma kv_chunk_run `{KVStoreBase W} `{KVRetrieve W Q R D} top_num task_hash_func c ck st x :
  0 ≤ stride → 0 ≤ c → ck_end ck ≤ prompt → chunk_ok c ck → group_upto c st →
  ∃ st', compute_chunk top_num task_hash_func ck (st, x) = (Ok tt, (st', x)) ∧ group_upto (ck_end ck) st'.
Proof.
  intros Hs Hc Hend (Ho & Hp & Hst & Hcomp & Hn & Hlen & Hloc & Hq) Hg. sizes.
  unfold compute_chunk, update_kv_meta, upk, ck_end in *. mstep. unfold kv_attention_begin. mstep. set (r := ck_req ck) in *.
  assert (Hstd : standby_of record_prefill (set_kv_meta r st) = prefill_group (Z.max window c)).
  { rewrite <- (group_upto_standby c st) by done. by destruct st. }
  change (kv_meta (set_kv_meta r st)) with r. unfold is_prefill. rewrite -> Ho. cbn [negb Z.ltb Z.compare].
  unfold offload_prefill_query. mstep. change (kv_meta (set_kv_meta r st)) with r.
  unfold query_offload_info, is_prefill. rewrite -> Ho, Hp, Hst, Hcomp. cbn [negb Z.ltb Z.compare].
  unfold group_upto in Hg. rewrite -> Hcomp, Hlen in *. set (n := kr_num_scheduled_tokens r) in *.
  destruct (Z.ltb_spec (c + n) (prompt - stride)) as [Hout|Hin]; mstep.
  { eexists. split; [reflexivity|]. unfold group_upto. rewrite -> decide_True in Hg by lia. rewrite -> decide_True by lia. by destruct st. }
  set (stop := stride - (prompt - (c + n))). set (v := Z.min stop n).
  replace (py_range (stop - v) stop) with (seqZ (stop - v) v) by (unfold py_range; f_equal; lia).
  destruct (decide (v = 0)) as [Hv|Hv].
  { rewrite -> Hv. cbn. eexists. split; [reflexivity|]. unfold group_upto. rewrite -> decide_True in Hg by lia. rewrite -> decide_True by lia. by destruct st. }
  set (m := Z.max window c) in *.
  assert (Htok : py_slice (ck_query ck) (kr_query_start_loc r + n - v) (kr_query_start_loc r + n) = py_slice qs m (c + n)).
  { pose proof (py_slice_slice (ck_query ck) (kr_query_start_loc r) (kr_query_start_loc r + n) (n - v) n ltac:(lia) ltac:(lia) ltac:(lia)) as E1.
    pose proof (py_slice_slice qs c (c + n) (n - v) n ltac:(lia) ltac:(lia) ltac:(lia)) as E2.
    rewrite -> Hq, E2 in E1. replace (c + (n - v)) with m in E1 by lia. rewrite -> E1. f_equal; lia. }
  pose proof (py_slice_length qs m (c + n) ltac:(lia) ltac:(lia)) as Hl.
  assert (Hz : zlen (seqZ (stop - v) v) = v) by (unfold zlen; rewrite -> length_seqZ; lia).
  rewrite -> Hz. unfold py_range. rewrite -> Z.sub_0_r. destruct (seqZ (stop - v) v) as [|i0 places] eqn:Hi; [by destruct Hv|]. rewrite <- Hi.
  rewrite -> (proj2 (Z.leb_le v n)) by lia. mstep. rewrite -> Htok.
  destruct (py_slice qs m (c + n)) as [|q tokens] eqn:Ht; [change (zlen (@nil Q)) with 0 in Hl; lia|]. rewrite -> zlen_cons in Hl.
  replace v with (1 + zlen tokens) by lia.
  pose proof (save_all_run record_prefill tokens q [] (stop - (1 + zlen tokens)) (set_kv_meta r st) x) as Hrun.
  eexists. split.
  - apply Hrun; [lia| |lia]. rewrite -> Hstd. apply prefill_group_length; lia.
  - unfold group_upto. rewrite -> decide_False by lia. rewrite -> Hstd. unfold put_standby, set_groups. cbn [standby_query_group]. rewrite -> dict_get_set_eq. f_equal.
    change (Some q :: (Some <$> tokens)) with (Some <$> q :: tokens). rewrite <- Ht.
    rewrite <- (prefill_group_next m (c + n)) by lia. f_equal. lia.
Qed.

Lemma chunks_ok_le cks : ∀ c, chunks_ok c cks → c ≤ prompt.
Proof.
  induction cks as [|ck cks IH]; intros c; [by intros ->|]. intros [(_ & _ & _ & Hc & Hn & _) Hcks%IH]. unfold ck_end in Hcks. lia.
Qed.

Lemma kv_chunks_run `{KVStoreBase W} `{KVRetrieve W Q R D} top_num task_hash_func cks : ∀ c st x,
  0 ≤ stride → 0 ≤ c ≤ prompt → chunks_ok c cks → group_upto c st →
  ∃ st', for_each cks (compute_chunk top_num task_hash_func) (st, x) = (Ok tt, (st', x)) ∧ group_upto prompt st'.
Proof.
  induction cks as [|ck cks IH]; intros c st x Hs Hc Hok Hg; [exists st; cbn in Hok; by subst|].
  destruct Hok as [Hck Hcks]. pose proof Hck as (_ & _ & _ & Hcomp & Hn & _).
  pose proof (chunks_ok_le _ _ Hcks) as Hend.
  destruct (kv_chunk_run top_num task_hash_func c ck st x) as (st1 & Hrun & Hg1); [done|lia|done..|].
  destruct (IH (ck_end ck) st1 x) as (st' & Hrest & Hg'); [done| |done..|].
  { unfold ck_end in *. lia. }
  exists st'. split; [|done]. cbn [for_each]. by mrun Hrun.
Qed.

End queries.

(** However a prompt is cut into chunks and whatever the other requests of the
    batch, once it is computed its query group holds the queries of its last
    [retrieval_stride] tokens, in order, each at its own place: the retrieval made at
    the first decoding step uses exactly those. *)
Theorem kvstar_prefill_queries `{KVStoreBase W} `{KVRetrieve W Q R D} {A} kl top_num task_hash_func (qs : list Q) cks st (x : @kv_env A * W) :
  let stride := kc_retrieval_stride (kl_cfg kl) in
  0 < stride → 0 < zlen qs → chunks_ok kl qs 0 cks → dict_get record_prefill (standby_query_group st) = None →
  ∃ st' group, for_each cks (compute_chunk kl top_num task_hash_func) (st, x) = (Ok tt, (st', x)) ∧
    dict_get record_prefill (standby_query_group st') = Some group ∧ zlen group = stride ∧
    omap id group = py_from qs (- stride).
Proof.
  intros stride Hs Hq Hok Hst.
  destruct (kv_chunks_run kl qs top_num task_hash_func cks 0 st x) as (st' & Hrun & Hg); [lia|lia|done| |].
  { unfold group_upto. by rewrite -> decide_True by lia. }
  exists st', (prefill_group kl qs (zlen qs)). unfold group_upto in Hg. rewrite -> decide_False in Hg by lia.
  split_and!; [done|done|apply prefill_group_length; lia|].
  unfold prefill_group. rewrite -> Z.sub_diag, app_nil_r, py_slice_from by lia. fold stride.
  rewrite -> py_from_pos by lia. unfold py_from, norm_idx. rewrite -> (proj2 (Z.ltb_lt _ _)) by lia.
  rewrite -> omap_present. do 2 f_equal. lia.
Qed.

(** ** The swap area *)

Lemma remove_first_perm `{EqDecision B} (x : B) l : x ∈ l → x :: remove_first x l ≡ₚ l.
Proof.
  induction l as [|y l IH]; [by intros ?%not_elem_of_nil|]. intros Hx. cbn. case_decide as E; [by subst|].
  apply elem_of_cons in Hx as [?|Hx]; [done|]. rewrite -> perm_swap. by rewrite -> IH.
Qed.

(** The blocks walked so far that stay, and what is left of the candidates and of
    the hashes. *)
Definition match_ok area candidates hashes (acc : dict Z string * (list Z * list string)) : Prop :=
  acc.1.*1 ++ acc.2.1 ≡ₚ candidates ∧ acc.1.*2 ++ acc.2.2 ≡ₚ hashes ∧ ∀ x, x ∈ acc.1 → dict_get x.1 area = Some x.2.

Lemma match_step area candidates hashes todo : ∀ acc,
  NoDup candidates → NoDup todo → (∀ b, b ∈ todo → b ∈ acc.2.1) → match_ok area candidates hashes acc →
  match_ok area candidates hashes (foldl (λ acc blk,
        let '(matched, (cand, hs)) := acc in
        match dict_get blk area with
        | Some h => if decide (h ∈ hs) then (dict_set blk h matched, (remove_first blk cand, remove_first h hs)) else acc
        | None => acc
        end) acc todo).
Proof.
  intros acc Hnd. revert acc. induction todo as [|b todo IH]; intros [m [c hs] ] Htodo Hin Hok; [done|].
  apply NoDup_cons in Htodo as [Hb Htodo]. cbn [foldl]. pose proof (Hin b ltac:(left)) as Hbc.
  destruct (dict_get b area) as [h|] eqn:Hg; [|apply IH; [done|set_solver|done] ].
  case_decide as Hh; [|apply IH; [done|set_solver|done] ]. destruct Hok as (Hk & Hv & Hm). cbn in *.
  assert (Hfresh : b ∉ m.*1).
  { rewrite <- Hk in Hnd. apply NoDup_app in Hnd as (_ & Hd & _). intros Hx. by apply (Hd b). }
  apply IH; [done| |].
  - intros b' Hb'. cbn. assert (Hc : b' ∈ c) by (apply Hin; by right). rewrite <- (remove_first_perm b c) in Hc by done. set_solver.
  - rewrite -> dict_set_fresh by done. split_and!; cbn.
    + rewrite -> fmap_app. cbn. rewrite <- app_assoc. cbn. by rewrite -> remove_first_perm.
    + rewrite -> fmap_app. cbn. rewrite <- app_assoc. cbn. by rewrite -> remove_first_perm.
    + intros x [Hx|Hx]%elem_of_app; [by apply Hm|]. apply list_elem_of_singleton in Hx as ->. done.
Qed.

(** The area after a retrieval: the selected blocks, each once, at distinct
    candidate places; a place that is not loaded held its block already, and what is
    loaded is the rest, each to the place the area records. *)
Theorem kvstar_swap_area area candidates hashes :
  NoDup candidates → (length hashes ≤ length candidates)%nat →
  let '(area', (cand, hs)) := match_swap_area area candidates hashes in
  NoDup area'.*1 ∧ (∀ b, b ∈ area'.*1 → b ∈ candidates) ∧ area'.*2 ≡ₚ hashes ∧
  (∀ b h, (b, h) ∈ area' → (b, h) ∈ zip cand hs ∨ dict_get b area = Some h) ∧
  (∀ b h, (b, h) ∈ zip cand hs → (b, h) ∈ area') ∧ (length hs ≤ length cand)%nat.
Proof.
  intros Hc Hl.
  assert (Hgen : ∀ m c hs, match_ok area candidates hashes (m, (c, hs)) →
    let area' := foldl (λ d x, dict_set x.1 x.2 d) m (zip c hs) in
    NoDup area'.*1 ∧ (∀ b, b ∈ area'.*1 → b ∈ candidates) ∧ area'.*2 ≡ₚ hashes ∧
    (∀ b h, (b, h) ∈ area' → (b, h) ∈ zip c hs ∨ dict_get b area = Some h) ∧
    (∀ b h, (b, h) ∈ zip c hs → (b, h) ∈ area') ∧ (length hs ≤ length c)%nat).
  { intros m c hs (Hk & Hv & Hm). cbn in *. rewrite <- Hk in Hc. apply NoDup_app in Hc as (Hm1 & Hmc & Hc1).
    assert (Hlc : (length hs ≤ length c)%nat).
    { apply Permutation_length in Hk, Hv. rewrite -> length_app, length_fmap in Hk. rewrite -> length_app, length_fmap in Hv. lia. }
    assert (Hsub : ∀ b, b ∈ (zip c hs).*1 → b ∈ c).
    { intros b (x & -> & Hx)%list_elem_of_fmap. destruct x. by apply elem_of_zip_l in Hx. }
    assert (Hz1 : NoDup (zip c hs).*1).
    { clear - Hc1. revert hs. induction c as [|b c IH]; intros [|h hs]; cbn; try constructor.
      - apply NoDup_cons in Hc1 as [Hb Hc1]. intros (x & -> & Hx)%list_elem_of_fmap. destruct x. apply Hb. by apply elem_of_zip_l in Hx.
      - apply NoDup_cons in Hc1 as [Hb Hc1]. by apply IH. }
    change (foldl _ m (zip c hs)) with (dict_update (zip c hs) m).
    assert (Hup : dict_update (zip c hs) m = m ++ zip c hs).
    { unfold dict_update. apply foldl_dict_set_fresh; [done|]. intros b Hb%Hsub Hb'. by apply (Hmc b). }
    rewrite -> Hup, !fmap_app, snd_zip by done. split_and!; [| |done| | |done].
    - apply NoDup_app. split_and!; [done| |done]. intros b Hb Hb'%Hsub. by apply (Hmc b).
    - intros b [Hb|Hb%Hsub]%elem_of_app; rewrite <- Hk; apply elem_of_app; tauto.
    - intros b h [Hx|Hx]%elem_of_app; [right; by apply (Hm (b, h))|by left].
    - intros b h Hx. apply elem_of_app. by right. }
  unfold match_swap_area. destruct area as [|x area'] eqn:Ha.
  - apply Hgen. split_and!; [done|done|]. by intros x ?%not_elem_of_nil.
  - rewrite <- Ha in *. clear x area' Ha.
    pose proof (match_step area candidates hashes candidates ([], (candidates, hashes)) Hc Hc) as Hm.
    destruct (foldl _ _ candidates) as [m [c hs] ]. apply Hgen, Hm; [done|]. split_and!; [done|done|]. by intros x ?%not_elem_of_nil.
Qed.

(** ** Retrievals and loads over the decoding steps *)

Section pipeline.
  Context {W A Q R D : Type} `{KVStoreBase W} `{KVRetrieve W Q R D}.
  Variable repre : list A → list R * option D.
  Variable top_num : Z → Z.
  Variable task_hash_func : list string → string → string → Z.
  Variable kl : kv_layer_conf.
Let stride : Z := kc_retrieval_stride (kl_cfg kl).

Notation LS := (@KvLayerState A Q R D).
Notation KST := (LS * (@kv_env A * W))%type.

(** The calls on a layer's state, each after an update of the request, the caches
    and the worker being in any state; [qs] are the queries of the decoding steps so
    far. *)
Inductive kv_run : bool → list Q → LS → Prop :=
  | kv_run_new r : kv_run false [] (new_kv_state r)
  | kv_run_prefill_begin r query st x st' x' :
      kv_run false [] st → is_prefill r = true →
      (update_kv_meta r ;; kv_attention_begin top_num task_hash_func kl query : M KST unit) (st, x) = (Ok tt, (st', x')) →
      kv_run true [] st'
  | kv_run_prefill_finished r st x st' x' :
      kv_run true [] st → is_prefill r = true →
      (update_kv_meta r ;; kv_attention_finished repre top_num task_hash_func kl : M KST unit) (st, x) = (Ok tt, (st', x')) →
      kv_run false [] st'
  | kv_run_decode_begin r query q qs st x st' x' :
      kv_run false qs st → kr_num_output_tokens r = zlen qs + 1 → py_index query (kr_query_start_loc r) = Ok q →
      (update_kv_meta r ;; kv_attention_begin top_num task_hash_func kl query : M KST unit) (st, x) = (Ok tt, (st', x')) →
      kv_run true (qs ++ [q]) st'
  | kv_run_decode_finished r qs st x st' x' :
      kv_run true qs st → 0 < zlen qs → kr_num_output_tokens r = zlen qs →
      (update_kv_meta r ;; kv_attention_finished repre top_num task_hash_func kl : M KST unit) (st, x) = (Ok tt, (st', x')) →
      kv_run false qs st'.

(** The record of the [j]-th group of decoding steps. *)
Definition group_record (j : Z) : string := record_decode (j * stride + 1).

Lemma record_decode_inj i j : record_decode i = record_decode j → i = j.
Proof. unfold record_decode. intros E. by apply (inj (String.append "decode")), (inj pretty) in E. Qed.

Lemma record_prefill_decode i : record_prefill ≠ record_decode i.
Proof. done. Qed.

(** What the methods do to the loads, the groups, the results and the waiters. *)
Record view := View {
  v_repre : option (list R);
  v_tasks : dict Z task;
  v_standby : dict string (list (option Q));
  v_doing : dict string (list Q);
  v_results : dict string (list string);
  v_waiter : dict string Z;
}.
Definition view_of (s : LS) : view :=
  View (blk_repre s) (blk_trans_tasks s) (standby_query_group s) (do_retrieve_query_group s)
    (step_group_retrieve_result s) (task_waiter s).

Lemma keeps_ext {B} (P : LS → Prop) (m : M W B) : preserves (λ s : KST, P s.1) (on_kext m).
Proof. intros [st [e w] ] Hs. unfold on_kext, lift. destruct (m _). exact Hs. Qed.

Lemma keeps_upk (P : LS → Prop) f : (∀ st, P st → P (f st)) → preserves (λ s : KST, P s.1) (upk f).
Proof. intros Hf [st x] Hs. by apply Hf. Qed.

Lemma keeps_caches (P : LS → Prop) k v : preserves (λ s : KST, P s.1) (modify (λ s, (s.1, (KvEnv k v, s.2.2)))).
Proof. by intros [st [e w] ] Hs. Qed.

Lemma keeps_needs {B} (P : KST → Prop) e (o : option B) : preserves P (kv_needs e o : M KST B).
Proof. destruct o; [apply preserves_ret|apply preserves_raise]. Qed.

Lemma runs_part {V B} (part : LS → V) (P : V → Prop) (m : M KST B) :
  (∀ v, preserves (λ s : KST, part s.1 = v) m) → runs (λ s : KST, P (part s.1)) m (λ _ s, P (part s.1)).
Proof. intros Hm s Hs. specialize (Hm (part s.1) s eq_refl). destruct (m s) as [[b|] s']; [cbn in *; by rewrite -> Hm|done]. Qed.

Lemma runs_upk {V} (part : LS → V) v v' f :
  (∀ st, part st = v → part (f st) = v') → runs (λ s : KST, part s.1 = v) (upk f : M KST unit) (λ _ s, part s.1 = v').
Proof. intros Hf [st x] Hs. by apply Hf. Qed.

(** Commands that leave a part of the state alone. *)
Ltac quiet_on part := repeat first
  [ apply preserves_bind; [|intros ?] | apply (keeps_ext (λ st, part st = _)) | apply keeps_needs
  | apply (keeps_caches (λ st, part st = _))
  | apply preserves_ret | apply preserves_raise | apply preserves_gets | apply preserves_of_res
  | (apply (keeps_upk (λ st, part st = _)); intros ? <-; reflexivity)
  | match goal with |- preserves _ (match ?x with _ => _ end) => destruct x end ].
Ltac quiet := quiet_on view_of.

Lemma kv_quiet_prepare v : preserves (λ s : KST, view_of s.1 = v) (prepare_init_and_local_window kl : M KST unit).
Proof. unfold prepare_init_and_local_window, kv_write, the_caches, the_meta, getk. quiet. Qed.

Lemma quiet_construct v : preserves (λ s : KST, view_of s.1 = v) (construct_init_and_local_window kl : M KST unit).
Proof. unfold construct_init_and_local_window, kv_rows, the_caches, the_meta, getk. quiet. Qed.

Lemma quiet_candidates v : preserves (λ s : KST, view_of s.1 = v) (get_retrieve_candidate_block_ids top_num kl : M KST _).
Proof. unfold get_retrieve_candidate_block_ids, the_meta, getk. quiet. Qed.

Lemma kv_quiet_register v : preserves (λ s : KST, view_of s.1 = v) (maybe_register_kv_cache : M KST unit).
Proof. unfold maybe_register_kv_cache, the_meta, getk. quiet. Qed.

Lemma kv_quiet_meta r v : preserves (λ s : KST, view_of s.1 = v) (update_kv_meta r : M KST unit).
Proof. unfold update_kv_meta. quiet. Qed.

Notation at_ v := (λ s : KST, view_of s.1 = v).

Lemma waits_done v :
  runs (at_ v) (wait_for_blk_transfer_task_done : M KST unit)
    (λ _, at_ (View (v_repre v) [] (v_standby v) (v_doing v) (v_results v) (v_waiter v))).
Proof.
  unfold wait_for_blk_transfer_task_done, getk. eapply runs_bind; [apply runs_preserves, preserves_gets|intros tasks].
  eapply runs_bind; [apply runs_preserves, preserves_for_each; intros; quiet|intros ?].
  intros [st x] <-. done.
Qed.

(** A group after a query is put in it. *)
Lemma saves v record idx rel tokens q :
  py_index tokens rel = Ok q →
  runs (at_ v) (save_to_standby kl record idx rel tokens : M KST unit)
    (λ _ s, ∃ g, py_alter (λ _, Some q) (dict_get_default record (replicate (Z.to_nat stride) None) (v_standby v)) idx = Ok g ∧
      view_of s.1 = View (v_repre v) (v_tasks v) (dict_set record g (v_standby v)) (v_doing v) (v_results v) (v_waiter v)).
Proof.
  intros Hq [st x] <-. destruct (save_cases kl record idx rel tokens q st x Hq) as [ (g & Hg & ->)|(e & s & _ & ->) ]; [|done].
  by exists g.
Qed.

(** A retrieval started: nothing to retrieve, or the queries of the group sent. *)
Definition sent record (v v' : view) : Prop :=
  v' = View (v_repre v) (v_tasks v) (v_standby v) (v_doing v) (dict_set record [] (v_results v)) (v_waiter v) ∨
  ∃ g t, dict_get record (v_standby v) = Some g ∧
    v' = View (v_repre v) (v_tasks v) (v_standby v) (dict_set record (omap id g) (v_doing v)) (v_results v) (dict_set record t (v_waiter v)).

Lemma retrieves v cur_step topk :
  let record := get_retrieve_record kl cur_step in
  runs (at_ v) (retrieval_async kl cur_step topk : M KST unit)
    (λ _ s, sent record v (view_of s.1)).
Proof.
  intros record. unfold retrieval_async. fold record. destruct (topk =? 0).
  { intros [st x] <-. by left. }
  apply (runs_gets _ _ (v_standby v)); [by intros s <-|]. apply runs_of_res. intros g Hg.
  unfold dict_index in Hg. destruct (dict_get record (v_standby v)) as [g'|] eqn:Hd; [|done]. injection Hg as ->.
  eapply runs_bind; [apply runs_preserves; quiet|intros ?].
  set (v1 := View (v_repre v) (v_tasks v) (v_standby v) (dict_set record (omap id g) (v_doing v)) (v_results v) (v_waiter v)).
  eapply (runs_bind _ (λ _, at_ v1)); [by intros [st x] <-|intros ?].
  eapply runs_bind; [apply runs_preserves; quiet|intros s0]. eapply runs_bind; [apply runs_preserves; quiet|intros r].
  eapply runs_bind; [apply runs_preserves; quiet|intros id]. eapply runs_bind; [apply runs_preserves; quiet|intros t].
  intros [st x] Hs. right. exists g, t. split; [done|]. cbn in Hs |- *. unfold v1, view_of in Hs. injection Hs as Hr Ht Hst Hdo Hre Hw.
  unfold view_of. cbn. congruence.
Qed.

(** Everything but the loads. *)
Definition rest_of (s : LS) : view :=
  View (blk_repre s) [] (standby_query_group s) (do_retrieve_query_group s) (step_group_retrieve_result s) (task_waiter s).

(** A group that has its result is done with. *)
Definition consume record hs (v : view) : view :=
  View (v_repre v) [] (dict_del record (v_standby v)) (dict_del record (v_doing v)) (dict_set record hs (v_results v)) (v_waiter v).
Definition consumed record (v v' : view) : Prop :=
  (v' = v ∧ is_Some (dict_get record (v_results v))) ∨ ∃ hs, v' = consume record hs v.

Lemma waits_result v record :
  runs (λ s : KST, rest_of s.1 = v) (wait_retrieve_result kl record : M KST unit) (λ _ s, consumed record v (rest_of s.1)).
Proof.
  unfold wait_retrieve_result. apply (runs_gets _ _ (v_results v)); [by intros s <-|].
  destruct (dict_get record (v_results v)) eqn:Hr.
  { apply runs_ret. intros s Hs. left. by rewrite -> Hr. }
  do 7 (eapply runs_bind; [apply runs_preserves; quiet_on rest_of|intros ?]).
  eapply runs_bind; [apply (runs_upk rest_of v (View (v_repre v) [] (dict_del record (v_standby v)) (v_doing v) (v_results v) (v_waiter v)))|intros ?].
  { by intros st <-. }
  eapply runs_bind; [apply runs_preserves; quiet_on rest_of|intros ?].
  eapply runs_bind; [apply (runs_upk rest_of _ (View (v_repre v) [] (dict_del record (v_standby v)) (dict_del record (v_doing v)) (v_results v) (v_waiter v)))|intros ?].
  { intros st [= <- <- <- <- <-]. done. }
  destruct a2 as [topk_indices|]; [|apply runs_raise].
  do 2 (eapply runs_bind; [apply runs_preserves; quiet_on rest_of|intros ?]).
  eapply triple_conseq; [apply (runs_upk rest_of (View (v_repre v) [] (dict_del record (v_standby v)) (dict_del record (v_doing v)) (v_results v) (v_waiter v)) (consume record a9 v))|intros s Hs; exact Hs|intros ? s Hs; right; exists a9; exact Hs].
  intros st Hst. unfold rest_of, consume in *. injection Hst as E1 E2 E3 E4 E5. cbn. rewrite -> E1, E2, E3, E4, E5. done.
Qed.

(** A load: the result of its record is there or is waited for. *)
Lemma loads v load_step candidates :
  runs (λ s : KST, rest_of s.1 = v) (load_retrieve_result_async task_hash_func kl load_step candidates : M KST unit)
    (λ _ s, consumed (need_retrieve_record kl load_step) v (rest_of s.1)).
Proof.
  unfold load_retrieve_result_async. set (record := need_retrieve_record kl load_step).
  eapply runs_bind; [apply waits_result|intros ?]. apply (runs_part rest_of). intros v'.
  unfold kv_launch_transfer_task, kv_rows, the_caches, getk. quiet_on rest_of.
Qed.

(** *** The groups *)

(** The group of the steps so far, and what is known of it. *)
Definition group_of (qs : list Q) (j : Z) : list (option Q) :=
  (Some <$> py_from qs (j * stride)) ++ replicate (Z.to_nat ((j + 1) * stride - zlen qs)) None.

Definition retrieved (qs : list Q) (j : Z) (v : view) : Prop :=
  is_Some (dict_get (group_record j) (v_results v)) ∨
  is_Some (dict_get (group_record j) (v_standby v)) ∧ is_Some (dict_get (group_record j) (v_waiter v)) ∧
  dict_get (group_record j) (v_doing v) = Some (py_slice qs (j * stride) ((j + 1) * stride)).

Definition group_ok (qs : list Q) (v : view) (j : Z) : Prop :=
  (zlen qs ≤ j * stride → dict_get (group_record j) (v_standby v) = None) ∧
  (is_Some (v_repre v) → j * stride < zlen qs < (j + 1) * stride → dict_get (group_record j) (v_standby v) = Some (group_of qs j)) ∧
  (is_Some (v_repre v) → (j + 1) * stride ≤ zlen qs → retrieved qs j v).

Definition groups_ok (qs : list Q) (v : view) : Prop := ∀ j, 0 ≤ j → group_ok qs v j.

(** What holds before ([false]) and after ([true]) the attention of a step. *)
Definition life_ok (after : bool) (qs : list Q) (v : view) : Prop :=
  (after = true ∨ zlen qs mod stride ≠ 0 ∨ qs = [] ∨ v_repre v = None → v_tasks v = []) ∧ groups_ok qs v.

Hypothesis stride_ok : 2 ≤ stride.

Lemma group_record_inj i j : group_record i = group_record j → i = j.
Proof. intros E%record_decode_inj. nia. Qed.

(** Changes that leave the records of the decoding steps alone. *)
Definition same_groups (v v' : view) : Prop :=
  v_repre v' = v_repre v ∧ ∀ j, 0 ≤ j →
    dict_get (group_record j) (v_standby v') = dict_get (group_record j) (v_standby v) ∧
    dict_get (group_record j) (v_doing v') = dict_get (group_record j) (v_doing v) ∧
    dict_get (group_record j) (v_results v') = dict_get (group_record j) (v_results v) ∧
    (is_Some (dict_get (group_record j) (v_waiter v)) → is_Some (dict_get (group_record j) (v_waiter v'))).

Lemma same_groups_ok qs v v' : same_groups v v' → groups_ok qs v → groups_ok qs v'.
Proof.
  intros [Hr Hsame] Hg j Hj. destruct (Hsame j Hj) as (E1 & E2 & E3 & E4). destruct (Hg j Hj) as (G1 & G2 & G3).
  unfold group_ok, retrieved in *. rewrite -> E1, E2, E3, Hr. split_and!; [done|done|]. intros H1 H2. destruct (G3 H1 H2) as [?|(? & ? & ?)]; [by left|].
  right. auto.
Qed.

Lemma consumed_prefill v v' : consumed record_prefill v v' → same_groups v v'.
Proof.
  intros [ [-> _]|[hs ->] ]; [by split|]. split; [done|]. intros j _. cbn. pose proof (record_prefill_decode (j * stride + 1)) as Hne.
  split_and!; [by rewrite -> dict_get_del_ne|by rewrite -> dict_get_del_ne|by rewrite -> dict_get_set_ne|done].
Qed.

Lemma consumed_group qs v v' i : 0 ≤ i → (i + 1) * stride ≤ zlen qs → consumed (group_record i) v v' →
  groups_ok qs v → groups_ok qs v'.
Proof.
  intros Hi Hle [ [-> _]|[hs ->] ] Hg; [done|]. intros j Hj. destruct (decide (j = i)) as [->|Hne].
  - unfold group_ok, retrieved. cbn. split_and!; [nia|nia|]. intros _ _. left. rewrite -> dict_get_set_eq. done.
  - destruct (Hg j Hj) as (G1 & G2 & G3). unfold group_ok, retrieved in *. cbn.
    assert (group_record i ≠ group_record j) by (intros E%group_record_inj; congruence).
    rewrite -> !dict_get_del_ne, dict_get_set_ne by done. done.
Qed.

(** *** One step *)

Definition set_v_standby x (v : view) : view := View (v_repre v) (v_tasks v) x (v_doing v) (v_results v) (v_waiter v).

(** The groups once the query of a step is saved: that of the step is not sent yet. *)
Definition saved (qs : list Q) (j0 : Z) (v : view) : Prop :=
  dict_get (group_record j0) (v_standby v) = Some (group_of qs j0) ∧ ∀ j, 0 ≤ j → j ≠ j0 → group_ok qs v j.

Lemma group_of_full qs j : 0 ≤ j → zlen qs = (j + 1) * stride → omap id (group_of qs j) = py_slice qs (j * stride) ((j + 1) * stride).
Proof.
  intros Hj Hl. unfold group_of. rewrite -> Hl, Z.sub_diag, app_nil_r.
  etransitivity; [apply (omap_present 0)|]. symmetry. apply py_slice_from; nia.
Qed.

Lemma saves_group qs q v g j0 : let n := zlen qs in
  j0 = n / stride → groups_ok qs v → is_Some (v_repre v) →
  py_alter (λ _, Some q) (dict_get_default (group_record j0) (replicate (Z.to_nat stride) None) (v_standby v)) (n mod stride) = Ok g →
  g = group_of (qs ++ [q]) j0.
Proof.
  intros n Hj Hg Hr Ha. pose proof (zlen_nonneg qs). pose proof (Z.div_mod n stride ltac:(lia)) as Hdm.
  pose proof (Z.mod_pos_bound n stride ltac:(lia)) as Hm. rewrite <- Hj in Hdm. assert (0 ≤ j0) by nia.
  assert (Hold : dict_get_default (group_record j0) (replicate (Z.to_nat stride) None) (v_standby v) = group_of qs j0).
  { destruct (Hg j0 ltac:(done)) as (G1 & G2 & _). unfold dict_get_default. destruct (decide (n mod stride = 0)) as [E|E].
    - rewrite -> G1 by (fold n; nia). cbn. unfold group_of. rewrite -> py_from_pos, drop_ge by (unfold n, zlen in *; nia).
      cbn. f_equal. fold n. nia.
    - rewrite -> G2; [done|done|fold n; nia]. }
  rewrite -> Hold in Ha. assert (Hl : zlen (py_from qs (j0 * stride)) = n mod stride).
  { rewrite -> py_from_pos by nia. unfold zlen. rewrite -> length_drop. unfold n, zlen in *. nia. }
  assert (Hgl : zlen (group_of qs j0) = stride).
  { unfold group_of, zlen in *. rewrite -> length_app, length_fmap, length_replicate. fold n. unfold n, zlen in *. nia. }
  rewrite -> py_set_in in Ha by lia. injection Ha as <-. unfold group_of.
  replace (Z.to_nat ((j0 + 1) * stride - zlen qs)) with (S (Z.to_nat ((j0 + 1) * stride - zlen (qs ++ [q])))) by (rewrite -> zlen_app; change (zlen [q]) with 1; fold n; nia).
  cbn [replicate]. rewrite -> insert_app_r_alt; rewrite -> length_fmap; unfold zlen in Hl; [|lia].
  replace (Z.to_nat (n mod stride) - _)%nat with 0%nat by lia. cbn [insert list_insert].
  rewrite -> (py_from_pos (qs ++ [q])), drop_app_le by (unfold n, zlen in *; nia). rewrite -> py_from_pos by nia.
  by rewrite -> fmap_app, <- app_assoc.
Qed.

Lemma saved_step qs q v j0 : j0 = zlen qs / stride → groups_ok qs v →
  saved (qs ++ [q]) j0 (set_v_standby (dict_set (group_record j0) (group_of (qs ++ [q]) j0) (v_standby v)) v).
Proof.
  intros Hj Hg. pose proof (zlen_nonneg qs). pose proof (Z.div_mod (zlen qs) stride ltac:(lia)) as Hdm.
  pose proof (Z.mod_pos_bound (zlen qs) stride ltac:(lia)) as Hm. rewrite <- Hj in Hdm.
  split; [cbn; by rewrite -> dict_get_set_eq|]. intros j Hj0 Hne. destruct (Hg j Hj0) as (G1 & G2 & G3).
  unfold group_ok, retrieved. cbn [v_standby v_doing v_results v_waiter v_repre set_v_standby].
  rewrite -> dict_get_set_ne by (intros E%group_record_inj; congruence).
  rewrite -> zlen_app. change (zlen [q]) with 1. split_and!.
  - intros Hle. apply G1. lia.
  - intros _ Hb. exfalso. apply Hne. nia.
  - intros Hr Hle. assert ((j + 1) * stride ≤ zlen qs) by nia. destruct (G3 Hr) as [?|(? & ? & Hd)]; [done|by left|right].
    split_and!; [done|done|]. rewrite -> Hd. f_equal. symmetry. apply py_slice_prefix; nia.
Qed.

Lemma saved_partial qs v j0 : saved qs j0 v → j0 * stride < zlen qs < (j0 + 1) * stride → groups_ok qs v.
Proof.
  intros [Hs Hg] Hb j Hj. destruct (decide (j = j0)) as [->|]; [|by apply Hg]. unfold group_ok. split_and!; [nia|done|nia].
Qed.

Lemma saved_complete qs v v' j0 : saved qs j0 v → 0 ≤ j0 → zlen qs = (j0 + 1) * stride → sent (group_record j0) v v' → groups_ok qs v'.
Proof.
  intros [Hs Hg] Hj0 Hl Hv j Hj. destruct (decide (j = j0)) as [->|Hne].
  - unfold group_ok, retrieved. split_and!; [nia|nia|]. intros _ _. destruct Hv as [->|(g & t & Hd & ->)]; cbn.
    + left. by rewrite -> dict_get_set_eq.
    + right. rewrite -> !dict_get_set_eq. rewrite -> Hs in Hd |- *. injection Hd as <-. by rewrite -> group_of_full.
  - assert (group_record j0 ≠ group_record j) by (intros E%group_record_inj; congruence).
    destruct (Hg j Hj Hne) as (G1 & G2 & G3). unfold group_ok, retrieved in *.
    destruct Hv as [->|(g & t & Hd & ->)]; cbn; rewrite -> !dict_get_set_ne by done; done.
Qed.

Lemma sent_prefill v v' : sent record_prefill v v' → same_groups v v'.
Proof.
  intros Hv. split; [by destruct Hv as [->|(? & ? & _ & ->)]|]. intros j _. pose proof (record_prefill_decode (j * stride + 1)) as Hne.
  unfold group_record. destruct Hv as [->|(? & ? & _ & ->)]; cbn; rewrite -> ?dict_get_set_ne by done; done.
Qed.

Lemma runs_view {B} (P : view → Prop) (m : M KST B) post : (∀ v, P v → runs (at_ v) m post) → runs (λ s : KST, P (view_of s.1)) m post.
Proof. intros Hm s Hs. exact (Hm _ Hs s eq_refl). Qed.

(** A state whose groups are right, without loads but at the first step of a group. *)
Definition stepping (qs : list Q) (n : Z) (v : view) : Prop := groups_ok qs v ∧ (n mod stride ≠ 0 → v_tasks v = []).

Ltac pass := eapply runs_bind; [apply runs_preserves; first [quiet|apply kv_quiet_prepare|apply quiet_candidates]|intros ?].

(** The first step: the windows are put back and the blocks of the prompt's
    retrieval loaded. *)
Lemma first_step qs :
  runs (λ s : KST, stepping qs 0 (view_of s.1))
    (prepare_init_and_local_window kl ;;
     c ← get_retrieve_candidate_block_ids top_num kl;
     wait_for_blk_transfer_task_done ;;
     retrieval_async kl 1 (zlen c) ;;
     load_retrieve_result_async task_hash_func kl 1 c)
    (λ _ s, stepping qs 0 (view_of s.1)).
Proof.
  apply runs_view. intros v [Hg _]. pass. eapply runs_bind; [apply runs_preserves, quiet_candidates|intros c].
  eapply runs_bind; [apply waits_done|intros ?]. eapply runs_bind; [apply retrieves|intros ?].
  apply runs_view. intros v' Hsent%sent_prefill. apply same_groups_ok with (qs := qs) in Hsent; [|done].
  intros s Hs. assert (Hrest : rest_of s.1 = View (v_repre v') [] (v_standby v') (v_doing v') (v_results v') (v_waiter v')) by by rewrite <- Hs.
  pose proof (loads _ 1 c s Hrest) as Hl. unfold need_retrieve_record in Hl. rewrite -> (proj2 (Z.leb_le 1 _)) in Hl by (fold stride; lia).
  destruct (load_retrieve_result_async _ _ _ _ _) as [ [ []|e] s' ]; [|done]. cbn in Hl |- *. split; [|rewrite -> Z.mod_0_l by lia; done].
  apply consumed_prefill in Hl. exact (same_groups_ok _ _ _ Hl Hsent).
Qed.

Lemma decode_begin_ok qs q r query v :
  life_ok false qs v → kr_num_output_tokens r = zlen qs + 1 → py_index query (kr_query_start_loc r) = Ok q →
  runs (λ s : KST, kv_meta s.1 = r ∧ view_of s.1 = v) (kv_attention_begin top_num task_hash_func kl query : M KST unit)
    (λ _ s, life_ok true (qs ++ [q]) (view_of s.1)).
Proof.
  intros [Ht Hg] Hn Hq. pose proof (zlen_nonneg qs). unfold kv_attention_begin. apply (runs_gets _ _ r); [by intros s []|].
  eapply triple_conseq with (P' := at_ v); [|by intros s []|intros ? ? Hs; exact Hs].
  unfold is_prefill. rewrite -> (proj2 (Z.ltb_lt 0 _)) by lia. cbn [negb]. apply (runs_gets _ _ (v_repre v)); [by intros s <-|].
  destruct (v_repre v) as [rs|] eqn:Hr.
  2: { apply runs_ret. intros s ->. split; [tauto|]. intros j Hj. destruct (Hg j Hj) as (G1 & _). unfold group_ok. rewrite -> Hr.
       split_and!; [|by intros []|by intros []]. intros Hle. apply G1. rewrite -> zlen_app in Hle. change (zlen [q]) with 1 in Hle. lia. }
  eapply runs_bind; [apply runs_preserves; unfold assert_; quiet|intros ?].
  fold stride. rewrite -> (proj2 (Z.eqb_neq stride 0)) by lia. unfold get_decode_step_record. fold stride. rewrite -> Hn, Z.add_simpl_r.
  set (j0 := zlen qs / stride). fold (group_record j0).
  pose proof (Z.div_mod (zlen qs) stride ltac:(lia)) as Hdm. pose proof (Z.mod_pos_bound (zlen qs) stride ltac:(lia)) as Hm.
  assert (Hlen : zlen (qs ++ [q]) = zlen qs + 1) by (rewrite -> zlen_app; done).
  eapply runs_bind; [|intros ?; eapply runs_bind; [|intros ?; eapply (runs_bind _ (λ _ s, stepping (qs ++ [q]) (zlen qs) (view_of s.1))); [|intros ?] ] ].
  - eapply triple_conseq with (Q' := λ _, at_ (set_v_standby (dict_set (group_record j0) (group_of (qs ++ [q]) j0) (v_standby v)) v));
      [|intros s Hs; exact Hs|intros ? s Hs; exact Hs].
    eapply triple_conseq; [apply (saves v); exact Hq|intros s Hs; exact Hs|]. intros ? s (g & Ha & ->). fold stride in Ha. 
    rewrite -> (saves_group qs q v g j0); [done..|by rewrite -> Hr|done].
  - instantiate (1 := λ _ s, stepping (qs ++ [q]) (zlen qs) (view_of s.1)).
    assert (Hv : zlen qs mod stride ≠ 0 → v_tasks v = []) by auto.
    assert (Hsaved := saved_step qs q v j0 eq_refl Hg). set (v1 := set_v_standby _ v) in *.
    destruct (Z.eqb_spec ((zlen qs + 1) mod stride) 0) as [Hfull|Hpart].
    + pass. eapply triple_conseq; [apply (retrieves v1)|intros s Hs; exact Hs|]. intros ? s Hs. split; [|intros E; destruct Hs as [->|(? & ? & _ & ->)]; by apply Hv].
      unfold get_retrieve_record in Hs. rewrite -> (proj2 (Z.eqb_neq _ 1)) in Hs by lia. fold stride in Hs.
      assert (Hj : zlen qs + 1 = (j0 + 1) * stride) by (rewrite -> mod_succ in Hfull by lia; case_decide; lia).
      replace (record_decode (zlen qs + 1 + 1 - stride)) with (group_record j0) in Hs by (unfold group_record; f_equal; lia).
      apply (saved_complete _ _ _ _ Hsaved) in Hs; [done|nia|lia].
    + apply runs_ret. intros s ->. split; [|done]. apply (saved_partial _ _ _ Hsaved). rewrite -> mod_succ in Hpart by lia. case_decide; [done|]. fold j0 in Hdm. nia.
  - destruct (Z.eqb_spec (zlen qs + 1) 1) as [E|E]; [|by apply runs_ret]. replace (zlen qs) with 0 by lia.
    apply first_step.
  - apply runs_view. intros v' [Hg' Ht']. destruct (Z.eqb_spec ((zlen qs + 1) mod stride) 1) as [E|E].
    + eapply triple_conseq; [apply (waits_done v')|intros s Hs; exact Hs|]. intros ? s ->. split; [done|]. by apply (same_groups_ok _ v').
    + apply runs_ret. intros s ->. split; [|done]. intros _. apply Ht'. rewrite -> mod_succ in E by lia. case_decide; lia.
Qed.

Lemma decode_finished_ok qs r v :
  life_ok true qs v → 0 < zlen qs → kr_num_output_tokens r = zlen qs →
  runs (λ s : KST, kv_meta s.1 = r ∧ view_of s.1 = v) (kv_attention_finished repre top_num task_hash_func kl : M KST unit)
    (λ _ s, life_ok false qs (view_of s.1)).
Proof.
  intros [Ht Hg] Hpos Hn. specialize (Ht ltac:(by left)). unfold kv_attention_finished. apply (runs_gets _ _ r); [by intros s []|].
  eapply triple_conseq with (P' := at_ v); [|by intros s []|intros ? ? Hs; exact Hs].
  unfold is_prefill. rewrite -> (proj2 (Z.ltb_lt 0 _)) by lia. cbn [negb]. fold stride. rewrite -> (proj2 (Z.eqb_neq stride 0)) by lia.
  rewrite -> Hn. destruct (Z.leb_spec (stride * 2) (zlen qs)) as [Hge|Hlt], (Z.eqb_spec (zlen qs mod stride) 0) as [E|E];
    try (apply runs_ret; intros s ->; by split).
  unfold get_retrieve_candidate_block_ids, the_meta, getk. eapply runs_bind.
  { eapply (runs_bind _ (λ _ s, view_of s.1 = v)); [apply runs_preserves, preserves_gets|intros ?].
    apply (runs_gets _ _ (v_repre v)); [by intros s <-|]. eapply (runs_bind _ (λ _ s, is_Some (v_repre v) ∧ view_of s.1 = v)); [|intros ?].
    - destruct (v_repre v); [by apply runs_ret|apply runs_raise].
    - instantiate (1 := λ _ s, is_Some (v_repre v) ∧ view_of s.1 = v). by apply runs_ret. }
  intros c. apply runs_given. intros Hrepre s Hs.
  assert (Hrest : rest_of s.1 = View (v_repre v) [] (v_standby v) (v_doing v) (v_results v) (v_waiter v)) by by rewrite <- Hs.
  pose proof (loads _ (zlen qs + 1) c s Hrest) as Hl. pose proof (Z.div_mod (zlen qs) stride ltac:(lia)) as Hdm.
  unfold need_retrieve_record in Hl. fold stride in Hl. rewrite -> (proj2 (Z.leb_gt (zlen qs + 1) _)) in Hl by lia.
  assert (Hc : ceil_div (zlen qs + 1) stride = zlen qs / stride + 1).
  { unfold ceil_div. symmetry. apply (Z.div_unique _ _ _ 0); lia. }
  rewrite -> Hc in Hl. set (k := zlen qs / stride) in *. replace (k + 1 - 3) with (k - 2) in Hl by lia.
  destruct (load_retrieve_result_async _ _ _ _ _) as [ [ []|e] s' ]; [|done]. fold (group_record (k - 2)) in Hl. split.
  - intros [?|[?|[->|Hnone] ] ]; [done|done|by cbn in Hpos|]. exfalso.
    assert (v_repre (rest_of s'.1) = v_repre v) as Heq by by destruct Hl as [ [-> _]|[hs ->] ].
    cbn in Heq, Hnone. rewrite <- Heq, Hnone in Hrepre. by destruct Hrepre.
  - apply (consumed_group qs) in Hl; [exact Hl|nia|nia|]. exact Hg.
Qed.

(** Before the first decoding step there are no loads and no groups of steps. *)
Definition fresh_view (v : view) : Prop :=
  v_tasks v = [] ∧ ∀ j, 0 ≤ j → dict_get (group_record j) (v_standby v) = None.

Lemma life_fresh after v : life_ok after [] v ↔ fresh_view v.
Proof.
  unfold life_ok, groups_ok, group_ok. change (zlen (@nil Q)) with 0. split.
  - intros [Ht Hg]. split; [by apply Ht; right; right; left|]. intros j Hj. by apply Hg; nia.
  - intros [Ht Hg]. split; [done|]. intros j Hj. split_and!; [by intros _; apply Hg|nia|nia].
Qed.

Notation fresh := (λ s : KST, fresh_view (view_of s.1)).

Lemma fresh_save idx rel tokens : preserves fresh (save_to_standby kl record_prefill idx rel tokens : M KST unit).
Proof.
  assert (Hset : ∀ g st, fresh_view (view_of st) → fresh_view (view_of (set_groups (A := A) (D := D) (dict_set record_prefill g (standby_query_group st)) (do_retrieve_query_group st) st))).
  { intros g st [Ht Hg]. split; [done|]. intros j Hj. cbn. rewrite -> dict_get_set_ne by done. by apply Hg. }
  unfold save_to_standby, getk. repeat (first [apply preserves_bind; [|intros ?]|apply preserves_of_res|apply preserves_gets]).
  - apply (keeps_upk (λ st, fresh_view (view_of st))). intros st Hs. case_match; [done|by apply Hset].
  - apply (keeps_upk (λ st, fresh_view (view_of st))). intros st Hs. by apply Hset.
Qed.

Lemma prefill_begin_ok r query v :
  fresh_view v → is_prefill r = true →
  runs (λ s : KST, kv_meta s.1 = r ∧ view_of s.1 = v) (kv_attention_begin top_num task_hash_func kl query : M KST unit)
    (λ _ s, fresh_view (view_of s.1)).
Proof.
  intros Hf Hr. unfold kv_attention_begin. apply (runs_gets _ _ r); [by intros s []|]. rewrite -> Hr.
  eapply triple_conseq with (P' := fresh); [|by intros s [_ ->]|intros ? ? Hs; exact Hs].
  apply runs_preserves. unfold offload_prefill_query, the_meta, getk, assert_.
  repeat (first [apply preserves_bind; [|intros ?]|apply preserves_of_res|apply preserves_gets|apply preserves_ret|apply preserves_raise|case_match]).
  apply preserves_for_each. intros. apply fresh_save.
Qed.

Definition loads_of (s : LS) := (blk_trans_tasks s, standby_query_group s).

Lemma prefill_finished_ok r v :
  fresh_view v → is_prefill r = true →
  runs (λ s : KST, kv_meta s.1 = r ∧ view_of s.1 = v) (kv_attention_finished repre top_num task_hash_func kl : M KST unit)
    (λ _ s, fresh_view (view_of s.1)).
Proof.
  intros Hf Hr. unfold kv_attention_finished. apply (runs_gets _ _ r); [by intros s []|]. rewrite -> Hr. cbn [negb].
  eapply triple_conseq with (P' := λ s, loads_of s.1 = (v_tasks v, v_standby v)) (Q' := λ _ s, loads_of s.1 = (v_tasks v, v_standby v)).
  - apply runs_preserves.
    unfold maybe_register_kv_cache, compute_block_repre, construct_init_and_local_window, kv_rows, the_caches, the_meta, getk. quiet_on loads_of.
  - by intros s [_ <-].
  - intros _ s [= Ht Hs]. destruct Hf as [Hf1 Hf2]. unfold fresh_view. cbn. rewrite -> Ht, Hs. done.
Qed.

Lemma kv_run_life after qs st : kv_run after qs st → life_ok after qs (view_of st).
Proof.
  assert (Hmeta : ∀ (f : M KST unit) r st x st' x' (Q : view → Prop),
    runs (λ s : KST, kv_meta s.1 = r ∧ view_of s.1 = view_of st) f (λ _ s, Q (view_of s.1)) →
    (update_kv_meta r ;; f) (st, x) = (Ok tt, (st', x')) → Q (view_of st')).
  { intros f r s x s' x' Q' Hf Hrun. unfold update_kv_meta, upk in Hrun. erewrite M_bind_Ok in Hrun by reflexivity.
    specialize (Hf (set_kv_meta r s, x) (conj eq_refl eq_refl)). cbn [fst snd] in Hrun. by rewrite -> Hrun in Hf. }
  induction 1 as [r|r query st x st' x' _ IH Hp Hr|r st x st' x' _ IH Hp Hr|r query q qs st x st' x' _ IH Hn Hq Hr|r qs st x st' x' _ IH Hpos Hn Hr].
  - by apply life_fresh.
  - apply life_fresh. apply life_fresh in IH. eapply Hmeta; [by apply prefill_begin_ok|exact Hr].
  - apply life_fresh. apply life_fresh in IH. eapply Hmeta; [by apply prefill_finished_ok|exact Hr].
  - eapply (Hmeta _ _ _ _ _ _ (life_ok true (qs ++ [q]))); [by apply decode_begin_ok|exact Hr].
  - eapply (Hmeta _ _ _ _ _ _ (life_ok false qs)); [by apply decode_finished_ok|exact Hr].
Qed.

End pipeline.


(** ** The slots of a sparse request *)

(** The slots asked for at a decoding step: the blocks they need are the windows,
    the blocks to retrieve and those decoded since, the place in the last block is
    that of the dense request, and never more is asked than the dense request needs. *)
Theorem kvstar_estimate_exact kc (top_num : Z → Z) num_prompt num_output :
  let bs := kv_block_size kc in
  let windows := kc_init_window_sz (kv_layer_cfg kc) + kc_local_window_sz (kv_layer_cfg kc) in
  let total := num_prompt + num_output in
  let full := num_prompt / bs in
  let n := kvstar_estimate_num_slots_sparsed top_num kc num_prompt num_output in
  0 < bs → 0 ≤ num_prompt → 0 < num_output → 0 ≤ windows → (∀ m, 0 ≤ m → 0 ≤ top_num m ≤ m) →
  ceil_div n bs = Z.min windows full + top_num (full - Z.min windows full) + (ceil_div total bs - full) ∧
  n mod bs = total mod bs ∧ 0 < n ≤ total.
Proof.
  intros bs windows total full n Hbs Hp Ho Hw Htop. subst n. unfold kvstar_estimate_num_slots_sparsed.
  rewrite -> (proj2 (Z.eqb_neq num_output 0)) by lia. fold bs windows total full. set (keep := Z.min windows full).
  pose proof (Z.div_mod total bs ltac:(lia)) as Hd. pose proof (Z.mod_pos_bound total bs Hbs) as Hm.
  assert (Hfull : 0 ≤ full) by (apply Z.div_pos; lia). assert (Hft : full ≤ total / bs) by (apply Z.div_le_mono; lia).
  pose proof (Htop (full - keep) ltac:(lia)) as Hs. set (saved := top_num (full - keep)) in *.
  pose proof (ceil_div_spec total bs Hbs) as Hc. set (budget := ceil_div total bs - (full - saved - keep)).
  assert (Hn : (if total mod bs =? 0 then budget * bs else (budget - 1) * bs + total mod bs) = total + (saved + keep - full) * bs).
  { unfold budget. rewrite -> Hc. destruct (Z.eqb_spec (total mod bs) 0); nia. }
  rewrite -> Hn. split_and!.
  - rewrite -> ceil_div_spec, Z.div_add, Z.mod_add by lia. unfold budget. lia.
  - by rewrite -> Z.mod_add by lia.
  - assert (full * bs ≤ num_prompt) by (rewrite -> Z.mul_comm; by apply Z.mul_div_le). nia.
  - nia.
Qed.

(** ** A concrete run *)

#[export] Instance sim_kv_store : KVStoreBase unit := {| kb_load := λ _ _ _, mret 1; kb_wait := λ _, mret 0; |}.
#[export] Instance sim_kv_retrieve : KVRetrieve unit Z Z unit :=
  {| kv_submit := λ _ _ _ _ _, mret 5; kv_wait := λ _, mret tt; kv_result := λ _, mret (Some [0; 1]); |}.

Definition sim_kl : kv_layer_conf := KvLayerConf (KvCfg 1 1 2) 0 2 16.
Definition sim_kv_req (computed scheduled out start len : Z) : KvReqMeta :=
  KvReq "7" 0 12 out scheduled computed 0 [2; 3; 4; 5; 6; 7] 2 [] start len 2 ["h0"; "h1"; "h2"; "h3"; "h4"; "h5"].
Definition sim_kv_repre (rows : list Z) : list Z * option unit := (rows, None).
Definition sim_kv_world : @kv_env Z * unit := (KvEnv (seqZ 100 10) (seqZ 200 10), tt).
Definition sim_hash (h : list string) (a b : string) : Z := Z.of_nat (String.length b).
Definition sim_kv_begin r query : M (@KvLayerState Z Z Z unit * (@kv_env Z * unit)) unit :=
  update_kv_meta r ;; kv_attention_begin (λ n, n / 2) sim_hash sim_kl query.
Definition sim_kv_finished r : M (@KvLayerState Z Z Z unit * (@kv_env Z * unit)) unit :=
  update_kv_meta r ;; kv_attention_finished sim_kv_repre (λ n, n / 2) sim_hash sim_kl.

(** The prompt, then [n] decoding steps of queries 1, 2, ... *)
Definition sim_decode_req (t : Z) : KvReqMeta := sim_kv_req (11 + t) 1 t 0 1.
Definition sim_kv_prompt : @KvLayerState Z Z Z unit * (@kv_env Z * unit) :=
  (sim_kv_finished (sim_kv_req 0 12 0 0 12) (sim_kv_begin (sim_kv_req 0 12 0 0 12) (seqZ 0 12) (new_kv_state (sim_kv_req 0 12 0 0 12), sim_kv_world)).2).2.
Definition sim_kv_steps (n : nat) : @KvLayerState Z Z Z unit * (@kv_env Z * unit) :=
  foldl (λ s t, (sim_kv_finished (sim_decode_req t) (sim_kv_begin (sim_decode_req t) [t] s).2).2) sim_kv_prompt (seqZ 1 (Z.of_nat n)).


Lemma kvstar_prefill_queries_witness :
  let cks := [Chunk (sim_kv_req 0 7 0 1 7) (99 :: seqZ 0 7); Chunk (sim_kv_req 7 4 0 0 4) (seqZ 7 4); Chunk (sim_kv_req 11 1 0 2 1) [98; 97; 11] ] in
  let st := new_kv_state (sim_kv_req 0 7 0 1 7) in
  ∃ (st' : @KvLayerState Z Z Z unit) group,
    for_each cks (compute_chunk sim_kl (λ n, n / 2) sim_hash) (st, sim_kv_world) = (Ok tt, (st', sim_kv_world)) ∧
    dict_get record_prefill (standby_query_group st') = Some group ∧ zlen group = 2 ∧ omap id group = [10; 11].
Proof.
  intros cks st. apply (kvstar_prefill_queries sim_kl (λ n, n / 2) sim_hash (seqZ 0 12) cks st sim_kv_world); [reflexivity|reflexivity| |reflexivity].
  vm_compute. repeat split; first [discriminate|reflexivity].
Defined.

Lemma kvstar_swap_area_witness :
  NoDup [3; 4; 5] ∧ (2 ≤ 3)%nat ∧
  let '(area', (cand, hs)) := match_swap_area [(3, "h1"); (4, "h2")] [3; 4; 5] ["h2"; "h7"] in
  area'.*2 ≡ₚ ["h2"; "h7"] ∧ (∀ b h, (b, h) ∈ area' → (b, h) ∈ zip cand hs ∨ dict_get b [(3, "h1"); (4, "h2")] = Some h).
Proof.
  assert (Hnd : NoDup [3; 4; 5]) by (apply (bool_decide_unpack _); vm_compute; reflexivity).
  assert (Hl : (2 ≤ 3)%nat) by lia. split; [exact Hnd|]. split; [exact Hl|].
  pose proof (kvstar_swap_area [(3, "h1"); (4, "h2")] [3; 4; 5] ["h2"; "h7"] Hnd Hl) as Hs.
  destruct (match_swap_area _ _ _) as [area' [cand hs] ]. destruct Hs as (_ & _ & Hv & Hk & _). by split.
Defined.

Definition sim_kc : kvstar_conf := KvStarConf "m" 1 "bf16" 0 false 2 1 (KvCfg 1 1 2) 16 [] [].

Lemma kvstar_estimate_exact_witness :
  let n := kvstar_estimate_num_slots_sparsed (λ m, m / 2) sim_kc 13 2 in
  n = 11 ∧ ceil_div n 2 = 2 + (6 - 2) / 2 + (8 - 6) ∧ n mod 2 = 15 mod 2 ∧ 0 < n ≤ 15.
Proof.
  intros n. split; [reflexivity|]. apply (kvstar_estimate_exact sim_kc (λ m, m / 2) 13 2); try (cbn; lia).
  intros m Hm. split; [apply Z.div_pos|apply Z.div_le_upper_bound]; lia.
Defined.

(** A prompt of two blocks has no representations: its decoding fails once the load
    after two groups of steps is due. *)
Example short_prompt_fails :
  let st : @KvLayerState Z Z Z unit := set_repre None None (new_kv_state (sim_decode_req 4)) in
  (sim_kv_begin (sim_decode_req 4) [4] (st, sim_kv_world)).1 = Ok tt ∧
  (sim_kv_finished (sim_decode_req 4) (st, sim_kv_world)).1 = Raise AttributeError.
Proof. by split. Qed.

(** With a stride of 1 a load started is never waited for. *)
Example stride_one_never_waits :
  let kl := KvLayerConf (KvCfg 1 1 1) 0 2 16 in
  let st : @KvLayerState Z Z Z unit := set_trans_tasks [(3, 1)] (set_groups [] [] (set_repre (Some [1; 2]) None (new_kv_state (sim_decode_req 4)))) in
  let s := ((update_kv_meta (sim_decode_req 4) ;; kv_attention_begin (λ n, n / 2) sim_hash kl [4]) (st, sim_kv_world)) in
  s.1 = Ok tt ∧ blk_trans_tasks s.2.1 = [(3, 1)].
Proof. by split. Qed.

(** No identifier of the first blocks of a prompt is the one the connector dumps the
    block under, read as text. *)
Example ids_differ_from_connector :
  let kc := KvStarConf "m" 1 "torch.bfloat16" 0 false 2 1 (KvCfg 1 1 2) 16 (meta_bytes (HashConf "m" 1 "torch.bfloat16" None false false) 0) [] in
  let ids := kv_compute_block_hashes (H := cpython_hash) kc [5; 6; 7; 8] in
  let connector := generate_hash (H := cpython_hash) (kv_meta_bytes kc) 2 [5; 6; 7; 8] (hash_seed (H := cpython_hash) (kv_meta_bytes kc)) in
  zlen ids = 2 ∧ zlen connector = 2 ∧ list_intersection ids (str_of_bytes <$> connector) = [].
Proof. vm_compute. repeat split. Qed.
