(* ===== verification/Gsa.v ===== *)
(** * Global sparse attention: requests and slots

    The request statistics, the metadata of a batch and the manager of slots of
    [ucm/sparse/gsa/gsa.py], and the sizes of [ucm/sparse/utils.py].  GSA keeps, of a
    long prompt, the blocks that match its last query best; every block of a request
    has a slot with the mean of its keys, in the part of the slot space that the
    request was given. *)
From S2P Require Import Prelude PyStrings Runtime RankConsistency PyHash Hashing Esa EsaBatch KVStar.
Open Scope Z_scope.

(** ** Sizes *)

Definition DEFAULT_BLOCK_SIZE : Z := 128.
Definition MIN_TOPK_LEN : Z := 32.
Definition MAX_TOPK_LEN : Z := 48.
Definition MAX_BS : Z := 256.
Definition SEG_PREFILL_THRESHOLD : Z := 8400.
Definition INIT_WINDOW_SZ : Z := 1.
Definition NUM_PREFETCH_BLOCKS : Z := 1.
Definition NUM_GSA_BLOCKS : Z := 1.

Record GSAConfig := GsaConfig {
  gc_block_size : Z;
  gc_init_windows_size : Z;
  gc_num_prefetch_blocks : Z;
  gc_min_topk_len : Z;
  gc_max_topk_len : Z;
}.

Definition set_config (block_size : Z) : GSAConfig :=
  GsaConfig block_size
    (ceil_div (INIT_WINDOW_SZ * DEFAULT_BLOCK_SIZE) block_size)
    (ceil_div (NUM_PREFETCH_BLOCKS * DEFAULT_BLOCK_SIZE) block_size)
    (ceil_div (MIN_TOPK_LEN * DEFAULT_BLOCK_SIZE) block_size)
    (ceil_div (MAX_TOPK_LEN * DEFAULT_BLOCK_SIZE) block_size).

Definition round_up (x y : Z) : Z := (x + y - 1) / y * y.
(** [type_size] is [get_type_size(dtype)]. *)
Definition align_to_256bytes (extent type_size : Z) : Z := round_up extent (256 / type_size).

(** What the worker is set up with: the constants [PTOPK_PREFETCH_ENABLE] and
    [CUDA_TOPK] are switches of the code. *)
Record gsa_conf := GsaConf {
  gf_cfg : GSAConfig;
  gf_block_size : Z;
  gf_rank : Z;
  gf_use_mla : bool;
  gf_model : string;
  gf_world_size : Z;
  gf_dtype : string;
  gf_layer_num : Z;
  gf_max_block_len : Z;
  gf_element_size : Z;
  gf_cuda : bool;
  gf_PTOPK_PREFETCH_ENABLE : bool;
  gf_CUDA_TOPK : bool;
  gf_meta_bytes : bytes;
  gf_rank_meta_bytes : bytes;
}.

Section config.
  (** [math.ceil(n * 0.3)] *)
  Variable ratio_ceil : Z → Z.

Definition compute_topk_len (c : GSAConfig) (raw_seq_len : Z) : Z :=
  let topk_len := ratio_ceil raw_seq_len in
  if topk_len <? gc_min_topk_len c then Z.min (gc_min_topk_len c) raw_seq_len
  else if gc_max_topk_len c <? topk_len then gc_max_topk_len c
  else topk_len.

End config.

(** ** A request *)

Record GSAReqStat := GsaStat {
  gs_req_id : string;
  gs_repre_slot_mapping : list Z;
  gs_calc_block_table : list Z;
  gs_calc_repre_slot_mapping : list Z;
  gs_include_mask : list bool;
  gs_exclude_mask : list bool;
  gs_blocks : list Z;
  gs_num_computed_tokens : Z;
  gs_num_scheduled_tokens : Z;
  gs_num_prompt_tokens : Z;
  gs_num_output_tokens : Z;
  gs_is_use_gsa : bool;
  gs_index_in_batch : Z;
  gs_remain_idx : option (list Z);
  gs_prefetch_idx : option (list Z);
  (** per layer, the indices of the blocks chosen *)
  gs_topk_buf_tmp : option (list (list Z));
  gs_sparse_len : Z;
  gs_block_hashes : option (list string);
  gs_num_prompt_blocks : Z;
  (** per layer, the block that holds each chosen index *)
  gs_reamin_map : option (list (option (dict Z Z)));
  gs_prefetch_map : option (list (option (dict Z Z)));
}.

Definition new_stat (req_id : string) : GSAReqStat :=
  GsaStat req_id [] [] [] [] [] [] 0 0 0 0 false 0 None None None 0 None 0 None None.

Definition set_gs_tokens computed scheduled output index s := GsaStat (gs_req_id s) (gs_repre_slot_mapping s) (gs_calc_block_table s) (gs_calc_repre_slot_mapping s) (gs_include_mask s) (gs_exclude_mask s) (gs_blocks s) computed scheduled (gs_num_prompt_tokens s) output (gs_is_use_gsa s) index (gs_remain_idx s) (gs_prefetch_idx s) (gs_topk_buf_tmp s) (gs_sparse_len s) (gs_block_hashes s) (gs_num_prompt_blocks s) (gs_reamin_map s) (gs_prefetch_map s).
Definition set_gs_prompt prompt blocks use s := GsaStat (gs_req_id s) (gs_repre_slot_mapping s) (gs_calc_block_table s) (gs_calc_repre_slot_mapping s) (gs_include_mask s) (gs_exclude_mask s) (gs_blocks s) (gs_num_computed_tokens s) (gs_num_scheduled_tokens s) prompt (gs_num_output_tokens s) use (gs_index_in_batch s) (gs_remain_idx s) (gs_prefetch_idx s) (gs_topk_buf_tmp s) (gs_sparse_len s) (gs_block_hashes s) blocks (gs_reamin_map s) (gs_prefetch_map s).
Definition set_gs_blocks blocks s := GsaStat (gs_req_id s) (gs_repre_slot_mapping s) (gs_calc_block_table s) (gs_calc_repre_slot_mapping s) (gs_include_mask s) (gs_exclude_mask s) blocks (gs_num_computed_tokens s) (gs_num_scheduled_tokens s) (gs_num_prompt_tokens s) (gs_num_output_tokens s) (gs_is_use_gsa s) (gs_index_in_batch s) (gs_remain_idx s) (gs_prefetch_idx s) (gs_topk_buf_tmp s) (gs_sparse_len s) (gs_block_hashes s) (gs_num_prompt_blocks s) (gs_reamin_map s) (gs_prefetch_map s).
Definition set_gs_slots mapping include exclude s := GsaStat (gs_req_id s) mapping (gs_calc_block_table s) (gs_calc_repre_slot_mapping s) include exclude (gs_blocks s) (gs_num_computed_tokens s) (gs_num_scheduled_tokens s) (gs_num_prompt_tokens s) (gs_num_output_tokens s) (gs_is_use_gsa s) (gs_index_in_batch s) (gs_remain_idx s) (gs_prefetch_idx s) (gs_topk_buf_tmp s) (gs_sparse_len s) (gs_block_hashes s) (gs_num_prompt_blocks s) (gs_reamin_map s) (gs_prefetch_map s).
Definition set_gs_calc blocks slots s := GsaStat (gs_req_id s) (gs_repre_slot_mapping s) blocks slots (gs_include_mask s) (gs_exclude_mask s) (gs_blocks s) (gs_num_computed_tokens s) (gs_num_scheduled_tokens s) (gs_num_prompt_tokens s) (gs_num_output_tokens s) (gs_is_use_gsa s) (gs_index_in_batch s) (gs_remain_idx s) (gs_prefetch_idx s) (gs_topk_buf_tmp s) (gs_sparse_len s) (gs_block_hashes s) (gs_num_prompt_blocks s) (gs_reamin_map s) (gs_prefetch_map s).
Definition set_gs_sparse remain prefetch len s := GsaStat (gs_req_id s) (gs_repre_slot_mapping s) (gs_calc_block_table s) (gs_calc_repre_slot_mapping s) (gs_include_mask s) (gs_exclude_mask s) (gs_blocks s) (gs_num_computed_tokens s) (gs_num_scheduled_tokens s) (gs_num_prompt_tokens s) (gs_num_output_tokens s) (gs_is_use_gsa s) (gs_index_in_batch s) remain prefetch (gs_topk_buf_tmp s) len (gs_block_hashes s) (gs_num_prompt_blocks s) (gs_reamin_map s) (gs_prefetch_map s).
Definition set_gs_topk topk s := GsaStat (gs_req_id s) (gs_repre_slot_mapping s) (gs_calc_block_table s) (gs_calc_repre_slot_mapping s) (gs_include_mask s) (gs_exclude_mask s) (gs_blocks s) (gs_num_computed_tokens s) (gs_num_scheduled_tokens s) (gs_num_prompt_tokens s) (gs_num_output_tokens s) (gs_is_use_gsa s) (gs_index_in_batch s) (gs_remain_idx s) (gs_prefetch_idx s) topk (gs_sparse_len s) (gs_block_hashes s) (gs_num_prompt_blocks s) (gs_reamin_map s) (gs_prefetch_map s).
Definition set_gs_hashes hashes s := GsaStat (gs_req_id s) (gs_repre_slot_mapping s) (gs_calc_block_table s) (gs_calc_repre_slot_mapping s) (gs_include_mask s) (gs_exclude_mask s) (gs_blocks s) (gs_num_computed_tokens s) (gs_num_scheduled_tokens s) (gs_num_prompt_tokens s) (gs_num_output_tokens s) (gs_is_use_gsa s) (gs_index_in_batch s) (gs_remain_idx s) (gs_prefetch_idx s) (gs_topk_buf_tmp s) (gs_sparse_len s) hashes (gs_num_prompt_blocks s) (gs_reamin_map s) (gs_prefetch_map s).
Definition set_gs_maps remain prefetch s := GsaStat (gs_req_id s) (gs_repre_slot_mapping s) (gs_calc_block_table s) (gs_calc_repre_slot_mapping s) (gs_include_mask s) (gs_exclude_mask s) (gs_blocks s) (gs_num_computed_tokens s) (gs_num_scheduled_tokens s) (gs_num_prompt_tokens s) (gs_num_output_tokens s) (gs_is_use_gsa s) (gs_index_in_batch s) (gs_remain_idx s) (gs_prefetch_idx s) (gs_topk_buf_tmp s) (gs_sparse_len s) (gs_block_hashes s) (gs_num_prompt_blocks s) remain prefetch.

(** [stage() == SequenceStage.PREFILL] *)
Definition gs_prefill (s : GSAReqStat) : bool := gs_num_computed_tokens s <? gs_num_prompt_tokens s.
Definition is_gsa (s : GSAReqStat) : bool := (SEG_PREFILL_THRESHOLD <? gs_num_prompt_tokens s) && negb (gs_prefill s).
Definition gs_is_last_chunk (s : GSAReqStat) : bool :=
  gs_num_computed_tokens s + gs_num_scheduled_tokens s =? gs_num_prompt_tokens s.
Definition get_seq_len (s : GSAReqStat) : Z := gs_num_computed_tokens s + gs_num_scheduled_tokens s.

(** The slots of a new request and the blocks whose means are computed: all, but
    the last one of a complete prompt. *)
Definition _init_slot (offset : Z) (s : GSAReqStat) : GSAReqStat :=
  let n := zlen (gs_blocks s) in
  let mapping := (λ x, x + offset) <$> py_range 0 n in
  let calc := if gs_is_last_chunk s then (py_upto (gs_blocks s) (-1), py_upto mapping (-1)) else (gs_blocks s, mapping) in
  let include := if 2 <? n then true :: replicate (Z.to_nat (n - 3)) false ++ [true; true] else replicate (Z.to_nat n) true in
  set_gs_calc calc.1 calc.2 (set_gs_slots mapping include (replicate (Z.to_nat n) false) s).

(** A slot after the last one, for one more block. *)
Definition add_slot (s : GSAReqStat) : res GSAReqStat :=
  last_slot ← py_index (gs_repre_slot_mapping s) (-1);
  include ← (if 2 <? zlen (gs_include_mask s) then py_alter (λ _, false) (gs_include_mask s) (-2) else Ok (gs_include_mask s));
  Ok (set_gs_slots (gs_repre_slot_mapping s ++ [last_slot + 1]) (include ++ [true]) (gs_exclude_mask s ++ [false]) s).

Definition _update_slot (add_blocks : list Z) (s : GSAReqStat) : res GSAReqStat :=
  s ← fold_res (λ s _, add_slot s) s add_blocks;
  match add_blocks with
  | [] => Ok (set_gs_calc [] [] s)
  | _ =>
      let mapping := gs_repre_slot_mapping s in
      if gs_prefill s then
        if gs_is_last_chunk s
        then Ok (set_gs_calc (py_upto add_blocks (-1)) (py_slice mapping (- zlen add_blocks) (-1)) s)
        else Ok (set_gs_calc add_blocks (py_from mapping (- zlen add_blocks)) s)
      else
        block ← py_index (gs_blocks s) (-1);
        slot ← py_index mapping (-1);
        Ok (set_gs_calc [block] [slot] s)
  end.

Section stat.
  Context `{PyHash}.
  Variable ratio_ceil : Z → Z.
  Variable gf : gsa_conf.

(** The identifiers chained over the blocks; the loop appends none of them. *)
Definition gsa_set_block_hashes (token_ids : list Z) (s : GSAReqStat) : GSAReqStat :=
  match gs_block_hashes s with
  | Some _ => s
  | None =>
      let seed := compute_parent_block_hash (gf_model gf) (gf_world_size gf) (gf_dtype gf) 0 in
      let '(block_hashes, _, _) := foldl (λ (acc : list string * (Z + bytes) * bool) start,
        let '(block_hashes, parent, stop) := acc in
        if stop : bool then acc
        else
          let block_token_ids := py_slice token_ids start (start + gf_block_size gf) in
          if zlen block_token_ids <? gf_block_size gf then (block_hashes, parent, true)
          else
            let hash_value := request_hasher (gf_meta_bytes gf)
              (IObj (match parent with inl z => PLong z block_token_ids | inr b => PPair b block_token_ids end)) in
            (block_hashes, inr hash_value, false))
        ([], inl seed, false) (py_range_step 0 (zlen token_ids) (gf_block_size gf)) in
      let block_hashes := if negb (gf_rank gf =? 0) && negb (gf_use_mla gf)
        then (λ h, str_of_bytes (request_hasher (gf_rank_meta_bytes gf) (IObj (PStr h)))) <$> block_hashes
        else block_hashes in
      set_gs_hashes (Some block_hashes) s
  end.

(** Slots past the blocks are dropped. *)
Definition trim_slots (s : GSAReqStat) : GSAReqStat :=
  set_gs_slots (py_upto (gs_repre_slot_mapping s) (zlen (gs_blocks s))) (gs_include_mask s) (gs_exclude_mask s) s.

Definition add_req_new (num_scheduled_tokens : Z) (r : engine_request) (index_in_batch offset : Z) (s : GSAReqStat) : res GSAReqStat :=
  blocks ← py_index (er_block_ids r) 0;
  let num_prompt_tokens := zlen (er_prompt_token_ids r) in
  let s := set_gs_blocks blocks s in
  let s := set_gs_tokens (er_num_computed_tokens r) num_scheduled_tokens (zlen (er_output_token_ids r)) index_in_batch s in
  let s := set_gs_prompt num_prompt_tokens (ceil_div num_prompt_tokens (gf_block_size gf)) (SEG_PREFILL_THRESHOLD <? num_prompt_tokens) s in
  let s := _init_slot offset s in
  let s := if zlen (gs_blocks s) <? zlen (gs_repre_slot_mapping s) then trim_slots s else s in
  Ok (gsa_set_block_hashes (er_prompt_token_ids r) s).

(** The blocks kept when decoding starts: the initial window and the last ones, with
    the blocks of the prefetch between. *)
Definition _get_sparse_and_free_block (s : GSAReqStat) : GSAReqStat :=
  if negb (gs_num_prompt_tokens s =? gs_num_computed_tokens s) then set_gs_sparse None None (gs_sparse_len s) s
  else
    let blocks_len := zlen (gs_blocks s) in
    let remain_len := compute_topk_len ratio_ceil (gf_cfg gf) blocks_len in
    if (SEG_PREFILL_THRESHOLD <? gs_num_prompt_tokens s) && gf_PTOPK_PREFETCH_ENABLE gf && (remain_len <? blocks_len) then
      let prefetch_len := Z.min (gc_num_prefetch_blocks (gf_cfg gf)) (blocks_len - remain_len) in
      let req_idx_list := py_range 0 blocks_len in
      let init := gc_init_windows_size (gf_cfg gf) in
      set_gs_sparse (Some (py_upto req_idx_list init ++ py_from req_idx_list (init - remain_len)))
        (Some (py_slice req_idx_list (init - remain_len - prefetch_len) (init - remain_len)))
        (remain_len + prefetch_len) s
    else set_gs_sparse (Some (py_range 0 blocks_len)) (Some []) blocks_len s.

Definition updata_req_state (num_scheduled_tokens : Z) (r : engine_request) (index_in_batch : Z) (s : GSAReqStat) : res GSAReqStat :=
  let s := set_gs_tokens (er_num_computed_tokens r) num_scheduled_tokens (zlen (er_output_token_ids r)) index_in_batch s in
  ids ← py_index (er_block_ids r) 0;
  s ← (if gs_prefill s then
         let add_blocks := filter (λ x, x ∉ gs_blocks s) ids in
         _update_slot add_blocks (set_gs_blocks ids s)
       else
         let s := _get_sparse_and_free_block s in
         if negb (zlen ids =? gs_sparse_len s) then
           b ← py_index ids (-1);
           let s := set_gs_blocks (gs_blocks s ++ [b]) s in
           _update_slot [b] (set_gs_sparse (gs_remain_idx s) (gs_prefetch_idx s) (zlen ids) s)
         else Ok (set_gs_calc [] [] s));
  Ok (if zlen (gs_blocks s) <? zlen (gs_repre_slot_mapping s) then trim_slots (set_gs_topk None s) else s).

End stat.

(** ** The slots of the batch *)

Record TopKAndKpreManger := Manger {
  cache_map : dict string Z;
  free_cache : list Z;
}.

Definition new_manger (max_num : Z) : TopKAndKpreManger := Manger [] (py_range 0 max_num).

(** [free]: [false] when the index is free already. *)
Definition manger_free (req_id : string) : M TopKAndKpreManger bool :=
  m ← get;
  i ← of_res (dict_index req_id (cache_map m));
  if bool_decide (i ∈ free_cache m) then mret false
  else modify (λ m, Manger (dict_del req_id (cache_map m)) (free_cache m ++ [i])) ;; mret true.

Definition manger_alloc (req_id : string) : M TopKAndKpreManger (option Z) :=
  m ← get;
  match free_cache m with
  | i :: rest => modify (λ m, Manger (dict_set req_id i (cache_map m)) rest) ;; mret (Some i)
  | [] => mret None
  end.

Definition manger_is_exist (req_id : string) (m : TopKAndKpreManger) : bool := dict_mem req_id (cache_map m).

(** ** The metadata of a batch *)

(** The scheduler's output: tokens per request, the requests seen before with their
    resumption after a preemption, and the new ones. *)
Record gsa_output := GsaOutput {
  go_num_scheduled_tokens : dict string Z;
  go_cached_reqs : list (string * bool);
  go_new_reqs : list string;
}.

(** The part of the model input made of integers. *)
Record gsa_input := GsaInput {
  gi_calc_block_table : list Z;
  gi_calc_repre_slot_mapping : list Z;
  gi_query_locals : list Z;
  gi_query_locals_prefill : option (list Z);
}.

(** [itertools.accumulate] *)
Fixpoint accumulate_from (acc : Z) (l : list Z) : list Z :=
  match l with [] => [] | x :: l => (acc + x) :: accumulate_from (acc + x) l end.
Definition accumulate (l : list Z) : list Z := accumulate_from 0 l.

Section metadata.
  Context `{PyHash}.
  Variable ratio_ceil : Z → Z.
  Variable gf : gsa_conf.
  (** [prefetch_engine.del_finish_meta(req_id, False)] *)
  Context {W : Type}.
  Variable del_finish_meta : string → M W unit.

Notation GM := (M (dict string GSAReqStat * W)).

Definition put_stat (req_id : string) (s : GSAReqStat) : GM unit := modify (λ st, (dict_set req_id s st.1, st.2)).

Definition new_request (out : gsa_output) (topk_kpre_map : dict string Z) (requests : dict string engine_request)
    (req_id_to_index : dict string Z) (req_id : string) : GM unit :=
  n ← of_res (dict_index req_id (go_num_scheduled_tokens out));
  r ← of_res (dict_index req_id requests);
  index ← of_res (dict_index req_id req_id_to_index);
  place ← of_res (dict_index req_id topk_kpre_map);
  s ← of_res (add_req_new gf n r index (gf_max_block_len gf * place) (new_stat req_id));
  put_stat req_id s.

Definition update_request (out : gsa_output) (requests : dict string engine_request)
    (req_id_to_index : dict string Z) (req_id : string) : GM unit :=
  n ← of_res (dict_index req_id (go_num_scheduled_tokens out));
  r ← of_res (dict_index req_id requests);
  index ← of_res (dict_index req_id req_id_to_index);
  stats ← gets fst;
  s ← of_res (dict_index req_id (stats : dict string GSAReqStat));
  s ← of_res (updata_req_state ratio_ceil gf n r index s);
  put_stat req_id s.

Definition trans_input_tensor (out : gsa_output) (stats : dict string GSAReqStat) : res gsa_input :=
  let n := zlen (go_num_scheduled_tokens out) in
  let zeros := replicate (Z.to_nat (n + 1)) 0 in
  '(blocks, slots, locals, prefill) ← (fold_res (λ acc x,
    let '(blocks, slots, locals, prefill) := acc in
    s ← dict_index x.1 stats;
    locals ← py_alter (λ _, x.2) locals (gs_index_in_batch s + 1);
    prefill ← (if gf_use_mla gf && gs_prefill s then py_alter (λ _, x.2) prefill (gs_index_in_batch s + 1) else Ok prefill);
    Ok (blocks ++ gs_calc_block_table s, slots ++ gs_calc_repre_slot_mapping s, locals, prefill))
    ([], [], zeros, zeros) (go_num_scheduled_tokens out) : res (list Z * list Z * list Z * list Z));
  Ok (GsaInput blocks slots (accumulate locals) (if gf_use_mla gf then Some (accumulate prefill) else None)).

Definition get_model_input (out : gsa_output) (topk_kpre_map : dict string Z) (requests : dict string engine_request)
    (req_id_to_index : dict string Z) : GM gsa_input :=
  for_each (go_cached_reqs out) (λ x,
    stats ← gets fst;
    assert_ (dict_mem x.1 (stats : dict string GSAReqStat)) ;;
    if (x.2 : bool) then
      modify (λ st, (dict_del x.1 st.1, st.2)) ;;
      lift snd (λ w st, (st.1, w)) (del_finish_meta x.1) ;;
      new_request out topk_kpre_map requests req_id_to_index x.1
    else update_request out requests req_id_to_index x.1) ;;
  for_each (go_new_reqs out) (λ req_id,
    modify (λ st, (dict_del req_id st.1, st.2)) ;;
    new_request out topk_kpre_map requests req_id_to_index req_id) ;;
  stats ← gets fst;
  of_res (trans_input_tensor out stats).

End metadata.

(** ** Moving the chosen blocks together *)

(** [get_mv_map]: the chosen indices that are among those kept stay in their block,
    each of the others is given a block of those kept that nothing chosen is in. *)
Definition get_mv_map (blocks remain_idxs topk_values : list Z) (remain_len : Z) : res (dict Z Z * dict Z Z * dict Z Z) :=
  let hit_block := filter (λ i, i ∈ remain_idxs) topk_values in
  let free_block := filter (λ i, i ∉ hit_block) remain_idxs in
  new_block ← map_res (λ i, if decide (i ∈ remain_idxs) then b ← py_index blocks i; Ok (Some b) else Ok None) topk_values;
  '(mv_map, placed, _) ← (fold_res (λ acc x,
    let '(mv_map, placed, free) := acc in
    match x.2 with
    | Some b => Ok (mv_map, placed ++ [b], free)
    | None =>
        match free with
        | [] => Raise IndexError
        | i :: free =>
            b ← py_index blocks i;
            src ← py_index blocks x.1;
            Ok (dict_set src b mv_map, placed ++ [b], free)
        end
    end) ([], [], free_block) (zip topk_values new_block) : res (dict Z Z * list Z * list Z));
  let pairs := zip topk_values placed in
  Ok (mv_map, foldl (λ d x, dict_set x.1 x.2 d) [] (py_upto pairs remain_len),
      foldl (λ d x, dict_set x.1 x.2 d) [] (py_from pairs remain_len)).

Section move.
  Context {A : Type}.

(** [layer_k_cache[mv_map[b]].copy_(layer_k_cache[b])] for every block to move. *)
Definition copy_blocks (mv_map : dict Z Z) (cache : list A) : res (list A) :=
  fold_res (λ cache x,
    row ← py_index cache x.1;
    py_alter (λ _, row) cache x.2) cache mv_map.

End move.

(** The indices kept at the end of the prompt. *)
Definition last_chunk_idx (c : GSAConfig) (blocks_len remain_len prefetch_len : Z) : list Z :=
  let req_idx_list := py_range 0 blocks_len in
  let init := gc_init_windows_size c in
  py_upto req_idx_list init ++ py_from req_idx_list (init - remain_len - prefetch_len).
