(* ===== verification/GsaPrefetch.v ===== *)
(** * Global sparse attention: tables and prefetches

    [GSAPrefetchBase] of [ucm/sparse/gsa/prefetch/prefetch_engine.py]: per layer and
    slot of the batch, the table of the blocks the attention reads and its length, kept
    in two versions that are exchanged when a prefetch is done.  Tensors of integers
    are lists; the native engine, which fills one version while the other is read, is
    a parameter, and so are the key representations and the chosen indices. *)
From S2P Require Import Prelude PyStrings Runtime RankConsistency PyHash Hashing Esa EsaBatch KVStar Gsa.
Open Scope Z_scope.

(** Tensors: per layer and slot of the batch, a number or a row. *)
Notation lens := (list (list Z)).
Notation tables := (list (list (list Z))).

(** The native prefetch engine. *)
Class GsaPrefetchC (W : Type) := {
  pf_del_blocks_map : string → M W unit;
  (** request, index, block *)
  pf_add_blocks_map : string → Z → Z → M W unit;
  pf_set_blocks_map : string → list Z → list Z → list string → Z → M W unit;
  pf_set_blocks_map_multilayer : string → list (option (dict Z Z)) → list (option (dict Z Z)) → list string → Z → M W unit;
  pf_set_blocks_table_info : tables → lens → tables → Z → M W unit;
  pf_run_async_prefetch_bs : list string → list Z → list Z → M W unit;
  pf_obtain_load_blocks : M W (dict string (list (list Z)));
  pf_obtain_miss_idxs : M W (dict string (list (list Z)));
  pf_get_prefetch_status : M W bool;
  (** what its threads have made of the tables and lengths they were given *)
  pf_written : tables → lens → M W (tables * lens);
}.

(** The native computation of representations and of the chosen indices. *)
Class GsaOffloadOps (W : Type) := {
  oo_is_calculate_finish : M W bool;
  (** representations too, layer, rows of the query *)
  oo_add_copy_req : bool → Z → list Z → M W unit;
  oo_set_common_param : list Z → list bool → M W unit;
  oo_set_kpre_param : list Z → M W unit;
  oo_set_topk_param : list (list Z) → M W unit;
  oo_set_topk_cache : list Z → M W unit;
  (** the buffers of the last computation: layer, request, choices *)
  oo_topk_buf : M W tables;
}.

(** ** Tensors *)

(** [t[:, i] = f(t[:, i])] *)
Definition at_slot {B} (i : Z) (f : B → res B) (t : list (list B)) : res (list (list B)) :=
  map_res (λ layer, x ← py_index layer i; y ← f x; py_alter (λ _, y) layer i) t.
(** The same with a value for every layer. *)
Definition at_slot_layers {B C} (i : Z) (f : C → B → res B) (vals : list C) (t : list (list B)) : res (list (list B)) :=
  if negb (zlen vals =? zlen t) then Raise (RuntimeError "shape mismatch")
  else map_res (λ p, x ← py_index p.2 i; y ← f p.1 x; py_alter (λ _, y) p.2 i) (zip vals t).
(** [row[:len(vals)] = vals] *)
Definition set_prefix (vals row : list Z) : res (list Z) :=
  if zlen vals <=? zlen row then Ok (vals ++ drop (length vals) row) else Raise (RuntimeError "shape mismatch").
(** [torch.tensor] of rows of one length. *)
Definition same_lengths (rows : list (list Z)) : res (list (list Z)) :=
  match rows with
  | [] => Ok []
  | r :: _ => if forallb (λ r', zlen r' =? zlen r) rows then Ok rows else Raise (ValueError "expected sequence of equal length")
  end.

(** ** The engine *)

Record GSAPrefetchBase := PrefetchBase {
  pe_step_time : Z;
  pe_topk_space : Z;
  is_topk_cal : bool;
  select_bs_index : list Z;
  open_gsa : bool;
  atb_gsa_enable : bool;
  ptopk_prefetch_enable : bool;
  req_ids_bs : list string;
  block_table_list_bs : list (list Z);
  block_map_flag : dict string (list (Z * Z));
  block_table_flag : dict string (list Z);
  is_gsa_req_id : dict string bool;
  (** the requests of the computation under way, sparse or not, and their lengths *)
  topk_bs : list (string * bool * Z);
  is_topk_update : bool;
  prefetch_blocks : tables;
  m_load_success_list : tables;
  use_block_table : tables;
  prefetch_block_len : lens;
  gsa_seq_len : lens;
  block_table_len : lens;
  use_block_table_len : lens;
  prefetch_topk_buf : tables;
}.

Definition new_prefetch (layers max_block_len : Z) : GSAPrefetchBase :=
  let t : tables := replicate (Z.to_nat layers) (replicate (Z.to_nat MAX_BS) (replicate (Z.to_nat max_block_len) 0)) in
  let l : lens := replicate (Z.to_nat layers) (replicate (Z.to_nat MAX_BS) 0) in
  PrefetchBase 0 0 false [] true true true [] [] [] [] [] [] false t t t l l l l t.

Definition set_pe_batch time slots ids blocks s := PrefetchBase time (pe_topk_space s) (is_topk_cal s) slots (open_gsa s) (atb_gsa_enable s) (ptopk_prefetch_enable s) ids blocks (block_map_flag s) (block_table_flag s) (is_gsa_req_id s) (topk_bs s) (is_topk_update s) (prefetch_blocks s) (m_load_success_list s) (use_block_table s) (prefetch_block_len s) (gsa_seq_len s) (block_table_len s) (use_block_table_len s) (prefetch_topk_buf s).
Definition set_pe_space space s := PrefetchBase (pe_step_time s) space (is_topk_cal s) (select_bs_index s) (open_gsa s) (atb_gsa_enable s) (ptopk_prefetch_enable s) (req_ids_bs s) (block_table_list_bs s) (block_map_flag s) (block_table_flag s) (is_gsa_req_id s) (topk_bs s) (is_topk_update s) (prefetch_blocks s) (m_load_success_list s) (use_block_table s) (prefetch_block_len s) (gsa_seq_len s) (block_table_len s) (use_block_table_len s) (prefetch_topk_buf s).
Definition set_pe_topk cal bs update s := PrefetchBase (pe_step_time s) (pe_topk_space s) cal (select_bs_index s) (open_gsa s) (atb_gsa_enable s) (ptopk_prefetch_enable s) (req_ids_bs s) (block_table_list_bs s) (block_map_flag s) (block_table_flag s) (is_gsa_req_id s) bs update (prefetch_blocks s) (m_load_success_list s) (use_block_table s) (prefetch_block_len s) (gsa_seq_len s) (block_table_len s) (use_block_table_len s) (prefetch_topk_buf s).
Definition set_pe_run open atb ptopk s := PrefetchBase (pe_step_time s) (pe_topk_space s) (is_topk_cal s) (select_bs_index s) open atb ptopk (req_ids_bs s) (block_table_list_bs s) (block_map_flag s) (block_table_flag s) (is_gsa_req_id s) (topk_bs s) (is_topk_update s) (prefetch_blocks s) (m_load_success_list s) (use_block_table s) (prefetch_block_len s) (gsa_seq_len s) (block_table_len s) (use_block_table_len s) (prefetch_topk_buf s).
Definition set_pe_flags maps tbls gsa s := PrefetchBase (pe_step_time s) (pe_topk_space s) (is_topk_cal s) (select_bs_index s) (open_gsa s) (atb_gsa_enable s) (ptopk_prefetch_enable s) (req_ids_bs s) (block_table_list_bs s) maps tbls gsa (topk_bs s) (is_topk_update s) (prefetch_blocks s) (m_load_success_list s) (use_block_table s) (prefetch_block_len s) (gsa_seq_len s) (block_table_len s) (use_block_table_len s) (prefetch_topk_buf s).
Definition set_pe_tables pb ml ub s := PrefetchBase (pe_step_time s) (pe_topk_space s) (is_topk_cal s) (select_bs_index s) (open_gsa s) (atb_gsa_enable s) (ptopk_prefetch_enable s) (req_ids_bs s) (block_table_list_bs s) (block_map_flag s) (block_table_flag s) (is_gsa_req_id s) (topk_bs s) (is_topk_update s) pb ml ub (prefetch_block_len s) (gsa_seq_len s) (block_table_len s) (use_block_table_len s) (prefetch_topk_buf s).
Definition set_pe_lens pl seq bl ul s := PrefetchBase (pe_step_time s) (pe_topk_space s) (is_topk_cal s) (select_bs_index s) (open_gsa s) (atb_gsa_enable s) (ptopk_prefetch_enable s) (req_ids_bs s) (block_table_list_bs s) (block_map_flag s) (block_table_flag s) (is_gsa_req_id s) (topk_bs s) (is_topk_update s) (prefetch_blocks s) (m_load_success_list s) (use_block_table s) pl seq bl ul (prefetch_topk_buf s).
Definition set_pe_topk_buf buf s := PrefetchBase (pe_step_time s) (pe_topk_space s) (is_topk_cal s) (select_bs_index s) (open_gsa s) (atb_gsa_enable s) (ptopk_prefetch_enable s) (req_ids_bs s) (block_table_list_bs s) (block_map_flag s) (block_table_flag s) (is_gsa_req_id s) (topk_bs s) (is_topk_update s) (prefetch_blocks s) (m_load_success_list s) (use_block_table s) (prefetch_block_len s) (gsa_seq_len s) (block_table_len s) (use_block_table_len s) buf.

(** What the attention is given. *)
Record gsa_tables := GsaTables {
  gt_block_tables : tables;
  gt_seq_len : lens;
}.

Section engine.
  Context {W : Type} `{GsaPrefetchC W} `{GsaOffloadOps W}.
  Variable ratio_ceil : Z → Z.
  Variable gf : gsa_conf.

Notation PM := (M (GSAPrefetchBase * (dict string GSAReqStat * W))).

Definition upe (f : GSAPrefetchBase → GSAPrefetchBase) : PM unit := modify (λ s, (f s.1, s.2)).
Definition getpe {B} (f : GSAPrefetchBase → B) : PM B := gets (λ s, f s.1).
Definition on_c {B} (m : M W B) : PM B := lift (λ s, s.2.2) (λ w s, (s.1, (s.2.1, w))) m.
Definition stat_of (req_id : string) : PM GSAReqStat := d ← gets (λ s, s.2.1); of_res (dict_index req_id (d : dict string GSAReqStat)).
Definition up_stat (req_id : string) (f : GSAReqStat → GSAReqStat) : PM unit :=
  st ← stat_of req_id; modify (λ s, (s.1, (dict_set req_id (f st) s.2.1, s.2.2))).

Definition del_finish_meta (req_id : string) (flag : bool) : PM unit :=
  upe (λ s, set_pe_flags (dict_del req_id (block_map_flag s)) (dict_del req_id (block_table_flag s)) (dict_del req_id (is_gsa_req_id s)) s) ;;
  if gf_PTOPK_PREFETCH_ENABLE gf && flag then on_c (pf_del_blocks_map req_id) else mret tt.

Definition _get_max_block_len : PM Z :=
  ids ← getpe req_ids_bs;
  for_fold ids 0 (λ n req_id, st ← stat_of req_id; mret (Z.max n (zlen (gs_blocks st)))).

Definition _get_run_type : PM unit :=
  ids ← getpe req_ids_bs;
  open ← for_fold ids false (λ open req_id, if (open : bool) then mret true else st ← stat_of req_id; mret (is_gsa st));
  upe (set_pe_run open open (open && gf_PTOPK_PREFETCH_ENABLE gf)).

Definition _set_req_stat : PM unit :=
  ids ← getpe req_ids_bs;
  for_each ids (λ req_id,
    known ← getpe is_gsa_req_id;
    st ← stat_of req_id;
    let put b := upe (λ s, set_pe_flags (block_map_flag s) (block_table_flag s) (dict_set req_id b (is_gsa_req_id s)) s) in
    if dict_mem req_id known
    then if negb (gs_prefill st) && is_gsa st then put true else mret tt
    else put (is_gsa st)).

(** The choices of the last computation go to their requests, and the batch of the
    next one is noted. *)
Definition _topk_tmp_deal : PM unit :=
  bs ← getpe topk_bs;
  for_each (zip (seqZ 0 (zlen bs)) bs) (λ x,
    let '(index, (req_id, is_gsa, len)) := x in
    d ← gets (λ s, s.2.1);
    if (is_gsa : bool) && dict_mem req_id (d : dict string GSAReqStat) then
      buf ← on_c oo_topk_buf;
      rows ← of_res (map_res (λ layer, row ← py_index layer index; Ok (py_upto row len)) buf);
      up_stat req_id (set_gs_topk (Some rows))
    else mret tt) ;;
  ids ← getpe req_ids_bs;
  new ← for_fold ids [] (λ acc req_id,
    st ← stat_of req_id;
    let one_topk_len := compute_topk_len ratio_ceil (gf_cfg gf) (zlen (gs_blocks st)) + gc_num_prefetch_blocks (gf_cfg gf) in
    mret (acc ++ [(req_id, is_gsa st, one_topk_len)]));
  upe (λ s, set_pe_topk (is_topk_cal s) new (is_topk_update s) s).

(** The last block is among the choices; one tensor holds those of all layers. *)
Definition insert_last_idx (last_idx : Z) (topk : list (list Z)) : list (list Z) :=
  if existsb (λ row, bool_decide (last_idx ∈ row)) topk then topk else (λ row, row ++ [last_idx]) <$> topk.

Definition _topk_insert_last_idx : PM unit :=
  ids ← getpe req_ids_bs;
  for_each ids (λ req_id,
    st ← stat_of req_id;
    match gs_topk_buf_tmp st with
    | None => mret tt
    | Some topk => up_stat req_id (set_gs_topk (Some (insert_last_idx (zlen (gs_blocks st) - 1) topk)))
    end).

(** The slots of a prompt that was just completed: the rows of the chosen blocks per
    layer, or the same for all layers. *)
Definition first_rows (index : Z) (st : GSAReqStat) (blocks : list Z) : res (list (list Z) * list (list Z) * list Z) :=
  let layers := Z.to_nat (gf_layer_num gf) in
  match gs_reamin_map st with
  | Some remain =>
      prefetch ← (match gs_prefetch_map st with Some p => Ok p | None => Raise (TypeError "'NoneType' object is not subscriptable") end);
      rows ← map_res (λ l : Z,
        r ← py_index remain l; r ← (match r with Some r => Ok r | None => Raise AttributeError end);
        p ← py_index prefetch l; p ← (match p with Some p => Ok p | None => Raise AttributeError end);
        Ok (merge_sort Z.le (r : dict Z Z).*2, (p : dict Z Z).*2)) (seqZ 0 (gf_layer_num gf));
      topk ← same_lengths rows.*1;
      pre ← same_lengths rows.*2;
      Ok (topk, pre, [])
  | None =>
      let block_table_list := py_upto blocks (zlen (gs_blocks st)) in
      match gs_remain_idx st, gs_prefetch_idx st with
      | Some remain, Some prefetch =>
          if zlen remain <? gf_max_block_len gf then
            pre ← map_res (py_index block_table_list) prefetch;
            topk ← map_res (py_index block_table_list) remain;
            Ok (replicate layers topk, replicate layers pre, block_table_list)
          else Raise AssertionError
      | _, _ => Raise (TypeError "'NoneType' object is not iterable")
      end
  end.

(** [len] of the last row, all rows having the same. *)
Definition row_len (rows : list (list Z)) : Z := match last rows with Some r => zlen r | None => 0 end.

Definition first_topk_request (index : Z) (req_id : string) : PM unit :=
  st ← stat_of req_id;
  match gs_remain_idx st with
  | None => mret tt
  | Some remain_idx =>
      slots ← getpe select_bs_index;
      bs_index ← of_res (py_index slots index);
      blocks ← getpe block_table_list_bs;
      blocks ← of_res (py_index blocks index);
      x ← of_res (first_rows index st blocks);
      let '(topk, pre, block_table_list) := x in
      s ← getpe id;
      pl ← of_res (at_slot bs_index (λ _, Ok (row_len pre)) (prefetch_block_len s));
      bl ← of_res (at_slot bs_index (λ _, Ok (row_len topk)) (block_table_len s));
      ul ← of_res (at_slot bs_index (λ _, Ok (row_len topk)) (use_block_table_len s));
      upe (λ s, set_pe_lens pl (gsa_seq_len s) bl ul s) ;;
      pb ← of_res (at_slot_layers bs_index set_prefix pre (prefetch_blocks s));
      ub ← of_res (at_slot_layers bs_index set_prefix topk (use_block_table s));
      ml ← of_res (at_slot_layers bs_index set_prefix topk (m_load_success_list s));
      upe (set_pe_tables pb ml ub) ;;
      hashes ← of_res (match gs_block_hashes st with Some h => Ok h | None => Raise (TypeError "object of type 'NoneType' has no len()") end);
      gsa ← getpe is_gsa_req_id;
      gsa ← of_res (dict_index req_id gsa);
      if (gsa : bool) then
        match gs_reamin_map st, gs_prefetch_map st with
        | Some remain, Some prefetch => on_c (pf_set_blocks_map_multilayer req_id remain prefetch hashes (zlen hashes))
        | _, _ => on_c (pf_set_blocks_map req_id block_table_list (default [] (gs_prefetch_idx st) ++ remain_idx) hashes (zlen hashes))
        end
      else mret tt
  end.

Definition _first_topk_deal : PM unit :=
  ids ← getpe req_ids_bs;
  for_each (zip (seqZ 0 (zlen ids)) ids) (λ x, first_topk_request x.1 x.2).

(** [last_block] after the blocks of a table, in every layer. *)
Definition append_block (bs_index block : Z) : PM unit :=
  layers ← getpe (λ s, zlen (use_block_table s));
  for_each (seqZ 0 layers) (λ layer,
    s ← getpe id;
    n ← of_res (l ← py_index (use_block_table_len s) layer; py_index l bs_index);
    assert_ (n <? gf_max_block_len gf) ;;
    ub ← of_res (t ← py_index (use_block_table s) layer; row ← py_index t bs_index; row ← py_alter (λ _, block) row n;
                 t ← py_alter (λ _, row) t bs_index; py_alter (λ _, t) (use_block_table s) layer);
    ul ← of_res (l ← py_index (use_block_table_len s) layer; l ← py_alter (λ n, n + 1) l bs_index;
                 py_alter (λ _, l) (use_block_table_len s) layer);
    upe (λ s, set_pe_tables (prefetch_blocks s) (m_load_success_list s) ub (set_pe_lens (prefetch_block_len s) (gsa_seq_len s) (block_table_len s) ul s))).

Definition set_seq_len (bs_index : Z) (f : Z → Z) : PM unit :=
  s ← getpe id;
  seq ← of_res (at_slot bs_index (λ n, Ok (f n)) (gsa_seq_len s));
  upe (λ s, set_pe_lens (prefetch_block_len s) seq (block_table_len s) (use_block_table_len s) s).

(** [use_block_table[:, bs_index, :len(blocks)] = blocks] *)
Definition set_table_row (bs_index : Z) (f : list Z → res (list Z)) : PM unit :=
  s ← getpe id;
  ub ← of_res (at_slot bs_index f (use_block_table s));
  upe (λ s, set_pe_tables (prefetch_blocks s) (m_load_success_list s) ub s).

Definition block_len_request (index : Z) (req_id : string) : PM unit :=
  slots ← getpe select_bs_index;
  bs_index ← of_res (py_index slots index);
  st ← stat_of req_id;
  let remain_slot := get_seq_len st mod gf_block_size gf in
  if negb (gs_prefill st) then
    if remain_slot =? 0 then set_seq_len bs_index (λ n, n * gf_block_size gf)
    else if remain_slot =? 1 then
      set_seq_len bs_index (λ n, n * gf_block_size gf + remain_slot) ;;
      last_block ← of_res (py_index (gs_blocks st) (-1));
      append_block bs_index last_block ;;
      upe (λ s, if dict_mem req_id (block_table_flag s) then s
                else set_pe_flags (dict_set req_id [] (block_map_flag s)) (dict_set req_id [] (block_table_flag s)) (is_gsa_req_id s) s) ;;
      s ← getpe id;
      tbls ← of_res (dict_index req_id (block_table_flag s));
      upe (λ s, set_pe_flags (block_map_flag s) (dict_set req_id (tbls ++ [last_block]) (block_table_flag s)) (is_gsa_req_id s) s) ;;
      maps ← of_res (dict_index req_id (block_map_flag s));
      upe (λ s, set_pe_flags (dict_set req_id (maps ++ [(zlen (gs_blocks st) - 1, last_block)]) (block_map_flag s)) (block_table_flag s) (is_gsa_req_id s) s)
    else set_seq_len bs_index (λ n, (n - 1) * gf_block_size gf + remain_slot)
  else
    upe (λ s, set_pe_flags (dict_set req_id [] (block_map_flag s)) (dict_set req_id [] (block_table_flag s)) (is_gsa_req_id s) s) ;;
    set_seq_len bs_index (λ _, get_seq_len st) ;;
    set_table_row bs_index (set_prefix (gs_blocks st)).

Definition _gsa_block_len_pre : PM unit :=
  upe (λ s, set_pe_lens (prefetch_block_len s) (use_block_table_len s) (block_table_len s) (use_block_table_len s) s) ;;
  ids ← getpe req_ids_bs;
  for_each (zip (seqZ 0 (zlen ids)) ids) (λ x, block_len_request x.1 x.2).

(** [torch.max] of the choices *)
Definition max_choice (topk : list (list Z)) : res Z :=
  match concat topk with
  | [] => Raise (RuntimeError "max(): expected reduction dim to be specified")
  | x :: l => Ok (foldl Z.max x l)
  end.

Definition no_gsa_request (index : Z) (req_id : string) : PM unit :=
  slots ← getpe select_bs_index;
  bs_index ← of_res (py_index slots index);
  blocks ← getpe block_table_list_bs;
  table ← of_res (py_index blocks index);
  gsa ← getpe is_gsa_req_id;
  gsa ← of_res (dict_index req_id gsa);
  st ← stat_of req_id;
  let whole_row := λ row, if zlen (gs_blocks st) =? zlen table then set_prefix table row else Raise (RuntimeError "shape mismatch") in
  match (if (gsa : bool) then gs_topk_buf_tmp st else None) with
  | Some topk =>
      m ← of_res (max_choice topk);
      if zlen table - 1 <? m then
        set_seq_len bs_index (λ _, get_seq_len st) ;;
        set_table_row bs_index (λ row, Ok ((λ _, 0) <$> row)) ;;
        set_table_row bs_index whole_row
      else
        let remain_slot := get_seq_len st mod gf_block_size gf in
        one_topk_len ← of_res (r ← py_index topk 0; Ok (zlen r));
        s ← getpe id;
        rows ← of_res (map_res (λ r, map_res (py_index table) r) topk);
        ub ← of_res (at_slot_layers bs_index set_prefix rows (use_block_table s));
        upe (λ s, set_pe_tables (prefetch_blocks s) (m_load_success_list s) ub s) ;;
        set_seq_len bs_index (λ _, if remain_slot =? 0 then one_topk_len * gf_block_size gf
                                   else one_topk_len * gf_block_size gf - gf_block_size gf + remain_slot)
  | None =>
      set_seq_len bs_index (λ _, get_seq_len st) ;;
      set_table_row bs_index whole_row
  end.

Definition _no_gsa_input_deal : PM unit :=
  ids ← getpe req_ids_bs;
  for_each (zip (seqZ 0 (zlen ids)) ids) (λ x, no_gsa_request x.1 x.2).

Definition model_input_deal (req_ids : list string) (block_table_ori : list (list Z)) (topk_kpre_maps : list Z)
    (is_topk_done : bool) : PM (option gsa_tables) :=
  upe (λ s, set_pe_batch (pe_step_time s + 1) topk_kpre_maps req_ids block_table_ori s) ;;
  _get_run_type ;;
  _set_req_stat ;;
  atb ← getpe atb_gsa_enable;
  if (atb : bool) then
    _get_max_block_len ;;
    space ← getpe pe_topk_space;
    let cal := is_topk_done && (space mod 3 =? 0) in
    upe (λ s, set_pe_topk cal (topk_bs s) (is_topk_update s) s) ;;
    (if cal then _topk_tmp_deal ;; upe (λ s, set_pe_topk (is_topk_cal s) (topk_bs s) true s) else mret tt) ;;
    _topk_insert_last_idx ;;
    prefetch ← getpe ptopk_prefetch_enable;
    (if (prefetch : bool) then _first_topk_deal ;; _gsa_block_len_pre else _no_gsa_input_deal) ;;
    s ← getpe id;
    tbl ← of_res (map_res (λ layer, map_res (py_index layer) (select_bs_index s)) (use_block_table s));
    seq ← of_res (map_res (λ layer, map_res (py_index layer) (select_bs_index s)) (gsa_seq_len s));
    mret (Some (GsaTables tbl seq))
  else mret None.

(** The tables the engine filled while the others were read. *)
Definition _swap_block_table_tensor : PM unit :=
  slots ← getpe select_bs_index;
  for_each (zip (seqZ 0 (zlen slots)) slots) (λ x,
    let '(index, bs_index) := x in
    ids ← getpe req_ids_bs;
    req_id ← of_res (py_index ids index);
    maps ← getpe block_map_flag;
    (match dict_get req_id maps with
     | Some l =>
         for_each l (λ p, on_c (pf_add_blocks_map req_id p.1 p.2)) ;;
         upe (λ s, set_pe_flags (dict_set req_id [] (block_map_flag s)) (block_table_flag s) (is_gsa_req_id s) s)
     | None => mret tt
     end) ;;
    tbls ← getpe block_table_flag;
    (match dict_get req_id tbls with
     | Some l =>
         for_each l (append_block bs_index) ;;
         upe (λ s, set_pe_flags (block_map_flag s) (dict_set req_id [] (block_table_flag s)) (is_gsa_req_id s) s)
     | None => mret tt
     end) ;;
    st ← stat_of req_id;
    match gs_topk_buf_tmp st with
    | None => mret tt
    | Some topk =>
        rows ← of_res (same_lengths topk);
        s ← getpe id;
        buf ← of_res (at_slot_layers index set_prefix rows (prefetch_topk_buf s));
        upe (set_pe_topk_buf buf)
    end).

(** The blocks to load per request and layer, and their indices, for a load done in
    Python. *)
Definition deal_async_prefetch (is_python_load is_prefetch_done : bool) :
    PM (option (dict string (list (list Z)) * dict string (list (list Z)))) :=
  upe (λ s, set_pe_space (pe_topk_space s + 1) s) ;;
  s ← getpe id;
  if atb_gsa_enable s && (is_prefetch_done && ptopk_prefetch_enable s && is_topk_update s) then
    written ← on_c (pf_written (m_load_success_list s) (block_table_len s));
    upe (λ s, set_pe_tables (prefetch_blocks s) (use_block_table s) written.1
                (set_pe_lens (prefetch_block_len s) (gsa_seq_len s) (use_block_table_len s) written.2 s)) ;;
    _swap_block_table_tensor ;;
    s ← getpe id;
    on_c (pf_set_blocks_table_info (m_load_success_list s) (block_table_len s)
            ((λ layer, take (length (select_bs_index s)) layer) <$> prefetch_topk_buf s) (pe_step_time s)) ;;
    lens ← for_fold (req_ids_bs s) [] (λ acc req_id,
      gsa ← of_res (dict_index req_id (is_gsa_req_id s));
      if (gsa : bool) then
        st ← stat_of req_id;
        n ← of_res (match gs_topk_buf_tmp st with Some topk => r ← py_index topk 0; Ok (zlen r) | None => Ok 0 end);
        mret (acc ++ [n])
      else mret (acc ++ [0]));
    on_c (pf_run_async_prefetch_bs (req_ids_bs s) lens (select_bs_index s)) ;;
    upe (λ s, set_pe_topk (is_topk_cal s) (topk_bs s) false s) ;;
    if is_python_load then
      free ← on_c pf_obtain_load_blocks;
      miss ← on_c pf_obtain_miss_idxs;
      mret (Some (free, miss))
    else mret None
  else mret None.

End engine.
