(* ===== verification/GsaBatch.v ===== *)
(** * Global sparse attention: the worker and the scheduler

    The class [GSA] of [ucm/sparse/gsa/gsa.py]: the state of the worker over a batch,
    the caches of the layers, the loads of the prefetch done in Python, and the slots
    asked of and allocated by the scheduler.  The means of the keys, the choice of the
    blocks, the native computations and the store are parameters. *)
From S2P Require Import Prelude PyStrings Runtime RankConsistency PyHash Hashing Esa EsaBatch KVStar KVStarBatch Gsa GsaPrefetch.
Open Scope Z_scope.

Definition gsa_get_offset : Z * Z * Z → Z → Z → Z → Z → bool → bool → Z := get_offset.

(** The store: loads into blocks (layer, value cache, block), and the state of a
    load. *)
Class GsaStore (W : Type) := {
  gl_load : list string → list Z → list (Z * bool * Z) → M W task;
  gl_check : task → M W bool;
}.

(** [TopkCal], the choice of blocks on the device. *)
Class GsaCudaTopk (W : Type) := {
  ct_set_topk_param : list (list Z) → list (list bool) → list (list bool) → M W unit;
  ct_set_topk_caches : list Z → list Z → M W unit;
  (** layer, rows of the query; all rows for MLA *)
  ct_cal_topk : Z → option (list Z) → M W unit;
}.

(** [make_tensor_with_pad] *)
Definition pad_rows {B} (pad : B) (rows : list (list B)) : list (list B) :=
  let n := foldl Z.max 0 (zlen <$> rows) in
  (λ r, r ++ replicate (Z.to_nat (n - zlen r)) pad) <$> rows.

Section gsa.
  Context {W A R : Type} `{GsaPrefetchC W} `{GsaOffloadOps W} `{GsaStore W} `{GsaCudaTopk W} `{PyHash}.
  Variable ratio_ceil : Z → Z.
  (** The mean of the keys of a block; the indices chosen for the row of a query
      among slots with their masks; the hash of a transfer. *)
  Variable mean : A → R.
  Variable choose : Z → Z → list Z → list bool → list bool → Z → list Z.
  Variable task_hash_func : list string → string → string → Z.
  Variable gf : gsa_conf.
  (** Elements of a block in a cache. *)
  Variable block_numel : Z.

Record gsa := GsaState {
  ga_engine : GSAPrefetchBase;
  ga_stats : dict string GSAReqStat;
  ga_manger : TopKAndKpreManger;
  ga_model_input : option gsa_input;
  ga_tables : option gsa_tables;
  ga_decode_index : list Z;
  ga_copy_k_flag : list bool;
  ga_task_load : dict Z task;
  (** per layer: the caches of keys and values, the representations of the slots *)
  ga_caches : list (list A * list A);
  ga_kpre_caches : list (list R);
}.

Notation GB := (M (gsa * W)).

Definition set_ga_engine x y s := GsaState x y (ga_manger s) (ga_model_input s) (ga_tables s) (ga_decode_index s) (ga_copy_k_flag s) (ga_task_load s) (ga_caches s) (ga_kpre_caches s).
Definition set_ga_stats x s := GsaState (ga_engine s) x (ga_manger s) (ga_model_input s) (ga_tables s) (ga_decode_index s) (ga_copy_k_flag s) (ga_task_load s) (ga_caches s) (ga_kpre_caches s).
Definition set_ga_manger x s := GsaState (ga_engine s) (ga_stats s) x (ga_model_input s) (ga_tables s) (ga_decode_index s) (ga_copy_k_flag s) (ga_task_load s) (ga_caches s) (ga_kpre_caches s).
Definition set_ga_input x y s := GsaState (ga_engine s) (ga_stats s) (ga_manger s) x y (ga_decode_index s) (ga_copy_k_flag s) (ga_task_load s) (ga_caches s) (ga_kpre_caches s).
Definition set_ga_decode x s := GsaState (ga_engine s) (ga_stats s) (ga_manger s) (ga_model_input s) (ga_tables s) x (ga_copy_k_flag s) (ga_task_load s) (ga_caches s) (ga_kpre_caches s).
Definition set_ga_flag x s := GsaState (ga_engine s) (ga_stats s) (ga_manger s) (ga_model_input s) (ga_tables s) (ga_decode_index s) x (ga_task_load s) (ga_caches s) (ga_kpre_caches s).
Definition set_ga_tasks x s := GsaState (ga_engine s) (ga_stats s) (ga_manger s) (ga_model_input s) (ga_tables s) (ga_decode_index s) (ga_copy_k_flag s) x (ga_caches s) (ga_kpre_caches s).
Definition set_ga_caches x y s := GsaState (ga_engine s) (ga_stats s) (ga_manger s) (ga_model_input s) (ga_tables s) (ga_decode_index s) (ga_copy_k_flag s) (ga_task_load s) x y.

Definition upga (f : gsa → gsa) : GB unit := modify (λ s, (f s.1, s.2)).
Definition getga {B} (f : gsa → B) : GB B := gets (λ s, f s.1).
Definition on_gw {B} (m : M W B) : GB B := lift snd (λ w s, (s.1, w)) m.
Definition on_engine {B} (m : M (GSAPrefetchBase * (dict string GSAReqStat * W)) B) : GB B :=
  lift (λ s, (ga_engine s.1, (ga_stats s.1, s.2))) (λ e s, (set_ga_engine e.1 e.2.1 s.1, e.2.2)) m.
Definition on_manger {B} (m : M TopKAndKpreManger B) : GB B := lift (λ s, ga_manger s.1) (λ x s, (set_ga_manger x s.1, s.2)) m.
Definition ga_stat (req_id : string) : GB GSAReqStat := d ← getga ga_stats; of_res (dict_index req_id d).
Definition up_ga_stat (req_id : string) (f : GSAReqStat → GSAReqStat) : GB unit :=
  st ← ga_stat req_id; upga (λ s, set_ga_stats (dict_set req_id (f st) (ga_stats s)) s).
Definition the_input : GB gsa_input :=
  i ← getga ga_model_input;
  match i with Some i => mret i | None => raise (TypeError "'NoneType' object is not subscriptable") end.

(** ** Before and after the attention of a layer *)

Definition copy_q (layer : Z) : GB unit :=
  e ← getga ga_engine;
  ids ← for_fold (req_ids_bs e) (replicate (length (req_ids_bs e)) (-1)) (λ ids req_id,
    st ← ga_stat req_id;
    if is_gsa st then
      row ← (if gf_use_mla gf then mret 1
             else i ← the_input; n ← of_res (py_index (gi_query_locals i) (gs_index_in_batch st + 1)); mret (n - 1));
      of_res (py_alter (λ _, row) ids (gs_index_in_batch st))
    else mret ids);
  if gf_CUDA_TOPK gf then on_gw (ct_cal_topk layer (if gf_use_mla gf then None else Some ids))
  else
    i ← the_input;
    on_gw (oo_add_copy_req (match gi_calc_block_table i with [] => false | _ => true end) layer ids).

(** The means of the keys of the new blocks go to their slots. *)
Definition copy_k (layer : Z) : GB unit :=
  i ← the_input;
  match gi_calc_block_table i with
  | [] => mret tt
  | block_ids =>
      s ← getga id;
      c ← of_res (py_index (ga_caches s) layer);
      keys ← of_res (gather c.1 block_ids);
      kpre ← of_res (py_index (ga_kpre_caches s) layer);
      kpre ← of_res (scatter kpre (gi_calc_repre_slot_mapping i) (mean <$> keys));
      kpres ← of_res (py_alter (λ _, kpre) (ga_kpre_caches s) layer);
      upga (λ s, set_ga_caches (ga_caches s) kpres s) ;;
      on_gw (oo_add_copy_req true layer [])
  end.

(** What the attention of a layer reads: the tables and lengths of the batch, those of
    its decoding requests for MLA; [None] when it reads the engine's own. *)
Definition gsa_attention_begin (layer_name : string) (decode_phase : bool) : GB (option (list (list Z) * list Z)) :=
  layer ← of_res (layer_id_of layer_name);
  e ← getga ga_engine;
  let applies := negb (gf_use_mla gf) || decode_phase in
  (if atb_gsa_enable e && is_topk_cal e && applies then copy_q layer else mret tt) ;;
  if atb_gsa_enable e && applies then
    t ← getga ga_tables;
    t ← (match t with Some t => mret t | None => raise KeyError end);
    tbl ← of_res (py_index (gt_block_tables t) layer);
    seq ← of_res (py_index (gt_seq_len t) layer);
    if gf_use_mla gf then
      idx ← getga ga_decode_index;
      tbl ← of_res (map_res (py_index tbl) idx);
      seq ← of_res (map_res (py_index seq) idx);
      mret (Some (tbl, seq))
    else mret (Some (tbl, seq))
  else mret None.

(** [last_chunk_topk_cal] *)
Definition last_chunk_topk_cal (st : GSAReqStat) (layer first_topk_len : Z) : GB (list Z) :=
  i ← the_input;
  locals ← (match (if gf_use_mla gf then gi_query_locals_prefill i else Some (gi_query_locals i)) with
            | Some l => mret l | None => raise KeyError end);
  n ← of_res (py_index locals (gs_index_in_batch st + 1));
  mret (choose layer (n - 1) (gs_repre_slot_mapping st) (gs_include_mask st) (gs_exclude_mask st) first_topk_len).

Definition kvcache_init_last_chunk (layer : Z) (topk_value : list Z) (req_id : string) : GB unit :=
  st ← ga_stat req_id;
  let blocks_len := zlen (gs_blocks st) in
  let remain_len := compute_topk_len ratio_ceil (gf_cfg gf) blocks_len in
  let prefetch_len := Z.min (gc_num_prefetch_blocks (gf_cfg gf)) (blocks_len - remain_len) in
  let remain_idx := last_chunk_idx (gf_cfg gf) blocks_len remain_len prefetch_len in
  assert_ (zlen remain_idx =? zlen topk_value) ;;
  maps ← of_res (get_mv_map (gs_blocks st) remain_idx topk_value remain_len);
  let '(mv_map, remain_map, prefetch_map) := maps in
  let put (m : dict Z Z) l := match l with
                              | Some l => py_alter (λ _, Some m) l layer
                              | None => Raise (TypeError "'NoneType' object does not support item assignment") end in
  rm ← of_res (put remain_map (gs_reamin_map st));
  pm ← of_res (put prefetch_map (gs_prefetch_map st));
  up_ga_stat req_id (set_gs_maps (Some rm) (Some pm)) ;;
  s ← getga id;
  c ← of_res (py_index (ga_caches s) layer);
  k ← of_res (copy_blocks mv_map c.1);
  v ← of_res (if gf_use_mla gf then Ok c.2 else copy_blocks mv_map c.2);
  cs ← of_res (py_alter (λ _, (k, v)) (ga_caches s) layer);
  upga (λ s, set_ga_caches cs (ga_kpre_caches s) s).

Definition last_chunk_request (layer : Z) (req_id : string) : GB unit :=
  d ← getga ga_stats;
  assert_ (dict_mem req_id d) ;;
  st ← ga_stat req_id;
  if gs_is_last_chunk st && (SEG_PREFILL_THRESHOLD <? gs_num_prompt_tokens st) && gf_PTOPK_PREFETCH_ENABLE gf then
    let blocks_len := zlen (gs_blocks st) in
    let remain_len := compute_topk_len ratio_ceil (gf_cfg gf) blocks_len in
    let prefetch_len := Z.min (gc_num_prefetch_blocks (gf_cfg gf)) (blocks_len - remain_len) in
    topk_value ← last_chunk_topk_cal st layer (remain_len + prefetch_len);
    let none := replicate (Z.to_nat (gf_layer_num gf)) None in
    (match gs_reamin_map st with
     | None => up_ga_stat req_id (set_gs_maps (Some none) (Some none))
     | Some _ => mret tt
     end) ;;
    kvcache_init_last_chunk layer topk_value req_id ;;
    st ← ga_stat req_id;
    let buf := default (replicate (Z.to_nat (gf_layer_num gf)) (replicate (length topk_value) 0)) (gs_topk_buf_tmp st) in
    row ← of_res (py_index buf layer);
    row ← of_res (if zlen row =? zlen topk_value then Ok topk_value else Raise (RuntimeError "shape mismatch"));
    buf ← of_res (py_alter (λ _, row) buf layer);
    up_ga_stat req_id (set_gs_topk (Some buf))
  else mret tt.

Definition gsa_attention_finished (layer_name : string) : GB unit :=
  layer ← of_res (layer_id_of layer_name);
  flags ← getga ga_copy_k_flag;
  flag ← of_res (py_index flags layer);
  (if (flag : bool) then mret tt
   else copy_k layer ;; flags ← of_res (py_alter (λ _, true) flags layer); upga (set_ga_flag flags)) ;;
  if gf_use_mla gf && gf_cuda gf then mret tt
  else
    e ← getga ga_engine;
    for_each (req_ids_bs e) (last_chunk_request layer).

(** ** A step *)

Definition build_gsa_metadata (out : gsa_output) (requests : dict string engine_request) (req_id_to_index : dict string Z) : GB unit :=
  for_each (go_num_scheduled_tokens out) (λ x,
    m ← getga ga_manger;
    if manger_is_exist x.1 m then mret tt
    else i ← on_manger (manger_alloc x.1); assert_ (match i with Some _ => true | None => false end)) ;;
  s ← getga id;
  input ← lift (λ s, (ga_stats s.1, (ga_engine s.1, s.2))) (λ x s, (set_ga_engine x.2.1 x.1 s.1, x.2.2))
    (get_model_input ratio_ceil gf
       (λ req_id, lift (λ ew : GSAPrefetchBase * W, (ew.1, ([], ew.2))) (λ x _, (x.1, x.2.2)) (del_finish_meta gf req_id false))
       out (cache_map (ga_manger s)) requests req_id_to_index);
  upga (set_ga_input (Some input) None).

Definition gsa_build_sparse_meta (out : gsa_output) (requests : dict string engine_request)
    (req_ids : list string) (req_id_to_index : dict string Z) : GB unit :=
  build_gsa_metadata out requests req_id_to_index ;;
  idx ← of_res (map_res (λ rid, dict_index rid req_id_to_index)
                  (filter (λ rid, dict_get_default rid 0 (go_num_scheduled_tokens out) = 1) req_ids));
  upga (set_ga_decode idx).

Definition _start_topk_cal : GB unit :=
  e ← getga ga_engine;
  if atb_gsa_enable e && is_topk_cal e then
    stats ← for_fold (req_ids_bs e) [] (λ acc req_id, st ← ga_stat req_id; mret (acc ++ [st]));
    let chosen := filter (λ st, is_gsa st = true) stats in
    let cal_topk_id := gs_index_in_batch <$> chosen in
    let lens := (λ st, compute_topk_len ratio_ceil (gf_cfg gf) (zlen (gs_blocks st)) + gc_num_prefetch_blocks (gf_cfg gf)) <$> chosen in
    on_gw (oo_set_common_param cal_topk_id (is_gsa <$> stats)) ;;
    i ← the_input;
    (match gi_calc_block_table i with [] => mret tt | blocks => on_gw (oo_set_kpre_param blocks) end) ;;
    if gf_CUDA_TOPK gf then
      on_gw (ct_set_topk_param (pad_rows 0 (gs_repre_slot_mapping <$> chosen)) (pad_rows false (gs_include_mask <$> chosen))
               (pad_rows true (gs_exclude_mask <$> chosen))) ;;
      on_gw (ct_set_topk_caches cal_topk_id (replicate (length lens) (foldl Z.max 0 lens)))
    else
      on_gw (oo_set_topk_param (gs_repre_slot_mapping <$> stats)) ;;
      on_gw (oo_set_topk_cache lens)
  else mret tt.

(** A place of the batch nobody has stays 0, which names no request. *)
Definition execute_begin (out : gsa_output) : GB unit :=
  upga (set_ga_flag (replicate (Z.to_nat (gf_layer_num gf)) false)) ;;
  let batch := go_num_scheduled_tokens out in
  places ← for_fold batch (replicate (length batch) None) (λ places x,
    st ← ga_stat x.1;
    m ← getga ga_manger;
    slot ← of_res (dict_index x.1 (cache_map m));
    of_res (py_alter (λ _, Some (x.1, gs_blocks st, slot)) places (gs_index_in_batch st)));
  is_topk_done ← on_gw oo_is_calculate_finish;
  places ← of_res (map_res (λ p : option (string * list Z * Z), match p with Some p => Ok p | None => Raise KeyError end) places);
  t ← on_engine (model_input_deal ratio_ceil gf ((λ p, p.1.1) <$> places) ((λ p, p.1.2) <$> places) (snd <$> places) is_topk_done);
  upga (λ s, set_ga_input (ga_model_input s) t s) ;;
  _start_topk_cal.

(** [False] at the first load that is not done; the table is emptied when all are. *)
Definition check_transfer_task_done : GB bool :=
  tasks ← getga ga_task_load;
  all_done ← for_fold tasks true (λ ok x, if (ok : bool) then on_gw (gl_check x.2) else mret false);
  if (all_done : bool) then upga (set_ga_tasks []) ;; mret true else mret false.

(** The element count of the first layer's cache, all its blocks. *)
Definition cache_numel (caches : list (list A * list A)) : res Z := c ← py_index caches 0; Ok (zlen c.1 * block_numel).

Definition gsa_launch_transfer_task (loads : option (dict string (list (list Z)) * dict string (list (list Z)))) : GB unit :=
  match loads with
  | None => mret tt
  | Some (all_free_block_ids, all_miss_ids) =>
      caches ← getga ga_caches;
      numel ← of_res (cache_numel caches);
      let block_data_size := numel * gf_element_size gf in
      x ← for_fold all_free_block_ids ([], [], []) (λ acc x,
        st ← ga_stat x.1;
        for_fold (seqZ 0 (gf_layer_num gf)) acc (λ acc layer,
          let '(hashes, offsets, tensors) := acc in
          ids ← of_res (py_index x.2 layer);
          match ids with
          | [] => mret acc
          | _ =>
              misses ← of_res (dict_index x.1 all_miss_ids);
              misses ← of_res (py_index misses layer);
              req_hashes ← (match gs_block_hashes st with Some h => mret h | None => raise (TypeError "'NoneType' object is not subscriptable") end);
              hs ← of_res (map_res (py_index req_hashes) misses);
              let part is_v := ((λ _ : Z, compute_layer_offset block_data_size layer is_v (gf_use_mla gf)) <$> ids,
                                (λ b, (layer, is_v, b)) <$> ids) in
              let '(ok, tk) := part false in
              let '(ov, tv) := part true in
              if gf_use_mla gf then mret (hashes ++ hs, offsets ++ ok, tensors ++ tk)
              else mret (hashes ++ hs ++ hs, offsets ++ ok ++ ov, tensors ++ tk ++ tv)
          end));
      let '(block_hashes, offsets, tensors) := x in
      t ← on_gw (gl_load block_hashes offsets tensors);
      upga (λ s, set_ga_tasks (dict_set (task_hash_func block_hashes "load" "value") t (ga_task_load s)) s)
  end.

Definition execute_finished : GB unit :=
  let is_python_load := negb (gf_cuda gf) in
  if gf_PTOPK_PREFETCH_ENABLE gf then
    done ← (if is_python_load then check_transfer_task_done else on_gw pf_get_prefetch_status);
    loads ← on_engine (deal_async_prefetch gf is_python_load done);
    if is_python_load then gsa_launch_transfer_task loads else mret tt
  else on_engine (deal_async_prefetch gf is_python_load false) ;; mret tt.

Definition gsa_request_finished_in_worker (req_id : string) : GB unit :=
  m ← getga ga_manger;
  (if manger_is_exist req_id m then on_manger (manger_free req_id) ;; mret tt else mret tt) ;;
  upga (λ s, set_ga_stats (dict_del req_id (ga_stats s)) s) ;;
  on_engine (del_finish_meta gf req_id true).

(** ** The scheduler *)

Definition gsa_estimate_num_slots_sparsed (num_prompt_tokens num_output_tokens : Z) : Z :=
  let block_size := gf_block_size gf in
  if negb (gf_PTOPK_PREFETCH_ENABLE gf) then INVALID_SLOT
  else if (num_output_tokens =? 0) || (num_prompt_tokens <? block_size) then INVALID_SLOT
  else if num_prompt_tokens <=? SEG_PREFILL_THRESHOLD then INVALID_SLOT
  else
    let num_tokens := num_prompt_tokens + num_output_tokens in
    let num_prompt_blocks := ceil_div num_prompt_tokens block_size in
    let num_all_blocks := ceil_div num_tokens block_size in
    let topk_len := compute_topk_len ratio_ceil (gf_cfg gf) num_prompt_blocks in
    let prefetch_len := Z.min (gc_num_prefetch_blocks (gf_cfg gf)) (num_prompt_blocks - topk_len) in
    let num_sparse_blocks := num_all_blocks - num_prompt_blocks + topk_len + prefetch_len in
    let flaw := num_tokens mod block_size in
    num_sparse_blocks * block_size - (if flaw =? 0 then 0 else block_size - flaw).

(** The blocks a request needs of those it has. *)
Definition num_blocks_needed (num_prompt_tokens num_output_tokens num_slots_sparsed : Z) : Z :=
  let num_tokens := num_prompt_tokens + num_output_tokens in
  if (num_prompt_tokens + 1 =? num_tokens) && (num_tokens mod gf_block_size gf =? 1)
  then ceil_div num_slots_sparsed (gf_block_size gf) - 1
  else ceil_div num_slots_sparsed (gf_block_size gf).

(** The first window and the last blocks are kept. *)
Definition is_kept (num_blocks_original num_blocks_need i : Z) : bool :=
  (num_blocks_original - num_blocks_need + gc_init_windows_size (gf_cfg gf) <=? i) || (i <? gc_init_windows_size (gf_cfg gf)).

Definition kept_blocks (num_blocks_need : Z) (allocated_blocks : list Z) : list Z :=
  (filter (λ x, is_kept (zlen allocated_blocks) num_blocks_need x.1 = true) (zip (seqZ 0 (zlen allocated_blocks)) allocated_blocks)).*2.

Definition returned_blocks (num_blocks_need : Z) (allocated_blocks : list Z) : list Z :=
  (filter (λ x, is_kept (zlen allocated_blocks) num_blocks_need x.1 = false) (zip (seqZ 0 (zlen allocated_blocks)) allocated_blocks)).*2.

(** [reset_ref_cnt b] is [b.ref_cnt = 1]. *)
Definition gsa_allocate_slots (km : @kv_block_manager W) (reset_ref_cnt : Z → M W unit)
    (request_id : string) (num_prompt_tokens num_output_tokens num_slots_sparsed : Z) : M W (option (list Z)) :=
  let need := num_blocks_needed num_prompt_tokens num_output_tokens num_slots_sparsed in
  allocated_blocks ← bm_get_blocks km request_id;
  let n := zlen allocated_blocks in
  for_each (zip (seqZ 0 n) allocated_blocks) (λ x,
    (if is_kept n need x.1 then mret tt else reset_ref_cnt x.2) ;;
    bm_maybe_evict_cached_block km x.2) ;;
  bm_free_blocks km (returned_blocks need allocated_blocks) ;;
  bm_set_req_to_blocks km request_id (kept_blocks need allocated_blocks) ;;
  num_blocks_to_allocate ← bm_get_num_blocks_to_allocate km request_id num_slots_sparsed;
  avail ← bm_get_num_free_blocks km;
  if avail <? num_blocks_to_allocate then mret None
  else
    bm_allocate_new_blocks km request_id num_slots_sparsed ;;
    blocks ← bm_get_blocks km request_id;
    mret (Some blocks).

End gsa.
