(* ===== verification/GsaProps.v ===== *)
(** * Properties of global sparse attention

    The moves of the chosen blocks, the agreement of scheduler and worker on the
    blocks kept, the slots of the requests and the identifiers ([Gsa.v],
    [GsaPrefetch.v], [GsaBatch.v]). *)
From S2P Require Import Prelude PyStrings Runtime RankConsistency Sim PyHash Hashing Esa EsaBatch EsaProps KVStar KVStarBatch Gsa GsaPrefetch GsaBatch.
Open Scope Z_scope.

(** ** Moving the chosen blocks *)

(** Copies whose sources are none of the targets. *)
Lemma copy_blocks_spec {A} (mv : dict Z Z) : ∀ cache : list A,
  NoDup mv.*2 → (∀ b, b ∈ mv.*1 → b ∉ mv.*2) → (∀ x, x ∈ mv → 0 ≤ x.1 < zlen cache ∧ 0 ≤ x.2 < zlen cache) →
  ∃ cache', copy_blocks mv cache = Ok cache' ∧ zlen cache' = zlen cache ∧
    (∀ x, x ∈ mv → cache' !! Z.to_nat x.2 = cache !! Z.to_nat x.1) ∧
    (∀ b, 0 ≤ b → b ∉ mv.*2 → cache' !! Z.to_nat b = cache !! Z.to_nat b).
Proof.
  induction mv as [|[s d] mv IH]; intros cache Hnd Hdis Hin.
  { exists cache. cbn. split_and!; try done. by intros x ?%not_elem_of_nil. }
  csimpl in *. apply NoDup_cons in Hnd as [Hd Hnd]. destruct (Hin (s, d) ltac:(left)) as [Hs Hd']. cbn in Hs, Hd'.
  destruct (py_index_in cache s Hs) as (row & Hrow & Hlook). unfold copy_blocks. cbn [fold_res fst snd]. rewrite -> Hrow. cbn [mbind res_bind].
  rewrite -> py_set_in by done. cbn [mbind res_bind].
  assert (Hl : zlen (<[Z.to_nat d := row]> cache) = zlen cache) by (unfold zlen; by rewrite -> length_insert).
  destruct (IH (<[Z.to_nat d := row]> cache)) as (cache' & Hrun & Hlen & Hmv & Hother).
  - done.
  - intros b Hb Hb'. apply (Hdis b); [by right|by right].
  - intros x Hx. rewrite -> Hl. apply Hin. by right.
  - exists cache'. split; [exact Hrun|]. split; [lia|]. assert (Hds : s ≠ d) by (intros ->; apply (Hdis d); left).
    assert (Hlk : ∀ b, 0 ≤ b → b ≠ d → <[Z.to_nat d := row]> cache !! Z.to_nat b = cache !! Z.to_nat b)
      by (intros b Hb Hne; apply list_lookup_insert_ne; lia).
    split.
    + intros x [->|Hx]%elem_of_cons.
      * cbn. rewrite -> Hother by (lia || done). rewrite -> list_lookup_insert_eq by (unfold zlen in Hd'; lia). done.
      * rewrite -> Hmv by done. apply Hlk; [apply Hin; by right|]. intros <-.
        apply (Hdis x.1); [right; apply list_elem_of_fmap; by exists x|left].
    + intros b Hb Hb'. rewrite -> Hother by (done || set_solver). apply Hlk; [done|set_solver].
Qed.

Section moves.
  Variable remain : list Z.

(** The kept index that each chosen index gets, and the moves. *)
Fixpoint assign (todo free : list Z) : list Z :=
  match todo with
  | [] => []
  | i :: todo =>
      if decide (i ∈ remain) then i :: assign todo free
      else match free with [] => [] | f :: free => f :: assign todo free end
  end.
Fixpoint moves (todo free : list Z) : list (Z * Z) :=
  match todo with
  | [] => []
  | i :: todo =>
      if decide (i ∈ remain) then moves todo free
      else match free with [] => [] | f :: free => (i, f) :: moves todo free end
  end.

Definition misses (todo : list Z) : list Z := filter (λ i, i ∉ remain) todo.

Lemma misses_cons i todo : misses (i :: todo) = if decide (i ∈ remain) then misses todo else i :: misses todo.
Proof. unfold misses. rewrite -> filter_cons. repeat case_decide; tauto. Qed.

Lemma assign_spec todo : ∀ free, (length (misses todo) ≤ length free)%nat →
  length (assign todo free) = length todo ∧
  (moves todo free).*1 = misses todo ∧ (moves todo free).*2 = take (length (misses todo)) free ∧
  (∀ k i a, todo !! k = Some i → assign todo free !! k = Some a → (i ∈ remain ∧ a = i) ∨ (i ∉ remain ∧ (i, a) ∈ moves todo free)).
Proof.
  induction todo as [|i todo IH]; intros free Hl; [done|]. rewrite -> misses_cons in *. cbn [assign moves]. case_decide as Hi.
  - destruct (IH free Hl) as (H1 & H2 & H3 & H4). split_and!; [cbn; by rewrite -> H1|done|done|].
    intros [|k] j a Hj Ha; cbn in Hj, Ha; [injection Hj as <-; injection Ha as <-; by left|by apply (H4 k)].
  - destruct free as [|f free]; [cbn in Hl; lia|]. destruct (IH free) as (H1 & H2 & H3 & H4); [cbn in Hl; lia|].
    cbn. rewrite -> H1, H2, H3. split_and!; try done. intros [|k] j a Hj Ha; cbn in Hj, Ha.
    + injection Hj as <-. injection Ha as <-. right. split; [done|left].
    + destruct (H4 k j a Hj Ha) as [?|[? ?] ]; [by left|right; split; [done|by right] ].
Qed.

Lemma assign_NoDup todo : ∀ free, NoDup todo → NoDup free → (∀ i, i ∈ todo → i ∈ remain → i ∉ free) → NoDup (assign todo free) ∧
  ∀ a, a ∈ assign todo free → (a ∈ todo ∧ a ∈ remain) ∨ a ∈ free.
Proof.
  induction todo as [|i todo IH]; intros free Ht Hf Hdis; [split; [constructor|by intros a ?%not_elem_of_nil]|].
  apply NoDup_cons in Ht as [Hi Ht]. cbn [assign]. case_decide as Hr.
  - destruct (IH free) as [Hn Ha]; [done|done|intros; apply Hdis; [by right|done]|]. split.
    + apply NoDup_cons. split; [|done]. intros [ [? _]|Hx]%Ha; [done|]. by apply (Hdis i ltac:(left) Hr).
    + intros a [->|Hx]%elem_of_cons; [left; split; [left|done] |]. destruct (Ha a Hx) as [ [? ?]|?]; [left; split; [by right|done]|by right].
  - destruct free as [|f free]; [split; [constructor|by intros a ?%not_elem_of_nil]|]. apply NoDup_cons in Hf as [Hff Hf].
    destruct (IH free) as [Hn Ha]; [done|done|intros j Hj Hjr Hjf; apply (Hdis j); [by right|done|by right]|]. split.
    + apply NoDup_cons. split; [|done]. intros [ [Hx Hxr]|Hx]%Ha; [|done]. apply (Hdis f ltac:(by right) Hxr). left.
    + intros a [->|Hx]%elem_of_cons; [right; left|]. destruct (Ha a Hx) as [ [? ?]|?]; [left; split; [by right|done]|right; by right].
Qed.

End moves.

Definition nth_block (blocks : list Z) (i : Z) : Z := default 0 (blocks !! Z.to_nat i).

Lemma nth_block_index blocks i : 0 ≤ i < zlen blocks → py_index blocks i = Ok (nth_block blocks i) ∧ nth_block blocks i ∈ blocks.
Proof.
  intros Hi. destruct (py_index_in blocks i Hi) as (b & Hb & Hl). unfold nth_block. rewrite -> Hl. split; [done|]. by apply list_elem_of_lookup_2 in Hl.
Qed.

Lemma nth_block_inj blocks i j : NoDup blocks → 0 ≤ i < zlen blocks → 0 ≤ j < zlen blocks → nth_block blocks i = nth_block blocks j → i = j.
Proof.
  intros Hnd Hi Hj. destruct (py_index_in blocks i Hi) as (b & _ & Hl), (py_index_in blocks j Hj) as (c & _ & Hl').
  unfold nth_block. rewrite -> Hl, Hl'. cbn. intros ->. pose proof (NoDup_lookup _ _ _ _ Hnd Hl Hl'). lia.
Qed.

Lemma nth_block_map_NoDup blocks l : NoDup blocks → NoDup l → (∀ i, i ∈ l → 0 ≤ i < zlen blocks) → NoDup (nth_block blocks <$> l).
Proof.
  intros Hb Hl Hin. induction l as [|i l IH]; [constructor|]. csimpl. apply NoDup_cons in Hl as [Hi Hl]. apply NoDup_cons. split.
  - intros (j & Hj & Hjl)%list_elem_of_fmap. apply nth_block_inj in Hj; [by subst|done|apply Hin; left|apply Hin; by right].
  - apply IH; [done|]. intros. apply Hin. by right.
Qed.

Lemma mv_fold_run blocks remain todo : ∀ mv placed free,
  (∀ i, i ∈ todo ∨ i ∈ free → 0 ≤ i < zlen blocks) → (length (misses remain todo) ≤ length free)%nat →
  fold_res (λ acc x,
    let '(mv_map, placed, free) := acc in
    match x.2 with
    | Some b => Ok (mv_map, placed ++ [b], free)
    | None =>
        match free with
        | [] => Raise IndexError
        | i :: free =>
            b ← py_index blocks i;
            src ← py_index blocks x.1;
            Ok (dict_set src b mv_map, placed ++ [b], free)
        end
    end) (mv, placed, free) (zip todo ((λ i, if decide (i ∈ remain) then Some (nth_block blocks i) else None) <$> todo)) =
  Ok (foldl (λ d x, dict_set x.1 x.2 d) mv ((λ p, (nth_block blocks p.1, nth_block blocks p.2)) <$> moves remain todo free),
      placed ++ (nth_block blocks <$> assign remain todo free), drop (length (misses remain todo)) free).
Proof.
  induction todo as [|i todo IH]; intros mv placed free Hin Hl; [cbn; by rewrite -> app_nil_r|].
  rewrite -> misses_cons in *. cbn [fmap list_fmap zip fold_res assign moves fst snd]. case_decide as Hi.
  - cbn [mbind res_bind]. rewrite -> IH; [|intros j [Hj|Hj]; apply Hin; [left; by right|by right]|done]. cbn. by rewrite <- app_assoc.
  - destruct free as [|f free]; [cbn in Hl; lia|].
    rewrite -> (proj1 (nth_block_index blocks f (Hin f ltac:(right; left)))). cbn [mbind res_bind].
    rewrite -> (proj1 (nth_block_index blocks i (Hin i ltac:(left; left)))). cbn [mbind res_bind].
    rewrite -> IH; [|intros j [Hj|Hj]; apply Hin; [left; by right|right; by right]|cbn in Hl; lia]. cbn. by rewrite <- app_assoc.
Qed.

(** The free places are as many as the choices that miss. *)
Lemma free_count remain topk : NoDup remain → NoDup topk → length remain = length topk →
  let free := filter (λ i, i ∉ filter (λ i, i ∈ remain) topk) remain in
  NoDup free ∧ (∀ i, i ∈ free ↔ i ∈ remain ∧ i ∉ topk) ∧ length free = length (misses remain topk).
Proof.
  intros Hr Ht Hl free. split; [by apply NoDup_filter|]. assert (Hfree : ∀ i, i ∈ free ↔ i ∈ remain ∧ i ∉ topk).
  { intros i. unfold free. rewrite -> list_elem_of_filter, list_elem_of_filter. tauto. }
  split; [exact Hfree|].
  assert (Hp : filter (λ i, i ∈ topk) remain ≡ₚ filter (λ i, i ∈ remain) topk).
  { apply NoDup_Permutation; [by apply NoDup_filter|by apply NoDup_filter|]. intros i. rewrite -> !list_elem_of_filter. tauto. }
  apply Permutation_length in Hp.
  assert (H1 : (length (filter (λ i, i ∈ topk) remain) + length free)%nat = length remain).
  { rewrite <- length_app. apply Permutation_length. apply NoDup_Permutation; [|done|].
    - apply NoDup_app. split_and!; [by apply NoDup_filter| |by apply NoDup_filter]. intros i Hi Hf%Hfree. apply list_elem_of_filter in Hi. tauto.
    - intros i. rewrite -> elem_of_app, Hfree, list_elem_of_filter. destruct (decide (i ∈ topk)); tauto. }
  assert (H2 : (length (filter (λ i, i ∈ remain) topk) + length (misses remain topk))%nat = length topk).
  { clear. induction topk as [|i l IH]; [done|]. rewrite -> misses_cons, filter_cons. repeat case_decide; cbn; try tauto; lia. }
  lia.
Qed.

(** Where a chosen index is put: among the blocks that stay or those of the prefetch. *)
Definition placed_in (remain_map prefetch_map : dict Z Z) (i : Z) : option Z :=
  match dict_get i remain_map with Some b => Some b | None => dict_get i prefetch_map end.

Lemma foldl_dict_of_list (l : list (Z * Z)) : NoDup l.*1 → foldl (λ d x, dict_set x.1 x.2 d) [] l = l.
Proof. intros Hnd. rewrite -> foldl_dict_set_fresh; [done|done|]. by intros k _ ?%not_elem_of_nil. Qed.

Lemma placed_split (pairs : list (Z * Z)) n i b : 0 ≤ n → NoDup pairs.*1 → (i, b) ∈ pairs →
  placed_in (foldl (λ d x, dict_set x.1 x.2 d) [] (py_upto pairs n)) (foldl (λ d x, dict_set x.1 x.2 d) [] (py_from pairs n)) i = Some b.
Proof.
  intros Hn Hnd Hin. rewrite -> py_upto_pos, py_from_pos by done. set (k := Z.to_nat n).
  assert (Hsplit : pairs.*1 = (take k pairs).*1 ++ (drop k pairs).*1) by by rewrite <- fmap_app, take_drop.
  rewrite -> Hsplit in Hnd. apply NoDup_app in Hnd as (H1 & H12 & H2). rewrite -> !foldl_dict_of_list by done. unfold placed_in.
  rewrite <- (take_drop k pairs) in Hin. apply elem_of_app in Hin as [Hin|Hin].
  - by rewrite -> (dict_elem_get _ _ _ H1 Hin).
  - destruct (dict_get i (take k pairs)) eqn:E; [|by apply dict_elem_get].
    exfalso. apply (H12 i).
    + apply dict_get_Some_elem in E. apply list_elem_of_fmap. by exists (i, z).
    + apply list_elem_of_fmap. by exists (i, b).
Qed.

Lemma mv_map_run blocks remain topk n :
  NoDup blocks → NoDup remain → NoDup topk → length remain = length topk → 0 ≤ n →
  (∀ i, i ∈ remain ∨ i ∈ topk → 0 ≤ i < zlen blocks) →
  let free := filter (λ i, i ∉ filter (λ i, i ∈ remain) topk) remain in
  let mv := (λ p, (nth_block blocks p.1, nth_block blocks p.2)) <$> moves remain topk free in
  ∃ rm pm, get_mv_map blocks remain topk n = Ok (mv, rm, pm) ∧
    ∀ (k : nat) i a, topk !! k = Some i → assign remain topk free !! k = Some a → placed_in rm pm i = Some (nth_block blocks a).
Proof.
  intros Hb Hr Ht Hl Hn Hin free mv. destruct (free_count remain topk Hr Ht Hl) as (Hfn & Hf & Hfl). fold free in Hfn, Hf, Hfl.
  destruct (assign_spec remain topk free) as (Hal & Hm1 & Hm2 & _); [lia|].
  assert (Hmiss : ∀ i, i ∈ misses remain topk → i ∈ topk) by (intros i Hi%list_elem_of_filter; tauto).
  unfold get_mv_map. rewrite -> (map_res_pure _ (λ i, if decide (i ∈ remain) then Some (nth_block blocks i) else None)).
  2: { intros i Hi. case_decide; [|done]. by rewrite -> (proj1 (nth_block_index blocks i (Hin i ltac:(by right)))). }
  cbn [mbind res_bind]. fold free. rewrite -> mv_fold_run; [|intros i [Hi|Hi]; apply Hin; [by right|left; by apply Hf]|lia].
  cbn [mbind res_bind app]. set (placed := nth_block blocks <$> assign remain topk free).
  assert (Hmv : foldl (λ d x, dict_set x.1 x.2 d) [] mv = mv).
  { apply foldl_dict_of_list. assert (mv.*1 = nth_block blocks <$> (moves remain topk free).*1) as -> by (unfold mv; by rewrite <- !list_fmap_compose).
    rewrite -> Hm1. apply nth_block_map_NoDup; [done|by apply NoDup_filter|]. intros i Hi. apply Hin. auto. }
  fold mv. rewrite -> Hmv. eexists _, _. split; [done|]. intros k i a Hi Ha. apply placed_split; [done| |].
  - rewrite -> fst_zip by (unfold placed; rewrite -> length_fmap; lia). done.
  - apply elem_of_lookup_zip_with. exists k, i, (nth_block blocks a). split_and!; [done|done|]. unfold placed. by rewrite -> list_lookup_fmap, Ha.
Qed.

(** C32: When a prompt is complete, every chosen block is found where the maps say:
    each chosen index is given a block of its own among those the request keeps, and
    after the copies that block holds what the chosen one held before; a chosen block
    that is kept stays where it is, and no copy overwrites what a later one reads or
    what other requests hold. *)
Theorem gsa_moves_keep_chosen {A} (blocks remain topk : list Z) (remain_len : Z) (cache : list A) :
  NoDup blocks → NoDup remain → NoDup topk → length remain = length topk → 0 ≤ remain_len →
  (∀ i, i ∈ remain ∨ i ∈ topk → 0 ≤ i < zlen blocks) → (∀ b, b ∈ blocks → 0 ≤ b < zlen cache) →
  ∃ mv rm pm cache', get_mv_map blocks remain topk remain_len = Ok (mv, rm, pm) ∧ copy_blocks mv cache = Ok cache' ∧
    (∀ i, i ∈ topk → ∃ b src, placed_in rm pm i = Some b ∧ b ∈ (nth_block blocks <$> remain) ∧ py_index blocks i = Ok src ∧
       cache' !! Z.to_nat b = cache !! Z.to_nat src ∧ (i ∈ remain → b = src)) ∧
    (∀ i j b, i ∈ topk → j ∈ topk → placed_in rm pm i = Some b → placed_in rm pm j = Some b → i = j) ∧
    (∀ b, 0 ≤ b → b ∉ (nth_block blocks <$> remain) → cache' !! Z.to_nat b = cache !! Z.to_nat b).
Proof.
  intros Hb Hr Ht Hl Hn Hin Hcache. destruct (mv_map_run blocks remain topk remain_len) as (rm & pm & Hrun & Hplaced); try done.
  set (free := filter (λ i, i ∉ filter (λ i, i ∈ remain) topk) remain) in *. set (mv := _ <$> moves remain topk free) in *.
  destruct (free_count remain topk Hr Ht Hl) as (Hfn & Hf & Hfl). fold free in Hfn, Hf, Hfl.
  destruct (assign_spec remain topk free) as (Hal & Hm1 & Hm2 & Hassign); [lia|].
  destruct (assign_NoDup remain topk free) as [Han Hain]; [done|done|intros i Hi _ Hif%Hf; tauto|].
  assert (Har : ∀ a, a ∈ assign remain topk free → a ∈ remain) by (intros a [ [_ ?]|?%Hf]%Hain; tauto).
  assert (Hmv2 : mv.*2 = nth_block blocks <$> (moves remain topk free).*2) by (unfold mv; by rewrite <- !list_fmap_compose).
  assert (Hmv1 : mv.*1 = nth_block blocks <$> (moves remain topk free).*1) by (unfold mv; by rewrite <- !list_fmap_compose).
  rewrite -> Hm1 in Hmv1. rewrite -> Hm2, take_ge in Hmv2 by lia.
  assert (Hmiss : ∀ i, i ∈ misses remain topk ↔ i ∈ topk ∧ i ∉ remain) by (intros i; unfold misses; rewrite -> list_elem_of_filter; tauto).
  destruct (copy_blocks_spec mv cache) as (cache' & Hcopy & _ & Hmoved & Hsame).
  - rewrite -> Hmv2. apply nth_block_map_NoDup; [done|done|]. intros i Hi%Hf. apply Hin. tauto.
  - rewrite -> Hmv1, Hmv2. intros b (i & -> & Hi%Hmiss)%list_elem_of_fmap (j & Hj & Hjf%Hf)%list_elem_of_fmap.
    apply nth_block_inj in Hj; [subst; tauto|done|apply Hin; tauto|apply Hin; tauto].
  - intros x (p & -> & Hp)%list_elem_of_fmap. cbn.
    assert (p.1 ∈ misses remain topk) as Hp1%Hmiss by (rewrite <- Hm1; apply list_elem_of_fmap; by exists p).
    assert (p.2 ∈ free) as Hp2%Hf by (rewrite <- (take_ge free (length (misses remain topk))), <- Hm2 by lia; apply list_elem_of_fmap; by exists p).
    split; apply Hcache, nth_block_index, Hin; tauto.
  - exists mv, rm, pm, cache'. split; [done|]. split; [done|]. split; [|split].
    + intros i Hi. apply list_elem_of_lookup in Hi as [k Hk]. destruct (lookup_lt_is_Some_2 (assign remain topk free) k) as [a Ha].
      { rewrite -> Hal. by apply lookup_lt_Some in Hk. }
      assert (Hir : 0 ≤ i < zlen blocks) by (apply Hin; right; by eapply list_elem_of_lookup_2).
      destruct (nth_block_index blocks i Hir) as [Hsrc Hsb].
      exists (nth_block blocks a), (nth_block blocks i). split; [by apply (Hplaced k)|].
      split; [apply list_elem_of_fmap; exists a; split; [done|]; by eapply Har, list_elem_of_lookup_2|]. split; [done|].
      destruct (Hassign k i a Hk Ha) as [ [Hi ->]|[Hi Hmove] ].
      * split; [|done]. apply Hsame; [by apply Hcache|]. rewrite -> Hmv2. intros (j & Hj & Hjf%Hf)%list_elem_of_fmap.
        apply nth_block_inj in Hj; [|done|done|apply Hin; tauto]. subst j. apply list_elem_of_lookup_2 in Hk. tauto.
      * split; [|done]. apply (Hmoved (nth_block blocks i, nth_block blocks a)). apply list_elem_of_fmap. by exists (i, a).
    + intros i j b Hi Hj Hbi Hbj. apply list_elem_of_lookup in Hi as [k Hk]. apply list_elem_of_lookup in Hj as [l Hl'].
      destruct (lookup_lt_is_Some_2 (assign remain topk free) k) as [a Ha]; [rewrite -> Hal; by apply lookup_lt_Some in Hk|].
      destruct (lookup_lt_is_Some_2 (assign remain topk free) l) as [a' Ha']; [rewrite -> Hal; by apply lookup_lt_Some in Hl'|].
      rewrite -> (Hplaced k i a Hk Ha) in Hbi. rewrite -> (Hplaced l j a' Hl' Ha') in Hbj.
      assert (a = a') as <-.
      { apply (nth_block_inj blocks); [done|..]; [apply Hin; left; by eapply Har, list_elem_of_lookup_2..|congruence]. }
      pose proof (NoDup_lookup _ _ _ _ Han Ha Ha'). subst l. congruence.
    + intros b Hb0 Hbr. apply Hsame; [done|]. rewrite -> Hmv2. intros (j & -> & Hjf%Hf)%list_elem_of_fmap. apply Hbr, list_elem_of_fmap.
      exists j. tauto.
Qed.

(** ** The blocks kept by the scheduler and by the worker *)

Definition indexed (k : Z) (l : list Z) : list (Z * Z) := zip (seqZ k (zlen l)) l.

Lemma indexed_app k a b : indexed k (a ++ b) = indexed k a ++ indexed (k + zlen a) b.
Proof.
  unfold indexed. rewrite -> zlen_app, seqZ_app by apply zlen_nonneg. apply zip_with_app.
  rewrite -> length_seqZ. unfold zlen. lia.
Qed.

Lemma indexed_range k l x : x ∈ indexed k l → k ≤ x.1 < k + zlen l.
Proof. destruct x. intros Hx%elem_of_zip_l. apply elem_of_seqZ in Hx. cbn. lia. Qed.

Lemma indexed_snd k l : (indexed k l).*2 = l.
Proof. unfold indexed. apply snd_zip. rewrite -> length_seqZ. unfold zlen. lia. Qed.

Lemma filter_id {B} (P : B → Prop) `{∀ x, Decision (P x)} (l : list B) : (∀ x, x ∈ l → P x) → filter P l = l.
Proof.
  induction l as [|x l IH]; intros Hl; [done|]. rewrite -> filter_cons_True by (apply Hl; left). f_equal. apply IH.
  intros y Hy. apply Hl. by right.
Qed.

Lemma filter_nothing {B} (P : B → Prop) `{∀ x, Decision (P x)} (l : list B) : (∀ x, x ∈ l → ¬ P x) → filter P l = [].
Proof.
  induction l as [|x l IH]; intros Hl; [done|]. rewrite -> filter_cons_False by (apply Hl; left). apply IH.
  intros y Hy. apply Hl. by right.
Qed.

Lemma filter_indexed (f : Z → bool) (c : bool) a b d : (∀ x, x ∈ indexed 0 a → f x.1 = c) →
  (∀ x, x ∈ indexed (zlen a) b → f x.1 = negb c) → (∀ x, x ∈ indexed (zlen a + zlen b) d → f x.1 = c) →
  (filter (λ x, f x.1 = c) (indexed 0 (a ++ b ++ d))).*2 = a ++ d ∧ (filter (λ x, f x.1 = negb c) (indexed 0 (a ++ b ++ d))).*2 = b.
Proof.
  intros Ha Hb Hd. rewrite -> !indexed_app, Z.add_0_l, !filter_app, !fmap_app.
  assert (Hall : ∀ e k l, (∀ x, x ∈ indexed k l → f x.1 = e) → (filter (λ x : Z * Z, f x.1 = e) (indexed k l)).*2 = l).
  { intros e k l Hx. rewrite -> filter_id by done. apply indexed_snd. }
  assert (Hno : ∀ e k l, (∀ x, x ∈ indexed k l → f x.1 = negb e) → (filter (λ x : Z * Z, f x.1 = e) (indexed k l)).*2 = []).
  { intros e k l Hx. rewrite -> filter_nothing; [done|]. intros x Hin. rewrite -> Hx by done. by destruct e. }
  rewrite -> (Hall c 0 a), (Hno c _ b), (Hall c _ d), (Hno (negb c) 0 a), (Hall (negb c) _ b), (Hno (negb c) _ d);
    try done; rewrite -> ?negb_involutive; try done. by rewrite -> app_nil_r.
Qed.

Section sizes.
  Variable ratio_ceil : Z → Z.
  Hypothesis ratio_ok : ∀ n, 0 ≤ n → 0 ≤ ratio_ceil n ≤ n.
  Variable gf : gsa_conf.
Let c : GSAConfig := gf_cfg gf.
Let init : Z := gc_init_windows_size c.
Let bs : Z := gf_block_size gf.

Lemma topk_len_bounds n : gc_min_topk_len c ≤ gc_max_topk_len c → 0 ≤ n →
  Z.min (gc_min_topk_len c) n ≤ compute_topk_len ratio_ceil c n ≤ n.
Proof.
  intros Hmm Hn. pose proof (ratio_ok n Hn). unfold compute_topk_len.
  destruct (Z.ltb_spec (ratio_ceil n) (gc_min_topk_len c)), (Z.ltb_spec (gc_max_topk_len c) (ratio_ceil n)); lia.
Qed.

Lemma last_chunk_idx_eq n topk pre : 0 ≤ init < topk + pre → topk + pre ≤ n →
  last_chunk_idx c n topk pre = seqZ 0 init ++ seqZ (n - (topk + pre) + init) (topk + pre - init).
Proof.
  intros Hi Hn. unfold last_chunk_idx. fold init. unfold py_range. rewrite -> Z.sub_0_r.
  assert (Hl : zlen (seqZ 0 n) = n) by (unfold zlen; rewrite -> length_seqZ; lia).
  f_equal.
  - rewrite -> py_upto_pos by lia. replace n with (init + (n - init)) by lia. rewrite -> seqZ_app by lia.
    rewrite -> take_app_le, take_ge; rewrite -> ?length_seqZ; try lia. done.
  - unfold py_from, norm_idx. rewrite -> Hl, (proj2 (Z.ltb_lt _ _)) by lia.
    replace (seqZ 0 n) with (seqZ 0 (n - (topk + pre) + init) ++ seqZ (n - (topk + pre) + init) (topk + pre - init)).
    + rewrite -> drop_app_ge; rewrite -> ?length_seqZ; [|lia].
      replace (_ - _)%nat with 0%nat by lia. done.
    + transitivity (seqZ 0 ((n - (topk + pre) + init) + (topk + pre - init))); [|f_equal; lia].
      rewrite -> (seqZ_app 0 (n - (topk + pre) + init) (topk + pre - init)) by lia. by rewrite -> Z.add_0_l.
Qed.

(** The blocks a sparse request keeps of those of its prompt. *)
Definition kept_len (n : Z) : Z :=
  let topk := compute_topk_len ratio_ceil c n in topk + Z.min (gc_num_prefetch_blocks c) (n - topk).

Lemma ceil_div_sub k f b : 0 < b → 0 ≤ f < b → ceil_div (k * b - f) b = k.
Proof. intros Hb Hf. unfold ceil_div. symmetry. apply (Z.div_unique _ _ _ (b - 1 - f)); lia. Qed.

Lemma estimate_blocks num_prompt num_output : gf_PTOPK_PREFETCH_ENABLE gf = true → 0 < bs ≤ num_prompt → SEG_PREFILL_THRESHOLD < num_prompt →
  0 < num_output →
  ceil_div (gsa_estimate_num_slots_sparsed ratio_ceil gf num_prompt num_output) bs =
    ceil_div (num_prompt + num_output) bs - ceil_div num_prompt bs + kept_len (ceil_div num_prompt bs).
Proof.
  intros Hp Hbs Hlong Hout. unfold gsa_estimate_num_slots_sparsed. fold bs. rewrite -> Hp. cbn [negb].
  rewrite -> (proj2 (Z.eqb_neq num_output 0)), (proj2 (Z.ltb_ge num_prompt bs)), (proj2 (Z.leb_gt num_prompt _)) by lia. cbn [orb].
  pose proof (Z.mod_pos_bound (num_prompt + num_output) bs ltac:(lia)) as Hm.
  rewrite -> ceil_div_sub by (repeat case_match; lia). unfold kept_len, c. lia.
Qed.

Hypothesis cfg_ok : c = set_config bs.
Hypothesis bs_ok : 2 ≤ bs ≤ 2048.

Lemma kept_len_bounds num_prompt : SEG_PREFILL_THRESHOLD < num_prompt →
  0 ≤ init < kept_len (ceil_div num_prompt bs) ∧ kept_len (ceil_div num_prompt bs) ≤ ceil_div num_prompt bs.
Proof.
  intros Hlong. unfold SEG_PREFILL_THRESHOLD in Hlong. set (n := ceil_div num_prompt bs).
  assert (Hci : init = ceil_div 128 bs) by (unfold init; by rewrite -> cfg_ok).
  assert (Hmin : gc_min_topk_len c = ceil_div 4096 bs) by by rewrite -> cfg_ok.
  assert (Hmax : gc_max_topk_len c = ceil_div 6144 bs) by by rewrite -> cfg_ok.
  assert (Hpre : gc_num_prefetch_blocks c = ceil_div 128 bs) by by rewrite -> cfg_ok.
  assert (Hmono : ∀ a b, a ≤ b → ceil_div a bs ≤ ceil_div b bs) by (intros; unfold ceil_div; apply Z.div_le_mono; lia).
  assert (Hstep : ceil_div 128 bs + 1 ≤ ceil_div 4096 bs).
  { unfold ceil_div. rewrite <- Z.div_add by lia. apply Z.div_le_mono; lia. }
  assert (H0 : 0 ≤ ceil_div 128 bs) by (unfold ceil_div; apply Z.div_pos; lia).
  pose proof (Hmono 4096 num_prompt ltac:(lia)). fold n in H. pose proof (Hmono 4096 6144 ltac:(lia)).
  pose proof (topk_len_bounds n ltac:(lia) ltac:(lia)) as Hb. unfold kept_len. lia.
Qed.

Lemma num_needed_first num_prompt : gf_PTOPK_PREFETCH_ENABLE gf = true → bs ≤ num_prompt → SEG_PREFILL_THRESHOLD < num_prompt →
  num_blocks_needed gf num_prompt 1 (gsa_estimate_num_slots_sparsed ratio_ceil gf num_prompt 1) = kept_len (ceil_div num_prompt bs).
Proof.
  intros Hp Hbs Hlong. unfold num_blocks_needed. fold bs. rewrite -> estimate_blocks, Z.eqb_refl by (done || lia). cbn [andb].
  pose proof (Z.div_mod (num_prompt + 1) bs ltac:(lia)) as Hd. pose proof (Z.mod_pos_bound (num_prompt + 1) bs ltac:(lia)) as Hm.
  assert (Hc : ceil_div (num_prompt + 1) bs = num_prompt / bs + 1).
  { unfold ceil_div. replace (num_prompt + 1 + bs - 1) with (num_prompt + 1 * bs) by lia. by rewrite -> Z.div_add by lia. }
  rewrite -> Hc, ceil_div_spec by lia. rewrite -> mod_succ by lia.
  pose proof (Z.mod_pos_bound num_prompt bs ltac:(lia)).
  destruct (Z.eqb_spec (num_prompt mod bs) 0) as [->|Hne].
  - rewrite -> decide_False, Z.add_0_l, Z.eqb_refl by lia. lia.
  - case_decide as Hl; [change (0 =? 1) with false; cbn iota; lia|]. rewrite -> (proj2 (Z.eqb_neq _ 1)) by lia. lia.
Qed.

Lemma kept_returned need (l : list Z) : 0 ≤ init ≤ need → need ≤ zlen l →
  kept_blocks gf need l = take (Z.to_nat init) l ++ drop (Z.to_nat (zlen l - need + init)) l ∧
  returned_blocks gf need l = py_slice l init (zlen l - need + init).
Proof.
  intros Hi Hn. rewrite -> py_slice_pos by lia. set (a := take (Z.to_nat init) l). set (d := drop (Z.to_nat (zlen l - need + init)) l).
  set (b := take (Z.to_nat (zlen l - need + init - init)) (drop (Z.to_nat init) l)).
  assert (Hl : l = a ++ b ++ d).
  { unfold a, b, d. replace (Z.to_nat (zlen l - need + init)) with (Z.to_nat init + Z.to_nat (zlen l - need + init - init))%nat by lia.
    rewrite <- drop_drop, take_drop. by rewrite -> take_drop. }
  assert (Ha : zlen a = init) by (unfold a, zlen in *; rewrite -> length_take; lia).
  assert (Hb : zlen b = zlen l - need) by (unfold b, zlen in *; rewrite -> length_take, length_drop; lia).
  unfold kept_blocks, returned_blocks. fold (indexed 0 l).
  pose proof (filter_indexed (is_kept gf (zlen l) need) true a b d) as Hf. rewrite -> Ha, Hb in Hf. cbn [negb] in Hf.
  destruct Hf as [H1 H2]; [| | |rewrite <- Hl in H1, H2; split; assumption];
    intros x Hx%indexed_range; unfold is_kept; fold c init; rewrite -> ?Ha, ?Hb in Hx; destruct (Z.leb_spec (zlen l - need + init) x.1), (Z.ltb_spec x.1 init); done || lia.
Qed.

Lemma kept_all need (l : list Z) : zlen l ≤ need → kept_blocks gf need l = l ∧ returned_blocks gf need l = [].
Proof.
  intros Hn. unfold kept_blocks, returned_blocks. fold (indexed 0 l). split.
  - rewrite -> filter_id; [apply indexed_snd|]. intros x _. unfold is_kept. destruct (Z.leb_spec (zlen l - need + gc_init_windows_size (gf_cfg gf)) x.1); [done|].
    cbn. lia.
  - rewrite -> filter_nothing; [done|]. intros x _. unfold is_kept. destruct (Z.leb_spec (zlen l - need + gc_init_windows_size (gf_cfg gf)) x.1); [done|].
    cbn. lia.
Qed.

Lemma num_needed_later num_prompt num_output : gf_PTOPK_PREFETCH_ENABLE gf = true → bs ≤ num_prompt → SEG_PREFILL_THRESHOLD < num_prompt →
  0 < num_output →
  ceil_div (gsa_estimate_num_slots_sparsed ratio_ceil gf num_prompt num_output) bs ≤
    num_blocks_needed gf num_prompt (num_output + 1) (gsa_estimate_num_slots_sparsed ratio_ceil gf num_prompt (num_output + 1)).
Proof.
  intros Hp Hbs Hlong Hout. unfold num_blocks_needed. fold bs. rewrite -> (proj2 (Z.eqb_neq (num_prompt + 1) _)) by lia. cbn [andb].
  rewrite -> !estimate_blocks by (done || lia).
  assert (ceil_div (num_prompt + num_output) bs ≤ ceil_div (num_prompt + (num_output + 1)) bs) by (unfold ceil_div; apply Z.div_le_mono; lia).
  lia.
Qed.

End sizes.

Lemma nth_block_seqZ (l : list Z) a k : 0 ≤ a → 0 ≤ k → a + k ≤ zlen l →
  nth_block l <$> seqZ a k = take (Z.to_nat k) (drop (Z.to_nat a) l).
Proof.
  intros Ha Hk Hl. unfold zlen in Hl. apply list_eq. intros i. rewrite -> list_lookup_fmap.
  destruct (decide (i < Z.to_nat k)%nat) as [Hi|Hi].
  - rewrite -> lookup_seqZ_lt, lookup_take_lt, lookup_drop by lia. cbn. unfold nth_block.
    replace (Z.to_nat (a + Z.of_nat i)) with (Z.to_nat a + i)%nat by lia.
    destruct (lookup_lt_is_Some_2 l (Z.to_nat a + i)) as [x Hx]; [lia|]. by rewrite -> Hx.
  - rewrite -> lookup_seqZ_ge, lookup_take_ge by lia. done.
Qed.

(** C33: Scheduler and worker agree on what a long prompt keeps, when
    PTOPK_PREFETCH_ENABLE is on (utils.py has it off).  At the first step of
    decoding the scheduler needs as many blocks as the worker keeps indices; the
    blocks it leaves in the table of the request are those of the indices the worker
    moves the chosen blocks to, in that order; the others are given back, none of
    them among the kept; and at the steps after it nothing more is given back. *)
Theorem gsa_kept_blocks_agree ratio_ceil gf num_prompt (blocks : list Z) :
  (∀ n, 0 ≤ n → 0 ≤ ratio_ceil n ≤ n) → gf_cfg gf = set_config (gf_block_size gf) → 2 ≤ gf_block_size gf ≤ 2048 →
  gf_PTOPK_PREFETCH_ENABLE gf = true → SEG_PREFILL_THRESHOLD < num_prompt →
  zlen blocks = ceil_div num_prompt (gf_block_size gf) → NoDup blocks →
  let n := zlen blocks in
  let topk := compute_topk_len ratio_ceil (gf_cfg gf) n in
  let idx := last_chunk_idx (gf_cfg gf) n topk (Z.min (gc_num_prefetch_blocks (gf_cfg gf)) (n - topk)) in
  let slots := gsa_estimate_num_slots_sparsed ratio_ceil gf num_prompt in
  let need := num_blocks_needed gf num_prompt 1 (slots 1) in
  zlen idx = need ∧ NoDup idx ∧ (∀ i, i ∈ idx → 0 ≤ i < n) ∧
  kept_blocks gf need blocks = nth_block blocks <$> idx ∧
  kept_blocks gf need blocks ++ returned_blocks gf need blocks ≡ₚ blocks ∧
  (∀ b, b ∈ returned_blocks gf need blocks → b ∉ kept_blocks gf need blocks) ∧
  (∀ num_output (l : list Z), 0 < num_output → zlen l = ceil_div (slots num_output) (gf_block_size gf) →
     let need := num_blocks_needed gf num_prompt (num_output + 1) (slots (num_output + 1)) in
     kept_blocks gf need l = l ∧ returned_blocks gf need l = []).
Proof.
  intros Hratio Hcfg Hbs Hp Hlong Hlen Hnd n topk idx slots need.
  assert (Hneed : need = kept_len ratio_ceil gf n).
  { unfold need, slots, n. rewrite -> Hlen. apply num_needed_first; try done; unfold SEG_PREFILL_THRESHOLD in Hlong; lia. }
  destruct (kept_len_bounds ratio_ceil Hratio gf Hcfg Hbs num_prompt Hlong) as [Hinit Hle]. rewrite <- Hlen in Hinit, Hle. fold n in Hinit, Hle.
  set (init := gc_init_windows_size (gf_cfg gf)) in *.
  assert (Hidx : idx = seqZ 0 init ++ seqZ (n - need + init) (need - init)).
  { unfold idx. rewrite -> last_chunk_idx_eq; [|exact Hinit|exact Hle]. fold init. rewrite -> Hneed. done. }
  rewrite <- Hneed in Hinit, Hle.
  destruct (kept_returned gf need blocks) as [Hkept Hret]; [unfold init in *; lia|exact Hle|]. fold init n in Hkept, Hret.
  assert (Hall : kept_blocks gf need blocks ++ returned_blocks gf need blocks ≡ₚ blocks).
  { rewrite -> Hkept, Hret, py_slice_pos by lia. rewrite -> (Permutation_app_comm (take _ _)), <- app_assoc, (Permutation_app_comm (drop _ _)), <- app_assoc.
    replace (drop (Z.to_nat (n - need + init)) blocks) with (drop (Z.to_nat (n - need + init - init)) (drop (Z.to_nat init) blocks)).
    - by rewrite -> take_drop, take_drop.
    - rewrite -> drop_drop. f_equal. lia. }
  split_and!.
  - rewrite -> Hidx, zlen_app. unfold zlen. rewrite -> !length_seqZ. lia.
  - rewrite -> Hidx. apply NoDup_app. split_and!; [apply NoDup_seqZ| |apply NoDup_seqZ]. intros i Hi Hi'. apply elem_of_seqZ in Hi, Hi'. lia.
  - intros i. rewrite -> Hidx, elem_of_app, !elem_of_seqZ. lia.
  - rewrite -> Hkept, Hidx, fmap_app, !nth_block_seqZ by lia. f_equal. symmetry. apply take_ge. rewrite -> length_drop. unfold n, zlen in *. lia.
  - exact Hall.
  - rewrite <- Hall in Hnd. apply NoDup_app in Hnd as (_ & Hdis & _). intros b Hb Hb'. by apply (Hdis b).
  - intros num_output l Hout Hl need'. apply kept_all. rewrite -> Hl. apply num_needed_later; try done; unfold SEG_PREFILL_THRESHOLD in Hlong; lia.
Qed.

(** ** The slots of a request *)

(** The masks: the first and the last two blocks are always chosen. *)
Definition include_shape (n : Z) : list bool :=
  if 2 <? n then true :: replicate (Z.to_nat (n - 3)) false ++ [true; true] else replicate (Z.to_nat n) true.

(** A request whose slots are those after [off], one for each block. *)
Record slots_ok (off : Z) (s : GSAReqStat) : Prop := SlotsOk {
  so_blocks : gs_blocks s ≠ [];
  so_mapping : gs_repre_slot_mapping s = seqZ off (zlen (gs_blocks s));
  so_include : gs_include_mask s = include_shape (zlen (gs_blocks s));
  so_exclude : gs_exclude_mask s = replicate (length (gs_blocks s)) false;
}.

(** The blocks whose means are computed, with the slots they go to, are blocks of
    the request with their own slots. *)
Definition calc_ok (off : Z) (s : GSAReqStat) : Prop :=
  length (gs_calc_block_table s) = length (gs_calc_repre_slot_mapping s) ∧
  ∀ b x, (b, x) ∈ zip (gs_calc_block_table s) (gs_calc_repre_slot_mapping s) → ∃ k : nat, gs_blocks s !! k = Some b ∧ x = off + Z.of_nat k.

Lemma seqZ_snoc off n : 0 ≤ n → seqZ off (n + 1) = seqZ off n ++ [off + n].
Proof. intros Hn. rewrite -> seqZ_app by lia. done. Qed.

Lemma py_index_snoc {A} (l : list A) x : py_index (l ++ [x]) (-1) = Ok x.
Proof.
  unfold py_index. rewrite -> zlen_app. change (zlen [x]) with 1. pose proof (zlen_nonneg l).
  change (-1 <? 0) with true. cbn iota. rewrite -> (proj2 (Z.ltb_ge _ 0)) by lia.
  replace (Z.to_nat _) with (length l) by (unfold zlen; lia). by rewrite -> list_lookup_middle.
Qed.

Lemma py_index_last_seqZ off n : 0 < n → py_index (seqZ off n) (-1) = Ok (off + n - 1).
Proof. intros Hn. replace n with (n - 1 + 1) at 1 by lia. rewrite -> seqZ_snoc, py_index_snoc by lia. f_equal. lia. Qed.

Lemma include_shape_len n : 0 ≤ n → zlen (include_shape n) = n.
Proof.
  intros Hn. unfold include_shape. destruct (Z.ltb_spec 2 n).
  - rewrite -> zlen_cons, zlen_app. unfold zlen. rewrite -> length_replicate. cbn. lia.
  - unfold zlen. rewrite -> length_replicate. lia.
Qed.

(** One more block: the block that was the last but one is no longer always chosen. *)
Lemma include_step n : 1 ≤ n →
  (if 2 <? zlen (include_shape n) then py_alter (λ _, false) (include_shape n) (-2) else Ok (include_shape n)) ≫= (λ m, Ok (m ++ [true])) =
  Ok (include_shape (n + 1)).
Proof.
  intros Hn. rewrite -> include_shape_len by lia. unfold include_shape.
  destruct (Z.ltb_spec 2 n) as [H2|H2].
  - rewrite -> (proj2 (Z.ltb_lt 2 (n + 1))) by lia. set (k := Z.to_nat (n - 3)).
    replace (Z.to_nat (n + 1 - 3)) with (S k) by (unfold k; lia).
    assert (Hl : zlen (true :: replicate k false ++ [true; true]) = Z.of_nat k + 3).
    { rewrite -> zlen_cons, zlen_app. unfold zlen. rewrite -> length_replicate. cbn. lia. }
    unfold py_alter. rewrite -> Hl. change (-2 <? 0) with true. cbn iota.
    rewrite -> (proj2 (Z.ltb_ge _ 0)), (proj2 (Z.leb_gt _ _)) by lia. cbn [orb mbind res_bind].
    replace (Z.to_nat (-2 + (Z.of_nat k + 3))) with (length (true :: replicate k false) + 0)%nat by (cbn; rewrite -> length_replicate; lia).
    rewrite -> (app_comm_cons (replicate k false)), alter_app_r. cbn [alter list_alter]. f_equal. rewrite -> replicate_S_end.
    cbn. rewrite <- !app_assoc. done.
  - assert (n = 1 ∨ n = 2) as [-> | ->] by lia; reflexivity.
Qed.

Definition with_slots (off n : Z) (s : GSAReqStat) : GSAReqStat :=
  set_gs_slots (seqZ off n) (include_shape n) (replicate (Z.to_nat n) false) s.

Lemma slots_ok_with off s : slots_ok off s → with_slots off (zlen (gs_blocks s)) s = s.
Proof. intros [_ H1 H2 H3]. unfold with_slots. rewrite <- H1, <- H2. unfold zlen. rewrite -> Nat2Z.id, <- H3. by destruct s. Qed.

Lemma with_slots_ok off s : gs_blocks s ≠ [] → slots_ok off (with_slots off (zlen (gs_blocks s)) s).
Proof. intros Hne. constructor; [exact Hne|done|done|]. cbn. unfold zlen. by rewrite -> Nat2Z.id. Qed.

Lemma add_slot_run off n s : 1 ≤ n → add_slot (with_slots off n s) = Ok (with_slots off (n + 1) s).
Proof.
  intros Hn. unfold add_slot. cbn -[include_shape py_index]. rewrite -> py_index_last_seqZ by lia. cbn [mbind res_bind].
  pose proof (include_step n Hn) as Hi. destruct (if 2 <? zlen (include_shape n) then _ else _) as [m|e]; cbn in Hi; [|done].
  injection Hi as Hi. cbn. rewrite -> Hi. unfold with_slots. rewrite -> seqZ_snoc by lia. replace (Z.to_nat (n + 1)) with (S (Z.to_nat n)) by lia.
  rewrite -> replicate_S_end. replace (off + n - 1 + 1) with (off + n) by lia. done.
Qed.

Lemma add_slots_run off s (l : list Z) : ∀ n, 1 ≤ n → fold_res (λ s _, add_slot s) (with_slots off n s) l = Ok (with_slots off (n + zlen l) s).
Proof.
  induction l as [|x l IH]; intros n Hn; cbn [fold_res]; [by rewrite -> Z.add_0_r|].
  rewrite -> add_slot_run by done. cbn [mbind res_bind]. rewrite -> IH by lia. do 2 f_equal. rewrite -> zlen_cons. lia.
Qed.

(** Slices of the slots from the end. *)
Lemma py_from_seqZ off n k : 0 ≤ n → 0 < k → py_from (seqZ off (n + k)) (- k) = seqZ (off + n) k.
Proof.
  intros Hn Hk. unfold py_from, norm_idx. assert (Hl : zlen (seqZ off (n + k)) = n + k) by (unfold zlen; rewrite -> length_seqZ; lia).
  rewrite -> Hl, (proj2 (Z.ltb_lt _ _)), seqZ_app by lia. apply drop_app_length'. rewrite -> length_seqZ. lia.
Qed.

Lemma py_slice_seqZ off n k : 0 ≤ n → 0 < k → py_slice (seqZ off (n + k)) (- k) (-1) = seqZ (off + n) (k - 1).
Proof.
  intros Hn Hk. unfold py_slice, norm_idx. assert (Hl : zlen (seqZ off (n + k)) = n + k) by (unfold zlen; rewrite -> length_seqZ; lia).
  rewrite -> Hl, (proj2 (Z.ltb_lt (- k) _)) by lia. change (-1 <? 0) with true. cbn iota zeta.
  rewrite -> (seqZ_app off n k) by lia. rewrite -> drop_app_length' by (rewrite -> length_seqZ; lia).
  replace k with (k - 1 + 1) at 4 by lia. rewrite -> seqZ_snoc by lia. apply take_app_length'. rewrite -> length_seqZ. lia.
Qed.

Lemma py_upto_removes_last {A} (l : list A) : py_upto l (-1) = take (length l - 1) l.
Proof. unfold py_upto, norm_idx. change (-1 <? 0) with true. cbn iota. f_equal. unfold zlen. lia. Qed.

Lemma calc_ok_run off s old add m : gs_blocks s = old ++ add → (m ≤ length add)%nat →
  calc_ok off (set_gs_calc (take m add) (seqZ (off + zlen old) (Z.of_nat m)) s).
Proof.
  intros Hb Hm. split; cbn; [rewrite -> length_take, length_seqZ; lia|]. intros b x (k & b' & x' & [= <- <-] & Hk & Hx)%elem_of_lookup_zip_with.
  apply lookup_take_Some in Hk as [Hk Hlt]. rewrite -> lookup_seqZ in Hx. destruct Hx as [-> _]. exists (length old + k)%nat. rewrite -> Hb.
  split; [by rewrite -> lookup_app_r, Nat.add_comm, Nat.add_sub by lia|]. unfold zlen. lia.
Qed.

Lemma calc_ok_nil off s : calc_ok off (set_gs_calc [] [] s).
Proof. split; [done|]. by intros b x ?%not_elem_of_nil. Qed.

Lemma slots_ok_calc off a b s : slots_ok off s → slots_ok off (set_gs_calc a b s).
Proof. by intros [H1 H2 H3 H4]. Qed.

Lemma update_slot_ok off s old add : old ≠ [] → gs_blocks s = old ++ add → (gs_prefill s = false → add ≠ [] → length add = 1%nat) →
  ∃ s', _update_slot add (with_slots off (zlen old) s) = Ok s' ∧ slots_ok off s' ∧ calc_ok off s' ∧ gs_blocks s' = gs_blocks s.
Proof.
  intros Hold Hb Hdec. assert (Hn : 1 ≤ zlen old) by (destruct old; [done|rewrite -> zlen_cons; pose proof (zlen_nonneg old); lia]).
  unfold _update_slot. rewrite -> add_slots_run by done. cbn [mbind res_bind]. rewrite <- zlen_app, <- Hb. set (s1 := with_slots off _ s).
  assert (Hs1 : slots_ok off s1) by (apply with_slots_ok; rewrite -> Hb; by destruct old).
  destruct add as [|b add]; [eexists; split; [done|]; split; [by apply slots_ok_calc|]; split; [apply calc_ok_nil|done]|].
  set (news := b :: add) in *. assert (Hnews : 0 < zlen news) by (unfold news; rewrite -> zlen_cons; pose proof (zlen_nonneg add); lia).
  assert (Hmap : gs_repre_slot_mapping s1 = seqZ off (zlen old + zlen news)) by (cbn; by rewrite -> Hb, zlen_app).
  rewrite -> Hmap. destruct (gs_prefill s1) eqn:Hp; [destruct (gs_is_last_chunk s1)|].
  - eexists. split; [done|]. split; [by apply slots_ok_calc|]. split; [|done].
    rewrite -> py_upto_removes_last, py_slice_seqZ by lia. replace (zlen news - 1) with (Z.of_nat (length news - 1)) by (unfold zlen in *; lia).
    apply calc_ok_run; [exact Hb|lia].
  - eexists. split; [done|]. split; [by apply slots_ok_calc|]. split; [|done].
    rewrite -> py_from_seqZ by lia. pose proof (calc_ok_run off s1 old news (length news) Hb ltac:(lia)) as Hc. by rewrite -> take_ge in Hc by lia.
  - assert (add = []) as -> by (specialize (Hdec Hp ltac:(done)); cbn in Hdec; destruct add; [done|cbn in Hdec; lia]).
    assert (Hbs : gs_blocks s1 = old ++ [b]) by exact Hb. rewrite -> Hbs, py_index_snoc. cbn [mbind res_bind].
    rewrite -> py_index_last_seqZ by lia. cbn [mbind res_bind]. eexists. split; [done|]. split; [by apply slots_ok_calc|]. split; [|done].
    pose proof (calc_ok_run off s1 old [b] 1 Hbs ltac:(cbn; lia)) as Hc. cbn [take] in Hc. change (zlen news) with 1.
    replace (off + (zlen old + 1) - 1) with (off + zlen old) by lia. exact Hc.
Qed.

(** The blocks of a request in the scheduler's view of it: those it had and more
    while the prompt is computed, any of them in decoding. *)
Definition grows (s : GSAReqStat) (r : engine_request) : Prop :=
  ∃ ids rest, er_block_ids r = ids :: rest ∧ ids ≠ [] ∧
    (er_num_computed_tokens r < gs_num_prompt_tokens s → NoDup ids ∧ ∃ add, ids = gs_blocks s ++ add).

Section requests.
  Context `{PyHash}.
  Variable ratio_ceil : Z → Z.
  Variable gf : gsa_conf.

Lemma set_block_hashes_slots off tokens s : slots_ok off s ∧ calc_ok off s →
  slots_ok off (gsa_set_block_hashes gf tokens s) ∧ calc_ok off (gsa_set_block_hashes gf tokens s).
Proof.
  unfold gsa_set_block_hashes. destruct (gs_block_hashes s); [done|]. destruct (foldl _ _ _) as [ [hs p] st]. by intros [ [H1 H2 H3 H4] H5].
Qed.

Lemma init_slot_ok off s : gs_blocks s ≠ [] → slots_ok off (_init_slot off s) ∧ calc_ok off (_init_slot off s).
Proof.
  intros Hne. assert (Hmap : (λ x, x + off) <$> py_range 0 (zlen (gs_blocks s)) = seqZ off (zlen (gs_blocks s))).
  { unfold py_range. rewrite -> Z.sub_0_r. transitivity (Z.add off <$> seqZ 0 (zlen (gs_blocks s))); [apply list_fmap_ext; intros; lia|].
    by rewrite -> fmap_add_seqZ, Z.add_0_r. }
  set (m := length (gs_blocks s)). unfold _init_slot. rewrite -> Hmap. split.
  - constructor; [exact Hne|done|done|]. cbn. unfold zlen. by rewrite -> Nat2Z.id.
  - destruct (gs_is_last_chunk s); cbn [fst snd].
    + rewrite -> !py_upto_removes_last. pose proof (calc_ok_run off (_init_slot off s) [] (gs_blocks s) (m - 1) eq_refl ltac:(lia)) as Hc.
      rewrite -> Z.add_0_r in Hc. replace (take (length (seqZ off _) - 1) _) with (seqZ off (Z.of_nat (m - 1))); [exact Hc|].
      assert (Hm : (0 < m)%nat) by (unfold m; destruct (gs_blocks s); [done|cbn; lia]).
      rewrite -> length_seqZ. unfold zlen. fold m. replace (Z.of_nat m) with (Z.of_nat (m - 1) + 1) at 2 by lia.
      rewrite -> seqZ_snoc by lia. symmetry. apply take_app_length'. rewrite -> length_seqZ. lia.
    + pose proof (calc_ok_run off (_init_slot off s) [] (gs_blocks s) m eq_refl ltac:(lia)) as Hc.
      rewrite -> Z.add_0_r, take_ge in Hc by lia. exact Hc.
Qed.

Lemma add_req_new_ok num_scheduled r index off s ids rest : er_block_ids r = ids :: rest → ids ≠ [] →
  ∃ s', add_req_new gf num_scheduled r index off s = Ok s' ∧ slots_ok off s' ∧ calc_ok off s'.
Proof.
  intros Hids Hne. unfold add_req_new. rewrite -> Hids. cbn [py_index]. eexists. split; [done|]. apply set_block_hashes_slots. cbn zeta.
  set (s0 := set_gs_prompt _ _ _ _). assert (Hi : slots_ok off (_init_slot off s0) ∧ calc_ok off (_init_slot off s0)) by (by apply init_slot_ok).
  destruct (Z.ltb_spec (zlen (gs_blocks (_init_slot off s0))) (zlen (gs_repre_slot_mapping (_init_slot off s0)))) as [Hl|]; [|exact Hi].
  destruct Hi as [ [_ Hm _ _] _]. rewrite -> Hm in Hl. unfold zlen in Hl. rewrite -> length_seqZ in Hl. lia.
Qed.

Lemma sparse_block_shape s : ∃ a b c, _get_sparse_and_free_block ratio_ceil gf s = set_gs_sparse a b c s.
Proof. unfold _get_sparse_and_free_block. repeat case_match; by eexists _, _, _. Qed.

Lemma filter_new (l add : list Z) : NoDup (l ++ add) → filter (λ x, x ∉ l) (l ++ add) = add.
Proof.
  intros (_ & Hdis & _)%NoDup_app. rewrite -> filter_app, filter_nothing, filter_id; [done| |].
  - intros x Hx Hxl. by apply (Hdis x).
  - intros x Hx Hn. done.
Qed.

Lemma updata_req_state_ok num_scheduled r index off s : slots_ok off s → grows s r →
  ∃ s', updata_req_state ratio_ceil gf num_scheduled r index s = Ok s' ∧ slots_ok off s' ∧ calc_ok off s'.
Proof.
  intros Hs (ids & rest & Hids & Hne & Hgrow). unfold updata_req_state. rewrite -> Hids. set (s0 := set_gs_tokens _ _ _ _ s).
  assert (Hs0 : slots_ok off s0) by by destruct Hs. pose proof (so_blocks _ _ Hs) as Hb.
  enough (∃ s', (if gs_prefill s0 then
         let add_blocks := filter (λ x, x ∉ gs_blocks s0) ids in
         _update_slot add_blocks (set_gs_blocks ids s0)
       else
         let s := _get_sparse_and_free_block ratio_ceil gf s0 in
         if negb (zlen ids =? gs_sparse_len s) then
           b ← py_index ids (-1);
           let s := set_gs_blocks (gs_blocks s ++ [b]) s in
           _update_slot [b] (set_gs_sparse (gs_remain_idx s) (gs_prefetch_idx s) (zlen ids) s)
         else Ok (set_gs_calc [] [] s)) = Ok s' ∧ slots_ok off s' ∧ calc_ok off s') as (s' & Hrun & Hok & Hcalc).
  { change (py_index (ids :: rest) 0) with (Ok ids : res (list Z)). cbn [mbind res_bind] in Hrun |- *. rewrite -> Hrun. cbn [mbind res_bind]. eexists. split; [done|].
    destruct (Z.ltb_spec (zlen (gs_blocks s')) (zlen (gs_repre_slot_mapping s'))) as [Hl|]; [|done].
    destruct Hok as [_ Hm _ _]. rewrite -> Hm in Hl. unfold zlen in Hl. rewrite -> length_seqZ in Hl. lia. }
  rewrite <- (slots_ok_with off s0 Hs0). change (gs_blocks s0) with (gs_blocks s). destruct (gs_prefill _) eqn:Hp.
  - destruct Hgrow as [Hnd [add ->] ]; [by apply Z.ltb_lt in Hp|]. cbn zeta. change (gs_blocks (with_slots _ _ _)) with (gs_blocks s).
    rewrite -> filter_new by done.
    destruct (update_slot_ok off (set_gs_blocks (gs_blocks s ++ add) s0) (gs_blocks s) add) as (s' & Hrun & H1 & H2 & _); [done|done| |by exists s'].
    intros Hp'. change (gs_prefill _ = false) with (gs_prefill s0 = false) in Hp'. change (gs_prefill s0 = true) in Hp. congruence.
  - destruct (sparse_block_shape (with_slots off (zlen (gs_blocks s)) s0)) as (a & b & c & ->). cbn zeta. case_match.
    + destruct (exists_last Hne) as (ids' & x & ->). rewrite -> py_index_snoc. cbn [mbind res_bind].
      set (s1 := set_gs_sparse a b (zlen (ids' ++ [x])) (set_gs_blocks (gs_blocks s ++ [x]) s0)).
      destruct (update_slot_ok off s1 (gs_blocks s) [x]) as (s' & Hrun & H1 & H2 & _); [done|done|done|]. by exists s'.
    + eexists. split; [done|]. split; [|apply calc_ok_nil]. apply slots_ok_calc. rewrite -> (slots_ok_with off s0 Hs0 : with_slots off (zlen (gs_blocks s)) s0 = s0). by destruct Hs0.
Qed.

End requests.

(** ** The slots of the batch *)

(** Every place is with one request or free. *)
Definition manger_ok (max_num : Z) (m : TopKAndKpreManger) : Prop :=
  NoDup (cache_map m).*1 ∧ NoDup ((cache_map m).*2 ++ free_cache m) ∧
  ∀ i, i ∈ (cache_map m).*2 ++ free_cache m → 0 ≤ i < max_num.

Lemma new_manger_ok n : manger_ok n (new_manger n).
Proof.
  split_and!; [constructor| |]; cbn.
  - apply NoDup_seqZ.
  - intros i. unfold py_range. rewrite -> elem_of_seqZ. lia.
Qed.

Lemma dict_del_fresh {K V} `{EqDecision K} (k : K) (d : dict K V) : k ∉ d.*1 → dict_del k d = d.
Proof. intros Hk. apply filter_id. intros [k' v] Hx Heq. cbn in Heq. subst k'. apply Hk, list_elem_of_fmap. by exists (k, v). Qed.

Lemma dict_del_split {K V} `{EqDecision K} (k : K) (v : V) d : NoDup d.*1 → dict_get k d = Some v → d.*2 ≡ₚ v :: (dict_del k d).*2.
Proof.
  intros Hnd Hg. induction d as [|[k' v'] d IH]; [done|]. csimpl in *. apply NoDup_cons in Hnd as [Hk Hnd].
  unfold dict_del. rewrite -> filter_cons. fold (dict_del k d). cbn [fst]. destruct (decide (k' = k)) as [->|Hne].
  - rewrite -> decide_True in Hg by done. injection Hg as ->. rewrite -> decide_False by tauto. by rewrite -> dict_del_fresh.
  - rewrite -> decide_False in Hg by congruence. rewrite -> decide_True by done. csimpl. rewrite -> (IH Hnd Hg). by constructor.
Qed.

Lemma dict_get_snd {K V} `{EqDecision K} (k : K) (v : V) d : dict_get k d = Some v → v ∈ d.*2.
Proof. intros Hg%dict_get_Some_elem. apply list_elem_of_fmap. by exists (k, v). Qed.

(** Freeing a place succeeds, and another request keeps its own. *)
Lemma manger_free_run n m req_id i : manger_ok n m → dict_get req_id (cache_map m) = Some i →
  ∃ m', manger_free req_id m = (Ok true, m') ∧ manger_ok n m' ∧ cache_map m' = dict_del req_id (cache_map m).
Proof.
  intros (Hk & Hnd & Hr) Hi. pose proof (dict_del_split _ _ _ Hk Hi) as Hp. unfold manger_free. mstep. cbn. unfold of_res.
  erewrite M_bind_Ok by (rewrite -> (proj2 (dict_index_Ok _ _ _) Hi); reflexivity). pose proof Hnd as (_ & Hdis & _)%NoDup_app.
  rewrite -> bool_decide_eq_false_2 by (apply Hdis; by eapply dict_get_snd). mstep. eexists. split; [done|]. split; [|done].
  assert (Hall : (dict_del req_id (cache_map m)).*2 ++ free_cache m ++ [i] ≡ₚ (cache_map m).*2 ++ free_cache m).
  { rewrite -> Hp, app_assoc, (Permutation_app_comm _ [i]). done. }
  split_and!; cbn; [by apply dict_del_NoDup|by rewrite -> Hall|]. intros x. rewrite -> Hall. apply Hr.
Qed.

Lemma manger_alloc_ok n req_id m : manger_ok n m → dict_get req_id (cache_map m) = None →
  ∃ i m', manger_alloc req_id m = (Ok i, m') ∧ manger_ok n m' ∧ ∀ k v, dict_get k (cache_map m) = Some v → dict_get k (cache_map m') = Some v.
Proof.
  intros Hok Hnone. pose proof Hok as (Hk & Hnd & Hr). unfold manger_alloc. mstep. destruct (free_cache m) as [|y rest] eqn:E; [by exists None, m|].
  eexists _, _. split; [done|]. assert (Hset : dict_set req_id y (cache_map m) = cache_map m ++ [(req_id, y)]).
  { apply dict_set_fresh. by apply dict_get_None. }
  split.
  - split_and!; cbn; [by apply dict_set_NoDup|rewrite -> Hset|rewrite -> Hset]; rewrite -> fmap_app, <- app_assoc; cbn; [done|exact Hr].
  - intros k v Hkv. cbn. rewrite -> dict_get_set_ne; [done|]. intros ->. congruence.
Qed.

(** *** What the engine leaves alone

    Of the statistics, the prefetch changes only the choices. *)
Section keeps.
  Context {W : Type} `{GsaPrefetchC W} `{GsaOffloadOps W}.
  Variable ratio_ceil : Z → Z.
  Variable gf : gsa_conf.
  Variable Q : dict string GSAReqStat → Prop.
  Hypothesis Q_topk : ∀ rid st t d, dict_get rid d = Some st → Q d → Q (dict_set rid (set_gs_topk t st) d).

Notation PST := (GSAPrefetchBase * (dict string GSAReqStat * W))%type.
Notation engine_keeps m := (preserves (λ s : PST, Q s.2.1) m).

Lemma keeps_upe f : engine_keeps (upe f : M PST unit).
Proof. by intros s Hs. Qed.

Lemma keeps_on_c {B} (m : M W B) : engine_keeps (on_c m : M PST B).
Proof. by apply preserves_lift with (Q := λ _, True). Qed.

Lemma keeps_up_topk rid t : engine_keeps (up_stat rid (set_gs_topk t) : M PST unit).
Proof.
  intros [e [d w] ] Hd. unfold up_stat, stat_of. munfold. destruct (dict_index rid d) as [st|x] eqn:E; [|done].
  apply dict_index_Ok in E. by apply Q_topk.
Qed.

Lemma keeps_assert b : engine_keeps (assert_ b : M PST unit).
Proof. destruct b; [apply preserves_ret|apply preserves_raise]. Qed.

Ltac keep := repeat first
  [ apply keeps_assert | apply keeps_up_topk | apply preserves_bind; [|intros ?] | apply preserves_ret | apply preserves_raise | apply preserves_gets | apply preserves_of_res
  | apply keeps_upe | apply keeps_on_c
  | apply preserves_for_each; intros ? _ | apply preserves_for_fold; intros ? ? _ | progress cbv zeta
  | match goal with |- preserves _ (match ?x with _ => _ end) => destruct x end ].

Lemma keeps_del_finish_meta rid flag : engine_keeps (del_finish_meta gf rid flag : M PST unit).
Proof. unfold del_finish_meta. keep. Qed.

Lemma keeps_block_len index rid : engine_keeps (block_len_request gf index rid : M PST unit).
Proof.
  unfold block_len_request, getpe, stat_of, set_seq_len, set_table_row, append_block, getpe. keep.
Qed.

Lemma keeps_no_gsa index rid : engine_keeps (no_gsa_request gf index rid : M PST unit).
Proof. unfold no_gsa_request, getpe, stat_of, set_seq_len, set_table_row, getpe. keep. Qed.

Lemma keeps_first_topk index rid : engine_keeps (first_topk_request gf index rid : M PST unit).
Proof. unfold first_topk_request, getpe, stat_of. keep. Qed.

Lemma keeps_model_input_deal ids blocks maps done : engine_keeps (model_input_deal ratio_ceil gf ids blocks maps done : M PST _).
Proof.
  unfold model_input_deal, _get_run_type, _set_req_stat, _get_max_block_len, _topk_tmp_deal, _topk_insert_last_idx, _first_topk_deal,
    _gsa_block_len_pre, _no_gsa_input_deal, getpe, stat_of. keep.
Qed.

Lemma keeps_prefetch a b : engine_keeps (deal_async_prefetch gf a b : M PST _).
Proof. unfold deal_async_prefetch, _swap_block_table_tensor, append_block, getpe, stat_of. keep. Qed.

End keeps.

(** *** The calls of the worker *)
Section worker.
  Context {W A R : Type} `{GsaPrefetchC W} `{GsaOffloadOps W} `{GsaStore W} `{GsaCudaTopk W} `{PyHash}.
  Variable ratio_ceil : Z → Z.
  Variable mean : A → R.
  Variable choose : Z → Z → list Z → list bool → list bool → Z → list Z.
  Variable task_hash_func : list string → string → string → Z.
  Variable gf : gsa_conf.
  Variable block_numel : Z.
  Variable max_num : Z.

Notation GST := (@gsa A R * W)%type.

(** The request has the slots of its place. *)
Definition stat_ok (place : Z) (st : GSAReqStat) : Prop :=
  slots_ok (gf_max_block_len gf * place) st ∧ calc_ok (gf_max_block_len gf * place) st.

Definition stats_ok (places : dict string Z) (d : dict string GSAReqStat) : Prop :=
  ∀ rid st, dict_get rid d = Some st → ∃ i, dict_get rid places = Some i ∧ stat_ok i st.

Definition worker_ok (s : GST) : Prop := manger_ok max_num (ga_manger s.1) ∧ stats_ok (cache_map (ga_manger s.1)) (ga_stats s.1).

Lemma stats_ok_set places rid i st d : dict_get rid places = Some i → stat_ok i st → stats_ok places d → stats_ok places (dict_set rid st d).
Proof. intros Hi Hst Hd rid' st'. rewrite -> dict_get_set. case_decide; [intros [= <-]; subst; eauto|apply Hd]. Qed.

Lemma stats_ok_update places rid st st' d : (∀ i, stat_ok i st → stat_ok i st') → dict_get rid d = Some st → stats_ok places d →
  stats_ok places (dict_set rid st' d).
Proof. intros Hf Hst Hd. destruct (Hd rid st Hst) as (i & Hi & Hok). by apply (stats_ok_set _ _ i); [|apply Hf|]. Qed.

Lemma stats_ok_del places rid d : stats_ok places d → stats_ok places (dict_del rid d).
Proof. intros Hd rid' st. rewrite -> dict_get_del. case_decide; [done|apply Hd]. Qed.

Lemma stat_ok_topk t i st : stat_ok i st → stat_ok i (set_gs_topk t st).
Proof. by intros [ [? ? ? ?] ?]. Qed.

Lemma stat_ok_maps a b i st : stat_ok i st → stat_ok i (set_gs_maps a b st).
Proof. by intros [ [? ? ? ?] ?]. Qed.

Lemma stats_ok_topk places rid st t d : dict_get rid d = Some st → stats_ok places d → stats_ok places (dict_set rid (set_gs_topk t st) d).
Proof. apply stats_ok_update. intros i. apply stat_ok_topk. Qed.

Notation keeps m := (preserves worker_ok m).

Lemma worker_on_engine {B} (m : M (GSAPrefetchBase * (dict string GSAReqStat * W)) B) :
  (∀ places, preserves (λ s : GSAPrefetchBase * (dict string GSAReqStat * W), stats_ok places s.2.1) m) → keeps (on_engine m : M GST B).
Proof.
  intros Hm [s w] [Hmg Hst]. specialize (Hm (cache_map (ga_manger s)) (ga_engine s, (ga_stats s, w)) Hst). unfold on_engine, lift. cbn [fst snd].
  destruct (m _) as [r e]. by split.
Qed.

Lemma worker_on_gw {B} (m : M W B) : keeps (on_gw m : M GST B).
Proof. by apply preserves_lift with (Q := λ _, True). Qed.

Lemma worker_upga f : (∀ s, ga_stats (f s) = ga_stats s ∧ ga_manger (f s) = ga_manger s) → keeps (upga f : M GST unit).
Proof. intros Hf [s w] [Hmg Hst]. destruct (Hf s) as [Hs' Hm']. unfold worker_ok. cbn in *. by rewrite -> Hs', Hm'. Qed.

Lemma worker_up_stat rid f : (∀ i st, stat_ok i st → stat_ok i (f st)) → keeps (up_ga_stat rid f : M GST unit).
Proof.
  intros Hf [s w] [Hmg Hst]. unfold up_ga_stat, ga_stat, getga, upga. munfold. destruct (dict_index rid (ga_stats s)) as [st|x] eqn:E; [|done].
  apply dict_index_Ok in E. split; [done|]. apply (stats_ok_update _ _ st); [intros i; apply Hf|done|done].
Qed.

Lemma worker_assert b : keeps (assert_ b : M GST unit).
Proof. destruct b; [apply preserves_ret|apply preserves_raise]. Qed.

Ltac keep := repeat first
  [ apply worker_assert | apply worker_upga; done | (apply worker_up_stat; intros ? ?; first [apply stat_ok_topk|apply stat_ok_maps])
  | apply worker_on_gw | apply preserves_bind; [|intros ?] | apply preserves_ret | apply preserves_raise | apply preserves_gets | apply preserves_of_res
  | apply preserves_for_each; intros ? _ | apply preserves_for_fold; intros ? ? _ | progress cbv zeta
  | match goal with |- preserves _ (match ?x with _ => _ end) => destruct x end ].

Lemma worker_attention_begin layer decode : keeps (gsa_attention_begin gf layer decode : M GST _).
Proof. unfold gsa_attention_begin, copy_q, ga_stat, getga, the_input, getga. keep. Qed.

Lemma worker_attention_finished layer : keeps (gsa_attention_finished ratio_ceil mean choose gf layer : M GST unit).
Proof.
  unfold gsa_attention_finished, copy_k, last_chunk_request, last_chunk_topk_cal, kvcache_init_last_chunk, ga_stat, the_input, getga. keep.
Qed.

Lemma worker_execute_begin out : keeps (execute_begin ratio_ceil gf out : M GST unit).
Proof.
  unfold execute_begin, _start_topk_cal, ga_stat, the_input, getga. keep.
  apply worker_on_engine. intros places. apply keeps_model_input_deal. intros; by apply stats_ok_topk.
Qed.

Lemma worker_execute_finished : keeps (execute_finished task_hash_func gf block_numel : M GST unit).
Proof.
  unfold execute_finished, check_transfer_task_done, gsa_launch_transfer_task, ga_stat, getga.
  keep; apply worker_on_engine; intros places; apply keeps_prefetch; intros; by apply stats_ok_topk.
Qed.

(** A request that ends gives its place back. *)
Lemma worker_request_finished rid : keeps (gsa_request_finished_in_worker gf rid : M GST unit).
Proof.
  intros [s w] [Hmg Hst]. cbn in Hmg, Hst. unfold gsa_request_finished_in_worker, getga. mstep. unfold manger_is_exist, dict_mem.
  assert (Hend : ∀ m places', manger_ok max_num m → cache_map m = places' → stats_ok places' (dict_del rid (ga_stats s)) →
    worker_ok ((upga (λ s, set_ga_stats (dict_del rid (ga_stats s)) s) ;; on_engine (del_finish_meta gf rid true) : M GST unit) (set_ga_manger m s, w)).2).
  { intros m places' Hm <- Hd. mstep. apply worker_on_engine; [|by split]. intros places. apply keeps_del_finish_meta. }
  destruct (dict_get rid (cache_map (ga_manger s))) as [i|] eqn:Hi.
  - rewrite -> bool_decide_eq_true_2 by done. destruct (manger_free_run _ _ _ _ Hmg Hi) as (m' & Hrun & Hok & Hmap).
    rewrite -> M_bind_assoc. erewrite M_bind_Ok; [|unfold on_manger, lift; cbn; rewrite -> Hrun; reflexivity].
    mstep. apply (Hend m' _ Hok Hmap). intros rid' st. rewrite -> !dict_get_del. case_decide; [done|apply Hst].
  - rewrite -> bool_decide_eq_false_2 by (intros [? ?]; congruence). mstep. specialize (Hend (ga_manger s) _ Hmg eq_refl (stats_ok_del _ _ _ Hst)).
    by destruct s.
Qed.

(** The scheduler's output fits what the worker knows: new and resumed requests have
    blocks, those of the others grow. *)
Record fits (d : dict string GSAReqStat) (out : gsa_output) (requests : dict string engine_request) : Prop := Fits {
  fi_once : NoDup (go_cached_reqs out).*1;
  fi_new : ∀ rid r, rid ∈ go_new_reqs out ∨ (rid, true) ∈ go_cached_reqs out → dict_get rid requests = Some r →
    ∃ ids rest, er_block_ids r = ids :: rest ∧ ids ≠ [];
  fi_grows : ∀ rid r st, (rid, false) ∈ go_cached_reqs out → dict_get rid requests = Some r → dict_get rid d = Some st → grows st r;
}.

Section model_input.
  Context {V : Type}.
  Variable del_finish : string → M V unit.
  Variable out : gsa_output.
  Variable requests : dict string engine_request.
  Variable req_id_to_index : dict string Z.
  Variable places : dict string Z.

Notation DST := (dict string GSAReqStat * V)%type.

Lemma new_request_ok rid d : (∀ r, dict_get rid requests = Some r → ∃ ids rest, er_block_ids r = ids :: rest ∧ ids ≠ []) → stats_ok places d →
  triple (λ s : DST, s.1 = d) (new_request gf out places requests req_id_to_index rid)
    (λ _ s, stats_ok places s.1 ∧ ∃ st, s.1 = dict_set rid st d) (λ s, stats_ok places s.1).
Proof.
  intros Hr Hd [d' v] Hs. cbn in Hs. subst d'. unfold new_request, put_stat. munfold. destruct (dict_index rid (go_num_scheduled_tokens out)) as [n|]; [|done].
  destruct (dict_index rid requests) as [r|] eqn:E; [|done]. apply dict_index_Ok in E. destruct (dict_index rid req_id_to_index) as [index|]; [|done].
  destruct (dict_index rid places) as [i|] eqn:Ei; [|done]. apply dict_index_Ok in Ei. destruct (Hr r E) as (ids & rest & Hids & Hne).
  destruct (add_req_new_ok gf n r index (gf_max_block_len gf * i) (new_stat rid) ids rest Hids Hne) as (st & -> & Hok). cbn.
  split; [by apply (stats_ok_set _ _ i)|by exists st].
Qed.

Lemma update_request_ok rid d : (∀ r st, dict_get rid requests = Some r → dict_get rid d = Some st → grows st r) → stats_ok places d →
  triple (λ s : DST, s.1 = d) (update_request ratio_ceil gf out requests req_id_to_index rid)
    (λ _ s, stats_ok places s.1 ∧ ∃ st, s.1 = dict_set rid st d) (λ s, stats_ok places s.1).
Proof.
  intros Hr Hd [d' v] Hs. cbn in Hs. subst d'. unfold update_request, put_stat. munfold. destruct (dict_index rid (go_num_scheduled_tokens out)) as [n|]; [|done].
  destruct (dict_index rid requests) as [r|] eqn:E; [|done]. apply dict_index_Ok in E. destruct (dict_index rid req_id_to_index) as [index|]; [|done].
  destruct (dict_index rid d) as [st|] eqn:Es; [|done]. apply dict_index_Ok in Es. destruct (Hd rid st Es) as (i & Hi & Hok & _).
  destruct (updata_req_state_ok ratio_ceil gf n r index _ st Hok (Hr r st E Es)) as (st' & -> & Hok'). cbn.
  split; [by apply (stats_ok_set _ _ i)|by exists st'].
Qed.

(** What is left of the requests seen before, against the statistics at the start. *)
Definition left_over (d : dict string GSAReqStat) (l : list (string * bool)) (s : DST) : Prop :=
  stats_ok places s.1 ∧ NoDup l.*1 ∧ ∀ x, x ∈ l → x ∈ go_cached_reqs out ∧ dict_get x.1 s.1 = dict_get x.1 d.

Lemma left_over_set d x l st (s : DST) d' : left_over d (x :: l) s → stats_ok places (dict_set x.1 st d') → (∀ k, k ≠ x.1 → dict_get k d' = dict_get k s.1) →
  left_over d l (dict_set x.1 st d', s.2).
Proof.
  intros (_ & Hnd & Hl) Hok Hother. csimpl in Hnd. apply NoDup_cons in Hnd as [Hx Hnd]. split; [exact Hok|]. split; [exact Hnd|]. intros y Hy.
  assert (y.1 ≠ x.1) by (intros Heq; apply Hx; rewrite <- Heq; apply list_elem_of_fmap; by exists y).
  destruct (Hl y ltac:(by right)) as [Hc Hg]. split; [done|]. cbn. by rewrite -> dict_get_set_ne, Hother, Hg by done.
Qed.

Lemma model_input_ok d : fits d out requests → stats_ok places d →
  triple (λ s : DST, s.1 = d) (get_model_input ratio_ceil gf del_finish out places requests req_id_to_index)
    (λ _ s, stats_ok places s.1) (λ s, stats_ok places s.1).
Proof.
  intros [Honce Hnew Hgrow] Hd. unfold get_model_input. eapply triple_bind.
  { eapply triple_conseq; [apply (triple_for_each _ _ (left_over d))| |intros ? s Hs; exact Hs].
    - intros x l s Hs. pose proof Hs as (Hok & _ & Hl). destruct (Hl x ltac:(left)) as [Hx Hg]. mstep. unfold assert_.
      destruct (dict_mem x.1 s.1); [|exact Hok]. mstep. destruct x as [rid [|]]; cbn [fst snd] in *.
      + mstep. unfold lift at 1. destruct s as [ds v]. cbn [fst snd]. destruct (del_finish rid v) as [ [u|e] v'] eqn:Ef; [|].
        * erewrite M_bind_Ok by (cbn; rewrite -> Ef; reflexivity). cbn in Hok.
          pose proof (new_request_ok rid (dict_del rid ds) (λ r, Hnew rid r ltac:(by right)) (stats_ok_del _ _ _ Hok) (dict_del rid ds, v') eq_refl) as Hn.
          cbn [fst snd]. destruct (new_request _ _ _ _ _ _ _) as [ [u'|e] s']; [|exact Hn]. destruct Hn as [Hok' [st Hst] ]. destruct s' as [d' v'']. cbn in Hst. subst d'.
          eapply (left_over_set d (rid, true) l st (ds, v'')); [split_and!; [exact Hok|by destruct Hs as (_ & ? & _)|exact Hl]|exact Hok'|].
          intros k Hk. cbn. by rewrite -> dict_get_del_ne.
        * erewrite M_bind_Raise by (cbn; rewrite -> Ef; reflexivity). by apply stats_ok_del.
      + destruct s as [ds v]. cbn in Hok, Hg.
        pose proof (update_request_ok rid ds (λ r st Hr Hst, Hgrow rid r st Hx Hr (eq_trans (eq_sym Hg) Hst)) Hok (ds, v) eq_refl) as Hn.
        destruct (update_request _ _ _ _ _ _ _) as [ [u'|e] s']; [|exact Hn]. destruct Hn as [Hok' [st Hst] ]. destruct s' as [d' v'']. cbn in Hst. subst d'.
        by eapply (left_over_set d (rid, false) l st (ds, v'')).
    - intros s <-. split; [done|]. by split. }
  intros ?. eapply triple_bind.
  { eapply triple_conseq; [apply (triple_for_each _ _ (λ l s, stats_ok places s.1 ∧ ∀ x, x ∈ l → x ∈ go_new_reqs out))| |intros ? s [Hs _]; exact Hs].
    - intros rid l [ds v] [Hok Hl]. mstep. pose proof (new_request_ok rid (dict_del rid ds) (λ r, Hnew rid r ltac:(left; apply Hl; by left)) (stats_ok_del _ _ _ Hok) (dict_del rid ds, v) eq_refl) as Hn.
      destruct (new_request _ _ _ _ _ _ _) as [ [u'|e] s']; [|exact Hn]. split; [apply Hn|]. intros x Hx. apply Hl. by right.
    - intros s (Hok & _). split; [exact Hok|done]. }
  intros ?. apply triple_keeps; [|done]. apply preserves_bind; [apply preserves_gets|]. intros ?. apply preserves_of_res.
Qed.

End model_input.

Lemma worker_alloc out d : preserves (λ s : GST, worker_ok s ∧ ga_stats s.1 = d)
  (for_each (go_num_scheduled_tokens out) (λ x : string * Z,
    m ← getga ga_manger;
    if manger_is_exist x.1 m then mret tt
    else i ← on_manger (manger_alloc x.1); assert_ (match i with Some _ => true | None => false end))).
Proof.
  apply preserves_for_each. intros [rid n] _ [s w] [ [Hmg Hst] Hd]. mstep. unfold manger_is_exist, dict_mem. cbn in Hmg, Hst, Hd.
  case_bool_decide as Hin; [done|]. assert (Hnone : dict_get rid (cache_map (ga_manger s)) = None) by (destruct (dict_get _ _); [|done]; by destruct Hin).
  destruct (manger_alloc_ok _ _ _ Hmg Hnone) as (i & m' & Hrun & Hok & Hkeep).
  erewrite M_bind_Ok by (unfold on_manger, lift; cbn; rewrite -> Hrun; reflexivity).
  assert (Hall : worker_ok (set_ga_manger m' s, w) ∧ ga_stats (set_ga_manger m' s) = d).
  { split; [|done]. split; [done|]. intros r st Hr. destruct (Hst r st Hr) as (k & Hk & Hs). exists k. split; [by apply Hkeep|done]. }
  by destruct i.
Qed.

Lemma worker_build_meta out requests req_ids index s : worker_ok s → fits (ga_stats s.1) out requests →
  worker_ok (gsa_build_sparse_meta ratio_ceil gf out requests req_ids index s : _ * GST).2.
Proof.
  intros Hok Hfits. enough (Hrun : triple (λ s' : GST, s' = s) (gsa_build_sparse_meta ratio_ceil gf out requests req_ids index) (λ _, worker_ok) worker_ok).
  { specialize (Hrun s eq_refl). destruct (gsa_build_sparse_meta _ _ _ _ _ _ _) as [ [a|e] s']; exact Hrun. }
  unfold gsa_build_sparse_meta, build_gsa_metadata. eapply (triple_bind _ _ (λ _, worker_ok)).
  - eapply triple_bind.
    { eapply triple_conseq.
      - apply (triple_keeps worker_ok _ _ (worker_alloc out (ga_stats s.1))). by intros s' [Hs' _].
      - by intros s' ->.
      - intros ? s' Hs'. exact Hs'. }
    intros ? [s1 w1] [ [Hmg Hst] Hd]. mstep. unfold lift. cbn [fst snd] in *. rewrite <- Hd in Hfits.
    match goal with |- context [get_model_input ?rc ?g ?df ?o ?p ?r ?ix] =>
      pose proof (model_input_ok df o r ix p (ga_stats s1) Hfits Hst (ga_stats s1, (ga_engine s1, w1)) eq_refl) as Hin end.
    unfold mbind at 1, M_bind at 1.
    cbn [fst snd]. destruct (get_model_input _ _ _ _ _ _ _ (ga_stats s1, (ga_engine s1, w1))) as [r s2]. destruct r; by split.
  - intros ?. apply triple_keeps; [|done]. keep.
Qed.

(** *** Every sequence of calls *)
Inductive gsa_call :=
  | CallMeta (out : gsa_output) (requests : dict string engine_request) (req_ids : list string) (index : dict string Z)
  | CallBegin (out : gsa_output)
  | CallAttention (layer : string) (decode : bool)
  | CallAttended (layer : string)
  | CallEnd
  | CallFinished (rid : string).

Definition run_call (c : gsa_call) (s : GST) : GST :=
  match c with
  | CallMeta out requests req_ids index => (gsa_build_sparse_meta ratio_ceil gf out requests req_ids index s).2
  | CallBegin out => (execute_begin ratio_ceil gf out s).2
  | CallAttention layer decode => (gsa_attention_begin gf layer decode s).2
  | CallAttended layer => (gsa_attention_finished ratio_ceil mean choose gf layer s).2
  | CallEnd => (execute_finished task_hash_func gf block_numel s).2
  | CallFinished rid => (gsa_request_finished_in_worker gf rid s).2
  end.

(** States after calls that return or raise, in any order, from a new worker. *)
Inductive gsa_reach : GST → Prop :=
  | reach_new s : ga_stats s.1 = [] → ga_manger s.1 = new_manger max_num → gsa_reach s
  | reach_call s c : gsa_reach s → match c with CallMeta out requests _ _ => fits (ga_stats s.1) out requests | _ => True end →
      gsa_reach (run_call c s).

Lemma reach_ok s : gsa_reach s → worker_ok s.
Proof.
  induction 1 as [s Hst Hmg|s c _ IH Hc].
  - unfold worker_ok. rewrite -> Hst, Hmg. split; [apply new_manger_ok|]. by intros rid st.
  - destruct c; cbn [run_call].
    + by apply worker_build_meta.
    + by apply worker_execute_begin.
    + by apply worker_attention_begin.
    + by apply worker_attention_finished.
    + by apply worker_execute_finished.
    + by apply worker_request_finished.
Qed.

End worker.


Section identifiers.
  Context `{PyHash}.

(** The chain of hashes is computed and dropped: a request has no identifiers. *)
Lemma gsa_hashes_empty gf tokens s : gs_block_hashes s = None → gs_block_hashes (gsa_set_block_hashes gf tokens s) = Some [].
Proof.
  intros Hnone. unfold gsa_set_block_hashes. rewrite -> Hnone. destruct (foldl _ _ _) as [ [hashes parent] stop] eqn:E. cbn.
  enough (hashes = []) as -> by by destruct (_ && _).
  match type of E with foldl ?g ?a ?l = _ => enough (Hinv : ∀ k acc, acc.1.1 = [] → (foldl g acc k).1.1 = []) by (by specialize (Hinv l a eq_refl); rewrite -> E in Hinv) end.
  induction k as [|x k IH]; [done|]. intros [ [hs p] st] Hhs. cbn in Hhs. subst hs. cbn [foldl]. apply IH. destruct st; [done|]. by case_match.
Qed.

End identifiers.

(** ** A worker at work *)

#[local] Instance sim_prefetch : GsaPrefetchC unit := {|
  pf_del_blocks_map _ := mret tt; pf_add_blocks_map _ _ _ := mret tt; pf_set_blocks_map _ _ _ _ _ := mret tt;
  pf_set_blocks_map_multilayer _ _ _ _ _ := mret tt; pf_set_blocks_table_info _ _ _ _ := mret tt; pf_run_async_prefetch_bs _ _ _ := mret tt;
  pf_obtain_load_blocks := mret []; pf_obtain_miss_idxs := mret []; pf_get_prefetch_status := mret true; pf_written t l := mret (t, l) |}.
#[local] Instance sim_offload : GsaOffloadOps unit := {|
  oo_is_calculate_finish := mret true; oo_add_copy_req _ _ _ := mret tt; oo_set_common_param _ _ := mret tt; oo_set_kpre_param _ := mret tt;
  oo_set_topk_param _ := mret tt; oo_set_topk_cache _ := mret tt; oo_topk_buf := mret [] |}.
#[local] Instance sim_gsa_store : GsaStore unit := {| gl_load _ _ _ := mret 0; gl_check _ := mret true |}.
#[local] Instance sim_cuda_topk : GsaCudaTopk unit := {|
  ct_set_topk_param _ _ _ := mret tt; ct_set_topk_caches _ _ := mret tt; ct_cal_topk _ _ := mret tt |}.

(** Blocks of two tokens, places of four blocks. *)
Definition sim_gf : gsa_conf := GsaConf (set_config 2) 2 0 false "m" 1 "bf16" 1 4 2 true true false [] [].
Definition sim_gsa : @gsa Z Z := GsaState (new_prefetch 1 4) [] (new_manger 3) None None [] [] [] [ (seqZ 0 8, seqZ 0 8) ] [replicate 12 0].
Definition sim_ratio (n : Z) : Z := (3 * n + 9) / 10.
Definition sim_choose (layer row : Z) (slots : list Z) (include exclude : list bool) (n : Z) : list Z := seqZ 0 n.
Definition sim_engine_request (tokens outputs : list Z) (computed : Z) (blocks : list Z) : engine_request := EngineRequest tokens outputs computed [blocks].

(** Two prompts, the first in two chunks. *)
Definition sim_first : gsa_call := CallMeta (GsaOutput [("a", 3); ("b", 4)] [] ["a"; "b"])
  [("a", sim_engine_request [1; 2; 3; 4; 5] [] 0 [2; 5]); ("b", sim_engine_request [7; 8; 9; 7] [] 0 [3; 1])] ["a"; "b"] [("a", 0); ("b", 1)].
Definition sim_second : gsa_call := CallMeta (GsaOutput [("a", 2); ("b", 1)] [("a", false); ("b", false)] [])
  [("a", sim_engine_request [1; 2; 3; 4; 5] [] 3 [2; 5; 4]); ("b", sim_engine_request [7; 8; 9; 7] [6] 4 [3; 1; 6])] ["a"; "b"] [("a", 0); ("b", 1)].
Definition sim_run (c : gsa_call) (s : @gsa Z Z * unit) : @gsa Z Z * unit :=
  run_call (H3 := cpython_hash) sim_ratio id sim_choose (λ _ _ _, 0) sim_gf 4 c s.


Lemma gsa_moves_keep_chosen_witness :
  ∃ mv rm pm cache', get_mv_map [10; 11; 12; 13; 14] [0; 3; 4] [2; 0; 1] 2 = Ok (mv, rm, pm) ∧ copy_blocks mv (seqZ 100 20) = Ok cache' ∧
    placed_in rm pm 2 = Some 13 ∧ cache' !! 13%nat = Some 112 ∧ placed_in rm pm 0 = Some 10 ∧ placed_in rm pm 1 = Some 14.
Proof.
  assert (Hnd : ∀ l : list Z, bool_decide (NoDup l) = true → NoDup l) by (intros l; apply bool_decide_eq_true_1).
  destruct (gsa_moves_keep_chosen [10; 11; 12; 13; 14] [0; 3; 4] [2; 0; 1] 2 (seqZ 100 20)) as (mv & rm & pm & cache' & Hmap & Hcopy & Hplaced & _).
  1-3: apply Hnd; vm_compute; reflexivity.
  - reflexivity.
  - lia.
  - intros i. rewrite -> !elem_of_cons, !elem_of_nil. change (zlen [10; 11; 12; 13; 14]) with 5. lia.
  - intros b. rewrite -> !elem_of_cons, !elem_of_nil. change (zlen (seqZ 100 20)) with 20. lia.
  - exists mv, rm, pm, cache'. split; [exact Hmap|]. split; [exact Hcopy|]. vm_compute in Hmap. injection Hmap as <- <- <-.
    destruct (Hplaced 2 ltac:(by left)) as (b & src & Hb & _ & Hsrc & Hat & _). vm_compute in Hb. injection Hb as <-.
    vm_compute in Hsrc. injection Hsrc as <-. split; [reflexivity|]. split; [exact Hat|by split].
Defined.

Definition sim_long_gf : gsa_conf := GsaConf (set_config 128) 128 0 false "m" 1 "bf16" 1 100 2 false true false [] [].

Lemma gsa_kept_blocks_agree_witness :
  let blocks := seqZ 1000 66 in
  let idx := last_chunk_idx (gf_cfg sim_long_gf) 66 32 1 in
  let need := num_blocks_needed sim_long_gf 8401 1 (gsa_estimate_num_slots_sparsed sim_ratio sim_long_gf 8401 1) in
  need = 33 ∧ zlen idx = need ∧ kept_blocks sim_long_gf need blocks = nth_block blocks <$> idx ∧ returned_blocks sim_long_gf need blocks = seqZ 1001 33.
Proof.
  intros blocks idx need. split; [reflexivity|].
  destruct (gsa_kept_blocks_agree sim_ratio sim_long_gf 8401 blocks) as (Hl & _ & _ & Hk & _).
  - intros n Hn. unfold sim_ratio. split; [apply Z.div_pos; lia|]. apply Z.lt_succ_r, Z.div_lt_upper_bound; lia.
  - reflexivity.
  - cbn. lia.
  - reflexivity.
  - unfold SEG_PREFILL_THRESHOLD. lia.
  - reflexivity.
  - apply NoDup_seqZ.
  - split; [exact Hl|]. split; [exact Hk|reflexivity].
Defined.

(** The mean of a block that a chunk left half full is not computed again, and that of
    the last block of the prompt never: in decoding it is the block just added. *)
Example means_missing :
  let chunk computed scheduled outputs blocks s :=
    updata_req_state sim_ratio sim_gf scheduled (sim_engine_request [1; 2; 3; 4; 5; 6] outputs computed blocks) 0 s in
  ∃ s1 s2 s3, add_req_new (H := cpython_hash) sim_gf 3 (sim_engine_request [1; 2; 3; 4; 5; 6] [] 0 [10; 11]) 0 0 (new_stat "a") = Ok s1 ∧
    chunk 3 3 [] [10; 11; 12] s1 = Ok s2 ∧ chunk 6 1 [7] [10; 11; 12; 13] s2 = Ok s3 ∧
    gs_calc_block_table s1 = [10; 11] ∧ gs_calc_block_table s2 = [] ∧ gs_calc_block_table s3 = [13].
Proof. eexists _, _, _. repeat (split; [vm_compute; reflexivity|]). vm_compute. reflexivity. Qed.

(** A block to load after a prompt: its identifier is asked of an empty list. *)
Example loading_fails :
  let s := (sim_run sim_first (sim_gsa, tt)) in
  (gsa_launch_transfer_task (λ _ _ _, 0) sim_gf 4 (Some ([("a", [ [2] ])], [("a", [ [0] ])])) s).1 = Raise IndexError.
Proof. vm_compute. reflexivity. Qed.

(** The last block is inserted in no layer once one layer has it. *)
Example last_block_of_some_layers : insert_last_idx 5 [ [0; 5]; [0; 1] ] = [ [0; 5]; [0; 1] ].
Proof. reflexivity. Qed.
