(* ===== verification/VllmSched.v ===== *)
(** * The patched scheduler of vLLM: state and scheduling

    [Scheduler] of [patch/v0110/vllm/pc/v1/core/sched/scheduler.py] and of the one under
    [patch/v0110/vllm/sparse], whose methods replace those of vLLM: its state, the
    constructors, [schedule], [add_request] and [_free_request].  Requests are objects
    shared by the queues: queues hold identifiers and [sc_objects] the objects.  What
    the scheduler calls is a parameter: the cache manager, the queue of waiting
    requests, the connector, the sparse algorithm and the methods inherited. *)
From S2P Require Import Prelude Runtime EsaBatch.
Open Scope Z_scope.

(** The finished states are one here. *)
Inductive request_status := WAITING | WAITING_FOR_FSM | WAITING_FOR_REMOTE_KVS | RUNNING | PREEMPTED | FINISHED.

#[export] Instance request_status_eq : EqDecision request_status.
Proof. solve_decision. Defined.

(** A request, with the attributes the scheduler uses. *)
Record vrequest := Vrequest {
  vr_status : request_status;
  vr_num_computed_tokens : Z;
  vr_num_cached_tokens : Z;
  vr_num_tokens : Z;
  vr_num_output_tokens : Z;
  vr_num_output_placeholders : Z;
  vr_spec_token_ids : list Z;
  vr_prompt_token_ids : list Z;
  vr_all_token_ids : list Z;
  vr_output_token_ids : list Z;
  vr_has_encoder_inputs : bool;
  vr_lora_int_id : option Z;
  vr_has_grammar : bool;
  vr_wants_logprobs : bool;
  vr_priority : Z * Z;
  vr_client_index : Z;
  vr_num_nans : Z;
}.

(** A property of the request in the code, as the comment in [schedule] gives it. *)
Definition vr_num_tokens_with_spec (r : vrequest) : Z :=
  zlen (vr_prompt_token_ids r) + zlen (vr_output_token_ids r) + zlen (vr_spec_token_ids r).

Definition set_vr_status x r := Vrequest x (vr_num_computed_tokens r) (vr_num_cached_tokens r) (vr_num_tokens r) (vr_num_output_tokens r) (vr_num_output_placeholders r) (vr_spec_token_ids r) (vr_prompt_token_ids r) (vr_all_token_ids r) (vr_output_token_ids r) (vr_has_encoder_inputs r) (vr_lora_int_id r) (vr_has_grammar r) (vr_wants_logprobs r) (vr_priority r) (vr_client_index r) (vr_num_nans r).
Definition set_vr_computed x r := Vrequest (vr_status r) x (vr_num_cached_tokens r) (vr_num_tokens r) (vr_num_output_tokens r) (vr_num_output_placeholders r) (vr_spec_token_ids r) (vr_prompt_token_ids r) (vr_all_token_ids r) (vr_output_token_ids r) (vr_has_encoder_inputs r) (vr_lora_int_id r) (vr_has_grammar r) (vr_wants_logprobs r) (vr_priority r) (vr_client_index r) (vr_num_nans r).
Definition set_vr_cached x r := Vrequest (vr_status r) (vr_num_computed_tokens r) x (vr_num_tokens r) (vr_num_output_tokens r) (vr_num_output_placeholders r) (vr_spec_token_ids r) (vr_prompt_token_ids r) (vr_all_token_ids r) (vr_output_token_ids r) (vr_has_encoder_inputs r) (vr_lora_int_id r) (vr_has_grammar r) (vr_wants_logprobs r) (vr_priority r) (vr_client_index r) (vr_num_nans r).
Definition set_vr_outputs x r := Vrequest (vr_status r) (vr_num_computed_tokens r) (vr_num_cached_tokens r) (vr_num_tokens r) x (vr_num_output_placeholders r) (vr_spec_token_ids r) (vr_prompt_token_ids r) (vr_all_token_ids r) (vr_output_token_ids r) (vr_has_encoder_inputs r) (vr_lora_int_id r) (vr_has_grammar r) (vr_wants_logprobs r) (vr_priority r) (vr_client_index r) (vr_num_nans r).
Definition set_vr_spec x r := Vrequest (vr_status r) (vr_num_computed_tokens r) (vr_num_cached_tokens r) (vr_num_tokens r) (vr_num_output_tokens r) (vr_num_output_placeholders r) x (vr_prompt_token_ids r) (vr_all_token_ids r) (vr_output_token_ids r) (vr_has_encoder_inputs r) (vr_lora_int_id r) (vr_has_grammar r) (vr_wants_logprobs r) (vr_priority r) (vr_client_index r) (vr_num_nans r).

Definition set_vr_nans x r := Vrequest (vr_status r) (vr_num_computed_tokens r) (vr_num_cached_tokens r) (vr_num_tokens r) (vr_num_output_tokens r) (vr_num_output_placeholders r) (vr_spec_token_ids r) (vr_prompt_token_ids r) (vr_all_token_ids r) (vr_output_token_ids r) (vr_has_encoder_inputs r) (vr_lora_int_id r) (vr_has_grammar r) (vr_wants_logprobs r) (vr_priority r) (vr_client_index r) x.

(** What the constructor reads of the configuration. *)
Record vsched_conf := VschedConf {
  vc_max_num_running_reqs : Z;
  vc_max_num_scheduled_tokens : Z;
  vc_max_model_len : Z;
  vc_long_prefill_token_threshold : Z;
  vc_chunked_prefill_enabled : bool;
  vc_priority : bool;
  vc_block_size : Z;
  vc_dcp_world_size : Z;
  vc_use_pp : bool;
  vc_num_lookahead_tokens : Z;
  vc_max_loras : option Z;
  vc_max_num_encoder_input_tokens : Z;
  vc_is_encoder_decoder : bool;
  vc_num_groups : nat;
  vc_has_connector : bool;
  vc_has_sparse : bool;
  vc_include_finished_set : bool;
}.

(** [self.block_size] *)
Definition vc_scheduler_block_size (c : vsched_conf) : Z :=
  if 1 <? vc_dcp_world_size c then vc_block_size c * vc_dcp_world_size c else vc_block_size c.

(** The blocks of a request per group. *)
Notation kv_blocks := (list (list Z)).

(** The queue of the waiting requests: [SchedulingPolicy] decides its order. *)
Class RequestQueue (Q : Type) := {
  rq_empty : Q;
  (** the requests, in the order of iteration *)
  rq_list : Q → list string;
  rq_add : string → Q → Q;
  rq_peek : Q → option string;
  rq_pop : Q → option (string * Q);
  rq_prepend : string → Q → Q;
  (** the requests of the first queue go before those of the second *)
  rq_prepend_requests : Q → Q → Q;
  rq_remove_requests : list string → Q → Q;
}.

(** *** The scheduler *)
Record vsched {Q : Type} := Vsched {
  sc_objects : dict string vrequest;
  (** the keys of [requests] *)
  sc_requests : gset string;
  sc_waiting : Q;
  sc_running : list string;
  sc_finished_req_ids : gset string;
  sc_finished_req_ids_dict : option (dict Z (gset string));
  sc_finished_recving_kv_req_ids : gset string;
  (** [None]: no attribute of this name *)
  sc_failed_recving_kv_req_ids : option (gset string);
}.
Arguments vsched : clear implicits.
Arguments Vsched {Q}.

Definition set_sc_objects {Q} x (s : vsched Q) := Vsched x (sc_requests s) (sc_waiting s) (sc_running s) (sc_finished_req_ids s) (sc_finished_req_ids_dict s) (sc_finished_recving_kv_req_ids s) (sc_failed_recving_kv_req_ids s).
Definition set_sc_requests {Q} x (s : vsched Q) := Vsched (sc_objects s) x (sc_waiting s) (sc_running s) (sc_finished_req_ids s) (sc_finished_req_ids_dict s) (sc_finished_recving_kv_req_ids s) (sc_failed_recving_kv_req_ids s).
Definition set_sc_waiting {Q} (x : Q) (s : vsched Q) := Vsched (sc_objects s) (sc_requests s) x (sc_running s) (sc_finished_req_ids s) (sc_finished_req_ids_dict s) (sc_finished_recving_kv_req_ids s) (sc_failed_recving_kv_req_ids s).
Definition set_sc_running {Q} x (s : vsched Q) := Vsched (sc_objects s) (sc_requests s) (sc_waiting s) x (sc_finished_req_ids s) (sc_finished_req_ids_dict s) (sc_finished_recving_kv_req_ids s) (sc_failed_recving_kv_req_ids s).
Definition set_sc_finished {Q} x y (s : vsched Q) := Vsched (sc_objects s) (sc_requests s) (sc_waiting s) (sc_running s) x y (sc_finished_recving_kv_req_ids s) (sc_failed_recving_kv_req_ids s).
Definition set_sc_recving {Q} x y (s : vsched Q) := Vsched (sc_objects s) (sc_requests s) (sc_waiting s) (sc_running s) (sc_finished_req_ids s) (sc_finished_req_ids_dict s) x y.

(** The constructors of the two patches; the second replaces the first when sparse
    attention is on. *)
Definition pc_init {Q} `{RequestQueue Q} (c : vsched_conf) : vsched Q :=
  Vsched [] ∅ rq_empty [] ∅ (if vc_include_finished_set c then Some [] else None) ∅ (Some ∅).
Definition sparse_init {Q} `{RequestQueue Q} (c : vsched_conf) : vsched Q :=
  Vsched [] ∅ rq_empty [] ∅ (if vc_include_finished_set c then Some [] else None) ∅ None.

(** The arguments of [allocate_slots] but the request. *)
Record alloc_args := AllocArgs {
  aa_num_new_tokens : Z;
  aa_num_new_computed_tokens : Z;
  aa_new_computed_blocks : option kv_blocks;
  aa_num_lookahead_tokens : Z;
  aa_delay_cache_blocks : bool;
  aa_num_encoder_tokens : Z;
  aa_num_slots_sparsed : Z;
}.

(** The cache manager. *)
Class KvCacheManager (W : Type) := {
  km_get_block_ids : string → M W kv_blocks;
  km_get_blocks : string → M W kv_blocks;
  km_allocate_slots : string → vrequest → alloc_args → M W (option kv_blocks);
  km_get_computed_blocks : string → vrequest → M W (kv_blocks * Z);
  km_empty_block_list : kv_blocks;
  km_add_blocks : kv_blocks → kv_blocks → kv_blocks;
  (** [get_block_ids(allow_none=True)] of blocks *)
  km_block_ids : kv_blocks → option kv_blocks;
  km_free : string → M W unit;
  km_cache_blocks : string → Z → M W unit;
  km_num_common_prefix_blocks : string → Z → M W (list Z);
  km_take_events : M W (option (list Z));
}.

(** The connector, as the scheduler uses it. *)
Class SchedConnector (W : Type) := {
  sn_get_num_new_matched_tokens : string → vrequest → Z → M W (option Z * bool);
  sn_update_state_after_alloc : string → vrequest → kv_blocks → Z → M W unit;
  (** for the tokens scheduled per request *)
  sn_build_connector_meta : dict string Z → M W unit;
  sn_take_events : M W (list Z);
  (** [requests_meta.pop(req_id, None)] on the implementation, if it has any *)
  sn_pop_requests_meta : string → M W unit;
}.

(** The sparse algorithm on the side of the scheduler. *)
Class SchedSparse (W : Type) := {
  ss_estimate_num_slots_sparsed : string → vrequest → M W Z;
  ss_request_begin : string → list Z → M W unit;
  ss_request_finished_in_scheduler : string → M W unit;
}.

(** The encoder cache, structured outputs and the publisher of events. *)
Class SchedEnv (W : Type) := {
  (** inputs to schedule, tokens, and what is left of the budget *)
  se_try_schedule_encoder_inputs : string → vrequest → Z → Z → Z → M W (list Z * Z * Z);
  se_encoder_free : string → M W unit;
  se_encoder_allocate : string → Z → M W unit;
  se_get_freed_mm_hashes : M W (list string);
  se_get_grammar_bitmask : list string → dict string (list Z) → M W (list string);
  se_publish : list Z → M W unit;
}.

Record cached_request_data := CachedRequestData {
  cd_req_ids : list string;
  cd_resumed_from_preemption : list bool;
  cd_new_token_ids : list (list Z);
  cd_new_block_ids : list (option kv_blocks);
  cd_num_computed_tokens : list Z;
  cd_num_output_tokens : list Z;
}.

Record vsched_output := VschedOutput {
  (** request, blocks, computed tokens *)
  vo_new_reqs : list (string * kv_blocks * Z);
  vo_cached_reqs : cached_request_data;
  vo_num_scheduled_tokens : dict string Z;
  vo_total_num_scheduled_tokens : Z;
  vo_spec_decode_tokens : dict string (list Z);
  vo_encoder_inputs : dict string (list Z);
  vo_num_common_prefix_blocks : list Z;
  vo_req_sparsed_slots : dict string Z;
  vo_num_external_computed_tokens : dict string Z;
  vo_finished_req_ids : gset string;
  vo_free_encoder_mm_hashes : list string;
  vo_structured_output_request_ids : list string;
}.

(** The methods inherited. *)
Class SchedBase (Q W : Type) := {
  sb_update_after_schedule : vsched_output → M (vsched Q * W) unit;
  (** whether the blocks stay for the transfer, and its parameters *)
  sb_connector_finished : string → M (vsched Q * W) (bool * option Z);
  sb_free_blocks : string → M (vsched Q * W) unit;
}.

(** The local variables of [schedule]. *)
Record plan {Q : Type} := Plan {
  pl_new_reqs : list string;
  pl_resumed_reqs : list string;
  pl_running_reqs : list string;
  pl_preempted_reqs : list string;
  pl_new_blocks : dict string kv_blocks;
  pl_num_scheduled_tokens : dict string Z;
  pl_token_budget : Z;
  pl_encoder_inputs : dict string (list Z);
  pl_encoder_budget : Z;
  pl_spec_tokens : dict string (list Z);
  pl_req_index : Z;
  pl_sparsed_slots : dict string Z;
  pl_external : dict string Z;
  pl_loras : list Z;
  pl_skipped : Q;
}.
Arguments plan : clear implicits.
Arguments Plan {Q}.

Definition set_pl_reqs {Q} a b c d (p : plan Q) := Plan a b c d (pl_new_blocks p) (pl_num_scheduled_tokens p) (pl_token_budget p) (pl_encoder_inputs p) (pl_encoder_budget p) (pl_spec_tokens p) (pl_req_index p) (pl_sparsed_slots p) (pl_external p) (pl_loras p) (pl_skipped p).
Definition set_pl_tokens {Q} a b c (p : plan Q) := Plan (pl_new_reqs p) (pl_resumed_reqs p) (pl_running_reqs p) (pl_preempted_reqs p) a b c (pl_encoder_inputs p) (pl_encoder_budget p) (pl_spec_tokens p) (pl_req_index p) (pl_sparsed_slots p) (pl_external p) (pl_loras p) (pl_skipped p).
Definition set_pl_encoder {Q} a b (p : plan Q) := Plan (pl_new_reqs p) (pl_resumed_reqs p) (pl_running_reqs p) (pl_preempted_reqs p) (pl_new_blocks p) (pl_num_scheduled_tokens p) (pl_token_budget p) a b (pl_spec_tokens p) (pl_req_index p) (pl_sparsed_slots p) (pl_external p) (pl_loras p) (pl_skipped p).
Definition set_pl_spec {Q} a (p : plan Q) := Plan (pl_new_reqs p) (pl_resumed_reqs p) (pl_running_reqs p) (pl_preempted_reqs p) (pl_new_blocks p) (pl_num_scheduled_tokens p) (pl_token_budget p) (pl_encoder_inputs p) (pl_encoder_budget p) a (pl_req_index p) (pl_sparsed_slots p) (pl_external p) (pl_loras p) (pl_skipped p).
Definition set_pl_index {Q} a (p : plan Q) := Plan (pl_new_reqs p) (pl_resumed_reqs p) (pl_running_reqs p) (pl_preempted_reqs p) (pl_new_blocks p) (pl_num_scheduled_tokens p) (pl_token_budget p) (pl_encoder_inputs p) (pl_encoder_budget p) (pl_spec_tokens p) a (pl_sparsed_slots p) (pl_external p) (pl_loras p) (pl_skipped p).
Definition set_pl_maps {Q} a b (p : plan Q) := Plan (pl_new_reqs p) (pl_resumed_reqs p) (pl_running_reqs p) (pl_preempted_reqs p) (pl_new_blocks p) (pl_num_scheduled_tokens p) (pl_token_budget p) (pl_encoder_inputs p) (pl_encoder_budget p) (pl_spec_tokens p) (pl_req_index p) a b (pl_loras p) (pl_skipped p).
Definition set_pl_loras {Q} a (p : plan Q) := Plan (pl_new_reqs p) (pl_resumed_reqs p) (pl_running_reqs p) (pl_preempted_reqs p) (pl_new_blocks p) (pl_num_scheduled_tokens p) (pl_token_budget p) (pl_encoder_inputs p) (pl_encoder_budget p) (pl_spec_tokens p) (pl_req_index p) (pl_sparsed_slots p) (pl_external p) a (pl_skipped p).
Definition set_pl_skipped {Q} (a : Q) (p : plan Q) := Plan (pl_new_reqs p) (pl_resumed_reqs p) (pl_running_reqs p) (pl_preempted_reqs p) (pl_new_blocks p) (pl_num_scheduled_tokens p) (pl_token_budget p) (pl_encoder_inputs p) (pl_encoder_budget p) (pl_spec_tokens p) (pl_req_index p) (pl_sparsed_slots p) (pl_external p) (pl_loras p) a.
