(* ===== verification/VllmSchedule.v ===== *)
(** * The patched scheduler of vLLM: a scheduling step

    [schedule], [add_request] and [_free_request] of the scheduler under
    [patch/v0110/vllm/sparse], and [_update_waiting_for_remote_kv] and
    [_make_cached_request_data], which it calls, of the one under [patch/v0110/vllm/pc].
    The loops over the queues take fuel; [schedule] gives them the lengths of the
    queues.  Records of events and log messages are left out. *)
From S2P Require Import Prelude Runtime EsaBatch VllmSched.
Open Scope Z_scope.

Section schedule.
  Context {Q W : Type} `{RequestQueue Q} `{KvCacheManager W} `{SchedConnector W} `{SchedSparse W} `{SchedEnv W} `{SchedBase Q W}.
  Variable c : vsched_conf.

Notation SM := (M (vsched Q * W)).

Definition upsc (f : vsched Q → vsched Q) : SM unit := modify (λ s, (f s.1, s.2)).
Definition getsc {B} (f : vsched Q → B) : SM B := gets (λ s, f s.1).
Definition on_sw {B} (m : M W B) : SM B := lift snd (λ w s, (s.1, w)) m.
Definition req_of (req_id : string) : SM vrequest := d ← getsc sc_objects; of_res (dict_index req_id d).
Definition up_req (req_id : string) (f : vrequest → vrequest) : SM unit :=
  r ← req_of req_id; upsc (λ s, set_sc_objects (dict_set req_id (f r) (sc_objects s)) s).

(** [(req_block_ids,) = ...] *)
Definition one_group (groups : kv_blocks) : res (list Z) :=
  match groups with [g] => Ok g | _ => Raise (ValueError "wrong number of values to unpack") end.

Definition failed_recving : SM (gset string) :=
  f ← getsc sc_failed_recving_kv_req_ids; match f with Some f => mret f | None => raise AttributeError end.

(** ** A request whose remote blocks have arrived *)
Definition _update_waiting_for_remote_kv (req_id : string) : SM bool :=
  assert_ (vc_has_connector c) ;;
  failed ← failed_recving;
  recving ← getsc sc_finished_recving_kv_req_ids;
  if bool_decide (req_id ∉ recving) then mret false
  else
    r ← req_of req_id;
    (if bool_decide (req_id ∈ failed) then
       (if negb (vr_num_computed_tokens r =? 0) then on_sw (km_cache_blocks req_id (vr_num_computed_tokens r))
        else on_sw (km_free req_id)) ;;
       upsc (λ s, set_sc_recving (sc_finished_recving_kv_req_ids s) ((λ f, f ∖ {[req_id]}) <$> sc_failed_recving_kv_req_ids s) s)
     else
       groups ← on_sw (km_get_block_ids req_id);
       block_ids ← of_res (one_group groups);
       let n := Z.min (zlen block_ids * vc_scheduler_block_size c) (vr_num_tokens r) in
       let n := if n =? vr_num_tokens r then n - 1 else n in
       on_sw (km_cache_blocks req_id n) ;;
       up_req req_id (set_vr_computed n)) ;;
    upsc (λ s, set_sc_recving (sc_finished_recving_kv_req_ids s ∖ {[req_id]}) (sc_failed_recving_kv_req_ids s) s) ;;
    mret true.

(** ** The running requests *)

(** [max(self.running, key=...)]: the first of the largest. *)
Definition lexb (a b : Z * Z) : bool := (a.1 <? b.1) || ((a.1 =? b.1) && (a.2 <? b.2)).
Definition lowest_priority (objects : dict string vrequest) (running : list string) : res string :=
  match running with
  | [] => Raise (ValueError "max() arg is an empty sequence")
  | x :: l =>
      let key i := default (0, 0) (vr_priority <$> dict_get i objects) in
      Ok (foldl (λ best i, if lexb (key best) (key i) then i else best) x l)
  end.

(** [l.remove(x)] for an element of the list *)
Fixpoint remove_one (x : string) (l : list string) : list string :=
  match l with [] => [] | y :: l => if decide (x = y) then l else y :: remove_one x l end.

(** The request preempted, taken off the running ones. *)
Definition pick_victim (p : plan Q) : SM (string * plan Q) :=
  s ← getsc id;
  if vc_priority c then
    victim ← of_res (lowest_priority (sc_objects s) (sc_running s));
    upsc (set_sc_running (remove_one victim (sc_running s))) ;;
    mret (victim, set_pl_reqs (pl_new_reqs p) (pl_resumed_reqs p) (remove_one victim (pl_running_reqs p)) (pl_preempted_reqs p) p)
  else
    match last (sc_running s) with
    | Some victim => upsc (set_sc_running (py_upto (sc_running s) (-1))) ;; mret (victim, p)
    | None => raise IndexError
    end.

Definition preempt (victim : string) (p : plan Q) : SM (plan Q) :=
  on_sw (km_free victim) ;;
  on_sw (se_encoder_free victim) ;;
  up_req victim (λ r, set_vr_computed 0 (set_vr_status PREEMPTED r)) ;;
  upsc (λ s, set_sc_waiting (rq_prepend victim (sc_waiting s)) s) ;;
  mret (set_pl_reqs (pl_new_reqs p) (pl_resumed_reqs p) (pl_running_reqs p) (pl_preempted_reqs p ++ [victim]) p).

(** Blocks for the request; [None] when it had to be preempted itself. *)
Fixpoint allocate_or_preempt (fuel : nat) (req_id : string) (args : alloc_args) (p : plan Q) : SM (plan Q * option kv_blocks) :=
  match fuel with
  | O => raise (RuntimeError "out of fuel")
  | S fuel =>
      r ← req_of req_id;
      new_blocks ← on_sw (km_allocate_slots req_id r args);
      match new_blocks with
      | Some b => mret (p, Some b)
      | None =>
          x ← pick_victim p;
          p ← preempt x.1 x.2;
          if decide (x.1 = req_id) then mret (p, None) else allocate_or_preempt fuel req_id args p
      end
  end.

(** [num_new_tokens] before the encoder inputs *)
Definition running_new_tokens (r : vrequest) (budget : Z) : Z :=
  let n := vr_num_tokens_with_spec r + vr_num_output_placeholders r - vr_num_computed_tokens r in
  let t := vc_long_prefill_token_threshold c in
  let n := if (0 <? t) && (t <? n) then t else n in
  Z.min (Z.min n budget) (vc_max_model_len c - 1 - vr_num_computed_tokens r).

Definition sparsed_slots (req_id : string) (r : vrequest) : SM Z :=
  if vc_has_sparse c then on_sw (ss_estimate_num_slots_sparsed req_id r) else mret INVALID_SLOT.

Definition encoder_inputs (req_id : string) (r : vrequest) (computed n budget : Z) : SM (list Z * Z * Z) :=
  if vr_has_encoder_inputs r then on_sw (se_try_schedule_encoder_inputs req_id r computed n budget) else mret ([], n, budget).

(** The encoder inputs and the draft tokens of a request just scheduled. *)
Definition schedule_encoder (req_id : string) (inputs : list Z) (new_budget : Z) (p : plan Q) : SM (plan Q) :=
  match inputs with
  | [] => mret p
  | _ =>
      for_each inputs (λ i, on_sw (se_encoder_allocate req_id i)) ;;
      mret (set_pl_encoder (dict_set req_id inputs (pl_encoder_inputs p)) new_budget p)
  end.

Definition schedule_spec (req_id : string) (n : Z) (p : plan Q) : SM (plan Q) :=
  r ← req_of req_id;
  match vr_spec_token_ids r with
  | [] => mret p
  | _ =>
      let k := n + vr_num_computed_tokens r - vr_num_tokens r in
      if 0 <? k then
        let spec := py_upto (vr_spec_token_ids r) k in
        up_req req_id (set_vr_spec spec) ;;
        mret (set_pl_spec (dict_set req_id spec (pl_spec_tokens p)) p)
      else mret p
  end.

(** One round of the first loop, and whether it goes on. *)
Definition running_step (p : plan Q) : SM (plan Q * bool) :=
  run ← getsc sc_running;
  req_id ← of_res (py_index run (pl_req_index p));
  r ← req_of req_id;
  num_slots_sparsed ← sparsed_slots req_id r;
  let p := set_pl_maps (dict_set req_id num_slots_sparsed (pl_sparsed_slots p)) (pl_external p) p in
  x ← encoder_inputs req_id r (vr_num_computed_tokens r) (running_new_tokens r (pl_token_budget p)) (pl_encoder_budget p);
  let '(inputs, num_new_tokens, new_encoder_budget) := x in
  if num_new_tokens =? 0 then mret (set_pl_index (pl_req_index p + 1) p, true)
  else
    x ← allocate_or_preempt (length run) req_id
      (AllocArgs num_new_tokens 0 None (vc_num_lookahead_tokens c) false 0 num_slots_sparsed) p;
    match x with
    | (p, None) => mret (p, false)
    | (p, Some new_blocks) =>
        let p := set_pl_reqs (pl_new_reqs p) (pl_resumed_reqs p) (pl_running_reqs p ++ [req_id]) (pl_preempted_reqs p) p in
        let p := set_pl_tokens (dict_set req_id new_blocks (pl_new_blocks p)) (dict_set req_id num_new_tokens (pl_num_scheduled_tokens p))
                   (pl_token_budget p - num_new_tokens) p in
        let p := set_pl_index (pl_req_index p + 1) p in
        p ← schedule_spec req_id num_new_tokens p;
        p ← schedule_encoder req_id inputs new_encoder_budget p;
        mret (p, true)
    end.

Fixpoint schedule_running (fuel : nat) (p : plan Q) : SM (plan Q) :=
  run ← getsc sc_running;
  if negb ((pl_req_index p <? zlen run) && (0 <? pl_token_budget p)) then mret p
  else
    match fuel with
    | O => raise (RuntimeError "out of fuel")
    | S fuel => x ← running_step p; if (x.2 : bool) then schedule_running fuel x.1 else mret x.1
    end.

(** ** The waiting requests *)

(** Off the queue, to be put back at the end. *)
Definition skip_request (req_id : string) (p : plan Q) : SM (plan Q * bool) :=
  s ← getsc id;
  match rq_pop (sc_waiting s) with
  | Some (_, waiting) => upsc (set_sc_waiting waiting) ;; mret (set_pl_skipped (rq_prepend req_id (pl_skipped p)) p, true)
  | None => raise IndexError
  end.

(** Whether the request may be scheduled, as far as its status goes. *)
Definition waiting_ready (req_id : string) : SM bool :=
  r ← req_of req_id;
  ready ← (if decide (vr_status r = WAITING_FOR_REMOTE_KVS) then
             ready ← _update_waiting_for_remote_kv req_id;
             (if (ready : bool) then up_req req_id (set_vr_status WAITING) else mret tt) ;;
             mret ready
           else mret true);
  if negb ready then mret false
  else
    r ← req_of req_id;
    if decide (vr_status r = WAITING_FOR_FSM) then
      if vr_has_grammar r then up_req req_id (set_vr_status WAITING) ;; mret true else mret false
    else mret true.

(** [max_loras] does not admit the request. *)
Definition lora_full (r : vrequest) (loras : list Z) : bool :=
  match vc_max_loras c, vr_lora_int_id r with
  | Some max_loras, Some l => (zlen loras =? max_loras) && bool_decide (l ∉ loras)
  | _, _ => false
  end.

Definition add_lora (r : vrequest) (loras : list Z) : list Z :=
  match vc_max_loras c, vr_lora_int_id r with
  | Some _, Some l => if decide (l ∈ loras) then loras else loras ++ [l]
  | _, _ => loras
  end.

(** The computed tokens of a waiting request: local blocks and tokens, external tokens,
    whether they are loaded while it waits, all of them; [None] when the connector
    cannot tell yet. *)
Definition computed_tokens (req_id : string) (r : vrequest) (p : plan Q) : SM (option (kv_blocks * Z * Z * bool * Z) * plan Q) :=
  if vr_num_computed_tokens r =? 0 then
    x ← on_sw (km_get_computed_blocks req_id r);
    ext ← (if vc_has_connector c then on_sw (sn_get_num_new_matched_tokens req_id r x.2) else mret (Some 0, false));
    match ext with
    | (None, _) => mret (None, p)
    | (Some e, async) =>
        mret (Some (x.1, x.2, e, async, x.2 + e), set_pl_maps (pl_sparsed_slots p) (dict_set req_id e (pl_external p)) p)
    end
  else mret (Some (km_empty_block_list, 0, 0, false, vr_num_computed_tokens r), p).

(** The tokens of a waiting request; [None] to skip it. *)
Definition waiting_new_tokens (r : vrequest) (computed budget : Z) : SM (option Z) :=
  let n := vr_num_tokens r - computed in
  let t := vc_long_prefill_token_threshold c in
  let n := if (0 <? t) && (t <? n) then t else n in
  if negb (vc_chunked_prefill_enabled c) && (budget <? n) then mret None
  else
    let n := Z.min n budget in
    assert_ (0 <? n) ;;
    mret (Some n).

(** Off the queue and to the running requests. *)
Definition start_request (req_id : string) (n computed : Z) (inputs : list Z) (new_encoder_budget : Z) (p : plan Q) : SM (plan Q) :=
  upsc (λ s, set_sc_running (sc_running s ++ [req_id]) s) ;;
  r ← req_of req_id;
  p ← (match vr_status r with
       | WAITING => mret (set_pl_reqs (pl_new_reqs p ++ [req_id]) (pl_resumed_reqs p) (pl_running_reqs p) (pl_preempted_reqs p) p)
       | PREEMPTED => mret (set_pl_reqs (pl_new_reqs p) (pl_resumed_reqs p ++ [req_id]) (pl_running_reqs p) (pl_preempted_reqs p) p)
       | _ => raise (RuntimeError "Invalid request status")
       end);
  let p := set_pl_loras (add_lora r (pl_loras p)) p in
  blocks ← on_sw (km_get_blocks req_id);
  let p := set_pl_tokens (dict_set req_id blocks (pl_new_blocks p)) (dict_set req_id n (pl_num_scheduled_tokens p)) (pl_token_budget p - n)
             (set_pl_index (pl_req_index p + 1) p) in
  up_req req_id (λ r, set_vr_computed computed (set_vr_status RUNNING r)) ;;
  up_req req_id (λ r, if vr_num_cached_tokens r <? 0 then set_vr_cached computed r else r) ;;
  schedule_encoder req_id inputs new_encoder_budget p.

(** Allocation for a waiting request, and what becomes of it. *)
Definition place_request (req_id : string) (r : vrequest) (num_slots_sparsed : Z) (x : kv_blocks * Z * Z * bool * Z)
    (n : Z) (inputs : list Z) (new_encoder_budget : Z) (p : plan Q) : SM (plan Q * bool) :=
  let '(new_computed_blocks, num_local, num_external, load_kv_async, computed) := x in
  let lookahead := if vr_num_computed_tokens r =? 0 then 0 else vc_num_lookahead_tokens c in
  let num_encoder_tokens := if vc_is_encoder_decoder c && vr_has_encoder_inputs r then vc_max_num_encoder_input_tokens c else 0 in
  new_blocks ← on_sw (km_allocate_slots req_id r
    (AllocArgs (n + num_external) num_local (Some new_computed_blocks) lookahead load_kv_async num_encoder_tokens num_slots_sparsed));
  match new_blocks with
  | None => mret (p, false)
  | Some new_blocks =>
      (if vc_has_connector c then on_sw (sn_update_state_after_alloc req_id r (km_add_blocks new_computed_blocks new_blocks) num_external) else mret tt) ;;
      s ← getsc id;
      match rq_pop (sc_waiting s) with
      | None => raise IndexError
      | Some (req_id, waiting) =>
          upsc (set_sc_waiting waiting) ;;
          if (load_kv_async : bool) then
            up_req req_id (set_vr_status WAITING_FOR_REMOTE_KVS) ;;
            mret (set_pl_skipped (rq_prepend req_id (pl_skipped p)) p, true)
          else
            p ← start_request req_id n computed inputs new_encoder_budget p;
            mret (p, true)
      end
  end.

(** One round of the second loop, and whether it goes on. *)
Definition waiting_step (p : plan Q) : SM (plan Q * bool) :=
  s ← getsc id;
  match rq_peek (sc_waiting s) with
  | None => raise IndexError
  | Some req_id =>
      r ← req_of req_id;
      num_slots_sparsed ← sparsed_slots req_id r;
      let p := set_pl_maps (dict_set req_id num_slots_sparsed (pl_sparsed_slots p)) (pl_external p) p in
      ready ← waiting_ready req_id;
      if negb ready then skip_request req_id p
      else
        r ← req_of req_id;
        if lora_full r (pl_loras p) then skip_request req_id p
        else
          x ← computed_tokens req_id r p;
          match x with
          | (None, p) => skip_request req_id p
          | (Some ((_, _, num_external, load_kv_async, computed) as x), p) =>
              if (load_kv_async : bool) then
                assert_ (0 <? num_external) ;;
                place_request req_id r num_slots_sparsed x 0 [] (pl_encoder_budget p) p
              else
                n ← waiting_new_tokens r computed (pl_token_budget p);
                match n with
                | None => skip_request req_id p
                | Some n =>
                    y ← encoder_inputs req_id r computed n (pl_encoder_budget p);
                    let '(inputs, n, new_encoder_budget) := y in
                    if vr_has_encoder_inputs r && (n =? 0) then mret (p, false)
                    else place_request req_id r num_slots_sparsed x n inputs new_encoder_budget p
                end
          end
  end.

Fixpoint schedule_waiting (fuel : nat) (p : plan Q) : SM (plan Q) :=
  s ← getsc id;
  if negb (bool_decide (rq_list (sc_waiting s) ≠ []) && (0 <? pl_token_budget p)) || (zlen (sc_running s) =? vc_max_num_running_reqs c) then mret p
  else
    match fuel with
    | O => raise (RuntimeError "out of fuel")
    | S fuel => x ← waiting_step p; if (x.2 : bool) then schedule_waiting fuel x.1 else mret x.1
    end.

(** ** The output *)

Definition cached_request (scheduled : dict string Z) (spec : dict string (list Z)) (new_blocks : dict string kv_blocks)
    (acc : cached_request_data) (req_id : string) : SM cached_request_data :=
  r ← req_of req_id;
  n ← of_res (dict_index req_id scheduled);
  let num_tokens := n - zlen (dict_get_default req_id [] spec) in
  let new_token_ids :=
    if vc_use_pp c then cd_new_token_ids acc ++ [py_slice (vr_all_token_ids r) (vr_num_computed_tokens r) (vr_num_computed_tokens r + num_tokens)]
    else if vc_has_connector c then cd_new_token_ids acc ++ [ [] ] else cd_new_token_ids acc in
  b ← of_res (dict_index req_id new_blocks);
  mret (CachedRequestData (cd_req_ids acc ++ [req_id]) (cd_resumed_from_preemption acc) new_token_ids (cd_new_block_ids acc ++ [km_block_ids b])
          (cd_num_computed_tokens acc ++ [vr_num_computed_tokens r]) (cd_num_output_tokens acc ++ [zlen (vr_output_token_ids r)])).

Definition _make_cached_request_data (running_reqs resumed_reqs : list string) (scheduled : dict string Z) (spec : dict string (list Z))
    (new_blocks : dict string kv_blocks) : SM cached_request_data :=
  for_fold (running_reqs ++ resumed_reqs)
    (CachedRequestData [] (replicate (length running_reqs) false ++ replicate (length resumed_reqs) true) [] [] [] [])
    (cached_request scheduled spec new_blocks).

(** The LoRA adapters of the running requests *)
Definition running_loras (p : plan Q) : SM (list Z) :=
  match vc_max_loras c with
  | None => mret []
  | Some max_loras =>
      loras ← for_fold (pl_running_reqs p) [] (λ loras i,
        r ← req_of i;
        mret (match vr_lora_int_id r with
              | Some l => if (0 <? l) && bool_decide (l ∉ loras) then loras ++ [l] else loras
              | None => loras
              end));
      assert_ (zlen loras <=? max_loras) ;;
      mret loras
  end.

Definition publish_events : SM unit :=
  events ← on_sw km_take_events;
  events ← (if vc_has_connector c then
              l ← on_sw sn_take_events;
              mret (match l with [] => events | _ => Some (default [] events ++ l) end)
            else mret events);
  match events with
  | Some ((_ :: _) as l) => on_sw (se_publish l)
  | _ => mret tt
  end.

(** The constraints checked when both loops are done. *)
Definition check_constraints (p : plan Q) : SM unit :=
  s ← getsc id;
  assert_ (zsum (pl_num_scheduled_tokens p).*2 <=? vc_max_num_scheduled_tokens c) ;;
  assert_ (0 <=? pl_token_budget p) ;;
  assert_ (zlen (sc_running s) <=? vc_max_num_running_reqs c) ;;
  assert_ (zlen (pl_new_reqs p) + zlen (pl_resumed_reqs p) + zlen (pl_running_reqs p) <=? zlen (sc_running s)).

Definition make_output (p : plan Q) : SM vsched_output :=
  s ← getsc id;
  prefix ← (match sc_running s with
            | r :: _ => on_sw (km_num_common_prefix_blocks r (zlen (sc_running s)))
            | [] => mret (replicate (vc_num_groups c) 0)
            end);
  new_reqs ← for_fold (pl_new_reqs p) [] (λ acc i,
    r ← req_of i; b ← of_res (dict_index i (pl_new_blocks p)); mret (acc ++ [(i, b, vr_num_computed_tokens r)]));
  cached ← _make_cached_request_data (pl_running_reqs p) (pl_resumed_reqs p) (pl_num_scheduled_tokens p) (pl_spec_tokens p) (pl_new_blocks p);
  grammar ← on_sw (se_get_grammar_bitmask (pl_new_reqs p ++ pl_running_reqs p ++ pl_resumed_reqs p) (pl_spec_tokens p));
  freed ← on_sw se_get_freed_mm_hashes;
  mret (VschedOutput new_reqs cached (pl_num_scheduled_tokens p) (zsum (pl_num_scheduled_tokens p).*2) (pl_spec_tokens p) (pl_encoder_inputs p)
          prefix (pl_sparsed_slots p) (pl_external p) (sc_finished_req_ids s) freed grammar).

Definition new_plan : plan Q :=
  Plan [] [] [] [] [] [] (vc_max_num_scheduled_tokens c) [] (vc_max_num_encoder_input_tokens c) [] 0 [] [] [] rq_empty.

(** Both loops and the requests skipped. *)
Definition schedule_requests : SM (plan Q) :=
  run ← getsc sc_running;
  p ← schedule_running (length run) new_plan;
  loras ← running_loras p;
  let p := set_pl_loras loras p in
  p ← (match pl_preempted_reqs p with
       | [] => s ← getsc id; schedule_waiting (length (rq_list (sc_waiting s))) p
       | _ => mret p
       end);
  (if decide (rq_list (pl_skipped p) = []) then mret tt
   else upsc (λ s, set_sc_waiting (rq_prepend_requests (pl_skipped p) (sc_waiting s)) s)) ;;
  mret p.

Definition schedule : SM vsched_output :=
  p ← schedule_requests;
  check_constraints p ;;
  out ← make_output p;
  (if vc_has_connector c then on_sw (sn_build_connector_meta (vo_num_scheduled_tokens out)) else mret tt) ;;
  publish_events ;;
  sb_update_after_schedule out ;;
  mret out.

(** ** Requests that come and go *)

Definition add_request (req_id : string) (r : vrequest) : SM unit :=
  upsc (λ s, set_sc_waiting (rq_add req_id (sc_waiting s)) (set_sc_objects (dict_set req_id r (sc_objects s)) s)) ;;
  upsc (λ s, set_sc_requests ({[req_id]} ∪ sc_requests s) s) ;;
  if vc_has_sparse c then on_sw (ss_request_begin req_id (vr_prompt_token_ids r)) else mret tt.

Definition _free_request (req_id : string) : SM (option Z) :=
  r ← req_of req_id;
  assert_ (bool_decide (vr_status r = FINISHED)) ;;
  (if vc_has_sparse c then on_sw (ss_request_finished_in_scheduler req_id) else mret tt) ;;
  x ← sb_connector_finished req_id;
  on_sw (se_encoder_free req_id) ;;
  upsc (λ s, set_sc_finished ({[req_id]} ∪ sc_finished_req_ids s)
    ((λ d, dict_set (vr_client_index r) ({[req_id]} ∪ dict_get_default (vr_client_index r) ∅ d) d) <$> sc_finished_req_ids_dict s) s) ;;
  (if (x.1 : bool) then mret tt else sb_free_blocks req_id) ;;
  mret x.2.

End schedule.
