(* ===== verification/VllmRecovery.v ===== *)
(** * The patched scheduler of vLLM: failed loads and the output of a step

    [_update_requests_with_invalid_blocks], [_handle_invalid_blocks] and
    [update_from_output] of [patch/v0110/vllm/pc/v1/core/sched/scheduler.py], and the
    wrapper of [patch/load_failure_patch.py] for later versions.  Log messages are left
    out; log probabilities and pooler outputs are opaque. *)
From S2P Require Import Prelude Runtime EsaBatch VllmSched VllmSchedule.
Open Scope Z_scope.

(** What the workers report of the transfers. *)
Record kv_connector_output := KvConnectorOutput {
  ko_invalid_block_ids : gset Z;
  ko_finished_recving : gset string;
  ko_stats : option Z;
}.

Record runner_output := RunnerOutput {
  ro_sampled_token_ids : list (list Z);
  ro_req_id_to_index : dict string Z;
  ro_logprobs : bool;
  ro_prompt_logprobs : dict string Z;
  ro_pooler_output : list (option Z);
  ro_num_nans_in_logits : option (dict string Z);
  ro_kv_connector_output : option kv_connector_output;
}.

(** The log probabilities are the index of the slice. *)
Record engine_output := EngineOutput {
  eo_request_id : string;
  eo_new_token_ids : list Z;
  eo_new_logprobs : option Z;
  eo_prompt_logprobs : option Z;
  eo_pooling_output : option Z;
  eo_kv_transfer_params : option Z;
  eo_num_cached_tokens : Z;
}.

Record engine_outputs := EngineOutputs {
  eos_outputs : list engine_output;
  eos_finished_requests : option (gset string);
  eos_scheduler_stats : option Z;
}.

(** The methods inherited that [update_from_output] uses. *)
Class SchedOutputOps (Q W : Type) := {
  (** the tokens kept, and whether the request stops *)
  su_update_request_with_output : string → list Z → M (vsched Q * W) (list Z * bool);
  su_check_stop : string → option Z → M (vsched Q * W) bool;
  su_free_request : string → M (vsched Q * W) (option Z);
  su_accept_tokens : string → list Z → M W unit;
  su_update_from_kv_xfer_finished : kv_connector_output → M (vsched Q * W) unit;
  su_make_spec_decoding_stats : option Z → Z → Z → M W (option Z);
  su_make_stats : option Z → option Z → M W (option Z);
}.

(** ** Invalid blocks *)

(** What is found of the blocks of a request: whether it is affected, whether it marked
    a block, the blocks marked so far, its computed tokens and the tokens affected. *)
Record scan := Scan {
  sn_affected : bool;
  sn_marked : bool;
  sn_marked_ids : gset Z;
  sn_computed : Z;
  sn_total : Z;
}.

Definition scan_block (block_size req_computed : Z) (invalid_block_ids : gset Z) (s : scan) (x : Z * Z) : scan :=
  let '(idx, block_id) := x in
  if bool_decide (block_id ∉ invalid_block_ids) then s
  else if bool_decide (block_id ∈ sn_marked_ids s) then Scan true (sn_marked s) (sn_marked_ids s) (sn_computed s) (sn_total s)
  else
    let marked_ids := {[block_id]} ∪ sn_marked_ids s in
    if sn_marked s then Scan true true marked_ids (sn_computed s) (sn_total s)
    else Scan true true marked_ids (idx * block_size) (sn_total s + (req_computed - idx * block_size)).

Definition scan_request (block_size req_computed num_cached : Z) (invalid_block_ids : gset Z) (block_ids : list Z)
    (computed : Z) (marked_ids : gset Z) (total : Z) : scan :=
  let req_computed_blocks := (req_computed + block_size - 1) / block_size in
  let s := foldl (scan_block block_size req_computed invalid_block_ids) (Scan false false marked_ids computed total)
             (zip (py_range 0 req_computed_blocks) block_ids) in
  if sn_affected s && negb (sn_marked s)
  then Scan true false (sn_marked_ids s) num_cached (sn_total s + (sn_computed s - num_cached))
  else s.

Section recovery.
  Context {Q W : Type} `{RequestQueue Q} `{KvCacheManager W} `{SchedConnector W} `{SchedOutputOps Q W}.
  Variable c : vsched_conf.

Notation SM := (M (vsched Q * W)).

(** The tokens of a request that may have been computed outside. *)
Definition external_computed (req_id : string) (r : vrequest) (failed : gset string) (block_ids : list Z) : Z :=
  if decide (vr_status r = WAITING_FOR_REMOTE_KVS) then
    if bool_decide (req_id ∈ failed) then vr_num_computed_tokens r else zlen block_ids * vc_scheduler_block_size c
  else vr_num_cached_tokens r.

Definition invalid_request (invalid_block_ids : gset Z) (failed : gset string) (acc : gset string * Z * gset Z) (req_id : string) :
    SM (gset string * Z * gset Z) :=
  let '(affected, total, marked) := acc in
  r ← req_of req_id;
  groups ← on_sw (km_get_block_ids req_id);
  block_ids ← of_res (one_group groups);
  let s := scan_request (vc_scheduler_block_size c) (external_computed req_id r failed block_ids) (vr_num_cached_tokens r)
             invalid_block_ids block_ids (vr_num_computed_tokens r) marked total in
  if sn_affected s then
    up_req req_id (set_vr_computed (sn_computed s)) ;;
    mret ({[req_id]} ∪ affected, sn_total s, sn_marked_ids s)
  else mret (affected, sn_total s, sn_marked_ids s).

Definition _update_requests_with_invalid_blocks (requests : list string) (invalid_block_ids : gset Z) : SM (gset string * Z) :=
  failed ← failed_recving;
  x ← for_fold requests (∅, 0, ∅) (invalid_request invalid_block_ids failed);
  mret x.1.

Definition _handle_invalid_blocks (invalid_block_ids : gset Z) : SM (gset string) :=
  failed ← failed_recving;
  s ← getsc id;
  waiting ← of_res (map_res (λ i, r ← dict_index i (sc_objects s); Ok (i, vr_status r)) (rq_list (sc_waiting s)));
  x ← _update_requests_with_invalid_blocks (filter (λ x, x.2 = WAITING_FOR_REMOTE_KVS) waiting).*1 invalid_block_ids;
  upsc (λ s, set_sc_recving (sc_finished_recving_kv_req_ids s) ((λ f, f ∪ x.1) <$> sc_failed_recving_kv_req_ids s) s) ;;
  run ← getsc sc_running;
  y ← _update_requests_with_invalid_blocks run invalid_block_ids;
  (if vc_has_connector c then for_each (elements y.1) (λ req_id, on_sw (sn_pop_requests_meta req_id)) else mret tt) ;;
  mret y.1.

(** ** The output of a step *)

(** The outputs per client, the statistics, and the requests that stop, running or not. *)
Record output_acc := OutputAcc {
  oa_outputs : dict Z (list engine_output);
  oa_spec_stats : option Z;
  oa_stopped_running : list string;
  oa_stopped_preempted : list string;
}.

(** Draft tokens that were rejected are not computed. *)
Definition count_rejected (out : vsched_output) (req_id : string) (generated : list Z) (stats : option Z) : SM (option Z) :=
  match dict_get_default req_id [] (vo_spec_decode_tokens out) with
  | [] => mret stats
  | draft =>
      let num_accepted := zlen generated - 1 in
      let num_rejected := zlen draft - num_accepted in
      up_req req_id (λ r, if 0 <? vr_num_computed_tokens r then set_vr_computed (vr_num_computed_tokens r - num_rejected) r else r) ;;
      up_req req_id (λ r, if 0 <? vr_num_output_tokens r then set_vr_outputs (vr_num_output_tokens r - num_rejected) r else r) ;;
      on_sw (su_make_spec_decoding_stats stats (zlen draft) num_accepted)
  end.

(** The new tokens and whether the request stops, with the output of the pooler. *)
Definition stop_request (ro : runner_output) (req_id : string) (req_index : Z) (generated : list Z) : SM (list Z * bool * option Z) :=
  x ← (match generated with [] => mret ([], false) | _ => su_update_request_with_output req_id generated end);
  match ro_pooler_output ro with
  | [] => mret (x.1, x.2, None)
  | l =>
      pooler ← of_res (py_index l req_index);
      stopped ← su_check_stop req_id pooler;
      mret (x.1, stopped, pooler)
  end.

Definition request_output (out : vsched_output) (ro : runner_output) (failed : gset string) (acc : output_acc) (x : string * Z) : SM output_acc :=
  let '(req_id, num_tokens_scheduled) := x in
  assert_ (0 <? num_tokens_scheduled) ;;
  known ← getsc sc_requests;
  if bool_decide (req_id ∈ failed) || bool_decide (req_id ∉ known) then mret acc
  else
    req_index ← of_res (dict_index req_id (ro_req_id_to_index ro));
    generated ← of_res (match ro_sampled_token_ids ro with [] => Ok [] | l => py_index l req_index end);
    stats ← count_rejected out req_id generated (oa_spec_stats acc);
    r ← req_of req_id;
    let status_before_stop := vr_status r in
    y ← stop_request ro req_id req_index generated;
    let '(new_token_ids, stopped, pooler) := y in
    kv_params ← (if (stopped : bool) then su_free_request req_id else mret None);
    let acc := if (stopped : bool) then
                 if decide (status_before_stop = RUNNING)
                 then OutputAcc (oa_outputs acc) stats (oa_stopped_running acc ++ [req_id]) (oa_stopped_preempted acc)
                 else OutputAcc (oa_outputs acc) stats (oa_stopped_running acc) (oa_stopped_preempted acc ++ [req_id])
               else OutputAcc (oa_outputs acc) stats (oa_stopped_running acc) (oa_stopped_preempted acc) in
    r ← req_of req_id;
    let new_logprobs := if vr_wants_logprobs r && ro_logprobs ro then Some req_index else None in
    (match new_token_ids with [] => mret tt | _ => on_sw (su_accept_tokens req_id new_token_ids) end) ;;
    (match dict_get req_id (default [] (ro_num_nans_in_logits ro)) with
     | Some n => up_req req_id (set_vr_nans n)
     | None => mret tt
     end) ;;
    let prompt_logprobs := dict_get req_id (ro_prompt_logprobs ro) in
    if negb (zlen new_token_ids =? 0) || bool_decide (is_Some pooler) || bool_decide (is_Some kv_params) then
      r ← req_of req_id;
      let o := EngineOutput req_id new_token_ids new_logprobs prompt_logprobs pooler kv_params (vr_num_cached_tokens r) in
      let client := vr_client_index r in
      mret (OutputAcc (dict_set client (dict_get_default client [] (oa_outputs acc) ++ [o]) (oa_outputs acc))
              (oa_spec_stats acc) (oa_stopped_running acc) (oa_stopped_preempted acc))
    else assert_ (bool_decide (prompt_logprobs = None)) ;; mret acc.

(** The requests that finished since the last outputs go to their clients. *)
Definition add_finished (outs : dict Z engine_outputs) (x : Z * gset string) : dict Z engine_outputs :=
  let '(client, finished) := x in
  let o := default (EngineOutputs [] None None) (dict_get client outs) in
  dict_set client (EngineOutputs (eos_outputs o) (Some finished) (eos_scheduler_stats o)) outs.

Definition add_stats (stats : option Z) (outs : dict Z engine_outputs) : dict Z engine_outputs :=
  match stats, outs with
  | None, _ => outs
  | Some n, (k, o) :: rest => (k, EngineOutputs (eos_outputs o) (eos_finished_requests o) (Some n)) :: rest
  | Some n, [] => [(0, EngineOutputs [] None (Some n))]
  end.

Definition update_from_output (out : vsched_output) (ro : runner_output) : SM (dict Z engine_outputs) :=
  failed ← (match ro_kv_connector_output ro with
            | Some kv => if decide (ko_invalid_block_ids kv = ∅) then mret ∅ else _handle_invalid_blocks (ko_invalid_block_ids kv)
            | None => mret ∅
            end);
  acc ← for_fold (vo_num_scheduled_tokens out) (OutputAcc [] None [] []) (request_output out ro failed);
  upsc (λ s, set_sc_running (filter (λ i, i ∉ oa_stopped_running acc) (sc_running s)) s) ;;
  (match oa_stopped_preempted acc with
   | [] => mret tt
   | l => upsc (λ s, set_sc_waiting (rq_remove_requests l (sc_waiting s)) s)
   end) ;;
  (match ro_kv_connector_output ro with Some kv => su_update_from_kv_xfer_finished kv | None => mret tt end) ;;
  let outs := (λ x : Z * list engine_output, (x.1, EngineOutputs x.2 None None)) <$> oa_outputs acc in
  s ← getsc id;
  let finished := default [] (sc_finished_req_ids_dict s) in
  let outs := foldl add_finished outs finished in
  upsc (λ s, set_sc_finished (sc_finished_req_ids s) ((λ _, []) <$> sc_finished_req_ids_dict s) s) ;;
  stats ← on_sw (su_make_stats (oa_spec_stats acc) (kv ← ro_kv_connector_output ro; ko_stats kv));
  mret (add_stats stats outs).

End recovery.

(** ** Later versions *)

(** [wrapped_update] around the method of vLLM: [original] is given the blocks per
    group that [get_block_ids] answers while it runs, and returns the requests
    affected, the tokens and, in later versions, the blocks to evict. *)
Definition wrapped_update {S} (num_kv_cache_groups : Z) (get_block_ids : string → kv_blocks)
    (original : (string → kv_blocks) → gset Z → M S (gset string * Z * option (gset Z))) (invalid_block_ids : gset Z) :
    M S (gset string * Z * option (gset Z)) :=
  if 1 <? num_kv_cache_groups then
    result ← original (λ req_id, let groups := get_block_ids req_id in if 1 <? zlen groups then take 1 groups else groups) invalid_block_ids;
    mret (result.1, (λ e, e ∪ invalid_block_ids) <$> result.2)
  else original get_block_ids invalid_block_ids.
