(* ===== verification/VllmBlocks.v ===== *)
(** * Free blocks counted with external tokens

    [patch/common/kv_cache_get_free_block.py]: how many blocks a request needs, per
    manager of a cache group and over all of them, and the wrapper of [allocate_slots]
    that hands the number of external tokens down.  The managers that vLLM may add, the
    tokens a manager skips and [cdiv] are parameters. *)
From S2P Require Import Prelude Runtime.
Open Scope Z_scope.

Record kv_block := KvBlock {
  kb_ref_cnt : Z;
  kb_is_null : bool;
  kb_block_hash : option Z;
}.

Definition evictable (b : kv_block) : bool := (kb_ref_cnt b =? 0) && negb (kb_is_null b).

Definition _get_num_evictable_blocks (blocks : list kv_block) : Z := zlen (filter (λ b, evictable b = true) blocks).

(** The attributes of a manager; those of [MambaManager] are the last ones. *)
Record single_type_manager := SingleTypeManager {
  stm_block_size : Z;
  stm_req_to_blocks : dict string (list kv_block);
  stm_num_cached_block : dict string Z;
  stm_get_num_skipped_tokens : Z → Z;
  stm_num_speculative_blocks : Z;
  stm_align : bool;
  stm_spec_block_size : Z;
  stm_num_gpu_blocks : Z;
  stm_cached_blocks_this_step : gset (option Z);
  stm_allocated_block_reqs : gset string;
}.

(** The arguments of [get_num_blocks_to_allocate]. *)
Record block_need := Need {
  nd_request_id : string;
  nd_num_tokens : Z;
  nd_new_computed_blocks : list kv_block;
  nd_total_computed_tokens : Z;
  nd_num_tokens_main_model : Z;
  nd_num_external_computed_tokens : Z;
}.

Section blocks.
  Variable cdiv : Z → Z → Z.

Definition is_cached (m : single_type_manager) (n : block_need) : bool := bool_decide (is_Some (dict_get (nd_request_id n) (stm_num_cached_block m))).

Definition single_type_get_num_blocks_to_allocate (m : single_type_manager) (n : block_need) : res Z :=
  let num_required_blocks := cdiv (nd_num_tokens n) (stm_block_size m) in
  let num_req_blocks := zlen (dict_get_default (nd_request_id n) [] (stm_req_to_blocks m)) in
  if is_cached m n then
    if bool_decide (nd_new_computed_blocks n = []) then Ok (Z.max (num_required_blocks - num_req_blocks) 0) else Raise AssertionError
  else
    let num_skipped_tokens := stm_get_num_skipped_tokens m (nd_total_computed_tokens n) in
    let num_local_computed_blocks := zlen (nd_new_computed_blocks n) + num_req_blocks in
    let num_skipped_blocks := num_skipped_tokens / stm_block_size m in
    let num_new_blocks := Z.max (num_required_blocks - Z.max num_skipped_blocks num_local_computed_blocks) 0 in
    let num_skipped_new_computed_blocks := Z.max 0 (num_skipped_blocks - num_req_blocks) in
    Ok (num_new_blocks + _get_num_evictable_blocks (py_from (nd_new_computed_blocks n) num_skipped_new_computed_blocks)).

(** The blocks of an earlier allocation that can be used again. *)
Fixpoint count_reused (num_skipped_blocks : Z) (l : list Z) : Z :=
  match l with i :: l => if i <? num_skipped_blocks then 1 + count_reused num_skipped_blocks l else 0 | [] => 0 end.

(** The blocks for computed tokens: what they cost, and the length then reached. *)
Definition mamba_computed (m : single_type_manager) (n : block_need) : Z * Z :=
  if is_cached m n then (0, zlen (dict_get_default (nd_request_id n) [] (stm_req_to_blocks m)))
  else
    let num_skipped_tokens := stm_get_num_skipped_tokens m (nd_total_computed_tokens n) in
    let num_skipped_blocks := num_skipped_tokens / stm_block_size m in
    let computed_blocks_after_skip :=
      if 0 <? num_skipped_blocks then py_from (nd_new_computed_blocks n) num_skipped_blocks else nd_new_computed_blocks n in
    let external :=
      if 0 <? num_skipped_blocks then Z.min (nd_total_computed_tokens n - num_skipped_tokens) (nd_num_external_computed_tokens n)
      else nd_num_external_computed_tokens n in
    let num_evictable := _get_num_evictable_blocks computed_blocks_after_skip in
    let after := num_skipped_blocks + zlen computed_blocks_after_skip in
    if 0 <? external then
      let num_external_blocks := Z.max (cdiv (nd_total_computed_tokens n) (stm_block_size m) - after) 0 in
      (num_evictable + num_external_blocks, after + num_external_blocks)
    else (num_evictable, after).

Definition mamba_get_num_blocks_to_allocate (m : single_type_manager) (n : block_need) : res Z :=
  if match last (nd_new_computed_blocks n) with Some b => bool_decide (kb_block_hash b ∈ stm_cached_blocks_this_step m) | None => false end
  then Ok (stm_num_gpu_blocks m + 1)
  else if negb (stm_align m) then
    let num_tokens := if 0 <? stm_num_speculative_blocks m
                      then nd_num_tokens n + stm_spec_block_size m * stm_num_speculative_blocks m else nd_num_tokens n in
    single_type_get_num_blocks_to_allocate m
      (Need (nd_request_id n) num_tokens (nd_new_computed_blocks n) (nd_total_computed_tokens n) (nd_num_tokens_main_model n) (nd_num_external_computed_tokens n))
  else
    let '(num_blocks, after) := mamba_computed m n in
    let spec := stm_num_speculative_blocks m in
    let num_required_blocks := cdiv (nd_num_tokens_main_model n) (stm_block_size m) + spec in
    if num_required_blocks <=? after then Ok num_blocks
    else
      let num_skipped_blocks := num_required_blocks - spec - 1 in
      let before := Z.max after num_skipped_blocks in
      let before := if bool_decide (nd_request_id n ∈ stm_allocated_block_reqs m)
                    then before + count_reused num_skipped_blocks (py_range (after - spec) after) else before in
      Ok (num_blocks + Z.max (num_required_blocks - before) 0).

(** ** All groups *)

(** A manager as the coordinator sees it. *)
Record coordinated_manager := Manager {
  mg_is_cross_attention : bool;
  (** whether its method takes the external tokens *)
  mg_takes_external : bool;
  mg_get_num_blocks_to_allocate : block_need → res Z;
}.

Definition _manager_get_num_blocks_to_allocate (m : coordinated_manager) (n : block_need) : res Z :=
  mg_get_num_blocks_to_allocate m
    (if mg_takes_external m then n
     else Need (nd_request_id n) (nd_num_tokens n) (nd_new_computed_blocks n) (nd_total_computed_tokens n) (nd_num_tokens_main_model n) 0).

(** [attribute] is what the wrapper of [allocate_slots] left on the coordinator. *)
Definition coordinator_get_num_blocks_to_allocate (managers : list coordinated_manager) (attribute : option Z) (request_id : string) (num_tokens : Z)
    (new_computed_blocks : list (list kv_block)) (num_encoder_tokens total_computed_tokens : Z) (num_tokens_main_model : option Z)
    (num_external_computed_tokens : Z) : res Z :=
  let main := default num_tokens num_tokens_main_model in
  let external := if num_external_computed_tokens =? 0 then default 0 attribute else num_external_computed_tokens in
  fold_res (λ n im,
    let '(i, m) := im in
    k ← (if mg_is_cross_attention m
         then _manager_get_num_blocks_to_allocate m (Need request_id num_encoder_tokens [] 0 num_encoder_tokens 0)
         else
           blocks ← py_index new_computed_blocks i;
           _manager_get_num_blocks_to_allocate m (Need request_id num_tokens blocks total_computed_tokens main external));
    Ok (n + k)) 0 (zip (py_range 0 (zlen managers)) managers).

End blocks.

(** The wrapper: the state is the attribute of the coordinator, if there is one, and
    whatever [original_allocate_slots] changes. *)
Definition make_allocate_slots_patch {W A} (has_coordinator : bool) (num_external_computed_tokens : Z)
    (original_allocate_slots : M (option Z * W) A) : M (option Z * W) A :=
  if negb has_coordinator then original_allocate_slots
  else
    previous ← gets fst;
    modify (λ s, (Some num_external_computed_tokens, s.2)) ;;
    try_finally original_allocate_slots (modify (λ s, (previous, s.2))).

(** ** Properties *)

Lemma evictable_nonneg l : 0 ≤ _get_num_evictable_blocks l.
Proof. apply zlen_nonneg. Qed.

Lemma count_reused_bounds k l : 0 ≤ count_reused k l ≤ zlen l.
Proof.
  induction l as [|i l IH]; [done|]. cbn [count_reused]. rewrite -> zlen_cons. pose proof (zlen_nonneg l). destruct (i <? k); lia.
Qed.

Section counts.
  Variable cdiv : Z → Z → Z.
  Hypothesis cdiv_ceil : ∀ a b, 0 < b → b * (cdiv a b - 1) < a ≤ b * cdiv a b.

(** With the blocks it has, the computed ones and the new ones, a request holds its
    tokens, and with one less it would not. *)
Theorem single_type_count_exact m n k : 0 < stm_block_size m → is_cached m n = false →
  single_type_get_num_blocks_to_allocate cdiv m n = Ok k →
  let held := Z.max (stm_get_num_skipped_tokens m (nd_total_computed_tokens n) / stm_block_size m)
                (zlen (nd_new_computed_blocks n) + zlen (dict_get_default (nd_request_id n) [] (stm_req_to_blocks m))) in
  ∃ fresh evicted, k = fresh + evicted ∧ 0 ≤ fresh ∧ 0 ≤ evicted ≤ zlen (nd_new_computed_blocks n) ∧
    nd_num_tokens n ≤ stm_block_size m * (held + fresh) ∧ (0 < fresh → stm_block_size m * (held + fresh - 1) < nd_num_tokens n).
Proof.
  intros Hbs Hc Hk held. unfold single_type_get_num_blocks_to_allocate in Hk. rewrite -> Hc in Hk. fold held in Hk. injection Hk as <-.
  eexists _, _. split; [reflexivity|]. destruct (cdiv_ceil (nd_num_tokens n) (stm_block_size m) Hbs) as [Hlo Hhi].
  split; [lia|]. split; [split; [apply evictable_nonneg|]|].
  - unfold _get_num_evictable_blocks, py_from, zlen. apply inj_le. etransitivity; [apply length_filter|]. rewrite -> length_drop. lia.
  - nia.
Qed.

(** A running request asks for the blocks of its speculative tokens and one state at
    most. *)
Theorem mamba_running_bounded m n k : stm_align m = true → 0 ≤ stm_num_speculative_blocks m →
  is_cached m n = true → nd_new_computed_blocks n = [] → mamba_get_num_blocks_to_allocate cdiv m n = Ok k →
  0 ≤ k ≤ stm_num_speculative_blocks m + 1.
Proof.
  intros Ha Hs Hc Hb Hk. unfold mamba_get_num_blocks_to_allocate, mamba_computed in Hk. rewrite -> Hb, Ha, Hc in Hk. cbn [last negb] in Hk.
  destruct (_ <=? _) in Hk; [injection Hk as <-; lia|].
  set (reused := count_reused _ _) in Hk. assert (Hr : 0 ≤ reused) by apply count_reused_bounds.
  destruct (bool_decide _) in Hk; injection Hk as <-; lia.
Qed.

End counts.

(** While [allocate_slots] runs, its external tokens are on the coordinator; afterwards,
    failed or not, what was there before is back. *)
Theorem allocate_slots_restores {W A} external (original : M (option Z * W) A) (s : option Z * W) :
  make_allocate_slots_patch true external original s = let x := original (Some external, s.2) in (x.1, (s.1, x.2.2)).
Proof. unfold make_allocate_slots_patch, try_finally. cbn. mstep. mstep. by destruct (original (Some external, s.2)) as [ [a|e] s']. Qed.
