(* ===== verification/PatchHooks.v ===== *)
(** * Patches applied when a module is imported

    [patch/utils.py] ([when_imported] and the loader of [HookingFinder]) and the choice
    of the patches by version in [patch/apply_patch.py].  A hook is named by a number;
    what it changes in its module is not modelled, only that it ran. *)
From S2P Require Import Prelude.
Open Scope Z_scope.

(** [_POST_IMPORT_HOOKS] and, for each module loaded, its [_ucm_patched] attribute and
    the hooks that ran on it. *)
Record import_state := ImportState {
  is_hooks : dict string (list Z);
  is_modules : dict string (bool * list Z);
}.

(** [when_imported(module_name)(func)] *)
Definition when_imported (module_name : string) (func : Z) (s : import_state) : import_state :=
  let hooks := dict_set module_name (dict_get_default module_name [] (is_hooks s) ++ [func]) (is_hooks s) in
  match dict_get module_name (is_modules s) with
  | Some (patched, ran) =>
      if (patched : bool) then ImportState hooks (is_modules s)
      else ImportState hooks (dict_set module_name (true, ran ++ [func]) (is_modules s))
  | None => ImportState hooks (is_modules s)
  end.

(** The first import of a module: [PostImportLoader.exec_module]. *)
Definition import_module (module_name : string) (s : import_state) : import_state :=
  match dict_get module_name (is_modules s) with
  | Some _ => s
  | None => ImportState (is_hooks s) (dict_set module_name (false, dict_get_default module_name [] (is_hooks s)) (is_modules s))
  end.

Inductive import_event := Register (module_name : string) (func : Z) | Import (module_name : string).

Definition import_step (s : import_state) (e : import_event) : import_state :=
  match e with Register m f => when_imported m f s | Import m => import_module m s end.

(** ** Specification *)

(** The hooks registered for a module among events. *)
Definition registered (m : string) (l : list import_event) : list Z :=
  omap (λ e, match e with Register m' f => if decide (m' = m) then Some f else None | Import _ => None end) l.

Definition imports (m : string) (e : import_event) : bool := match e with Import m' => bool_decide (m' = m) | _ => false end.

Definition run_imports (l : list import_event) : import_state := foldl import_step (ImportState [] []) l.

Lemma registered_app m l k : registered m (l ++ k) = registered m l ++ registered m k.
Proof. apply omap_app. Qed.

Lemma hooks_registered l m : dict_get_default m [] (is_hooks (run_imports l)) = registered m l.
Proof.
  unfold run_imports. induction l as [|e l IH] using rev_ind; [done|]. rewrite -> foldl_app, registered_app, <- IH. cbn [foldl]. set (s := foldl _ _ l) in *.
  destruct e as [m' f|m']; cbn.
  - assert (Hh : is_hooks (when_imported m' f s) = dict_set m' (dict_get_default m' [] (is_hooks s) ++ [f]) (is_hooks s)).
    { unfold when_imported. destruct (dict_get m' (is_modules s)) as [ [ [] ?]|]; done. }
    rewrite -> Hh. unfold dict_get_default at 1. rewrite -> dict_get_set. destruct (decide (m' = m)) as [->|]; [done|]. by rewrite -> app_nil_r.
  - rewrite -> app_nil_r. unfold import_module. by destruct (dict_get m' (is_modules s)).
Qed.

Lemma not_imported l m : (∀ e, e ∈ l → imports m e = false) → dict_get m (is_modules (run_imports l)) = None.
Proof.
  unfold run_imports. induction l as [|e l IH] using rev_ind; [done|]. intros He. rewrite -> foldl_app. cbn [foldl]. set (s := foldl _ _ l) in *.
  assert (Hs : dict_get m (is_modules s) = None) by (apply IH; intros e' He'; apply He, elem_of_app; by left).
  specialize (He e ltac:(apply elem_of_app; right; left)). destruct e as [m' f|m']; cbn.
  - unfold when_imported. destruct (dict_get m' (is_modules s)) as [ [ [] ran]|] eqn:E; cbn; [done| |done]. rewrite -> dict_get_set_ne; [done|]. intros ->. congruence.
  - cbn in He. apply bool_decide_eq_false in He. unfold import_module. destruct (dict_get m' (is_modules s)); [done|]. cbn. by rewrite -> dict_get_set_ne.
Qed.

(** The hooks registered before a module is imported all run, once and in order; of
    those registered later only the first does. *)
Theorem hooks_run l k m : (∀ e, e ∈ l → imports m e = false) →
  dict_get m (is_modules (run_imports (l ++ Import m :: k))) =
    Some (bool_decide (registered m k ≠ []), registered m l ++ take 1 (registered m k)).
Proof.
  intros Hl. induction k as [|e k IH] using rev_ind.
  - unfold run_imports. rewrite -> foldl_app. cbn. change (foldl _ _ l) with (run_imports l). unfold import_module. rewrite -> not_imported by done. cbn.
    by rewrite -> dict_get_set_eq, hooks_registered, app_nil_r.
  - rewrite -> registered_app. replace (l ++ Import m :: k ++ [e]) with ((l ++ Import m :: k) ++ [e]) by (by rewrite <- app_assoc).
    unfold run_imports in *. rewrite -> foldl_app. cbn [foldl]. set (s := foldl _ _ (l ++ Import m :: k)) in *.
    destruct e as [m' f|m']; cbn.
    + unfold when_imported. destruct (decide (m' = m)) as [->|Hne].
      * rewrite -> IH. destruct (registered m k) as [|x r]; cbn; [|done]. by rewrite -> dict_get_set_eq, app_nil_r.
      * rewrite -> app_nil_r. destruct (dict_get m' (is_modules s)) as [ [ [] ran]|]; cbn; [done| |done]. by rewrite -> dict_get_set_ne.
    + rewrite -> app_nil_r. unfold import_module. destruct (dict_get m' (is_modules s)) eqn:E; [done|]. cbn. rewrite -> dict_get_set_ne; [done|]. intros ->. congruence.
Qed.
