(* ===== verification/VllmHybrid.v ===== *)
(** * The shared prefix hit of several cache groups

    [_find_longest_cache_hit] of [patch/v0221/.../patch_kv_cache_coordinator.py] and the
    method of the version before ([v0202]), which is its special case: the groups are
    asked in turn for their longest hit within the hit of the others, until none of them
    shortens it, and the full-attention groups are cut to it.  The lookup of a group, a
    method of the engine over its block pool, is a parameter. *)
From S2P Require Import Prelude.
Open Scope Z_scope.

Inductive spec_kind := FullAttentionSpec | MambaSpec | OtherSpec.

#[export] Instance spec_kind_eq : EqDecision spec_kind.
Proof. solve_decision. Defined.

(** An entry of [attention_groups]. *)
Record attention_group := AttentionGroup {
  ag_kind : spec_kind;
  ag_block_size : Z;
  ag_compress_ratio : option Z;
  ag_group_ids : list nat;
  (** [manager_cls.find_longest_cache_hit]: the blocks of each group for a maximal
      length in tokens, the last block dropped or not *)
  ag_find_longest_cache_hit : Z → bool → list (list Z);
}.

Definition _effective_block_size (g : attention_group) : Z :=
  ag_block_size g * Z.max (default 1 (ag_compress_ratio g)) 1.

(** [hit_blocks_by_group] and [eagle_verified], with the hit so far in a round. *)
Record hit_state := HitState {
  hs_curr : Z;
  hs_blocks : list (option (list Z));
  hs_verified : gset nat;
}.

Section lookup.
  Variable groups : list attention_group.
  Variable eff : attention_group → Z.
  Variable eagle : gset nat.
  Variable max_cache_hit_length : Z.
  Variable skip_mamba : bool.

(** [hit_blocks_by_group[group_id] = blocks] for the pairs of a zip *)
Definition store_hits (by_group : list (option (list Z))) (l : list (nat * list Z)) : list (option (list Z)) :=
  foldl (λ b x, <[x.1 := Some x.2]> b) by_group l.

Definition first_hit (g : attention_group) (by_group : list (option (list Z))) : option (list Z) :=
  match ag_group_ids g with i :: _ => default None (by_group !! i) | [] => None end.

(** One group of a round; neither [group_ids] nor the answer of a lookup is empty. *)
Definition group_step (s : hit_state) (x : nat * attention_group) : hit_state :=
  let '(idx, g) := x in
  if skip_mamba && bool_decide (ag_kind g = MambaSpec) then
    match first_hit g (hs_blocks s) with
    | None => HitState (hs_curr s) (store_hits (hs_blocks s) ((λ i, (i, [])) <$> ag_group_ids g)) (hs_verified s)
    | Some _ => s
    end
  else if bool_decide (ag_kind g = FullAttentionSpec) && bool_decide (is_Some (first_hit g (hs_blocks s))) then
    HitState (hs_curr s / eff g * eff g) (hs_blocks s) (hs_verified s)
  else
    let use_eagle := bool_decide (idx ∈ eagle) && bool_decide (idx ∉ hs_verified s) in
    let max_length := if use_eagle then Z.min (hs_curr s + ag_block_size g) max_cache_hit_length else hs_curr s in
    let hit_blocks := ag_find_longest_cache_hit g max_length use_eagle in
    let new_hit_length := zlen (default [] (head hit_blocks)) * eff g in
    let verified := if use_eagle then {[idx]} ∪ hs_verified s else if new_hit_length <? hs_curr s then ∅ else hs_verified s in
    HitState new_hit_length (store_hits (hs_blocks s) (zip (ag_group_ids g) hit_blocks)) verified.

Definition search_round (hit_length : Z) (by_group : list (option (list Z))) (verified : gset nat) : hit_state :=
  foldl group_step (HitState hit_length by_group verified) (zip (seq 0 (length groups)) groups).

Definition is_simple_hybrid : bool :=
  match groups with [g; _] => bool_decide (ag_kind g = FullAttentionSpec) | _ => false end.

(** The rounds; [None] when the fuel ends. *)
Fixpoint search_rounds (fuel : nat) (hit_length : Z) (by_group : list (option (list Z))) (verified : gset nat) : option (Z * list (option (list Z))) :=
  match fuel with
  | O => None
  | S fuel =>
      let s := search_round hit_length by_group verified in
      if hit_length <=? hs_curr s then Some (hit_length, hs_blocks s)
      else if is_simple_hybrid then Some (hs_curr s, hs_blocks s)
      else search_rounds fuel (hs_curr s) (hs_blocks s) (hs_verified s)
  end.

(** [del blocks[num_blocks:]] for the groups of a full-attention entry. *)
Definition truncate (hit_length : Z) (by_group : list (option (list Z))) (g : attention_group) : list (option (list Z)) :=
  if bool_decide (ag_kind g = FullAttentionSpec) then
    foldl (λ b i, alter (fmap (λ blocks, py_upto blocks (hit_length / eff g))) i b) by_group (ag_group_ids g)
  else by_group.

Definition _find_longest_cache_hit (num_groups fuel : nat) : option (list (list Z) * Z) :=
  '(hit_length, by_group) ← search_rounds fuel max_cache_hit_length (replicate num_groups None) ∅;
  Some (default [] <$> foldl (truncate hit_length) by_group groups, hit_length).

End lookup.

(** The fuel is the number of tokens: every round but the last shortens the hit. *)
Definition find_longest_cache_hit (groups : list attention_group) (eagle : gset nat) (num_groups : nat) (max_cache_hit_length : Z) : option (list (list Z) * Z) :=
  _find_longest_cache_hit groups _effective_block_size eagle max_cache_hit_length false num_groups (S (Z.to_nat max_cache_hit_length)).
