(* ===== verification/VllmHybridProps.v ===== *)
(** * Properties of the shared prefix hit

    The rounds of [VllmHybrid.v] end, and the hit they give is one of every group. *)
From S2P Require Import Prelude VllmHybrid.
Open Scope Z_scope.

Section hybrid.
  Variable groups : list attention_group.
  Variable eff : attention_group → Z.
  Variable eagle : gset nat.
  Variable max_cache_hit_length : Z.
  Variable skip_mamba : bool.
  Variable num_groups : nat.
  (** [alignment_tokens] of the lookups *)
  Variable lcm_block_size : Z.
  (** The blocks are cached ones for a prefix of the request. *)
  Variable served : attention_group → nat → list Z → Prop.

(** What the engine promises of a lookup: lists of one length, within the maximal
    length (with a block dropped, a block below it), aligned, of cached blocks; a prefix
    of a full-attention hit is a hit. *)
Record lookup_laws (g : attention_group) : Prop := LookupLaws {
  ll_block : 0 < ag_block_size g ≤ eff g;
  ll_aligned : ag_kind g = FullAttentionSpec → (eff g | lcm_block_size);
  ll_prefix : ∀ i bl k, ag_kind g = FullAttentionSpec → served g i bl → served g i (take k bl);
  ll_lookup : ∀ m e, 0 ≤ m → ∃ n : nat, Forall2 (λ i bl, served g i bl ∧ length bl = n) (ag_group_ids g) (ag_find_longest_cache_hit g m e) ∧
    (lcm_block_size | Z.of_nat n * eff g) ∧ Z.of_nat n * eff g ≤ (if e : bool then Z.max 0 (m - ag_block_size g) else m);
}.

  Hypothesis max_nonneg : 0 ≤ max_cache_hit_length.
  Hypothesis laws : ∀ g, g ∈ groups → lookup_laws g.

Definition ids_of (gs : list attention_group) : list nat := concat (ag_group_ids <$> gs).

Definition active (g : attention_group) : Prop := skip_mamba && bool_decide (ag_kind g = MambaSpec) = false.

(** The hit of a group has [n] blocks. *)
Definition stored (g : attention_group) (n : nat) (by_group : list (option (list Z))) : Prop :=
  ∀ i, i ∈ ag_group_ids g → ∃ bl, by_group !! i = Some (Some bl) ∧ served g i bl ∧ length bl = n.

Definition unseen (g : attention_group) (by_group : list (option (list Z))) : Prop := ∀ i, i ∈ ag_group_ids g → by_group !! i = Some None.

Lemma store_hits_spec (l : list (nat * list Z)) : ∀ b, NoDup l.*1 → (∀ i, i ∈ l.*1 → (i < length b)%nat) →
  length (store_hits b l) = length b ∧ (∀ i, i ∉ l.*1 → store_hits b l !! i = b !! i) ∧ (∀ i bl, (i, bl) ∈ l → store_hits b l !! i = Some (Some bl)).
Proof.
  unfold store_hits. induction l as [|[i bl] l IH]; intros b Hnd Hlt; cbn.
  { split_and!; [done|done|]. by intros i bl ?%not_elem_of_nil. }
  csimpl in Hnd. csimpl in Hlt. apply NoDup_cons in Hnd as [Hi Hnd]. destruct (IH (<[i := Some bl]> b) Hnd) as (Hlen & Hother & Hin).
  { intros j Hj. rewrite -> length_insert. apply Hlt. by right. }
  split; [by rewrite -> Hlen, length_insert|]. split.
  - intros j. rewrite -> not_elem_of_cons. intros [Hne Hj]. rewrite -> Hother by done. by rewrite -> list_lookup_insert_ne.
  - intros j bl' [ [= -> ->]|Hj]%elem_of_cons; [|by apply Hin]. rewrite -> Hother by done. rewrite -> list_lookup_insert_eq; [done|]. apply Hlt. left.
Qed.

Lemma stored_after g n b l : NoDup (ag_group_ids g) → (∀ i, i ∈ ag_group_ids g → (i < length b)%nat) →
  Forall2 (λ i bl, served g i bl ∧ length bl = n) (ag_group_ids g) l → stored g n (store_hits b (zip (ag_group_ids g) l)).
Proof.
  intros Hnd Hlt Hl. pose proof (Forall2_length _ _ _ Hl) as Hlen.
  destruct (store_hits_spec (zip (ag_group_ids g) l) b) as (_ & _ & Hin); rewrite -> ?fst_zip by lia; [done|done|].
  intros i [k Hk]%list_elem_of_lookup. destruct (Forall2_lookup_l _ _ _ _ _ Hl Hk) as (bl & Hbl & Hs & Hn). exists bl. split; [|done].
  apply Hin. apply list_elem_of_lookup. exists k. by apply lookup_zip_Some.
Qed.

(** A group that may be asked: not yet, or full attention with a hit as long as needed. *)
Definition ready (g : attention_group) (curr : Z) (by_group : list (option (list Z))) : Prop :=
  ag_kind g = FullAttentionSpec → unseen g by_group ∨ ∃ n, stored g n by_group ∧ curr ≤ Z.of_nat n * eff g.

(** What a step gives its group. *)
Record step_done (g : attention_group) (s s' : hit_state) : Prop := StepDone {
  st_length : length (hs_blocks s') = length (hs_blocks s);
  st_curr : 0 ≤ hs_curr s' ≤ hs_curr s;
  st_frame : ∀ i, i ∉ ag_group_ids g → hs_blocks s' !! i = hs_blocks s !! i;
  st_stored : active g → ∃ n, stored g n (hs_blocks s') ∧ (eff g | hs_curr s') ∧ hs_curr s' ≤ Z.of_nat n * eff g ∧
    (ag_kind g ≠ FullAttentionSpec → hs_curr s' = Z.of_nat n * eff g);
  st_first : unseen g (hs_blocks s) → active g → (lcm_block_size | hs_curr s');
  st_skip : ¬ active g → hs_curr s' = hs_curr s;
}.

Lemma fst_const {B} (x : B) (l : list nat) : ((λ i, (i, x)) <$> l).*1 = l.
Proof. induction l as [|i l IH]; [done|]. csimpl. by rewrite -> IH. Qed.

Lemma first_hit_unseen g b : ag_group_ids g ≠ [] → unseen g b → first_hit g b = None.
Proof. unfold first_hit, unseen. destruct (ag_group_ids g) as [|i l]; [done|]. intros _ Hu. by rewrite -> (Hu i) by left. Qed.

Lemma first_hit_stored g n b : ag_group_ids g ≠ [] → stored g n b → is_Some (first_hit g b).
Proof. unfold first_hit, stored. destruct (ag_group_ids g) as [|i l]; [done|]. intros _ Hs. destruct (Hs i ltac:(left)) as (bl & -> & _). by exists bl. Qed.

Lemma group_step_spec idx g (s : hit_state) : g ∈ groups → NoDup (ag_group_ids g) → ag_group_ids g ≠ [] →
  (∀ i, i ∈ ag_group_ids g → (i < length (hs_blocks s))%nat) → 0 ≤ hs_curr s → ready g (hs_curr s) (hs_blocks s) →
  step_done g s (group_step eff eagle max_cache_hit_length skip_mamba s (idx, g)).
Proof.
  intros Hg Hnd Hne Hlt Hcurr Hready. pose proof (laws g Hg) as [Hb Hal Hpre Hlook]. unfold group_step.
  destruct (skip_mamba && bool_decide (ag_kind g = MambaSpec)) eqn:Eskip.
  { assert (Hna : ¬ active g) by (unfold active; congruence). destruct (first_hit g (hs_blocks s)); [by split; cbn|].
    destruct (store_hits_spec ((λ i, (i, [])) <$> ag_group_ids g) (hs_blocks s)) as (Hl & Ho & _); [by rewrite -> fst_const..|].
    rewrite -> fst_const in Ho. by split; cbn. }
  assert (Hact : active g) by done.
  destruct (bool_decide (ag_kind g = FullAttentionSpec) && bool_decide (is_Some (first_hit g (hs_blocks s)))) eqn:Ec.
  { apply andb_true_iff in Ec as [Ek%bool_decide_eq_true Eh%bool_decide_eq_true]. destruct (Hready Ek) as [Hu|(n & Hn & Hle)].
    { rewrite -> (first_hit_unseen g _ Hne Hu) in Eh. by destruct Eh. }
    pose proof (Z.mul_div_le (hs_curr s) (eff g) ltac:(lia)) as Hfl. pose proof (Z.div_pos (hs_curr s) (eff g) Hcurr ltac:(lia)).
    split; cbn; try done.
    - nia.
    - intros _. exists n. split; [done|]. split; [apply Z.divide_factor_r|]. split; [lia|done].
    - intros Hu. rewrite -> (first_hit_unseen g _ Hne Hu) in Eh. by destruct Eh. }
  set (use := bool_decide (idx ∈ eagle) && bool_decide (idx ∉ hs_verified s)). set (m := if use then _ else _).
  assert (Hm : 0 ≤ m) by (unfold m; destruct use; lia).
  destruct (Hlook m use Hm) as (n & Hf & Hdiv & Hle). pose proof (Forall2_length _ _ _ Hf) as Hlen.
  assert (Hhead : zlen (default [] (head (ag_find_longest_cache_hit g m use))) = Z.of_nat n).
  { destruct (ag_group_ids g); [done|]. inversion Hf as [|? bl ? ? [_ Hbl] _ Heq1 Heq2]. cbn. unfold zlen. by rewrite -> Hbl. }
  destruct (store_hits_spec (zip (ag_group_ids g) (ag_find_longest_cache_hit g m use)) (hs_blocks s)) as (Hl & Ho & _);
    [rewrite -> fst_zip by lia; done..|]. rewrite -> fst_zip in Ho by lia. cbv zeta. rewrite -> Hhead.
  assert (Hcurr' : 0 ≤ Z.of_nat n * eff g ≤ hs_curr s).
  { split; [nia|]. unfold m in Hle. destruct use; lia. }
  split; cbn; try done.
  intros _. exists n. split; [by apply stored_after|]. split; [apply Z.divide_factor_r|]. split; [done|done].
Qed.

(** The groups that may follow one another: distinct ids, all in range. *)
Record groups_ok (gs : list attention_group) (n : nat) : Prop := GroupsOk {
  go_groups : ∀ g, g ∈ gs → g ∈ groups;
  go_NoDup : NoDup (ids_of gs);
  go_ids : ∀ g, g ∈ gs → ag_group_ids g ≠ [];
  go_range : ∀ i, i ∈ ids_of gs → (i < n)%nat;
}.

Lemma ids_elem g gs i : g ∈ gs → i ∈ ag_group_ids g → i ∈ ids_of gs.
Proof. intros Hg Hi. unfold ids_of. induction Hg as [|? ? ? Hg IH]; csimpl; apply elem_of_app; [by left|right; by apply IH]. Qed.

Lemma groups_ok_cons g gs n : groups_ok (g :: gs) n → groups_ok gs n ∧ g ∈ groups ∧ NoDup (ag_group_ids g) ∧ ag_group_ids g ≠ [] ∧
  (∀ i, i ∈ ag_group_ids g → (i < n)%nat) ∧ ∀ i, i ∈ ag_group_ids g → i ∉ ids_of gs.
Proof.
  intros [Hg Hnd Hne Hlt]. unfold ids_of in *. csimpl in *. apply NoDup_app in Hnd as (Hnd1 & Hd & Hnd2).
  split; [split; [intros g' Hg'; apply Hg; by right|done|intros g' Hg'; apply Hne; by right|intros i Hi; apply Hlt, elem_of_app; by right] |].
  split_and!; [apply Hg; left|done|apply Hne; left|intros i Hi; apply Hlt, elem_of_app; by left|done].
Qed.

Lemma stored_frame g n b b' : (∀ i, i ∈ ag_group_ids g → b' !! i = b !! i) → stored g n b → stored g n b'.
Proof. intros Hf Hs i Hi. rewrite -> Hf by done. by apply Hs. Qed.

Lemma ready_frame g c c' b b' : c' ≤ c → (∀ i, i ∈ ag_group_ids g → b' !! i = b !! i) → ready g c b → ready g c' b'.
Proof.
  intros Hc Hf Hr Hk. destruct (Hr Hk) as [Hu|(n & Hn & Hle)]; [left|right].
  - intros i Hi. rewrite -> Hf by done. by apply Hu.
  - exists n. split; [by eapply stored_frame|lia].
Qed.

(** What a round leaves of an active group, for the length [c] it agreed to. *)
Definition agreed (g : attention_group) (c : Z) (by_group : list (option (list Z))) : Prop :=
  ∃ n, stored g n by_group ∧ (eff g | c) ∧ c ≤ Z.of_nat n * eff g ∧ (ag_kind g ≠ FullAttentionSpec → c = Z.of_nat n * eff g).

Lemma round_spec gs : ∀ idx (s : hit_state), groups_ok gs (length (hs_blocks s)) → 0 ≤ hs_curr s → (∀ g, g ∈ gs → ready g (hs_curr s) (hs_blocks s)) →
  let s' := foldl (group_step eff eagle max_cache_hit_length skip_mamba) s (zip (seq idx (length gs)) gs) in
  length (hs_blocks s') = length (hs_blocks s) ∧ 0 ≤ hs_curr s' ≤ hs_curr s ∧ (∀ i, i ∉ ids_of gs → hs_blocks s' !! i = hs_blocks s !! i) ∧
  ∀ g, g ∈ gs → active g → ∃ c, hs_curr s' ≤ c ≤ hs_curr s ∧ agreed g c (hs_blocks s').
Proof.
  induction gs as [|g gs IH]; intros idx s Hok Hcurr Hready; cbn [length seq zip zip_with foldl].
  { cbv zeta. split_and!; [done|lia|lia|done|]. by intros g ?%not_elem_of_nil. }
  destruct (groups_ok_cons _ _ _ Hok) as (Hok' & Hg & Hnd & Hne & Hlt & Hapart).
  pose proof (group_step_spec idx g s Hg Hnd Hne Hlt Hcurr (Hready g ltac:(left))) as [Hl1 Hc1 Hf1 Hst _ _].
  set (s1 := group_step _ _ _ _ s (idx, g)) in *.
  assert (Hother : ∀ g', g' ∈ gs → ∀ i, i ∈ ag_group_ids g' → hs_blocks s1 !! i = hs_blocks s !! i).
  { intros g' Hg' i Hi. apply Hf1. intros Hx. apply (Hapart i Hx). by eapply ids_elem. }
  destruct (IH (S idx) s1) as (Hl & Hc & Hf & Hall); [by rewrite -> Hl1|lia| |].
  { intros g' Hg'. eapply ready_frame; [|by apply Hother|apply Hready; by right]. lia. }
  cbv zeta. split; [by rewrite -> Hl|]. split; [lia|]. split.
  - intros i Hi. unfold ids_of in Hi. csimpl in Hi. apply not_elem_of_app in Hi as [Hi1 Hi2]. rewrite -> Hf by done. by apply Hf1.
  - intros g' [->|Hg']%elem_of_cons Hact.
    + destruct (Hst Hact) as (n & Hn & Hdiv & Hle & Hk). exists (hs_curr s1). split; [lia|]. exists n. split; [|done].
      eapply stored_frame; [|exact Hn]. intros i Hi. apply Hf. by apply Hapart.
    + destruct (Hall g' Hg' Hact) as (c & Hcc & Ha). exists c. split; [lia|done].
Qed.

(** A hit of [h] tokens for every active group. *)
Definition shared (h : Z) (by_group : list (option (list Z))) : Prop := ∀ g, g ∈ groups → active g → agreed g h by_group.

Lemma full_active g : ag_kind g = FullAttentionSpec → active g.
Proof. unfold active. intros ->. by destruct skip_mamba. Qed.

Lemma simple_two gs : is_simple_hybrid gs = true → ∃ g1 g2, gs = [g1; g2] ∧ ag_kind g1 = FullAttentionSpec.
Proof.
  unfold is_simple_hybrid. destruct gs as [|g1 [|g2 [|] ] ]; try done. intros ?%bool_decide_eq_true. by exists g1, g2.
Qed.

(** With one full-attention group and another one, the first round is enough. *)
Lemma simple_round hit b v : is_simple_hybrid groups = true → groups_ok groups (length b) → 0 ≤ hit → (∀ g, g ∈ groups → unseen g b) →
  let s' := search_round groups eff eagle max_cache_hit_length skip_mamba hit b v in shared (hs_curr s') (hs_blocks s').
Proof.
  intros (g1 & g2 & Egs & Hsimple)%simple_two Hok Hhit Hunseen. unfold shared, search_round.
  rewrite -> Egs in Hok. destruct (groups_ok_cons g1 [g2] (length b)) as (Hok2 & Hg1 & Hnd1 & Hne1 & Hlt1 & Hapart); [done|].
  destruct (groups_ok_cons g2 [] (length b) Hok2) as (_ & Hg2 & Hnd2 & Hne2 & Hlt2 & _).
  assert (Hr : ∀ g c, g ∈ groups → ready g c b) by (intros g c Hg _; left; by apply Hunseen).
  replace (foldl _ _ _) with (foldl (group_step eff eagle max_cache_hit_length skip_mamba) (HitState hit b v) (zip (seq 0 (length [g1; g2])) [g1; g2])) by (by rewrite -> Egs).
  cbn [length seq zip zip_with foldl]. set (s0 := HitState hit b v).
  pose proof (group_step_spec 0 g1 s0 Hg1 Hnd1 Hne1 Hlt1 Hhit (Hr g1 hit Hg1)) as [Hl1 Hc1 Hf1 Hst1 _ _].
  set (s1 := group_step _ _ _ _ s0 (0%nat, g1)) in *.
  assert (Hframe : ∀ i, i ∈ ag_group_ids g2 → hs_blocks s1 !! i = b !! i).
  { intros i Hi. apply Hf1. intros Hx. apply (Hapart i Hx). eapply ids_elem; [left|done]. }
  assert (Hu2 : unseen g2 (hs_blocks s1)) by (intros i Hi; rewrite -> Hframe by done; by apply (Hunseen g2)).
  destruct (group_step_spec 1 g2 s1 Hg2 Hnd2 Hne2) as [Hl2 Hc2 Hf2 Hst2 Hfirst Hskip].
  { intros i Hi. rewrite -> Hl1. by apply Hlt2. }
  { lia. }
  { intros _. by left. }
  set (s2 := group_step _ _ _ _ s1 (1%nat, g2)) in *. intros g Hg Hact.
  assert (Hg' : g ∈ [g1; g2]) by (by rewrite <- Egs). clear Hg. rename Hg' into Hg.
  apply elem_of_cons in Hg as [->|Hg%list_elem_of_singleton]; [|subst g; exact (Hst2 Hact)].
  destruct (Hst1 Hact) as (n & Hn & Hdiv & Hle & _). exists n. split_and!; [|  |lia|done].
  - eapply stored_frame; [|exact Hn]. intros i Hi. apply Hf2. intros Hx. apply (Hapart i Hi). eapply ids_elem; [left|done].
  - destruct (decide (active g2)) as [Ha2|Hi2]; [|by rewrite -> (Hskip Hi2)].
    etrans; [by apply (ll_aligned _ (laws g1 Hg1))|by apply Hfirst].
Qed.

(** The rounds end, and the length they give is shared. *)
Lemma rounds_shared fuel : ∀ hit b v, groups_ok groups (length b) → 0 ≤ hit → (Z.to_nat hit < fuel)%nat →
  (∀ g, g ∈ groups → ready g hit b) → (is_simple_hybrid groups = true → ∀ g, g ∈ groups → unseen g b) →
  ∃ h b', search_rounds groups eff eagle max_cache_hit_length skip_mamba fuel hit b v = Some (h, b') ∧ 0 ≤ h ≤ hit ∧ length b' = length b ∧ shared h b'.
Proof.
  induction fuel as [|fuel IH]; intros hit b v Hok Hhit Hfuel Hready Hsimple; [lia|]. cbn.
  pose proof (round_spec groups 0 (HitState hit b v) Hok Hhit Hready) as (Hl & Hc & _ & Hall).
  pose proof (λ Hs, simple_round hit b v Hs Hok Hhit (Hsimple Hs)) as Hone.
  change (foldl _ (HitState hit b v) _) with (search_round groups eff eagle max_cache_hit_length skip_mamba hit b v) in Hl, Hc, Hall.
  set (s := search_round _ _ _ _ _ hit b v) in *. clearbody s. cbn in Hl, Hc, Hall.
  destruct (hit <=? hs_curr s) eqn:Ele.
  { exists hit, (hs_blocks s). split_and!; [done|lia|lia|done|]. intros g Hg Hact.
    destruct (Hall g Hg Hact) as (c & Hcc & Ha). by replace hit with c by lia. }
  destruct (is_simple_hybrid groups) eqn:Es.
  { exists (hs_curr s), (hs_blocks s). split_and!; [done|lia|lia|done|]. by apply Hone. }
  destruct (IH (hs_curr s) (hs_blocks s) (hs_verified s)) as (h & b' & Hrun & Hh & Hlen & Hsh); [by rewrite -> Hl|lia|lia| |done|].
  - intros g Hg Hk. right. destruct (Hall g Hg (full_active g Hk)) as (c & Hcc & n & Hn & _ & Hle & _). exists n. split; [done|lia].
  - exists h, b'. split_and!; [done|lia|lia|congruence|done].
Qed.

(** The cut of the full-attention groups. *)
Lemma alter_ids (f : option (list Z) → option (list Z)) (l : list nat) : ∀ b : list (option (list Z)), NoDup l →
  (∀ i, i ∉ l → foldl (λ b i, alter f i b) b l !! i = b !! i) ∧ (∀ i, i ∈ l → foldl (λ b i, alter f i b) b l !! i = f <$> b !! i).
Proof.
  induction l as [|j l IH]; intros b Hnd; cbn; [split; [done|by intros i ?%not_elem_of_nil]|].
  apply NoDup_cons in Hnd as [Hj Hnd]. destruct (IH (alter f j b) Hnd) as [Ho Hi]. split.
  - intros i. rewrite -> not_elem_of_cons. intros [Hne Hni]. rewrite -> Ho by done. by apply list_lookup_alter_ne.
  - intros i [->|Hil]%elem_of_cons; [rewrite -> Ho by done; apply list_lookup_alter_eq|].
    rewrite -> Hi by done. rewrite -> list_lookup_alter_ne; [done|]. by intros ->.
Qed.

Definition cut (h : Z) (g : attention_group) (o : option (list Z)) : option (list Z) :=
  if bool_decide (ag_kind g = FullAttentionSpec) then (λ blocks, py_upto blocks (h / eff g)) <$> o else o.

Lemma truncate_spec h gs n : ∀ b, groups_ok gs n → (∀ i, i ∉ ids_of gs → foldl (truncate eff h) b gs !! i = b !! i) ∧
  (∀ g i, g ∈ gs → i ∈ ag_group_ids g → foldl (truncate eff h) b gs !! i = cut h g <$> b !! i).
Proof.
  induction gs as [|g gs IH]; intros b Hok; cbn; [split; [done|by intros g i ?%not_elem_of_nil]|].
  destruct (groups_ok_cons _ _ _ Hok) as (Hok' & _ & Hnd & _ & _ & Hapart). destruct (IH (truncate eff h b g) Hok') as [Ho Hi].
  assert (Hg : (∀ i, i ∉ ag_group_ids g → truncate eff h b g !! i = b !! i) ∧ ∀ i, i ∈ ag_group_ids g → truncate eff h b g !! i = cut h g <$> b !! i).
  { unfold truncate, cut. case_bool_decide; [by apply alter_ids|]. split; [done|]. intros i _. by destruct (b !! i). }
  destruct Hg as [Hgo Hgi]. split.
  - intros i Hn. unfold ids_of in Hn. csimpl in Hn. apply not_elem_of_app in Hn as [Hn1 Hn2]. rewrite -> Ho by done. by apply Hgo.
  - intros g' i [->|Hg']%elem_of_cons Hin; [rewrite -> Ho by (by apply Hapart); by apply Hgi|].
    rewrite -> (Hi g') by done. rewrite -> Hgo; [done|]. intros Hx. apply (Hapart i Hx). by eapply ids_elem.
Qed.

Lemma cut_shared h g b i : g ∈ groups → 0 ≤ h → agreed g h b → i ∈ ag_group_ids g →
  ∃ bl, cut h g <$> b !! i = Some (Some bl) ∧ served g i bl ∧ zlen bl * eff g = h.
Proof.
  intros Hg Hh (n & Hn & [k ->] & Hle & Hk) Hi. pose proof (laws g Hg) as [Hb _ Hpre _].
  destruct (Hn i Hi) as (bl & -> & Hs & Hlen). unfold cut. cbn. case_bool_decide as Ek; cbn.
  - rewrite -> Z.div_mul by lia. assert (0 ≤ k ≤ Z.of_nat n) by nia. exists (py_upto bl k). split; [done|].
    rewrite -> py_upto_pos by lia. split; [by apply Hpre|]. unfold zlen. rewrite -> length_take, Hlen. f_equal. lia.
  - exists bl. unfold zlen. rewrite -> Hlen. split_and!; [done|done|]. symmetry. by apply Hk.
Qed.

(** C15: Looking up the prefix that all groups have in common ends, with fuel for one
    round per token, and gives a hit within the maximal length; every group that is asked
    is answered cached blocks for exactly the tokens of the hit, the compressed
    full-attention groups too, whatever blocks a lookup drops. *)
Theorem hybrid_hit_shared fuel : groups_ok groups num_groups → (Z.to_nat max_cache_hit_length < fuel)%nat →
  ∃ blocks h, _find_longest_cache_hit groups eff eagle max_cache_hit_length skip_mamba num_groups fuel = Some (blocks, h) ∧ 0 ≤ h ≤ max_cache_hit_length ∧
    ∀ g i, g ∈ groups → active g → i ∈ ag_group_ids g → ∃ bl, blocks !! i = Some bl ∧ served g i bl ∧ zlen bl * eff g = h.
Proof.
  intros Hok Hfuel. unfold _find_longest_cache_hit.
  assert (Hun : ∀ g, g ∈ groups → unseen g (replicate num_groups None)).
  { intros g Hg i Hi. apply lookup_replicate_2, (go_range _ _ Hok). by eapply ids_elem. }
  destruct (rounds_shared fuel max_cache_hit_length (replicate num_groups None) ∅) as (h & b & -> & Hh & _ & Hsh);
    [by rewrite -> length_replicate|done|done|intros g Hg _; left; by apply Hun|done|].
  eexists _, h. split; [done|]. split; [done|]. intros g i Hg Hact Hi. destruct (truncate_spec h groups num_groups b Hok) as [_ Ht].
  destruct (cut_shared h g b i Hg ltac:(lia) (Hsh g Hg Hact) Hi) as (bl & Hbl & Hs & Hlen). exists bl. split; [|done].
  rewrite -> list_lookup_fmap, (Ht g i Hg Hi), Hbl. done.
Qed.

End hybrid.

(** Three groups over a lookup that aligns to eight tokens. *)
Definition demo_blocks (i n : nat) : list Z := (λ j, Z.of_nat (100 * i + j)) <$> seq 0 n.

Definition demo_group (kind : spec_kind) (block : Z) (ratio : option Z) (k : nat) (ids : list nat) (cached : Z) : attention_group :=
  AttentionGroup kind block ratio ids (λ m drop,
    let tokens := Z.max 0 (m - if drop : bool then block else 0) in let n := (Z.to_nat (Z.min cached (tokens / 8)) * k)%nat in (λ i, demo_blocks i n) <$> ids).

Definition demo_served (g : attention_group) (i : nat) (bl : list Z) : Prop := bl = demo_blocks i (length bl).

Definition demo_groups : list attention_group :=
  [demo_group FullAttentionSpec 4 None 2 [0%nat; 3%nat] 3; demo_group FullAttentionSpec 4 (Some 2) 1 [1%nat] 3; demo_group OtherSpec 8 None 1 [2%nat] 3].

Lemma demo_take i n k : take k (demo_blocks i n) = demo_blocks i (length (take k (demo_blocks i n))).
Proof.
  unfold demo_blocks at 1 3. rewrite -> length_take. unfold demo_blocks. rewrite -> length_fmap, length_seq.
  rewrite <- fmap_take, take_seq. done.
Qed.

Lemma demo_laws kind block ratio k ids cached : let g := demo_group kind block ratio k ids cached in
  0 < block ≤ _effective_block_size g → _effective_block_size g * Z.of_nat k = 8 → 0 ≤ cached → lookup_laws _effective_block_size 8 demo_served g.
Proof.
  intros g Hb Hk Hc. split; [done|intros _; exists (Z.of_nat k); lia| |].
  - unfold demo_served. intros i bl n _ ->. apply demo_take.
  - intros m e Hm. set (x := Z.max 0 (m - if e then block else 0)). exists (Z.to_nat (Z.min cached (x / 8)) * k)%nat.
    pose proof (Z.div_pos x 8 ltac:(lia) ltac:(lia)). pose proof (Z.mul_div_le x 8 ltac:(lia)).
    assert (Hn : Z.of_nat (Z.to_nat (Z.min cached (x / 8)) * k) * _effective_block_size g = Z.min cached (x / 8) * 8) by nia.
    split; [|rewrite -> Hn; split; [apply Z.divide_factor_r|unfold x in *; destruct e; cbn; lia] ].
    cbn. apply Forall2_fmap_r, Forall_Forall2_diag, Forall_forall. intros i _. cbn.
    assert (Hlen : ∀ n, length (demo_blocks i n) = n) by (intros n; unfold demo_blocks; by rewrite -> length_fmap, length_seq).
    rewrite -> Hlen. unfold demo_served. by rewrite -> Hlen.
Qed.

Lemma demo_groups_laws g : g ∈ demo_groups → lookup_laws _effective_block_size 8 demo_served g.
Proof. intros [->|[->|[->|[]%not_elem_of_nil]%elem_of_cons]%elem_of_cons]%elem_of_cons; apply demo_laws; vm_compute; done. Qed.

Lemma demo_groups_ok : groups_ok demo_groups demo_groups 4.
Proof.
  split; [done|apply (bool_decide_unpack _); by vm_compute| |].
  - by intros g [->|[->|[->|[]%not_elem_of_nil]%elem_of_cons]%elem_of_cons]%elem_of_cons.
  - apply Forall_forall, (bool_decide_unpack _). by vm_compute.
Qed.

Lemma hybrid_hit_shared_witness : find_longest_cache_hit demo_groups {[2%nat]} 4 30 =
    Some ([demo_blocks 0 4; demo_blocks 1 2; demo_blocks 2 2; demo_blocks 3 4], 16) ∧
  ∃ blocks h, find_longest_cache_hit demo_groups {[2%nat]} 4 30 = Some (blocks, h) ∧ 0 ≤ h ≤ 30 ∧
    ∀ g i, g ∈ demo_groups → active false g → i ∈ ag_group_ids g → ∃ bl, blocks !! i = Some bl ∧ demo_served g i bl ∧ zlen bl * _effective_block_size g = h.
Proof.
  split; [by vm_compute|]. unfold find_longest_cache_hit.
  apply (hybrid_hit_shared demo_groups _effective_block_size {[2%nat]} 30 false 4 8 demo_served); [lia|exact demo_groups_laws|exact demo_groups_ok|lia].
Defined.
