(* ===== verification/VllmConcrete.v ===== *)
(** * Concrete partners of the patched scheduler

    Instances of the classes of [VllmSched.v] and [VllmRecovery.v] on which the theorems
    are tried: a queue in order of arrival, a cache manager that counts free blocks, a
    connector and an encoder that do nothing. *)
From S2P Require Import Prelude Runtime EsaBatch VllmSched VllmSchedule VllmRecovery.
Open Scope Z_scope.

#[export] Instance fcfs_queue : RequestQueue (list string) := {
  rq_empty := [];
  rq_list q := q;
  rq_add i q := q ++ [i];
  rq_peek q := head q;
  rq_pop q := match q with [] => None | i :: l => Some (i, l) end;
  rq_prepend i q := i :: q;
  rq_prepend_requests q q' := q ++ q';
  rq_remove_requests l q := filter (λ i, i ∉ l) q;
}.

(** The state is the number of free slots. *)
#[export] Instance slot_counter : KvCacheManager Z := {
  km_get_block_ids i := mret [if decide (i = "a"%string) then [10; 11; 12] else [10; 21]];
  km_get_blocks _ := mret [[]];
  km_allocate_slots _ _ a := λ w, if aa_num_new_tokens a <=? w then (Ok (Some [[w]]), w - aa_num_new_tokens a) else (Ok None, w);
  km_get_computed_blocks _ _ := mret ([], 0);
  km_empty_block_list := [];
  km_add_blocks a b := a ++ b;
  km_block_ids b := Some b;
  km_free _ := λ w, (Ok tt, w + 4);
  km_cache_blocks _ _ := mret tt;
  km_num_common_prefix_blocks _ _ := mret [];
  km_take_events := mret None;
}.

#[export] Instance no_connector : SchedConnector Z := {
  sn_get_num_new_matched_tokens _ _ _ := mret (Some 0, false);
  sn_update_state_after_alloc _ _ _ _ := mret tt;
  sn_build_connector_meta _ := mret tt;
  sn_take_events := mret [];
  sn_pop_requests_meta _ := mret tt;
}.

#[export] Instance no_sparse : SchedSparse Z := {
  ss_estimate_num_slots_sparsed _ _ := mret INVALID_SLOT;
  ss_request_begin _ _ := mret tt;
  ss_request_finished_in_scheduler _ := mret tt;
}.

#[export] Instance no_encoder : SchedEnv Z := {
  se_try_schedule_encoder_inputs _ _ _ n b := mret ([], n, b);
  se_encoder_free _ := mret tt;
  se_encoder_allocate _ _ := mret tt;
  se_get_freed_mm_hashes := mret [];
  se_get_grammar_bitmask _ _ := mret [];
  se_publish _ := mret tt;
}.

(** A configuration of at most [n] tokens a step. *)
Definition demo_conf (n : Z) (priority : bool) : vsched_conf :=
  VschedConf 4 n 1000 0 true priority 4 1 false 0 None 0 false 1 true false false.

(** A request of [n] prompt tokens. *)
Definition demo_request (status : request_status) (computed cached n priority : Z) : vrequest :=
  Vrequest status computed cached n 0 0 [] (replicate (Z.to_nat n) 7) (replicate (Z.to_nat n) 7) [] false None false false (priority, 0) 0 0.

(** Two requests, and the queues. *)
Definition demo_sched (a b : vrequest) (waiting running : list string) : vsched (list string) :=
  Vsched [("a"%string, a); ("b"%string, b)] {["a"%string; "b"%string]} waiting running ∅ None {["a"%string]} (Some ∅).

#[export] Instance plain_outputs : SchedOutputOps (list string) Z := {
  su_update_request_with_output _ l := mret (l, false);
  su_check_stop _ _ := mret false;
  su_free_request _ := mret None;
  su_accept_tokens _ _ := mret tt;
  su_update_from_kv_xfer_finished _ := mret tt;
  su_make_spec_decoding_stats s _ _ := mret s;
  su_make_stats _ _ := mret None;
}.

(** The plan and the results of a step of both requests. *)
Definition demo_output : vsched_output :=
  VschedOutput [] (CachedRequestData ["a"%string; "b"%string] [false; false] [] [] [] []) [("a"%string, 1); ("b"%string, 1)] 2 [] [] [] [] [] ∅ [] [].

Definition demo_results (invalid : gset Z) : runner_output :=
  RunnerOutput [ [5]; [6] ] [("a"%string, 0); ("b"%string, 1)] false [] [] None (Some (KvConnectorOutput invalid ∅ None)).
