(* ===== verification/VllmProps.v ===== *)
(** * Properties of the patched scheduler of vLLM

    What becomes of requests whose loads failed, at once and over several reports, and
    the invariants of a scheduling step ([VllmSched.v], [VllmSchedule.v],
    [VllmRecovery.v]). *)
From S2P Require Import Prelude Runtime EsaBatch VllmSched VllmSchedule VllmRecovery VllmConcrete.
Open Scope Z_scope.

(** ** The blocks of a request *)

Lemma exists_cons {B} (P : B → Prop) a l : (∃ x, x ∈ a :: l ∧ P x) ↔ P a ∨ ∃ x, x ∈ l ∧ P x.
Proof. setoid_rewrite elem_of_cons. naive_solver. Qed.

Lemma exists_nil {B} (P : B → Prop) : (∃ x, x ∈ @nil B ∧ P x) ↔ False.
Proof. split; [|done]. by intros (x & ?%not_elem_of_nil & _). Qed.

Lemma forall_cons {B} (P : B → Prop) a l : (∀ x, x ∈ a :: l → P x) ↔ P a ∧ ∀ x, x ∈ l → P x.
Proof. setoid_rewrite elem_of_cons. naive_solver. Qed.

Lemma forall_nil {B} (P : B → Prop) : (∀ x, x ∈ @nil B → P x) ↔ True.
Proof. split; [done|]. by intros _ x ?%not_elem_of_nil. Qed.

Section scan.
  Variables bs req_computed : Z.
  Variable invalid : gset Z.
  Hypothesis bs_pos : 0 < bs.

(** What the scan of a list of numbered blocks finds. *)
Record scanned (l : list (Z * Z)) (s s' : scan) : Prop := Scanned {
  sd_affected : sn_affected s' = true ↔ sn_affected s = true ∨ ∃ x, x ∈ l ∧ x.2 ∈ invalid;
  sd_marked_ids : ∀ b, b ∈ sn_marked_ids s' ↔ b ∈ sn_marked_ids s ∨ b ∈ invalid ∧ ∃ x, x ∈ l ∧ x.2 = b;
  sd_kept : sn_marked s = true → sn_marked s' = true ∧ sn_computed s' = sn_computed s ∧ sn_total s' = sn_total s;
  sd_first : sn_marked s = false → sn_marked s' = true → ∃ l1 x l2, l = l1 ++ x :: l2 ∧ x.2 ∈ invalid ∧ x.2 ∉ sn_marked_ids s ∧
    (∀ y, y ∈ l1 → y.2 ∈ invalid → y.2 ∈ sn_marked_ids s) ∧
    sn_computed s' = x.1 * bs ∧ sn_total s' = sn_total s + (req_computed - x.1 * bs);
  sd_none : sn_marked s' = false → (∀ x, x ∈ l → x.2 ∈ invalid → x.2 ∈ sn_marked_ids s) ∧ sn_computed s' = sn_computed s ∧ sn_total s' = sn_total s;
}.

Ltac by_block := match goal with |- _ ↔ _ ∨ _ ∧ (?x = ?y ∨ _) => destruct (decide (x = y)) as [<-|]; [assert (x = x) by done|assert (y ≠ x) by done]; tauto end.

Lemma scan_blocks l : ∀ s, scanned l s (foldl (scan_block bs req_computed invalid) s l).
Proof.
  induction l as [|[i b] l IH]; intros s.
  { split; cbn; rewrite -> ?exists_nil, ?forall_nil; try tauto; try congruence. intros b. rewrite -> exists_nil. tauto. }
  cbn [foldl]. set (s1 := scan_block bs req_computed invalid s (i, b)). destruct (IH s1) as [Ha Hm Hk Hf Hn]. clear IH.
  assert (Hlist : ∀ P : Z * Z → Prop, (∃ x, x ∈ (i, b) :: l ∧ P x) ↔ P (i, b) ∨ ∃ x, x ∈ l ∧ P x) by (intros P; apply exists_cons).
  assert (Hs1 : s1 = scan_block bs req_computed invalid s (i, b)) by done. clearbody s1. unfold scan_block in Hs1. case_bool_decide as Hb; [|case_bool_decide as Hmark; [|destruct (sn_marked s) eqn:Hs] ];
    subst s1; split; cbn in *; rewrite -> ?Ha, ?(Hlist (λ x, x.2 ∈ invalid)), ?forall_cons.
  - tauto.
  - intros b'. rewrite -> Hm, (Hlist (λ x, x.2 = b')). cbn. by_block.
  - exact Hk.
  - intros H1 H2. destruct (Hf H1 H2) as (l1 & x & l2 & -> & ? & ? & Hl1 & ?). exists ((i, b) :: l1), x, l2. rewrite -> forall_cons. split_and!; try done; tauto.
  - naive_solver.
  - tauto.
  - intros b'. rewrite -> Hm, (Hlist (λ x, x.2 = b')). cbn. by_block.
  - exact Hk.
  - intros H1 H2. destruct (Hf H1 H2) as (l1 & x & l2 & -> & ? & ? & Hl1 & ?). exists ((i, b) :: l1), x, l2. rewrite -> forall_cons. split_and!; try done; tauto.
  - naive_solver.
  - tauto.
  - intros b'. rewrite -> Hm, (Hlist (λ x, x.2 = b')), elem_of_union, elem_of_singleton. cbn. by_block.
  - intros _. by apply Hk.
  - congruence.
  - intros H1. destruct (Hk eq_refl). congruence.
  - tauto.
  - intros b'. rewrite -> Hm, (Hlist (λ x, x.2 = b')), elem_of_union, elem_of_singleton. cbn. by_block.
  - congruence.
  - intros _ _. destruct (Hk eq_refl) as (_ & -> & ->). exists [], (i, b), l. rewrite -> forall_nil. split_and!; done.
  - intros H1. destruct (Hk eq_refl). congruence.
Qed.

End scan.

(** Block [b] is number [k] of a request, and may hold tokens computed outside. *)
Definition counted (bs n : Z) (ids : list Z) (k : nat) (b : Z) : Prop := ids !! k = Some b ∧ Z.of_nat k < (n + bs - 1) / bs.

Lemma numbered_elem n ids (x : Z * Z) : x ∈ zip (py_range 0 n) ids ↔ ∃ k : nat, x = (Z.of_nat k, x.2) ∧ ids !! k = Some x.2 ∧ Z.of_nat k < n.
Proof.
  unfold py_range. rewrite -> Z.sub_0_r, elem_of_lookup_zip_with. split.
  - intros (k & i & b & -> & Hi & Hb). apply lookup_seqZ in Hi as [-> Hk]. exists k. cbn. split_and!; [f_equal; lia|done|lia].
  - intros (k & Hx & Hb & Hk). exists k, (Z.of_nat k), x.2. split; [exact Hx|]. split; [|exact Hb]. apply lookup_seqZ. lia.
Qed.

Lemma numbered_split n ids l1 (x : Z * Z) l2 : zip (py_range 0 n) ids = l1 ++ x :: l2 →
  ∃ k : nat, x = (Z.of_nat k, x.2) ∧ ids !! k = Some x.2 ∧ Z.of_nat k < n ∧ ∀ j b, (j < k)%nat → ids !! j = Some b → (Z.of_nat j, b) ∈ l1.
Proof.
  intros Hz. exists (length l1). assert (Hx : zip (py_range 0 n) ids !! length l1 = Some x) by (rewrite -> Hz; by apply list_lookup_middle).
  apply lookup_zip_with_Some in Hx as (i & b & -> & Hi & Hb). unfold py_range in Hi. rewrite -> Z.sub_0_r in Hi. apply lookup_seqZ in Hi as [-> Hk].
  cbn. split_and!; [f_equal; lia|done|lia|]. intros j b' Hj Hb'. apply list_elem_of_lookup_2 with j.
  assert (Hj' : zip (py_range 0 n) ids !! j = Some (Z.of_nat j, b')).
  { apply lookup_zip_with_Some. exists (Z.of_nat j), b'. split_and!; [done| |done]. unfold py_range. rewrite -> Z.sub_0_r. apply lookup_seqZ. lia. }
  rewrite -> Hz, lookup_app_l in Hj' by done. exact Hj'.
Qed.

(** The outcome for one request. *)
Record request_scan (bs n cached : Z) (invalid : gset Z) (ids : list Z) (computed : Z) (marked : gset Z) (total : Z) (s : scan) : Prop := RequestScan {
  rs_affected : sn_affected s = true ↔ ∃ k b, counted bs n ids k b ∧ b ∈ invalid;
  rs_marked_ids : ∀ b, b ∈ sn_marked_ids s ↔ b ∈ marked ∨ b ∈ invalid ∧ ∃ k, counted bs n ids k b;
  rs_first : sn_marked s = true → ∃ k b, counted bs n ids k b ∧ b ∈ invalid ∧ b ∉ marked ∧
    (∀ j b', (j < k)%nat → ids !! j = Some b' → b' ∈ invalid → b' ∈ marked) ∧
    sn_computed s = Z.of_nat k * bs ∧ sn_total s = total + (n - Z.of_nat k * bs);
  rs_shared : sn_marked s = false → (∀ k b, counted bs n ids k b → b ∈ invalid → b ∈ marked) ∧
    (sn_affected s = true → sn_computed s = cached ∧ sn_total s = total + (computed - cached)) ∧
    (sn_affected s = false → sn_computed s = computed ∧ sn_total s = total);
}.

Lemma scan_request_spec bs n cached invalid ids computed marked total :
  request_scan bs n cached invalid ids computed marked total (scan_request bs n cached invalid ids computed marked total).
Proof.
  unfold scan_request. set (nb := (n + bs - 1) / bs). set (l := zip (py_range 0 nb) ids).
  destruct (scan_blocks bs n invalid l (Scan false false marked computed total)) as [Ha Hm _ Hf Hn].
  set (s := foldl _ _ l) in *. cbn [sn_affected sn_marked sn_marked_ids sn_computed sn_total] in *.
  assert (Hex : ∀ P : Z → Prop, (∃ x : Z * Z, x ∈ l ∧ P x.2) ↔ ∃ k b, counted bs n ids k b ∧ P b).
  { intros P. unfold l. setoid_rewrite numbered_elem. split.
    - intros (x & (k & Hx & Hb & Hk) & HP). by exists k, x.2.
    - intros (k & b & [Hb Hk] & HP). exists (Z.of_nat k, b). split; [by exists k|done]. }
  assert (Hids : ∀ b, b ∈ sn_marked_ids s ↔ b ∈ marked ∨ b ∈ invalid ∧ ∃ k, counted bs n ids k b).
  { intros b. rewrite -> Hm, (Hex (λ x, x = b)). split.
    - intros [?|(? & k & b' & ? & ->)]; [by left|right; split; [done|by exists k] ].
    - intros [?|(? & k & ?)]; [by left|right; split; [done|by exists k, b] ]. }
  assert (Haff : sn_affected s = true ↔ ∃ k b, counted bs n ids k b ∧ b ∈ invalid).
  { rewrite -> Ha, (Hex (λ b, b ∈ invalid)). split; [intros [?|?]; done|by right]. }
  assert (Hall : sn_marked s = false → ∀ k b, counted bs n ids k b → b ∈ invalid → b ∈ marked).
  { intros Hs k b [Hb Hk]. apply (proj1 (Hn Hs) (Z.of_nat k, b)). apply numbered_elem. by exists k. }
  destruct (sn_marked s) eqn:Hs; [rewrite -> andb_false_r|destruct (sn_affected s) eqn:Hs']; cbn [andb negb]; split; cbn; try done; rewrite -> ?Hs, ?Hs'; try done.
  - intros _. destruct (Hf eq_refl eq_refl) as (l1 & x & l2 & Hl & Hx & Hxm & Hl1 & Hc & Ht). apply numbered_split in Hl as (k & Hxk & Hb & Hk & Hj).
    exists k, x.2. split; [done|]. split; [done|]. split; [done|]. rewrite -> Hxk in Hc, Ht. split; [|done].
    intros j b' Hjk Hb'. apply (Hl1 (Z.of_nat j, b')). by apply Hj.
  - intros _. destruct (Hn eq_refl) as (_ & -> & ->). split; [by apply Hall|done].
  - intros _. destruct (Hn eq_refl) as (_ & -> & ->). split; [by apply Hall|]. done.
Qed.

(** A block newly marked is computed anew by the request that marks it. *)
Lemma marked_recomputed bs n cached invalid ids computed marked total s b : 0 < bs →
  request_scan bs n cached invalid ids computed marked total s → b ∈ sn_marked_ids s →
  b ∈ marked ∨ sn_affected s = true ∧ ∃ k, counted bs n ids k b ∧ sn_computed s ≤ Z.of_nat k * bs.
Proof.
  intros Hbs [Ha Hm Hf Hs] Hb. apply Hm in Hb as [?|(Hi & j & Hj)]; [by left|]. destruct (decide (b ∈ marked)) as [|Hfresh]; [by left|]. right.
  split; [apply Ha; by exists j, b|]. exists j. split; [done|]. destruct (sn_marked s) eqn:E.
  - destruct (Hf eq_refl) as (k & b' & _ & _ & _ & Hfirst & -> & _). apply Z.mul_le_mono_nonneg_r; [lia|]. destruct Hj as [Hj _].
    destruct (decide (j < k)%nat) as [Hjk|]; [|lia]. by destruct Hfresh; apply (Hfirst j).
  - destruct (Hs eq_refl) as [Hshared _]. by destruct Hfresh; apply (Hshared j).
Qed.

Section invalid.
  Context {Q W : Type} `{KvCacheManager W}.
  Variable c : vsched_conf.
  Variable tbl : string → list Z.
  Hypothesis get_ids : ∀ i w, km_get_block_ids i w = (Ok [tbl i], w).
  Variables (invalid : gset Z) (failed : gset string).
Let bs : Z := vc_scheduler_block_size c.

Definition scan_of (i : string) (r : vrequest) (marked : gset Z) (total : Z) : scan :=
  scan_request bs (external_computed c i r failed (tbl i)) (vr_num_cached_tokens r) invalid (tbl i) (vr_num_computed_tokens r) marked total.

Fixpoint scans (objects : dict string vrequest) (requests : list string) (marked : gset Z) (total : Z) : dict string scan :=
  match requests with
  | [] => []
  | i :: l =>
      match dict_get i objects with
      | Some r => let s := scan_of i r marked total in (i, s) :: scans objects l (sn_marked_ids s) (sn_total s)
      | None => []
      end
  end.

(** The request after its blocks were scanned. *)
Definition recovered (o : option scan) (r : vrequest) : vrequest :=
  match o with Some s => if sn_affected s then set_vr_computed (sn_computed s) r else r | None => r end.

Lemma scans_keys objects requests : ∀ marked total i, i ∈ (scans objects requests marked total).*1 → i ∈ requests.
Proof.
  induction requests as [|j l IH]; intros marked total i; cbn; [done|]. destruct (dict_get j objects); cbn; [|by intros ?%not_elem_of_nil].
  rewrite -> !elem_of_cons. intros [->|Hi]; [by left|right; by eapply IH].
Qed.

Lemma scans_ext objects objects' requests : (∀ i, i ∈ requests → dict_get i objects = dict_get i objects') →
  ∀ marked total, scans objects requests marked total = scans objects' requests marked total.
Proof.
  intros Ho. induction requests as [|j l IH]; intros marked total; [done|]. cbn. rewrite <- (Ho j) by left. destruct (dict_get j objects); [|done].
  f_equal. apply IH. intros i Hi. apply Ho. by right.
Qed.

Lemma invalid_fold requests : ∀ (s : vsched Q * W) affected total marked, NoDup requests →
  (∀ i, i ∈ requests → is_Some (dict_get i (sc_objects s.1))) →
  ∃ affected' total' marked' objects',
    for_fold requests (affected, total, marked) (invalid_request c invalid failed) s =
      (Ok (affected', total', marked'), (set_sc_objects objects' s.1, s.2)) ∧
    let l := scans (sc_objects s.1) requests marked total in
    (∀ i, i ∈ affected' ↔ i ∈ affected ∨ ∃ sn, dict_get i l = Some sn ∧ sn_affected sn = true) ∧
    (∀ i r, dict_get i (sc_objects s.1) = Some r → dict_get i objects' = Some (recovered (dict_get i l) r)) ∧
    (∀ i, dict_get i (sc_objects s.1) = None → dict_get i objects' = None).
Proof.
  induction requests as [|i l IH]; intros s affected total marked Hnd Hobj.
  { exists affected, total, marked, (sc_objects s.1). cbn. split; [by destruct s as [ [] ?] |]. split; [|by split; intros].
    intros i. split; [by left|]. by intros [?|(? & ? & _)]. }
  apply NoDup_cons in Hnd as [Hi Hnd]. destruct (Hobj i ltac:(left)) as [r Hr]. cbn [for_fold scans]. rewrite -> Hr. set (sn := scan_of i r marked total).
  assert (Hkeys : ∀ m t, dict_get i (scans (sc_objects s.1) l m t) = None).
  { intros m t. apply dict_get_None. intros Hin%scans_keys. done. }
  assert (Hrun : ∃ objs1, invalid_request c invalid failed (affected, total, marked) i s =
      (Ok (if sn_affected sn then {[i]} ∪ affected else affected, sn_total sn, sn_marked_ids sn), (set_sc_objects objs1 s.1, s.2)) ∧
    dict_get i objs1 = Some (recovered (Some sn) r) ∧ ∀ j, j ≠ i → dict_get j objs1 = dict_get j (sc_objects s.1)).
  { unfold invalid_request. erewrite M_bind_Ok; [|unfold req_of, getsc; mstep; unfold of_res; rewrite -> (proj2 (dict_index_Ok _ _ _) Hr); reflexivity].
    erewrite M_bind_Ok; [|unfold on_sw, lift; rewrite -> get_ids; reflexivity]. mstep. fold bs. fold (scan_of i r marked total). fold sn. unfold recovered.
    destruct (sn_affected sn).
    - exists (dict_set i (set_vr_computed (sn_computed sn) r) (sc_objects s.1)). split.
      + erewrite M_bind_Ok; [reflexivity|]. unfold up_req, req_of, getsc, upsc. munfold. rewrite -> (proj2 (dict_index_Ok _ _ _) Hr). reflexivity.
      + split; [apply dict_get_set_eq|]. intros j Hj. by apply dict_get_set_ne.
    - exists (sc_objects s.1). split; [by destruct s as [ [] ?]|done]. }
  destruct Hrun as (objs1 & Hrun & Hget & Hother). erewrite M_bind_Ok by exact Hrun.
  destruct (IH (set_sc_objects objs1 s.1, s.2) (if sn_affected sn then {[i]} ∪ affected else affected) (sn_total sn) (sn_marked_ids sn))
    as (affected' & total' & marked' & objs' & Hfold & Haff & Hsome & Hnone); [done| |].
  { intros j Hj. cbn. rewrite -> Hother by (intros ->; done). apply Hobj. by right. }
  exists affected', total', marked', objs'. split; [exact Hfold|]. cbn in Haff, Hsome, Hnone. cbn.
  rewrite -> (scans_ext objs1 (sc_objects s.1)) in Haff, Hsome by (intros j Hj; apply Hother; intros ->; done). split_and!.
  - intros j. rewrite -> Haff. destruct (decide (j = i)) as [->|Hj].
    + rewrite -> Hkeys. destruct (sn_affected sn) eqn:E; [rewrite -> elem_of_union, elem_of_singleton|]; split.
      * intros _. right. by exists sn.
      * intros _. left. by left.
      * intros [?|(? & ? & _)]; [by left|done].
      * intros [?|(? & [= <-] & ?)]; [by left|congruence].
    + destruct (sn_affected sn); [rewrite -> elem_of_union, elem_of_singleton|]; tauto.
  - intros j r0 Hj. case_decide as E.
    + subst j. rewrite -> Hr in Hj. injection Hj as <-. rewrite -> (Hsome i _ Hget), Hkeys. done.
    + apply Hsome. by rewrite -> Hother.
  - intros j Hj. apply Hnone. rewrite -> Hother; [done|]. intros ->. congruence.
Qed.
Lemma scans_split objects requests : 0 < bs → ∀ marked total i sn, NoDup requests → dict_get i (scans objects requests marked total) = Some sn →
  ∃ pre post r mk tot, requests = pre ++ i :: post ∧ dict_get i objects = Some r ∧ sn = scan_of i r mk tot ∧
    ∀ b, b ∈ mk → b ∈ marked ∨ ∃ p rp sp k, p ∈ pre ∧ dict_get p objects = Some rp ∧ dict_get p (scans objects requests marked total) = Some sp ∧
      sn_affected sp = true ∧ counted bs (external_computed c p rp failed (tbl p)) (tbl p) k b ∧ sn_computed sp ≤ Z.of_nat k * bs.
Proof.
  intros Hbs. induction requests as [|j l IH]; intros marked total i sn Hnd; cbn; [done|].
  apply NoDup_cons in Hnd as [Hj Hnd]. destruct (dict_get j objects) as [r|] eqn:Hr; [|done]. set (s := scan_of j r marked total). cbn. case_decide as Hij.
  - subst j. intros [= <-]. exists [], l, r, marked, total. split_and!; try done. by intros b; left.
  - intros Hget. destruct (IH _ _ _ _ Hnd Hget) as (pre & post & ri & mk & tot & -> & Hri & Hsn & Hmk).
    exists (j :: pre), post, ri, mk, tot. split_and!; try done. intros b Hb. destruct (Hmk b Hb) as [Hs|(p & rp & sp & k & Hp & Hrp & Hsp & Hrest)].
    + pose proof (scan_request_spec bs (external_computed c j r failed (tbl j)) (vr_num_cached_tokens r) invalid (tbl j) (vr_num_computed_tokens r) marked total) as Hspec.
      destruct (marked_recomputed _ _ _ _ _ _ _ _ _ b Hbs Hspec Hs) as [?|(Ha & k & Hk & Hle)]; [by left|]. right.
      exists j, r, s, k. rewrite -> decide_True by done. split_and!; try done. left.
    + right. exists p, rp, sp, k. rewrite -> decide_False; [|intros ->; apply Hj, elem_of_app; by left]. split_and!; try done; try tauto. by right.
Qed.

End invalid.

Lemma failed_run {Q W} (s : vsched Q * W) failed : sc_failed_recving_kv_req_ids s.1 = Some failed → failed_recving s = (Ok failed, s).
Proof. intros Hf. unfold failed_recving, getsc. mstep. by rewrite -> Hf. Qed.

Lemma update_requests_run {Q W} `{KvCacheManager W} c tbl (invalid : gset Z) requests (s : vsched Q * W) failed :
  (∀ i w, km_get_block_ids i w = (Ok [tbl i], w)) → sc_failed_recving_kv_req_ids s.1 = Some failed →
  NoDup requests → (∀ i, i ∈ requests → is_Some (dict_get i (sc_objects s.1))) →
  let l := scans c tbl invalid failed (sc_objects s.1) requests ∅ 0 in
  ∃ affected total objects', _update_requests_with_invalid_blocks c requests invalid s = (Ok (affected, total), (set_sc_objects objects' s.1, s.2)) ∧
    (∀ i, i ∈ affected ↔ ∃ sn, dict_get i l = Some sn ∧ sn_affected sn = true) ∧
    (∀ i r, dict_get i (sc_objects s.1) = Some r → dict_get i objects' = Some (recovered (dict_get i l) r)) ∧
    (∀ i, dict_get i (sc_objects s.1) = None → dict_get i objects' = None).
Proof.
  intros Hids Hfailed Hnd Hobj l.
  destruct (invalid_fold c tbl Hids invalid failed requests s ∅ 0 ∅ Hnd Hobj) as (affected & total & marked & objs & Hrun & Haff & Hsome & Hnone).
  exists affected, total, objs. split; [|split; [|by split] ].
  - unfold _update_requests_with_invalid_blocks. mrun (failed_run s failed Hfailed). mrun Hrun. done.
  - intros i. rewrite -> Haff. split; [by intros [?%not_elem_of_empty|?]|by right].
Qed.

Lemma scans_total c tbl (invalid : gset Z) failed objects requests : 
  (∀ i, i ∈ requests → is_Some (dict_get i objects)) → ∀ i m t, i ∈ requests → is_Some (dict_get i (scans c tbl invalid failed objects requests m t)).
Proof.
  intros Hobj i. induction requests as [|j k IH]; intros m t Hi; [by apply not_elem_of_nil in Hi|].
  cbn. destruct (Hobj j ltac:(left)) as [rj ->]. cbn. case_decide as Hij; [done|]. apply IH; [intros x Hx; apply Hobj; by right|].
  apply elem_of_cons in Hi as [|]; done.
Qed.

(** C14: When loads of running requests failed, no request goes on counting an invalid
    block as computed unless a request before it in the batch computes that block
    again.  The requests affected are those with an invalid block among the ones that
    may have been loaded; of these only the number of computed tokens changes, to a
    block boundary below the tokens loaded or to the tokens cached; the others are left
    alone. *)
Theorem vllm_invalid_blocks_recomputed {Q W} `{KvCacheManager W} c tbl (invalid : gset Z) requests (s : vsched Q * W) failed :
  (∀ i w, km_get_block_ids i w = (Ok [tbl i], w)) → 0 < vc_scheduler_block_size c → sc_failed_recving_kv_req_ids s.1 = Some failed →
  NoDup requests → (∀ i, i ∈ requests → is_Some (dict_get i (sc_objects s.1))) →
  let bs := vc_scheduler_block_size c in
  let loaded i r := counted bs (external_computed c i r failed (tbl i)) (tbl i) in
  ∃ affected total objects', _update_requests_with_invalid_blocks c requests invalid s = (Ok (affected, total), (set_sc_objects objects' s.1, s.2)) ∧
    (∀ i, i ∉ requests → dict_get i objects' = dict_get i (sc_objects s.1) ∧ i ∉ affected) ∧
    ∀ i r, i ∈ requests → dict_get i (sc_objects s.1) = Some r → ∃ r', dict_get i objects' = Some r' ∧
      (i ∈ affected ↔ ∃ k b, loaded i r k b ∧ b ∈ invalid) ∧ (i ∉ affected → r' = r) ∧
      (i ∈ affected → r' = set_vr_computed (vr_num_computed_tokens r') r ∧
         (vr_num_computed_tokens r' = vr_num_cached_tokens r ∨
          ∃ k b, loaded i r k b ∧ b ∈ invalid ∧ vr_num_computed_tokens r' = Z.of_nat k * bs) ∧
         ∀ k b, loaded i r k b → b ∈ invalid → Z.of_nat k * bs < vr_num_computed_tokens r' →
           ∃ pre post p rp' j, requests = pre ++ i :: post ∧ p ∈ pre ∧ tbl p !! j = Some b ∧
             dict_get p objects' = Some rp' ∧ vr_num_computed_tokens rp' ≤ Z.of_nat j * bs).
Proof.
  intros Hids Hbs Hfailed Hnd Hobj bs loaded.
  destruct (update_requests_run c tbl invalid requests s failed Hids Hfailed Hnd Hobj) as (affected & total & objs & Hrun & Haff & Hsome & Hnone).
  exists affected, total, objs. split; [exact Hrun|].
  set (l := scans _ _ _ _ _ _ _ _) in *. fold bs in Hbs. split.
  - intros i Hi. assert (Hl : dict_get i l = None) by (apply dict_get_None; by intros Hin%scans_keys). split.
    + destruct (dict_get i (sc_objects s.1)) as [r|] eqn:E; [by rewrite -> (Hsome i r E), Hl|by apply Hnone].
    + rewrite -> Haff, Hl. by intros (? & ? & _).
  - intros i r Hi Hr. exists (recovered (dict_get i l) r). split; [by apply Hsome|].
    specialize (Haff i). destruct (scans_total c tbl invalid failed _ _ Hobj i ∅ 0 Hi) as [sn E]. fold l in E. rewrite -> E in Haff |- *.
    destruct (scans_split c tbl invalid failed (sc_objects s.1) requests Hbs _ _ _ _ Hnd E) as (pre & post & r0 & mk & tot & Hreq & Hr0 & Hsn & Hmk).
      rewrite -> Hr in Hr0. injection Hr0 as <-.
      pose proof (scan_request_spec bs (external_computed c i r failed (tbl i)) (vr_num_cached_tokens r) invalid (tbl i) (vr_num_computed_tokens r) mk tot) as Hspec.
      unfold scan_of in Hsn. fold bs in Hsn. rewrite <- Hsn in Hspec. destruct Hspec as [Ha _ Hf Hs].
      assert (Hia : i ∈ affected ↔ sn_affected sn = true) by (rewrite -> Haff; split; [by intros (? & [= <-] & ?)|by exists sn]).
      split; [by rewrite -> Hia|]. rewrite -> Hia. unfold recovered. split; [by intros Hn; destruct (sn_affected sn)|]. intros Htrue. rewrite -> Htrue. split; [done|].
      cbn [vr_num_computed_tokens set_vr_computed].
      assert (Hshared : ∀ k b, loaded i r k b → b ∈ invalid → Z.of_nat k * bs < sn_computed sn → b ∈ mk).
      { intros k b Hk Hb Hlt. destruct (sn_marked sn) eqn:Em.
        - destruct (Hf eq_refl) as (k0 & b0 & _ & _ & _ & Hfirst & Hc & _). apply (Hfirst k); [|by destruct Hk|done]. rewrite -> Hc in Hlt. nia.
        - destruct (Hs eq_refl) as [Hall _]. by apply (Hall k). }
      split.
      * destruct (sn_marked sn) eqn:Em.
        -- right. destruct (Hf eq_refl) as (k0 & b0 & Hk0 & Hb0 & _ & _ & Hc & _). by exists k0, b0.
        -- left. destruct (Hs eq_refl) as (_ & Hc & _). by apply Hc.
      * intros k b Hk Hb Hlt. destruct (Hmk b (Hshared k b Hk Hb Hlt)) as [?%not_elem_of_empty|(p & rp & sp & j & Hp & Hrp & Hsp & Hspa & [Hj _] & Hle)]; [done|].
        exists pre, post, p, (recovered (Some sp) rp), j. split_and!; try done.
        -- rewrite -> (Hsome p rp Hrp). f_equal. f_equal. exact Hsp.
        -- cbn. by rewrite -> Hspa.
Qed.

(** ** Remote loads over several reports *)

Definition first_invalid (u : gset Z) (ids : list Z) : option nat := fst <$> list_find (λ b, b ∈ u) ids.

Lemma first_invalid_Some u ids k : first_invalid u ids = Some k ↔
  ∃ b, ids !! k = Some b ∧ b ∈ u ∧ ∀ j b', (j < k)%nat → ids !! j = Some b' → b' ∉ u.
Proof.
  unfold first_invalid. rewrite -> fmap_Some. split.
  - intros ([k' b] & Hf & ->). apply list_find_Some in Hf as (Hk & Hb & Hj). exists b. split_and!; try done. intros j b' Hjk Hb'. by apply (Hj j).
  - intros (b & Hk & Hb & Hj). exists (k, b). split; [|done]. apply list_find_Some. split_and!; try done. intros j b' Hb' Hjk. by apply (Hj j).
Qed.

Lemma first_invalid_None u ids : first_invalid u ids = None ↔ ∀ b, b ∈ ids → b ∉ u.
Proof. unfold first_invalid. by rewrite -> fmap_None, list_find_None, Forall_forall. Qed.

Section remote.
  Context {Q W : Type} `{RequestQueue Q} `{KvCacheManager W} `{SchedConnector W}.
  Variable c : vsched_conf.
  Variable tbl : string → list Z.
  Hypothesis get_ids : ∀ i w, km_get_block_ids i w = (Ok [tbl i], w).
  Hypothesis pop_meta : ∀ i w, ∃ w', sn_pop_requests_meta i w = (Ok tt, w').
  Hypothesis bs_pos : 0 < vc_scheduler_block_size c.
Let bs : Z := vc_scheduler_block_size c.

Lemma counted_fresh (i : string) (r : vrequest) failed k b : vr_status r = WAITING_FOR_REMOTE_KVS → i ∉ failed →
  counted bs (external_computed c i r failed (tbl i)) (tbl i) k b ↔ tbl i !! k = Some b.
Proof.
  intros Hs Hf. unfold counted, external_computed. rewrite -> decide_True, bool_decide_eq_false_2 by done. fold bs.
  split; [tauto|]. intros Hk. split; [done|]. apply lookup_lt_Some in Hk.
  apply (Z.lt_le_trans _ (zlen (tbl i))); [unfold zlen; lia|]. apply Z.div_le_lower_bound; [done|]. lia.
Qed.

Lemma counted_again (i : string) (r : vrequest) failed k b (k0 : nat) : vr_status r = WAITING_FOR_REMOTE_KVS → i ∈ failed →
  vr_num_computed_tokens r = Z.of_nat k0 * bs →
  counted bs (external_computed c i r failed (tbl i)) (tbl i) k b ↔ tbl i !! k = Some b ∧ (k < k0)%nat.
Proof.
  intros Hs Hf Hc. unfold counted, external_computed. rewrite -> decide_True, bool_decide_eq_true_2, Hc by done.
  assert ((Z.of_nat k0 * bs + bs - 1) / bs = Z.of_nat k0) as ->; [symmetry; apply (Z.div_unique _ _ _ (bs - 1)); lia|].
  by rewrite <- Nat2Z.inj_lt.
Qed.

(** After reports with the blocks [u] in all. *)
Definition remote_state (u : gset Z) (r0 : vrequest) (i : string) (failed : gset string) (r : vrequest) : Prop :=
  match first_invalid u (tbl i) with
  | Some k => i ∈ failed ∧ r = set_vr_computed (Z.of_nat k * bs) r0
  | None => i ∉ failed ∧ r = r0
  end.

(** The scan of one more report, of blocks no request before shares. *)
Lemma remote_scan u invalid r0 i failed r mk tot : vr_status r0 = WAITING_FOR_REMOTE_KVS → remote_state u r0 i failed r → (∀ b, b ∈ tbl i → b ∉ mk) →
  let sn := scan_of c tbl invalid failed i r mk tot in
  let failed' := if sn_affected sn then {[i]} ∪ failed else failed in
  remote_state (u ∪ invalid) r0 i failed' (recovered (Some sn) r).
Proof.
  intros Hs Hst Hmk sn failed'.
  pose proof (scan_request_spec bs (external_computed c i r failed (tbl i)) (vr_num_cached_tokens r) invalid (tbl i) (vr_num_computed_tokens r) mk tot) as Hspec.
  fold bs in Hspec. change (scan_request bs _ _ _ _ _ _ _) with sn in Hspec. destruct Hspec as [Ha _ Hf Hsh].
  assert (Hr : vr_status r = WAITING_FOR_REMOTE_KVS) by (unfold remote_state in Hst; destruct (first_invalid u (tbl i)), Hst as [_ ->]; done).
  (* what the scan may find *)
  assert (Hfound : sn_affected sn = true → ∃ k b, counted bs (external_computed c i r failed (tbl i)) (tbl i) k b ∧ b ∈ invalid ∧
    (∀ j b', (j < k)%nat → tbl i !! j = Some b' → b' ∉ invalid) ∧ sn_computed sn = Z.of_nat k * bs).
  { intros Haff. destruct (sn_marked sn) eqn:Em.
    - destruct (Hf eq_refl) as (k & b & Hk & Hb & _ & Hj & Hc & _). exists k, b. split_and!; try done. intros j b' Hjk Hb' Hinv.
      apply (Hmk b'); [by apply list_elem_of_lookup_2 in Hb'|by apply (Hj j)].
    - apply Ha in Haff as (k & b & Hk & Hb). destruct (Hsh eq_refl) as [Hall _]. exfalso. apply (Hmk b); [|by apply (Hall k)].
      destruct Hk as [Hk _]. by apply list_elem_of_lookup_2 in Hk. }
  assert (Hnone : sn_affected sn = false → ∀ k b, counted bs (external_computed c i r failed (tbl i)) (tbl i) k b → b ∉ invalid).
  { intros Haff k b Hk Hb. assert (sn_affected sn = true) by (apply Ha; by exists k, b). congruence. }
  unfold remote_state in Hst |- *. unfold recovered. destruct (first_invalid u (tbl i)) as [k0|] eqn:E.
  - apply first_invalid_Some in E as (b0 & Hk0 & Hb0 & Hbefore). destruct Hst as [Hif ->]. destruct (sn_affected sn) eqn:Haff.
    + destruct (Hfound eq_refl) as (k & b & Hk & Hb & Hj & Hc). apply (counted_again i _ failed k b k0) in Hk as [Hk Hlt]; [|done|done|done].
      assert (first_invalid (u ∪ invalid) (tbl i) = Some k) as ->.
      { apply first_invalid_Some. exists b. split_and!; [done|by apply elem_of_union; right|]. intros j b' Hjk Hb' [Hu|Hi]%elem_of_union.
        - by apply (Hbefore j b'); [lia| |].
        - by apply (Hj j b'). }
      split; [unfold failed'; apply elem_of_union; by right|]. rewrite -> Hc. done.
    + assert (first_invalid (u ∪ invalid) (tbl i) = Some k0) as ->; [|done].
      apply first_invalid_Some. exists b0. split_and!; [done|by apply elem_of_union; left|]. intros j b' Hjk Hb' [Hu|Hi]%elem_of_union.
      * by apply (Hbefore j b').
      * apply (Hnone eq_refl j b'); [|done]. by apply (counted_again i _ failed j b' k0).
  - rewrite -> first_invalid_None in E. destruct Hst as [Hif ->]. destruct (sn_affected sn) eqn:Haff.
    + destruct (Hfound eq_refl) as (k & b & Hk & Hb & Hj & Hc). apply counted_fresh in Hk; [|done|done].
      assert (first_invalid (u ∪ invalid) (tbl i) = Some k) as ->.
      { apply first_invalid_Some. exists b. split_and!; [done|by apply elem_of_union; right|]. intros j b' Hjk Hb' [Hu|Hi]%elem_of_union.
        - apply (E b'); [by apply list_elem_of_lookup_2 in Hb'|done].
        - by apply (Hj j b'). }
      split; [unfold failed'; apply elem_of_union; left; by apply elem_of_singleton|]. rewrite -> Hc. done.
    + assert (first_invalid (u ∪ invalid) (tbl i) = None) as ->; [|done].
      apply first_invalid_None. intros b Hb [Hu|Hi]%elem_of_union; [by apply (E b)|]. apply list_elem_of_lookup in Hb as [k Hk].
      apply (Hnone eq_refl k b); [|done]. by apply counted_fresh.
Qed.

(** The requests of a queue that wait for remote blocks. *)
Definition remotes (objects : dict string vrequest) (l : list string) : list string :=
  filter (λ i, vr_status <$> dict_get i objects = Some WAITING_FOR_REMOTE_KVS) l.

Lemma waiting_statuses objects l : (∀ i, i ∈ l → is_Some (dict_get i objects)) →
  ∃ x, map_res (λ i, r ← dict_index i objects; Ok (i, vr_status r)) l = Ok x ∧ (filter (λ x, x.2 = WAITING_FOR_REMOTE_KVS) x).*1 = remotes objects l.
Proof.
  induction l as [|i l IH]; intros Hl; [by exists []|]. destruct (Hl i ltac:(left)) as [r Hr].
  destruct IH as (x & Hx & Hf); [intros j Hj; apply Hl; by right|]. exists ((i, vr_status r) :: x). cbn [map_res].
  rewrite -> (proj2 (dict_index_Ok _ _ _) Hr). cbn. rewrite -> Hx. split; [done|]. unfold remotes in *. rewrite -> Hr. cbn.
  destruct (decide (vr_status r = WAITING_FOR_REMOTE_KVS)) as [E|E].
  - rewrite -> decide_True by congruence. rewrite -> fmap_cons. by f_equal.
  - rewrite -> decide_False by congruence. done.
Qed.

Lemma recovered_status o r : vr_status (recovered o r) = vr_status r.
Proof. unfold recovered. by destruct o as [s|]; [destruct (sn_affected s)|]. Qed.

(** One update leaves the statuses alone. *)
Lemma update_statuses (s : vsched Q * W) failed invalid requests : sc_failed_recving_kv_req_ids s.1 = Some failed →
  NoDup requests → (∀ i, i ∈ requests → is_Some (dict_get i (sc_objects s.1))) →
  ∃ affected total objects', _update_requests_with_invalid_blocks c requests invalid s = (Ok (affected, total), (set_sc_objects objects' s.1, s.2)) ∧
    (∀ j, vr_status <$> dict_get j objects' = vr_status <$> dict_get j (sc_objects s.1)) ∧
    (∀ i, i ∉ requests → dict_get i objects' = dict_get i (sc_objects s.1) ∧ i ∉ affected) ∧
    ∀ i r, i ∈ requests → dict_get i (sc_objects s.1) = Some r → ∃ mk tot, let sn := scan_of c tbl invalid failed i r mk tot in
      dict_get i objects' = Some (recovered (Some sn) r) ∧ (i ∈ affected ↔ sn_affected sn = true) ∧
      ∀ b, b ∈ mk → ∃ p, p ∈ requests ∧ p ≠ i ∧ b ∈ tbl p.
Proof.
  intros Hf Hnd Hobj. destruct (update_requests_run c tbl invalid requests s failed get_ids Hf Hnd Hobj) as (aff & tot & objs & Hrun & Haff & Hsome & Hnone).
  exists aff, tot, objs. split; [exact Hrun|]. split_and!.
  - intros j. destruct (dict_get j (sc_objects s.1)) as [r|] eqn:E; [rewrite -> (Hsome j r E); cbn; by rewrite -> recovered_status|by rewrite -> Hnone].
  - intros i Hi. assert (El : dict_get i (scans c tbl invalid failed (sc_objects s.1) requests ∅ 0) = None) by (apply dict_get_None; by intros Hin%scans_keys).
    split; [|rewrite -> Haff, El; by intros (? & ? & _)].
    destruct (dict_get i (sc_objects s.1)) as [r|] eqn:E; [|by apply Hnone]. by rewrite -> (Hsome i r E), El.
  - intros i r Hi Hr. destruct (scans_total c tbl invalid failed _ _ Hobj i ∅ 0 Hi) as [sn E].
    destruct (scans_split c tbl invalid failed _ requests bs_pos _ _ _ _ Hnd E) as (pre & post & r' & mk & t & -> & Hr' & Hsn & Hmk).
    rewrite -> Hr in Hr'. injection Hr' as <-. exists mk, t. cbn zeta. rewrite <- Hsn. rewrite -> (Hsome i r Hr), E. split_and!; [done| |].
    + rewrite -> Haff, E. split; [by intros (? & [= <-] & ?)|by exists sn].
    + intros b [?%not_elem_of_empty|(p & rp & sp & k & Hp & _ & _ & _ & [Hk _] & _)]%Hmk; [done|]. exists p. split_and!.
      * apply elem_of_app. by left.
      * intros ->. apply NoDup_app in Hnd as (_ & Hd & _). by apply (Hd i); [|left].
      * by apply list_elem_of_lookup_2 in Hk.
Qed.

Lemma pop_all (l : list string) (s : vsched Q * W) : ∃ w', for_each l (λ i, on_sw (sn_pop_requests_meta i)) s = (Ok tt, (s.1, w')).
Proof.
  revert s. induction l as [|i l IH]; intros s; [exists s.2; by destruct s|]. destruct (pop_meta i s.2) as [w1 Hw]. destruct (IH (s.1, w1)) as [w' Hw'].
  exists w'. cbn [for_each]. erewrite M_bind_Ok; [exact Hw'|]. unfold on_sw, lift. by rewrite -> Hw.
Qed.

Lemma getsc_run {B} (f : vsched Q → B) (s : vsched Q * W) : getsc f s = (Ok (f s.1), s).
Proof. done. Qed.

Lemma upsc_run f (s : vsched Q * W) : upsc f s = (Ok tt, (f s.1, s.2)).
Proof. done. Qed.

(** What holds of a request that waits for its blocks, between two reports. *)
Record remote_inv (u : gset Z) (r0 : vrequest) (i : string) (s : vsched Q * W) : Prop := RemoteInv {
  ri_NoDup : NoDup (rq_list (sc_waiting s.1) ++ sc_running s.1);
  ri_objects : ∀ j, j ∈ rq_list (sc_waiting s.1) ++ sc_running s.1 → is_Some (dict_get j (sc_objects s.1));
  ri_apart : ∀ j b, j ∈ remotes (sc_objects s.1) (rq_list (sc_waiting s.1)) → j ≠ i → b ∈ tbl i → b ∉ tbl j;
  ri_waiting : i ∈ rq_list (sc_waiting s.1);
  ri_recving : i ∈ sc_finished_recving_kv_req_ids s.1;
  ri_state : ∃ failed r, sc_failed_recving_kv_req_ids s.1 = Some failed ∧ dict_get i (sc_objects s.1) = Some r ∧ remote_state u r0 i failed r;
}.

Lemma remote_state_status u r0 i failed r : remote_state u r0 i failed r → vr_status r = vr_status r0.
Proof. unfold remote_state. by destruct (first_invalid u (tbl i)); intros [_ ->]. Qed.

Lemma remote_state_iff u r0 i failed failed' r : (i ∈ failed ↔ i ∈ failed') → remote_state u r0 i failed r → remote_state u r0 i failed' r.
Proof. intros Hi. unfold remote_state. destruct (first_invalid u (tbl i)); by rewrite -> Hi. Qed.

Lemma handle_report u invalid r0 i (s : vsched Q * W) : vr_status r0 = WAITING_FOR_REMOTE_KVS → remote_inv u r0 i s →
  ∃ affected s', _handle_invalid_blocks c invalid s = (Ok affected, s') ∧ remote_inv (u ∪ invalid) r0 i s' ∧ i ∉ affected.
Proof.
  intros Hst [Hnd Hobj Hapart Hi Hrecv (failed & r & Hf & Hr & Hstate)].
  assert (Hrem : ∀ j, j ∈ remotes (sc_objects s.1) (rq_list (sc_waiting s.1)) ↔ vr_status <$> dict_get j (sc_objects s.1) = Some WAITING_FOR_REMOTE_KVS ∧ j ∈ rq_list (sc_waiting s.1))
    by (intros j; unfold remotes; by rewrite -> list_elem_of_filter).
  pose proof Hnd as (Hnd1 & Hd & Hnd2)%NoDup_app.
  destruct (waiting_statuses (sc_objects s.1) (rq_list (sc_waiting s.1))) as (wl & Hwl & Hwf); [intros j Hj; apply Hobj, elem_of_app; by left|].
  destruct (update_statuses s failed invalid (remotes (sc_objects s.1) (rq_list (sc_waiting s.1))) Hf) as (a1 & t1 & objs1 & Hrun1 & Hs1 & _ & Hsc1).
  { by apply NoDup_filter. } { intros j [_ Hj]%Hrem. apply Hobj, elem_of_app. by left. }
  assert (Hir : i ∈ remotes (sc_objects s.1) (rq_list (sc_waiting s.1))).
  { apply Hrem. split; [|done]. rewrite -> Hr. cbn. f_equal. rewrite -> (remote_state_status _ _ _ _ _ Hstate). done. }
  destruct (Hsc1 i r Hir Hr) as (mk & tot & Hget & Haff & Hmk).
  set (sn := scan_of c tbl invalid failed i r mk tot) in *.
  set (s1 := set_sc_recving (sc_finished_recving_kv_req_ids s.1) (Some (failed ∪ a1)) (set_sc_objects objs1 s.1)).
  destruct (update_statuses (s1, s.2) (failed ∪ a1) invalid (sc_running s.1) eq_refl Hnd2) as (a2 & t2 & objs2 & Hrun2 & Hs2 & Hout2 & Hsc2).
  { intros j Hj. cbn. apply fmap_is_Some with vr_status. rewrite -> Hs1. apply fmap_is_Some, Hobj, elem_of_app. by right. }
  assert (Hi2 : i ∉ sc_running s.1) by (intros Hx; by apply (Hd i)).
  destruct (pop_all (elements a2) (set_sc_objects objs2 s1, s.2)) as [w' Hpop].
  exists a2, (if vc_has_connector c then (set_sc_objects objs2 s1, w') else (set_sc_objects objs2 s1, s.2)). split; [|split].
  - unfold _handle_invalid_blocks. mrun (failed_run s failed Hf). mrun (getsc_run id s). cbn [id]. unfold id. rewrite -> Hwl. unfold of_res. mstep. rewrite -> Hwf. mrun Hrun1.
    mrun (upsc_run (λ x : vsched Q, set_sc_recving (sc_finished_recving_kv_req_ids x) ((λ f, f ∪ a1) <$> sc_failed_recving_kv_req_ids x) x) (set_sc_objects objs1 s.1, s.2)).
    cbn [sc_failed_recving_kv_req_ids set_sc_objects]. rewrite -> Hf. change (set_sc_recving _ _ _) with s1.
    mrun (getsc_run sc_running (s1, s.2)). change (sc_running s1) with (sc_running s.1). mrun Hrun2.
    destruct (vc_has_connector c); [mrun Hpop|mstep]; reflexivity.
  - assert (Hobjs : ∀ j, vr_status <$> dict_get j objs2 = vr_status <$> dict_get j (sc_objects s.1)) by (intros j; rewrite -> Hs2; apply Hs1).
    split; [destruct (vc_has_connector c); exact Hnd| | |by destruct (vc_has_connector c)|by destruct (vc_has_connector c)|].
    + intros j Hj. destruct (vc_has_connector c); (apply fmap_is_Some with vr_status; cbn; rewrite -> Hobjs; by apply fmap_is_Some, Hobj).
    + intros j b Hj. apply Hapart, Hrem. rewrite <- Hobjs. destruct (vc_has_connector c); exact (proj1 (list_elem_of_filter _ _ _) Hj).
    + exists (failed ∪ a1), (recovered (Some sn) r). split; [by destruct (vc_has_connector c)|]. split; [|].
      * transitivity (dict_get i objs1); [|done]. destruct (vc_has_connector c); exact (proj1 (Hout2 i Hi2)).
      * apply (remote_state_iff _ _ _ (if sn_affected sn then {[i]} ∪ failed else failed)).
        -- rewrite -> elem_of_union, Haff. destruct (sn_affected sn); [rewrite -> elem_of_union, elem_of_singleton|]; intuition congruence.
        -- apply remote_scan; [done|done|]. intros b Hb Hm. destruct (Hmk b Hm) as (p & Hp & Hpi & Hbp). by apply (Hapart p b).
  - exact (proj2 (Hout2 i Hi2)).
Qed.

(** The reports of the steps while the request waits. *)
Definition handle_reports (reports : list (gset Z)) : M (vsched Q * W) unit :=
  for_each reports (λ invalid, _ ← _handle_invalid_blocks c invalid; mret tt).

Lemma handle_reports_run r0 i reports : vr_status r0 = WAITING_FOR_REMOTE_KVS → ∀ u (s : vsched Q * W), remote_inv u r0 i s →
  ∃ s', handle_reports reports s = (Ok tt, s') ∧ remote_inv (u ∪ ⋃ reports) r0 i s'.
Proof.
  intros Hst. induction reports as [|v l IH]; intros u s Hs.
  { exists s. split; [done|]. cbn. by rewrite -> (right_id_L ∅ (∪)). }
  destruct (handle_report u v r0 i s Hst Hs) as (a & s1 & Hrun & Hs1 & _). destruct (IH _ _ Hs1) as (s' & Hrun' & Hs').
  exists s'. split; [|cbn; by rewrite -> (assoc_L (∪))]. unfold handle_reports in *. cbn [for_each]. erewrite M_bind_Ok; [exact Hrun'|]. by mrun Hrun.
Qed.


End remote.

(** The tokens a request has when its blocks arrived and none is invalid. *)
Definition arrived_tokens (bs num_tokens : Z) (ids : list Z) : Z :=
  let n := Z.min (zlen ids * bs) num_tokens in if n =? num_tokens then n - 1 else n.

Section arrival.
  Context {Q W : Type} `{RequestQueue Q} `{KvCacheManager W} `{SchedConnector W}.
  Variable c : vsched_conf.
  Variable tbl : string → list Z.
  Hypothesis get_ids : ∀ i w, km_get_block_ids i w = (Ok [tbl i], w).
  Hypothesis cache_runs : ∀ i n w, ∃ w', km_cache_blocks i n w = (Ok tt, w').
  Hypothesis free_runs : ∀ i w, ∃ w', km_free i w = (Ok tt, w').
  Hypothesis connector : vc_has_connector c = true.

Lemma on_sw_run {B} (m : M W B) x w' (s : vsched Q * W) : m s.2 = (x, w') → on_sw m s = (x, (s.1, w')).
Proof. intros Hm. unfold on_sw, lift. by rewrite -> Hm. Qed.

Lemma req_of_run i r (s : vsched Q * W) : dict_get i (sc_objects s.1) = Some r → req_of i s = (Ok r, s).
Proof. intros Hr. unfold req_of, getsc. mstep. unfold of_res. by rewrite -> (proj2 (dict_index_Ok _ _ _) Hr). Qed.

Lemma up_req_run i f r (s : vsched Q * W) : dict_get i (sc_objects s.1) = Some r →
  up_req i f s = (Ok tt, (set_sc_objects (dict_set i (f r) (sc_objects s.1)) s.1, s.2)).
Proof. intros Hr. unfold up_req. by mrun (req_of_run i r s Hr). Qed.

(** The request leaves both sets; failed, it keeps its tokens. *)
Lemma arrival i r failed (s : vsched Q * W) : sc_failed_recving_kv_req_ids s.1 = Some failed →
  i ∈ sc_finished_recving_kv_req_ids s.1 → dict_get i (sc_objects s.1) = Some r →
  ∃ w', _update_waiting_for_remote_kv c i s = (Ok true,
    (set_sc_recving (sc_finished_recving_kv_req_ids s.1 ∖ {[i]}) (Some (if decide (i ∈ failed) then failed ∖ {[i]} else failed))
      (if decide (i ∈ failed) then s.1
       else set_sc_objects (dict_set i (set_vr_computed (arrived_tokens (vc_scheduler_block_size c) (vr_num_tokens r) (tbl i)) r) (sc_objects s.1)) s.1), w')).
Proof.
  intros Hf Hrecv Hr. unfold _update_waiting_for_remote_kv. rewrite -> connector. mstep. mrun (failed_run s failed Hf).
  mrun (getsc_run sc_finished_recving_kv_req_ids s). rewrite -> bool_decide_eq_false_2 by auto. mrun (req_of_run i r s Hr).
  destruct (decide (i ∈ failed)) as [Hif|Hif].
  - rewrite -> bool_decide_eq_true_2 by done. destruct (cache_runs i (vr_num_computed_tokens r) s.2) as [w1 Hw1], (free_runs i s.2) as [w2 Hw2].
    exists (if negb (vr_num_computed_tokens r =? 0) then w1 else w2).
    destruct (negb (vr_num_computed_tokens r =? 0)); (erewrite M_bind_Ok; [|erewrite M_bind_Ok; [|apply on_sw_run; eassumption]; apply upsc_run]);
      (erewrite M_bind_Ok by apply upsc_run); cbn; rewrite -> Hf; done.
  - rewrite -> bool_decide_eq_false_2 by done. destruct (cache_runs i (arrived_tokens (vc_scheduler_block_size c) (vr_num_tokens r) (tbl i)) s.2) as [w1 Hw1].
    exists w1. erewrite M_bind_Ok.
    2: { erewrite M_bind_Ok; [|apply on_sw_run, get_ids]. mstep. fold (arrived_tokens (vc_scheduler_block_size c) (vr_num_tokens r) (tbl i)).
      erewrite M_bind_Ok; [|apply on_sw_run, Hw1]. by apply up_req_run. }
    erewrite M_bind_Ok by apply upsc_run. cbn. by rewrite -> Hf.
Qed.

(** C35: A request whose blocks are loaded while it waits is right when it is resumed,
    whatever the reports of failed blocks were in between and in which order: its
    computed tokens end at its first block reported invalid in any of them, or cover
    all its blocks (but the last token of the prompt, which has to be computed) when
    none was; so no block it counts as computed was ever reported invalid, and it
    leaves the sets of arrived and of failed requests. *)
Theorem vllm_remote_load_recovers r0 i reports (s : vsched Q * W) failed :
  (∀ i w, ∃ w', sn_pop_requests_meta i w = (Ok tt, w')) → 0 < vc_scheduler_block_size c →
  NoDup (rq_list (sc_waiting s.1) ++ sc_running s.1) →
  (∀ j, j ∈ rq_list (sc_waiting s.1) ++ sc_running s.1 → is_Some (dict_get j (sc_objects s.1))) →
  (∀ j b, j ∈ remotes (sc_objects s.1) (rq_list (sc_waiting s.1)) → j ≠ i → b ∈ tbl i → b ∉ tbl j) →
  i ∈ rq_list (sc_waiting s.1) → i ∈ sc_finished_recving_kv_req_ids s.1 →
  dict_get i (sc_objects s.1) = Some r0 → vr_status r0 = WAITING_FOR_REMOTE_KVS →
  sc_failed_recving_kv_req_ids s.1 = Some failed → i ∉ failed →
  let bs := vc_scheduler_block_size c in
  let bad := ⋃ reports in
  ∃ s' failed' r, (handle_reports c reports ;; _update_waiting_for_remote_kv c i) s = (Ok true, s') ∧
    dict_get i (sc_objects s'.1) = Some r ∧
    r = set_vr_computed (match first_invalid bad (tbl i) with
                         | Some k => Z.of_nat k * bs
                         | None => arrived_tokens bs (vr_num_tokens r0) (tbl i)
                         end) r0 ∧
    (∀ k b, tbl i !! k = Some b → Z.of_nat k * bs < vr_num_computed_tokens r → b ∉ bad) ∧
    i ∉ sc_finished_recving_kv_req_ids s'.1 ∧ sc_failed_recving_kv_req_ids s'.1 = Some failed' ∧ i ∉ failed'.
Proof.
  intros Hpop Hbs Hnd Hobj Hapart Hi Hrecv Hr Hst Hf Hif bs bad.
  assert (Hinv : remote_inv c tbl ∅ r0 i s).
  { split; try done. exists failed, r0. split_and!; [done|done|]. unfold remote_state. assert (first_invalid ∅ (tbl i) = None) as ->; [|done].
    apply first_invalid_None. intros b _. apply not_elem_of_empty. }
  destruct (handle_reports_run c tbl get_ids Hpop Hbs r0 i reports Hst _ _ Hinv) as (s1 & Hrun & [_ _ _ _ Hrecv1 (failed1 & r1 & Hf1 & Hr1 & Hstate)]).
  rewrite -> (left_id_L ∅ (∪)) in Hstate. fold bad in Hstate. destruct (arrival i r1 failed1 s1 Hf1 Hrecv1 Hr1) as (w' & Harr).
  unfold remote_state in Hstate. destruct (first_invalid bad (tbl i)) as [k|] eqn:E; destruct Hstate as [Hin ->]; eexists _, _, _;
    (split; [mrun Hrun; exact Harr|]); cbn [fst sc_objects set_sc_recving sc_finished_recving_kv_req_ids sc_failed_recving_kv_req_ids].
  - rewrite -> !decide_True by done. split; [exact Hr1|]. split; [done|]. split; [|split_and!; [set_solver|done|set_solver] ].
    apply first_invalid_Some in E as (b0 & _ & _ & Hbefore). intros j b Hj Hlt. apply (Hbefore j); [|done]. cbn in Hlt. fold bs in Hlt. nia.
  - rewrite -> !decide_False by done. split; [apply dict_get_set_eq|]. split; [done|]. split; [|split_and!; [set_solver|done|done] ].
    intros j b Hj _. rewrite -> first_invalid_None in E. apply E. by apply list_elem_of_lookup_2 in Hj.
Qed.

End arrival.

(** ** The output of a step with invalid blocks *)

(** Whatever [m] returns has [Q]. *)
Definition always {S A} (m : M S A) (Q : A → Prop) : Prop := ∀ s a s', m s = (Ok a, s') → Q a.

Lemma always_bind {S A B} (m : M S A) (f : A → M S B) Q : (∀ a, always (f a) Q) → always (m ≫= f) Q.
Proof. intros Hf s b s' Hb. unfold mbind, M_bind in Hb. destruct (m s) as [ [a|e] s1]; [by eapply Hf|done]. Qed.

Lemma always_ret {S A} (a : A) (Q : A → Prop) : Q a → always (mret a : M S A) Q.
Proof. by intros Ha s b s' [= <- <-]. Qed.

Lemma always_fold {S A B} (l : list A) (body : B → A → M S B) (I : B → Prop) : (∀ acc x, x ∈ l → I acc → always (body acc x) I) →
  ∀ acc, I acc → always (for_fold l acc body) I.
Proof.
  induction l as [|x l IH]; intros Hb acc Hacc; [by apply always_ret|]. cbn [for_fold]. intros s b s' Hs. unfold mbind, M_bind in Hs.
  destruct (body acc x s) as [ [acc'|e] s1] eqn:E; [|done]. apply (IH (λ acc x Hx, Hb acc x ltac:(by right)) acc') in Hs; [done|].
  eapply Hb; [left|exact Hacc|exact E].
Qed.

Section outputs.
  Context {Q W : Type} `{RequestQueue Q} `{KvCacheManager W} `{SchedConnector W} `{SchedOutputOps Q W}.
  Variable good : string → Prop.

(** Every output is of a request in [good]. *)
Definition outputs_of (d : dict Z (list engine_output)) : Prop := ∀ cl l o, (cl, l) ∈ d → o ∈ l → good (eo_request_id o).
Definition all_outputs_of (d : dict Z engine_outputs) : Prop := ∀ cl l o, (cl, l) ∈ d → o ∈ eos_outputs l → good (eo_request_id o).

Lemma outputs_add cl o d : outputs_of d → good (eo_request_id o) → outputs_of (dict_set cl (dict_get_default cl [] d ++ [o]) d).
Proof.
  intros Hd Ho cl' l o' [ [= -> ->]|Hin]%dict_set_elem; [|by apply (Hd cl')]. intros [Hin| ->%list_elem_of_singleton]%elem_of_app; [|done].
  unfold dict_get_default in Hin. destruct (dict_get cl d) as [l|] eqn:E; [|by apply not_elem_of_nil in Hin]. by apply (Hd cl l); [apply dict_get_Some_elem|].
Qed.

Lemma request_output_of out ro failed acc x : (x.1 ∉ failed → good x.1) → outputs_of (oa_outputs acc) →
  always (request_output out ro failed acc x) (λ acc', outputs_of (oa_outputs acc')).
Proof.
  destruct x as [i n]. intros Hi Hacc. cbn in Hi. unfold request_output. apply always_bind. intros _. apply always_bind. intros known.
  destruct (bool_decide (i ∈ failed)) eqn:E; [by apply always_ret|]. apply bool_decide_eq_false in E. cbn [orb]. case_match; [by apply always_ret|].
  apply always_bind. intros idx. apply always_bind. intros generated. apply always_bind. intros stats. apply always_bind. intros r.
  apply always_bind. intros [ [toks stopped] pooler]. apply always_bind. intros kv. apply always_bind. intros r2. apply always_bind. intros _. apply always_bind. intros _.
  match goal with |- context [if stopped then ?a else ?b] => set (acc' := if stopped then a else b) end.
  assert (Ha : outputs_of (oa_outputs acc')) by (unfold acc'; destruct stopped; [destruct (decide (vr_status r = RUNNING))|]; exact Hacc). clearbody acc'.
  case_match.
  - apply always_bind. intros r3. apply always_ret. cbn [oa_outputs]. apply outputs_add; [exact Ha|by apply Hi].
  - apply always_bind. intros _. by apply always_ret.
Qed.

Lemma add_finished_of outs x : all_outputs_of outs → all_outputs_of (add_finished outs x).
Proof.
  destruct x as [cl f]. intros Ho cl' l o [ [= -> ->]|Hin]%dict_set_elem; [|by apply (Ho cl')]. cbn. destruct (dict_get cl outs) as [e|] eqn:E; cbn.
  - intros Hin. by apply (Ho cl e); [apply dict_get_Some_elem|].
  - by intros ?%not_elem_of_nil.
Qed.

Lemma add_stats_of stats outs : all_outputs_of outs → all_outputs_of (add_stats stats outs).
Proof.
  intros Ho. unfold add_stats. destruct stats as [n|]; [|done]. destruct outs as [|[k e] rest].
  - intros cl l o [= -> ->]%list_elem_of_singleton. by intros ?%not_elem_of_nil.
  - intros cl l o [ [= -> ->]|Hin]%elem_of_cons; [cbn; apply (Ho k e); left|apply (Ho cl l); by right].
Qed.

Lemma finish_outputs (acc : output_acc) (m1 m2 m3 : M (vsched Q * W) unit) (m4 : option Z → M (vsched Q * W) (option Z)) (f : vsched Q → vsched Q) :
  outputs_of (oa_outputs acc) →
  always (m1 ;; m2 ;; m3 ;;
    let outs := (λ x : Z * list engine_output, (x.1, EngineOutputs x.2 None None)) <$> oa_outputs acc in
    s ← getsc id;
    let finished := default [] (sc_finished_req_ids_dict s) in
    let outs := foldl add_finished outs finished in
    upsc f ;;
    stats ← m4 (oa_spec_stats acc);
    mret (add_stats stats outs)) all_outputs_of.
Proof.
  intros Hacc. do 3 (apply always_bind; intros _). cbv zeta. apply always_bind. intros s. apply always_bind. intros _. apply always_bind. intros stats.
  apply always_ret, add_stats_of. generalize (default [] (sc_finished_req_ids_dict s)). intros finished.
  assert (Ho : all_outputs_of ((λ x : Z * list engine_output, (x.1, EngineOutputs x.2 None None)) <$> oa_outputs acc)).
  { intros cl l o (x & [= -> ->] & Hx)%list_elem_of_fmap Hin. destruct x as [k v]. by apply (Hacc k v). }
  revert Ho. generalize ((λ x : Z * list engine_output, (x.1, EngineOutputs x.2 None None)) <$> oa_outputs acc).
  induction finished as [|x l IH]; intros outs Ho; [done|]. by apply IH, add_finished_of.
Qed.

End outputs.

(** C36: No request affected by an invalid block of the step gives an output to its
    client: the outputs of [update_from_output] are of requests scheduled in the step
    whose blocks were all loaded. *)
Theorem vllm_no_output_of_invalid {Q W} `{RequestQueue Q} `{KvCacheManager W} `{SchedConnector W} `{SchedOutputOps Q W}
    c out ro kv (s : vsched Q * W) outs s' :
  ro_kv_connector_output ro = Some kv → ko_invalid_block_ids kv ≠ ∅ → update_from_output c out ro s = (Ok outs, s') →
  ∃ affected s1, _handle_invalid_blocks c (ko_invalid_block_ids kv) s = (Ok affected, s1) ∧
    ∀ client l o, (client, l) ∈ outs → o ∈ eos_outputs l →
      eo_request_id o ∉ affected ∧ eo_request_id o ∈ (vo_num_scheduled_tokens out).*1.
Proof.
  intros Hkv Hne Hrun. unfold update_from_output in Hrun. rewrite -> Hkv, decide_False in Hrun by done.
  apply M_Ok_inv in Hrun as (affected & s1 & Hhandle & Hrun). exists affected, s1. split; [exact Hhandle|].
  set (good i := i ∉ affected ∧ i ∈ (vo_num_scheduled_tokens out).*1). change (all_outputs_of good outs).
  apply M_Ok_inv in Hrun as (acc & s2 & Hfold & Hrun).
  assert (Hacc : outputs_of good (oa_outputs acc)).
  { refine (always_fold _ _ (λ acc, outputs_of good (oa_outputs acc)) _ (OutputAcc [] None [] []) _ _ _ _ Hfold); [|by intros cl l o ?%not_elem_of_nil].
    intros a x Hx. apply request_output_of. intros Hi. split; [done|]. by apply list_elem_of_fmap_2. }
  exact (finish_outputs good acc _ _ _ (λ st, on_sw (su_make_stats st (kv ← Some kv; ko_stats kv))) _ Hacc _ _ _ Hrun).
Qed.

(** ** At concrete inputs *)

(** Two running requests share an invalid block; the first computes it anew. *)
Lemma vllm_invalid_blocks_recomputed_witness : ∃ affected total objects',
  _update_requests_with_invalid_blocks (demo_conf 16 false) ["a"%string; "b"%string] {[10; 12]}
    (demo_sched (demo_request RUNNING 12 12 13 0) (demo_request RUNNING 8 4 9 0) [] ["a"%string; "b"%string], 0) =
    (Ok (affected, total), (set_sc_objects objects' (demo_sched (demo_request RUNNING 12 12 13 0) (demo_request RUNNING 8 4 9 0) [] ["a"%string; "b"%string]), 0)) ∧
  ("a"%string ∈ affected ↔ ∃ k b, counted 4 12 [10; 11; 12] k b ∧ b ∈ ({[10; 12]} : gset Z)).
Proof.
  destruct (vllm_invalid_blocks_recomputed (demo_conf 16 false) (λ i, if decide (i = "a"%string) then [10; 11; 12] else [10; 21]) {[10; 12]}
    ["a"%string; "b"%string] (demo_sched (demo_request RUNNING 12 12 13 0) (demo_request RUNNING 8 4 9 0) [] ["a"%string; "b"%string], 0) ∅)
    as (affected & total & objects' & Hrun & _ & Hall).
  - done.
  - done.
  - done.
  - apply NoDup_cons; split; [set_solver|apply NoDup_singleton].
  - intros i [->|[->|?%not_elem_of_nil]%elem_of_cons]%elem_of_cons; [by eexists..|done].
  - exists affected, total, objects'. split; [exact Hrun|].
    destruct (Hall "a"%string (demo_request RUNNING 12 12 13 0)) as (r' & _ & Haff & _); [left|done|exact Haff].
Defined.

(** Two reports while the request waits: the second names an earlier block. *)
Lemma vllm_remote_load_recovers_witness : ∃ s' failed' r,
  (handle_reports (demo_conf 16 false) [ {[12]}; {[11]} ] ;; _update_waiting_for_remote_kv (demo_conf 16 false) "a"%string)
    (demo_sched (demo_request WAITING_FOR_REMOTE_KVS 0 0 13 0) (demo_request RUNNING 8 4 9 0) ["a"%string] ["b"%string], 0) = (Ok true, s') ∧
  dict_get "a"%string (sc_objects s'.1) = Some r ∧ vr_num_computed_tokens r = 4 ∧ sc_failed_recving_kv_req_ids s'.1 = Some failed' ∧ "a"%string ∉ failed'.
Proof.
  destruct (vllm_remote_load_recovers (Q := list string) (demo_conf 16 false) (λ i, if decide (i = "a"%string) then [10; 11; 12] else [10; 21]))
    with (r0 := demo_request WAITING_FOR_REMOTE_KVS 0 0 13 0) (i := "a"%string) (reports := [ {[12]}; {[11]} ] : list (gset Z)) (failed := ∅ : gset string)
      (s := (demo_sched (demo_request WAITING_FOR_REMOTE_KVS 0 0 13 0) (demo_request RUNNING 8 4 9 0) ["a"%string] ["b"%string], 0))
    as (s' & failed' & r & Hrun & Hr & Hcomp & _ & _ & Hf & Hin).
  all: try done.
  - intros i n w. by exists w.
  - intros i w. by exists (w + 4).
  - intros i w. by exists w.
  - apply NoDup_cons; split; [set_solver|apply NoDup_singleton].
  - intros i [->|[->|?%not_elem_of_nil]%elem_of_cons]%elem_of_cons; [by eexists..|done].
  - intros j b Hj Hne. change (j ∈ ["a"%string]) in Hj. apply list_elem_of_singleton in Hj. done.
  - left.
  - exists s', failed', r. split_and!; try done. rewrite -> Hcomp. by vm_compute.
Defined.

(** A block of the first request is invalid: only the second gives a token. *)
Lemma vllm_no_output_of_invalid_witness :
  let s := (demo_sched (demo_request RUNNING 12 12 13 0) (demo_request RUNNING 8 8 9 0) [] ["a"%string; "b"%string], 0) in
  ∃ outs s', update_from_output (demo_conf 16 false) demo_output (demo_results {[12]}) s = (Ok outs, s') ∧
    (λ x : Z * engine_outputs, eo_request_id <$> eos_outputs x.2) <$> outs = [ ["b"%string] ] ∧
    ∃ affected s1, _handle_invalid_blocks (demo_conf 16 false) {[12]} s = (Ok affected, s1) ∧
      ∀ client l o, (client, l) ∈ outs → o ∈ eos_outputs l → eo_request_id o ∉ affected ∧ eo_request_id o ∈ ["a"%string; "b"%string].
Proof.
  intros s. destruct (update_from_output (demo_conf 16 false) demo_output (demo_results {[12]}) s) as [ [outs|e] s'] eqn:E.
  - exists outs, s'. split; [done|]. split.
    + apply (f_equal (λ x : res (dict Z engine_outputs) * (vsched (list string) * Z), match x.1 with Ok d => (λ x, eo_request_id <$> eos_outputs x.2) <$> d | _ => [] end)) in E.
      etransitivity; [symmetry; exact E|]. vm_compute. reflexivity.
    + assert (Hne : ({[12]} : gset Z) ≠ ∅) by set_solver. clearbody s.
      exact (vllm_no_output_of_invalid (demo_conf 16 false) demo_output (demo_results {[12]}) (KvConnectorOutput {[12]} ∅ None) s outs s' eq_refl Hne E).
  - apply (f_equal (λ x : res (dict Z engine_outputs) * (vsched (list string) * Z), match x.1 with Ok _ => true | _ => false end)) in E.
    vm_compute in E. discriminate.
Defined.

(** With the constructor of the sparse patch alone, a report of failed blocks raises. *)
Example sparse_scheduler_cannot_recover :
  (_handle_invalid_blocks (demo_conf 16 false) {[12]} (sparse_init (Q := list string) (demo_conf 16 false), 0)).1 = Raise AttributeError.
Proof. reflexivity. Qed.
