(* ===== verification/VllmScheduleProps.v ===== *)
(** * A step of the patched scheduler keeps its invariants

    [schedule] and its two loops ([VllmSchedule.v]): they end, no request is lost or
    duplicated, and what the code asserts of the tokens and of the requests at the end
    holds. *)
From S2P Require Import Prelude Runtime EsaBatch VllmSched VllmSchedule VllmRecovery VllmConcrete.
Open Scope Z_scope.

(** ** Weakest preconditions

    [wp m s Q]: from [s], [m] returns with [Q], or raises an error of the program; it
    does not run out of fuel. *)
Definition out_of_fuel : exn := RuntimeError "out of fuel".

Definition wp {S A} (m : M S A) (s : S) (Q : A → S → Prop) : Prop :=
  match m s with (Ok a, s') => Q a s' | (Raise e, _) => e ≠ out_of_fuel end.

(** An operation that never raises that error. *)
Definition quiet {S A} (m : M S A) : Prop := ∀ s, (m s).1 ≠ Raise out_of_fuel.

Section wp.
  Context {S : Type}.

Lemma wp_bind {A B} (m : M S A) (f : A → M S B) s Q : wp m s (λ a s', wp (f a) s' Q) → wp (m ≫= f) s Q.
Proof. unfold wp, mbind, M_bind. by destruct (m s) as [ [a|e] s']. Qed.

Lemma wp_mono {A} (m : M S A) s (Q Q' : A → S → Prop) : wp m s Q → (∀ a s', Q a s' → Q' a s') → wp m s Q'.
Proof. unfold wp. destruct (m s) as [ [a|e] s']; auto. Qed.

Lemma wp_of_res {A} (r : res A) s (Q : A → S → Prop) : (∀ a, r = Ok a → Q a s) → r ≠ Raise out_of_fuel → wp (of_res r) s Q.
Proof. unfold wp, of_res. destruct r as [a|e]; [auto|]. intros _ He Heq. by subst e. Qed.

Lemma wp_assert (b : bool) s (Q : unit → S → Prop) : (b = true → Q tt s) → wp (assert_ b) s Q.
Proof. unfold wp, assert_. destruct b; cbn; [auto|done]. Qed.

Lemma wp_raise {A} e s (Q : A → S → Prop) : e ≠ out_of_fuel → wp (raise e) s Q.
Proof. done. Qed.

Lemma wp_quiet {A} (m : M S A) s Q : quiet m → (∀ a s', m s = (Ok a, s') → Q a s') → wp m s Q.
Proof. unfold wp, quiet. intros Hq HQ. specialize (Hq s). destruct (m s) as [ [a|e] s']; [by apply HQ|]. cbn in Hq. congruence. Qed.

End wp.

(** ** What the scheduler calls *)

(** The queue of waiting requests, in whatever order it keeps them. *)
Class RequestQueueLaws (Q : Type) `{RequestQueue Q} := {
  rq_list_empty : rq_list rq_empty = [];
  rq_peek_list : ∀ q, rq_peek q = head (rq_list q);
  rq_pop_list : ∀ q i l, rq_list q = i :: l → ∃ q', rq_pop q = Some (i, q') ∧ rq_list q' = l;
  rq_prepend_list : ∀ i q, rq_list (rq_prepend i q) ≡ₚ i :: rq_list q;
  rq_prepend_requests_list : ∀ q q', rq_list (rq_prepend_requests q q') ≡ₚ rq_list q ++ rq_list q';
}.

(** Their errors are their own, and the encoder never asks for more tokens. *)
Class SchedLaws (W : Type) `{KvCacheManager W} `{SchedConnector W} `{SchedSparse W} `{SchedEnv W} := {
  sl_get_block_ids : ∀ i, quiet (km_get_block_ids i);
  sl_get_blocks : ∀ i, quiet (km_get_blocks i);
  sl_allocate_slots : ∀ i r a, quiet (km_allocate_slots i r a);
  sl_get_computed_blocks : ∀ i r, quiet (km_get_computed_blocks i r);
  sl_free : ∀ i, quiet (km_free i);
  sl_cache_blocks : ∀ i n, quiet (km_cache_blocks i n);
  sl_matched : ∀ i r n, quiet (sn_get_num_new_matched_tokens i r n);
  sl_after_alloc : ∀ i r b n, quiet (sn_update_state_after_alloc i r b n);
  sl_estimate : ∀ i r, quiet (ss_estimate_num_slots_sparsed i r);
  sl_encoder_free : ∀ i, quiet (se_encoder_free i);
  sl_encoder_allocate : ∀ i x, quiet (se_encoder_allocate i x);
  sl_encoder_inputs : ∀ i r m n b, quiet (se_try_schedule_encoder_inputs i r m n b);
  sl_encoder_tokens : ∀ i r m n b w x w', se_try_schedule_encoder_inputs i r m n b w = (Ok x, w') → 0 ≤ n → 0 ≤ x.1.2 ≤ n;
}.

Lemma remove_one_perm x l : x ∈ l → l ≡ₚ x :: remove_one x l.
Proof.
  induction l as [|y l IH]; cbn; [by intros ?%not_elem_of_nil|]. rewrite -> elem_of_cons. intros Hx. case_decide as E; [by subst|].
  destruct Hx as [|Hx]; [done|]. rewrite -> (IH Hx) at 1. apply perm_swap.
Qed.

Lemma remove_one_id x l : x ∉ l → remove_one x l = l.
Proof. induction l as [|y l IH]; cbn; [done|]. rewrite -> not_elem_of_cons. intros [? ?]. rewrite -> decide_False by done. by rewrite -> IH. Qed.

Lemma elem_take_le {A} (j : A) n m l : (n ≤ m)%nat → j ∈ take n l → j ∈ take m l.
Proof. rewrite -> !elem_of_take. intros Hnm (i & Hi & Hn). exists i. split; [done|lia]. Qed.

Lemma elem_drop {A} (j : A) n l : j ∈ drop n l ↔ ∃ i, l !! i = Some j ∧ (n ≤ i)%nat.
Proof.
  rewrite -> list_elem_of_lookup. setoid_rewrite lookup_drop. split.
  - intros [i Hi]. exists (n + i)%nat. split; [done|lia].
  - intros (i & Hi & Hn). exists (i - n)%nat. by replace (n + (i - n))%nat with i by lia.
Qed.

Lemma elem_drop_le {A} (j : A) n m l : (n ≤ m)%nat → j ∈ drop m l → j ∈ drop n l.
Proof. rewrite -> !elem_drop. intros Hnm (i & Hi & Hn). exists i. split; [done|lia]. Qed.

Lemma remove_one_take x l n j : j ∈ take n l → j ≠ x → j ∈ take n (remove_one x l).
Proof.
  revert n. induction l as [|y l IH]; intros [|n]; cbn; [done..|by intros ?%not_elem_of_nil|]. rewrite -> elem_of_cons. intros Hj Hne.
  case_decide as E.
  - subst y. destruct Hj as [|Hj]; [done|]. by apply (elem_take_le _ n); [lia|].
  - cbn. rewrite -> elem_of_cons. destruct Hj as [|Hj]; [by left|right; by apply IH].
Qed.

Lemma remove_one_drop x l n j : j ∈ drop n (remove_one x l) → j ∈ drop n l.
Proof.
  revert n. induction l as [|y l IH]; intros [|n]; cbn [remove_one]; [done..| |].
  - destruct (decide (x = y)) as [E|E]; [intros Hj; by right|]. rewrite -> !drop_0. intros [->|Hj]%elem_of_cons; [by left|right]. exact (IH 0%nat Hj).
  - change (drop (S n) (y :: l)) with (drop n l). case_decide as E; [|apply IH]. apply elem_drop_le. lia.
Qed.

(** The requests without the one preempted: those before a position stay before it,
    those from it on were so. *)
Record removed (v : string) (run run' : list string) : Prop := Removed {
  rm_perm : run ≡ₚ v :: run';
  rm_take : ∀ n j, j ∈ take n run → j ≠ v → j ∈ take n run';
  rm_drop : ∀ n j, j ∈ drop n run' → j ∈ drop n run;
}.

Lemma removed_one v run : v ∈ run → removed v run (remove_one v run).
Proof. intros Hv. split; [by apply remove_one_perm|intros; by apply remove_one_take|intros n j; apply remove_one_drop]. Qed.

Lemma removed_last v run : removed v (run ++ [v]) run.
Proof.
  split.
  - symmetry. apply Permutation_cons_append.
  - intros n j. rewrite -> !elem_of_take. intros (i & Hi & Hn) Hne. exists i. split; [|done].
    apply lookup_app_Some in Hi as [?|[_ Hi] ]; [done|]. apply list_lookup_singleton_Some in Hi as [_ Hi]. done.
  - intros n j. rewrite -> !elem_drop. intros (i & Hi & Hn). exists i. split; [|done]. by apply lookup_app_l_Some.
Qed.

Lemma lowest_priority_elem objects run v : lowest_priority objects run = Ok v → v ∈ run.
Proof.
  destruct run as [|x l]; [done|]. cbn. intros [= <-]. revert x. induction l as [|y l IH]; intros x; cbn; [by left|].
  case_match; [right; apply IH|]. specialize (IH x). rewrite -> elem_of_cons in IH. destruct IH as [->|IH]; [by left|right; by right].
Qed.

(** ** The invariant of the first loop *)
Section running.
  Context {Q W : Type} `{RequestQueueLaws Q} `{SchedLaws W}.
  Variable c : vsched_conf.
  Variable all : list string.
  Hypothesis distinct : NoDup all.

(** A running request can take tokens. *)
Definition can_run (r : vrequest) : Prop :=
  vr_num_computed_tokens r ≤ vc_max_model_len c - 1 ∧
  vr_num_computed_tokens r ≤ vr_num_tokens_with_spec r + vr_num_output_placeholders r.

(** The tokens given and those left make up the budget. *)
Record budget_inv (scheduled : dict string Z) (budget : Z) : Prop := BudgetInv {
  bi_keys : NoDup scheduled.*1;
  bi_positive : Forall (λ x, 0 < x.2) scheduled;
  bi_sum : zsum scheduled.*2 + budget = vc_max_num_scheduled_tokens c;
  bi_left : 0 ≤ budget;
}.

Lemma budget_set i n scheduled budget : budget_inv scheduled budget → i ∉ scheduled.*1 → 0 < n ≤ budget →
  budget_inv (dict_set i n scheduled) (budget - n).
Proof.
  intros [Hk Hp Hs Hl] Hi Hn. split; [by apply dict_set_NoDup| | |lia]; rewrite -> dict_set_fresh by done.
  - apply Forall_app. split; [done|]. apply Forall_singleton. cbn. lia.
  - rewrite -> fmap_app, zsum_app. cbn. lia.
Qed.

(** The part of the plan the invariant is about. *)
Definition core (p : plan Q) := (pl_new_reqs p, pl_resumed_reqs p, pl_running_reqs p, pl_preempted_reqs p, pl_num_scheduled_tokens p, pl_token_budget p, pl_req_index p, pl_skipped p).

Record running_inv (p : plan Q) (s : vsched Q) : Prop := RunningInv {
  wi_all : sc_running s ++ rq_list (sc_waiting s) ≡ₚ all;
  wi_objects : ∀ i, i ∈ all → is_Some (dict_get i (sc_objects s));
  wi_len : zlen (sc_running s) ≤ vc_max_num_running_reqs c;
  wi_index : 0 ≤ pl_req_index p;
  wi_ready : ∀ i r, i ∈ drop (Z.to_nat (pl_req_index p)) (sc_running s) → dict_get i (sc_objects s) = Some r → can_run r;
  wi_NoDup : NoDup (pl_running_reqs p);
  wi_running : ∀ i, i ∈ pl_running_reqs p → i ∈ take (Z.to_nat (pl_req_index p)) (sc_running s);
  wi_given : ∀ i, i ∈ pl_running_reqs p → i ∈ (pl_num_scheduled_tokens p).*1;
  wi_keys : ∀ i, i ∈ (pl_num_scheduled_tokens p).*1 → i ∈ take (Z.to_nat (pl_req_index p)) (sc_running s) ∨ i ∈ pl_preempted_reqs p;
  wi_preempted : ∀ i, i ∈ pl_preempted_reqs p → i ∈ rq_list (sc_waiting s);
  wi_budget : budget_inv (pl_num_scheduled_tokens p) (pl_token_budget p);
  wi_others : pl_new_reqs p = [] ∧ pl_resumed_reqs p = [] ∧ rq_list (pl_skipped p) = [];
}.

Lemma running_transport p p' s s' : running_inv p s → core p' = core p → sc_running s' = sc_running s → sc_waiting s' = sc_waiting s →
  (∀ i, is_Some (dict_get i (sc_objects s)) → is_Some (dict_get i (sc_objects s'))) →
  (∀ i, i ∈ drop (Z.to_nat (pl_req_index p)) (sc_running s) → dict_get i (sc_objects s') = dict_get i (sc_objects s)) → running_inv p' s'.
Proof.
  unfold core. intros [Hall Hobj Hlen Hidx Hready Hnd Hrun Hgiv Hkeys Hpre Hb Ho] [= En Er Eru Ep Es Eb Ei Esk] Hr Hw Hdom Hsame.
  split; rewrite -> ?En, ?Er, ?Eru, ?Ep, ?Es, ?Eb, ?Ei, ?Esk, ?Hr, ?Hw; try done; [by auto|].
  intros i r Hi. rewrite -> Hsame by done. by apply Hready.
Qed.

Lemma running_NoDup p s : running_inv p s → NoDup (sc_running s) ∧ ∀ i, i ∈ sc_running s → i ∉ rq_list (sc_waiting s).
Proof. intros Hp. pose proof distinct as Hd. rewrite <- (wi_all _ _ Hp) in Hd. apply NoDup_app in Hd as (? & ? & ?). done. Qed.

Lemma running_object p s i : running_inv p s → i ∈ sc_running s → is_Some (dict_get i (sc_objects s)).
Proof. intros Hp Hi. apply (wi_objects _ _ Hp). rewrite <- (wi_all _ _ Hp). apply elem_of_app. by left. Qed.

(** ** Steps of the monad *)

Lemma wp_on_sw {B} (m : M W B) (s : vsched Q * W) Q' : quiet m → (∀ x w w', m w = (Ok x, w') → Q' x (s.1, w')) → wp (on_sw m) s Q'.
Proof. unfold wp, on_sw, lift, quiet. intros Hq HQ. specialize (Hq s.2). destruct (m s.2) as [ [x|e] w'] eqn:E; [by eapply HQ|]. cbn in Hq. congruence. Qed.

Lemma wp_req_of i (s : vsched Q * W) Q' r : dict_get i (sc_objects s.1) = Some r → Q' r s → wp (req_of i) s Q'.
Proof. intros Hr HQ. unfold wp, req_of, getsc. mstep. unfold of_res. by rewrite -> (proj2 (dict_index_Ok _ _ _) Hr). Qed.

Lemma wp_up_req i f (s : vsched Q * W) (Q' : unit → vsched Q * W → Prop) r : dict_get i (sc_objects s.1) = Some r →
  Q' tt (set_sc_objects (dict_set i (f r) (sc_objects s.1)) s.1, s.2) → wp (up_req i f) s Q'.
Proof. intros Hr HQ. apply wp_bind, (wp_req_of _ _ _ r); [done|]. exact HQ. Qed.

Lemma dict_set_present {V} i j (x : V) (d : dict string V) : is_Some (dict_get i d) → is_Some (dict_get i (dict_set j x d)).
Proof. intros Hi. rewrite -> dict_get_set. by case_decide. Qed.

(** ** Preemption *)
Lemma py_upto_init {A} (l : list A) x : py_upto (l ++ [x]) (-1) = l.
Proof.
  unfold py_upto, norm_idx. change (-1 <? 0) with true. cbn iota. rewrite -> zlen_app. change (zlen [x]) with 1.
  replace (Z.to_nat _) with (length l) by (unfold zlen; lia). by rewrite -> take_app_length.
Qed.

Lemma pick_victim_wp p (s : vsched Q * W) req_id : running_inv p s.1 → req_id ∈ sc_running s.1 →
  (vc_priority c = false → sc_running s.1 !! Z.to_nat (pl_req_index p) = Some req_id) →
  wp (pick_victim c p) s (λ x s', ∃ run', removed x.1 (sc_running s.1) run' ∧ s' = (set_sc_running run' s.1, s.2) ∧
    (vc_priority c = false → sc_running s.1 = run' ++ [x.1]) ∧
    ∃ l, x.2 = set_pl_reqs (pl_new_reqs p) (pl_resumed_reqs p) l (pl_preempted_reqs p) p ∧ NoDup l ∧ ∀ i, i ∈ l → i ∈ pl_running_reqs p ∧ i ≠ x.1).
Proof.
  intros Hp Hreq Hfcfs. pose proof (wi_NoDup _ _ Hp) as Hnd. destruct (running_NoDup _ _ Hp) as [Hrun _]. unfold pick_victim. apply wp_bind. unfold wp at 1. cbn [getsc gets]. unfold id.
  destruct (vc_priority c).
  - apply wp_bind, wp_of_res.
    + intros v Hv%lowest_priority_elem. apply wp_bind. exists (remove_one v (sc_running s.1)). split_and!; [by apply removed_one|done|done|].
      exists (remove_one v (pl_running_reqs p)). split; [done|]. destruct (decide (v ∈ pl_running_reqs p)) as [Hin|Hin].
      * rewrite -> (remove_one_perm v _ Hin) in Hnd. apply NoDup_cons in Hnd as [Hv' Hnd]. split; [done|]. intros i Hi. split; [|by intros ->].
        rewrite -> (remove_one_perm v _ Hin). by right.
      * rewrite -> remove_one_id by done. split; [done|]. intros i Hi. split; [done|]. by intros ->.
    + unfold lowest_priority. by destruct (sc_running s.1).
  - specialize (Hfcfs eq_refl). destruct (last (sc_running s.1)) as [v|] eqn:E.
    + apply last_Some in E as [run' E]. apply wp_bind. exists run'. rewrite -> E. split; [apply removed_last|]. split.
      { rewrite -> py_upto_init. by destruct s. }
      split; [done|]. exists (pl_running_reqs p). split; [by destruct p|]. split; [done|]. intros i Hi. split; [done|]. intros ->.
      apply (wi_running _ _ Hp), elem_of_take in Hi as (k & Hk & Hlt). assert (k = length run') as ->.
      { eapply NoDup_lookup; [exact Hrun|exact Hk|]. rewrite -> E. by apply list_lookup_middle. }
      apply lookup_lt_Some in Hfcfs. rewrite -> E, length_app in Hfcfs. cbn in Hfcfs. lia.
    + apply last_None in E. by rewrite -> E in Hreq.
Qed.

(** The request that takes tokens, between the preemptions made for it. *)
Record current_inv (req_id : string) (p : plan Q) (s : vsched Q) : Prop := CurrentInv {
  ci_running : req_id ∈ take (S (Z.to_nat (pl_req_index p))) (sc_running s);
  ci_place : vc_priority c = false → sc_running s !! Z.to_nat (pl_req_index p) = Some req_id;
  ci_fresh : req_id ∉ pl_running_reqs p;
  ci_tokens : req_id ∉ (pl_num_scheduled_tokens p).*1;
}.

(** Changes of the requests of the plan only. *)
Definition same_tokens (p p' : plan Q) : Prop :=
  ∃ a b, p' = set_pl_reqs (pl_new_reqs p) (pl_resumed_reqs p) a b p.

Lemma preempt_wp p p' victim run' l (s : vsched Q * W) : running_inv p s.1 → removed victim (sc_running s.1) run' →
  p' = set_pl_reqs (pl_new_reqs p) (pl_resumed_reqs p) l (pl_preempted_reqs p) p → NoDup l → (∀ i, i ∈ l → i ∈ pl_running_reqs p ∧ i ≠ victim) →
  wp (preempt victim p') (set_sc_running run' s.1, s.2) (λ p'' s', running_inv p'' s'.1 ∧ sc_running s'.1 = run' ∧
    p'' = set_pl_reqs (pl_new_reqs p) (pl_resumed_reqs p) l (pl_preempted_reqs p ++ [victim]) p).
Proof.
  intros Hp Hrm -> Hl Hlin. destruct (running_NoDup _ _ Hp) as [Hrun Hdisj]. pose proof Hp as [Hall Hobj Hlen Hidx Hready _ Hinrun Hgiv Hkeys Hpre Hb Ho].
  assert (Hv : victim ∈ sc_running s.1) by (rewrite -> (rm_perm _ _ _ Hrm); left).
  assert (Hv' : victim ∉ run') by (rewrite -> (rm_perm _ _ _ Hrm) in Hrun; by apply NoDup_cons in Hrun as [? _]).
  destruct (running_object _ _ victim Hp Hv) as [r Hr]. unfold preempt.
  apply wp_bind, wp_on_sw; [apply sl_free|]. intros _ w w' _. apply wp_bind, wp_on_sw; [apply sl_encoder_free|]. intros _ w1 w1' _.
  apply wp_bind, (wp_up_req _ _ _ _ r); [exact Hr|]. apply wp_bind. unfold wp, upsc, modify, mret, M_ret. cbn [fst snd].
  split; [|done]. split; cbn; try done.
  - rewrite -> (rq_prepend_list victim), <- Permutation_middle, <- Hall, (rm_perm _ _ _ Hrm). done.
  - intros i Hi. by apply dict_set_present, Hobj.
  - pose proof (Permutation_length (rm_perm _ _ _ Hrm)) as Hpl. cbn in Hpl. unfold zlen in *. lia.
  - intros i r' Hi Hr'. rewrite -> dict_get_set_ne in Hr'; [|intros <-; apply Hv'; apply (elem_drop_le _ 0) in Hi; [done|lia] ].
    apply (Hready i); [by apply (rm_drop _ _ _ Hrm)|done].
  - intros i [Hi Hne]%Hlin. by apply (rm_take _ _ _ Hrm), Hne; apply Hinrun.
  - intros i [Hi _]%Hlin. by apply Hgiv.
  - intros i Hi. rewrite -> elem_of_app, list_elem_of_singleton. destruct (Hkeys i Hi) as [Ht|Ht]; [|by right; left].
    destruct (decide (i = victim)) as [|Hne]; [by right; right|left]. by apply (rm_take _ _ _ Hrm).
  - intros i. rewrite -> elem_of_app, list_elem_of_singleton, (rq_prepend_list victim), elem_of_cons. intros [Hi|Hi]; [right; by apply Hpre|by left].
Qed.

Lemma allocate_wp fuel : ∀ req_id args p (s : vsched Q * W), running_inv p s.1 → current_inv req_id p s.1 → (length (sc_running s.1) ≤ fuel)%nat →
  wp (allocate_or_preempt c fuel req_id args p) s (λ x s', running_inv x.1 s'.1 ∧ same_tokens p x.1 ∧ (length (sc_running s'.1) ≤ length (sc_running s.1))%nat ∧
    (is_Some x.2 → current_inv req_id x.1 s'.1)).
Proof.
  induction fuel as [|fuel IH]; intros req_id args p s Hp [Ht Hplace Hfresh Htok] Hfuel.
  { apply elem_of_take in Ht as (k & Hk%lookup_lt_Some & _). lia. }
  assert (Hin : req_id ∈ sc_running s.1) by (apply elem_of_take in Ht as (k & Hk & _); by eapply list_elem_of_lookup_2).
  destruct (running_object _ _ req_id Hp Hin) as [r Hr]. cbn [allocate_or_preempt]. apply wp_bind, (wp_req_of _ _ _ r); [done|].
  apply wp_bind, wp_on_sw; [apply sl_allocate_slots|]. intros [b|] w w' _.
  { split; [done|]. split; [by exists (pl_running_reqs p), (pl_preempted_reqs p); destruct p|]. split; [done|]. by split. }
  apply wp_bind. eapply wp_mono; [by apply (pick_victim_wp p (s.1, w') req_id)|]. cbn [fst snd].
  intros [victim p'] s' (run' & Hrm & -> & Hlast & l & Hp' & Hl & Hlin). cbn [fst snd] in *.
  apply wp_bind. eapply wp_mono; [by apply (preempt_wp p p' victim run' l (s.1, w'))|]. cbn [fst snd].
  intros p'' s'' (Hinv & Hrun & ->). assert (Hst : same_tokens p (set_pl_reqs (pl_new_reqs p) (pl_resumed_reqs p) l (pl_preempted_reqs p ++ [victim]) p)) by (by eexists _, _).
  pose proof (Permutation_length (rm_perm _ _ _ Hrm)) as Hpl. cbn in Hpl.
  destruct (decide (victim = req_id)) as [|Hne]; [split; [done|]; split; [done|]; split; [cbn; rewrite -> Hrun; lia|by intros [? ?] ]|].
  eapply wp_mono; [apply IH; [done| |]|].
  - split; cbn; rewrite -> ?Hrun.
    + by apply (rm_take _ _ _ Hrm).
    + intros Hpol. specialize (Hlast Hpol). rewrite -> Hlast in Hplace. specialize (Hplace Hpol).
      apply lookup_app_Some in Hplace as [?|[_ Hx] ]; [done|]. apply list_lookup_singleton_Some in Hx as [_ ?]. done.
    + intros [? _]%Hlin. done.
    + done.
  - rewrite -> Hrun. lia.
  - cbn. intros x s3 (? & ? & Hl3 & ?). split_and!; try done. rewrite -> Hrun in Hl3. lia.
Qed.

(** ** A round of the first loop *)
Lemma running_new_tokens_bounds r budget : can_run r → 0 ≤ budget → 0 ≤ running_new_tokens c r budget ≤ budget.
Proof. intros [? ?] ?. unfold running_new_tokens. destruct (_ && _) eqn:E; [apply andb_true_iff in E as [E1%Z.ltb_lt E2%Z.ltb_lt]|]; lia. Qed.

Lemma sparsed_slots_wp i r (s : vsched Q * W) Q' : (∀ n w', Q' n (s.1, w')) → wp (sparsed_slots c i r) s Q'.
Proof. intros HQ. unfold sparsed_slots. destruct (vc_has_sparse c); [apply wp_on_sw; [apply sl_estimate|auto]|]. destruct s. apply HQ. Qed.

Lemma encoder_inputs_wp i r computed n budget (s : vsched Q * W) Q' : 0 ≤ n →
  (∀ inputs n' b w', 0 ≤ n' ≤ n → (vr_has_encoder_inputs r = false → n' = n) → Q' (inputs, n', b) (s.1, w')) → wp (encoder_inputs i r computed n budget) s Q'.
Proof.
  intros Hn HQ. unfold encoder_inputs. destruct (vr_has_encoder_inputs r).
  - apply wp_on_sw; [apply sl_encoder_inputs|]. intros [ [inputs n'] b] w w' Hrun. apply sl_encoder_tokens in Hrun; [|done]. by apply HQ.
  - destruct s. apply HQ; [lia|done].
Qed.

(** What the last steps for a request may change. *)
Definition finishing (req_id : string) (p : plan Q) (s : vsched Q) (p' : plan Q) (s' : vsched Q) : Prop :=
  core p' = core p ∧ sc_running s' = sc_running s ∧ sc_waiting s' = sc_waiting s ∧
  (∀ i, is_Some (dict_get i (sc_objects s)) → is_Some (dict_get i (sc_objects s'))) ∧
  ∀ i, i ≠ req_id → dict_get i (sc_objects s') = dict_get i (sc_objects s).

Lemma schedule_spec_wp req_id n p (s : vsched Q * W) : is_Some (dict_get req_id (sc_objects s.1)) →
  wp (schedule_spec req_id n p) s (λ p' s', finishing req_id p s.1 p' s'.1).
Proof.
  intros [r Hr]. unfold schedule_spec. apply wp_bind, (wp_req_of _ _ _ r); [done|]. destruct (vr_spec_token_ids r); [done|]. case_match; [|done].
  apply wp_bind, (wp_up_req _ _ _ _ r); [done|]. split_and!; try done; cbn.
  - intros i. apply dict_set_present.
  - intros i Hi. by apply dict_get_set_ne.
Qed.

Lemma allocate_all_wp req_id inputs : ∀ s : vsched Q * W,
  wp (for_each inputs (λ i, on_sw (se_encoder_allocate req_id i))) s (λ _ s', s'.1 = s.1).
Proof.
  induction inputs as [|x l IH]; intros s; [done|]. cbn [for_each].
  apply wp_bind, wp_on_sw; [apply sl_encoder_allocate|]. intros _ w w' _. eapply wp_mono; [apply IH|]. done.
Qed.

Lemma schedule_encoder_wp req_id inputs b p (s : vsched Q * W) :
  wp (schedule_encoder req_id inputs b p) s (λ p' s', core p' = core p ∧ s'.1 = s.1).
Proof.
  unfold schedule_encoder. destruct inputs as [|x l]; [done|]. apply wp_bind. eapply (wp_mono _ _ (λ _ s', s'.1 = s.1)); [|done].
  apply allocate_all_wp.
Qed.

(** A position is not before itself. *)
Lemma not_before (l : list string) k i : NoDup l → l !! k = Some i → i ∉ take k l.
Proof. intros Hnd Hk (j & Hj & Hlt)%elem_of_take. pose proof (NoDup_lookup _ _ _ _ Hnd Hj Hk). lia. Qed.

Lemma before_not_after (l : list string) k i : NoDup l → i ∈ take k l → i ∉ drop k l.
Proof. intros Hnd (j & Hj & Hlt)%elem_of_take (j' & Hj' & Hge)%elem_drop. pose proof (NoDup_lookup _ _ _ _ Hnd Hj Hj'). lia. Qed.

(** On to the next request. *)
Lemma skipped_inv p s : running_inv p s → running_inv (set_pl_index (pl_req_index p + 1) p) s.
Proof.
  intros [Hall Hobj Hlen Hidx Hready Hnd Hrun Hgiv Hkeys Hpre Hb Ho].
  assert (Hle : (Z.to_nat (pl_req_index p) ≤ Z.to_nat (pl_req_index p + 1))%nat) by lia. split; cbn; try done; try lia.
  - intros i r Hi. apply Hready. by eapply elem_drop_le.
  - intros i Hi. eapply elem_take_le; [exact Hle|by apply Hrun].
  - intros i [Hi|Hi]%Hkeys; [left; by eapply elem_take_le|by right].
Qed.

(** The tokens go to the current request. *)
Definition grant (req_id : string) (n : Z) (blocks : kv_blocks) (p : plan Q) : plan Q :=
  set_pl_index (pl_req_index p + 1)
    (set_pl_tokens (dict_set req_id blocks (pl_new_blocks p)) (dict_set req_id n (pl_num_scheduled_tokens p)) (pl_token_budget p - n)
      (set_pl_reqs (pl_new_reqs p) (pl_resumed_reqs p) (pl_running_reqs p ++ [req_id]) (pl_preempted_reqs p) p)).

Lemma grant_inv req_id n blocks p s : running_inv p s → current_inv req_id p s → 0 < n ≤ pl_token_budget p → running_inv (grant req_id n blocks p) s.
Proof.
  intros Hp [Ht _ Hfresh Htok] Hn. destruct (skipped_inv p s Hp) as [Hall Hobj Hlen Hidx Hready Hnd Hrun Hgiv Hkeys Hpre Hb Ho]. cbn in *.
  assert (Hcur : req_id ∈ take (Z.to_nat (pl_req_index p + 1)) (sc_running s)).
  { eapply elem_take_le; [|exact Ht]. pose proof (wi_index _ _ Hp). lia. }
  split; cbn; try done.
  - apply NoDup_app. split_and!; [done| |by apply NoDup_singleton]. intros i Hi ->%list_elem_of_singleton. done.
  - intros i [Hi| ->%list_elem_of_singleton]%elem_of_app; [by apply Hrun|done].
  - intros i [Hi| ->%list_elem_of_singleton]%elem_of_app; apply dict_set_keys; [right; by apply Hgiv|by left].
  - intros i [->|Hi]%dict_set_keys; [by left|by apply Hkeys].
  - by apply budget_set.
Qed.

Lemma running_step_wp p (s : vsched Q * W) : running_inv p s.1 → pl_req_index p < zlen (sc_running s.1) → 0 < pl_token_budget p →
  wp (running_step c p) s (λ x s', running_inv x.1 s'.1 ∧ ((x.2 : bool) = true → zlen (sc_running s'.1) - pl_req_index x.1 < zlen (sc_running s.1) - pl_req_index p)).
Proof.
  intros Hp Hidx Hbudget. destruct (running_NoDup _ _ Hp) as [Hnd Hdisj]. pose proof (wi_index _ _ Hp) as Hpos.
  destruct (py_index_in (sc_running s.1) (pl_req_index p)) as (req_id & Hreq & Hlook); [done|].
  assert (Hin : req_id ∈ sc_running s.1) by by eapply list_elem_of_lookup_2. destruct (running_object _ _ req_id Hp Hin) as [r Hr].
  assert (Hcan : can_run r) by (apply (wi_ready _ _ Hp req_id); [apply elem_drop; by eexists|done]).
  unfold running_step. apply wp_bind. unfold wp at 1. cbn [getsc gets]. apply wp_bind. rewrite -> Hreq. unfold wp at 1. cbn [of_res].
  apply wp_bind, (wp_req_of _ _ _ r); [done|]. apply wp_bind, sparsed_slots_wp. intros slots w1. set (p1 := set_pl_maps _ _ p).
  pose proof (running_new_tokens_bounds r (pl_token_budget p) Hcan ltac:(lia)) as Hn.
  apply wp_bind, encoder_inputs_wp; [apply Hn|]. intros inputs n eb w2 Hn' _. destruct (n =? 0) eqn:En.
  { split; cbn; [|lia]. by apply (running_transport (set_pl_index (pl_req_index p + 1) p) _ s.1); [apply skipped_inv|..]. }
  apply Z.eqb_neq in En. apply wp_bind. eapply wp_mono; [apply (allocate_wp _ req_id); [by apply (running_transport p p1 s.1)| |done]|].
  { split; cbn; try done.
    - apply elem_of_take. exists (Z.to_nat (pl_req_index p)). split; [done|lia].
    - intros Hi%(wi_running _ _ Hp). by apply (not_before (sc_running s.1) (Z.to_nat (pl_req_index p)) req_id).
    - intros [Hi|Hi]%(wi_keys _ _ Hp).
      + by apply (not_before (sc_running s.1) (Z.to_nat (pl_req_index p)) req_id).
      + by apply (Hdisj req_id), (wi_preempted _ _ Hp). }
  cbn [fst snd]. intros [p' [blocks|] ] s' (Hinv & (a & b & Hp') & Hlen & Hcur); cbn [fst snd] in *; [|done]. specialize (Hcur ltac:(by eexists)).
  assert (Hgrant : running_inv (grant req_id n blocks p') s'.1) by (apply grant_inv; [done|done|]; rewrite -> Hp'; cbn in *; lia).
  assert (Hpi : pl_req_index p' = pl_req_index p) by (by rewrite -> Hp').
  assert (Hin' : req_id ∈ sc_running s'.1) by (destruct Hcur as [(k & Hk & _)%elem_of_take _ _ _]; by eapply list_elem_of_lookup_2).
  apply wp_bind. eapply wp_mono; [apply schedule_spec_wp; by eapply running_object|]. cbv beta.
  intros p2 s2 (Hc2 & Hr2 & Hw2 & Hd2 & Ho2). apply wp_bind. eapply wp_mono; [apply schedule_encoder_wp|]. intros p3 s3 [Hc3 Hs3].
  assert (Hc : core p3 = core (grant req_id n blocks p')) by (rewrite -> Hc3; exact Hc2). split; cbn [fst snd]; rewrite -> Hs3.
  - apply (running_transport (grant req_id n blocks p') _ s'.1); try done. intros i Hi. apply Ho2. intros ->.
    destruct Hcur as [Ht _ _ _]. destruct (running_NoDup _ _ Hinv) as [Hnd' _]. cbn in Hi.
    replace (Z.to_nat (pl_req_index p' + 1)) with (S (Z.to_nat (pl_req_index p'))) in Hi by lia. by apply (before_not_after _ _ _ Hnd' Ht).
  - intros _. assert (pl_req_index p3 = pl_req_index p + 1) as -> by (injection Hc; intros; cbn in *; congruence). rewrite -> Hr2. unfold zlen. lia.
Qed.

Lemma schedule_running_wp fuel : ∀ p (s : vsched Q * W), running_inv p s.1 → zlen (sc_running s.1) - pl_req_index p ≤ Z.of_nat fuel →
  wp (schedule_running c fuel p) s (λ p' s', running_inv p' s'.1).
Proof.
  induction fuel as [|fuel IH]; intros p s Hp Hfuel; cbn [schedule_running]; apply wp_bind; unfold wp at 1; cbn [getsc gets];
    destruct ((pl_req_index p <? zlen (sc_running s.1)) && (0 <? pl_token_budget p)) eqn:E; try done;
    apply andb_true_iff in E as [E1%Z.ltb_lt E2%Z.ltb_lt]; [lia|].
  apply wp_bind. eapply wp_mono; [by apply running_step_wp|]. intros [p' b] s' [Hp' Hm]. cbn [fst snd] in *. destruct b; [|done].
  apply IH; [done|]. specialize (Hm eq_refl). lia.
Qed.

End running.

(** ** The invariant of the second loop *)
Section waiting.
  Context {Q W : Type} `{RequestQueueLaws Q} `{SchedLaws W}.
  Variable c : vsched_conf.
  Variable all : list string.
  Hypothesis distinct : NoDup all.

(** The requests given tokens in this step. *)
Definition scheduled_reqs (p : plan Q) : list string := pl_new_reqs p ++ pl_resumed_reqs p ++ pl_running_reqs p.

(** [out] is off the queues. *)
Record waiting_inv (out : list string) (p : plan Q) (s : vsched Q) : Prop := WaitingInv {
  vi_all : sc_running s ++ out ++ rq_list (sc_waiting s) ++ rq_list (pl_skipped p) ≡ₚ all;
  vi_objects : ∀ i, i ∈ all → is_Some (dict_get i (sc_objects s));
  vi_len : zlen (sc_running s) ≤ vc_max_num_running_reqs c;
  vi_NoDup : NoDup (scheduled_reqs p);
  vi_running : ∀ i, i ∈ scheduled_reqs p → i ∈ sc_running s;
  vi_given : ∀ i, i ∈ scheduled_reqs p → i ∈ (pl_num_scheduled_tokens p).*1;
  vi_keys : ∀ i, i ∈ (pl_num_scheduled_tokens p).*1 → i ∈ sc_running s;
  vi_budget : budget_inv c (pl_num_scheduled_tokens p) (pl_token_budget p);
  vi_preempted : pl_preempted_reqs p = [];
}.

(** Changes of the objects only. *)
Definition objects_only (s s' : vsched Q) : Prop :=
  sc_running s' = sc_running s ∧ sc_waiting s' = sc_waiting s ∧ ∀ i, is_Some (dict_get i (sc_objects s)) → is_Some (dict_get i (sc_objects s')).

Lemma objects_only_refl s : objects_only s s.
Proof. done. Qed.

Lemma objects_only_trans s1 s2 s3 : objects_only s1 s2 → objects_only s2 s3 → objects_only s1 s3.
Proof. intros (? & ? & ?) (? & ? & ?). split_and!; [congruence|congruence|auto]. Qed.

Lemma objects_only_set i x (s : vsched Q) : objects_only s (set_sc_objects (dict_set i x (sc_objects s)) s).
Proof. split_and!; try done. intros j. apply dict_set_present. Qed.

Lemma waiting_transport out p p' s s' : waiting_inv out p s → core p' = core p → objects_only s s' → waiting_inv out p' s'.
Proof.
  unfold core. intros [Hall Hobj Hlen Hnd Hrun Hgiv Hkeys Hb Hpre] [= En Er Eru Ep Es Eb Ei Esk] (Hr & Hw & Hdom). unfold scheduled_reqs in *.
  split; unfold scheduled_reqs; rewrite -> ?En, ?Er, ?Eru, ?Ep, ?Es, ?Eb, ?Esk, ?Hr, ?Hw; try done. by auto.
Qed.

Lemma up_req_wp i f (s : vsched Q * W) : is_Some (dict_get i (sc_objects s.1)) → wp (up_req i f) s (λ _ s', objects_only s.1 s'.1).
Proof. intros [r Hr]. apply (wp_up_req _ _ _ _ r); [done|]. apply objects_only_set. Qed.

Lemma wp_objects {A} (m : M (vsched Q * W) A) (s0 s : vsched Q * W) Q' : wp m s Q' → objects_only s0.1 s.1 →
  (∀ a s', Q' a s' → objects_only s.1 s'.1) → wp m s (λ a s', Q' a s' ∧ objects_only s0.1 s'.1).
Proof. intros Hm H0s Hq. eapply wp_mono; [exact Hm|]. intros a s' Ha. split; [done|]. eapply objects_only_trans; [exact H0s|]. by eapply Hq. Qed.

Lemma one_group_wp groups (s : vsched Q * W) Q' : (∀ g, Q' g s) → wp (of_res (one_group groups)) s Q'.
Proof. intros HQ. apply wp_of_res; [intros; apply HQ|]. by destruct groups as [|? [|] ]. Qed.

Lemma update_remote_wp i (s : vsched Q * W) : is_Some (dict_get i (sc_objects s.1)) →
  wp (_update_waiting_for_remote_kv c i) s (λ _ s', objects_only s.1 s'.1).
Proof.
  intros [r Hr]. unfold _update_waiting_for_remote_kv. apply wp_bind, wp_assert. intros _. apply wp_bind.
  unfold failed_recving. apply wp_bind. unfold wp at 1. cbn [getsc gets]. destruct (sc_failed_recving_kv_req_ids s.1) as [failed|]; [|done].
  unfold wp at 1. cbn [mret M_ret]. apply wp_bind. unfold wp at 1. cbn [getsc gets]. case_bool_decide; [done|].
  apply wp_bind, (wp_req_of _ _ _ r); [done|]. apply wp_bind. eapply (wp_mono _ _ (λ _ s', objects_only s.1 s'.1)).
  - case_bool_decide; apply wp_bind.
    + eapply (wp_mono _ _ (λ _ s', objects_only s.1 s'.1)); [|intros _ s' Hs; exact Hs]. case_match; apply wp_on_sw; [apply sl_cache_blocks|done|apply sl_free|done].
    + apply wp_on_sw; [apply sl_get_block_ids|]. intros groups w w' _. apply wp_bind, one_group_wp. intros ids. apply wp_bind, wp_on_sw; [apply sl_cache_blocks|].
      intros _ w1 w1' _. apply (up_req_wp i _ (s.1, w1')). by eexists.
  - intros _ s' Hs. exact Hs.
Qed.

Lemma waiting_ready_wp i (s : vsched Q * W) : is_Some (dict_get i (sc_objects s.1)) → wp (waiting_ready c i) s (λ _ s', objects_only s.1 s'.1).
Proof.
  intros Hi. pose proof Hi as [r Hr]. unfold waiting_ready. apply wp_bind, (wp_req_of _ _ _ r); [done|]. apply wp_bind.
  eapply (wp_mono _ _ (λ _ s', objects_only s.1 s'.1)).
  - case_decide; [|done]. apply wp_bind. eapply wp_mono; [by apply update_remote_wp|]. intros [] s1 Hs1; [|exact Hs1].
    apply wp_bind. eapply wp_mono; [apply up_req_wp; by apply (proj2 (proj2 Hs1))|]. intros ? s2 Hs2. exact (objects_only_trans _ _ _ Hs1 Hs2).
  - intros [] s1 Hs1; [|exact Hs1]. cbn [negb]. destruct (proj2 (proj2 Hs1) i Hi) as [r1 Hr1]. apply wp_bind, (wp_req_of _ _ _ r1); [done|].
    case_decide; [|exact Hs1]. case_match; [|exact Hs1]. apply wp_bind. eapply wp_mono; [by apply up_req_wp|]. intros ? s2 Hs2. exact (objects_only_trans _ _ _ Hs1 Hs2).
Qed.

Lemma computed_tokens_wp i r p (s : vsched Q * W) : wp (computed_tokens c i r p) s (λ x s', core x.2 = core p ∧ objects_only s.1 s'.1).
Proof.
  unfold computed_tokens. case_match; [|done]. apply wp_bind, wp_on_sw; [apply sl_get_computed_blocks|]. intros x w w' _. apply wp_bind.
  eapply (wp_mono _ _ (λ _ s', s'.1 = s.1)).
  - destruct (vc_has_connector c); [|done]. apply wp_on_sw; [apply sl_matched|]. done.
  - intros [ [e|] a] s' Hs'; (split; [done|]); rewrite -> Hs'; apply objects_only_refl.
Qed.

Lemma waiting_new_tokens_wp r computed budget (s : vsched Q * W) :
  wp (waiting_new_tokens c r computed budget) s (λ x s', s' = s ∧ match x with Some n => 0 < n ≤ budget | None => True end).
Proof.
  unfold waiting_new_tokens. case_match; [done|]. apply wp_bind, wp_assert. intros Hn%Z.ltb_lt. split; [done|]. split; [done|]. lia.
Qed.

(** The first of the queue is taken off it. *)
Lemma pop_inv p s i q : waiting_inv [] p s → rq_peek (sc_waiting s) = Some i → rq_pop (sc_waiting s) = Some q →
  q.1 = i ∧ rq_list (sc_waiting s) = i :: rq_list q.2 ∧ waiting_inv [i] p (set_sc_waiting q.2 s).
Proof.
  intros [Hall Hobj Hlen Hnd Hrun Hgiv Hkeys Hb Hpre] Hpeek Hpop. rewrite -> rq_peek_list in Hpeek.
  destruct (rq_list (sc_waiting s)) as [|j l] eqn:E; [done|]. injection Hpeek as ->. destruct (rq_pop_list _ _ _ E) as (q' & Hq' & Hl).
  rewrite -> Hpop in Hq'. injection Hq' as ->. cbn. rewrite -> Hl. split_and!; [done|done|]. split; cbn; try done. by rewrite -> Hl, <- Hall.
Qed.

Lemma peek_pop (q : Q) i : rq_peek q = Some i → is_Some (rq_pop q).
Proof. rewrite -> rq_peek_list. destruct (rq_list q) as [|j l] eqn:E; [done|]. destruct (rq_pop_list _ _ _ E) as (q' & -> & _). by eexists. Qed.

Lemma skipped_back i p s : waiting_inv [i] p s → waiting_inv [] (set_pl_skipped (rq_prepend i (pl_skipped p)) p) s.
Proof.
  intros [Hall Hobj Hlen Hnd Hrun Hgiv Hkeys Hb Hpre]. split; try done. cbn. rewrite -> (rq_prepend_list i), <- Permutation_middle. exact Hall.
Qed.

(** A round of the loop that goes on takes a request off the queue. *)
Definition round (n : nat) (x : plan Q * bool) (s' : vsched Q * W) : Prop :=
  waiting_inv [] x.1 s'.1 ∧ (x.2 = true → (length (rq_list (sc_waiting s'.1)) < n)%nat).

Lemma skip_request_wp i p (s : vsched Q * W) : waiting_inv [] p s.1 → rq_peek (sc_waiting s.1) = Some i →
  wp (skip_request i p) s (round (length (rq_list (sc_waiting s.1)))).
Proof.
  intros Hp Hpeek. unfold skip_request. apply wp_bind. unfold wp at 1. cbn [getsc gets]. unfold id.
  destruct (peek_pop _ _ Hpeek) as [ [j q] Hpop]. destruct (pop_inv p s.1 i (j, q) Hp Hpeek Hpop) as (_ & Hl & Hinv). rewrite -> Hpop.
  apply wp_bind. unfold wp. cbn [upsc modify mret M_ret]. split; cbn [fst snd]; [by apply skipped_back|]. intros _. rewrite -> Hl. cbn. lia.
Qed.

Lemma start_inv i n blocks p p' s : waiting_inv [i] p s → zlen (sc_running s) < vc_max_num_running_reqs c → 0 < n ≤ pl_token_budget p →
  p' = set_pl_reqs (pl_new_reqs p ++ [i]) (pl_resumed_reqs p) (pl_running_reqs p) (pl_preempted_reqs p) p ∨
  p' = set_pl_reqs (pl_new_reqs p) (pl_resumed_reqs p ++ [i]) (pl_running_reqs p) (pl_preempted_reqs p) p →
  waiting_inv [] (set_pl_tokens (dict_set i blocks (pl_new_blocks p)) (dict_set i n (pl_num_scheduled_tokens p)) (pl_token_budget p - n)
    (set_pl_index (pl_req_index p + 1) p')) (set_sc_running (sc_running s ++ [i]) s).
Proof.
  intros [Hall Hobj Hlen Hnd Hrun Hgiv Hkeys Hb Hpre] Hmax Hn Hp'.
  assert (Hi : i ∉ sc_running s). { pose proof distinct as Hd. rewrite <- Hall in Hd. apply NoDup_app in Hd as (_ & Hd & _). intros Hi. apply (Hd i); [done|by left]. }
  assert (Hreqs : scheduled_reqs p' ≡ₚ i :: scheduled_reqs p).
  { destruct Hp' as [-> | ->]; unfold scheduled_reqs; cbn; rewrite <- ?app_assoc; cbn; by rewrite <- ?Permutation_middle. }
  assert (Hfacts : pl_skipped p' = pl_skipped p ∧ pl_preempted_reqs p' = pl_preempted_reqs p) by (by destruct Hp' as [-> | ->]).
  destruct Hfacts as [Hsk Hpre']. split; try done; cbn [sc_running sc_waiting sc_objects set_sc_running].
  - cbn. rewrite -> Hsk, <- app_assoc. exact Hall.
  - rewrite -> zlen_app. change (zlen [i]) with 1. lia.
  - change (NoDup (scheduled_reqs p')). rewrite -> Hreqs. apply NoDup_cons. split; [|done]. intros Hx. by apply Hi, Hrun.
  - change (∀ j, j ∈ scheduled_reqs p' → j ∈ sc_running s ++ [i]). intros j. rewrite -> Hreqs, elem_of_cons, elem_of_app, list_elem_of_singleton.
    intros [->|Hj]; [by right|left; by apply Hrun].
  - change (∀ j, j ∈ scheduled_reqs p' → j ∈ (dict_set i n (pl_num_scheduled_tokens p)).*1). intros j. rewrite -> Hreqs, elem_of_cons, dict_set_keys.
    intros [->|Hj]; [by left|right; by apply Hgiv].
  - cbn. intros j. rewrite -> dict_set_keys, elem_of_app, list_elem_of_singleton. intros [->|Hj]; [by right|left; by apply Hkeys].
  - cbn. apply budget_set; [done| |done]. intros Hx. by apply Hi, Hkeys.
  - cbn. by rewrite -> Hpre'.
Qed.

Lemma start_request_wp i n computed inputs b p (s : vsched Q * W) : waiting_inv [i] p s.1 → zlen (sc_running s.1) < vc_max_num_running_reqs c →
  0 < n ≤ pl_token_budget p →
  wp (start_request c i n computed inputs b p) s (λ p' s', waiting_inv [] p' s'.1 ∧ sc_waiting s'.1 = sc_waiting s.1).
Proof.
  intros Hp Hmax Hn. assert (Hi : is_Some (dict_get i (sc_objects s.1))).
  { apply (vi_objects _ _ _ Hp). rewrite <- (vi_all _ _ _ Hp), !elem_of_app. right. left. by left. }
  pose proof Hi as [r Hr]. unfold start_request. apply wp_bind. unfold wp at 1. cbn [upsc modify]. apply wp_bind, (wp_req_of _ _ _ r); [done|]. apply wp_bind.
  eapply (wp_mono _ _ (λ p' s', s' = (set_sc_running (sc_running s.1 ++ [i]) s.1, s.2) ∧ 
    (p' = set_pl_reqs (pl_new_reqs p ++ [i]) (pl_resumed_reqs p) (pl_running_reqs p) (pl_preempted_reqs p) p ∨
     p' = set_pl_reqs (pl_new_reqs p) (pl_resumed_reqs p ++ [i]) (pl_running_reqs p) (pl_preempted_reqs p) p))).
  { destruct (vr_status r); (try by split; auto); done. }
  intros p1 s1 [-> Hp1]. apply wp_bind, wp_on_sw; [apply sl_get_blocks|]. intros blocks w w' _. cbn [fst snd].
  pose proof (start_inv i n blocks p p1 s.1 Hp Hmax Hn Hp1) as Hinv.
  apply wp_bind. eapply wp_mono; [by apply (up_req_wp i _ (set_sc_running (sc_running s.1 ++ [i]) s.1, w'))|]. intros ? s2 Hs2.
  apply wp_bind. eapply wp_mono; [apply (up_req_wp i _ s2); by apply (proj2 (proj2 Hs2))|]. intros ? s3 Hs3.
  eapply wp_mono; [apply schedule_encoder_wp|]. intros p4 s4 [Hc Hs4]. cbn [fst snd] in *. rewrite -> Hs4.
  pose proof (objects_only_trans _ _ _ Hs2 Hs3) as Hs. split; [|exact (proj1 (proj2 Hs))].
  eapply waiting_transport; [exact Hinv| |exact Hs]. rewrite -> Hc. destruct Hp1 as [-> | ->]; done.
Qed.

Lemma place_request_wp i r slots x n inputs b p (s : vsched Q * W) : waiting_inv [] p s.1 → rq_peek (sc_waiting s.1) = Some i →
  zlen (sc_running s.1) < vc_max_num_running_reqs c → (x.1.2 = false → 0 < n ≤ pl_token_budget p) →
  wp (place_request c i r slots x n inputs b p) s (round (length (rq_list (sc_waiting s.1)))).
Proof.
  intros Hp Hpeek Hmax Hn. unfold place_request. destruct x as [ [ [ [new_blocks nl] ne] async] computed]. cbn [fst snd] in Hn.
  apply wp_bind, wp_on_sw; [apply sl_allocate_slots|]. intros [blocks|] w w' _; [|by split].
  apply wp_bind. eapply (wp_mono _ _ (λ _ s', s'.1 = s.1)).
  { destruct (vc_has_connector c); [apply wp_on_sw; [apply sl_after_alloc|done]|done]. }
  intros ? s1 Hs1. apply wp_bind. unfold wp at 1. cbn [getsc gets]. unfold id. rewrite -> Hs1.
  destruct (peek_pop _ _ Hpeek) as [ [j q] Hpop]. destruct (pop_inv p s.1 i (j, q) Hp Hpeek Hpop) as (Hj & Hl & Hinv). cbn in Hj. subst j. rewrite -> Hpop.
  assert (Hlt : (length (rq_list q) < length (rq_list (sc_waiting s.1)))%nat) by (rewrite -> Hl; cbn; lia).
  apply wp_bind. unfold wp at 1. cbn [upsc modify]. rewrite -> Hs1. destruct async.
  - apply wp_bind. eapply wp_mono; [apply up_req_wp|].
    { apply (vi_objects _ _ _ Hinv). rewrite <- (vi_all _ _ _ Hinv), !elem_of_app. right. left. by left. }
    intros ? s2 Hs2. split; cbn [fst snd]; [|intros _; by rewrite -> (proj1 (proj2 Hs2))]. apply skipped_back. by eapply waiting_transport.
  - apply wp_bind. eapply wp_mono; [apply start_request_wp; [exact Hinv|exact Hmax|by apply Hn]|].
    intros p' s2 [Hp' Hw]. split; [done|]. intros _. by rewrite -> Hw.
Qed.

(** Rounds from a state with the same queue. *)
Lemma round_from (m : M (vsched Q * W) (plan Q * bool)) (s s' : vsched Q * W) : objects_only s.1 s'.1 →
  wp m s' (round (length (rq_list (sc_waiting s'.1)))) → wp m s' (round (length (rq_list (sc_waiting s.1)))).
Proof. intros (_ & -> & _). done. Qed.

(** The tokens and the encoder inputs of a waiting request that loads nothing. *)
Lemma tokens_wp i r slots x p (s : vsched Q * W) : waiting_inv [] p s.1 → rq_peek (sc_waiting s.1) = Some i →
  zlen (sc_running s.1) < vc_max_num_running_reqs c →
  wp (n ← waiting_new_tokens c r x.2 (pl_token_budget p);
      match n with
      | None => skip_request i p
      | Some n =>
          y ← encoder_inputs i r x.2 n (pl_encoder_budget p);
          let '(inputs, n, new_encoder_budget) := y in
          if vr_has_encoder_inputs r && (n =? 0) then mret (p, false)
          else place_request c i r slots x n inputs new_encoder_budget p
      end) s (round (length (rq_list (sc_waiting s.1)))).
Proof.
  intros Hp Hpeek Hmax. apply wp_bind. eapply wp_mono; [apply waiting_new_tokens_wp|]. intros [n|] s1 [-> Hn]; [|by apply skip_request_wp].
  apply wp_bind, encoder_inputs_wp; [lia|]. intros inputs n' b w' Hn' Henc. destruct (vr_has_encoder_inputs r && (n' =? 0)) eqn:E; [by split|].
  apply (place_request_wp i r slots x n' inputs b p (s.1, w')); [done|done|done|]. intros _.
  destruct (vr_has_encoder_inputs r); [cbn in E; apply Z.eqb_neq in E; lia|]. rewrite -> Henc by done. exact Hn.
Qed.

Lemma waiting_step_wp p (s : vsched Q * W) : waiting_inv [] p s.1 → rq_list (sc_waiting s.1) ≠ [] → zlen (sc_running s.1) < vc_max_num_running_reqs c →
  wp (waiting_step c p) s (round (length (rq_list (sc_waiting s.1)))).
Proof.
  intros Hp Hne Hmax. unfold waiting_step. apply wp_bind. unfold wp at 1. cbn [getsc gets]. unfold id.
  destruct (rq_peek (sc_waiting s.1)) as [i|] eqn:Hpeek; [|done].
  assert (Hi : is_Some (dict_get i (sc_objects s.1))).
  { rewrite -> rq_peek_list in Hpeek. apply (vi_objects _ _ _ Hp). rewrite <- (vi_all _ _ _ Hp), !elem_of_app. right. right. left.
    destruct (rq_list (sc_waiting s.1)); [done|]. injection Hpeek as ->. by left. }
  pose proof Hi as [r Hr]. apply wp_bind, (wp_req_of _ _ _ r); [done|]. apply wp_bind, sparsed_slots_wp. intros slots w1.
  set (p1 := set_pl_maps _ _ p). apply wp_bind. eapply wp_mono; [by apply (waiting_ready_wp i (s.1, w1))|]. intros ready s2 Hs2. cbn [fst] in Hs2.
  assert (Hp1 : waiting_inv [] p1 s2.1) by (by eapply waiting_transport).
  assert (Hfacts : rq_peek (sc_waiting s2.1) = Some i ∧ zlen (sc_running s2.1) < vc_max_num_running_reqs c) by (destruct Hs2 as (-> & -> & _); done).
  destruct Hfacts as [Hpeek2 Hmax2]. destruct ready; cbn [negb]; [|by apply (round_from _ s s2), skip_request_wp].
  destruct (proj2 (proj2 Hs2) i Hi) as [r2 Hr2]. apply wp_bind, (wp_req_of _ _ _ r2); [done|].
  destruct (lora_full c r2 (pl_loras p1)); [by apply (round_from _ s s2), skip_request_wp|].
  apply wp_bind. eapply wp_mono; [apply computed_tokens_wp|]. intros [x p2] s3 [Hc Hs3]. cbn [fst snd] in Hc.
  assert (Hp2 : waiting_inv [] p2 s3.1) by (by eapply waiting_transport).
  assert (Hfacts : rq_peek (sc_waiting s3.1) = Some i ∧ zlen (sc_running s3.1) < vc_max_num_running_reqs c) by (destruct Hs3 as (-> & -> & _); done).
  destruct Hfacts as [Hpeek3 Hmax3]. apply (round_from _ s s3); [by eapply objects_only_trans|].
  destruct x as [ [ [ [ [new_blocks nl] ne] async] computed]|]; [|by apply skip_request_wp]. destruct async.
  - apply wp_bind, wp_assert. intros _. by apply place_request_wp.
  - by apply (tokens_wp i r2 slots (new_blocks, nl, ne, false, computed)).
Qed.

Lemma schedule_waiting_wp fuel : ∀ p (s : vsched Q * W), waiting_inv [] p s.1 → (length (rq_list (sc_waiting s.1)) ≤ fuel)%nat →
  wp (schedule_waiting c fuel p) s (λ p' s', waiting_inv [] p' s'.1).
Proof.
  induction fuel as [|fuel IH]; intros p s Hp Hfuel; cbn [schedule_waiting]; apply wp_bind; unfold wp at 1; cbn [getsc gets]; unfold id;
    destruct (negb (bool_decide (rq_list (sc_waiting s.1) ≠ []) && (0 <? pl_token_budget p)) || (zlen (sc_running s.1) =? vc_max_num_running_reqs c)) eqn:E; try done;
    apply orb_false_iff in E as [ [Hne%bool_decide_eq_true _]%negb_false_iff%andb_true_iff Hmax%Z.eqb_neq].
  - destruct (rq_list (sc_waiting s.1)); [done|cbn in Hfuel; lia].
  - apply wp_bind. eapply wp_mono; [apply waiting_step_wp; [done|done|]|].
    + pose proof (vi_len _ _ _ Hp). lia.
    + intros [p' b] s' [Hp' Hm]. cbn [fst snd] in *. destruct b; [|done]. apply IH; [done|]. specialize (Hm eq_refl). lia.
Qed.

(** ** The whole step *)
Lemma wp_fold_same {S A B} (l : list A) (body : B → A → M S B) (s : S) : (∀ acc x, x ∈ l → wp (body acc x) s (λ _ s', s' = s)) →
  ∀ acc, wp (for_fold l acc body) s (λ _ s', s' = s).
Proof.
  induction l as [|x l IH]; intros Hb acc; [done|]. cbn [for_fold]. apply wp_bind. eapply wp_mono; [apply Hb; by left|]. intros acc' s' ->.
  apply IH. intros acc'' y Hy. apply Hb. by right.
Qed.

Lemma running_loras_wp p (s : vsched Q * W) : (∀ i, i ∈ pl_running_reqs p → is_Some (dict_get i (sc_objects s.1))) →
  wp (running_loras c p) s (λ _ s', s' = s).
Proof.
  intros Hobj. unfold running_loras. destruct (vc_max_loras c) as [max_loras|]; [|done]. apply wp_bind.
  eapply (wp_mono _ _ (λ _ s', s' = s)); [|intros loras s' ->; by apply wp_bind, wp_assert].
  apply wp_fold_same. intros loras i Hi. destruct (Hobj i Hi) as [r Hr]. apply wp_bind, (wp_req_of _ _ _ r); done.
Qed.

Lemma constraints_hold p (s : vsched Q * W) : budget_inv c (pl_num_scheduled_tokens p) (pl_token_budget p) → zlen (sc_running s.1) ≤ vc_max_num_running_reqs c →
  NoDup (scheduled_reqs p) → (∀ i, i ∈ scheduled_reqs p → i ∈ sc_running s.1) → check_constraints c p s = (Ok tt, s).
Proof.
  intros [_ _ Hs Hl] Hlen Hnd Hin. pose proof (submseteq_length _ _ (NoDup_submseteq _ _ Hnd Hin)) as Hle. unfold scheduled_reqs in Hle. rewrite -> !length_app in Hle.
  assert (Hreqs : zlen (pl_new_reqs p) + zlen (pl_resumed_reqs p) + zlen (pl_running_reqs p) ≤ zlen (sc_running s.1)) by (unfold zlen; lia).
  unfold check_constraints. mstep. unfold id.
  rewrite -> (proj2 (Z.leb_le (zsum _) _)), (proj2 (Z.leb_le 0 _)), (proj2 (Z.leb_le (zlen (sc_running _)) _)), (proj2 (Z.leb_le (_ + _) _)) by lia.
  do 3 mstep. done.
Qed.

Lemma waiting_start p s loras : running_inv c all p s → pl_preempted_reqs p = [] → waiting_inv [] (set_pl_loras loras p) s.
Proof.
  intros Hp Hpre. pose proof Hp as [Hall Hobj Hlen Hidx Hready Hnd Hrun Hgiv Hkeys _ Hb (En & Er & Esk)].
  assert (Hreqs : scheduled_reqs p = pl_running_reqs p) by (unfold scheduled_reqs; by rewrite -> En, Er).
  assert (Hbefore : ∀ i, i ∈ take (Z.to_nat (pl_req_index p)) (sc_running s) → i ∈ sc_running s).
  { intros i (k & Hk & _)%elem_of_take. by eapply list_elem_of_lookup_2. }
  split; try done; change (scheduled_reqs (set_pl_loras loras p)) with (scheduled_reqs p); cbn; rewrite -> ?Hreqs; try done.
  - by rewrite -> Esk, app_nil_r.
  - intros i Hi. by apply Hbefore, Hrun.
  - intros i [Hi|Hi]%Hkeys; [by apply Hbefore|]. by rewrite -> Hpre in Hi; apply not_elem_of_nil in Hi.
Qed.

End waiting.

(** What holds after the two loops of a step. *)
Record step_done {Q W} `{RequestQueue Q} (c : vsched_conf) (s : vsched Q * W) (p : plan Q) (s' : vsched Q * W) : Prop := StepDone {
  (** no request is lost or duplicated *)
  sd_requests : sc_running s'.1 ++ rq_list (sc_waiting s'.1) ≡ₚ sc_running s.1 ++ rq_list (sc_waiting s.1);
  (** the tokens of each request, and the budget *)
  sd_budget : budget_inv c (pl_num_scheduled_tokens p) (pl_token_budget p);
  (** the requests scheduled are running and have tokens *)
  sd_once : NoDup (scheduled_reqs p);
  sd_running : ∀ i, i ∈ scheduled_reqs p → i ∈ sc_running s'.1 ∧ i ∈ (pl_num_scheduled_tokens p).*1;
  (** those with tokens are running, or were preempted and wait *)
  sd_keys : ∀ i, i ∈ (pl_num_scheduled_tokens p).*1 → i ∈ sc_running s'.1 ∨ i ∈ pl_preempted_reqs p;
  sd_preempted : ∀ i, i ∈ pl_preempted_reqs p → i ∈ rq_list (sc_waiting s'.1);
  (** the assertions at the end of the step *)
  sd_checks : check_constraints c p s' = (Ok tt, s');
}.

Lemma step_finish {Q W} `{RequestQueueLaws Q} c (s s' : vsched Q * W) p :
  sc_running s'.1 ++ rq_list (sc_waiting s'.1) ++ rq_list (pl_skipped p) ≡ₚ sc_running s.1 ++ rq_list (sc_waiting s.1) →
  zlen (sc_running s'.1) ≤ vc_max_num_running_reqs c →
  budget_inv c (pl_num_scheduled_tokens p) (pl_token_budget p) → NoDup (scheduled_reqs p) →
  (∀ i, i ∈ scheduled_reqs p → i ∈ sc_running s'.1 ∧ i ∈ (pl_num_scheduled_tokens p).*1) →
  (∀ i, i ∈ (pl_num_scheduled_tokens p).*1 → i ∈ sc_running s'.1 ∨ i ∈ pl_preempted_reqs p) →
  (∀ i, i ∈ pl_preempted_reqs p → i ∈ rq_list (sc_waiting s'.1)) →
  wp ((if decide (rq_list (pl_skipped p) = []) then mret tt
       else upsc (λ s, set_sc_waiting (rq_prepend_requests (pl_skipped p) (sc_waiting s)) s)) ;; mret p) s' (step_done c s).
Proof.
  intros Hall Hlen Hb Hnd Hrun Hkeys Hpre. apply wp_bind.
  assert (Hc : ∀ s'' : vsched Q * W, sc_running s''.1 = sc_running s'.1 → check_constraints c p s'' = (Ok tt, s'')).
  { intros s'' Hs. apply constraints_hold; rewrite -> ?Hs; try done. intros i Hi. by apply Hrun. }
  destruct (decide (rq_list (pl_skipped p) = [])) as [E|E].
  - rewrite -> E, app_nil_r in Hall. split; try done. by apply Hc.
  - split; cbn; try done; [|intros i Hi; rewrite -> rq_prepend_requests_list, elem_of_app; right; by apply Hpre|by apply Hc].
    rewrite -> rq_prepend_requests_list, <- Hall. by rewrite -> (Permutation_app_comm (rq_list (pl_skipped p))).
Qed.

(** C19: A scheduling step ends, and keeps the books: no request is lost or duplicated;
    the tokens given, each positive, and the budget left make up the maximum; the
    requests scheduled, new, resumed or running, appear once, are running at the end
    and have tokens; a request with tokens that is not running was preempted and waits;
    and the assertions the code makes of the tokens and of the requests hold.  The
    queue may keep any order, preemption follow either policy, and the cache manager,
    the encoder and the connector answer or fail as they like. *)
Theorem vllm_schedule_step_sound {Q W} `{RequestQueueLaws Q} `{SchedLaws W} c (s : vsched Q * W) :
  NoDup (sc_running s.1 ++ rq_list (sc_waiting s.1)) →
  (∀ i, i ∈ sc_running s.1 ++ rq_list (sc_waiting s.1) → is_Some (dict_get i (sc_objects s.1))) →
  (∀ i r, i ∈ sc_running s.1 → dict_get i (sc_objects s.1) = Some r → can_run c r) →
  zlen (sc_running s.1) ≤ vc_max_num_running_reqs c → 0 ≤ vc_max_num_scheduled_tokens c →
  wp (schedule_requests c) s (step_done c s).
Proof.
  intros Hnd Hobj Hcan Hlen Hmax. set (all := sc_running s.1 ++ rq_list (sc_waiting s.1)) in *.
  assert (H0inv : running_inv c all (new_plan c) s.1).
  { split; try done; cbn; rewrite -> ?drop_0, ?rq_list_empty; try done; try (by intros i ?%not_elem_of_nil); try apply NoDup_nil_2.
    split; cbn; [apply NoDup_nil_2|by apply Forall_nil|done|done]. }
  unfold schedule_requests. apply wp_bind. unfold wp at 1. cbn [getsc gets].
  apply wp_bind. eapply wp_mono; [apply (schedule_running_wp c all Hnd _ _ s H0inv); cbn; unfold zlen; lia|]. intros p s1 Hp.
  apply wp_bind. eapply wp_mono; [apply running_loras_wp|].
  { intros i Hi%(wi_running _ _ _ _ Hp). eapply running_object; [exact Hp|]. apply elem_of_take in Hi as (k & Hk & _). by eapply list_elem_of_lookup_2. }
  intros loras s1' ->. cbv zeta. apply wp_bind. change (pl_preempted_reqs (set_pl_loras loras p)) with (pl_preempted_reqs p).
  destruct (pl_preempted_reqs p) as [|v l] eqn:E.
  - apply wp_bind. unfold wp at 1. cbn [getsc gets]. unfold id. eapply wp_mono.
    { apply (schedule_waiting_wp c all Hnd); [by apply waiting_start|done]. }
    intros p2 s2 [Hall Hobj2 Hlen2 Hnd2 Hrun Hgiv Hkeys Hb Hpre]. apply step_finish; try done; rewrite -> ?Hpre; try (by intros i ?%not_elem_of_nil).
    + intros i Hi. split; [by apply Hrun|by apply Hgiv].
    + intros i Hi. left. by apply Hkeys.
  - destruct Hp as [Hall Hobj2 Hlen2 Hidx Hready Hnd2 Hrun Hgiv Hkeys Hpre Hb (En & Er & Esk)].
    assert (Hreqs : scheduled_reqs p = pl_running_reqs p) by (unfold scheduled_reqs; by rewrite -> En, Er).
    assert (Hbefore : ∀ i, i ∈ take (Z.to_nat (pl_req_index p)) (sc_running s1.1) → i ∈ sc_running s1.1).
    { intros i (k & Hk & _)%elem_of_take. by eapply list_elem_of_lookup_2. }
    apply (step_finish c s s1 (set_pl_loras loras p)); try done; change (scheduled_reqs (set_pl_loras loras p)) with (scheduled_reqs p); rewrite -> ?Hreqs; try done.
    + cbn. by rewrite -> Esk, app_nil_r.
    + intros i Hi. split; [by apply Hbefore, Hrun|by apply Hgiv].
    + intros i [Hi|Hi]%Hkeys; [left; by apply Hbefore|by right].
Qed.

(** ** At concrete inputs *)

#[export] Instance fcfs_queue_laws : RequestQueueLaws (list string).
Proof.
  split; try done. intros q i l Hq. exists l. cbn in *. by rewrite -> Hq.
Qed.

#[export] Instance demo_laws : SchedLaws Z.
Proof.
  split; try done.
  - intros i r a w. cbn. by case_match.
  - intros i r m n b w x w' [= <- <-] Hn. cbn. lia.
Qed.

(** The first of two running requests takes all slots: the second is preempted and
    waits, in front of none. *)
Lemma vllm_schedule_step_sound_witness :
  let s := (demo_sched (demo_request RUNNING 4 4 12 0) (demo_request RUNNING 0 0 5 0) [] ["a"%string; "b"%string], 8) in
  wp (schedule_requests (demo_conf 16 false)) s (step_done (demo_conf 16 false) s) ∧
  match schedule_requests (demo_conf 16 false) s with
  | (Ok p, s') => pl_num_scheduled_tokens p = [("a"%string, 8)] ∧ sc_waiting s'.1 = ["b"%string] ∧ sc_running s'.1 = ["a"%string]
  | _ => False
  end.
Proof.
  split; [|vm_compute; done].
  apply (vllm_schedule_step_sound (demo_conf 16 false)).
  - apply NoDup_cons; split; [set_solver|apply NoDup_singleton].
  - intros i [->|[->|?%not_elem_of_nil]%elem_of_cons]%elem_of_cons; [by eexists..|done].
  - intros i r [->|[->|?%not_elem_of_nil]%elem_of_cons]%elem_of_cons; [intros [= <-]; vm_compute; done..|done].
  - done.
  - done.
Defined.

(** With priorities the request preempted may have been scheduled already: its tokens
    stay in the output of the step, and the budget they took is lost. *)
Example preempted_keeps_tokens :
  let s := (demo_sched (demo_request RUNNING 4 4 12 9) (demo_request RUNNING 0 0 5 1) [] ["a"%string; "b"%string], 8) in
  match schedule_requests (demo_conf 16 true) s with
  | (Ok p, s') => pl_num_scheduled_tokens p = [("a"%string, 8)] ∧ pl_running_reqs p = [] ∧
      sc_waiting s'.1 = ["b"%string; "a"%string] ∧ sc_running s'.1 = []
  | _ => False
  end.
Proof. vm_compute. done. Qed.
