(* ===== verification/Facade.v ===== *)
(** * The connector vLLM instantiates

    [UCMConnector] of [ucm_connector.py]: it chooses one of the connectors from
    the configuration of the engine and delegates every call to it, recording
    the prefix-cache hits of each request.  What it needs of a connector is the
    class [ConnectorOps]; what it may assume of the matching of a connector is
    [MatchLaws], proved for the direct and the FAWA connector. *)
From S2P Require Import Prelude Runtime RankConsistency PyHash Hashing KVLayout StoreConf Direct DirectWorker DispatchProps SchedProps FawaLayout Fawa FawaProps Sim.
Open Scope Z_scope.

(** ** The choice of the connector *)

Inductive connector_kind :=
  | UCMLiteConnector
  | UCMFAWAConnector
  | UCMMockConnector
  | UCMCPConnector
  | UCMHybridLinearAttentionLayerWiseConnector
  | UCMHybridLinearAttentionConnector
  | UCMLayerWiseConnector
  | UCMDirectConnector.

(** What [__init__] reads: the launch configuration, the parallel sizes (the
    context-parallel ones are absent from old vLLM versions), the groups of the
    KV-cache configuration, and the answer of the hybrid linear-attention
    connector about them. *)
Record engine_conf := EngineConf {
  launch_config : option config;
  pipeline_parallel_size : Z;
  context_parallel_sizes : option (Z * Z);
  kv_cache_groups : option (list kv_group);
  hla_supports : bool;
}.

(** [self.launch_config.get(key, False)], false without a configuration. *)
Definition launch_flag (e : engine_conf) (key : string) : bool :=
  match launch_config e with
  | None => false
  | Some c => truthy (dict_get_default key (CBool false) c)
  end.

Definition use_ratio_rate (e : engine_conf) : bool :=
  match launch_config e with None => false | Some c => dict_mem "hit_ratio" c end.

Definition use_cp_parallel (e : engine_conf) : bool :=
  match context_parallel_sizes e with Some (p, d) => 1 <? p * d | None => false end.

(** [self.launch_config.get] on a missing configuration raises; it is read only
    for hybrid models in layerwise mode, which implies a configuration. *)
Definition use_hla_layerwise (e : engine_conf) : bool :=
  hla_supports e && launch_flag e "use_layerwise" &&
  match launch_config e with
  | None => false
  | Some c => truthy (dict_get_default "hybrid_linear_attention_layerwise" (CBool true) c)
  end.

Definition choose_connector (e : engine_conf) : res connector_kind :=
  if launch_flag e "use_lite" then Ok UCMLiteConnector
  else if (1 <? pipeline_parallel_size e) && negb (launch_flag e "use_layerwise")
  then Raise (RuntimeError "Pipeline parallelism is not supported in UCMDirectConnector")
  else Ok (if can_handle_kv_cache_config (kv_cache_groups e) then UCMFAWAConnector
           else if use_ratio_rate e then UCMMockConnector
           else if use_cp_parallel e then UCMCPConnector
           else if use_hla_layerwise e then UCMHybridLinearAttentionLayerWiseConnector
           else if hla_supports e then UCMHybridLinearAttentionConnector
           else if launch_flag e "use_layerwise" then UCMLayerWiseConnector
           else UCMDirectConnector).

(** ** The interface of a connector *)

(** The calls of [KVConnectorBase_V1] with results the engine uses, on a
    connector of state [S] with metadata [Meta] built from [Sched]. *)
Class ConnectorOps (S Meta Sched : Type) := {
  co_get_block_size : Z;
  co_supports_hma : bool;
  co_get_num_new_matched_tokens : request → Z → M S (Z * bool);
  co_build_connector_meta : Sched → M S Meta;
  co_bind_connector_metadata : Meta → M S unit;
  co_clear_connector_metadata : M S unit;
  co_has_connector_metadata : M S bool;
  co_handle_preemptions : Meta → M S unit;
  co_start_load_kv : M S unit;
  co_wait_for_layer_load : string → M S unit;
  co_save_kv_layer : string → M S unit;
  co_wait_for_save : M S unit;
  co_request_finished : string → list Z → M S bool;
  co_request_finished_all_groups : string → list (list Z) → M S bool;
  co_get_finished : gset string → M S (option (gset string));
  co_get_block_ids_with_load_errors : M S (gset Z);
  co_build_connector_worker_meta : M S (option worker_meta);
  co_update_connector_output : option worker_meta → M S unit;
}.

(** The facade: the connector it delegates to, and the samples it recorded. *)
Record facade (S : Type) := Facade { connector : S; f_metrics : list stats }.
Arguments Facade {S} connector f_metrics.
Arguments connector {S} f.
Arguments f_metrics {S} f.

Section facade.
  Context {S Meta Sched : Type} `{ConnectorOps S Meta Sched}.

Definition delegate {A} (m : M S A) : M (facade S) A :=
  lift connector (λ c f, Facade c (f_metrics f)) m.

(** [_record_prefix_cache_token_metrics] *)
Definition _record_prefix_cache_token_metrics (r : request)
    (num_computed_tokens external_hit_tokens : Z) : M (facade S) unit :=
  let total_tokens := Z.max (num_tokens r) 0 in
  let gpu_hbm_hit_tokens := Z.min (Z.max num_computed_tokens 0) total_tokens in
  let ucm_hit_tokens := Z.min (Z.max external_hit_tokens 0)
                          (Z.max (total_tokens - gpu_hbm_hit_tokens) 0) in
  let block_size := Z.max co_get_block_size 1 in
  modify (λ f, Facade (connector f) (f_metrics f ++
    [[("total_prefix_query_tokens_total", MCount total_tokens);
      ("gpu_hbm_hit_tokens_total", MCount gpu_hbm_hit_tokens);
      ("ucm_hit_tokens_total", MCount ucm_hit_tokens);
      ("total_prefix_query_blocks_total", MCount (total_tokens / block_size));
      ("gpu_hbm_hit_blocks_total", MCount (gpu_hbm_hit_tokens / block_size))]])).

Definition get_num_new_matched_tokens (r : request) (num_computed_tokens : Z) :
    M (facade S) (Z * bool) :=
  '(external_hit_tokens, need_load) ←
    delegate (co_get_num_new_matched_tokens r num_computed_tokens);
  _record_prefix_cache_token_metrics r num_computed_tokens external_hit_tokens ;;
  mret (external_hit_tokens, need_load).

(** Connectors without support for several groups get the first one. *)
Definition request_finished_all_groups (req_id : string) (block_ids : list (list Z)) :
    M (facade S) bool :=
  if co_supports_hma then delegate (co_request_finished_all_groups req_id block_ids)
  else match block_ids with
       | ids :: _ => delegate (co_request_finished req_id ids)
       | [] => delegate (co_request_finished req_id [])
       end.

(** The other calls only delegate. *)
Definition get_block_size : Z := co_get_block_size.
Definition build_connector_meta (so : Sched) : M (facade S) Meta :=
  delegate (co_build_connector_meta so).
Definition bind_connector_metadata (m : Meta) : M (facade S) unit :=
  delegate (co_bind_connector_metadata m).
Definition clear_connector_metadata : M (facade S) unit := delegate co_clear_connector_metadata.
Definition has_connector_metadata : M (facade S) bool := delegate co_has_connector_metadata.
Definition handle_preemptions (m : Meta) : M (facade S) unit := delegate (co_handle_preemptions m).
Definition start_load_kv : M (facade S) unit := delegate co_start_load_kv.
Definition wait_for_layer_load (layer_name : string) : M (facade S) unit :=
  delegate (co_wait_for_layer_load layer_name).
Definition save_kv_layer (layer_name : string) : M (facade S) unit :=
  delegate (co_save_kv_layer layer_name).
Definition wait_for_save : M (facade S) unit := delegate co_wait_for_save.
Definition request_finished (req_id : string) (block_ids : list Z) : M (facade S) bool :=
  delegate (co_request_finished req_id block_ids).
Definition get_finished (ids : gset string) : M (facade S) (option (gset string)) :=
  delegate (co_get_finished ids).
Definition get_block_ids_with_load_errors : M (facade S) (gset Z) :=
  delegate co_get_block_ids_with_load_errors.
Definition build_connector_worker_meta : M (facade S) (option worker_meta) :=
  delegate co_build_connector_worker_meta.
Definition update_connector_output (o : option worker_meta) : M (facade S) unit :=
  delegate (co_update_connector_output o).

(** What a connector promises about matching, in states satisfying [I] and for
    numbers of computed tokens satisfying [aligned]: it never raises, and the
    external tokens and the computed ones are not more than the request. *)
Class MatchLaws (I : S → Prop) (aligned : Z → Prop) := {
  match_sound r computed s :
    I s → aligned computed → 0 ≤ computed ≤ num_tokens r →
    num_tokens r = zlen (all_token_ids r) →
    ∃ n s', co_get_num_new_matched_tokens r computed s = (Ok (n, false), s') ∧ I s' ∧
      0 ≤ n ∧ computed + n ≤ num_tokens r;
}.

End facade.

(** ** The connectors behind the interface *)

Section instances.
  Context {W : Type} `{StoreLaws W} `{DeviceOps W} `{SetOrder} `{PyHash}.

Section direct.
  Variable cf : conf.
  Variables load_start_time load_end_time save_start_ms : Z.

(** [wait_for_layer_load] and [save_kv_layer] do nothing in the direct connector. *)
#[export] Instance direct_ops : ConnectorOps (conn * W) UCMConnectorMetadata scheduler_output := {|
  co_get_block_size := cf_block_size cf;
  co_supports_hma := false;
  co_get_num_new_matched_tokens := Direct.get_num_new_matched_tokens cf;
  co_build_connector_meta := Direct.build_connector_meta cf;
  co_bind_connector_metadata := DirectWorker.bind_connector_metadata;
  co_clear_connector_metadata := DirectWorker.clear_connector_metadata;
  co_has_connector_metadata := gets (λ s, bool_decide (is_Some (connector_metadata s.1)));
  co_handle_preemptions m := DirectWorker.handle_preemptions cf (Some (preempted_req_ids m));
  co_start_load_kv := DirectWorker.start_load_kv cf load_start_time load_end_time;
  co_wait_for_layer_load _ := mret tt;
  co_save_kv_layer _ := mret tt;
  co_wait_for_save := DirectWorker.wait_for_save cf save_start_ms;
  co_request_finished id _ := Direct.request_finished id;
  co_request_finished_all_groups := Direct.request_finished_all_groups;
  co_get_finished := DirectWorker.get_finished cf;
  co_get_block_ids_with_load_errors := DirectWorker.get_block_ids_with_load_errors;
  co_build_connector_worker_meta := DirectWorker.build_connector_worker_meta;
  co_update_connector_output := Direct.update_connector_output cf;
|}.

#[export] Instance direct_match_laws (Hcf : conf_ok cf) :
  MatchLaws (λ s : conn * W, memo_ok cf s.1) (λ computed, computed mod cf_block_size cf = 0).
Proof.
  split. intros r computed s Hm Hmod Hc _. simpl.
  destruct (matched_spec cf Hcf r computed s Hm ltac:(lia) Hmod)
    as (n & s' & Hrun & Hm' & Hn & Hle & _).
  pose proof (recompute_pos cf). exists n, s'. split_and!; try done. lia.
Qed.

End direct.

Section fawa.
  Variable fcf : fawa_conf.

#[export] Instance fawa_ops :
    ConnectorOps (fawa * W) UCMFAWAConnectorMetadata f_scheduler_output := {|
  co_get_block_size := fg_hash_block_size (fl_groups (fw_layouts fcf));
  co_supports_hma := true;
  co_get_num_new_matched_tokens := Fawa.get_num_new_matched_tokens fcf;
  co_build_connector_meta := Fawa.build_connector_meta fcf;
  co_bind_connector_metadata := Fawa.bind_connector_metadata;
  co_clear_connector_metadata := Fawa.clear_connector_metadata;
  co_has_connector_metadata := gets (λ s, bool_decide (is_Some (f_metadata s.1)));
  co_handle_preemptions := Fawa.handle_preemptions;
  co_start_load_kv := Fawa.start_load_kv fcf;
  co_wait_for_layer_load _ := mret tt;
  co_save_kv_layer _ := mret tt;
  co_wait_for_save := Fawa.wait_for_save fcf;
  co_request_finished id _ := on_fbase (Direct.request_finished id);
  co_request_finished_all_groups := Fawa.request_finished_all_groups;
  co_get_finished ids := (x ← Fawa.get_finished ids; mret (Some x));
  co_get_block_ids_with_load_errors := on_fbase DirectWorker.get_block_ids_with_load_errors;
  co_build_connector_worker_meta := on_fbase DirectWorker.build_connector_worker_meta;
  co_update_connector_output := Fawa.update_connector_output fcf;
|}.

#[export] Instance fawa_match_laws
    (Hhb : 0 < fg_hash_block_size (fl_groups (fw_layouts fcf)))
    (Hth : 0 ≤ load_tokens_threshold fcf) :
  MatchLaws (λ _ : fawa * W, True) (λ _, True).
Proof.
  split. intros r computed s _ _ Hc Hnum. simpl.
  destruct (f_matched_spec fcf r computed s Hhb Hth ltac:(lia) Hnum) as (n & s' & Hrun & Hn & Hlt & _).
  exists n, s'. split_and!; try done. lia.
Qed.

End fawa.
End instances.

(** Under pipeline parallelism the mock connector, which transfers whole blocks
    of layers like the direct one, can still be chosen in layerwise mode. *)
Lemma pp_may_choose_mock :
  choose_connector (EngineConf
    (Some [("use_layerwise", CBool true); ("hit_ratio", COther)]) 2 None None false) =
  Ok UCMMockConnector.
Proof. reflexivity. Qed.

(** ** Properties *)

(** C28: Through the facade, a connector that keeps its matching promise is reported
    exactly: the facade returns the connector's answer unchanged and records the
    computed tokens as local hits and the external tokens as its own, without
    clamping either, so the hits never exceed the tokens queried. *)
Theorem facade_reports_hits {S Meta Sched} `{ConnectorOps S Meta Sched} I aligned
    `{!MatchLaws I aligned} r computed (f : facade S) :
  I (connector f) → aligned computed → 0 ≤ computed ≤ num_tokens r →
  num_tokens r = zlen (all_token_ids r) →
  ∃ n f', get_num_new_matched_tokens r computed f = (Ok (n, false), f') ∧
    co_get_num_new_matched_tokens r computed (connector f) = (Ok (n, false), connector f') ∧
    I (connector f') ∧ 0 ≤ n ∧ computed + n ≤ num_tokens r ∧
    f_metrics f' = f_metrics f ++
      [[("total_prefix_query_tokens_total", MCount (num_tokens r));
        ("gpu_hbm_hit_tokens_total", MCount computed);
        ("ucm_hit_tokens_total", MCount n);
        ("total_prefix_query_blocks_total", MCount (num_tokens r / Z.max co_get_block_size 1));
        ("gpu_hbm_hit_blocks_total", MCount (computed / Z.max co_get_block_size 1))]].
Proof.
  intros HI Hal Hc Hnum.
  destruct (match_sound r computed (connector f) HI Hal Hc Hnum) as (n & s' & Hrun & HI' & Hn & Hle).
  unfold get_num_new_matched_tokens, delegate, lift. eexists n, _.
  unfold mbind at 1, M_bind. rewrite -> Hrun. split; [reflexivity|]. cbn.
  split_and!; try done. do 2 f_equal.
  by rewrite -> !(Z.max_l _ 0), (Z.min_l computed), (Z.min_l n) by lia.
Qed.

Lemma facade_reports_hits_witness :
  ∃ n f', get_num_new_matched_tokens (H := direct_ops ex_cf 0 0 0) ex_req 4 (Facade ex_sched []) = (Ok (n, false), f') ∧
    4 + n ≤ 8 ∧ length (f_metrics f') = 1%nat.
Proof.
  assert (Hcf : conf_ok ex_cf) by (vm_compute; auto).
  destruct (facade_reports_hits (H := direct_ops ex_cf 0 0 0) _ _
    (MatchLaws0 := direct_match_laws ex_cf 0 0 0 Hcf) ex_req 4 (Facade ex_sched []))
    as (n & f' & Hrun & _ & _ & _ & Hle & Hm).
  - by left.
  - reflexivity.
  - simpl. lia.
  - reflexivity.
  - exists n, f'. split; [exact Hrun|]. split; [exact Hle|]. by rewrite -> Hm.
Defined.
